(* ===== verification/_CoqProject ===== *)
-Q . S2P
Prelude.v
Bytes.v
IdAllocator.v
MwBitmap.v
Id16Map.v
PktidMap.v
PktQueue.v
PktChain.v
PktQueueSpec.v
PktQueueRefine.v
PktQueueProps.v
Tcm.v
RingIndex.v
MsgRing.v
MsgFifo.v
MsgSync.v
MsgPoll.v
ProtState.v
PktOut.v
ProtInv.v
ProtSys.v
ProtTx.v
ProtTxInv.v
ProtRx.v
ProtRxInv.v
ProtHistory.v
ProtProps.v
ProtSample.v
FlowQueue.v
FlowTable.v
Dll.v
FlowTx.v
Crc.v
Tlv.v
Xtlv.v
Bloom.v
CStr.v
Chanspec.v
Workq.v
LbTxc.v
CircBuf.v
PktPool.v
PktPoolInv.v
PktPoolProps.v
HndDma.v
HndDmaRing.v
HndDmaTx.v
HndDmaTxProps.v
HndDmaRx.v
HndDmaRxInv.v
HndDmaRxProps.v
HndDmaRxFill.v
HndDmaRxSys.v
HndDmaRxHist.v
ProtCtrl.v
ProtCtrlInv.v
ProtCtrlReq.v
ProtCtrlSys.v
ProtCtrlStep.v
ProtCtrlOps.v
ProtCtrlIoctl.v
ProtCtrlProps.v
ProtCtrlSample.v
TcpAck.v
TcpAckInv.v
TcpAckReplace.v
TcpAckHold.v
TcpAckSample.v
