(* ===== verification/Prelude.v ===== *)
(** * The Broadcom DHD driver: a verification development

    The repository is the Android platform tree of a set-top box; its own core is
    the Broadcom wireless driver under src/bcmdhd/dhd/src (dhd/sys, shared,
    include), in particular the PCIe build, in which host and dongle exchange
    messages through rings in host memory.  This library models that core.  Paths
    below are relative to src/bcmdhd/dhd/src.

    ** How the program is put together

    A packet from the network stack is tagged with a flow id
    (dhd/sys/dhd_flowring.c), waits in the backup queue of its flow
    (flow_queue_t), and is moved by the bus layer (dhd/sys/dhd_pcie.c) to the
    flow's ring.  The message-buffer protocol (dhd/sys/dhd_msgbuf.c) names it by a
    packet id, writes a descriptor into the ring's memory and publishes the write
    index, either in an array in host memory or in the dongle's memory.  The
    dongle completes packet ids in any order through completion rings, which the
    host polls.  Receive buffers go the other way through one submission ring.
    Below these are the allocators and containers of shared/bcmutils.c,
    shared/hnd_pktq.c and include/bcm_ring.h; next to them the codecs
    (information elements, xtlv buffers, channel specifications, CRCs,
    addresses).

    ** Files and the code they model

    - Prelude: C integers, arrays and undefined behaviour, counting.
      Bytes: memories of bytes, little-endian accesses, memcpy.
    - IdAllocator: the contract of an allocator of identifiers (a class), with a
      history theorem proved from the contract alone.  MwBitmap (the bcm_mwbmap functions of
      shared/bcmutils.c) and Id16Map (id16_map) discharge it.
    - PktidMap (dhd_pktid_map and the id audit of dhd/sys/dhd_msgbuf.c): a
      client of the bitmap.  PktOut: the same map as the finite map of
      outstanding packets that the data path sees.
    - PktQueue, PktChain (shared/hnd_pktq.c), PktQueueSpec (an abstract queue of
      lists), PktQueueRefine (one simulation lemma per operation), PktQueueProps.
    - Tcm, RingIndex (dhd/sys/dhd_pcie.c: memory accesses, shared words; ring ids,
      index arrays of dhd/sys/dhd_msgbuf.c).
    - MsgRing (struct msgbuf_ring and its space accounting), MsgFifo (a ring with
      the dongle at the other end, as step relations), MsgSync (waiting for the
      dongle's DMA, dispatch), MsgPoll (the polling loops).
    - ProtState, ProtTx, ProtRx: the state of struct dhd_prot and the data path of
      dhd/sys/dhd_msgbuf.c; ProtInv, ProtSys, ProtTxInv, ProtRxInv: its invariant
      and why every operation keeps it; ProtHistory, ProtProps, ProtSample:
      histories of operations interleaved with the dongle, what a call does after
      each, and a run of all of them.
    - ProtCtrl: the control path of dhd/sys/dhd_msgbuf.c (event and ioctl-response
      buffers, dhd_prot_ioctl with its request, acknowledgement, completion and
      wait, events, flow-ring requests and responses); ProtCtrlInv, ProtCtrlReq:
      its messages on the control ring, the ioctl requests among them.
      ProtCtrlSys: both paths and the dongle as one system, an ioctl's sender
      asleep between its request and its wake-up, and the invariant;
      ProtCtrlStep, ProtCtrlOps, ProtCtrlIoctl: every step keeps it;
      ProtCtrlProps, ProtCtrlSample: what holds after every history, and a
      sample.
    - FlowQueue, FlowTable (dhd/sys/dhd_flowring.c), Dll (dll_t of
      include/bcmutils.h and dll_pool), FlowTx (the transmit path of
      dhd/sys/dhd_pcie.c over the class TxProt, the protocol below).
    - Crc, Tlv, CStr (shared/bcmutils.c), Xtlv (shared/bcmxtlv.c), Bloom
      (shared/bcmbloom.c), Chanspec (shared/bcmwifi/src/bcmwifi_channels.c).
    - Workq (include/bcm_ring.h), LbTxc (the DHD_LB_TXC build of the transmit
      completion, over Workq).  CircBuf (shared/circularbuf.c) with a producer
      and a consumer that have caches of their own.
    - PktPool (shared/hnd_pktpool.c) over PktChain's links; PktPoolInv: callbacks
      as scripts of pool calls, nested to any depth, and the invariant every
      function keeps; PktPoolProps: histories from pktpool_init to
      pktpool_deinit.
    - HndDma, HndDmaRx (shared/hnddma.c: the transmit and the receive ring of
      the 64-bit DMA engine); HndDmaRing: what the engine reads in a descriptor,
      indices, and the ring as a window of all descriptors written; HndDmaTx:
      every transmit operation; HndDmaTxProps: histories in which the engine
      reads on its own; HndDmaRxInv, HndDmaRxProps, HndDmaRxFill: taking buffers
      back, receiving and posting; HndDmaRxSys, HndDmaRxHist: histories in which
      the engine writes frames on its own.
    - TcpAck (dhd/sys/dhd_ip.c: TCP ACK suppression on the way from the network
      stack to the backup queues, fragments); TcpAckInv: what is read of an ACK
      and what the table searches find, and fragments; TcpAckReplace,
      TcpAckHold: histories of the modes TCPACK_SUP_REPLACE and TCPACK_SUP_HOLD;
      TcpAckSample: concrete packets.

    A C struct is a Record with the field names of the code, a C function the
    Definition of that name.  A pointer is an offset into the memory it points
    into, or the key of a heap (packets, dll nodes).  The outer option of a result
    is undefined behaviour: an access outside an array or through NULL, or a
    division by zero.  A theorem that a call gives Some is therefore a statement
    about memory safety.  Errors the code returns are values of the result.

    ** What the theorems show

    - The protocol (ProtCtrlProps, from any history of data and control
      operations with an adversarial dongle that only completes ids it has taken,
      each once, and answers requests it took, in order): the packet-id map holds
      exactly the packets that are out, each on one ring position, the audit
      agrees and no packet is lost or freed twice; descriptors are never
      overwritten before the dongle read them and announced descriptors are
      flushed first; the counts of posted buffers are right.  An ioctl returns the
      answer of its own request; an event is delivered as it was reported; a
      late completion leaks its buffer and a request that is never acknowledged
      blocks the later ones.
    - The data path's operations (ProtProps): posting, completing and delivering
      do what their branches say.
    - Rings (MsgFifo, RingIndex, MsgSync, MsgPoll): FIFO order in both
      directions, index exchange through either memory, in-order dispatch, and
      the number of items a poll handles.
    - Flow rings (FlowTable, FlowTx, FlowQueue): the table keeps one id per key,
      packets of a flow stay in order through the queue and the ring, and a queue
      drains when the ring has room.
    - Containers: the packet queue and the doubly linked lists refine lists; the
      allocators never hand out an id twice; the circular buffer is FIFO
      under every interleaving of its two sides, and so is the work queue as long
      as its write index is not handed over between taking a slot and storing the
      element (it stays in bounds and overwrites nothing even then);
      load-balanced completion frees what the plain build frees; a packet pool
      neither loses a packet nor hands one out twice, whatever its callbacks do.
    - DMA (HndDmaTxProps): the engine reads the accepted packets' buffers in
      order, and packets come back in order, once read; the lemmas at the end
      show what goes wrong with empty packets and mixed reclaim ranges.
      (HndDmaRxHist): the frames come out in the order written, whole, and every
      buffer is in the ring, handed out or freed.
    - TCP ACKs (TcpAckReplace, TcpAckHold): an ACK is only dropped for a later
      one of its stream that is still queued, held or was sent, and the tables
      never reach a packet that is gone; a full hold table and switching off
      while ACKs are held lose packets.
    - Codecs: parsers stay inside their buffers for every input, printers and
      parsers are inverse, the table CRCs are the bit-serial ones and detect
      bursts.

    ** Bounds and fuel

    Loops over a count or an array are structural.  The others take fuel, and a
    theorem or lemma shows that the fuel given by the definition suffices: loops over a
    linked list run one step more than there are nodes; a TLV loop as often as
    there are bytes; the polling loops as often as the ring has items per round
    (MsgPoll); a retry loop has the retry count of the code
    (PCIE_D2H_SYNC_NUM_OF_STEPS and the like).  Integers have their width:
    [wrapu w] and [wraps w] stand where C converts; ring indices, packet counts
    and identifiers are bounded by invariants, not by assumption.

    ** Build configuration

    BCMDRIVER, PCIe; 64-bit unsigned long, little-endian host; ASSERT a no-op
    (where it matters it is a hypothesis); BCM_SECURE_DMA, BCM_MWBMAP_DEBUG,
    BCM_DBG_ID16, HND_PKTQ_THREAD_SAFE, BCM_RING_DEBUG not defined;
    DHD_PKTID_AUDIT_RING defined.  Locks are no-ops and an operation is one step, but
    for Workq, where two CPUs interleave step by step under sequential
    consistency, and for the dongle, which acts between any two host operations
    (and, for volatile message memory, between two reads).  Kernel services
    (allocation, DMA mapping, packets, timers) are parameters, and so are the
    offsets and comparisons of proto/bcmtcp.h, which the repository does not have
    (the class TcpHdr).  DHDTCPACK_SUPPRESS defined.

    ** Not modelled

    Hardware and kernel glue (probe, interrupts, power, firmware download, the
    network device, cfg80211), user-space tools, vendored code (zlib, gator,
    bcmcrypto) and the USB/SDIO buses with their flow control (WLFC).  Of
    dhd/sys/dhd_msgbuf.c: attaching, resetting and detaching (the state that
    dhd_prot_init leaves is stated), the DMA loopback test, soft doorbells,
    dumps, DHD_LB_RXC.  Of shared/hnddma.c: split
    reception (the glommed one is in the definitions, without a theorem), the
    32-bit engine, registers other than the pointers, rotation.  The PSH
    bookkeeping of dhd/sys/dhd_ip.c is modelled but has no theorem:
    dhd_tcpack_suppress_set refuses its mode.  The scheduler is the history: the
    sleep of an ioctl's sender (dhd_os_ioctl_resp_wait) ends at a step of its
    own, with time left exactly when the completion was accepted. *)

(** ** Shared prelude: C integers, arrays, undefined behaviour, counting *)
From stdpp Require Import base list list_numbers option numbers.
From Stdlib Require Import ZArith Lia.

Declare Scope dhd_scope.
Delimit Scope dhd_scope with dhd.
Open Scope Z_scope.

(** ** Machine integers

    A w-bit C object is a [Z]; the conversions below are the ones the C
    compiler inserts at assignments and casts. *)
Definition wrapu (w x : Z) : Z := x mod 2 ^ w.
Definition wraps (w x : Z) : Z := (x + 2 ^ (w - 1)) mod 2 ^ w - 2 ^ (w - 1).
Abbreviation u8 := (wrapu 8).
Abbreviation u16 := (wrapu 16).
Abbreviation u32 := (wrapu 32).
Abbreviation s8 := (wraps 8).
Abbreviation s32 := (wraps 32).

(** ** Error codes (include/bcmutils.h) *)
Definition BCME_OK : Z := 0.
Definition BCME_ERROR : Z := -1.
Definition BCME_BADARG : Z := -2.
Definition BCME_BADOPTION : Z := -3.
Definition BCME_BUFTOOSHORT : Z := -14.
Definition BCME_NORESOURCE : Z := -22.
Definition BCME_UNSUPPORTED : Z := -23.
Definition BCME_BADLEN : Z := -24.
Definition BCME_NOMEM : Z := -27.
Definition BCME_NOTFOUND : Z := -30.

(** ** Arrays

    An access outside the array is undefined behaviour: the operation
    has no result ([None]).  A theorem that an operation returns [Some _]
    is therefore also a memory-safety theorem. *)
Section arrays.
Context {A : Type}.
Implicit Types (l : list A) (i : Z).

Definition aget l i : option A :=
  if 0 <=? i then l !! Z.to_nat i else None.

Definition aset l i (x : A) : option (list A) :=
  if (0 <=? i) && (i <? Z.of_nat (length l))
  then Some (<[Z.to_nat i := x]> l) else None.

Lemma aget_lt l i x : aget l i = Some x -> 0 <= i < Z.of_nat (length l).
Proof.
  unfold aget. destruct (Z.leb_spec 0 i); [|done].
  intros ?%lookup_lt_Some. lia.
Qed.

Lemma aget_is_Some l i : 0 <= i < Z.of_nat (length l) -> is_Some (aget l i).
Proof.
  intros Hi. unfold aget. destruct (Z.leb_spec 0 i); [|lia].
  apply lookup_lt_is_Some. lia.
Qed.

Lemma aset_Some l i x :
  0 <= i < Z.of_nat (length l) -> aset l i x = Some (<[Z.to_nat i := x]> l).
Proof.
  intros. unfold aset.
  destruct (Z.leb_spec 0 i), (Z.ltb_spec i (Z.of_nat (length l))); naive_solver lia.
Qed.

Lemma aset_length l i x l' : aset l i x = Some l' -> length l' = length l.
Proof.
  unfold aset. destruct (_ && _); [|done]. intros [= <-]. apply length_insert.
Qed.

Lemma aset_inv l i x l' :
  aset l i x = Some l' -> 0 <= i < Z.of_nat (length l) /\ l' = <[Z.to_nat i := x]> l.
Proof.
  unfold aset.
  destruct (Z.leb_spec 0 i), (Z.ltb_spec i (Z.of_nat (length l))); simpl; naive_solver lia.
Qed.

Lemma aget_insert l i j x :
  0 <= i < Z.of_nat (length l) ->
  aget (<[Z.to_nat i := x]> l) j = if decide (i = j) then Some x else aget l j.
Proof.
  intros Hi. unfold aget. case_decide.
  - subst j. destruct (Z.leb_spec 0 i); [|lia].
    apply list_lookup_insert_eq. lia.
  - destruct (Z.leb_spec 0 j); [|done].
    apply list_lookup_insert_ne. lia.
Qed.

Lemma aget_insert_nat l (n : nat) x :
  (n < length l)%nat -> aget (<[n := x]> l) (Z.of_nat n) = Some x.
Proof.
  intros Hn. rewrite <- (Nat2Z.id n) at 1. rewrite aget_insert by lia. by case_decide.
Qed.

Lemma aset_nat l (n : nat) x :
  (n < length l)%nat -> aset l (Z.of_nat n) x = Some (<[n := x]> l).
Proof. intros Hn. rewrite aset_Some by lia. by rewrite Nat2Z.id. Qed.

Lemma aget_out l i : Z.of_nat (length l) <= i -> aget l i = None.
Proof.
  intros. unfold aget. destruct (Z.leb_spec 0 i); [|done].
  apply lookup_ge_None. lia.
Qed.

Lemma aget_take l i x :
  aget l i = Some x -> take (Z.to_nat (i + 1)) l = take (Z.to_nat i) l ++ [x].
Proof.
  intros Hi. pose proof (aget_lt _ _ _ Hi). unfold aget in Hi.
  destruct (Z.leb_spec 0 i); [|done].
  replace (Z.to_nat (i + 1)) with (S (Z.to_nat i)) by lia. by apply take_S_r.
Qed.

Lemma aget_replicate n (x : A) i :
  0 <= i < Z.of_nat n -> aget (replicate n x) i = Some x.
Proof.
  intros. unfold aget. destruct (Z.leb_spec 0 i); [|lia].
  apply lookup_replicate_2. lia.
Qed.

Lemma aget_ext l l' :
  length l = length l' ->
  (forall i, 0 <= i < Z.of_nat (length l) -> aget l i = aget l' i) -> l = l'.
Proof.
  intros Hlen Hget. apply list_eq. intros n.
  destruct (decide (n < length l)%nat) as [Hn|Hn].
  - specialize (Hget (Z.of_nat n)). unfold aget in Hget.
    destruct (Z.leb_spec 0 (Z.of_nat n)); [|lia].
    rewrite Nat2Z.id in Hget. apply Hget. lia.
  - rewrite !lookup_ge_None_2 by lia. done.
Qed.
End arrays.

Global Arguments aget : simpl never.
Global Arguments aset : simpl never.

(** ** Bits *)
Lemma wrapu_range w x : 0 <= w -> 0 <= wrapu w x < 2 ^ w.
Proof. intros. apply Z.mod_pos_bound. apply Z.pow_pos_nonneg; lia. Qed.

Lemma wrapu_small w x : 0 <= x < 2 ^ w -> wrapu w x = x.
Proof. apply Z.mod_small. Qed.

Lemma wraps_small w x : 0 < w -> - 2 ^ (w - 1) <= x < 2 ^ (w - 1) -> wraps w x = x.
Proof.
  intros Hw Hx. unfold wraps.
  assert (2 ^ w = 2 * 2 ^ (w - 1)) as E.
  { rewrite <- Z.pow_succ_r by lia. f_equal. lia. }
  rewrite Z.mod_small; lia.
Qed.

Lemma testbit_wrapu w x j :
  0 <= w -> Z.testbit (wrapu w x) j = (j <? w) && Z.testbit x j.
Proof.
  intros. unfold wrapu. destruct (Z.ltb_spec j w); simpl.
  - by rewrite Z.mod_pow2_bits_low.
  - by rewrite Z.mod_pow2_bits_high by lia.
Qed.

Lemma wraps_wrapu w x : 0 < w -> wrapu w (wraps w x) = wrapu w x.
Proof.
  intros. unfold wrapu, wraps.
  rewrite Zminus_mod_idemp_l. f_equal. lia.
Qed.

Lemma testbit_wraps w x j :
  0 < w -> 0 <= j < w -> Z.testbit (wraps w x) j = Z.testbit x j.
Proof.
  intros Hw Hj.
  transitivity (Z.testbit (wrapu w (wraps w x)) j).
  - rewrite testbit_wrapu by lia. by rewrite (proj2 (Z.ltb_lt j w)) by lia.
  - rewrite wraps_wrapu, testbit_wrapu by lia.
    by rewrite (proj2 (Z.ltb_lt j w)) by lia.
Qed.

Lemma testbit_high w x j : 0 <= x < 2 ^ w -> w <= j -> Z.testbit x j = false.
Proof.
  intros Hx Hj.
  destruct (decide (0 <= w)) as [Hw|Hw].
  - rewrite <- (Z.mod_small x (2 ^ w)) by done. by apply Z.mod_pow2_bits_high.
  - rewrite Z.pow_neg_r in Hx by lia. lia.
Qed.

Lemma word_nonzero_bit w x :
  0 <= w -> 0 <= x < 2 ^ w ->
  x <> 0 <-> exists j, 0 <= j < w /\ Z.testbit x j = true.
Proof.
  intros Hw Hx. split.
  - intros Hne. exists (Z.log2 x). split.
    + split; [apply Z.log2_nonneg|]. apply Z.log2_lt_pow2; lia.
    + apply Z.bit_log2. lia.
  - intros (j & _ & Hj) ->. by rewrite Z.bits_0 in Hj.
Qed.

Lemma bits_range w x :
  0 <= w -> 0 <= x -> (forall j, w <= j -> Z.testbit x j = false) -> 0 <= x < 2 ^ w.
Proof.
  intros Hw Hx Hb. split; [done|].
  assert (x = x mod 2 ^ w) as ->.
  { apply Z.bits_inj'. intros j Hj.
    destruct (decide (j < w)).
    - by rewrite Z.mod_pow2_bits_low.
    - rewrite Hb, Z.mod_pow2_bits_high by lia. done. }
  apply Z.mod_pos_bound, Z.pow_pos_nonneg; lia.
Qed.

(** ** Counting the indices below a bound that satisfy a test *)
Fixpoint cnt (P : Z -> bool) (n : nat) : Z :=
  match n with
  | O => 0
  | S n => cnt P n + (if P (Z.of_nat n) then 1 else 0)
  end.

Lemma cnt_ext P Q n :
  (forall i, 0 <= i < Z.of_nat n -> P i = Q i) -> cnt P n = cnt Q n.
Proof.
  induction n as [|n IH]; intros H; cbn [cnt]; [done|].
  rewrite IH by (intros; apply H; lia). rewrite H by lia. done.
Qed.

Lemma cnt_bounds P n : 0 <= cnt P n <= Z.of_nat n.
Proof. induction n; cbn [cnt]; [lia|]. destruct (P _); lia. Qed.

(** One index flips: the count moves by one. *)
Lemma cnt_flip P Q n k :
  0 <= k < Z.of_nat n -> P k = true -> Q k = false ->
  (forall i, 0 <= i < Z.of_nat n -> i <> k -> P i = Q i) ->
  cnt P n = cnt Q n + 1.
Proof.
  induction n as [|n IH]; intros Hk HP HQ Hne; [lia|]. cbn [cnt].
  destruct (decide (k = Z.of_nat n)) as [->|].
  - rewrite HP, HQ, (cnt_ext P Q n); [lia|]. intros; apply Hne; lia.
  - rewrite IH by (auto with lia). rewrite (Hne (Z.of_nat n)) by lia. lia.
Qed.

Lemma cnt_zero P n : cnt P n = 0 <-> forall i, 0 <= i < Z.of_nat n -> P i = false.
Proof.
  induction n as [|n IH]; cbn [cnt]; [naive_solver lia|].
  pose proof (cnt_bounds P n). split.
  - intros H0 i Hi. destruct (P (Z.of_nat n)) eqn:E; [lia|].
    destruct (decide (i = Z.of_nat n)) as [->|]; [done|].
    apply IH; lia.
  - intros Ha. rewrite Ha by lia. rewrite (proj2 IH); [lia|]. intros; apply Ha; lia.
Qed.

Lemma cnt_full P n : (forall i, 0 <= i < Z.of_nat n -> P i = true) -> cnt P n = Z.of_nat n.
Proof.
  induction n as [|n IH]; intros H; cbn [cnt]; [done|].
  rewrite IH by (intros; apply H; lia). rewrite H by lia. lia.
Qed.

Lemma cnt_app P n m :
  cnt P (n + m) = cnt P n + cnt (fun i => P (Z.of_nat n + i)) m.
Proof.
  induction m as [|m IH]; [rewrite Nat.add_0_r; cbn; lia|].
  replace (n + S m)%nat with (S (n + m))%nat by lia. cbn [cnt].
  rewrite IH, Nat2Z.inj_add. lia.
Qed.

(** ** Tactics *)

(** Case analysis on the boolean integer comparisons of the goal. *)
Ltac zcmp :=
  repeat match goal with
  | |- context [Z.eqb ?x ?y] => destruct (Z.eqb_spec x y)
  | |- context [Z.leb ?x ?y] => destruct (Z.leb_spec x y)
  | |- context [Z.ltb ?x ?y] => destruct (Z.ltb_spec x y)
  end.

(** Evaluate the powers of two with a closed exponent, then [lia]. *)
Ltac zpow_eval e k :=
  let v := eval vm_compute in (2 ^ e) in
  lazymatch v with Zpos _ => k v end.
Ltac zpow :=
  repeat match goal with
  | |- context [2 ^ ?e] => zpow_eval e ltac:(fun v => change (2 ^ e) with v)
  | H : context [2 ^ ?e] |- _ => zpow_eval e ltac:(fun v => change (2 ^ e) with v in H)
  end.
Ltac zlia := zpow; lia.

Create HintDb dhd.
#[export] Hint Resolve wrapu_range cnt_bounds : dhd.
Create Rewrite HintDb dhd_arr.
#[export] Hint Rewrite @aget_insert @length_insert @length_replicate : dhd_arr.

(** ** Least index satisfying a test *)
Lemma least_true (P : Z -> bool) (n : nat) :
  P (Z.of_nat n) = true ->
  exists b, 0 <= b <= Z.of_nat n /\ P b = true /\ forall j, 0 <= j < b -> P j = false.
Proof.
  induction n as [n IH] using lt_wf_ind. intros HP.
  destruct (decide (cnt P n = 0)) as [H0|H0].
  - exists (Z.of_nat n). rewrite cnt_zero in H0. naive_solver lia.
  - destruct (decide (Exists (fun i => P (Z.of_nat i) = true) (seq 0 n))) as [Hex|Hex].
    + apply list.Exists_exists in Hex as (i & Hi%elem_of_seq & HPi).
      destruct (IH i) as (b & ? & ?); [lia|done|]. exists b. split; [lia|done].
    + exfalso. apply H0, cnt_zero. intros i Hi. apply not_true_iff_false. intros HPi.
      apply Hex, list.Exists_exists. exists (Z.to_nat i).
      rewrite elem_of_seq, Z2Nat.id by lia. split; [lia|done].
Qed.

(** The bits of an integer and of its opposite: they agree at the lowest
    set bit and are complementary above it. *)
Lemma testbit_opp w b j :
  0 <= b -> Z.testbit w b = true -> (forall i, 0 <= i < b -> Z.testbit w i = false) ->
  0 <= j ->
  Z.testbit (- w) j = (j =? b) || ((b <? j) && negb (Z.testbit w j)).
Proof.
  intros Hb Hw Hlow Hj.
  set (q := Z.shiftr w b).
  assert (w = Z.shiftl q b) as Ew.
  { apply Z.bits_inj'. intros i Hi. rewrite Z.shiftl_spec by done.
    destruct (decide (i < b)).
    - rewrite Hlow, Z.testbit_neg_r by lia. done.
    - unfold q. rewrite Z.shiftr_spec by lia. f_equal. lia. }
  assert (Z.testbit q 0 = true) as Hq.
  { unfold q. rewrite Z.shiftr_spec by lia. by rewrite Z.add_0_l. }
  assert (exists r, q = 2 * r + 1) as [r Er].
  { rewrite Z.bit0_odd in Hq. by apply Z.odd_spec. }
  assert (- w = Z.shiftl (Z.lnot (2 * r)) b) as ->.
  { rewrite Ew, Er, !Z.shiftl_mul_pow2 by done. unfold Z.lnot. lia. }
  rewrite Z.shiftl_spec by done.
  destruct (Z.eqb_spec j b) as [->|]; [rewrite Z.sub_diag|].
  { rewrite Z.lnot_spec by lia. by rewrite Z.testbit_even_0. }
  destruct (Z.ltb_spec b j); cbn [orb andb].
  - rewrite Z.lnot_spec, Ew, Z.shiftl_spec, Er by lia.
    replace (j - b) with (Z.succ (j - b - 1)) by lia.
    rewrite Z.testbit_even_succ, Z.testbit_odd_succ by lia. done.
  - apply Z.testbit_neg_r. lia.
Qed.
