(* ===== verification/Bytes.v ===== *)
(** * Byte arrays

    Memory that the code reads and writes by bytes is a list of bytes, a
    pointer into it an offset; an access outside has no result.  Little-endian
    integers of [n] bytes are read and written with [ld] and [st], blocks with
    [ld_bytes] and [st_bytes] (memcpy). *)
From Stdlib Require Import ZArith Lia.
From stdpp Require Import base option numbers list.
From S2P Require Import Prelude.

(** ** Little-endian accesses to a byte array *)
Fixpoint le_bytes (n : nat) (v : Z) : list Z :=
  match n with
  | O => []
  | S n => v mod 256 :: le_bytes n (v / 256)
  end.

Fixpoint le_val (bs : list Z) : Z :=
  match bs with
  | [] => 0
  | b :: bs => b + 256 * le_val bs
  end.

Fixpoint st_bytes (mem : list Z) (off : Z) (bs : list Z) : option (list Z) :=
  match bs with
  | [] => Some mem
  | b :: bs => mem ← aset mem off b; st_bytes mem (off + 1) bs
  end.

Fixpoint ld_bytes (mem : list Z) (off : Z) (n : nat) : option (list Z) :=
  match n with
  | O => Some []
  | S n => b ← aget mem off; bs ← ld_bytes mem (off + 1) n; Some (b :: bs)
  end.

Definition st (n : nat) (mem : list Z) (off v : Z) : option (list Z) :=
  st_bytes mem off (le_bytes n v).
Definition ld (n : nat) (mem : list Z) (off : Z) : option Z :=
  le_val <$> ld_bytes mem off n.
Global Arguments st : simpl never.
Global Arguments ld : simpl never.

Definition is_byte (b : Z) : Prop := 0 <= b < 256.
Abbreviation bytes := (Forall is_byte).

Lemma length_le_bytes n v : length (le_bytes n v) = n.
Proof. revert v. induction n; intros; cbn; auto. Qed.

Lemma le_bytes_bytes n v : bytes (le_bytes n v).
Proof.
  revert v. induction n; intros; cbn; constructor; auto.
  apply Z.mod_pos_bound. lia.
Qed.

Lemma le_val_bytes n v : 0 <= v < 256 ^ Z.of_nat n -> le_val (le_bytes n v) = v.
Proof.
  revert v. induction n as [|n IH]; intros v Hv; cbn [le_val le_bytes].
  - rewrite Z.pow_0_r in Hv. lia.
  - rewrite Nat2Z.inj_succ, Z.pow_succ_r in Hv by lia. rewrite IH.
    + pose proof (Z.div_mod v 256). lia.
    + pose proof (Z.div_mod v 256). pose proof (Z.mod_pos_bound v 256). lia.
Qed.

Lemma le_bytes_val bs : bytes bs -> le_bytes (length bs) (le_val bs) = bs.
Proof.
  induction 1 as [|b bs Hb _ IH]; cbn [length le_bytes le_val]; [done|].
  unfold is_byte in Hb.
  rewrite (Z.mul_comm 256), Z_mod_plus_full, Z.mod_small by lia.
  rewrite Z_div_plus_full, Z.div_small by lia. by rewrite Z.add_0_l, IH.
Qed.

Lemma le_val_range bs : bytes bs -> 0 <= le_val bs < 256 ^ Z.of_nat (length bs).
Proof.
  induction 1 as [|b bs Hb _ IH]; cbn [length le_val]; [by cbn|].
  unfold is_byte in Hb. rewrite Nat2Z.inj_succ, Z.pow_succ_r by lia. lia.
Qed.

Lemma aget_byte m i b : bytes m -> aget m i = Some b -> is_byte b.
Proof.
  intros Hm. unfold aget. destruct (0 <=? i); [|done].
  apply (Forall_lookup_1 _ _ _ _ Hm).
Qed.

(** ** Stores: defined within bounds, and what each byte holds afterwards *)
Lemma st_bytes_Some m off bs :
  0 <= off -> off + Z.of_nat (length bs) <= Z.of_nat (length m) ->
  exists m', st_bytes m off bs = Some m' /\ length m' = length m /\
    forall j, aget m' j = if decide (off <= j < off + Z.of_nat (length bs))
                          then aget bs (j - off) else aget m j.
Proof.
  revert m off. induction bs as [|b bs IH]; intros m off Ho Hl; cbn [st_bytes length] in *.
  - exists m. split_and!; [done..|]. intros j. destruct (decide _); [lia|done].
  - rewrite aset_Some by lia. cbn [mbind option_bind].
    destruct (IH (<[Z.to_nat off := b]> m) (off + 1)) as (m' & -> & Hlen & Hget);
      [lia|rewrite length_insert; lia|].
    exists m'. rewrite length_insert in Hlen. split_and!; [done..|].
    intros j. rewrite Hget, aget_insert by lia.
    destruct (decide (off + 1 <= j < _)), (decide (off <= j < _)), (decide (off = j)); try lia.
    + unfold aget. destruct (Z.leb_spec 0 (j - (off + 1))), (Z.leb_spec 0 (j - off)); try lia.
      replace (Z.to_nat (j - off)) with (S (Z.to_nat (j - (off + 1)))) by lia. done.
    + subst. by rewrite Z.sub_diag.
    + done.
Qed.

Lemma ld_bytes_Some m off n :
  0 <= off -> off + Z.of_nat n <= Z.of_nat (length m) ->
  exists bs, ld_bytes m off n = Some bs /\ length bs = n /\
    forall j, 0 <= j < Z.of_nat n -> aget bs j = aget m (off + j).
Proof.
  revert off. induction n as [|n IH]; intros off Ho Hl; cbn [ld_bytes].
  - exists []. split_and!; [done..|]. intros; lia.
  - destruct (aget_is_Some m off) as [b Hb]; [lia|].
    destruct (IH (off + 1)) as (bs & Hbs & Hlen & Hget); [lia..|].
    exists (b :: bs). rewrite Hb. cbn. rewrite Hbs. cbn. split_and!; [done|by rewrite Hlen|].
    intros j Hj. destruct (decide (j = 0)) as [->|].
    + by rewrite Z.add_0_r, Hb.
    + transitivity (aget bs (j - 1)).
      * unfold aget. destruct (Z.leb_spec 0 j), (Z.leb_spec 0 (j - 1)); try lia.
        replace (Z.to_nat j) with (S (Z.to_nat (j - 1))) by lia. done.
      * rewrite Hget by lia. f_equal. lia.
Qed.

Lemma ld_bytes_ext m m' off off' n :
  (forall j, 0 <= j < Z.of_nat n -> aget m (off + j) = aget m' (off' + j)) ->
  ld_bytes m off n = ld_bytes m' off' n.
Proof.
  revert off off'. induction n as [|n IH]; intros off off' He; cbn [ld_bytes]; [done|].
  pose proof (He 0 ltac:(lia)) as E0. rewrite !Z.add_0_r in E0. rewrite E0.
  rewrite (IH (off + 1) (off' + 1)); [done|].
  intros j Hj. replace (off + 1 + j) with (off + (1 + j)) by lia.
  replace (off' + 1 + j) with (off' + (1 + j)) by lia. apply He. lia.
Qed.

Lemma ld_bytes_self bs : ld_bytes bs 0 (length bs) = Some bs.
Proof.
  destruct (ld_bytes_Some bs 0 (length bs)) as (bs' & -> & Hl & Hg); [lia..|].
  f_equal. apply aget_ext; [done|]. intros i Hi. apply Hg. lia.
Qed.

Lemma bytes_ext m : bytes m <-> forall i b, aget m i = Some b -> is_byte b.
Proof.
  split; [intros; eapply aget_byte; eauto|].
  intros H. apply Forall_lookup. intros i b Hi. apply (H (Z.of_nat i)).
  unfold aget. destruct (Z.leb_spec 0 (Z.of_nat i)); [|lia]. by rewrite Nat2Z.id.
Qed.

(** An [n]-byte store within bounds: it succeeds, [ld] at the same place
    gives the value back, [ld] at a disjoint place is unchanged. *)
Lemma st_Some n m off v :
  0 <= off -> off + Z.of_nat n <= Z.of_nat (length m) ->
  exists m', st n m off v = Some m' /\ length m' = length m /\ (bytes m -> bytes m') /\
    (0 <= v < 256 ^ Z.of_nat n -> ld n m' off = Some v) /\
    (forall k off', off + Z.of_nat n <= off' \/ off' + Z.of_nat k <= off ->
       ld k m' off' = ld k m off') /\
    (forall j, aget m' j = if decide (off <= j < off + Z.of_nat n)
                           then aget (le_bytes n v) (j - off) else aget m j).
Proof.
  intros Ho Hl. destruct (st_bytes_Some m off (le_bytes n v)) as (m' & E & Hlen & Hget);
    [done|by rewrite length_le_bytes|].
  rewrite length_le_bytes in Hget.
  exists m'. split_and!; [done..| | | |done].
  - rewrite !bytes_ext. intros Hm i b Hb. rewrite Hget in Hb. destruct (decide _).
    + eapply aget_byte; [apply le_bytes_bytes|exact Hb].
    + eauto.
  - intros Hv. unfold ld.
    rewrite (ld_bytes_ext m' (le_bytes n v) off 0).
    + rewrite <- (length_le_bytes n v) at 2. rewrite ld_bytes_self. cbn.
      by rewrite le_val_bytes.
    + intros j Hj. rewrite Hget. destruct (decide _); [f_equal; lia|lia].
  - intros k off' Hd. unfold ld. f_equal. apply ld_bytes_ext. intros j Hj.
    rewrite Hget. destruct (decide _); [lia|done].
Qed.

Lemma ld_Some n m off :
  bytes m -> 0 <= off -> off + Z.of_nat n <= Z.of_nat (length m) ->
  exists v, ld n m off = Some v /\ 0 <= v < 256 ^ Z.of_nat n /\
    forall j, 0 <= j < Z.of_nat n -> aget (le_bytes n v) j = aget m (off + j).
Proof.
  intros Hm Ho Hl. destruct (ld_bytes_Some m off n) as (bs & E & Hlen & Hget); [done..|].
  assert (bytes bs) as Hb.
  { apply bytes_ext. intros i b Hi. pose proof (aget_lt _ _ _ Hi).
    rewrite Hget in Hi by lia. eapply aget_byte; eauto. }
  exists (le_val bs). unfold ld. rewrite E. cbn. rewrite <- Hlen. split_and!; [done|by apply le_val_range..|].
  intros j Hj. rewrite le_bytes_val by done. apply Hget. lia.
Qed.

(** The final contents of a block copy, as a list. *)
Definition splice {A} (d : list A) (q : Z) (bs : list A) : list A :=
  take (Z.to_nat q) d ++ bs ++ drop (Z.to_nat q + length bs) d.

Lemma length_splice {A} (d bs : list A) q :
  0 <= q -> q + Z.of_nat (length bs) <= Z.of_nat (length d) -> length (splice d q bs) = length d.
Proof. intros. unfold splice. rewrite !length_app, length_take, length_drop. lia. Qed.

Lemma aget_splice {A} (d bs : list A) q j :
  0 <= q -> q + Z.of_nat (length bs) <= Z.of_nat (length d) ->
  aget (splice d q bs) j =
  if decide (q <= j < q + Z.of_nat (length bs)) then aget bs (j - q) else aget d j.
Proof.
  intros Hq Hl. unfold splice, aget.
  destruct (Z.leb_spec 0 j); [|by destruct (decide _); [lia|]].
  destruct (decide (q <= j < _)).
  - destruct (Z.leb_spec 0 (j - q)); [|lia].
    rewrite lookup_app_r, length_take by (rewrite length_take; lia).
    rewrite lookup_app_l by lia. f_equal. lia.
  - destruct (decide (j < q)).
    + rewrite lookup_app_l by (rewrite length_take; lia). by rewrite lookup_take_lt by lia.
    + rewrite lookup_app_r, lookup_app_r, lookup_drop by (rewrite ?length_take; lia).
      f_equal. rewrite length_take. lia.
Qed.

(** A block store is a splice. *)
Lemma st_bytes_splice m off bs :
  0 <= off -> off + Z.of_nat (length bs) <= Z.of_nat (length m) -> st_bytes m off bs = Some (splice m off bs).
Proof.
  intros Ho Hl. destruct (st_bytes_Some m off bs) as (m' & -> & Hlen & Hget); [done..|]. f_equal.
  apply aget_ext; [by rewrite length_splice|]. intros i _. by rewrite Hget, aget_splice.
Qed.

(** A store in the middle, a load in the middle. *)
Lemma st_bytes_mid pre old bs post :
  length old = length bs -> st_bytes (pre ++ old ++ post) (Z.of_nat (length pre)) bs = Some (pre ++ bs ++ post).
Proof.
  intros Hl. rewrite st_bytes_splice by (rewrite ?length_app; lia). f_equal. unfold splice.
  rewrite Nat2Z.id, take_app_length, <- Hl. rewrite (app_assoc pre old post), <- length_app, drop_app_length. done.
Qed.
Lemma ld_bytes_mid pre bs post : ld_bytes (pre ++ bs ++ post) (Z.of_nat (length pre)) (length bs) = Some bs.
Proof.
  destruct (ld_bytes_Some (pre ++ bs ++ post) (Z.of_nat (length pre)) (length bs)) as (bs' & -> & Hl & Hg);
    [lia|rewrite !length_app; lia|]. f_equal. apply aget_ext; [done|]. intros i Hi. rewrite Hg by lia.
  unfold aget. destruct (Z.leb_spec 0 (Z.of_nat (length pre) + i)), (Z.leb_spec 0 i); try lia.
  rewrite lookup_app_r, lookup_app_l by lia. f_equal. lia.
Qed.
Lemma ld_mid n pre v post :
  0 <= v < 256 ^ Z.of_nat n -> ld n (pre ++ le_bytes n v ++ post) (Z.of_nat (length pre)) = Some v.
Proof.
  intros Hv. unfold ld. rewrite <- (length_le_bytes n v) at 2. rewrite ld_bytes_mid. cbn. by rewrite le_val_bytes.
Qed.

(** Reading outside. *)
Lemma ld_bytes_inv m off n bs :
  ld_bytes m off n = Some bs -> (n = 0%nat \/ (0 <= off /\ off + Z.of_nat n <= Z.of_nat (length m))) /\ length bs = n.
Proof.
  revert off bs. induction n as [|n IH]; intros off bs; cbn [ld_bytes]; [intros [= <-]; auto|].
  destruct (aget m off) as [b|] eqn:Hb; [|done]. cbn [mbind option_bind].
  destruct (ld_bytes m (off + 1) n) as [bs'|] eqn:E; [|done]. cbn [mbind option_bind]. intros [= <-].
  pose proof (aget_lt _ _ _ Hb). apply IH in E as [E <-]. split; [right; lia|done].
Qed.

(** What was stored at the start is read back. *)
Lemma st_bytes_ld m bs m' :
  st_bytes m 0 bs = Some m' -> Z.of_nat (length bs) <= Z.of_nat (length m) ->
  ld_bytes m' 0 (length bs) = Some bs /\ length m' = length m.
Proof.
  intros E Hl. destruct (st_bytes_Some m 0 bs) as (m2 & E2 & Hlen & Hget); [lia|lia|].
  rewrite E in E2. injection E2 as <-. split; [|done].
  destruct (ld_bytes_Some m' 0 (length bs)) as (bs' & -> & Hl' & Hg'); [lia|lia|]. f_equal. apply aget_ext; [done|].
  intros j Hj. rewrite Hg', Hget by lia. rewrite decide_True by lia. f_equal. lia.
Qed.

(** ** Field by field: the stores [(offset, bytes)] to a structure at [off],
    in the order of the assignments *)
Fixpoint st_fields (m : list Z) (off : Z) (fs : list (Z * list Z)) : option (list Z) :=
  match fs with
  | [] => Some m
  | (o, bs) :: fs => m ← st_bytes m (off + o) bs; st_fields m off fs
  end.

Definition fld_in (n : Z) (f : Z * list Z) : bool :=
  (0 <=? f.1) && (f.1 + Z.of_nat (length f.2) <=? n).
Definition fld_disj (f g : Z * list Z) : bool :=
  (f.1 + Z.of_nat (length f.2) <=? g.1) || (g.1 + Z.of_nat (length g.2) <=? f.1).
Fixpoint flds_disj (fs : list (Z * list Z)) : bool :=
  match fs with [] => true | f :: fs => forallb (fld_disj f) fs && flds_disj fs end.

Lemma st_fields_Some n m off fs :
  0 <= off -> off + n <= Z.of_nat (length m) -> forallb (fld_in n) fs = true ->
  exists m', st_fields m off fs = Some m' /\ length m' = length m /\
    (forall j, j < off \/ off + n <= j -> aget m' j = aget m j) /\
    (forall j, (forall f, f ∈ fs -> j < off + f.1 \/ off + f.1 + Z.of_nat (length f.2) <= j) ->
       aget m' j = aget m j).
Proof.
  intros Ho. revert m. induction fs as [|[o bs] fs IH]; intros m Hl; cbn [st_fields forallb].
  - intros _. by exists m.
  - intros [Hf Hfs]%andb_true_iff. unfold fld_in in Hf. apply andb_true_iff in Hf as [H1%Z.leb_le H2%Z.leb_le].
    cbn [fst snd] in *. destruct (st_bytes_Some m (off + o) bs) as (m1 & -> & Hl1 & Hg1); [lia|lia|].
    cbn [mbind option_bind]. destruct (IH m1) as (m' & -> & Hl' & Hout & Hun); [lia|done|].
    exists m'. split_and!; [done|lia| |].
    + intros j Hj. rewrite Hout, Hg1 by done. destruct (decide _); [lia|done].
    + intros j Hj. rewrite Hun, Hg1.
      * pose proof (Hj (o, bs) (list_elem_of_here _ _)) as Hj1. cbn in Hj1. destruct (decide _); [lia|done].
      * intros f Hf. apply Hj. by apply list_elem_of_further.
Qed.

Lemma st_fields_app m off fs1 fs2 :
  st_fields m off (fs1 ++ fs2) = (m ← st_fields m off fs1; st_fields m off fs2).
Proof.
  revert m. induction fs1 as [|[o bs] fs1 IH]; intros m; cbn [st_fields app]; [done|].
  destruct (st_bytes m (off + o) bs); cbn [mbind option_bind]; [apply IH|done].
Qed.

(** Every field that no other one overlaps can be read back. *)
Lemma st_fields_ld n m off fs m' o bs :
  0 <= off -> off + n <= Z.of_nat (length m) -> forallb (fld_in n) fs = true -> flds_disj fs = true ->
  st_fields m off fs = Some m' -> (o, bs) ∈ fs -> ld_bytes m' (off + o) (length bs) = Some bs.
Proof.
  intros Ho. revert m. induction fs as [|[o1 bs1] fs IH]; intros m Hl; cbn [st_fields forallb flds_disj];
    [by intros _ _ _ ?%elem_of_nil|].
  intros [Hf Hfs]%andb_true_iff [Hd Hds]%andb_true_iff. unfold fld_in in Hf.
  apply andb_true_iff in Hf as [H1%Z.leb_le H2%Z.leb_le]. cbn [fst snd] in *.
  destruct (st_bytes_Some m (off + o1) bs1) as (m1 & -> & Hl1 & Hg1); [lia|lia|].
  cbn [mbind option_bind]. intros Hm' [[= -> ->]|Hin]%elem_of_cons.
  - destruct (st_fields_Some n m1 off fs) as (m2 & E & Hl2 & _ & Hun); [done|lia|done|].
    rewrite E in Hm'. injection Hm' as ->. rewrite <- (ld_bytes_self bs1). apply ld_bytes_ext.
    intros j Hj. rewrite Hun, Hg1.
    + destruct (decide _); [f_equal; lia|lia].
    + intros f Hf. rewrite forallb_forall in Hd. specialize (Hd f ltac:(by apply list_elem_of_In)).
      unfold fld_disj in Hd. cbn [fst snd] in Hd. apply orb_true_iff in Hd as [Hd%Z.leb_le|Hd%Z.leb_le]; lia.
  - apply (IH m1); [lia|done..].
Qed.

Lemma st_fields_ld_val n m off fs m' o k v :
  0 <= off -> off + n <= Z.of_nat (length m) -> forallb (fld_in n) fs = true -> flds_disj fs = true ->
  st_fields m off fs = Some m' -> (o, le_bytes k v) ∈ fs -> 0 <= v < 256 ^ Z.of_nat k ->
  ld k m' (off + o) = Some v.
Proof.
  intros Ho Hl Hin Hd Hm' He Hv. unfold ld.
  rewrite <- (length_le_bytes k v) at 1. erewrite st_fields_ld by done. cbn. by rewrite le_val_bytes.
Qed.

(** Concrete byte strings. *)
Ltac bytes_tac :=
  repeat first [apply Forall_cons_2 | apply Forall_nil_2 | lia | solve [vm_compute; congruence] | split
               | progress cbn | progress unfold is_byte].
