(* ===== verification/IdAllocator.v ===== *)
(** * What an identifier allocator promises its clients

    Three allocators of the driver hand out identifiers: the hierarchical
    bitmap ([MwBitmap]), the 16-bit stack ([Id16Map]) and, built on the first,
    the packet-id map.  Their clients (packet ids, flow ring ids) rely on one
    contract, the class [IdAllocator]; the history theorem below is proved
    from the class alone, and the two files discharge it. *)
From Stdlib Require Import ZArith Lia.
From stdpp Require Import base list option numbers.
From S2P Require Import Prelude.

(** [managed] is the set of identifiers of the allocator, [ida_avail s] those
    that state [s] may still hand out.  The outer [None] of an operation is
    undefined behaviour, the inner one a refused request. *)
Class IdAllocator (St : Type) (managed : list Z) := {
  ida_wf : St -> Prop;
  ida_avail : St -> Z -> bool;
  ida_alloc : St -> option (option Z * St);
  ida_free : St -> Z -> option St;
  ida_managed : forall s i, ida_wf s -> ida_avail s i = true -> i ∈ managed;
  ida_alloc_spec : forall s, ida_wf s ->
    (exists i s', ida_alloc s = Some (Some i, s') /\ ida_wf s' /\ ida_avail s i = true /\
       forall j, j ∈ managed -> ida_avail s' j = ida_avail s j && negb (j =? i)) \/
    (exists s', ida_alloc s = Some (None, s') /\ ida_wf s' /\
       forall j, j ∈ managed -> ida_avail s j = false /\ ida_avail s' j = false);
  ida_free_spec : forall s i, ida_wf s -> i ∈ managed -> ida_avail s i = false ->
    exists s', ida_free s i = Some s' /\ ida_wf s' /\
      forall j, j ∈ managed -> ida_avail s' j = ida_avail s j || (j =? i)
}.
#[global] Hint Mode IdAllocator + - : typeclass_instances.

(** ** Histories of a client that frees only what it holds *)
Inductive id_req := ReqAlloc | ReqFree (i : Z).

Section client.
Context {St : Type} {managed : list Z} `{!IdAllocator St managed}.

(** One request; [out] is what the client holds.  A free of an identifier the
    client does not hold is not a request a correct client makes: it is skipped. *)
Definition id_step (r : id_req) (c : St * list Z) : option (option Z * (St * list Z)) :=
  let '(s, out) := c in
  match r with
  | ReqAlloc =>
      '(res, s') ← ida_alloc s;
      match res with
      | Some i => Some (Some i, (s', i :: out))
      | None => Some (None, (s', out))
      end
  | ReqFree i =>
      if decide (i ∈ out) then s' ← ida_free s i; Some (None, (s', filter (.≠ i) out))
      else Some (None, (s, out))
  end.

Fixpoint id_run (rs : list id_req) (c : St * list Z) : option (St * list Z) :=
  match rs with
  | [] => Some c
  | r :: rs => '(_, c) ← id_step r c; id_run rs c
  end.

(** The simulation relation between the allocator and the client's holdings. *)
Record id_inv (c : St * list Z) : Prop := {
  inv_wf : ida_wf c.1;
  inv_nodup : NoDup c.2;
  inv_sub : forall i, i ∈ c.2 -> i ∈ managed;
  inv_avail : forall i, i ∈ managed -> ida_avail c.1 i = negb (bool_decide (i ∈ c.2))
}.

Lemma held_cons (i j : Z) (out : list Z) :
  bool_decide (j ∈ i :: out) = (j =? i) || bool_decide (j ∈ out).
Proof.
  rewrite (bool_decide_ext _ _ (elem_of_cons out j i)), bool_decide_or.
  f_equal. case_bool_decide; zcmp; done.
Qed.

Lemma held_filter (i j : Z) (out : list Z) :
  bool_decide (j ∈ filter (.≠ i) out) = bool_decide (j ∈ out) && negb (j =? i).
Proof.
  rewrite (bool_decide_ext _ _ (list_elem_of_filter (.≠ i) out j)), bool_decide_and, andb_comm.
  f_equal. case_bool_decide; zcmp; done.
Qed.

Lemma id_step_inv r c :
  id_inv c ->
  exists res c', id_step r c = Some (res, c') /\ id_inv c' /\
    (r = ReqAlloc -> match res with
                     | Some i => i ∈ managed /\ i ∉ c.2 /\ c'.2 = i :: c.2
                     | None => forall i, i ∈ managed -> i ∈ c.2
                     end).
Proof.
  destruct c as [s out]. intros [Hwf Hnd Hsub Hav]; cbn in *. destruct r as [|i].
  - destruct (ida_alloc_spec s Hwf) as [(i & s' & Ha & Hwf' & Hi & Hav')|(s' & Ha & Hwf' & Hno)];
      unfold id_step; rewrite Ha; cbn.
    + pose proof (ida_managed _ _ Hwf Hi) as Him.
      rewrite Hav in Hi by done. apply negb_true_iff, bool_decide_eq_false in Hi.
      do 2 eexists. split_and!; [done| |done].
      constructor; cbn; [done|by constructor| |].
      * intros j [->|Hj]%elem_of_cons; auto.
      * intros j Hj. rewrite Hav', Hav, held_cons by done.
        by destruct (j =? i), (bool_decide _).
    + do 2 eexists. split_and!; [done| |].
      * constructor; cbn; try done. intros j Hj. destruct (Hno j Hj) as [E E'].
        rewrite Hav in E by done. by rewrite E', <- E.
      * intros _ j Hj. destruct (Hno j Hj) as [E _]. rewrite Hav in E by done.
        by case_bool_decide.
  - unfold id_step. destruct (decide (i ∈ out)) as [Hi|Hi].
    + destruct (ida_free_spec s i) as (s' & -> & Hwf' & Hav'); [done|by auto| |].
      { rewrite Hav by auto. by rewrite bool_decide_eq_true_2. }
      cbn. do 2 eexists. split_and!; [done| |done].
      constructor; cbn; [done|by apply list.NoDup_filter| |].
      * intros j [_ Hj]%list_elem_of_filter. auto.
      * intros j Hj. rewrite Hav', Hav, held_filter by done.
        by destruct (j =? i), (bool_decide _).
    + by do 2 eexists.
Qed.

Lemma id_run_inv rs c : id_inv c -> exists c', id_run rs c = Some c' /\ id_inv c'.
Proof.
  revert c. induction rs as [|r rs IH]; intros c Hc; cbn [id_run]; [by exists c|].
  destruct (id_step_inv r c Hc) as (res & c' & -> & Hc' & _). cbn. by apply IH.
Qed.

(** The next allocation after any history. *)
Lemma id_run_alloc rs c :
  id_inv c ->
  exists s out, id_run rs c = Some (s, out) /\ NoDup out /\
    match ida_alloc s with
    | Some (Some i, _) => i ∈ managed /\ i ∉ out
    | Some (None, _) => forall i, i ∈ managed -> i ∈ out
    | None => False
    end.
Proof.
  intros Hc. destruct (id_run_inv rs c Hc) as ([s out] & Hr & Hc').
  exists s, out. split_and!; [done|apply Hc'|].
  destruct (id_step_inv ReqAlloc _ Hc') as (res & c' & Hs & _ & Hres).
  unfold id_step in Hs. destruct (ida_alloc s) as [[[i|] s']|]; cbn in Hs; [| |done];
    injection Hs as <- <-; specialize (Hres eq_refl); cbn in Hres; [|done]. tauto.
Qed.

(** The holdings never exceed the identifiers managed. *)
Lemma id_inv_length c : id_inv c -> (length c.2 <= length managed)%nat.
Proof.
  intros [_ Hnd Hsub _]. apply submseteq_length, NoDup_submseteq; [done|].
  intros i. apply Hsub.
Qed.
End client.

(** The indices of [0, n) outside a duplicate-free list of them. *)
Lemma cnt_not_in (out : list Z) (n : nat) :
  NoDup out -> (forall i, i ∈ out -> 0 <= i < Z.of_nat n) ->
  cnt (fun i => negb (bool_decide (i ∈ out))) n = Z.of_nat n - Z.of_nat (length out).
Proof.
  induction out as [|x out IH]; intros Hnd Hr.
  - rewrite cnt_full; cbn; [lia|done].
  - apply list.NoDup_cons in Hnd as [Hx Hnd]. cbn [length].
    assert (x ∈ x :: out) as Hin by apply list_elem_of_here.
    pose proof (cnt_flip (fun i => negb (bool_decide (i ∈ out)))
                  (fun i => negb (bool_decide (i ∈ x :: out))) n x) as Hf.
    rewrite IH in Hf; [|done|intros; apply Hr; by apply list_elem_of_further].
    rewrite <- (Z.add_simpl_r (cnt _ n) 1), <- Hf; [lia|by apply Hr| | |].
    + by rewrite bool_decide_eq_false_2.
    + by rewrite bool_decide_eq_true_2.
    + intros i _ Hne. rewrite held_cons. by apply Z.eqb_neq in Hne as ->.
Qed.
