(* ===== verification/MwBitmap.v ===== *)
(** * Hierarchical multi-word bitmap allocator (shared/bcmutils.c, [bcm_mwbmap_*])

    The record [bcm_mwbmap] is the C struct (the audit handle [magic] and the
    debug-only code of BCM_MWBMAP_DEBUG left out; BCM_MWBMAP_USE_CNTSETBITS is
    not defined, so the running counts [wd_count] are kept).  Each operation
    is a function in the option monad, [None] being an access outside an
    array.  The abstract state is the set of free indices, given by
    [isfree_bit]; [mw_wf] ties the two levels, the counts and [ifree] to it. *)
From stdpp Require Import base list option numbers.
From Stdlib Require Import ZArith Lia.
From S2P Require Import Prelude.
From S2P Require Import IdAllocator.

(** ** Definitions *)

Definition BCM_MWBMAP_BITS_WORD : Z := 32.
Definition BCM_MWBMAP_ITEMS_MAX : Z := 64 * 1024.
Definition BCM_MWBMAP_WORDS_MAX : Z := BCM_MWBMAP_ITEMS_MAX / BCM_MWBMAP_BITS_WORD.
Definition BCM_MWBMAP_WDMAP_MAX : Z := BCM_MWBMAP_WORDS_MAX / BCM_MWBMAP_BITS_WORD.
Definition BCM_MWBMAP_SHIFT_OP : Z := 5.
Definition BCM_MWBMAP_MODOP (ix : Z) : Z := Z.land ix (BCM_MWBMAP_BITS_WORD - 1).
Definition BCM_MWBMAP_DIVOP (ix : Z) : Z := Z.shiftr ix BCM_MWBMAP_SHIFT_OP.
Definition BCM_MWBMAP_MULOP (ix : Z) : Z := u32 (Z.shiftl ix BCM_MWBMAP_SHIFT_OP).
Definition BCM_MWBMAP_INVALID_IDX : Z := u32 (Z.lnot 0).

Record bcm_mwbmap := mk_mwbmap {
  wmaps : Z;              (* uint16: words in the first-level bitmap *)
  imaps : Z;              (* uint16: words in the second-level bitmap *)
  ifree : Z;              (* int32: free indices *)
  total : Z;              (* uint16: indices managed *)
  wd_bitmap : list Z;     (* first level, BCM_MWBMAP_WDMAP_MAX words *)
  wd_count : list Z;      (* int8 counts, BCM_MWBMAP_WORDS_MAX of them *)
  id_bitmap : list Z      (* second level, [imaps] words *)
}.

(** The C fallback of bcm_count_leading_zeros: shift right until zero.  A
    uint32 is zero after at most 32 shifts, so 33 tests end the loop. *)
Fixpoint clz_loop (fuel : nat) (shifts u32arg : Z) : Z :=
  match fuel with
  | O => shifts
  | S fuel => if u32arg =? 0 then shifts else clz_loop fuel (shifts + 1) (Z.shiftr u32arg 1)
  end.
Definition C_bcm_count_leading_zeros (u32arg : Z) : Z := 32 - clz_loop 33 0 u32arg.

(** _CSBTBL: the number of ones of each byte. *)
Definition B2 (n : Z) : list Z := [n; n + 1; n + 1; n + 2].
Definition B4 (n : Z) : list Z := B2 n ++ B2 (n + 1) ++ B2 (n + 1) ++ B2 (n + 2).
Definition B6 (n : Z) : list Z := B4 n ++ B4 (n + 1) ++ B4 (n + 1) ++ B4 (n + 2).
Definition CSBTBL : list Z := B6 0 ++ B6 1 ++ B6 1 ++ B6 2.

Definition bcm_cntsetbits (u32arg : Z) : option Z :=
  a ← aget CSBTBL (u8 u32arg);
  b ← aget CSBTBL (u8 (Z.shiftr u32arg 8));
  c ← aget CSBTBL (u8 (Z.shiftr u32arg 16));
  d ← aget CSBTBL (u8 (Z.shiftr u32arg 24));
  Some (a + b + c + d).

(** [for (wordix = from; wordix < upto; wordix++) arr[wordix] = v] *)
Fixpoint fill (fuel : nat) (wordix : Z) (v : Z) (arr : list Z) : option (list Z) :=
  match fuel with
  | O => Some arr
  | S fuel => arr ← aset arr wordix v; fill fuel (wordix + 1) v arr
  end.

(** The loop that marks every word of the second level and its count. *)
Fixpoint init_words (fuel : nat) (wordix : Z) (id_bitmap wd_count : list Z)
    : option (list Z * list Z) :=
  match fuel with
  | O => Some (id_bitmap, wd_count)
  | S fuel =>
      id_bitmap ← aset id_bitmap wordix (u32 (Z.lnot 0));
      wd_count ← aset wd_count wordix (s8 BCM_MWBMAP_BITS_WORD);
      init_words fuel (wordix + 1) id_bitmap wd_count
  end.

(** [arr[ix] ^= ~0U << extra], the fix-up of the last word. *)
Definition fixup_last (arr : list Z) (ix extra : Z) : option (list Z) :=
  w ← aget arr ix;
  aset arr ix (Z.lxor w (u32 (Z.shiftl (u32 (Z.lnot 0)) extra))).

(** [malloc_ok] is the outcome of MALLOC; the outer [None] is undefined
    behaviour, the inner one BCM_MWBMAP_INVALID_HDL. *)
Definition bcm_mwbmap_init (malloc_ok : bool) (items_max : Z) : option (option bcm_mwbmap) :=
  let extra := BCM_MWBMAP_MODOP items_max in
  let words := BCM_MWBMAP_DIVOP items_max + (if negb (extra =? 0) then 1 else 0) in
  if negb malloc_ok then Some None else
  let wd_bitmap := replicate (Z.to_nat BCM_MWBMAP_WDMAP_MAX) 0 in
  let wd_count := replicate (Z.to_nat BCM_MWBMAP_WORDS_MAX) 0 in
  let id_bitmap := replicate (Z.to_nat words) 0 in
  let imaps := u16 words in
  let ifree := s32 items_max in
  let total := u16 items_max in
  '(id_bitmap, wd_count) ← init_words (Z.to_nat imaps) 0 id_bitmap wd_count;
  '(id_bitmap, wd_count) ←
    (if negb (extra =? 0) then
       id_bitmap ← fixup_last id_bitmap (imaps - 1) extra;
       wd_count ← aset wd_count (imaps - 1) (s8 extra);
       Some (id_bitmap, wd_count)
     else Some (id_bitmap, wd_count));
  let extra := BCM_MWBMAP_MODOP imaps in
  let words := BCM_MWBMAP_DIVOP imaps + (if negb (extra =? 0) then 1 else 0) in
  let wmaps := u16 words in
  wd_bitmap ← fill (Z.to_nat wmaps) 0 (u32 (Z.lnot 0)) wd_bitmap;
  wd_bitmap ← (if negb (extra =? 0) then fixup_last wd_bitmap (wmaps - 1) extra
               else Some wd_bitmap);
  Some (Some (mk_mwbmap wmaps imaps ifree total wd_bitmap wd_count id_bitmap)).

(** [bitmap = (uint32)(((int)bitmap) & (-((int)bitmap)))]: keep the trailing one. *)
Definition trailing_one (bitmap : Z) : Z :=
  u32 (Z.land (s32 bitmap) (s32 (- s32 bitmap))).

(** The body of the allocation loop once a non-zero first-level word is found. *)
Definition alloc_found (m : bcm_mwbmap) (wordix bitmap : Z) : option (Z * bcm_mwbmap) :=
  let wd_ix := wordix in
  let bitmap := trailing_one bitmap in
  let bitix := (BCM_MWBMAP_BITS_WORD - 1) - C_bcm_count_leading_zeros bitmap in
  let wordix := u32 (BCM_MWBMAP_MULOP wordix + bitix) in
  c ← aget (wd_count m) wordix;
  let c := s8 (c - 1) in
  wd_count' ← aset (wd_count m) wordix c;
  let count := u32 c in
  let bitmap := Z.shiftl (if count =? 0 then 1 else 0) bitix in
  w ← aget (wd_bitmap m) wd_ix;
  wd_bitmap' ← aset (wd_bitmap m) wd_ix (Z.lxor w bitmap);
  w ← aget (id_bitmap m) wordix;
  let bitmap := trailing_one w in
  let bitix := u32 (BCM_MWBMAP_MULOP wordix + (BCM_MWBMAP_BITS_WORD - 1)
                    - C_bcm_count_leading_zeros bitmap) in
  id_bitmap' ← aset (id_bitmap m) wordix (Z.lxor w bitmap);
  Some (bitix, mk_mwbmap (wmaps m) (imaps m) (s32 (ifree m - 1)) (total m)
                         wd_bitmap' wd_count' id_bitmap').

(** [for (wordix = 0; wordix < wmaps; ++wordix)]: [fuel] is [wmaps - wordix]. *)
Fixpoint alloc_loop (m : bcm_mwbmap) (fuel : nat) (wordix : Z) : option (Z * bcm_mwbmap) :=
  match fuel with
  | O => Some (BCM_MWBMAP_INVALID_IDX, m)
  | S fuel =>
      bitmap ← aget (wd_bitmap m) wordix;
      if negb (bitmap =? 0) then alloc_found m wordix bitmap
      else alloc_loop m fuel (wordix + 1)
  end.
Definition bcm_mwbmap_alloc (m : bcm_mwbmap) : option (Z * bcm_mwbmap) :=
  alloc_loop m (Z.to_nat (wmaps m)) 0.

Definition bcm_mwbmap_force (m : bcm_mwbmap) (bitix : Z) : option bcm_mwbmap :=
  let wordix := BCM_MWBMAP_DIVOP bitix in
  let bitmap := u32 (Z.shiftl 1 (BCM_MWBMAP_MODOP bitix)) in
  w ← aget (id_bitmap m) wordix;
  let ifree' := s32 (ifree m - 1) in
  id_bitmap' ← aset (id_bitmap m) wordix (Z.lxor w bitmap);
  let bitix := wordix in
  let wordix := BCM_MWBMAP_DIVOP bitix in
  c ← aget (wd_count m) bitix;
  let c := s8 (c - 1) in
  wd_count' ← aset (wd_count m) bitix c;
  let count := u32 c in
  let bitmap := Z.shiftl (if count =? 0 then 1 else 0) (BCM_MWBMAP_MODOP bitix) in
  w ← aget (wd_bitmap m) wordix;
  wd_bitmap' ← aset (wd_bitmap m) wordix (Z.lxor w bitmap);
  Some (mk_mwbmap (wmaps m) (imaps m) ifree' (total m) wd_bitmap' wd_count' id_bitmap').

Definition bcm_mwbmap_free (m : bcm_mwbmap) (bitix : Z) : option bcm_mwbmap :=
  let wordix := BCM_MWBMAP_DIVOP bitix in
  let bitmap := u32 (Z.shiftl 1 (BCM_MWBMAP_MODOP bitix)) in
  w ← aget (id_bitmap m) wordix;
  let ifree' := s32 (ifree m + 1) in
  id_bitmap' ← aset (id_bitmap m) wordix (Z.lor w bitmap);
  let bitix := wordix in
  let wordix := BCM_MWBMAP_DIVOP bitix in
  let bitmap := u32 (Z.shiftl 1 (BCM_MWBMAP_MODOP bitix)) in
  c ← aget (wd_count m) bitix;
  wd_count' ← aset (wd_count m) bitix (s8 (c + 1));
  w ← aget (wd_bitmap m) wordix;
  wd_bitmap' ← aset (wd_bitmap m) wordix (Z.lor w bitmap);
  Some (mk_mwbmap (wmaps m) (imaps m) ifree' (total m) wd_bitmap' wd_count' id_bitmap').

Definition bcm_mwbmap_free_cnt (m : bcm_mwbmap) : Z := u32 (ifree m).

Definition bcm_mwbmap_isfree (m : bcm_mwbmap) (bitix : Z) : option bool :=
  let wordix := BCM_MWBMAP_DIVOP bitix in
  let bitmap := u32 (Z.shiftl 1 (BCM_MWBMAP_MODOP bitix)) in
  w ← aget (id_bitmap m) wordix;
  Some (negb (Z.land w bitmap =? 0)).

(** bcm_mwbmap_audit: [None] is a failed ASSERT or an access out of range.
    The two nested loops, over the first-level words and their bits. *)
Fixpoint audit_bits (m : bcm_mwbmap) (fuel : nat) (wordix bitix word free_cnt : Z) : option Z :=
  match fuel with
  | O => Some free_cnt
  | S fuel =>
      free_cnt ←
        (if negb (Z.land word (Z.shiftl 1 bitix) =? 0) then
           let idmap_ix := u32 (BCM_MWBMAP_MULOP wordix + bitix) in
           c ← aget (wd_count m) idmap_ix;
           let count := u32 c in
           w ← aget (id_bitmap m) idmap_ix;
           set ← bcm_cntsetbits w;
           if (count =? set) && negb (count =? 0) then Some (u32 (free_cnt + count)) else None
         else Some free_cnt);
      audit_bits m fuel wordix (bitix + 1) word free_cnt
  end.
Fixpoint audit_words (m : bcm_mwbmap) (fuel : nat) (wordix free_cnt : Z) : option Z :=
  match fuel with
  | O => Some free_cnt
  | S fuel =>
      word ← aget (wd_bitmap m) wordix;
      free_cnt ← audit_bits m (Z.to_nat BCM_MWBMAP_BITS_WORD) wordix 0 word free_cnt;
      audit_words m fuel (wordix + 1) free_cnt
  end.
Definition bcm_mwbmap_audit (m : bcm_mwbmap) : option unit :=
  free_cnt ← audit_words m (Z.to_nat (wmaps m)) 0 0;
  if s32 free_cnt =? ifree m then Some tt else None.

(** bcm_mwbmap_alloc as the interface states it: BCM_MWBMAP_INVALID_IDX is a refusal. *)
Definition mw_request (m : bcm_mwbmap) : option (option Z * bcm_mwbmap) :=
  '(i, m') ← bcm_mwbmap_alloc m;
  Some (if i =? BCM_MWBMAP_INVALID_IDX then None else Some i, m').

(** ** Examples on a 70-index map *)
Definition mw70 : option bcm_mwbmap := m ← bcm_mwbmap_init true 70; m.
Example ex70 : (m ← mw70; '(a, m) ← bcm_mwbmap_alloc m; m ← bcm_mwbmap_force m 40;
  '(b, m) ← bcm_mwbmap_alloc m; m ← bcm_mwbmap_free m a; '(c, m) ← bcm_mwbmap_alloc m;
  _ ← bcm_mwbmap_audit m;
  Some (a, b, c, ifree m)) = Some (0, 1, 0, 67).
Proof. reflexivity. Qed.

(** ** Index arithmetic *)
Lemma MODOP_mod ix : BCM_MWBMAP_MODOP ix = ix mod 32.
Proof. unfold BCM_MWBMAP_MODOP. apply (Z.land_ones ix 5). lia. Qed.

Lemma DIVOP_div ix : BCM_MWBMAP_DIVOP ix = ix / 32.
Proof. unfold BCM_MWBMAP_DIVOP. by rewrite Z.shiftr_div_pow2. Qed.

Lemma MULOP_mul ix : 0 <= ix < 2 ^ 27 -> BCM_MWBMAP_MULOP ix = 32 * ix.
Proof.
  intros. unfold BCM_MWBMAP_MULOP, BCM_MWBMAP_SHIFT_OP. rewrite Z.shiftl_mul_pow2 by done.
  rewrite wrapu_small; zlia.
Qed.

Lemma split_ix i k b : 0 <= b < 32 -> i = 32 * k + b -> i / 32 = k /\ i mod 32 = b.
Proof.
  intros ? ->. split.
  - symmetry. apply (Z.div_unique_pos _ _ _ b); lia.
  - symmetry. apply (Z.mod_unique_pos _ _ k b); lia.
Qed.

Lemma ix_eqn i : i = 32 * (i / 32) + i mod 32 /\ 0 <= i mod 32 < 32.
Proof. split; [apply Z.div_mod; lia|apply Z.mod_pos_bound; lia]. Qed.

Lemma bit32 b : 0 <= b < 32 -> u32 (Z.shiftl 1 b) = 2 ^ b.
Proof.
  intros. rewrite Z.shiftl_1_l. apply wrapu_small.
  split; [lia|]. apply Z.pow_lt_mono_r; lia.
Qed.

(** ** Words *)
Lemma clz_pow2 b : 0 <= b < 32 -> C_bcm_count_leading_zeros (2 ^ b) = 31 - b.
Proof.
  intros Hb.
  assert (forallb (fun b => C_bcm_count_leading_zeros (2 ^ b) =? 31 - b) (seqZ 0 32) = true)
    as Hall by reflexivity.
  rewrite forallb_forall in Hall. apply Z.eqb_eq, Hall, list_elem_of_In, elem_of_seqZ. lia.
Qed.

(** The classic isolation of the lowest set bit, on 32-bit two's complement. *)
Lemma trailing_one_spec w :
  0 <= w < 2 ^ 32 -> w <> 0 ->
  exists b, 0 <= b < 32 /\ Z.testbit w b = true /\
            (forall j, 0 <= j < b -> Z.testbit w j = false) /\ trailing_one w = 2 ^ b.
Proof.
  intros Hw Hnz.
  apply (word_nonzero_bit 32) in Hnz as (k & Hk & Hwk); [|lia|done].
  destruct (least_true (Z.testbit w) (Z.to_nat k)) as (b & Hb & Hwb & Hlow);
    rewrite ?Z2Nat.id in * by lia; [done|].
  exists b. split_and!; [lia|lia|done|done|].
  apply Z.bits_inj'. intros j Hj. unfold trailing_one.
  rewrite testbit_wrapu, Z.land_spec, Z.pow2_bits_eqb by lia.
  destruct (Z.ltb_spec j 32); cbn [andb]; [|zcmp; lia].
  rewrite !testbit_wraps by lia.
  assert (Z.testbit (- s32 w) j = Z.testbit (- w) j) as ->.
  { rewrite !(testbit_opp _ b) by
      (rewrite ?testbit_wraps; naive_solver eauto using testbit_wraps with lia).
    by rewrite testbit_wraps by lia. }
  rewrite (testbit_opp w b) by (done || lia).
  destruct (Z.eqb_spec j b) as [->|]; [by rewrite Hwb, Z.eqb_refl|].
  destruct (Z.eqb_spec b j); [lia|].
  destruct (Z.ltb_spec b j); cbn; [by destruct (Z.testbit w j)|].
  rewrite Hlow by lia. done.
Qed.

Definition popcount (w : Z) : Z := cnt (Z.testbit w) 32.
Global Arguments popcount : simpl never.

Lemma popcount_range w : 0 <= popcount w <= 32.
Proof. apply (cnt_bounds _ 32). Qed.

Lemma popcount_zero w : 0 <= w < 2 ^ 32 -> popcount w = 0 <-> w = 0.
Proof.
  intros Hw. unfold popcount. rewrite cnt_zero. split; [|by intros -> i; rewrite Z.bits_0].
  intros Hz. destruct (decide (w = 0)) as [|Hne]; [done|].
  apply (word_nonzero_bit 32) in Hne as (j & Hj & Hb); [|lia|done].
  rewrite Hz in Hb; [done|lia].
Qed.

Lemma lxor_pow2_bit w b j :
  0 <= b -> Z.testbit (Z.lxor w (2 ^ b)) j = xorb (Z.testbit w j) (b =? j).
Proof. intros. by rewrite Z.lxor_spec, Z.pow2_bits_eqb. Qed.

Lemma lor_pow2_bit w b j :
  0 <= b -> Z.testbit (Z.lor w (2 ^ b)) j = Z.testbit w j || (b =? j).
Proof. intros. by rewrite Z.lor_spec, Z.pow2_bits_eqb. Qed.

Lemma lxor_pow2_range w b :
  0 <= w < 2 ^ 32 -> 0 <= b < 32 -> 0 <= Z.lxor w (2 ^ b) < 2 ^ 32.
Proof.
  intros. apply bits_range; [lia| |].
  - apply Z.lxor_nonneg. lia.
  - intros j Hj. rewrite lxor_pow2_bit, (testbit_high 32) by lia. zcmp; [lia|done].
Qed.

Lemma lor_pow2_range w b :
  0 <= w < 2 ^ 32 -> 0 <= b < 32 -> 0 <= Z.lor w (2 ^ b) < 2 ^ 32.
Proof.
  intros. apply bits_range; [lia| |].
  - apply Z.lor_nonneg. lia.
  - intros j Hj. rewrite lor_pow2_bit, (testbit_high 32) by lia. zcmp; [lia|done].
Qed.

Lemma popcount_clear w b :
  0 <= b < 32 -> Z.testbit w b = true -> popcount (Z.lxor w (2 ^ b)) = popcount w - 1.
Proof.
  intros Hb Hw. unfold popcount.
  rewrite (cnt_flip (Z.testbit w) (Z.testbit (Z.lxor w (2 ^ b))) 32 b); try lia; try done.
  - rewrite lxor_pow2_bit, Hw by lia. zcmp; [done|lia].
  - intros i Hi Hne. rewrite lxor_pow2_bit by lia. zcmp; [lia|]. by destruct (Z.testbit w i).
Qed.

Lemma popcount_set w b :
  0 <= b < 32 -> Z.testbit w b = false -> popcount (Z.lor w (2 ^ b)) = popcount w + 1.
Proof.
  intros Hb Hw. unfold popcount.
  apply (cnt_flip (Z.testbit (Z.lor w (2 ^ b))) (Z.testbit w) 32 b); try lia; try done.
  - rewrite lor_pow2_bit, Hw by lia. zcmp; [done|lia].
  - intros i Hi Hne. rewrite lor_pow2_bit by lia. zcmp; [lia|]. by rewrite orb_false_r.
Qed.

(** ** Bit arrays: bit [i] of an array of 32-bit words *)
Definition abit (arr : list Z) (i : Z) : bool :=
  match aget arr (i / 32) with Some w => Z.testbit w (i mod 32) | None => false end.

Definition words_ok (arr : list Z) : Prop :=
  forall k w, aget arr k = Some w -> 0 <= w < 2 ^ 32.

Lemma abit_update arr k w' b i (f : bool -> bool) w :
  aget arr k = Some w -> 0 <= b < 32 -> 0 <= i ->
  (forall j, 0 <= j < 32 -> Z.testbit w' j = if b =? j then f (Z.testbit w j) else Z.testbit w j) ->
  abit (<[Z.to_nat k := w']> arr) i =
  if i =? 32 * k + b then f (abit arr i) else abit arr i.
Proof.
  intros Hk Hb Hi Hw'. unfold abit.
  rewrite aget_insert by eauto using aget_lt.
  destruct (ix_eqn i) as [Ei Hr].
  destruct (decide (k = i / 32)) as [->|Hne].
  - rewrite Hk, Hw' by done. zcmp; try done; lia.
  - zcmp; [|done]. exfalso. apply Hne.
    destruct (split_ix i k b); [lia|done|congruence].
Qed.

Lemma words_ok_update arr k w' :
  0 <= k < Z.of_nat (length arr) ->
  words_ok arr -> 0 <= w' < 2 ^ 32 -> words_ok (<[Z.to_nat k := w']> arr).
Proof.
  intros Hk Hok Hw' j x. rewrite aget_insert by done. case_decide; [naive_solver|apply Hok].
Qed.

Lemma xor_at arr i (c : bool) :
  words_ok arr -> 0 <= i < 32 * Z.of_nat (length arr) ->
  exists w arr', aget arr (i / 32) = Some w /\
    aset arr (i / 32) (Z.lxor w (Z.shiftl (if c then 1 else 0) (i mod 32))) = Some arr' /\
    length arr' = length arr /\ words_ok arr' /\
    forall j, 0 <= j -> abit arr' j = xorb (abit arr j) (c && (j =? i)).
Proof.
  intros Hok Hi. destruct (ix_eqn i) as [Ei Hr].
  destruct (aget_is_Some arr (i / 32)) as [w Hw]; [lia|].
  exists w. eexists. split; [done|]. rewrite aset_Some by lia.
  assert (0 <= w < 2 ^ 32) by eauto.
  split_and!; [done|apply length_insert| |].
  - destruct c; rewrite ?Z.shiftl_1_l, ?Z.shiftl_0_l, ?Z.lxor_0_r;
      apply words_ok_update; (lia || done || auto using lxor_pow2_range).
  - intros j Hj. destruct c; cbn [andb].
    + rewrite Z.shiftl_1_l, (abit_update _ _ _ (i mod 32) _ negb w); try done.
      * rewrite <- Ei. zcmp; by destruct (abit arr j).
      * intros x Hx. rewrite lxor_pow2_bit by lia. zcmp; by destruct (Z.testbit w x).
    + rewrite Z.shiftl_0_l, Z.lxor_0_r, list_insert_id; [by destruct (abit arr j)|].
      unfold aget in Hw. by destruct (0 <=? i / 32).
Qed.

Lemma or_at arr i :
  words_ok arr -> 0 <= i < 32 * Z.of_nat (length arr) ->
  exists w arr', aget arr (i / 32) = Some w /\
    aset arr (i / 32) (Z.lor w (2 ^ (i mod 32))) = Some arr' /\
    length arr' = length arr /\ words_ok arr' /\
    forall j, 0 <= j -> abit arr' j = abit arr j || (j =? i).
Proof.
  intros Hok Hi. destruct (ix_eqn i) as [Ei Hr].
  destruct (aget_is_Some arr (i / 32)) as [w Hw]; [lia|].
  exists w. eexists. split; [done|]. rewrite aset_Some by lia.
  split_and!; [done|apply length_insert| |].
  - apply words_ok_update; [lia|done|]. apply lor_pow2_range; eauto.
  - intros j Hj. rewrite (abit_update _ _ _ (i mod 32) _ (fun _ => true) w); try done.
    + rewrite <- Ei. zcmp; by destruct (abit arr j).
    + intros x Hx. rewrite lor_pow2_bit by lia. zcmp; by destruct (Z.testbit w x).
Qed.

(** ** Abstract state and invariant *)

(** Index [i] is free. *)
Definition isfree_bit (m : bcm_mwbmap) (i : Z) : bool := abit (id_bitmap m) i.

Record mw_wf (n : Z) (m : bcm_mwbmap) : Prop := {
  wf_n : 0 <= n <= BCM_MWBMAP_ITEMS_MAX;
  wf_imaps : imaps m = (n + 31) / 32;
  wf_wmaps : wmaps m = (imaps m + 31) / 32;
  wf_len_wd : Z.of_nat (length (wd_bitmap m)) = 64;
  wf_len_cnt : Z.of_nat (length (wd_count m)) = 2048;
  wf_len_id : Z.of_nat (length (id_bitmap m)) = imaps m;
  wf_wd_words : words_ok (wd_bitmap m);
  wf_id_words : words_ok (id_bitmap m);
  wf_high : forall i, n <= i -> isfree_bit m i = false;
  wf_cnt : forall k w, aget (id_bitmap m) k = Some w -> aget (wd_count m) k = Some (popcount w);
  wf_wd : forall k, 0 <= k -> abit (wd_bitmap m) k =
            match aget (id_bitmap m) k with Some w => negb (w =? 0) | None => false end;
  wf_ifree : ifree m = cnt (isfree_bit m) (Z.to_nat n)
}.

Lemma wf_bounds n m : mw_wf n m ->
  0 <= n <= 65536 /\ n <= 32 * imaps m <= 65536 /\ imaps m <= 32 * wmaps m <= 2048.
Proof.
  intros Hwf. pose proof (wf_n _ _ Hwf) as Hn. pose proof (wf_imaps _ _ Hwf).
  pose proof (wf_wmaps _ _ Hwf). unfold BCM_MWBMAP_ITEMS_MAX in Hn.
  Z.div_mod_to_equations. lia.
Qed.

(** Replacing word [k] of the second level, its count and its first-level
    bit, keeps the invariant. *)
Lemma wf_update n m k w w' wd' ifree' :
  let id' := <[Z.to_nat k := w']> (id_bitmap m) in
  mw_wf n m -> aget (id_bitmap m) k = Some w -> 0 <= w' < 2 ^ 32 ->
  words_ok wd' -> length wd' = length (wd_bitmap m) ->
  (forall j, 0 <= j -> abit wd' j = if j =? k then negb (w' =? 0) else abit (wd_bitmap m) j) ->
  (forall j, n <= j -> abit id' j = false) ->
  ifree' = cnt (abit id') (Z.to_nat n) ->
  mw_wf n (mk_mwbmap (wmaps m) (imaps m) ifree' (total m) wd'
             (<[Z.to_nat k := popcount w']> (wd_count m)) id').
Proof.
  intros id' Hwf Hk Hw' Hokwd Hlwd Hwd Hhigh Hif.
  pose proof (aget_lt _ _ _ Hk) as Hkr.
  pose proof (aget_lt _ _ _ (wf_cnt _ _ Hwf _ _ Hk)) as Hkc.
  destruct Hwf. constructor; cbn; try done.
  - by rewrite Hlwd.
  - by rewrite length_insert.
  - unfold id'. by rewrite length_insert.
  - by apply words_ok_update.
  - intros j x. unfold id'. rewrite !aget_insert by done.
    case_decide; [by intros [= ->]|apply wf_cnt0].
  - intros j Hj. rewrite Hwd, wf_wd0 by done. unfold id'. rewrite aget_insert by done.
    zcmp; case_decide; subst; try lia; done.
Qed.

(** The free-index count after one index changes hands. *)
Lemma cnt_take n (P Q : Z -> bool) i :
  0 <= i < n -> P i = true -> (forall j, 0 <= j -> Q j = P j && negb (j =? i)) ->
  cnt Q (Z.to_nat n) = cnt P (Z.to_nat n) - 1.
Proof.
  intros Hi HP HQ. rewrite (cnt_flip P Q _ i); [lia|lia|done| |].
  - rewrite HQ, HP by lia. by rewrite Z.eqb_refl.
  - intros j Hj Hne. rewrite HQ by lia. zcmp; [lia|]. by rewrite andb_true_r.
Qed.

Lemma cnt_give n (P Q : Z -> bool) i :
  0 <= i < n -> P i = false -> (forall j, 0 <= j -> Q j = P j || (j =? i)) ->
  cnt Q (Z.to_nat n) = cnt P (Z.to_nat n) + 1.
Proof.
  intros Hi HP HQ. apply (cnt_flip Q P _ i); [lia| |done|].
  - rewrite HQ, HP by lia. by rewrite Z.eqb_refl.
  - intros j Hj Hne. rewrite HQ by lia. zcmp; [lia|]. by rewrite orb_false_r.
Qed.

(** bcm_mwbmap_force takes a free index out of the map and changes nothing else. *)
Lemma force_take n m i :
  mw_wf n m -> 0 <= i < n -> isfree_bit m i = true ->
  exists m', bcm_mwbmap_force m i = Some m' /\ mw_wf n m' /\
    forall j, 0 <= j -> isfree_bit m' j = isfree_bit m j && negb (j =? i).
Proof.
  intros Hwf Hi Hfree. pose proof (wf_bounds _ _ Hwf). destruct (ix_eqn i) as [Ei Hb].
  pose proof (wf_len_id _ _ Hwf). pose proof (wf_len_wd _ _ Hwf).
  assert (ifree m = cnt (abit (id_bitmap m)) (Z.to_nat n)) by apply (wf_ifree _ _ Hwf).
  destruct (xor_at (id_bitmap m) i true) as (w & id' & Hw & Hid & _ & _ & Hbits);
    [apply (wf_id_words _ _ Hwf)|lia|].
  unfold bcm_mwbmap_force, isfree_bit in *. rewrite !DIVOP_div, !MODOP_mod.
  assert (Z.testbit w (i mod 32) = true) as Hwb by (unfold abit in Hfree; by rewrite Hw in Hfree).
  set (k := i / 32) in *. set (b := i mod 32) in *. clearbody k b.
  rewrite Z.shiftl_1_l in Hid. destruct (aset_inv _ _ _ _ Hid) as [Hkr ->].
  assert (0 <= w < 2 ^ 32) as Hwr by (eapply wf_id_words; eauto).
  pose proof (lxor_pow2_range w b Hwr Hb) as Hwr'.
  pose proof (wf_cnt _ _ Hwf _ _ Hw) as Hc. pose proof (aget_lt _ _ _ Hc).
  pose proof (popcount_range (Z.lxor w (2 ^ b))) as Hpr.
  pose proof (popcount_zero _ Hwr') as Hpz.
  pose proof (popcount_clear w b Hb Hwb) as Hpc.
  destruct (xor_at (wd_bitmap m) k (popcount (Z.lxor w (2 ^ b)) =? 0))
    as (v & wd' & Hv & Hwd & Hlwd & Hokwd & Hwbits); [apply (wf_wd_words _ _ Hwf)|lia|].
  assert (forall j, 0 <= j -> abit (<[Z.to_nat k:=Z.lxor w (2 ^ b)]> (id_bitmap m)) j
            = abit (id_bitmap m) j && negb (j =? i)) as Hbits'.
  { intros j Hj. rewrite Hbits by done. zcmp; subst; cbn;
      rewrite ?xorb_false_r, ?andb_true_r; [by rewrite Hfree|done]. }
  pose proof (cnt_take n _ _ i Hi Hfree Hbits') as Hcnt.
  pose proof (cnt_bounds (abit (id_bitmap m)) (Z.to_nat n)).
  rewrite bit32, Hw by done. cbn [mbind option_bind].
  rewrite Hid. cbn [mbind option_bind]. rewrite Hc. cbn [mbind option_bind].
  rewrite (wraps_small 8), (wrapu_small 32 (popcount w - 1)), aset_Some by zlia.
  cbn [mbind option_bind]. rewrite <- Hpc, Hv. cbn [mbind option_bind].
  rewrite Hwd. cbn [mbind option_bind].
  eexists. split_and!; [done| |done].
  eapply wf_update; try done.
  - intros j Hj. rewrite Hwbits by done.
    destruct (Z.eqb_spec j k) as [->|];
      rewrite ?andb_true_r, ?andb_false_r, ?xorb_false_r; [|done].
    rewrite (wf_wd _ _ Hwf), Hw by done.
    assert (w <> 0) by (intros ->; by rewrite Z.bits_0 in Hwb).
    zcmp; tauto || lia.
  - intros j Hj. rewrite Hbits' by lia.
    by rewrite (wf_high _ _ Hwf j Hj : abit (id_bitmap m) j = false).
  - rewrite wraps_small; zlia.
Qed.

(** bcm_mwbmap_free puts a used index back and changes nothing else. *)
Lemma free_give n m i :
  mw_wf n m -> 0 <= i < n -> isfree_bit m i = false ->
  exists m', bcm_mwbmap_free m i = Some m' /\ mw_wf n m' /\
    forall j, 0 <= j -> isfree_bit m' j = isfree_bit m j || (j =? i).
Proof.
  intros Hwf Hi Hfree. pose proof (wf_bounds _ _ Hwf). destruct (ix_eqn i) as [Ei Hb].
  pose proof (wf_len_id _ _ Hwf). pose proof (wf_len_wd _ _ Hwf).
  assert (ifree m = cnt (abit (id_bitmap m)) (Z.to_nat n)) by apply (wf_ifree _ _ Hwf).
  destruct (or_at (id_bitmap m) i) as (w & id' & Hw & Hid & _ & _ & Hbits);
    [apply (wf_id_words _ _ Hwf)|lia|].
  unfold bcm_mwbmap_free, isfree_bit in *. rewrite !DIVOP_div, !MODOP_mod.
  assert (Z.testbit w (i mod 32) = false) as Hwb by (unfold abit in Hfree; by rewrite Hw in Hfree).
  set (k := i / 32) in *. set (b := i mod 32) in *. clearbody k b.
  destruct (aset_inv _ _ _ _ Hid) as [Hkr ->]. destruct (ix_eqn k) as [_ Hkb].
  assert (0 <= w < 2 ^ 32) as Hwr by (eapply wf_id_words; eauto).
  pose proof (lor_pow2_range w b Hwr Hb) as Hwr'.
  pose proof (wf_cnt _ _ Hwf _ _ Hw) as Hc. pose proof (aget_lt _ _ _ Hc).
  pose proof (popcount_range (Z.lor w (2 ^ b))) as Hpr. pose proof (popcount_range w).
  pose proof (popcount_zero _ Hwr') as Hpz.
  pose proof (popcount_set w b Hb Hwb) as Hpc.
  destruct (or_at (wd_bitmap m) k)
    as (v & wd' & Hv & Hwd & Hlwd & Hokwd & Hwbits); [apply (wf_wd_words _ _ Hwf)|lia|].
  pose proof (cnt_give n _ _ i Hi Hfree Hbits) as Hcnt.
  pose proof (cnt_bounds (abit (id_bitmap m)) (Z.to_nat n)).
  rewrite !bit32, Hw by done. cbn [mbind option_bind].
  rewrite Hid. cbn [mbind option_bind]. rewrite Hc. cbn [mbind option_bind].
  rewrite (wraps_small 8), aset_Some by zlia.
  cbn [mbind option_bind]. rewrite <- Hpc, Hv. cbn [mbind option_bind].
  rewrite Hwd. cbn [mbind option_bind].
  eexists. split_and!; [done| |done].
  eapply wf_update; try done.
  - intros j Hj. rewrite Hwbits by done.
    destruct (Z.eqb_spec j k) as [->|]; rewrite ?orb_true_r, ?orb_false_r; [|done].
    zcmp; [|done]. lia.
  - intros j Hj. rewrite Hbits by lia.
    rewrite (wf_high _ _ Hwf j Hj : abit (id_bitmap m) j = false). zcmp; [lia|done].
  - rewrite wraps_small; zlia.
Qed.

Lemma land_pow2_test w b : 0 <= b -> (Z.land w (2 ^ b) =? 0) = negb (Z.testbit w b).
Proof.
  intros Hb. destruct (Z.eqb_spec (Z.land w (2 ^ b)) 0) as [E|E].
  - assert (Z.testbit (Z.land w (2 ^ b)) b = false) as Hf by (rewrite E; apply Z.bits_0).
    rewrite Z.land_spec, Z.pow2_bits_true, andb_true_r in Hf by done. by rewrite Hf.
  - destruct (Z.testbit w b) eqn:Hw; [done|]. exfalso. apply E, Z.bits_inj'.
    intros j Hj. rewrite Z.land_spec, Z.pow2_bits_eqb, Z.bits_0 by done.
    zcmp; subst; [by rewrite Hw|by rewrite andb_false_r].
Qed.

(** bcm_mwbmap_isfree reads the abstract state. *)
Lemma isfree_reads n m i :
  mw_wf n m -> 0 <= i < n -> bcm_mwbmap_isfree m i = Some (isfree_bit m i).
Proof.
  intros Hwf Hi. pose proof (wf_bounds _ _ Hwf). destruct (ix_eqn i) as [Ei Hb].
  pose proof (wf_len_id _ _ Hwf).
  unfold bcm_mwbmap_isfree, isfree_bit, abit. rewrite !DIVOP_div, !MODOP_mod, bit32 by done.
  destruct (aget_is_Some (id_bitmap m) (i / 32)) as [w Hw]; [lia|].
  rewrite Hw. cbn [mbind option_bind]. by rewrite land_pow2_test, negb_involutive by lia.
Qed.

Lemma abit_word arr k w b :
  aget arr k = Some w -> 0 <= b < 32 -> abit arr (32 * k + b) = Z.testbit w b.
Proof.
  intros Hk Hb. unfold abit. destruct (split_ix (32 * k + b) k b Hb eq_refl) as [-> ->].
  by rewrite Hk.
Qed.

(** A word all of whose first-level bits are clear holds no free index. *)
Lemma not_free_by_level1 n m i :
  mw_wf n m -> 0 <= i -> abit (wd_bitmap m) (i / 32) = false -> isfree_bit m i = false.
Proof.
  intros Hwf Hi Hl1. rewrite (wf_wd _ _ Hwf) in Hl1 by (apply Z.div_pos; lia).
  unfold isfree_bit, abit. destruct (aget (id_bitmap m) (i / 32)); [|done].
  apply negb_false_iff, Z.eqb_eq in Hl1 as ->. apply Z.bits_0.
Qed.

(** The index picked from a non-zero first-level word: taking it is
    bcm_mwbmap_force, and no smaller index of that word is free. *)
Lemma alloc_found_force n m x v :
  mw_wf n m -> aget (wd_bitmap m) x = Some v -> v <> 0 ->
  exists i, alloc_found m x v = (m' ← bcm_mwbmap_force m i; Some (i, m')) /\
    0 <= i < n /\ isfree_bit m i = true /\
    forall j, 1024 * x <= j < i -> isfree_bit m j = false.
Proof.
  intros Hwf Hx Hv. pose proof (aget_lt _ _ _ Hx) as Hxr. pose proof (wf_bounds _ _ Hwf).
  pose proof (wf_len_wd _ _ Hwf).
  destruct (trailing_one_spec v) as (b1 & Hb1 & Hv1 & Hlow1 & Ht1);
    [by eapply wf_wd_words|done|].
  set (k := 32 * x + b1).
  pose proof (abit_word _ _ _ b1 Hx Hb1) as Hk. fold k in Hk.
  rewrite (wf_wd _ _ Hwf), Hv1 in Hk by lia.
  destruct (aget (id_bitmap m) k) as [w|] eqn:Hw; [|done].
  apply negb_true_iff, Z.eqb_neq in Hk.
  pose proof (aget_lt _ _ _ Hw) as Hkr. rewrite (wf_len_id _ _ Hwf) in Hkr.
  destruct (trailing_one_spec w) as (b & Hb & Hwb & Hlow & Ht);
    [by eapply wf_id_words|done|].
  set (i := 32 * k + b). destruct (split_ix i k b Hb eq_refl) as [Hdiv Hmod].
  assert (isfree_bit m i = true) as Hfree.
  { unfold isfree_bit, i. by rewrite (abit_word _ _ w). }
  exists i. split_and!; [| |destruct (decide (i < n)); [done|]|done|].
  - unfold alloc_found, bcm_mwbmap_force.
    rewrite Ht1, clz_pow2, !DIVOP_div, !MODOP_mod, Hdiv, Hmod by done.
    destruct (split_ix k x b1 Hb1 eq_refl) as [-> ->].
    rewrite (MULOP_mul x) by zlia.
    replace (BCM_MWBMAP_BITS_WORD - 1 - (31 - b1)) with b1 by (unfold BCM_MWBMAP_BITS_WORD; lia).
    fold k. rewrite (wrapu_small 32 k), Hw by zlia. cbn [mbind option_bind].
    rewrite Ht, clz_pow2, (MULOP_mul k) by zlia.
    replace (32 * k + (BCM_MWBMAP_BITS_WORD - 1) - (31 - b)) with i
      by (unfold i, BCM_MWBMAP_BITS_WORD; lia).
    rewrite (wrapu_small 32 i), Hx, bit32 by zlia. cbn [mbind option_bind].
    rewrite (wf_cnt _ _ Hwf _ _ Hw). cbn [mbind option_bind].
    destruct (aset (wd_count m) _ _), (aset (wd_bitmap m) _ _), (aset (id_bitmap m) _ _); done.
  - lia.
  - rewrite (wf_high _ _ Hwf) in Hfree by lia. done.
  - intros j Hj. destruct (ix_eqn j) as [Ej Hjm].
    destruct (decide (j / 32 = k)) as [Ejk|].
    + unfold isfree_bit, abit. rewrite Ejk, Hw. apply Hlow. lia.
    + apply (not_free_by_level1 n); [done|lia|].
      replace (j / 32) with (32 * x + (j / 32 - 32 * x)) by lia.
      rewrite (abit_word _ _ v) by (done || lia). apply Hlow1. lia.
Qed.

Lemma alloc_loop_spec n m fuel x :
  mw_wf n m -> 0 <= x -> Z.of_nat fuel + x = wmaps m ->
  (forall j, 0 <= j < 1024 * x -> isfree_bit m j = false) ->
  (exists i, alloc_loop m fuel x = (m' ← bcm_mwbmap_force m i; Some (i, m')) /\
    0 <= i < n /\ isfree_bit m i = true /\ forall j, 0 <= j < i -> isfree_bit m j = false) \/
  (alloc_loop m fuel x = Some (BCM_MWBMAP_INVALID_IDX, m) /\
    forall j, 0 <= j -> isfree_bit m j = false).
Proof.
  intros Hwf. pose proof (wf_bounds _ _ Hwf). pose proof (wf_len_wd _ _ Hwf).
  revert x. induction fuel as [|fuel IH]; intros x Hx Hf Hbelow; cbn [alloc_loop].
  - right. split; [done|]. intros j Hj.
    destruct (decide (j < n)); [apply Hbelow; lia|apply (wf_high _ _ Hwf); lia].
  - destruct (aget_is_Some (wd_bitmap m) x) as [v Hv]; [lia|]. rewrite Hv. cbn [mbind option_bind].
    destruct (Z.eqb_spec v 0) as [->|Hne]; cbn [negb].
    + apply IH; [lia|lia|]. intros j Hj.
      destruct (decide (j < 1024 * x)); [by apply Hbelow; lia|].
      destruct (ix_eqn j) as [Ej Hjm]. apply (not_free_by_level1 n); [done|lia|].
      replace (j / 32) with (32 * x + (j / 32 - 32 * x)) by lia.
      rewrite (abit_word _ _ 0) by (done || lia). apply Z.bits_0.
    + left. destruct (alloc_found_force n m x v) as (i & ? & ? & ? & Hlow); [done..|].
      exists i. split_and!; try done; try lia. intros j Hj.
      destruct (decide (j < 1024 * x)); [apply Hbelow|apply Hlow]; lia.
Qed.

(** bcm_mwbmap_alloc takes the least free index; it fails exactly when the
    free count is zero, and then changes nothing. *)
Lemma alloc_spec n m :
  mw_wf n m ->
  (exists i m', bcm_mwbmap_alloc m = Some (i, m') /\ mw_wf n m' /\ 0 <= i < n /\
    isfree_bit m i = true /\ (forall j, 0 <= j < i -> isfree_bit m j = false) /\
    (forall j, 0 <= j -> isfree_bit m' j = isfree_bit m j && negb (j =? i))) \/
  (bcm_mwbmap_alloc m = Some (BCM_MWBMAP_INVALID_IDX, m) /\ ifree m = 0 /\
    forall j, 0 <= j -> isfree_bit m j = false).
Proof.
  intros Hwf. pose proof (wf_bounds _ _ Hwf). unfold bcm_mwbmap_alloc.
  destruct (alloc_loop_spec n m (Z.to_nat (wmaps m)) 0)
    as [(i & -> & Hi & Hfree & Hlow)|[-> Hnone]]; [done|lia|lia|intros; lia|..].
  - left. destruct (force_take n m i) as (m' & -> & Hwf' & Hfr); [done..|].
    cbn [mbind option_bind]. by exists i, m'.
  - right. split_and!; [done| |done]. rewrite (wf_ifree _ _ Hwf).
    apply cnt_zero. intros; apply Hnone; lia.
Qed.

(** ** Initialisation *)
Lemma fill_spec v fuel x arr :
  0 <= x -> x + Z.of_nat fuel <= Z.of_nat (length arr) ->
  exists arr', fill fuel x v arr = Some arr' /\ length arr' = length arr /\
    forall i, aget arr' i = if decide (x <= i < x + Z.of_nat fuel) then Some v else aget arr i.
Proof.
  revert x arr. induction fuel as [|fuel IH]; intros x arr Hx Hlen; cbn [fill].
  - exists arr. split_and!; [done..|]. intros i. case_decide; [lia|done].
  - rewrite aset_Some by lia. cbn [mbind option_bind].
    destruct (IH (x + 1) (<[Z.to_nat x:=v]> arr)) as (arr' & -> & Hl & Hg);
      rewrite ?length_insert in *; [lia..|].
    exists arr'. split_and!; [done..|]. intros i. rewrite Hg, aget_insert by lia.
    repeat case_decide; (done || lia).
Qed.

Lemma init_words_fill fuel x id cn id' cn' :
  fill fuel x (u32 (Z.lnot 0)) id = Some id' -> fill fuel x (s8 BCM_MWBMAP_BITS_WORD) cn = Some cn' ->
  init_words fuel x id cn = Some (id', cn').
Proof.
  revert x id cn. induction fuel as [|fuel IH]; intros x id cn; cbn [fill init_words].
  - by intros [= ->] [= ->].
  - destruct (aset id x _); cbn; [|done]. destruct (aset cn x _); cbn; [|done]. apply IH.
Qed.

(** [~0U] with the bits from [extra] up flipped: the low [extra] bits. *)
Lemma fixup_word extra :
  0 <= extra < 32 ->
  Z.lxor (u32 (Z.lnot 0)) (u32 (Z.shiftl (u32 (Z.lnot 0)) extra)) = Z.ones extra.
Proof.
  intros He.
  assert (forallb (fun e => Z.lxor (u32 (Z.lnot 0)) (u32 (Z.shiftl (u32 (Z.lnot 0)) e)) =? Z.ones e)
            (seqZ 0 32) = true) as Hall by reflexivity.
  rewrite forallb_forall in Hall. apply Z.eqb_eq, Hall, list_elem_of_In, elem_of_seqZ. lia.
Qed.

(** The contents of an array whose first [n] bits, and no others, are set. *)
Definition trimmed_form (arr : list Z) (n : Z) : Prop :=
  forall i, aget arr i =
    if decide (0 <= i < n / 32) then Some (u32 (Z.lnot 0)) else
    if decide (i = n / 32 /\ n mod 32 <> 0) then Some (Z.ones (n mod 32))
    else if decide (0 <= i < Z.of_nat (length arr)) then Some 0 else None.

Lemma trimmed_words_ok arr n : trimmed_form arr n -> words_ok arr.
Proof.
  intros Harr k w. rewrite Harr. destruct (ix_eqn n) as [_ Hnr].
  destruct (decide (0 <= k < n / 32)); [intros [= <-]; apply wrapu_range; lia|].
  destruct (decide (k = n / 32 /\ n mod 32 <> 0)).
  - intros [= <-]. rewrite Z.ones_equiv. pose proof (Z.pow_lt_mono_r 2 (n mod 32) 32).
    pose proof (Z.pow_pos_nonneg 2 (n mod 32)). lia.
  - destruct (decide _); [intros [= <-]; lia|done].
Qed.

(** A filled bit array with its last word trimmed has exactly its first [n]
    bits set. *)
Lemma abit_trimmed arr n :
  0 <= n ->
  trimmed_form arr n ->
  forall i, 0 <= i -> abit arr i = (i <? n).
Proof.
  intros Hn Harr i Hi. unfold abit. rewrite Harr.
  destruct (ix_eqn i) as [Ei Hr]. destruct (ix_eqn n) as [En Hnr].
  set (k := i / 32) in *. set (b := i mod 32) in *. set (K := n / 32) in *. set (B := n mod 32) in *.
  clearbody k b K B.
  destruct (decide (0 <= k < K)); [|destruct (decide _); [|destruct (decide _)]].
  - rewrite testbit_wrapu, Z.lnot_spec, Z.bits_0 by lia. zcmp; (done || lia).
  - destruct (Z.ltb_spec i n); [apply Z.ones_spec_low|apply Z.ones_spec_high]; lia.
  - rewrite Z.bits_0. destruct (Z.ltb_spec i n); [lia|done].
  - destruct (Z.ltb_spec i n); [lia|done].
Qed.

Definition ceil32 (n : Z) : Z := n / 32 + (if negb (n mod 32 =? 0) then 1 else 0).

Lemma ceil32_eq n : 0 <= n -> ceil32 n = (n + 31) / 32.
Proof. intros. unfold ceil32. zcmp; cbn; Z.div_mod_to_equations; lia. Qed.

(** The fill loop and the fix-up of the last word, on a zeroed array. *)
Lemma trimmed_array len n :
  0 <= n -> ceil32 n <= Z.of_nat len ->
  exists arr1 arr2,
    fill (Z.to_nat (ceil32 n)) 0 (u32 (Z.lnot 0)) (replicate len 0) = Some arr1 /\
    (if negb (n mod 32 =? 0) then fixup_last arr1 (ceil32 n - 1) (n mod 32) else Some arr1)
      = Some arr2 /\
    length arr2 = len /\
    trimmed_form arr2 n.
Proof.
  intros Hn Hlen. destruct (ix_eqn n) as [En Hnr]. assert (0 <= n / 32) by lia.
  assert (0 <= ceil32 n) by (unfold ceil32; zcmp; cbn; lia).
  destruct (fill_spec (u32 (Z.lnot 0)) (Z.to_nat (ceil32 n)) 0 (replicate len 0))
    as (arr1 & Hf & Hl & Hg); rewrite ?length_replicate; [lia..|].
  rewrite length_replicate in Hl. rewrite Z2Nat.id in Hg by done.
  exists arr1. unfold trimmed_form, ceil32 in *.
  set (K := n / 32) in *. set (B := n mod 32) in *. clearbody K B.
  assert (forall i, ~ (0 <= i < Z.of_nat len) -> aget (replicate len 0) i = None) as Hout.
  { intros i Hi. destruct (aget (replicate len 0) i) eqn:E; [|done].
    apply aget_lt in E. rewrite length_replicate in E. lia. }
  destruct (Z.eqb_spec B 0) as [HB|HB]; cbn [negb] in *.
  - exists arr1. split_and!; [done..|]. intros i. rewrite Hg, Hl.
    destruct (decide (0 <= i < 0 + (K + 0))), (decide (0 <= i < K)); try lia; [done|].
    destruct (decide (i = K /\ B <> 0)); [lia|].
    destruct (decide (0 <= i < Z.of_nat len)); [by apply aget_replicate|by apply Hout].
  - unfold fixup_last. rewrite Hg. destruct (decide _); [|lia]. cbn [mbind option_bind].
    rewrite fixup_word, aset_Some by lia. eexists. split_and!; [done..|by rewrite length_insert|].
    intros i. rewrite aget_insert, length_insert, Hg, Hl by lia.
    destruct (decide (K + 1 - 1 = i)).
    { destruct (decide (0 <= i < K)); [lia|]. destruct (decide (i = K /\ B <> 0)); [done|lia]. }
    destruct (decide (0 <= i < K)), (decide (0 <= i < 0 + (K + 1))); try lia; [done|].
    destruct (decide (i = K /\ B <> 0)); [lia|].
    destruct (decide (0 <= i < Z.of_nat len)); [by apply aget_replicate|by apply Hout].
Qed.

Lemma popcount_ones B : 0 <= B <= 32 -> popcount (Z.ones B) = B.
Proof.
  intros HB.
  assert (forallb (fun b => popcount (Z.ones b) =? b) (seqZ 0 33) = true) as Hall by reflexivity.
  rewrite forallb_forall in Hall. apply Z.eqb_eq, Hall, list_elem_of_In, elem_of_seqZ. lia.
Qed.

(** The running counts of the filled second level. *)
Lemma init_counts n id2 :
  0 <= n -> ceil32 n <= 2048 -> Z.of_nat (length id2) = ceil32 n ->
  trimmed_form id2 n ->
  exists cn1 cn2,
    fill (Z.to_nat (ceil32 n)) 0 (s8 32) (replicate (Z.to_nat 2048) 0) = Some cn1 /\
    (if negb (n mod 32 =? 0) then aset cn1 (ceil32 n - 1) (s8 (n mod 32)) else Some cn1)
      = Some cn2 /\
    Z.of_nat (length cn2) = 2048 /\
    forall k w, aget id2 k = Some w -> aget cn2 k = Some (popcount w).
Proof.
  intros Hn Hk Hlid Hid. destruct (ix_eqn n) as [En Hnr].
  assert (0 <= ceil32 n) by (unfold ceil32; zcmp; cbn; lia).
  destruct (fill_spec (s8 32) (Z.to_nat (ceil32 n)) 0 (replicate (Z.to_nat 2048) 0))
    as (cn1 & Hf & Hl & Hg); rewrite ?length_replicate; [lia..|].
  rewrite length_replicate in Hl. rewrite Z2Nat.id in Hg by done.
  exists cn1. unfold trimmed_form, ceil32 in *. set (K := n / 32) in *. set (B := n mod 32) in *. clearbody K B.
  destruct (Z.eqb_spec B 0) as [HB|HB]; cbn [negb] in *.
  - exists cn1. split_and!; [done..|lia|]. intros k w Hw.
    pose proof (aget_lt _ _ _ Hw) as Hkr. rewrite Hid in Hw. rewrite Hg.
    destruct (decide (0 <= k < K)); [|repeat case_decide; lia].
    destruct (decide (0 <= k < 0 + (K + 0))); [|lia]. by injection Hw as <-.
  - rewrite aset_Some, (wraps_small 8 B) by zlia. eexists.
    split_and!; [done..|rewrite length_insert; lia|]. intros k w Hw.
    pose proof (aget_lt _ _ _ Hw) as Hkr. rewrite Hid in Hw. rewrite aget_insert, Hg by lia.
    destruct (decide (0 <= k < K)).
    + destruct (decide (K + 1 - 1 = k)); [lia|].
      destruct (decide (0 <= k < 0 + (K + 1))); [|lia]. by injection Hw as <-.
    + destruct (decide (K + 1 - 1 = k)); [|lia].
      destruct (decide (k = K /\ B <> 0)); [|lia]. injection Hw as <-.
      by rewrite popcount_ones by lia.
Qed.

Lemma init_wf n id2 wd2 cn2 :
  let m := mk_mwbmap (ceil32 (ceil32 n)) (ceil32 n) n (u16 n) wd2 cn2 id2 in
  0 <= n <= BCM_MWBMAP_ITEMS_MAX ->
  trimmed_form id2 n ->
  (forall i, 0 <= i -> abit id2 i = (i <? n)) ->
  (forall i, 0 <= i -> abit wd2 i = (i <? ceil32 n)) -> words_ok wd2 ->
  Z.of_nat (length id2) = ceil32 n -> length wd2 = 64%nat -> Z.of_nat (length cn2) = 2048 ->
  (forall k w, aget id2 k = Some w -> aget cn2 k = Some (popcount w)) ->
  mw_wf n m /\ forall i, 0 <= i -> isfree_bit m i = (i <? n).
Proof.
  intros m Hn Hid Habit Hwbit Hwok Hil Hwl Hcl Hcn. split; [|exact Habit].
  destruct (ix_eqn n) as [En Hnr].
  assert (0 <= ceil32 n) by (unfold ceil32; zcmp; cbn; lia).
  constructor; cbn [m wmaps imaps ifree total wd_bitmap wd_count id_bitmap]; try done.
  - by rewrite ceil32_eq by lia.
  - by rewrite ceil32_eq by lia.
  - by rewrite Hwl.
  - by apply (trimmed_words_ok _ n).
  - intros i Hi. unfold isfree_bit. cbn. rewrite Habit by lia. zcmp; [lia|done].
  - unfold trimmed_form in Hid. intros k Hk. rewrite Hwbit by done. destruct (Z.ltb_spec k (ceil32 n)).
    + destruct (aget_is_Some id2 k) as [w Hw]; [lia|]. rewrite Hw.
      rewrite Hid in Hw. unfold ceil32 in *.
      destruct (decide (0 <= k < n / 32)); [by injection Hw as <-|].
      destruct (decide (k = n / 32 /\ n mod 32 <> 0)) as [[-> ?]|]; [|destruct (Z.eqb_spec (n mod 32) 0); cbn in *; lia].
      injection Hw as <-. pose proof (popcount_ones (n mod 32)).
      destruct (Z.eqb_spec (Z.ones (n mod 32)) 0) as [E|]; [|done].
      rewrite E in *. change (popcount 0) with 0 in *. lia.
    + rewrite aget_out by lia. done.
  - rewrite (cnt_ext _ (fun _ => true)), cnt_full by
      (done || intros i Hi; unfold isfree_bit; cbn; rewrite Habit by lia; zcmp; lia). lia.
Qed.

(** bcm_mwbmap_init: every index below [n] is free. *)
Lemma init_spec n :
  0 <= n <= BCM_MWBMAP_ITEMS_MAX ->
  exists m, bcm_mwbmap_init true n = Some (Some m) /\ mw_wf n m /\ ifree m = n /\
    total m = u16 n /\ forall i, 0 <= i -> isfree_bit m i = (i <? n).
Proof.
  intros Hn. pose proof Hn as Hn'. unfold BCM_MWBMAP_ITEMS_MAX in Hn. destruct (ix_eqn n) as [En Hnr].
  assert (0 <= ceil32 n <= 2048 /\ n <= 32 * ceil32 n) as [HK HKn]
    by (unfold ceil32; zcmp; cbn; lia).
  destruct (ix_eqn (ceil32 n)) as [EK HKr].
  assert (0 <= ceil32 (ceil32 n) <= 64) as HW by (unfold ceil32 at 1 3; zcmp; cbn; lia).
  destruct (trimmed_array (Z.to_nat (ceil32 n)) n) as (id1 & id2 & Hi1 & Hi2 & Hil & Hid); [lia..|].
  destruct (trimmed_array 64 (ceil32 n)) as (wd1 & wd2 & Hw1 & Hw2 & Hwl & Hwd); [lia..|].
  destruct (init_counts n id2) as (cn1 & cn2 & Hc1 & Hc2 & Hcl & Hcn); [lia..|done|].
  destruct (init_wf n id2 wd2 cn2) as [Hwf Hfr]; try done; [| | |lia|].
  { by apply abit_trimmed; [lia|]. }
  { by apply abit_trimmed; [lia|]. }
  { by apply (trimmed_words_ok _ (ceil32 n)). }
  exists (mk_mwbmap (ceil32 (ceil32 n)) (ceil32 n) n (u16 n) wd2 cn2 id2).
  split_and!; try done.
  unfold bcm_mwbmap_init. cbv zeta. rewrite (DIVOP_div n), (MODOP_mod n). fold (ceil32 n).
  cbn [negb]. rewrite (wrapu_small 16 (ceil32 n)), MODOP_mod, DIVOP_div by zlia. fold (ceil32 (ceil32 n)).
  rewrite (wrapu_small 16 (ceil32 (ceil32 n))), (wraps_small 32 n) by zlia.
  change (Z.to_nat BCM_MWBMAP_WORDS_MAX) with (Z.to_nat 2048).
  change (Z.to_nat BCM_MWBMAP_WDMAP_MAX) with 64%nat.
  rewrite (init_words_fill _ _ _ _ _ _ Hi1 Hc1). cbn [mbind option_bind].
  destruct (Z.eqb_spec (n mod 32) 0); cbn [negb] in *.
  - injection Hi2 as ->. injection Hc2 as ->. cbn [mbind option_bind].
    rewrite Hw1. cbn [mbind option_bind]. by rewrite Hw2.
  - rewrite Hi2. cbn [mbind option_bind]. rewrite Hc2. cbn [mbind option_bind].
    rewrite Hw1. cbn [mbind option_bind]. by rewrite Hw2.
Qed.

(** ** The audit *)
Lemma cntsetbits_byte x j :
  0 <= j -> aget CSBTBL (u8 (Z.shiftr x j)) = Some (cnt (fun i => Z.testbit x (j + i)) 8).
Proof.
  intros Hj.
  assert (forallb (fun v => match aget CSBTBL v with
            | Some c => c =? cnt (Z.testbit v) 8 | None => false end) (seqZ 0 256) = true)
    as Hall by reflexivity.
  pose proof (wrapu_range 8 (Z.shiftr x j)) as Hr.
  rewrite forallb_forall in Hall. specialize (Hall (u8 (Z.shiftr x j))).
  destruct (aget CSBTBL (u8 (Z.shiftr x j))) as [c|].
  - f_equal. rewrite (cnt_ext _ (Z.testbit (u8 (Z.shiftr x j)))).
    + apply Z.eqb_eq, Hall, list_elem_of_In, elem_of_seqZ. zlia.
    + intros i Hi. rewrite testbit_wrapu, Z.shiftr_spec by lia.
      destruct (Z.ltb_spec i 8); [|lia]. cbn. f_equal. lia.
  - discriminate Hall. apply list_elem_of_In, elem_of_seqZ. zlia.
Qed.

Lemma bcm_cntsetbits_popcount w : bcm_cntsetbits w = Some (popcount w).
Proof.
  unfold bcm_cntsetbits. rewrite <- (Z.shiftr_0_r w) at 1.
  rewrite !cntsetbits_byte by lia. cbn [mbind option_bind]. f_equal.
  unfold popcount. change 32%nat with (8 + (8 + (8 + 8)))%nat.
  rewrite !cnt_app. change (Z.of_nat 8) with 8.
  rewrite (cnt_ext (fun i => Z.testbit w (0 + i)) (Z.testbit w) 8) by done.
  rewrite <- !Z.add_assoc. do 3 f_equal.
  all: apply cnt_ext; intros; f_equal; lia.
Qed.

(** One step of the audit: the words of the second level in order. *)
Lemma cnt_word n m k :
  mw_wf n m -> 0 <= k ->
  cnt (isfree_bit m) (Z.to_nat (32 * (k + 1))) =
  cnt (isfree_bit m) (Z.to_nat (32 * k)) +
  match aget (id_bitmap m) k with Some w => popcount w | None => 0 end.
Proof.
  intros Hwf Hk. replace (Z.to_nat (32 * (k + 1))) with (Z.to_nat (32 * k) + 32)%nat by lia.
  rewrite cnt_app. f_equal. destruct (aget (id_bitmap m) k) as [w|] eqn:Hw.
  - apply cnt_ext. intros i Hi. rewrite Z2Nat.id by lia. by apply abit_word.
  - apply (cnt_zero _ 32). intros i Hi. rewrite Z2Nat.id by lia.
    apply (not_free_by_level1 n); [done|lia|].
    destruct (split_ix (32 * k + i) k i Hi eq_refl) as [-> _].
    by rewrite (wf_wd _ _ Hwf), Hw by done.
Qed.

Lemma audit_bits_spec n m fuel x b v :
  mw_wf n m -> aget (wd_bitmap m) x = Some v -> 0 <= b -> b + Z.of_nat fuel <= 32 ->
  audit_bits m fuel x b v (cnt (isfree_bit m) (Z.to_nat (32 * (32 * x + b)))) =
  Some (cnt (isfree_bit m) (Z.to_nat (32 * (32 * x + b + Z.of_nat fuel)))).
Proof.
  intros Hwf Hv. pose proof (aget_lt _ _ _ Hv) as Hx. rewrite (wf_len_wd _ _ Hwf) in Hx.
  revert b. induction fuel as [|fuel IH]; intros b Hb Hf; cbn [audit_bits].
  { do 4 f_equal. lia. }
  assert (0 <= b < 32) as Hb' by lia.
  pose proof (abit_word _ _ _ b Hv Hb') as Hl1. rewrite (wf_wd _ _ Hwf) in Hl1 by lia.
  pose proof (cnt_word n m (32 * x + b) Hwf ltac:(lia)) as Hc.
  pose proof (cnt_bounds (isfree_bit m) (Z.to_nat (32 * (32 * x + b + 1)))).
  rewrite Z.shiftl_1_l, land_pow2_test, negb_involutive by lia.
  replace (32 * x + b + Z.of_nat (S fuel)) with (32 * x + (b + 1) + Z.of_nat fuel) by lia.
  rewrite <- IH, <- Hl1, Z.add_assoc by lia. clear IH.
  rewrite (MULOP_mul x), (wrapu_small 32 (32 * x + b)) by zlia.
  destruct (aget (id_bitmap m) (32 * x + b)) as [w|] eqn:Hw; [|by rewrite Hc, Z.add_0_r].
  destruct (Z.eqb_spec w 0) as [->|Hne]; cbn [negb mbind option_bind].
  { rewrite Hc. change (popcount 0) with 0. by rewrite Z.add_0_r. }
  rewrite (wf_cnt _ _ Hwf _ _ Hw). cbn [mbind option_bind].
  rewrite bcm_cntsetbits_popcount. cbn [mbind option_bind].
  pose proof (popcount_range w).
  rewrite (wrapu_small 32 (popcount w)), Z.eqb_refl by zlia.
  assert (popcount w <> 0) as Hp.
  { intros E. apply Hne, popcount_zero; [by eapply wf_id_words|done]. }
  apply Z.eqb_neq in Hp as ->. cbn [negb andb mbind option_bind].
  rewrite <- Hc, wrapu_small by zlia. done.
Qed.

Lemma audit_words_spec n m fuel x :
  mw_wf n m -> 0 <= x -> x + Z.of_nat fuel <= 64 ->
  audit_words m fuel x (cnt (isfree_bit m) (Z.to_nat (1024 * x))) =
  Some (cnt (isfree_bit m) (Z.to_nat (1024 * (x + Z.of_nat fuel)))).
Proof.
  intros Hwf. revert x. induction fuel as [|fuel IH]; intros x Hx Hf; cbn [audit_words].
  { do 4 f_equal. lia. }
  destruct (aget_is_Some (wd_bitmap m) x) as [v Hv]; [rewrite (wf_len_wd _ _ Hwf); lia|].
  rewrite Hv. cbn [mbind option_bind].
  replace (1024 * x) with (32 * (32 * x + 0)) by lia.
  rewrite (audit_bits_spec n) by (done || lia). cbn [mbind option_bind].
  replace (32 * (32 * x + 0 + Z.of_nat (Z.to_nat BCM_MWBMAP_BITS_WORD))) with (1024 * (x + 1))
    by (change (Z.of_nat (Z.to_nat BCM_MWBMAP_BITS_WORD)) with 32; lia).
  rewrite IH by lia. do 3 f_equal. lia.
Qed.

Lemma audit_spec n m : mw_wf n m -> bcm_mwbmap_audit m = Some tt.
Proof.
  intros Hwf. pose proof (wf_bounds _ _ Hwf) as Hb. unfold bcm_mwbmap_audit.
  pose proof (audit_words_spec n m (Z.to_nat (wmaps m)) 0 Hwf) as Ha.
  change (cnt (isfree_bit m) (Z.to_nat (1024 * 0))) with 0 in Ha.
  rewrite Ha by lia. cbn [mbind option_bind]. clear Ha. rewrite (wf_ifree _ _ Hwf).
  replace (Z.to_nat (1024 * (0 + Z.of_nat (Z.to_nat (wmaps m))))) with
    (Z.to_nat n + Z.to_nat (1024 * wmaps m - n))%nat by lia.
  rewrite cnt_app, (proj2 (cnt_zero (fun i => isfree_bit m (Z.of_nat (Z.to_nat n) + i)) _)).
  - pose proof (cnt_bounds (isfree_bit m) (Z.to_nat n)).
    rewrite wraps_small by zlia. by rewrite Z.add_0_r, Z.eqb_refl.
  - intros i Hi. apply (wf_high _ _ Hwf). lia.
Qed.

(** ** The allocator interface *)
Lemma isfree_range n m i : mw_wf n m -> isfree_bit m i = true -> 0 <= i < n.
Proof.
  intros Hwf Hi. destruct (decide (n <= i)); [by rewrite (wf_high _ _ Hwf) in Hi|].
  unfold isfree_bit, abit in Hi. destruct (aget (id_bitmap m) (i / 32)) eqn:E; [|done].
  apply aget_lt in E. destruct (ix_eqn i). lia.
Qed.

#[global, refine] Instance mw_allocator (n : Z) : IdAllocator bcm_mwbmap (seqZ 0 n) := {
  ida_wf := mw_wf n; ida_avail := isfree_bit;
  ida_alloc := mw_request; ida_free := bcm_mwbmap_free
}.
Proof.
  - intros m i Hwf Hi. apply elem_of_seqZ. pose proof (isfree_range _ _ _ Hwf Hi). lia.
  - intros m Hwf. pose proof (wf_bounds _ _ Hwf). unfold mw_request.
    destruct (alloc_spec n m Hwf) as [(i & m' & -> & Hwf' & Hi & Hfree & _ & Hfr)|(-> & _ & Hno)];
      cbn [mbind option_bind].
    + left. exists i, m'. split_and!; try done.
      * assert (BCM_MWBMAP_INVALID_IDX = 4294967295) as -> by done. zcmp; [lia|done].
      * intros j Hj%elem_of_seqZ. apply Hfr. lia.
    + right. exists m. rewrite Z.eqb_refl. split_and!; try done.
      intros j Hj%elem_of_seqZ. split; apply Hno; lia.
  - intros m i Hwf Hi%elem_of_seqZ Hfree.
    destruct (free_give n m i) as (m' & ? & ? & Hfr); [done|lia|done|].
    exists m'. split_and!; try done. intros j Hj%elem_of_seqZ. apply Hfr. lia.
Defined.

Lemma mw_init_inv n m :
  mw_wf n m -> (forall i, 0 <= i -> isfree_bit m i = (i <? n)) ->
  id_inv (managed := seqZ 0 n) (m, []).
Proof.
  intros Hwf Hfr. constructor; cbn; [done|constructor|by intros i []%elem_of_nil|].
  intros i Hi%elem_of_seqZ. rewrite Hfr by lia. zcmp; [done|lia].
Qed.

Lemma mw_inv_count n m out :
  id_inv (managed := seqZ 0 n) (m, out) -> ifree m = n - Z.of_nat (length out).
Proof.
  intros [Hwf Hnd Hsub Hav]; cbn in *. pose proof (wf_bounds _ _ Hwf).
  rewrite (wf_ifree _ _ Hwf), (cnt_ext _ (fun i => negb (bool_decide (i ∈ out)))).
  - rewrite cnt_not_in; [lia|done|]. intros i Hi%Hsub%elem_of_seqZ. lia.
  - intros i Hi. apply Hav, elem_of_seqZ. lia.
Qed.

(** ** Properties *)

(** C17: from bcm_mwbmap_init on, whatever sequence of allocations and of frees
    of held indices a client makes, no operation touches memory outside the
    bitmaps, bcm_mwbmap_audit passes, the free count is the number of indices
    not held, and the next bcm_mwbmap_alloc returns an index in range that
    nobody holds, or BCM_MWBMAP_INVALID_IDX when every index is held. *)
Theorem mwbmap_history n rs :
  1 <= n <= BCM_MWBMAP_ITEMS_MAX ->
  exists m0 m out,
    bcm_mwbmap_init true n = Some (Some m0) /\
    id_run (managed := seqZ 0 n) rs (m0, []) = Some (m, out) /\
    NoDup out /\ bcm_mwbmap_audit m = Some tt /\
    bcm_mwbmap_free_cnt m = n - Z.of_nat (length out) /\
    match bcm_mwbmap_alloc m with
    | Some (i, _) => if i =? BCM_MWBMAP_INVALID_IDX then forall j, 0 <= j < n -> j ∈ out
                     else 0 <= i < n /\ i ∉ out
    | None => False
    end.
Proof.
  intros Hn. destruct (init_spec n) as (m0 & Hi & Hwf & _ & _ & Hfr); [lia|].
  pose proof (mw_init_inv n m0 Hwf Hfr) as Hinv.
  destruct (id_run_inv rs _ Hinv) as ([m out] & Hr & Hinv').
  destruct (id_run_alloc rs _ Hinv) as (m1 & out1 & Hr1 & Hnd & Ha).
  rewrite Hr in Hr1. injection Hr1 as <- <-.
  pose proof (mw_inv_count _ _ _ Hinv') as Hcnt. pose proof (inv_wf _ Hinv' : mw_wf n m) as Hwfm.
  pose proof (id_inv_length _ Hinv') as Hlen. rewrite length_seqZ in Hlen. cbn in Hlen.
  pose proof (wf_bounds _ _ Hwfm).
  exists m0, m, out. split_and!; [done..|by apply (audit_spec n)| |].
  - unfold bcm_mwbmap_free_cnt. rewrite wrapu_small; zlia.
  - cbn in Ha. unfold mw_request in Ha.
    destruct (bcm_mwbmap_alloc m) as [[i m']|]; cbn in Ha; [|done].
    destruct (i =? BCM_MWBMAP_INVALID_IDX).
    + intros j Hj. apply Ha, elem_of_seqZ. lia.
    + rewrite elem_of_seqZ in Ha. destruct Ha. split; [lia|done].
Qed.

Lemma mwbmap_history_witness :
  exists m0 m out,
    bcm_mwbmap_init true 70 = Some (Some m0) /\
    id_run (managed := seqZ 0 70) [ReqAlloc; ReqAlloc; ReqFree 0; ReqAlloc] (m0, []) = Some (m, out) /\
    NoDup out /\ bcm_mwbmap_audit m = Some tt /\
    bcm_mwbmap_free_cnt m = 70 - Z.of_nat (length out) /\
    match bcm_mwbmap_alloc m with
    | Some (i, _) => if i =? BCM_MWBMAP_INVALID_IDX then forall j, 0 <= j < 70 -> j ∈ out
                     else 0 <= i < 70 /\ i ∉ out
    | None => False
    end.
Proof. apply (mwbmap_history 70). vm_compute. split; discriminate. Defined.

(** Bcm_mwbmap_alloc returns the least free index and takes only that one
    out of the map; it returns BCM_MWBMAP_INVALID_IDX, and leaves the map as it
    was, exactly when the free count is zero. *)
Theorem mwbmap_alloc_least n m :
  mw_wf n m ->
  (0 < bcm_mwbmap_free_cnt m /\ exists i m', bcm_mwbmap_alloc m = Some (i, m') /\ mw_wf n m' /\
    0 <= i < n /\ isfree_bit m i = true /\ (forall j, 0 <= j < i -> isfree_bit m j = false) /\
    (forall j, 0 <= j -> isfree_bit m' j = isfree_bit m j && negb (j =? i)) /\
    bcm_mwbmap_free_cnt m' = bcm_mwbmap_free_cnt m - 1) \/
  (bcm_mwbmap_free_cnt m = 0 /\ bcm_mwbmap_alloc m = Some (BCM_MWBMAP_INVALID_IDX, m)).
Proof.
  intros Hwf. pose proof (wf_bounds _ _ Hwf). unfold bcm_mwbmap_free_cnt.
  pose proof (cnt_bounds (isfree_bit m) (Z.to_nat n)).
  destruct (alloc_spec n m Hwf) as [(i & m' & Ha & Hwf' & Hi & Hfree & Hlow & Hfr)|(Ha & Hz & _)].
  - left. pose proof (cnt_take n _ _ i Hi Hfree Hfr) as Hc.
    pose proof (cnt_bounds (isfree_bit m') (Z.to_nat n)).
    pose proof (wf_ifree _ _ Hwf). pose proof (wf_ifree _ _ Hwf').
    rewrite (wrapu_small 32 (ifree m)) by zlia. split; [lia|].
    exists i, m'. rewrite wrapu_small by zlia. split_and!; (done || lia).
  - right. by rewrite Hz.
Qed.

Lemma mwbmap_alloc_least_witness :
  exists m, bcm_mwbmap_init true 70 = Some (Some m) /\
    exists i m', bcm_mwbmap_alloc m = Some (i, m') /\ isfree_bit m i = true.
Proof.
  destruct (init_spec 70) as (m & Hi & Hwf & Hf & _); [vm_compute; split; discriminate|].
  exists m. split; [exact Hi|].
  destruct (mwbmap_alloc_least 70 m Hwf) as [(_ & i & m' & Ha & _ & _ & Hfr & _)|[H0 _]].
  - exists i, m'. split; [exact Ha|exact Hfr].
  - unfold bcm_mwbmap_free_cnt in H0. rewrite Hf in H0. discriminate H0.
Defined.

(** Forcing a free index out with bcm_mwbmap_force and freeing it again
    with bcm_mwbmap_free moves exactly that index, as bcm_mwbmap_isfree reads
    it, and gives back every index and the free count. *)
Theorem mwbmap_force_free n m i :
  mw_wf n m -> 0 <= i < n -> bcm_mwbmap_isfree m i = Some true ->
  exists m1 m2,
    bcm_mwbmap_force m i = Some m1 /\ mw_wf n m1 /\
    bcm_mwbmap_isfree m1 i = Some false /\ ifree m1 = ifree m - 1 /\
    (forall j, 0 <= j < n -> j <> i -> bcm_mwbmap_isfree m1 j = bcm_mwbmap_isfree m j) /\
    bcm_mwbmap_free m1 i = Some m2 /\ mw_wf n m2 /\ ifree m2 = ifree m /\
    (forall j, 0 <= j < n -> bcm_mwbmap_isfree m2 j = bcm_mwbmap_isfree m j).
Proof.
  intros Hwf Hi Hf. rewrite (isfree_reads n) in Hf by done. injection Hf as Hf.
  destruct (force_take n m i) as (m1 & H1 & Hwf1 & Hf1); [done..|].
  assert (isfree_bit m1 i = false) as Hf1i by (rewrite Hf1, Hf, Z.eqb_refl by lia; done).
  destruct (free_give n m1 i) as (m2 & H2 & Hwf2 & Hf2); [done..|].
  pose proof (cnt_take n _ _ i Hi Hf Hf1). pose proof (cnt_give n _ _ i Hi Hf1i Hf2).
  pose proof (wf_ifree _ _ Hwf). pose proof (wf_ifree _ _ Hwf1). pose proof (wf_ifree _ _ Hwf2).
  exists m1, m2. split_and!; try done; try lia.
  - by rewrite (isfree_reads n), Hf1i.
  - intros j Hj Hne. rewrite !(isfree_reads n), Hf1 by (done || lia).
    apply Z.eqb_neq in Hne as ->. by rewrite andb_true_r.
  - intros j Hj. rewrite !(isfree_reads n), Hf2, Hf1 by (done || lia).
    destruct (Z.eqb_spec j i) as [->|]; [by rewrite Hf, orb_true_r|].
    by rewrite andb_true_r, orb_false_r.
Qed.

Lemma mwbmap_force_free_witness :
  exists m m1 m2, bcm_mwbmap_init true 70 = Some (Some m) /\
    bcm_mwbmap_force m 69 = Some m1 /\ bcm_mwbmap_free m1 69 = Some m2 /\ ifree m2 = ifree m.
Proof.
  destruct (init_spec 70) as (m & Hi & Hwf & Hf & _); [vm_compute; split; discriminate|].
  assert (bcm_mwbmap_isfree m 69 = Some true) as Hfree.
  { vm_compute in Hi. injection Hi as <-. reflexivity. }
  destruct (mwbmap_force_free 70 m 69 Hwf) as (m1 & m2 & H1 & _ & _ & _ & _ & H2 & _ & H3 & _);
    [lia|exact Hfree|].
  exists m, m1, m2. repeat split; assumption.
Defined.

(** Bcm_mwbmap_init keeps in [ifree] the number of indices it was asked
    for, and in the uint16 [total] that number modulo 64K: with the maximum
    the ASSERT admits, 64K indices, every one is free and [total] is 0; the
    range ASSERTs of force, free and isfree ([bitix < total]) then refuse all. *)
Theorem mwbmap_init_total :
  (forall n, 1 <= n < BCM_MWBMAP_ITEMS_MAX ->
     exists m, bcm_mwbmap_init true n = Some (Some m) /\ total m = n /\ ifree m = n) /\
  exists m, bcm_mwbmap_init true BCM_MWBMAP_ITEMS_MAX = Some (Some m) /\
    total m = 0 /\ ifree m = BCM_MWBMAP_ITEMS_MAX /\
    forall i, 0 <= i < BCM_MWBMAP_ITEMS_MAX -> bcm_mwbmap_isfree m i = Some true.
Proof.
  unfold BCM_MWBMAP_ITEMS_MAX. split.
  - intros n Hn. destruct (init_spec n) as (m & Hi & _ & Hf & Ht & _); [unfold BCM_MWBMAP_ITEMS_MAX; lia|].
    exists m. rewrite Ht, wrapu_small by zlia. done.
  - destruct (init_spec (64 * 1024)) as (m & Hi & Hwf & Hf & Ht & Hfr); [unfold BCM_MWBMAP_ITEMS_MAX; lia|].
    exists m. split; [exact Hi|]. split; [by rewrite Ht|]. split; [exact Hf|]. intros i Hi'.
    clear Hi. rewrite (isfree_reads _ _ _ Hwf), Hfr by lia. f_equal. apply Z.ltb_lt. lia.
Qed.
