(* ===== verification/Id16Map.v ===== *)
(** * The 16-bit identifier allocator (shared/bcmutils.c, [id16_map_*])

    A stack of the identifiers still available: [stack_idx] is the index of its
    top.  The record is the C struct without the debug handle (BCM_DBG_ID16 is
    not defined).  [None] is an access outside the stack's array. *)
From stdpp Require Import base list option numbers.
From Stdlib Require Import ZArith Lia.
From S2P Require Import Prelude.
From S2P Require Import IdAllocator.

(** ** Definitions *)
Definition ID16_INVALID : Z := u16 (Z.lnot 0).
Definition ID16_UNDEFINED : Z := ID16_INVALID.

Record id16_map := mk_id16 {
  failures : Z;           (* uint32 *)
  total : Z;              (* uint16 *)
  start : Z;              (* uint16 *)
  stack_idx : Z;          (* int *)
  stack : list Z          (* uint16 stack[total] *)
}.

(** [for (idx = 0; idx < total_ids; idx++, val16++)] *)
Fixpoint id16_populate (fuel : nat) (idx val16 stack_idx : Z) (stack : list Z)
    : option (Z * list Z) :=
  match fuel with
  | O => Some (stack_idx, stack)
  | S fuel =>
      let stack_idx := idx in
      stack ← aset stack stack_idx val16;
      id16_populate fuel (u16 (idx + 1)) (u16 (val16 + 1)) stack_idx stack
  end.

(** [mem] is the block MALLOC returned ([None]: NULL), its contents arbitrary. *)
Definition id16_map_init (mem : option (list Z)) (total_ids start_val16 : Z)
    : option (option id16_map) :=
  match mem with
  | None => Some None
  | Some stack =>
      let m := mk_id16 0 total_ids start_val16 (-1) stack in
      if negb (start m =? ID16_UNDEFINED) then
        '(si, st) ← id16_populate (Z.to_nat total_ids) 0 start_val16 (stack_idx m) (Id16Map.stack m);
        Some (Some (mk_id16 (failures m) (total m) (start m) si st))
      else Some (Some m)
  end.

(** The handle may be NULL, which the function accepts; the block keeps the
    size it was allocated with. *)
Definition id16_map_clear (hndl : option id16_map) (total_ids start_val16 : Z)
    : option (option id16_map) :=
  match hndl with
  | None => Some None
  | Some m =>
      let m := mk_id16 0 total_ids start_val16 (-1) (stack m) in
      if negb (start m =? ID16_UNDEFINED) then
        '(si, st) ← id16_populate (Z.to_nat total_ids) 0 start_val16 (stack_idx m) (stack m);
        Some (Some (mk_id16 (failures m) (total m) (start m) si st))
      else Some (Some m)
  end.

Definition id16_map_alloc (m : id16_map) : option (Z * id16_map) :=
  if stack_idx m <? 0 then
    Some (ID16_INVALID, mk_id16 (u32 (failures m + 1)) (total m) (start m) (stack_idx m) (stack m))
  else
    val16 ← aget (stack m) (stack_idx m);
    Some (val16, mk_id16 (failures m) (total m) (start m) (stack_idx m - 1) (stack m)).

Definition id16_map_free (m : id16_map) (val16 : Z) : option id16_map :=
  let stack_idx := stack_idx m + 1 in
  stack ← aset (stack m) stack_idx val16;
  Some (mk_id16 (failures m) (total m) (start m) stack_idx stack).

Definition id16_map_failures (m : id16_map) : Z := failures m.

(** Without BCM_DBG_ID16 the loop only ASSERTs: [None] is a failed ASSERT or a
    read outside the array, and [insane] stays 0. *)
Fixpoint id16_audit_loop (fuel : nat) (m : id16_map) (idx : Z) : option unit :=
  match fuel with
  | O => Some tt
  | S fuel =>
      v ← aget (stack m) idx;
      if (start m <=? v) && (v <? start m + total m) then id16_audit_loop fuel m (idx + 1)
      else None
  end.
Definition id16_map_audit (m : id16_map) : option bool :=
  if (-1 <=? stack_idx m) && (stack_idx m <? total m) then
    if start m =? ID16_UNDEFINED then Some false
    else _ ← id16_audit_loop (Z.to_nat (stack_idx m + 1)) m 0; Some false
  else None.

(** id16_map_alloc as the interface states it: ID16_INVALID is a refusal. *)
Definition id16_request (m : id16_map) : option (option Z * id16_map) :=
  '(v, m') ← id16_map_alloc m;
  Some (if v =? ID16_INVALID then None else Some v, m').

(** The identifiers on the stack, and the invariant for a set [ids] of them. *)
Definition on_stack (m : id16_map) : list Z := take (Z.to_nat (stack_idx m + 1)) (stack m).
Definition id16_avail (m : id16_map) (i : Z) : bool := bool_decide (i ∈ on_stack m).

Record id16_wf (ids : list Z) (m : id16_map) : Prop := {
  id16_ids : NoDup ids /\ (forall i, i ∈ ids -> 0 <= i < ID16_INVALID);
  id16_len : total m = Z.of_nat (length (stack m));
  id16_room : (length ids <= length (stack m))%nat;
  id16_top : -1 <= stack_idx m < total m;
  id16_nodup : NoDup (on_stack m);
  id16_sub : forall i, i ∈ on_stack m -> i ∈ ids
}.

Example ex_id16 : (m ← id16_map_init (Some [9; 9; 9]) 3 5; m ← m;
  '(a, m) ← id16_map_alloc m; '(b, m) ← id16_map_alloc m; m ← id16_map_free m a;
  '(c, m) ← id16_map_alloc m; '(d, m) ← id16_map_alloc m; '(e, m) ← id16_map_alloc m;
  Some (a, b, c, d, e, id16_map_failures m)) = Some (7, 6, 7, 5, 65535, 1).
Proof. reflexivity. Qed.

(** ** The populate loop *)
Lemma id16_populate_spec fuel idx val si st :
  0 <= idx -> idx + Z.of_nat fuel < 65536 -> 0 <= val -> val + Z.of_nat fuel < 65536 ->
  idx + Z.of_nat fuel <= Z.of_nat (length st) ->
  id16_populate fuel idx val si st =
  Some (if decide (fuel = 0%nat) then si else idx + Z.of_nat fuel - 1,
        take (Z.to_nat idx) st ++ seqZ val (Z.of_nat fuel) ++ drop (Z.to_nat idx + fuel) st).
Proof.
  revert idx val si st. induction fuel as [|fuel IH]; intros idx val si st Hi Hif Hv Hvf Hl;
    cbn [id16_populate].
  { destruct (decide _); [|done]. rewrite Nat.add_0_r. change (seqZ val (Z.of_nat 0)) with (@nil Z).
    by rewrite app_nil_l, take_drop. }
  rewrite aset_Some by lia. cbn [mbind option_bind].
  rewrite !(wrapu_small 16) by zlia. rewrite IH by (rewrite ?length_insert; lia).
  f_equal. f_equal; [repeat case_decide; lia|].
  replace (Z.of_nat (S fuel)) with (1 + Z.of_nat fuel) by lia. rewrite (seqZ_cons val) by lia.
  replace (Z.pred (1 + Z.of_nat fuel)) with (Z.of_nat fuel) by lia.
  replace (Z.to_nat (idx + 1)) with (S (Z.to_nat idx)) by lia.
  rewrite (take_S_r _ _ val), take_insert_ge, drop_insert_lt by
    (try apply list_lookup_insert_eq; lia).
  rewrite <- app_assoc. cbn. unfold Z.succ. do 4 f_equal. lia.
Qed.

Lemma id16_populate_full total_ids start st :
  0 < total_ids -> 0 <= start -> start + total_ids < ID16_INVALID ->
  Z.of_nat (length st) = total_ids ->
  id16_populate (Z.to_nat total_ids) 0 start (-1) st =
  Some (total_ids - 1, seqZ start total_ids).
Proof.
  intros Ht Hs Hsum Hl. assert (ID16_INVALID = 65535) as E by done.
  rewrite id16_populate_spec by lia. case_decide; [lia|].
  rewrite drop_ge, app_nil_r by lia. cbn [take Z.to_nat app]. do 2 f_equal; [lia|].
  rewrite Z2Nat.id by lia. done.
Qed.

(** ** Operations against the set of identifiers on the stack *)
Lemma on_stack_length ids m : id16_wf ids m -> Z.of_nat (length (on_stack m)) = stack_idx m + 1.
Proof.
  intros Hwf. pose proof (id16_top _ _ Hwf). pose proof (id16_len _ _ Hwf).
  unfold on_stack. rewrite length_take. lia.
Qed.

Lemma id16_alloc_spec ids m :
  id16_wf ids m -> 0 <= stack_idx m ->
  exists v m', id16_map_alloc m = Some (v, m') /\ id16_wf ids m' /\ v ∈ ids /\
    on_stack m = on_stack m' ++ [v].
Proof.
  intros Hwf Htop. pose proof (id16_top _ _ Hwf). pose proof (id16_len _ _ Hwf).
  unfold id16_map_alloc. destruct (Z.ltb_spec (stack_idx m) 0); [lia|].
  destruct (aget_is_Some (stack m) (stack_idx m)) as [v Hv]; [lia|].
  rewrite Hv. cbn [mbind option_bind].
  assert (on_stack m = take (Z.to_nat (stack_idx m)) (stack m) ++ [v]) as Hst
    by (by apply aget_take).
  pose proof (id16_nodup _ _ Hwf) as Hnd. rewrite Hst, list.NoDup_app in Hnd.
  pose proof (id16_sub _ _ Hwf) as Hsub. rewrite Hst in Hsub.
  do 2 eexists. split; [done|].
  assert (on_stack (mk_id16 (failures m) (total m) (start m) (stack_idx m - 1) (stack m)) =
          take (Z.to_nat (stack_idx m)) (stack m)) as Hst'.
  { unfold on_stack. cbn. do 2 f_equal. lia. }
  split_and!; [|apply Hsub, elem_of_app; right; by apply list_elem_of_singleton|by rewrite Hst'].
  destruct Hwf. constructor; rewrite ?Hst'; cbn; try done; [lia|tauto|].
  intros i Hi. apply Hsub, elem_of_app. by left.
Qed.

Lemma id16_alloc_empty m :
  stack_idx m < 0 ->
  id16_map_alloc m = Some (ID16_INVALID,
    mk_id16 (u32 (failures m + 1)) (total m) (start m) (stack_idx m) (stack m)).
Proof. intros. unfold id16_map_alloc. by destruct (Z.ltb_spec (stack_idx m) 0); [|lia]. Qed.

(** There is room on the stack for every identifier not on it. *)
Lemma id16_free_spec ids m i :
  id16_wf ids m -> i ∈ ids -> i ∉ on_stack m ->
  exists m', id16_map_free m i = Some m' /\ id16_wf ids m' /\ on_stack m' = on_stack m ++ [i].
Proof.
  intros Hwf Hi Hni. pose proof (on_stack_length _ _ Hwf) as Hl.
  pose proof (id16_top _ _ Hwf). pose proof (id16_len _ _ Hwf). pose proof (id16_room _ _ Hwf).
  assert (length (i :: on_stack m) <= length ids)%nat as Hroom.
  { apply submseteq_length, NoDup_submseteq.
    - constructor; [done|apply (id16_nodup _ _ Hwf)].
    - intros j [->|Hj]%elem_of_cons; [done|by apply (id16_sub _ _ Hwf)]. }
  cbn in Hroom. unfold id16_map_free.
  rewrite aset_Some by lia. cbn [mbind option_bind]. eexists. split; [done|].
  assert (on_stack (mk_id16 (failures m) (total m) (start m) (stack_idx m + 1)
            (<[Z.to_nat (stack_idx m + 1):=i]> (stack m))) = on_stack m ++ [i]) as Hst'.
  { unfold on_stack at 1. cbn. rewrite (aget_take _ _ i).
    - f_equal. apply take_insert_ge. lia.
    - rewrite aget_insert by lia. by case_decide. }
  split; [|done]. destruct Hwf.
  constructor; rewrite ?Hst'; cbn; rewrite ?length_insert; try done; [lia| |].
  - apply list.NoDup_app. split_and!; [done| |apply NoDup_singleton].
    intros x Hx ->%list_elem_of_singleton. done.
  - intros j [?|Hj%list_elem_of_singleton]%elem_of_app; [auto|by subst].
Qed.

#[global, refine] Instance id16_allocator (ids : list Z) : IdAllocator id16_map ids := {
  ida_wf := id16_wf ids; ida_avail := id16_avail;
  ida_alloc := id16_request; ida_free := id16_map_free
}.
Proof.
  - intros m i Hwf Hi%bool_decide_eq_true. by apply (id16_sub _ _ Hwf).
  - intros m Hwf. unfold id16_request, id16_avail. destruct (decide (0 <= stack_idx m)).
    + left. destruct (id16_alloc_spec ids m) as (v & m' & -> & Hwf' & Hv & Hst); [done..|].
      cbn [mbind option_bind]. exists v, m'.
      pose proof (proj2 (id16_ids _ _ Hwf) v Hv). pose proof (id16_nodup _ _ Hwf) as Hnd.
      rewrite Hst, list.NoDup_app in Hnd. destruct Hnd as (_ & Hnd & _).
      split_and!; [zcmp; [lia|done]|done| |].
      * apply bool_decide_eq_true. rewrite Hst. apply elem_of_app. right.
        by apply list_elem_of_singleton.
      * intros j _. rewrite Hst.
        rewrite (bool_decide_ext (j ∈ _ ++ [v]) (j ∈ on_stack m' \/ j = v))
          by (by rewrite elem_of_app, list_elem_of_singleton).
        destruct (Z.eqb_spec j v) as [->|].
        -- rewrite andb_false_r. apply bool_decide_eq_false. intros Hin.
           apply (Hnd v Hin). by apply list_elem_of_singleton.
        -- rewrite andb_true_r. apply bool_decide_ext. tauto.
    + right. rewrite id16_alloc_empty by lia. cbn [mbind option_bind]. rewrite Z.eqb_refl.
      pose proof (on_stack_length _ _ Hwf) as Hl. pose proof (id16_top _ _ Hwf).
      assert (on_stack m = []) as Hnil by (apply length_zero_iff_nil; lia).
      eexists. split_and!; [done| |].
      * destruct Hwf. by constructor.
      * intros j _. split; [by rewrite Hnil|].
        change (bool_decide (j ∈ on_stack m) = false). by rewrite Hnil.
  - intros m i Hwf Hi Hni%bool_decide_eq_false.
    destruct (id16_free_spec ids m i) as (m' & ? & ? & Hst); [done..|].
    exists m'. split_and!; [done..|]. intros j _. unfold id16_avail.
    rewrite Hst, (bool_decide_ext (j ∈ _ ++ [i]) (j ∈ on_stack m \/ j = i))
      by (by rewrite elem_of_app, list_elem_of_singleton).
    rewrite bool_decide_or. f_equal. case_bool_decide; zcmp; done.
Defined.

Lemma id16_audit_loop_ok ids m fuel idx :
  id16_wf ids m -> (forall i, i ∈ ids -> start m <= i < start m + total m) ->
  0 <= idx -> idx + Z.of_nat fuel <= stack_idx m + 1 -> id16_audit_loop fuel m idx = Some tt.
Proof.
  intros Hwf Hr. pose proof (id16_top _ _ Hwf). pose proof (id16_len _ _ Hwf).
  revert idx. induction fuel as [|fuel IH]; intros idx Hi Hf; cbn [id16_audit_loop]; [done|].
  destruct (aget_is_Some (stack m) idx) as [v Hv]; [lia|].
  rewrite Hv. cbn [mbind option_bind].
  assert (v ∈ on_stack m) as Hin.
  { apply list_elem_of_lookup_2 with (Z.to_nat idx). unfold on_stack. rewrite lookup_take_lt by lia.
    unfold aget in Hv. by destruct (0 <=? idx). }
  pose proof (Hr v (id16_sub _ _ Hwf _ Hin)).
  destruct (Z.leb_spec (start m) v), (Z.ltb_spec v (start m + total m)); try lia. apply IH; lia.
Qed.

(** ** Initial states *)
Lemma id16_init_spec mem total_ids start :
  0 < total_ids -> 0 <= start -> start + total_ids < ID16_INVALID ->
  Z.of_nat (length mem) = total_ids ->
  id16_map_init (Some mem) total_ids start =
    Some (Some (mk_id16 0 total_ids start (total_ids - 1) (seqZ start total_ids))).
Proof.
  intros Ht Hs Hsum Hl. unfold id16_map_init. cbn [Id16Map.start stack_idx stack failures total].
  destruct (Z.eqb_spec start ID16_UNDEFINED) as [E|_]; cbn [negb].
  { unfold ID16_UNDEFINED in E. lia. }
  by rewrite id16_populate_full.
Qed.

Lemma id16_full_inv total_ids start :
  0 < total_ids -> 0 <= start -> start + total_ids < ID16_INVALID ->
  id_inv (managed := seqZ start total_ids)
    (mk_id16 0 total_ids start (total_ids - 1) (seqZ start total_ids), []).
Proof.
  intros Ht Hs Hsum.
  assert (on_stack (mk_id16 0 total_ids start (total_ids - 1) (seqZ start total_ids))
          = seqZ start total_ids) as Hst.
  { unfold on_stack. cbn. apply take_ge. rewrite length_seqZ. lia. }
  constructor; [|constructor|by intros i ?%elem_of_nil|].
  - cbn. constructor; rewrite ?Hst; cbn; rewrite ?length_seqZ; try lia; [|apply NoDup_seqZ|done].
    split; [apply NoDup_seqZ|]. intros i ?%elem_of_seqZ. lia.
  - intros i Hi. cbn. unfold id16_avail. rewrite Hst. by apply bool_decide_eq_true.
Qed.

Lemma id16_empty_inv mem ids start :
  NoDup ids -> (forall i, i ∈ ids -> 0 <= i < ID16_INVALID) -> (length ids <= length mem)%nat ->
  id_inv (managed := ids) (mk_id16 0 (Z.of_nat (length mem)) start (-1) mem, ids).
Proof.
  intros Hnd Hr Hl. constructor; cbn; [|done|done|].
  - constructor; cbn; try done; [lia|constructor|]. by intros i ?%elem_of_nil.
  - intros i Hi. rewrite (bool_decide_eq_true_2 (i ∈ ids)) by done. done.
Qed.

(** [total] and [start] never change after initialisation. *)
Lemma id16_run_static {ids : list Z} rs m out m' out' :
  id_run (managed := ids) rs (m, out) = Some (m', out') -> total m' = total m /\ start m' = start m.
Proof.
  revert m out. induction rs as [|r rs IH]; intros m out; cbn [id_run]; [by intros [= -> ->]|].
  assert (forall m1 m2 v, id16_map_alloc m1 = Some (v, m2) -> total m2 = total m1 /\ start m2 = start m1)
    as Ha.
  { intros m1 m2 v. unfold id16_map_alloc. destruct (_ <? _); [by intros [= <- <-]|].
    destruct (aget _ _); cbn; [by intros [= <- <-]|done]. }
  unfold id_step. destruct r as [|i]; cbn.
  - unfold id16_request. destruct (id16_map_alloc m) as [[v m1]|] eqn:E; cbn; [|done].
    destruct (Ha _ _ _ E) as [<- <-]. destruct (_ =? _); cbn; apply IH.
  - destruct (decide _); cbn; [|apply IH]. unfold id16_map_free.
    destruct (aset _ _ _); cbn; [|done]. intros H%IH. exact H.
Qed.

(** ** Properties *)

(** C35: id16_map_init over any block of the right size gives a map from which,
    after any history of allocations and of frees of held identifiers, no
    access leaves the stack, the held identifiers are distinct, the audit
    finds nothing, and the next id16_map_alloc returns an identifier of
    [start .. start + total) that nobody holds, or ID16_INVALID with one more
    failure counted when all of them are held. *)
Theorem id16_history mem total_ids start rs :
  0 < total_ids -> 0 <= start -> start + total_ids < ID16_INVALID ->
  Z.of_nat (length mem) = total_ids ->
  exists m0 m out,
    id16_map_init (Some mem) total_ids start = Some (Some m0) /\
    id_run (managed := seqZ start total_ids) rs (m0, []) = Some (m, out) /\
    NoDup out /\ id16_map_audit m = Some false /\
    match id16_map_alloc m with
    | Some (i, m') =>
        if i =? ID16_INVALID
        then (forall j, start <= j < start + total_ids -> j ∈ out) /\
             id16_map_failures m' = u32 (id16_map_failures m + 1)
        else start <= i < start + total_ids /\ i ∉ out /\ id16_map_failures m' = id16_map_failures m
    | None => False
    end.
Proof.
  intros Ht Hs Hsum Hl. rewrite id16_init_spec by done.
  pose proof (id16_full_inv total_ids start Ht Hs Hsum) as Hinv.
  destruct (id_run_inv rs _ Hinv) as ([m out] & Hr & Hinv').
  destruct (id_run_alloc rs _ Hinv) as (m1 & out1 & Hr1 & Hnd & Ha).
  rewrite Hr in Hr1. injection Hr1 as <- <-.
  destruct (id16_run_static _ _ _ _ _ Hr) as [Etot Est]. cbn in Etot, Est.
  pose proof (inv_wf _ Hinv' : id16_wf _ m) as Hwf. pose proof (id16_top _ _ Hwf).
  do 3 eexists. split_and!; [done..| |].
  - unfold id16_map_audit. destruct (Z.leb_spec (-1) (stack_idx m)); [|lia].
    destruct (Z.ltb_spec (stack_idx m) (total m)); [|lia]. cbn [andb].
    destruct (_ =? _); [done|]. rewrite (id16_audit_loop_ok _ _ _ _ Hwf); [done| |lia|lia].
    intros i Hi%elem_of_seqZ. lia.
  - cbn in Ha. unfold id16_request, id16_map_alloc in *.
    destruct (Z.ltb_spec (stack_idx m) 0) as [Hlt|Hge]; cbn in *.
    + split; [|done]. intros j Hj. apply Ha, elem_of_seqZ. lia.
    + destruct (aget (stack m) (stack_idx m)) as [v|] eqn:E; cbn in *; [|done].
      destruct (v =? ID16_INVALID) eqn:Ev.
      * exfalso. apply Z.eqb_eq in Ev as ->.
        assert (ID16_INVALID ∈ on_stack m) as Hin.
        { unfold on_stack. rewrite (aget_take _ _ _ E). apply elem_of_app. right.
          by apply list_elem_of_singleton. }
        apply (id16_sub _ _ Hwf) in Hin. apply elem_of_seqZ in Hin. lia.
      * destruct Ha as [Hi%elem_of_seqZ ?]. split_and!; (done || lia).
Qed.

Lemma id16_history_witness :
  exists m0 m out,
    id16_map_init (Some [9; 9; 9]) 3 5 = Some (Some m0) /\
    id_run (managed := seqZ 5 3) [ReqAlloc; ReqAlloc; ReqFree 7] (m0, []) = Some (m, out) /\
    NoDup out /\ id16_map_audit m = Some false /\
    match id16_map_alloc m with
    | Some (i, m') =>
        if i =? ID16_INVALID
        then (forall j, 5 <= j < 5 + 3 -> j ∈ out) /\
             id16_map_failures m' = u32 (id16_map_failures m + 1)
        else 5 <= i < 5 + 3 /\ i ∉ out /\ id16_map_failures m' = id16_map_failures m
    | None => False
    end.
Proof. apply (id16_history [9; 9; 9] 3 5); vm_compute; reflexivity || discriminate. Defined.

(** With [start] ID16_UNDEFINED the map starts empty and the client fills
    it: once it has freed its identifiers in (any set of at most [total] of
    them), the same holds of that set, and no free overflows the stack. *)
Theorem id16_client_filled mem ids rs :
  NoDup ids -> (forall i, i ∈ ids -> 0 <= i < ID16_INVALID) -> (length ids <= length mem)%nat ->
  exists m0 m out,
    id16_map_init (Some mem) (Z.of_nat (length mem)) ID16_UNDEFINED = Some (Some m0) /\
    id_run (managed := ids) rs (m0, ids) = Some (m, out) /\ NoDup out /\
    match id16_map_alloc m with
    | Some (i, _) => if i =? ID16_INVALID then forall j, j ∈ ids -> j ∈ out
                     else i ∈ ids /\ i ∉ out
    | None => False
    end.
Proof.
  intros Hnd Hr Hl. pose proof (id16_empty_inv mem ids ID16_UNDEFINED Hnd Hr Hl) as Hinv.
  destruct (id_run_alloc rs _ Hinv) as (m & out & Hrun & Hndo & Ha).
  do 3 eexists. split; [reflexivity|]. split_and!; [exact Hrun|done|].
  cbn in Ha. unfold id16_request in Ha.
  destruct (id16_map_alloc m) as [[i m']|]; cbn in Ha; [|done].
  by destruct (i =? ID16_INVALID).
Qed.

Lemma id16_client_filled_witness :
  exists m0 m out,
    id16_map_init (Some [9; 9; 9]) 3 ID16_UNDEFINED = Some (Some m0) /\
    id_run (managed := [40; 20]) [ReqFree 20; ReqFree 40; ReqAlloc] (m0, [40; 20]) = Some (m, out) /\
    NoDup out /\
    match id16_map_alloc m with
    | Some (i, _) => if i =? ID16_INVALID then forall j, j ∈ [40; 20] -> j ∈ out
                     else i ∈ [40; 20] /\ i ∉ out
    | None => False
    end.
Proof.
  apply (id16_client_filled [9; 9; 9] [40; 20]); [|intros i Hi|cbn; lia].
  - apply (bool_decide_unpack _). reflexivity.
  - assert (ID16_INVALID = 65535) as -> by reflexivity.
    apply elem_of_cons in Hi as [->|Hi]; [lia|]. apply list_elem_of_singleton in Hi as ->. lia.
Defined.
