(* ===== verification/PktidMap.v ===== *)
(** * The packet-id map of the PCIe message buffer protocol (dhd/sys/dhd_msgbuf.c)

    A packet handed to the dongle is named by a 32-bit packet id: the number of
    a locker that keeps the packet pointer and its DMA parameters.  The free
    ids are a stack [keys[1 .. avail]]; id 0 is never handed out.  The build has
    DHD_PKTID_AUDIT_RING, not DHD_PKTID_AUDIT_MAP: the audit bitmap is moved by
    the rings, through [dhd_pktid_audit], and not by the map's own operations.
    [None] is an access outside an array; locks are no-ops. *)
From Stdlib Require Import ZArith Lia.
From stdpp Require Import base option numbers list.
From S2P Require Import Prelude.
From S2P Require Import IdAllocator.
From S2P Require Import MwBitmap.

(** ** Definitions *)
Definition MAX_PKTID_ITEMS : Z := 3072.
Definition DHD_PKTID_INVALID : Z := 0.
Definition DHD_IOCTL_REQ_PKTID : Z := 65534.  (* 0xFFFE *)
Definition DHD_FAKE_PKTID : Z := 64206.       (* 0xFACE *)
Definition DHD_PKTID_FREE_LOCKER : bool := false.
Definition DHD_PKTID_RSV_LOCKER : bool := true.
Definition DHD_DUPLICATE_ALLOC : Z := 1.
Definition DHD_DUPLICATE_FREE : Z := 2.
Definition DHD_TEST_IS_ALLOC : Z := 3.
Definition DHD_TEST_IS_FREE : Z := 4.

Inductive dhd_locker_state := LOCKER_IS_FREE | LOCKER_IS_BUSY | LOCKER_IS_RSVD.
#[export] Instance dhd_locker_state_dec : EqDecision dhd_locker_state.
Proof. solve_decision. Defined.

Inductive dhd_pkttype :=
  PKTTYPE_DATA_TX | PKTTYPE_DATA_RX | PKTTYPE_IOCTL_RX | PKTTYPE_EVENT_RX | PKTTYPE_NO_CHECK.
#[export] Instance dhd_pkttype_dec : EqDecision dhd_pkttype.
Proof. solve_decision. Defined.

Record dhd_pktid_item := mk_item {
  state : dhd_locker_state;
  dir : Z;                (* uint8 *)
  pkttype : dhd_pkttype;
  len : Z;                (* uint16 *)
  pkt : Z;                (* pointers and bus addresses as integers, 0 is NULL *)
  pa : Z;
  dmah : Z;
  secdma : Z
}.

Record dhd_pktid_map := mk_pktid_map {
  items : Z;              (* uint32 *)
  avail : Z;              (* uint32 *)
  failures : Z;           (* int *)
  pktid_audit : option bcm_mwbmap;
  keys : list Z;          (* MAX_PKTID_ITEMS + 1 of them *)
  lockers : list dhd_pktid_item (* items + 1 of them *)
}.

(** What bzero leaves in a locker. *)
Definition item0 : dhd_pktid_item := mk_item LOCKER_IS_FREE 0 PKTTYPE_DATA_TX 0 0 0 0 0.

Definition set_state (l : dhd_pktid_item) (s : dhd_locker_state) : dhd_pktid_item :=
  mk_item s (dir l) (pkttype l) (len l) (pkt l) (pa l) (dmah l) (secdma l).
(** [locker->pkt = pkt; locker->len = 0;] *)
Definition set_pkt (l : dhd_pktid_item) (p : Z) : dhd_pktid_item :=
  mk_item (state l) (dir l) (pkttype l) 0 p (pa l) (dmah l) (secdma l).

Definition with_audit (m : dhd_pktid_map) (a : option bcm_mwbmap) : dhd_pktid_map :=
  mk_pktid_map (items m) (avail m) (failures m) a (keys m) (lockers m).
Definition with_lockers (m : dhd_pktid_map) (l : list dhd_pktid_item) : dhd_pktid_map :=
  mk_pktid_map (items m) (avail m) (failures m) (pktid_audit m) (keys m) l.

(** The audit answers BCME_OK (0) or BCME_ERROR. *)
Definition dhd_pktid_audit (pktid_map : option dhd_pktid_map) (pktid test_for : Z)
    : option (Z * option dhd_pktid_map) :=
  match pktid_map with
  | None => Some (BCME_OK, pktid_map)
  | Some m =>
      match pktid_audit m with
      | None => Some (BCME_OK, pktid_map)
      | Some handle =>
          if (pktid =? DHD_IOCTL_REQ_PKTID) || (pktid =? DHD_FAKE_PKTID)
          then Some (BCME_OK, pktid_map)
          else if (pktid =? DHD_PKTID_INVALID) || (MAX_PKTID_ITEMS <? pktid)
          then Some (BCME_ERROR, pktid_map)
          else if test_for =? DHD_DUPLICATE_ALLOC then
            free ← bcm_mwbmap_isfree handle pktid;
            if negb free then Some (BCME_ERROR, pktid_map)
            else handle ← bcm_mwbmap_force handle pktid;
                 Some (BCME_OK, Some (with_audit m (Some handle)))
          else if test_for =? DHD_DUPLICATE_FREE then
            free ← bcm_mwbmap_isfree handle pktid;
            if free : bool then Some (BCME_ERROR, pktid_map)
            else handle ← bcm_mwbmap_free handle pktid;
                 Some (BCME_OK, Some (with_audit m (Some handle)))
          else if test_for =? DHD_TEST_IS_ALLOC then
            free ← bcm_mwbmap_isfree handle pktid;
            Some (if free : bool then BCME_ERROR else BCME_OK, pktid_map)
          else if test_for =? DHD_TEST_IS_FREE then
            free ← bcm_mwbmap_isfree handle pktid;
            Some (if negb free then BCME_ERROR else BCME_OK, pktid_map)
          else Some (BCME_ERROR, pktid_map)
      end
  end.

(** [for (nkey = 1; nkey <= map_items; nkey++)] of the constructor. *)
Fixpoint init_keys (fuel : nat) (nkey : Z) (keys : list Z) (lockers : list dhd_pktid_item)
    : option (list Z * list dhd_pktid_item) :=
  match fuel with
  | O => Some (keys, lockers)
  | S fuel =>
      keys ← aset keys nkey nkey;
      l ← aget lockers nkey;
      lockers ← aset lockers nkey (set_pkt (set_state l LOCKER_IS_FREE) 0);
      init_keys fuel (nkey + 1) keys lockers
  end.

(** [malloc_ok] and [audit_ok] are the outcomes of the two allocations. *)
Definition dhd_pktid_map_init (malloc_ok audit_ok : bool) (num_items : Z)
    : option (option dhd_pktid_map) :=
  if negb malloc_ok then Some None else
  let keys := replicate (Z.to_nat (MAX_PKTID_ITEMS + 1)) 0 in
  let lockers := replicate (Z.to_nat (num_items + 1)) item0 in
  let map_items := num_items in
  audit ← bcm_mwbmap_init audit_ok (map_items + 1);
  match audit with
  | None => Some None
  | Some audit =>
      '(keys, lockers) ← init_keys (Z.to_nat map_items) 1 keys lockers;
      l ← aget lockers DHD_PKTID_INVALID;
      lockers ← aset lockers DHD_PKTID_INVALID (set_pkt (set_state l LOCKER_IS_BUSY) 0);
      audit ← bcm_mwbmap_force audit DHD_PKTID_INVALID;
      Some (Some (mk_pktid_map num_items num_items 0 (Some audit) keys lockers))
  end.

(** The loop of both destructors; it collects the lockers whose packet is
    unmapped and freed.  The answer of the audit is not used. *)
Fixpoint fini_loop (fuel : nat) (m : dhd_pktid_map) (nkey : Z)
    : option (list dhd_pktid_item * dhd_pktid_map) :=
  match fuel with
  | O => Some ([], m)
  | S fuel =>
      locker ← aget (lockers m) nkey;
      '(freed, m) ←
        (if decide (state locker = LOCKER_IS_BUSY) then
           l ← aset (lockers m) nkey (set_state locker LOCKER_IS_FREE);
           '(_, m) ← dhd_pktid_audit (Some (with_lockers m l)) nkey DHD_DUPLICATE_FREE;
           m ← m;
           Some ([locker], m)
         else
           '(_, m) ← dhd_pktid_audit (Some m) nkey DHD_TEST_IS_FREE;
           m ← m;
           Some ([], m));
      locker ← aget (lockers m) nkey;
      l ← aset (lockers m) nkey (set_pkt locker 0);
      '(rest, m) ← fini_loop fuel (with_lockers m l) (nkey + 1);
      Some (freed ++ rest, m)
  end.

(** What dhd_prot_packet_free and DMA_UNMAP are given, locker by locker. *)
Definition dhd_pktid_map_fini (handle : option dhd_pktid_map)
    : option (list (Z * dhd_pkttype * Z * Z * Z)) :=
  match handle with
  | None => Some []
  | Some m =>
      '(freed, _) ← fini_loop (Z.to_nat (items m)) m 1;
      Some (map (fun l => (pkt l, pkttype l, pa l, len l, dir l)) freed)
  end.

(** The buffers handed to free_ioctl_return_buffer: va, len, pa, dmah, secdma. *)
Definition dhd_pktid_map_fini_ioctl (handle : option dhd_pktid_map)
    : option (list (Z * Z * Z * Z * Z)) :=
  match handle with
  | None => Some []
  | Some m =>
      '(freed, _) ← fini_loop (Z.to_nat (items m)) m 1;
      Some (map (fun l => (pkt l, len l, pa l, dmah l, secdma l)) freed)
  end.

Definition dhd_pktid_map_avail_cnt (m : dhd_pktid_map) : Z := avail m.

Definition dhd_pktid_map_reserve (m : dhd_pktid_map) (p : Z) : option (Z * dhd_pktid_map) :=
  if avail m <=? 0 then
    Some (DHD_PKTID_INVALID,
          mk_pktid_map (items m) (avail m) (s32 (failures m + 1)) (pktid_audit m) (keys m) (lockers m))
  else
    nkey ← aget (keys m) (avail m);
    locker ← aget (lockers m) nkey;
    l ← aset (lockers m) nkey (set_state (set_pkt locker p) LOCKER_IS_BUSY);
    Some (nkey, mk_pktid_map (items m) (avail m - 1) (failures m) (pktid_audit m) (keys m) l).

Definition dhd_pktid_map_save (m : dhd_pktid_map) (p nkey pa len dir dmah secdma : Z)
    (ty : dhd_pkttype) : option dhd_pktid_map :=
  _ ← aget (lockers m) nkey;
  l ← aset (lockers m) nkey (mk_item LOCKER_IS_BUSY dir ty (u16 len) p pa dmah secdma);
  Some (with_lockers m l).

Definition dhd_pktid_map_alloc (m : dhd_pktid_map) (p pa len dir dmah secdma : Z)
    (ty : dhd_pkttype) : option (Z * dhd_pktid_map) :=
  '(nkey, m) ← dhd_pktid_map_reserve m p;
  if negb (nkey =? DHD_PKTID_INVALID) then
    m ← dhd_pktid_map_save m p nkey pa len dir dmah secdma ty;
    Some (nkey, m)
  else Some (nkey, m).

(** The second component is what is stored through [pa], [len], [dmah] and
    [secdma]; nothing on the two refusals. *)
Definition dhd_pktid_map_free (m : dhd_pktid_map) (nkey : Z) (ty : dhd_pkttype) (rsv_locker : bool)
    : option (Z * option (Z * Z * Z * Z) * dhd_pktid_map) :=
  locker ← aget (lockers m) nkey;
  if decide (state locker = LOCKER_IS_FREE) then Some (0, None, m) else
  if bool_decide (ty <> PKTTYPE_NO_CHECK) && bool_decide (pkttype locker <> ty)
  then Some (0, None, m) else
  '(avail', keys', locker') ←
    (if Bool.eqb rsv_locker DHD_PKTID_FREE_LOCKER then
       let avail' := u32 (avail m + 1) in
       keys' ← aset (keys m) avail' nkey;
       Some (avail', keys', set_state locker LOCKER_IS_FREE)
     else Some (avail m, keys m, set_state locker LOCKER_IS_RSVD));
  l ← aset (lockers m) nkey (set_pkt locker' 0);
  Some (pkt locker, Some (pa locker, len locker, dmah locker, secdma locker),
        mk_pktid_map (items m) avail' (failures m) (pktid_audit m) keys' l).

Example ex_pktid : (m ← dhd_pktid_map_init true true 3; m ← m;
  '(a, m) ← dhd_pktid_map_alloc m 100 7 70000 1 8 9 PKTTYPE_DATA_RX;
  '(b, m) ← dhd_pktid_map_alloc m 101 7 80 1 8 9 PKTTYPE_DATA_TX;
  '(p, out, m) ← dhd_pktid_map_free m a PKTTYPE_DATA_RX false;
  '(q, out', m) ← dhd_pktid_map_free m b PKTTYPE_DATA_RX false;
  freed ← dhd_pktid_map_fini (Some m);
  Some (a, b, p, out, q, out', freed)) =
  Some (3, 2, 100, Some (7, 4464, 8, 9), 0, None, [(101, PKTTYPE_DATA_TX, 7, 80, 1)]).
Proof. vm_compute. reflexivity. Qed.

(** ** Invariant *)

(** The keys on the stack, top last, and the state of a locker. *)
Definition free_keys (m : dhd_pktid_map) : list Z := take (Z.to_nat (avail m)) (drop 1 (keys m)).
Definition lstate (m : dhd_pktid_map) (k : Z) : option dhd_locker_state :=
  state <$> aget (lockers m) k.

Record pm_wf (n : Z) (m : dhd_pktid_map) : Prop := {
  pm_n : 1 <= n <= MAX_PKTID_ITEMS;
  pm_items : items m = n;
  pm_avail : 0 <= avail m <= n;
  pm_keys : Z.of_nat (length (keys m)) = MAX_PKTID_ITEMS + 1;
  pm_lockers : Z.of_nat (length (lockers m)) = n + 1;
  pm_nodup : NoDup (free_keys m);
  pm_free : forall k, k ∈ free_keys m <-> 1 <= k <= n /\ lstate m k = Some LOCKER_IS_FREE;
  pm_audit : exists a, pktid_audit m = Some a /\ mw_wf (n + 1) a
}.

Lemma free_keys_length n m : pm_wf n m -> Z.of_nat (length (free_keys m)) = avail m.
Proof.
  intros Hwf. pose proof (pm_avail _ _ Hwf). pose proof (pm_keys _ _ Hwf).
  pose proof (pm_n _ _ Hwf). unfold free_keys. rewrite length_take, length_drop. lia.
Qed.

Lemma aget_drop1 (l : list Z) i x : 1 <= i -> aget l i = Some x -> aget (drop 1 l) (i - 1) = Some x.
Proof.
  intros Hi. unfold aget. destruct (Z.leb_spec 0 i), (Z.leb_spec 0 (i - 1)); try lia.
  rewrite lookup_drop. replace (1 + Z.to_nat (i - 1))%nat with (Z.to_nat i) by lia. done.
Qed.

Lemma keys_split (l : list Z) a x :
  1 <= a -> aget l a = Some x ->
  take (Z.to_nat a) (drop 1 l) = take (Z.to_nat (a - 1)) (drop 1 l) ++ [x].
Proof.
  intros Ha Hx. apply aget_drop1, aget_take in Hx; [|done].
  by replace (a - 1 + 1) with a in Hx by lia.
Qed.


Lemma lstate_upd m ls k l j :
  0 <= k < Z.of_nat (length (lockers m)) -> ls = <[Z.to_nat k := l]> (lockers m) ->
  state <$> aget ls j = if decide (k = j) then Some (state l) else lstate m j.
Proof. intros Hk ->. rewrite aget_insert by done. by case_decide. Qed.

(** ** Reserve, save, alloc *)
Lemma reserve_spec n m p :
  pm_wf n m -> 0 < avail m ->
  exists k l m', dhd_pktid_map_reserve m p = Some (k, m') /\ pm_wf n m' /\
    k ∈ free_keys m /\ aget (lockers m) k = Some l /\
    free_keys m = free_keys m' ++ [k] /\ 
    m' = mk_pktid_map (items m) (avail m - 1) (failures m) (pktid_audit m) (keys m)
           (<[Z.to_nat k := set_state (set_pkt l p) LOCKER_IS_BUSY]> (lockers m)).
Proof.
  intros Hwf Hav. pose proof (pm_avail _ _ Hwf). pose proof (pm_keys _ _ Hwf).
  pose proof (pm_n _ _ Hwf). pose proof (pm_lockers _ _ Hwf) as Hlk.
  unfold dhd_pktid_map_reserve. destruct (Z.leb_spec (avail m) 0); [lia|].
  destruct (aget_is_Some (keys m) (avail m)) as [k Hk]; [lia|]. rewrite Hk. cbn [mbind option_bind].
  pose proof (keys_split (keys m) (avail m) k ltac:(lia) Hk) as Hsp.
  assert (k ∈ free_keys m) as Hin.
  { unfold free_keys. rewrite Hsp. apply elem_of_app. right. by apply list_elem_of_singleton. }
  pose proof (proj1 (pm_free _ _ Hwf k) Hin) as [Hkr _].
  destruct (aget_is_Some (lockers m) k) as [l Hl]; [lia|]. rewrite Hl. cbn [mbind option_bind].
  rewrite aset_Some by lia. cbn [mbind option_bind].
  pose proof (pm_nodup _ _ Hwf) as Hnd. unfold free_keys in Hnd. rewrite Hsp, NoDup_app in Hnd.
  destruct Hnd as (Hnd & Hdis & _).
  do 3 eexists. split_and!; [done| |done|done|done|done].
  constructor; cbn [items avail keys lockers pktid_audit]; rewrite ?length_insert;
    [done|apply (pm_items _ _ Hwf)|lia|done|done|done| |apply (pm_audit _ _ Hwf)].
  intros j. unfold lstate. cbn [lockers]. rewrite (lstate_upd m _ k _ j ltac:(lia) eq_refl).
  unfold free_keys at 1. cbn [avail keys].
  pose proof (pm_free _ _ Hwf j) as Hj. unfold free_keys in Hj.
  rewrite Hsp, elem_of_app, list_elem_of_singleton in Hj. case_decide as Hjk.
  - subst j. split; [|by intros [_ ?]]. intros Hk'. exfalso.
    apply (Hdis _ Hk'). by apply list_elem_of_singleton.
  - rewrite <- Hj. split; [by left|]. intros [?| ->]; [done|by destruct Hjk].
Qed.

Lemma reserve_empty m p :
  avail m = 0 -> dhd_pktid_map_reserve m p =
    Some (DHD_PKTID_INVALID, mk_pktid_map (items m) (avail m) (s32 (failures m + 1))
            (pktid_audit m) (keys m) (lockers m)).
Proof. intros E. unfold dhd_pktid_map_reserve. by rewrite E. Qed.

Lemma pm_wf_failures n m f :
  pm_wf n m -> pm_wf n (mk_pktid_map (items m) (avail m) f (pktid_audit m) (keys m) (lockers m)).
Proof. intros []. by constructor. Qed.

(** Changing a locker that is not free, to a state that is not free. *)
Lemma pm_wf_busy n m k l l' :
  pm_wf n m -> aget (lockers m) k = Some l -> state l <> LOCKER_IS_FREE ->
  state l' <> LOCKER_IS_FREE ->
  pm_wf n (with_lockers m (<[Z.to_nat k := l']> (lockers m))).
Proof.
  intros Hwf Hl Hs Hs'. pose proof (aget_lt _ _ _ Hl). pose proof (pm_free _ _ Hwf) as Hfr.
  destruct Hwf. constructor; cbn [items avail keys lockers pktid_audit with_lockers];
    rewrite ?length_insert; try done.
  intros j. unfold lstate. cbn [lockers with_lockers].
  rewrite (lstate_upd m _ k _ j ltac:(lia) eq_refl).
  change (free_keys (with_lockers m _)) with (free_keys m). rewrite Hfr. case_decide; [|done].
  subst. unfold lstate. rewrite Hl. cbn. split; intros [? [= ?]]; done.
Qed.

Lemma save_spec n m p k l pa len dir dmah secdma ty :
  pm_wf n m -> aget (lockers m) k = Some l -> state l <> LOCKER_IS_FREE ->
  exists m', dhd_pktid_map_save m p k pa len dir dmah secdma ty = Some m' /\ pm_wf n m' /\
    m' = with_lockers m (<[Z.to_nat k := mk_item LOCKER_IS_BUSY dir ty (u16 len) p pa dmah secdma]>
                           (lockers m)).
Proof.
  intros Hwf Hl Hs. unfold dhd_pktid_map_save. rewrite Hl. cbn [mbind option_bind].
  rewrite aset_Some by (by eapply aget_lt). cbn [mbind option_bind].
  eexists. split_and!; [done| |done]. by apply (pm_wf_busy n m k l).
Qed.

Lemma alloc_ok n m p pa len dir dmah secdma ty :
  pm_wf n m -> 0 < avail m ->
  exists k m', dhd_pktid_map_alloc m p pa len dir dmah secdma ty = Some (k, m') /\ pm_wf n m' /\
    1 <= k <= n /\ k ∈ free_keys m /\ free_keys m = free_keys m' ++ [k] /\
    aget (lockers m') k = Some (mk_item LOCKER_IS_BUSY dir ty (u16 len) p pa dmah secdma) /\
    forall j, j <> k -> aget (lockers m') j = aget (lockers m) j.
Proof.
  intros Hwf Hav. unfold dhd_pktid_map_alloc.
  destruct (reserve_spec n m p Hwf Hav) as (k & l & m1 & -> & Hwf1 & Hk & Hl & Hfk & ->).
  cbn [mbind option_bind]. pose proof (proj1 (pm_free _ _ Hwf k) Hk) as [Hkr _].
  destruct (Z.eqb_spec k DHD_PKTID_INVALID) as [E|_]; [unfold DHD_PKTID_INVALID in E; lia|].
  pose proof (aget_lt _ _ _ Hl) as Hlr. cbn [negb].
  destruct (save_spec n _ p k (set_state (set_pkt l p) LOCKER_IS_BUSY) pa len dir dmah secdma ty Hwf1)
    as (m2 & -> & Hwf2 & ->); [cbn; rewrite aget_insert by done; by case_decide|done|].
  cbn [mbind option_bind]. do 2 eexists. split_and!; try done; try lia; cbn [with_lockers lockers].
  - rewrite aget_insert by (by rewrite length_insert). by case_decide.
  - intros j Hj. rewrite !aget_insert by (by rewrite ?length_insert). by case_decide.
Qed.

(** ** Free *)
Lemma free_refused m k l ty rsv :
  aget (lockers m) k = Some l ->
  state l = LOCKER_IS_FREE \/ (ty <> PKTTYPE_NO_CHECK /\ pkttype l <> ty) ->
  dhd_pktid_map_free m k ty rsv = Some (0, None, m).
Proof.
  intros Hl Hor. unfold dhd_pktid_map_free. rewrite Hl. cbn [mbind option_bind].
  case_decide; [done|]. destruct Hor as [|[H1 H2]]; [done|].
  rewrite !bool_decide_eq_true_2 by done. done.
Qed.

Lemma keys_room n m k :
  pm_wf n m -> 1 <= k <= n -> lstate m k <> Some LOCKER_IS_FREE -> avail m < n.
Proof.
  intros Hwf Hk Hs. pose proof (free_keys_length _ _ Hwf) as Hl. pose proof (pm_n _ _ Hwf).
  assert (length (k :: free_keys m) <= length (seqZ 1 n))%nat as Hle.
  { apply submseteq_length, NoDup_submseteq.
    - constructor; [|apply (pm_nodup _ _ Hwf)]. intros [_ ?]%(pm_free _ _ Hwf). done.
    - intros j [->|Hj]%elem_of_cons; apply elem_of_seqZ; [lia|].
      apply (pm_free _ _ Hwf) in Hj as [? _]. lia. }
  rewrite length_seqZ in Hle. cbn in Hle. lia.
Qed.

Lemma free_ok n m k l ty rsv :
  pm_wf n m -> 1 <= k <= n -> aget (lockers m) k = Some l -> state l <> LOCKER_IS_FREE ->
  ty = PKTTYPE_NO_CHECK \/ pkttype l = ty ->
  exists m', dhd_pktid_map_free m k ty rsv =
      Some (pkt l, Some (pa l, len l, dmah l, secdma l), m') /\ pm_wf n m' /\
    free_keys m' = (if rsv : bool then free_keys m else free_keys m ++ [k]) /\
    pktid_audit m' = pktid_audit m /\
    lockers m' = <[Z.to_nat k := set_pkt (set_state l (if rsv then LOCKER_IS_RSVD else LOCKER_IS_FREE)) 0]>
                   (lockers m).
Proof.
  intros Hwf Hk Hl Hs Hty. pose proof (aget_lt _ _ _ Hl) as Hlr.
  pose proof (pm_keys _ _ Hwf) as Hks. pose proof (pm_avail _ _ Hwf). pose proof (pm_n _ _ Hwf) as Hn.
  unfold MAX_PKTID_ITEMS in *.
  assert (lstate m k <> Some LOCKER_IS_FREE) as Hls by (unfold lstate; rewrite Hl; cbn; congruence).
  pose proof (keys_room n m k Hwf Hk Hls) as Hroom.
  unfold dhd_pktid_map_free. rewrite Hl. cbn [mbind option_bind]. case_decide; [done|].
  replace (bool_decide (ty <> PKTTYPE_NO_CHECK) && bool_decide (pkttype l <> ty)) with false.
  2: { symmetry. destruct Hty as [->| <-]; [done|]. rewrite (bool_decide_eq_false_2 (pkttype l <> pkttype l)) by auto. apply andb_false_r. }
  destruct rsv; cbn [Bool.eqb DHD_PKTID_FREE_LOCKER].
  - cbn [mbind option_bind]. rewrite aset_Some by lia. cbn [mbind option_bind].
    eexists. split_and!; [done| |done|done|done]. by eapply pm_wf_busy.
  - rewrite (wrapu_small 32), aset_Some by zlia. cbn [mbind option_bind].
    rewrite aset_Some by lia. cbn [mbind option_bind].
    set (m' := mk_pktid_map _ _ _ _ _ _).
    assert (free_keys m' = free_keys m ++ [k]) as Hfk.
    { unfold free_keys, m'. cbn [avail keys].
      rewrite (keys_split _ _ k) by
        (first [lia|rewrite aget_insert by lia; by case_decide]).
      f_equal. rewrite Z.add_simpl_r, drop_insert_ge by lia. by rewrite take_insert_ge by lia. }
    exists m'. split_and!; [done| |done|done|done].
    constructor; cbn [m' items avail keys lockers pktid_audit]; rewrite ?length_insert;
      [done|apply (pm_items _ _ Hwf)|lia|done|apply (pm_lockers _ _ Hwf)| | |apply (pm_audit _ _ Hwf)];
      rewrite Hfk.
    + apply NoDup_app. split_and!; [apply (pm_nodup _ _ Hwf)| |apply NoDup_singleton].
      intros j Hj ->%list_elem_of_singleton. apply (pm_free _ _ Hwf) in Hj as [_ ?]. done.
    + intros j. unfold lstate, m'. cbn [lockers].
      rewrite (lstate_upd m _ k _ j ltac:(lia) eq_refl), elem_of_app, list_elem_of_singleton, (pm_free _ _ Hwf).
      case_decide as Hkj; [subst; cbn; tauto|]. split; [by intros [?| ->]|]. by left.
Qed.

(** ** Construction *)
Lemma init_keys_spec fuel nkey ks N :
  1 <= nkey -> nkey + Z.of_nat fuel <= Z.of_nat N -> nkey + Z.of_nat fuel <= Z.of_nat (length ks) ->
  init_keys fuel nkey ks (replicate N item0) =
  Some (take (Z.to_nat nkey) ks ++ seqZ nkey (Z.of_nat fuel) ++ drop (Z.to_nat nkey + fuel) ks,
        replicate N item0).
Proof.
  revert nkey ks. induction fuel as [|fuel IH]; intros nkey ks Hn HN Hl; cbn [init_keys].
  { rewrite Nat.add_0_r. change (seqZ nkey (Z.of_nat 0)) with (@nil Z).
    by rewrite app_nil_l, take_drop. }
  rewrite aset_Some by lia. cbn [mbind option_bind]. rewrite aget_replicate by lia.
  cbn [mbind option_bind]. rewrite aset_Some by (rewrite length_replicate; lia).
  cbn [mbind option_bind]. change (set_pkt (set_state item0 LOCKER_IS_FREE) 0) with item0.
  rewrite insert_replicate, IH by (rewrite ?length_insert; lia).
  replace (Z.of_nat (S fuel)) with (1 + Z.of_nat fuel) by lia. rewrite (seqZ_cons nkey) by lia.
  replace (Z.pred (1 + Z.of_nat fuel)) with (Z.of_nat fuel) by lia.
  replace (Z.to_nat (nkey + 1)) with (S (Z.to_nat nkey)) by lia.
  rewrite (take_S_r _ _ nkey), take_insert_ge, drop_insert_lt by
    (try apply list_lookup_insert_eq; lia).
  rewrite <- app_assoc. cbn. unfold Z.succ. do 6 f_equal. lia.
Qed.

Lemma pktid_init_spec n :
  1 <= n <= MAX_PKTID_ITEMS ->
  exists m, dhd_pktid_map_init true true n = Some (Some m) /\ pm_wf n m /\ free_keys m = seqZ 1 n /\
    (forall k, 1 <= k <= n -> exists a, pktid_audit m = Some a /\ bcm_mwbmap_isfree a k = Some true).
Proof.
  intros Hn. pose proof Hn as Hn'. unfold MAX_PKTID_ITEMS in Hn'. unfold dhd_pktid_map_init. cbn [negb].
  destruct (init_spec (n + 1)) as (a & -> & Hwa & _ & _ & Hfr); [unfold BCM_MWBMAP_ITEMS_MAX; lia|].
  cbn [mbind option_bind]. set (ks := replicate (Z.to_nat (MAX_PKTID_ITEMS + 1)) 0).
  assert (Z.of_nat (length ks) = 3073) as Hks by (unfold ks; by rewrite length_replicate).
  rewrite init_keys_spec by lia. cbn [mbind option_bind].
  rewrite aget_replicate by (unfold DHD_PKTID_INVALID; lia). cbn [mbind option_bind].
  rewrite aset_Some by (rewrite length_replicate; unfold DHD_PKTID_INVALID; lia).
  cbn [mbind option_bind].
  destruct (force_take (n + 1) a DHD_PKTID_INVALID) as (a' & -> & Hwa' & Hfr');
    [done|unfold DHD_PKTID_INVALID; lia|rewrite Hfr by done; apply Z.ltb_lt; unfold DHD_PKTID_INVALID; lia|].
  cbn [mbind option_bind]. unfold DHD_PKTID_INVALID in Hfr'.
  set (ks' := take _ ks ++ _ ++ _). set (ls := <[_ := _]> _).
  assert (take (Z.to_nat n) (drop 1 ks') = seqZ 1 n) as Hfk.
  { unfold ks'. rewrite drop_app_ge by (rewrite length_take; lia). rewrite length_take.
    replace (1 - Z.to_nat 1 `min` length ks)%nat with 0%nat by lia. 
    rewrite drop_0, Z2Nat.id, take_app_le, take_ge by (rewrite ?length_seqZ; lia). done. }
  eexists. split_and!; [done| |exact Hfk|].
  - constructor; cbn [items avail keys lockers pktid_audit]; try done; try lia.
    + unfold ks'. rewrite !length_app, length_seqZ, length_drop, length_take. unfold MAX_PKTID_ITEMS. lia.
    + unfold ls. rewrite length_insert, length_replicate. lia.
    + unfold free_keys. cbn [avail keys]. rewrite Hfk. apply NoDup_seqZ.
    + intros k. unfold free_keys. cbn [avail keys]. rewrite Hfk, elem_of_seqZ.
      split; [intros Hk|intros [Hk _]; lia]. split; [lia|].
      unfold lstate, ls. cbn [lockers]. rewrite aget_insert by (rewrite length_replicate; unfold DHD_PKTID_INVALID; lia).
      unfold DHD_PKTID_INVALID. case_decide; [lia|]. rewrite aget_replicate by lia. done.
    + by eexists.
  - intros k Hk. exists a'. split; [done|]. rewrite (isfree_reads (n + 1)) by (done || lia).
    rewrite Hfr', Hfr by lia. f_equal. zcmp; (done || lia).
Qed.

(** ** The audit *)
Lemma with_audit_same m a : pktid_audit m = Some a -> with_audit m (Some a) = m.
Proof. intros <-. by destruct m. Qed.

Lemma audit_ok n m a k t :
  n <= MAX_PKTID_ITEMS -> pktid_audit m = Some a -> mw_wf (n + 1) a -> 1 <= k <= n ->
  exists r a', dhd_pktid_audit (Some m) k t = Some (r, Some (with_audit m (Some a'))) /\
    mw_wf (n + 1) a'.
Proof.
  intros Hn Ha Hwa Hk. unfold MAX_PKTID_ITEMS in Hn. unfold dhd_pktid_audit. rewrite Ha.
  destruct (Z.eqb_spec k DHD_IOCTL_REQ_PKTID) as [E|_]; [unfold DHD_IOCTL_REQ_PKTID in E; lia|].
  destruct (Z.eqb_spec k DHD_FAKE_PKTID) as [E|_]; [unfold DHD_FAKE_PKTID in E; lia|].
  destruct (Z.eqb_spec k DHD_PKTID_INVALID) as [E|_]; [unfold DHD_PKTID_INVALID in E; lia|].
  destruct (Z.ltb_spec MAX_PKTID_ITEMS k) as [E|_]; [unfold MAX_PKTID_ITEMS in E; lia|]. cbn [orb].
  pose proof (isfree_reads (n + 1) a k Hwa ltac:(lia)) as Hf.
  assert (forall r : Z, exists (r' : Z) a', Some (r, Some m) = Some (r', Some (with_audit m (Some a'))) /\
            mw_wf (n + 1) a') as Hsame by (intros r; exists r, a; by rewrite with_audit_same).
  destruct (t =? _); [|destruct (t =? _); [|destruct (t =? _); [|destruct (t =? _)]]];
    rewrite ?Hf; cbn [mbind option_bind]; try apply Hsame.
  - destruct (isfree_bit a k) eqn:E; cbn [negb]; [|apply Hsame].
    destruct (force_take (n + 1) a k) as (a' & -> & ? & _); [done|lia|done|]. by do 2 eexists.
  - destruct (isfree_bit a k) eqn:E; cbn [negb]; [apply Hsame|].
    destruct (free_give (n + 1) a k) as (a' & -> & ? & _); [done|lia|done|]. by do 2 eexists.
Qed.

Lemma pm_wf_audit n m a' :
  pm_wf n m -> mw_wf (n + 1) a' -> pm_wf n (with_audit m (Some a')).
Proof. intros [] ?. constructor; try done. by eexists. Qed.

(** ** Sequences of operations *)
Inductive pm_op :=
  | PReserve (p : Z) | PAlloc (p pa len dir dmah secdma : Z) (ty : dhd_pkttype)
  | PSave (p k pa len dir dmah secdma : Z) (ty : dhd_pkttype)
  | PFree (k : Z) (ty : dhd_pkttype) (rsv : bool) | PAudit (k t : Z).

Definition pm_step (op : pm_op) (m : dhd_pktid_map) : option dhd_pktid_map :=
  match op with
  | PReserve p => '(_, m) ← dhd_pktid_map_reserve m p; Some m
  | PAlloc p pa len dir dmah secdma ty =>
      '(_, m) ← dhd_pktid_map_alloc m p pa len dir dmah secdma ty; Some m
  | PSave p k pa len dir dmah secdma ty => dhd_pktid_map_save m p k pa len dir dmah secdma ty
  | PFree k ty rsv => '(_, _, m) ← dhd_pktid_map_free m k ty rsv; Some m
  | PAudit k t => '(_, m) ← dhd_pktid_audit (Some m) k t; m
  end.

(** The ASSERTed contract, and the locker an operation is about. *)
Definition pm_legal (n : Z) (m : dhd_pktid_map) (op : pm_op) : Prop :=
  match op with
  | PReserve _ | PAlloc _ _ _ _ _ _ _ => True
  | PSave _ k _ _ _ _ _ _ => 1 <= k <= n /\ lstate m k <> Some LOCKER_IS_FREE
  | PFree k _ _ | PAudit k _ => 1 <= k <= n
  end.
Definition pm_key (op : pm_op) : option Z :=
  match op with
  | PReserve _ | PAlloc _ _ _ _ _ _ _ | PAudit _ _ => None
  | PSave _ k _ _ _ _ _ _ | PFree k _ _ => Some k
  end.

Fixpoint pm_run (ops : list pm_op) (m : dhd_pktid_map) : option dhd_pktid_map :=
  match ops with
  | [] => Some m
  | op :: ops => m ← pm_step op m; pm_run ops m
  end.
Fixpoint pm_legal_run (n : Z) (ops : list pm_op) (m : dhd_pktid_map) : Prop :=
  match ops with
  | [] => True
  | op :: ops => pm_legal n m op /\ forall m', pm_step op m = Some m' -> pm_legal_run n ops m'
  end.

Lemma alloc_empty n m p pa len dir dmah secdma ty :
  pm_wf n m -> avail m = 0 ->
  exists m', dhd_pktid_map_alloc m p pa len dir dmah secdma ty = Some (DHD_PKTID_INVALID, m') /\
    pm_wf n m' /\ lockers m' = lockers m /\ free_keys m' = free_keys m.
Proof.
  intros Hwf E. unfold dhd_pktid_map_alloc. rewrite reserve_empty by done. cbn.
  eexists. split_and!; [done|by apply pm_wf_failures|done|done].
Qed.

(** Every legal operation keeps the invariant, and leaves alone the lockers
    that are in use and not its subject. *)
Lemma pm_step_ok n m op :
  pm_wf n m -> pm_legal n m op ->
  exists m', pm_step op m = Some m' /\ pm_wf n m' /\
    forall j l, aget (lockers m) j = Some l -> state l <> LOCKER_IS_FREE -> pm_key op <> Some j ->
      aget (lockers m') j = Some l.
Proof.
  intros Hwf Hleg. pose proof (pm_avail _ _ Hwf).
  destruct op as [p|p pa len dir dmah secdma ty|p k pa len dir dmah secdma ty|k ty rsv|k t];
    cbn [pm_step pm_legal pm_key] in *.
  - destruct (decide (avail m = 0)) as [E|E].
    + rewrite reserve_empty by done. cbn. eexists.
      split_and!; [done|by apply pm_wf_failures|done].
    + destruct (reserve_spec n m p Hwf) as (k & l & m' & -> & Hwf' & Hk & Hl & _ & ->); [lia|].
      cbn. eexists. split_and!; [done|done|]. intros j l' Hj Hs _. cbn [lockers].
      rewrite aget_insert by (by eapply aget_lt). case_decide; [|done]. subst j.
      apply (pm_free _ _ Hwf) in Hk as [_ Hk]. unfold lstate in Hk. rewrite Hj in Hk.
      cbn in Hk. congruence.
  - destruct (decide (avail m = 0)) as [E|E].
    + destruct (alloc_empty n m p pa len dir dmah secdma ty Hwf E) as (m' & -> & Hwf' & Hlk & _).
      cbn. eexists. split_and!; [done|done|]. by rewrite Hlk.
    + destruct (alloc_ok n m p pa len dir dmah secdma ty Hwf) as (k & m' & -> & Hwf' & _ & Hk & _ & _ & Hne);
        [lia|]. cbn. eexists. split_and!; [done|done|]. intros j l Hj Hs _. rewrite Hne; [done|].
      intros ->. apply (pm_free _ _ Hwf) in Hk as [_ Hk]. unfold lstate in Hk. rewrite Hj in Hk.
      cbn in Hk. congruence.
  - destruct Hleg as [Hk Hs]. unfold lstate in Hs.
    destruct (aget_is_Some (lockers m) k) as [l Hl]; [rewrite (pm_lockers _ _ Hwf); lia|].
    rewrite Hl in Hs. cbn in Hs.
    destruct (save_spec n m p k l pa len dir dmah secdma ty Hwf Hl) as (m' & -> & Hwf' & ->); [congruence|].
    eexists. split_and!; [done|done|]. intros j l' Hj _ Hne. cbn [lockers with_lockers].
    rewrite aget_insert by (by eapply aget_lt). case_decide; [congruence|done].
  - destruct (aget_is_Some (lockers m) k) as [l Hl]; [rewrite (pm_lockers _ _ Hwf); lia|].
    destruct (decide (state l = LOCKER_IS_FREE \/ (ty <> PKTTYPE_NO_CHECK /\ pkttype l <> ty)))
      as [Hno|Hyes].
    + rewrite (free_refused m k l) by done. cbn. by eexists.
    + destruct (free_ok n m k l ty rsv Hwf Hleg Hl) as (m' & -> & Hwf' & _ & _ & Hlk);
        [tauto|destruct (decide (ty = PKTTYPE_NO_CHECK)); [by left|];
         destruct (decide (pkttype l = ty)); [by right|tauto]|].
      cbn. eexists. split_and!; [done|done|]. intros j l' Hj _ Hne. rewrite Hlk.
      rewrite aget_insert by (by eapply aget_lt). case_decide; [congruence|done].
  - destruct (pm_audit _ _ Hwf) as (a & Ha & Hwa). pose proof (pm_n _ _ Hwf).
    destruct (audit_ok n m a k t) as (r & a' & -> & Hwa'); [lia|done|done|done|].
    cbn. eexists. split_and!; [done|by apply pm_wf_audit|done].
Qed.

Lemma pm_run_ok n ops m j l :
  pm_wf n m -> pm_legal_run n ops m ->
  aget (lockers m) j = Some l -> state l <> LOCKER_IS_FREE ->
  (forall op, op ∈ ops -> pm_key op <> Some j) ->
  exists m', pm_run ops m = Some m' /\ pm_wf n m' /\ aget (lockers m') j = Some l.
Proof.
  revert m. induction ops as [|op ops IH]; intros m Hwf Hleg Hj Hs Hne; cbn [pm_run].
  - by eexists.
  - destruct Hleg as [Hl Hleg]. destruct (pm_step_ok n m op Hwf Hl) as (m1 & Hs1 & Hwf1 & Hfr).
    rewrite Hs1. cbn [mbind option_bind]. apply IH; [done|by apply Hleg| |done|].
    + apply Hfr; [done..|]. apply Hne, list_elem_of_here.
    + intros op' Hop. apply Hne. by apply list_elem_of_further.
Qed.

(** ** The destructor *)
Definition is_busy (l : dhd_pktid_item) : Prop := state l = LOCKER_IS_BUSY.
#[export] Instance is_busy_dec l : Decision (is_busy l).
Proof. unfold is_busy. apply _. Defined.

Lemma fini_loop_spec n fuel m a nkey :
  n <= MAX_PKTID_ITEMS -> pktid_audit m = Some a -> mw_wf (n + 1) a ->
  Z.of_nat (length (lockers m)) = n + 1 -> 1 <= nkey -> nkey + Z.of_nat fuel = n + 1 ->
  exists m', fini_loop fuel m nkey = Some (filter is_busy (drop (Z.to_nat nkey) (lockers m)), m').
Proof.
  intros Hn. revert m a nkey.
  induction fuel as [|fuel IH]; intros m a nkey Ha Hwa Hl Hk Hf; cbn [fini_loop].
  - rewrite drop_ge by lia. by eexists.
  - destruct (aget_is_Some (lockers m) nkey) as [l Hlk]; [lia|]. rewrite Hlk. cbn [mbind option_bind].
    pose proof (aget_lt _ _ _ Hlk) as Hlr.
    assert (lockers m !! Z.to_nat nkey = Some l) as Hlk'.
    { unfold aget in Hlk. by destruct (0 <=? nkey). }
    rewrite (drop_S _ _ _ Hlk').
    assert (forall m1 a1 ls, lockers m1 = ls -> drop (S (Z.to_nat nkey)) ls = drop (S (Z.to_nat nkey)) (lockers m) ->
              length ls = length (lockers m) -> pktid_audit m1 = Some a1 -> mw_wf (n + 1) a1 ->
              forall x, exists m', fini_loop fuel (with_lockers m1 (<[Z.to_nat nkey := x]> ls)) (nkey + 1) =
                Some (filter is_busy (drop (S (Z.to_nat nkey)) (lockers m)), m')) as Hrest.
    { intros m1 a1 ls Hls Hd Hlen Ha1 Hwa1 x.
      destruct (IH (with_lockers m1 (<[Z.to_nat nkey := x]> ls)) a1 (nkey + 1)) as (m' & ->);
        [done|done|cbn; rewrite length_insert; lia|lia|lia|].
      exists m'. replace (Z.to_nat (nkey + 1)) with (S (Z.to_nat nkey)) by lia.
      cbn [lockers with_lockers]. by rewrite drop_insert_lt, Hd by lia. }
    destruct (decide (state l = LOCKER_IS_BUSY)) as [Hb|Hb].
    + rewrite aset_Some by lia. cbn [mbind option_bind].
      destruct (audit_ok n (with_lockers m (<[Z.to_nat nkey:=set_state l LOCKER_IS_FREE]> (lockers m)))
        a nkey DHD_DUPLICATE_FREE) as (r & a' & -> & Hwa'); [done|done|done|lia|].
      cbn [mbind option_bind with_audit with_lockers lockers].
      rewrite aget_insert by lia. case_decide; [|done]. cbn [mbind option_bind].
      rewrite aset_Some by (rewrite length_insert; lia). cbn [mbind option_bind].
      edestruct Hrest as (m' & Hm'); [| | | | |rewrite Hm'; cbn [mbind option_bind];
        rewrite filter_cons_True by done; by eexists]; cbn; try done.
      * by rewrite drop_insert_lt by lia.
      * by rewrite length_insert.
    + destruct (audit_ok n m a nkey DHD_TEST_IS_FREE) as (r & a' & -> & Hwa'); [done|done|done|lia|].
      cbn [mbind option_bind with_audit lockers]. rewrite Hlk. cbn [mbind option_bind].
      rewrite aset_Some by lia. cbn [mbind option_bind].
      edestruct Hrest as (m' & Hm'); [| | | | |rewrite Hm'; cbn [mbind option_bind];
        rewrite filter_cons_False by done; by eexists]; cbn; done.
Qed.

(** ** The allocator interface *)

(** An allocation of the interface: the packet's parameters do not matter to it. *)
Definition pktid_request (m : dhd_pktid_map) : option (option Z * dhd_pktid_map) :=
  '(k, m') ← dhd_pktid_map_alloc m 1 0 0 0 0 0 PKTTYPE_DATA_TX;
  Some (if k =? DHD_PKTID_INVALID then None else Some k, m').
Definition pktid_release (m : dhd_pktid_map) (k : Z) : option dhd_pktid_map :=
  '(_, _, m') ← dhd_pktid_map_free m k PKTTYPE_NO_CHECK DHD_PKTID_FREE_LOCKER; Some m'.

Lemma pm_free_dec n m k :
  pm_wf n m -> 1 <= k <= n -> k ∉ free_keys m ->
  exists l, aget (lockers m) k = Some l /\ state l <> LOCKER_IS_FREE.
Proof.
  intros Hwf Hk Hn. destruct (aget_is_Some (lockers m) k) as [l Hl]; [rewrite (pm_lockers _ _ Hwf); lia|].
  exists l. split; [done|]. intros Hs. apply Hn, (pm_free _ _ Hwf). split; [done|].
  unfold lstate. by rewrite Hl, <- Hs.
Qed.

#[global, refine] Instance pktid_allocator (n : Z) : IdAllocator dhd_pktid_map (seqZ 1 n) := {
  ida_wf := pm_wf n; ida_avail m k := bool_decide (k ∈ free_keys m);
  ida_alloc := pktid_request; ida_free := pktid_release
}.
Proof.
  - intros m k Hwf Hk%bool_decide_eq_true. apply (pm_free _ _ Hwf) in Hk as [? _].
    apply elem_of_seqZ. lia.
  - intros m Hwf. pose proof (pm_avail _ _ Hwf). unfold pktid_request.
    destruct (decide (avail m = 0)) as [E|E].
    + right. destruct (alloc_empty n m 1 0 0 0 0 0 PKTTYPE_DATA_TX Hwf E) as (m' & -> & Hwf' & _ & Hfk).
      cbn [mbind option_bind]. rewrite Z.eqb_refl. exists m'. split_and!; [done|done|].
      intros j _. rewrite Hfk. pose proof (free_keys_length _ _ Hwf) as Hl.
      destruct (free_keys m); [done|cbn in Hl; lia].
    + left. destruct (alloc_ok n m 1 0 0 0 0 0 PKTTYPE_DATA_TX Hwf)
        as (k & m' & -> & Hwf' & Hkr & Hk & Hfk & _); [lia|].
      cbn [mbind option_bind]. exists k, m'.
      destruct (Z.eqb_spec k DHD_PKTID_INVALID) as [Ek|_]; [unfold DHD_PKTID_INVALID in Ek; lia|].
      split_and!; [done|done|by apply bool_decide_eq_true|]. intros j _.
      pose proof (pm_nodup _ _ Hwf) as Hnd. rewrite Hfk in Hnd |- *.
      apply NoDup_app in Hnd as (_ & Hd & _).
      rewrite (bool_decide_ext (j ∈ _ ++ [k]) (j ∈ free_keys m' \/ j = k))
        by (by rewrite elem_of_app, list_elem_of_singleton).
      destruct (Z.eqb_spec j k) as [->|].
      * rewrite andb_false_r. apply bool_decide_eq_false. intros Hin.
        by apply (Hd _ Hin), list_elem_of_singleton.
      * rewrite andb_true_r. apply bool_decide_ext. tauto.
  - intros m k Hwf Hk%elem_of_seqZ Hn%bool_decide_eq_false. unfold pktid_release.
    destruct (pm_free_dec n m k Hwf ltac:(lia) Hn) as (l & Hl & Hs).
    destruct (free_ok n m k l PKTTYPE_NO_CHECK DHD_PKTID_FREE_LOCKER Hwf ltac:(lia) Hl Hs (or_introl eq_refl))
      as (m' & -> & Hwf' & Hfk & _).
    cbn [mbind option_bind]. exists m'. split_and!; [done|done|]. intros j _. rewrite Hfk.
    cbn [DHD_PKTID_FREE_LOCKER].
    rewrite (bool_decide_ext (j ∈ _ ++ [k]) (j ∈ free_keys m \/ j = k))
      by (by rewrite elem_of_app, list_elem_of_singleton).
    rewrite bool_decide_or. f_equal. case_bool_decide; zcmp; done.
Defined.

(** ** Properties *)

(** C28: from dhd_pktid_map_init on, after any history of allocations and of
    frees of held ids, the held ids are distinct ids of [1 .. num_items], the
    available count is the number not held, and the next dhd_pktid_map_alloc
    returns an id nobody holds, or DHD_PKTID_INVALID with every id held. *)
Theorem pktid_history n rs p pa len dir dmah secdma ty :
  1 <= n <= MAX_PKTID_ITEMS ->
  exists m0 m out,
    dhd_pktid_map_init true true n = Some (Some m0) /\
    id_run (managed := seqZ 1 n) rs (m0, []) = Some (m, out) /\ NoDup out /\
    dhd_pktid_map_avail_cnt m = n - Z.of_nat (length out) /\
    match dhd_pktid_map_alloc m p pa len dir dmah secdma ty with
    | Some (k, _) => if k =? DHD_PKTID_INVALID then forall j, 1 <= j <= n -> j ∈ out
                     else 1 <= k <= n /\ k ∉ out
    | None => False
    end.
Proof.
  intros Hn. destruct (pktid_init_spec n Hn) as (m0 & -> & Hwf0 & Hfk & _).
  assert (id_inv (managed := seqZ 1 n) (m0, [])) as Hinv.
  { constructor; [done|constructor|by intros i ?%elem_of_nil|].
    intros i Hi. cbn. rewrite Hfk. by rewrite bool_decide_eq_true_2. }
  destruct (id_run_inv rs _ Hinv) as ([m out] & Hr & [Hwf Hnd Hsub Hav]). cbn in Hwf, Hnd, Hsub, Hav.
  assert (forall j, 1 <= j <= n -> (j ∈ free_keys m <-> j ∉ out)) as Hfo.
  { intros j Hj. specialize (Hav j ltac:(apply elem_of_seqZ; lia)).
    by destruct (bool_decide_reflect (j ∈ free_keys m)), (bool_decide_reflect (j ∈ out)). }
  do 3 eexists. split_and!; [done|done|done| |].
  - unfold dhd_pktid_map_avail_cnt. rewrite <- (free_keys_length n) by done.
    assert (free_keys m ++ out ≡ₚ seqZ 1 n) as Hperm.
    { apply NoDup_Permutation; [|apply NoDup_seqZ|].
      - apply NoDup_app. split_and!; [apply (pm_nodup _ _ Hwf)| |done].
        intros j Hj. apply Hfo; [|done]. by apply (pm_free _ _ Hwf).
      - intros j. rewrite elem_of_app, elem_of_seqZ. split.
        + intros [Hj|Hj]; [apply (pm_free _ _ Hwf) in Hj as [? _]; lia|].
          apply Hsub in Hj. apply elem_of_seqZ in Hj. lia.
        + intros Hj. destruct (decide (j ∈ out)); [by right|left]. apply Hfo; [lia|done]. }
    apply Permutation_length in Hperm. rewrite length_app, length_seqZ in Hperm. lia.
  - pose proof (pm_avail _ _ Hwf). destruct (decide (avail m = 0)) as [E|E].
    + destruct (alloc_empty n m p pa len dir dmah secdma ty Hwf E) as (m' & -> & _ & _ & _).
      rewrite Z.eqb_refl. intros j Hj. destruct (decide (j ∈ out)) as [|Hno]; [done|].
      apply Hfo in Hno; [|done]. pose proof (free_keys_length _ _ Hwf) as Hl.
      destruct (free_keys m); [by apply elem_of_nil in Hno|cbn in Hl; lia].
    + destruct (alloc_ok n m p pa len dir dmah secdma ty Hwf) as (k & m' & -> & _ & Hk & Hin & _); [lia|].
      destruct (Z.eqb_spec k DHD_PKTID_INVALID) as [Ek|_]; [unfold DHD_PKTID_INVALID in Ek; lia|].
      split; [done|]. by apply Hfo.
Qed.

Lemma pktid_history_witness :
  exists m0 m out,
    dhd_pktid_map_init true true 3 = Some (Some m0) /\
    id_run (managed := seqZ 1 3) [ReqAlloc; ReqAlloc; ReqFree 3] (m0, []) = Some (m, out) /\ NoDup out /\
    dhd_pktid_map_avail_cnt m = 3 - Z.of_nat (length out) /\
    match dhd_pktid_map_alloc m 100 7 60 1 8 9 PKTTYPE_DATA_RX with
    | Some (k, _) => if k =? DHD_PKTID_INVALID then forall j, 1 <= j <= 3 -> j ∈ out
                     else 1 <= k <= 3 /\ k ∉ out
    | None => False
    end.
Proof. apply (pktid_history 3). unfold MAX_PKTID_ITEMS. lia. Defined.

(** C11: the parameters saved under an id come back from it: after
    dhd_pktid_map_alloc, and after any legal operations about other ids
    (allocations, reservations, saves, frees, audits), dhd_pktid_map_free with
    the same packet type, or PKTTYPE_NO_CHECK, returns the packet, its address
    and its handles, with the length modulo 64K, and makes the id available. *)
Theorem pktid_roundtrip n m p pa len dir dmah secdma ty k m1 ops ty' :
  pm_wf n m -> dhd_pktid_map_alloc m p pa len dir dmah secdma ty = Some (k, m1) ->
  k <> DHD_PKTID_INVALID -> pm_legal_run n ops m1 ->
  (forall op, op ∈ ops -> pm_key op <> Some k) -> ty' = PKTTYPE_NO_CHECK \/ ty = ty' ->
  exists m2 m3, pm_run ops m1 = Some m2 /\
    dhd_pktid_map_free m2 k ty' DHD_PKTID_FREE_LOCKER =
      Some (p, Some (pa, u16 len, dmah, secdma), m3) /\
    pm_wf n m3 /\ k ∈ free_keys m3.
Proof.
  intros Hwf Ha Hk Hleg Hne Hty. pose proof (pm_avail _ _ Hwf).
  destruct (decide (avail m = 0)) as [E|E].
  { destruct (alloc_empty n m p pa len dir dmah secdma ty Hwf E) as (m' & Ha' & _). congruence. }
  destruct (alloc_ok n m p pa len dir dmah secdma ty Hwf) as (k' & m' & Ha' & Hwf1 & Hkr & _ & _ & Hl & _);
    [lia|]. rewrite Ha in Ha'. injection Ha' as <- <-.
  destruct (pm_run_ok n ops m1 k _ Hwf1 Hleg Hl) as (m2 & -> & Hwf2 & Hl2); [done|done|].
  destruct (free_ok n m2 k _ ty' DHD_PKTID_FREE_LOCKER Hwf2 Hkr Hl2) as (m3 & Hf & Hwf3 & Hfk & _);
    [done|done|]. exists m2, m3. split_and!; [done|done|done|].
  rewrite Hfk. apply elem_of_app. right. by apply list_elem_of_singleton.
Qed.

Lemma pktid_roundtrip_witness :
  exists m m1 m2 m3, dhd_pktid_map_init true true 3 = Some (Some m) /\
    dhd_pktid_map_alloc m 100 7 70000 1 8 9 PKTTYPE_DATA_RX = Some (3, m1) /\
    pm_run [PReserve 101; PAudit 3 DHD_DUPLICATE_ALLOC] m1 = Some m2 /\
    dhd_pktid_map_free m2 3 PKTTYPE_DATA_RX DHD_PKTID_FREE_LOCKER = Some (100, Some (7, 4464, 8, 9), m3).
Proof.
  destruct (pktid_init_spec 3) as (m & Hi & Hwf & _); [unfold MAX_PKTID_ITEMS; lia|].
  eassert (Ha : dhd_pktid_map_alloc m 100 7 70000 1 8 9 PKTTYPE_DATA_RX = Some (3, _)).
  { vm_compute in Hi. injection Hi as <-. vm_compute. reflexivity. }
  destruct (pktid_roundtrip 3 m 100 7 70000 1 8 9 PKTTYPE_DATA_RX 3 _
    [PReserve 101; PAudit 3 DHD_DUPLICATE_ALLOC] PKTTYPE_DATA_RX Hwf Ha) as (m2 & m3 & H1 & H2 & _).
  - discriminate.
  - split; [exact I|]. intros m' _. split; [cbn; lia|]. intros; exact I.
  - intros op Hop. apply elem_of_cons in Hop as [->|Hop]; [discriminate|].
    apply list_elem_of_singleton in Hop as ->. discriminate.
  - right. reflexivity.
  - exists m. do 3 eexists. split; [exact Hi|]. split; [exact Ha|]. split; [exact H1|exact H2].
Defined.

(** Dhd_pktid_map_free changes nothing and returns no packet when the id is
    free or when the packet type is not the one saved; so a second free of an
    id, of whatever type, never puts it on the stack twice. *)
Theorem pktid_free_refused n m k l ty rsv :
  pm_wf n m -> 1 <= k <= n -> aget (lockers m) k = Some l ->
  (state l = LOCKER_IS_FREE \/ (ty <> PKTTYPE_NO_CHECK /\ pkttype l <> ty) ->
     dhd_pktid_map_free m k ty rsv = Some (0, None, m)) /\
  (state l <> LOCKER_IS_FREE -> forall ty1 ty2 rsv2 m1 out,
     dhd_pktid_map_free m k ty1 DHD_PKTID_FREE_LOCKER = Some (pkt l, Some out, m1) ->
     dhd_pktid_map_free m1 k ty2 rsv2 = Some (0, None, m1)).
Proof.
  intros Hwf Hk Hl. split; [by apply free_refused|]. intros Hs ty1 ty2 rsv2 m1 out Hf.
  destruct (decide (ty1 <> PKTTYPE_NO_CHECK /\ pkttype l <> ty1)) as [Hno|Hyes].
  { rewrite (free_refused m k l) in Hf by auto. done. }
  destruct (free_ok n m k l ty1 DHD_PKTID_FREE_LOCKER Hwf Hk Hl Hs) as (m' & Hf' & _ & _ & _ & Hlk).
  { destruct (decide (ty1 = PKTTYPE_NO_CHECK)); [by left|].
    destruct (decide (pkttype l = ty1)); [by right|tauto]. }
  rewrite Hf in Hf'. injection Hf' as _ ->. apply (free_refused _ k (set_pkt (set_state l LOCKER_IS_FREE) 0)); [|by left].
  rewrite Hlk, aget_insert by (by eapply aget_lt). case_decide; done.
Qed.

Lemma pktid_free_refused_witness :
  exists m l, dhd_pktid_map_init true true 3 = Some (Some m) /\ aget (lockers m) 2 = Some l /\
    dhd_pktid_map_free m 2 PKTTYPE_DATA_TX DHD_PKTID_FREE_LOCKER = Some (0, None, m).
Proof.
  destruct (pktid_init_spec 3) as (m & Hi & Hwf & _); [unfold MAX_PKTID_ITEMS; lia|].
  assert (Hl : aget (lockers m) 2 = Some item0) by (vm_compute in Hi; injection Hi as <-; reflexivity).
  exists m, item0. split; [exact Hi|]. split; [exact Hl|].
  apply (pktid_free_refused 3 m 2 item0 PKTTYPE_DATA_TX DHD_PKTID_FREE_LOCKER Hwf ltac:(lia) Hl).
  left. reflexivity.
Defined.

(** Dhd_pktid_map_fini unmaps and frees the packet of every busy locker,
    once each and in id order, and of no other; dhd_pktid_map_fini_ioctl hands
    the same lockers back as ioctl buffers. *)
Theorem pktid_fini n m :
  pm_wf n m ->
  dhd_pktid_map_fini (Some m) =
    Some (map (fun l => (pkt l, pkttype l, pa l, len l, dir l))
            (filter (fun l => state l = LOCKER_IS_BUSY) (drop 1 (lockers m)))) /\
  dhd_pktid_map_fini_ioctl (Some m) =
    Some (map (fun l => (pkt l, len l, pa l, dmah l, secdma l))
            (filter (fun l => state l = LOCKER_IS_BUSY) (drop 1 (lockers m)))).
Proof.
  intros Hwf. destruct (pm_audit _ _ Hwf) as (a & Ha & Hwa). pose proof (pm_n _ _ Hwf).
  destruct (fini_loop_spec n (Z.to_nat (items m)) m a 1) as (m' & Hf);
    [lia|done|done|apply (pm_lockers _ _ Hwf)|lia|rewrite (pm_items _ _ Hwf); lia|].
  unfold dhd_pktid_map_fini, dhd_pktid_map_fini_ioctl. rewrite Hf. done.
Qed.

Lemma pktid_fini_witness :
  exists m m1, dhd_pktid_map_init true true 3 = Some (Some m) /\
    dhd_pktid_map_alloc m 100 7 60 1 8 9 PKTTYPE_DATA_RX = Some (3, m1) /\
    dhd_pktid_map_fini (Some m1) = Some [(100, PKTTYPE_DATA_RX, 7, 60, 1)].
Proof.
  destruct (pktid_init_spec 3) as (m & Hi & Hwf & _); [unfold MAX_PKTID_ITEMS; lia|].
  destruct (alloc_ok 3 m 100 7 60 1 8 9 PKTTYPE_DATA_RX Hwf) as (k & m1 & Ha & Hwf1 & _);
    [pose proof (free_keys_length _ _ Hwf); vm_compute in Hi; injection Hi as <-; reflexivity|].
  exists m, m1. split; [exact Hi|].
  destruct (pktid_fini 3 m1 Hwf1) as [Hf _]. vm_compute in Hi. injection Hi as <-.
  vm_compute in Ha. injection Ha as <- <-. split; [vm_compute; reflexivity|].
  rewrite Hf. vm_compute. reflexivity.
Defined.

(** On an id of the map, dhd_pktid_audit answers BCME_OK to a duplicate test
    exactly when the audit bitmap has the id in the opposite state, and then
    moves it; the two state tests only read it. *)
Theorem pktid_audit_moves n m a k :
  pm_wf n m -> pktid_audit m = Some a -> 1 <= k <= n ->
  (exists a', dhd_pktid_audit (Some m) k DHD_DUPLICATE_ALLOC =
     Some (if isfree_bit a k then (BCME_OK, Some (with_audit m (Some a')))
           else (BCME_ERROR, Some m)) /\
     (isfree_bit a k = true -> forall j, 0 <= j -> isfree_bit a' j = isfree_bit a j && negb (j =? k))) /\
  (exists a', dhd_pktid_audit (Some m) k DHD_DUPLICATE_FREE =
     Some (if isfree_bit a k then (BCME_ERROR, Some m)
           else (BCME_OK, Some (with_audit m (Some a')))) /\
     (isfree_bit a k = false -> forall j, 0 <= j -> isfree_bit a' j = isfree_bit a j || (j =? k))) /\
  dhd_pktid_audit (Some m) k DHD_TEST_IS_ALLOC =
    Some (if isfree_bit a k then BCME_ERROR else BCME_OK, Some m) /\
  dhd_pktid_audit (Some m) k DHD_TEST_IS_FREE =
    Some (if isfree_bit a k then BCME_OK else BCME_ERROR, Some m).
Proof.
  intros Hwf Ha Hk. destruct (pm_audit _ _ Hwf) as (a0 & Ha0 & Hwa).
  rewrite Ha in Ha0. injection Ha0 as <-. pose proof (pm_n _ _ Hwf) as Hn. unfold MAX_PKTID_ITEMS in Hn.
  pose proof (isfree_reads (n + 1) a k Hwa ltac:(lia)) as Hf.
  unfold dhd_pktid_audit. rewrite Ha.
  destruct (Z.eqb_spec k DHD_IOCTL_REQ_PKTID) as [E|_]; [unfold DHD_IOCTL_REQ_PKTID in E; lia|].
  destruct (Z.eqb_spec k DHD_FAKE_PKTID) as [E|_]; [unfold DHD_FAKE_PKTID in E; lia|].
  destruct (Z.eqb_spec k DHD_PKTID_INVALID) as [E|_]; [unfold DHD_PKTID_INVALID in E; lia|].
  destruct (Z.ltb_spec MAX_PKTID_ITEMS k) as [E|_]; [unfold MAX_PKTID_ITEMS in E; lia|].
  cbn [orb Z.eqb DHD_DUPLICATE_ALLOC DHD_DUPLICATE_FREE DHD_TEST_IS_ALLOC DHD_TEST_IS_FREE Pos.eqb].
  rewrite Hf. cbn [mbind option_bind].
  split_and!; [| |done|by destruct (isfree_bit a k)]; destruct (isfree_bit a k) eqn:E; cbn [negb].
  - destruct (force_take (n + 1) a k) as (a' & -> & _ & Hfr); [done|lia|done|]. by exists a'.
  - by exists a.
  - by exists a.
  - destruct (free_give (n + 1) a k) as (a' & -> & _ & Hfr); [done|lia|done|]. by exists a'.
Qed.

Lemma pktid_audit_moves_witness :
  exists m a, dhd_pktid_map_init true true 3 = Some (Some m) /\ pktid_audit m = Some a /\
    dhd_pktid_audit (Some m) 2 DHD_TEST_IS_FREE =
      Some (if isfree_bit a 2 then BCME_OK else BCME_ERROR, Some m).
Proof.
  destruct (pktid_init_spec 3) as (m & Hi & Hwf & _ & Hau); [unfold MAX_PKTID_ITEMS; lia|].
  destruct (Hau 2) as (a & Ha & _); [lia|]. exists m, a. split; [exact Hi|]. split; [exact Ha|].
  apply (pktid_audit_moves 3 m a 2 Hwf Ha). lia.
Defined.

(** Dhd_pktid_audit checks an id against MAX_PKTID_ITEMS and not against the
    map it audits: on a smaller map (the ioctl map has 8 ids) an id beyond the
    words of its bitmap, which a completion message can carry, is read out of
    bounds. *)
Theorem pktid_audit_out_of_bounds n m a k t :
  pm_wf n m -> pktid_audit m = Some a -> n + 32 <= k <= MAX_PKTID_ITEMS ->
  1 <= t <= 4 -> dhd_pktid_audit (Some m) k t = None.
Proof.
  intros Hwf Ha Hk Ht. destruct (pm_audit _ _ Hwf) as (a0 & Ha0 & Hwa).
  rewrite Ha in Ha0. injection Ha0 as <-. pose proof (pm_n _ _ Hwf) as Hn. unfold MAX_PKTID_ITEMS in *.
  assert (bcm_mwbmap_isfree a k = None) as Hf.
  { unfold bcm_mwbmap_isfree. rewrite DIVOP_div. rewrite aget_out; [done|].
    rewrite (wf_len_id _ _ Hwa), (wf_imaps _ _ Hwa). Z.div_mod_to_equations. lia. }
  unfold dhd_pktid_audit. rewrite Ha, Hf.
  destruct (Z.eqb_spec k DHD_IOCTL_REQ_PKTID) as [E|_]; [unfold DHD_IOCTL_REQ_PKTID in E; lia|].
  destruct (Z.eqb_spec k DHD_FAKE_PKTID) as [E|_]; [unfold DHD_FAKE_PKTID in E; lia|].
  destruct (Z.eqb_spec k DHD_PKTID_INVALID) as [E|_]; [unfold DHD_PKTID_INVALID in E; lia|].
  destruct (Z.ltb_spec MAX_PKTID_ITEMS k) as [E|_]; [unfold MAX_PKTID_ITEMS in E; lia|].
  assert (t = 1 \/ t = 2 \/ t = 3 \/ t = 4) as [-> | [-> | [-> | ->]]] by lia; done.
Qed.

Lemma pktid_audit_out_of_bounds_witness :
  exists m, dhd_pktid_map_init true true 8 = Some (Some m) /\
    dhd_pktid_audit (Some m) 100 DHD_DUPLICATE_FREE = None.
Proof.
  destruct (pktid_init_spec 8) as (m & Hi & Hwf & _ & Hau); [unfold MAX_PKTID_ITEMS; lia|].
  destruct (Hau 2) as (a & Ha & _); [lia|]. exists m. split; [exact Hi|].
  apply (pktid_audit_out_of_bounds 8 m a 100 DHD_DUPLICATE_FREE Hwf Ha);
    unfold MAX_PKTID_ITEMS, DHD_DUPLICATE_FREE; lia.
Defined.

(** Locker 0 is busy and, cleared by bzero, of type PKTTYPE_DATA_TX: a
    transmit completion that carries packet id 0 passes the checks of
    dhd_pktid_map_free, which puts 0 on the stack of ids; the next request is
    then answered DHD_PKTID_INVALID although ids are available. *)
Theorem pktid_free_zero n m :
  pm_wf n m -> avail m < MAX_PKTID_ITEMS ->
  aget (lockers m) DHD_PKTID_INVALID = Some (set_state item0 LOCKER_IS_BUSY) ->
  exists m1, dhd_pktid_map_free m DHD_PKTID_INVALID PKTTYPE_DATA_TX DHD_PKTID_FREE_LOCKER =
      Some (0, Some (0, 0, 0, 0), m1) /\
    dhd_pktid_map_avail_cnt m1 = dhd_pktid_map_avail_cnt m + 1 /\
    forall p pa len dir dmah secdma ty,
      exists m2, dhd_pktid_map_alloc m1 p pa len dir dmah secdma ty = Some (DHD_PKTID_INVALID, m2).
Proof.
  intros Hwf Hav Hl. pose proof (pm_avail _ _ Hwf). pose proof (pm_keys _ _ Hwf) as Hks.
  unfold MAX_PKTID_ITEMS in *. pose proof (aget_lt _ _ _ Hl) as Hlr.
  unfold dhd_pktid_map_free. rewrite Hl. cbn [mbind option_bind set_state state pkttype item0].
  case_decide; [done|]. rewrite (bool_decide_eq_false_2 (PKTTYPE_DATA_TX <> PKTTYPE_DATA_TX)) by auto.
  rewrite andb_false_r. cbn [Bool.eqb DHD_PKTID_FREE_LOCKER].
  rewrite (wrapu_small 32), aset_Some by zlia. cbn [mbind option_bind].
  rewrite aset_Some by done. cbn [mbind option_bind].
  eexists. split_and!; [done|done|]. intros p pa len dir dmah secdma ty.
  unfold dhd_pktid_map_alloc, dhd_pktid_map_reserve. cbn [avail keys lockers].
  destruct (Z.leb_spec (avail m + 1) 0); [lia|]. rewrite aget_insert by lia.
  case_decide; [|done]. cbn [mbind option_bind]. rewrite aget_insert by done.
  case_decide; [|done]. cbn [mbind option_bind]. rewrite aset_Some by (by rewrite length_insert).
  cbn. by eexists.
Qed.

Lemma pktid_free_zero_witness :
  exists m m1, dhd_pktid_map_init true true 3 = Some (Some m) /\
    dhd_pktid_map_free m DHD_PKTID_INVALID PKTTYPE_DATA_TX DHD_PKTID_FREE_LOCKER =
      Some (0, Some (0, 0, 0, 0), m1) /\ dhd_pktid_map_avail_cnt m1 = 4.
Proof.
  destruct (pktid_init_spec 3) as (m & Hi & Hwf & _); [unfold MAX_PKTID_ITEMS; lia|].
  assert (Hs : avail m = 3 /\ aget (lockers m) DHD_PKTID_INVALID = Some (set_state item0 LOCKER_IS_BUSY))
    by (vm_compute in Hi; injection Hi as <-; split; reflexivity).
  destruct Hs as [Hs Hl].
  destruct (pktid_free_zero 3 m Hwf) as (m1 & Hf & Hav & _);
    [rewrite Hs; reflexivity|exact Hl|].
  exists m, m1. split; [exact Hi|]. split; [exact Hf|]. unfold dhd_pktid_map_avail_cnt in *.
  rewrite Hav, Hs. reflexivity.
Defined.
