(* ===== verification/PktQueue.v ===== *)
(** * Multi-precedence packet queue (shared/hnd_pktq.c, include/hnd_pktq.h)

    Packets are pointers; the heap maps every allocated packet to its link
    field (PKTLINK), 0 is NULL, and touching a packet that is not allocated is
    undefined behaviour ([None]).  HND_PKTQ_THREAD_SAFE is not defined, so the
    mutex macros always succeed and their early returns are never taken; ASSERT
    is a no-op and appears as a precondition of the theorems.  A loop that
    follows links stops after one step more than there are packets: a queue on
    which that happens is cyclic and the C loop would not end ([None] again). *)
From Stdlib Require Import ZArith Lia.
From stdpp Require Import base gmap list option numbers.
From S2P Require Import Prelude.

(** ** Packets *)
Abbreviation heap := (gmap Z Z).

Definition PKTLINK (h : heap) (p : Z) : option Z := h !! p.
Definition PKTSETLINK (h : heap) (p x : Z) : option heap :=
  _ ← h !! p; Some (<[p := x]> h).
Definition PKTFREE (h : heap) (p : Z) : option heap := _ ← h !! p; Some (delete p h).

(** The callback [ifpkt_cb_t] with its argument applied; [None] is NULL. *)
Definition ifpkt_cb_t := option (Z -> bool).
Definition cb_true (fn : ifpkt_cb_t) (p : Z) : bool :=
  match fn with None => true | Some f => f p end.

(** ** Queues *)
Definition PKTQ_MAX_PREC : Z := 16.

Record pktq_prec := mk_prec {
  pp_head : Z; pp_tail : Z;
  pp_len : Z;             (* uint16 *)
  pp_max : Z              (* uint16 *)
}.

(** struct pktq and struct spktq differ in the length of the array [q] only. *)
Record pktq := mk_pktq {
  num_prec : Z;           (* uint16 *)
  hi_prec : Z;            (* uint16: >= the highest non-empty precedence *)
  pq_max : Z;             (* uint16 *)
  pq_len : Z;             (* uint16 *)
  pq_q : list pktq_prec
}.

Definition pktq_pavail (pq : pktq) (prec : Z) : option Z :=
  q ← aget (pq_q pq) prec; Some (pp_max q - pp_len q).
Definition pktq_pfull (pq : pktq) (prec : Z) : option bool :=
  q ← aget (pq_q pq) prec; Some (pp_max q <=? pp_len q).
Definition pktq_avail (pq : pktq) : Z := pq_max pq - pq_len pq.
Definition pktq_full (pq : pktq) : bool := pq_max pq <=? pq_len pq.

(** [if (pq->hi_prec < prec) pq->hi_prec = (uint8)prec;] *)
Definition raise_hi (pq : pktq) (prec : Z) : Z :=
  if hi_prec pq <? prec then u8 prec else hi_prec pq.

Definition pktq_penq (h : heap) (pq : pktq) (prec p : Z) : option (Z * heap * pktq) :=
  q ← aget (pq_q pq) prec;
  '(h, head) ←
    (if negb (pp_head q =? 0) then h ← PKTSETLINK h (pp_tail q) p; Some (h, pp_head q)
     else Some (h, p));
  qs ← aset (pq_q pq) prec (mk_prec head p (u16 (pp_len q + 1)) (pp_max q));
  Some (p, h, mk_pktq (num_prec pq) (raise_hi pq prec) (pq_max pq) (u16 (pq_len pq + 1)) qs).

Definition pktq_penq_head (h : heap) (pq : pktq) (prec p : Z) : option (Z * heap * pktq) :=
  q ← aget (pq_q pq) prec;
  let tail := if pp_head q =? 0 then p else pp_tail q in
  h ← PKTSETLINK h p (pp_head q);
  qs ← aset (pq_q pq) prec (mk_prec p tail (u16 (pp_len q + 1)) (pp_max q));
  Some (p, h, mk_pktq (num_prec pq) (raise_hi pq prec) (pq_max pq) (u16 (pq_len pq + 1)) qs).

(** The emptied list: head, tail and both lengths reset. *)
Definition list_emptied (l : pktq) (lq : pktq_prec) : option pktq :=
  qs ← aset (pq_q l) 0 (mk_prec 0 0 0 (pp_max lq));
  Some (mk_pktq (num_prec l) (hi_prec l) (pq_max l) 0 qs).

Definition pktq_append (h : heap) (pq : pktq) (prec : Z) (list : pktq)
    : option (heap * pktq * pktq) :=
  list_q ← aget (pq_q list) 0;
  if pp_head list_q =? 0 then Some (h, pq, list) else
  q ← aget (pq_q pq) prec;
  '(h, head) ←
    (if negb (pp_head q =? 0) then h ← PKTSETLINK h (pp_tail q) (pp_head list_q); Some (h, pp_head q)
     else Some (h, pp_head list_q));
  qs ← aset (pq_q pq) prec
         (mk_prec head (pp_tail list_q) (u16 (pp_len q + pp_len list_q)) (pp_max q));
  let pq := mk_pktq (num_prec pq) (raise_hi pq prec) (pq_max pq) (u16 (pq_len pq + pp_len list_q)) qs in
  list ← list_emptied list list_q;
  Some (h, pq, list).

Definition pktq_prepend (h : heap) (pq : pktq) (prec : Z) (list : pktq)
    : option (heap * pktq * pktq) :=
  list_q ← aget (pq_q list) 0;
  if pp_head list_q =? 0 then Some (h, pq, list) else
  q ← aget (pq_q pq) prec;
  h ← PKTSETLINK h (pp_tail list_q) (pp_head q);
  let tail := if pp_tail q =? 0 then pp_tail list_q else pp_tail q in
  qs ← aset (pq_q pq) prec
         (mk_prec (pp_head list_q) tail (u16 (pp_len q + pp_len list_q)) (pp_max q));
  let pq := mk_pktq (num_prec pq) (raise_hi pq prec) (pq_max pq) (u16 (pq_len pq + pp_len list_q)) qs in
  list ← list_emptied list list_q;
  Some (h, pq, list).

(** Remove the head [p] of the queue [q] of [prec]: shared text of pktq_pdeq,
    pktq_deq and pktq_mdeq. *)
Definition take_head (h : heap) (pq : pktq) (prec hi : Z) (q : pktq_prec) (p : Z)
    : option (heap * pktq) :=
  head ← PKTLINK h p;
  let tail := if head =? 0 then 0 else pp_tail q in
  qs ← aset (pq_q pq) prec (mk_prec head tail (u16 (pp_len q - 1)) (pp_max q));
  h ← PKTSETLINK h p 0;
  Some (h, mk_pktq (num_prec pq) hi (pq_max pq) (u16 (pq_len pq - 1)) qs).

Definition pktq_pdeq (h : heap) (pq : pktq) (prec : Z) : option (Z * heap * pktq) :=
  q ← aget (pq_q pq) prec;
  let p := pp_head q in
  if p =? 0 then Some (p, h, pq) else
  '(h, pq) ← take_head h pq prec (hi_prec pq) q p;
  Some (p, h, pq).

Definition pktq_pdeq_prev (h : heap) (pq : pktq) (prec prev_p : Z) : option (Z * heap * pktq) :=
  q ← aget (pq_q pq) prec;
  if prev_p =? 0 then Some (0, h, pq) else
  p ← PKTLINK h prev_p;
  if p =? 0 then Some (p, h, pq) else
  qs ← aset (pq_q pq) prec (mk_prec (pp_head q) (pp_tail q) (u16 (pp_len q - 1)) (pp_max q));
  let pq := mk_pktq (num_prec pq) (hi_prec pq) (pq_max pq) (u16 (pq_len pq - 1)) qs in
  next ← PKTLINK h p;
  h ← PKTSETLINK h prev_p next;
  h ← PKTSETLINK h p 0;
  Some (p, h, pq).

(** [while (p)]: the first packet the callback accepts and its predecessor. *)
Fixpoint find_fn (fuel : nat) (h : heap) (fn : ifpkt_cb_t) (p prev : Z) : option (Z * Z) :=
  match fuel with
  | O => None
  | S fuel =>
      if p =? 0 then Some (p, prev) else
      if cb_true fn p then Some (p, prev) else
      next ← PKTLINK h p;
      find_fn fuel h fn next p
  end.

(** Unlink [p], whose predecessor is [prev] (NULL: [p] is the head). *)
Definition unlink (h : heap) (q : pktq_prec) (p prev : Z) : option (heap * pktq_prec) :=
  if prev =? 0 then
    head ← PKTLINK h p;
    Some (h, mk_prec head (if head =? 0 then 0 else pp_tail q) (pp_len q) (pp_max q))
  else
    next ← PKTLINK h p;
    h ← PKTSETLINK h prev next;
    Some (h, mk_prec (pp_head q) (if pp_tail q =? p then prev else pp_tail q) (pp_len q) (pp_max q)).

(** [q->len--; pq->len--; PKTSETLINK(p, NULL);] *)
Definition drop_count (h : heap) (pq : pktq) (prec : Z) (q : pktq_prec) (p : Z)
    : option (heap * pktq) :=
  qs ← aset (pq_q pq) prec (mk_prec (pp_head q) (pp_tail q) (u16 (pp_len q - 1)) (pp_max q));
  h ← PKTSETLINK h p 0;
  Some (h, mk_pktq (num_prec pq) (hi_prec pq) (pq_max pq) (u16 (pq_len pq - 1)) qs).

Definition pktq_pdeq_with_fn (h : heap) (pq : pktq) (prec : Z) (fn : ifpkt_cb_t)
    : option (Z * heap * pktq) :=
  q ← aget (pq_q pq) prec;
  '(p, prev) ← find_fn (S (size h)) h fn (pp_head q) 0;
  if p =? 0 then Some (p, h, pq) else
  '(h, q) ← unlink h q p prev;
  '(h, pq) ← drop_count h pq prec q p;
  Some (p, h, pq).

(** [for (prev = NULL; p != q->tail; p = PKTLINK(p)) prev = p;] *)
Fixpoint find_tail (fuel : nat) (h : heap) (tail p prev : Z) : option (Z * Z) :=
  match fuel with
  | O => None
  | S fuel =>
      if p =? tail then Some (p, prev) else
      next ← PKTLINK h p;
      find_tail fuel h tail next p
  end.

(** The body that pktq_pdeq_tail and pktq_deq_tail share. *)
Definition take_tail (h : heap) (pq : pktq) (prec : Z) (q : pktq_prec) : option (Z * heap * pktq) :=
  '(p, prev) ← find_tail (S (size h)) h (pp_tail q) (pp_head q) 0;
  '(h, head) ← (if negb (prev =? 0) then h ← PKTSETLINK h prev 0; Some (h, pp_head q)
                else Some (h, 0));
  qs ← aset (pq_q pq) prec (mk_prec head prev (u16 (pp_len q - 1)) (pp_max q));
  Some (p, h, mk_pktq (num_prec pq) (hi_prec pq) (pq_max pq) (u16 (pq_len pq - 1)) qs).

Definition pktq_pdeq_tail (h : heap) (pq : pktq) (prec : Z) : option (Z * heap * pktq) :=
  q ← aget (pq_q pq) prec;
  if pp_head q =? 0 then Some (0, h, pq) else take_tail h pq prec q.

(** The loop of pktq_pflush; [head] and [len] are [q->head] and [q->len]. *)
Fixpoint flush_loop (fuel : nat) (h : heap) (fn : ifpkt_cb_t) (qhead qlen plen p prev : Z)
    : option (heap * Z * Z * Z) :=
  match fuel with
  | O => None
  | S fuel =>
      if p =? 0 then Some (h, qhead, qlen, plen) else
      if cb_true fn p then
        let head := p =? qhead in
        '(h, qhead) ←
          (if head then next ← PKTLINK h p; Some (h, next)
           else next ← PKTLINK h p; h ← PKTSETLINK h prev next; Some (h, qhead));
        h ← PKTSETLINK h p 0;
        h ← PKTFREE h p;
        let qlen := u16 (qlen - 1) in
        let plen := u16 (plen - 1) in
        p ← (if head then Some qhead else PKTLINK h prev);
        flush_loop fuel h fn qhead qlen plen p prev
      else
        next ← PKTLINK h p;
        flush_loop fuel h fn qhead qlen plen next p
  end.

Definition pktq_pflush (h : heap) (pq : pktq) (prec : Z) (fn : ifpkt_cb_t) : option (heap * pktq) :=
  q ← aget (pq_q pq) prec;
  '(h, head, qlen, plen) ←
    flush_loop (S (size h)) h fn (pp_head q) (pp_len q) (pq_len pq) (pp_head q) 0;
  let tail := if head =? 0 then 0 else pp_tail q in
  qs ← aset (pq_q pq) prec (mk_prec head tail qlen (pp_max q));
  Some (h, mk_pktq (num_prec pq) (hi_prec pq) (pq_max pq) plen qs).

(** [for (p = q->head; p && PKTLINK(p) != pktbuf; p = PKTLINK(p)) ;] *)
Fixpoint find_prev (fuel : nat) (h : heap) (pktbuf p : Z) : option Z :=
  match fuel with
  | O => None
  | S fuel =>
      if p =? 0 then Some p else
      next ← PKTLINK h p;
      if next =? pktbuf then Some p else find_prev fuel h pktbuf next
  end.

Definition pktq_pdel (h : heap) (pq : pktq) (pktbuf prec : Z) : option (bool * heap * pktq) :=
  if pktbuf =? 0 then Some (false, h, pq) else
  q ← aget (pq_q pq) prec;
  if pp_head q =? pktbuf then
    '(h, q) ← unlink h q pktbuf 0;
    '(h, pq) ← drop_count h pq prec q pktbuf;
    Some (true, h, pq)
  else
    p ← find_prev (S (size h)) h pktbuf (pp_head q);
    if p =? 0 then Some (false, h, pq) else
    '(h, q) ← unlink h q pktbuf p;
    '(h, pq) ← drop_count h pq prec q pktbuf;
    Some (true, h, pq).

(** [mem] is the array [q] before the call; the first [num_prec] elements are
    cleared and their [max] set. *)
Definition pktq_init (mem : list pktq_prec) (num_prec max_len : Z) : option pktq :=
  if (0 <=? num_prec) && (num_prec <=? Z.of_nat (length mem)) then
    Some (mk_pktq (u16 num_prec) 0 (u16 max_len) 0
      (replicate (Z.to_nat num_prec) (mk_prec 0 0 0 (u16 max_len)) ++ drop (Z.to_nat num_prec) mem))
  else None.

Definition pktq_deinit (pq : pktq) : bool := true.

Definition pktq_set_max_plen (pq : pktq) (prec max_len : Z) : option pktq :=
  if prec <? num_prec pq then
    q ← aget (pq_q pq) prec;
    qs ← aset (pq_q pq) prec (mk_prec (pp_head q) (pp_tail q) (pp_len q) (u16 max_len));
    Some (mk_pktq (num_prec pq) (hi_prec pq) (pq_max pq) (pq_len pq) qs)
  else Some pq.

(** [while ((prec = pq->hi_prec) > 0 && pq->q[prec].head == NULL) pq->hi_prec--;] *)
Fixpoint hi_loop (fuel : nat) (pq : pktq) (hi : Z) : option Z :=
  match fuel with
  | O => None
  | S fuel =>
      if 0 <? hi then
        q ← aget (pq_q pq) hi;
        if pp_head q =? 0 then hi_loop fuel pq (u16 (hi - 1)) else Some hi
      else Some hi
  end.
Definition lower_hi (pq : pktq) : option Z := hi_loop (S (Z.to_nat (hi_prec pq))) pq (hi_prec pq).
Definition with_hi (pq : pktq) (hi : Z) : pktq :=
  mk_pktq (num_prec pq) hi (pq_max pq) (pq_len pq) (pq_q pq).

(** The second component of the result is what is stored through [prec_out],
    [None] when nothing is. *)
Definition pktq_deq (h : heap) (pq : pktq) : option (Z * option Z * heap * pktq) :=
  if pq_len pq =? 0 then Some (0, None, h, pq) else
  prec ← lower_hi pq;
  let pq := with_hi pq prec in
  q ← aget (pq_q pq) prec;
  let p := pp_head q in
  if p =? 0 then Some (p, None, h, pq) else
  '(h, pq) ← take_head h pq prec (hi_prec pq) q p;
  Some (p, Some prec, h, pq).

(** [for (prec = 0; prec < pq->hi_prec; prec++) if (pq->q[prec].head) break;] *)
Fixpoint low_loop (fuel : nat) (pq : pktq) (prec : Z) : option Z :=
  match fuel with
  | O => None
  | S fuel =>
      if prec <? hi_prec pq then
        q ← aget (pq_q pq) prec;
        if negb (pp_head q =? 0) then Some prec else low_loop fuel pq (prec + 1)
      else Some prec
  end.
Definition lowest (pq : pktq) : option Z := low_loop (S (Z.to_nat (hi_prec pq))) pq 0.

Definition pktq_deq_tail (h : heap) (pq : pktq) : option (Z * option Z * heap * pktq) :=
  if pq_len pq =? 0 then Some (0, None, h, pq) else
  prec ← lowest pq;
  q ← aget (pq_q pq) prec;
  if pp_head q =? 0 then Some (0, None, h, pq) else
  '(p, h, pq) ← take_tail h pq prec q;
  h ← PKTSETLINK h p 0;
  Some (p, Some prec, h, pq).

Definition pktq_peek (pq : pktq) : option (Z * option Z * pktq) :=
  if pq_len pq =? 0 then Some (0, None, pq) else
  prec ← lower_hi pq;
  let pq := with_hi pq prec in
  q ← aget (pq_q pq) prec;
  Some (pp_head q, Some prec, pq).

Definition pktq_peek_tail (pq : pktq) : option (Z * option Z) :=
  if pq_len pq =? 0 then Some (0, None) else
  prec ← lowest pq;
  q ← aget (pq_q pq) prec;
  Some (pp_tail q, Some prec).

Fixpoint flush_precs (fuel : nat) (h : heap) (pq : pktq) (prec : Z) (fn : ifpkt_cb_t)
    : option (heap * pktq) :=
  match fuel with
  | O => Some (h, pq)
  | S fuel => '(h, pq) ← pktq_pflush h pq prec fn; flush_precs fuel h pq (prec + 1) fn
  end.
Definition pktq_flush (h : heap) (pq : pktq) (fn : ifpkt_cb_t) : option (heap * pktq) :=
  if pq_len pq =? 0 then Some (h, pq) else flush_precs (Z.to_nat (num_prec pq)) h pq 0 fn.

Definition in_bmp (prec_bmp prec : Z) : bool := negb (Z.land prec_bmp (Z.shiftl 1 prec) =? 0).

(** [for (prec = 0; prec <= pq->hi_prec; prec++)] *)
Fixpoint mlen_loop (fuel : nat) (pq : pktq) (prec_bmp prec len : Z) : option Z :=
  match fuel with
  | O => Some len
  | S fuel =>
      len ← (if in_bmp prec_bmp prec then q ← aget (pq_q pq) prec; Some (len + pp_len q)
             else Some len);
      mlen_loop fuel pq prec_bmp (prec + 1) len
  end.
Definition pktq_mlen (pq : pktq) (prec_bmp : Z) : option Z :=
  mlen_loop (S (Z.to_nat (hi_prec pq))) pq prec_bmp 0 0.

(** The loop that goes down to a non-empty precedence of the bitmap; the
    inner [None] is the jump to [done] with [p] NULL. *)
Fixpoint mfind (fuel : nat) (pq : pktq) (prec_bmp prec : Z) : option (option Z) :=
  match fuel with
  | O => None
  | S fuel =>
      q ← aget (pq_q pq) prec;
      if negb (in_bmp prec_bmp prec) || (pp_head q =? 0) then
        if prec =? 0 then Some None else mfind fuel pq prec_bmp (prec - 1)
      else Some (Some prec)
  end.

Definition pktq_mpeek (pq : pktq) (prec_bmp : Z) : option (Z * option Z * pktq) :=
  if pq_len pq =? 0 then Some (0, None, pq) else
  hi ← lower_hi pq;
  let pq := with_hi pq hi in
  found ← mfind (S (Z.to_nat hi)) pq prec_bmp hi;
  match found with
  | None => Some (0, None, pq)
  | Some prec =>
      q ← aget (pq_q pq) prec;
      if pp_head q =? 0 then Some (pp_head q, None, pq) else Some (pp_head q, Some prec, pq)
  end.

Definition pktq_mdeq (h : heap) (pq : pktq) (prec_bmp : Z) : option (Z * option Z * heap * pktq) :=
  if pq_len pq =? 0 then Some (0, None, h, pq) else
  hi ← lower_hi pq;
  let pq := with_hi pq hi in
  found ← mfind (S (Z.to_nat hi)) pq prec_bmp hi;
  match found with
  | None => Some (0, None, h, pq)
  | Some prec =>
      q ← aget (pq_q pq) prec;
      let p := pp_head q in
      if p =? 0 then Some (p, None, h, pq) else
      '(h, pq) ← take_head h pq prec (hi_prec pq) q p;
      Some (p, Some prec, h, pq)
  end.

(** ** An execution *)
Definition heap4 : heap := list_to_map [(1, 0); (2, 0); (3, 0); (4, 0)].
Definition q4 : list pktq_prec := replicate 16 (mk_prec 7 7 7 7).
Example ex_pktq :
  (pq ← pktq_init q4 4 10; '(_, h, pq) ← pktq_penq heap4 pq 1 1;
   '(_, h, pq) ← pktq_penq h pq 3 2; '(_, h, pq) ← pktq_penq h pq 1 3;
   '(_, h, pq) ← pktq_penq_head h pq 1 4;
   '(a, h, pq) ← pktq_pdel h pq 1 1; '(b, pb, h, pq) ← pktq_deq h pq;
   '(c, pc, h, pq) ← pktq_deq h pq; '(d, pd, h, pq) ← pktq_mdeq h pq 15;
   Some (a, b, pb, c, pc, d, pd, pq_len pq)) =
  Some (true, 2, Some 3, 4, Some 1, 3, Some 1, 0).
Proof. reflexivity. Qed.
