(* ===== verification/PktChain.v ===== *)
(** * Linked packet chains

    The list-segment lemmas of the packet queue: what a [PKTSETLINK] does to a
    NULL-terminated chain, and the loops of hnd_pktq.c that walk one. *)
From Stdlib Require Import ZArith Lia.
From stdpp Require Import base option numbers gmap list.
From S2P Require Import Prelude.
From S2P Require Import PktQueue.

(** ** Definitions *)

(** The first packet of a list, and the last; 0 (NULL) for the empty list. *)
Definition hd0 (xs : list Z) : Z := default 0 (head xs).
Definition last0 (xs : list Z) : Z := default 0 (last xs).

(** Every packet of [xs] is allocated and linked to the next, the last to NULL. *)
Fixpoint linked (h : heap) (xs : list Z) : Prop :=
  match xs with
  | [] => True
  | x :: xs => h !! x = Some (hd0 xs) /\ linked h xs
  end.

(** The queue [q] represents the list [xs]. *)
Record prec_ok (h : heap) (q : pktq_prec) (xs : list Z) : Prop := {
  po_head : pp_head q = hd0 xs;
  po_tail : pp_tail q = last0 xs;
  po_len : pp_len q = Z.of_nat (length xs);
  po_nodup : NoDup xs;
  po_linked : linked h xs
}.

(** ** Lists *)
Lemma hd0_app xs ys : hd0 (xs ++ ys) = if decide (xs = []) then hd0 ys else hd0 xs.
Proof. destruct xs; cbn; by case_decide. Qed.

Lemma last0_snoc xs x : last0 (xs ++ [x]) = x.
Proof. unfold last0. by rewrite last_snoc. Qed.

Lemma last0_app xs ys : ys <> [] -> last0 (xs ++ ys) = last0 ys.
Proof.
  intros Hy. destruct ys as [|y ys _] using rev_ind; [done|].
  by rewrite app_assoc, !last0_snoc.
Qed.

Lemma last0_cons x xs : last0 (x :: xs) = if decide (xs = []) then x else last0 xs.
Proof. destruct xs as [|y xs]; [done|]. by apply (last0_app [x] (y :: xs)). Qed.

Lemma last0_in xs : xs <> [] -> last0 xs ∈ xs.
Proof.
  destruct xs as [|x xs _] using rev_ind; [done|]. intros _. rewrite last0_snoc.
  apply elem_of_app. right. by apply list_elem_of_singleton.
Qed.

(** ** Chains *)
Lemma linked_frame h h' xs :
  (forall x, x ∈ xs -> h' !! x = h !! x) -> linked h xs -> linked h' xs.
Proof.
  induction xs as [|x xs IH]; intros Hf; [done|]. intros [Hx Hl]. split.
  - rewrite Hf; [done|apply list_elem_of_here].
  - apply IH; [|done]. intros y Hy. apply Hf. by apply list_elem_of_further.
Qed.

Lemma linked_insert h p v xs : p ∉ xs -> linked h xs -> linked (<[p:=v]> h) xs.
Proof.
  intros Hp. apply linked_frame. intros x Hx. apply lookup_insert_ne. by intros <-.
Qed.

Lemma linked_app_r h xs ys : linked h (xs ++ ys) -> linked h ys.
Proof. induction xs; [done|]. intros [_ ?]. auto. Qed.

Lemma linked_at h xs x ys : linked h (xs ++ x :: ys) -> h !! x = Some (hd0 ys).
Proof. by intros [? _]%linked_app_r. Qed.

Lemma linked_last h xs : linked h xs -> xs <> [] -> h !! last0 xs = Some 0.
Proof.
  destruct xs as [|x xs _] using rev_ind; [done|]. intros Hl _. rewrite last0_snoc.
  by apply linked_at in Hl.
Qed.

(** Relinking [t] replaces what follows it. *)
Lemma linked_relink h xs t ys zs :
  linked h (xs ++ t :: ys) -> linked h zs -> t ∉ xs -> t ∉ zs ->
  linked (<[t := hd0 zs]> h) (xs ++ t :: zs).
Proof.
  induction xs as [|x xs IH]; cbn [app linked]; intros [Hx Hl] Hz Hxs Hzs.
  - split; [apply lookup_insert_eq|]. by apply linked_insert.
  - apply not_elem_of_cons in Hxs as [Hne Hxs]. split; [|by apply IH].
    rewrite lookup_insert_ne, Hx by done. f_equal. by destruct xs.
Qed.

Lemma linked_in h xs x : linked h xs -> x ∈ xs -> exists n, h !! x = Some n.
Proof.
  intros Hl Hx. apply list_elem_of_split in Hx as (l1 & l2 & ->).
  eexists. by eapply linked_at.
Qed.

Lemma linked_nz h xs : h !! 0 = None -> linked h xs -> 0 ∉ xs.
Proof. intros H0 Hl Hx. destruct (linked_in _ _ _ Hl Hx) as [n Hn]. congruence. Qed.

Lemma hd0_zero h xs : h !! 0 = None -> linked h xs -> (hd0 xs =? 0) = bool_decide (xs = []).
Proof.
  intros H0 Hl. destruct xs as [|x xs]; [done|]. rewrite bool_decide_eq_false_2 by done.
  apply Z.eqb_neq. cbn. intros ->. destruct Hl. congruence.
Qed.

Lemma last0_zero h xs : h !! 0 = None -> linked h xs -> (last0 xs =? 0) = bool_decide (xs = []).
Proof.
  intros H0 Hl. destruct (decide (xs = [])) as [->|Hne]; [done|].
  rewrite bool_decide_eq_false_2 by done. apply Z.eqb_neq. intros E.
  pose proof (linked_last _ _ Hl Hne). congruence.
Qed.

(** A duplicate-free chain is no longer than the heap. *)
Lemma linked_length h xs : NoDup xs -> linked h xs -> (length xs <= size h)%nat.
Proof.
  intros Hnd Hl. rewrite <- size_dom, <- (size_list_to_set (C:=gset Z) xs) by done.
  apply subseteq_size. intros x Hx%elem_of_list_to_set.
  destruct (linked_in _ _ _ Hl Hx) as [n Hn]. by apply elem_of_dom_2 in Hn.
Qed.

Lemma setlink_some h p x n : h !! p = Some n -> PKTSETLINK h p x = Some (<[p:=x]> h).
Proof. unfold PKTSETLINK. by intros ->. Qed.

(** ** The loops, on a chain *)

(** find_fn: the first packet the callback accepts. *)
Lemma find_fn_spec h fn xs fuel prev :
  h !! 0 = None -> linked h xs -> (length xs < fuel)%nat ->
  (exists l1 p l2, xs = l1 ++ p :: l2 /\ cb_true fn p = true /\
     (forall x, x ∈ l1 -> cb_true fn x = false) /\
     find_fn fuel h fn (hd0 xs) prev = Some (p, if decide (l1 = []) then prev else last0 l1)) \/
  ((forall x, x ∈ xs -> cb_true fn x = false) /\
   exists prev', find_fn fuel h fn (hd0 xs) prev = Some (0, prev')).
Proof.
  intros H0. revert fuel prev. induction xs as [|x xs IH]; intros fuel prev Hl Hf;
    (destruct fuel as [|fuel]; [cbn in Hf; lia|]); cbn [find_fn].
  - right. split; [by intros ? ?%elem_of_nil|]. by eexists.
  - assert (x <> 0) as Hx by (intros ->; destruct Hl; congruence).
    apply Z.eqb_neq in Hx. change (hd0 (x :: xs)) with x. rewrite Hx.
    destruct (cb_true fn x) eqn:Hfn.
    + left. exists [], x, xs. split_and!; [done..|by intros ? ?%elem_of_nil|done].
    + destruct Hl as [Hlx Hl]. unfold PKTLINK. rewrite Hlx. cbn [mbind option_bind].
      destruct (IH fuel x Hl) as [(l1 & p & l2 & -> & Hp & Hl1 & ->)|[Hno [prev' ->]]];
        [cbn in Hf; lia| |].
      * left. exists (x :: l1), p, l2. split_and!; [done..| |].
        -- intros y [->|?]%elem_of_cons; auto.
        -- rewrite last0_cons. by repeat case_decide.
      * right. split; [|by eexists]. intros y [->|?]%elem_of_cons; auto.
Qed.

(** find_tail: the last packet and the one before it. *)
Lemma find_tail_spec h xs t fuel prev :
  linked h (xs ++ [t]) -> NoDup (xs ++ [t]) -> (length xs < fuel)%nat ->
  find_tail fuel h t (hd0 (xs ++ [t])) prev =
    Some (t, if decide (xs = []) then prev else last0 xs).
Proof.
  revert fuel prev. induction xs as [|x xs IH]; intros fuel prev Hl Hnd Hf;
    (destruct fuel as [|fuel]; [cbn in Hf; lia|]); cbn [find_tail app].
  - change (hd0 [t]) with t. by rewrite Z.eqb_refl.
  - change (hd0 (x :: xs ++ [t])) with x. destruct Hl as [Hlx Hl].
    apply NoDup_cons in Hnd as [Hx Hnd].
    destruct (Z.eqb_spec x t) as [->|_].
    { exfalso. apply Hx, elem_of_app. right. by apply list_elem_of_singleton. }
    unfold PKTLINK. rewrite Hlx. cbn [mbind option_bind].
    rewrite IH by (done || cbn in Hf; lia). rewrite last0_cons. by repeat case_decide.
Qed.

(** find_prev: the predecessor of [b], from a chain that does not start with it. *)
Lemma find_prev_spec h xs b fuel :
  h !! 0 = None -> b <> 0 -> linked h xs -> hd0 xs <> b -> (length xs < fuel)%nat ->
  (b ∉ xs /\ find_prev fuel h b (hd0 xs) = Some 0) \/
  (exists l1 l2, xs = l1 ++ b :: l2 /\ l1 <> [] /\ find_prev fuel h b (hd0 xs) = Some (last0 l1)).
Proof.
  intros H0 Hb. revert fuel. induction xs as [|x xs IH]; intros fuel Hl Hh Hf;
    (destruct fuel as [|fuel]; [cbn in Hf; lia|]); cbn [find_prev].
  - left. split; [by intros ?%elem_of_nil|done].
  - change (hd0 (x :: xs)) with x in *. destruct Hl as [Hlx Hl].
    destruct (Z.eqb_spec x 0) as [->|Hx]; [congruence|].
    unfold PKTLINK. rewrite Hlx. cbn [mbind option_bind].
    destruct (Z.eqb_spec (hd0 xs) b) as [Eb|Eb].
    + right. destruct xs as [|y xs]; [by cbn in Eb|]. cbn in Eb. subst y.
      exists [x], xs. done.
    + destruct (IH fuel Hl Eb) as [[Hni ->]|(l1 & l2 & -> & Hl1 & ->)]; [cbn in Hf; lia| |].
      * left. split; [|done]. by apply not_elem_of_cons.
      * right. exists (x :: l1), l2. split_and!; [done..|]. rewrite last0_cons. by case_decide.
Qed.
