(* ===== verification/PktQueueSpec.v ===== *)
(** * The packet queue refines a list of packets per precedence

    The abstract queue holds, per precedence, the packets in order and the
    limit of that precedence, and apart from them the packets its client owns
    (allocated, not queued, link NULL).  [Rep] is the representation relation;
    [spec_step] gives every operation its meaning on lists, and is undefined
    on the calls hnd_pktq.c forbids by ASSERT or by its link discipline. *)
From Stdlib Require Import ZArith Lia.
From stdpp Require Import base option numbers gmap list.
From S2P Require Import Prelude.
From S2P Require Import PktQueue.
From S2P Require Import PktChain.

(** ** Abstract state *)
Record absq := mk_absq {
  a_qs : list (list Z * Z);
  a_max : Z;
  a_own : gset Z
}.

Definition a_len (qs : list (list Z * Z)) : nat := sum_list_with (fun x => length x.1) qs.

(** Precedence [i] of the abstract queue; [aq i] is its packets. *)
Definition aq (a : absq) (i : nat) : list Z := default [] (fst <$> a_qs a !! i).

Record Rep (h : heap) (pq : pktq) (a : absq) : Prop := {
  r_null : h !! 0 = None;
  r_np : num_prec pq = Z.of_nat (length (a_qs a)) /\ 0 < num_prec pq <= PKTQ_MAX_PREC;
  r_hi : 0 <= hi_prec pq < num_prec pq;
  r_above : forall i, hi_prec pq < Z.of_nat i -> aq a i = [];
  r_max : pq_max pq = a_max a /\ 0 <= a_max a < 65536;
  r_len : pq_len pq = Z.of_nat (a_len (a_qs a)) /\ pq_len pq < 65536;
  r_prec : forall i xs m, a_qs a !! i = Some (xs, m) -> 0 <= m < 65536 /\
    exists q, aget (pq_q pq) (Z.of_nat i) = Some q /\ pp_max q = m /\ prec_ok h q xs;
  r_disj : forall i j x, x ∈ aq a i -> x ∈ aq a j -> i = j;
  r_own : forall p, p ∈ a_own a -> h !! p = Some 0 /\ forall i, p ∉ aq a i
}.

(** ** Lengths *)
Lemma aq_lookup a i xs m : a_qs a !! i = Some (xs, m) -> aq a i = xs.
Proof. intros H. unfold aq. by rewrite H. Qed.

Lemma aq_in a i x : x ∈ aq a i -> exists m, a_qs a !! i = Some (aq a i, m).
Proof.
  unfold aq. destruct (a_qs a !! i) as [[xs m]|] eqn:E; cbn; [by eexists|by intros ?%elem_of_nil].
Qed.

Lemma a_len_cons x qs : a_len (x :: qs) = (length x.1 + a_len qs)%nat.
Proof. done. Qed.

Lemma a_len_insert qs i xs m xs' m' :
  qs !! i = Some (xs, m) ->
  (a_len (<[i := (xs', m')]> qs) + length xs = a_len qs + length xs')%nat.
Proof.
  revert i. induction qs as [|[ys k] qs IH]; intros [|i]; try done.
  - intros [= -> ->]. change (<[0%nat:=(xs', m')]> ((xs, m) :: qs)) with ((xs', m') :: qs).
    rewrite !a_len_cons. cbn. lia.
  - intros Hi. specialize (IH i Hi). 
    change (<[S i:=(xs', m')]> ((ys, k) :: qs)) with ((ys, k) :: <[i:=(xs', m')]> qs).
    rewrite !a_len_cons. cbn. lia.
Qed.

Lemma a_len_lookup qs i xs m : qs !! i = Some (xs, m) -> (length xs <= a_len qs)%nat.
Proof.
  revert i. induction qs as [|[ys k] qs IH]; intros [|i]; try done; rewrite a_len_cons; cbn.
  - intros [= -> ->]. lia.
  - intros Hi. specialize (IH i Hi). lia.
Qed.

Lemma a_len_zero qs : a_len qs = 0%nat <-> forall i xs m, qs !! i = Some (xs, m) -> xs = [].
Proof.
  split.
  - intros H0 i xs m Hi. apply a_len_lookup in Hi. destruct xs; [done|]. cbn in Hi. lia.
  - induction qs as [|[ys k] qs IH]; intros Ha; [done|].
    rewrite a_len_cons, (Ha 0%nat ys k eq_refl). cbn. apply IH.
    intros i xs m Hi. by apply (Ha (S i) xs m).
Qed.

(** ** What changes when one precedence does *)
Definition a_upd (a : absq) (i : nat) (xs : list Z) (m : Z) (own : gset Z) : absq :=
  mk_absq (<[i := (xs, m)]> (a_qs a)) (a_max a) own.

Lemma aq_upd a i xs m own j :
  (i < length (a_qs a))%nat ->
  aq (a_upd a i xs m own) j = if decide (i = j) then xs else aq a j.
Proof.
  intros Hi. unfold aq, a_upd. cbn. case_decide; subst.
  - by rewrite list_lookup_insert_eq.
  - by rewrite list_lookup_insert_ne.
Qed.

Lemma rep_upd_gen h pq a i xs m h' q' xs' own' hi' len' :
  Rep h pq a -> a_qs a !! i = Some (xs, m) ->
  h' !! 0 = None ->
  (forall j x, j <> i -> x ∈ aq a j -> h' !! x = h !! x) ->
  prec_ok h' q' xs' -> 0 <= pp_max q' < 65536 ->
  (forall x, x ∈ xs' -> x ∈ xs \/ forall j, x ∉ aq a j) ->
  (forall p, p ∈ own' -> h' !! p = Some 0 /\ p ∉ xs' /\ ((forall j, p ∉ aq a j) \/ p ∈ xs)) ->
  0 <= hi' < num_prec pq ->
  (forall j, hi' < Z.of_nat j -> aq (a_upd a i xs' (pp_max q') own') j = []) ->
  len' + Z.of_nat (length xs) = pq_len pq + Z.of_nat (length xs') -> len' < 65536 ->
  Rep h' (mk_pktq (num_prec pq) hi' (pq_max pq) len' (<[i := q']> (pq_q pq)))
    (a_upd a i xs' (pp_max q') own').
Proof.
  intros Hr Hi H0 Hframe Hok Hm Hsub Hown Hhi Habove Hlen Hlen'.
  pose proof (lookup_lt_Some _ _ _ Hi) as Hil. pose proof (r_len _ _ _ Hr) as [Hpl _].
  pose proof (a_len_insert _ _ _ _ xs' (pp_max q') Hi) as Hal.
  pose proof (aq_lookup _ _ _ _ Hi) as Haq.
  destruct (r_prec _ _ _ Hr _ _ _ Hi) as (_ & q & Hq & _ & _).
  pose proof (aget_lt _ _ _ Hq) as Hqr.
  assert (forall x, x ∈ xs' -> forall j, x ∈ aq a j -> i = j) as Hd.
  { intros x Hx j Hj. destruct (Hsub x Hx) as [Hx'|Ho]; [|by destruct (Ho j)].
    apply (r_disj _ _ _ Hr i j x); [by rewrite Haq|done]. }
  constructor; cbn [num_prec hi_prec pq_max pq_len pq_q a_upd a_qs a_max a_own]; try done.
  - rewrite length_insert. apply (r_np _ _ _ Hr).
  - apply (r_max _ _ _ Hr).
  - split; [|done]. lia.
  - intros j ys k Hj. apply list_lookup_insert_Some in Hj as [(<- & [= <- <-] & _)|[Hne Hj]].
    + split; [done|]. exists q'. split_and!; [|done..].
      rewrite <- (Nat2Z.id i) at 1. rewrite aget_insert by lia. by case_decide.
    + destruct (r_prec _ _ _ Hr _ _ _ Hj) as (? & q2 & Hq2 & ? & Hok2). split; [done|].
      exists q2. split_and!; [|done|].
      * rewrite <- (Nat2Z.id i) at 1. rewrite aget_insert by lia. case_decide; [lia|done].
      * destruct Hok2. constructor; try done. eapply linked_frame; [|done].
        intros x Hx. rewrite <- (aq_lookup _ _ _ _ Hj) in Hx. by apply (Hframe j).
  - intros j k x. rewrite !aq_upd by done. repeat case_decide; subst; try done.
    + intros ??. eapply Hd; eauto.
    + intros ??. symmetry. eapply Hd; eauto.
    + apply (r_disj _ _ _ Hr).
  - intros p Hp. destruct (Hown p Hp) as (? & Hnx & Hor). split; [done|]. intros j.
    rewrite aq_upd by done. case_decide as Hij; [done|]. destruct Hor as [Ho|Hx]; [done|].
    intros Hj. apply Hij, (r_disj _ _ _ Hr i j p); [|done]. by rewrite Haq.
Qed.

(** The same when only the packets of [xs] and the client's are touched. *)
Lemma rep_upd h pq a i xs m h' q' xs' own' hi' len' :
  Rep h pq a -> a_qs a !! i = Some (xs, m) ->
  h' !! 0 = None ->
  (forall x, x ∉ xs -> x ∉ a_own a -> h' !! x = h !! x) ->
  prec_ok h' q' xs' -> 0 <= pp_max q' < 65536 ->
  (forall x, x ∈ xs' -> x ∈ xs \/ x ∈ a_own a) ->
  (forall p, p ∈ own' -> h' !! p = Some 0 /\ p ∉ xs' /\ (p ∈ a_own a \/ p ∈ xs)) ->
  0 <= hi' < num_prec pq ->
  (forall j, hi' < Z.of_nat j -> aq (a_upd a i xs' (pp_max q') own') j = []) ->
  len' + Z.of_nat (length xs) = pq_len pq + Z.of_nat (length xs') -> len' < 65536 ->
  Rep h' (mk_pktq (num_prec pq) hi' (pq_max pq) len' (<[i := q']> (pq_q pq)))
    (a_upd a i xs' (pp_max q') own').
Proof.
  intros Hr Hi H0 Hframe Hok Hm Hsub Hown. apply (rep_upd_gen h pq a i xs m); try done.
  - intros j x Hne Hx. apply Hframe.
    + intros Hx'. rewrite <- (aq_lookup _ _ _ _ Hi) in Hx'.
      apply Hne. by apply (r_disj _ _ _ Hr j i x).
    + intros Ho. by destruct (proj2 (r_own _ _ _ Hr x Ho) j).
  - intros x [|Ho]%Hsub; [by left|right]. by apply (r_own _ _ _ Hr).
  - intros p (? & ? & [Ho|])%Hown; split_and!; try done; [left|by right].
    by apply (r_own _ _ _ Hr).
Qed.

(** The hypotheses of [rep_upd] on the hint, when it only grows and covers [i]. *)
Lemma above_upd h pq a i xs m own hi' :
  Rep h pq a -> (i < length (a_qs a))%nat -> hi_prec pq <= hi' -> Z.of_nat i <= hi' \/ xs = [] ->
  forall j, hi' < Z.of_nat j -> aq (a_upd a i xs m own) j = [].
Proof.
  intros Hr Hi Hhi Hor j Hj. rewrite aq_upd by done. case_decide; subst.
  - destruct Hor; [lia|done].
  - apply (r_above _ _ _ Hr). lia.
Qed.

(** Access to precedence [i]. *)
Lemma rep_get h pq a i xs m :
  Rep h pq a -> a_qs a !! i = Some (xs, m) ->
  exists q, aget (pq_q pq) (Z.of_nat i) = Some q /\ pp_max q = m /\ prec_ok h q xs /\
    (i < length (a_qs a))%nat /\ Z.of_nat i < num_prec pq /\
    0 <= m < 65536 /\ Z.of_nat (length xs) <= pq_len pq < 65536 /\
    (forall q', aset (pq_q pq) (Z.of_nat i) q' = Some (<[i := q']> (pq_q pq))) /\
    (length xs <= size h)%nat.
Proof.
  intros Hr Hi. pose proof (lookup_lt_Some _ _ _ Hi). pose proof (r_len _ _ _ Hr) as [Hl ?].
  pose proof (a_len_lookup _ _ _ _ Hi). pose proof (r_np _ _ _ Hr) as [Hnp _].
  destruct (r_prec _ _ _ Hr _ _ _ Hi) as (? & q & Hq & ? & Hok). exists q.
  pose proof (aget_lt _ _ _ Hq). split_and!; try done; try lia.
  - intros q'. rewrite aset_Some by lia. by rewrite Nat2Z.id.
  - destruct Hok. by apply linked_length.
Qed.

Lemma rep_with_hi h pq a hi :
  Rep h pq a -> 0 <= hi < num_prec pq -> (forall j, hi < Z.of_nat j -> aq a j = []) ->
  Rep h (with_hi pq hi) a.
Proof. intros [] ??. by constructor. Qed.

(** Removing [p] from precedence [i]; its link is cleared and the client owns it. *)
Definition cut_heap (h : heap) (l1 : list Z) (p : Z) (l2 : list Z) : heap :=
  <[p := 0]> (if decide (l1 = []) then h else <[last0 l1 := hd0 l2]> h).

Definition cut_queue (pq : pktq) (i : nat) (hi : Z) (l : list Z) (m : Z) : pktq :=
  mk_pktq (num_prec pq) hi (pq_max pq) (pq_len pq - 1)
    (<[i := mk_prec (hd0 l) (last0 l) (Z.of_nat (length l)) m]> (pq_q pq)).

Lemma rep_cut h pq a i l1 p l2 m hi :
  Rep h pq a -> a_qs a !! i = Some (l1 ++ p :: l2, m) ->
  0 <= hi < num_prec pq -> (forall j, hi < Z.of_nat j -> aq a j = []) ->
  Rep (cut_heap h l1 p l2) (cut_queue pq i hi (l1 ++ l2) m)
    (a_upd a i (l1 ++ l2) m ({[p]} ∪ a_own a)).
Proof.
  intros Hr Hi Hhi Habove.
  destruct (rep_get _ _ _ _ _ _ Hr Hi) as (q & Hq & Hm & Hok & Hil & _ & Hmr & Hlr & _ & _).
  pose proof (r_null _ _ _ Hr) as H0. destruct Hok as [_ _ _ Hnd Hl].
  pose proof Hnd as Hnd'. rewrite <- Permutation_middle, NoDup_cons, elem_of_app in Hnd'.
  destruct Hnd' as [Hp Hnd']. pose proof (linked_nz _ _ H0 Hl) as Hz.
  rewrite length_app in Hlr. cbn in Hlr.
  assert (p <> 0) as Hpz by (intros ->; apply Hz, elem_of_app; right; apply list_elem_of_here).
  assert (forall x, x ∉ l1 ++ p :: l2 -> cut_heap h l1 p l2 !! x = h !! x) as Hframe.
  { intros x Hx. rewrite elem_of_app, elem_of_cons in Hx. unfold cut_heap.
    rewrite lookup_insert_ne by (intros <-; tauto). case_decide; [done|].
    rewrite lookup_insert_ne; [done|]. intros <-. apply Hx. left. by apply last0_in. }
  apply (rep_upd h pq a i (l1 ++ p :: l2) m _ (mk_prec (hd0 (l1 ++ l2)) (last0 (l1 ++ l2)) (Z.of_nat (length (l1 ++ l2))) m));
    try done; cbn.
  - by rewrite Hframe.
  - intros x Hx _. by apply Hframe.
  - constructor; [done..|]. unfold cut_heap. apply linked_insert; [rewrite elem_of_app; tauto|].
    case_decide as Hl1; [subst; apply (linked_app_r h [p] l2); apply Hl|].
    destruct l1 as [|x l1 _] using rev_ind; [done|]. rewrite last0_snoc.
    rewrite <- !app_assoc in *. cbn in *.
    rewrite !NoDup_app in Hnd. rewrite NoDup_cons in Hnd.
    rewrite elem_of_cons in Hnd.
    eapply linked_relink; [done| | |].
    + by apply linked_app_r in Hl as (_ & _ & ?).
    + intros Hx. destruct Hnd as (_ & Hd & _). apply (Hd _ Hx). apply list_elem_of_here.
    + tauto.
  - intros x. rewrite !elem_of_app, elem_of_cons. tauto.
  - intros x [->%elem_of_singleton|Hx]%elem_of_union.
    + split_and!; [by unfold cut_heap; rewrite lookup_insert_eq|by rewrite elem_of_app|].
      right. rewrite elem_of_app, elem_of_cons. tauto.
    + destruct (r_own _ _ _ Hr x Hx) as [Hhx Hni]. specialize (Hni i).
      rewrite (aq_lookup _ _ _ _ Hi) in Hni. rewrite Hframe by done.
      rewrite elem_of_app, elem_of_cons in Hni. rewrite elem_of_app. tauto.
  - intros j Hj. rewrite aq_upd by done. case_decide; [|by apply Habove]. subst.
    specialize (Habove j Hj). rewrite (aq_lookup _ _ _ _ Hi) in Habove. by destruct l1.
  - rewrite !length_app. cbn. lia.
  - lia.
Qed.

(** Adding an owned packet at either end. *)
Lemma rep_add h pq a i xs m p h' xs' hi :
  Rep h pq a -> a_qs a !! i = Some (xs, m) -> p ∈ a_own a -> pq_len pq < 65535 ->
  xs' ≡ₚ p :: xs -> linked h' xs' -> h' !! 0 = None ->
  (forall x, x ∉ xs -> x ≠ p -> h' !! x = h !! x) ->
  hi = raise_hi pq (Z.of_nat i) ->
  Rep h' (mk_pktq (num_prec pq) hi (pq_max pq) (u16 (pq_len pq + 1))
            (<[i := mk_prec (hd0 xs') (last0 xs') (Z.of_nat (length xs')) m]> (pq_q pq)))
    (a_upd a i xs' m (a_own a ∖ {[p]})).
Proof.
  intros Hr Hi Hp Hlen Hperm Hl H0 Hframe ->.
  destruct (rep_get _ _ _ _ _ _ Hr Hi) as (q & Hq & Hm & Hok & Hil & Hin & Hmr & Hlr & _ & _).
  destruct (r_own _ _ _ Hr p Hp) as [Hhp Hpn]. specialize (Hpn i).
  rewrite (aq_lookup _ _ _ _ Hi) in Hpn. pose proof (r_hi _ _ _ Hr) as Hhi.
  pose proof (r_np _ _ _ Hr) as [_ Hnp]. unfold PKTQ_MAX_PREC in Hnp.
  rewrite wrapu_small by zlia.
  assert (raise_hi pq (Z.of_nat i) = Z.max (hi_prec pq) (Z.of_nat i)) as Ehi.
  { unfold raise_hi. destruct (Z.ltb_spec (hi_prec pq) (Z.of_nat i)); [|lia].
    rewrite wrapu_small; zlia. }
  apply (rep_upd h pq a i xs m _ (mk_prec (hd0 xs') (last0 xs') (Z.of_nat (length xs')) m));
    try done; cbn.
  - intros x Hx Hxo. apply Hframe; [done|]. by intros ->.
  - constructor; [done..| |done]. rewrite Hperm. apply NoDup_cons. split; [done|]. apply Hok.
  - intros x. rewrite Hperm, elem_of_cons. intros [->|?]; tauto.
  - intros x [Hx Hxp%not_elem_of_singleton]%elem_of_difference.
    destruct (r_own _ _ _ Hr x Hx) as [Hhx Hxn]. specialize (Hxn i).
    rewrite (aq_lookup _ _ _ _ Hi) in Hxn.
    split_and!; [by rewrite Hframe| |by left]. rewrite Hperm. by apply not_elem_of_cons.
  - lia.
  - eapply above_upd; [done|done|lia|left; lia].
  - rewrite Hperm. cbn. lia.
  - lia.
Qed.

(** ** The shared bodies of the dequeue operations *)
Ltac ob := cbn [mbind option_bind].

Lemma nodup_mid (l1 l2 : list Z) p : NoDup (l1 ++ p :: l2) -> p ∉ l1 /\ p ∉ l2.
Proof. rewrite <- Permutation_middle, NoDup_cons, elem_of_app. tauto. Qed.

Lemma take_head_spec h pq a i p xs m q hi :
  Rep h pq a -> a_qs a !! i = Some (p :: xs, m) -> aget (pq_q pq) (Z.of_nat i) = Some q ->
  take_head h pq (Z.of_nat i) hi q p = Some (cut_heap h [] p xs, cut_queue pq i hi xs m).
Proof.
  intros Hr Hi Hq.
  destruct (rep_get _ _ _ _ _ _ Hr Hi) as (q' & Hq' & Hm & Hok & _ & _ & _ & Hlr & Hset & _).
  assert (q' = q) as -> by congruence. cbn [length] in Hlr.
  destruct Hok as [Hh Ht Hlen Hnd [Hlp Hl]]. pose proof (r_null _ _ _ Hr) as H0.
  unfold take_head, PKTLINK. rewrite Hlp. ob. rewrite (hd0_zero h), Hset by done. ob.
  rewrite (setlink_some _ _ _ _ Hlp). ob. unfold cut_queue, cut_heap.
  rewrite Hlen, Hm, Ht, !wrapu_small, last0_cons by (cbn [length]; zlia).
  destruct (decide (@nil Z = [])); [|done]. do 6 f_equal; [|cbn [length]; lia].
  case_bool_decide as Hx; [by subst|]. by case_decide.
Qed.

Lemma unlink_drop_spec h pq a i l1 p l2 m q prev :
  Rep h pq a -> a_qs a !! i = Some (l1 ++ p :: l2, m) ->
  aget (pq_q pq) (Z.of_nat i) = Some q -> prev = (if decide (l1 = []) then 0 else last0 l1) ->
  ('(h, q) ← unlink h q p prev; drop_count h pq (Z.of_nat i) q p) =
  Some (cut_heap h l1 p l2, cut_queue pq i (hi_prec pq) (l1 ++ l2) m).
Proof.
  intros Hr Hi Hq ->.
  destruct (rep_get _ _ _ _ _ _ Hr Hi) as (q' & Hq' & Hm & Hok & _ & _ & _ & Hlr & Hset & _).
  assert (q' = q) as -> by congruence. rewrite length_app in Hlr. cbn [length] in Hlr.
  destruct Hok as [Hh Ht Hlen Hnd Hl]. pose proof (r_null _ _ _ Hr) as H0.
  pose proof (linked_at _ _ _ _ Hl) as Hlp. pose proof (linked_nz _ _ H0 Hl) as Hz.
  destruct (nodup_mid _ _ _ Hnd) as [Hp1 Hp2].
  rewrite last0_app in Ht by done. rewrite last0_cons in Ht.
  rewrite hd0_app in Hh. rewrite length_app in Hlen. cbn [length] in Hlen.
  assert (u16 (pp_len q - 1) = Z.of_nat (length (l1 ++ l2))) as El
    by (rewrite Hlen, wrapu_small, length_app by zlia; lia).
  assert (u16 (pq_len pq - 1) = pq_len pq - 1) as Epl by (apply wrapu_small; zlia).
  unfold unlink, drop_count, PKTLINK, cut_queue, cut_heap.
  destruct (decide (l1 = [])) as [->|Hl1].
  - rewrite Z.eqb_refl, Hlp. ob. cbn [pp_head pp_tail pp_len pp_max]. rewrite Hset. ob.
    rewrite (setlink_some _ _ _ _ Hlp), El, Epl, Hm, Ht, (hd0_zero h) by (done || apply Hl). ob.
    do 6 f_equal. case_bool_decide as Hx; [by subst|]. by case_decide.
  - pose proof (last0_in _ Hl1) as Hin.
    destruct (Z.eqb_spec (last0 l1) 0) as [E|_].
    { exfalso. apply Hz. rewrite <- E. apply elem_of_app. by left. }
    rewrite Hlp. ob. destruct (linked_in _ _ (last0 l1) Hl) as [n Hn]; [apply elem_of_app; by left|].
    rewrite (setlink_some _ _ _ _ Hn). ob. cbn [pp_head pp_tail pp_len pp_max]. rewrite Hset. ob.
    rewrite (setlink_some _ _ _ (hd0 l2)) by (rewrite lookup_insert_ne; [done|congruence]).
    ob. rewrite El, Epl, Hm, Ht, Hh, hd0_app. destruct (decide (l1 = [])); [done|].
    do 6 f_equal. destruct (decide (l2 = [])) as [->|Hl2].
    + by rewrite Z.eqb_refl, app_nil_r.
    + rewrite last0_app by done. pose proof (last0_in _ Hl2).
      destruct (Z.eqb_spec (last0 l2) p); [congruence|done].
Qed.

Lemma take_tail_spec h pq a i xs p m q :
  Rep h pq a -> a_qs a !! i = Some (xs ++ [p], m) -> aget (pq_q pq) (Z.of_nat i) = Some q ->
  take_tail h pq (Z.of_nat i) q =
  Some (p, cut_heap h xs p [], cut_queue pq i (hi_prec pq) (xs ++ []) m).
Proof.
  intros Hr Hi Hq.
  destruct (rep_get _ _ _ _ _ _ Hr Hi) as (q' & Hq' & Hm & Hok & _ & _ & _ & Hlr & Hset & Hsz).
  assert (q' = q) as -> by congruence. rewrite length_app in Hlr, Hsz. cbn [length] in Hlr, Hsz.
  destruct Hok as [Hh Ht Hlen Hnd Hl]. pose proof (r_null _ _ _ Hr) as H0.
  pose proof (linked_at _ _ _ _ Hl) as Hlp. pose proof (linked_nz _ _ H0 Hl) as Hz.
  destruct (nodup_mid _ _ _ Hnd) as [Hp1 _]. rewrite length_app in Hlen. cbn [length] in Hlen.
  unfold take_tail. rewrite Hh, Ht, last0_snoc, find_tail_spec by (done || lia). ob.
  rewrite app_nil_r, Hlen, Hm, !wrapu_small by zlia. unfold cut_heap, cut_queue.
  destruct (decide (xs = [])) as [->|Hxs].
  - cbn [negb Z.eqb]. ob. rewrite Hset. ob. rewrite insert_id by done. done.
  - pose proof (last0_in _ Hxs) as Hin.
    destruct (Z.eqb_spec (last0 xs) 0) as [E|_].
    { exfalso. apply Hz. rewrite <- E. apply elem_of_app. by left. }
    destruct (linked_in _ _ (last0 xs) Hl) as [n Hn]; [apply elem_of_app; by left|].
    cbn [negb]. rewrite (setlink_some _ _ _ _ Hn). ob. rewrite Hset. ob.
    destruct (decide (xs = [])); [done|].
    rewrite (insert_id _ p 0) by (rewrite lookup_insert_ne; [done|congruence]).
    rewrite hd0_app. destruct (decide (xs = [])); [done|]. do 6 f_equal. lia.
Qed.

(** ** Enqueue *)
Lemma penq_spec h pq a i xs m p :
  Rep h pq a -> a_qs a !! i = Some (xs, m) -> p ∈ a_own a -> pq_len pq < 65535 ->
  exists h' pq', pktq_penq h pq (Z.of_nat i) p = Some (p, h', pq') /\
    Rep h' pq' (a_upd a i (xs ++ [p]) m (a_own a ∖ {[p]})).
Proof.
  intros Hr Hi Hp Hlen.
  destruct (rep_get _ _ _ _ _ _ Hr Hi) as (q & Hq & Hm & Hok & _ & _ & _ & Hlr & Hset & _).
  destruct (r_own _ _ _ Hr p Hp) as [Hhp Hpn]. specialize (Hpn i).
  rewrite (aq_lookup _ _ _ _ Hi) in Hpn. pose proof (r_null _ _ _ Hr) as H0.
  destruct Hok as [Hh Ht Hql Hnd Hl]. unfold pktq_penq. rewrite Hq. ob.
  rewrite Hh, (hd0_zero h), Ht by done.
  assert (u16 (pp_len q + 1) = Z.of_nat (length (xs ++ [p]))) as El
    by (rewrite Hql, length_app, wrapu_small by zlia; cbn [length]; lia).
  destruct (decide (xs = [])) as [->|Hxs].
  - rewrite bool_decide_eq_true_2 by done. cbn [negb]. ob. rewrite Hset. ob.
    do 2 eexists. split; [done|]. rewrite El, Hm.
    apply (rep_add h pq a i [] m p _ ([] ++ [p])); done.
  - rewrite bool_decide_eq_false_2 by done. cbn [negb].
    pose proof (linked_last _ _ Hl Hxs) as Hn. rewrite (setlink_some _ _ _ _ Hn). ob.
    rewrite Hset. ob. do 2 eexists. split; [done|]. rewrite El, Hm.
    rewrite <- (last0_snoc xs p) at 2.
    replace (hd0 xs) with (hd0 (xs ++ [p])) by (rewrite hd0_app; by case_decide).
    apply (rep_add h pq a i xs m p); try done; [by rewrite Permutation_app_comm| | |].
    + destruct xs as [|x xs _] using rev_ind; [done|]. rewrite last0_snoc, <- app_assoc in *.
      apply (linked_relink h xs x [] [p]); [done|by split| |].
      * apply NoDup_app in Hnd as (_ & Hd & _). intros Hx. by apply (Hd _ Hx), list_elem_of_singleton.
      * intros ->%list_elem_of_singleton. apply Hpn, elem_of_app. right. by apply list_elem_of_singleton.
    + rewrite lookup_insert_ne; [done|]. congruence.
    + intros x Hx Hxp. rewrite lookup_insert_ne; [done|]. intros <-. by apply Hx, last0_in.
Qed.

Lemma penq_head_spec h pq a i xs m p :
  Rep h pq a -> a_qs a !! i = Some (xs, m) -> p ∈ a_own a -> pq_len pq < 65535 ->
  exists h' pq', pktq_penq_head h pq (Z.of_nat i) p = Some (p, h', pq') /\
    Rep h' pq' (a_upd a i (p :: xs) m (a_own a ∖ {[p]})).
Proof.
  intros Hr Hi Hp Hlen.
  destruct (rep_get _ _ _ _ _ _ Hr Hi) as (q & Hq & Hm & Hok & _ & _ & _ & Hlr & Hset & _).
  destruct (r_own _ _ _ Hr p Hp) as [Hhp Hpn]. specialize (Hpn i).
  rewrite (aq_lookup _ _ _ _ Hi) in Hpn. pose proof (r_null _ _ _ Hr) as H0.
  destruct Hok as [Hh Ht Hql Hnd Hl]. unfold pktq_penq_head. rewrite Hq. ob.
  rewrite (setlink_some _ _ _ _ Hhp). ob. rewrite Hset. ob.
  do 2 eexists. split; [done|]. rewrite Hh, Ht, (hd0_zero h), Hql, Hm by done.
  rewrite (wrapu_small 16 (Z.of_nat _ + 1)) by zlia.
  replace (Z.of_nat (length xs) + 1) with (Z.of_nat (length (p :: xs))) by (cbn [length]; lia).
  replace (if bool_decide (xs = []) then p else last0 xs) with (last0 (p :: xs))
    by (rewrite last0_cons; case_decide; by case_bool_decide).
  apply (rep_add h pq a i xs m p _ (p :: xs)); try done.
  - split; [by rewrite lookup_insert_eq|by apply linked_insert].
  - rewrite lookup_insert_ne; [done|congruence].
  - intros x Hx Hxp. by rewrite lookup_insert_ne.
Qed.

(** ** Flushing *)
Definition kept (fn : ifpkt_cb_t) (xs : list Z) : list Z :=
  filter (fun x => cb_true fn x = false) xs.

Lemma kept_none xs : kept None xs = [].
Proof. induction xs as [|x xs IH]; [done|]. unfold kept. by rewrite filter_cons_False. Qed.

Lemma kept_length fn xs : (length (kept fn xs) <= length xs)%nat.
Proof. apply length_filter. Qed.

Lemma linked_delete h p xs : p ∉ xs -> linked h xs -> linked (delete p h) xs.
Proof.
  intros Hp. apply linked_frame. intros x Hx. apply lookup_delete_ne. by intros <-.
Qed.

(** Freeing the packet [p] between [ks] and [ys], as the loop does it. *)
Definition free_heap (h : heap) (ks : list Z) (p : Z) (ys : list Z) : heap :=
  delete p (cut_heap h ks p ys).

Lemma free_heap_linked h ks p ys :
  NoDup (ks ++ p :: ys) -> linked h (ks ++ p :: ys) -> linked (free_heap h ks p ys) (ks ++ ys).
Proof.
  intros Hnd Hl. destruct (nodup_mid _ _ _ Hnd) as [Hp1 Hp2]. unfold free_heap, cut_heap.
  rewrite delete_insert_eq. apply linked_delete; [rewrite elem_of_app; tauto|].
  case_decide as Hks; [subst; by destruct Hl|].
  destruct ks as [|x ks _] using rev_ind; [done|]. rewrite last0_snoc, <- !app_assoc in *.
  cbn [app] in *. apply NoDup_app in Hnd as (_ & Hd & Hnd). apply NoDup_cons in Hnd as [Hx _].
  apply (linked_relink h ks x (p :: ys)); [done| | |].
  - by apply linked_app_r in Hl as (_ & _ & ?).
  - intros Hin. by apply (Hd _ Hin), list_elem_of_here.
  - intros Hin. by apply Hx, list_elem_of_further.
Qed.

Lemma free_heap_frame h ks p ys x :
  x ∉ ks ++ p :: ys -> free_heap h ks p ys !! x = h !! x.
Proof.
  rewrite elem_of_app, elem_of_cons. intros Hx. unfold free_heap, cut_heap.
  rewrite lookup_delete_ne, lookup_insert_ne by (intros <-; tauto). case_decide; [done|].
  apply lookup_insert_ne. intros <-. apply Hx. left. by apply last0_in.
Qed.

Lemma flush_loop_spec fn fuel ys h ks qlen plen prev :
  h !! 0 = None -> NoDup (ks ++ ys) -> linked h (ks ++ ys) -> (ks <> [] -> prev = last0 ks) ->
  (length ys < fuel)%nat -> qlen = Z.of_nat (length (ks ++ ys)) -> qlen <= plen < 65536 ->
  exists h', flush_loop fuel h fn (hd0 (ks ++ ys)) qlen plen (hd0 ys) prev =
      Some (h', hd0 (ks ++ kept fn ys), Z.of_nat (length (ks ++ kept fn ys)),
            plen - (Z.of_nat (length ys) - Z.of_nat (length (kept fn ys)))) /\
    linked h' (ks ++ kept fn ys) /\ (forall x, x ∉ ks ++ ys -> h' !! x = h !! x) /\
    (forall x, x ∈ ys -> cb_true fn x = true -> h' !! x = None).
Proof.
  revert ys h ks qlen plen prev. induction fuel as [|fuel IH]; intros ys h ks qlen plen prev
    H0 Hnd Hl Hprev Hf Hql Hpl; [lia|]. cbn [flush_loop].
  destruct ys as [|p ys].
  - exists h. change (kept fn []) with (@nil Z) in *. cbn [hd0 head default from_option].
    rewrite Z.eqb_refl, Hql. split_and!; [do 4 f_equal; cbn; lia|done|done|].
    by intros x ?%elem_of_nil.
  - pose proof (linked_nz _ _ H0 Hl) as Hz. pose proof (linked_at _ _ _ _ Hl) as Hlp.
    destruct (nodup_mid _ _ _ Hnd) as [Hp1 Hp2]. cbn [length] in Hf.
    rewrite length_app in Hql. cbn [length] in Hql. change (hd0 (p :: ys)) with p.
    destruct (Z.eqb_spec p 0) as [->|_].
    { exfalso. apply Hz, elem_of_app. right. apply list_elem_of_here. }
    unfold PKTLINK. rewrite Hlp. ob.
    destruct (cb_true fn p) eqn:Hfn.
    + assert (kept fn (p :: ys) = kept fn ys) as -> by (unfold kept; by rewrite filter_cons_False by congruence).
      pose proof (kept_length fn ys). pose proof (free_heap_linked _ _ _ _ Hnd Hl) as Hl'.
      assert (free_heap h ks p ys !! 0 = None) as H0' by (by rewrite free_heap_frame).
      assert (NoDup (ks ++ ys)) as Hnd'
        by (rewrite <- Permutation_middle, NoDup_cons in Hnd; tauto).
      destruct (IH ys (free_heap h ks p ys) ks (u16 (qlen - 1)) (u16 (plen - 1)) prev)
        as (h' & Hrun & Hlk & Hfr & Hdel); [done..|lia| | |].
      { rewrite wrapu_small, length_app by zlia. lia. }
      { rewrite !wrapu_small by zlia. lia. }
      rewrite !(wrapu_small 16) in Hrun by zlia. exists h'. split_and!.
      * replace (plen - 1 - (Z.of_nat (length ys) - Z.of_nat (length (kept fn ys)))) with
          (plen - (Z.of_nat (length (p :: ys)) - Z.of_nat (length (kept fn ys)))) in Hrun
          by (cbn [length]; lia).
        rewrite <- Hrun. unfold free_heap, cut_heap. rewrite hd0_app.
        destruct (decide (ks = [])) as [->|Hks].
        -- change (hd0 (p :: ys)) with p. rewrite Z.eqb_refl. ob.
           rewrite (setlink_some _ _ _ _ Hlp). ob. unfold PKTFREE. rewrite lookup_insert_eq. ob.
           rewrite !(wrapu_small 16) by zlia. done.
        -- pose proof (last0_in _ Hks) as Hin. rewrite Hprev by done.
           assert (p <> last0 ks) by congruence.
           destruct (Z.eqb_spec p (hd0 ks)) as [->|_].
           { exfalso. apply Hp1. destruct ks; [done|]. apply list_elem_of_here. }
           destruct (linked_in _ _ (last0 ks) Hl) as [n Hn]; [apply elem_of_app; by left|].
           rewrite (setlink_some _ _ _ _ Hn). ob.
           rewrite (setlink_some _ _ _ (hd0 ys)) by (by rewrite lookup_insert_ne). ob.
           unfold PKTFREE. rewrite lookup_insert_eq. ob.
           rewrite lookup_delete_ne, lookup_insert_ne, lookup_insert_eq by done. ob.
           rewrite hd0_app, !(wrapu_small 16) by zlia. by destruct (decide (ks = [])).
      * done.
      * intros x Hx. rewrite Hfr, free_heap_frame; [done|done|].
        intros Hin. apply Hx. rewrite elem_of_app, elem_of_cons. rewrite elem_of_app in Hin. tauto.
      * intros x [->|Hx]%elem_of_cons Hfx; [|by apply Hdel].
        rewrite Hfr by (rewrite elem_of_app; tauto). unfold free_heap. by rewrite lookup_delete_eq.
    + assert (kept fn (p :: ys) = p :: kept fn ys) as -> by (unfold kept; by rewrite filter_cons_True).
      destruct (IH ys h (ks ++ [p]) qlen plen p) as (h' & Hrun & Hlk & Hfr & Hdel);
        rewrite <- ?app_assoc; try done; [by rewrite last0_snoc|lia|rewrite length_app; cbn [app length]; lia|].
      rewrite <- !app_assoc in *. cbn [app] in *. exists h'. split_and!; try done.
      * rewrite Hrun. do 2 f_equal. cbn [length]. lia.
      * intros x [->|Hx]%elem_of_cons Hfx; [congruence|by apply Hdel].
Qed.

(** ** The scans over precedences *)
Lemma aq_get h pq a i :
  Rep h pq a -> 0 <= Z.of_nat i < num_prec pq ->
  exists m q, a_qs a !! i = Some (aq a i, m) /\ aget (pq_q pq) (Z.of_nat i) = Some q /\
    (pp_head q =? 0) = bool_decide (aq a i = []) /\
    pp_head q = hd0 (aq a i) /\ pp_tail q = last0 (aq a i) /\
    pp_len q = Z.of_nat (length (aq a i)).
Proof.
  intros Hr Hi. pose proof (r_np _ _ _ Hr) as [Hnp _].
  destruct (lookup_lt_is_Some_2 (a_qs a) i) as [[xs m] Hm]; [lia|].
  destruct (rep_get _ _ _ _ _ _ Hr Hm) as (q & Hq & _ & Hok & _).
  exists m, q. rewrite (aq_lookup _ _ _ _ Hm). destruct Hok as [Hh Ht Hql _ Hl].
  split_and!; try done. rewrite Hh. apply (hd0_zero h); [apply (r_null _ _ _ Hr)|done].
Qed.

Lemma hi_loop_spec h pq a fuel hi :
  Rep h pq a -> 0 <= hi < num_prec pq -> (Z.to_nat hi < fuel)%nat ->
  (forall j, hi < Z.of_nat j -> aq a j = []) ->
  exists hi', hi_loop fuel pq hi = Some (Z.of_nat hi') /\ Z.of_nat hi' <= hi /\
    (forall j, (hi' < j)%nat -> aq a j = []) /\ (hi' = 0%nat \/ aq a hi' <> []).
Proof.
  intros Hr. revert hi. induction fuel as [|fuel IH]; intros hi Hhi Hf Hab; [lia|]. cbn [hi_loop].
  destruct (Z.ltb_spec 0 hi) as [Hpos|Hz].
  - destruct (aq_get h pq a (Z.to_nat hi) Hr) as (m & q & _ & Hq & Hz & _); [lia|].
    rewrite Z2Nat.id in Hq by lia. rewrite Hq. ob. rewrite Hz.
    pose proof (r_np _ _ _ Hr) as [_ Hnp]. unfold PKTQ_MAX_PREC in Hnp.
    case_bool_decide as Hnil.
    + rewrite wrapu_small by zlia.
      destruct (IH (hi - 1)) as (hi' & Hrun & Hle & Hab' & Hor); [lia|lia| |].
      * intros j Hj. destruct (decide (j = Z.to_nat hi)) as [->|]; [done|]. apply Hab. lia.
      * exists hi'. split_and!; (done || lia).
    + exists (Z.to_nat hi). rewrite Z2Nat.id by lia. split_and!; [done|lia| |by right].
      intros j Hj. apply Hab. lia.
  - exists 0%nat. split_and!; [do 2 f_equal; lia|lia| |by left].
    intros j Hj. apply Hab. lia.
Qed.

Lemma lower_hi_spec h pq a :
  Rep h pq a ->
  exists hi, lower_hi pq = Some (Z.of_nat hi) /\ Z.of_nat hi < num_prec pq /\
    (forall j, (hi < j)%nat -> aq a j = []) /\ (hi = 0%nat \/ aq a hi <> []) /\
    Rep h (with_hi pq (Z.of_nat hi)) a.
Proof.
  intros Hr. pose proof (r_hi _ _ _ Hr) as Hhi. unfold lower_hi.
  destruct (hi_loop_spec h pq a (S (Z.to_nat (hi_prec pq))) (hi_prec pq))
    as (hi & Hrun & Hle & Hab & Hor); [done|done|lia|apply (r_above _ _ _ Hr)|].
  exists hi. split_and!; try done; [lia|]. apply rep_with_hi; [done|lia|].
  intros j Hj. apply Hab. lia.
Qed.

Lemma low_loop_spec h pq a fuel prec :
  Rep h pq a -> Z.of_nat prec <= hi_prec pq -> (Z.to_nat (hi_prec pq) - prec < fuel)%nat ->
  exists prec', low_loop fuel pq (Z.of_nat prec) = Some (Z.of_nat prec') /\
    (prec <= prec')%nat /\ Z.of_nat prec' <= hi_prec pq /\
    (forall j, (prec <= j < prec')%nat -> aq a j = []) /\
    (Z.of_nat prec' = hi_prec pq \/ aq a prec' <> []).
Proof.
  intros Hr. pose proof (r_hi _ _ _ Hr) as Hhi.
  revert prec. induction fuel as [|fuel IH]; intros prec Hp Hf; [lia|]. cbn [low_loop].
  destruct (Z.ltb_spec (Z.of_nat prec) (hi_prec pq)).
  - destruct (aq_get h pq a prec Hr) as (m & q & _ & Hq & Hz & _); [lia|].
    rewrite Hq. ob. rewrite Hz. case_bool_decide as Hnil; cbn [negb].
    + replace (Z.of_nat prec + 1) with (Z.of_nat (S prec)) by lia.
      destruct (IH (S prec)) as (prec' & -> & ? & ? & Hb & ?); [lia|lia|].
      exists prec'. split_and!; try done; [lia|]. intros j Hj.
      destruct (decide (j = prec)) as [->|]; [done|]. apply Hb. lia.
    + exists prec. split_and!; [done|lia|lia|intros; lia|by right].
  - exists prec. split_and!; [done|lia|lia|intros; lia|left; lia].
Qed.

Lemma mfind_spec h pq a bmp fuel prec :
  Rep h pq a -> Z.of_nat prec < num_prec pq -> (prec < fuel)%nat ->
  (exists prec', mfind fuel pq bmp (Z.of_nat prec) = Some (Some (Z.of_nat prec')) /\
     (prec' <= prec)%nat /\ in_bmp bmp (Z.of_nat prec') = true /\ aq a prec' <> [] /\
     forall j, (prec' < j <= prec)%nat -> in_bmp bmp (Z.of_nat j) = false \/ aq a j = []) \/
  (mfind fuel pq bmp (Z.of_nat prec) = Some None /\
     forall j, (j <= prec)%nat -> in_bmp bmp (Z.of_nat j) = false \/ aq a j = []).
Proof.
  intros Hr. revert prec. induction fuel as [|fuel IH]; intros prec Hp Hf; [lia|]. cbn [mfind].
  destruct (aq_get h pq a prec Hr) as (m & q & _ & Hq & Hz & _); [lia|]. rewrite Hq. ob. rewrite Hz.
  destruct (in_bmp bmp (Z.of_nat prec)) eqn:Hb; cbn [negb orb];
    [case_bool_decide as Hnil; [|left; exists prec; split_and!; try done; intros; lia]|].
  all: destruct prec as [|prec];
    [right; split; [done|]; intros j Hj; replace j with 0%nat by lia; auto|].
  all: destruct (Z.eqb_spec (Z.of_nat (S prec)) 0); [lia|].
  all: replace (Z.of_nat (S prec) - 1) with (Z.of_nat prec) by lia.
  all: destruct (IH prec) as [(prec' & -> & ? & ? & ? & Hj)|[-> Hj]]; [lia|lia| |].
  all: try (left; exists prec'; split_and!; try done; [lia|]; intros j Hjr;
    destruct (decide (j = S prec)) as [->|]; [auto|apply Hj; lia]).
  all: right; split; [done|]; intros j Hjr;
    destruct (decide (j = S prec)) as [->|]; [auto|apply Hj; lia].
Qed.

(** ** The abstract operations *)
Fixpoint find_top (P : nat -> bool) (a : absq) (n : nat) : option nat :=
  match n with
  | O => None
  | S k => if P k && negb (bool_decide (aq a k = [])) then Some k else find_top P a k
  end.
Fixpoint find_low (a : absq) (n i : nat) : option nat :=
  match n with
  | O => None
  | S k => if bool_decide (aq a i = []) then find_low a k (S i) else Some i
  end.
Definition top_prec (P : nat -> bool) (a : absq) : option nat := find_top P a (length (a_qs a)).
Definition low_prec (a : absq) : option nat := find_low a (length (a_qs a)) 0.

(** The first element that satisfies [P], with what surrounds it. *)
Fixpoint split_by (P : Z -> bool) (xs : list Z) : option (list Z * Z * list Z) :=
  match xs with
  | [] => None
  | x :: xs => if P x then Some ([], x, xs)
               else '(l1, y, l2) ← split_by P xs; Some (x :: l1, y, l2)
  end.

Lemma find_top_spec P a n :
  match find_top P a n with
  | Some i => (i < n)%nat /\ P i = true /\ aq a i <> [] /\
      forall j, (i < j < n)%nat -> P j = false \/ aq a j = []
  | None => forall j, (j < n)%nat -> P j = false \/ aq a j = []
  end.
Proof.
  induction n as [|n IH]; cbn [find_top]; [intros; lia|].
  destruct (P n) eqn:HP; cbn [andb]; [case_bool_decide as Hn; cbn [negb]|].
  2: { split_and!; (done || lia). }
  all: destruct (find_top P a n) as [i|];
    [destruct IH as (? & ? & ? & Hj); split_and!; try done; [lia|]|]; intros j Hjr;
    (destruct (decide (j = n)) as [->|]; [by auto|]); [apply Hj|apply IH]; lia.
Qed.

Lemma find_low_spec a n i :
  match find_low a n i with
  | Some k => (i <= k < i + n)%nat /\ aq a k <> [] /\ forall j, (i <= j < k)%nat -> aq a j = []
  | None => forall j, (i <= j < i + n)%nat -> aq a j = []
  end.
Proof.
  revert i. induction n as [|n IH]; intros i; cbn [find_low]; [intros; lia|].
  case_bool_decide as Hn.
  - specialize (IH (S i)). destruct (find_low a n (S i)) as [k|].
    + destruct IH as (? & ? & Hj). split_and!; [lia|lia|done|]. intros j Hjr.
      destruct (decide (j = i)) as [->|]; [done|apply Hj; lia].
    + intros j Hjr. destruct (decide (j = i)) as [->|]; [done|apply IH; lia].
  - split_and!; [lia|lia|done|]. intros; lia.
Qed.

Lemma split_by_spec P xs :
  match split_by P xs with
  | Some (l1, x, l2) => xs = l1 ++ x :: l2 /\ P x = true /\ forall y, y ∈ l1 -> P y = false
  | None => forall y, y ∈ xs -> P y = false
  end.
Proof.
  induction xs as [|x xs IH]; cbn [split_by]; [by intros ? ?%elem_of_nil|].
  destruct (P x) eqn:HP; [split_and!; [done..|by intros ? ?%elem_of_nil]|].
  destruct (split_by P xs) as [[[l1 y] l2]|]; ob.
  - destruct IH as (-> & ? & Hl). split_and!; [done..|]. intros z [->|?]%elem_of_cons; auto.
  - intros z [->|?]%elem_of_cons; auto.
Qed.
