(* ===== verification/PktQueueProps.v ===== *)
(** * Packet queue: initialisation, joining of queues, and the properties *)
From Stdlib Require Import ZArith Lia.
From stdpp Require Import base option numbers gmap list.
From S2P Require Import Prelude.
From S2P Require Import PktQueue.
From S2P Require Import PktChain.
From S2P Require Import PktQueueSpec.
From S2P Require Import PktQueueRefine.

(** ** Definitions *)

(** A queue of [n] precedences, all limited to [m], with nothing in it. *)
Definition a_empty (n : nat) (m : Z) (own : gset Z) : absq :=
  mk_absq (replicate n ([], m)) m own.

(** The packets of an abstract queue and of its client. *)
Definition a_pkt (a : absq) (x : Z) : Prop := x ∈ a_own a \/ exists j, x ∈ aq a j.

(** ** Initialisation *)
Lemma aq_empty n m own i : aq (a_empty n m own) i = [].
Proof.
  unfold aq, a_empty. cbn. destruct (replicate n ([], m) !! i) as [[xs k]|] eqn:E; [|done].
  apply lookup_replicate in E as [[= -> ->] _]. done.
Qed.

Lemma rep_init h mem n max own :
  (0 < n <= 16)%nat -> (n <= length mem)%nat -> h !! 0 = None ->
  (forall p, p ∈ own -> h !! p = Some 0) ->
  exists pq, pktq_init mem (Z.of_nat n) max = Some pq /\ Rep h pq (a_empty n (u16 max) own).
Proof.
  intros Hn Hm H0 Hown. unfold pktq_init.
  destruct (Z.leb_spec 0 (Z.of_nat n)); [|lia].
  destruct (Z.leb_spec (Z.of_nat n) (Z.of_nat (length mem))); [|lia].
  cbn [andb]. eexists. split; [done|]. pose proof (wrapu_range 16 max).
  rewrite Nat2Z.id, (wrapu_small 16 (Z.of_nat n)) by zlia.
  constructor; cbn [num_prec hi_prec pq_max pq_len pq_q a_qs a_max a_own a_empty];
    rewrite ?length_replicate; unfold PKTQ_MAX_PREC; try done; try zlia.
  - intros. apply aq_empty.
  - rewrite (proj2 (a_len_zero _)); [done|].
    intros i xs m Hi. by apply lookup_replicate in Hi as [[= -> ->] _].
  - intros i xs m Hi. pose proof (lookup_lt_Some _ _ _ Hi) as Hl. rewrite length_replicate in Hl.
    apply lookup_replicate in Hi as [[= -> ->] _]. split; [zlia|].
    eexists. split_and!.
    + unfold aget. destruct (Z.leb_spec 0 (Z.of_nat i)); [|lia]. rewrite Nat2Z.id, lookup_app_l
        by (rewrite length_replicate; lia). by apply lookup_replicate_2.
    + done.
    + by constructor; try constructor.
  - intros i j x Hx. rewrite aq_empty in Hx. by apply elem_of_nil in Hx.
  - intros p Hp. split; [by apply Hown|]. intros i. rewrite aq_empty. apply not_elem_of_nil.
Qed.

(** ** Joining a single-precedence list to a queue *)
Section join.
Context (h : heap) (pq l : pktq) (a b : absq) (i : nat) (xs ys : list Z) (m mb : Z).
Context (Hr : Rep h pq a) (Hl : Rep h l b) (Hi : a_qs a !! i = Some (xs, m)).
Context (Hb : a_qs b = [(ys, mb)]) (Hfit : pq_len pq + pq_len l < 65536).
Context (Hsep : forall x, a_pkt a x -> a_pkt b x -> False).

Lemma join_b0 : a_qs b !! 0%nat = Some (ys, mb).
Proof. by rewrite Hb. Qed.

Lemma join_len : pq_len l = Z.of_nat (length ys).
Proof. destruct (r_len _ _ _ Hl) as [-> _]. rewrite Hb. unfold a_len. cbn. f_equal. lia. Qed.

Lemma join_in_a x : x ∈ xs -> a_pkt a x.
Proof. intros Hx. right. exists i. by rewrite (aq_lookup _ _ _ _ Hi). Qed.

Lemma join_in_b x : x ∈ ys -> a_pkt b x.
Proof. intros Hx. right. exists 0%nat. by rewrite (aq_lookup _ _ _ _ join_b0). Qed.

Lemma join_disj x : x ∈ xs -> x ∈ ys -> False.
Proof. intros Hx Hy. apply (Hsep x); [by apply join_in_a|by apply join_in_b]. Qed.

(** Both queues after the join, for a heap [h'] that links [xs'], any
    concatenation of the two lists, and changes only them. *)
Lemma join_rep h' xs' :
  xs' ≡ₚ xs ++ ys -> linked h' xs' -> (forall x, x ∉ xs -> x ∉ ys -> h' !! x = h !! x) ->
  Rep h' (mk_pktq (num_prec pq) (raise_hi pq (Z.of_nat i)) (pq_max pq) (u16 (pq_len pq + pq_len l))
            (<[i := mk_prec (hd0 xs') (last0 xs') (Z.of_nat (length xs')) m]> (pq_q pq)))
    (a_upd a i xs' m (a_own a)) /\
  Rep h' (mk_pktq (num_prec l) (hi_prec l) (pq_max l) 0 (<[0%nat := mk_prec 0 0 0 mb]> (pq_q l)))
    (a_upd b 0 [] mb (a_own b)).
Proof.
  intros Hperm Hlk Hframe. pose proof join_b0 as Hb0.
  destruct (rep_get _ _ _ _ _ _ Hr Hi) as (q & Hq & Hm & Hok & Hil & Hn & Hmr & Hlr & _ & _).
  destruct (rep_get _ _ _ _ _ _ Hl Hb0) as (lq & Hlq & Hlm & Hlok & Hlil & Hln & Hlmr & _ & _ & _).
  pose proof (r_null _ _ _ Hr) as H0. destruct Hok as [_ _ _ Hnd Hlx]. destruct Hlok as [_ _ _ Hndy Hly].
  pose proof (r_hi _ _ _ Hr) as Hhi. pose proof (r_np _ _ _ Hr) as [_ Hnp]. unfold PKTQ_MAX_PREC in Hnp.
  pose proof join_len as Hjl. pose proof (r_len _ _ _ Hr) as [Hpl _].
  assert (h' !! 0 = None) as H0'.
  { rewrite Hframe; [done|by apply (linked_nz h)|by apply (linked_nz h)]. }
  assert (raise_hi pq (Z.of_nat i) = Z.max (hi_prec pq) (Z.of_nat i)) as Ehi.
  { unfold raise_hi. destruct (Z.ltb_spec (hi_prec pq) (Z.of_nat i)); [|lia].
    rewrite wrapu_small; zlia. }
  pose proof (Permutation_length Hperm) as Hlen. rewrite length_app in Hlen.
  assert (forall x, x ∈ xs' <-> x ∈ xs \/ x ∈ ys) as Hin by (intros x; by rewrite Hperm, elem_of_app).
  assert (forall x, x ∈ ys -> forall j, x ∉ aq a j) as Hya.
  { intros x Hx j Hj. apply (Hsep x); [right; by eexists|by apply join_in_b]. }
  split.
  - rewrite wrapu_small by zlia.
    apply (rep_upd_gen h pq a i xs m h' (mk_prec (hd0 xs') (last0 xs') (Z.of_nat (length xs')) m));
      try done; cbn.
    + intros j x Hne Hx. apply Hframe.
      * intros Hx'. apply Hne, (r_disj _ _ _ Hr j i x); [done|]. by rewrite (aq_lookup _ _ _ _ Hi).
      * intros Hx'. by apply (Hya x Hx' j).
    + constructor; cbn; try done. rewrite Hperm, NoDup_app. split_and!; [done| |done].
      intros x Hx Hy. apply (Hsep x); [by apply join_in_a|by apply join_in_b].
    + intros x [?|?]%Hin; auto.
    + intros p Hp. destruct (r_own _ _ _ Hr p Hp) as [Hhp Hpn]. pose proof (Hpn i) as Hpi.
      rewrite (aq_lookup _ _ _ _ Hi) in Hpi.
      assert (p ∉ ys) by (intros Hy; apply (Hsep p); [by left|by apply join_in_b]).
      split_and!; [by rewrite Hframe|by rewrite Hin; tauto|by left].
    + lia.
    + eapply above_upd; [done|done|lia|left; lia].
    + lia.
  - apply (rep_upd_gen h l b 0 ys mb h' (mk_prec 0 0 0 mb)); try done; cbn.
    + intros j x Hne Hx. apply Hframe.
      * intros Hx'. apply (Hsep x); [by apply join_in_a|right; by eexists].
      * intros Hx'. apply Hne, (r_disj _ _ _ Hl j 0%nat x); [done|].
        by rewrite (aq_lookup _ _ _ _ Hb0).
    + by constructor; try constructor.
    + by intros x ?%elem_of_nil.
    + intros p Hp. destruct (r_own _ _ _ Hl p Hp) as [Hhp Hpn]. pose proof (Hpn 0%nat) as Hp0.
      rewrite (aq_lookup _ _ _ _ Hb0) in Hp0.
      assert (p ∉ xs) by (intros Hx; apply (Hsep p); [by apply join_in_a|by left]).
      split_and!; [by rewrite Hframe|by apply not_elem_of_nil|by left].
    + apply (r_hi _ _ _ Hl).
    + eapply above_upd; [done|done|lia|by right].
    + lia.
Qed.

Lemma join_nil : ys = [] -> a_upd a i (xs ++ ys) m (a_own a) = a /\ a_upd a i (ys ++ xs) m (a_own a) = a
  /\ a_upd b 0 [] mb (a_own b) = b.
Proof.
  intros ->. rewrite app_nil_r. cbn [app]. destruct a as [qs mx own], b as [qb mxb ownb].
  cbn in Hi, Hb. subst. unfold a_upd. cbn. by rewrite list_insert_id.
Qed.

Lemma append_spec :
  exists h' pq' l', pktq_append h pq (Z.of_nat i) l = Some (h', pq', l') /\
    Rep h' pq' (a_upd a i (xs ++ ys) m (a_own a)) /\ Rep h' l' (a_upd b 0 [] mb (a_own b)).
Proof.
  get_prec Hr Hi q. pose proof join_b0 as Hb0. get_prec Hl Hb0 lq. unfold pktq_append.
  change (Z.of_nat 0) with 0 in *. rewrite Hq0. ob. rewrite Hh0, Hz0.
  destruct (decide (ys = [])) as [Hy|Hy].
  { rewrite bool_decide_eq_true_2 by done. destruct (join_nil Hy) as (E1 & _ & E2).
    rewrite E1, E2. by do 3 eexists. }
  rewrite (bool_decide_eq_false_2 _ Hy), Hq. ob. rewrite Hh, Hz.
  pose proof join_len as Hjl.
  assert (u16 (pp_len q + pp_len lq) = Z.of_nat (length (xs ++ ys))) as El
    by (rewrite Hql, Hql0, length_app, wrapu_small by zlia; lia).
  assert (pp_len lq = pq_len l) as Ell by congruence.
  destruct (decide (xs = [])) as [Hx|Hx].
  - rewrite (bool_decide_eq_true_2 _ Hx). cbn [negb]. ob. rewrite Hset. ob.
    unfold list_emptied. rewrite Hset0. ob. do 3 eexists. split; [done|].
    rewrite El, Hm, Hm0, Ht0, Ell.
    replace (hd0 ys) with (hd0 (xs ++ ys)) by (by subst). replace (last0 ys) with (last0 (xs ++ ys)) by (by subst).
    apply join_rep; [done|by subst|done].
  - rewrite (bool_decide_eq_false_2 _ Hx). cbn [negb]. rewrite Ht.
    rewrite (setlink_some _ _ _ 0) by (by apply linked_last). ob. rewrite Hset. ob.
    unfold list_emptied. rewrite Hset0. ob. do 3 eexists. split; [done|].
    rewrite El, Hm, Hm0, Ht0, Ell.
    replace (hd0 xs) with (hd0 (xs ++ ys)) by (rewrite hd0_app; by case_decide).
    rewrite <- (last0_app xs ys) by done.
    pose proof (last0_in _ Hx) as Hin. pose proof join_disj as Hdj.
    apply join_rep; [done| |].
    + clear - Hl0 Hl1 Hnd Hdj Hx. destruct xs as [|x xs' _] using rev_ind; [done|].
      rewrite last0_snoc, <- app_assoc in *.
      cbn [app] in *. apply (linked_relink h xs' x []); [done|done| |].
      * destruct (nodup_mid xs' [] x Hnd) as [? _]. done.
      * intros Hxy. apply (Hdj x); [|done]. apply elem_of_app. right. by apply list_elem_of_singleton.
    + intros x Hnx _. apply lookup_insert_ne. intros <-. by apply Hnx.
Qed.

Lemma prepend_spec :
  exists h' pq' l', pktq_prepend h pq (Z.of_nat i) l = Some (h', pq', l') /\
    Rep h' pq' (a_upd a i (ys ++ xs) m (a_own a)) /\ Rep h' l' (a_upd b 0 [] mb (a_own b)).
Proof.
  get_prec Hr Hi q. pose proof join_b0 as Hb0. get_prec Hl Hb0 lq. unfold pktq_prepend.
  change (Z.of_nat 0) with 0 in *. rewrite Hq0. ob. rewrite Hh0, Hz0.
  destruct (decide (ys = [])) as [Hy|Hy].
  { rewrite bool_decide_eq_true_2 by done. destruct (join_nil Hy) as (_ & E1 & E2).
    rewrite E1, E2. by do 3 eexists. }
  rewrite (bool_decide_eq_false_2 _ Hy), Hq. ob. rewrite Ht0.
  rewrite (setlink_some _ _ _ 0) by (by apply linked_last). ob. rewrite Hset. ob.
  pose proof join_len as Hjl.
  assert (u16 (pp_len q + pp_len lq) = Z.of_nat (length (ys ++ xs))) as El
    by (rewrite Hql, Hql0, length_app, wrapu_small by zlia; lia).
  assert (pp_len lq = pq_len l) as Ell by congruence.
  unfold list_emptied. rewrite Hset0. ob. do 3 eexists. split; [done|].
  rewrite El, Hm, Hm0, Ell, Hh, Ht, (last0_zero h) by done.
  replace (hd0 ys) with (hd0 (ys ++ xs)) by (rewrite hd0_app; by case_decide).
  replace (if bool_decide (xs = []) then last0 ys else last0 xs) with (last0 (ys ++ xs)).
  2: { destruct (decide (xs = [])) as [->|Hx]; [by rewrite app_nil_r|].
       by rewrite bool_decide_eq_false_2, last0_app. }
  pose proof (last0_in _ Hy) as Hin. pose proof join_disj as Hdj.
  apply join_rep; [apply Permutation_app_comm| |].
  - clear - Hl0 Hl1 Hnd0 Hdj Hy. destruct ys as [|y ys' _] using rev_ind; [done|].
    rewrite last0_snoc, <- app_assoc in *.
    cbn [app] in *. apply (linked_relink h ys' y []); [done|done| |].
    + destruct (nodup_mid ys' [] y Hnd0) as [? _]. done.
    + intros Hxy. apply (Hdj y); [done|]. apply elem_of_app. right. by apply list_elem_of_singleton.
  - intros x _ Hny. apply lookup_insert_ne. intros <-. by apply Hny.
Qed.
End join.

(** ** Runs *)
Lemma sim_run ops h pq a rs a' :
  Rep h pq a -> spec_run ops a = Some (rs, a') ->
  exists h' pq', impl_run ops (h, pq) = Some (rs, (h', pq')) /\ Rep h' pq' a'.
Proof.
  revert h pq a rs. induction ops as [|op ops IH]; intros h pq a rs Hr; cbn [spec_run impl_run].
  - intros [= <- <-]. by do 2 eexists.
  - destruct (spec_step op a) as [[r a1]|] eqn:Hs; ob; [|done].
    destruct (sim_all op h pq a r a1 Hr Hs) as (h1 & pq1 & -> & Hr1). ob.
    destruct (spec_run ops a1) as [[rs1 a2]|] eqn:Hrun; ob; [|done]. intros [= <- <-].
    destruct (IH h1 pq1 a1 rs1 Hr1 Hrun) as (h' & pq' & -> & Hr'). ob. by do 2 eexists.
Qed.

(** The order in which pktq_deq empties a queue. *)
Definition drain_order (a : absq) : list Z := concat (reverse (fst <$> a_qs a)).

Lemma concat_nils (ls : list (list Z)) : (forall l, l ∈ ls -> l = []) -> concat ls = [].
Proof.
  induction ls as [|l ls IH]; intros Hn; [done|]. cbn.
  rewrite (Hn l) by apply list_elem_of_here. apply IH. intros k Hk. apply Hn.
  by apply list_elem_of_further.
Qed.

Lemma drain_order_pop a i p xs m :
  a_qs a !! i = Some (p :: xs, m) -> (forall j, (i < j)%nat -> aq a j = []) ->
  drain_order a = p :: drain_order (a_take a i [] p xs m).
Proof.
  intros Hi Hab. unfold drain_order, a_take, a_upd. cbn [a_qs app].
  rewrite list_fmap_insert. set (ls := fst <$> a_qs a).
  assert (ls !! i = Some (p :: xs)) as Hl by (unfold ls; by rewrite list_lookup_fmap, Hi).
  assert (forall l, l ∈ reverse (drop (S i) ls) -> l = []) as Hnil.
  { intros l Hin. rewrite elem_of_reverse in Hin. apply list_elem_of_lookup in Hin as [j Hj].
    rewrite lookup_drop in Hj. unfold ls in Hj. rewrite <- (Hab (S i + j)%nat) by lia.
    unfold aq. rewrite list_lookup_fmap in Hj. by rewrite Hj. }
  rewrite <- (take_drop_middle ls i (p :: xs)) at 1 by done.
  rewrite insert_take_drop by (eapply lookup_lt_Some; done). cbn [fst].
  rewrite !reverse_app, !reverse_cons, !concat_app. cbn. rewrite !app_nil_r.
  by rewrite (concat_nils _ Hnil).
Qed.

Lemma top_prec_some a :
  match top_prec (fun _ => true) a with
  | Some i => aq a i <> [] /\ forall j, (i < j)%nat -> aq a j = []
  | None => forall j, aq a j = []
  end.
Proof.
  unfold top_prec. pose proof (find_top_spec (fun _ => true) a (length (a_qs a))) as Hs.
  destruct (find_top _ a _) as [i|].
  - destruct Hs as (_ & _ & Hn & Hj). split; [done|]. intros j Hij.
    destruct (decide (j < length (a_qs a))%nat); [by destruct (Hj j)|apply aq_beyond; lia].
  - intros j. destruct (decide (j < length (a_qs a))%nat); [by destruct (Hs j)|apply aq_beyond; lia].
Qed.

Lemma drain_spec n a :
  a_len (a_qs a) = n ->
  exists rs a', spec_run (replicate n ODeq) a = Some (rs, a') /\ map fst rs = drain_order a /\
    a_len (a_qs a') = 0%nat.
Proof.
  revert a. induction n as [|n IH]; intros a Hn; cbn [replicate spec_run].
  - do 2 eexists. split_and!; [done| |done]. symmetry. apply concat_nils.
    intros l Hl. rewrite elem_of_reverse, list_elem_of_fmap in Hl. destruct Hl as ([xs m] & -> & Hin).
    apply list_elem_of_lookup in Hin as [j Hj]. by apply (proj1 (a_len_zero _) Hn j xs m).
  - cbn [spec_step]. pose proof (top_prec_some a) as Ht.
    destruct (top_prec (fun _ => true) a) as [i|].
    + destruct Ht as [Hne Hab]. unfold a_pop.
      destruct (a_qs a !! i) as [[xs m]|] eqn:Hi; [|unfold aq in Hne; by rewrite Hi in Hne].
      rewrite (aq_lookup _ _ _ _ Hi) in Hne. destruct xs as [|p xs]; [done|]. ob.
      pose proof (a_len_insert _ _ _ _ xs m Hi) as Hl. cbn [length] in Hl.
      destruct (IH (a_take a i [] p xs m)) as (rs & a' & -> & Hrs & H0).
      { unfold a_take, a_upd. cbn [a_qs app]. lia. }
      ob. do 2 eexists. split_and!; [done| |done]. cbn [map fst]. rewrite Hrs.
      by rewrite <- (drain_order_pop _ _ _ _ _ Hi Hab).
    + exfalso. enough (a_len (a_qs a) = 0%nat) by lia. apply a_len_zero.
      intros i xs m Hi. rewrite <- (Ht i). by rewrite (aq_lookup _ _ _ _ Hi).
Qed.

(** ** Properties *)

(** C9: from pktq_init on, any sequence of the operations of hnd_pktq.c that
    keeps to the ASSERTed contract (no full queue, no packet queued twice, no
    predecessor-removal of the tail, no flush that frees the tail and keeps
    others) touches only live packets, ends every loop, and returns packet by
    packet, count by count and precedence by precedence what the lists of
    [spec_step] say. *)
Theorem pktq_refines h mem n max own ops rs a :
  (0 < n <= 16)%nat -> (n <= length mem)%nat -> h !! 0 = None ->
  (forall p, p ∈ own -> h !! p = Some 0) ->
  spec_run ops (a_empty n (u16 max) own) = Some (rs, a) ->
  exists pq0 h' pq, pktq_init mem (Z.of_nat n) max = Some pq0 /\
    impl_run ops (h, pq0) = Some (rs, (h', pq)) /\ Rep h' pq a.
Proof.
  intros Hn Hm H0 Hown Hrun. destruct (rep_init h mem n max own) as (pq0 & Hi & Hr); [done..|].
  destruct (sim_run _ _ _ _ _ _ Hr Hrun) as (h' & pq & ? & ?). by exists pq0, h', pq.
Qed.

Lemma heap4_own p : p ∈ ({[1; 2; 3; 4]} : gset Z) -> heap4 !! p = Some 0.
Proof.
  rewrite !elem_of_union, !elem_of_singleton. intros [[[-> | ->] | ->] | ->]; reflexivity.
Qed.

Lemma pktq_refines_witness :
  exists rs a pq0 h' pq,
    rs = [(1, None); (2, None); (3, None); (4, None); (2, None); (3, Some 3); (1, Some 1); (4, Some 1)] /\
    pktq_init q4 (Z.of_nat 4) 10 = Some pq0 /\
    impl_run [OPenq 1 1; OPenq 1 2; OPenq 3 3; OPenqHead 1 4; OPdeqTail 1; ODeq; ODeqTail; OMdeq 2]
      (heap4, pq0) = Some (rs, (h', pq)) /\ Rep h' pq a.
Proof.
  eassert (Hs : spec_run [OPenq 1 1; OPenq 1 2; OPenq 3 3; OPenqHead 1 4; OPdeqTail 1; ODeq;
      ODeqTail; OMdeq 2] (a_empty 4 (u16 10) {[1; 2; 3; 4]}) = Some (_, _)) by reflexivity.
  destruct (pktq_refines heap4 q4 4 10 {[1; 2; 3; 4]} _ _ _ ltac:(lia) ltac:(cbn; lia) eq_refl
    heap4_own Hs) as (pq0 & h' & pq & H1 & H2 & H3).
  do 2 eexists. exists pq0, h', pq. split; [|split; [exact H1|split; [exact H2|exact H3]]].
  reflexivity.
Defined.

(** Emptying a queue with pktq_deq returns every packet exactly once,
    highest precedence first and in order of insertion within each. *)
Theorem pktq_drain h pq a :
  Rep h pq a ->
  exists rs h' pq', impl_run (replicate (Z.to_nat (pq_len pq)) ODeq) (h, pq) = Some (rs, (h', pq')) /\
    map fst rs = concat (reverse (fst <$> a_qs a)) /\ pq_len pq' = 0.
Proof.
  intros Hr. destruct (r_len _ _ _ Hr) as [El _].
  destruct (drain_spec (Z.to_nat (pq_len pq)) a) as (rs & a' & Hs & Hrs & H0); [lia|].
  destruct (sim_run _ _ _ _ _ _ Hr Hs) as (h' & pq' & Hi & Hr').
  exists rs, h', pq'. split_and!; [done|done|]. destruct (r_len _ _ _ Hr') as [-> _]. lia.
Qed.

(** Two packets on precedence 1 and one on precedence 3. *)
Definition ops3 : list pq_op := [OPenq 1 1; OPenq 1 2; OPenq 3 3].
Lemma rep3 : exists h pq a, Rep h pq a /\ fst <$> a_qs a = [[]; [1; 2]; []; [3]] /\
  a_max a = 10 /\ a_own a = ({[1; 2; 3; 4]} ∖ {[1]} ∖ {[2]} ∖ {[3]} : gset Z).
Proof.
  destruct (rep_init heap4 q4 4 10 {[1; 2; 3; 4]}) as (pq0 & _ & Hr);
    [lia|cbn; lia|done|apply heap4_own|].
  eassert (Hs : spec_run ops3 (a_empty 4 (u16 10) {[1; 2; 3; 4]}) = Some (_, _)) by reflexivity.
  destruct (sim_run _ _ _ _ _ _ Hr Hs) as (h & pq & _ & Hr').
  do 3 eexists. split; [exact Hr'|done].
Qed.

Lemma pktq_drain_witness :
  exists h pq rs h' pq', impl_run (replicate (Z.to_nat (pq_len pq)) ODeq) (h, pq) = Some (rs, (h', pq')) /\
    map fst rs = [3; 1; 2] /\ pq_len pq' = 0.
Proof.
  destruct rep3 as (h & pq & a & Hr & Ha & _).
  destruct (pktq_drain h pq a Hr) as (rs & h' & pq' & H1 & H2 & H3).
  exists h, pq, rs, h', pq'. rewrite Ha in H2. split; [exact H1|]. split; [exact H2|exact H3].
Defined.

(** Pktq_append and pktq_prepend move a whole single-precedence list to the
    end or to the front of a precedence and leave the list empty, when the two
    queues share no packet and the total stays below 64K. *)
Theorem pktq_append_prepend h pq l a b i xs ys m mb :
  Rep h pq a -> Rep h l b -> a_qs a !! i = Some (xs, m) -> a_qs b = [(ys, mb)] ->
  pq_len pq + pq_len l < 65536 -> (forall x, a_pkt a x -> a_pkt b x -> False) ->
  (exists h' pq' l', pktq_append h pq (Z.of_nat i) l = Some (h', pq', l') /\
    Rep h' pq' (a_upd a i (xs ++ ys) m (a_own a)) /\ Rep h' l' (a_upd b 0 [] mb (a_own b))) /\
  (exists h' pq' l', pktq_prepend h pq (Z.of_nat i) l = Some (h', pq', l') /\
    Rep h' pq' (a_upd a i (ys ++ xs) m (a_own a)) /\ Rep h' l' (a_upd b 0 [] mb (a_own b))).
Proof. intros. split; [by eapply append_spec|by eapply prepend_spec]. Qed.

(** A queue of one precedence that holds one packet. *)
Definition pktq1 (p : Z) : pktq := mk_pktq 1 0 10 1 [mk_prec p p 1 10].
Definition absq1 (p : Z) : absq := mk_absq [([p], 10)] 10 ∅.

Lemma aq_absq1 p j x : x ∈ aq (absq1 p) j -> j = 0%nat /\ x = p.
Proof.
  destruct j as [|j]; cbn; [by intros ->%list_elem_of_singleton|by intros ?%elem_of_nil].
Qed.

Lemma rep1 h p : h !! 0 = None -> h !! p = Some 0 -> Rep h (pktq1 p) (absq1 p).
Proof.
  intros H0 Hp. constructor; cbn; try done; try lia.
  - intros [|i] Hi; [lia|done].
  - intros [|i] xs m; cbn; [intros [= <- <-]|done]. split; [lia|]. eexists. split_and!; [done|done|].
    constructor; cbn; try done. apply NoDup_singleton.
  - intros i j x [-> _]%aq_absq1 [-> _]%aq_absq1. done.
Qed.

Lemma pktq_append_prepend_witness :
  (exists h' pq' l', pktq_append heap4 (pktq1 1) (Z.of_nat 0) (pktq1 2) = Some (h', pq', l') /\
    Rep h' pq' (a_upd (absq1 1) 0 ([1] ++ [2]) 10 ∅) /\ Rep h' l' (a_upd (absq1 2) 0 [] 10 ∅)) /\
  (exists h' pq' l', pktq_prepend heap4 (pktq1 1) (Z.of_nat 0) (pktq1 2) = Some (h', pq', l') /\
    Rep h' pq' (a_upd (absq1 1) 0 ([2] ++ [1]) 10 ∅) /\ Rep h' l' (a_upd (absq1 2) 0 [] 10 ∅)).
Proof.
  apply (pktq_append_prepend heap4 (pktq1 1) (pktq1 2) (absq1 1) (absq1 2) 0 [1] [2] 10 10);
    try reflexivity; [by apply rep1|by apply rep1|].
  intros x [Hx|[j [_ ->]%aq_absq1]] [Hy|[k [_ Hy]%aq_absq1]]; try by apply elem_of_empty in Hx.
  - by apply elem_of_empty in Hy.
  - discriminate Hy.
Defined.

(** Pktq_pflush with a callback that accepts the tail and refuses another
    packet of the precedence frees the tail but keeps pointing at it: whatever
    is enqueued there next is written into freed memory. *)
Theorem pktq_pflush_dangling h pq a i ys t m fn :
  Rep h pq a -> a_qs a !! i = Some (ys ++ [t], m) ->
  fn t = true -> kept (Some fn) ys <> [] ->
  exists h' pq' q', pktq_pflush h pq (Z.of_nat i) (Some fn) = Some (h', pq') /\
    aget (pq_q pq') (Z.of_nat i) = Some q' /\ pp_tail q' = t /\ h' !! t = None /\
    forall p, pktq_penq h' pq' (Z.of_nat i) p = None.
Proof.
  intros Hr Hi Ht Hk. get_prec Hr Hi q.
  destruct (pflush_general h pq a i _ m (Some fn) Hr Hi) as (h' & -> & Hlk & Hfr & Hdel).
  assert (kept (Some fn) (ys ++ [t]) = kept (Some fn) ys) as E.
  { unfold kept. rewrite filter_app, filter_cons_False, filter_nil, app_nil_r; [done|cbn; by rewrite Ht]. }
  rewrite E in *. rewrite last0_snoc, (bool_decide_eq_false_2 _ Hk).
  assert (t ∈ ys ++ [t]) as Hin by (apply elem_of_app; right; by apply list_elem_of_singleton).
  pose proof (aget_lt _ _ _ Hq) as Hqr.
  assert (h' !! 0 = None) as Hz' by (rewrite Hfr; [done|by apply (linked_nz h)]).
  assert (forall q', aget (<[i := q']> (pq_q pq)) (Z.of_nat i) = Some q') as Hg.
  { intros q'. rewrite <- (Nat2Z.id i) at 1. rewrite aget_insert by lia. by case_decide. }
  do 3 eexists. split; [done|]. cbn [pq_q]. rewrite Hg. split_and!; [done|done|by apply Hdel|].
  intros p. unfold pktq_penq. cbn [pq_q]. rewrite Hg. ob. cbn [pp_head pp_tail].
  rewrite (hd0_zero h'), (bool_decide_eq_false_2 _ Hk) by done. cbn [negb].
  unfold PKTSETLINK. by rewrite Hdel.
Qed.

Lemma pktq_pflush_dangling_witness :
  exists h pq h' pq' q', pktq_pflush h pq (Z.of_nat 1) (Some (Z.eqb 2)) = Some (h', pq') /\
    aget (pq_q pq') (Z.of_nat 1) = Some q' /\ pp_tail q' = 2 /\ h' !! 2 = None /\
    forall p, pktq_penq h' pq' (Z.of_nat 1) p = None.
Proof.
  destruct rep3 as (h & pq & a & Hr & Ha & _).
  destruct (a_qs a) as [|x0 [|[xs m] qs]] eqn:E; [discriminate Ha|discriminate Ha|].
  injection Ha as _ E1 _. cbn in E1. subst xs. exists h, pq.
  apply (pktq_pflush_dangling h pq a 1 [1] 2 m (Z.eqb 2)); [exact Hr|by rewrite E|reflexivity|discriminate].
Defined.

(** Pktq_pdeq_prev on the predecessor of the tail unlinks and returns the
    tail but keeps [tail] pointing at it: a packet enqueued next is counted in
    the length and linked behind the packet just handed out, out of reach of
    the queue's own chain. *)
Theorem pktq_pdeq_prev_tail h pq a i l1 prev t m p :
  Rep h pq a -> a_qs a !! i = Some (l1 ++ [prev; t], m) -> p ∈ a_own a -> pq_len pq < 65535 ->
  exists h1 pq1 h2 pq2 q2,
    pktq_pdeq_prev h pq (Z.of_nat i) prev = Some (t, h1, pq1) /\
    pktq_penq h1 pq1 (Z.of_nat i) p = Some (p, h2, pq2) /\
    aget (pq_q pq2) (Z.of_nat i) = Some q2 /\
    pp_len q2 = Z.of_nat (length l1) + 2 /\ pp_head q2 = hd0 (l1 ++ [prev]) /\
    linked h2 (l1 ++ [prev]) /\ p ∉ l1 ++ [prev] /\ h2 !! t = Some p.
Proof.
  intros Hr Hi Hp Hlen. get_prec Hr Hi q.
  destruct (r_own _ _ _ Hr p Hp) as [Hhp Hpn]. specialize (Hpn i).
  rewrite (aq_lookup _ _ _ _ Hi) in Hpn. pose proof (linked_nz _ _ H0 Hl) as Hz0.
  replace (l1 ++ [prev; t]) with ((l1 ++ [prev]) ++ [t]) in * by (by rewrite <- app_assoc).
  pose proof (linked_at _ _ _ _ Hl) as Hlt. destruct (nodup_mid _ _ _ Hnd) as [Hnt _].
  assert (h !! prev = Some t) as Hlp.
  { rewrite <- app_assoc in Hl. by apply linked_at in Hl. }
  assert (prev ∈ (l1 ++ [prev]) ++ [t] /\ t ∈ (l1 ++ [prev]) ++ [t]) as [Hpi Hti]
    by (rewrite !elem_of_app, !list_elem_of_singleton; auto).
  assert (prev <> t) as Hpt.
  { intros ->. apply Hnt, elem_of_app. right. by apply list_elem_of_singleton. }
  assert (p <> t /\ t <> prev) as [Hpt' Htp] by (split; [intros ->|]; congruence).
  pose proof (aget_lt _ _ _ Hq) as Hqr. rewrite !length_app in *. cbn [length] in *.
  unfold pktq_pdeq_prev, pktq_penq, PKTLINK. rewrite Hq. ob.
  destruct (Z.eqb_spec prev 0) as [->|_]; [done|]. rewrite Hlp. ob.
  destruct (Z.eqb_spec t 0) as [->|_]; [done|]. rewrite Hset. ob. rewrite Hlt. ob.
  rewrite (setlink_some _ _ _ _ Hlp). ob.
  rewrite (setlink_some _ _ _ (hd0 [])) by (by rewrite lookup_insert_ne). ob.
  do 5 eexists. split; [done|]. cbn [pq_q]. rewrite aget_insert_nat by lia. ob. cbn [pp_head pp_tail pp_len].
  rewrite Hh, Ht, last0_snoc, Hz, bool_decide_eq_false_2 by (by destruct l1).
  cbn [negb]. rewrite (setlink_some _ _ _ 0) by (by rewrite lookup_insert_eq). ob.
  rewrite aset_nat by (rewrite ?length_insert; lia). ob.
  split; [done|]. cbn [pq_q]. rewrite aget_insert_nat by (rewrite ?length_insert; lia). split_and!.
  - done.
  - cbn. rewrite Hql, (wrapu_small 16 (_ - 1)), wrapu_small by zlia. lia.
  - cbn. rewrite hd0_app. by case_decide as E; [destruct l1|].
  - rewrite insert_insert_eq. apply linked_insert; [done|].
    rewrite <- app_assoc in Hl. apply (linked_relink h l1 prev [t] []); [done|done| |by apply not_elem_of_nil].
    intros Hx. rewrite <- app_assoc in Hnd. by apply nodup_mid in Hnd as [? _].
  - intros Hx. apply Hpn, elem_of_app. by left.
  - by rewrite lookup_insert_eq.
Qed.

Lemma pktq_pdeq_prev_tail_witness :
  exists h pq h1 pq1 h2 pq2 q2,
    pktq_pdeq_prev h pq (Z.of_nat 1) 1 = Some (2, h1, pq1) /\
    pktq_penq h1 pq1 (Z.of_nat 1) 4 = Some (4, h2, pq2) /\
    aget (pq_q pq2) (Z.of_nat 1) = Some q2 /\
    pp_len q2 = 2 /\ pp_head q2 = 1 /\ h2 !! 1 = Some 0 /\ h2 !! 2 = Some 4.
Proof.
  destruct rep3 as (h & pq & a & Hr & Ha & Hmax & Hown).
  destruct (a_qs a) as [|x0 [|[xs m] qs]] eqn:E; [discriminate Ha|discriminate Ha|].
  injection Ha as E0 E1 E2. cbn in E1. subst xs. exists h, pq.
  destruct (pktq_pdeq_prev_tail h pq a 1 [] 1 2 m 4) as
    (h1 & pq1 & h2 & pq2 & q2 & H1 & H2 & H3 & H4 & H5 & H6 & _ & H8);
    [exact Hr|by rewrite E|by rewrite Hown| |].
  { destruct (r_len _ _ _ Hr) as [-> _]. rewrite E. unfold a_len. cbn.
    destruct x0 as [x0 m0]. cbn in E0. subst x0.
    destruct qs as [|[y1 m1] [|[y2 m2] [|]]]; try discriminate E2.
    injection E2 as E21 E22. cbn in E21, E22. subst. reflexivity. }
  exists h1, pq1, h2, pq2, q2. repeat split; try assumption. apply H6.
Defined.

(** The ASSERT of pktq_penq admits a packet linked to itself (written for
    the single segments of kernel 3.18), but the link is not cleared: alone on
    its precedence, such a packet is dequeued twice and the length of the
    precedence wraps to 65535. *)
Theorem pktq_penq_self_link h pq a i m p :
  Rep h pq a -> a_qs a !! i = Some ([], m) -> p ∈ a_own a -> pq_len pq < 65535 ->
  let h0 := <[p := p]> h in
  exists h1 pq1 h2 pq2 h3 pq3 q3,
    pktq_penq h0 pq (Z.of_nat i) p = Some (p, h1, pq1) /\
    pktq_pdeq h1 pq1 (Z.of_nat i) = Some (p, h2, pq2) /\
    pktq_pdeq h2 pq2 (Z.of_nat i) = Some (p, h3, pq3) /\
    aget (pq_q pq3) (Z.of_nat i) = Some q3 /\ pp_len q3 = 65535.
Proof.
  intros Hr Hi Hp Hlen h0. get_prec Hr Hi q. destruct (r_own _ _ _ Hr p Hp) as [Hhp _].
  assert ((p =? 0) = false) as Hpz by (apply Z.eqb_neq; intros ->; congruence).
  pose proof (aget_lt _ _ _ Hq) as Hqr.
  unfold pktq_penq, pktq_pdeq, take_head, PKTLINK, h0. rewrite Hq. ob. rewrite Hh.
  cbn [hd0 head default from_option negb Z.eqb]. ob. rewrite Hset. ob.
  do 7 eexists. split; [done|]. cbn [pq_q]. rewrite aget_insert_nat by lia. ob. cbn [pp_head].
  rewrite Hpz, lookup_insert_eq. ob. rewrite aset_nat by (rewrite ?length_insert; lia). ob.
  rewrite (setlink_some _ _ _ p) by (by rewrite lookup_insert_eq). ob.
  split; [done|]. cbn [pq_q]. rewrite aget_insert_nat by (rewrite ?length_insert; lia). ob. cbn [pp_head].
  rewrite Hpz, lookup_insert_eq. ob. rewrite aset_nat by (rewrite ?length_insert; lia). ob.
  rewrite (setlink_some _ _ _ 0) by (by rewrite lookup_insert_eq). ob.
  split; [done|]. cbn [pq_q]. rewrite aget_insert_nat by (rewrite ?length_insert; lia). split; [done|].
  cbn. by rewrite Hql.
Qed.

Lemma pktq_penq_self_link_witness :
  exists pq h1 pq1 h2 pq2 h3 pq3 q3,
    pktq_penq (<[1 := 1]> heap4) pq (Z.of_nat 0) 1 = Some (1, h1, pq1) /\
    pktq_pdeq h1 pq1 (Z.of_nat 0) = Some (1, h2, pq2) /\
    pktq_pdeq h2 pq2 (Z.of_nat 0) = Some (1, h3, pq3) /\
    aget (pq_q pq3) (Z.of_nat 0) = Some q3 /\ pp_len q3 = 65535.
Proof.
  destruct (rep_init heap4 q4 4 10 {[1; 2; 3; 4]}) as (pq0 & _ & Hr);
    [lia|cbn; lia|reflexivity|apply heap4_own|].
  exists pq0. apply (pktq_penq_self_link heap4 pq0 _ 0 10 1 Hr); [reflexivity|by cbn|].
  destruct (r_len _ _ _ Hr) as [-> _]. reflexivity.
Defined.
