(* ===== verification/Tcm.v ===== *)
(** * Device memory and the words the host shares with the dongle

    dhd/sys/dhd_pcie.c: the TCM of the dongle is mapped into the host; the
    driver reads and writes it with fixed-width accesses, copies blocks with
    [dhdpcie_bus_membytes], and exchanges ring parameters, ring indices and
    mailbox words with [dhd_bus_cmn_writeshared] and [dhd_bus_cmn_readshared]
    at addresses the firmware advertised
    ([dhd_fillup_ring_sharedptr_info]).

    The host is little-endian, so HTOL16 .. HTOL64 are the identity.  An
    access outside the mapped memory has no result. *)
From Stdlib Require Import ZArith Lia.
From stdpp Require Import base option numbers list.
From S2P Require Import Prelude Bytes.

(** ** The types of a shared-memory update (dhd/sys/dhd_bus.h) *)
Inductive shared_type :=
  | D2H_DMA_SCRATCH_BUF | D2H_DMA_SCRATCH_BUF_LEN
  | H2D_DMA_INDX_WR_BUF | H2D_DMA_INDX_RD_BUF | D2H_DMA_INDX_WR_BUF | D2H_DMA_INDX_RD_BUF
  | H2D_DMA_INDX_WR_UPD | H2D_DMA_INDX_RD_UPD | D2H_DMA_INDX_WR_UPD | D2H_DMA_INDX_RD_UPD
  | H2D_MB_DATA | D2H_MB_DATA
  | RING_BUF_ADDR | RING_ITEM_LEN | RING_MAX_ITEMS
  | RING_RD_UPD | RING_WR_UPD
  | TOTAL_LFRAG_PACKET_CNT | MAX_HOST_RXBUFS.

#[export] Instance shared_type_eq : EqDecision shared_type.
Proof. solve_decision. Defined.

(** ** The bus object: the fields these operations use *)
Record ring_sh_info := {
  ring_mem_addr : Z;
  ring_state_w : Z;
  ring_state_r : Z
}.

Record dhd_bus := {
  tcm : list Z;                    (* the mapped device memory *)
  shared_addr : Z;                 (* pciedev_shared_t in TCM *)
  rings_info_ptr : Z;              (* pcie_sh->rings_info_ptr *)
  ring_sh : list ring_sh_info;
  h2d_mb_data_ptr_addr : Z;
  d2h_mb_data_ptr_addr : Z;
  rw_index_sz : Z;
  max_sub_queues : Z
}.

Definition set_tcm (b : dhd_bus) (m : list Z) : dhd_bus :=
  {| tcm := m; shared_addr := shared_addr b; rings_info_ptr := rings_info_ptr b;
     ring_sh := ring_sh b; h2d_mb_data_ptr_addr := h2d_mb_data_ptr_addr b;
     d2h_mb_data_ptr_addr := d2h_mb_data_ptr_addr b; rw_index_sz := rw_index_sz b;
     max_sub_queues := max_sub_queues b |}.

Definition set_ring_sh (b : dhd_bus) (r : list ring_sh_info) : dhd_bus :=
  {| tcm := tcm b; shared_addr := shared_addr b; rings_info_ptr := rings_info_ptr b;
     ring_sh := r; h2d_mb_data_ptr_addr := h2d_mb_data_ptr_addr b;
     d2h_mb_data_ptr_addr := d2h_mb_data_ptr_addr b; rw_index_sz := rw_index_sz b;
     max_sub_queues := max_sub_queues b |}.

(** ** Fixed-width accesses *)
Definition dhdpcie_bus_wtcm8 (m : list Z) (offset data : Z) : option (list Z) := st 1 m offset data.
Definition dhdpcie_bus_rtcm8 (m : list Z) (offset : Z) : option Z := ld 1 m offset.
Definition dhdpcie_bus_wtcm16 (m : list Z) (offset data : Z) : option (list Z) := st 2 m offset data.
Definition dhdpcie_bus_rtcm16 (m : list Z) (offset : Z) : option Z := ld 2 m offset.
Definition dhdpcie_bus_wtcm32 (m : list Z) (offset data : Z) : option (list Z) := st 4 m offset data.
Definition dhdpcie_bus_rtcm32 (m : list Z) (offset : Z) : option Z := ld 4 m offset.
Definition dhdpcie_bus_wtcm64 (m : list Z) (offset data : Z) : option (list Z) := st 8 m offset data.
Definition dhdpcie_bus_rtcm64 (m : list Z) (offset : Z) : option Z := ld 8 m offset.

(** ** Block transfer

    [cfg64] is CONFIG_64BIT; [p] is the distance the pointer [data] has moved.
    [dsize] is a local that starts at 8 and, once a byte has been moved, stays
    1: after that even an aligned 64-bit access advances by one byte. *)
Definition wide (cfg64 : bool) (size address : Z) : bool :=
  (8 <=? size) && (negb cfg64 || (address mod 8 =? 0)).

Fixpoint membytes_write (fuel : nat) (cfg64 : bool) (m : list Z) (address : Z)
    (data : list Z) (p dsize size : Z) : option (list Z) :=
  if size =? 0 then Some m else
  match fuel with
  | O => None
  | S fuel =>
      '(m, dsize) ←
        (if wide cfg64 size address then
           v ← ld 8 data p; m ← dhdpcie_bus_wtcm64 m address v; Some (m, dsize)
         else
           v ← aget data p; m ← dhdpcie_bus_wtcm8 m address v; Some (m, 1));
      let size := u32 (size - dsize) in
      if size =? 0 then Some m
      else membytes_write fuel cfg64 m (address + dsize) data (p + dsize) dsize size
  end.

Fixpoint membytes_read (fuel : nat) (cfg64 : bool) (m : list Z) (address : Z)
    (data : list Z) (p dsize size : Z) : option (list Z) :=
  if size =? 0 then Some data else
  match fuel with
  | O => None
  | S fuel =>
      '(data, dsize) ←
        (if wide cfg64 size address then
           v ← dhdpcie_bus_rtcm64 m address; data ← st 8 data p v; Some (data, dsize)
         else
           v ← dhdpcie_bus_rtcm8 m address; data ← aset data p v; Some (data, 1));
      let size := u32 (size - dsize) in
      if size =? 0 then Some data
      else membytes_read fuel cfg64 m (address + dsize) data (p + dsize) dsize size
  end.

(** Returns the device memory and the caller's buffer; the result of the C
    function is always BCME_OK. *)
Definition dhdpcie_bus_membytes (cfg64 write : bool) (m : list Z) (address : Z)
    (data : list Z) (size : Z) : option (list Z * list Z) :=
  if write
  then m ← membytes_write (Z.to_nat size) cfg64 m address data 0 8 size; Some (m, data)
  else data ← membytes_read (Z.to_nat size) cfg64 m address data 0 8 size; Some (m, data).

(** ** Structure offsets (include/bcmpcie.h) *)
Definition OFF_total_lfrag_pkt_cnt : Z := 32.
Definition OFF_max_host_rxbufs : Z := 34.
Definition OFF_host_dma_scratch_buffer_len : Z := 52.
Definition OFF_host_dma_scratch_buffer : Z := 56.
Definition OFF_h2d_w_idx_hostaddr : Z := 20.
Definition OFF_h2d_r_idx_hostaddr : Z := 28.
Definition OFF_d2h_w_idx_hostaddr : Z := 36.
Definition OFF_d2h_r_idx_hostaddr : Z := 44.
Definition OFF_max_item : Z := 4.
Definition OFF_len_items : Z := 6.
Definition OFF_base_addr : Z := 8.
Definition sizeof_ring_mem : Z := 16.

(** ** dhd_bus_cmn_writeshared

    [data] is the object the pointer argument points at, [len] the length. *)
Definition dhd_bus_cmn_writeshared (cfg64 : bool) (bus : dhd_bus) (data : list Z) (len : Z)
    (type : shared_type) (ringid : Z) : option dhd_bus :=
  let m := tcm bus in
  let put64 off :=
    long_data ← ld 8 data 0;
    '(m, _) ← dhdpcie_bus_membytes cfg64 true m off (le_bytes 8 long_data) len;
    Some (set_tcm bus m) in
  match type with
  | D2H_DMA_SCRATCH_BUF => put64 (shared_addr bus + OFF_host_dma_scratch_buffer)
  | D2H_DMA_SCRATCH_BUF_LEN =>
      v ← ld 4 data 0;
      set_tcm bus <$> dhdpcie_bus_wtcm32 m (shared_addr bus + OFF_host_dma_scratch_buffer_len) v
  | H2D_DMA_INDX_WR_BUF => put64 (rings_info_ptr bus + OFF_h2d_w_idx_hostaddr)
  | H2D_DMA_INDX_RD_BUF => put64 (rings_info_ptr bus + OFF_h2d_r_idx_hostaddr)
  | D2H_DMA_INDX_WR_BUF => put64 (rings_info_ptr bus + OFF_d2h_w_idx_hostaddr)
  | D2H_DMA_INDX_RD_BUF => put64 (rings_info_ptr bus + OFF_d2h_r_idx_hostaddr)
  | RING_ITEM_LEN =>
      r ← aget (ring_sh bus) ringid; v ← ld 2 data 0;
      set_tcm bus <$> dhdpcie_bus_wtcm16 m (ring_mem_addr r + OFF_len_items) v
  | RING_MAX_ITEMS =>
      r ← aget (ring_sh bus) ringid; v ← ld 2 data 0;
      set_tcm bus <$> dhdpcie_bus_wtcm16 m (ring_mem_addr r + OFF_max_item) v
  | RING_BUF_ADDR =>
      r ← aget (ring_sh bus) ringid; put64 (ring_mem_addr r + OFF_base_addr)
  | RING_WR_UPD =>
      r ← aget (ring_sh bus) ringid; v ← ld 2 data 0;
      set_tcm bus <$> dhdpcie_bus_wtcm16 m (ring_state_w r) v
  | RING_RD_UPD =>
      r ← aget (ring_sh bus) ringid; v ← ld 2 data 0;
      set_tcm bus <$> dhdpcie_bus_wtcm16 m (ring_state_r r) v
  | D2H_MB_DATA =>
      v ← ld 4 data 0; set_tcm bus <$> dhdpcie_bus_wtcm32 m (d2h_mb_data_ptr_addr bus) v
  | H2D_MB_DATA =>
      v ← ld 4 data 0; set_tcm bus <$> dhdpcie_bus_wtcm32 m (h2d_mb_data_ptr_addr bus) v
  | _ => Some bus
  end.

(** ** dhd_bus_cmn_readshared: the new contents of the object [data] points at *)
Definition dhd_bus_cmn_readshared (bus : dhd_bus) (data : list Z) (type : shared_type)
    (ringid : Z) : option (list Z) :=
  let m := tcm bus in
  match type with
  | RING_WR_UPD =>
      r ← aget (ring_sh bus) ringid;
      v ← dhdpcie_bus_rtcm16 m (ring_state_w r); st 2 data 0 v
  | RING_RD_UPD =>
      r ← aget (ring_sh bus) ringid;
      v ← dhdpcie_bus_rtcm16 m (ring_state_r r); st 2 data 0 v
  | TOTAL_LFRAG_PACKET_CNT =>
      v ← dhdpcie_bus_rtcm16 m (shared_addr bus + OFF_total_lfrag_pkt_cnt); st 2 data 0 v
  | H2D_MB_DATA => v ← dhdpcie_bus_rtcm32 m (h2d_mb_data_ptr_addr bus); st 4 data 0 v
  | D2H_MB_DATA => v ← dhdpcie_bus_rtcm32 m (d2h_mb_data_ptr_addr bus); st 4 data 0 v
  | MAX_HOST_RXBUFS =>
      v ← dhdpcie_bus_rtcm16 m (shared_addr bus + OFF_max_host_rxbufs); st 2 data 0 v
  | _ => Some data
  end.

(** * Lemmas *)

(** ** The copy loop *)

(** [d'] is [d] with [n] bytes of [s] from [p] copied to [q]. *)
Definition copied (s : list Z) (p : Z) (d : list Z) (q n : Z) (d' : list Z) : Prop :=
  length d' = length d /\
  forall j, aget d' j = if decide (q <= j < q + n) then aget s (p + (j - q)) else aget d j.

(** One step: a 64-bit or an 8-bit access. *)
Lemma copy_wide s p d q :
  bytes s -> 0 <= p -> 0 <= q ->
  p + 8 <= Z.of_nat (length s) -> q + 8 <= Z.of_nat (length d) ->
  exists v d', ld 8 s p = Some v /\ st 8 d q v = Some d' /\ copied s p d q 8 d'.
Proof.
  intros Hs Hp Hq Hps Hqd.
  destruct (ld_Some 8 s p) as (v & E & _ & Hv); [done..|].
  destruct (st_Some 8 d q v) as (d' & E' & Hl & _ & _ & _ & Hg); [done..|].
  exists v, d'. split_and!; [done..|]. split; [done|]. intros j. rewrite Hg.
  change (Z.of_nat 8) with 8 in *. destruct (decide _); [|done]. rewrite Hv by lia. done.
Qed.

Lemma copy_byte s p d q :
  0 <= p < Z.of_nat (length s) -> 0 <= q < Z.of_nat (length d) -> bytes s ->
  exists v, aget s p = Some v /\ is_byte v /\ copied s p d q 1 (<[Z.to_nat q := v]> d) /\
    aset d q v = Some (<[Z.to_nat q := v]> d) /\
    st 1 d q v = Some (<[Z.to_nat q := v]> d) /\ ld 1 s p = Some v.
Proof.
  intros Hp Hq Hs. destruct (aget_is_Some s p Hp) as [v Hv].
  exists v. pose proof (aget_byte _ _ _ Hs Hv) as Hb. split_and!; [done..| | | |].
  - split; [apply length_insert|]. intros j. rewrite aget_insert by lia.
    destruct (decide (q = j)), (decide (q <= j < q + 1)); try lia; [|done].
    subst. rewrite Z.sub_diag, Z.add_0_r. done.
  - by apply aset_Some.
  - unfold st. cbn [le_bytes st_bytes]. rewrite aset_Some by done. cbn.
    unfold is_byte in Hb. by rewrite Z.mod_small.
  - unfold ld. cbn [ld_bytes]. rewrite Hv. cbn. f_equal. lia.
Qed.

(** A step of 8 bytes may be followed by an advance of one: the bytes copied
    early are copied again. *)
Lemma copied_step s p d q k e n d1 d' :
  copied s p d q k d1 -> copied s (p + e) d1 (q + e) (n - e) d' ->
  1 <= e <= k -> k <= n -> copied s p d q n d'.
Proof.
  intros [L1 H1] [L2 H2] He Hk. split; [congruence|]. intros j. rewrite H2, H1.
  destruct (decide (q + e <= j < _)), (decide (q <= j < q + n)), (decide (q <= j < q + k));
    try lia; try done; f_equal; lia.
Qed.

Lemma copied_all s p d q n k d1 : copied s p d q k d1 -> k = n -> copied s p d q n d1.
Proof. by intros ? <-. Qed.

(** The loop, with the access order abstracted: [acc] loads and stores. *)
Section membytes.
Variable cfg64 : bool.

Lemma membytes_write_ok fuel m address data p dsize size :
  bytes data -> 0 <= p -> 0 <= address ->
  0 <= size < 2 ^ 32 -> size <= Z.of_nat fuel ->
  p + size <= Z.of_nat (length data) -> address + size <= Z.of_nat (length m) ->
  dsize = 8 \/ dsize = 1 ->
  exists m', membytes_write fuel cfg64 m address data p dsize size = Some m' /\
    copied data p m address size m'.
Proof.
  revert m address p dsize size.
  induction fuel as [|fuel IH]; intros m address p dsize size Hb Hp Ha Hsz Hf Hd Hm Hds;
    cbn [membytes_write]; destruct (Z.eqb_spec size 0) as [->|Hnz]; try lia.
  1,2: exists m; split; [done|]; split; [done|]; intros j; destruct (decide _); [lia|done].
  assert (exists m1 ds1 k, (if wide cfg64 size address then
           v ← ld 8 data p; m ← dhdpcie_bus_wtcm64 m address v; Some (m, dsize)
         else v ← aget data p; m ← dhdpcie_bus_wtcm8 m address v; Some (m, 1)) = Some (m1, ds1) /\
      copied data p m address k m1 /\ 1 <= ds1 <= k /\ k <= size /\ (ds1 = 8 \/ ds1 = 1))
    as (m1 & ds1 & k & -> & Hc & Hk1 & Hk2 & Hds1).
  { unfold wide. destruct (Z.leb_spec 8 size); cbn [andb]; [destruct (_ || _)|].
    - destruct (copy_wide data p m address) as (v & d' & -> & E & Hc); [done..|lia|lia|].
      unfold dhdpcie_bus_wtcm64. cbn [mbind option_bind]. rewrite E. cbn [mbind option_bind].
      exists d', dsize, 8. split_and!; [done..|lia|lia|lia|done].
    - destruct (copy_byte data p m address) as (v & -> & _ & Hc & _ & E & _); [lia..|done|].
      unfold dhdpcie_bus_wtcm8. cbn [mbind option_bind]. rewrite E. cbn [mbind option_bind].
      eexists _, 1, 1. split_and!; [done..|lia|lia|lia|by right].
    - destruct (copy_byte data p m address) as (v & -> & _ & Hc & _ & E & _); [lia..|done|].
      unfold dhdpcie_bus_wtcm8. cbn [mbind option_bind]. rewrite E. cbn [mbind option_bind].
      eexists _, 1, 1. split_and!; [done..|lia|lia|lia|by right]. }
  cbn [mbind option_bind]. rewrite wrapu_small by lia.
  destruct (Z.eqb_spec (size - ds1) 0).
  - exists m1. split; [done|]. eapply copied_all; [exact Hc|lia].
  - destruct (IH m1 (address + ds1) (p + ds1) ds1 (size - ds1)) as (m' & -> & Hc');
      try lia; try done.
    { destruct Hc as [-> _]. lia. }
    exists m'. split; [done|]. eapply copied_step; eauto.
Qed.

Lemma membytes_read_ok fuel m address data p dsize size :
  bytes m -> 0 <= p -> 0 <= address ->
  0 <= size < 2 ^ 32 -> size <= Z.of_nat fuel ->
  p + size <= Z.of_nat (length data) -> address + size <= Z.of_nat (length m) ->
  dsize = 8 \/ dsize = 1 ->
  exists data', membytes_read fuel cfg64 m address data p dsize size = Some data' /\
    copied m address data p size data'.
Proof.
  revert data address p dsize size.
  induction fuel as [|fuel IH]; intros data address p dsize size Hb Hp Ha Hsz Hf Hd Hm Hds;
    cbn [membytes_read]; destruct (Z.eqb_spec size 0) as [->|Hnz]; try lia.
  1,2: exists data; split; [done|]; split; [done|]; intros j; destruct (decide _); [lia|done].
  assert (exists m1 ds1 k, (if wide cfg64 size address then
           v ← dhdpcie_bus_rtcm64 m address; data ← st 8 data p v; Some (data, dsize)
         else v ← dhdpcie_bus_rtcm8 m address; data ← aset data p v; Some (data, 1)) = Some (m1, ds1) /\
      copied m address data p k m1 /\ 1 <= ds1 <= k /\ k <= size /\ (ds1 = 8 \/ ds1 = 1))
    as (m1 & ds1 & k & -> & Hc & Hk1 & Hk2 & Hds1).
  { unfold wide, dhdpcie_bus_rtcm64, dhdpcie_bus_rtcm8.
    destruct (Z.leb_spec 8 size); cbn [andb]; [destruct (_ || _)|].
    - destruct (copy_wide m address data p) as (v & d' & -> & E & Hc); [done..|lia|lia|].
      cbn [mbind option_bind]. rewrite E. cbn [mbind option_bind].
      exists d', dsize, 8. split_and!; [done..|lia|lia|lia|done].
    - destruct (copy_byte m address data p) as (v & _ & _ & Hc & E & _ & ->); [lia..|done|].
      cbn [mbind option_bind]. rewrite E. cbn [mbind option_bind].
      eexists _, 1, 1. split_and!; [done..|lia|lia|lia|by right].
    - destruct (copy_byte m address data p) as (v & _ & _ & Hc & E & _ & ->); [lia..|done|].
      cbn [mbind option_bind]. rewrite E. cbn [mbind option_bind].
      eexists _, 1, 1. split_and!; [done..|lia|lia|lia|by right]. }
  cbn [mbind option_bind]. rewrite wrapu_small by lia.
  destruct (Z.eqb_spec (size - ds1) 0).
  - exists m1. split; [done|]. eapply copied_all; [exact Hc|lia].
  - destruct (IH m1 (address + ds1) (p + ds1) ds1 (size - ds1)) as (m' & -> & Hc');
      try lia; try done.
    { destruct Hc as [-> _]. lia. }
    exists m'. split; [done|]. eapply copied_step; eauto.
Qed.
End membytes.

Lemma copied_splice s p d q n d' :
  0 <= p -> 0 <= q -> 0 <= n ->
  p + n <= Z.of_nat (length s) -> q + n <= Z.of_nat (length d) ->
  copied s p d q n d' -> d' = splice d q (take (Z.to_nat n) (drop (Z.to_nat p) s)).
Proof.
  intros Hp Hq Hn Hs Hd [Hl Hg].
  assert (length (take (Z.to_nat n) (drop (Z.to_nat p) s)) = Z.to_nat n) as Ht
    by (rewrite length_take, length_drop; lia).
  apply aget_ext; [by rewrite length_splice by lia|]. intros i Hi.
  rewrite Hg, aget_splice, Ht, Z2Nat.id by lia. destruct (decide _); [|done].
  unfold aget. destruct (Z.leb_spec 0 (p + (i - q))), (Z.leb_spec 0 (i - q)); try lia.
  rewrite lookup_take_lt by lia. rewrite lookup_drop. f_equal. lia.
Qed.

(** * Properties *)

(** Dhdpcie_bus_membytes copies exactly [size] bytes between the host
    buffer and device memory, for every alignment of the address, with and
    without CONFIG_64BIT, although after the first single byte its 64-bit
    accesses overlap: it terminates, stays within both buffers and changes
    nothing else. *)
Theorem membytes_copies (cfg64 : bool) (m data : list Z) (address size : Z) :
  bytes m -> bytes data -> 0 <= address -> 0 <= size < 2 ^ 32 ->
  size <= Z.of_nat (length data) -> address + size <= Z.of_nat (length m) ->
  dhdpcie_bus_membytes cfg64 true m address data size
    = Some (splice m address (take (Z.to_nat size) data), data) /\
  dhdpcie_bus_membytes cfg64 false m address data size
    = Some (m, splice data 0 (take (Z.to_nat size) (drop (Z.to_nat address) m))).
Proof.
  intros Hm Hd Ha Hs Hl Hml. unfold dhdpcie_bus_membytes. split.
  - destruct (membytes_write_ok cfg64 (Z.to_nat size) m address data 0 8 size)
      as (m' & -> & Hc); try done; try lia.
    cbn. apply copied_splice in Hc; [|lia..]. rewrite Hc. by rewrite drop_0.
  - destruct (membytes_read_ok cfg64 (Z.to_nat size) m address data 0 8 size)
      as (d' & -> & Hc); try done; try lia.
    cbn. apply copied_splice in Hc; [|lia..]. by rewrite Hc.
Qed.

Lemma membytes_copies_witness :
  let m := replicate 20 7 in
  let data := [1;2;3;4;5;6;7;8;9;10;11] in
  dhdpcie_bus_membytes true true m 5 data 10
    = Some ([7;7;7;7;7;1;2;3;4;5;6;7;8;9;10;7;7;7;7;7], data) /\
  dhdpcie_bus_membytes true false m 5 data 10 = Some (m, replicate 10 7 ++ [11]).
Proof.
  refine (membytes_copies true (replicate 20 7) [1;2;3;4;5;6;7;8;9;10;11] 5 10 _ _ _ _ _ _).
  1,2: repeat constructor.
  all: vm_compute; intuition congruence.
Defined.
