(* ===== verification/RingIndex.v ===== *)
(** * Ring identifiers and the shared arrays of ring indices

    dhd/sys/dhd_msgbuf.c: the conversions between ring ids, flow ids and
    offsets into the index arrays, the DMA-able buffers, and the arrays
    through which host and dongle exchange WR and RD indices
    ([dhd_prot_dma_indx_set], [dhd_prot_dma_indx_get]); dhd/sys/dhd_pcie.c:
    the addresses of the same indices in device memory
    ([dhd_fillup_ring_sharedptr_info]). *)
From Stdlib Require Import ZArith Lia.
From stdpp Require Import base option numbers list.
From S2P Require Import Prelude Bytes Tcm.

(** ** Ring ids *)
Definition BCMPCIE_COMMON_MSGRING_MAX_ID : Z := 4.
Definition BCMPCIE_H2D_COMMON_MSGRINGS : Z := 2.
Definition BCMPCIE_D2H_COMMON_MSGRINGS : Z := 3.
Definition BCMPCIE_COMMON_MSGRINGS : Z := 5.
Definition MAX_DHD_TX_FLOWS : Z := 320.

Definition DHD_FLOWRING_START_FLOWID : Z := BCMPCIE_H2D_COMMON_MSGRINGS.
Definition DHD_IS_FLOWRING (ringid : Z) : bool := BCMPCIE_COMMON_MSGRINGS <=? ringid.
Definition DHD_FLOWID_TO_RINGID (flowid : Z) : Z :=
  BCMPCIE_COMMON_MSGRINGS + (flowid - BCMPCIE_H2D_COMMON_MSGRINGS).
Definition DHD_RINGID_TO_FLOWID (ringid : Z) : Z :=
  BCMPCIE_H2D_COMMON_MSGRINGS + (ringid - BCMPCIE_COMMON_MSGRINGS).
Definition DHD_H2D_RING_OFFSET (ringid : Z) : Z :=
  if DHD_IS_FLOWRING ringid then DHD_RINGID_TO_FLOWID ringid else ringid.
Definition DHD_D2H_RING_OFFSET (ringid : Z) : Z := ringid - BCMPCIE_H2D_COMMON_MSGRINGS.
Definition DHD_D2H_RINGID (offset : Z) : Z := offset + BCMPCIE_H2D_COMMON_MSGRINGS.

(** ** The addresses of the indices in device memory *)
Record ring_info := {
  ringmem_ptr : Z;
  h2d_w_idx_ptr : Z;
  h2d_r_idx_ptr : Z;
  d2h_w_idx_ptr : Z;
  d2h_r_idx_ptr : Z
}.

Definition put_mem_addr (sh : list ring_sh_info) (i a : Z) : option (list ring_sh_info) :=
  r ← aget sh i;
  aset sh i {| ring_mem_addr := a; ring_state_w := ring_state_w r; ring_state_r := ring_state_r r |}.

Definition put_state (sh : list ring_sh_info) (i w rd : Z) : option (list ring_sh_info) :=
  r ← aget sh i;
  aset sh i {| ring_mem_addr := ring_mem_addr r; ring_state_w := w; ring_state_r := rd |}.

(** [n] iterations of the loop over the ring memory blocks. *)
Fixpoint fill_mem (n : nat) (sh : list ring_sh_info) (i tcm_memloc : Z)
    : option (list ring_sh_info) :=
  match n with
  | O => Some sh
  | S n =>
      sh ← put_mem_addr sh i tcm_memloc;
      fill_mem n sh (u16 (i + 1)) (u32 (tcm_memloc + sizeof_ring_mem))
  end.

(** [n] iterations of one of the three loops over the ring states. *)
Fixpoint fill_state (n : nat) (sz : Z) (sh : list ring_sh_info) (i w r : Z)
    : option (list ring_sh_info * Z * Z * Z) :=
  match n with
  | O => Some (sh, i, w, r)
  | S n =>
      sh ← put_state sh i w r;
      fill_state n sz sh (u16 (i + 1)) (u32 (w + sz)) (u32 (r + sz))
  end.

Definition dhd_fillup_ring_sharedptr_info (bus : dhd_bus) (ri : ring_info) : option dhd_bus :=
  let sz := Tcm.rw_index_sz bus in
  sh ← fill_mem (Z.to_nat (BCMPCIE_COMMON_MSGRING_MAX_ID + 1)) (ring_sh bus) 0 (ringmem_ptr ri);
  '(sh, i, hw, hr) ←
    fill_state (Z.to_nat BCMPCIE_H2D_COMMON_MSGRINGS) sz sh 0 (h2d_w_idx_ptr ri) (h2d_r_idx_ptr ri);
  '(sh, i, _, _) ←
    fill_state (Z.to_nat BCMPCIE_D2H_COMMON_MSGRINGS) sz sh i (d2h_w_idx_ptr ri) (d2h_r_idx_ptr ri);
  '(sh, _, _, _) ←
    fill_state (Z.to_nat (max_sub_queues bus - BCMPCIE_H2D_COMMON_MSGRINGS)) sz sh i hw hr;
  Some (set_ring_sh bus sh).

(** ** DMA-able buffers

    [va] holds the bytes of the allocation, padding included; [blen] is the
    length the user asked for. *)
Record dhd_dma_buf := {
  va : option (list Z);
  blen : Z;
  pa_lo : Z
}.

Definition dma_buf_zero : dhd_dma_buf := {| va := None; blen := 0; pa_lo := 0 |}.

(** [cacheline] is the platform's L1_CACHE_BYTES, when it defines one. *)
Definition DHD_DMA_PAD (cacheline : option Z) : Z := default 128 cacheline.

Definition dhd_dma_buf_audit (b : dhd_dma_buf) : Z :=
  let base := pa_lo b in
  let end_ := u32 (base + blen b) in
  if Z.land end_ 4294967295 <? Z.land base 4294967295 then BCME_ERROR else BCME_OK.

Definition dhd_dma_buf_reset (b : dhd_dma_buf) : option dhd_dma_buf :=
  match va b with
  | None => Some b
  | Some bytes =>
      if blen b <=? Z.of_nat (length bytes) then
        Some {| va := Some (replicate (Z.to_nat (blen b)) 0 ++ drop (Z.to_nat (blen b)) bytes);
                blen := blen b; pa_lo := pa_lo b |}
      else None
  end.

Definition dhd_dma_buf_free (b : dhd_dma_buf) : dhd_dma_buf :=
  match va b with None => b | Some _ => dma_buf_zero end.

Section dma.
(** DMA_ALLOC_CONSISTENT, the kernel's allocator of coherent memory: the
    bytes and the low half of the physical address, or nothing. *)
Variable DMA_ALLOC_CONSISTENT : Z -> option (list Z * Z).
Variable L1_CACHE_BYTES : option Z.

Definition dhd_dma_buf_alloc (b : dhd_dma_buf) (buf_len : Z) : option (Z * dhd_dma_buf) :=
  let pad := DHD_DMA_PAD L1_CACHE_BYTES in
  let dma_pad := if negb (buf_len mod pad =? 0) then pad else 0 in
  match DMA_ALLOC_CONSISTENT (u32 (buf_len + dma_pad)) with
  | None => Some (BCME_NOMEM, {| va := None; blen := blen b; pa_lo := pa_lo b |})
  | Some (bytes, pa) =>
      let b := {| va := Some bytes; blen := buf_len; pa_lo := pa |} in
      if negb (dhd_dma_buf_audit b =? BCME_OK) then Some (BCME_ERROR, dhd_dma_buf_free b)
      else b ← dhd_dma_buf_reset b; Some (BCME_OK, b)
  end.

Definition dhd_prot_dma_indx_alloc (b : dhd_dma_buf) (bufsz : Z) : option (Z * dhd_dma_buf) :=
  if (blen b =? bufsz) || bool_decide (is_Some (va b)) then Some (BCME_OK, b)
  else dhd_dma_buf_alloc b bufsz.
End dma.

(** ** The index arrays *)
Record dhd_prot_indx := {
  rw_index_sz : Z;
  h2d_dma_indx_wr_buf : dhd_dma_buf;
  h2d_dma_indx_rd_buf : dhd_dma_buf;
  d2h_dma_indx_wr_buf : dhd_dma_buf;
  d2h_dma_indx_rd_buf : dhd_dma_buf
}.

Definition set_h2d_wr p b := {| rw_index_sz := rw_index_sz p; h2d_dma_indx_wr_buf := b;
  h2d_dma_indx_rd_buf := h2d_dma_indx_rd_buf p; d2h_dma_indx_wr_buf := d2h_dma_indx_wr_buf p;
  d2h_dma_indx_rd_buf := d2h_dma_indx_rd_buf p |}.
Definition set_h2d_rd p b := {| rw_index_sz := rw_index_sz p; h2d_dma_indx_wr_buf := h2d_dma_indx_wr_buf p;
  h2d_dma_indx_rd_buf := b; d2h_dma_indx_wr_buf := d2h_dma_indx_wr_buf p;
  d2h_dma_indx_rd_buf := d2h_dma_indx_rd_buf p |}.
Definition set_d2h_wr p b := {| rw_index_sz := rw_index_sz p; h2d_dma_indx_wr_buf := h2d_dma_indx_wr_buf p;
  h2d_dma_indx_rd_buf := h2d_dma_indx_rd_buf p; d2h_dma_indx_wr_buf := b;
  d2h_dma_indx_rd_buf := d2h_dma_indx_rd_buf p |}.
Definition set_d2h_rd p b := {| rw_index_sz := rw_index_sz p; h2d_dma_indx_wr_buf := h2d_dma_indx_wr_buf p;
  h2d_dma_indx_rd_buf := h2d_dma_indx_rd_buf p; d2h_dma_indx_wr_buf := d2h_dma_indx_wr_buf p;
  d2h_dma_indx_rd_buf := b |}.



Definition dhd_prot_dma_indx_init (alloc : Z -> option (list Z * Z)) (line : option Z) (prot : option dhd_prot_indx)
    (sz : Z) (type : shared_type) (length : Z) : option (Z * option dhd_prot_indx) :=
  match prot with
  | None => Some (BCME_ERROR, None)
  | Some p =>
      let p := {| rw_index_sz := sz; h2d_dma_indx_wr_buf := h2d_dma_indx_wr_buf p;
                  h2d_dma_indx_rd_buf := h2d_dma_indx_rd_buf p;
                  d2h_dma_indx_wr_buf := d2h_dma_indx_wr_buf p;
                  d2h_dma_indx_rd_buf := d2h_dma_indx_rd_buf p |} in
      let bufsz := u32 (sz * length) in
      let attach get set :=
        '(rc, b) ← dhd_prot_dma_indx_alloc alloc line (get p) bufsz;
        Some (if rc =? 0 then BCME_OK else BCME_NOMEM, Some (set p b)) in
      match type with
      | H2D_DMA_INDX_WR_BUF => attach h2d_dma_indx_wr_buf set_h2d_wr
      | H2D_DMA_INDX_RD_BUF => attach h2d_dma_indx_rd_buf set_h2d_rd
      | D2H_DMA_INDX_WR_BUF => attach d2h_dma_indx_wr_buf set_d2h_wr
      | D2H_DMA_INDX_RD_BUF => attach d2h_dma_indx_rd_buf set_d2h_rd
      | _ => Some (BCME_BADOPTION, Some p)
      end
  end.

(** [offset] is a uint16; the pointer is [offset * rw_index_sz] bytes into
    the buffer, whatever the width of the index only its low 16 bits are
    accessed. *)
Definition dhd_prot_dma_indx_set (p : dhd_prot_indx) (new_index : Z) (type : shared_type)
    (ringid : Z) : option dhd_prot_indx :=
  let put b set offset :=
    bytes ← va b;
    bytes ← st 2 bytes (u32 (u16 offset * rw_index_sz p)) new_index;
    Some (set p {| va := Some bytes; blen := blen b; pa_lo := pa_lo b |}) in
  match type with
  | H2D_DMA_INDX_WR_UPD => put (h2d_dma_indx_wr_buf p) set_h2d_wr (DHD_H2D_RING_OFFSET ringid)
  | D2H_DMA_INDX_RD_UPD => put (d2h_dma_indx_rd_buf p) set_d2h_rd (DHD_D2H_RING_OFFSET ringid)
  | _ => Some p
  end.

Definition dhd_prot_dma_indx_get (p : dhd_prot_indx) (type : shared_type) (ringid : Z) : option Z :=
  let get b offset := bytes ← va b; ld 2 bytes (u32 (u16 offset * rw_index_sz p)) in
  match type with
  | H2D_DMA_INDX_WR_UPD => get (h2d_dma_indx_wr_buf p) (DHD_H2D_RING_OFFSET ringid)
  | H2D_DMA_INDX_RD_UPD => get (h2d_dma_indx_rd_buf p) (DHD_H2D_RING_OFFSET ringid)
  | D2H_DMA_INDX_WR_UPD => get (d2h_dma_indx_wr_buf p) (DHD_D2H_RING_OFFSET ringid)
  | D2H_DMA_INDX_RD_UPD => get (d2h_dma_indx_rd_buf p) (DHD_D2H_RING_OFFSET ringid)
  | _ => Some 0
  end.

(** ** The index operations of one host

    The fields of dhd_pub_t the ring code uses: which directions exchange
    indices through the host arrays, the bus and the arrays. *)
Record dhd_pub := {
  d_bus : dhd_bus;
  d_prot : dhd_prot_indx;
  dma_h2d_ring_upd_support : bool;
  dma_d2h_ring_upd_support : bool;
  d_cfg64 : bool
}.

Definition set_bus (d : dhd_pub) (b : dhd_bus) : dhd_pub :=
  {| d_bus := b; d_prot := d_prot d; dma_h2d_ring_upd_support := dma_h2d_ring_upd_support d;
     dma_d2h_ring_upd_support := dma_d2h_ring_upd_support d; d_cfg64 := d_cfg64 d |}.
Definition set_prot (d : dhd_pub) (p : dhd_prot_indx) : dhd_pub :=
  {| d_bus := d_bus d; d_prot := p; dma_h2d_ring_upd_support := dma_h2d_ring_upd_support d;
     dma_d2h_ring_upd_support := dma_d2h_ring_upd_support d; d_cfg64 := d_cfg64 d |}.

Definition writeshared16 (d : dhd_pub) (v : Z) (type : shared_type) (ringid : Z) : option dhd_pub :=
  set_bus d <$> dhd_bus_cmn_writeshared (d_cfg64 d) (d_bus d) (le_bytes 2 v) 2 type ringid.
Definition readshared16 (d : dhd_pub) (old : Z) (type : shared_type) (ringid : Z) : option Z :=
  le_val <$> dhd_bus_cmn_readshared (d_bus d) (le_bytes 2 old) type ringid.

(** The host's half of the exchange, as it appears in
    dhd_prot_ring_write_complete, dhd_prot_alloc_ring_space,
    dhd_prot_upd_read_idx and dhd_prot_get_read_addr.  [old] is the cached
    index, the object dhd_bus_cmn_readshared overwrites. *)
Definition h2d_put_wr (d : dhd_pub) (ringid wr : Z) : option dhd_pub :=
  if dma_h2d_ring_upd_support d
  then set_prot d <$> dhd_prot_dma_indx_set (d_prot d) wr H2D_DMA_INDX_WR_UPD ringid
  else writeshared16 d wr RING_WR_UPD ringid.

Definition h2d_get_rd (d : dhd_pub) (ringid old : Z) : option Z :=
  if dma_d2h_ring_upd_support d
  then dhd_prot_dma_indx_get (d_prot d) H2D_DMA_INDX_RD_UPD ringid
  else readshared16 d old RING_RD_UPD ringid.

Definition d2h_put_rd (d : dhd_pub) (ringid rd : Z) : option dhd_pub :=
  if dma_h2d_ring_upd_support d
  then set_prot d <$> dhd_prot_dma_indx_set (d_prot d) rd D2H_DMA_INDX_RD_UPD ringid
  else writeshared16 d rd RING_RD_UPD ringid.

Definition d2h_get_wr (d : dhd_pub) (ringid old : Z) : option Z :=
  if dma_d2h_ring_upd_support d
  then dhd_prot_dma_indx_get (d_prot d) D2H_DMA_INDX_WR_UPD ringid
  else readshared16 d old RING_WR_UPD ringid.

(** * The cells the indices live in

    One cell per direction, index kind and ring.  The host stores the WR index
    of an H2D ring and the RD index of a D2H ring, the dongle the others. *)
Inductive ring_dir := H2D | D2H.
#[export] Instance ring_dir_eq : EqDecision ring_dir.
Proof. solve_decision. Defined.

Record cell := Cell { c_dir : ring_dir; c_wr : bool; c_ring : Z }.
#[export] Instance cell_eq : EqDecision cell.
Proof. solve_decision. Defined.

Definition host_owned (c : cell) : bool :=
  match c_dir c with H2D => c_wr c | D2H => negb (c_wr c) end.

Definition ring_off (dir : ring_dir) (ringid : Z) : Z :=
  match dir with H2D => DHD_H2D_RING_OFFSET ringid | D2H => DHD_D2H_RING_OFFSET ringid end.
Definition arr_len (d : dhd_pub) (dir : ring_dir) : Z :=
  match dir with H2D => max_sub_queues (d_bus d) | D2H => BCMPCIE_D2H_COMMON_MSGRINGS end.
Definition valid_ring (d : dhd_pub) (dir : ring_dir) (ringid : Z) : Prop :=
  match dir with
  | H2D => 0 <= ringid < 2 \/ 5 <= ringid < 5 + (max_sub_queues (d_bus d) - 2)
  | D2H => 2 <= ringid < 5
  end.

Definition cell_buf (p : dhd_prot_indx) (c : cell) : dhd_dma_buf :=
  match c_dir c, c_wr c with
  | H2D, true => h2d_dma_indx_wr_buf p
  | H2D, false => h2d_dma_indx_rd_buf p
  | D2H, true => d2h_dma_indx_wr_buf p
  | D2H, false => d2h_dma_indx_rd_buf p
  end.
Definition set_cell_buf (p : dhd_prot_indx) (c : cell) (b : dhd_dma_buf) : dhd_prot_indx :=
  match c_dir c, c_wr c with
  | H2D, true => set_h2d_wr p b
  | H2D, false => set_h2d_rd p b
  | D2H, true => set_d2h_wr p b
  | D2H, false => set_d2h_rd p b
  end.
Definition in_host (d : dhd_pub) (c : cell) : bool :=
  if host_owned c then dma_h2d_ring_upd_support d else dma_d2h_ring_upd_support d.
Definition cell_addr (c : cell) (r : ring_sh_info) : Z :=
  if c_wr c then ring_state_w r else ring_state_r r.

(** Load and store of a cell, by whichever side owns it. *)
Definition cell_get (d : dhd_pub) (c : cell) : option Z :=
  if in_host d c then
    bs ← va (cell_buf (d_prot d) c); ld 2 bs (ring_off (c_dir c) (c_ring c) * rw_index_sz (d_prot d))
  else r ← aget (ring_sh (d_bus d)) (c_ring c); ld 2 (tcm (d_bus d)) (cell_addr c r).

Definition cell_put (d : dhd_pub) (c : cell) (v : Z) : option dhd_pub :=
  if in_host d c then
    let b := cell_buf (d_prot d) c in
    bs ← va b; bs ← st 2 bs (ring_off (c_dir c) (c_ring c) * rw_index_sz (d_prot d)) v;
    Some (set_prot d (set_cell_buf (d_prot d) c {| va := Some bs; blen := blen b; pa_lo := pa_lo b |}))
  else
    r ← aget (ring_sh (d_bus d)) (c_ring c); m ← st 2 (tcm (d_bus d)) (cell_addr c r) v;
    Some (set_bus d (set_tcm (d_bus d) m)).

(** ** Well-formedness: the firmware's arrays fit device memory and are
    disjoint, the host's arrays are large enough. *)
Definition arr_base (ri : ring_info) (dir : ring_dir) (wr : bool) : Z :=
  match dir, wr with
  | H2D, true => h2d_w_idx_ptr ri | H2D, false => h2d_r_idx_ptr ri
  | D2H, true => d2h_w_idx_ptr ri | D2H, false => d2h_r_idx_ptr ri
  end.

Record layout (ri : ring_info) (d : dhd_pub) : Prop := {
  lay_sz : Tcm.rw_index_sz (d_bus d) = 2 \/ Tcm.rw_index_sz (d_bus d) = 4;
  lay_psz : rw_index_sz (d_prot d) = Tcm.rw_index_sz (d_bus d);
  lay_max : 2 <= max_sub_queues (d_bus d) <= 2 + MAX_DHD_TX_FLOWS;
  lay_bytes : bytes (tcm (d_bus d));
  lay_u32 : Z.of_nat (length (tcm (d_bus d))) < 2 ^ 32;
  lay_in : forall dir wr, 0 <= arr_base ri dir wr /\
    arr_base ri dir wr + arr_len d dir * Tcm.rw_index_sz (d_bus d) <= Z.of_nat (length (tcm (d_bus d)));
  lay_disj : forall dir wr dir' wr', (dir, wr) <> (dir', wr') ->
    arr_base ri dir wr + arr_len d dir * Tcm.rw_index_sz (d_bus d) <= arr_base ri dir' wr' \/
    arr_base ri dir' wr' + arr_len d dir' * Tcm.rw_index_sz (d_bus d) <= arr_base ri dir wr;
  lay_buf : forall c, in_host d c = true -> exists bs, va (cell_buf (d_prot d) c) = Some bs /\
    bytes bs /\ arr_len d (c_dir c) * rw_index_sz (d_prot d) <= Z.of_nat (length bs)
}.

Definition filled (ri : ring_info) (d : dhd_pub) : Prop :=
  forall c, valid_ring d (c_dir c) (c_ring c) ->
    exists r, aget (ring_sh (d_bus d)) (c_ring c) = Some r /\
      cell_addr c r = arr_base ri (c_dir c) (c_wr c)
                      + ring_off (c_dir c) (c_ring c) * Tcm.rw_index_sz (d_bus d).

Definition index_wf (ri : ring_info) (d : dhd_pub) : Prop := layout ri d /\ filled ri d.

Lemma ring_off_range d dir ringid :
  2 <= max_sub_queues (d_bus d) -> valid_ring d dir ringid ->
  0 <= ring_off dir ringid < arr_len d dir.
Proof.
  destruct dir; cbn; unfold DHD_H2D_RING_OFFSET, DHD_D2H_RING_OFFSET, DHD_IS_FLOWRING,
    DHD_RINGID_TO_FLOWID, BCMPCIE_COMMON_MSGRINGS, BCMPCIE_H2D_COMMON_MSGRINGS,
    BCMPCIE_D2H_COMMON_MSGRINGS; zcmp; lia.
Qed.

Lemma ring_off_inj d dir r r' :
  valid_ring d dir r -> valid_ring d dir r' -> ring_off dir r = ring_off dir r' -> r = r'.
Proof.
  destruct dir; cbn; unfold DHD_H2D_RING_OFFSET, DHD_D2H_RING_OFFSET, DHD_IS_FLOWRING,
    DHD_RINGID_TO_FLOWID, BCMPCIE_COMMON_MSGRINGS, BCMPCIE_H2D_COMMON_MSGRINGS; zcmp; lia.
Qed.

(** The offset scaled by the index size stays inside its array, and two rings
    are at least one index apart. *)
Lemma off_scaled d dir r sz :
  sz = 2 \/ sz = 4 -> 2 <= max_sub_queues (d_bus d) -> valid_ring d dir r ->
  0 <= ring_off dir r * sz /\ ring_off dir r * sz + 2 <= arr_len d dir * sz.
Proof. intros Hsz Hm Hv. pose proof (ring_off_range d dir r Hm Hv). nia. Qed.

Lemma off_apart d dir r r' sz :
  sz = 2 \/ sz = 4 -> valid_ring d dir r -> valid_ring d dir r' -> r <> r' ->
  ring_off dir r * sz + 2 <= ring_off dir r' * sz \/ ring_off dir r' * sz + 2 <= ring_off dir r * sz.
Proof.
  intros Hsz Hv Hv' Hne. pose proof (ring_off_inj d dir r r' Hv Hv'). nia.
Qed.

Lemma cell_buf_set p c b c' :
  cell_buf (set_cell_buf p c b) c' =
  if decide ((c_dir c, c_wr c) = (c_dir c', c_wr c')) then b else cell_buf p c'.
Proof. destruct c as [[] [] ?], c' as [[] [] ?]; reflexivity. Qed.

Lemma set_cell_buf_sz p c b : rw_index_sz (set_cell_buf p c b) = rw_index_sz p.
Proof. by destruct c as [[] [] ?]. Qed.

(** ** The store law: a store succeeds, is read back, and leaves every other
    cell as it was. *)
Lemma cell_get_Some ri d c :
  index_wf ri d -> valid_ring d (c_dir c) (c_ring c) ->
  exists v, cell_get d c = Some v /\ 0 <= v < 2 ^ 16.
Proof.
  intros [L F] Hv. unfold cell_get. pose proof (lay_max _ _ L) as Hmax.
  destruct (in_host d c) eqn:Hin.
  - destruct (lay_buf _ _ L c Hin) as (bs & -> & Hbs & Hlen). cbn [mbind option_bind].
    pose proof (off_scaled d (c_dir c) (c_ring c) (rw_index_sz (d_prot d))) as Ho.
    rewrite (lay_psz _ _ L) in *. specialize (Ho (lay_sz _ _ L) ltac:(lia) Hv).
    destruct (ld_Some 2 bs (ring_off (c_dir c) (c_ring c) * Tcm.rw_index_sz (d_bus d)))
      as (v & -> & ? & _); [done|lia|lia|]. by exists v.
  - destruct (F c Hv) as (r & -> & Ha). cbn [mbind option_bind]. rewrite Ha.
    pose proof (off_scaled d _ _ _ (lay_sz _ _ L) ltac:(lia) Hv).
    pose proof (lay_in _ _ L (c_dir c) (c_wr c)).
    destruct (ld_Some 2 (tcm (d_bus d)) (arr_base ri (c_dir c) (c_wr c)
       + ring_off (c_dir c) (c_ring c) * Tcm.rw_index_sz (d_bus d)))
      as (v & -> & ? & _); [apply L|lia|lia|]. by exists v.
Qed.

Lemma index_wf_set_tcm ri d m :
  index_wf ri d -> bytes m -> length m = length (tcm (d_bus d)) ->
  index_wf ri (set_bus d (set_tcm (d_bus d) m)).
Proof.
  intros [L F] Hm Hl. split.
  - destruct L. constructor; cbn in *; rewrite ?Hl; eauto.
  - intros c Hc. apply (F c Hc).
Qed.

Lemma index_wf_set_buf ri d c b bs :
  index_wf ri d -> va b = Some bs -> bytes bs ->
  arr_len d (c_dir c) * rw_index_sz (d_prot d) <= Z.of_nat (length bs) ->
  index_wf ri (set_prot d (set_cell_buf (d_prot d) c b)).
Proof.
  intros [L F] Hb Hbs Hl. split; [|intros c' Hc'; apply (F c' Hc')].
  destruct L as [L1 L2 L3 L4 L5 L6 L7 L8]. constructor; try done.
  - cbn. by rewrite set_cell_buf_sz.
  - intros c' Hc'. cbn. rewrite cell_buf_set, set_cell_buf_sz.
    destruct (decide _) as [[= E1 E2]|]; [|apply (L8 c' Hc')].
    exists bs. rewrite <- E1. auto.
Qed.

Lemma cell_put_host ri d c v :
  index_wf ri d -> valid_ring d (c_dir c) (c_ring c) -> 0 <= v < 2 ^ 16 ->
  in_host d c = true ->
  exists d', cell_put d c v = Some d' /\ index_wf ri d' /\
    (forall c', in_host d' c' = in_host d c') /\ arr_len d' = arr_len d /\
    forall c', valid_ring d (c_dir c') (c_ring c') ->
      cell_get d' c' = if decide (c = c') then Some v else cell_get d c'.
Proof.
  intros W Hv Hr Hin. pose proof (proj1 W) as L.
  unfold cell_put. rewrite Hin. pose proof (lay_max _ _ L) as Hmax.
  destruct (lay_buf _ _ L c Hin) as (bs & Hva & Hbs & Hlen). rewrite Hva. cbn [mbind option_bind].
  pose proof (lay_sz _ _ L) as Hsz. rewrite <- (lay_psz _ _ L) in Hsz.
  pose proof (off_scaled d _ _ _ Hsz ltac:(lia) Hv) as Ho.
  destruct (st_Some 2 bs (ring_off (c_dir c) (c_ring c) * rw_index_sz (d_prot d)) v)
    as (bs' & -> & Hl' & Hb' & Hsame & Hoth & _); [lia|lia|].
  cbn [mbind option_bind]. eexists. split; [done|].
  split; [eapply index_wf_set_buf; [exact W|reflexivity|auto|lia]|].
  split; [done|]. split; [done|]. intros c' Hv'.
  unfold cell_get. change (in_host (set_prot d _) c') with (in_host d c').
  cbn [d_prot set_prot d_bus]. rewrite cell_buf_set, set_cell_buf_sz.
  destruct (decide (c = c')) as [<-|Hne].
  - rewrite Hin. destruct (decide _) as [_|]; [|done]. cbn. by apply Hsame.
  - destruct (in_host d c') eqn:Hin'; [|done].
    destruct (decide _) as [E|]; [|done].
    destruct c as [dir wr r], c' as [dir' wr' r']. cbn in *. injection E as <- <-.
    change (cell_buf (d_prot d) {| c_dir := dir; c_wr := wr; c_ring := r' |})
      with (cell_buf (d_prot d) {| c_dir := dir; c_wr := wr; c_ring := r |}).
    rewrite Hva. cbn. apply Hoth.
    destruct (off_apart d dir r r' (rw_index_sz (d_prot d))); try done; try lia; congruence.
Qed.

Lemma cell_put_tcm ri d c v :
  index_wf ri d -> valid_ring d (c_dir c) (c_ring c) -> 0 <= v < 2 ^ 16 ->
  in_host d c = false ->
  exists d', cell_put d c v = Some d' /\ index_wf ri d' /\
    (forall c', in_host d' c' = in_host d c') /\ arr_len d' = arr_len d /\
    forall c', valid_ring d (c_dir c') (c_ring c') ->
      cell_get d' c' = if decide (c = c') then Some v else cell_get d c'.
Proof.
  intros W Hv Hr Hin. pose proof (proj1 W) as L. pose proof (proj2 W) as F.
  unfold cell_put. rewrite Hin. pose proof (lay_max _ _ L) as Hmax.
  destruct (F c Hv) as (r & Hr1 & Ha). rewrite Hr1. cbn [mbind option_bind].
  pose proof (off_scaled d _ _ _ (lay_sz _ _ L) ltac:(lia) Hv) as Ho.
  pose proof (lay_in _ _ L (c_dir c) (c_wr c)) as Hi.
  destruct (st_Some 2 (tcm (d_bus d)) (cell_addr c r) v)
    as (m & -> & Hl' & Hb' & Hsame & Hoth & _); [lia|lia|].
  cbn [mbind option_bind]. eexists. split; [done|].
  split; [apply index_wf_set_tcm; [exact W|apply Hb', L|done]|].
  split; [done|]. split; [done|]. intros c' Hv'.
  unfold cell_get. change (in_host (set_bus d _) c') with (in_host d c').
  cbn [d_prot set_bus d_bus set_tcm ring_sh tcm].
  destruct (decide (c = c')) as [<-|Hne].
  - rewrite Hin, Hr1. cbn. by apply Hsame.
  - destruct (in_host d c') eqn:Hin'; [done|].
    destruct (F c' Hv') as (r' & -> & Ha'). cbn [mbind option_bind]. apply Hoth. rewrite Ha, Ha'.
    pose proof (off_scaled d _ _ _ (lay_sz _ _ L) ltac:(lia) Hv').
    destruct (decide ((c_dir c, c_wr c) = (c_dir c', c_wr c'))) as [E|E].
    + destruct c as [dir wr q], c' as [dir' wr' q']. cbn in *. injection E as <- <-.
      destruct (off_apart d dir q q' _ (lay_sz _ _ L)); try done; try lia; congruence.
    + destruct (lay_disj _ _ L _ _ _ _ E); lia.
Qed.

Lemma cell_put_Some ri d c v :
  index_wf ri d -> valid_ring d (c_dir c) (c_ring c) -> 0 <= v < 2 ^ 16 ->
  exists d', cell_put d c v = Some d' /\ index_wf ri d' /\
    (forall c', in_host d' c' = in_host d c') /\ arr_len d' = arr_len d /\
    forall c', valid_ring d (c_dir c') (c_ring c') ->
      cell_get d' c' = if decide (c = c') then Some v else cell_get d c'.
Proof.
  intros. destruct (in_host d c) eqn:E; [eapply cell_put_host|eapply cell_put_tcm]; eauto.
Qed.

(** ** The driver's operations are loads and stores of cells *)
Lemma off_u16 ri d dir r :
  layout ri d -> valid_ring d dir r -> u16 (ring_off dir r) = ring_off dir r.
Proof.
  intros L Hv. pose proof (lay_max _ _ L) as Hm. unfold MAX_DHD_TX_FLOWS in Hm.
  pose proof (ring_off_range d dir r ltac:(lia) Hv) as Ho. apply wrapu_small.
  assert (arr_len d dir <= 322) by (destruct dir; cbn; unfold BCMPCIE_D2H_COMMON_MSGRINGS; lia).
  zlia.
Qed.

Lemma off_u32 ri d dir r :
  layout ri d -> valid_ring d dir r ->
  u32 (ring_off dir r * rw_index_sz (d_prot d)) = ring_off dir r * rw_index_sz (d_prot d).
Proof.
  intros L Hv. pose proof (lay_max _ _ L) as Hm. unfold MAX_DHD_TX_FLOWS in Hm.
  pose proof (ring_off_range d dir r ltac:(lia) Hv) as Ho. apply wrapu_small.
  assert (arr_len d dir <= 322) by (destruct dir; cbn; unfold BCMPCIE_D2H_COMMON_MSGRINGS; lia).
  pose proof (lay_sz _ _ L) as Hs. rewrite (lay_psz _ _ L). zpow. nia.
Qed.

Lemma ld16_le_bytes v : 0 <= v < 2 ^ 16 -> ld 2 (le_bytes 2 v) 0 = Some v.
Proof.
  intros. unfold ld. rewrite <- (length_le_bytes 2 v) at 1. rewrite ld_bytes_self. cbn [fmap option_fmap option_map].
  by rewrite le_val_bytes.
Qed.

Lemma st16_le_bytes old v : st 2 (le_bytes 2 old) 0 v = Some (le_bytes 2 v).
Proof. reflexivity. Qed.

Lemma readshared_cell ri d c old (t := if c_wr c then RING_WR_UPD else RING_RD_UPD) :
  index_wf ri d -> valid_ring d (c_dir c) (c_ring c) -> in_host d c = false ->
  readshared16 d old t (c_ring c) = cell_get d c.
Proof.
  intros W Hv Hin. pose proof (cell_get_Some ri d c W Hv) as (v & Hg & Hr).
  rewrite Hg. unfold cell_get in Hg. rewrite Hin in Hg.
  unfold readshared16, dhd_bus_cmn_readshared, t, cell_addr, dhdpcie_bus_rtcm16 in *.
  destruct (aget (ring_sh (d_bus d)) (c_ring c)) as [r|]; [|done]. cbn [mbind option_bind] in *.
  destruct (c_wr c); rewrite Hg; cbn [mbind option_bind]; rewrite st16_le_bytes;
    cbn [fmap option_fmap option_map]; by rewrite le_val_bytes.
Qed.

Lemma writeshared_cell d c v (t := if c_wr c then RING_WR_UPD else RING_RD_UPD) :
  0 <= v < 2 ^ 16 -> in_host d c = false ->
  writeshared16 d v t (c_ring c) = cell_put d c v.
Proof.
  intros Hr Hin. unfold writeshared16, dhd_bus_cmn_writeshared, cell_put, t, cell_addr, dhdpcie_bus_wtcm16.
  rewrite Hin. destruct (aget (ring_sh (d_bus d)) (c_ring c)) as [r|];
    [|by destruct (c_wr c)]. cbn [mbind option_bind].
  destruct (c_wr c); rewrite ld16_le_bytes by done; cbn [mbind option_bind];
    by destruct (st _ _ _ _).
Qed.

Section host_ops.
Context (ri : ring_info) (d : dhd_pub) (W : index_wf ri d).

Lemma h2d_put_wr_cell r v :
  valid_ring d H2D r -> 0 <= v < 2 ^ 16 -> h2d_put_wr d r v = cell_put d (Cell H2D true r) v.
Proof.
  intros Hv Hr. unfold h2d_put_wr. destruct (dma_h2d_ring_upd_support d) eqn:E.
  - unfold cell_put, in_host. cbn. rewrite E.
    change (DHD_H2D_RING_OFFSET r) with (ring_off H2D r).
    rewrite (off_u16 ri d) by (done || apply W).
    rewrite (off_u32 ri d) by (done || apply W).
    destruct (va _); [|done]. cbn. by destruct (st _ _ _ _).
  - apply (writeshared_cell d (Cell H2D true r)); [done|]. unfold in_host; cbn. exact E.
Qed.

Lemma d2h_put_rd_cell r v :
  valid_ring d D2H r -> 0 <= v < 2 ^ 16 -> d2h_put_rd d r v = cell_put d (Cell D2H false r) v.
Proof.
  intros Hv Hr. unfold d2h_put_rd. destruct (dma_h2d_ring_upd_support d) eqn:E.
  - unfold cell_put, in_host. cbn. rewrite E.
    change (DHD_D2H_RING_OFFSET r) with (ring_off D2H r).
    rewrite (off_u16 ri d) by (done || apply W).
    rewrite (off_u32 ri d) by (done || apply W).
    destruct (va _); [|done]. cbn. by destruct (st _ _ _ _).
  - apply (writeshared_cell d (Cell D2H false r)); [done|]. unfold in_host; cbn. exact E.
Qed.

Lemma h2d_get_rd_cell r old :
  valid_ring d H2D r -> h2d_get_rd d r old = cell_get d (Cell H2D false r).
Proof.
  intros Hv. unfold h2d_get_rd. destruct (dma_d2h_ring_upd_support d) eqn:E.
  - unfold cell_get, in_host. cbn. rewrite E.
    change (DHD_H2D_RING_OFFSET r) with (ring_off H2D r).
    rewrite (off_u16 ri d) by (done || apply W). by rewrite (off_u32 ri d) by (done || apply W).
  - apply (readshared_cell ri d (Cell H2D false r)); [done..|]. unfold in_host; cbn. exact E.
Qed.

Lemma d2h_get_wr_cell r old :
  valid_ring d D2H r -> d2h_get_wr d r old = cell_get d (Cell D2H true r).
Proof.
  intros Hv. unfold d2h_get_wr. destruct (dma_d2h_ring_upd_support d) eqn:E.
  - unfold cell_get, in_host. cbn. rewrite E.
    change (DHD_D2H_RING_OFFSET r) with (ring_off D2H r).
    rewrite (off_u16 ri d) by (done || apply W). by rewrite (off_u32 ri d) by (done || apply W).
  - apply (readshared_cell ri d (Cell D2H true r)); [done..|]. unfold in_host; cbn. exact E.
Qed.
End host_ops.

(** ** dhd_fillup_ring_sharedptr_info *)
Lemma fill_mem_ok n sh i a :
  0 <= i -> i + Z.of_nat n <= Z.of_nat (length sh) -> Z.of_nat (length sh) < 2 ^ 16 ->
  exists sh', fill_mem n sh i a = Some sh' /\ length sh' = length sh.
Proof.
  revert sh i a. induction n as [|n IH]; intros sh i a Hi Hl Hb; cbn [fill_mem].
  - by exists sh.
  - unfold put_mem_addr. destruct (aget_is_Some sh i) as [r ->]; [lia|]. cbn [mbind option_bind].
    rewrite aset_Some by lia. cbn [mbind option_bind]. rewrite wrapu_small by lia.
    edestruct IH as (sh' & -> & Hlen); [| |by rewrite length_insert|]; [lia|rewrite length_insert; lia|].
    exists sh'. split; [done|]. by rewrite Hlen, length_insert.
Qed.

(** The loop over [n] ring states, when the pointers do not wrap. *)
Lemma fill_state_ok n sz sh i w r :
  0 <= i -> i + Z.of_nat n <= Z.of_nat (length sh) -> Z.of_nat (length sh) < 2 ^ 16 ->
  0 <= sz -> 0 <= w -> w + Z.of_nat n * sz < 2 ^ 32 -> 0 <= r -> r + Z.of_nat n * sz < 2 ^ 32 ->
  exists sh', fill_state n sz sh i w r
      = Some (sh', i + Z.of_nat n, w + Z.of_nat n * sz, r + Z.of_nat n * sz) /\
    length sh' = length sh /\
    (forall j, 0 <= j < i \/ i + Z.of_nat n <= j -> aget sh' j = aget sh j) /\
    (forall j, i <= j < i + Z.of_nat n -> exists s, aget sh' j = Some s /\
        ring_state_w s = w + (j - i) * sz /\ ring_state_r s = r + (j - i) * sz).
Proof.
  revert sh i w r. induction n as [|n IH]; intros sh i w r Hi Hl Hb Hsz Hw1 Hw2 Hr1 Hr2;
    cbn [fill_state].
  - exists sh. rewrite !Z.add_0_r. split_and!; [done..|]. intros; lia.
  - unfold put_state. destruct (aget_is_Some sh i) as [s0 ->]; [lia|]. cbn [mbind option_bind].
    rewrite aset_Some by lia. cbn [mbind option_bind].
    rewrite !wrapu_small by nia.
    set (s1 := {| ring_mem_addr := _; ring_state_w := w; ring_state_r := r |}).
    destruct (IH (<[Z.to_nat i := s1]> sh) (i + 1) (w + sz) (r + sz))
      as (sh' & E & Hlen & Hout & Hin); rewrite ?length_insert; try lia; try nia.
    rewrite length_insert in Hlen. exists sh'. rewrite E.
    replace (i + 1 + Z.of_nat n) with (i + Z.of_nat (S n)) by lia.
    replace (w + sz + Z.of_nat n * sz) with (w + Z.of_nat (S n) * sz) by lia.
    replace (r + sz + Z.of_nat n * sz) with (r + Z.of_nat (S n) * sz) by lia.
    split_and!; [done|lia|..].
    + intros j Hj. rewrite Hout, aget_insert by lia. destruct (decide _); [lia|done].
    + intros j Hj. destruct (decide (j = i)) as [->|].
      * exists s1. rewrite Hout, aget_insert by lia. destruct (decide _); [|done].
        rewrite Z.sub_diag. cbn. split_and!; [done|lia|lia].
      * destruct (Hin j ltac:(lia)) as (s & ? & ? & ?). exists s. split_and!; [done|lia|lia].
Qed.

Lemma fillup_wf ri d :
  layout ri d -> length (ring_sh (d_bus d)) = Z.to_nat (BCMPCIE_COMMON_MSGRINGS + MAX_DHD_TX_FLOWS) ->
  exists bus', dhd_fillup_ring_sharedptr_info (d_bus d) ri = Some bus' /\
    tcm bus' = tcm (d_bus d) /\ max_sub_queues bus' = max_sub_queues (d_bus d) /\
    index_wf ri (set_bus d bus').
Proof.
  intros L Hlen. pose proof (lay_max _ _ L) as Hm. pose proof (lay_sz _ _ L) as Hsz.
  pose proof (lay_u32 _ _ L) as Hu. unfold MAX_DHD_TX_FLOWS, BCMPCIE_COMMON_MSGRINGS in *.
  pose proof (lay_in _ _ L H2D true) as [Hw1 Hw2]. pose proof (lay_in _ _ L H2D false) as [Hr1 Hr2].
  pose proof (lay_in _ _ L D2H true) as [Dw1 Dw2]. pose proof (lay_in _ _ L D2H false) as [Dr1 Dr2].
  cbn [arr_len arr_base] in *. unfold BCMPCIE_D2H_COMMON_MSGRINGS in *.
  unfold dhd_fillup_ring_sharedptr_info. set (sz := Tcm.rw_index_sz (d_bus d)) in *.
  set (mx := max_sub_queues (d_bus d)) in *. cbv zeta.
  destruct (fill_mem_ok (Z.to_nat (BCMPCIE_COMMON_MSGRING_MAX_ID + 1)) (ring_sh (d_bus d)) 0
    (ringmem_ptr ri)) as (sh0 & -> & L0); [lia|unfold BCMPCIE_COMMON_MSGRING_MAX_ID; rewrite Hlen; lia|rewrite Hlen; zlia|]. cbn [mbind option_bind].
  assert (Z.of_nat (length sh0) = 325) as L0' by lia. clear Hlen.
  destruct (fill_state_ok (Z.to_nat BCMPCIE_H2D_COMMON_MSGRINGS) sz sh0 0 (h2d_w_idx_ptr ri)
    (h2d_r_idx_ptr ri)) as (sh1 & -> & L1 & O1 & I1);
    unfold BCMPCIE_H2D_COMMON_MSGRINGS; [lia|lia|zlia|nia..|]. cbn [mbind option_bind].
  destruct (fill_state_ok (Z.to_nat BCMPCIE_D2H_COMMON_MSGRINGS) sz sh1
    (0 + Z.of_nat (Z.to_nat 2)) (d2h_w_idx_ptr ri) (d2h_r_idx_ptr ri))
    as (sh2 & -> & L2 & O2 & I2); unfold BCMPCIE_D2H_COMMON_MSGRINGS;
    [lia|lia|zlia|nia..|]. cbn [mbind option_bind].
  destruct (fill_state_ok (Z.to_nat (mx - 2)) sz sh2
    (0 + Z.of_nat (Z.to_nat 2) + Z.of_nat (Z.to_nat 3))
    (h2d_w_idx_ptr ri + Z.of_nat (Z.to_nat 2) * sz) (h2d_r_idx_ptr ri + Z.of_nat (Z.to_nat 2) * sz))
    as (sh3 & -> & L3 & O3 & I3); [lia|lia|zlia|nia..|]. cbn [mbind option_bind].
  unfold BCMPCIE_H2D_COMMON_MSGRINGS, BCMPCIE_D2H_COMMON_MSGRINGS in *.
  change (Z.of_nat (Z.to_nat 2)) with 2 in *. change (Z.of_nat (Z.to_nat 3)) with 3 in *.
  eexists. split; [done|]. split; [done|]. split; [done|]. split.
  { destruct L. constructor; eauto. }
  intros [dir wr r] Hv. cbn [c_dir c_ring c_wr d_bus set_bus set_ring_sh ring_sh] in *.
  change (Tcm.rw_index_sz _) with sz.
  assert (exists s, aget sh3 r = Some s /\
    ring_state_w s = arr_base ri dir true + ring_off dir r * sz /\
    ring_state_r s = arr_base ri dir false + ring_off dir r * sz) as (s & Es & Ew & Er).
  { destruct dir; cbn [valid_ring ring_off arr_base d_bus set_bus set_ring_sh max_sub_queues] in *.
    - change (max_sub_queues (set_ring_sh (d_bus d) sh3)) with mx in Hv.
      destruct Hv as [Hv|Hv].
      + destruct (I1 r ltac:(lia)) as (s & Es & Ew & Er). exists s.
        rewrite O3, O2 by lia. rewrite Es, Ew, Er.
        unfold DHD_H2D_RING_OFFSET, DHD_IS_FLOWRING, BCMPCIE_COMMON_MSGRINGS. zcmp; [lia|].
        rewrite Z.sub_0_r. done.
      + destruct (I3 r ltac:(lia)) as (s & Es & Ew & Er). exists s. rewrite Es, Ew, Er.
        unfold DHD_H2D_RING_OFFSET, DHD_IS_FLOWRING, DHD_RINGID_TO_FLOWID, BCMPCIE_COMMON_MSGRINGS,
          BCMPCIE_H2D_COMMON_MSGRINGS. zcmp; [|lia]. split_and!; [done|lia|lia].
    - destruct (I2 r ltac:(lia)) as (s & Es & Ew & Er). exists s. rewrite O3 by lia.
      rewrite Es, Ew, Er. unfold DHD_D2H_RING_OFFSET, BCMPCIE_H2D_COMMON_MSGRINGS. done. }
  exists s. split; [done|]. unfold cell_addr. cbn. destruct wr; [rewrite Ew|rewrite Er]; done.
Qed.

Lemma fill_state_None n sz sh i w r :
  0 <= i <= Z.of_nat (length sh) -> Z.of_nat (length sh) < i + Z.of_nat n ->
  Z.of_nat (length sh) < 2 ^ 16 - 1 -> fill_state n sz sh i w r = None.
Proof.
  revert sh i w r. induction n as [|n IH]; intros sh i w r Hi Hn Hb; cbn [fill_state]; [lia|].
  unfold put_state. destruct (aget sh i) as [s|] eqn:E; [|done]. cbn [mbind option_bind].
  apply aget_lt in E. rewrite aset_Some by lia. cbn [mbind option_bind].
  rewrite (wrapu_small 16) by lia. apply IH; rewrite length_insert; lia.
Qed.

Lemma fill_state_idx n sz sh i w r sh' i' w' r' :
  0 <= i -> Z.of_nat (length sh) < 2 ^ 16 - 1 ->
  fill_state n sz sh i w r = Some (sh', i', w', r') ->
  length sh' = length sh /\ i' = i + Z.of_nat n.
Proof.
  revert sh i w r. induction n as [|n IH]; intros sh i w r Hi Hb; cbn [fill_state].
  - intros [= <- <- _ _]. split; [done|lia].
  - unfold put_state. destruct (aget sh i) as [s|] eqn:E; [|done]. cbn [mbind option_bind].
    apply aget_lt in E. rewrite aset_Some by lia. cbn [mbind option_bind].
    rewrite (wrapu_small 16) by lia. intros [H1 H2]%IH; rewrite ?length_insert in *; lia.
Qed.

Lemma fill_mem_length n sh i a sh' : fill_mem n sh i a = Some sh' -> length sh' = length sh.
Proof.
  revert sh i a. induction n as [|n IH]; intros sh i a; cbn [fill_mem]; [by intros [= <-]|].
  unfold put_mem_addr. destruct (aget sh i) as [s|]; [|done]. cbn [mbind option_bind].
  destruct (aset sh i _) as [sh1|] eqn:E; [|done]. cbn [mbind option_bind].
  intros H%IH. apply aset_length in E. congruence.
Qed.

(** * Properties *)

(** C26: once dhd_fillup_ring_sharedptr_info has placed the rings of a firmware
    whose index arrays fit device memory and do not overlap, every index the
    host publishes is the one the dongle reads for that ring, every index the
    dongle stores is the one the host fetches, and no store disturbs the
    index of another ring, kind or direction: whichever of the two
    directions exchanges indices through host arrays or through device memory,
    for 2- and 4-byte indices, over all the rings up to MAX_DHD_TX_FLOWS. *)
Theorem ring_index_exchange (ri : ring_info) (d : dhd_pub) :
  layout ri d -> length (ring_sh (d_bus d)) = Z.to_nat (BCMPCIE_COMMON_MSGRINGS + MAX_DHD_TX_FLOWS) ->
  exists bus', dhd_fillup_ring_sharedptr_info (d_bus d) ri = Some bus' /\
    let d1 := set_bus d bus' in
    (forall r v, valid_ring d H2D r -> 0 <= v < 2 ^ 16 ->
       exists d2, h2d_put_wr d1 r v = Some d2 /\ index_wf ri d2 /\
         forall c, valid_ring d (c_dir c) (c_ring c) ->
           cell_get d2 c = if decide (Cell H2D true r = c) then Some v else cell_get d1 c) /\
    (forall r v, valid_ring d D2H r -> 0 <= v < 2 ^ 16 ->
       exists d2, d2h_put_rd d1 r v = Some d2 /\ index_wf ri d2 /\
         forall c, valid_ring d (c_dir c) (c_ring c) ->
           cell_get d2 c = if decide (Cell D2H false r = c) then Some v else cell_get d1 c) /\
    (forall c v, valid_ring d (c_dir c) (c_ring c) -> 0 <= v < 2 ^ 16 ->
       exists d2, cell_put d1 c v = Some d2 /\ index_wf ri d2 /\
         (c = Cell H2D false (c_ring c) -> forall old, h2d_get_rd d2 (c_ring c) old = Some v) /\
         (c = Cell D2H true (c_ring c) -> forall old, d2h_get_wr d2 (c_ring c) old = Some v)).
Proof.
  intros L Hl. destruct (fillup_wf ri d L Hl) as (bus' & E & Et & Em & W).
  exists bus'. split; [exact E|]. intros d1.
  assert (forall dir r, valid_ring d dir r <-> valid_ring d1 dir r) as V.
  { intros [] r; cbn; by rewrite ?Em. }
  split_and!.
  - intros r v Hv Hr. rewrite (h2d_put_wr_cell ri d1 W) by (by try apply V).
    destruct (cell_put_Some ri d1 (Cell H2D true r) v W) as (d2 & -> & W2 & _ & _ & Hg);
      [by apply V|done|]. exists d2. split_and!; [done..|]. intros c Hc. apply Hg. by apply V.
  - intros r v Hv Hr. rewrite (d2h_put_rd_cell ri d1 W) by (by try apply V).
    destruct (cell_put_Some ri d1 (Cell D2H false r) v W) as (d2 & -> & W2 & _ & _ & Hg);
      [by apply V|done|]. exists d2. split_and!; [done..|]. intros c Hc. apply Hg. by apply V.
  - intros c v Hv Hr.
    destruct (cell_put_Some ri d1 c v W) as (d2 & Ep & W2 & _ & Ha & Hg); [by apply V|done|].
    exists d2. split_and!; [done..| |].
    + intros Ec old. rewrite (h2d_get_rd_cell ri d2 W2).
      * rewrite <- Ec, Hg by (by apply V). by destruct (decide (c = c)).
      * assert (max_sub_queues (d_bus d2) = max_sub_queues (d_bus d1)) as E2
          by apply (f_equal (fun f => f H2D) Ha).
        rewrite Ec in Hv. cbn in *. lia.
    + intros Ec old. rewrite (d2h_get_wr_cell ri d2 W2).
      * rewrite <- Ec, Hg by (by apply V). by destruct (decide (c = c)).
      * rewrite Ec in Hv. exact Hv.
Qed.

(** The number of H2D rings comes from the firmware and is not checked
    against the size of the driver's table: with more than MAX_DHD_TX_FLOWS
    flow rings dhd_fillup_ring_sharedptr_info writes past the end of
    ring_sh, whatever the rest of the firmware's ring_info says. *)
Theorem fillup_overflow (bus : dhd_bus) (ri : ring_info) :
  length (ring_sh bus) = Z.to_nat (BCMPCIE_COMMON_MSGRINGS + MAX_DHD_TX_FLOWS) ->
  BCMPCIE_H2D_COMMON_MSGRINGS + MAX_DHD_TX_FLOWS < max_sub_queues bus ->
  dhd_fillup_ring_sharedptr_info bus ri = None.
Proof.
  unfold MAX_DHD_TX_FLOWS, BCMPCIE_COMMON_MSGRINGS. intros Hl Hm.
  unfold dhd_fillup_ring_sharedptr_info, BCMPCIE_H2D_COMMON_MSGRINGS, BCMPCIE_D2H_COMMON_MSGRINGS in *.
  destruct (fill_mem _ _ _ _) as [sh0|] eqn:E0; [|done]. cbn [mbind option_bind].
  apply fill_mem_length in E0.
  destruct (fill_state (Z.to_nat 2) _ _ _ _ _) as [[[[sh1 i1] w1] r1]|] eqn:E1; [|done].
  cbn [mbind option_bind]. apply fill_state_idx in E1 as [L1 ->]; [|lia|zlia].
  destruct (fill_state (Z.to_nat 3) _ _ _ _ _) as [[[[sh2 i2] w2] r2]|] eqn:E2; [|done].
  cbn [mbind option_bind]. apply fill_state_idx in E2 as [L2 ->]; [|lia|zlia].
  rewrite fill_state_None; [done|lia|lia|zlia].
Qed.

(** Dhd_prot_dma_indx_init keeps an index array it already holds whatever
    its size: after a second initialisation for more rings it reports success
    with the old array, and publishing the index of a ring beyond it writes
    outside the buffer. *)
Theorem dma_indx_init_short (alloc : Z -> option (list Z * Z)) (line : option Z) (p : dhd_prot_indx)
    (bs : list Z) (sz n r v : Z) :
  va (h2d_dma_indx_wr_buf p) = Some bs -> 0 <= r < 2 ^ 15 -> sz = 2 \/ sz = 4 ->
  Z.of_nat (length bs) < DHD_H2D_RING_OFFSET r * sz ->
  exists p', dhd_prot_dma_indx_init alloc line (Some p) sz H2D_DMA_INDX_WR_BUF n = Some (BCME_OK, Some p') /\
    h2d_dma_indx_wr_buf p' = h2d_dma_indx_wr_buf p /\
    dhd_prot_dma_indx_set p' v H2D_DMA_INDX_WR_UPD r = None.
Proof.
  intros Hva Hr Hsz Hlen. unfold dhd_prot_dma_indx_init, dhd_prot_dma_indx_alloc. cbn.
  rewrite Hva, (bool_decide_eq_true_2 (is_Some _)), orb_true_r by eauto. cbn.
  eexists. split; [done|]. split; [done|].
  unfold dhd_prot_dma_indx_set. cbn. rewrite Hva. cbn.
  assert (0 <= DHD_H2D_RING_OFFSET r < 2 ^ 15) as Ho.
  { unfold DHD_H2D_RING_OFFSET, DHD_IS_FLOWRING, DHD_RINGID_TO_FLOWID, BCMPCIE_COMMON_MSGRINGS,
      BCMPCIE_H2D_COMMON_MSGRINGS. zcmp; zlia. }
  rewrite (wrapu_small 16), (wrapu_small 32) by (zpow; nia).
  unfold st. cbn [st_bytes le_bytes]. unfold aset.
  destruct (Z.ltb_spec (DHD_H2D_RING_OFFSET r * sz) (Z.of_nat (length bs))); [lia|].
  by rewrite andb_false_r.
Qed.

(** A DMA buffer allocation either succeeds with a buffer whose requested
    bytes are all zero and whose device addresses do not wrap a 32-bit
    address, or fails and leaves no buffer behind, for any allocator that
    returns the amount asked for. *)
Theorem dma_buf_alloc_ok (alloc : Z -> option (list Z * Z)) (line : option Z) (b : dhd_dma_buf) (len : Z) :
  (forall n bs pa, alloc n = Some (bs, pa) -> Z.of_nat (length bs) = n /\ 0 <= pa < 2 ^ 32) ->
  0 < len < 2 ^ 31 -> 0 < DHD_DMA_PAD line < 2 ^ 31 ->
  exists rc b', dhd_dma_buf_alloc alloc line b len = Some (rc, b') /\
    ((rc = BCME_OK /\ blen b' = len /\ pa_lo b' + len < 2 ^ 32 /\
      exists bs, va b' = Some bs /\ len <= Z.of_nat (length bs) /\
        forall i, 0 <= i < len -> aget bs i = Some 0) \/
     (rc <> BCME_OK /\ va b' = None)).
Proof.
  intros Ha Hl Hp. unfold dhd_dma_buf_alloc. cbv zeta.
  destruct (alloc _) as [[bs pa]|] eqn:E; [|by eexists _, _; split; [done|right]].
  apply Ha in E as [El Hpa]. rewrite wrapu_small in El by (destruct (negb _); zlia).
  assert (len <= Z.of_nat (length bs)) as Hle by (destruct (negb _); lia).
  destruct (dhd_dma_buf_audit _ =? BCME_OK) eqn:Au; cbn [negb].
  - unfold dhd_dma_buf_reset. cbn.
    destruct (Z.leb_spec len (Z.of_nat (length bs))); [|lia]. cbn.
    eexists _, _. split; [done|]. left. cbn. split_and!; [done|done| |].
    + unfold dhd_dma_buf_audit in Au. cbn in Au.
      change 4294967295 with (Z.ones 32) in Au. rewrite !Z.land_ones in Au by lia.
      unfold wrapu in Au. rewrite Zmod_mod in Au.
      destruct (Z.ltb_spec ((pa + len) mod 2 ^ 32) (pa mod 2 ^ 32)) as [|Hw]; [done|].
      rewrite (Z.mod_small pa) in Hw by done.
      destruct (decide (pa + len < 2 ^ 32)) as [|Hge]; [done|].
      rewrite <- (Z_mod_plus_full _ (-1)), Z.mod_small in Hw by zlia. zlia.
    + eexists. split; [done|]. split.
      * rewrite length_app, length_replicate, length_drop. lia.
      * intros i Hi. unfold aget. destruct (Z.leb_spec 0 i); [|lia].
        rewrite lookup_app_l by (rewrite length_replicate; lia).
        apply lookup_replicate_2. lia.
  - eexists _, _. split; [done|]. right. done.
Qed.

(** * Witnesses *)
Definition sample_ri : ring_info :=
  {| ringmem_ptr := 64; h2d_w_idx_ptr := 0; h2d_r_idx_ptr := 16; d2h_w_idx_ptr := 32; d2h_r_idx_ptr := 40 |}.
Definition sample_buf : dhd_dma_buf := {| va := Some (replicate 32 0); blen := 6; pa_lo := 4096 |}.
Definition sample_pub : dhd_pub :=
  {| d_bus := {| tcm := replicate 160 0; shared_addr := 0; rings_info_ptr := 0;
                 ring_sh := replicate 325 {| ring_mem_addr := 0; ring_state_w := 0; ring_state_r := 0 |};
                 h2d_mb_data_ptr_addr := 0; d2h_mb_data_ptr_addr := 0;
                 Tcm.rw_index_sz := 2; max_sub_queues := 4 |};
     d_prot := {| rw_index_sz := 2; h2d_dma_indx_wr_buf := sample_buf; h2d_dma_indx_rd_buf := sample_buf;
                  d2h_dma_indx_wr_buf := sample_buf; d2h_dma_indx_rd_buf := sample_buf |};
     dma_h2d_ring_upd_support := true; dma_d2h_ring_upd_support := false; d_cfg64 := true |}.

Lemma sample_layout : layout sample_ri sample_pub.
Proof.
  constructor; try (unfold MAX_DHD_TX_FLOWS; cbn; lia).
  - change (bytes (replicate 160 0)). apply Forall_replicate. unfold is_byte. lia.
  - intros [] []; unfold arr_len, BCMPCIE_D2H_COMMON_MSGRINGS; cbn; lia.
  - intros [] [] [] [] H; unfold arr_len, BCMPCIE_D2H_COMMON_MSGRINGS; cbn; try lia; congruence.
  - intros c _. exists (replicate 32 0). split_and!.
    + destruct c as [[] [] ?]; reflexivity.
    + apply Forall_replicate. unfold is_byte. lia.
    + destruct c as [[] ? ?]; unfold arr_len, BCMPCIE_D2H_COMMON_MSGRINGS; cbn; lia.
Qed.

Lemma ring_index_exchange_witness :
  exists bus', dhd_fillup_ring_sharedptr_info (d_bus sample_pub) sample_ri = Some bus' /\
    exists d2, h2d_put_wr (set_bus sample_pub bus') 6 77 = Some d2 /\
      cell_get d2 (Cell H2D true 6) = Some 77 /\ cell_get d2 (Cell H2D true 5) = Some 0.
Proof.
  destruct (ring_index_exchange sample_ri sample_pub sample_layout eq_refl) as (bus' & E & H1 & _).
  exists bus'. split; [exact E|].
  destruct (H1 6 77) as (d2 & Ed & _ & Hg); [cbn; lia|lia|].
  exists d2. split; [exact Ed|]. split; (rewrite Hg; [|cbn; lia]).
  - reflexivity.
  - vm_compute in E. injection E as <-. reflexivity.
Defined.

Lemma fillup_overflow_witness :
  dhd_fillup_ring_sharedptr_info
    {| tcm := []; shared_addr := 0; rings_info_ptr := 0;
       ring_sh := replicate 325 {| ring_mem_addr := 0; ring_state_w := 0; ring_state_r := 0 |};
       h2d_mb_data_ptr_addr := 0; d2h_mb_data_ptr_addr := 0;
       Tcm.rw_index_sz := 2; max_sub_queues := 323 |} sample_ri = None.
Proof. apply fillup_overflow; [reflexivity|reflexivity]. Defined.

Lemma dma_indx_init_short_witness :
  exists p', dhd_prot_dma_indx_init (fun _ => None) None (Some (d_prot sample_pub)) 2 H2D_DMA_INDX_WR_BUF 100
      = Some (BCME_OK, Some p') /\
    h2d_dma_indx_wr_buf p' = h2d_dma_indx_wr_buf (d_prot sample_pub) /\
    dhd_prot_dma_indx_set p' 1 H2D_DMA_INDX_WR_UPD 90 = None.
Proof.
  apply (dma_indx_init_short (fun _ => None) None (d_prot sample_pub) (replicate 32 0) 2 100 90 1);
    [reflexivity|lia|lia|reflexivity].
Defined.

Lemma dma_buf_alloc_ok_witness :
  let alloc n := Some (replicate (Z.to_nat (Z.max 0 n)) 255, 4096) in
  exists rc b', dhd_dma_buf_alloc (fun n => if 0 <=? n then alloc n else None) (Some 64) dma_buf_zero 6 = Some (rc, b') /\
    ((rc = BCME_OK /\ blen b' = 6 /\ pa_lo b' + 6 < 2 ^ 32 /\
      exists bs, va b' = Some bs /\ 6 <= Z.of_nat (length bs) /\
        forall i, 0 <= i < 6 -> aget bs i = Some 0) \/
     (rc <> BCME_OK /\ va b' = None)).
Proof.
  intros alloc. apply dma_buf_alloc_ok; [|lia|cbn; lia].
  intros n bs pa. destruct (Z.leb_spec 0 n); [|done]. unfold alloc. intros [= <- <-].
  rewrite length_replicate. split; [lia|zlia].
Defined.
