(* ===== verification/MsgRing.v ===== *)
(** * Message rings

    dhd/sys/dhd_msgbuf.c: a msgbuf_ring is the host's end of a ring of
    fixed-size items shared with the dongle.  On an H2D ring the host is the
    producer (it owns [wr] and caches [rd]), on a D2H ring the consumer.  The
    file models the ring object, the flow-ring pool, space allocation,
    completion, and the consumer's access. *)
From Stdlib Require Import ZArith Lia.
From stdpp Require Import base option numbers list.
From S2P Require Import Prelude Bytes Tcm RingIndex.

(** ** The ring object *)
Record msgbuf_ring := {
  inited : bool;
  idx : Z;          (* ring id *)
  rd : Z;           (* uint16 read index *)
  wr : Z;           (* uint16 write index *)
  max_items : Z;
  item_len : Z;
  base_addr : list Z;  (* its 8 bytes, little endian *)
  dma_buf : dhd_dma_buf;
  seqnum : Z;       (* uint32: next expected item's sequence number *)
  start_addr : option Z;   (* first item not yet announced, as an offset into the ring buffer *)
  pend_items_count : Z     (* uint16: items on the ring not yet announced to the dongle *)
}.

Definition set_rd (r : msgbuf_ring) (v : Z) : msgbuf_ring :=
  {| inited := inited r; idx := idx r; rd := v; wr := wr r; max_items := max_items r;
     item_len := item_len r; base_addr := base_addr r; dma_buf := dma_buf r; seqnum := seqnum r;
     start_addr := start_addr r; pend_items_count := pend_items_count r |}.
Definition set_wr (r : msgbuf_ring) (v : Z) : msgbuf_ring :=
  {| inited := inited r; idx := idx r; rd := rd r; wr := v; max_items := max_items r;
     item_len := item_len r; base_addr := base_addr r; dma_buf := dma_buf r; seqnum := seqnum r;
     start_addr := start_addr r; pend_items_count := pend_items_count r |}.
Definition set_inited (r : msgbuf_ring) (b : bool) : msgbuf_ring :=
  {| inited := b; idx := idx r; rd := rd r; wr := wr r; max_items := max_items r;
     item_len := item_len r; base_addr := base_addr r; dma_buf := dma_buf r; seqnum := seqnum r;
     start_addr := start_addr r; pend_items_count := pend_items_count r |}.
Definition set_seqnum (r : msgbuf_ring) (v : Z) : msgbuf_ring :=
  {| inited := inited r; idx := idx r; rd := rd r; wr := wr r; max_items := max_items r;
     item_len := item_len r; base_addr := base_addr r; dma_buf := dma_buf r; seqnum := v;
     start_addr := start_addr r; pend_items_count := pend_items_count r |}.
Definition set_dma_buf (r : msgbuf_ring) (b : dhd_dma_buf) : msgbuf_ring :=
  {| inited := inited r; idx := idx r; rd := rd r; wr := wr r; max_items := max_items r;
     item_len := item_len r; base_addr := base_addr r; dma_buf := b; seqnum := seqnum r;
     start_addr := start_addr r; pend_items_count := pend_items_count r |}.
Definition set_pend (r : msgbuf_ring) (a : option Z) (n : Z) : msgbuf_ring :=
  {| inited := inited r; idx := idx r; rd := rd r; wr := wr r; max_items := max_items r;
     item_len := item_len r; base_addr := base_addr r; dma_buf := dma_buf r; seqnum := seqnum r;
     start_addr := a; pend_items_count := n |}.

(** ** Ring arithmetic (include/bcmpcie.h), on C ints *)
Definition NTXPACTIVE (r w d : Z) : Z := if r <=? w then w - r else d - r + w.
Definition READ_AVAIL_SPACE (w r d : Z) : Z := if r <=? w then w - r else d - r.
Definition WRITE_SPACE_AVAIL_CONTINUOUS (r w d : Z) : Z := if r <=? w then d - w else r - w.
Definition WRITE_SPACE_AVAIL (r w d : Z) : Z := d - NTXPACTIVE r w d - 1.
Definition CHECK_WRITE_SPACE (r w d : Z) : Z :=
  Z.min (WRITE_SPACE_AVAIL r w d) (WRITE_SPACE_AVAIL_CONTINUOUS r w d).

(** ** Initialisation and reset *)

(** Common rings: the ring's parameters and zeroed indices go to the dongle. *)
Definition dhd_prot_ring_init (d : dhd_pub) (r : msgbuf_ring) : option (dhd_pub * msgbuf_ring) :=
  let r := set_rd (set_wr r 0) 0 in
  bus ← dhd_bus_cmn_writeshared (d_cfg64 d) (d_bus d) (base_addr r) 8 RING_BUF_ADDR (idx r);
  d ← writeshared16 (set_bus d bus) (max_items r) RING_MAX_ITEMS (idx r);
  d ← writeshared16 d (item_len r) RING_ITEM_LEN (idx r);
  d ← writeshared16 d (wr r) RING_WR_UPD (idx r);
  d ← writeshared16 d (rd r) RING_RD_UPD (idx r);
  Some (d, set_inited r true).

Definition dhd_prot_ring_reset (r : msgbuf_ring) : option msgbuf_ring :=
  b ← dhd_dma_buf_reset (dma_buf r);
  Some (set_rd (set_wr (set_dma_buf r b) 0) 0).

(** ** The pool of flow rings: [pool] is h2d_flowrings_pool, [None] when not
    attached *)
Definition DHD_FLOWRINGS_POOL_OFFSET (flowid : Z) : Z := flowid - BCMPCIE_H2D_COMMON_MSGRINGS.

Definition dhd_prot_flowrings_pool_fetch (pool : list msgbuf_ring) (flowid : Z)
    : option (msgbuf_ring * list msgbuf_ring) :=
  r ← aget pool (DHD_FLOWRINGS_POOL_OFFSET flowid);
  let r := set_inited (set_rd (set_wr r 0) 0) true in
  pool ← aset pool (DHD_FLOWRINGS_POOL_OFFSET flowid) r;
  Some (r, pool).

Definition dhd_prot_flowrings_pool_release (pool : list msgbuf_ring) (flowid : Z)
    : option (list msgbuf_ring) :=
  r ← aget pool (DHD_FLOWRINGS_POOL_OFFSET flowid);
  aset pool (DHD_FLOWRINGS_POOL_OFFSET flowid) (set_inited (set_rd (set_wr r 0) 0) false).

Definition dhd_prot_flowrings_pool_reset (pool : option (list msgbuf_ring))
    : option (option (list msgbuf_ring)) :=
  match pool with
  | None => Some None
  | Some rs => Some <$> mapM (fun r => r ← dhd_prot_ring_reset r; Some (set_inited r false)) rs
  end.

(** ** Space allocation

    The result is the returned pointer as a byte offset into the ring buffer
    ([None] for NULL), the value of [*alloced], and the ring. *)
Definition dhd_prot_get_ring_space (r : msgbuf_ring) (nitems alloced : Z) (exactly_nitems : bool)
    : option Z * Z * msgbuf_ring :=
  let ring_avail_cnt := u16 (CHECK_WRITE_SPACE (rd r) (wr r) (max_items r)) in
  if (ring_avail_cnt =? 0) ||
     (exactly_nitems && (ring_avail_cnt <? nitems) && (nitems <=? max_items r - wr r))
  then (None, alloced, r)
  else
    let alloced := Z.min nitems ring_avail_cnt in
    let ret_ptr := wr r * item_len r in
    if wr r + alloced =? max_items r then (Some ret_ptr, alloced, set_wr r 0)
    else if wr r + alloced <? max_items r then (Some ret_ptr, alloced, set_wr r (wr r + alloced))
    else (None, alloced, r).

(** The two index operations a ring needs from the shared store: publish the
    host's own index, fetch the peer's ([old] is the cached value). *)
Class RingIdxOps (St : Type) := {
  put_own : St -> Z -> Z -> option St;
  get_peer : St -> Z -> Z -> option Z
}.

Definition h2d_ops : RingIdxOps dhd_pub := {| put_own := h2d_put_wr; get_peer := h2d_get_rd |}.
Definition d2h_ops : RingIdxOps dhd_pub := {| put_own := d2h_put_rd; get_peer := d2h_get_wr |}.

Section ops.
Context {St : Type} `{!RingIdxOps St}.

Definition dhd_prot_alloc_ring_space (s : St) (r : msgbuf_ring) (nitems alloced : Z)
    (exactly_nitems : bool) : option (option Z * Z * msgbuf_ring) :=
  match dhd_prot_get_ring_space r nitems alloced exactly_nitems with
  | (Some p, alloced, r) => Some (Some p, alloced, r)
  | (None, alloced, r) =>
      v ← get_peer s (idx r) (rd r);
      Some (dhd_prot_get_ring_space (set_rd r v) nitems alloced exactly_nitems)
  end.

(** The second component is the value the doorbell is rung with. *)
Definition dhd_prot_ring_write_complete (s : St) (r : msgbuf_ring) : option (St * Z) :=
  s ← put_own s (idx r) (wr r); Some (s, wr r).

Definition dhd_prot_upd_read_idx (s : St) (r : msgbuf_ring) : option St :=
  put_own s (idx r) (rd r).

(** The result is the returned pointer, as an offset, the value of
    [*available_len], unchanged when there is nothing to read, and the ring. *)
Definition dhd_prot_get_read_addr (s : St) (r : msgbuf_ring) (available_len : Z)
    : option (option Z * Z * msgbuf_ring) :=
  w ← get_peer s (idx r) (wr r);
  let r := set_wr r w in
  let items := u16 (READ_AVAIL_SPACE (wr r) (rd r) (max_items r)) in
  if items =? 0 then Some (None, available_len, r)
  else if max_items r <=? items then Some (None, 0, r)
  else
    let read_addr := rd r * item_len r in
    let r := if max_items r <=? rd r + items then set_rd r 0 else set_rd r (rd r + items) in
    Some (Some read_addr, u32 (items * item_len r), r).

(** dhd_prot_update_txflowring: the part that touches the ring; [dma] is
    DMA_INDX_ENAB(dma_d2h_ring_upd_support). *)
Definition dhd_prot_update_txflowring (dma : bool) (s : St) (r : msgbuf_ring) : option msgbuf_ring :=
  if dma then v ← get_peer s (idx r) (rd r); Some (set_rd r v) else Some r.
End ops.

(** ** Well-formed rings *)
Record ring_wf (r : msgbuf_ring) : Prop := {
  rw_max : 2 <= max_items r < 2 ^ 16;
  rw_len : 0 < item_len r < 2 ^ 16;
  rw_rd : 0 <= rd r < max_items r;
  rw_wr : 0 <= wr r < max_items r
}.

(** Free slots of a ring whose cached indices are [rd] and [wr]. *)
Definition ring_used (r : msgbuf_ring) : Z := NTXPACTIVE (rd r) (wr r) (max_items r).

Lemma get_ring_space_spec r n a0 ex (avail := CHECK_WRITE_SPACE (rd r) (wr r) (max_items r)) :
  ring_wf r -> 0 <= n < 2 ^ 16 ->
  dhd_prot_get_ring_space r n a0 ex =
    (if (avail =? 0) || (ex && (avail <? n) && (n <=? max_items r - wr r)) then (None, a0, r)
    else (Some (wr r * item_len r), Z.min n avail,
          set_wr r (if wr r + Z.min n avail =? max_items r then 0 else wr r + Z.min n avail))) /\
  0 <= avail /\ wr r + avail <= max_items r /\ ring_used r + avail <= max_items r - 1.
Proof.
  intros [Hm Hl Hr Hw] Hn. unfold ring_used.
  assert (0 <= avail /\ wr r + avail <= max_items r /\ NTXPACTIVE (rd r) (wr r) (max_items r) + avail <= max_items r - 1)
    as (A1 & A2 & A3).
  { unfold avail, CHECK_WRITE_SPACE, WRITE_SPACE_AVAIL, WRITE_SPACE_AVAIL_CONTINUOUS, NTXPACTIVE.
    destruct (rd r <=? wr r) eqn:E; lia. }
  split; [|done]. unfold dhd_prot_get_ring_space. fold avail.
  rewrite wrapu_small by zlia.
  destruct (_ || _); [done|].
  destruct (Z.eqb_spec (wr r + Z.min n avail) (max_items r)); [done|].
  destruct (Z.ltb_spec (wr r + Z.min n avail) (max_items r)); [done|lia].
Qed.

(** * Properties of one operation *)

(** Whatever read index the dongle reports, and whatever the request,
    dhd_prot_get_ring_space either refuses, leaving the write index alone, or
    returns an area of at most the requested size that lies inside the ring
    buffer and starts at the old write index, and the new write index is
    again inside the ring. *)
Theorem get_ring_space_bounds (r : msgbuf_ring) (n a0 : Z) (ex : bool) (p : option Z) (a : Z) (r' : msgbuf_ring) :
  2 <= max_items r < 2 ^ 16 -> 0 < item_len r -> 0 <= wr r < max_items r ->
  0 <= rd r < 2 ^ 16 -> 0 <= n < 2 ^ 16 ->
  dhd_prot_get_ring_space r n a0 ex = (p, a, r') ->
  match p with
  | None => r' = r
  | Some off => off = wr r * item_len r /\ 0 <= a <= n /\ (0 < n -> 0 < a) /\
      off + a * item_len r <= max_items r * item_len r /\
      wr r' = (wr r + a) mod max_items r /\ rd r' = rd r /\ max_items r' = max_items r
  end.
Proof.
  intros Hm Hl Hw Hr Hn. unfold dhd_prot_get_ring_space.
  set (avail := u16 _). pose proof (wrapu_range 16 (CHECK_WRITE_SPACE (rd r) (wr r) (max_items r)) ltac:(lia)) as Ha.
  fold avail in Ha. destruct (Z.eqb_spec avail 0) as [|Hnz]; [by intros [= <- <- <-]|].
  cbn [orb]. destruct (ex && _ && _); [by intros [= <- <- <-]|].
  destruct (Z.eqb_spec (wr r + Z.min n avail) (max_items r)) as [E|];
    [|destruct (Z.ltb_spec (wr r + Z.min n avail) (max_items r))]; intros [= <- <- <-]; [| |done].
  - split_and!; [done|lia|lia|lia|nia| |done..]. cbn. by rewrite E, Z_mod_same_full.
  - split_and!; [done|lia|lia|lia|nia| |done..]. cbn. by rewrite Z.mod_small by lia.
Qed.

Definition sample_ring : msgbuf_ring :=
  {| inited := true; idx := 5; rd := 9; wr := 2; max_items := 4; item_len := 8;
     base_addr := []; dma_buf := dma_buf_zero; seqnum := 0; start_addr := None; pend_items_count := 0 |}.

Lemma get_ring_space_bounds_witness :
  dhd_prot_get_ring_space sample_ring 2 0 false = (Some 16, 2, set_wr sample_ring 0) /\
  16 + 2 * 8 <= 4 * 8.
Proof.
  split; [reflexivity|].
  destruct (get_ring_space_bounds sample_ring 2 0 false (Some 16) 2 (set_wr sample_ring 0))
    as (_ & _ & _ & H & _); [cbn; lia..|reflexivity|exact H].
Defined.

(** Dhd_prot_get_read_addr bounds what it hands out by comparing the
    number of items, not the write index the dongle reports, against the ring
    size: with a write index beyond the ring but less than a ring's length
    ahead of the read index, it returns an area that ends past the ring. *)
Theorem get_read_addr_past_end {St} `{!RingIdxOps St} (s : St) (r : msgbuf_ring) (w a0 : Z) :
  ring_wf r -> get_peer s (idx r) (wr r) = Some w ->
  max_items r < w < 2 ^ 16 -> w - rd r < max_items r ->
  w * item_len r < 2 ^ 32 ->
  exists off len r', dhd_prot_get_read_addr s r a0 = Some (Some off, len, r') /\
    off = rd r * item_len r /\ max_items r * item_len r < off + len.
Proof.
  intros [Hm Hl Hr Hw] Hg Hw1 Hw2 Hw3. unfold dhd_prot_get_read_addr. rewrite Hg. cbn [mbind option_bind].
  cbn. unfold READ_AVAIL_SPACE. destruct (Z.leb_spec (rd r) w); [|lia].
  rewrite (wrapu_small 16) by zlia.
  destruct (Z.eqb_spec (w - rd r) 0); [lia|].
  destruct (Z.leb_spec (max_items r) (w - rd r)); [lia|].
  destruct (Z.leb_spec (max_items r) (rd r + (w - rd r))); [|lia].
  eexists _, _, _. split; [done|]. split; [done|]. cbn. rewrite wrapu_small by nia. nia.
Qed.

(** A one-cell store for the witnesses. *)
Definition cell_ops : RingIdxOps Z :=
  {| put_own := fun _ _ v => Some v; get_peer := fun s _ _ => Some s |}.

Lemma get_read_addr_past_end_witness :
  let r := set_wr (set_rd sample_ring 2) 2 in
  exists off len r', @dhd_prot_get_read_addr Z cell_ops 5 r 0 = Some (Some off, len, r') /\
    off = 16 /\ 32 < off + len.
Proof.
  apply (@get_read_addr_past_end Z cell_ops 5 (set_wr (set_rd sample_ring 2) 2) 5 0);
    [constructor; cbn; lia|reflexivity|cbn; lia..].
Defined.

(** While the dongle's write index stays within the ring, the area handed out
    lies inside the ring, is never empty, starts at the old read index, and
    the read index moves to its end, wrapping at the end of the ring. *)
Lemma get_read_addr_bounds {St} `{!RingIdxOps St} (s : St) (r : msgbuf_ring) (w a0 : Z) :
  ring_wf r -> get_peer s (idx r) (wr r) = Some w -> 0 <= w <= max_items r ->
  max_items r * item_len r < 2 ^ 32 ->
  exists p len r', dhd_prot_get_read_addr s r a0 = Some (p, len, r') /\ wr r' = w /\
    max_items r' = max_items r /\
    match p with
    | None => (w = rd r \/ (w = max_items r /\ rd r = 0)) /\ rd r' = rd r
    | Some off => exists items, off = rd r * item_len r /\ len = items * item_len r /\ 0 < items /\
        rd r + items <= max_items r /\ (rd r <= w -> rd r + items = w) /\ rd r' = (rd r + items) mod max_items r
    end.
Proof.
  intros [Hm Hl Hr Hw] Hg Hw1 Hw3. unfold dhd_prot_get_read_addr. rewrite Hg. cbn [mbind option_bind].
  cbn. unfold READ_AVAIL_SPACE.
  destruct (Z.leb_spec (rd r) w).
  - rewrite (wrapu_small 16) by zlia.
    destruct (Z.eqb_spec (w - rd r) 0); [eexists _, _, _; do 3 (split; [done|]); split; [left; lia|done]|].
    destruct (Z.leb_spec (max_items r) (w - rd r)); [eexists _, _, _; do 3 (split; [done|]); split; [right; lia|done]|].
    destruct (Z.leb_spec (max_items r) (rd r + (w - rd r))); eexists _, _, _; do 3 (split; [done|]);
      exists (w - rd r); cbn; rewrite wrapu_small by nia;
      (split_and!; [done|done|lia|lia|lia|]).
    + replace (rd r + (w - rd r)) with (max_items r) by lia. by rewrite Z_mod_same_full.
    + by rewrite Z.mod_small by lia.
  - rewrite (wrapu_small 16) by zlia.
    destruct (Z.eqb_spec (max_items r - rd r) 0); [lia|].
    destruct (Z.leb_spec (max_items r) (max_items r - rd r)); [lia|].
    destruct (Z.leb_spec (max_items r) (rd r + (max_items r - rd r))); [|lia].
    eexists _, _, _; do 3 (split; [done|]);
      exists (max_items r - rd r); cbn; rewrite wrapu_small by nia;
      (split_and!; [done|done|lia|lia|lia|]).
    replace (rd r + (max_items r - rd r)) with (max_items r) by lia. by rewrite Z_mod_same_full.
Qed.
