(* ===== verification/MsgFifo.v ===== *)
(** * A message ring is a FIFO between host and dongle

    The host runs the operations of [MsgRing] on its end of the ring; the
    dongle, which the driver only sees through the ring memory and the two
    shared indices, is the environment: it follows the ring protocol and may
    act between any two host operations, publishing its index whenever it
    likes.  Two step relations, one per direction; the theorems say that no
    item is lost, duplicated, reordered or overwritten before it was read.

    The ring memory is a list of slots of [item_len] bytes each; the offset a
    host operation returns divided by [item_len] is the slot. *)
From Stdlib Require Import ZArith Lia.
From stdpp Require Import base option numbers list.
From S2P Require Import Prelude Bytes Tcm RingIndex MsgRing.

(** ** What the shared store promises to a ring

    [ri_own] is the index the host last published for the ring, [ri_peer] the
    index the dongle last published; [dev_store] is the dongle's store. *)
Class RingIdx (St : Type) (O : RingIdxOps St) (ring : Z) := {
  ri_wf : St -> Prop;
  ri_own : St -> Z;
  ri_peer : St -> Z;
  dev_store : St -> Z -> option St;
  put_own_spec : forall s v, ri_wf s -> 0 <= v < 2 ^ 16 ->
    exists s', put_own s ring v = Some s' /\ ri_wf s' /\ ri_own s' = v /\ ri_peer s' = ri_peer s;
  get_peer_spec : forall s old, ri_wf s -> get_peer s ring old = Some (ri_peer s);
  dev_store_spec : forall s v, ri_wf s -> 0 <= v < 2 ^ 16 ->
    exists s', dev_store s v = Some s' /\ ri_wf s' /\ ri_own s' = ri_own s /\ ri_peer s' = v
}.

(** ** The driver's store keeps that promise, in both directions *)
Section instances.
Context (ri : ring_info) (ring : Z).

Definition cell_val (d : dhd_pub) (c : cell) : Z := default 0 (cell_get d c).
Definition dir_wf (dir : ring_dir) (d : dhd_pub) : Prop := index_wf ri d /\ valid_ring d dir ring.

Lemma valid_ring_arr d d' dir r :
  arr_len d' = arr_len d -> valid_ring d dir r -> valid_ring d' dir r.
Proof.
  intros E. pose proof (f_equal (fun f => f H2D) E) as E'. cbn in E'.
  destruct dir; cbn; [rewrite E'|]; done.
Qed.

Lemma cell_get_val d c :
  index_wf ri d -> valid_ring d (c_dir c) (c_ring c) -> cell_get d c = Some (cell_val d c).
Proof.
  intros W Hv. unfold cell_val. by destruct (cell_get_Some ri d c W Hv) as (v & -> & _).
Qed.

Lemma cell_put_val dir d wr v :
  dir_wf dir d -> 0 <= v < 2 ^ 16 ->
  exists d', cell_put d (Cell dir wr ring) v = Some d' /\ dir_wf dir d' /\
    cell_val d' (Cell dir wr ring) = v /\
    cell_val d' (Cell dir (negb wr) ring) = cell_val d (Cell dir (negb wr) ring).
Proof.
  intros [W Hv] Hr. destruct (cell_put_Some ri d (Cell dir wr ring) v W Hv Hr)
    as (d' & E & W' & _ & Ha & Hg).
  exists d'. split_and!; [done|split; [done|by eapply valid_ring_arr]| |]; unfold cell_val; rewrite Hg; try done.
  - by destruct (decide _).
  - destruct (decide _) as [[= E']|]; [|done]. by destruct wr.
Qed.

#[export] Instance h2d_ring_idx : RingIdx dhd_pub h2d_ops ring.
Proof.
  refine {| ri_wf := dir_wf H2D;
            ri_own := fun d => cell_val d (Cell H2D true ring);
            ri_peer := fun d => cell_val d (Cell H2D false ring);
            dev_store := fun d v => cell_put d (Cell H2D false ring) v |}.
  - intros d v Hw Hv. cbn. rewrite (h2d_put_wr_cell ri d) by (done || apply Hw).
    by apply (cell_put_val H2D d true).
  - intros d old [W Hv]. cbn. rewrite (h2d_get_rd_cell ri d) by done. by apply cell_get_val.
  - intros d v Hw Hv. destruct (cell_put_val H2D d false v Hw Hv) as (d' & ? & ? & ? & ?). eauto.
Defined.

#[export] Instance d2h_ring_idx : RingIdx dhd_pub d2h_ops ring.
Proof.
  refine {| ri_wf := dir_wf D2H;
            ri_own := fun d => cell_val d (Cell D2H false ring);
            ri_peer := fun d => cell_val d (Cell D2H true ring);
            dev_store := fun d v => cell_put d (Cell D2H true ring) v |}.
  - intros d v Hw Hv. cbn. rewrite (d2h_put_rd_cell ri d) by (done || apply Hw).
    by apply (cell_put_val D2H d false).
  - intros d old [W Hv]. cbn. rewrite (d2h_get_wr_cell ri d) by done. by apply cell_get_val.
  - intros d v Hw Hv. destruct (cell_put_val D2H d true v Hw Hv) as (d' & ? & ? & ? & ?). eauto.
Defined.
End instances.

(** ** Positions modulo the ring size *)
Definition nxt (m i : Z) : Z := if i + 1 =? m then 0 else i + 1.

Lemma nxt_mod m k : 0 < m -> nxt m (k mod m) = (k + 1) mod m.
Proof.
  intros Hm. unfold nxt. pose proof (Z.mod_pos_bound k m Hm).
  rewrite <- (Zplus_mod_idemp_l k). destruct (Z.eqb_spec (k mod m + 1) m) as [->|].
  - by rewrite Z_mod_same_full.
  - by rewrite (Z.mod_small (k mod m + 1)) by lia.
Qed.

Lemma mod_step m k n : 0 < m -> 0 <= n -> k mod m + n <= m ->
  (k + n) mod m = if k mod m + n =? m then 0 else k mod m + n.
Proof.
  intros Hm Hn Hle. pose proof (Z.mod_pos_bound k m Hm).
  rewrite <- (Zplus_mod_idemp_l k). destruct (Z.eqb_spec (k mod m + n) m) as [->|].
  - by rewrite Z_mod_same_full.
  - by rewrite (Z.mod_small (k mod m + n)) by lia.
Qed.

Lemma mod_eq_near m a b : 0 < m -> a <= b < a + m -> a mod m = b mod m -> a = b.
Proof.
  intros Hm Hab E.
  assert ((b - a) mod m = 0) as E0 by (by rewrite Zminus_mod, E, Z.sub_diag, Zmod_0_l).
  rewrite Z.mod_small in E0 by lia. lia.
Qed.

(** The number of items between two counters, from their slots. *)
Lemma used_mod m a b : 0 < m -> a <= b < a + m -> NTXPACTIVE (a mod m) (b mod m) m = b - a.
Proof.
  intros Hm Hab. unfold NTXPACTIVE. pose proof (Z.mod_pos_bound a m Hm).
  assert (b mod m = if a mod m + (b - a) <? m then a mod m + (b - a) else a mod m + (b - a) - m) as ->.
  { replace b with (a + (b - a)) at 1 by lia. rewrite <- Zplus_mod_idemp_l.
    destruct (Z.ltb_spec (a mod m + (b - a)) m); [by apply Z.mod_small; lia|].
    rewrite <- (Z_mod_plus_full _ (-1)), Z.mod_small; lia. }
  destruct (Z.ltb_spec (a mod m + (b - a)) m); zcmp; lia.
Qed.

Lemma read_avail_mod m a b : 0 < m -> a <= b < a + m ->
  READ_AVAIL_SPACE (b mod m) (a mod m) m = Z.min (b - a) (m - a mod m).
Proof.
  intros Hm Hab. unfold READ_AVAIL_SPACE. pose proof (used_mod m a b Hm Hab) as E. unfold NTXPACTIVE in E.
  pose proof (Z.mod_pos_bound a m Hm). pose proof (Z.mod_pos_bound b m Hm).
  destruct (Z.leb_spec (a mod m) (b mod m)); lia.
Qed.

(** ** Slots holding a window of a sequence *)
Section window.
Context {T : Type}.

(** [mem] holds items [lo .. hi-1] of [l] at their slots. *)
Definition window (m : Z) (mem l : list T) (lo hi : Z) : Prop :=
  Z.of_nat (length mem) = m /\
  forall k, lo <= k < hi -> aget mem (k mod m) = aget l k.

Lemma window_shrink m mem l lo lo' hi : window m mem l lo hi -> lo <= lo' -> window m mem l lo' hi.
Proof. intros [? H] ?. split; [done|]. intros k ?. apply H. lia. Qed.

(** Appending [xs] at consecutive slots that hold nothing in the window. *)
Lemma window_append m mem l lo hi xs :
  0 < m -> 0 <= lo <= hi -> hi = Z.of_nat (length l) -> hi mod m + Z.of_nat (length xs) <= m ->
  hi + Z.of_nat (length xs) <= lo + m -> window m mem l lo hi ->
  window m (splice mem (hi mod m) xs) (l ++ xs) lo (hi + Z.of_nat (length xs)).
Proof.
  intros Hm Hlo Hhi Hfit Hcap [Hlen Hw]. pose proof (Z.mod_pos_bound hi m Hm) as Hb.
  split; [by rewrite length_splice by lia|]. intros k Hk.
  rewrite aget_splice by lia.
  destruct (decide (k < hi)) as [Hlt|Hge].
  - replace (aget (l ++ xs) k) with (aget l k)
      by (unfold aget; destruct (0 <=? k); [rewrite lookup_app_l by lia|]; done).
    destruct (decide _) as [Hin|]; [|apply Hw; lia]. exfalso.
    assert (k = hi + (k mod m - hi mod m)); [|lia].
    apply (mod_eq_near m); [done|lia|]. rewrite <- (Zplus_mod_idemp_l hi).
    replace (hi mod m + (k mod m - hi mod m)) with (k mod m) by lia. by rewrite Zmod_mod.
  - assert (k mod m = hi mod m + (k - hi)) as E.
    { replace k with (hi + (k - hi)) at 1 by lia. rewrite mod_step by lia.
      destruct (Z.eqb_spec (hi mod m + (k - hi)) m); lia. }
    destruct (decide _); [|lia]. rewrite E. unfold aget.
    destruct (Z.leb_spec 0 (hi mod m + (k - hi) - hi mod m)), (Z.leb_spec 0 k); try lia.
    rewrite lookup_app_r by lia. f_equal. lia.
Qed.
End window.

(** * H2D: the host produces, the dongle consumes *)
Section h2d.
Context {St T : Type} (O : RingIdxOps St) (ring : Z) (I : RingIdx St O ring).

(** [h_drd] is the dongle's read index; [h_sent] and [h_got] record what the
    host has put on the ring and what the dongle has taken off it. *)
Record h2d_sys := {
  h_st : St;
  h_ring : msgbuf_ring;
  h_mem : list T;
  h_drd : Z;
  h_sent : list T;
  h_got : list T
}.

Inductive h2d_step : h2d_sys -> h2d_sys -> Prop :=
  (** allocate space and fill it with the messages [xs] *)
  | H2dPost y nitems exactly off a r xs :
      0 <= nitems < 2 ^ 16 ->
      dhd_prot_alloc_ring_space (h_st y) (h_ring y) nitems 0 exactly = Some (Some off, a, r) ->
      Z.of_nat (length xs) = a ->
      h2d_step y {| h_st := h_st y; h_ring := r;
                    h_mem := splice (h_mem y) (off / item_len r) xs;
                    h_drd := h_drd y; h_sent := h_sent y ++ xs; h_got := h_got y |}
  (** no space: the caller gives up, the ring keeps the refreshed read index *)
  | H2dFull y nitems exactly a r :
      0 <= nitems < 2 ^ 16 ->
      dhd_prot_alloc_ring_space (h_st y) (h_ring y) nitems 0 exactly = Some (None, a, r) ->
      h2d_step y {| h_st := h_st y; h_ring := r; h_mem := h_mem y; h_drd := h_drd y;
                    h_sent := h_sent y; h_got := h_got y |}
  | H2dComplete y s db :
      dhd_prot_ring_write_complete (h_st y) (h_ring y) = Some (s, db) ->
      h2d_step y {| h_st := s; h_ring := h_ring y; h_mem := h_mem y; h_drd := h_drd y;
                    h_sent := h_sent y; h_got := h_got y |}
  | H2dUpdate y dma r :
      dhd_prot_update_txflowring dma (h_st y) (h_ring y) = Some r ->
      h2d_step y {| h_st := h_st y; h_ring := r; h_mem := h_mem y; h_drd := h_drd y;
                    h_sent := h_sent y; h_got := h_got y |}
  (** the dongle takes one item below the write index the host published *)
  | H2dDevTake y x :
      h_drd y <> ri_own (h_st y) ->
      aget (h_mem y) (h_drd y) = Some x ->
      h2d_step y {| h_st := h_st y; h_ring := h_ring y; h_mem := h_mem y;
                    h_drd := nxt (max_items (h_ring y)) (h_drd y);
                    h_sent := h_sent y; h_got := h_got y ++ [x] |}
  | H2dDevPublish y s :
      dev_store (h_st y) (h_drd y) = Some s ->
      h2d_step y {| h_st := s; h_ring := h_ring y; h_mem := h_mem y; h_drd := h_drd y;
                    h_sent := h_sent y; h_got := h_got y |}.

Inductive h2d_reach (y0 : h2d_sys) : h2d_sys -> Prop :=
  | H2dRefl : h2d_reach y0 y0
  | H2dTrans y y' : h2d_reach y0 y -> h2d_step y y' -> h2d_reach y0 y'.

Definition h2d_init (y : h2d_sys) : Prop :=
  ri_wf (h_st y) /\ ring_wf (h_ring y) /\ idx (h_ring y) = ring /\
  Z.of_nat (length (h_mem y)) = max_items (h_ring y) /\
  rd (h_ring y) = 0 /\ wr (h_ring y) = 0 /\ h_drd y = 0 /\
  ri_own (h_st y) = 0 /\ ri_peer (h_st y) = 0 /\ h_sent y = [] /\ h_got y = [].

(** The invariant, on counters that never wrap: [C] what the host knows to be
    consumed, [R] what the dongle published, [G] what it has taken, [V] what
    the host published, [P] what it has written. *)
Definition h2d_counters (y : h2d_sys) (C R V : Z) : Prop :=
  let m := max_items (h_ring y) in
  let G := Z.of_nat (length (h_got y)) in
  let P := Z.of_nat (length (h_sent y)) in
  0 <= C <= R /\ R <= G <= V /\ V <= P <= C + m - 1 /\
  rd (h_ring y) = C mod m /\ ri_peer (h_st y) = R mod m /\ h_drd y = G mod m /\
  ri_own (h_st y) = V mod m /\ wr (h_ring y) = P mod m /\
  h_got y = take (length (h_got y)) (h_sent y) /\
  window m (h_mem y) (h_sent y) G P.

Definition h2d_inv (y : h2d_sys) : Prop :=
  ri_wf (h_st y) /\ ring_wf (h_ring y) /\ idx (h_ring y) = ring /\
  exists C R V, h2d_counters y C R V.

Lemma h2d_init_inv y : h2d_init y -> h2d_inv y.
Proof.
  intros (? & W & ? & Hl & Hr & Hw & Hd & Ho & Hp & Hs & Hg). split_and!; [done..|].
  exists 0, 0, 0. destruct W as [Hm _ _ _]. unfold h2d_counters. rewrite Hs, Hg. cbn.
  rewrite Zmod_0_l. split_and!; try done; try lia. split; [done|]. intros k ?. lia.
Qed.

Lemma ring_wf_set_rd r v : ring_wf r -> 0 <= v < max_items r -> ring_wf (set_rd r v).
Proof. intros []. by constructor. Qed.
Lemma ring_wf_set_wr r v : ring_wf r -> 0 <= v < max_items r -> ring_wf (set_wr r v).
Proof. intros []. by constructor. Qed.

(** Space allocation, on the counters: the cached read index may be refreshed
    from [C] to [R]; a granted area starts at slot [P mod m] and fits. *)
Lemma alloc_counters s r C R P n ex :
  ri_wf s -> ring_wf r -> idx r = ring -> 0 <= n < 2 ^ 16 ->
  ri_peer s = R mod max_items r -> rd r = C mod max_items r -> wr r = P mod max_items r ->
  C <= R <= P -> P <= C + max_items r - 1 ->
  exists p a r' C', dhd_prot_alloc_ring_space s r n 0 ex = Some (p, a, r') /\
    ring_wf r' /\ idx r' = ring /\ max_items r' = max_items r /\ item_len r' = item_len r /\
    C <= C' <= R /\ rd r' = C' mod max_items r /\
    match p with
    | None => wr r' = wr r /\ C' = R /\
        (P = R -> n = 0 \/ max_items r - 1 < n)
    | Some off => off = P mod max_items r * item_len r /\ (0 <= a <= n /\ (0 < n -> 0 < a)) /\
        P mod max_items r + a <= max_items r /\ P + a <= C' + max_items r - 1 /\
        wr r' = (P + a) mod max_items r
    end.
Proof.
  intros Ws Wr Hi Hn Hp Hr Hw HC HP. pose proof (rw_max _ Wr) as Hm. pose proof (rw_len _ Wr) as Hlen.
  assert (forall Cc r0, ring_wf r0 -> rd r0 = Cc mod max_items r -> wr r0 = P mod max_items r ->
      idx r0 = ring -> max_items r0 = max_items r -> item_len r0 = item_len r -> C <= Cc <= R ->
      exists p a r', dhd_prot_get_ring_space r0 n 0 ex = (p, a, r') /\
        ring_wf r' /\ idx r' = ring /\ max_items r' = max_items r /\ item_len r' = item_len r /\
        rd r' = Cc mod max_items r /\
        match p with
        | None => a = 0 /\ r' = r0 /\ (P = Cc -> n = 0 \/ max_items r - 1 < n)
        | Some off => off = P mod max_items r * item_len r /\ (0 <= a <= n /\ (0 < n -> 0 < a)) /\
            P mod max_items r + a <= max_items r /\ P + a <= Cc + max_items r - 1 /\
            wr r' = (P + a) mod max_items r
        end) as Hget.
  { intros Cc r0 W0 Hr0 Hw0 Hi0 Hm0 Hl0 HCc.
    destruct (get_ring_space_spec r0 n 0 ex W0 Hn) as (-> & A1 & A2 & A3).
    unfold ring_used in A3. rewrite Hr0, Hw0, Hm0 in *. rewrite used_mod in A3 by lia.
    set (av := CHECK_WRITE_SPACE _ _ _) in *.
    destruct (_ || _) eqn:E.
    - exists None, 0, r0. split_and!; try done. intros HPC. subst Cc.
      apply orb_true_iff in E as [E|E].
      + exfalso. apply Z.eqb_eq in E.
        unfold av, CHECK_WRITE_SPACE, WRITE_SPACE_AVAIL, WRITE_SPACE_AVAIL_CONTINUOUS, NTXPACTIVE in E.
        rewrite Z.leb_refl in E. pose proof (Z.mod_pos_bound P (max_items r)). lia.
      + apply andb_true_iff in E as [E1 E2%Z.leb_le]. apply andb_true_iff in E1 as [_ E1%Z.ltb_lt].
        unfold av, CHECK_WRITE_SPACE, WRITE_SPACE_AVAIL, WRITE_SPACE_AVAIL_CONTINUOUS, NTXPACTIVE in E1.
        rewrite Z.leb_refl in E1. pose proof (Z.mod_pos_bound P (max_items r)). lia.
    - pose proof (Z.mod_pos_bound P (max_items r)).
      assert ((P + Z.min n av) mod max_items r = if P mod max_items r + Z.min n av =? max_items r
        then 0 else P mod max_items r + Z.min n av) as Em by (apply mod_step; lia).
      apply orb_false_iff in E as [E%Z.eqb_neq _].
      eexists _, _, _. split; [done|]. split_and!; cbn; try done; try lia.
      + apply ring_wf_set_wr; [done|]. rewrite Hm0, <- Em. apply Z.mod_pos_bound. lia. }
  unfold dhd_prot_alloc_ring_space.
  destruct (Hget C r Wr Hr Hw Hi eq_refl eq_refl ltac:(lia)) as (p & a & r1 & -> & W1 & I1 & M1 & L1 & R1 & Hp1).
  destruct p as [off|].
  - exists (Some off), a, r1, C. split_and!; try done; lia.
  - destruct Hp1 as (-> & -> & _). rewrite Hi, (get_peer_spec _ _ Ws). cbn [mbind option_bind].
    destruct (Hget R (set_rd r (ri_peer s))) as (p & a & r2 & -> & W2 & I2 & M2 & L2 & R2 & Hp2);
      try done; try lia.
    { apply ring_wf_set_rd; [done|]. rewrite Hp. apply Z.mod_pos_bound. lia. }
    destruct p as [off|].
    + exists (Some off), a, r2, R. split_and!; try done; lia.
    + destruct Hp2 as (-> & -> & Hz). exists None, 0, (set_rd r (ri_peer s)), R. split_and!; try done; lia.
Qed.

Lemma take_snoc (l : list T) (g : list T) x :
  g = take (length g) l -> aget l (Z.of_nat (length g)) = Some x ->
  g ++ [x] = take (length (g ++ [x])) l.
Proof.
  intros Hg Hx. unfold aget in Hx. destruct (Z.leb_spec 0 (Z.of_nat (length g))); [|lia].
  rewrite Nat2Z.id in Hx. rewrite length_app, Nat.add_comm. cbn.
  rewrite (take_S_r _ _ x) by done. by rewrite <- Hg.
Qed.

Lemma take_app_keep (l xs g : list T) :
  (length g <= length l)%nat -> g = take (length g) l -> g = take (length g) (l ++ xs).
Proof. intros. by rewrite take_app_le. Qed.

(** The host wrote the items [xs] at the slots after the write index, and
    nothing in the slots that hold unread items. *)
Lemma counters_post y C R V C' r' mem' xs (m := max_items (h_ring y))
    (G := Z.of_nat (length (h_got y))) (P := Z.of_nat (length (h_sent y))) :
  0 < m -> h2d_counters y C R V -> C <= C' <= R -> max_items r' = m -> rd r' = C' mod m ->
  wr r' = (P + Z.of_nat (length xs)) mod m -> P + Z.of_nat (length xs) <= C' + m - 1 ->
  length mem' = length (h_mem y) ->
  (forall k, G <= k < P -> aget mem' (k mod m) = aget (h_mem y) (k mod m)) ->
  (forall i, 0 <= i < Z.of_nat (length xs) -> aget mem' ((P + i) mod m) = aget xs i) ->
  h2d_counters {| h_st := h_st y; h_ring := r'; h_mem := mem'; h_drd := h_drd y;
                  h_sent := h_sent y ++ xs; h_got := h_got y |} C' R V.
Proof.
  intros Hm (HC & HR & HV & Hrd & Hp & Hd & Ho & Hw & Hg & Hl & Hmem) HC' Em Er Ew Hcap Hlen Hold Hnew.
  subst m G P. unfold h2d_counters. cbn [h_st h_ring h_mem h_drd h_sent h_got].
  rewrite Em, length_app, Nat2Z.inj_add. split_and!; try done; try lia.
  - apply take_app_keep; [lia|done].
  - split; [lia|]. intros k Hk. destruct (decide (k < Z.of_nat (length (h_sent y)))) as [Hlt|Hge].
    + rewrite Hold, Hmem by lia. unfold aget. destruct (0 <=? k); [|done]. by rewrite lookup_app_l by lia.
    + replace k with (Z.of_nat (length (h_sent y)) + (k - Z.of_nat (length (h_sent y)))) at 1 by lia.
      rewrite Hnew by lia. unfold aget.
      destruct (Z.leb_spec 0 (k - Z.of_nat (length (h_sent y)))), (Z.leb_spec 0 k); try lia.
      rewrite lookup_app_r by lia. f_equal. lia.
Qed.

(** The store changed elsewhere. *)
Lemma counters_frame y C R V s :
  h2d_counters y C R V -> ri_own s = ri_own (h_st y) -> ri_peer s = ri_peer (h_st y) ->
  h2d_counters {| h_st := s; h_ring := h_ring y; h_mem := h_mem y; h_drd := h_drd y;
                  h_sent := h_sent y; h_got := h_got y |} C R V.
Proof. unfold h2d_counters. cbn [h_st h_ring h_mem h_drd h_sent h_got]. intros H -> ->. exact H. Qed.

(** The host published its index. *)
Lemma counters_complete y C R V :
  0 < max_items (h_ring y) < 2 ^ 16 -> ri_wf (h_st y) -> idx (h_ring y) = ring -> h2d_counters y C R V ->
  exists s, dhd_prot_ring_write_complete (h_st y) (h_ring y) = Some (s, wr (h_ring y)) /\
    put_own (h_st y) ring (wr (h_ring y)) = Some s /\ ri_wf s /\
    h2d_counters {| h_st := s; h_ring := h_ring y; h_mem := h_mem y; h_drd := h_drd y;
                    h_sent := h_sent y; h_got := h_got y |} C R (Z.of_nat (length (h_sent y))).
Proof.
  intros Hm Ws Hi (HC & HR & HV & Hrd & Hp & Hd & Ho & Hw & Hg & Hmem).
  destruct (put_own_spec (h_st y) (wr (h_ring y)) Ws) as (s & E & W' & O' & P').
  { rewrite Hw. pose proof (Z.mod_pos_bound (Z.of_nat (length (h_sent y))) (max_items (h_ring y))). lia. }
  unfold dhd_prot_ring_write_complete. rewrite Hi, E. cbn [mbind option_bind].
  exists s. split_and!; try done. unfold h2d_counters. cbn [h_st h_ring h_mem h_drd h_sent h_got].
  rewrite O', P'. split_and!; try done; lia.
Qed.

(** The dongle takes an item. *)
Lemma counters_take y C R V :
  0 < max_items (h_ring y) -> h2d_counters y C R V -> h_drd y <> ri_own (h_st y) ->
  exists x, aget (h_mem y) (h_drd y) = Some x /\
    aget (h_sent y) (Z.of_nat (length (h_got y))) = Some x /\
    Z.of_nat (length (h_got y)) < V /\
    h2d_counters {| h_st := h_st y; h_ring := h_ring y; h_mem := h_mem y;
                    h_drd := nxt (max_items (h_ring y)) (h_drd y);
                    h_sent := h_sent y; h_got := h_got y ++ [x] |} C R V.
Proof.
  intros Hm (HC & HR & HV & Hrd & Hp & Hd & Ho & Hw & Hg & Hmem) Hne.
  assert (Z.of_nat (length (h_got y)) < V) as Hlt.
  { destruct (decide (Z.of_nat (length (h_got y)) = V)) as [E|]; [|lia]. congruence. }
  pose proof (Z.mod_pos_bound (Z.of_nat (length (h_got y))) (max_items (h_ring y)) Hm).
  destruct (aget_is_Some (h_mem y) (h_drd y)) as [x Hx]; [destruct Hmem as [-> _]; lia|].
  assert (aget (h_sent y) (Z.of_nat (length (h_got y))) = Some x) as Hx'.
  { destruct Hmem as [_ Hmem]. rewrite <- Hmem by lia. by rewrite <- Hd. }
  exists x. split_and!; try done. unfold h2d_counters. cbn [h_st h_ring h_mem h_drd h_sent h_got].
  pose proof (take_snoc _ _ x Hg Hx') as E. rewrite length_app in *. cbn [length] in *.
  replace (Z.of_nat (length (h_got y) + 1)) with (Z.of_nat (length (h_got y)) + 1) by lia.
  split_and!; try done; try lia.
  - rewrite Hd. by apply nxt_mod.
  - eapply window_shrink; [exact Hmem|lia].
Qed.

(** The dongle publishes its index. *)
Lemma counters_publish y C R V s :
  0 < max_items (h_ring y) < 2 ^ 16 -> ri_wf (h_st y) -> h2d_counters y C R V ->
  dev_store (h_st y) (h_drd y) = Some s ->
  ri_wf s /\ h2d_counters {| h_st := s; h_ring := h_ring y; h_mem := h_mem y; h_drd := h_drd y;
                             h_sent := h_sent y; h_got := h_got y |} C (Z.of_nat (length (h_got y))) V.
Proof.
  intros Hm Ws (HC & HR & HV & Hrd & Hp & Hd & Ho & Hw & Hg & Hmem) Hs.
  destruct (dev_store_spec (h_st y) (h_drd y) Ws) as (s' & E & W' & O' & P').
  { rewrite Hd. pose proof (Z.mod_pos_bound (Z.of_nat (length (h_got y))) (max_items (h_ring y))). lia. }
  rewrite E in Hs. injection Hs as <-. split; [done|].
  unfold h2d_counters. cbn [h_st h_ring h_mem h_drd h_sent h_got]. rewrite O', P'. split_and!; try done; lia.
Qed.

Lemma h2d_step_inv y y' : h2d_inv y -> h2d_step y y' -> h2d_inv y'.
Proof.
  intros (Ws & Wr & Hi & C & R & V & Hc) Hs. pose proof Hc as (HC & HR & HV & Hrd & Hp & Hd & Ho & Hw & Hg & Hmem).
  pose proof (rw_max _ Wr) as Hm.
  inversion Hs as [? n ex off a r xs Hn Ha Hx | ? n ex a r Hn Ha | ? s db Hwc | ? dma r Hu
                  | ? x Hne Hx | ? s Hds]; subst; unfold h2d_inv; cbn [h_st h_ring].
  - destruct (alloc_counters (h_st y) (h_ring y) C R _ n ex Ws Wr Hi Hn Hp Hrd Hw)
      as (p' & a' & r' & C' & E & W' & I' & M' & L' & HC' & Hr' & Hpost); [lia|lia|].
    rewrite E in Ha. injection Ha as -> -> ->. destruct Hpost as (Ho' & Ha' & Hfit & Hcap & Hw').
    split_and!; [done..|]. exists C', R, V. pose proof (rw_len _ Wr). rewrite L', Ho', Z.div_mul by lia.
    destruct Hmem as [Hlm Hmem].
    pose proof (Z.mod_pos_bound (Z.of_nat (length (h_sent y))) (max_items (h_ring y)) ltac:(lia)).
    destruct (window_append (max_items (h_ring y)) (h_mem y) (h_sent y) (Z.of_nat (length (h_got y)))
      (Z.of_nat (length (h_sent y))) xs) as [Hl2 Hw2]; [lia|lia|done|lia|lia|done|].
    apply counters_post with (C := C); try done; try lia.
    + intros k Hk. rewrite Hw2, Hmem by lia. unfold aget. destruct (0 <=? k); [|done].
      by rewrite lookup_app_l by lia.
    + intros i Hi'. rewrite Hw2 by lia. unfold aget.
      destruct (Z.leb_spec 0 (Z.of_nat (length (h_sent y)) + i)), (Z.leb_spec 0 i); try lia.
      rewrite lookup_app_r by lia. f_equal. lia.
  - destruct (alloc_counters (h_st y) (h_ring y) C R _ n ex Ws Wr Hi Hn Hp Hrd Hw)
      as (p' & a' & r' & C' & E & W' & I' & M' & L' & HC' & Hr' & Hpost); [lia|lia|].
    rewrite E in Ha. injection Ha as -> -> ->. destruct Hpost as (Hw' & -> & _).
    split_and!; [done..|]. exists R, R, V. unfold h2d_counters. cbn [h_st h_ring h_mem h_drd h_sent h_got].
    rewrite M', Hw'. split_and!; try done; lia.
  - destruct (counters_complete y C R V) as (s' & E & _ & W' & Hc'); [lia|done..|].
    rewrite E in Hwc. injection Hwc as <- <-. split_and!; [done..|]. by eexists _, _, _.
  - unfold dhd_prot_update_txflowring in Hu. destruct dma.
    + rewrite Hi, (get_peer_spec _ _ Ws) in Hu. injection Hu as <-.
      split_and!; [done| |done|].
      { apply ring_wf_set_rd; [done|]. rewrite Hp. apply Z.mod_pos_bound. lia. }
      exists R, R, V. unfold h2d_counters. cbn. split_and!; try done; lia.
    + injection Hu as <-. split_and!; [done..|]. by exists C, R, V.
  - destruct (counters_take y C R V) as (x' & Hx' & _ & _ & Hc'); [lia|done..|].
    rewrite Hx' in Hx. injection Hx as <-. split_and!; [done..|]. by eexists _, _, _.
  - destruct (counters_publish y C R V s) as (W' & Hc'); [lia|done..|].
    split_and!; [done..|]. by eexists _, _, _.
Qed.

Lemma h2d_reach_inv y0 y : h2d_init y0 -> h2d_reach y0 y -> h2d_inv y.
Proof. intros H0. induction 1; [by apply h2d_init_inv|eauto using h2d_step_inv]. Qed.

(** What the invariant says of a reachable state. *)
Lemma h2d_inv_fifo y : h2d_inv y ->
  h_got y `prefix_of` h_sent y /\
  Z.of_nat (length (h_sent y)) - Z.of_nat (length (h_got y)) <= max_items (h_ring y) - 1 /\
  (ri_own (h_st y) = wr (h_ring y) -> h_drd y = ri_own (h_st y) -> h_got y = h_sent y) /\
  (h_drd y <> ri_own (h_st y) -> exists y', h2d_step y y' /\ length (h_got y') = S (length (h_got y))).
Proof.
  intros (Ws & Wr & Hi & C & R & V & HC & HR & HV & Hrd & Hp & Hd & Ho & Hw & Hg & Hmem).
  pose proof (rw_max _ Wr) as Hm. split_and!.
  - rewrite Hg. eexists. symmetry. apply take_drop.
  - lia.
  - intros E1 E2. rewrite Hd, E1, Hw in E2. apply mod_eq_near in E2; [|lia..].
    rewrite Hg. apply take_ge. lia.
  - intros Hne. destruct (aget_is_Some (h_mem y) (h_drd y)) as [x Hx].
    { destruct Hmem as [-> _]. rewrite Hd. apply Z.mod_pos_bound. lia. }
    eexists. split; [by apply (H2dDevTake y x)|]. cbn. rewrite length_app. cbn. lia.
Qed.

(** Once the dongle has published that it consumed everything, a request that
    fits the ring is granted. *)
Lemma h2d_inv_alloc y n ex : h2d_inv y -> 1 <= n <= max_items (h_ring y) - 1 ->
  ri_peer (h_st y) = wr (h_ring y) ->
  exists off a r, dhd_prot_alloc_ring_space (h_st y) (h_ring y) n 0 ex = Some (Some off, a, r).
Proof.
  intros (Ws & Wr & Hi & C & R & V & HC & HR & HV & Hrd & Hp & Hd & Ho & Hw & Hg & Hmem) Hn E.
  pose proof (rw_max _ Wr) as Hm.
  destruct (alloc_counters (h_st y) (h_ring y) C R _ n ex Ws Wr Hi ltac:(lia) Hp Hrd Hw)
    as (p' & a' & r' & C' & E' & _ & _ & _ & _ & _ & _ & Hpost); [lia|lia|].
  destruct p' as [off|]; [eauto|]. destruct Hpost as (_ & _ & Hz).
  rewrite Hp, Hw in E. apply mod_eq_near in E; [|lia..]. lia.
Qed.
End h2d.

(** * D2H: the dongle produces, the host consumes *)
Section d2h.
Context {St T : Type} (O : RingIdxOps St) (ring : Z) (I : RingIdx St O ring).

(** [d_dwr] is the dongle's write index; [d_pend] is the batch the host has
    fetched and not processed yet: its first slot and its number of items. *)
Record d2h_sys := {
  d_st : St;
  d_ring : msgbuf_ring;
  d_mem : list T;
  d_dwr : Z;
  d_pend : option (Z * Z);
  d_sent : list T;
  d_got : list T
}.

Inductive d2h_step : d2h_sys -> d2h_sys -> Prop :=
  (** the dongle writes an item, unless the ring is full by the host's index *)
  | D2hDevPut y x :
      nxt (max_items (d_ring y)) (d_dwr y) <> ri_own (d_st y) ->
      d2h_step y {| d_st := d_st y; d_ring := d_ring y;
                    d_mem := splice (d_mem y) (d_dwr y) [x];
                    d_dwr := nxt (max_items (d_ring y)) (d_dwr y); d_pend := d_pend y;
                    d_sent := d_sent y ++ [x]; d_got := d_got y |}
  | D2hDevPublish y s :
      dev_store (d_st y) (d_dwr y) = Some s ->
      d2h_step y {| d_st := s; d_ring := d_ring y; d_mem := d_mem y; d_dwr := d_dwr y;
                    d_pend := d_pend y; d_sent := d_sent y; d_got := d_got y |}
  (** the loops of dhd_prot_process_msgbuf_rxcpl, _txcpl and
      dhd_prot_process_ctrlbuf: fetch a batch, process it, publish *)
  | D2hFetch y off len r :
      d_pend y = None ->
      dhd_prot_get_read_addr (d_st y) (d_ring y) 0 = Some (Some off, len, r) ->
      d2h_step y {| d_st := d_st y; d_ring := r; d_mem := d_mem y; d_dwr := d_dwr y;
                    d_pend := Some (off / item_len r, len / item_len r);
                    d_sent := d_sent y; d_got := d_got y |}
  | D2hEmpty y len r :
      d_pend y = None ->
      dhd_prot_get_read_addr (d_st y) (d_ring y) 0 = Some (None, len, r) ->
      d2h_step y {| d_st := d_st y; d_ring := r; d_mem := d_mem y; d_dwr := d_dwr y;
                    d_pend := None; d_sent := d_sent y; d_got := d_got y |}
  | D2hProcess y q n :
      d_pend y = Some (q, n) ->
      d2h_step y {| d_st := d_st y; d_ring := d_ring y; d_mem := d_mem y; d_dwr := d_dwr y;
                    d_pend := None; d_sent := d_sent y;
                    d_got := d_got y ++ take (Z.to_nat n) (drop (Z.to_nat q) (d_mem y)) |}
  | D2hUpdate y s :
      d_pend y = None ->
      dhd_prot_upd_read_idx (d_st y) (d_ring y) = Some s ->
      d2h_step y {| d_st := s; d_ring := d_ring y; d_mem := d_mem y; d_dwr := d_dwr y;
                    d_pend := d_pend y; d_sent := d_sent y; d_got := d_got y |}.

Inductive d2h_reach (y0 : d2h_sys) : d2h_sys -> Prop :=
  | D2hRefl : d2h_reach y0 y0
  | D2hTrans y y' : d2h_reach y0 y -> d2h_step y y' -> d2h_reach y0 y'.

Definition d2h_init (y : d2h_sys) : Prop :=
  ri_wf (d_st y) /\ ring_wf (d_ring y) /\ idx (d_ring y) = ring /\
  max_items (d_ring y) * item_len (d_ring y) < 2 ^ 32 /\
  Z.of_nat (length (d_mem y)) = max_items (d_ring y) /\
  rd (d_ring y) = 0 /\ wr (d_ring y) = 0 /\ d_dwr y = 0 /\ d_pend y = None /\
  ri_own (d_st y) = 0 /\ ri_peer (d_st y) = 0 /\ d_sent y = [] /\ d_got y = [].

(** [R] the host published, [G] it processed, [H] it fetched, [V] the dongle
    published, [D] it wrote. *)
Definition d2h_counters (y : d2h_sys) (R H V : Z) : Prop :=
  let m := max_items (d_ring y) in
  let G := Z.of_nat (length (d_got y)) in
  let D := Z.of_nat (length (d_sent y)) in
  0 <= R <= G /\ G <= H <= V /\ V <= D <= R + m - 1 /\
  rd (d_ring y) = H mod m /\ ri_own (d_st y) = R mod m /\ ri_peer (d_st y) = V mod m /\
  d_dwr y = D mod m /\
  match d_pend y with None => H = G | Some (q, n) => q = G mod m /\ n = H - G /\ q + n <= m end /\
  d_got y = take (length (d_got y)) (d_sent y) /\
  window m (d_mem y) (d_sent y) R D.

Definition d2h_inv (y : d2h_sys) : Prop :=
  ri_wf (d_st y) /\ ring_wf (d_ring y) /\ idx (d_ring y) = ring /\
  max_items (d_ring y) * item_len (d_ring y) < 2 ^ 32 /\
  exists R H V, d2h_counters y R H V.

Lemma d2h_init_inv y : d2h_init y -> d2h_inv y.
Proof.
  intros (? & W & ? & ? & Hl & Hr & Hw & Hd & Hp & Ho & Hpe & Hs & Hg). split_and!; [done..|].
  exists 0, 0, 0. destruct W as [Hm _ _ _]. unfold d2h_counters. rewrite Hs, Hg, Hp. cbn.
  rewrite Zmod_0_l. split_and!; try done; try lia. split; [done|]. intros k ?. lia.
Qed.

(** The consumer's access, on the counters. *)
Lemma read_counters s r H V :
  ri_wf s -> ring_wf r -> idx r = ring -> max_items r * item_len r < 2 ^ 32 ->
  ri_peer s = V mod max_items r -> rd r = H mod max_items r -> H <= V < H + max_items r ->
  exists p len r', dhd_prot_get_read_addr s r 0 = Some (p, len, r') /\
    ring_wf r' /\ idx r' = ring /\ max_items r' = max_items r /\ item_len r' = item_len r /\
    match p with
    | None => V = H /\ rd r' = H mod max_items r
    | Some off => exists n, off / item_len r = H mod max_items r /\ len / item_len r = n /\
        0 < n <= V - H /\ H mod max_items r + n <= max_items r /\ rd r' = (H + n) mod max_items r
    end.
Proof.
  intros Ws Wr Hi Hlen Hp Hr HV. pose proof (rw_max _ Wr) as Hm. pose proof (rw_len _ Wr) as Hl.
  unfold dhd_prot_get_read_addr. rewrite Hi, (get_peer_spec _ _ Ws). cbn [mbind option_bind].
  cbn. rewrite Hp, Hr, read_avail_mod by lia.
  pose proof (Z.mod_pos_bound H (max_items r)) as Hb. pose proof (Z.mod_pos_bound V (max_items r)) as Hb'.
  rewrite (wrapu_small 16) by zlia.
  assert (ring_wf (set_wr r (V mod max_items r))) as W1 by (apply ring_wf_set_wr; [done|lia]).
  destruct (Z.eqb_spec (Z.min (V - H) (max_items r - H mod max_items r)) 0) as [|Hnz].
  { exists None, 0, (set_wr r (V mod max_items r)). split_and!; try done. lia. }
  destruct (Z.leb_spec (max_items r) (Z.min (V - H) (max_items r - H mod max_items r))); [lia|].
  set (n := Z.min (V - H) (max_items r - H mod max_items r)) in *.
  assert ((H + n) mod max_items r = if H mod max_items r + n =? max_items r then 0 else H mod max_items r + n)
    as Em by (apply mod_step; lia).
  destruct (Z.leb_spec (max_items r) (H mod max_items r + n)) as [Hge|Hlt];
    eexists _, _, _; (split; [done|]); cbn; (split; [apply ring_wf_set_rd; [done|]; cbn; lia|]);
    do 3 (split; [done|]); exists n; rewrite Z.div_mul by lia; rewrite wrapu_small by nia;
    rewrite Z.div_mul by lia; (split_and!; [done|done|lia|lia|lia|]); rewrite Em;
    (destruct (Z.eqb_spec (H mod max_items r + n) (max_items r)); lia).
Qed.

(** The items of a batch, read from the slots, are the next ones of the sequence. *)
Lemma window_read m (mem l : list T) lo hi g n :
  0 < m -> window m mem l lo hi -> 0 <= lo <= g -> 0 <= n -> g + n <= hi ->
  hi = Z.of_nat (length l) -> g mod m + n <= m ->
  take (Z.to_nat n) (drop (Z.to_nat (g mod m)) mem) = take (Z.to_nat n) (drop (Z.to_nat g) l).
Proof.
  intros Hm [Hlen Hw] Hlo Hn Hhi Hl Hfit. pose proof (Z.mod_pos_bound g m Hm) as Hb.
  apply list_eq. intros i. destruct (decide (i < Z.to_nat n)%nat) as [Hi|Hi].
  - rewrite !lookup_take_lt, !lookup_drop by lia.
    pose proof (Hw (g + Z.of_nat i) ltac:(lia)) as E.
    assert ((g + Z.of_nat i) mod m = g mod m + Z.of_nat i) as Em.
    { rewrite mod_step by lia. destruct (Z.eqb_spec (g mod m + Z.of_nat i) m); lia. }
    rewrite Em in E. unfold aget in E.
    destruct (Z.leb_spec 0 (g mod m + Z.of_nat i)), (Z.leb_spec 0 (g + Z.of_nat i)); try lia.
    replace (Z.to_nat (g mod m) + i)%nat with (Z.to_nat (g mod m + Z.of_nat i)) by lia.
    replace (Z.to_nat g + i)%nat with (Z.to_nat (g + Z.of_nat i)) by lia. exact E.
  - rewrite !lookup_take_ge by lia. done.
Qed.

Lemma d2h_step_inv y y' : d2h_inv y -> d2h_step y y' -> d2h_inv y'.
Proof.
  intros (Ws & Wr & Hi & Hlen & R & H & V & HR & HG & HV & Hrd & Ho & Hp & Hd & Hpe & Hg & Hmem) Hs.
  pose proof (rw_max _ Wr) as Hm.
  inversion Hs as [? x Hne | ? s Hds | ? off len r Hpn Hf | ? len r Hpn Hf | ? q n Hpn | ? s Hpn Hu];
    subst; unfold d2h_inv, d2h_counters; cbn.
  - rewrite Hd, nxt_mod, Ho in Hne by lia.
    assert (Z.of_nat (length (d_sent y)) + 1 < R + max_items (d_ring y)) as Hcap.
    { destruct (decide (Z.of_nat (length (d_sent y)) + 1 = R + max_items (d_ring y))) as [E|]; [|lia].
      rewrite E, <- Z.add_mod_idemp_r, Z_mod_same_full, Z.add_0_r in Hne by lia. done. }
    split_and!; [done..|]. exists R, H, V. rewrite length_app. cbn.
    replace (Z.of_nat (length (d_sent y) + 1)) with (Z.of_nat (length (d_sent y)) + 1) by lia.
    split_and!; try done; try lia.
    + rewrite Hd. apply nxt_mod. lia.
    + rewrite Hg at 1. by rewrite take_app_le by lia.
    + rewrite Hd. pose proof (Z.mod_pos_bound (Z.of_nat (length (d_sent y))) (max_items (d_ring y))).
      apply (window_append _ _ _ R _ [x]); try done; cbn; lia.
  - destruct (dev_store_spec (d_st y) (d_dwr y) Ws) as (s' & E & W' & O' & P').
    { rewrite Hd. pose proof (Z.mod_pos_bound (Z.of_nat (length (d_sent y))) (max_items (d_ring y))). lia. }
    rewrite E in Hds. injection Hds as <-. split_and!; [done..|].
    exists R, H, (Z.of_nat (length (d_sent y))). rewrite O', P'. split_and!; try done; lia.
  - rewrite Hpn in Hpe. destruct (read_counters (d_st y) (d_ring y) H V Ws Wr Hi Hlen Hp Hrd)
      as (p & len' & r' & E & W' & I' & M' & L' & Hpost); [lia|].
    rewrite E in Hf. injection Hf as -> -> ->.
    destruct Hpost as (n & Eo & El & Hn & Hfit & Hr').
    rewrite L', M'. split_and!; [done..|]. exists R, (H + n), V. rewrite Eo, El, Hpe in *.
    split_and!; try done; lia.
  - rewrite Hpn in Hpe. destruct (read_counters (d_st y) (d_ring y) H V Ws Wr Hi Hlen Hp Hrd)
      as (p & len' & r' & E & W' & I' & M' & L' & Hpost); [lia|].
    rewrite E in Hf. injection Hf as -> -> ->. destruct Hpost as (_ & Hr').
    rewrite L', M'. split_and!; [done..|]. exists R, H, V. split_and!; try done; lia.
  - rewrite Hpn in Hpe. destruct Hpe as (Eq & En & Hfit). subst q n.
    split_and!; [done..|]. exists R, H, V.
    rewrite (window_read (max_items (d_ring y)) (d_mem y) (d_sent y) R _ (Z.of_nat (length (d_got y)))
      (H - Z.of_nat (length (d_got y)))) by (done || lia).
    set (xs := take _ (drop _ (d_sent y))).
    assert (Z.of_nat (length xs) = H - Z.of_nat (length (d_got y))) as Hx.
    { unfold xs. rewrite length_take, length_drop. lia. }
    assert (d_got y ++ xs = take (Z.to_nat H) (d_sent y)) as Eg.
    { rewrite Hg at 1. unfold xs. rewrite Nat2Z.id.
      replace (Z.to_nat H) with (length (d_got y) + Z.to_nat (H - Z.of_nat (length (d_got y))))%nat by lia.
      apply take_take_drop. }
    rewrite length_app. split_and!; try done; try lia.
    rewrite Eg at 1. f_equal. lia.
  - unfold dhd_prot_upd_read_idx in Hu. rewrite Hi in Hu. rewrite Hpn in Hpe.
    destruct (put_own_spec (d_st y) (rd (d_ring y)) Ws) as (s' & E & W' & O' & P').
    { destruct Wr. lia. }
    rewrite E in Hu. injection Hu as <-. split_and!; [done..|].
    exists H, H, V. rewrite Hpn, O', P'. split_and!; try done; try lia.
    eapply window_shrink; [exact Hmem|lia].
Qed.

Lemma d2h_reach_inv y0 y : d2h_init y0 -> d2h_reach y0 y -> d2h_inv y.
Proof. intros H0. induction 1; [by apply d2h_init_inv|eauto using d2h_step_inv]. Qed.

Lemma d2h_inv_fifo y : d2h_inv y ->
  d_got y `prefix_of` d_sent y /\
  Z.of_nat (length (d_sent y)) - Z.of_nat (length (d_got y)) <= max_items (d_ring y) - 1 /\
  (d_pend y = None -> ri_peer (d_st y) = d_dwr y ->
     exists p len r, dhd_prot_get_read_addr (d_st y) (d_ring y) 0 = Some (p, len, r) /\
       match p with
       | None => d_got y = d_sent y
       | Some off => 0 < len /\ off + len <= max_items (d_ring y) * item_len (d_ring y)
       end).
Proof.
  intros (Ws & Wr & Hi & Hlen & R & H & V & HR & HG & HV & Hrd & Ho & Hp & Hd & Hpe & Hg & Hmem).
  pose proof (rw_max _ Wr) as Hm. pose proof (rw_len _ Wr) as Hl. split_and!.
  - rewrite Hg. eexists. symmetry. apply take_drop.
  - lia.
  - intros Hn E. rewrite Hn in Hpe.
    destruct (get_read_addr_bounds (d_st y) (d_ring y) (ri_peer (d_st y)) 0 Wr)
      as (p & len & r & Ea & _ & _ & Hb).
    { rewrite Hi. by apply get_peer_spec. }
    { rewrite Hp. pose proof (Z.mod_pos_bound V (max_items (d_ring y))). lia. }
    { done. }
    exists p, len, r. split; [done|]. destruct p as [off|].
    + destruct Hb as (n & -> & -> & Hn1 & Hn2 & _). nia.
    + destruct Hb as [Hb _]. rewrite Hp, Hrd in Hb.
      pose proof (Z.mod_pos_bound V (max_items (d_ring y))).
      destruct Hb as [Hb|Hb]; [|lia]. symmetry in Hb. apply mod_eq_near in Hb; [|lia..].
      rewrite Hp, Hd in E. apply mod_eq_near in E; [|lia..].
      rewrite Hg. apply take_ge. lia.
Qed.
End d2h.

(** * Properties *)

(** C4: an H2D ring (a submission or flow ring) is a bounded FIFO from host to
    dongle.  Starting with an initialised ring, whatever the interleaving of
    host allocations, completions and index refreshes with dongle reads and
    index updates, and however stale the host's cached read index, the dongle
    receives exactly a prefix of the messages the host put on the ring, at
    most max_items - 1 messages are outstanding, none is lost once the host
    has published its index and the dongle caught up with it, the dongle can
    always take a published message, and when the dongle has reported that
    everything was consumed a request that fits the ring is granted. *)
Theorem h2d_fifo (ri : ring_info) (ring : Z) (T : Type) (y0 y : @h2d_sys dhd_pub T) :
  h2d_init h2d_ops ring (h2d_ring_idx ri ring) y0 ->
  h2d_reach h2d_ops ring (h2d_ring_idx ri ring) y0 y ->
  h_got y `prefix_of` h_sent y /\
  Z.of_nat (length (h_sent y)) - Z.of_nat (length (h_got y)) <= max_items (h_ring y) - 1 /\
  (ri_own (RingIdx := h2d_ring_idx ri ring) (h_st y) = wr (h_ring y) ->
   h_drd y = ri_own (RingIdx := h2d_ring_idx ri ring) (h_st y) -> h_got y = h_sent y) /\
  (h_drd y <> ri_own (RingIdx := h2d_ring_idx ri ring) (h_st y) ->
   exists y', h2d_step h2d_ops ring (h2d_ring_idx ri ring) y y' /\
     length (h_got y') = S (length (h_got y))) /\
  (forall n ex, 1 <= n <= max_items (h_ring y) - 1 ->
   ri_peer (RingIdx := h2d_ring_idx ri ring) (h_st y) = wr (h_ring y) ->
   exists off a r, @dhd_prot_alloc_ring_space _ h2d_ops (h_st y) (h_ring y) n 0 ex = Some (Some off, a, r)).
Proof.
  intros H0 Hr. apply h2d_reach_inv in Hr; [|done].
  destruct (h2d_inv_fifo h2d_ops ring (h2d_ring_idx ri ring) y Hr) as (? & ? & ? & ?).
  split_and!; try done. intros n ex Hn Hp. by apply (h2d_inv_alloc h2d_ops ring (h2d_ring_idx ri ring)).
Qed.

(** C6: a D2H ring (a completion ring) is a bounded FIFO from dongle to host.
    Whatever the interleaving of the dongle's writes and index updates with
    the host's fetch, process and publish steps, the host processes exactly a
    prefix of the messages the dongle wrote, in order and each once, a message
    is not overwritten between its fetch and its processing, and when the
    dongle has published its index a fetch returns a non-empty batch inside
    the ring or everything was processed. *)
Theorem d2h_fifo (ri : ring_info) (ring : Z) (T : Type) (y0 y : @d2h_sys dhd_pub T) :
  d2h_init d2h_ops ring (d2h_ring_idx ri ring) y0 ->
  d2h_reach d2h_ops ring (d2h_ring_idx ri ring) y0 y ->
  d_got y `prefix_of` d_sent y /\
  Z.of_nat (length (d_sent y)) - Z.of_nat (length (d_got y)) <= max_items (d_ring y) - 1 /\
  (d_pend y = None -> ri_peer (RingIdx := d2h_ring_idx ri ring) (d_st y) = d_dwr y ->
     exists p len r, @dhd_prot_get_read_addr _ d2h_ops (d_st y) (d_ring y) 0 = Some (p, len, r) /\
       match p with
       | None => d_got y = d_sent y
       | Some off => 0 < len /\ off + len <= max_items (d_ring y) * item_len (d_ring y)
       end).
Proof.
  intros H0 Hr. apply d2h_reach_inv in Hr; [|done].
  exact (d2h_inv_fifo d2h_ops ring (d2h_ring_idx ri ring) y Hr).
Qed.

(** * Witnesses *)
Definition filled_pub : dhd_pub :=
  match dhd_fillup_ring_sharedptr_info (d_bus sample_pub) sample_ri with
  | Some b => set_bus sample_pub b
  | None => sample_pub
  end.

Lemma filled_pub_wf : index_wf sample_ri filled_pub.
Proof.
  destruct (fillup_wf sample_ri sample_pub sample_layout eq_refl) as (b & E & _ & _ & W).
  unfold filled_pub. by rewrite E.
Qed.

Definition ring5 : msgbuf_ring :=
  {| inited := true; idx := 5; rd := 0; wr := 0; max_items := 4; item_len := 48;
     base_addr := []; dma_buf := dma_buf_zero; seqnum := 0;
     start_addr := None; pend_items_count := 0 |}.

Definition h2d_y0 : @h2d_sys dhd_pub Z :=
  {| h_st := filled_pub; h_ring := ring5; h_mem := [0;0;0;0]; h_drd := 0; h_sent := []; h_got := [] |}.

Lemma h2d_y0_init : h2d_init h2d_ops 5 (h2d_ring_idx sample_ri 5) h2d_y0.
Proof.
  split; [split; [exact filled_pub_wf|right; split; vm_compute; congruence]|].
  split; [constructor; cbn; lia|]. by vm_compute.
Qed.

(** Two messages posted and published, one taken. *)
Lemma h2d_fifo_witness :
  exists y, h2d_reach h2d_ops 5 (h2d_ring_idx sample_ri 5) h2d_y0 y /\
    h_sent y = [11; 22] /\ h_got y = [11] /\ h_got y `prefix_of` h_sent y.
Proof.
  eexists. split; [|split; [|split]].
  - eapply H2dTrans; [eapply H2dTrans; [eapply H2dTrans; [apply H2dRefl|]|]|].
    + apply (H2dPost _ _ _ h2d_y0 2 true 0 2 (set_wr ring5 2) [11; 22]); [lia|by vm_compute|done].
    + eapply H2dComplete. by vm_compute.
    + apply (H2dDevTake _ _ _ _ 11); [by vm_compute|by vm_compute].
  - by vm_compute.
  - by vm_compute.
  - apply (h2d_fifo sample_ri 5 Z h2d_y0); [exact h2d_y0_init|].
    eapply H2dTrans; [eapply H2dTrans; [eapply H2dTrans; [apply H2dRefl|]|]|].
    + apply (H2dPost _ _ _ h2d_y0 2 true 0 2 (set_wr ring5 2) [11; 22]); [lia|by vm_compute|done].
    + eapply H2dComplete. by vm_compute.
    + apply (H2dDevTake _ _ _ _ 11); [by vm_compute|by vm_compute].
Defined.

Definition d2h_y0 : @d2h_sys dhd_pub Z :=
  {| d_st := filled_pub; d_ring := {| inited := true; idx := 4; rd := 0; wr := 0; max_items := 4;
       item_len := 32; base_addr := []; dma_buf := dma_buf_zero; seqnum := 254;
     start_addr := None; pend_items_count := 0 |};
     d_mem := [0;0;0;0]; d_dwr := 0; d_pend := None; d_sent := []; d_got := [] |}.

Lemma d2h_y0_init : d2h_init d2h_ops 4 (d2h_ring_idx sample_ri 4) d2h_y0.
Proof.
  split; [split; [exact filled_pub_wf|split; vm_compute; congruence]|].
  split; [constructor; cbn; lia|]. by vm_compute.
Qed.

Lemma d2h_fifo_witness :
  exists y, d2h_reach d2h_ops 4 (d2h_ring_idx sample_ri 4) d2h_y0 y /\
    d_sent y = [33] /\ d_pend y = Some (0, 1) /\ d_got y `prefix_of` d_sent y.
Proof.
  eexists. split; [|split; [|split]].
  - eapply D2hTrans; [eapply D2hTrans; [eapply D2hTrans; [apply D2hRefl|]|]|].
    + apply (D2hDevPut _ _ _ d2h_y0 33). by vm_compute.
    + eapply D2hDevPublish. by vm_compute.
    + eapply D2hFetch; by vm_compute.
  - by vm_compute.
  - by vm_compute.
  - apply (d2h_fifo sample_ri 4 Z d2h_y0); [exact d2h_y0_init|].
    eapply D2hTrans; [eapply D2hTrans; [eapply D2hTrans; [apply D2hRefl|]|]|].
    + apply (D2hDevPut _ _ _ d2h_y0 33). by vm_compute.
    + eapply D2hDevPublish. by vm_compute.
    + eapply D2hFetch; by vm_compute.
Defined.
