(* ===== verification/MsgSync.v ===== *)
(** * Processing completions: DMA synchronisation and dispatch

    dhd/sys/dhd_msgbuf.c: before the host looks at a completion it waits for
    the dongle's DMA to have landed, by a sequence number in the last word of
    the message or by a checksum and an epoch ([dhd_prot_d2h_sync_seqnum],
    [dhd_prot_d2h_sync_xorcsum]); [dhd_prot_process_msgtype] then dispatches
    the messages of a batch through a table.

    Message memory is volatile: a message is a function from access times to
    its bytes.  Each try of a wait loop reads one snapshot, the message type
    is read from a later one. *)
From Stdlib Require Import ZArith Lia.
From stdpp Require Import base option numbers list.
From S2P Require Import Prelude Bytes Tcm RingIndex MsgRing.

Definition PCIE_D2H_SYNC_WAIT_TRIES : Z := 512.
Definition D2H_EPOCH_MODULO : Z := 253.
Definition D2H_EPOCH_INIT_VAL : Z := D2H_EPOCH_MODULO + 1.
Definition MSG_TYPE_INVALID : Z := 0.
Definition DHD_PROT_FUNCS : Z := 37.
Abbreviation u64 := (wrapu 64).

(** The bytes of a message at each access time. *)
Abbreviation snapshots := (Z -> list Z).

Record sync_stats := {
  d2h_sync_wait_max : Z;   (* ulong *)
  d2h_sync_wait_tot : Z
}.

(** ** The wait loop: [fuel] tries are left, the next one has number [tries].
    The result is the number of the successful try, if any. *)
Fixpoint sync_wait (fuel : nat) (tries : Z) (ok : Z -> option bool) (wmax : Z)
    : option (option Z * Z) :=
  match fuel with
  | O => Some (None, wmax)
  | S fuel =>
      b ← ok tries;
      if (b : bool) then Some (Some tries, wmax)
      else sync_wait fuel (tries + 1) ok (if wmax <? tries then tries else wmax)
  end.

Definition seqnum_ok (msg : snapshots) (msglen seq t : Z) : option bool :=
  let ring_seqnum := seq mod D2H_EPOCH_MODULO in
  let num_words := msglen / 4 in
  msg_seqnum ← ld 4 (msg t) (4 * (num_words - 1));
  Some (msg_seqnum =? ring_seqnum).

Fixpoint xor_words (n : nat) (m : list Z) (i xor32 : Z) : option Z :=
  match n with
  | O => Some xor32
  | S n => w ← ld 4 m (4 * i); xor_words n m (i + 1) (Z.lxor xor32 w)
  end.
Definition bcm_compute_xor32 (m : list Z) (num_u32 : Z) : option Z :=
  xor_words (Z.to_nat num_u32) m 0 0.

Definition xorcsum_ok (msg : snapshots) (msglen seq t : Z) : option bool :=
  let num_words := msglen / 4 in
  let ring_seqnum := u8 (seq mod D2H_EPOCH_MODULO) in
  prot_checksum ← bcm_compute_xor32 (msg t) num_words;
  if prot_checksum =? 0 then epoch ← aget (msg t) 3; Some (epoch =? ring_seqnum)
  else Some false.

(** The common body of the two callbacks: the returned message type, the ring
    with its next expected sequence number, the statistics. *)
Definition d2h_sync (ok : Z -> option bool) (msg : snapshots) (r : msgbuf_ring) (st : sync_stats)
    : option (Z * msgbuf_ring * sync_stats) :=
  let r' := set_seqnum r (u32 (seqnum r + 1)) in
  '(res, wmax) ← sync_wait (Z.to_nat PCIE_D2H_SYNC_WAIT_TRIES) 0 ok (d2h_sync_wait_max st);
  match (res : option Z) with
  | Some tries =>
      msg_type ← aget (msg (tries + 1)) 0;
      Some (msg_type, r', {| d2h_sync_wait_max := wmax;
                             d2h_sync_wait_tot := u64 (d2h_sync_wait_tot st + tries) |})
  | None =>
      Some (MSG_TYPE_INVALID, r', {| d2h_sync_wait_max := wmax;
                                     d2h_sync_wait_tot := d2h_sync_wait_tot st |})
  end.

Definition dhd_prot_d2h_sync_seqnum (r : msgbuf_ring) (msg : snapshots) (msglen : Z) (st : sync_stats)
    : option (Z * msgbuf_ring * sync_stats) :=
  d2h_sync (seqnum_ok msg msglen (seqnum r)) msg r st.

Definition dhd_prot_d2h_sync_xorcsum (r : msgbuf_ring) (msg : snapshots) (msglen : Z) (st : sync_stats)
    : option (Z * msgbuf_ring * sync_stats) :=
  d2h_sync (xorcsum_ok msg msglen (seqnum r)) msg r st.

Definition dhd_prot_d2h_sync_none (r : msgbuf_ring) (msg : snapshots) (msglen : Z) (st : sync_stats)
    : option (Z * msgbuf_ring * sync_stats) :=
  msg_type ← aget (msg 0) 0; Some (msg_type, r, st).

(** ** Selecting the callback *)
Inductive d2h_sync_cb := CbSeqnum | CbXorcsum | CbNone.

Definition d2h_sync_run (cb : d2h_sync_cb) :=
  match cb with
  | CbSeqnum => dhd_prot_d2h_sync_seqnum
  | CbXorcsum => dhd_prot_d2h_sync_xorcsum
  | CbNone => dhd_prot_d2h_sync_none
  end.

Definition PCIE_SHARED_D2H_SYNC_SEQNUM : Z := 131072.
Definition PCIE_SHARED_D2H_SYNC_XORCSUM : Z := 262144.

(** [rings] are the control, transmit and receive completion rings. *)
Definition dhd_prot_d2h_sync_init (d2h_sync_mode : Z) (rings : msgbuf_ring * msgbuf_ring * msgbuf_ring)
    : d2h_sync_cb * (msgbuf_ring * msgbuf_ring * msgbuf_ring) * sync_stats :=
  let '(ctrl, tx, rx) := rings in
  (if negb (Z.land d2h_sync_mode PCIE_SHARED_D2H_SYNC_SEQNUM =? 0) then CbSeqnum
   else if negb (Z.land d2h_sync_mode PCIE_SHARED_D2H_SYNC_XORCSUM =? 0) then CbXorcsum
   else CbNone,
   (set_seqnum ctrl D2H_EPOCH_INIT_VAL, set_seqnum tx D2H_EPOCH_INIT_VAL, set_seqnum rx D2H_EPOCH_INIT_VAL),
   {| d2h_sync_wait_max := 0; d2h_sync_wait_tot := 0 |}).

(** ** Dispatch *)
Inductive handler :=
  | noop | genstatus | ringstatus | flow_ring_create_response | flow_ring_delete_response
  | flow_ring_flush_response | ioctack | ioctcmplt | event | txstatus | rxcmplt
  | dmaxfer | d2h_ring_config_cmplt.

Definition table_lookup : list (option handler) :=
  [Some noop; Some genstatus; Some ringstatus; None; Some flow_ring_create_response; None;
   Some flow_ring_delete_response; None; Some flow_ring_flush_response; None; Some ioctack; None;
   Some ioctcmplt; None; Some event; None; Some txstatus; None; Some rxcmplt; None; Some dmaxfer;
   None; None; None; None; None; None; None; None; None; None; None; None; None;
   Some d2h_ring_config_cmplt; None; None].

(** What a batch leaves: the status, the ring, the statistics, and the
    handlers called, each with the number of its message in the batch. *)
Record batch := {
  b_ret : Z;
  b_ring : msgbuf_ring;
  b_stats : sync_stats;
  b_calls : list (handler * Z)
}.

(** [msgs i] is message [i] of the batch and [hang i] the value of
    hang_was_sent when it is reached. *)
Fixpoint process_loop (fuel : nat) (cb : d2h_sync_cb) (msgs : Z -> snapshots) (hang : Z -> bool)
    (i buf_len : Z) (r : msgbuf_ring) (st : sync_stats) (calls : list (handler * Z)) : option batch :=
  if buf_len <=? 0
  then Some {| b_ret := BCME_OK; b_ring := r; b_stats := st; b_calls := calls |}
  else
  match fuel with
  | O => None
  | S fuel =>
      if hang i
      then Some {| b_ret := BCME_ERROR; b_ring := r; b_stats := st; b_calls := calls |}
      else
      '(msg_type, r, st) ← d2h_sync_run cb r (msgs i) (item_len r) st;
      if DHD_PROT_FUNCS <=? msg_type
      then Some {| b_ret := BCME_ERROR; b_ring := r; b_stats := st; b_calls := calls |}
      else
      h ← aget table_lookup msg_type;
      let calls := match h with Some h => calls ++ [(h, i)] | None => calls end in
      if buf_len <? item_len r
      then Some {| b_ret := BCME_ERROR; b_ring := r; b_stats := st; b_calls := calls |}
      else process_loop fuel cb msgs hang (i + 1) (buf_len - item_len r) r st calls
  end.

Definition dhd_prot_process_msgtype (cb : d2h_sync_cb) (msgs : Z -> snapshots) (hang : Z -> bool)
    (r : msgbuf_ring) (len : Z) (st : sync_stats) : option batch :=
  let buf_len := s32 len in
  if item_len r =? 0
  then Some {| b_ret := BCME_ERROR; b_ring := r; b_stats := st; b_calls := [] |}
  else process_loop (Z.to_nat buf_len) cb msgs hang 0 buf_len r st [].

(** * Lemmas *)
Lemma sync_wait_hit fuel t0 t ok w :
  t0 <= t < t0 + Z.of_nat fuel -> ok t = Some true ->
  (forall t', t0 <= t' < t -> ok t' = Some false) ->
  sync_wait fuel t0 ok w = Some (Some t, if t =? t0 then w else Z.max w (t - 1)).
Proof.
  revert t0 w. induction fuel as [|fuel IH]; intros t0 w Ht Hok Hno; [lia|]. cbn [sync_wait].
  destruct (Z.eqb_spec t t0) as [->|Hne]; [by rewrite Hok|].
  rewrite (Hno t0) by lia. cbn [mbind option_bind].
  rewrite IH by (try apply Hno; try done; try lia; intros; apply Hno; lia).
  destruct (Z.ltb_spec w t0), (Z.eqb_spec t (t0 + 1)); do 2 f_equal; lia.
Qed.

Lemma sync_wait_miss fuel t0 ok w :
  (forall t, t0 <= t < t0 + Z.of_nat fuel -> ok t = Some false) ->
  sync_wait fuel t0 ok w
    = Some (None, if Nat.eqb fuel 0 then w else Z.max w (t0 + Z.of_nat fuel - 1)).
Proof.
  revert t0 w. induction fuel as [|fuel IH]; intros t0 w Hno; [done|]. cbn [sync_wait].
  rewrite (Hno t0) by lia. cbn [mbind option_bind].
  rewrite IH by (intros; apply Hno; lia).
  destruct (Z.ltb_spec w t0), fuel; cbn [Nat.eqb]; do 2 f_equal; lia.
Qed.

(** The least successful try among the first [n], or none. *)
Lemma first_try (ok : Z -> option bool) (n : nat) :
  (forall t, 0 <= t < Z.of_nat n -> is_Some (ok t)) ->
  (exists t, 0 <= t < Z.of_nat n /\ ok t = Some true /\ forall t', 0 <= t' < t -> ok t' = Some false) \/
  (forall t, 0 <= t < Z.of_nat n -> ok t = Some false).
Proof.
  induction n as [|n IH]; intros Hs; [right; lia|].
  destruct IH as [(t & Ht & Hok & Hno)|Hno]; [intros; apply Hs; lia|left; exists t; split; [lia|done]|].
  destruct (Hs (Z.of_nat n)) as [[] Hb]; [lia|left; exists (Z.of_nat n); split_and!; [lia|lia|done|done]|].
  right. intros t Ht. destruct (decide (t = Z.of_nat n)) as [->|]; [done|]. apply Hno. lia.
Qed.

(** ** The sequence-number test *)
Definition marker (m : list Z) (msglen : Z) : option Z := ld 4 m (msglen - 4).
Definition readable (msg : snapshots) (msglen : Z) : Prop :=
  forall t, bytes (msg t) /\ msglen <= Z.of_nat (length (msg t)).
Definition msglen_ok (msglen : Z) : Prop := 4 <= msglen < 2 ^ 16 /\ msglen mod 4 = 0.

Lemma marker_eq msglen : msglen_ok msglen -> 4 * (msglen / 4 - 1) = msglen - 4.
Proof. intros [? ?]. pose proof (Z.div_mod msglen 4). lia. Qed.

Lemma seqnum_ok_spec msg msglen seq t :
  msglen_ok msglen -> readable msg msglen ->
  exists v, marker (msg t) msglen = Some v /\
    seqnum_ok msg msglen seq t = Some (v =? seq mod D2H_EPOCH_MODULO).
Proof.
  intros Hl Hr. destruct (Hr t) as [Hb Hn]. unfold seqnum_ok, marker. rewrite marker_eq by done.
  destruct Hl as [Hl _]. destruct (ld_Some 4 (msg t) (msglen - 4)) as (v & -> & _); [done|lia|lia|].
  by exists v.
Qed.

Lemma seqnum_ok_iff msg msglen seq t b :
  msglen_ok msglen -> readable msg msglen ->
  seqnum_ok msg msglen seq t = Some b <->
  (b = true <-> marker (msg t) msglen = Some (seq mod D2H_EPOCH_MODULO)).
Proof.
  intros Hl Hr. destruct (seqnum_ok_spec msg msglen seq t Hl Hr) as (v & -> & ->).
  destruct (Z.eqb_spec v (seq mod D2H_EPOCH_MODULO)) as [->|]; destruct b; naive_solver.
Qed.

(** The message shows sequence number [seq] within the tries, and its type is
    [ty] after that. *)
Definition arrives (msg : snapshots) (msglen seq ty : Z) : Prop :=
  exists t, 0 <= t < PCIE_D2H_SYNC_WAIT_TRIES /\
    marker (msg t) msglen = Some (seq mod D2H_EPOCH_MODULO) /\
    (forall t', 0 <= t' < t -> marker (msg t') msglen <> Some (seq mod D2H_EPOCH_MODULO)) /\
    aget (msg (t + 1)) 0 = Some ty.

Lemma sync_arrives r msg msglen ty st :
  msglen_ok msglen -> readable msg msglen -> arrives msg msglen (seqnum r) ty ->
  exists st', dhd_prot_d2h_sync_seqnum r msg msglen st = Some (ty, set_seqnum r (u32 (seqnum r + 1)), st').
Proof.
  intros Hl Hr (t & Ht & Hm & Hno & Hty). unfold dhd_prot_d2h_sync_seqnum, d2h_sync.
  rewrite (sync_wait_hit _ 0 t).
  - cbn [mbind option_bind]. rewrite Hty. cbn [mbind option_bind]. eauto.
  - unfold PCIE_D2H_SYNC_WAIT_TRIES in *. lia.
  - apply seqnum_ok_iff; done.
  - intros t' Ht'. apply seqnum_ok_iff; [done..|]. split; [done|]. intros E. by destruct (Hno t').
Qed.

Lemma sync_never r msg msglen st :
  msglen_ok msglen -> readable msg msglen ->
  (forall t, 0 <= t < PCIE_D2H_SYNC_WAIT_TRIES ->
     marker (msg t) msglen <> Some (seqnum r mod D2H_EPOCH_MODULO)) ->
  dhd_prot_d2h_sync_seqnum r msg msglen st =
    Some (MSG_TYPE_INVALID, set_seqnum r (u32 (seqnum r + 1)),
          {| d2h_sync_wait_max := Z.max (d2h_sync_wait_max st) (PCIE_D2H_SYNC_WAIT_TRIES - 1);
             d2h_sync_wait_tot := d2h_sync_wait_tot st |}).
Proof.
  intros Hl Hr Hno. unfold dhd_prot_d2h_sync_seqnum, d2h_sync. rewrite sync_wait_miss; [done|].
  intros t Ht. apply seqnum_ok_iff; [done..|]. split; [done|]. intros E. exfalso.
  apply (Hno t); [unfold PCIE_D2H_SYNC_WAIT_TRIES in *; lia|done].
Qed.

(** ** The dispatch loop over messages that arrive *)
Definition call_of (ty i : Z) : list (handler * Z) :=
  match aget table_lookup ty with Some (Some h) => [(h, i)] | _ => [] end.
Fixpoint calls_of (tys : list Z) (i : Z) : list (handler * Z) :=
  match tys with [] => [] | ty :: tys => call_of ty i ++ calls_of tys (i + 1) end.

Lemma table_some ty : 0 <= ty < DHD_PROT_FUNCS -> exists h, aget table_lookup ty = Some h.
Proof. intros. apply aget_is_Some. exact H. Qed.

Lemma process_loop_step fuel msgs hang i buf_len r st calls ty :
  msglen_ok (item_len r) -> readable (msgs i) (item_len r) -> hang i = false ->
  arrives (msgs i) (item_len r) (seqnum r) ty -> 0 <= ty < DHD_PROT_FUNCS -> item_len r <= buf_len ->
  exists st', process_loop (S fuel) CbSeqnum msgs hang i buf_len r st calls =
    process_loop fuel CbSeqnum msgs hang (i + 1) (buf_len - item_len r)
      (set_seqnum r (u32 (seqnum r + 1))) st' (calls ++ call_of ty i).
Proof.
  intros Hl Hr Hh Ha Hty Hb. destruct (sync_arrives r (msgs i) (item_len r) ty st Hl Hr Ha) as (st' & E).
  exists st'. cbn [process_loop]. destruct Hl as [Hl _].
  destruct (Z.leb_spec buf_len 0); [lia|]. rewrite Hh. cbn [d2h_sync_run]. rewrite E. cbn [mbind option_bind].
  destruct (Z.leb_spec DHD_PROT_FUNCS ty); [lia|].
  destruct (table_some ty Hty) as [h Eh]. unfold call_of. rewrite Eh. cbn [mbind option_bind].
  cbn [item_len set_seqnum]. destruct (Z.ltb_spec buf_len (item_len r)); [lia|].
  destruct h; [done|]. by rewrite app_nil_r.
Qed.

(** A prefix [tys] of the batch arrives; the loop goes on after it. *)
Lemma process_loop_prefix tys fuel msgs hang i buf_len r st calls :
  msglen_ok (item_len r) -> 0 <= seqnum r < 2 ^ 32 ->
  (forall k ty, aget tys k = Some ty ->
     readable (msgs (i + k)) (item_len r) /\ hang (i + k) = false /\ 0 <= ty < DHD_PROT_FUNCS /\
     arrives (msgs (i + k)) (item_len r) (u32 (seqnum r + k)) ty) ->
  Z.of_nat (length tys) * item_len r <= buf_len ->
  exists st', process_loop (length tys + fuel) CbSeqnum msgs hang i buf_len r st calls =
    process_loop fuel CbSeqnum msgs hang (i + Z.of_nat (length tys))
      (buf_len - Z.of_nat (length tys) * item_len r)
      (set_seqnum r (u32 (seqnum r + Z.of_nat (length tys)))) st' (calls ++ calls_of tys i).
Proof.
  revert i buf_len r st calls. induction tys as [|ty tys IH]; intros i buf_len r st calls Hl Hs Ha Hb.
  - exists st. cbn [length calls_of Nat.add]. rewrite !Z.add_0_r, app_nil_r, Z.sub_0_r, wrapu_small by done.
    by destruct r.
  - cbn [length Nat.add calls_of] in *. pose proof (proj1 Hl) as Hl0.
    rewrite Nat2Z.inj_succ in *. assert (0 <= Z.of_nat (length tys) * item_len r) by nia.
    destruct (Ha 0 ty eq_refl) as (Hr & Hh & Hty & Harr).
    rewrite !Z.add_0_r in *. rewrite wrapu_small in Harr by done.
    destruct (process_loop_step (length tys + fuel) msgs hang i buf_len r st calls ty)
      as (st1 & ->); try done; [lia|].
    destruct (IH (i + 1) (buf_len - item_len r) (set_seqnum r (u32 (seqnum r + 1))) st1 (calls ++ call_of ty i))
      as (st2 & ->); cbn [item_len set_seqnum seqnum]; [done|by apply wrapu_range| |lia|].
    { intros k ty' Hk. pose proof (aget_lt _ _ _ Hk) as Hk0.
      destruct (Ha (k + 1) ty') as (H1 & H2 & H3 & H4).
      { unfold aget in *. destruct (Z.leb_spec 0 k), (Z.leb_spec 0 (k + 1)); try lia.
        replace (Z.to_nat (k + 1)) with (S (Z.to_nat k)) by lia. done. }
      replace (i + 1 + k) with (i + (k + 1)) by lia. split_and!; try done; try lia.
      unfold wrapu in *. rewrite Zplus_mod_idemp_l. by replace (seqnum r + 1 + k) with (seqnum r + (k + 1)) by lia. }
    exists st2. rewrite <- app_assoc. f_equal; [lia|lia|].
    unfold set_seqnum; cbn. f_equal. unfold wrapu. rewrite Zplus_mod_idemp_l. f_equal. lia.
Qed.

(** * Properties *)

(** Dhd_prot_d2h_sync_seqnum always terminates after at most 512 tries and
    always advances the expected sequence number by one.  It returns the type
    of the message exactly when some try saw the expected number modulo 253
    in the last word, read after the first such try, and adds that number of
    tries to the total; otherwise it gives the message up, returns
    MSG_TYPE_INVALID and records the maximum wait. *)
Theorem d2h_sync_seqnum_ok (r : msgbuf_ring) (msg : snapshots) (msglen : Z) (st : sync_stats) :
  msglen_ok msglen -> readable msg msglen ->
  exists ty st', dhd_prot_d2h_sync_seqnum r msg msglen st
      = Some (ty, set_seqnum r (u32 (seqnum r + 1)), st') /\
    ((exists t, 0 <= t < PCIE_D2H_SYNC_WAIT_TRIES /\
        marker (msg t) msglen = Some (seqnum r mod D2H_EPOCH_MODULO) /\
        (forall t', 0 <= t' < t -> marker (msg t') msglen <> Some (seqnum r mod D2H_EPOCH_MODULO)) /\
        aget (msg (t + 1)) 0 = Some ty /\
        d2h_sync_wait_tot st' = u64 (d2h_sync_wait_tot st + t)) \/
     ((forall t, 0 <= t < PCIE_D2H_SYNC_WAIT_TRIES ->
         marker (msg t) msglen <> Some (seqnum r mod D2H_EPOCH_MODULO)) /\
      ty = MSG_TYPE_INVALID /\ d2h_sync_wait_tot st' = d2h_sync_wait_tot st /\
      d2h_sync_wait_max st' = Z.max (d2h_sync_wait_max st) (PCIE_D2H_SYNC_WAIT_TRIES - 1))).
Proof.
  intros Hl Hr.
  destruct (first_try (seqnum_ok msg msglen (seqnum r)) (Z.to_nat PCIE_D2H_SYNC_WAIT_TRIES))
    as [(t & Ht & Hok & Hno)|Hno].
  - intros t _. destruct (seqnum_ok_spec msg msglen (seqnum r) t Hl Hr) as (v & _ & ->). eauto.
  - destruct (aget_is_Some (msg (t + 1)) 0) as [ty Hty].
    { destruct (Hr (t + 1)) as [_ ?]. destruct Hl as [? _]. lia. }
    unfold dhd_prot_d2h_sync_seqnum, d2h_sync. rewrite (sync_wait_hit _ 0 t) by (done || lia).
    cbn [mbind option_bind]. rewrite Hty. cbn [mbind option_bind].
    eexists ty, _. split; [done|]. left. exists t. split_and!; try done.
    + unfold PCIE_D2H_SYNC_WAIT_TRIES in *. lia.
    + unfold PCIE_D2H_SYNC_WAIT_TRIES in *. lia.
    + by apply (seqnum_ok_iff msg msglen (seqnum r) t true Hl Hr).
    + intros t' Ht' E. specialize (Hno t' Ht').
      apply (seqnum_ok_iff msg msglen (seqnum r) t' false Hl Hr) in Hno. naive_solver.
  - assert (forall t, 0 <= t < PCIE_D2H_SYNC_WAIT_TRIES ->
      marker (msg t) msglen <> Some (seqnum r mod D2H_EPOCH_MODULO)) as Hn.
    { intros t Ht E. assert (seqnum_ok msg msglen (seqnum r) t = Some false) as Hf
        by (apply Hno; unfold PCIE_D2H_SYNC_WAIT_TRIES in *; lia).
      apply (seqnum_ok_iff msg msglen (seqnum r) t false Hl Hr) in Hf. naive_solver. }
    rewrite (sync_never r msg msglen st Hl Hr Hn). eexists _, _. split; [done|]. right. done.
Qed.

(** C38: a batch whose messages all arrive, stamped with consecutive sequence
    numbers, is dispatched completely and in order: dhd_prot_process_msgtype
    returns BCME_OK, calls for every message exactly the handler its type has
    in table_lookup, if any, and leaves the ring expecting the number after
    the batch (the 32-bit counter may wrap). *)
Theorem process_in_order (msgs : Z -> snapshots) (hang : Z -> bool) (r : msgbuf_ring) (tys : list Z)
    (st : sync_stats) :
  msglen_ok (item_len r) -> 0 <= seqnum r < 2 ^ 32 ->
  Z.of_nat (length tys) * item_len r < 2 ^ 31 ->
  (forall k ty, aget tys k = Some ty ->
     readable (msgs k) (item_len r) /\ hang k = false /\ 0 <= ty < DHD_PROT_FUNCS /\
     arrives (msgs k) (item_len r) (u32 (seqnum r + k)) ty) ->
  exists st', dhd_prot_process_msgtype CbSeqnum msgs hang r (Z.of_nat (length tys) * item_len r) st =
    Some {| b_ret := BCME_OK; b_ring := set_seqnum r (u32 (seqnum r + Z.of_nat (length tys)));
            b_stats := st'; b_calls := calls_of tys 0 |}.
Proof.
  intros Hl Hs Hb Ha. pose proof (proj1 Hl) as Hl0. unfold dhd_prot_process_msgtype.
  destruct (Z.eqb_spec (item_len r) 0); [lia|].
  assert (0 <= Z.of_nat (length tys) * item_len r) by nia.
  rewrite (wraps_small 32) by zlia.
  assert (Z.to_nat (Z.of_nat (length tys) * item_len r)
    = length tys + (Z.to_nat (Z.of_nat (length tys) * item_len r) - length tys))%nat as -> by nia.
  destruct (process_loop_prefix tys (Z.to_nat (Z.of_nat (length tys) * item_len r) - length tys)
    msgs hang 0 (Z.of_nat (length tys) * item_len r) r st []) as (st' & ->); [done|done|done|lia|].
  exists st'. rewrite Z.sub_diag. by destruct (_ - _)%nat.
Qed.

(** After one lap of the ring the message left in a slot by the previous
    lap is never taken for the new one: for each of the driver's completion
    ring sizes (D2HRING_CTRL_CMPLT_MAX_ITEM, D2HRING_RXCMPLT_MAX_ITEM and
    D2HRING_TXCMPLT_MAX_ITEM) a message that still shows the stamp it got
    max_items messages earlier is given up, also across the wrap of the 32-bit
    counter. *)
Theorem stale_rejected (r : msgbuf_ring) (msg : snapshots) (msglen m : Z) (st : sync_stats) :
  m = 64 \/ m = 512 \/ m = 1024 -> msglen_ok msglen -> readable msg msglen -> 0 <= seqnum r < 2 ^ 32 ->
  (forall t, 0 <= t < PCIE_D2H_SYNC_WAIT_TRIES ->
     marker (msg t) msglen = Some (u32 (seqnum r - m) mod D2H_EPOCH_MODULO)) ->
  exists st', dhd_prot_d2h_sync_seqnum r msg msglen st =
    Some (MSG_TYPE_INVALID, set_seqnum r (u32 (seqnum r + 1)), st').
Proof.
  intros Hm Hl Hr Hs Hst. eexists. apply sync_never; [done..|].
  intros t Ht. rewrite Hst by done. intros [= E]. revert E. unfold wrapu, D2H_EPOCH_MODULO.
  assert ((seqnum r - m) mod 2 ^ 32 = seqnum r - m \/ (seqnum r - m) mod 2 ^ 32 = seqnum r - m + 2 ^ 32) as Hw.
  { assert (0 <= m <= 1024) by lia.
    destruct (decide (m <= seqnum r)); [left; apply Z.mod_small; zlia|right].
    rewrite <- (Z_mod_plus_full _ 1), Z.mul_1_l. apply Z.mod_small. zlia. }
  pose proof (Z.div_mod (seqnum r) 253). pose proof (Z.mod_pos_bound (seqnum r) 253).
  destruct Hw as [-> | ->]; intros E;
    match type of E with ?a mod _ = _ => pose proof (Z.div_mod a 253) end; zlia.
Qed.

(** A message whose type is outside table_lookup makes
    dhd_prot_process_msgtype abandon the rest of the batch without counting
    it, although the ring's read index is already past it: the expected
    sequence number stays behind by the number of dropped messages, and every
    later message that is properly stamped by the dongle is given up too (as
    long as that number is not a multiple of 253). *)
Theorem abort_desync (msgs : Z -> snapshots) (hang : Z -> bool) (r : msgbuf_ring) (tys : list Z)
    (bad n : Z) (st : sync_stats) (j := Z.of_nat (length tys)) :
  msglen_ok (item_len r) -> 0 <= seqnum r < 2 ^ 32 -> j < n -> n * item_len r < 2 ^ 31 ->
  (forall k ty, aget tys k = Some ty ->
     readable (msgs k) (item_len r) /\ hang k = false /\ 0 <= ty < DHD_PROT_FUNCS /\
     arrives (msgs k) (item_len r) (u32 (seqnum r + k)) ty) ->
  readable (msgs j) (item_len r) -> hang j = false -> DHD_PROT_FUNCS <= bad ->
  arrives (msgs j) (item_len r) (u32 (seqnum r + j)) bad ->
  exists st', dhd_prot_process_msgtype CbSeqnum msgs hang r (n * item_len r) st =
      Some {| b_ret := BCME_ERROR; b_ring := set_seqnum r (u32 (seqnum r + (j + 1)));
              b_stats := st'; b_calls := calls_of tys 0 |} /\
    forall k msg st1, 0 <= k -> seqnum r + n + k < 2 ^ 32 -> (n - (j + 1)) mod D2H_EPOCH_MODULO <> 0 ->
      readable msg (item_len r) ->
      (forall t, 0 <= t < PCIE_D2H_SYNC_WAIT_TRIES ->
         marker (msg t) (item_len r) = Some ((seqnum r + n + k) mod D2H_EPOCH_MODULO)) ->
      exists st2, dhd_prot_d2h_sync_seqnum (set_seqnum r (u32 (seqnum r + (j + 1) + k))) msg (item_len r) st1 =
        Some (MSG_TYPE_INVALID, set_seqnum r (u32 (seqnum r + (j + 1) + (k + 1))), st2).
Proof.
  intros Hl Hs Hjn Hb Ha Hrj Hhj Hbad Harr. pose proof (proj1 Hl) as Hl0.
  unfold dhd_prot_process_msgtype. destruct (Z.eqb_spec (item_len r) 0); [lia|].
  assert (0 <= j) by (unfold j; lia). assert ((j + 1) * item_len r <= n * item_len r) by nia.
  assert (0 <= j * item_len r) by nia. assert (n <= n * item_len r) by nia.
  rewrite (wraps_small 32) by zlia.
  assert (Z.to_nat (n * item_len r) = length tys + S (Z.to_nat (n * item_len r - j - 1)))%nat as -> by lia.
  destruct (process_loop_prefix tys (S (Z.to_nat (n * item_len r - j - 1)))
    msgs hang 0 (n * item_len r) r st []) as (st' & ->); [done|done|done|fold j; lia|].
  fold j. rewrite Z.add_0_l, app_nil_l. cbn [process_loop].
  destruct (Z.leb_spec (n * item_len r - j * item_len r) 0); [lia|]. rewrite Hhj.
  destruct (sync_arrives (set_seqnum r (u32 (seqnum r + j))) (msgs j) (item_len r) bad st' Hl Hrj Harr)
    as (st2 & E).
  cbn [d2h_sync_run item_len set_seqnum seqnum] in *. rewrite E. cbn [mbind option_bind].
  destruct (Z.leb_spec DHD_PROT_FUNCS bad); [|lia].
  exists st2. split.
  { do 3 f_equal. unfold wrapu. rewrite Zplus_mod_idemp_l. f_equal. lia. }
  intros k msg st1 Hk Hw Hne Hr Hm. eexists. rewrite sync_never; [|done|done|].
  - cbn [seqnum set_seqnum]. do 3 f_equal. unfold set_seqnum; cbn. f_equal.
    unfold wrapu. rewrite Zplus_mod_idemp_l. f_equal. lia.
  - intros t Ht. cbn [seqnum set_seqnum]. rewrite (wrapu_small 32) by lia.
    rewrite Hm by done. intros [= E']. apply Hne.
    replace (n - (j + 1)) with ((seqnum r + n + k) - (seqnum r + (j + 1) + k)) by lia.
    unfold D2H_EPOCH_MODULO in *. by rewrite Zminus_mod, E', Z.sub_diag, Zmod_0_l.
Qed.

(** * Witnesses: 8-byte items, stamped in their last word *)
Definition sample_msg (ty stamp : Z) : snapshots := fun _ => [ty; 0; 0; 0; stamp; 0; 0; 0].
Definition sample_d2h : msgbuf_ring :=
  {| inited := true; idx := 3; rd := 0; wr := 0; max_items := 64; item_len := 8;
     base_addr := []; dma_buf := dma_buf_zero; seqnum := 254;
     start_addr := None; pend_items_count := 0 |}.
Definition stats0 : sync_stats := {| d2h_sync_wait_max := 0; d2h_sync_wait_tot := 0 |}.

Lemma sample_readable ty stamp : is_byte ty -> is_byte stamp -> readable (sample_msg ty stamp) 8.
Proof.
  intros Ht Hs t. split; [|cbn; lia]. unfold sample_msg.
  repeat (constructor; [unfold is_byte in *; lia|]). constructor.
Qed.

Lemma sample_arrives ty seq :
  arrives (sample_msg ty (seq mod 253)) 8 seq ty.
Proof.
  exists 0. split_and!; [done|done| |intros; lia|done].
  change (Some (seq mod 253 + 256 * (0 + 256 * (0 + 256 * (0 + 256 * 0)))) = Some (seq mod 253)).
  f_equal. lia.
Qed.

Lemma d2h_sync_seqnum_ok_witness :
  exists ty st', dhd_prot_d2h_sync_seqnum sample_d2h (sample_msg 16 1) 8 stats0
      = Some (ty, set_seqnum sample_d2h 255, st') /\ ty = 16.
Proof.
  destruct (d2h_sync_seqnum_ok sample_d2h (sample_msg 16 1) 8 stats0) as (ty & st' & E & _).
  - split; [lia|done].
  - apply sample_readable; unfold is_byte; lia.
  - exists ty, st'. split; [exact E|]. vm_compute in E. by injection E.
Defined.

Lemma process_in_order_witness :
  exists st', dhd_prot_process_msgtype CbSeqnum (fun k => sample_msg 16 (u32 (254 + k) mod 253)) (fun _ => false)
      sample_d2h 16 stats0 =
    Some {| b_ret := BCME_OK; b_ring := set_seqnum sample_d2h 256; b_stats := st';
            b_calls := [(txstatus, 0); (txstatus, 1)] |}.
Proof.
  apply (process_in_order (fun k => sample_msg 16 (u32 (254 + k) mod 253)) (fun _ => false) sample_d2h [16; 16] stats0).
  - split; [cbn; lia|done].
  - cbn; lia.
  - cbn; lia.
  - intros k ty Hk. assert (ty = 16) as ->.
    { unfold aget in Hk. destruct (0 <=? k); [|done]. destruct (Z.to_nat k) as [|[|]]; by inversion Hk. }
    split_and!; [|done|lia|done|apply sample_arrives].
    pose proof (Z.mod_pos_bound (u32 (254 + k)) 253).
    apply sample_readable; unfold is_byte; lia.
Defined.

Lemma stale_rejected_witness :
  exists st', dhd_prot_d2h_sync_seqnum sample_d2h (sample_msg 16 (190 mod 253)) 8 stats0 =
    Some (MSG_TYPE_INVALID, set_seqnum sample_d2h 255, st').
Proof.
  apply (stale_rejected sample_d2h (sample_msg 16 (190 mod 253)) 8 64 stats0).
  - by left.
  - split; [lia|done].
  - apply sample_readable; unfold is_byte; split; vm_compute; congruence.
  - cbn; lia.
  - intros t _. reflexivity.
Defined.

(** A loopback response, type 0x83, first in a batch of three: the driver
    prints it and then abandons the batch. *)
Lemma abort_desync_witness :
  exists st', dhd_prot_process_msgtype CbSeqnum (fun _ => sample_msg 131 (254 mod 253)) (fun _ => false)
      sample_d2h 24 stats0 =
    Some {| b_ret := BCME_ERROR; b_ring := set_seqnum sample_d2h 255; b_stats := st'; b_calls := [] |}.
Proof.
  destruct (abort_desync (fun _ => sample_msg 131 (254 mod 253)) (fun _ => false) sample_d2h [] 131 3 stats0)
    as (st' & E & _).
  - split; [cbn; lia|done].
  - cbn; lia.
  - cbn; lia.
  - cbn; lia.
  - intros k ty Hk. unfold aget in Hk. by destruct (0 <=? k).
  - apply sample_readable; unfold is_byte; split; vm_compute; congruence.
  - done.
  - done.
  - apply sample_arrives.
  - exists st'. exact E.
Defined.
