(* ===== verification/MsgPoll.v ===== *)
(** * Polling a completion ring

    dhd/sys/dhd_msgbuf.c: [dhd_prot_process_msgbuf_rxcpl],
    [dhd_prot_process_msgbuf_txcpl] and [dhd_prot_process_ctrlbuf] fetch
    batches from a D2H ring, dispatch them and publish the read index, until
    the ring is empty, the device is gone, or (the first two) a bound on the
    number of items is reached.  Between two iterations the dongle may do
    anything to its own indices. *)
From Stdlib Require Import ZArith Lia.
From stdpp Require Import base option numbers list.
From S2P Require Import Prelude Bytes Tcm RingIndex MsgRing MsgFifo MsgSync.

(** What iteration [k] of the loop meets. *)
Record poll_env (St : Type) := {
  e_removed : bool;          (* dhd_is_device_removed *)
  e_hang : bool;             (* hang_was_sent *)
  e_dev : St -> St;          (* what the dongle stored meanwhile *)
  e_msgs : Z -> snapshots;
  e_hangs : Z -> bool
}.
Arguments e_removed {_}. Arguments e_hang {_}. Arguments e_dev {_}.
Arguments e_msgs {_}. Arguments e_hangs {_}.

Record polled (St : Type) := {
  p_more : bool;
  p_st : St;
  p_ring : msgbuf_ring;
  p_stats : sync_stats;
  p_batches : list (Z * batch)    (* items fetched, what processing them gave *)
}.
Arguments p_more {_}. Arguments p_st {_}. Arguments p_ring {_}.
Arguments p_stats {_}. Arguments p_batches {_}.

Section poll.
Context {St : Type} `{!RingIdxOps St} (cb : d2h_sync_cb) (env : nat -> poll_env St).

(** [bound] is [None] in dhd_prot_process_ctrlbuf. *)
Fixpoint poll_loop (fuel k : nat) (bound : option Z) (n msg_len : Z) (s : St) (r : msgbuf_ring)
    (st : sync_stats) (bs : list (Z * batch)) : option (polled St) :=
  let res more s r st bs :=
    Some {| p_more := more; p_st := s; p_ring := r; p_stats := st; p_batches := bs |} in
  match fuel with
  | O => None
  | S fuel =>
      if e_removed (env k) then res true s r st bs
      else if e_hang (env k) then res false s r st bs
      else
      let s := e_dev (env k) s in
      '(msg_addr, msg_len, r) ← dhd_prot_get_read_addr s r msg_len;
      match (msg_addr : option Z) with
      | None => res false s r st bs
      | Some _ =>
          b ← dhd_prot_process_msgtype cb (e_msgs (env k)) (e_hangs (env k)) r msg_len st;
          let r := b_ring b in
          let bs := bs ++ [(msg_len / item_len r, b)] in
          s ← dhd_prot_upd_read_idx s r;
          let n := u32 (n + msg_len / item_len r) in
          match bound with
          | Some bound =>
              if bound <=? n then res true s r (b_stats b) bs
              else poll_loop fuel (S k) (Some bound) n msg_len s r (b_stats b) bs
          | None => poll_loop fuel (S k) None n msg_len s r (b_stats b) bs
          end
      end
  end.

Definition dhd_prot_process_msgbuf_rxcpl (fuel : nat) (s : St) (rx_cpln : msgbuf_ring) (st : sync_stats)
    (bound : Z) : option (polled St) :=
  poll_loop fuel 0 (Some bound) 0 0 s rx_cpln st [].
Definition dhd_prot_process_msgbuf_txcpl (fuel : nat) (s : St) (tx_cpln : msgbuf_ring) (st : sync_stats)
    (bound : Z) : option (polled St) :=
  poll_loop fuel 0 (Some bound) 0 0 s tx_cpln st [].
Definition dhd_prot_process_ctrlbuf (fuel : nat) (s : St) (ctrl_cpln : msgbuf_ring) (st : sync_stats)
    : option (polled St) :=
  poll_loop fuel 0 None 0 0 s ctrl_cpln st [].
End poll.

(** ** Processing a batch always returns *)
Lemma xor_words_Some n m i x :
  bytes m -> 0 <= i -> 4 * (i + Z.of_nat n) <= Z.of_nat (length m) -> is_Some (xor_words n m i x).
Proof.
  revert i x. induction n as [|n IH]; intros i x Hm Hi Hl; cbn [xor_words]; [by eauto|].
  destruct (ld_Some 4 m (4 * i)) as (v & -> & _); [done|lia|lia|]. cbn [mbind option_bind].
  apply IH; [done|lia|lia].
Qed.

Lemma xorcsum_ok_Some msg msglen seq t :
  msglen_ok msglen -> readable msg msglen -> is_Some (xorcsum_ok msg msglen seq t).
Proof.
  intros [Hl Hd] Hr. destruct (Hr t) as [Hb Hn]. unfold xorcsum_ok, bcm_compute_xor32.
  pose proof (Z.div_mod msglen 4).
  destruct (xor_words_Some (Z.to_nat (msglen / 4)) (msg t) 0 0) as [x ->]; [done|lia|lia|].
  cbn [mbind option_bind]. destruct (x =? 0); [|by eauto].
  destruct (aget_is_Some (msg t) 3) as [e ->]; [lia|]. by eauto.
Qed.

Lemma sync_run_total cb r msg msglen st :
  msglen_ok msglen -> readable msg msglen ->
  exists ty seq st', d2h_sync_run cb r msg msglen st = Some (ty, set_seqnum r seq, st') /\ 0 <= ty < 256.
Proof.
  intros Hl Hr.
  assert (forall t, exists ty, aget (msg t) 0 = Some ty /\ 0 <= ty < 256) as Hty.
  { intros t. destruct (Hr t) as [Hb Hn]. destruct Hl as [Hl _].
    destruct (aget_is_Some (msg t) 0) as [ty E]; [lia|]. exists ty. split; [done|].
    exact (aget_byte _ _ _ Hb E). }
  assert (forall ok, (forall t, is_Some (ok t)) -> exists ty seq st',
    d2h_sync ok msg r st = Some (ty, set_seqnum r seq, st') /\ 0 <= ty < 256) as Hs.
  { intros ok Hok. unfold d2h_sync.
    destruct (first_try ok (Z.to_nat PCIE_D2H_SYNC_WAIT_TRIES)) as [(t & Ht & Ho & Hno)|Hno]; [by intros|..].
    - rewrite (sync_wait_hit _ 0 t) by (done || lia). cbn [mbind option_bind].
      destruct (Hty (t + 1)) as (ty & -> & ?). eexists _, _, _. split; [reflexivity|done].
    - rewrite sync_wait_miss by (intros; apply Hno; lia). cbn [mbind option_bind].
      eexists _, _, _. split; [reflexivity|]. unfold MSG_TYPE_INVALID. lia. }
  destruct cb; cbn [d2h_sync_run].
  - apply Hs. intros t. destruct (seqnum_ok_spec msg msglen (seqnum r) t Hl Hr) as (v & _ & ->). eauto.
  - apply Hs. intros t. by apply xorcsum_ok_Some.
  - unfold dhd_prot_d2h_sync_none. destruct (Hty 0) as (ty & -> & ?).
    exists ty, (seqnum r), st. split; [by destruct r|done].
Qed.

Lemma process_loop_total fuel cb msgs hang i buf_len r st calls :
  msglen_ok (item_len r) -> (forall k, readable (msgs k) (item_len r)) -> buf_len <= Z.of_nat fuel ->
  exists b seq, process_loop fuel cb msgs hang i buf_len r st calls = Some b /\ b_ring b = set_seqnum r seq.
Proof.
  intros Hl Hr. revert i buf_len r st calls Hl Hr.
  induction fuel as [|fuel IH]; intros i buf_len r st calls Hl Hr Hf; cbn [process_loop].
  - destruct (Z.leb_spec buf_len 0); [|lia]. eexists _, (seqnum r). split; [done|]. by destruct r.
  - destruct (Z.leb_spec buf_len 0); [eexists _, (seqnum r); split; [done|]; by destruct r|].
    destruct (hang i); [eexists _, (seqnum r); split; [done|]; by destruct r|].
    destruct (sync_run_total cb r (msgs i) (item_len r) st Hl (Hr i)) as (ty & seq & st' & -> & Hty).
    cbn [mbind option_bind]. destruct (Z.leb_spec DHD_PROT_FUNCS ty); [by eexists _, seq|].
    destruct (table_some ty) as [h ->]; [lia|]. cbn [mbind option_bind item_len set_seqnum].
    destruct (Z.ltb_spec buf_len (item_len r)); [by eexists _, seq|].
    destruct (IH (i + 1) (buf_len - item_len r) (set_seqnum r seq) st'
      (match h with Some h0 => calls ++ [(h0, i)] | None => calls end)) as (b & seq' & -> & E);
      [done|done|destruct Hl; lia|].
    exists b, seq'. split; [done|]. by rewrite E.
Qed.

Lemma process_msgtype_total cb msgs hang r len st :
  msglen_ok (item_len r) -> (forall k, readable (msgs k) (item_len r)) ->
  exists b seq, dhd_prot_process_msgtype cb msgs hang r len st = Some b /\ b_ring b = set_seqnum r seq.
Proof.
  intros Hl Hr. unfold dhd_prot_process_msgtype. destruct (item_len r =? 0).
  - eexists _, (seqnum r). split; [done|]. by destruct r.
  - apply process_loop_total; [done|done|lia].
Qed.

(** ** The bounded loop *)
Definition items (bs : list (Z * batch)) : Z := foldr (fun b acc => fst b + acc) 0 bs.

Lemma items_snoc bs x b : items (bs ++ [(x, b)]) = items bs + x.
Proof. unfold items. induction bs as [|[y c] bs IH]; cbn in *; lia. Qed.

Section bounded.
Context {St : Type} (O : RingIdxOps St) (ring : Z) (I : RingIdx St O ring).

(** The dongle keeps its index within the ring and only touches its own. *)
Definition dev_ok (m : Z) (f : St -> St) : Prop :=
  forall s, ri_wf s -> ri_wf (f s) /\ 0 <= ri_peer (f s) < m.

Lemma poll_loop_bounded fuel k bound n ml cb (env : nat -> poll_env St) s r st bs :
  ri_wf s -> ring_wf r -> idx r = ring -> max_items r * item_len r < 2 ^ 31 -> msglen_ok (item_len r) ->
  (forall j, dev_ok (max_items r) (e_dev (env j))) ->
  (forall j i, readable (e_msgs (env j) i) (item_len r)) ->
  0 <= n < bound -> bound < 2 ^ 31 -> n = items bs -> bound - n <= Z.of_nat fuel ->
  exists p, poll_loop cb env fuel k (Some bound) n ml s r st bs = Some p /\
    items (p_batches p) <= bound - 1 + max_items r /\
    Z.of_nat (length (p_batches p)) <= Z.of_nat (length bs) + (bound - n).
Proof.
  revert k n ml s r st bs.
  induction fuel as [|fuel IH]; intros k n ml s r st bs Ws Wr Hi Hlen Hml Hdev Hmsg Hn Hbd Hit Hf; [lia|].
  cbn [poll_loop]. pose proof (rw_max _ Wr) as Hm. pose proof (rw_len _ Wr) as Hl.
  destruct (e_removed (env k)); [eexists; split; [done|]; cbn [p_batches]; lia|].
  destruct (e_hang (env k)); [eexists; split; [done|]; cbn [p_batches]; lia|].
  destruct (Hdev k s Ws) as [Ws1 Hp].
  destruct (get_read_addr_bounds (e_dev (env k) s) r (ri_peer (e_dev (env k) s)) ml Wr)
    as (p & len & r1 & E & Hwr & Hmx & Hpost); [by rewrite Hi; apply get_peer_spec|lia|lia|].
  rewrite E. cbn [mbind option_bind]. destruct p as [off|]; [|eexists; split; [done|]; cbn [p_batches]; lia].
  destruct Hpost as (q & -> & -> & Hq & Hfit & _ & Hrd).
  assert (item_len r1 = item_len r /\ idx r1 = idx r) as [El Ei].
  { unfold dhd_prot_get_read_addr in E. rewrite Hi, get_peer_spec in E by done.
    cbn [mbind option_bind] in E. destruct (_ =? 0); [done|].
    destruct (_ <=? _); [done|]. inversion E; subst r1. by destruct (_ <=? _). }
  destruct (process_msgtype_total cb (e_msgs (env k)) (e_hangs (env k)) r1 (q * item_len r) st)
    as (b & seq & -> & Eb); [by rewrite El|intros; rewrite El; apply Hmsg|].
  cbn [mbind option_bind]. rewrite Eb. cbn [item_len set_seqnum]. rewrite El, Z.div_mul by lia.
  unfold dhd_prot_upd_read_idx. cbn [idx rd set_seqnum]. rewrite Ei, Hi.
  pose proof (Z.mod_pos_bound (rd r + q) (max_items r)).
  destruct (put_own_spec (e_dev (env k) s) (rd r1) Ws1) as (s2 & -> & Ws2 & _); [lia|].
  cbn [mbind option_bind]. destruct Wr as [_ _ Hr0 _]. rewrite wrapu_small by zlia.
  destruct (Z.leb_spec bound (n + q)).
  - eexists. split; [done|]. cbn [p_batches]. rewrite items_snoc, length_app. cbn [length]. lia.
  - destruct (IH (S k) (n + q) (q * item_len r) s2 (set_seqnum r1 seq) (b_stats b) (bs ++ [(q, b)]))
      as (p & -> & H1 & H2); cbn [idx item_len max_items set_seqnum];
      rewrite ?Hmx, ?El; try done; try lia; try congruence.
    + constructor; cbn; rewrite ?Hmx, ?El; lia.
    + rewrite items_snoc. lia.
    + exists p. split; [done|]. cbn [max_items set_seqnum] in H1. rewrite Hmx in H1.
      rewrite length_app in H2. cbn [length] in H2. lia.
Qed.
End bounded.

(** * Properties *)

(** C40: polling a receive or transmit completion ring terminates whatever the
    dongle does: if the dongle keeps its write index within the ring and the
    messages are readable, dhd_prot_process_msgbuf_rxcpl (and _txcpl, the same
    loop) returns after at most [bound] batches, never leaves the ring buffer,
    and fetches fewer than [bound] + max_items items in all: a dongle that
    produces forever cannot keep the host in the loop. *)
Theorem process_msgbuf_bounded (ri : ring_info) (ring : Z) (cb : d2h_sync_cb) (env : nat -> poll_env dhd_pub)
    (d : dhd_pub) (r : msgbuf_ring) (st : sync_stats) (bound : Z) :
  index_wf ri d -> valid_ring d D2H ring -> ring_wf r -> idx r = ring ->
  max_items r * item_len r < 2 ^ 31 -> msglen_ok (item_len r) -> 1 <= bound < 2 ^ 31 ->
  (forall j, dev_ok d2h_ops ring (d2h_ring_idx ri ring) (max_items r) (e_dev (env j))) ->
  (forall j i, readable (e_msgs (env j) i) (item_len r)) ->
  exists p, @dhd_prot_process_msgbuf_rxcpl _ d2h_ops cb env (Z.to_nat bound) d r st bound = Some p /\
    @dhd_prot_process_msgbuf_txcpl _ d2h_ops cb env (Z.to_nat bound) d r st bound = Some p /\
    items (p_batches p) <= bound - 1 + max_items r /\
    Z.of_nat (length (p_batches p)) <= bound.
Proof.
  intros W Hv Wr Hi Hlen Hml Hb Hdev Hmsg.
  destruct (poll_loop_bounded d2h_ops ring (d2h_ring_idx ri ring) (Z.to_nat bound) 0 bound 0 0 cb env d r st [])
    as (p & E & H1 & H2); try done; try lia.
  exists p. split_and!; [exact E|exact E|lia|cbn in H2; lia].
Qed.

(** The dongle's store that announces two messages. *)
Definition two_env : poll_env dhd_pub :=
  {| e_removed := false; e_hang := false;
     e_dev := fun d => default d (cell_put d (Cell D2H true 3) 2);
     e_msgs := fun i => sample_msg 16 (u32 (254 + i) mod 253); e_hangs := fun _ => false |}.

Lemma two_env_ok m : 2 < m -> dev_ok d2h_ops 3 (d2h_ring_idx sample_ri 3) m (e_dev two_env).
Proof.
  intros Hm s Hs. cbn in Hs. destruct (cell_put_val sample_ri 3 D2H s true 2 Hs) as (s' & E & W & Hv & _); [lia|].
  cbn. rewrite E. cbn. rewrite Hv. split; [done|lia].
Qed.

Lemma process_msgbuf_bounded_witness :
  exists p, @dhd_prot_process_msgbuf_rxcpl _ d2h_ops CbSeqnum (fun _ => two_env) 8 filled_pub sample_d2h stats0 8
      = Some p /\ items (p_batches p) = 2 /\ p_more p = false.
Proof.
  destruct (process_msgbuf_bounded sample_ri 3 CbSeqnum (fun _ => two_env) filled_pub sample_d2h stats0 8)
    as (p & E & _).
  - exact filled_pub_wf.
  - split; vm_compute; congruence.
  - constructor; cbn; lia.
  - done.
  - cbn; lia.
  - split; [cbn; lia|done].
  - lia.
  - intros _. apply two_env_ok. cbn; lia.
  - intros _ i. pose proof (Z.mod_pos_bound (u32 (254 + i)) 253). apply sample_readable; unfold is_byte; lia.
  - exists p. split; [exact E|]. vm_compute in E. injection E as <-. split; reflexivity.
Defined.
