(* ===== verification/ProtState.v ===== *)
(** * The state of the message-buffer protocol

    dhd/sys/dhd_msgbuf.c, struct dhd_prot: the H2D rings, the packet-id map,
    the counters of the data path.  The rings are one list, by their number
    DHD_H2D_RING_OFFSET: 0 is h2dring_ctrl_subn, 1 h2dring_rxp_subn, ring [f]
    from 2 on is the ring of flow id [f] in h2d_flowrings_pool.  A ring's
    memory is its [dma_buf], a pointer into it an offset.  What the code does
    to the outside is a log of effects.  Locks are no-ops; the build is the one
    without BCM_SECURE_DMA. *)
From Stdlib Require Import ZArith Lia.
From stdpp Require Import base option numbers gmap list.
From S2P Require Import Prelude Bytes PktidMap Tcm RingIndex MsgRing MsgFifo.

(** ** Data *)
Definition DMA_TX : Z := 1.
Definition DMA_RX : Z := 2.
Definition ETHER_HDR_LEN : Z := 14.
Definition H2D_EPOCH_MODULO : Z := 253.

(** Calls that leave the driver's own state, oldest first: the cache flush and
    the doorbell of dhd_prot_ring_write_complete, the wake lock, DMA_MAP with
    the address it returned and DMA_UNMAP, dhd_txcomplete, PKTFREE, the hand-over
    of a received packet with the bytes to pull and its length, and an error
    report of dhd_pktid_audit; of the control path, the cache flush of the
    request buffer, the wake-up of the ioctl's sender, the hand-over of an event
    (dhd_bus_rx_frame), a core dump, and a flow-ring response handed to the bus
    layer. *)
Inductive effect :=
  | CacheFlush (ringid : Z) (p : option Z) (len : Z)
  | Doorbell (v : Z)
  | WakeLock | WakeUnlock
  | DmaMap (va len dir pa : Z)
  | DmaUnmap (pa len dir pkt : Z)
  | TxComplete (pkt : Z) (success : bool)
  | PktFree (pkt : Z) (send : bool)
  | RxPacket (pkt pull len ifidx : Z)
  | AuditError (pktid test_for : Z)
  | BufFlush (len : Z)
  | IoctlWake
  | RxFrame (pkt pull len ifidx : Z)
  | MemDump
  | FlowRingResponse (msg_type flowid status : Z).

(** A packet buffer: [pb_data] are the PKTLEN bytes from PKTDATA, which is the
    address [pb_va]; [pb_headroom] is PKTHEADROOM, [pb_flowid] the flow id in
    the packet tag. *)
Record pktbuf := {
  pb_pkt : Z;
  pb_flowid : Z;
  pb_va : Z;
  pb_data : list Z;
  pb_prio : Z;
  pb_headroom : Z
}.

Record dhd_prot := {
  p_pub : dhd_pub;
  p_flow_ring_table : bool;       (* dhd->flow_ring_table is not NULL *)
  p_info : gmap Z Z;              (* flow_ring_table[flowid].prot_info, where it is not NULL *)
  h2d_rings : list msgbuf_ring;
  pktid_map_handle : dhd_pktid_map;
  active_tx_count : Z;            (* uint16, like the fields below *)
  txp_threshold : Z;
  tx_metadata_offset : Z;
  rx_metadata_offset : Z;
  rxbufpost : Z;
  max_rxbufpost : Z;
  rx_dataoffset : Z;              (* uint32 *)
  rx_pktgetfail : Z;              (* ulong, of dhd_pub_t *)
  p_log : list effect
}.

Definition set_pub (p : dhd_prot) (v : dhd_pub) : dhd_prot :=
  {| p_pub := v; p_flow_ring_table := p_flow_ring_table p; p_info := p_info p; h2d_rings := h2d_rings p;
     pktid_map_handle := pktid_map_handle p; active_tx_count := active_tx_count p;
     txp_threshold := txp_threshold p; tx_metadata_offset := tx_metadata_offset p;
     rx_metadata_offset := rx_metadata_offset p; rxbufpost := rxbufpost p; max_rxbufpost := max_rxbufpost p;
     rx_dataoffset := rx_dataoffset p; rx_pktgetfail := rx_pktgetfail p; p_log := p_log p |}.
Definition set_info (p : dhd_prot) (v : gmap Z Z) : dhd_prot :=
  {| p_pub := p_pub p; p_flow_ring_table := p_flow_ring_table p; p_info := v; h2d_rings := h2d_rings p;
     pktid_map_handle := pktid_map_handle p; active_tx_count := active_tx_count p;
     txp_threshold := txp_threshold p; tx_metadata_offset := tx_metadata_offset p;
     rx_metadata_offset := rx_metadata_offset p; rxbufpost := rxbufpost p; max_rxbufpost := max_rxbufpost p;
     rx_dataoffset := rx_dataoffset p; rx_pktgetfail := rx_pktgetfail p; p_log := p_log p |}.
Definition set_rings (p : dhd_prot) (v : list msgbuf_ring) : dhd_prot :=
  {| p_pub := p_pub p; p_flow_ring_table := p_flow_ring_table p; p_info := p_info p; h2d_rings := v;
     pktid_map_handle := pktid_map_handle p; active_tx_count := active_tx_count p;
     txp_threshold := txp_threshold p; tx_metadata_offset := tx_metadata_offset p;
     rx_metadata_offset := rx_metadata_offset p; rxbufpost := rxbufpost p; max_rxbufpost := max_rxbufpost p;
     rx_dataoffset := rx_dataoffset p; rx_pktgetfail := rx_pktgetfail p; p_log := p_log p |}.
Definition set_map (p : dhd_prot) (v : dhd_pktid_map) : dhd_prot :=
  {| p_pub := p_pub p; p_flow_ring_table := p_flow_ring_table p; p_info := p_info p; h2d_rings := h2d_rings p;
     pktid_map_handle := v; active_tx_count := active_tx_count p;
     txp_threshold := txp_threshold p; tx_metadata_offset := tx_metadata_offset p;
     rx_metadata_offset := rx_metadata_offset p; rxbufpost := rxbufpost p; max_rxbufpost := max_rxbufpost p;
     rx_dataoffset := rx_dataoffset p; rx_pktgetfail := rx_pktgetfail p; p_log := p_log p |}.
Definition set_active (p : dhd_prot) (v : Z) : dhd_prot :=
  {| p_pub := p_pub p; p_flow_ring_table := p_flow_ring_table p; p_info := p_info p; h2d_rings := h2d_rings p;
     pktid_map_handle := pktid_map_handle p; active_tx_count := v;
     txp_threshold := txp_threshold p; tx_metadata_offset := tx_metadata_offset p;
     rx_metadata_offset := rx_metadata_offset p; rxbufpost := rxbufpost p; max_rxbufpost := max_rxbufpost p;
     rx_dataoffset := rx_dataoffset p; rx_pktgetfail := rx_pktgetfail p; p_log := p_log p |}.
Definition set_rxbufpost (p : dhd_prot) (v : Z) : dhd_prot :=
  {| p_pub := p_pub p; p_flow_ring_table := p_flow_ring_table p; p_info := p_info p; h2d_rings := h2d_rings p;
     pktid_map_handle := pktid_map_handle p; active_tx_count := active_tx_count p;
     txp_threshold := txp_threshold p; tx_metadata_offset := tx_metadata_offset p;
     rx_metadata_offset := rx_metadata_offset p; rxbufpost := v; max_rxbufpost := max_rxbufpost p;
     rx_dataoffset := rx_dataoffset p; rx_pktgetfail := rx_pktgetfail p; p_log := p_log p |}.
Definition set_pktgetfail (p : dhd_prot) (v : Z) : dhd_prot :=
  {| p_pub := p_pub p; p_flow_ring_table := p_flow_ring_table p; p_info := p_info p; h2d_rings := h2d_rings p;
     pktid_map_handle := pktid_map_handle p; active_tx_count := active_tx_count p;
     txp_threshold := txp_threshold p; tx_metadata_offset := tx_metadata_offset p;
     rx_metadata_offset := rx_metadata_offset p; rxbufpost := rxbufpost p; max_rxbufpost := max_rxbufpost p;
     rx_dataoffset := rx_dataoffset p; rx_pktgetfail := v; p_log := p_log p |}.
Definition emit (p : dhd_prot) (e : list effect) : dhd_prot :=
  {| p_pub := p_pub p; p_flow_ring_table := p_flow_ring_table p; p_info := p_info p; h2d_rings := h2d_rings p;
     pktid_map_handle := pktid_map_handle p; active_tx_count := active_tx_count p;
     txp_threshold := txp_threshold p; tx_metadata_offset := tx_metadata_offset p;
     rx_metadata_offset := rx_metadata_offset p; rxbufpost := rxbufpost p; max_rxbufpost := max_rxbufpost p;
     rx_dataoffset := rx_dataoffset p; rx_pktgetfail := rx_pktgetfail p; p_log := p_log p ++ e |}.

(** ** The helpers on one ring of the state *)
Definition ring_upd (p : dhd_prot) (i : Z) (r : msgbuf_ring) : option dhd_prot :=
  set_rings p <$> aset (h2d_rings p) i r.

Definition prot_alloc_ring_space (p : dhd_prot) (i nitems alloced : Z) (exactly_nitems : bool)
    : option (option Z * Z * dhd_prot) :=
  r ← aget (h2d_rings p) i;
  '(ptr, alloced, r) ← dhd_prot_alloc_ring_space (RingIdxOps0 := h2d_ops) (p_pub p) r nitems alloced exactly_nitems;
  p ← ring_upd p i r;
  Some (ptr, alloced, p).

(** dhd_prot_ring_write_complete, its cache flush and its doorbell included. *)
Definition prot_ring_write_complete (p : dhd_prot) (i : Z) (ptr : option Z) (nitems : Z) : option dhd_prot :=
  r ← aget (h2d_rings p) i;
  '(d, v) ← dhd_prot_ring_write_complete (RingIdxOps0 := h2d_ops) (p_pub p) r;
  Some (emit (set_pub p d) [CacheFlush (idx r) ptr (item_len r * nitems); Doorbell v]).

(** Assignments to the fields of the message at [off]. *)
Definition ring_fill (p : dhd_prot) (i off : Z) (fs : list (Z * list Z)) : option dhd_prot :=
  r ← aget (h2d_rings p) i;
  mem ← va (dma_buf r);
  mem ← st_fields mem off fs;
  ring_upd p i (set_dma_buf r {| va := Some mem; blen := blen (dma_buf r); pa_lo := pa_lo (dma_buf r) |}).

Definition prot_pktid_audit (p : dhd_prot) (pktid test_for : Z) : option dhd_prot :=
  '(rc, m) ← dhd_pktid_audit (Some (pktid_map_handle p)) pktid test_for;
  m ← m;
  Some (emit (set_map p m) (if rc =? BCME_OK then [] else [AuditError pktid test_for])).

(** The two halves of a dmaaddr_t. *)
Definition PHYSADDRHI (pa : Z) : Z := u32 (Z.shiftr pa 32).
Definition PHYSADDRLO (pa : Z) : Z := u32 pa.
Definition PHYSADDRISZERO (pa : Z) : bool := (PHYSADDRHI pa =? 0) && (PHYSADDRLO pa =? 0).

(** ** Ring numbers and slots *)
Definition ring_id (i : Z) : Z := if i <? BCMPCIE_H2D_COMMON_MSGRINGS then i else DHD_FLOWID_TO_RINGID i.

Definition slot (il : Z) (mem : list Z) (k : Z) : list Z := take (Z.to_nat il) (drop (Z.to_nat (k * il)) mem).
Definition slots (il n : Z) (mem : list Z) : list (list Z) := map (slot il mem) (seqZ 0 n).
