(* ===== verification/PktOut.v ===== *)
(** * The packet-id map seen by the data path

    The message-buffer code names every packet it hands to the dongle by a
    packet id, audits the id when the message is formed
    (dhd_pktid_audit DHD_DUPLICATE_ALLOC) and again when the dongle returns it
    (DHD_DUPLICATE_FREE).  [map_ok] relates the map to the finite map of the
    outstanding packets: their lockers are busy and hold them, every other id
    is on the free stack, and the audit bitmap marks exactly the outstanding
    ids that have not been audited back. *)
From Stdlib Require Import ZArith Lia.
From stdpp Require Import base option numbers gmap list.
From S2P Require Import Prelude MwBitmap PktidMap.

(** An outstanding packet: its locker and how far it got.  Its message is at a
    position of a ring, or the dongle has taken it, or the dongle has returned
    the id and the host has audited it but not released its locker. *)
Inductive place := OnRing (i pos : Z) | Taken | Returned.
#[export] Instance place_eq_dec : EqDecision place.
Proof. solve_decision. Defined.
Record out_entry := { e_item : dhd_pktid_item; e_where : place }.

(** What the audit knows of an id: whether it may be handed out. *)
Definition audit_idle (o : option out_entry) : bool :=
  match o with Some e => bool_decide (e_where e = Returned) | None => true end.

Record map_ok (n : Z) (m : dhd_pktid_map) (out : gmap Z out_entry) : Prop := {
  mo_wf : pm_wf n m;
  mo_out : forall k e, out !! k = Some e -> 1 <= k <= n /\ aget (lockers m) k = Some (e_item e) /\
    state (e_item e) = LOCKER_IS_BUSY /\ pkt (e_item e) <> 0;
  mo_free : forall k, 1 <= k <= n -> out !! k = None -> k ∈ free_keys m;
  mo_audit : exists a, pktid_audit m = Some a /\
    forall k, 1 <= k <= n -> isfree_bit a k = audit_idle (out !! k)
}.

(** Id [k] is reserved and not yet audited; its locker is [l]. *)
Record map_res (n : Z) (m : dhd_pktid_map) (out : gmap Z out_entry) (k : Z) (l : dhd_pktid_item) : Prop := {
  mr_wf : pm_wf n m;
  mr_k : 1 <= k <= n;
  mr_new : out !! k = None;
  mr_l : aget (lockers m) k = Some l;
  mr_busy : state l = LOCKER_IS_BUSY;
  mr_out : forall j e, out !! j = Some e -> 1 <= j <= n /\ aget (lockers m) j = Some (e_item e) /\
    state (e_item e) = LOCKER_IS_BUSY /\ pkt (e_item e) <> 0;
  mr_free : forall j, 1 <= j <= n -> out !! j = None -> j <> k -> j ∈ free_keys m;
  mr_audit : exists a, pktid_audit m = Some a /\
    forall j, 1 <= j <= n -> isfree_bit a j = audit_idle (out !! j)
}.

(** ** The audit, when it has nothing to report *)
Lemma audit_alloc_clean n m a k :
  pm_wf n m -> pktid_audit m = Some a -> mw_wf (n + 1) a -> 1 <= k <= n -> isfree_bit a k = true ->
  exists a', dhd_pktid_audit (Some m) k DHD_DUPLICATE_ALLOC = Some (BCME_OK, Some (with_audit m (Some a'))) /\
    mw_wf (n + 1) a' /\ forall j, 0 <= j -> isfree_bit a' j = isfree_bit a j && negb (j =? k).
Proof.
  intros W Ha Wa Hk Hf. pose proof (pm_n _ _ W) as Hn. unfold MAX_PKTID_ITEMS in Hn.
  unfold dhd_pktid_audit. rewrite Ha. unfold DHD_IOCTL_REQ_PKTID, DHD_FAKE_PKTID, DHD_PKTID_INVALID, MAX_PKTID_ITEMS.
  rewrite !(proj2 (Z.eqb_neq k _)) by lia. rewrite (proj2 (Z.ltb_ge 3072 k)) by lia.
  cbn [orb DHD_DUPLICATE_ALLOC Z.eqb Pos.eqb].
  rewrite (isfree_reads (n + 1) a k), Hf by (done || lia). cbn [mbind option_bind negb].
  destruct (force_take (n + 1) a k) as (a' & -> & Wa' & Hb); [done|lia|done|].
  cbn [mbind option_bind]. by exists a'.
Qed.

Lemma audit_free_clean n m a k :
  pm_wf n m -> pktid_audit m = Some a -> mw_wf (n + 1) a -> 1 <= k <= n -> isfree_bit a k = false ->
  exists a', dhd_pktid_audit (Some m) k DHD_DUPLICATE_FREE = Some (BCME_OK, Some (with_audit m (Some a'))) /\
    mw_wf (n + 1) a' /\ forall j, 0 <= j -> isfree_bit a' j = isfree_bit a j || (j =? k).
Proof.
  intros W Ha Wa Hk Hf. pose proof (pm_n _ _ W) as Hn. unfold MAX_PKTID_ITEMS in Hn.
  unfold dhd_pktid_audit. rewrite Ha. unfold DHD_IOCTL_REQ_PKTID, DHD_FAKE_PKTID, DHD_PKTID_INVALID, MAX_PKTID_ITEMS.
  rewrite !(proj2 (Z.eqb_neq k _)) by lia. rewrite (proj2 (Z.ltb_ge 3072 k)) by lia.
  cbn [orb DHD_DUPLICATE_ALLOC DHD_DUPLICATE_FREE Z.eqb Pos.eqb].
  rewrite (isfree_reads (n + 1) a k), Hf by (done || lia). cbn [mbind option_bind].
  destruct (free_give (n + 1) a k) as (a' & -> & Wa' & Hb); [done|lia|done|].
  cbn [mbind option_bind]. by exists a'.
Qed.

(** ** Taking an id *)
Lemma out_not_free n m out k e : map_ok n m out -> out !! k = Some e -> k ∉ free_keys m.
Proof.
  intros Hm He Hin. apply (mo_out _ _ _ Hm) in He as (Hk & Hl & Hs & _).
  apply (pm_free _ _ (mo_wf _ _ _ Hm)) in Hin as [_ Hf]. unfold lstate in Hf. rewrite Hl in Hf. cbn in Hf. congruence.
Qed.

Lemma reserve_out n m out p :
  map_ok n m out ->
  (exists m', dhd_pktid_map_reserve m p = Some (DHD_PKTID_INVALID, m') /\ map_ok n m' out /\
     forall k, 1 <= k <= n -> is_Some (out !! k)) \/
  (exists k l m', dhd_pktid_map_reserve m p = Some (k, m') /\ map_res n m' out k l /\ k <> DHD_PKTID_INVALID).
Proof.
  intros Hm. pose proof Hm as [Hwf Hout Hfree (a & Ha & Hb)]. pose proof (pm_avail _ _ Hwf).
  destruct (decide (avail m = 0)) as [E|E].
  - left. rewrite reserve_empty by done. eexists. split_and!; [done| |].
    + constructor; [by apply pm_wf_failures|exact Hout|exact Hfree|by exists a].
    + intros k Hk. destruct (out !! k) eqn:Ek; [by eexists|]. apply (Hfree k Hk) in Ek.
      pose proof (free_keys_length _ _ Hwf) as Hl. destruct (free_keys m); [by apply elem_of_nil in Ek|cbn in Hl; lia].
  - right. destruct (reserve_spec n m p Hwf) as (k & l & m' & -> & Hwf' & Hk & Hl & Hfk & E'); [lia|].
    pose proof (proj1 (pm_free _ _ Hwf k) Hk) as [Hkr _].
    exists k, (set_state (set_pkt l p) LOCKER_IS_BUSY), m'. split_and!; [done| |unfold DHD_PKTID_INVALID; lia].
    assert (out !! k = None) as Hnew.
    { destruct (out !! k) eqn:Ek; [|done]. by apply (out_not_free n m out k) in Ek. }
    subst m'. constructor; cbn [lockers pktid_audit]; try done.
    + rewrite aget_insert by (by eapply aget_lt). by rewrite decide_True.
    + intros j e He. rewrite aget_insert by (by eapply aget_lt). rewrite decide_False by congruence. by apply Hout.
    + intros j Hj Hn Hne. pose proof (Hfree j Hj Hn) as Hin. rewrite Hfk in Hin.
      apply elem_of_app in Hin as [|Hin]; [done|]. by apply list_elem_of_singleton in Hin.
    + by exists a.
Qed.

(** Giving the reserved id back. *)
Lemma reserved_free n m out k l :
  map_res n m out k l ->
  exists m', dhd_pktid_map_free m k PKTTYPE_NO_CHECK DHD_PKTID_FREE_LOCKER =
      Some (pkt l, Some (pa l, len l, dmah l, secdma l), m') /\ map_ok n m' out.
Proof.
  intros [Hwf Hk Hnew Hl Hs Hout Hfree (a & Ha & Hb)].
  destruct (free_ok n m k l PKTTYPE_NO_CHECK DHD_PKTID_FREE_LOCKER Hwf Hk Hl) as (m' & -> & Hwf' & Hfk & Hau & Hlk);
    [congruence|by left|].
  exists m'. split; [done|]. constructor; [done| | |].
  - intros j e He. rewrite Hlk, aget_insert by (by eapply aget_lt). rewrite decide_False by congruence. by apply Hout.
  - intros j Hj Hn. rewrite Hfk. cbn [DHD_PKTID_FREE_LOCKER]. apply elem_of_app.
    destruct (decide (j = k)) as [->|]; [right; by apply list_elem_of_singleton|left; by apply Hfree].
  - exists a. by rewrite Hau.
Qed.

Lemma reserved_save n m out k l p pa len dir dmah secdma ty :
  map_res n m out k l ->
  exists m', dhd_pktid_map_save m p k pa len dir dmah secdma ty = Some m' /\
    map_res n m' out k (mk_item LOCKER_IS_BUSY dir ty (u16 len) p pa dmah secdma).
Proof.
  intros [Hwf Hk Hnew Hl Hs Hout Hfree (a & Ha & Hb)].
  destruct (save_spec n m p k l pa len dir dmah secdma ty Hwf Hl) as (m' & -> & Hwf' & ->); [congruence|].
  eexists. split; [done|]. constructor; cbn [lockers pktid_audit with_lockers]; try done.
  - rewrite aget_insert by (by eapply aget_lt). by rewrite decide_True.
  - intros j e He. rewrite aget_insert by (by eapply aget_lt). rewrite decide_False by congruence. by apply Hout.
  - by exists a.
Qed.

(** The audit of a message that carries the id makes the packet outstanding. *)
Lemma reserved_audit n m out k l w (e := {| e_item := l; e_where := w |}) :
  map_res n m out k l -> pkt l <> 0 -> w <> Returned ->
  exists m', dhd_pktid_audit (Some m) k DHD_DUPLICATE_ALLOC = Some (BCME_OK, Some m') /\
    map_ok n m' (<[k := e]> out) /\ lockers m' = lockers m.
Proof.
  intros [Hwf Hk Hnew Hl Hs Hout Hfree (a & Ha & Hb)] Hz Hw.
  destruct (pm_audit _ _ Hwf) as (a0 & E0 & Wa). rewrite Ha in E0. injection E0 as <-.
  destruct (audit_alloc_clean n m a k Hwf Ha Wa Hk) as (a' & -> & Wa' & Hb'); [by rewrite Hb, Hnew|].
  eexists. split_and!; [done| |done]. constructor.
  - by apply pm_wf_audit.
  - intros j e' He. destruct (decide (k = j)) as [<-|Hne].
    + rewrite lookup_insert_eq in He. by injection He as <-.
    + rewrite lookup_insert_ne in He by done. by apply Hout.
  - intros j Hj Hn. apply lookup_insert_None in Hn as [Hn Hne]. by apply Hfree.
  - exists a'. split; [done|]. intros j Hj. rewrite Hb', Hb by lia.
    destruct (Z.eqb_spec j k) as [->|Hne]; cbn [negb].
    + rewrite lookup_insert_eq, andb_false_r. symmetry. by apply bool_decide_eq_false.
    + rewrite lookup_insert_ne by done. by rewrite andb_true_r.
Qed.

(** ** Giving an outstanding packet back *)
Definition returned (e : out_entry) : out_entry := {| e_item := e_item e; e_where := Returned |}.

(** The audit of the id the dongle returned. *)
Lemma audit_returned n m out k e :
  map_ok n m out -> out !! k = Some e -> e_where e <> Returned ->
  exists m', dhd_pktid_audit (Some m) k DHD_DUPLICATE_FREE = Some (BCME_OK, Some m') /\
    map_ok n m' (<[k := returned e]> out) /\ lockers m' = lockers m.
Proof.
  intros [Hwf Hout Hfree (a & Ha & Hb)] He Hw. pose proof (Hout k e He) as (Hk & Hl & Hs & Hz).
  destruct (pm_audit _ _ Hwf) as (a0 & E0 & Wa). rewrite Ha in E0. injection E0 as <-.
  destruct (audit_free_clean n m a k Hwf Ha Wa Hk) as (a' & -> & Wa' & Hb').
  { rewrite Hb, He by done. by apply bool_decide_eq_false. }
  eexists. split_and!; [done| |done]. constructor.
  - by apply pm_wf_audit.
  - intros j e' He'. destruct (decide (k = j)) as [<-|].
    + rewrite lookup_insert_eq in He'. by injection He' as <-.
    + rewrite lookup_insert_ne in He' by done. by apply Hout.
  - intros j Hj Hn. apply lookup_insert_None in Hn as [Hn _]. by apply Hfree.
  - exists a'. split; [done|]. intros j Hj. rewrite Hb', Hb by lia. destruct (Z.eqb_spec j k) as [->|Hne].
    + rewrite lookup_insert_eq, orb_true_r. done.
    + rewrite lookup_insert_ne by done. by rewrite orb_false_r.
Qed.

(** The release of its locker, asked for with the packet's type. *)
Lemma returned_release n m out k e (l := e_item e) :
  map_ok n m out -> out !! k = Some e -> e_where e = Returned ->
  exists m', dhd_pktid_map_free m k (pkttype l) DHD_PKTID_FREE_LOCKER =
      Some (pkt l, Some (pa l, len l, dmah l, secdma l), m') /\ map_ok n m' (delete k out).
Proof.
  intros [Hwf Hout Hfree (a & Ha & Hb)] He Hw. pose proof (Hout k e He) as (Hk & Hl & Hs & Hz). fold l in Hl, Hs, Hz.
  destruct (free_ok n m k l (pkttype l) DHD_PKTID_FREE_LOCKER Hwf Hk Hl) as (m2 & E2 & Hwf2 & Hfk & Hau & Hlk);
    [congruence|by right|].
  exists m2. rewrite E2. split; [done|]. constructor; [done| | |].
  - intros j e' Hj. apply lookup_delete_Some in Hj as [Hne Hj]. rewrite Hlk.
    rewrite aget_insert by (by eapply aget_lt). rewrite decide_False by done. by apply Hout.
  - intros j Hj Hn. rewrite Hfk. cbn [DHD_PKTID_FREE_LOCKER]. apply elem_of_app.
    destruct (decide (k = j)) as [<-|Hne]; [right; by apply list_elem_of_singleton|left].
    rewrite lookup_delete_ne in Hn by done. by apply Hfree.
  - exists a. rewrite Hau. split; [done|]. intros j Hj. rewrite Hb by done. destruct (decide (k = j)) as [<-|].
    + rewrite lookup_delete_eq, He. by apply bool_decide_eq_true.
    + by rewrite lookup_delete_ne.
Qed.

(** Both, one after the other. *)
Lemma returned_free n m out k e (l := e_item e) :
  map_ok n m out -> out !! k = Some e -> e_where e <> Returned ->
  exists m1 m2, dhd_pktid_audit (Some m) k DHD_DUPLICATE_FREE = Some (BCME_OK, Some m1) /\
    dhd_pktid_map_free m1 k (pkttype l) DHD_PKTID_FREE_LOCKER =
      Some (pkt l, Some (pa l, len l, dmah l, secdma l), m2) /\
    map_ok n m2 (delete k out).
Proof.
  intros Hm He Hw. destruct (audit_returned n m out k e Hm He Hw) as (m1 & E1 & Hm1 & _).
  destruct (returned_release n m1 _ k (returned e) Hm1) as (m2 & E2 & Hm2); [apply lookup_insert_eq|done|].
  exists m1, m2. split_and!; [done|done|]. by rewrite delete_insert_eq in Hm2.
Qed.

(** Where the message of an outstanding packet is plays no part in the map. *)
Lemma map_ok_where n m out id e w :
  map_ok n m out -> out !! id = Some e -> (w = Returned <-> e_where e = Returned) ->
  map_ok n m (<[id := {| e_item := e_item e; e_where := w |}]> out).
Proof.
  intros [Hwf Ho Hf (a & Ha & Hb)] He Hw. constructor; [done| | |].
  - intros k e'. destruct (decide (id = k)) as [<-|].
    + rewrite lookup_insert_eq. intros [= <-]. exact (Ho id e He).
    + rewrite lookup_insert_ne by done. apply Ho.
  - intros k Hk Hkn. apply Hf; [done|]. by apply lookup_insert_None in Hkn as [? _].
  - exists a. split; [done|]. intros k Hk. rewrite Hb by done. destruct (decide (id = k)) as [<-|].
    + rewrite lookup_insert_eq, He. by apply bool_decide_ext.
    + by rewrite lookup_insert_ne.
Qed.

(** ** Counting *)
Lemma map_ok_size n m out : map_ok n m out -> Z.of_nat (size out) <= n.
Proof.
  intros Hm. pose proof (pm_n _ _ (mo_wf _ _ _ Hm)). rewrite <- size_dom.
  assert (dom out ⊆ list_to_set (seqZ 1 n)) as Hsub.
  { intros k [e He]%elem_of_dom. apply elem_of_list_to_set, elem_of_seqZ.
    apply (mo_out _ _ _ Hm) in He as [? _]. lia. }
  apply subseteq_size in Hsub. rewrite size_list_to_set, length_seqZ in Hsub by apply NoDup_seqZ. lia.
Qed.
