(* ===== verification/ProtInv.v ===== *)
(** * The invariant of the data path

    What holds between two operations of [ProtTx] and [ProtRx]: every ring is
    in the FIFO invariant of [MsgFifo] for the descriptors the host put on it,
    the items not yet announced are one run that ends at the write index, the
    cache flushes cover exactly the announced items, and the packet-id map
    holds exactly the outstanding packets. *)
From Stdlib Require Import ZArith Lia.
From stdpp Require Import base option numbers gmap list.
From S2P Require Import Prelude Bytes MwBitmap PktidMap Tcm RingIndex MsgRing MsgFifo ProtState.

(** ** Slots of a ring's memory *)
Lemma length_slots il n mem : 0 <= n -> Z.of_nat (length (slots il n mem)) = n.
Proof. intros. unfold slots. rewrite length_map, length_seqZ. lia. Qed.

Lemma aget_seqZ n k : 0 <= k < n -> aget (seqZ 0 n) k = Some k.
Proof.
  intros Hk. unfold aget. destruct (Z.leb_spec 0 k); [|lia].
  rewrite lookup_seqZ_lt by lia. f_equal. lia.
Qed.

Lemma aget_map {A B} (f : A -> B) l k : aget (map f l) k = f <$> aget l k.
Proof. unfold aget. destruct (0 <=? k); [apply list_lookup_fmap|done]. Qed.

Lemma aget_slots il n mem k : 0 <= k < n -> aget (slots il n mem) k = Some (slot il mem k).
Proof. intros Hk. unfold slots. rewrite aget_map, aget_seqZ by done. done. Qed.

Lemma aget_slot il mem k j :
  0 <= k -> 0 <= j < il -> aget (slot il mem k) j = aget mem (k * il + j).
Proof.
  intros Hk Hj. unfold slot, aget.
  destruct (Z.leb_spec 0 j), (Z.leb_spec 0 (k * il + j)); try nia.
  rewrite lookup_take_lt, lookup_drop by lia. f_equal. nia.
Qed.

Lemma length_slot il mem k :
  0 <= il -> 0 <= k -> (k + 1) * il <= Z.of_nat (length mem) -> Z.of_nat (length (slot il mem k)) = il.
Proof. intros Hi Hk Hl. unfold slot. rewrite length_take, length_drop. nia. Qed.

(** A slot none of whose bytes changed. *)
Lemma slot_same il mem mem' k :
  0 <= il -> 0 <= k -> length mem' = length mem ->
  (forall j, k * il <= j < k * il + il -> aget mem' j = aget mem j) -> slot il mem' k = slot il mem k.
Proof.
  intros Hi Hk Hl Hs. apply aget_ext.
  - unfold slot. rewrite !length_take, !length_drop. by rewrite Hl.
  - intros j Hj. rewrite <- Hl in Hj || idtac. unfold slot in Hj. rewrite length_take in Hj.
    rewrite !aget_slot by lia. apply Hs. lia.
Qed.

Lemma ld_slot n il mem k o :
  0 <= k -> 0 <= o -> o + Z.of_nat n <= il -> ld n (slot il mem k) o = ld n mem (k * il + o).
Proof.
  intros Hk Ho Hn. unfold ld. f_equal. apply ld_bytes_ext. intros j Hj.
  rewrite aget_slot by lia. f_equal. lia.
Qed.
Lemma ld_bytes_slot n il mem k o :
  0 <= k -> 0 <= o -> o + Z.of_nat n <= il -> ld_bytes (slot il mem k) o n = ld_bytes mem (k * il + o) n.
Proof.
  intros Hk Ho Hn. apply ld_bytes_ext. intros j Hj.
  rewrite aget_slot by lia. f_equal. lia.
Qed.

(** ** One ring *)

(** What the dongle has seen of a ring: its read index, the descriptors the
    host put on the ring and the ones the dongle took. *)
Record ring_ghost := { g_drd : Z; g_sent : list (list Z); g_got : list (list Z) }.

Definition ring_mem (r : msgbuf_ring) : list Z := default [] (va (dma_buf r)).
Definition ring_view (d : dhd_pub) (r : msgbuf_ring) (g : ring_ghost) : @h2d_sys dhd_pub (list Z) :=
  {| h_st := d; h_ring := r; h_mem := slots (item_len r) (max_items r) (ring_mem r);
     h_drd := g_drd g; h_sent := g_sent g; h_got := g_got g |}.

(** The slots flushed from the cache, in the order of the flushes. *)
Definition flushed_by (ringid il : Z) (e : effect) : list Z :=
  match e with
  | CacheFlush id (Some off) len => if id =? ringid then seqZ (off / il) (len / il) else []
  | _ => []
  end.
Definition flushed (ringid il : Z) (log : list effect) : list Z := log ≫= flushed_by ringid il.

Section ring.
Context (ri : ring_info).

(** [u] items are on the ring and not announced. *)
Record ring_ok (d : dhd_pub) (log : list effect) (i : Z) (r : msgbuf_ring) (g : ring_ghost) (u : Z) : Prop := {
  ro_wf : ring_wf r;
  ro_idx : idx r = ring_id i;
  ro_valid : valid_ring d H2D (ring_id i);
  ro_mem : exists mem, va (dma_buf r) = Some mem /\ Z.of_nat (length mem) = max_items r * item_len r;
  ro_u : 0 <= u /\ (u <> 0 -> (Z.of_nat (length (g_sent g)) - u) mod max_items r + u <= max_items r);
  ro_cnt : exists C R, h2d_counters h2d_ops (ring_id i) (h2d_ring_idx ri (ring_id i)) (ring_view d r g) C R
             (Z.of_nat (length (g_sent g)) - u);
  ro_flush : flushed (ring_id i) (item_len r) log =
             map (fun k => k mod max_items r) (seqZ 0 (Z.of_nat (length (g_sent g)) - u))
}.

Lemma ring_id_inj i j : 0 <= i -> 0 <= j -> ring_id i = ring_id j -> i = j.
Proof.
  unfold ring_id, DHD_FLOWID_TO_RINGID, BCMPCIE_H2D_COMMON_MSGRINGS, BCMPCIE_COMMON_MSGRINGS.
  intros Hi Hj. destruct (Z.ltb_spec i 2), (Z.ltb_spec j 2); lia.
Qed.

Lemma flushed_app id il l1 l2 : flushed id il (l1 ++ l2) = flushed id il l1 ++ flushed id il l2.
Proof. apply bind_app. Qed.

(** Nothing of the ring changed: the store's cells of the ring and the
    flushes of the ring are the same. *)
Lemma ring_ok_frame d d' log log' i r g u :
  ring_ok d log i r g u ->
  (forall w, cell_val d' (Cell H2D w (ring_id i)) = cell_val d (Cell H2D w (ring_id i))) ->
  valid_ring d' H2D (ring_id i) ->
  flushed (ring_id i) (item_len r) log' = flushed (ring_id i) (item_len r) log ->
  ring_ok d' log' i r g u.
Proof.
  intros [Hw Hi Hv Hm Hu (C & R & Hc) Hf] Hcell Hv' Hlog. constructor; try done; [|by rewrite Hlog].
  exists C, R. apply (counters_frame _ _ _ _ C R _ d') in Hc; [exact Hc|apply Hcell..].
Qed.

(** ** The index store *)
Lemma ring_wf_store d i : index_wf ri d -> valid_ring d H2D (ring_id i) -> ri_wf (RingIdx := h2d_ring_idx ri (ring_id i)) d.
Proof. by split. Qed.

(** A store to one index cell of ring [i]. *)
Lemma h2d_cell_put d i w v :
  index_wf ri d -> valid_ring d H2D (ring_id i) -> 0 <= v < 2 ^ 16 ->
  exists d', cell_put d (Cell H2D w (ring_id i)) v = Some d' /\ index_wf ri d' /\ arr_len d' = arr_len d /\
    forall w' j, 0 <= i -> 0 <= j -> j <> i -> valid_ring d H2D (ring_id j) ->
      cell_val d' (Cell H2D w' (ring_id j)) = cell_val d (Cell H2D w' (ring_id j)).
Proof.
  intros W Hv Hr. destruct (cell_put_Some ri d (Cell H2D w (ring_id i)) v W Hv Hr)
    as (d' & E & W' & _ & Ha & Hg). exists d'. split_and!; [done..|].
  intros w' j Hi Hj Hne Hvj. unfold cell_val. rewrite Hg by done. rewrite decide_False; [done|].
  intros [= _ Ei]. by apply ring_id_inj in Ei.
Qed.

(** ** The host's operations on one ring *)
Lemma alloc_shape d r n a0 ex ptr a r' :
  dhd_prot_alloc_ring_space (RingIdxOps0 := h2d_ops) d r n a0 ex = Some (ptr, a, r') ->
  r' = set_wr (set_rd r (rd r')) (wr r').
Proof.
  assert (forall r0 a0 ptr a r', dhd_prot_get_ring_space r0 n a0 ex = (ptr, a, r') ->
            r' = set_wr r0 (wr r') /\ rd r' = rd r0) as Hget.
  { intros r0 a2 ptr1 a1 r1. unfold dhd_prot_get_ring_space.
    destruct (_ || _); [intros [= <- <- <-]; by destruct r0|].
    destruct (_ =? _); [intros [= <- <- <-]; by destruct r0|].
    destruct (_ <? _); intros [= <- <- <-]; by destruct r0. }
  unfold dhd_prot_alloc_ring_space. destruct (dhd_prot_get_ring_space r n a0 ex) as [[[p|] a1] r1] eqn:E.
  - intros [= <- <- <-]. apply Hget in E as [E1 E2]. rewrite E1 at 1. rewrite E2. by destruct r.
  - apply Hget in E as [E1 E2]. destruct (get_peer d (idx r1) (rd r1)) as [v|]; [|done].
    cbn [mbind option_bind]. intros [= E]. apply Hget in E as [E3 E4]. rewrite E3 at 1. rewrite E4, E1.
    by destruct r.
Qed.

(** Space for [a] items was granted at the write index. *)
Definition granted (d : dhd_pub) (i : Z) (r : msgbuf_ring) (g : ring_ghost) (u : Z) (r' : msgbuf_ring) (a : Z) : Prop :=
  let P := Z.of_nat (length (g_sent g)) in
  exists C R C', h2d_counters h2d_ops (ring_id i) (h2d_ring_idx ri (ring_id i)) (ring_view d r g) C R (P - u) /\
    C <= C' <= R /\ rd r' = C' mod max_items r /\ P + a <= C' + max_items r - 1 /\
    P mod max_items r + a <= max_items r /\ wr r' = (P + a) mod max_items r.

Lemma ring_alloc d log i r g u n ex :
  index_wf ri d -> ring_ok d log i r g u -> 0 <= n < 2 ^ 16 ->
  exists ptr a r', dhd_prot_alloc_ring_space (RingIdxOps0 := h2d_ops) d r n 0 ex = Some (ptr, a, r') /\
    r' = set_wr (set_rd r (rd r')) (wr r') /\
    match ptr with
    | None => ring_ok d log i r' g u /\
        (cell_val d (Cell H2D false (ring_id i)) = wr r -> n = 0 \/ max_items r - 1 < n)
    | Some off => off = Z.of_nat (length (g_sent g)) mod max_items r * item_len r /\
        0 <= a <= n /\ (0 < n -> 0 < a) /\ granted d i r g u r' a
    end.
Proof.
  intros W [Hw Hi Hv Hm [Hu Hrun] (C & R & Hc) Hf] Hn. pose proof (rw_max _ Hw) as Hmax.
  pose proof Hc as (HC & HR & HV & Hrd & Hp & Hd & Ho & Hwr & Hg & Hmem).
  cbn [h_st h_ring h_mem h_drd h_sent h_got ring_view] in *.
  destruct (alloc_counters h2d_ops (ring_id i) (h2d_ring_idx ri (ring_id i)) d r C R
    (Z.of_nat (length (g_sent g))) n ex) as (ptr & a & r' & C' & E & W' & I' & M' & L' & HC' & Hr' & Hpost);
    [by split|done..|lia|lia|].
  pose proof (alloc_shape d r n 0 ex ptr a r' E) as Es. exists ptr, a, r'. split_and!; [done|done|].
  destruct ptr as [off|].
  - destruct Hpost as (-> & [Ha Ha'] & Hfit & Hcap & Hw'). split_and!; [done|lia|lia|done|].
    exists C, R, C'. split_and!; try done; lia.
  - destruct Hpost as (Hw' & -> & Hfull). split.
    + rewrite Es. constructor; cbn [idx dma_buf item_len max_items set_wr set_rd]; try done.
      { rewrite <- Es. done. }
      exists R, R. unfold h2d_counters. cbn [h_st h_ring h_mem h_drd h_sent h_got ring_view max_items rd wr
        set_wr set_rd ring_mem item_len dma_buf]. rewrite Hw'. split_and!; try done; lia.
    + intros Ep. apply Hfull. cbn in Hp. rewrite Hp, Hwr in Ep.
      apply mod_eq_near in Ep; lia.
Qed.

(** The host filled [xs] of the granted slots. *)
Lemma ring_post d log i r g u r' a r2 mem mem2 xs :
  ring_ok d log i r g u -> granted d i r g u r' a ->
  (u <> 0 -> (Z.of_nat (length (g_sent g)) - u) mod max_items r + u < max_items r) ->
  Z.of_nat (length xs) <= a ->
  va (dma_buf r) = Some mem -> va (dma_buf r2) = Some mem2 -> length mem2 = length mem ->
  idx r2 = idx r -> max_items r2 = max_items r -> item_len r2 = item_len r -> rd r2 = rd r' ->
  wr r2 = (Z.of_nat (length (g_sent g)) + Z.of_nat (length xs)) mod max_items r ->
  let q := Z.of_nat (length (g_sent g)) mod max_items r in
  (forall j, j < q * item_len r \/ (q + a) * item_len r <= j -> aget mem2 j = aget mem j) ->
  (forall k, 0 <= k < Z.of_nat (length xs) -> aget xs k = Some (slot (item_len r) mem2 (q + k))) ->
  ring_ok d log i r2 {| g_drd := g_drd g; g_sent := g_sent g ++ xs; g_got := g_got g |}
    (u + Z.of_nat (length xs)).
Proof.
  intros [Hw Hi Hv Hm [Hu Hrun] _ Hf] (C & R & C' & Hc & HC' & Hrd' & Hcap & Hfit & _) Hrun' Hxs
    Hmem1 Hmem2 Hlen Hidx Emax Eil Erd Ewr q Hout Hin.
  pose proof (rw_max _ Hw) as Hmax. pose proof (rw_len _ Hw) as Hil.
  pose proof Hc as (HC & HR & HV & Hrd & Hp & Hd & Ho & Hwr & Hg & Hlm & Hmem).
  cbn [h_st h_ring h_mem h_drd h_sent h_got ring_view] in *.
  set (P := Z.of_nat (length (g_sent g))) in *. set (k := Z.of_nat (length xs)) in *.
  pose proof (Z.mod_pos_bound P (max_items r) ltac:(lia)) as Hq. fold q in Hq, Hfit.
  assert (ring_mem r = mem) as Em1 by (unfold ring_mem; by rewrite Hmem1).
  assert (ring_mem r2 = mem2) as Em2 by (unfold ring_mem; by rewrite Hmem2).
  assert (P + k - (u + k) = P - u) as EV by lia.
  constructor; cbn [g_sent g_got g_drd]; rewrite ?length_app, ?Nat2Z.inj_add; fold P k; rewrite ?EV, ?Emax, ?Eil.
  - constructor; rewrite ?Emax, ?Eil; try (apply Hw).
    + rewrite Erd, Hrd'. apply Z.mod_pos_bound. lia.
    + rewrite Ewr. apply Z.mod_pos_bound. lia.
  - congruence.
  - done.
  - exists mem2. split; [done|]. destruct Hm as (mem0 & E0 & ?). rewrite Hmem1 in E0. injection E0 as ->. lia.
  - split; [lia|]. intros _. destruct (decide (u = 0)) as [->|Hne].
    + rewrite Z.sub_0_r. fold q. lia.
    + specialize (Hrun' Hne). specialize (Hrun Hne).
      assert (q = (P - u) mod max_items r + u) as Eq; [|lia].
      unfold q. replace P with (P - u + u) at 1 by lia. rewrite mod_step by lia.
      destruct (Z.eqb_spec ((P - u) mod max_items r + u) (max_items r)); lia.
  - exists C', R.
    apply (counters_post h2d_ops (ring_id i) (h2d_ring_idx ri (ring_id i)) (ring_view d r g) C R (P - u) C' r2
             (slots (item_len r2) (max_items r2) (ring_mem r2)) xs) in Hc; cbn [h_ring h_mem h_sent h_got ring_view];
      try done; try lia.
    + apply Nat2Z.inj. rewrite !length_slots; lia.
    + rewrite Emax, Eil. intros j Hj. pose proof (Z.mod_pos_bound j (max_items r) ltac:(lia)).
      rewrite !aget_slots, Em1, Em2 by lia. f_equal. apply slot_same; [lia|lia|done|].
      intros b Hb. apply Hout.
      assert (j mod max_items r < q \/ q + a <= j mod max_items r) as [|]; [|nia|nia].
      destruct (decide (j mod max_items r < q)); [by left|right].
      destruct (decide (q + a <= j mod max_items r)); [done|exfalso].
      assert (j = P + (j mod max_items r - q)); [|fold P in Hj; lia].
      apply (mod_eq_near (max_items r)); [lia|fold P in Hj; lia|].
      rewrite mod_step by (fold q; lia). fold q.
      destruct (Z.eqb_spec (q + (j mod max_items r - q)) (max_items r)); lia.
    + rewrite Emax, Eil. intros j Hj. fold P. fold k in Hj. rewrite mod_step by (fold q; lia). fold q.
      destruct (Z.eqb_spec (q + j) (max_items r)); [lia|]. rewrite aget_slots, Em2, Hin by lia. done.
  - exact Hf.
Qed.

(** The pending items are announced; [ptr] is the first of them. *)
Lemma ring_complete d log i r g u :
  index_wf ri d -> 0 <= i -> ring_ok d log i r g u -> 0 < u ->
  let off := (Z.of_nat (length (g_sent g)) - u) mod max_items r * item_len r in
  exists d', dhd_prot_ring_write_complete (RingIdxOps0 := h2d_ops) d r = Some (d', wr r) /\
    index_wf ri d' /\ arr_len d' = arr_len d /\
    ring_ok d' (log ++ [CacheFlush (idx r) (Some off) (item_len r * u); Doorbell (wr r)]) i r g 0 /\
    forall w j, 0 <= j -> j <> i -> valid_ring d H2D (ring_id j) ->
      cell_val d' (Cell H2D w (ring_id j)) = cell_val d (Cell H2D w (ring_id j)).
Proof.
  intros W Hi0 [Hw Hi Hv Hm [Hu Hrun] (C & R & Hc) Hf] Hu' off. pose proof (rw_max _ Hw) as Hmax.
  pose proof (rw_len _ Hw) as Hil. specialize (Hrun ltac:(lia)).
  destruct (counters_complete h2d_ops (ring_id i) (h2d_ring_idx ri (ring_id i)) (ring_view d r g) C R
    (Z.of_nat (length (g_sent g)) - u)) as (d' & E & Eput & W' & Hc'); cbn [h_st h_ring ring_view];
    [lia|by split|done|done|].
  cbn [h_st h_ring ring_view] in *.
  assert (0 <= wr r < 2 ^ 16) as Hwb by (destruct Hw; lia).
  destruct (h2d_cell_put d i true (wr r) W Hv Hwb) as (d2 & E2 & W2 & Ha & Hcell).
  cbn [put_own h2d_ops] in Eput. rewrite (h2d_put_wr_cell ri d) in Eput by (done || apply W).
  rewrite E2 in Eput. injection Eput as ->.
  exists d'. split_and!; [done|done|done| |intros w j ? ? ?; by apply Hcell].
  constructor; try done; [by apply W'|by exists C, R; rewrite Z.sub_0_r|].
  rewrite flushed_app, Hf, Z.sub_0_r. unfold flushed. cbn [mbind list_bind flushed_by].
  rewrite Hi, Z.eqb_refl. cbn [app]. rewrite app_nil_r. unfold off. rewrite (Z.mul_comm _ u), !Z.div_mul by lia.
  set (P := Z.of_nat (length (g_sent g))) in *.
  assert (0 <= P - u) as HPu.
  { destruct Hc as (HC & HR & HV & _). lia. }
  replace (seqZ 0 P) with (seqZ 0 (P - u) ++ seqZ (P - u) u).
  2: { rewrite <- (Z.add_0_l (P - u)) at 2. rewrite <- seqZ_app by lia. f_equal. lia. }
  rewrite map_app. f_equal. apply aget_ext; [by rewrite length_map, !length_seqZ|].
  intros j Hj. rewrite length_seqZ in Hj. rewrite aget_map. unfold aget. destruct (Z.leb_spec 0 j); [|lia].
  rewrite !lookup_seqZ_lt by lia. cbn. f_equal. rewrite Z2Nat.id, mod_step by lia.
  destruct (Z.eqb_spec ((P - u) mod max_items r + j) (max_items r)); lia.
Qed.

(** ** The dongle's steps on one ring *)
Lemma ring_take d log i r g u :
  ring_ok d log i r g u -> g_drd g <> cell_val d (Cell H2D true (ring_id i)) ->
  exists x, aget (slots (item_len r) (max_items r) (ring_mem r)) (g_drd g) = Some x /\
    aget (g_sent g) (Z.of_nat (length (g_got g))) = Some x /\
    ring_ok d log i r {| g_drd := nxt (max_items r) (g_drd g); g_sent := g_sent g; g_got := g_got g ++ [x] |} u.
Proof.
  intros [Hw Hi Hv Hm Hu (C & R & Hc) Hf] Hne. pose proof (rw_max _ Hw) as Hmax.
  destruct (counters_take h2d_ops (ring_id i) (h2d_ring_idx ri (ring_id i)) (ring_view d r g) C R
    (Z.of_nat (length (g_sent g)) - u)) as (x & Hx & Hx' & _ & Hc'); [cbn; lia|done|done|].
  exists x. split_and!; [done..|]. constructor; try done. by exists C, R.
Qed.

Lemma ring_publish d log i r g u :
  index_wf ri d -> 0 <= i -> ring_ok d log i r g u ->
  exists d', cell_put d (Cell H2D false (ring_id i)) (g_drd g) = Some d' /\ index_wf ri d' /\ arr_len d' = arr_len d /\
    ring_ok d' log i r g u /\
    forall w j, 0 <= j -> j <> i -> valid_ring d H2D (ring_id j) ->
      cell_val d' (Cell H2D w (ring_id j)) = cell_val d (Cell H2D w (ring_id j)).
Proof.
  intros W Hi0 [Hw Hi Hv Hm Hu (C & R & Hc) Hf]. pose proof (rw_max _ Hw) as Hmax.
  assert (0 <= g_drd g < 2 ^ 16) as Hb.
  { destruct Hc as (_ & _ & _ & _ & _ & Hd & _). cbn in Hd. rewrite Hd.
    pose proof (Z.mod_pos_bound (Z.of_nat (length (g_got g))) (max_items r)). lia. }
  destruct (h2d_cell_put d i false (g_drd g) W Hv Hb) as (d' & E & W' & Ha & Hcell).
  exists d'. split_and!; [done|done|done| |intros w j ? ? ?; by apply Hcell].
  destruct (counters_publish h2d_ops (ring_id i) (h2d_ring_idx ri (ring_id i)) (ring_view d r g) C R
    (Z.of_nat (length (g_sent g)) - u) d') as [Wd Hc']; cbn [h_st h_ring ring_view];
    [lia|by split|done|done|].
  constructor; try done; [by apply Wd|]. by eexists _, _.
Qed.
End ring.
