(* ===== verification/ProtSys.v ===== *)
(** * The data path and the dongle as one system

    The protocol state of [ProtState] with what the dongle has seen of each
    ring, the outstanding packets and the accepted transmit packets; its
    invariant [sys_ok] and how the steps of [ProtTx] and [ProtRx] keep it. *)
From Stdlib Require Import ZArith Lia.
From stdpp Require Import base option numbers gmap list.
From S2P Require Import Prelude Bytes MwBitmap PktidMap PktOut Tcm RingIndex MsgRing MsgFifo ProtState ProtInv.

(** ** Reading the log *)
Definition wake1 (e : effect) : Z := match e with WakeLock => 1 | WakeUnlock => -1 | _ => 0 end.
Definition wake_depth (log : list effect) : Z := foldr (fun e n => wake1 e + n) 0 log.
(** The transmit packets given back, oldest first. *)
Definition completed (log : list effect) : list Z :=
  omap (fun e => match e with TxComplete pkt true => Some pkt | _ => None end) log.
Definition clean (log : list effect) : Prop :=
  Forall (fun e => match e with AuditError _ _ => False | _ => True end) log.

(** Effects that flush no ring but [i], complete no packet, report no audit
    error and leave the wake lock alone. *)
Definition quiet (i : Z) (e : list effect) : Prop :=
  Forall (fun e => match e with
                   | CacheFlush id _ _ => id = ring_id i
                   | WakeLock | WakeUnlock | TxComplete _ _ | AuditError _ _ => False
                   | _ => True
                   end) e.

Lemma wake_depth_app l1 l2 : wake_depth (l1 ++ l2) = wake_depth l1 + wake_depth l2.
Proof. induction l1 as [|e l1 IH]; [done|]. unfold wake_depth in *. cbn [foldr app]. lia. Qed.
Lemma completed_app l1 l2 : completed (l1 ++ l2) = completed l1 ++ completed l2.
Proof. apply omap_app. Qed.

Lemma quiet_app i e1 e2 : quiet i e1 -> quiet i e2 -> quiet i (e1 ++ e2).
Proof. intros. by apply Forall_app. Qed.
Lemma quiet_wake i e : quiet i e -> wake_depth e = 0.
Proof. induction 1 as [|x e Hx _ IH]; [done|]. unfold wake_depth in *. cbn [foldr]. rewrite IH. by destruct x. Qed.
Lemma quiet_completed i e : quiet i e -> completed e = [].
Proof. induction 1 as [|x e Hx _ IH]; [done|]. unfold completed in *. cbn. rewrite IH. by destruct x. Qed.
Lemma quiet_clean i e : quiet i e -> clean e.
Proof. intros H. eapply Forall_impl; [exact H|]. intros x. by destruct x. Qed.
Lemma quiet_other i j il e : 0 <= i -> 0 <= j -> j <> i -> quiet i e -> flushed (ring_id j) il e = [].
Proof.
  intros Hi Hj Hne. induction 1 as [|x e Hx _ IH]; [done|]. unfold flushed in *. cbn [mbind list_bind].
  rewrite IH, app_nil_r. destruct x as [id [off|] len| | | | | | | | | | | | | |]; try done. cbn. cbn in Hx. subst id.
  destruct (Z.eqb_spec (ring_id i) (ring_id j)) as [E|]; [|done]. by apply ring_id_inj in E.
Qed.

(** ** All the rings *)
Section sys.
Context (ri : ring_info).

(** The item sizes of the submission rings, and the pending items: one run
    from start_addr on that stops short of the end of the ring; the common
    rings have none. *)
Definition ring_item_len (i : Z) : Z := if i =? 0 then 40 else if i =? 1 then 32 else 48.
Definition pend_run (r : msgbuf_ring) (g : ring_ghost) : Prop :=
  pend_items_count r <> 0 ->
  start_addr r = Some ((Z.of_nat (length (g_sent g)) - pend_items_count r) mod max_items r * item_len r).
Record pend_ok (i : Z) (r : msgbuf_ring) (g : ring_ghost) : Prop := {
  po_len : item_len r = ring_item_len i;
  po_common : i < 2 -> pend_items_count r = 0;
  po_run : pend_run r g;
  po_room : pend_items_count r <> 0 ->
    (Z.of_nat (length (g_sent g)) - pend_items_count r) mod max_items r + pend_items_count r < max_items r
}.

Record rings_ok (d : dhd_pub) (log : list effect) (rings : list msgbuf_ring) (gs : list ring_ghost) : Prop := {
  rk_idx : index_wf ri d;
  rk_len : length gs = length rings;
  rk_ring : forall i r g, aget rings i = Some r -> aget gs i = Some g ->
    ring_ok ri d log i r g (pend_items_count r) /\ pend_ok i r g
}.

Lemma rings_ok_ghost d log rings gs i r :
  rings_ok d log rings gs -> aget rings i = Some r -> exists g, aget gs i = Some g.
Proof. intros H Hr. apply aget_lt in Hr. apply aget_is_Some. rewrite (rk_len _ _ _ _ H). lia. Qed.

(** One ring changed, and with it its own index cells and its own flushes. *)
Lemma rings_ok_upd d log rings gs i d' e r' g' :
  rings_ok d log rings gs -> 0 <= i < Z.of_nat (length rings) -> index_wf ri d' -> arr_len d' = arr_len d ->
  (forall w j, 0 <= j -> j <> i -> valid_ring d H2D (ring_id j) ->
     cell_val d' (Cell H2D w (ring_id j)) = cell_val d (Cell H2D w (ring_id j))) ->
  (forall j il, 0 <= j -> j <> i -> flushed (ring_id j) il e = []) ->
  ring_ok ri d' (log ++ e) i r' g' (pend_items_count r') -> pend_ok i r' g' ->
  rings_ok d' (log ++ e) (<[Z.to_nat i := r']> rings) (<[Z.to_nat i := g']> gs).
Proof.
  intros [Hi Hl Hr] Hi' Hi2 Ha Hc He Hok Hp. constructor; [done|by rewrite !length_insert|].
  intros j r g. rewrite !aget_insert by lia. destruct (decide (i = j)) as [<-|Hne].
  - intros [= <-] [= <-]. done.
  - intros E1 E2. destruct (Hr j r g E1 E2) as [H1 H2]. split; [|done]. pose proof (aget_lt _ _ _ E1).
    pose proof (ro_valid _ _ _ _ _ _ _ H1) as Hv.
    apply (ring_ok_frame ri d d' log); [done|intros w; apply Hc; (done || lia)|by eapply valid_ring_arr|].
    by rewrite flushed_app, He, app_nil_r by (lia || done).
Qed.

Lemma ring_ok_pend d log i r g u a n : ring_ok ri d log i r g u -> ring_ok ri d log i (set_pend r a n) g u.
Proof. intros [[] ? ? ? ? ? ?]. by constructor. Qed.
Lemma ring_ok_seqnum d log i r g u n : ring_ok ri d log i r g u -> ring_ok ri d log i (set_seqnum r n) g u.
Proof. intros [[] ? ? ? ? ? ?]. by constructor. Qed.

(** Only the log grew, with effects that flush nothing. *)
Lemma ring_ok_log d log e i r g u :
  ring_ok ri d log i r g u -> flushed (ring_id i) (item_len r) e = [] -> ring_ok ri d (log ++ e) i r g u.
Proof.
  intros H He. apply (ring_ok_frame ri d d log); [done|done|apply (ro_valid _ _ _ _ _ _ _ H)|].
  by rewrite flushed_app, He, app_nil_r.
Qed.
Lemma rings_ok_log d log e rings gs :
  rings_ok d log rings gs -> (forall j il, flushed (ring_id j) il e = []) -> rings_ok d (log ++ e) rings gs.
Proof.
  intros [Hi Hl Hr] He. constructor; [done..|]. intros i r g E1 E2. destruct (Hr i r g E1 E2).
  split; [by apply ring_ok_log|done].
Qed.

(** ** The system *)
Record prot_sys := {
  y_p : dhd_prot;
  y_g : list ring_ghost;
  y_out : gmap Z out_entry;
  y_acc : list Z       (* packets dhd_prot_txdata accepted, oldest first *)
}.

(** The type of the packet that a message of ring [i] hands over, if it does:
    on the control ring, only the two buffer posts do. *)
Definition carries (i : Z) (d : list Z) : option dhd_pkttype :=
  if i =? 0 then
    match ld 1 d 0 with
    | Some ty => if ty =? 11 then Some PKTTYPE_IOCTL_RX else if ty =? 13 then Some PKTTYPE_EVENT_RX else None
    | None => None
    end
  else if i =? 1 then Some PKTTYPE_DATA_RX else Some PKTTYPE_DATA_TX.
Definition is_tx (e : out_entry) : Prop := pkttype (e_item e) = PKTTYPE_DATA_TX.
#[export] Instance is_tx_dec (x : Z * out_entry) : Decision (is_tx x.2).
Proof. unfold is_tx. apply _. Defined.
Definition tx_out (out : gmap Z out_entry) : gmap Z out_entry := filter (fun x => is_tx x.2) out.
Definition out_pkts (out : gmap Z out_entry) : list Z := (fun x => pkt (e_item x.2)) <$> map_to_list out.

Lemma carries_flow i d : 2 <= i -> carries i d = Some PKTTYPE_DATA_TX.
Proof. intros. unfold carries. by rewrite !(proj2 (Z.eqb_neq i _)) by lia. Qed.

Lemma carries_all i ds : 1 <= i -> Forall (fun d => is_Some (carries i d)) ds.
Proof.
  intros Hi. apply Forall_true. intros d. unfold carries. rewrite (proj2 (Z.eqb_neq i 0)) by lia. by destruct (i =? 1).
Qed.

(** A message of ring [i] carries the packet id [id] and the address and
    length that the id's locker holds. *)
Definition desc_ok (rmo i : Z) (d : list Z) (id : Z) (it : dhd_pktid_item) : Prop :=
  ld 4 d 4 = Some id /\
  if i =? 0 then
    ld 2 d 8 = Some (len it) /\ ld 4 d 16 = Some (PHYSADDRLO (pa it)) /\ ld 4 d 20 = Some (PHYSADDRHI (pa it))
  else if i =? 1 then
    ld 1 d 0 = Some 17 /\ ld 2 d 10 = Some (len it) /\
    ld 4 d 24 = Some (u32 (PHYSADDRLO (pa it) + rmo)) /\ ld 4 d 28 = Some (PHYSADDRHI (pa it))
  else
    ld 1 d 0 = Some 15 /\ ld 2 d 42 = Some (len it) /\
    ld 4 d 32 = Some (PHYSADDRLO (pa it)) /\ ld 4 d 36 = Some (PHYSADDRHI (pa it)).

Record in_flight (rmo : Z) (gs : list ring_ghost) (out : gmap Z out_entry) : Prop := {
  if_desc : forall i g k d ty, aget gs i = Some g -> Z.of_nat (length (g_got g)) <= k ->
    aget (g_sent g) k = Some d -> carries i d = Some ty ->
    exists id e, out !! id = Some e /\ e_where e = OnRing i k /\ pkttype (e_item e) = ty /\
      desc_ok rmo i d id (e_item e);
  if_where : forall id e i k, out !! id = Some e -> e_where e = OnRing i k ->
    exists g d, aget gs i = Some g /\ Z.of_nat (length (g_got g)) <= k /\
      aget (g_sent g) k = Some d /\ ld 4 d 4 = Some id /\ carries i d = Some (pkttype (e_item e))
}.

Record counted (p : dhd_prot) (out : gmap Z out_entry) (acc : list Z) : Prop := {
  co_active : active_tx_count p = Z.of_nat (size (tx_out out));
  co_wake : wake_depth (p_log p) = if active_tx_count p =? 0 then 0 else 1;
  co_clean : clean (p_log p);
  co_acc : acc ≡ₚ completed (p_log p) ++ out_pkts (tx_out out)
}.

Record sys_ok (y : prot_sys) : Prop := {
  so_rings : rings_ok (p_pub (y_p y)) (p_log (y_p y)) (h2d_rings (y_p y)) (y_g y);
  so_table : p_flow_ring_table (y_p y) = true;
  so_info : forall f i, p_info (y_p y) !! f = Some i -> i = f /\ 2 <= f < Z.of_nat (length (h2d_rings (y_p y)));
  so_map : map_ok MAX_PKTID_ITEMS (pktid_map_handle (y_p y)) (y_out y);
  so_flight : in_flight (rx_metadata_offset (y_p y)) (y_g y) (y_out y);
  so_count : counted (y_p y) (y_out y) (y_acc y);
  so_tmo : 0 <= tx_metadata_offset (y_p y) < 2 ^ 16;
  so_rx : 2 <= Z.of_nat (length (h2d_rings (y_p y))) /\ 0 <= rx_metadata_offset (y_p y) < 2 ^ 16
}.

(** ** The outstanding packets when one is added or taken out *)
Lemma tx_out_insert out k e :
  out !! k = None -> tx_out (<[k := e]> out) = if decide (is_tx e) then <[k := e]> (tx_out out) else tx_out out.
Proof.
  intros Hn. unfold tx_out. destruct (decide (is_tx e)).
  - by rewrite map_filter_insert_True.
  - rewrite map_filter_insert_False by done. f_equal. by apply delete_id.
Qed.
Lemma tx_out_None out k : out !! k = None -> tx_out out !! k = None.
Proof. intros Hn. apply map_lookup_filter_None. by left. Qed.

Lemma out_pkts_insert out k e : out !! k = None -> out_pkts (<[k := e]> out) ≡ₚ pkt (e_item e) :: out_pkts out.
Proof. intros Hn. unfold out_pkts. by rewrite map_to_list_insert. Qed.

Lemma tx_out_delete out k e :
  out !! k = Some e -> is_tx e ->
  size (tx_out out) = S (size (tx_out (delete k out))) /\
  out_pkts (tx_out out) ≡ₚ pkt (e_item e) :: out_pkts (tx_out (delete k out)).
Proof.
  intros He Ht. assert (delete k out !! k = None) as Hn by apply lookup_delete_eq.
  assert (tx_out out = <[k := e]> (tx_out (delete k out))) as ->.
  { rewrite <- (insert_delete_id out k e He) at 1. rewrite tx_out_insert by done. by rewrite decide_True. }
  split; [by apply map_size_insert_None, tx_out_None|by apply out_pkts_insert, tx_out_None].
Qed.

Lemma tx_out_delete_other out k e :
  out !! k = Some e -> ~ is_tx e -> tx_out (delete k out) = tx_out out.
Proof.
  intros He Ht. assert (delete k out !! k = None) as Hn by apply lookup_delete_eq.
  rewrite <- (insert_delete_id out k e He) at 2. rewrite tx_out_insert by done. by rewrite decide_False.
Qed.

Lemma tx_out_where out k e w :
  out !! k = Some e ->
  tx_out (<[k := {| e_item := e_item e; e_where := w |}]> out) =
    if decide (is_tx e) then <[k := {| e_item := e_item e; e_where := w |}]> (tx_out out) else tx_out out.
Proof.
  intros He. unfold tx_out. destruct (decide (is_tx e)).
  - by rewrite map_filter_insert_True.
  - rewrite map_filter_insert_False by done. rewrite map_filter_delete. apply delete_id.
    apply map_lookup_filter_None. right. intros x Hx. rewrite He in Hx. by injection Hx as <-.
Qed.

(** ** The outstanding packets of one type *)
Definition ty_out (ty : dhd_pkttype) (out : gmap Z out_entry) : gmap Z out_entry :=
  filter (fun x => pkttype (e_item x.2) = ty) out.
Definition of_ty (ty : dhd_pkttype) (e : out_entry) : nat := if decide (pkttype (e_item e) = ty) then 1 else 0.

Lemma size_ty_le ty out : (size (ty_out ty out) <= size out)%nat.
Proof. unfold ty_out. rewrite <- !size_dom. apply subseteq_size, dom_filter_subseteq. Qed.

Lemma size_ty_insert ty out k e :
  out !! k = None -> size (ty_out ty (<[k := e]> out)) = (of_ty ty e + size (ty_out ty out))%nat.
Proof.
  intros Hn. unfold ty_out, of_ty. destruct (decide _) as [He|He].
  - rewrite map_filter_insert_True by done. apply map_size_insert_None, map_lookup_filter_None. by left.
  - rewrite map_filter_insert_False by done. by rewrite delete_id.
Qed.

Lemma size_ty_delete ty out k e :
  out !! k = Some e -> size (ty_out ty out) = (of_ty ty e + size (ty_out ty (delete k out)))%nat.
Proof.
  intros He. rewrite <- (insert_delete_id out k e He) at 1. apply size_ty_insert, lookup_delete_eq.
Qed.

Lemma size_ty_where ty out k e w :
  out !! k = Some e -> size (ty_out ty (<[k := {| e_item := e_item e; e_where := w |}]> out)) = size (ty_out ty out).
Proof.
  intros He. rewrite <- insert_delete_eq, size_ty_insert, (size_ty_delete ty out k e He) by apply lookup_delete_eq. done.
Qed.

(** All that was added to [out] is of type [ty] and on its way. *)
Definition grown_by (ty : dhd_pkttype) (out out' : gmap Z out_entry) : Prop :=
  out ⊆ out' /\ forall k e, out' !! k = Some e -> out !! k = None ->
    pkttype (e_item e) = ty /\ e_where e <> Returned.

Lemma grown_by_refl ty out : grown_by ty out out.
Proof. split; [done|]. congruence. Qed.
Lemma grown_by_trans ty o1 o2 o3 : grown_by ty o1 o2 -> grown_by ty o2 o3 -> grown_by ty o1 o3.
Proof.
  intros [S1 H1] [S2 H2]. split; [by etrans|]. intros k e He Hn. destruct (o2 !! k) as [e2|] eqn:E2.
  - rewrite (lookup_weaken _ _ _ _ E2 S2) in He. injection He as <-. by apply (H1 k).
  - by apply (H2 k).
Qed.
Lemma grown_by_insert ty out k e : out !! k = None -> pkttype (e_item e) = ty -> e_where e <> Returned -> grown_by ty out (<[k := e]> out).
Proof.
  intros Hn Ht Hw. split; [by apply insert_subseteq|]. intros j e'. destruct (decide (k = j)) as [<-|].
  - rewrite lookup_insert_eq. by intros [= <-].
  - rewrite lookup_insert_ne by done. congruence.
Qed.
(** What was returned before is what is returned after. *)
Lemma grown_by_ret ty out out' k e :
  grown_by ty out out' -> e_where e = Returned -> out' !! k = Some e <-> out !! k = Some e.
Proof.
  intros [Hs Hn] Hw. split; [|by intros; eapply lookup_weaken]. intros He. destruct (out !! k) as [e'|] eqn:E.
  - rewrite (lookup_weaken _ _ _ _ E Hs) in He. congruence.
  - by destruct (Hn k e He E).
Qed.

Lemma grown_by_size ty out out' :
  grown_by ty out out' ->
  (size (ty_out ty out') + size out = size (ty_out ty out) + size out')%nat /\
  forall t, t <> ty -> ty_out t out' = ty_out t out.
Proof.
  intros [Hs Hn]. pose proof (map_difference_union out out' Hs) as Eu.
  assert (out ##ₘ out' ∖ out) as Hd by (by apply map_disjoint_difference_r1).
  assert (forall k e, (out' ∖ out) !! k = Some e -> pkttype (e_item e) = ty) as Ht.
  { intros k e [He Hk]%lookup_difference_Some. by apply (Hn k). }
  rewrite <- Eu. revert Hd Ht. generalize (out' ∖ out). intros m Hd Ht. unfold ty_out. split.
  - rewrite map_filter_union by done. rewrite (map_filter_id _ m) by (intros k e; apply Ht).
    rewrite !map_size_disj_union; [lia|done|].
    apply (map_disjoint_weaken_l _ _ _ Hd). apply map_filter_subseteq.
  - intros t Hne. rewrite map_filter_union by done.
    assert (filter (fun x : Z * out_entry => pkttype (e_item x.2) = t) m = ∅) as ->; [|apply map_union_empty].
    apply map_empty. intros k. apply map_lookup_filter_None. right. intros e He Ht'. apply Ht in He. cbn in Ht'. congruence.
Qed.

(** Marking an outstanding packet as taken changes no count. *)
Lemma taken_counts out k e w :
  out !! k = Some e ->
  size (tx_out (<[k := {| e_item := e_item e; e_where := w |}]> out)) = size (tx_out out) /\
  out_pkts (tx_out (<[k := {| e_item := e_item e; e_where := w |}]> out)) ≡ₚ out_pkts (tx_out out).
Proof.
  intros He. rewrite (tx_out_where out k e w He). destruct (decide (is_tx e)) as [Ht|]; [|done].
  assert (tx_out out !! k = Some e) as He' by (by apply map_lookup_filter_Some).
  split; [rewrite map_size_insert_Some by (by eexists); done|].
  rewrite <- (insert_delete_id (tx_out out) k e He') at 2. rewrite <- insert_delete_eq.
  rewrite !out_pkts_insert by apply lookup_delete_eq. done.
Qed.

(** ** The messages in flight *)
Lemma ring_ok_got d log i r g u : ring_ok ri d log i r g u -> (length (g_got g) <= length (g_sent g))%nat.
Proof. intros [_ _ _ _ [Hu _] (C & R & H) _]. destruct H as (_ & ? & ? & _). cbn in *. lia. Qed.

Lemma aget_snoc {A} (l : list A) x k :
  aget (l ++ [x]) k = if decide (k = Z.of_nat (length l)) then Some x else aget l k.
Proof.
  unfold aget. destruct (Z.leb_spec 0 k), (decide (k = Z.of_nat (length l))) as [->|]; try lia; try done.
  - rewrite Nat2Z.id. by apply list_lookup_middle.
  - destruct (decide (k < Z.of_nat (length l))).
    + by rewrite lookup_app_l by lia.
    + rewrite !lookup_ge_None_2; [done| |]; rewrite ?length_app; cbn [length]; lia.
Qed.

Definition pushes (g : ring_ghost) (xs : list (list Z)) : ring_ghost :=
  {| g_drd := g_drd g; g_sent := g_sent g ++ xs; g_got := g_got g |}.
Definition push (g : ring_ghost) (d : list Z) : ring_ghost := pushes g [d].

Lemma in_flight_post rmo gs out i g d id it (P := Z.of_nat (length (g_sent g))) :
  in_flight rmo gs out -> aget gs i = Some g -> (length (g_got g) <= length (g_sent g))%nat ->
  out !! id = None -> carries i d = Some (pkttype it) -> desc_ok rmo i d id it ->
  in_flight rmo (<[Z.to_nat i := push g d]> gs) (<[id := {| e_item := it; e_where := OnRing i P |}]> out).
Proof.
  intros [Hd Hw] Hg Hgot Hn Ht Hdesc. pose proof (aget_lt _ _ _ Hg) as Hlt. split.
  - intros j g' k d' ty. rewrite aget_insert by lia. destruct (decide (i = j)) as [<-|Hne].
    + intros [= <-] Hk Hd' Hc. cbn [push pushes g_sent g_got] in *. rewrite aget_snoc in Hd'.
      destruct (decide (k = _)) as [->|].
      * injection Hd' as <-. rewrite Ht in Hc. injection Hc as <-.
        exists id. eexists. split; [apply lookup_insert_eq|]. by split_and!.
      * destruct (Hd i g k d' ty Hg Hk Hd' Hc) as (id' & e & He & Hwh & Ht' & Hdesc').
        exists id', e. rewrite lookup_insert_ne by congruence. by split_and!.
    + intros Hg' Hk Hd' Hc. destruct (Hd j g' k d' ty Hg' Hk Hd' Hc) as (id' & e & He & Hwh & Ht' & Hdesc').
      exists id', e. rewrite lookup_insert_ne by congruence. by split_and!.
  - intros id' e j k. destruct (decide (id = id')) as [<-|Hne].
    + rewrite lookup_insert_eq. intros [= <-]. cbn [e_where e_item]. intros [= <- <-].
      exists (push g d), d. rewrite aget_insert, decide_True by (lia || done).
      split_and!; [done|cbn; lia| |apply Hdesc|done].
      cbn [push pushes g_sent]. by rewrite aget_snoc, decide_True.
    + rewrite lookup_insert_ne by done. intros He Hwh.
      destruct (Hw id' e j k He Hwh) as (g' & d' & Hg' & Hk & Hd' & Hid & Hc).
      rewrite aget_insert by lia. destruct (decide (i = j)) as [<-|].
      * rewrite Hg in Hg'. injection Hg' as <-. exists (push g d), d'. cbn [push pushes g_sent g_got]. split_and!; try done.
        rewrite aget_snoc. destruct (decide _) as [->|]; [|done]. apply aget_lt in Hd'. lia.
      * by exists g', d'.
Qed.

(** A message without a packet. *)
Lemma in_flight_post_none rmo gs out i g d :
  in_flight rmo gs out -> aget gs i = Some g -> (length (g_got g) <= length (g_sent g))%nat -> carries i d = None ->
  in_flight rmo (<[Z.to_nat i := push g d]> gs) out.
Proof.
  intros [Hd Hw] Hg Hgot Hn. pose proof (aget_lt _ _ _ Hg) as Hlt. split.
  - intros j g' k d' ty. rewrite aget_insert by lia. destruct (decide (i = j)) as [<-|Hne]; [|by apply Hd].
    intros [= <-] Hk Hd' Hc. cbn [push pushes g_sent g_got] in *. rewrite aget_snoc in Hd'.
    destruct (decide (k = _)) as [->|]; [|by apply (Hd i g)]. injection Hd' as <-. congruence.
  - intros id' e j k He Hwh. destruct (Hw id' e j k He Hwh) as (g' & d' & Hg' & Hk & Hd' & Hid & Hc).
    rewrite aget_insert by lia. destruct (decide (i = j)) as [<-|]; [|by exists g', d'].
    rewrite Hg in Hg'. injection Hg' as <-. exists (push g d), d'. cbn [push pushes g_sent g_got]. split_and!; try done.
    rewrite aget_snoc. destruct (decide _) as [->|]; [|done]. apply aget_lt in Hd'. lia.
Qed.

(** The dongle took the oldest message of ring [i]. *)
Lemma in_flight_take rmo gs out i g d drd'
    (gs' := <[Z.to_nat i := {| g_drd := drd'; g_sent := g_sent g; g_got := g_got g ++ [d] |}]> gs) :
  in_flight rmo gs out -> aget gs i = Some g -> aget (g_sent g) (Z.of_nat (length (g_got g))) = Some d ->
  match carries i d with
  | Some ty => exists id e, out !! id = Some e /\ e_where e = OnRing i (Z.of_nat (length (g_got g))) /\
      pkttype (e_item e) = ty /\ desc_ok rmo i d id (e_item e) /\
      in_flight rmo gs' (<[id := {| e_item := e_item e; e_where := Taken |}]> out)
  | None => in_flight rmo gs' out
  end.
Proof.
  intros [Hd Hw] Hg Hx. pose proof (aget_lt _ _ _ Hg) as Hlt.
  assert (forall j g' k d', aget gs' j = Some g' -> Z.of_nat (length (g_got g')) <= k -> aget (g_sent g') k = Some d' ->
    exists g0, aget gs j = Some g0 /\ aget (g_sent g0) k = Some d' /\ Z.of_nat (length (g_got g0)) <= k /\
      (j = i -> k <> Z.of_nat (length (g_got g)))) as Hdown.
  { intros j g' k d'. unfold gs'. rewrite aget_insert by lia. destruct (decide (i = j)) as [<-|].
    - intros [= <-] Hk Hd'. cbn [g_got g_sent] in *. rewrite length_app in Hk. cbn [length] in Hk.
      exists g. split_and!; [done|done|lia|lia].
    - intros. exists g'. split_and!; [done|done|done|congruence]. }
  assert (forall j g' k d', aget gs j = Some g' -> Z.of_nat (length (g_got g')) <= k -> aget (g_sent g') k = Some d' ->
    (j = i -> k <> Z.of_nat (length (g_got g))) ->
    exists g0, aget gs' j = Some g0 /\ Z.of_nat (length (g_got g0)) <= k /\ aget (g_sent g0) k = Some d') as Hup.
  { intros j g' k d' Hg' Hk Hd' Hne. unfold gs'. rewrite aget_insert by lia. destruct (decide (i = j)) as [<-|]; [|by exists g'].
    rewrite Hg in Hg'. injection Hg' as <-. specialize (Hne eq_refl). eexists. split; [done|]. cbn [g_sent g_got].
    rewrite length_app. cbn [length]. split; [lia|done]. }
  destruct (carries i d) as [ty|] eqn:Ec.
  - destruct (Hd i g _ d ty Hg (Z.le_refl _) Hx Ec) as (id & e & He & Hwh & Ht & Hdesc).
    exists id, e. split_and!; try done. split.
    + intros j g' k d' ty' Hg' Hk Hd' Hc. destruct (Hdown j g' k d' Hg' Hk Hd') as (g0 & Hg0 & Hd0 & Hk0 & Hne).
      destruct (Hd j g0 k d' ty' Hg0 Hk0 Hd0 Hc) as (id' & e' & He' & Hwh' & Ht' & Hdesc').
      exists id', e'. rewrite lookup_insert_ne; [by split_and!|].
      intros <-. rewrite He in He'. injection He' as <-. rewrite Hwh in Hwh'. injection Hwh' as <- <-. by apply Hne.
    + intros id' e' j k. destruct (decide (id = id')) as [<-|Hne]; [rewrite lookup_insert_eq; by intros [= <-]|].
      rewrite lookup_insert_ne by done. intros He' Hwh'.
      destruct (Hw id' e' j k He' Hwh') as (g' & d' & Hg' & Hk & Hd' & Hid & Hc).
      destruct (Hup j g' k d' Hg' Hk Hd') as (g0 & ? & ? & ?); [|by exists g0, d'].
      intros -> ->. rewrite Hg in Hg'. injection Hg' as <-. rewrite Hx in Hd'. injection Hd' as <-.
      destruct Hdesc as [Hid' _]. congruence.
  - split.
    + intros j g' k d' ty' Hg' Hk Hd' Hc. destruct (Hdown j g' k d' Hg' Hk Hd') as (g0 & Hg0 & Hd0 & Hk0 & Hne).
      by apply (Hd j g0).
    + intros id' e' j k He' Hwh'. destruct (Hw id' e' j k He' Hwh') as (g' & d' & Hg' & Hk & Hd' & Hid & Hc).
      destruct (Hup j g' k d' Hg' Hk Hd') as (g0 & ? & ? & ?); [|by exists g0, d'].
      intros -> ->. rewrite Hg in Hg'. injection Hg' as <-. rewrite Hx in Hd'. injection Hd' as <-. congruence.
Qed.

(** A packet the dongle holds went back to the host. *)
Lemma in_flight_done rmo gs out id e :
  in_flight rmo gs out -> out !! id = Some e -> (forall i k, e_where e <> OnRing i k) -> in_flight rmo gs (delete id out).
Proof.
  intros [Hd Hw] He Hn. split.
  - intros j g k d ty Hg Hk Hd' Hc. destruct (Hd j g k d ty Hg Hk Hd' Hc) as (id' & e' & He' & Hwh & Ht' & Hdesc').
    exists id', e'. rewrite lookup_delete_ne by (intros <-; naive_solver). by split_and!.
  - intros id' e' j k He' Hwh. apply lookup_delete_Some in He' as [_ He']. by apply (Hw id' e').
Qed.
Lemma in_flight_returned rmo gs out id e :
  in_flight rmo gs out -> out !! id = Some e -> (forall i k, e_where e <> OnRing i k) ->
  in_flight rmo gs (<[id := returned e]> out).
Proof.
  intros [Hd Hw] He Hn. split.
  - intros j g k d ty Hg Hk Hd' Hc. destruct (Hd j g k d ty Hg Hk Hd' Hc) as (id' & e' & He' & Hwh & Ht' & Hdesc').
    exists id', e'. rewrite lookup_insert_ne by (intros <-; naive_solver). by split_and!.
  - intros id' e' j k. destruct (decide (id = id')) as [<-|]; [rewrite lookup_insert_eq; by intros [= <-]|].
    rewrite lookup_insert_ne by done. by apply Hw.
Qed.

(** ** The helpers on a ring of the state, where they succeed *)
Lemma ring_upd_eq p i r :
  0 <= i < Z.of_nat (length (h2d_rings p)) -> ring_upd p i r = Some (set_rings p (<[Z.to_nat i := r]> (h2d_rings p))).
Proof. intros Hi. unfold ring_upd. by rewrite aset_Some. Qed.

Lemma prot_alloc_eq p i r n a0 ex ptr a r' :
  aget (h2d_rings p) i = Some r ->
  dhd_prot_alloc_ring_space (RingIdxOps0 := h2d_ops) (p_pub p) r n a0 ex = Some (ptr, a, r') ->
  prot_alloc_ring_space p i n a0 ex = Some (ptr, a, set_rings p (<[Z.to_nat i := r']> (h2d_rings p))).
Proof.
  intros Hr E. unfold prot_alloc_ring_space. rewrite Hr. cbn [mbind option_bind]. rewrite E. cbn [mbind option_bind].
  rewrite ring_upd_eq by (by eapply aget_lt). done.
Qed.

Definition set_mem (r : msgbuf_ring) (mem : list Z) : msgbuf_ring :=
  set_dma_buf r {| va := Some mem; blen := blen (dma_buf r); pa_lo := pa_lo (dma_buf r) |}.

Lemma ring_fill_eq p i r off fs mem mem' :
  aget (h2d_rings p) i = Some r -> va (dma_buf r) = Some mem -> st_fields mem off fs = Some mem' ->
  ring_fill p i off fs = Some (set_rings p (<[Z.to_nat i := set_mem r mem']> (h2d_rings p))).
Proof.
  intros Hr Hm E. unfold ring_fill. rewrite Hr. cbn [mbind option_bind]. rewrite Hm. cbn [mbind option_bind].
  rewrite E. cbn [mbind option_bind]. by rewrite ring_upd_eq by (by eapply aget_lt).
Qed.

Lemma prot_audit_eq p k t m :
  dhd_pktid_audit (Some (pktid_map_handle p)) k t = Some (BCME_OK, Some m) ->
  prot_pktid_audit p k t = Some (emit (set_map p m) []).
Proof. intros E. unfold prot_pktid_audit. by rewrite E. Qed.

Lemma emit_nil p : emit p [] = p.
Proof. destruct p. unfold emit. cbn. by rewrite app_nil_r. Qed.
Lemma set_rings_same p i r : aget (h2d_rings p) i = Some r -> set_rings p (<[Z.to_nat i := r]> (h2d_rings p)) = p.
Proof.
  intros Hr. destruct p. unfold set_rings. cbn in *. f_equal. apply list_insert_id.
  unfold aget in Hr. by destruct (0 <=? i).
Qed.

(** Announcing what is pending on ring [i]. *)
Lemma announce_ok p i r g u off :
  index_wf ri (p_pub p) -> aget (h2d_rings p) i = Some r -> ring_ok ri (p_pub p) (p_log p) i r g u -> 0 < u ->
  off = (Z.of_nat (length (g_sent g)) - u) mod max_items r * item_len r ->
  exists d' e, prot_ring_write_complete p i (Some off) u = Some (emit (set_pub p d') e) /\
    quiet i e /\ index_wf ri d' /\ arr_len d' = arr_len (p_pub p) /\ ring_ok ri d' (p_log p ++ e) i r g 0 /\
    forall w j, 0 <= j -> j <> i -> valid_ring (p_pub p) H2D (ring_id j) ->
      cell_val d' (Cell H2D w (ring_id j)) = cell_val (p_pub p) (Cell H2D w (ring_id j)).
Proof.
  intros W Hr Hok Hu ->. pose proof (aget_lt _ _ _ Hr).
  destruct (ring_complete ri (p_pub p) (p_log p) i r g u W ltac:(lia) Hok Hu) as (d' & E & W' & Ha & Hok' & Hc).
  unfold prot_ring_write_complete. rewrite Hr. cbn [mbind option_bind]. rewrite E. cbn [mbind option_bind].
  do 2 eexists. split_and!; [done| |done|done|exact Hok'|done].
  constructor; [apply (ro_idx _ _ _ _ _ _ _ Hok)|]. by repeat constructor.
Qed.

Definition with_prot (y : prot_sys) (p : dhd_prot) : prot_sys :=
  {| y_p := p; y_g := y_g y; y_out := y_out y; y_acc := y_acc y |}.

(** Nothing but the cached read index of one ring and the id map changed. *)
Lemma sys_ok_idle y f r g r' m' :
  sys_ok y -> aget (h2d_rings (y_p y)) f = Some r -> aget (y_g y) f = Some g ->
  ring_ok ri (p_pub (y_p y)) (p_log (y_p y)) f r' g (pend_items_count r') -> pend_ok f r' g ->
  map_ok MAX_PKTID_ITEMS m' (y_out y) ->
  sys_ok (with_prot y (set_map (set_rings (y_p y) (<[Z.to_nat f := r']> (h2d_rings (y_p y)))) m')).
Proof.
  intros [Hr Ht Hi Hm Hf Hc Htm Hrx] Er Eg Hok Hp Hm'. pose proof (aget_lt _ _ _ Er).
  constructor; cbn [with_prot y_p y_g y_out y_acc]; try done.
  - cbn [set_map set_rings p_pub p_log h2d_rings].
    rewrite <- (app_nil_r (p_log _)). rewrite <- (list_insert_id (y_g y) (Z.to_nat f) g).
    + apply rings_ok_upd with (d := p_pub (y_p y)); try done; [apply Hr|by rewrite app_nil_r].
    + unfold aget in Eg. by destruct (0 <=? f).
  - cbn [set_map set_rings p_info h2d_rings]. rewrite length_insert. exact Hi.
  - destruct Hc. by constructor.
  - cbn [set_map set_rings h2d_rings]. by rewrite length_insert.
Qed.

End sys.
#[export] Hint Resolve grown_by_refl : core.
