(* ===== verification/ProtTx.v ===== *)
(** * Posting transmit packets and completing them

    dhd/sys/dhd_msgbuf.c: dhd_prot_txdata puts a TX_POST descriptor for a
    packet on the flow's ring and names the packet by a packet id;
    dhd_prot_txdata_write_flush announces the pending descriptors of a ring;
    dhd_prot_txstatus_process takes the dongle's completion of a packet id and
    gives the packet back. *)
From Stdlib Require Import ZArith Lia.
From stdpp Require Import base option numbers gmap list.
From S2P Require Import Prelude Bytes PktidMap Tcm RingIndex MsgRing MsgFifo ProtState.

Definition MSG_TYPE_TX_POST : Z := 15.
Definition BCMPCIE_PKT_FLAGS_FRAME_802_3 : Z := 1.
Definition BCMPCIE_PKT_FLAGS_PRIO_SHIFT : Z := 5.

(** ** The descriptor, host_txbuf_post_t

    The assignments of dhd_prot_txdata in their order; the offsets are those
    of the struct: cmn_hdr 0 (msg_type 0, if_id 1, flags 2, epoch 3,
    request_id 4), txhdr 8, flags 22, seg_cnt 23, metadata_buf_addr 24,
    data_buf_addr 32 (low then high half), metadata_buf_len 40, data_len 42,
    marker 44. *)
Definition host_txbuf_post (ifidx prio pktlen pa : Z) (txhdr : list Z) (meta : option (Z * Z)) (pktid : Z)
    : list (Z * list Z) :=
  [(8, txhdr);
   (0, le_bytes 1 MSG_TYPE_TX_POST);
   (1, le_bytes 1 ifidx);
   (22, le_bytes 1 (Z.lor BCMPCIE_PKT_FLAGS_FRAME_802_3
          (Z.shiftl (Z.land prio 7) BCMPCIE_PKT_FLAGS_PRIO_SHIFT)));
   (23, le_bytes 1 1);
   (42, le_bytes 2 (u16 pktlen));
   (36, le_bytes 4 (PHYSADDRHI pa));
   (32, le_bytes 4 (PHYSADDRLO pa))] ++
  match meta with
  | Some (len, meta_pa) =>
      [(40, le_bytes 2 len); (28, le_bytes 4 (PHYSADDRHI meta_pa)); (24, le_bytes 4 (PHYSADDRLO meta_pa))]
  | None => [(40, le_bytes 2 0); (28, le_bytes 4 0); (24, le_bytes 4 0)]
  end ++
  [(4, le_bytes 4 pktid)].

Definition dhd_prot_txdata_write_flush (p : dhd_prot) (flowid : Z) : option dhd_prot :=
  if negb (p_flow_ring_table p) then Some p else
  ring ← p_info p !! flowid;
  r ← aget (h2d_rings p) ring;
  if negb (pend_items_count r =? 0) then
    p ← prot_ring_write_complete p ring (start_addr r) (pend_items_count r);
    r ← aget (h2d_rings p) ring;
    ring_upd p ring (set_pend r None 0)
  else Some p.

Section txdata.
(** DMA_MAP, the kernel's mapping of a buffer: address, length, direction to
    bus address. *)
Variable DMA_MAP : Z -> Z -> Z -> Z.

Definition dhd_prot_txdata (p : dhd_prot) (b : pktbuf) (ifidx : Z) : option (Z * dhd_prot) :=
  if negb (p_flow_ring_table p) then Some (BCME_NORESOURCE, p) else
  let flowid := pb_flowid b in
  ring ← p_info p !! flowid;
  '(pktid, m) ← dhd_pktid_map_reserve (pktid_map_handle p) (pb_pkt b);
  let p := set_map p m in
  if pktid =? DHD_PKTID_INVALID then Some (BCME_NORESOURCE, p) else
  '(txdesc, alloced, p) ← prot_alloc_ring_space p ring 1 0 false;
  match (txdesc : option Z) with
  | None =>
      '(_, _, m) ← dhd_pktid_map_free (pktid_map_handle p) pktid PKTTYPE_NO_CHECK DHD_PKTID_FREE_LOCKER;
      Some (BCME_NORESOURCE, set_map p m)
  | Some txdesc =>
      txhdr ← ld_bytes (pb_data b) 0 (Z.to_nat ETHER_HDR_LEN);
      let prio := u8 (pb_prio b) in
      let pktlen := u32 (Z.of_nat (length (pb_data b)) - ETHER_HDR_LEN) in
      let pa := DMA_MAP (pb_va b + ETHER_HDR_LEN) pktlen DMA_TX in
      m ← dhd_pktid_map_save (pktid_map_handle p) (pb_pkt b) pktid pa pktlen DMA_TX 0 0 PKTTYPE_DATA_TX;
      let p := emit (set_map p m) [DmaMap (pb_va b + ETHER_HDR_LEN) pktlen DMA_TX pa] in
      r ← aget (h2d_rings p) ring;
      let r := set_pend r (if pend_items_count r =? 0 then Some txdesc else start_addr r)
                        (u16 (pend_items_count r + 1)) in
      p ← ring_upd p ring r;
      let tmo := tx_metadata_offset p in
      let meta := if negb (tmo =? 0) && (tmo <=? u16 (pb_headroom b))
                  then Some (tmo, DMA_MAP (pb_va b - tmo) tmo DMA_RX) else None in
      let p := match meta with
               | Some (len, meta_pa) => emit p [DmaMap (pb_va b - tmo) len DMA_RX meta_pa]
               | None => p
               end in
      p ← ring_fill p ring txdesc (host_txbuf_post ifidx prio pktlen pa txhdr meta pktid);
      p ← prot_pktid_audit p pktid DHD_DUPLICATE_ALLOC;
      p ← (if (pend_items_count r =? txp_threshold p) || (txdesc =? (max_items r - 1) * item_len r)
           then dhd_prot_txdata_write_flush p flowid else Some p);
      let p := set_active p (u16 (active_tx_count p + 1)) in
      Some (BCME_OK, if active_tx_count p =? 1 then emit p [WakeLock] else p)
  end.
End txdata.

(** [msg] is the host_txbuf_cmpl_t; request_id is at offset 4. *)
Definition dhd_prot_txstatus_process (p : dhd_prot) (msg : list Z) : option dhd_prot :=
  pktid ← ld 4 msg 4;
  p ← prot_pktid_audit p pktid DHD_DUPLICATE_FREE;
  let p :=
    if negb (active_tx_count p =? 0) then
      let p := set_active p (active_tx_count p - 1) in
      if active_tx_count p =? 0 then emit p [WakeUnlock] else p
    else p in
  '(pkt, out, m) ← dhd_pktid_map_free (pktid_map_handle p) pktid PKTTYPE_DATA_TX DHD_PKTID_FREE_LOCKER;
  let p := set_map p m in
  if negb (pkt =? 0) then
    '(pa, len, dmah, secdma) ← out;
    Some (emit p [DmaUnmap pa len DMA_RX pkt; TxComplete pkt true; PktFree pkt true])
  else Some p.
