(* ===== verification/ProtTxInv.v ===== *)
(** * The transmit operations keep the invariant

    dhd_prot_txdata, dhd_prot_txdata_write_flush and dhd_prot_txstatus_process
    of [ProtTx] on the system of [ProtSys]. *)
From Stdlib Require Import ZArith Lia.
From stdpp Require Import base option numbers gmap list.
From S2P Require Import Prelude Bytes MwBitmap PktidMap PktOut Tcm RingIndex MsgRing MsgFifo.
From S2P Require Import ProtState ProtInv ProtSys ProtTx.

(** The state with the parts an operation changes. *)
Definition prot_upd (p : dhd_prot) (d : dhd_pub) (rings : list msgbuf_ring) (m : dhd_pktid_map)
    (log : list effect) (act : Z) : dhd_prot :=
  {| p_pub := d; p_flow_ring_table := p_flow_ring_table p; p_info := p_info p; h2d_rings := rings;
     pktid_map_handle := m; active_tx_count := act;
     txp_threshold := txp_threshold p; tx_metadata_offset := tx_metadata_offset p;
     rx_metadata_offset := rx_metadata_offset p; rxbufpost := rxbufpost p; max_rxbufpost := max_rxbufpost p;
     rx_dataoffset := rx_dataoffset p; rx_pktgetfail := rx_pktgetfail p; p_log := log |}.

(** The receive counters are the same. *)
Definition rx_same (p p' : dhd_prot) : Prop := rxbufpost p' = rxbufpost p /\ max_rxbufpost p' = max_rxbufpost p.

Section tx.
Context (ri : ring_info).

(** ** The flush *)
Lemma write_flush_ok p f r g :
  p_flow_ring_table p = true -> p_info p !! f = Some f -> aget (h2d_rings p) f = Some r ->
  index_wf ri (p_pub p) -> ring_ok ri (p_pub p) (p_log p) f r g (pend_items_count r) -> pend_run r g ->
  exists d' e r', dhd_prot_txdata_write_flush p f =
      Some (prot_upd p d' (<[Z.to_nat f := r']> (h2d_rings p)) (pktid_map_handle p) (p_log p ++ e) (active_tx_count p)) /\
    quiet f e /\ index_wf ri d' /\ arr_len d' = arr_len (p_pub p) /\
    ring_ok ri d' (p_log p ++ e) f r' g 0 /\ pend_items_count r' = 0 /\ item_len r' = item_len r /\
    forall w j, 0 <= j -> j <> f -> valid_ring (p_pub p) H2D (ring_id j) ->
      cell_val d' (Cell H2D w (ring_id j)) = cell_val (p_pub p) (Cell H2D w (ring_id j)).
Proof.
  intros Ht Hi Hr W Hok Hrun. pose proof (aget_lt _ _ _ Hr).
  unfold dhd_prot_txdata_write_flush. rewrite Ht, Hi. cbn [negb mbind option_bind]. rewrite Hr. cbn [mbind option_bind].
  destruct (Z.eqb_spec (pend_items_count r) 0) as [E|E]; cbn [negb].
  - exists (p_pub p), [], r. split.
    { rewrite <- (set_rings_same p f r Hr) at 1. unfold prot_upd. rewrite app_nil_r. done. }
    rewrite app_nil_r, <- E. split_and!; try done. constructor.
  - pose proof (ro_u _ _ _ _ _ _ _ Hok) as [Hu _].
    rewrite (Hrun E). destruct (announce_ok ri p f r g (pend_items_count r) _ W Hr Hok ltac:(lia) eq_refl)
      as (d' & e & -> & Hq & W' & Ha & Hok' & Hc).
    cbn [mbind option_bind]. change (h2d_rings (emit (set_pub p d') e)) with (h2d_rings p). rewrite Hr. cbn [mbind option_bind].
    rewrite ring_upd_eq by done. exists d', e, (set_pend r None 0). split; [done|]. split_and!; try done.
    by apply ring_ok_pend.
Qed.

(** ** The descriptor *)
Lemma host_txbuf_post_ok ifidx prio pktlen pa hdr meta id :
  length hdr = 14%nat ->
  forallb (fld_in 48) (host_txbuf_post ifidx prio pktlen pa hdr meta id) = true /\
  flds_disj (host_txbuf_post ifidx prio pktlen pa hdr meta id) = true.
Proof.
  intros Hl. unfold host_txbuf_post. destruct meta as [[ml mp]|];
    cbn -[Z.add Z.leb]; unfold fld_in, fld_disj; cbn -[Z.add Z.leb]; rewrite Hl; done.
Qed.

Lemma host_txbuf_post_desc rmo i ifidx prio pktlen pa hdr meta id d dir pk :
  2 <= i -> 0 <= id < 2 ^ 32 -> length hdr = 14%nat ->
  (forall o bs, (o, bs) ∈ host_txbuf_post ifidx prio pktlen pa hdr meta id -> ld_bytes d o (length bs) = Some bs) ->
  desc_ok rmo i d id (mk_item LOCKER_IS_BUSY dir PKTTYPE_DATA_TX (u16 pktlen) pk pa 0 0).
Proof.
  intros Hi Hid Hl Hd.
  assert (forall o k v, (o, le_bytes k v) ∈ host_txbuf_post ifidx prio pktlen pa hdr meta id ->
            0 <= v < 256 ^ Z.of_nat k -> ld k d o = Some v) as Hld.
  { intros o k v Hin Hv. apply Hd in Hin. rewrite length_le_bytes in Hin. unfold ld. rewrite Hin. cbn.
    by rewrite le_val_bytes. }
  pose proof (wrapu_range 16 pktlen ltac:(lia)). pose proof (wrapu_range 32 (Z.shiftr pa 32) ltac:(lia)).
  pose proof (wrapu_range 32 pa ltac:(lia)).
  unfold desc_ok. rewrite !(proj2 (Z.eqb_neq i _)) by lia. cbn [len PktidMap.pa].
  split_and!; apply Hld; try (unfold PHYSADDRHI, PHYSADDRLO; change (Z.of_nat 4) with 4; change (Z.of_nat 2) with 2;
    change (Z.of_nat 1) with 1; zlia); unfold host_txbuf_post; set_solver.
Qed.

(** ** dhd_prot_txdata *)

(** The message [d] that [dhd_prot_txdata] wrote for packet [b] under id [id]. *)
Definition tx_message (DMA_MAP : Z -> Z -> Z -> Z) (tmo : Z) (b : pktbuf) (ifidx id : Z) (d : list Z) : Prop :=
  let pktlen := u32 (Z.of_nat (length (pb_data b)) - ETHER_HDR_LEN) in
  exists hdr, ld_bytes (pb_data b) 0 14 = Some hdr /\ Z.of_nat (length d) = 48 /\
    forall o bs, (o, bs) ∈ host_txbuf_post ifidx (u8 (pb_prio b)) pktlen
        (DMA_MAP (pb_va b + ETHER_HDR_LEN) pktlen DMA_TX) hdr
        (if negb (tmo =? 0) && (tmo <=? u16 (pb_headroom b))
         then Some (tmo, DMA_MAP (pb_va b - tmo) tmo DMA_RX) else None) id ->
      ld_bytes d o (length bs) = Some bs.
Definition tx_item (DMA_MAP : Z -> Z -> Z -> Z) (b : pktbuf) : dhd_pktid_item :=
  let pktlen := u32 (Z.of_nat (length (pb_data b)) - ETHER_HDR_LEN) in
  mk_item LOCKER_IS_BUSY DMA_TX PKTTYPE_DATA_TX (u16 pktlen) (pb_pkt b)
    (DMA_MAP (pb_va b + ETHER_HDR_LEN) pktlen DMA_TX) 0 0.

(** The ring after the descriptor was written, before the flush. *)
Lemma tx_fill_ok p log f r g r1 off fs (P := Z.of_nat (length (g_sent g))) :
  0 <= f -> ring_ok ri (p_pub p) log f r g (pend_items_count r) -> pend_ok f r g -> item_len r = 48 ->
  granted ri (p_pub p) f r g (pend_items_count r) r1 1 -> r1 = set_wr (set_rd r (rd r1)) (wr r1) ->
  off = P mod max_items r * item_len r -> forallb (fld_in 48) fs = true -> flds_disj fs = true ->
  let r2 := set_pend r1 (if pend_items_count r =? 0 then Some off else start_addr r) (u16 (pend_items_count r + 1)) in
  exists mem mem2, va (dma_buf r1) = Some mem /\ st_fields mem off fs = Some mem2 /\
    let d := slot 48 mem2 (P mod max_items r) in
    let r3 := set_mem r2 mem2 in
    Z.of_nat (length d) = 48 /\ (forall o bs, (o, bs) ∈ fs -> ld_bytes d o (length bs) = Some bs) /\
    pend_items_count r3 = pend_items_count r + 1 /\ item_len r3 = 48 /\ max_items r3 = max_items r /\
    ring_ok ri (p_pub p) log f r3 (push g d) (pend_items_count r3) /\ pend_run r3 (push g d) /\
    (off <> (max_items r - 1) * item_len r -> 2 <= f -> pend_ok f r3 (push g d)).
Proof.
  intros Hf Hok [Hlen Hcom Hrun Hroom] Hil Hgr Es Hoff Hin Hdj r2.
  pose proof (ro_wf _ _ _ _ _ _ _ Hok) as Hw. pose proof (rw_max _ Hw) as Hmax.
  destruct (ro_mem _ _ _ _ _ _ _ Hok) as (mem & Emem & Hlm).
  assert (va (dma_buf r1) = Some mem) as Emem1 by (by rewrite Es).
  pose proof (Z.mod_pos_bound P (max_items r) ltac:(lia)) as Hq.
  destruct (st_fields_Some 48 mem off fs) as (mem2 & E2 & Hl2 & Hout & _); [nia|nia|done|].
  exists mem, mem2. do 2 (split; [done|]). cbv zeta.
  set (q := P mod max_items r) in *. set (d := slot 48 mem2 q). set (r3 := set_mem r2 mem2).
  pose proof (ro_u _ _ _ _ _ _ _ Hok) as [Hu0 Hu1].
  pose proof Hgr as (C & R & C' & Hc & HC' & _ & Hcap & Hfit & Hw1).
  destruct Hc as (HC & HR & HV & _). cbn [h_got h_sent h_ring ring_view] in HR, HV. fold P in HV, Hcap, Hfit, Hw1, Hroom, Hrun.
  set (u := pend_items_count r) in *.
  assert (pend_items_count r3 = u + 1) as Eu by (cbn; apply wrapu_small; lia).
  assert (Z.of_nat (length d) = 48) as Hld by (apply length_slot; [lia|lia|nia]).
  assert (ring_ok ri (p_pub p) log f r3 (push g d) (u + 1)) as Hok3.
  { apply (ring_post ri (p_pub p) log f r g u r1 1 r3 mem mem2 [d]); try done; cbn [r3 r2 set_mem set_pend set_dma_buf
      va dma_buf idx max_items item_len rd wr]; try (by rewrite Es); fold P; fold q.
    - intros j Hj. apply Hout. rewrite Hil in *. lia.
    - intros k Hk. cbn in Hk. assert (k = 0) as -> by lia. rewrite Z.add_0_r, Hil. done. }
  assert (pend_run r3 (push g d)) as Hrun3.
  { unfold pend_run. rewrite Eu. intros _. cbn [push pushes g_sent]. rewrite length_app. cbn [length].
    replace (Z.of_nat (length (g_sent g) + 1) - (u + 1)) with (P - u) by lia.
    replace (max_items r3) with (max_items r) by (cbn; by rewrite Es).
    replace (item_len r3) with (item_len r) by (cbn; by rewrite Es).
    cbn [r3 set_mem set_dma_buf start_addr r2 set_pend].
    destruct (Z.eqb_spec u 0) as [->|Hne]; [rewrite Z.sub_0_r; by f_equal|by apply Hrun]. }
  split_and!.
  - done.
  - intros o bs Hob. pose proof Hin as Hin'. rewrite forallb_forall in Hin'.
    specialize (Hin' (o, bs) ltac:(by apply list_elem_of_In)). unfold fld_in in Hin'. cbn [fst snd] in Hin'.
    apply andb_true_iff in Hin' as [H1%Z.leb_le H2%Z.leb_le].
    unfold d. rewrite ld_bytes_slot by lia. replace (q * 48) with off by (rewrite Hoff, Hil; done).
    apply (st_fields_ld 48 mem off fs mem2 o bs); [nia|nia|done..].
  - done.
  - cbn. by rewrite Es.
  - cbn. by rewrite Es.
  - by rewrite Eu.
  - done.
  - intros Hnl Hf2.
    constructor.
    + cbn. rewrite Es. exact Hlen.
    + intros; lia.
    + done.
    + intros _. rewrite Eu. cbn [push pushes g_sent]. rewrite length_app. cbn [length].
      replace (Z.of_nat (length (g_sent g) + 1) - (u + 1)) with (P - u) by lia.
      replace (max_items r3) with (max_items r) by (cbn; by rewrite Es).
      assert (q <> max_items r - 1) by (intros E; apply Hnl; rewrite Hoff, E; done).
      destruct (decide (u = 0)) as [E0|Hne].
      * rewrite E0, Z.sub_0_r. fold q. lia.
      * specialize (Hroom Hne). assert (q = (P - u) mod max_items r + u); [|lia].
        unfold q. replace P with (P - u + u) at 1 by lia. rewrite mod_step by lia.
        destruct (Z.eqb_spec ((P - u) mod max_items r + u) (max_items r)); lia.
Qed.

(** The counters after one more packet was accepted. *)
Lemma counted_post p out acc id it w e d' rings' m' :
  counted p out acc -> map_ok MAX_PKTID_ITEMS m' (<[id := {| e_item := it; e_where := w |}]> out) ->
  out !! id = None -> pkttype it = PKTTYPE_DATA_TX -> wake_depth e = 0 -> completed e = [] -> clean e ->
  let act := u16 (active_tx_count p + 1) in
  let log := p_log p ++ e ++ (if act =? 1 then [WakeLock] else []) in
  counted (prot_upd p d' rings' m' log act) (<[id := {| e_item := it; e_where := w |}]> out) (acc ++ [pkt it]).
Proof.
  intros [Ha Hw Hc Hacc] Hm Hn Ht He1 He2 He3 act log.
  set (en := {| e_item := it; e_where := w |}) in *.
  assert (tx_out (<[id := en]> out) = <[id := en]> (tx_out out)) as Etx.
  { rewrite tx_out_insert by done. by rewrite decide_True. }
  pose proof (tx_out_None out id Hn) as Hn'.
  assert (Z.of_nat (size (tx_out (<[id := en]> out))) = active_tx_count p + 1) as Es.
  { rewrite Etx, map_size_insert_None, Ha by done. lia. }
  assert (act = active_tx_count p + 1) as Eact.
  { unfold act. apply wrapu_small. apply map_ok_size in Hm.
    assert (size (tx_out (<[id := en]> out)) <= size (<[id := en]> out))%nat
      by (rewrite <- !size_dom; apply subseteq_size, dom_filter_subseteq).
    unfold MAX_PKTID_ITEMS in Hm. lia. }
  assert (0 <= active_tx_count p) by lia.
  constructor; cbn [prot_upd active_tx_count p_log]; subst log.
  - lia.
  - rewrite !wake_depth_app, Hw, He1, Eact.
    destruct (Z.eqb_spec (active_tx_count p) 0) as [->|]; cbn [Z.add Z.eqb Pos.eqb]; [done|].
    rewrite (proj2 (Z.eqb_neq (active_tx_count p + 1) 1)), (proj2 (Z.eqb_neq (active_tx_count p + 1) 0)) by lia. done.
  - unfold clean. rewrite !Forall_app. split_and!; [done|done|]. destruct (act =? 1); [by apply Forall_singleton|by apply Forall_nil].
  - rewrite !completed_app, He2, Etx, out_pkts_insert, Hacc by done.
    replace (completed (if act =? 1 then [WakeLock] else [])) with (@nil Z) by (by destruct (act =? 1)).
    rewrite app_nil_l, app_nil_r. cbn [e_item en]. rewrite <- app_assoc. f_equiv. apply Permutation_app_comm.
Qed.

(** The flush at the end of dhd_prot_txdata, where condition [c] asks for it:
    [e1] was logged and the ring of flow [f] is [r3]. *)
Lemma tx_announce_ok p f r3 g e1 m (c : bool) (p3 := prot_upd p (p_pub p) (<[Z.to_nat f := r3]> (h2d_rings p)) m
    (p_log p ++ e1) (active_tx_count p)) :
  p_flow_ring_table p = true -> p_info p !! f = Some f -> 2 <= f < Z.of_nat (length (h2d_rings p)) ->
  index_wf ri (p_pub p) -> ring_ok ri (p_pub p) (p_log p) f r3 g (pend_items_count r3) -> pend_run r3 g ->
  item_len r3 = 48 -> quiet f e1 -> (forall j il, flushed j il e1 = []) -> (c = false -> pend_ok f r3 g) ->
  exists d' e r4, (if c then dhd_prot_txdata_write_flush p3 f else Some p3) =
      Some (prot_upd p d' (<[Z.to_nat f := r4]> (h2d_rings p)) m (p_log p ++ e) (active_tx_count p)) /\
    quiet f e /\ index_wf ri d' /\ arr_len d' = arr_len (p_pub p) /\
    ring_ok ri d' (p_log p ++ e) f r4 g (pend_items_count r4) /\ pend_ok f r4 g /\
    forall w j, 0 <= j -> j <> f -> valid_ring (p_pub p) H2D (ring_id j) ->
      cell_val d' (Cell H2D w (ring_id j)) = cell_val (p_pub p) (Cell H2D w (ring_id j)).
Proof.
  intros Ht Hi Hf W Hok Hrun Hil Hq1 Hfl Hpo.
  assert (ring_ok ri (p_pub p) (p_log p ++ e1) f r3 g (pend_items_count r3)) as Hok' by (by apply ring_ok_log).
  destruct c; [|exists (p_pub p), e1, r3; split_and!; try done; by apply Hpo].
  destruct (write_flush_ok p3 f r3 g) as (d' & e & r4 & -> & Hq & W' & Har & Hok4 & Ep4 & Eil4 & Hcells); try done.
  { cbn. rewrite aget_insert by lia. by rewrite decide_True. }
  exists d', (e1 ++ e), r4. rewrite app_assoc. split.
  { unfold p3, prot_upd. cbn. by rewrite list_insert_insert_eq. }
  split_and!; try done; [by apply quiet_app|by rewrite Ep4|].
  constructor; [|by rewrite Ep4|intros Hz; congruence|intros Hz; congruence].
  rewrite Eil4, Hil. unfold ring_item_len. by rewrite !(proj2 (Z.eqb_neq f _)) by lia.
Qed.

(** The system after the message [d] of packet [it] was posted on ring [f]. *)
Lemma tx_sys_ok y f g d id it d' e r4 m (p := y_p y) (act := u16 (active_tx_count p + 1)) :
  sys_ok ri y -> 2 <= f < Z.of_nat (length (h2d_rings p)) -> aget (y_g y) f = Some g ->
  (length (g_got g) <= length (g_sent g))%nat -> y_out y !! id = None ->
  pkttype it = PKTTYPE_DATA_TX -> desc_ok (rx_metadata_offset p) f d id it ->
  let w := OnRing f (Z.of_nat (length (g_sent g))) in
  map_ok MAX_PKTID_ITEMS m (<[id := {| e_item := it; e_where := w |}]> (y_out y)) ->
  quiet f e -> index_wf ri d' -> arr_len d' = arr_len (p_pub p) ->
  ring_ok ri d' (p_log p ++ e) f r4 (push g d) (pend_items_count r4) -> pend_ok f r4 (push g d) ->
  (forall w j, 0 <= j -> j <> f -> valid_ring (p_pub p) H2D (ring_id j) ->
     cell_val d' (Cell H2D w (ring_id j)) = cell_val (p_pub p) (Cell H2D w (ring_id j))) ->
  sys_ok ri {| y_p := prot_upd p d' (<[Z.to_nat f := r4]> (h2d_rings p)) m
                        (p_log p ++ e ++ (if act =? 1 then [WakeLock] else [])) act;
    y_g := <[Z.to_nat f := push g d]> (y_g y);
    y_out := <[id := {| e_item := it; e_where := w |}]> (y_out y); y_acc := y_acc y ++ [pkt it] |}.
Proof.
  intros [Hr Ht Hinf Hm Hfl Hc Htmo Hrx] Hf Hg Hgot Hn Hty Hd w Hm' Hq W' Har Hok Hpo Hcells.
  fold p in Hr, Ht, Hinf, Hm, Hfl, Hc, Htmo, Hrx.
  set (lk := if act =? 1 then [WakeLock] else []).
  assert (forall j il, flushed (ring_id j) il lk = []) as Hlk by (intros; unfold lk; by destruct (act =? 1)).
  constructor; cbn [y_p y_g y_out y_acc]; try done.
  - cbn [prot_upd p_pub p_log h2d_rings]. rewrite app_assoc. apply rings_ok_log; [|done].
    apply rings_ok_upd with (d := p_pub p); try done; [lia|].
    intros j il Hj Hne. apply (quiet_other f j il e); (lia || done).
  - cbn [prot_upd p_info h2d_rings]. rewrite length_insert. exact Hinf.
  - apply in_flight_post; try done. by rewrite carries_flow, Hty by lia.
  - apply (counted_post p (y_out y) (y_acc y) id it w e); try done;
      [by eapply quiet_wake|by eapply quiet_completed|by eapply quiet_clean].
  - cbn [prot_upd h2d_rings rx_metadata_offset]. by rewrite length_insert.
Qed.

Lemma txdata_ok DMA_MAP y b ifidx (p := y_p y) (f := pb_flowid b) :
  sys_ok ri y -> is_Some (p_info p !! f) -> pb_pkt b <> 0 -> ETHER_HDR_LEN <= Z.of_nat (length (pb_data b)) ->
  exists rc p', dhd_prot_txdata DMA_MAP p b ifidx = Some (rc, p') /\ rx_same p p' /\
    ((rc = BCME_NORESOURCE /\ sys_ok ri (with_prot y p') /\ p_log p' = p_log p /\
      ((forall k, 1 <= k <= MAX_PKTID_ITEMS -> is_Some (y_out y !! k)) \/
       exists r, aget (h2d_rings p) f = Some r /\ cell_val (p_pub p) (Cell H2D false (ring_id f)) <> wr r)) \/
     (rc = BCME_OK /\ exists g d id,
        aget (y_g y) f = Some g /\ y_out y !! id = None /\ tx_message DMA_MAP (tx_metadata_offset p) b ifidx id d /\
        sys_ok ri {| y_p := p'; y_g := <[Z.to_nat f := push g d]> (y_g y);
          y_out := <[id := {| e_item := tx_item DMA_MAP b; e_where := OnRing f (Z.of_nat (length (g_sent g))) |}]> (y_out y);
          y_acc := y_acc y ++ [pb_pkt b] |})).
Proof.
  intros Hy [i Hi] Hpkt Hlen. pose proof Hy as [Hr Ht Hinf Hm Hfl Hc Htmo Hrx]. fold p in Hr, Ht, Hinf, Hm, Hfl, Hc, Htmo, Hrx.
  pose proof (Hinf f i Hi) as [-> Hf].
  destruct (aget_is_Some (h2d_rings p) f) as [r Er]; [lia|].
  destruct (rings_ok_ghost ri _ _ _ _ _ _ Hr Er) as [g Eg].
  destruct (rk_ring _ _ _ _ _ Hr f r g Er Eg) as [Hok Hpo].
  assert (item_len r = 48) as Hil.
  { rewrite (po_len _ _ _ Hpo). unfold ring_item_len. by rewrite !(proj2 (Z.eqb_neq f _)) by lia. }
  unfold dhd_prot_txdata. rewrite Ht. cbn [negb]. fold f. rewrite Hi. cbn [mbind option_bind].
  destruct (reserve_out _ _ _ (pb_pkt b) Hm) as [(m1 & -> & Hm1 & Hfull)|(id & l & m1 & -> & Hres & Hid0)].
  { cbn [mbind option_bind]. rewrite Z.eqb_refl. do 2 eexists. do 2 (split; [done|]). left. split_and!; try done.
    - rewrite <- (set_rings_same p f r Er). by apply (sys_ok_idle ri y f r g).
    - by left. }
  cbn [mbind option_bind]. rewrite (proj2 (Z.eqb_neq _ _)) by done.
  destruct (ring_alloc ri (p_pub p) (p_log p) f r g (pend_items_count r) 1 false (rk_idx _ _ _ _ _ Hr) Hok ltac:(lia))
    as (ptr & a & r1 & Ea & Es & Hpost).
  rewrite (prot_alloc_eq (set_map p m1) f r 1 0 false ptr a r1 Er Ea). cbn [mbind option_bind].
  destruct ptr as [off|].
  2: { destruct Hpost as [Hok1 Hnf].
    change (pktid_map_handle (set_rings (set_map p m1) _)) with m1.
    destruct (reserved_free _ _ _ _ _ Hres) as (m2 & -> & Hm2). cbn [mbind option_bind].
    do 2 eexists. do 2 (split; [done|]). left. split_and!; try done.
    - apply (sys_ok_idle ri y f r g r1 m2); try done.
      + assert (pend_items_count r1 = pend_items_count r) as -> by (by rewrite Es). done.
      + destruct Hpo. rewrite Es. by constructor.
    - right. exists r. split; [done|]. intros Ew. apply Hnf in Ew. pose proof (rw_max _ (ro_wf _ _ _ _ _ _ _ Hok)). lia. }
  destruct Hpost as (Hoff & Ha1 & Ha2 & Hgr). assert (a = 1) as -> by lia. clear Ha1 Ha2.
  destruct (ld_bytes_Some (pb_data b) 0 14) as (hdr & Ehdr & Hlh & _); [lia|unfold ETHER_HDR_LEN in Hlen; lia|].
  change (Z.to_nat ETHER_HDR_LEN) with 14%nat. rewrite Ehdr. cbn [mbind option_bind].
  set (pktlen := u32 (Z.of_nat (length (pb_data b)) - ETHER_HDR_LEN)).
  set (pa0 := DMA_MAP (pb_va b + ETHER_HDR_LEN) pktlen DMA_TX).
  change (pktid_map_handle (set_rings (set_map p m1) _)) with m1.
  destruct (reserved_save _ _ _ _ _ (pb_pkt b) pa0 pktlen DMA_TX 0 0 PKTTYPE_DATA_TX Hres) as (m2 & -> & Hres2).
  cbn [mbind option_bind].
  set (p1 := emit _ [DmaMap _ _ _ _]).
  assert (aget (h2d_rings p1) f = Some r1) as Er1.
  { cbn. rewrite aget_insert by lia. by rewrite decide_True. }
  rewrite Er1. cbn [mbind option_bind].
  assert (pend_items_count r1 = pend_items_count r) as Ep1 by (by rewrite Es).
  assert (start_addr r1 = start_addr r) as Esa1 by (by rewrite Es).
  rewrite Ep1, Esa1. set (r2 := set_pend r1 _ _).
  rewrite (ring_upd_eq p1) by (cbn; rewrite length_insert; lia). cbn [mbind option_bind].
  change (tx_metadata_offset (set_rings p1 _)) with (tx_metadata_offset p).
  set (meta := if negb (tx_metadata_offset p =? 0) && _ then _ else _).
  set (fs := host_txbuf_post ifidx (u8 (pb_prio b)) pktlen pa0 hdr meta id).
  destruct (host_txbuf_post_ok ifidx (u8 (pb_prio b)) pktlen pa0 hdr meta id Hlh) as [Hin Hdj]. fold fs in Hin, Hdj.
  destruct (tx_fill_ok p (p_log p) f r g r1 off fs ltac:(lia) Hok Hpo Hil Hgr Es Hoff Hin Hdj)
    as (mem & mem2 & Em & Ef & Hld & Hds & Ep3 & Eil3 & Emx3 & Hok3 & Hrun3 & Hpo3).
  fold r2 in Hok3, Hrun3, Hpo3, Ep3, Eil3, Emx3. set (d := slot 48 mem2 _) in *. set (r3 := set_mem r2 mem2) in *.
  set (e1 := [DmaMap (pb_va b + ETHER_HDR_LEN) pktlen DMA_TX pa0] ++
             match meta with Some (ln, mpa) => [DmaMap (pb_va b - tx_metadata_offset p) ln DMA_RX mpa] | None => [] end).
  assert (match meta with
          | Some (ln, mpa) => emit (set_rings p1 (<[Z.to_nat f := r2]> (h2d_rings p1)))
                                [DmaMap (pb_va b - tx_metadata_offset p) ln DMA_RX mpa]
          | None => set_rings p1 (<[Z.to_nat f := r2]> (h2d_rings p1))
          end = prot_upd p (p_pub p) (<[Z.to_nat f := r2]> (h2d_rings p)) m2 (p_log p ++ e1) (active_tx_count p)) as ->.
  { unfold p1, e1. destruct meta as [[ln mpa]|]; unfold emit, set_rings, set_map, prot_upd; cbn;
      rewrite list_insert_insert_eq; f_equal; by rewrite <- ?app_assoc. }
  set (p2 := prot_upd _ _ _ _ _ _).
  assert (quiet f e1) as Hq1.
  { unfold e1. destruct meta as [[ln mpa]|]; by repeat constructor. }
  assert (aget (h2d_rings p2) f = Some r2) as Er2.
  { cbn. rewrite aget_insert by lia. by rewrite decide_True. }
  rewrite (ring_fill_eq p2 f r2 off fs mem mem2) by done. cbn [mbind option_bind]. fold r3.
  change (set_rings p2 (<[Z.to_nat f := r3]> (h2d_rings p2))) with
    (prot_upd p (p_pub p) (<[Z.to_nat f := r3]> (<[Z.to_nat f := r2]> (h2d_rings p))) m2 (p_log p ++ e1) (active_tx_count p)).
  rewrite list_insert_insert_eq.
  set (w := OnRing f (Z.of_nat (length (g_sent g)))).
  destruct (reserved_audit _ _ _ _ _ w Hres2) as (m3 & Eau & Hm3 & _); [done|done|].
  erewrite prot_audit_eq by exact Eau. cbn [mbind option_bind]. rewrite emit_nil.
  set (p3 := set_map _ m3).
  destruct (tx_announce_ok p f r3 (push g d) e1 m3
    ((pend_items_count r2 =? txp_threshold p3) || (off =? (max_items r2 - 1) * item_len r2)))
    as (d' & e & r4 & E4 & Hq & W' & Har & Hok4 & Hpo4 & Hcells); try done; [apply Hr|unfold e1; by destruct meta as [[? ?]|]| |].
  { intros [_ Ec%Z.eqb_neq]%orb_false_iff. apply Hpo3; [|lia].
    replace (max_items r) with (max_items r2) by (cbn; by rewrite Es).
    replace (item_len r) with (item_len r2) by (cbn; by rewrite Es). done. }
  change (prot_upd p (p_pub p) _ m3 (p_log p ++ e1) (active_tx_count p)) with p3 in E4. rewrite E4. clear E4.
  cbn [mbind option_bind]. do 2 eexists. split; [done|]. split; [by case_match|]. right. split; [done|].
  exists g, d, id. split_and!; [done|apply (mr_new _ _ _ _ _ Hres)| |].
  { exists hdr. by split_and!. }
  set (act := u16 (active_tx_count p + 1)).
  replace (if active_tx_count (set_active _ _) =? 1 then _ else _) with
    (prot_upd p d' (<[Z.to_nat f := r4]> (h2d_rings p)) m3
       (p_log p ++ e ++ (if act =? 1 then [WakeLock] else [])) act).
  2: { cbn. fold act. destruct (act =? 1); unfold emit, set_active, prot_upd; cbn; f_equal;
       by rewrite ?app_nil_r, <- ?app_assoc. }
  pose proof (mr_k _ _ _ _ _ Hres) as Hk. unfold MAX_PKTID_ITEMS in Hk.
  apply (tx_sys_ok y f g d id (tx_item DMA_MAP b)); try done; [by eapply ring_ok_got|apply (mr_new _ _ _ _ _ Hres)|].
  apply (host_txbuf_post_desc _ f ifidx (u8 (pb_prio b)) pktlen pa0 hdr meta id); [lia|lia|done|exact Hds].
Qed.

(** ** The flush on the system *)
Lemma txflush_ok y f (p := y_p y) :
  sys_ok ri y -> is_Some (p_info p !! f) ->
  exists p', dhd_prot_txdata_write_flush p f = Some p' /\ rx_same p p' /\ active_tx_count p' = active_tx_count p /\
    sys_ok ri (with_prot y p') /\
    exists r, aget (h2d_rings p') f = Some r /\ pend_items_count r = 0 /\
      cell_val (p_pub p') (Cell H2D true (ring_id f)) = wr r.
Proof.
  intros Hy [i Hi]. pose proof Hy as [Hr Ht Hinf Hm Hfl Hc Htmo Hrx]. fold p in Hr, Ht, Hinf, Hm, Hfl, Hc, Htmo, Hrx.
  pose proof (Hinf f i Hi) as [-> Hf].
  destruct (aget_is_Some (h2d_rings p) f) as [r Er]; [lia|].
  destruct (rings_ok_ghost ri _ _ _ _ _ _ Hr Er) as [g Eg].
  destruct (rk_ring _ _ _ _ _ Hr f r g Er Eg) as [Hok Hpo].
  destruct (write_flush_ok p f r g Ht Hi Er (rk_idx _ _ _ _ _ Hr) Hok (po_run _ _ _ Hpo))
    as (d' & e & r' & -> & Hq & W' & Har & Hok' & Ep & Eil & Hcells).
  eexists. do 3 (split; [done|]). split.
  - constructor; cbn [with_prot y_p y_g y_out y_acc prot_upd p_pub p_log h2d_rings pktid_map_handle p_info
      rx_metadata_offset tx_metadata_offset p_flow_ring_table]; try done.
    + rewrite <- (list_insert_id (y_g y) (Z.to_nat f) g).
      * apply rings_ok_upd with (d := p_pub p); try done; [lia| |by rewrite Ep|].
        -- intros j il Hj Hne. apply (quiet_other f j il e); (lia || done).
        -- destruct Hpo. constructor; [by rewrite Eil|by rewrite Ep|intros Hz|intros Hz]; congruence.
      * unfold aget in Eg. by destruct (0 <=? f).
    + rewrite length_insert. exact Hinf.
    + destruct Hc as [Ha Hw Hcl Hacc]. constructor; cbn [active_tx_count p_log prot_upd]; try done.
      * by rewrite wake_depth_app, (quiet_wake f e Hq), Z.add_0_r.
      * apply Forall_app. split; [done|by eapply quiet_clean].
      * by rewrite completed_app, (quiet_completed f e Hq), app_nil_r.
    + by rewrite length_insert.
  - exists r'. cbn [prot_upd h2d_rings p_pub]. rewrite aget_insert by lia. rewrite decide_True by done. split_and!; [done..|].
    destruct (ro_cnt _ _ _ _ _ _ _ Hok') as (C & R & _ & _ & _ & _ & _ & _ & Ho & Hw & _).
    cbn [ri_own h2d_ring_idx h_st ring_view h_ring h_sent] in Ho, Hw. rewrite Ho, Hw. by rewrite Z.sub_0_r.
Qed.

(** ** dhd_prot_txstatus_process, for a packet the dongle holds *)
Lemma counted_done p out acc id e :
  counted p out acc -> out !! id = Some e -> is_tx e ->
  0 < active_tx_count p /\
  forall d rings m tail, completed tail = [pkt (e_item e)] -> wake_depth tail = 0 -> clean tail ->
    counted (prot_upd p d rings m
      (p_log p ++ (if active_tx_count p - 1 =? 0 then [WakeUnlock] else []) ++ tail) (active_tx_count p - 1))
      (delete id out) acc.
Proof.
  intros [Ha Hw Hc Hacc] He Ht. destruct (tx_out_delete out id e He Ht) as [Es Ep].
  split; [lia|]. intros d rings m tail Ht1 Ht2 Ht3.
  set (un := if active_tx_count p - 1 =? 0 then [WakeUnlock] else []).
  assert (clean un) as Hcu by (unfold un; destruct (active_tx_count p - 1 =? 0); [by apply Forall_singleton|by apply Forall_nil]).
  assert (completed un = []) as Hpu by (unfold un; by destruct (active_tx_count p - 1 =? 0)).
  constructor; cbn [prot_upd active_tx_count p_log].
  - lia.
  - rewrite !wake_depth_app, Hw, Ht2. unfold un.
    rewrite (proj2 (Z.eqb_neq (active_tx_count p) 0)) by lia.
    by destruct (Z.eqb_spec (active_tx_count p - 1) 0).
  - unfold clean. rewrite !Forall_app. by split_and!.
  - rewrite !completed_app, Hpu, Ht1, Hacc, Ep. cbn [app]. by rewrite <- app_assoc.
Qed.

Lemma txstatus_ok y msg id e (p := y_p y) (it := e_item e) :
  sys_ok ri y -> ld 4 msg 4 = Some id -> y_out y !! id = Some e -> e_where e = Taken -> is_tx e ->
  exists p', dhd_prot_txstatus_process p msg = Some p' /\
    p_log p' = p_log p ++ (if active_tx_count p - 1 =? 0 then [WakeUnlock] else []) ++
      [DmaUnmap (pa it) (len it) DMA_RX (pkt it); TxComplete (pkt it) true; PktFree (pkt it) true] /\
    active_tx_count p' = active_tx_count p - 1 /\ h2d_rings p' = h2d_rings p /\ rx_same p p' /\
    sys_ok ri {| y_p := p'; y_g := y_g y; y_out := delete id (y_out y); y_acc := y_acc y |}.
Proof.
  intros Hy Hmsg He Hw Ht. pose proof Hy as [Hr Htb Hinf Hm Hfl Hc Htmo Hrx]. fold p in Hr, Htb, Hinf, Hm, Hfl, Hc, Htmo, Hrx.
  pose proof (mo_out _ _ _ Hm id e He) as (Hk & _ & _ & Hz). fold it in Hz.
  destruct (returned_free _ _ _ _ _ Hm He) as (m1 & m2 & Eau & Efr & Hm2); [by rewrite Hw|]. fold it in Efr.
  unfold is_tx in Ht. fold it in Ht. rewrite Ht in Efr.
  destruct (counted_done p (y_out y) (y_acc y) id e Hc He Ht) as [Hpos Hc'].
  unfold dhd_prot_txstatus_process. rewrite Hmsg. cbn [mbind option_bind].
  rewrite (prot_audit_eq p id _ m1 Eau). cbn [mbind option_bind]. rewrite emit_nil.
  change (active_tx_count (set_map p m1)) with (active_tx_count p). rewrite (proj2 (Z.eqb_neq (active_tx_count p) 0)) by lia.
  cbn [negb]. change (active_tx_count (set_active (set_map p m1) (active_tx_count p - 1))) with (active_tx_count p - 1).
  set (un := if active_tx_count p - 1 =? 0 then [WakeUnlock] else []).
  replace (if active_tx_count p - 1 =? 0 then emit _ [WakeUnlock] else _) with
    (prot_upd p (p_pub p) (h2d_rings p) m1 (p_log p ++ un) (active_tx_count p - 1)).
  2: { unfold un. destruct (active_tx_count p - 1 =? 0); unfold emit, set_active, set_map, prot_upd; cbn;
       by rewrite ?app_nil_r. }
  cbn [prot_upd pktid_map_handle]. rewrite Efr. cbn [mbind option_bind]. rewrite (proj2 (Z.eqb_neq (pkt it) 0)) by done.
  cbn [negb mbind option_bind]. eexists. split; [done|]. split; [symmetry; apply app_assoc|]. do 3 (split; [done|]).
  set (tail := [DmaUnmap _ _ _ _; _; _]).
  constructor; cbn [y_p y_g y_out y_acc]; try done.
  - cbn [emit set_map p_log p_pub h2d_rings]. apply rings_ok_log; [apply rings_ok_log; [done|]|done].
    intros. unfold un. by destruct (active_tx_count p - 1 =? 0).
  - apply in_flight_done with e; [done..|]. by rewrite Hw.
  - unfold emit, set_map. cbn. rewrite <- app_assoc. apply Hc'; [done|done|]. by repeat (apply Forall_cons; split).
Qed.
End tx.
