(* ===== verification/ProtRx.v ===== *)
(** * Posting receive buffers and taking received packets

    dhd/sys/dhd_msgbuf.c: dhd_msgbuf_rxbuf_post keeps max_rxbufpost buffers
    posted on the receive submission ring, in bursts of RX_BUF_BURST through
    dhd_prot_rxbuf_post; dhd_prot_rxcmplt_process takes a completed buffer's
    packet and has another one posted. *)
From Stdlib Require Import ZArith Lia.
From stdpp Require Import base option numbers gmap list.
From S2P Require Import Prelude Bytes PktidMap Tcm RingIndex MsgRing MsgFifo ProtState.

Definition MSG_TYPE_RXBUF_POST : Z := 17.
Definition RX_BUF_BURST : Z := 32.
Definition RXBUFPOST_THRESHOLD : Z := 32.
Definition DHD_FLOWRING_RX_BUFPOST_PKTSZ : Z := 2048.
Definition RXP : Z := 1.  (* h2dring_rxp_subn *)

(** ** The message, host_rxbuf_post_t

    cmn_hdr 0, metadata_buf_len 8, data_buf_len 10, rsvd 12,
    metadata_buf_addr 16, data_buf_addr 24 (low then high half).  The first
    part is written before the packet id is allocated. *)
Definition rxbuf_post_hdr (epoch : Z) : list (Z * list Z) :=
  [(0, le_bytes 1 MSG_TYPE_RXBUF_POST); (1, le_bytes 1 0); (3, le_bytes 1 epoch)].
Definition rxbuf_post_body (pktlen pa rmo pktid : Z) : list (Z * list Z) :=
  [(10, le_bytes 2 (u16 pktlen));
   (28, le_bytes 4 (PHYSADDRHI pa));
   (24, le_bytes 4 (u32 (PHYSADDRLO pa + rmo)))] ++
  (if negb (rmo =? 0)
   then [(8, le_bytes 2 rmo); (20, le_bytes 4 (PHYSADDRHI pa)); (16, le_bytes 4 (PHYSADDRLO pa))]
   else [(8, le_bytes 2 0); (20, le_bytes 4 0); (16, le_bytes 4 0)]) ++
  [(4, le_bytes 4 pktid)].

Section rx.
(** DMA_MAP as in [ProtTx].  PKTGET of a packet of [DHD_FLOWRING_RX_BUFPOST_PKTSZ]
    bytes: what the [n]-th call of it returns, the packet and the address of its
    data, or nothing; the count of calls is threaded. *)
Variable DMA_MAP : Z -> Z -> Z -> Z.
Variable PKTGET : Z -> option (Z * Z).

(** The loop over the [alloced] messages: [i] are filled, [off] is
    rxbuf_post_tmp.  The result is the final [i]. *)
Fixpoint rxbuf_post_loop (fuel : nat) (n : Z) (i alloced off : Z) (p : dhd_prot)
    : option (Z * Z * dhd_prot) :=
  if negb (i <? alloced) then Some (n, i, p) else
  match fuel with
  | O => None
  | S fuel =>
      match PKTGET n with
      | None => Some (n + 1, i, set_pktgetfail p (wrapu 64 (rx_pktgetfail p + 1)))
      | Some (pkt, va) =>
          let n := n + 1 in
          let pktlen := DHD_FLOWRING_RX_BUFPOST_PKTSZ in
          let pa := DMA_MAP va pktlen DMA_RX in
          let p := emit p [DmaMap va pktlen DMA_RX pa] in
          if PHYSADDRISZERO pa then
            Some (n, i, emit p [DmaUnmap pa pktlen DMA_RX pkt; PktFree pkt false])
          else
            let pktlen := u32 (pktlen - rx_metadata_offset p) in
            r ← aget (h2d_rings p) RXP;
            p ← ring_fill p RXP off (rxbuf_post_hdr (seqnum r mod H2D_EPOCH_MODULO));
            r ← aget (h2d_rings p) RXP;
            p ← ring_upd p RXP (set_seqnum r (u32 (seqnum r + 1)));
            '(pktid, m) ← dhd_pktid_map_alloc (pktid_map_handle p) pkt pa pktlen DMA_RX 0 0 PKTTYPE_DATA_RX;
            let p := set_map p m in
            if pktid =? DHD_PKTID_INVALID then
              Some (n, i, emit p [DmaUnmap pa pktlen DMA_RX pkt; PktFree pkt false])
            else
              p ← ring_fill p RXP off (rxbuf_post_body pktlen pa (rx_metadata_offset p) pktid);
              p ← prot_pktid_audit p pktid DHD_DUPLICATE_ALLOC;
              rxbuf_post_loop fuel n (u8 (i + 1)) alloced (off + item_len r) p
      end
  end.

(** The result of dhd_prot_rxbuf_post, the number of calls of PKTGET so far
    and the state. *)
Definition dhd_prot_rxbuf_post (n : Z) (p : dhd_prot) (count : Z) : option (Z * Z * dhd_prot) :=
  '(msg_start, alloced, p) ← prot_alloc_ring_space p RXP count 0 true;
  match (msg_start : option Z) with
  | None => Some (-1, n, p)
  | Some msg_start =>
      '(n, i, p) ← rxbuf_post_loop (Z.to_nat alloced) n 0 alloced msg_start p;
      '(alloced, p) ←
        (if i <? alloced then
           r ← aget (h2d_rings p) RXP;
           p ← ring_upd p RXP (set_wr r (if wr r <? alloced - i
                                         then u16 (max_items r - (alloced - i))
                                         else u16 (wr r - (alloced - i))));
           Some (i, p)
         else Some (alloced, p));
      p ← (if 0 <? alloced then prot_ring_write_complete p RXP (Some msg_start) alloced else Some p);
      Some (alloced, n, p)
  end.

(** The loop of dhd_msgbuf_rxbuf_post; [fillbufs] is an int16. *)
Fixpoint rxbuf_fill_loop (fuel : nat) (n : Z) (fillbufs cnt : Z) (p : dhd_prot) : option (Z * dhd_prot) :=
  if negb (RX_BUF_BURST <=? fillbufs) then Some (n, p) else
  match fuel with
  | O => None
  | S fuel =>
      let cnt := u16 (cnt - 1) in
      if cnt =? 0 then Some (n, p) else
      let fillbufs := Z.min fillbufs RX_BUF_BURST in
      '(retcount, n, p) ← dhd_prot_rxbuf_post n p (u16 fillbufs);
      if 0 <=? retcount then
        let p := set_rxbufpost p (u16 (rxbufpost p + u16 retcount)) in
        rxbuf_fill_loop fuel n (wraps 16 (max_rxbufpost p - rxbufpost p)) cnt p
      else Some (n, p)
  end.

(** [cnt] starts at 256, so 256 turns are enough. *)
Definition dhd_msgbuf_rxbuf_post (n : Z) (p : dhd_prot) : option (Z * dhd_prot) :=
  rxbuf_fill_loop 256 n (wraps 16 (max_rxbufpost p - rxbufpost p)) 256 p.

Definition dhd_prot_return_rxbuf (n : Z) (p : dhd_prot) (rxcnt : Z) : option (Z * dhd_prot) :=
  let p := if rxcnt <=? rxbufpost p then set_rxbufpost p (u16 (rxbufpost p - rxcnt)) else set_rxbufpost p 0 in
  if rxbufpost p <=? max_rxbufpost p - RXBUFPOST_THRESHOLD then dhd_msgbuf_rxbuf_post n p
  else Some (n, p).

(** The packet of a completed id, 0 for NULL. *)
Definition dhd_prot_packet_get (p : dhd_prot) (pktid : Z) (pkttype : dhd_pkttype) (free_pktid : bool)
    : option (Z * dhd_prot) :=
  '(pkt, out, m) ← dhd_pktid_map_free (pktid_map_handle p) pktid pkttype
                     (if free_pktid then DHD_PKTID_FREE_LOCKER else DHD_PKTID_RSV_LOCKER);
  let p := set_map p m in
  if negb (pkt =? 0) then
    '(pa, len, dmah, secdma) ← out; Some (pkt, emit p [DmaUnmap pa len DMA_RX pkt])
  else Some (pkt, p).

(** [msg] is the host_rxbuf_cmpl_t: if_id 1, request_id 4, data_len 14,
    data_offset 16.  [RxPacket] is the hand-over to the receive load balancer:
    the bytes pulled, the length set and the interface. *)
Definition dhd_prot_rxcmplt_process (n : Z) (p : dhd_prot) (msg : list Z) : option (Z * dhd_prot) :=
  data_offset ← ld 2 msg 16;
  pktid ← ld 4 msg 4;
  p ← prot_pktid_audit p pktid DHD_DUPLICATE_FREE;
  '(pkt, p) ← dhd_prot_packet_get p pktid PKTTYPE_DATA_RX true;
  if pkt =? 0 then Some (n, p) else
  '(n, p) ← dhd_prot_return_rxbuf n p 1;
  data_len ← ld 2 msg 14;
  ifidx ← ld 1 msg 1;
  Some (n, emit p [RxPacket pkt (if negb (data_offset =? 0) then data_offset else rx_dataoffset p) data_len ifidx]).
End rx.
