(* ===== verification/ProtRxInv.v ===== *)
(** * The receive operations keep the invariant

    dhd_prot_rxbuf_post, dhd_msgbuf_rxbuf_post and dhd_prot_rxcmplt_process of
    [ProtRx] on the system of [ProtSys]. *)
From Stdlib Require Import ZArith Lia.
From stdpp Require Import base option numbers gmap list.
From S2P Require Import Prelude Bytes MwBitmap PktidMap PktOut Tcm RingIndex MsgRing MsgFifo.
From S2P Require Import ProtState ProtInv ProtSys ProtRx.

(** The state with the parts a receive operation changes. *)
Definition rx_upd (p : dhd_prot) (d : dhd_pub) (rings : list msgbuf_ring) (m : dhd_pktid_map)
    (log : list effect) (post getfail : Z) : dhd_prot :=
  {| p_pub := d; p_flow_ring_table := p_flow_ring_table p; p_info := p_info p; h2d_rings := rings;
     pktid_map_handle := m; active_tx_count := active_tx_count p;
     txp_threshold := txp_threshold p; tx_metadata_offset := tx_metadata_offset p;
     rx_metadata_offset := rx_metadata_offset p; rxbufpost := post; max_rxbufpost := max_rxbufpost p;
     rx_dataoffset := rx_dataoffset p; rx_pktgetfail := getfail; p_log := log |}.

Lemma rx_upd_rings p p' d rings m log post gf i r :
  p' = rx_upd p d rings m log post gf ->
  set_rings p' (<[i := r]> (h2d_rings p')) = rx_upd p d (<[i := r]> rings) m log post gf.
Proof. by intros ->. Qed.

(** ** The message *)
Lemma rxbuf_post_fields_ok epoch pktlen pa rmo id :
  forallb (fld_in 32) (rxbuf_post_hdr epoch ++ rxbuf_post_body pktlen pa rmo id) = true /\
  flds_disj (rxbuf_post_hdr epoch ++ rxbuf_post_body pktlen pa rmo id) = true.
Proof. unfold rxbuf_post_body. destruct (negb (rmo =? 0)); done. Qed.

Lemma rxbuf_post_hdr_in epoch : forallb (fld_in 32) (rxbuf_post_hdr epoch) = true.
Proof. done. Qed.

Lemma rxbuf_post_desc rmo epoch pktlen pa id d dir pk :
  0 <= id < 2 ^ 32 ->
  (forall o bs, (o, bs) ∈ rxbuf_post_hdr epoch ++ rxbuf_post_body pktlen pa rmo id ->
     ld_bytes d o (length bs) = Some bs) ->
  desc_ok rmo 1 d id (mk_item LOCKER_IS_BUSY dir PKTTYPE_DATA_RX (u16 pktlen) pk pa 0 0).
Proof.
  intros Hid Hd.
  assert (forall o k v, (o, le_bytes k v) ∈ rxbuf_post_hdr epoch ++ rxbuf_post_body pktlen pa rmo id ->
            0 <= v < 256 ^ Z.of_nat k -> ld k d o = Some v) as Hld.
  { intros o k v Hin Hv. apply Hd in Hin. rewrite length_le_bytes in Hin. unfold ld. rewrite Hin. cbn.
    by rewrite le_val_bytes. }
  pose proof (wrapu_range 16 pktlen ltac:(lia)). pose proof (wrapu_range 32 (Z.shiftr pa 32) ltac:(lia)).
  pose proof (wrapu_range 32 (PHYSADDRLO pa + rmo) ltac:(lia)).
  unfold desc_ok. cbn [Z.eqb Pos.eqb len PktidMap.pa].
  split_and!; apply Hld; try (unfold PHYSADDRHI; change (Z.of_nat 4) with 4; change (Z.of_nat 2) with 2;
    change (Z.of_nat 1) with 1; zlia); unfold rxbuf_post_hdr, rxbuf_post_body; set_solver.
Qed.

Section rx.
Context (ri : ring_info).
Variable DMA_MAP : Z -> Z -> Z -> Z.
Variable PKTGET : Z -> option (Z * Z).
Hypothesis PKTGET_nonnull : forall n pkt va, PKTGET n = Some (pkt, va) -> pkt <> 0.

(** ** The loop

    The state after [length xs] messages were formed: [r1] is the ring after
    the allocation of [a] slots from slot [q] on, [mem] its memory then. *)
Section loop.
Context (p : dhd_prot) (gs : list ring_ghost) (out : gmap Z out_entry) (g : ring_ghost) (r1 : msgbuf_ring).
Context (mem : list Z) (q a : Z).

Definition rx_ring (s : Z) (mem' : list Z) : msgbuf_ring := set_mem (set_seqnum r1 s) mem'.
Definition rx_w (rr : msgbuf_ring) (m : dhd_pktid_map) (log : list effect) (gf : Z) : dhd_prot :=
  rx_upd p (p_pub p) (<[Z.to_nat RXP := rr]> (h2d_rings p)) m log (rxbufpost p) gf.

(** [xs] are formed, with ids of [out']; the memory is [mem'], the effects [e]. *)
Record rx_at (xs : list (list Z)) (out' : gmap Z out_entry) (mem' : list Z) (m' : dhd_pktid_map)
    (e : list effect) : Prop := {
  ra_quiet : quiet RXP e /\ forall il j, flushed j il e = [];
  ra_map : map_ok MAX_PKTID_ITEMS m' out';
  ra_len : length mem' = length mem;
  ra_frame : forall j, j < q * 32 \/ (q + a) * 32 <= j -> aget mem' j = aget mem j;
  ra_slots : forall j, 0 <= j < Z.of_nat (length xs) -> aget xs j = Some (slot 32 mem' (q + j));
  ra_flight : in_flight (rx_metadata_offset p) (<[Z.to_nat RXP := pushes g xs]> gs) out';
  ra_tx : tx_out out' = tx_out out;
  ra_sub : grown_by PKTTYPE_DATA_RX out out';
  ra_size : size out' = (size out + length xs)%nat
}.
Definition rx_loop_ok (xs : list (list Z)) (out' : gmap Z out_entry) (p' : dhd_prot) : Prop :=
  exists s mem' m' e gf, p' = rx_w (rx_ring s mem') m' (p_log p ++ e) gf /\ rx_at xs out' mem' m' e.

Hypothesis Hring : RXP < Z.of_nat (length (h2d_rings p)).

Lemma rx_w_get rr m log gf : aget (h2d_rings (rx_w rr m log gf)) RXP = Some rr.
Proof. cbn. rewrite aget_insert by (unfold RXP in *; lia). by rewrite decide_True. Qed.
Lemma rx_w_upd rr m log gf rr' : ring_upd (rx_w rr m log gf) RXP rr' = Some (rx_w rr' m log gf).
Proof.
  rewrite ring_upd_eq by (cbn; rewrite length_insert; unfold RXP in *; lia).
  unfold rx_w, rx_upd, set_rings. cbn [h2d_rings]. by rewrite list_insert_insert_eq.
Qed.
Lemma rx_w_fill s mem1 m log gf off fs mem2 :
  st_fields mem1 off fs = Some mem2 ->
  ring_fill (rx_w (rx_ring s mem1) m log gf) RXP off fs = Some (rx_w (rx_ring s mem2) m log gf).
Proof.
  intros E. rewrite (ring_fill_eq _ RXP (rx_ring s mem1) off fs mem1 mem2) by (done || apply rx_w_get).
  unfold rx_w, rx_upd, set_rings. cbn [h2d_rings]. by rewrite list_insert_insert_eq.
Qed.
Lemma rx_w_map rr m log gf m' : set_map (rx_w rr m log gf) m' = rx_w rr m' log gf.
Proof. done. Qed.
Lemma rx_w_emit rr m log gf e : emit (rx_w rr m log gf) e = rx_w rr m (log ++ e) gf.
Proof. done. Qed.

Hypothesis Hgs : aget gs RXP = Some g.
Hypothesis Hgot : (length (g_got g) <= length (g_sent g))%nat.
Hypothesis Hlen : item_len r1 = 32.
Hypothesis Hmem : 0 <= q /\ (q + a) * 32 <= Z.of_nat (length mem).

(** Only the slot at hand may have changed. *)
Definition one_slot (k : Z) (mem1 mem2 : list Z) : Prop :=
  length mem2 = length mem1 /\ forall j, j < (q + k) * 32 \/ (q + k + 1) * 32 <= j -> aget mem2 j = aget mem1 j.

Lemma rx_at_slots xs out' mem1 m1 e mem2 (k := Z.of_nat (length xs)) :
  rx_at xs out' mem1 m1 e -> k < a -> one_slot k mem1 mem2 ->
  length mem2 = length mem /\ (forall j, j < q * 32 \/ (q + a) * 32 <= j -> aget mem2 j = aget mem j) /\
  forall j, 0 <= j < k -> aget xs j = Some (slot 32 mem2 (q + j)).
Proof.
  intros H Hk [Hl Hu]. split_and!.
  - rewrite Hl. apply H.
  - intros j Hj. rewrite Hu by nia. by apply H.
  - intros j Hj. rewrite (ra_slots _ _ _ _ _ H) by done. f_equal. symmetry.
    apply slot_same; [lia|lia|done|]. intros b Hb. apply Hu. nia.
Qed.

(** The loop stops here. *)
Lemma rx_at_stop xs out' mem1 m1 e mem2 m2 e2 :
  rx_at xs out' mem1 m1 e -> Z.of_nat (length xs) < a -> one_slot (Z.of_nat (length xs)) mem1 mem2 ->
  map_ok MAX_PKTID_ITEMS m2 out' -> quiet RXP e2 -> (forall il j, flushed j il e2 = []) ->
  rx_at xs out' mem2 m2 (e ++ e2).
Proof.
  intros H Hk Hone Hm Hq Hf. destruct (rx_at_slots _ _ _ _ _ _ H Hk Hone) as (? & ? & ?).
  destruct H as [[Hq1 Hf1] ? ? ? ? ? ? ? ?]. constructor; try done. split; [by apply quiet_app|].
  intros il j. by rewrite flushed_app, Hf1, Hf.
Qed.

(** One more message was formed. *)
Lemma rx_at_add xs out' mem1 m1 e mem2 m2 e2 id it (k := Z.of_nat (length xs)) (d := slot 32 mem2 (q + k)) :
  rx_at xs out' mem1 m1 e -> k < a -> one_slot k mem1 mem2 -> quiet RXP e2 -> (forall il j, flushed j il e2 = []) ->
  let out2 := <[id := {| e_item := it; e_where := OnRing RXP (Z.of_nat (length (g_sent (pushes g xs)))) |}]> out' in
  map_ok MAX_PKTID_ITEMS m2 out2 -> out' !! id = None -> pkttype it = PKTTYPE_DATA_RX ->
  desc_ok (rx_metadata_offset p) RXP d id it -> rx_at (xs ++ [d]) out2 mem2 m2 (e ++ e2).
Proof.
  intros H Hk Hone Hq2 Hf2 out2 Hm2 Hnew Hty Hd. destruct (rx_at_slots _ _ _ _ _ _ H Hk Hone) as (Hl & Hout & Hsl).
  destruct H as [[Hq1 Hf1] _ _ _ _ Hif Htx Hsub Hsz]. constructor; try done.
  - split; [by apply quiet_app|]. intros il j. by rewrite flushed_app, Hf1, Hf2.
  - intros j Hj. rewrite length_app in Hj. cbn [length] in Hj. rewrite aget_snoc. fold k.
    destruct (decide (j = k)) as [->|]; [done|]. apply Hsl. lia.
  - pose proof (in_flight_post (rx_metadata_offset p) _ out' RXP (pushes g xs) d id it Hif) as Hpost.
    rewrite list_insert_insert_eq in Hpost. unfold push, pushes in Hpost. cbn [pushes g_drd g_sent g_got] in Hpost.
    rewrite <- app_assoc in Hpost. apply Hpost; try done.
    + rewrite aget_insert by (eapply aget_lt; exact Hgs). by rewrite decide_True.
    + rewrite length_app. lia.
    + by rewrite Hty.
  - unfold out2. rewrite tx_out_insert, Htx by done. rewrite decide_False; [done|]. unfold is_tx. cbn. by rewrite Hty.
  - apply (grown_by_trans _ _ out'); [done|]. by apply grown_by_insert.
  - unfold out2. rewrite map_size_insert_None by done. rewrite length_app. cbn [length]. lia.
Qed.

(** The bytes of the message at hand, formed in its two parts. *)
Lemma rx_fields k mem1 fs1 fs2 :
  0 <= k < a -> length mem1 = length mem -> forallb (fld_in 32) (fs1 ++ fs2) = true -> flds_disj (fs1 ++ fs2) = true ->
  exists mem2 mem3, st_fields mem1 ((q + k) * 32) fs1 = Some mem2 /\ one_slot k mem1 mem2 /\
    st_fields mem2 ((q + k) * 32) fs2 = Some mem3 /\ one_slot k mem1 mem3 /\
    forall o bs, (o, bs) ∈ fs1 ++ fs2 -> ld_bytes (slot 32 mem3 (q + k)) o (length bs) = Some bs.
Proof.
  intros Hk Hl Hin Hdj. set (off := (q + k) * 32).
  assert (0 <= off /\ off + 32 <= Z.of_nat (length mem1)) as [Ho1 Ho2] by (unfold off; nia).
  assert (forallb (fld_in 32) fs1 = true) as Hin1 by (rewrite forallb_app in Hin; by apply andb_true_iff in Hin as [? _]).
  destruct (st_fields_Some 32 mem1 off fs1 Ho1 Ho2 Hin1) as (mem2 & E2 & Hl2 & Hu2 & _).
  destruct (st_fields_Some 32 mem1 off (fs1 ++ fs2) Ho1 Ho2 Hin) as (mem3 & E3 & Hl3 & Hu3 & _).
  exists mem2, mem3. split_and!; try done.
  - split; [done|]. intros j Hj. apply Hu2. unfold off. lia.
  - rewrite st_fields_app, E2 in E3. exact E3.
  - split; [done|]. intros j Hj. apply Hu3. unfold off. lia.
  - intros o bs Hob. pose proof Hin as Hin'. rewrite forallb_forall in Hin'.
    specialize (Hin' (o, bs) ltac:(by apply list_elem_of_In)). unfold fld_in in Hin'. cbn [fst snd] in Hin'.
    apply andb_true_iff in Hin' as [H1%Z.leb_le H2%Z.leb_le].
    rewrite ld_bytes_slot by lia. by apply (st_fields_ld 32 mem1 off (fs1 ++ fs2) mem3 o bs).
Qed.

Lemma rxbuf_post_loop_ok fuel n xs out' p' :
  rx_loop_ok xs out' p' -> Z.of_nat (length xs) + Z.of_nat fuel = a -> a < 256 ->
  exists n' p'' xs' out'', rxbuf_post_loop DMA_MAP PKTGET fuel n (Z.of_nat (length xs)) a ((q + Z.of_nat (length xs)) * 32) p' =
      Some (n', Z.of_nat (length xs'), p'') /\
    rx_loop_ok xs' out'' p'' /\ Z.of_nat (length xs') <= a.
Proof.
  revert n xs out' p'. induction fuel as [|fuel IH]; intros n xs out' p' Hok Hf Ha; cbn [rxbuf_post_loop].
  { rewrite (proj2 (Z.ltb_ge _ _)) by lia. cbn [negb]. exists n, p', xs, out'. split_and!; (done || lia). }
  rewrite (proj2 (Z.ltb_lt _ _)) by lia. cbn [negb].
  destruct Hok as (s & mem1 & m1 & e & gf & -> & Hat). pose proof (ra_map _ _ _ _ _ Hat) as Hm.
  set (k := Z.of_nat (length xs)) in *. assert (one_slot k mem1 mem1) as Hsame by done.
  destruct (PKTGET n) as [[pk va0]|] eqn:Eg.
  2: { exists (n + 1). eexists _, xs, out'. split; [done|]. split; [|lia]. by exists s, mem1, m1, e, (wrapu 64 (gf + 1)). }
  pose proof (PKTGET_nonnull _ _ _ Eg) as Hpk.
  set (pa0 := DMA_MAP va0 DHD_FLOWRING_RX_BUFPOST_PKTSZ DMA_RX).
  set (e1 := [DmaMap va0 DHD_FLOWRING_RX_BUFPOST_PKTSZ DMA_RX pa0]).
  destruct (PHYSADDRISZERO pa0) eqn:Ez.
  { exists (n + 1). eexists _, xs, out'. split; [done|]. split; [|lia]. rewrite !rx_w_emit, <- !(app_assoc (p_log p)).
    eexists s, mem1, m1, _, gf. split; [done|]. rewrite <- app_assoc.
    apply (rx_at_stop _ _ mem1 m1); try done; [lia|]. by repeat (apply Forall_cons; split). }
  rewrite rx_w_emit. change (rx_metadata_offset (rx_w _ _ _ _)) with (rx_metadata_offset p).
  set (pktlen := u32 (DHD_FLOWRING_RX_BUFPOST_PKTSZ - rx_metadata_offset p)).
  rewrite rx_w_get. cbn [mbind option_bind]. change (seqnum (rx_ring s mem1)) with s.
  unfold dhd_pktid_map_alloc.
  destruct (reserve_out _ _ _ pk Hm) as [(m2 & Er & Hm2 & _)|(id & l & m2 & Er & Hres & Hid0)];
    [set (id := DHD_PKTID_INVALID) in Er|];
    destruct (rxbuf_post_fields_ok (s mod H2D_EPOCH_MODULO) pktlen pa0 (rx_metadata_offset p) id) as [Hin Hdj];
    destruct (rx_fields k mem1 _ _ ltac:(lia) (ra_len _ _ _ _ _ Hat) Hin Hdj) as (mem2 & mem3 & E2 & Ho2 & E3 & Ho3 & Hld);
    rewrite (rx_w_fill _ _ _ _ _ _ _ _ E2); cbn [mbind option_bind]; rewrite rx_w_get; cbn [mbind option_bind];
    change (seqnum (rx_ring s mem2)) with s; set (s' := u32 (s + 1));
    change (set_seqnum (rx_ring s mem2) s') with (rx_ring s' mem2);
    change (item_len (rx_ring s mem2)) with (item_len r1); rewrite Hlen, rx_w_upd; cbn [mbind option_bind];
    change (pktid_map_handle (rx_w _ m1 _ _)) with m1; rewrite Er; cbn [mbind option_bind].
  { rewrite Z.eqb_refl. cbn [negb mbind option_bind]. rewrite ?Z.eqb_refl.
    exists (n + 1). eexists _, xs, out'. split; [done|]. split; [|lia].
    rewrite rx_w_map, rx_w_emit, <- !(app_assoc (p_log p)). eexists s', mem2, m2, _, gf. split; [done|]. rewrite <- app_assoc.
    apply (rx_at_stop _ _ mem1 m1); try done; [lia|]. by repeat (apply Forall_cons; split). }
  rewrite (proj2 (Z.eqb_neq _ _)) by done. cbn [negb].
  destruct (reserved_save _ _ _ _ _ pk pa0 pktlen DMA_RX 0 0 PKTTYPE_DATA_RX Hres) as (m3 & -> & Hres2).
  cbn [mbind option_bind]. rewrite (proj2 (Z.eqb_neq _ _)) by done. rewrite rx_w_map.
  change (rx_metadata_offset (rx_w _ _ _ _)) with (rx_metadata_offset p).
  rewrite (rx_w_fill _ _ _ _ _ _ _ _ E3). cbn [mbind option_bind].
  set (w := OnRing RXP (Z.of_nat (length (g_sent (pushes g xs))))).
  destruct (reserved_audit _ _ _ _ _ w Hres2) as (m4 & Eau & Hm4 & _); [done|done|].
  erewrite prot_audit_eq by exact Eau. cbn [mbind option_bind]. rewrite emit_nil, rx_w_map.
  rewrite (wrapu_small 8) by zlia. set (d := slot 32 mem3 (q + k)).
  assert (Z.of_nat (length (xs ++ [d])) = k + 1) as Hk1 by (rewrite length_app; cbn [length]; lia).
  replace ((q + k) * 32 + 32) with ((q + (k + 1)) * 32) by lia. rewrite <- Hk1.
  set (it := mk_item LOCKER_IS_BUSY DMA_RX PKTTYPE_DATA_RX (u16 pktlen) pk pa0 0 0) in *.
  apply (IH _ _ (<[id := {| e_item := it; e_where := w |}]> out')); [|lia|done]. rewrite <- !(app_assoc (p_log p)). eexists s', mem3, m4, _, gf. split; [done|].
  pose proof (mr_k _ _ _ _ _ Hres) as Hk. unfold MAX_PKTID_ITEMS in Hk.
  apply (rx_at_add xs out' mem1 m1 e mem3 m4 e1 id it Hat); try done; [lia|by repeat (apply Forall_cons; split)|apply (mr_new _ _ _ _ _ Hres)|].
  by apply (rxbuf_post_desc _ (s mod H2D_EPOCH_MODULO)); [lia|].
Qed.
End loop.

(** ** dhd_prot_rxbuf_post *)

(** What posting receive buffers may change. *)
Record rx_grown (y : prot_sys) (p' : dhd_prot) (gs' : list ring_ghost) (out' : gmap Z out_entry) (k : Z) : Prop := {
  rg_sys : sys_ok ri {| y_p := p'; y_g := gs'; y_out := out'; y_acc := y_acc y |};
  rg_gs : exists g xs, aget (y_g y) RXP = Some g /\ gs' = <[Z.to_nat RXP := pushes g xs]> (y_g y) /\
            Z.of_nat (length xs) = k;
  rg_tx : tx_out out' = tx_out (y_out y);
  rg_sub : grown_by PKTTYPE_DATA_RX (y_out y) out';
  rg_size : Z.of_nat (size out') = Z.of_nat (size (y_out y)) + k;
  rg_max : max_rxbufpost p' = max_rxbufpost (y_p y);
  rg_same : active_tx_count p' = active_tx_count (y_p y) /\ p_info p' = p_info (y_p y) /\
            rx_dataoffset p' = rx_dataoffset (y_p y);
  rg_log : exists e, p_log p' = p_log (y_p y) ++ e /\ quiet RXP e
}.

Lemma pushes_nil y i g : aget (y_g y) i = Some g -> <[Z.to_nat i := pushes g []]> (y_g y) = y_g y.
Proof.
  intros Eg. unfold pushes. rewrite app_nil_r. apply list_insert_id. unfold aget in Eg.
  destruct (0 <=? i); [|done]. rewrite Eg. by destruct g.
Qed.

Lemma rollback_wr q a i m w :
  0 <= q < m -> 0 <= i < a -> q + a <= m -> m < 2 ^ 16 -> w = (q + a) mod m ->
  (if w <? a - i then u16 (m - (a - i)) else u16 (w - (a - i))) = q + i.
Proof.
  intros Hq Hi Ha Hm ->. destruct (decide (q + a = m)) as [E|].
  - rewrite E, Z_mod_same_full. destruct (Z.ltb_spec 0 (a - i)); [|lia]. rewrite wrapu_small by zlia. lia.
  - rewrite Z.mod_small by lia. destruct (Z.ltb_spec (q + a) (a - i)); [lia|]. rewrite wrapu_small by zlia. lia.
Qed.

(** The unused slots are given back and the formed messages announced: the
    ring [r] with ghost [g] before, [i] of the [a] granted slots filled. *)
Definition rx_finish (i a off : Z) (p : dhd_prot) : option (Z * dhd_prot) :=
  '(a, p) ←
    (if i <? a then
       r ← aget (h2d_rings p) RXP;
       p ← ring_upd p RXP (set_wr r (if wr r <? a - i then u16 (max_items r - (a - i)) else u16 (wr r - (a - i))));
       Some (i, p)
     else Some (a, p));
  p ← (if 0 <? a then prot_ring_write_complete p RXP (Some off) a else Some p);
  Some (a, p).

Lemma rx_rollback_ok p m e gf rr i a P (rf := set_wr rr ((P + i) mod max_items rr)) :
  RXP < Z.of_nat (length (h2d_rings p)) -> 2 <= max_items rr < 2 ^ 16 -> 0 <= i <= a ->
  P mod max_items rr + a <= max_items rr -> wr rr = (P + a) mod max_items rr ->
  (if i <? a then
     r ← aget (h2d_rings (rx_w p rr m (p_log p ++ e) gf)) RXP;
     p ← ring_upd (rx_w p rr m (p_log p ++ e) gf) RXP
           (set_wr r (if wr r <? a - i then u16 (max_items r - (a - i)) else u16 (wr r - (a - i))));
     Some (i, p)
   else Some (a, rx_w p rr m (p_log p ++ e) gf)) = Some (i, rx_w p rf m (p_log p ++ e) gf).
Proof.
  intros Hr Hm Hi Hfit Hw. rewrite rx_w_get by done. cbn [mbind option_bind].
  pose proof (Z.mod_pos_bound P (max_items rr) ltac:(lia)) as Hq.
  destruct (Z.ltb_spec i a) as [Hlt|Hge].
  - rewrite rx_w_upd by done. cbn [mbind option_bind]. unfold rf. do 4 f_equal.
    rewrite (rollback_wr (P mod max_items rr) a i (max_items rr)); try lia.
    + symmetry. rewrite mod_step by lia. destruct (Z.eqb_spec (P mod max_items rr + i) (max_items rr)); lia.
    + rewrite Hw. by rewrite Zplus_mod_idemp_l.
  - assert (i = a) as -> by lia. unfold rf. rewrite <- Hw. do 4 f_equal. by destruct rr.
Qed.

Lemma rx_announce_ok p m e gf rf g xs off (i := Z.of_nat (length xs)) :
  RXP < Z.of_nat (length (h2d_rings p)) -> index_wf ri (p_pub p) ->
  ring_ok ri (p_pub p) (p_log p ++ e) RXP rf (pushes g xs) i -> quiet RXP e ->
  off = Z.of_nat (length (g_sent g)) mod max_items rf * item_len rf ->
  exists d' e', (if 0 <? i then prot_ring_write_complete (rx_w p rf m (p_log p ++ e) gf) RXP (Some off) i
                 else Some (rx_w p rf m (p_log p ++ e) gf)) =
      Some (rx_upd p d' (<[Z.to_nat RXP := rf]> (h2d_rings p)) m (p_log p ++ e') (rxbufpost p) gf) /\
    quiet RXP e' /\ index_wf ri d' /\ arr_len d' = arr_len (p_pub p) /\
    ring_ok ri d' (p_log p ++ e') RXP rf (pushes g xs) 0 /\
    forall w j, 0 <= j -> j <> RXP -> valid_ring (p_pub p) H2D (ring_id j) ->
      cell_val d' (Cell H2D w (ring_id j)) = cell_val (p_pub p) (Cell H2D w (ring_id j)).
Proof.
  intros Hr W Hok Hq Hoff. destruct (Z.ltb_spec 0 i) as [Hi|Hi].
  - destruct (announce_ok ri (rx_w p rf m (p_log p ++ e) gf) RXP rf (pushes g xs) i off)
      as (d' & e2 & -> & Hq2 & ? & ? & Hok2 & ?); [done|by apply rx_w_get|exact Hok|done| |].
    { rewrite Hoff. cbn [pushes g_sent]. rewrite length_app, Nat2Z.inj_add. fold i. do 2 f_equal. lia. }
    exists d', (e ++ e2). rewrite app_assoc. split_and!; try done. by apply quiet_app.
  - assert (i = 0) as E0 by lia. rewrite E0 in Hok. by exists (p_pub p), e.
Qed.

Lemma rx_finish_ok y g r r1 a off xs out' s mem mem' m' e gf (p := y_p y) (P := Z.of_nat (length (g_sent g)))
    (q := P mod max_items r) :
  sys_ok ri y -> aget (h2d_rings p) RXP = Some r -> aget (y_g y) RXP = Some g -> pend_items_count r = 0 ->
  granted ri (p_pub p) RXP r g 0 r1 a -> r1 = set_wr (set_rd r (rd r1)) (wr r1) -> off = q * item_len r ->
  va (dma_buf r) = Some mem -> Z.of_nat (length xs) <= a ->
  rx_at p (y_g y) (y_out y) g mem q a xs out' mem' m' e ->
  exists p', rx_finish (Z.of_nat (length xs)) a off (rx_w p (rx_ring r1 s mem') m' (p_log p ++ e) gf) =
      Some (Z.of_nat (length xs), p') /\
    rxbufpost p' = rxbufpost p /\ rx_grown y p' (<[Z.to_nat RXP := pushes g xs]> (y_g y)) out' (Z.of_nat (length xs)).
Proof.
  intros Hy Er Eg Hp0 Hgr Es Hoff Emem Hxa Hat. pose proof Hy as [Hr Ht Hinf Hm Hfl Hc Htmo [Hrx Hrmo]].
  fold p in Hr, Ht, Hinf, Hm, Hfl, Hc, Htmo, Hrx, Hrmo.
  destruct (rk_ring _ _ _ _ _ Hr RXP r g Er Eg) as [Hok Hpo]. rewrite Hp0 in Hok.
  pose proof (po_len _ _ _ Hpo) as Hil. cbn in Hil. pose proof (rw_max _ (ro_wf _ _ _ _ _ _ _ Hok)) as Hmax.
  destruct (ro_mem _ _ _ _ _ _ _ Hok) as (mem0 & E0 & Hlm). rewrite Emem in E0. injection E0 as <-.
  pose proof Hgr as (C & R & C' & Hcnts & HC' & _ & Hcap & Hfit & Hw1).
  destruct Hcnts as (HC & HR & HV & _). cbn [h_got h_sent h_ring ring_view] in HR, HV. fold P in HR, HV, Hcap, Hfit, Hw1.
  destruct Hat as [[Hqe Hfe] Hm' Hl' Hout Hxs Hif Htx Hsub Hsz].
  set (i := Z.of_nat (length xs)) in *. set (rr := rx_ring r1 s mem').
  assert (max_items rr = max_items r /\ item_len rr = item_len r /\ pend_items_count rr = 0) as (Emx & Eil & Epd)
    by (cbn; by rewrite Es).
  unfold rx_finish. rewrite (rx_rollback_ok p m' e gf rr i a P); rewrite ?Emx; try done; try lia; [|unfold RXP; lia].
  cbn [mbind option_bind]. set (rf := set_wr rr _).
  assert (ring_ok ri (p_pub p) (p_log p ++ e) RXP rf (pushes g xs) i) as Hokf.
  { apply ring_ok_log; [|done]. rewrite <- (Z.add_0_l i).
    apply (ring_post ri (p_pub p) (p_log p) RXP r g 0 r1 a rf mem mem' xs); try done; try (cbn; by rewrite Es); try lia.
    - fold P. fold q. rewrite Hil. exact Hout.
    - fold P. fold q. rewrite Hil. exact Hxs. }
  assert (pend_ok RXP rf (pushes g xs)) as Hpof.
  { constructor; [exact (eq_trans Eil Hil)|done| |]; [intros Hz|intros Hz]; unfold rf in Hz; cbn in Hz, Epd; congruence. }
  destruct (rx_announce_ok p m' e gf rf g xs off) as (d' & e' & E & Hqe' & W' & Har & Hok' & Hcells); try done;
    [unfold RXP; lia|apply Hr|cbn; fold P; by rewrite Es|].
  fold i in E. rewrite E. cbn [mbind option_bind]. eexists. split; [done|]. split; [done|].
  constructor; try done.
  - constructor; cbn [y_p y_g y_out y_acc rx_upd p_pub p_log h2d_rings p_info pktid_map_handle p_flow_ring_table
      tx_metadata_offset rx_metadata_offset]; try done.
    + apply rings_ok_upd with (d := p_pub p); try done; [unfold RXP; lia| |].
      * intros j il Hj Hne. apply (quiet_other RXP j il e'); (lia || done).
      * change (pend_items_count rf) with (pend_items_count rr). by rewrite Epd.
    + rewrite length_insert. exact Hinf.
    + destruct Hc as [Ha Hw Hcl Hacc]. constructor; cbn [active_tx_count p_log rx_upd].
      * by rewrite Htx.
      * by rewrite wake_depth_app, (quiet_wake RXP e' Hqe'), Z.add_0_r.
      * apply Forall_app. split; [done|by eapply quiet_clean].
      * by rewrite completed_app, (quiet_completed RXP e' Hqe'), app_nil_r, Htx.
    + by rewrite length_insert.
  - by exists g, xs.
  - rewrite Hsz. unfold i. lia.
  - by exists e'.
Qed.

Lemma rxbuf_post_ok y n count (p := y_p y) :
  sys_ok ri y -> 1 <= count < 256 ->
  exists rc n' p', dhd_prot_rxbuf_post DMA_MAP PKTGET n p count = Some (rc, n', p') /\
    rxbufpost p' = rxbufpost p /\
    ((rc = -1 /\ rx_grown y p' (y_g y) (y_out y) 0) \/
     (0 <= rc <= count /\ exists gs' out', rx_grown y p' gs' out' rc)).
Proof.
  intros Hy Hcnt. pose proof Hy as [Hr Ht Hinf Hm Hfl Hc Htmo [Hrx Hrmo]].
  fold p in Hr, Ht, Hinf, Hm, Hfl, Hc, Htmo, Hrx, Hrmo.
  destruct (aget_is_Some (h2d_rings p) RXP) as [r Er]; [unfold RXP; lia|].
  destruct (rings_ok_ghost ri _ _ _ _ _ _ Hr Er) as [g Eg].
  destruct (rk_ring _ _ _ _ _ Hr RXP r g Er Eg) as [Hok Hpo].
  pose proof (po_len _ _ _ Hpo) as Hil. cbn in Hil. pose proof (po_common _ _ _ Hpo ltac:(done)) as Hp0.
  rewrite Hp0 in Hok. pose proof (rw_max _ (ro_wf _ _ _ _ _ _ _ Hok)) as Hmax.
  destruct (ro_mem _ _ _ _ _ _ _ Hok) as (mem & Emem & Hlm).
  destruct (ring_alloc ri (p_pub p) (p_log p) RXP r g 0 count true (rk_idx _ _ _ _ _ Hr) Hok ltac:(lia))
    as (ptr & a & r1 & Ea & Es & Hpost).
  unfold dhd_prot_rxbuf_post. rewrite (prot_alloc_eq p RXP r count 0 true ptr a r1 Er Ea). cbn [mbind option_bind].
  destruct ptr as [off|].
  2: { destruct Hpost as [Hok1 _]. do 3 eexists. split; [done|]. split; [done|]. left. split; [done|].
    assert (pend_items_count r1 = 0) as Hp1 by (by rewrite Es).
    constructor; cbn [set_rings max_rxbufpost]; try done.
    - change (set_rings p (<[Z.to_nat RXP := r1]> (h2d_rings p))) with
        (set_map (set_rings p (<[Z.to_nat RXP := r1]> (h2d_rings p))) (pktid_map_handle p)).
      apply (sys_ok_idle ri y RXP r g r1 (pktid_map_handle p)); try done; [by rewrite Hp1|].
      destruct Hpo. constructor; [by rewrite Es|done| |]; [intros Hz|intros Hz]; congruence.
    - exists g, []. split_and!; [done| |done]. symmetry. by apply pushes_nil.
    - lia.
    - exists []. rewrite app_nil_r. split; [done|constructor]. }
  destruct Hpost as (Hoff & Ha1 & Ha2 & Hgr). specialize (Ha2 ltac:(lia)).
  pose proof Hgr as (C & R & C' & Hcnts & HC' & _ & Hcap & Hfit & Hw1).
  destruct Hcnts as (HC & HR & HV & _). cbn [h_got h_sent h_ring ring_view] in HR, HV.
  set (P := Z.of_nat (length (g_sent g))) in *. set (q := P mod max_items r) in *.
  pose proof (Z.mod_pos_bound P (max_items r) ltac:(lia)) as Hq. fold q in Hq.
  assert (va (dma_buf r1) = Some mem) as Emem1 by (by rewrite Es).
  assert (item_len r1 = 32) as Hil1 by (by rewrite Es).
  destruct (rxbuf_post_loop_ok p (y_g y) (y_out y) g r1 mem q a ltac:(unfold RXP; lia) Eg ltac:(lia) Hil1
    ltac:(nia) (Z.to_nat a) n [] (y_out y) (set_rings p (<[Z.to_nat RXP := r1]> (h2d_rings p))))
    as (n' & p2 & xs & out' & El & (s & mem' & m' & e & gf & -> & Hat) & Hxa); [|cbn; lia|lia|].
  { exists (seqnum r1), mem, (pktid_map_handle p), [], (rx_pktgetfail p). rewrite app_nil_r. split.
    - unfold rx_w, rx_ring. replace (set_mem (set_seqnum r1 (seqnum r1)) mem) with r1; [done|].
      destruct r1 as [? ? ? ? ? ? ? [] ? ? ?]. unfold set_mem, set_seqnum, set_dma_buf. cbn in *. by rewrite Emem1.
    - constructor; try done; [split; [constructor|done]|cbn; lia|by rewrite (pushes_nil y RXP)]. }
  cbn [length] in El. change (Z.of_nat 0) with 0 in El. rewrite Z.add_0_r in El.
  replace (q * 32) with off in El by (rewrite Hoff, Hil; done). rewrite El. cbn [mbind option_bind].
  destruct (rx_finish_ok y g r r1 a off xs out' s mem mem' m' e gf Hy Er Eg Hp0 Hgr Es Hoff Emem Hxa Hat)
    as (p' & E & Epost & Hgrown). fold p in E, Epost.
  exists (Z.of_nat (length xs)), n', p'. split; [|split; [done|right; split; [lia|by do 2 eexists]]].
  unfold rx_finish in E. revert E. generalize (rx_w p (rx_ring r1 s mem') m' (p_log p ++ e) gf). intros p2.
  destruct (if Z.of_nat (length xs) <? a then _ else _) as [[a2 p3]|]; [|done]. cbn [mbind option_bind].
  destruct (if 0 <? a2 then _ else _) as [p4|]; [|done]. cbn [mbind option_bind]. by intros [= -> ->].
Qed.

(** ** dhd_msgbuf_rxbuf_post *)

(** Every outstanding receive buffer is counted once. *)
Definition rx_posted (p : dhd_prot) (out : gmap Z out_entry) : Prop :=
  rxbufpost p = Z.of_nat (size (ty_out PKTTYPE_DATA_RX out)).

Lemma sys_ok_rxbufpost y v : sys_ok ri y -> sys_ok ri (with_prot y (set_rxbufpost (y_p y) v)).
Proof. intros [Hr Ht Hi Hm Hf [Ha Hw Hc Hacc] Htm Hrx]. constructor; done. Qed.

Lemma rx_grown_refl y p' :
  sys_ok ri (with_prot y p') -> (exists g, aget (y_g y) RXP = Some g) -> max_rxbufpost p' = max_rxbufpost (y_p y) ->
  active_tx_count p' = active_tx_count (y_p y) -> p_info p' = p_info (y_p y) ->
  rx_dataoffset p' = rx_dataoffset (y_p y) -> p_log p' = p_log (y_p y) ->
  rx_grown y p' (y_g y) (y_out y) 0.
Proof.
  intros Hs [g Eg] ? ? ? ? El. constructor; try done.
  - exists g, []. by rewrite (pushes_nil y RXP).
  - lia.
  - exists []. rewrite El, app_nil_r. split; [done|constructor].
Qed.

Lemma rx_grown_trans y p1 gs1 out1 k1 p2 gs2 out2 k2 :
  rx_grown y p1 gs1 out1 k1 ->
  rx_grown {| y_p := p1; y_g := gs1; y_out := out1; y_acc := y_acc y |} p2 gs2 out2 k2 ->
  rx_grown y p2 gs2 out2 (k1 + k2).
Proof.
  intros [H1 (g & xs & Eg & -> & Hk1) Ht1 Hs1 Hz1 Hm1 (A1 & A2 & A3) (e1 & E1 & Q1)]
    [H2 (g' & xs' & Eg' & -> & Hk2) Ht2 Hs2 Hz2 Hm2 (B1 & B2 & B3) (e2 & E2 & Q2)].
  cbn [y_p y_g y_out y_acc] in *. pose proof (aget_lt _ _ _ Eg).
  rewrite aget_insert, decide_True in Eg' by (done || lia). injection Eg' as <-.
  constructor; try congruence.
  - exists g, (xs ++ xs'). split_and!; [done| |rewrite length_app; lia].
    rewrite list_insert_insert_eq. unfold pushes. cbn [g_sent g_got g_drd]. by rewrite app_assoc.
  - by apply (grown_by_trans _ _ out1).
  - lia.
  - split_and!; congruence.
  - exists (e1 ++ e2). rewrite E2, E1, app_assoc. split; [done|by apply quiet_app].
Qed.

Lemma rx_grown_post y p' gs' out' k v : rx_grown y p' gs' out' k -> rx_grown y (set_rxbufpost p' v) gs' out' k.
Proof.
  intros [H1 H2 H3 H4 H5 H6 H7 H8]. constructor; try done.
  by apply (sys_ok_rxbufpost {| y_p := p'; y_g := gs'; y_out := out'; y_acc := y_acc y |}).
Qed.

Lemma s16_fill max post :
  0 <= max < 2 ^ 16 -> 0 <= post < 2 ^ 15 -> RX_BUF_BURST <= wraps 16 (max - post) -> post + RX_BUF_BURST <= max.
Proof.
  intros Hm Hp Hf. unfold RX_BUF_BURST in *. unfold wraps in Hf. change (2 ^ 16) with 65536 in *.
  change (2 ^ (16 - 1)) with 32768 in *. change (2 ^ 15) with 32768 in *.
  destruct (decide (max - post < 32768)).
  - rewrite Z.mod_small in Hf by lia. lia.
  - assert ((max - post + 32768) mod 65536 = max - post + 32768 - 65536) as E; [|lia].
    rewrite <- (Z_mod_plus_full _ (-1)), Z.mod_small; lia.
Qed.

Lemma rx_posted_lt y : sys_ok ri y -> rx_posted (y_p y) (y_out y) -> 0 <= rxbufpost (y_p y) <= MAX_PKTID_ITEMS.
Proof.
  intros Hy Hp. unfold rx_posted in Hp. pose proof (map_ok_size _ _ _ (so_map _ _ Hy)).
  pose proof (size_ty_le PKTTYPE_DATA_RX (y_out y)). lia.
Qed.

(** The receive buffers are [k] more. *)
Lemma rx_grown_rx y p' gs' out' k :
  rx_grown y p' gs' out' k ->
  Z.of_nat (size (ty_out PKTTYPE_DATA_RX out')) = Z.of_nat (size (ty_out PKTTYPE_DATA_RX (y_out y))) + k.
Proof. intros H. pose proof (grown_by_size _ _ _ (rg_sub _ _ _ _ _ H)) as [? _]. pose proof (rg_size _ _ _ _ _ H). lia. Qed.

Lemma rxbuf_fill_loop_ok fuel n cnt y (p := y_p y) :
  sys_ok ri y -> rx_posted p (y_out y) -> 0 <= max_rxbufpost p < 2 ^ 16 -> 0 < cnt < 2 ^ 16 -> cnt <= Z.of_nat fuel ->
  exists n' p' gs' out' k,
    rxbuf_fill_loop DMA_MAP PKTGET fuel n (wraps 16 (max_rxbufpost p - rxbufpost p)) cnt p = Some (n', p') /\
    rx_grown y p' gs' out' k /\ rx_posted p' out' /\ rxbufpost p' = rxbufpost p + k /\ 0 <= k /\
    rxbufpost p' <= Z.max (rxbufpost p) (max_rxbufpost p).
Proof.
  revert n cnt y p. induction fuel as [|fuel IH]; intros n cnt y p Hy Hp Hmax Hcnt Hf; [lia|].
  pose proof (rx_posted_lt y Hy Hp) as Hpb. fold p in Hpb. unfold MAX_PKTID_ITEMS in Hpb.
  assert (exists g, aget (y_g y) RXP = Some g) as Hg.
  { apply aget_is_Some. rewrite (rk_len _ _ _ _ _ (so_rings _ _ Hy)). pose proof (so_rx _ _ Hy). unfold RXP. lia. }
  assert (forall n0 : Z, exists (n'' : Z) p' gs' out' k, Some (n0, p) = Some (n'', p') /\ rx_grown y p' gs' out' k /\
            rx_posted p' out' /\ rxbufpost p' = rxbufpost p + k /\ 0 <= k /\
            rxbufpost p' <= Z.max (rxbufpost p) (max_rxbufpost p)) as Hstop.
  { intros n0. exists n0, p, (y_g y), (y_out y), 0. split_and!; try done; try lia; try apply Hp.
    apply rx_grown_refl; try done. unfold p. by destruct y. }
  cbn [rxbuf_fill_loop].
  destruct (Z.leb_spec RX_BUF_BURST (wraps 16 (max_rxbufpost p - rxbufpost p))) as [Hfb|]; cbn [negb]; [|apply Hstop].
  apply s16_fill in Hfb as Hroom; [|done|zlia].
  rewrite (wrapu_small 16 (cnt - 1)) by zlia.
  destruct (Z.eqb_spec (cnt - 1) 0); [apply Hstop|].
  rewrite Z.min_r by lia. rewrite (wrapu_small 16 RX_BUF_BURST) by done.
  destruct (rxbuf_post_ok y n RX_BUF_BURST Hy ltac:(done)) as (rc & n1 & p1 & E1 & Epost & Hcase).
  fold p in E1, Epost. rewrite E1. cbn [mbind option_bind].
  destruct Hcase as [[-> Hgr]|(Hrc & gs1 & out1 & Hgr)].
  - cbn [Z.leb]. destruct (rg_same _ _ _ _ _ Hgr) as (Ea & _). exists n1, p1, (y_g y), (y_out y), 0.
    split_and!; try done; unfold rx_posted; fold p in Ea |- *; rewrite ?Epost, ?Ea; [done|lia..].
  - rewrite (proj2 (Z.leb_le 0 rc)) by lia. unfold RX_BUF_BURST in Hrc, Hroom. rewrite Epost.
    rewrite (wrapu_small 16 rc), (wrapu_small 16 (rxbufpost p + rc)) by zlia.
    set (p1' := set_rxbufpost p1 (rxbufpost p + rc)).
    apply (rx_grown_post _ _ _ _ _ (rxbufpost p + rc)) in Hgr as Hgr'. fold p1' in Hgr'.
    destruct (rg_same _ _ _ _ _ Hgr') as (Ea & _). pose proof (rg_max _ _ _ _ _ Hgr') as Em. fold p in Ea, Em.
    pose proof (rg_size _ _ _ _ _ Hgr') as Esz.
    set (y1 := {| y_p := p1'; y_g := gs1; y_out := out1; y_acc := y_acc y |}).
    destruct (IH n1 (cnt - 1) y1 (rg_sys _ _ _ _ _ Hgr')) as (n2 & p2 & gs2 & out2 & k2 & E2 & Hgr2 & Hp2 & Ep2 & Hk2 & Hle2);
      [|cbn [y1 y_p]; rewrite Em; lia|lia|lia|].
    { unfold rx_posted in *. cbn [y1 y_p y_out p1' set_rxbufpost rxbufpost].
      pose proof (rx_grown_rx _ _ _ _ _ Hgr'). lia. }
    cbn [y1 y_p] in E2, Ep2, Hle2. change (rxbufpost p1') with (rxbufpost p + rc) in *.
    rewrite E2. exists n2, p2, gs2, out2, (rc + k2). split_and!; try done; try lia.
    by apply (rx_grown_trans y p1' gs1 out1 rc).
Qed.

Lemma msgbuf_rxbuf_post_ok y n (p := y_p y) :
  sys_ok ri y -> rx_posted p (y_out y) -> 0 <= max_rxbufpost p < 2 ^ 16 ->
  exists n' p' gs' out' k, dhd_msgbuf_rxbuf_post DMA_MAP PKTGET n p = Some (n', p') /\
    rx_grown y p' gs' out' k /\ rx_posted p' out' /\ rxbufpost p' = rxbufpost p + k /\ 0 <= k /\
    rxbufpost p' <= Z.max (rxbufpost p) (max_rxbufpost p).
Proof. intros Hy Hp Hm. apply rxbuf_fill_loop_ok; (done || lia). Qed.

(** ** dhd_prot_rxcmplt_process, for a packet the dongle holds *)

(** The packet went back, before more buffers are posted. *)
Definition rx_returned (y : prot_sys) (id : Z) (it : dhd_pktid_item) (m : dhd_pktid_map) : prot_sys :=
  let p := y_p y in
  {| y_p := rx_upd p (p_pub p) (h2d_rings p) m (p_log p ++ [DmaUnmap (pa it) (len it) DMA_RX (pkt it)])
              (rxbufpost p - 1) (rx_pktgetfail p);
     y_g := y_g y; y_out := delete id (y_out y); y_acc := y_acc y |}.

Lemma rx_returned_ok y id e m :
  sys_ok ri y -> rx_posted (y_p y) (y_out y) -> y_out y !! id = Some e -> e_where e = Taken ->
  pkttype (e_item e) = PKTTYPE_DATA_RX ->
  map_ok MAX_PKTID_ITEMS m (delete id (y_out y)) ->
  let y1 := rx_returned y id (e_item e) m in
  sys_ok ri y1 /\ rx_posted (y_p y1) (y_out y1) /\ 1 <= rxbufpost (y_p y).
Proof.
  intros Hy Hp He Hw Ht Hm y1. pose proof Hy as [Hr Htb Hinf _ Hfl [Ha Hwk Hcl Hacc] Htmo Hrx].
  assert (~ is_tx e) as Hntx by (unfold is_tx; by rewrite Ht).
  pose proof (tx_out_delete_other _ _ _ He Hntx) as Etx.
  pose proof (size_ty_delete PKTTYPE_DATA_RX _ _ _ He) as Es. unfold of_ty in Es. rewrite decide_True in Es by done.
  unfold rx_posted in Hp. split_and!; [|unfold y1, rx_posted; cbn; lia|lia].
  - constructor; cbn [y1 rx_returned y_p y_g y_out y_acc rx_upd p_pub p_log h2d_rings p_info pktid_map_handle
      p_flow_ring_table tx_metadata_offset rx_metadata_offset]; try done.
    + by apply rings_ok_log.
    + apply in_flight_done with e; [done..|]. by rewrite Hw.
    + constructor; cbn [rx_upd active_tx_count p_log]; rewrite ?Etx; try done.
      * by rewrite wake_depth_app, Hwk, Z.add_0_r.
      * apply Forall_app. split; [done|by apply Forall_singleton].
      * by rewrite completed_app, app_nil_r.
Qed.

Lemma rxcmplt_ok y n msg id e off dl ifx (p := y_p y) (it := e_item e) :
  sys_ok ri y -> rx_posted p (y_out y) -> 0 <= max_rxbufpost p < 2 ^ 16 ->
  ld 4 msg 4 = Some id -> ld 2 msg 16 = Some off -> ld 2 msg 14 = Some dl -> ld 1 msg 1 = Some ifx ->
  y_out y !! id = Some e -> e_where e = Taken -> pkttype it = PKTTYPE_DATA_RX ->
  exists m n' p2 gs' out' k,
    let final := emit p2 [RxPacket (pkt it) (if negb (off =? 0) then off else rx_dataoffset p) dl ifx] in
    dhd_prot_rxcmplt_process DMA_MAP PKTGET n p msg = Some (n', final) /\
    rx_grown (rx_returned y id it m) p2 gs' out' k /\
    rx_posted final out' /\ sys_ok ri {| y_p := final; y_g := gs'; y_out := out'; y_acc := y_acc y |} /\
    rxbufpost final = rxbufpost p - 1 + k /\ rxbufpost final <= Z.max (rxbufpost p) (max_rxbufpost p).
Proof.
  intros Hy Hp Hmax Eid Eoff Edl Eif He Hw Ht.
  destruct (returned_free _ _ _ _ _ (so_map _ _ Hy) He) as (m1 & m & Eau & Efr & Hm2); [by rewrite Hw|]. fold it in Efr. rewrite Ht in Efr.
  pose proof (mo_out _ _ _ (so_map _ _ Hy) id e He) as (_ & _ & _ & Hz). fold it in Hz.
  destruct (rx_returned_ok y id e m Hy Hp He Hw Ht Hm2) as (Hy1 & Hp1 & Hge). fold it in Hy1, Hp1. fold p in Hge.
  pose proof (rx_posted_lt y Hy Hp) as Hpb. fold p in Hpb. unfold MAX_PKTID_ITEMS in Hpb.
  set (y1 := rx_returned y id it m) in *.
  assert (exists n' p2 gs' out' k, dhd_prot_return_rxbuf DMA_MAP PKTGET n
      (emit (set_map p m) [DmaUnmap (pa it) (len it) DMA_RX (pkt it)]) 1 = Some (n', p2) /\
    rx_grown y1 p2 gs' out' k /\ rx_posted p2 out' /\ rxbufpost p2 = rxbufpost p - 1 + k /\
    rxbufpost p2 <= Z.max (rxbufpost p) (max_rxbufpost p)) as (n' & p2 & gs' & out' & k & E2 & Hgr & Hp2 & Ek & Hle).
  { unfold dhd_prot_return_rxbuf. change (rxbufpost (emit (set_map p m) _)) with (rxbufpost p).
    rewrite (proj2 (Z.leb_le 1 (rxbufpost p))) by lia. rewrite (wrapu_small 16) by zlia.
    change (set_rxbufpost (emit (set_map p m) _) (rxbufpost p - 1)) with (y_p y1).
    destruct (rxbufpost (y_p y1) <=? max_rxbufpost (y_p y1) - RXBUFPOST_THRESHOLD).
    - destruct (msgbuf_rxbuf_post_ok y1 n Hy1 Hp1 Hmax) as (n' & p2 & gs' & out' & k & -> & Hgr & Hp2 & Ek & _ & Hle).
      exists n', p2, gs', out', k. split_and!; try done. cbn in Hle. fold p in Hle. lia.
    - exists n, (y_p y1), (y_g y1), (y_out y1), 0. split_and!; try done; [|unfold y1; cbn; fold p; lia..].
      apply rx_grown_refl; try done.
      apply aget_is_Some. rewrite (rk_len _ _ _ _ _ (so_rings _ _ Hy1)). pose proof (so_rx _ _ Hy1). unfold RXP. lia. }
  exists m, n', p2, gs', out', k. cbv zeta. split_and!; try done.
  - unfold dhd_prot_rxcmplt_process. rewrite Eoff, Eid. cbn [mbind option_bind]. fold p in Eau.
    rewrite (prot_audit_eq p id _ m1 Eau). cbn [mbind option_bind]. rewrite emit_nil.
    unfold dhd_prot_packet_get. change (pktid_map_handle (set_map p m1)) with m1. rewrite Efr. cbn [mbind option_bind].
    rewrite (proj2 (Z.eqb_neq (pkt it) 0)) by done. cbn [negb mbind option_bind].
    rewrite (proj2 (Z.eqb_neq (pkt it) 0)) by done.
    change (set_map (set_map p m1) m) with (set_map p m). rewrite E2. cbn [mbind option_bind]. rewrite Edl, Eif.
    cbn [mbind option_bind]. destruct (rg_same _ _ _ _ _ Hgr) as (_ & _ & Ed). cbn in Ed. fold p in Ed. by rewrite Ed.
  - pose proof (rg_sys _ _ _ _ _ Hgr) as [Hr Htb Hinf Hm Hfl [Ha Hwk Hcl Hacc] Htmo Hrx].
    constructor; cbn [y_p y_g y_out y_acc] in *; try done.
    + by apply rings_ok_log.
    + constructor; cbn [emit active_tx_count p_log]; try done.
      * by rewrite wake_depth_app, Z.add_0_r.
      * apply Forall_app. split; [done|by apply Forall_singleton].
      * by rewrite completed_app, app_nil_r.
Qed.
End rx.
