(* ===== verification/ProtHistory.v ===== *)
(** * Histories of the data path

    The operations of [ProtTx] and [ProtRx] in any order, with the dongle
    taking messages, reporting its read index and completing the packet ids it
    has taken; what holds after every such history. *)
From Stdlib Require Import ZArith Lia.
From stdpp Require Import base option numbers gmap list.
From S2P Require Import Prelude Bytes MwBitmap PktidMap PktOut Tcm RingIndex MsgRing MsgFifo.
From S2P Require Import ProtState ProtInv ProtSys ProtTx ProtTxInv ProtRx ProtRxInv.

(** ** What an operation put on a ring

    The slots from the last known message up to the write index, and the
    packet ids they carry with the lockers of those ids. *)
Definition new_descs (r : msgbuf_ring) (g : ring_ghost) : list (list Z) :=
  let P := Z.of_nat (length (g_sent g)) in
  map (fun k => slot (item_len r) (ring_mem r) ((P + k) mod max_items r)) (seqZ 0 ((wr r - P) mod max_items r)).

Fixpoint add_descs (lks : list dhd_pktid_item) (i pos : Z) (xs : list (list Z)) (out : gmap Z out_entry)
    : gmap Z out_entry :=
  match xs with
  | [] => out
  | d :: xs =>
      add_descs lks i (pos + 1) xs
        (match carries i d, ld 4 d 4 with
         | Some _, Some id => match aget lks id with
                              | Some it => <[id := {| e_item := it; e_where := OnRing i pos |}]> out
                              | None => out
                              end
         | _, _ => out
         end)
  end.

Definition observe (y : prot_sys) (p' : dhd_prot) (i : Z) (out : gmap Z out_entry) (acc : list Z) : prot_sys :=
  match aget (h2d_rings p') i, aget (y_g y) i with
  | Some r, Some g =>
      let xs := new_descs r g in
      {| y_p := p'; y_g := <[Z.to_nat i := pushes g xs]> (y_g y);
         y_out := add_descs (lockers (pktid_map_handle p')) i (Z.of_nat (length (g_sent g))) xs out; y_acc := acc |}
  | _, _ => {| y_p := p'; y_g := y_g y; y_out := out; y_acc := acc |}
  end.

Section history.
Variable DMA_MAP : Z -> Z -> Z -> Z.
Variable PKTGET : Z -> option (Z * Z).

Inductive prot_op :=
  | OpTx (b : pktbuf) (ifidx : Z)
  | OpFlush (f : Z)
  | OpTxStatus (msg : list Z)
  | OpRxFill
  | OpRxCmplt (msg : list Z)
  | DevTake (i : Z)
  | DevPublish (i : Z).

(** The first component counts the calls of PKTGET. *)
Definition prot_step (op : prot_op) (s : Z * prot_sys) : option (Z * prot_sys) :=
  let '(n, y) := s in
  let p := y_p y in
  match op with
  | OpTx b ifidx =>
      '(rc, p') ← dhd_prot_txdata DMA_MAP p b ifidx;
      Some (n, observe y p' (pb_flowid b) (y_out y) (if rc =? BCME_OK then y_acc y ++ [pb_pkt b] else y_acc y))
  | OpFlush f => p' ← dhd_prot_txdata_write_flush p f; Some (n, with_prot y p')
  | OpTxStatus msg =>
      id ← ld 4 msg 4;
      p' ← dhd_prot_txstatus_process p msg;
      Some (n, {| y_p := p'; y_g := y_g y; y_out := delete id (y_out y); y_acc := y_acc y |})
  | OpRxFill =>
      '(n, p') ← dhd_msgbuf_rxbuf_post DMA_MAP PKTGET n p;
      Some (n, observe y p' RXP (y_out y) (y_acc y))
  | OpRxCmplt msg =>
      id ← ld 4 msg 4;
      '(n, p') ← dhd_prot_rxcmplt_process DMA_MAP PKTGET n p msg;
      Some (n, observe y p' RXP (delete id (y_out y)) (y_acc y))
  | DevTake i =>
      r ← aget (h2d_rings p) i;
      g ← aget (y_g y) i;
      d ← aget (slots (item_len r) (max_items r) (ring_mem r)) (g_drd g);
      out ← (match carries i d with
             | Some _ => id ← ld 4 d 4;
                         e ← y_out y !! id;
                         Some (<[id := {| e_item := e_item e; e_where := Taken |}]> (y_out y))
             | None => Some (y_out y)
             end);
      Some (n, {| y_p := p;
                  y_g := <[Z.to_nat i := {| g_drd := nxt (max_items r) (g_drd g); g_sent := g_sent g;
                                            g_got := g_got g ++ [d] |}]> (y_g y);
                  y_out := out; y_acc := y_acc y |})
  | DevPublish i =>
      g ← aget (y_g y) i;
      d ← cell_put (p_pub p) (Cell H2D false (ring_id i)) (g_drd g);
      Some (n, with_prot y (set_pub p d))
  end.

(** What is asked of an operation.  Packets come on flows that have a ring and
    hold an Ethernet header; the dongle takes announced messages only and
    completes each packet id it took once, with a message of the ring's kind. *)
Definition held (y : prot_sys) (msg : list Z) (ty : dhd_pkttype) : bool :=
  match ld 4 msg 4 with
  | Some id => match y_out y !! id with
               | Some e => bool_decide (e_where e = Taken) && bool_decide (pkttype (e_item e) = ty)
               | None => false
               end
  | None => false
  end.
Definition legal (y : prot_sys) (op : prot_op) : bool :=
  let p := y_p y in
  match op with
  | OpTx b _ => bool_decide (is_Some (p_info p !! pb_flowid b)) && negb (pb_pkt b =? 0) &&
                (ETHER_HDR_LEN <=? Z.of_nat (length (pb_data b)))
  | OpFlush f => bool_decide (is_Some (p_info p !! f))
  | OpTxStatus msg => held y msg PKTTYPE_DATA_TX
  | OpRxFill => true
  | OpRxCmplt msg => held y msg PKTTYPE_DATA_RX && (18 <=? Z.of_nat (length msg))
  | DevTake i => match aget (y_g y) i with
                 | Some g => negb (g_drd g =? cell_val (p_pub p) (Cell H2D true (ring_id i)))
                 | None => false
                 end
  | DevPublish i => match aget (y_g y) i with Some _ => true | None => false end
  end.

Fixpoint prot_run (ops : list prot_op) (s : Z * prot_sys) : option (Z * prot_sys) :=
  match ops with
  | [] => Some s
  | op :: ops => s ← prot_step op s; prot_run ops s
  end.
Fixpoint legal_run (ops : list prot_op) (s : Z * prot_sys) : bool :=
  match ops with
  | [] => true
  | op :: ops => legal s.2 op && match prot_step op s with Some s => legal_run ops s | None => true end
  end.
End history.

(** ** The observation is what the operations' lemmas say *)
Section observe.
Context (ri : ring_info).

Lemma new_descs_eq d log i r g xs u :
  ring_ok ri d log i r (pushes g xs) u -> (length (g_got g) <= length (g_sent g))%nat -> new_descs r g = xs.
Proof.
  intros [Hw _ _ _ _ (C & R & Hc) _] Hgot. pose proof (rw_max _ Hw) as Hm.
  destruct Hc as (HC & HR & HV & _ & _ & _ & _ & Hwr & _ & Hl & Hmem).
  cbn [h_ring h_mem h_sent h_got ring_view pushes g_sent g_got] in *. rewrite length_app, Nat2Z.inj_add in *.
  set (P := Z.of_nat (length (g_sent g))) in *. set (k := Z.of_nat (length xs)) in *.
  unfold new_descs. fold P. rewrite Hwr, Zminus_mod_idemp_l. replace (P + k - P) with k by lia.
  rewrite Z.mod_small by lia. apply aget_ext; [rewrite length_map, length_seqZ; lia|].
  intros j Hj. rewrite length_map, length_seqZ in Hj. rewrite aget_map, aget_seqZ by lia. cbn [fmap option_fmap option_map].
  pose proof (Hmem (P + j) ltac:(lia)) as E. pose proof (Z.mod_pos_bound (P + j) (max_items r) ltac:(lia)).
  rewrite aget_slots in E by lia. rewrite E. unfold aget. destruct (Z.leb_spec 0 (P + j)), (Z.leb_spec 0 j); try lia.
  rewrite lookup_app_r by lia. f_equal. lia.
Qed.

(** How many of the messages [xs] carry a packet. *)
Definition carrying (i : Z) (xs : list (list Z)) : nat := length (omap (carries i) xs).
Lemma carrying_all i xs : Forall (fun d => is_Some (carries i d)) xs -> carrying i xs = length xs.
Proof. unfold carrying. induction 1 as [|d xs [ty Hd] _ IH]; [done|]. cbn. rewrite Hd. cbn [length]. by rewrite IH. Qed.
Lemma carrying_app i xs ys : carrying i (xs ++ ys) = (carrying i xs + carrying i ys)%nat.
Proof. unfold carrying. by rewrite omap_app, length_app. Qed.

Lemma add_descs_eq rmo gs i g xs lks out out' ys pre pos :
  in_flight rmo gs out' -> aget gs i = Some (pushes g xs) -> (length (g_got g) <= length (g_sent g))%nat ->
  (forall id e, out' !! id = Some e -> aget lks id = Some (e_item e)) ->
  xs = pre ++ ys -> pos = Z.of_nat (length (g_sent g) + length pre) ->
  out ⊆ out' -> size out' = (size out + carrying i ys)%nat ->
  (forall id e k, out !! id = Some e -> e_where e = OnRing i k -> k < pos) ->
  add_descs lks i pos ys out = out'.
Proof.
  intros Hif Hg Hgot Hlk. revert out pre pos. induction ys as [|d ys IH]; intros out pre pos Exs Epos Hsub Hsz Hwh; cbn [add_descs].
  { apply map_subseteq_size_eq; [done|]. cbn in Hsz. lia. }
  assert (xs = (pre ++ [d]) ++ ys) as Exs' by (by rewrite <- app_assoc).
  assert (pos + 1 = Z.of_nat (length (g_sent g) + length (pre ++ [d]))) as Epos'
    by (rewrite length_app; cbn [length]; lia).
  unfold carrying in Hsz. cbn [omap list_omap] in Hsz. destruct (carries i d) as [ty|] eqn:Hc.
  2: { apply (IH out (pre ++ [d])); try done. intros id e k He Hw. specialize (Hwh id e k He Hw). lia. }
  destruct (if_desc _ _ _ Hif i (pushes g xs) pos d ty Hg) as (id & e & He & Hw & _ & Hd).
  { cbn. lia. }
  { cbn [pushes g_sent]. rewrite Exs, app_assoc, Epos. unfold aget.
    destruct (Z.leb_spec 0 (Z.of_nat (length (g_sent g) + length pre))); [|lia]. rewrite Nat2Z.id.
    apply list_lookup_middle. by rewrite length_app. }
  { done. }
  destruct Hd as [-> _]. rewrite (Hlk id e He).
  assert ({| e_item := e_item e; e_where := OnRing i pos |} = e) as -> by (destruct e; cbn in *; congruence).
  assert (out !! id = None) as Hn.
  { destruct (out !! id) as [e'|] eqn:E; [|done]. pose proof (lookup_weaken _ _ _ _ E Hsub) as E'.
    rewrite He in E'. injection E' as <-. specialize (Hwh id e pos E Hw). lia. }
  apply (IH _ (pre ++ [d])); try done.
  - by apply insert_subseteq_l.
  - rewrite map_size_insert_None by done. cbn [length] in Hsz. unfold carrying. lia.
  - intros id' e' k. destruct (decide (id = id')) as [<-|Hne].
    + rewrite lookup_insert_eq. intros [= <-]. rewrite Hw. intros [= <-]. lia.
    + rewrite lookup_insert_ne by done. intros E1 E2. specialize (Hwh id' e' k E1 E2). lia.
Qed.

Lemma observe_gen rmo y p' i g xs out0 out' acc :
  sys_ok ri {| y_p := p'; y_g := <[Z.to_nat i := pushes g xs]> (y_g y); y_out := out'; y_acc := acc |} ->
  aget (y_g y) i = Some g -> in_flight rmo (y_g y) out0 -> (length (g_got g) <= length (g_sent g))%nat ->
  out0 ⊆ out' -> size out' = (size out0 + carrying i xs)%nat ->
  observe y p' i out0 acc =
    {| y_p := p'; y_g := <[Z.to_nat i := pushes g xs]> (y_g y); y_out := out'; y_acc := acc |}.
Proof.
  intros [Hr _ _ Hm Hfl _ _ _] Hg Hif Hgot Hsub Hsz. cbn [y_p y_g y_out y_acc] in *.
  pose proof (aget_lt _ _ _ Hg). unfold observe.
  assert (aget (<[Z.to_nat i := pushes g xs]> (y_g y)) i = Some (pushes g xs)) as Hg'
    by (rewrite aget_insert by lia; by rewrite decide_True).
  destruct (aget_is_Some (h2d_rings p') i) as [r Er].
  { pose proof (rk_len _ _ _ _ _ Hr) as E. rewrite length_insert in E. lia. }
  destruct (rk_ring _ _ _ _ _ Hr i r _ Er Hg') as [Hok _].
  rewrite Er, Hg, (new_descs_eq _ _ _ _ _ _ _ Hok Hgot). f_equal.
  apply (add_descs_eq (rx_metadata_offset p') _ i g xs _ _ _ xs [] _ Hfl Hg' Hgot); try done.
  - intros id e He. by apply (mo_out _ _ _ Hm).
  - cbn. lia.
  - intros id e k He Hw. destruct (if_where _ _ _ Hif id e i k He Hw) as (g1 & d1 & Hg1 & _ & Hd1 & _).
    rewrite Hg in Hg1. injection Hg1 as <-. apply aget_lt in Hd1. lia.
Qed.

Lemma observe_eq rmo y p' i g xs out0 out' acc :
  sys_ok ri {| y_p := p'; y_g := <[Z.to_nat i := pushes g xs]> (y_g y); y_out := out'; y_acc := acc |} ->
  Forall (fun d => is_Some (carries i d)) xs -> aget (y_g y) i = Some g -> in_flight rmo (y_g y) out0 -> (length (g_got g) <= length (g_sent g))%nat ->
  out0 ⊆ out' -> size out' = (size out0 + length xs)%nat ->
  observe y p' i out0 acc =
    {| y_p := p'; y_g := <[Z.to_nat i := pushes g xs]> (y_g y); y_out := out'; y_acc := acc |}.
Proof.
  intros Hs Hi Hg Hif Hgot Hsub Hsz. rewrite <- (carrying_all i xs Hi) in Hsz. by apply (observe_gen rmo).
Qed.
End observe.

(** ** Every operation succeeds and keeps the invariant *)
Definition hist_ok (ri : ring_info) (y : prot_sys) : Prop :=
  sys_ok ri y /\ rx_posted (y_p y) (y_out y) /\ 0 <= max_rxbufpost (y_p y) < 2 ^ 16.

Lemma held_spec y msg ty :
  held y msg ty = true ->
  exists id e, ld 4 msg 4 = Some id /\ y_out y !! id = Some e /\ e_where e = Taken /\ pkttype (e_item e) = ty.
Proof.
  unfold held. destruct (ld 4 msg 4) as [id|]; [|done]. destruct (y_out y !! id) as [e|] eqn:E; [|done].
  rewrite andb_true_iff, !bool_decide_eq_true. intros [? ?]. by exists id, e.
Qed.

Section step.
Context (ri : ring_info).
Variable DMA_MAP : Z -> Z -> Z -> Z.
Variable PKTGET : Z -> option (Z * Z).
Hypothesis PKTGET_nonnull : forall n pkt va, PKTGET n = Some (pkt, va) -> pkt <> 0.

Lemma ghost_le y i g : sys_ok ri y -> aget (y_g y) i = Some g -> (length (g_got g) <= length (g_sent g))%nat.
Proof.
  intros Hy Hg. pose proof (so_rings _ _ Hy) as Hr. pose proof (aget_lt _ _ _ Hg) as Hlt.
  rewrite (rk_len _ _ _ _ _ Hr) in Hlt. destruct (aget_is_Some _ _ Hlt) as [r Er].
  destruct (rk_ring _ _ _ _ _ Hr i r g Er Hg) as [Hok _]. by eapply ring_ok_got.
Qed.

(** dhd_prot_txdata as a step: what it returned and what the observation adds. *)
Lemma step_tx_cases y n b ifidx (p := y_p y) (f := pb_flowid b) :
  hist_ok ri y -> legal y (OpTx b ifidx) = true ->
  exists rc p', dhd_prot_txdata DMA_MAP p b ifidx = Some (rc, p') /\ rx_same p p' /\
    ((rc = BCME_NORESOURCE /\ prot_step DMA_MAP PKTGET (OpTx b ifidx) (n, y) = Some (n, with_prot y p') /\
      sys_ok ri (with_prot y p') /\ p_log p' = p_log p /\
      ((forall k, 1 <= k <= MAX_PKTID_ITEMS -> is_Some (y_out y !! k)) \/
       exists r, aget (h2d_rings p) f = Some r /\ cell_val (p_pub p) (Cell H2D false (ring_id f)) <> wr r)) \/
     (rc = BCME_OK /\ exists g d id, aget (y_g y) f = Some g /\ y_out y !! id = None /\
        tx_message DMA_MAP (tx_metadata_offset p) b ifidx id d /\
        let y' := {| y_p := p'; y_g := <[Z.to_nat f := push g d]> (y_g y);
          y_out := <[id := {| e_item := tx_item DMA_MAP b; e_where := OnRing f (Z.of_nat (length (g_sent g))) |}]> (y_out y);
          y_acc := y_acc y ++ [pb_pkt b] |} in
        prot_step DMA_MAP PKTGET (OpTx b ifidx) (n, y) = Some (n, y') /\ sys_ok ri y')).
Proof.
  intros (Hy & _ & _) Hl. cbn [legal] in Hl.
  apply andb_true_iff in Hl as [[Hi Hz]%andb_true_iff Hlen%Z.leb_le].
  apply bool_decide_eq_true in Hi. apply negb_true_iff, Z.eqb_neq in Hz.
  destruct (txdata_ok ri DMA_MAP y b ifidx Hy Hi Hz Hlen) as (rc & p' & E & Es & Hcase).
  fold p in E, Es, Hcase. exists rc, p'. do 2 (split; [done|]). cbn [prot_step]. fold p. rewrite E. cbn [mbind option_bind].
  destruct Hi as [i Hi]. destruct (so_info _ _ Hy _ _ Hi) as [-> Hf]. fold f in Hi, Hf |- *.
  destruct Hcase as [(-> & Hy' & Hlog & Hwhy)|(-> & g & d & id & Hg & Hn & Hmsg & Hy')]; [left|right]; (split; [done|]).
  - destruct (aget_is_Some (y_g y) f) as [g Hg]; [rewrite (rk_len _ _ _ _ _ (so_rings _ _ Hy)); lia|].
    split; [|by split_and!]. cbn [BCME_OK BCME_NORESOURCE Z.eqb].
    rewrite (observe_eq ri (rx_metadata_offset (y_p y)) y p' f g [] (y_out y) (y_out y) (y_acc y));
      rewrite ?(pushes_nil y) by done; try done; [apply Hy|exact (ghost_le _ _ _ Hy Hg)].
  - exists g, d, id. split; [done|]. split; [done|]. split; [done|]. split; [|done]. cbn [BCME_OK Z.eqb]. unfold push in *.
    rewrite (observe_eq ri (rx_metadata_offset (y_p y)) y p' f g [d] (y_out y) _ _ Hy'); try done;
      [by apply carries_all; lia|apply Hy|exact (ghost_le _ _ _ Hy Hg)|by apply insert_subseteq|].
    rewrite map_size_insert_None by done. cbn. lia.
Qed.

(** What the operations of the data path leave alone: the packets of other
    types, the ids returned and not released, and what was put on the control
    ring. *)
Record prot_frame (y y' : prot_sys) : Prop := {
  pf_size : forall ty, ty <> PKTTYPE_DATA_TX -> ty <> PKTTYPE_DATA_RX ->
    size (ty_out ty (y_out y')) = size (ty_out ty (y_out y));
  pf_ret : forall id e, e_where e = Returned -> y_out y' !! id = Some e <-> y_out y !! id = Some e;
  pf_sent : forall g, aget (y_g y) 0 = Some g -> exists g', aget (y_g y') 0 = Some g' /\ g_sent g' = g_sent g
}.

Lemma prot_frame_same y y' : y_out y' = y_out y -> y_g y' = y_g y -> prot_frame y y'.
Proof. intros Eo Eg. constructor; rewrite ?Eo, ?Eg; try done. intros g Hg. by exists g. Qed.
Lemma prot_frame_other y y' i g' :
  (forall ty, ty <> PKTTYPE_DATA_TX -> ty <> PKTTYPE_DATA_RX -> size (ty_out ty (y_out y')) = size (ty_out ty (y_out y))) ->
  (forall id e, e_where e = Returned -> y_out y' !! id = Some e <-> y_out y !! id = Some e) ->
  1 <= i -> y_g y' = <[Z.to_nat i := g']> (y_g y) -> prot_frame y y'.
Proof.
  intros Hs Hr Hi Eg. constructor; [done..|]. intros g Hg. exists g. split; [|done]. rewrite Eg.
  unfold aget in *. cbn in *. by rewrite list_lookup_insert_ne by lia.
Qed.
Lemma prot_frame_grown y p' gs' out' k : rx_grown ri y p' gs' out' k ->
  prot_frame y {| y_p := p'; y_g := gs'; y_out := out'; y_acc := y_acc y |}.
Proof.
  intros [_ (g & xs & Hg & -> & Hk) _ Hsub _ _ _ _]. pose proof (grown_by_size _ _ _ Hsub) as [_ Hty].
  eapply prot_frame_other with (i := RXP); [|by intros; apply (grown_by_ret _ _ _ _ _ Hsub)|done|done].
  intros ty H1 H2. cbn [y_out]. by rewrite Hty.
Qed.
(** An id the dongle returned went, from [y] to [y1]. *)
Lemma prot_frame_done y y1 y' id e :
  y_out y !! id = Some e -> e_where e = Taken -> pkttype (e_item e) = PKTTYPE_DATA_TX \/ pkttype (e_item e) = PKTTYPE_DATA_RX ->
  y_out y1 = delete id (y_out y) -> y_g y1 = y_g y -> prot_frame y1 y' -> prot_frame y y'.
Proof.
  intros He Hw Ht Eo Eg [Hs Hr Hg]. rewrite Eo in *. rewrite Eg in *. constructor; [| |done].
  - intros ty H1 H2. rewrite Hs by done. rewrite (size_ty_delete ty _ _ _ He). unfold of_ty.
    by rewrite decide_False by (destruct Ht; congruence).
  - intros k e' Hw'. rewrite Hr by done. destruct (decide (id = k)) as [<-|]; [|by rewrite lookup_delete_ne].
    rewrite lookup_delete_eq, He. split; [done|]. congruence.
Qed.

Lemma step_tx_ok y n b ifidx :
  hist_ok ri y -> legal y (OpTx b ifidx) = true ->
  exists s', prot_step DMA_MAP PKTGET (OpTx b ifidx) (n, y) = Some s' /\ hist_ok ri s'.2 /\ prot_frame y s'.2.
Proof.
  intros Hy Hl. destruct (step_tx_cases y n b ifidx Hy Hl) as (rc & p' & _ & [Es1 Es2] & Hcase).
  destruct Hy as (Hy & Hp & Hmax).
  destruct Hcase as [(_ & E & Hy' & _)|(_ & g & d & id & _ & Hn & _ & E & Hy')]; rewrite E; eexists; (split; [done|]);
    cbn [snd]; (split; [split; [done|split]|]); unfold rx_posted in *; cbn [with_prot y_p y_out]; rewrite ?Es1, ?Es2; try done.
  - by apply prot_frame_same.
  - by rewrite size_ty_insert.
  - cbn [legal] in Hl. apply andb_true_iff in Hl as [[[i Hi]%bool_decide_eq_true _]%andb_true_iff _].
    destruct (so_info _ _ Hy _ _ Hi) as [-> Hf].
    eapply prot_frame_other with (i := pb_flowid b); [| |lia|done]; cbn [y_out].
    + intros ty H1 H2. rewrite size_ty_insert by done. unfold of_ty. by rewrite decide_False by (cbn; congruence).
    + intros k e Hk. destruct (decide (id = k)) as [<-|]; [|by rewrite lookup_insert_ne].
      rewrite lookup_insert_eq, Hn. split; [|done]. by intros [= <-].
Qed.

Lemma step_txstatus_ok y n msg :
  hist_ok ri y -> legal y (OpTxStatus msg) = true ->
  exists s', prot_step DMA_MAP PKTGET (OpTxStatus msg) (n, y) = Some s' /\ hist_ok ri s'.2 /\ prot_frame y s'.2.
Proof.
  intros (Hy & Hp & Hmax) Hl. cbn [legal] in Hl.
  destruct (held_spec _ _ _ Hl) as (id & e & Eid & He & Hw & Ht).
  destruct (txstatus_ok ri y msg id e Hy Eid He Hw Ht) as (p' & E & _ & Ea & _ & [Es1 Es2] & Hy').
  cbn [prot_step]. rewrite Eid. cbn [mbind option_bind]. rewrite E. cbn [mbind option_bind].
  eexists. split; [done|]. cbn [snd]. split.
  - split_and!; unfold rx_posted in *; cbn [y_p y_out]; rewrite ?Es1, ?Es2; try done; try apply Hmax.
    rewrite Hp, (size_ty_delete _ _ _ _ He). unfold of_ty. by rewrite decide_False by (by rewrite Ht).
  - eapply (prot_frame_done y _ _ id e He Hw); [by left|..|by apply prot_frame_same]; done.
Qed.

Lemma step_rxfill_ok y n :
  hist_ok ri y -> exists s', prot_step DMA_MAP PKTGET OpRxFill (n, y) = Some s' /\ hist_ok ri s'.2 /\ prot_frame y s'.2.
Proof.
  intros (Hy & Hp & Hmax).
  destruct (msgbuf_rxbuf_post_ok ri DMA_MAP PKTGET PKTGET_nonnull y n Hy Hp Hmax)
    as (n' & p' & gs' & out' & k & E & Hgr & Hp' & _). pose proof (prot_frame_grown _ _ _ _ _ Hgr) as Hfr.
  destruct Hgr as [Hy' (g & xs & Hg & -> & Hk) _ [Hsub _] Hsz Hm _ _].
  cbn [prot_step]. rewrite E. cbn [mbind option_bind]. eexists. split; [done|]. cbn [snd].
  rewrite (observe_eq ri (rx_metadata_offset (y_p y)) y p' RXP g xs (y_out y) _ _ Hy'); try done.
  - split; [|done]. split; [done|]. split; [done|]. cbn [y_p]. by rewrite Hm.
  - by apply carries_all.
  - apply Hy.
  - exact (ghost_le _ _ _ Hy Hg).
  - lia.
Qed.

(** dhd_prot_rxcmplt_process as a step. *)
Lemma step_rxcmplt_cases y n msg :
  hist_ok ri y -> legal y (OpRxCmplt msg) = true ->
  exists id e off dl ifx m n' p2 gs' out' k,
    let final := emit p2 [RxPacket (pkt (e_item e)) (if negb (off =? 0) then off else rx_dataoffset (y_p y)) dl ifx] in
    ld 4 msg 4 = Some id /\ y_out y !! id = Some e /\ pkttype (e_item e) = PKTTYPE_DATA_RX /\
    ld 2 msg 16 = Some off /\ ld 2 msg 14 = Some dl /\ ld 1 msg 1 = Some ifx /\
    prot_step DMA_MAP PKTGET (OpRxCmplt msg) (n, y) =
      Some (n', {| y_p := final; y_g := gs'; y_out := out'; y_acc := y_acc y |}) /\
    rx_grown ri (rx_returned y id (e_item e) m) p2 gs' out' k /\
    hist_ok ri {| y_p := final; y_g := gs'; y_out := out'; y_acc := y_acc y |} /\
    rxbufpost final = rxbufpost (y_p y) - 1 + k /\
    rxbufpost final <= Z.max (rxbufpost (y_p y)) (max_rxbufpost (y_p y)).
Proof.
  intros (Hy & Hp & Hmax) Hl. cbn [legal] in Hl. apply andb_true_iff in Hl as [Hl Hlen%Z.leb_le].
  destruct (held_spec _ _ _ Hl) as (id & e & Eid & He & Hw & Ht).
  assert (forall k o, 0 <= o -> o + Z.of_nat k <= 18 -> exists v, ld k msg o = Some v) as Hld.
  { intros k o ? ?. destruct (ld_bytes_Some msg o k) as (bs & E & _); [lia|lia|]. unfold ld. rewrite E. by eexists. }
  destruct (Hld 2%nat 16) as [off Eoff]; [done|done|]. destruct (Hld 2%nat 14) as [dl Edl]; [done|done|].
  destruct (Hld 1%nat 1) as [ifx Eif]; [done|done|].
  destruct (rxcmplt_ok ri DMA_MAP PKTGET PKTGET_nonnull y n msg id e off dl ifx Hy Hp Hmax Eid Eoff Edl Eif He Hw Ht)
    as (m & n' & p2 & gs' & out' & k & E & Hgr & Hp' & Hy' & Ek & Hle).
  pose proof Hgr as [_ (g & xs & Hg & Egs & Hk) _ [Hsub _] Hsz Hm _ _].
  exists id, e, off, dl, ifx, m, n', p2, gs', out', k. cbv zeta. do 6 (split; [done|]). split.
  - cbn [prot_step]. rewrite Eid. cbn [mbind option_bind]. rewrite E. cbn [mbind option_bind]. subst gs'.
    cbn [rx_returned y_g y_out] in *. do 2 f_equal.
    apply (observe_eq ri (rx_metadata_offset (y_p y)) y _ RXP g xs _ _ _ Hy'); try done.
    + by apply carries_all.
    + apply in_flight_done with e; [apply Hy|done|by rewrite Hw].
    + exact (ghost_le _ _ _ Hy Hg).
    + lia.
  - split; [done|]. split; [|by split]. split; [done|]. split; [done|]. cbn [y_p emit max_rxbufpost]. by rewrite Hm.
Qed.

Lemma step_rxcmplt_ok y n msg :
  hist_ok ri y -> legal y (OpRxCmplt msg) = true ->
  exists s', prot_step DMA_MAP PKTGET (OpRxCmplt msg) (n, y) = Some s' /\ hist_ok ri s'.2 /\ prot_frame y s'.2.
Proof.
  intros Hy Hl. destruct (step_rxcmplt_cases y n msg Hy Hl)
    as (id & e & off & dl & ifx & m & n' & p2 & gs' & out' & k & Eid & He & Ht & _ & _ & _ & E & Hgr & Hy' & _).
  rewrite E. eexists. split; [done|]. split; [done|]. cbn [legal] in Hl. apply andb_true_iff in Hl as [Hl _].
  destruct (held_spec _ _ _ Hl) as (id' & e' & Eid' & He' & Hw & _). rewrite Eid in Eid'. injection Eid' as <-.
  rewrite He in He'. injection He' as <-. cbn [snd].
  eapply (prot_frame_done y (rx_returned y id (e_item e) m) _ id e He Hw); [by right|done|done|].
  by destruct (prot_frame_grown _ _ _ _ _ Hgr).
Qed.

(** A ring of the state with its ghost, from either. *)
Lemma ring_of_ghost y i g :
  sys_ok ri y -> aget (y_g y) i = Some g ->
  exists r, aget (h2d_rings (y_p y)) i = Some r /\
    ring_ok ri (p_pub (y_p y)) (p_log (y_p y)) i r g (pend_items_count r) /\ pend_ok i r g.
Proof.
  intros Hy Hg. pose proof (so_rings _ _ Hy) as Hr. pose proof (aget_lt _ _ _ Hg) as Hlt.
  rewrite (rk_len _ _ _ _ _ Hr) in Hlt. destruct (aget_is_Some _ _ Hlt) as [r Er].
  exists r. split; [done|]. by apply (rk_ring _ _ _ _ _ Hr i r g).
Qed.

(** What the outstanding packets become when the dongle takes message [d]. *)
Lemma taken_out_ok y i g r d drd' :
  sys_ok ri y -> aget (y_g y) i = Some g -> aget (h2d_rings (y_p y)) i = Some r ->
  aget (g_sent g) (Z.of_nat (length (g_got g))) = Some d ->
  exists out', (match carries i d with
                | Some _ => id ← ld 4 d 4;
                            e ← y_out y !! id;
                            Some (<[id := {| e_item := e_item e; e_where := Taken |}]> (y_out y))
                | None => Some (y_out y)
                end) = Some out' /\
    in_flight (rx_metadata_offset (y_p y))
      (<[Z.to_nat i := {| g_drd := drd'; g_sent := g_sent g; g_got := g_got g ++ [d] |}]> (y_g y)) out' /\
    map_ok MAX_PKTID_ITEMS (pktid_map_handle (y_p y)) out' /\ counted (y_p y) out' (y_acc y) /\
    (forall ty, size (ty_out ty out') = size (ty_out ty (y_out y))) /\
    forall id e, e_where e = Returned -> out' !! id = Some e <-> y_out y !! id = Some e.
Proof.
  intros Hy Hg Er Hx. pose proof Hy as [Hr Ht Hinf Hm Hfl Hc Htmo Hrx].
  pose proof (in_flight_take _ _ _ i g d drd' Hfl Hg Hx) as Hfl'.
  destruct (carries i d) as [ty|]; [|by exists (y_out y)].
  destruct Hfl' as (id & e & He & Hw & _ & [Hid _] & Hfl'). rewrite Hid. cbn [mbind option_bind]. rewrite He.
  cbn [mbind option_bind]. eexists. split; [done|]. split; [done|]. split; [|split; [|split]].
  - apply map_ok_where; [done|done|]. by rewrite Hw.
  - destruct (taken_counts (y_out y) id e Taken He) as [Ez Ek].
    destruct Hc as [Ha Hwk Hcl Hacc]. constructor; try done; [by rewrite Ez|by rewrite Ek].
  - intros ty'. by rewrite (size_ty_where _ _ _ _ Taken He).
  - intros k e' Hw'. destruct (decide (id = k)) as [<-|]; [|by rewrite lookup_insert_ne].
    rewrite lookup_insert_eq, He. split; intros [= <-]; [done|congruence].
Qed.

Lemma step_take_ok y n i :
  hist_ok ri y -> legal y (DevTake i) = true ->
  exists s', prot_step DMA_MAP PKTGET (DevTake i) (n, y) = Some s' /\ hist_ok ri s'.2 /\ prot_frame y s'.2.
Proof.
  intros (Hy & Hp & Hmax) Hl. cbn [legal] in Hl.
  destruct (aget (y_g y) i) as [g|] eqn:Hg; [|done]. apply negb_true_iff, Z.eqb_neq in Hl.
  destruct (ring_of_ghost y i g Hy Hg) as (r & Er & Hok & Hpo).
  destruct (ring_take ri _ _ _ _ _ _ Hok Hl) as (d & Hd & Hx & Hok').
  destruct (taken_out_ok y i g r d (nxt (max_items r) (g_drd g)) Hy Hg Er Hx) as (out' & Eo & Hfl' & Hm' & Hc' & Hty & Hret).
  cbn [prot_step]. rewrite Er, Hg. cbn [mbind option_bind]. rewrite Hd. cbn [mbind option_bind].
  cbn [mbind option_bind] in Eo. rewrite Eo.
  eexists. split; [done|]. cbn [snd]. pose proof (aget_lt _ _ _ Er) as Hlt.
  pose proof Hy as [Hr Ht Hinf Hm Hfl Hc Htmo Hrx].
  split; [split; [|split]|]; unfold rx_posted in *; cbn [y_p y_out]; [|by rewrite Hty|done|].
  2: { constructor; [intros; by apply Hty|done|]. intros g0 Hg0. cbn [y_g]. rewrite aget_insert by (by eapply aget_lt).
    destruct (decide (i = 0)) as [->|]; [|by exists g0]. rewrite Hg in Hg0. injection Hg0 as <-. by eexists. }
  constructor; cbn [y_p y_g y_out y_acc]; try done.
  rewrite <- (app_nil_r (p_log _)). rewrite <- (list_insert_id (h2d_rings (y_p y)) (Z.to_nat i) r).
  - apply rings_ok_upd with (d := p_pub (y_p y)); try done; [apply Hr|by rewrite app_nil_r|].
    destruct Hpo. by constructor.
  - unfold aget in Er. by destruct (0 <=? i).
Qed.

Lemma step_publish_ok y n i :
  hist_ok ri y -> legal y (DevPublish i) = true ->
  exists s', prot_step DMA_MAP PKTGET (DevPublish i) (n, y) = Some s' /\ hist_ok ri s'.2 /\ prot_frame y s'.2.
Proof.
  intros (Hy & Hp & Hmax) Hl. cbn [legal] in Hl. destruct (aget (y_g y) i) as [g|] eqn:Hg; [|done].
  destruct (ring_of_ghost y i g Hy Hg) as (r & Er & Hok & Hpo). pose proof Hy as [Hr Ht Hinf Hm Hfl Hc Htmo Hrx].
  pose proof (aget_lt _ _ _ Er) as Hlt.
  destruct (ring_publish ri (p_pub (y_p y)) (p_log (y_p y)) i r g _ (rk_idx _ _ _ _ _ Hr) ltac:(lia) Hok)
    as (d' & E & W' & Ha & Hok' & Hcells).
  cbn [prot_step]. rewrite Hg. cbn [mbind option_bind]. rewrite E. cbn [mbind option_bind].
  eexists. split; [done|]. cbn [snd]. split; [|by apply prot_frame_same]. split; [|by split].
  constructor; cbn [with_prot y_p y_g y_out y_acc set_pub p_pub p_log h2d_rings]; try done.
  - rewrite <- (app_nil_r (p_log _)).
    rewrite <- (list_insert_id (h2d_rings (y_p y)) (Z.to_nat i) r), <- (list_insert_id (y_g y) (Z.to_nat i) g).
    + apply rings_ok_upd with (d := p_pub (y_p y)); try done. by rewrite app_nil_r.
    + unfold aget in Hg. by destruct (0 <=? i).
    + unfold aget in Er. by destruct (0 <=? i).
  - destruct Hc. by constructor.
Qed.

Lemma prot_step_ok y n op :
  hist_ok ri y -> legal y op = true ->
  exists s', prot_step DMA_MAP PKTGET op (n, y) = Some s' /\ hist_ok ri s'.2 /\ prot_frame y s'.2.
Proof.
  intros Hy Hl. destruct op as [b ifidx|f|msg| |msg|i|i].
  - by apply step_tx_ok.
  - destruct Hy as (Hy & Hp & Hmax). cbn [legal] in Hl. apply bool_decide_eq_true in Hl.
    destruct (txflush_ok ri y f Hy Hl) as (p' & E & [Es1 Es2] & Ea & Hy' & _). cbn [prot_step]. rewrite E.
    eexists. split; [done|]. cbn [snd with_prot]. split; [|by apply prot_frame_same].
    split; [done|]. split; unfold rx_posted in *; cbn [with_prot y_p y_out]; rewrite ?Es1, ?Es2; done.
  - by apply step_txstatus_ok.
  - by apply step_rxfill_ok.
  - by apply step_rxcmplt_ok.
  - by apply step_take_ok.
  - by apply step_publish_ok.
Qed.

Lemma prot_run_ok ops s :
  hist_ok ri s.2 -> legal_run DMA_MAP PKTGET ops s = true ->
  exists s', prot_run DMA_MAP PKTGET ops s = Some s' /\ hist_ok ri s'.2.
Proof.
  revert s. induction ops as [|op ops IH]; intros [n y] Hy Hl; cbn [prot_run legal_run snd] in *; [by exists (n, y)|].
  apply andb_true_iff in Hl as [Hl1 Hl2]. destruct (prot_step_ok y n op Hy Hl1) as (s' & E & Hs' & _).
  rewrite E in Hl2 |- *. by apply IH.
Qed.

Lemma legal_run_app ops1 ops2 s s' :
  prot_run DMA_MAP PKTGET ops1 s = Some s' -> legal_run DMA_MAP PKTGET (ops1 ++ ops2) s = true ->
  legal_run DMA_MAP PKTGET ops1 s = true /\ legal_run DMA_MAP PKTGET ops2 s' = true.
Proof.
  revert s. induction ops1 as [|op ops1 IH]; intros s; cbn [prot_run legal_run app]; [by intros [= <-]|].
  destruct (prot_step DMA_MAP PKTGET op s) as [s1|]; [|done]. cbn [mbind option_bind].
  intros E [H1 H2]%andb_true_iff. destruct (IH s1 E H2) as [H3 H4]. by rewrite H1, H3.
Qed.

Lemma legal_run_prefix ops1 ops2 s :
  legal_run DMA_MAP PKTGET (ops1 ++ ops2) s = true -> legal_run DMA_MAP PKTGET ops1 s = true.
Proof.
  revert s. induction ops1 as [|op ops1 IH]; intros s; cbn [app legal_run]; [done|].
  rewrite !andb_true_iff. intros [H1 H2]. split; [done|].
  destruct (prot_step DMA_MAP PKTGET op s); [by apply IH|done].
Qed.
End step.
