(* ===== verification/ProtProps.v ===== *)
(** * What holds after every history of the data path

    The state that dhd_prot_init leaves is in the invariant of [ProtHistory];
    the properties of the transmit and receive handlers after any legal
    history from it, and a sample history. *)
From Stdlib Require Import ZArith Lia.
From stdpp Require Import base option numbers gmap list.
From S2P Require Import Prelude Bytes MwBitmap PktidMap PktOut Tcm RingIndex MsgRing MsgFifo.
From S2P Require Import ProtState ProtInv ProtSys ProtTx ProtTxInv ProtRx ProtRxInv ProtHistory.

(** ** The initial state *)

(** A ring as dhd_prot_ring_init and the index reset leave it. *)
Record fresh_ring (d : dhd_pub) (i : Z) (r : msgbuf_ring) : Prop := {
  fr_wf : ring_wf r;
  fr_idx : idx r = ring_id i;
  fr_valid : valid_ring d H2D (ring_id i);
  fr_rdwr : rd r = 0 /\ wr r = 0;
  fr_cells : forall w, cell_val d (Cell H2D w (ring_id i)) = 0;
  fr_len : item_len r = ring_item_len i;
  fr_mem : exists mem, va (dma_buf r) = Some mem /\ Z.of_nat (length mem) = max_items r * item_len r;
  fr_pend : pend_items_count r = 0
}.

Record prot_init (ri : ring_info) (p : dhd_prot) : Prop := {
  pi_idx : index_wf ri (p_pub p);
  pi_rings : forall i r, aget (h2d_rings p) i = Some r -> fresh_ring (p_pub p) i r;
  pi_len : 2 <= Z.of_nat (length (h2d_rings p));
  pi_table : p_flow_ring_table p = true;
  pi_info : forall f i, p_info p !! f = Some i -> i = f /\ 2 <= f < Z.of_nat (length (h2d_rings p));
  pi_map : dhd_pktid_map_init true true MAX_PKTID_ITEMS = Some (Some (pktid_map_handle p));
  pi_counts : active_tx_count p = 0 /\ rxbufpost p = 0 /\ p_log p = [];
  pi_max : 0 <= max_rxbufpost p < 2 ^ 16;
  pi_meta : 0 <= tx_metadata_offset p < 2 ^ 16 /\ 0 <= rx_metadata_offset p < 2 ^ 16
}.

Definition ghost0 : ring_ghost := {| g_drd := 0; g_sent := []; g_got := [] |}.
Definition start (p : dhd_prot) : prot_sys :=
  {| y_p := p; y_g := replicate (length (h2d_rings p)) ghost0; y_out := ∅; y_acc := [] |}.

Lemma aget_replicate_inv {A} n (x y : A) i : aget (replicate n x) i = Some y -> y = x.
Proof. unfold aget. destruct (0 <=? i); [|done]. intros H. by apply lookup_replicate in H as [-> _]. Qed.

Lemma map_ok_init n m : 1 <= n <= MAX_PKTID_ITEMS -> dhd_pktid_map_init true true n = Some (Some m) -> map_ok n m ∅.
Proof.
  intros Hn E. destruct (pktid_init_spec n Hn) as (m' & E' & W & Hf & Ha). rewrite E in E'. injection E' as <-.
  destruct (pm_audit _ _ W) as (a & Ea & Wa). constructor; [done| | |].
  - intros k e. by rewrite lookup_empty.
  - intros k Hk _. rewrite Hf. apply elem_of_seqZ. lia.
  - exists a. split; [done|]. intros k Hk. destruct (Ha k Hk) as (a' & Ea' & Hfr). rewrite Ea in Ea'. injection Ea' as <-.
    rewrite (isfree_reads (n + 1) a k) in Hfr by (done || lia). injection Hfr as ->.
    rewrite lookup_empty. done.
Qed.

Lemma fresh_ring_ok ri d i r :
  index_wf ri d -> fresh_ring d i r -> ring_ok ri d [] i r ghost0 (pend_items_count r) /\ pend_ok i r ghost0.
Proof.
  intros W [Hw Hi Hv [Er Ew] Hc Hl Hm Hp]. pose proof (rw_max _ Hw). split.
  - constructor; try done; rewrite Hp.
    + by split.
    + exists 0, 0. unfold h2d_counters. cbn [ghost0 ring_view g_sent g_got g_drd h_got h_sent h_ring h_st h_mem h_drd length].
      change (Z.of_nat 0) with 0. cbn [ri_own ri_peer h2d_ring_idx]. rewrite !Hc, Er, Ew, Zmod_0_l.
      split_and!; try done; try lia. split; [rewrite length_slots; lia|]. intros k ?. lia.
    + done.
  - constructor; try done; intros Hz; congruence.
Qed.

Lemma prot_init_ok ri p : prot_init ri p -> hist_ok ri (start p).
Proof.
  intros [Hi Hr Hl Ht Hinf Hm (Ea & Ep & El) Hmax [Htmo Hrmo]].
  apply map_ok_init in Hm; [|unfold MAX_PKTID_ITEMS; lia].
  split; [|split; [unfold rx_posted; cbn [start y_p y_out]; by rewrite Ep|done]].
  constructor; cbn [start y_p y_g y_out y_acc]; try done.
  - constructor; [done|by rewrite length_replicate|]. intros i r g Er Eg. apply aget_replicate_inv in Eg as ->.
    rewrite El. apply fresh_ring_ok; [done|by apply Hr].
  - constructor; [|by intros ? ? ? ? ?%lookup_empty_Some].
    intros i g k d ty Eg _. apply aget_replicate_inv in Eg as ->. unfold aget. by destruct (0 <=? k).
  - assert (tx_out ∅ = ∅) as Et by apply map_filter_empty.
    constructor; rewrite ?Ea, ?El, ?Et; [done|done|constructor|]. unfold out_pkts. by rewrite map_to_list_empty.
Qed.

(** ** Properties *)
Section props.
Context (ri : ring_info).
Variable DMA_MAP : Z -> Z -> Z -> Z.
Variable PKTGET : Z -> option (Z * Z).

Lemma history_ok p ops :
  (forall n pkt va, PKTGET n = Some (pkt, va) -> pkt <> 0) -> prot_init ri p ->
  legal_run DMA_MAP PKTGET ops (0, start p) = true ->
  exists n y, prot_run DMA_MAP PKTGET ops (0, start p) = Some (n, y) /\ hist_ok ri y.
Proof.
  intros Hnn Hi Hl. destruct (prot_run_ok ri DMA_MAP PKTGET Hnn ops (0, start p)) as ([n y] & E & Hy);
    [by apply prot_init_ok|done|]. by exists n, y.
Qed.

(** The last operation of a legal history was legal. *)
Lemma history_last p ops op n y :
  (forall n pkt va, PKTGET n = Some (pkt, va) -> pkt <> 0) -> prot_init ri p ->
  legal_run DMA_MAP PKTGET (ops ++ [op]) (0, start p) = true ->
  prot_run DMA_MAP PKTGET ops (0, start p) = Some (n, y) -> hist_ok ri y /\ legal y op = true.
Proof.
  intros Hnn Hi Hl Er. destruct (legal_run_app DMA_MAP PKTGET ops [op] (0, start p) (n, y) Er Hl) as [Hl1 H].
  cbn [legal_run snd] in H. apply andb_true_iff in H as [? _].
  destruct (history_ok p ops Hnn Hi Hl1) as (n' & y0 & E & Hy). rewrite Er in E. by injection E as <- <-.
Qed.

(** What a ring's invariant says of it. *)
Lemma ring_ok_fifo d log i r g u (P := Z.of_nat (length (g_sent g))) (G := Z.of_nat (length (g_got g))) :
  ring_ok ri d log i r g u ->
  g_got g = take (length (g_got g)) (g_sent g) /\ 0 <= u /\ G <= P - u /\ P <= G + max_items r - 1 /\
  cell_val d (Cell H2D true (ring_id i)) = (P - u) mod max_items r /\
  flushed (ring_id i) (item_len r) log = map (fun k => k mod max_items r) (seqZ 0 (P - u)) /\
  forall k, G <= k < P -> aget (g_sent g) k = Some (slot (item_len r) (ring_mem r) (k mod max_items r)).
Proof.
  intros Hok. pose proof Hok as [Hw _ _ _ [Hu _] (C & R & Hc) Hf]. pose proof (rw_max _ Hw).
  destruct Hc as (HC & HR & HV & _ & _ & _ & Ho & _ & Hg & _ & Hmem).
  cbn [h_got h_sent h_ring h_st h_mem ring_view ri_own h2d_ring_idx] in *.
  fold P in Hf, HV, HR, Ho, Hmem. fold G in HR, HV, Hmem. split_and!; try done; try lia.
  intros k Hk. specialize (Hmem k Hk). pose proof (Z.mod_pos_bound k (max_items r) ltac:(lia)).
  rewrite aget_slots in Hmem by lia. done.
Qed.

(** C10: What dhd_prot_txdata does.  After any such history, for a packet on a
    flow that has a ring, it returns either BCME_OK, with one new TX_POST
    message at the end of the flow's ring whose bytes are the ones of
    host_txbuf_post (header, mapped address, length, metadata, packet id) under
    an id that was not outstanding, and nothing else put on any ring; or
    BCME_NORESOURCE, with nothing mapped, flushed or announced and no id lost,
    which happens only when all ids are outstanding or the dongle has not yet
    reported the ring empty. *)
Theorem txdata_posts p ops n y b ifidx :
  (forall n pkt va, PKTGET n = Some (pkt, va) -> pkt <> 0) -> prot_init ri p ->
  legal_run DMA_MAP PKTGET (ops ++ [OpTx b ifidx]) (0, start p) = true ->
  prot_run DMA_MAP PKTGET ops (0, start p) = Some (n, y) ->
  let f := pb_flowid b in
  exists rc p' y', dhd_prot_txdata DMA_MAP (y_p y) b ifidx = Some (rc, p') /\
    prot_step DMA_MAP PKTGET (OpTx b ifidx) (n, y) = Some (n, y') /\ y_p y' = p' /\
    ((rc = BCME_NORESOURCE /\ p_log p' = p_log (y_p y) /\ y' = with_prot y p' /\
      map_ok MAX_PKTID_ITEMS (pktid_map_handle p') (y_out y) /\
      ((forall k, 1 <= k <= MAX_PKTID_ITEMS -> is_Some (y_out y !! k)) \/
       exists r, aget (h2d_rings (y_p y)) f = Some r /\
         cell_val (p_pub (y_p y)) (Cell H2D false (ring_id f)) <> wr r)) \/
     (rc = BCME_OK /\ exists g d id, aget (y_g y) f = Some g /\ y_out y !! id = None /\
        tx_message DMA_MAP (tx_metadata_offset (y_p y)) b ifidx id d /\
        y_g y' = <[Z.to_nat f := push g d]> (y_g y) /\
        y_out y' = <[id := {| e_item := tx_item DMA_MAP b; e_where := OnRing f (Z.of_nat (length (g_sent g))) |}]> (y_out y) /\
        y_acc y' = y_acc y ++ [pb_pkt b])).
Proof.
  intros Hnn Hi Hl Er f.
  destruct (history_last p ops _ n y Hnn Hi Hl Er) as [Hy Hl2].
  destruct (step_tx_cases ri DMA_MAP PKTGET y n b ifidx Hy Hl2) as (rc & p' & E & _ & Hcase).
  destruct Hcase as [(-> & Hs & Hy' & El & Hw)|(-> & g & d & id & Hg & Hn & Hmsg & Hs & Hy')].
  - exists BCME_NORESOURCE, p', (with_prot y p'). split_and!; try done. left. split_and!; try done. apply (so_map _ _ Hy').
  - eexists BCME_OK, p', _. split; [done|]. split; [exact Hs|]. split; [done|]. right. split; [done|]. by exists g, d, id.
Qed.

(** C12: Completion of a transmit packet.  After any such history, when the
    dongle completes a packet id it took, dhd_prot_txstatus_process releases
    the wake lock if this was the last outstanding packet, unmaps the address
    and length recorded when the packet was posted, completes that packet to
    its owner with success and frees it, and nothing else; the id is free again
    and every other outstanding packet stays. *)
Theorem txstatus_completes p ops n y msg :
  (forall n pkt va, PKTGET n = Some (pkt, va) -> pkt <> 0) -> prot_init ri p ->
  legal_run DMA_MAP PKTGET (ops ++ [OpTxStatus msg]) (0, start p) = true ->
  prot_run DMA_MAP PKTGET ops (0, start p) = Some (n, y) ->
  exists id e p', let it := e_item e in
    ld 4 msg 4 = Some id /\ y_out y !! id = Some e /\ dhd_prot_txstatus_process (y_p y) msg = Some p' /\
    active_tx_count p' = active_tx_count (y_p y) - 1 /\ h2d_rings p' = h2d_rings (y_p y) /\
    p_log p' = p_log (y_p y) ++ (if active_tx_count (y_p y) - 1 =? 0 then [WakeUnlock] else []) ++
      [DmaUnmap (pa it) (len it) DMA_RX (pkt it); TxComplete (pkt it) true; PktFree (pkt it) true] /\
    id ∈ free_keys (pktid_map_handle p') /\ map_ok MAX_PKTID_ITEMS (pktid_map_handle p') (delete id (y_out y)).
Proof.
  intros Hnn Hi Hl Er. destruct (history_last p ops _ n y Hnn Hi Hl Er) as [(Hy & _) Hl2]. cbn [legal] in Hl2.
  destruct (held_spec _ _ _ Hl2) as (id & e & Eid & He & Hw & Ht).
  destruct (txstatus_ok ri y msg id e Hy Eid He Hw Ht) as (p' & E & El & Ea & Hrings & _ & Hy').
  exists id, e, p'. cbv zeta. pose proof (so_map _ _ Hy') as Hm'. cbn [y_p y_out] in Hm'. split_and!; try done.
  apply (mo_free _ _ _ Hm'); [|apply lookup_delete_eq]. by apply (mo_out _ _ _ (so_map _ _ Hy)) in He as [? _].
Qed.

(** C13: Completion of a received packet.  After any such history, when the
    dongle completes the id of a receive buffer it took,
    dhd_prot_rxcmplt_process unmaps the buffer with the address and length it
    was posted with, hands exactly that packet on with the data offset (or the
    ring's default), length and interface of the completion, and in between
    only posts new buffers: [k] of them, on the receive ring, never above
    max_rxbufpost; no transmit packet and no other receive buffer is lost. *)
Theorem rxcmplt_delivers p ops n y msg :
  (forall n pkt va, PKTGET n = Some (pkt, va) -> pkt <> 0) -> prot_init ri p ->
  legal_run DMA_MAP PKTGET (ops ++ [OpRxCmplt msg]) (0, start p) = true ->
  prot_run DMA_MAP PKTGET ops (0, start p) = Some (n, y) ->
  exists id e n' y' mid k off dl ifx, let it := e_item e in
    ld 4 msg 4 = Some id /\ y_out y !! id = Some e /\ ld 2 msg 16 = Some off /\ ld 2 msg 14 = Some dl /\
    ld 1 msg 1 = Some ifx /\ prot_step DMA_MAP PKTGET (OpRxCmplt msg) (n, y) = Some (n', y') /\
    p_log (y_p y') = p_log (y_p y) ++ [DmaUnmap (pa it) (len it) DMA_RX (pkt it)] ++ mid ++
      [RxPacket (pkt it) (if negb (off =? 0) then off else rx_dataoffset (y_p y)) dl ifx] /\ quiet RXP mid /\
    delete id (y_out y) ⊆ y_out y' /\ tx_out (y_out y') = tx_out (y_out y) /\
    Z.of_nat (size (y_out y')) = Z.of_nat (size (y_out y)) - 1 + k /\
    rxbufpost (y_p y') = rxbufpost (y_p y) - 1 + k /\
    rxbufpost (y_p y') <= Z.max (rxbufpost (y_p y)) (max_rxbufpost (y_p y)).
Proof.
  intros Hnn Hi Hl Er. destruct (history_last p ops _ n y Hnn Hi Hl Er) as [Hy Hl2].
  destruct (step_rxcmplt_cases ri DMA_MAP PKTGET Hnn y n msg Hy Hl2)
    as (id & e & off & dl & ifx & m & n' & p2 & gs' & out' & k & Eid & He & Ht & Eo & Ed & Ei & Es & Hgr & _ & Hk & Hle).
  destruct (rg_log _ _ _ _ _ _ Hgr) as (mid & El & Hq). cbn [rx_returned y_p rx_upd p_log] in El.
  do 4 eexists. exists mid, k, off, dl, ifx. cbv zeta. split_and!; try done; cbn [y_p y_out emit p_log].
  - by rewrite El, <- !app_assoc.
  - exact (proj1 (rg_sub _ _ _ _ _ _ Hgr)).
  - rewrite (rg_tx _ _ _ _ _ _ Hgr). cbn [rx_returned y_out]. apply (tx_out_delete_other _ _ e He). unfold is_tx. by rewrite Ht.
  - rewrite (rg_size _ _ _ _ _ _ Hgr). cbn [rx_returned y_out]. rewrite <- (insert_delete_id _ id e He) at 2.
    rewrite map_size_insert_None by apply lookup_delete_eq. lia.
Qed.
End props.
