(* ===== verification/ProtSample.v ===== *)
(** * A sample history of the data path

    Two submission rings and one flow ring of a few items, and a run of every
    operation of [ProtHistory]: the properties of [ProtProps] on it. *)
From Stdlib Require Import ZArith Lia.
From stdpp Require Import base option numbers gmap list.
From S2P Require Import Prelude Bytes MwBitmap PktidMap PktOut Tcm RingIndex MsgRing MsgFifo.
From S2P Require Import ProtState ProtInv ProtSys ProtTx ProtTxInv ProtRx ProtRxInv ProtHistory ProtProps.

Definition sample_ring (i n il : Z) : msgbuf_ring :=
  {| inited := true; idx := i; rd := 0; wr := 0; max_items := n; item_len := il; base_addr := [];
     dma_buf := {| va := Some (replicate (Z.to_nat (n * il)) 0); blen := n * il; pa_lo := 0 |}; seqnum := 254;
     start_addr := None; pend_items_count := 0 |}.
Definition empty_map : dhd_pktid_map := mk_pktid_map 0 0 0 None [] [].
(** The initial map, in normal form. *)
Definition sample_handle : dhd_pktid_map :=
  Eval vm_compute in default empty_map (default None (dhd_pktid_map_init true true MAX_PKTID_ITEMS)).
Definition sample_prot : dhd_prot :=
  {| p_pub := filled_pub; p_flow_ring_table := true; p_info := {[ 2 := 2 ]};
     h2d_rings := [sample_ring 0 4 40; sample_ring 1 4 32; sample_ring 5 4 48];
     pktid_map_handle := sample_handle;
     active_tx_count := 0; txp_threshold := 2; tx_metadata_offset := 8; rx_metadata_offset := 0;
     rxbufpost := 0; max_rxbufpost := 33; rx_dataoffset := 2; rx_pktgetfail := 0; p_log := [] |}.
Definition sample_map (va _ _ : Z) : Z := va + 2 ^ 32.
Definition sample_get (n : Z) : option (Z * Z) := if (0 <=? n) && (n <? 1000) then Some (2000 + n, 9000 + 10 * n) else None.
Definition sample_pkt (k : Z) : pktbuf :=
  {| pb_pkt := k; pb_flowid := 2; pb_va := 5000 * k; pb_data := seqZ 1 60; pb_prio := 5; pb_headroom := 100 |}.
Definition sample_ops : list prot_op :=
  [OpTx (sample_pkt 1000) 3; OpTx (sample_pkt 1001) 3; OpTx (sample_pkt 1002) 3; DevTake 2; DevTake 2; DevPublish 2;
   OpRxFill; DevTake 1].

Definition sample_txs : list Z := [16; 3; 0; 0] ++ le_bytes 4 3072.
Definition sample_rxc : list Z := [18; 3; 0; 0] ++ le_bytes 4 3069 ++ [0; 0; 0; 0; 0; 0] ++ le_bytes 2 100 ++ le_bytes 2 0.


Lemma sample_nonnull n pkt va : sample_get n = Some (pkt, va) -> pkt <> 0.
Proof. unfold sample_get. destruct (Z.leb_spec 0 n), (n <? 1000); cbn [andb]; try done. intros [= <- _]. lia. Qed.

Lemma sample_fresh i n il :
  ring_id i = idx (sample_ring (ring_id i) n il) -> valid_ring filled_pub H2D (ring_id i) ->
  2 <= n < 2 ^ 16 -> il = ring_item_len i -> 0 < il < 2 ^ 16 ->
  (forall w, cell_val filled_pub (Cell H2D w (ring_id i)) = 0) -> fresh_ring filled_pub i (sample_ring (ring_id i) n il).
Proof.
  intros Hi Hv Hn Hl Hl2 Hc. constructor; try done.
  - constructor; cbn; lia.
  - eexists. split; [done|]. cbn [sample_ring max_items item_len]. rewrite length_replicate. nia.
Qed.

Lemma sample_handle_eq : dhd_pktid_map_init true true MAX_PKTID_ITEMS = Some (Some sample_handle).
Proof. vm_compute. reflexivity. Qed.

Lemma sample_init : prot_init sample_ri sample_prot.
Proof.
  constructor.
  - exact filled_pub_wf.
  - intros i r Hr. change (p_pub sample_prot) with filled_pub. pose proof (aget_lt _ _ _ Hr) as Hi.
    cbn [sample_prot h2d_rings length] in Hi. assert (i = 0 \/ i = 1 \/ i = 2) as [->|[->| ->]] by lia;
      injection Hr as <-; (apply sample_fresh; [done| |done|done|done|intros []; by vm_compute]);
      try (left; by vm_compute); right; split; vm_compute; congruence.
  - done.
  - done.
  - intros f i. cbn [sample_prot p_info h2d_rings length]. rewrite lookup_singleton_Some. lia.
  - exact sample_handle_eq.
  - done.
  - done.
  - done.
Qed.

Lemma sample_runs ops :
  legal_run sample_map sample_get (sample_ops ++ ops) (0, start sample_prot) = true ->
  exists n y, prot_run sample_map sample_get sample_ops (0, start sample_prot) = Some (n, y).
Proof.
  intros Hl. destruct (history_ok sample_ri sample_map sample_get sample_prot sample_ops sample_nonnull sample_init)
    as (n & y & E & _); [by apply legal_run_prefix in Hl|by exists n, y].
Qed.

(** ** The properties on the sample *)
Lemma txdata_posts_witness :
  exists n y, prot_run sample_map sample_get sample_ops (0, start sample_prot) = Some (n, y) /\
    exists rc p', dhd_prot_txdata sample_map (y_p y) (sample_pkt 1003) 3 = Some (rc, p').
Proof.
  assert (legal_run sample_map sample_get (sample_ops ++ [OpTx (sample_pkt 1003) 3]) (0, start sample_prot) = true) as Hl
    by (vm_compute; reflexivity).
  destruct (sample_runs _ Hl) as (n & y & E). exists n, y. split; [exact E|].
  destruct (txdata_posts sample_ri sample_map sample_get sample_prot sample_ops n y (sample_pkt 1003) 3
    sample_nonnull sample_init Hl E) as (rc & p' & y' & Er & _). exists rc, p'. exact Er.
Defined.

Lemma txstatus_completes_witness :
  exists n y, prot_run sample_map sample_get sample_ops (0, start sample_prot) = Some (n, y) /\
    exists p', dhd_prot_txstatus_process (y_p y) sample_txs = Some p' /\
      active_tx_count p' = active_tx_count (y_p y) - 1.
Proof.
  assert (legal_run sample_map sample_get (sample_ops ++ [OpTxStatus sample_txs]) (0, start sample_prot) = true) as Hl
    by (vm_compute; reflexivity).
  destruct (sample_runs _ Hl) as (n & y & E). exists n, y. split; [exact E|].
  destruct (txstatus_completes sample_ri sample_map sample_get sample_prot sample_ops n y sample_txs
    sample_nonnull sample_init Hl E) as (id & e & p' & _ & _ & Er & Ea & _). exists p'. split; [exact Er|exact Ea].
Defined.

Lemma rxcmplt_delivers_witness :
  exists n y, prot_run sample_map sample_get sample_ops (0, start sample_prot) = Some (n, y) /\
    exists n' y', prot_step sample_map sample_get (OpRxCmplt sample_rxc) (n, y) = Some (n', y') /\
      tx_out (y_out y') = tx_out (y_out y).
Proof.
  assert (legal_run sample_map sample_get (sample_ops ++ [OpRxCmplt sample_rxc]) (0, start sample_prot) = true) as Hl
    by (vm_compute; reflexivity).
  destruct (sample_runs _ Hl) as (n & y & E). exists n, y. split; [exact E|].
  destruct (rxcmplt_delivers sample_ri sample_map sample_get sample_prot sample_ops n y sample_rxc
    sample_nonnull sample_init Hl E)
    as (id & e & n' & y' & mid & k & off & dl & ifx & _ & _ & _ & _ & _ & Es & _ & _ & _ & Et & _).
  exists n', y'. split; [exact Es|exact Et].
Defined.
