(* ===== verification/FlowQueue.v ===== *)
(** * The backup queue of a flow ring (dhd/sys/dhd_flowring.c: flow_queue_t)

    Packets of a flow wait in a singly linked queue until the flow ring has
    room.  Packets are pointers into the heap of [PktQueue] (the link field);
    the cumulative counters are not supported in this build: the counter
    macros of dhd.h are only ASSERTs.  The overflow callback is a field of the
    queue, as in the code. *)
From Stdlib Require Import ZArith Lia.
From stdpp Require Import base option numbers gmap list.
From S2P Require Import Prelude PktQueue PktChain.

(** ** Definitions *)
Definition FLOW_RING_QUEUE_THRESHOLD : Z := 2048.

Record flow_queue := mk_fq {
  q_head : Z; q_tail : Z;
  q_len : Z;              (* uint16 *)
  q_max : Z;              (* uint16 *)
  q_threshold : Z;        (* uint32 *)
  q_clen_ptr : Z;
  q_failures : Z;         (* uint32 *)
  q_cb : Z -> Z;          (* flow_queue_cb_t, given the packet *)
  q_l2threshold : Z;      (* uint32 *)
  q_l2clen_ptr : Z
}.
Definition with_chain (q : flow_queue) (head tail len : Z) : flow_queue :=
  mk_fq head tail len (q_max q) (q_threshold q) (q_clen_ptr q) (q_failures q) (q_cb q)
    (q_l2threshold q) (q_l2clen_ptr q).
Definition with_failures (q : flow_queue) (n : Z) : flow_queue :=
  mk_fq (q_head q) (q_tail q) (q_len q) (q_max q) (q_threshold q) (q_clen_ptr q) n (q_cb q)
    (q_l2threshold q) (q_l2clen_ptr q).

Definition DHD_FLOW_QUEUE_EMPTY (q : flow_queue) : bool := q_len q =? 0.
Definition DHD_FLOW_QUEUE_FULL (q : flow_queue) : bool := q_max q <=? q_len q.
Definition dhd_flow_queue_throttle (q : flow_queue) : bool := DHD_FLOW_QUEUE_FULL q.
Definition dhd_flow_queue_overflow (pkt : Z) : Z := BCME_NORESOURCE.

(** The pointers are the addresses of dhd_pub_t's two counters; l2threshold
    is not written (the table was zeroed). *)
Definition dhd_flow_queue_init (q : flow_queue) (max cumm_ctr l2cumm_ctr : Z) : flow_queue :=
  mk_fq 0 0 0 (u16 (max - 1)) (u32 (max - 1)) cumm_ctr 0 dhd_flow_queue_overflow (q_l2threshold q) l2cumm_ctr.

Definition dhd_flow_queue_register (q : flow_queue) (cb : Z -> Z) : flow_queue :=
  mk_fq (q_head q) (q_tail q) (q_len q) (q_max q) (q_threshold q) (q_clen_ptr q) (q_failures q) cb
    (q_l2threshold q) (q_l2clen_ptr q).

Definition dhd_flow_ring_config_thresholds (q : flow_queue) (queue_budget cumm_threshold cumm_ctr
    l2cumm_threshold l2cumm_ctr : Z) : flow_queue :=
  mk_fq (q_head q) (q_tail q) (q_len q) (u16 (queue_budget - 1)) (u32 (cumm_threshold - 1)) cumm_ctr
    (q_failures q) (q_cb q) (u32 (l2cumm_threshold - 1)) l2cumm_ctr.

Definition dhd_flow_queue_enqueue (h : heap) (q : flow_queue) (pkt : Z) : option (Z * heap * flow_queue) :=
  if dhd_flow_queue_throttle q then
    let q := with_failures q (u32 (q_failures q + 1)) in Some (q_cb q pkt, h, q)
  else
  '(h, head) ←
    (if negb (q_head q =? 0) then h ← PKTSETLINK h (q_tail q) pkt; Some (h, q_head q) else Some (h, pkt));
  h ← PKTSETLINK h pkt 0;
  Some (BCME_OK, h, with_chain q head pkt (u16 (q_len q + 1))).

Definition dhd_flow_queue_dequeue (h : heap) (q : flow_queue) : option (Z * heap * flow_queue) :=
  let pkt := q_head q in
  if pkt =? 0 then Some (pkt, h, q) else
  head ← PKTLINK h pkt;
  let tail := if head =? 0 then 0 else q_tail q in
  h ← PKTSETLINK h pkt 0;
  Some (pkt, h, with_chain q head tail (u16 (q_len q - 1))).

Definition dhd_flow_queue_reinsert (h : heap) (q : flow_queue) (pkt : Z) : option (heap * flow_queue) :=
  let tail := if q_head q =? 0 then pkt else q_tail q in
  h ← PKTSETLINK h pkt (q_head q);
  Some (h, with_chain q pkt tail (u16 (q_len q + 1))).

(** [while ((pkt = dhd_flow_queue_dequeue(dhdp, queue)) != NULL) PKTFREE(pkt)]:
    the packets freed, in order. *)
Fixpoint flow_queue_flush (fuel : nat) (h : heap) (q : flow_queue) : option (list Z * heap * flow_queue) :=
  match fuel with
  | O => None
  | S fuel =>
      '(pkt, h, q) ← dhd_flow_queue_dequeue h q;
      if pkt =? 0 then Some ([], h, q) else
      h ← PKTFREE h pkt;
      '(ps, h, q) ← flow_queue_flush fuel h q;
      Some (pkt :: ps, h, q)
  end.

(** ** The queue represents a list *)
Record fq_ok (h : heap) (q : flow_queue) (xs : list Z) : Prop := {
  fq_head : q_head q = hd0 xs;
  fq_tail : q_tail q = last0 xs;
  fq_len : q_len q = Z.of_nat (length xs);
  fq_nodup : NoDup xs;
  fq_linked : linked h xs
}.

Lemma fq_frame h h' q xs : (forall x, x ∈ xs -> h' !! x = h !! x) -> fq_ok h q xs -> fq_ok h' q xs.
Proof. intros Hf [? ? ? ? ?]. constructor; try done. by eapply linked_frame. Qed.

Lemma fq_init h q m c l : fq_ok h (dhd_flow_queue_init q m c l) [].
Proof. constructor; done || apply NoDup_nil_2. Qed.

Lemma enqueue_full h q p :
  q_max q <= q_len q ->
  dhd_flow_queue_enqueue h q p = Some (q_cb q p, h, with_failures q (u32 (q_failures q + 1))).
Proof.
  intros Hm. unfold dhd_flow_queue_enqueue, dhd_flow_queue_throttle, DHD_FLOW_QUEUE_FULL.
  by rewrite (proj2 (Z.leb_le _ _) Hm).
Qed.

(** What the operations leave alone outside the queue and the packet. *)
Definition only (h h' : heap) (xs : list Z) : Prop :=
  dom h' = dom h /\ forall x, x ∉ xs -> h' !! x = h !! x.

Lemma only_setlink h p x xs n : h !! p = Some n -> p ∈ xs -> only h (<[p:=x]> h) xs.
Proof.
  intros Hp Hx. split; [rewrite dom_insert_L; apply elem_of_dom_2 in Hp; set_solver|].
  intros y Hy. apply lookup_insert_ne. congruence.
Qed.
Lemma only_trans h h1 h2 xs : only h h1 xs -> only h1 h2 xs -> only h h2 xs.
Proof. intros [D1 F1] [D2 F2]. split; [congruence|]. intros x Hx. by rewrite F2, F1. Qed.

Lemma enqueue_ok h q xs p :
  h !! 0 = None -> fq_ok h q xs -> p ∈ dom h -> p ∉ xs -> q_len q < q_max q < 2 ^ 16 ->
  exists h' q', dhd_flow_queue_enqueue h q p = Some (BCME_OK, h', q') /\
    fq_ok h' q' (xs ++ [p]) /\ only h h' (p :: xs) /\ q_max q' = q_max q /\ q_cb q' = q_cb q.
Proof.
  intros H0 [Hh Ht Hl Hnd Hk] [n Hp]%elem_of_dom Hpx Hm.
  unfold dhd_flow_queue_enqueue, dhd_flow_queue_throttle, DHD_FLOW_QUEUE_FULL.
  rewrite (proj2 (Z.leb_gt _ _)) by lia. rewrite Hh, (hd0_zero h xs H0 Hk).
  destruct xs as [|x xs _] using rev_ind.
  - rewrite bool_decide_eq_true_2 by done. cbn [negb mbind option_bind].
    rewrite (setlink_some _ _ _ _ Hp). cbn [mbind option_bind]. do 2 eexists. split; [done|].
    split_and!; [|eapply only_setlink; [done|apply list_elem_of_here]|done|done].
    constructor; cbn; [done|done|rewrite Hl; done|apply NoDup_singleton|].
    split; [apply lookup_insert_eq|done].
  - rewrite bool_decide_eq_false_2 by (intros E; by apply (f_equal length) in E; rewrite length_app in E; cbn in E; lia).
    cbn [negb]. rewrite Ht, last0_snoc.
    assert (h !! x = Some 0) as Hx by (by apply linked_at in Hk).
    rewrite (setlink_some _ _ _ _ Hx). cbn [mbind option_bind].
    assert (x <> p) as Hxp by (intros ->; apply Hpx, elem_of_app; right; by apply list_elem_of_singleton).
    rewrite (setlink_some _ p 0 n) by (by rewrite lookup_insert_ne). cbn [mbind option_bind].
    do 2 eexists. split; [done|]. apply not_elem_of_app in Hpx as [Hp1 Hp2].
    split_and!; [| |done|done].
    + constructor; cbn.
      * rewrite (hd0_app (xs ++ [x]) [p]), decide_False by (by destruct xs). done.
      * by rewrite last0_snoc.
      * rewrite Hl, wrapu_small by (rewrite <- Hl; rewrite Hl in Hm; zlia). rewrite !length_app. cbn. lia.
      * apply NoDup_app. split_and!; [done| |apply NoDup_singleton].
        intros y Hy ->%list_elem_of_singleton. by apply elem_of_app in Hy as [?|?].
      * rewrite <- app_assoc. cbn [app].
        assert (x ∉ xs) as Hxx by (rewrite NoDup_app in Hnd; set_solver).
        rewrite (insert_insert_ne _ p x) by done.
        apply (linked_relink _ xs x [] [p]).
        -- apply linked_insert; [by apply not_elem_of_app|exact Hk].
        -- cbn. split; [apply lookup_insert_eq|done].
        -- done.
        -- set_solver.
    + eapply only_trans; [eapply only_setlink; [exact Hx|]|eapply (only_setlink _ p)].
      * set_solver.
      * by rewrite lookup_insert_ne.
      * set_solver.
Qed.

Lemma dequeue_nil h q : fq_ok h q [] -> dhd_flow_queue_dequeue h q = Some (0, h, q).
Proof. intros [Hh _ _ _ _]. unfold dhd_flow_queue_dequeue. by rewrite Hh. Qed.

Lemma dequeue_ok h q p xs :
  h !! 0 = None -> fq_ok h q (p :: xs) -> q_len q < 2 ^ 16 ->
  exists h' q', dhd_flow_queue_dequeue h q = Some (p, h', q') /\ p <> 0 /\
    fq_ok h' q' xs /\ only h h' [p] /\ q_max q' = q_max q /\ q_cb q' = q_cb q /\ q_len q' = q_len q - 1.
Proof.
  intros H0 [Hh Ht Hl Hnd Hk] Hm. destruct Hk as [Hp Hk]. unfold dhd_flow_queue_dequeue.
  assert (p <> 0) as Hpz by congruence. rewrite Hh. cbn [hd0 head default from_option id].
  change (hd0 (p :: xs)) with p. rewrite (proj2 (Z.eqb_neq _ _) Hpz). unfold PKTLINK. rewrite Hp.
  cbn [mbind option_bind]. rewrite (setlink_some _ _ _ _ Hp). cbn [mbind option_bind].
  apply list.NoDup_cons in Hnd as [Hpx Hnd]. rewrite (hd0_zero h xs H0 Hk).
  assert (u16 (q_len q - 1) = Z.of_nat (length xs)) as El.
  { rewrite Hl in *. cbn [length] in *. rewrite wrapu_small by zlia. lia. }
  do 2 eexists. split; [done|]. split_and!; [done| | |done|done|].
  - constructor; cbn; [done| |done|done|by apply linked_insert].
    case_bool_decide as E; [by subst xs|]. by rewrite Ht, last0_cons, decide_False by done.
  - eapply only_setlink; [done|apply list_elem_of_here].
  - cbn. rewrite El, Hl. cbn [length]. lia.
Qed.

Lemma reinsert_ok h q xs p :
  h !! 0 = None -> fq_ok h q xs -> p ∈ dom h -> p ∉ xs -> q_len q + 1 < 2 ^ 16 ->
  exists h' q', dhd_flow_queue_reinsert h q p = Some (h', q') /\
    fq_ok h' q' (p :: xs) /\ only h h' [p] /\ q_max q' = q_max q /\ q_cb q' = q_cb q.
Proof.
  intros H0 [Hh Ht Hl Hnd Hk] [n Hp]%elem_of_dom Hpx Hm. unfold dhd_flow_queue_reinsert.
  rewrite (setlink_some _ _ _ _ Hp). cbn [mbind option_bind]. rewrite Hh, (hd0_zero h xs H0 Hk).
  do 2 eexists. split; [done|]. split_and!; [|eapply only_setlink; [done|apply list_elem_of_here]|done|done].
  constructor; cbn.
  - done.
  - case_bool_decide as E; [by subst xs|]. rewrite Ht, last0_cons, decide_False by done. done.
  - rewrite Hl, wrapu_small by (rewrite Hl in Hm; zlia). lia.
  - by apply list.NoDup_cons.
  - split; [apply lookup_insert_eq|by apply linked_insert].
Qed.

Lemma flush_ok h q xs fuel :
  h !! 0 = None -> fq_ok h q xs -> q_len q < 2 ^ 16 -> (length xs < fuel)%nat ->
  exists h' q', flow_queue_flush fuel h q = Some (xs, h', q') /\ fq_ok h' q' [] /\
    dom h' = dom h ∖ list_to_set xs /\ (forall x, x ∉ xs -> h' !! x = h !! x) /\
    q_max q' = q_max q /\ q_cb q' = q_cb q.
Proof.
  revert h q fuel. induction xs as [|p xs IH]; intros h q fuel H0 Hok Hm Hf;
    (destruct fuel as [|fuel]; [cbn in Hf; lia|]); cbn [flow_queue_flush].
  - rewrite (dequeue_nil _ _ Hok). cbn [mbind option_bind]. exists h, q.
    split_and!; [done|done|set_solver|done|done|done].
  - destruct (dequeue_ok h q p xs H0 Hok Hm) as (h1 & q1 & -> & Hpz & Hok1 & [D1 F1] & M1 & C1 & L1).
    cbn [mbind option_bind]. rewrite (proj2 (Z.eqb_neq _ _) Hpz).
    pose proof (fq_nodup _ _ _ Hok) as Hnd. apply list.NoDup_cons in Hnd as [Hpx Hnd].
    assert (p ∈ dom h1) as [n Hn]%elem_of_dom.
    { rewrite D1. destruct (fq_linked _ _ _ Hok) as [E _]. by apply elem_of_dom_2 in E. }
    unfold PKTFREE. rewrite Hn. cbn [mbind option_bind].
    assert (fq_ok (delete p h1) q1 xs) as Hok2.
    { eapply fq_frame; [|exact Hok1]. intros x Hx. apply lookup_delete_ne. by intros ->. }
    destruct (IH (delete p h1) q1 fuel) as (h2 & q2 & -> & Hok3 & D2 & F2 & M2 & C2).
    + rewrite lookup_delete_ne by done. rewrite F1; [done|]. by intros ?%list_elem_of_singleton.
    + done.
    + lia.
    + cbn in Hf. lia.
    + cbn [mbind option_bind]. exists h2, q2. split_and!; [done|done| | |congruence|congruence].
      * rewrite D2, dom_delete_L, D1. set_solver.
      * intros x [Hxp Hx]%not_elem_of_cons. rewrite F2, lookup_delete_ne, F1; auto. by intros ?%list_elem_of_singleton.
Qed.

(** The list a queue represents is unique. *)
Lemma linked_inj h xs ys : h !! 0 = None -> linked h xs -> linked h ys -> hd0 xs = hd0 ys -> xs = ys.
Proof.
  intros H0. revert ys. induction xs as [|x xs IH]; intros [|y ys] Hx Hy E; cbn [linked] in *; try done.
  - cbn in E. subst y. destruct Hy. congruence.
  - cbn in E. subst x. destruct Hx. congruence.
  - cbn in E. subst y. destruct Hx as [E1 Hx], Hy as [E2 Hy]. f_equal. apply IH; [done..|congruence].
Qed.
Lemma fq_ok_inj h q xs ys : h !! 0 = None -> fq_ok h q xs -> fq_ok h q ys -> xs = ys.
Proof. intros H0 [E1 _ _ _ L1] [E2 _ _ _ L2]. eapply linked_inj; eauto. congruence. Qed.
