(* ===== verification/FlowTable.v ===== *)
(** * Flow rings: from (interface, priority, address) to a flow id

    dhd/sys/dhd_flowring.c: every transmit packet is assigned to a flow ring
    through a hash table per interface; a miss allocates a flow id from the
    16-bit allocator and asks the dongle to create the ring.  The table is a
    client of the allocator through the class [IdAllocator].

    A hash chain is a list of nodes: the nodes are private to the table and
    each is on one chain.  Spin locks are not modelled: every function is one
    step.  The code drops the lock between the search and the insertion of a
    lookup, so two lookups that race on one key are outside this model. *)
From Stdlib Require Import ZArith Lia.
From stdpp Require Import base option numbers list.
From S2P Require Import Prelude IdAllocator Id16Map PktQueue FlowQueue.

Record ether_addr := EA { ea0 : Z; ea1 : Z; ea2 : Z; ea3 : Z; ea4 : Z; ea5 : Z }.
#[export] Instance ether_addr_eq : EqDecision ether_addr.
Proof. solve_decision. Defined.
Definition ETHER_ISMULTI (ea : ether_addr) : bool := negb (Z.land (ea0 ea) 1 =? 0).

Definition DHD_MAX_IFS : Z := 16.
Definition DHD_FLOWRING_HASH_SIZE : Z := 256.
Definition DHD_FLOWRING_HASHINDEX (ea : ether_addr) (prio : Z) : Z :=
  Z.lxor (Z.lxor (Z.lxor (ea3 ea) (ea4 ea)) (ea5 ea)) (u8 prio) mod DHD_FLOWRING_HASH_SIZE.
Definition FLOW_RING_COMMON : Z := 2.
Definition FLOWID_INVALID : Z := ID16_INVALID.
Definition FLOWID_RESERVED : Z := FLOW_RING_COMMON.
Definition FLOW_RING_STATUS_OPEN : Z := 0.
Definition FLOW_RING_STATUS_PENDING : Z := 1.
Definition FLOW_RING_STATUS_CLOSED : Z := 2.
Definition FLOW_RING_STATUS_DELETE_PENDING : Z := 3.
Definition FLOW_RING_STATUS_FLUSH_PENDING : Z := 4.
Definition FLOW_RING_STATUS_STA_FREEING : Z := 5.
Definition WLC_E_IF_ADD : Z := 1.
Definition WLC_E_IF_DEL : Z := 2.
Definition WLC_E_IF_CHANGE : Z := 3.
Definition WLC_E_IF_ROLE_STA : Z := 0.

(** ** State *)
Record flow_hash_info := { fh_flowid : Z; fh_tid : Z; fh_ifindex : Z; fh_da : ether_addr }.

Record if_flow_lkup := {
  if_status : bool;
  if_role : Z;
  fl_hash : list (list flow_hash_info)    (* DHD_FLOWRING_HASH_SIZE chains *)
}.

(** [prot_info] points to the flow ring of the pool with the node's flowid,
    and is left to the protocol layer; the list node is in [Dll]'s memory. *)
Record flow_ring_node := {
  fr_queue : flow_queue;
  fr_active : bool;
  fr_status : Z;
  fr_flowid : Z;
  fr_tid : Z;
  fr_ifindex : Z;
  fr_sa : ether_addr;
  fr_da : ether_addr
}.

(** The fields of dhd_pub_t the table uses; [A] is the flow id allocator. *)
Record flow_pub (A : Type) := {
  flowid_allocator : option A;
  flow_ring_table : option (list flow_ring_node);
  num_flow_rings : Z;
  if_flow : list if_flow_lkup;
  tdls_peer_count : Z;
  tdls_peers : list ether_addr
}.
Arguments flowid_allocator {_}. Arguments flow_ring_table {_}. Arguments if_flow {_}.
Arguments num_flow_rings {_}. Arguments tdls_peer_count {_}. Arguments tdls_peers {_}.

Section state.
Context {A : Type}.
Implicit Types (s : flow_pub A).
Definition set_alloc s (a : A) : flow_pub A :=
  {| flowid_allocator := Some a; flow_ring_table := flow_ring_table s; if_flow := if_flow s;
     num_flow_rings := num_flow_rings s;
     tdls_peer_count := tdls_peer_count s; tdls_peers := tdls_peers s |}.
Definition set_if s (l : list if_flow_lkup) : flow_pub A :=
  {| flowid_allocator := flowid_allocator s; flow_ring_table := flow_ring_table s; if_flow := l;
     num_flow_rings := num_flow_rings s;
     tdls_peer_count := tdls_peer_count s; tdls_peers := tdls_peers s |}.
Definition set_table s (t : list flow_ring_node) : flow_pub A :=
  {| flowid_allocator := flowid_allocator s; flow_ring_table := Some t; if_flow := if_flow s;
     num_flow_rings := num_flow_rings s;
     tdls_peer_count := tdls_peer_count s; tdls_peers := tdls_peers s |}.
End state.
Definition set_hash (l : if_flow_lkup) (h : list (list flow_hash_info)) : if_flow_lkup :=
  {| if_status := if_status l; if_role := if_role l; fl_hash := h |}.

(** ** Operations *)
Section ops.
Context {A : Type} {managed : list Z} `{!IdAllocator A managed}.
Implicit Types (s : flow_pub A).

Definition dhd_flow_rings_ifindex2role s (ifindex : Z) : option Z :=
  l ← aget (if_flow s) ifindex; Some (if_role l).

Definition is_tdls_destination s (da : ether_addr) : bool := bool_decide (da ∈ tdls_peers s).

(** The first node of a chain that satisfies the test. *)
Definition chain_find (P : flow_hash_info -> bool) (c : list flow_hash_info) : Z :=
  match filter (fun n => Is_true (P n)) c with n :: _ => fh_flowid n | [] => FLOWID_INVALID end.

Definition dhd_flowid_find s (ifindex prio : Z) (da : ether_addr) : option Z :=
  l ← aget (if_flow s) ifindex;
  if if_role l =? WLC_E_IF_ROLE_STA then
    if negb (tdls_peer_count s =? 0) && negb (ETHER_ISMULTI da) && is_tdls_destination s da then
      c ← aget (fl_hash l) (DHD_FLOWRING_HASHINDEX da prio);
      Some (chain_find (fun n => bool_decide (fh_da n = da)) c)
    else
      c ← aget (fl_hash l) prio;
      Some (match c with n :: _ => fh_flowid n | [] => FLOWID_INVALID end)
  else
    let ismcast := ETHER_ISMULTI da in
    let hash := if ismcast then 0 else DHD_FLOWRING_HASHINDEX da prio in
    c ← aget (fl_hash l) hash;
    Some (chain_find (fun n => (ismcast && ETHER_ISMULTI (fh_da n)) ||
                               (bool_decide (fh_da n = da) && (fh_tid n =? prio))) c).

(** The bucket of a new node, and whether it replaces the bucket's contents
    rather than being appended. *)
Definition alloc_bucket s (l : if_flow_lkup) (prio : Z) (da : ether_addr) : Z * bool :=
  if if_role l =? WLC_E_IF_ROLE_STA then
    if negb (tdls_peer_count s =? 0) && is_tdls_destination s da
    then (DHD_FLOWRING_HASHINDEX da prio, false)
    else (prio, true)
  else (if ETHER_ISMULTI da then 0 else DHD_FLOWRING_HASHINDEX da prio, false).

(** The result of MALLOC is not tested before it is written through. *)
Definition dhd_flowid_alloc s (malloc_ok : bool) (ifindex prio : Z) (da : ether_addr)
    : option (Z * flow_pub A) :=
  if negb malloc_ok then None else
  a ← flowid_allocator s;
  '(id, a) ← ida_alloc a;
  let s := set_alloc s a in
  match id with
  | None => Some (FLOWID_INVALID, s)
  | Some flowid =>
      let node := {| fh_flowid := flowid; fh_tid := prio; fh_ifindex := ifindex; fh_da := da |} in
      l ← aget (if_flow s) ifindex;
      let '(hash, replace) := alloc_bucket s l prio da in
      cur ← aget (fl_hash l) hash;
      h ← aset (fl_hash l) hash (if replace then [node] else cur ++ [node]);
      ifs ← aset (if_flow s) ifindex (set_hash l h);
      Some (flowid, set_if s ifs)
  end.

(** The node of a new flow. *)
Definition node_pending (node : flow_ring_node) (ifindex prio : Z) (sa da : ether_addr) : flow_ring_node :=
  {| fr_queue := fr_queue node; fr_active := true; fr_status := FLOW_RING_STATUS_PENDING;
     fr_flowid := fr_flowid node; fr_tid := prio; fr_ifindex := ifindex; fr_sa := sa; fr_da := da |}.

(** [create_ok] is the result of dhd_bus_flow_ring_create_request.  The result
    is the status, what is stored through [flowid] if anything, and the state;
    the last component tells whether the dongle was asked for a new ring. *)
Definition dhd_flowid_lookup s (malloc_ok create_ok : bool) (ifindex prio : Z) (sa da : ether_addr)
    : option (Z * option Z * flow_pub A * bool) :=
  match flow_ring_table s with
  | None => Some (BCME_ERROR, None, s, false)
  | Some _ =>
      id ← dhd_flowid_find s ifindex prio da;
      if id =? FLOWID_INVALID then
        l ← aget (if_flow s) ifindex;
        if negb (if_status l) then Some (BCME_ERROR, None, s, false)
        else
        '(id, s) ← dhd_flowid_alloc s malloc_ok ifindex prio da;
        if id =? FLOWID_INVALID then Some (BCME_ERROR, None, s, false)
        else
        table ← flow_ring_table s;
        node ← aget table id;
        table ← aset table id (node_pending node ifindex prio sa da);
        let s := set_table s table in
        if create_ok then Some (BCME_OK, Some id, s, true) else Some (BCME_ERROR, None, s, true)
      else
        table ← flow_ring_table s;
        node ← aget table id;
        if (fr_status node =? FLOW_RING_STATUS_OPEN) || (fr_status node =? FLOW_RING_STATUS_PENDING)
        then Some (BCME_OK, Some id, s, false)
        else Some (BCME_ERROR, Some FLOWID_INVALID, s, false)
  end.

(** The packet's addresses are those of its Ethernet header; the third
    component is the flow id the packet is tagged with. *)
Definition dhd_flowid_update s (malloc_ok create_ok : bool) (ifindex prio : Z) (shost dhost : ether_addr)
    : option (Z * option Z * flow_pub A) :=
  if DHD_MAX_IFS <=? ifindex then Some (BCME_BADARG, None, s) else
  match flowid_allocator s with
  | None => Some (BCME_ERROR, None, s)
  | Some _ =>
      '(rc, flowid, s, _) ← dhd_flowid_lookup s malloc_ok create_ok ifindex prio shost dhost;
      if negb (rc =? BCME_OK) then Some (BCME_ERROR, None, s)
      else Some (BCME_OK, flowid, s)
  end.

(** Remove the first node with the id from a chain. *)
Fixpoint chain_remove (flowid : Z) (c : list flow_hash_info) : option (list flow_hash_info) :=
  match c with
  | [] => None
  | n :: c => if fh_flowid n =? flowid then Some c else (n ::.) <$> chain_remove flowid c
  end.

(** The loop over the buckets: the number of the first one that holds the id,
    and what is left of it. *)
Fixpoint bucket_find (fuel : nat) (h : list (list flow_hash_info)) (hashix flowid : Z)
    : option (option (Z * list flow_hash_info)) :=
  match fuel with
  | O => Some None
  | S fuel =>
      c ← aget h hashix;
      match chain_remove flowid c with
      | Some c' => Some (Some (hashix, c'))
      | None => bucket_find fuel h (hashix + 1) flowid
      end
  end.

Definition dhd_flowid_free s (ifindex flowid : Z) : option (flow_pub A) :=
  l ← aget (if_flow s) ifindex;
  r ← bucket_find (Z.to_nat DHD_FLOWRING_HASH_SIZE) (fl_hash l) 0 flowid;
  match r with
  | None => Some s
  | Some (hashix, c') =>
      h ← aset (fl_hash l) hashix c';
      ifs ← aset (if_flow s) ifindex (set_hash l h);
      a ← flowid_allocator s;
      a ← ida_free a flowid;
      Some (set_alloc (set_if s ifs) a)
  end.

Definition dhd_update_interface_flow_info s (ifindex op role : Z) : option (flow_pub A) :=
  if DHD_MAX_IFS <=? ifindex then Some s else
  match flowid_allocator s with
  | None => Some s
  | Some _ =>
      l ← aget (if_flow s) ifindex;
      let l' :=
        if (op =? WLC_E_IF_ADD) || (op =? WLC_E_IF_CHANGE) then
          {| if_status := if negb (role =? WLC_E_IF_ROLE_STA) then true else if_status l;
             if_role := role; fl_hash := fl_hash l |}
        else if op =? WLC_E_IF_DEL then
          {| if_status := false; if_role := if_role l; fl_hash := fl_hash l |}
        else l in
      set_if s <$> aset (if_flow s) ifindex l'
  end.

Definition dhd_update_interface_link_status s (ifindex status : Z) : option (Z * flow_pub A) :=
  if DHD_MAX_IFS <=? ifindex then Some (BCME_BADARG, s) else
  l ← aget (if_flow s) ifindex;
  let l' := if if_role l =? WLC_E_IF_ROLE_STA
            then {| if_status := negb (status =? 0); if_role := if_role l; fl_hash := fl_hash l |}
            else l in
  ifs ← aset (if_flow s) ifindex l'; Some (BCME_OK, set_if s ifs).
End ops.

(** * The invariant: every node has its own flow id, and the ids on the chains
    are exactly those the allocator has handed out *)
Definition if_nodes (l : if_flow_lkup) : list flow_hash_info := concat (fl_hash l).
Definition all_nodes {A} (s : flow_pub A) : list flow_hash_info := concat (if_nodes <$> if_flow s).
Definition flow_ids {A} (s : flow_pub A) : list Z := fh_flowid <$> all_nodes s.

Lemma concat_insert {B} (l : list (list B)) i x y n :
  l !! i = Some x -> y ≡ₚ n :: x -> concat (<[i := y]> l) ≡ₚ n :: concat l.
Proof.
  revert i. induction l as [|z l IH]; intros [|i] Hx Hy; cbn in *; try done.
  - injection Hx as ->. rewrite Hy. done.
  - rewrite (IH i Hx Hy). symmetry. apply Permutation_middle.
Qed.

Lemma concat_perm {B} (l : list (list B)) i x y :
  l !! i = Some x -> y ≡ₚ x -> concat (<[i := y]> l) ≡ₚ concat l.
Proof.
  revert i. induction l as [|z l IH]; intros [|i] Hx Hy; cbn in *; try done.
  - injection Hx as ->. by rewrite Hy.
  - by rewrite (IH i Hx Hy).
Qed.

Lemma aget_lookup {B} (l : list B) i x : aget l i = Some x -> l !! Z.to_nat i = Some x.
Proof. unfold aget. by destruct (0 <=? i). Qed.

Lemma elem_concat {B} (l : list (list B)) c n : c ∈ l -> n ∈ c -> n ∈ concat l.
Proof.
  intros Hc Hn. induction Hc as [|? ? ? _ IH]; cbn; apply elem_of_app; auto.
Qed.

(** A node is stored: its interface, its bucket. *)
Definition stored {A} (s : flow_pub A) (i h : Z) (n : flow_hash_info) : Prop :=
  exists l c, aget (if_flow s) i = Some l /\ aget (fl_hash l) h = Some c /\ n ∈ c.

Lemma stored_all {A} (s : flow_pub A) i h n : stored s i h n -> n ∈ all_nodes s.
Proof.
  intros (l & c & Hl & Hc & Hn). apply aget_lookup, list_elem_of_lookup_2 in Hl, Hc.
  apply (elem_concat _ (if_nodes l)).
  - by apply list_elem_of_fmap_2.
  - by apply (elem_concat _ c).
Qed.

Lemma chain_find_spec P c :
  (exists n, n ∈ c /\ P n = true /\ chain_find P c = fh_flowid n) \/
  ((forall n, n ∈ c -> P n = false) /\ chain_find P c = FLOWID_INVALID).
Proof.
  unfold chain_find. destruct (filter (fun n => Is_true (P n)) c) as [|n ns] eqn:E.
  - right. split; [|done]. intros n Hn. destruct (P n) eqn:Hp; [|done].
    assert (n ∈ filter (fun n => Is_true (P n)) c) as Hf
      by (apply list_elem_of_filter; rewrite Hp; done).
    rewrite E in Hf. by apply elem_of_nil in Hf.
  - left. exists n. assert (n ∈ filter (fun n => Is_true (P n)) c) as Hf
      by (rewrite E; apply list_elem_of_here).
    apply list_elem_of_filter in Hf as [Hp Hn]. split_and!; [done| |done]. by destruct (P n).
Qed.

Section inv.
Context {A : Type} {managed : list Z} `{!IdAllocator A managed}.
Context (Hinv : FLOWID_INVALID ∉ managed).
Implicit Types (s : flow_pub A).

Record flow_wf s : Prop := {
  fw_ifs : Z.of_nat (length (if_flow s)) = DHD_MAX_IFS;
  fw_hash : forall l, l ∈ if_flow s -> Z.of_nat (length (fl_hash l)) = DHD_FLOWRING_HASH_SIZE;
  fw_alloc : exists a out, flowid_allocator s = Some a /\ id_inv (a, out) /\ flow_ids s ≡ₚ out;
  fw_table : exists t, flow_ring_table s = Some t /\ forall i, i ∈ managed -> 0 <= i < Z.of_nat (length t)
}.

Definition key_ok (ifindex prio : Z) : Prop := 0 <= ifindex < DHD_MAX_IFS /\ 0 <= prio < 256.

Lemma hashindex_range ea prio : 0 <= DHD_FLOWRING_HASHINDEX ea prio < DHD_FLOWRING_HASH_SIZE.
Proof. apply Z.mod_pos_bound. done. Qed.

Lemma get_if s i : flow_wf s -> 0 <= i < DHD_MAX_IFS ->
  exists l, aget (if_flow s) i = Some l /\ Z.of_nat (length (fl_hash l)) = DHD_FLOWRING_HASH_SIZE.
Proof.
  intros W Hi. destruct (aget_is_Some (if_flow s) i) as [l Hl]; [by rewrite (fw_ifs _ W)|].
  exists l. split; [done|]. apply (fw_hash _ W). by eapply list_elem_of_lookup_2, aget_lookup.
Qed.

Lemma get_chain l h : Z.of_nat (length (fl_hash l)) = DHD_FLOWRING_HASH_SIZE ->
  0 <= h < DHD_FLOWRING_HASH_SIZE -> exists c, aget (fl_hash l) h = Some c.
Proof. intros Hl Hh. apply aget_is_Some. by rewrite Hl. Qed.

(** Storing a new node: one more node, in one bucket. *)
Lemma store_nodes s i l h c y node :
  aget (if_flow s) i = Some l -> aget (fl_hash l) h = Some c -> y ≡ₚ node :: c ->
  forall h' ifs', aset (fl_hash l) h y = Some h' -> aset (if_flow s) i (set_hash l h') = Some ifs' ->
  concat (if_nodes <$> ifs') ≡ₚ node :: all_nodes s.
Proof.
  intros Hl Hc Hy h' ifs' Hh Hi. apply aset_inv in Hh as [_ ->]. apply aset_inv in Hi as [_ ->].
  rewrite list_fmap_insert. unfold all_nodes.
  apply (concat_insert _ _ (if_nodes l)).
  - rewrite list_lookup_fmap. by rewrite (aget_lookup _ _ _ Hl).
  - unfold if_nodes. cbn. apply (concat_insert _ _ c); [by apply aget_lookup|done].
Qed.

Lemma set_ifs_hash s i l h' ifs' :
  flow_wf s -> aget (if_flow s) i = Some l -> length h' = length (fl_hash l) ->
  aset (if_flow s) i (set_hash l h') = Some ifs' ->
  Z.of_nat (length ifs') = DHD_MAX_IFS /\
  forall l', l' ∈ ifs' -> Z.of_nat (length (fl_hash l')) = DHD_FLOWRING_HASH_SIZE.
Proof.
  intros W Hl Hh Hi. apply aset_inv in Hi as [_ ->]. rewrite length_insert. split; [apply W|].
  intros l' Hl'. apply list_elem_of_lookup in Hl' as [k Hk].
  apply list_lookup_insert_Some in Hk as [(_ & <- & _)|[_ Hk]].
  - cbn. rewrite Hh. apply (fw_hash _ W). by eapply list_elem_of_lookup_2, aget_lookup.
  - apply (fw_hash _ W). by eapply list_elem_of_lookup_2.
Qed.

(** dhd_flowid_find returns the id of a stored node, or no node matches. *)
Lemma find_total s i prio da :
  flow_wf s -> key_ok i prio ->
  exists id, dhd_flowid_find s i prio da = Some id /\
    (id = FLOWID_INVALID \/ (id ∈ managed /\ exists h n, stored s i h n /\ fh_flowid n = id)).
Proof.
  intros W [Hi Hp]. destruct (get_if s i W Hi) as (l & Hl & Hlen).
  assert (forall h n c, aget (fl_hash l) h = Some c -> n ∈ c ->
    fh_flowid n ∈ managed /\ exists h n', stored s i h n' /\ fh_flowid n' = fh_flowid n) as Hst.
  { intros h n c Hc Hn. assert (stored s i h n) as Hs by (by exists l, c).
    split; [|by exists h, n]. destruct (fw_alloc _ W) as (a & out & _ & Hid & Hperm).
    apply (inv_sub _ Hid). cbn. rewrite <- Hperm. apply list_elem_of_fmap_2.
    by eapply stored_all. }
  unfold dhd_flowid_find. rewrite Hl. cbn [mbind option_bind].
  pose proof (hashindex_range da prio) as Hh.
  destruct (if_role l =? WLC_E_IF_ROLE_STA); [destruct (_ && _ && _)|].
  - destruct (get_chain l _ Hlen Hh) as [c Hc]. rewrite Hc. cbn [mbind option_bind]. eexists. split; [done|].
    destruct (chain_find_spec (fun n => bool_decide (fh_da n = da)) c) as [(n & Hn & _ & ->)|[_ ->]];
      [right; by eapply Hst|by left].
  - destruct (get_chain l prio Hlen) as [c Hc]; [unfold DHD_FLOWRING_HASH_SIZE; lia|].
    rewrite Hc. cbn [mbind option_bind]. eexists. split; [done|].
    destruct c as [|n c]; [by left|]. right. eapply Hst; [done|apply list_elem_of_here].
  - destruct (get_chain l (if ETHER_ISMULTI da then 0 else DHD_FLOWRING_HASHINDEX da prio) Hlen) as [c Hc].
    { destruct (ETHER_ISMULTI da); [done|exact Hh]. }
    rewrite Hc. cbn [mbind option_bind]. eexists. split; [done|].
    match goal with |- context [chain_find ?P c] =>
      destruct (chain_find_spec P c) as [(n & Hn & _ & ->)|[_ ->]] end;
      [right; by eapply Hst|by left].
Qed.

(** An allocation after a miss: a fresh id with its node, or none left. *)
Lemma flow_alloc_spec s i prio da l :
  flow_wf s -> key_ok i prio -> aget (if_flow s) i = Some l ->
  dhd_flowid_find s i prio da = Some FLOWID_INVALID ->
  exists id s', dhd_flowid_alloc s true i prio da = Some (id, s') /\ flow_wf s' /\
    flow_ring_table s' = flow_ring_table s /\
    ((id = FLOWID_INVALID /\ if_flow s' = if_flow s /\ forall j, j ∈ managed -> j ∈ flow_ids s) \/
     (id ∈ managed /\ id ∉ flow_ids s /\
      let n := {| fh_flowid := id; fh_tid := prio; fh_ifindex := i; fh_da := da |} in
      all_nodes s' ≡ₚ n :: all_nodes s /\
      tdls_peer_count s' = tdls_peer_count s /\ tdls_peers s' = tdls_peers s /\
      let h := fst (alloc_bucket s l prio da) in
      exists l' c y, aget (if_flow s') i = Some l' /\ if_role l' = if_role l /\
        aget (fl_hash l) h = Some c /\ aget (fl_hash l') h = Some y /\ y ≡ₚ n :: c)).
Proof.
  intros W [Hi Hp] Hl Hfind. destruct (fw_alloc _ W) as (a & out & Ha & Hid & Hperm).
  destruct (id_step_inv ReqAlloc (a, out) Hid) as (res & [a' out'] & Hstep & Hid' & Hres).
  unfold id_step in Hstep. destruct (ida_alloc a) as [[r a1]|] eqn:Ea; [|done]. cbn [mbind option_bind] in Hstep.
  unfold dhd_flowid_alloc. cbn [negb]. rewrite Ha. cbn [mbind option_bind]. rewrite Ea. cbn [mbind option_bind].
  destruct (get_if s i W Hi) as (l0 & Hl0 & Hlen). rewrite Hl in Hl0. injection Hl0 as <-.
  specialize (Hres eq_refl). destruct r as [id|]; injection Hstep as <- <- <-.
  2:{ eexists _, _. split; [done|]. split.
      { destruct W as [W1 W2 W3 W4]. constructor; [done|done| |done]. exists a1, out. done. }
      split; [done|]. left. split_and!; [done|done|]. intros j Hj. rewrite Hperm. by apply Hres. }
  destruct Hres as (Hm & Hfresh & _). cbn [if_flow set_alloc]. rewrite Hl. cbn [mbind option_bind].
  change (alloc_bucket (set_alloc s a1) l prio da) with (alloc_bucket s l prio da).
  destruct (alloc_bucket s l prio da) as [hash rep] eqn:Eb.
  assert (0 <= hash < DHD_FLOWRING_HASH_SIZE /\ (rep = true -> aget (fl_hash l) hash = Some [])) as [Hh Hrep].
  { unfold alloc_bucket in Eb. pose proof (hashindex_range da prio) as Hr.
    unfold dhd_flowid_find in Hfind. rewrite Hl in Hfind. cbn [mbind option_bind] in Hfind.
    destruct (if_role l =? WLC_E_IF_ROLE_STA).
    - destruct (negb (tdls_peer_count s =? 0) && is_tdls_destination s da) eqn:Et;
        injection Eb as <- <-; [by split|].
      split; [unfold DHD_FLOWRING_HASH_SIZE; lia|]. intros _.
      assert (negb (tdls_peer_count s =? 0) && negb (ETHER_ISMULTI da) && is_tdls_destination s da = false) as Ef.
      { by destruct (negb (tdls_peer_count s =? 0)), (negb (ETHER_ISMULTI da)), (is_tdls_destination s da). }
      rewrite Ef in Hfind. destruct (aget (fl_hash l) prio) as [[|n c]|] eqn:Ec; [done| |done].
      cbn in Hfind. injection Hfind as Hn. exfalso. apply Hinv. rewrite <- Hn.
      apply (inv_sub _ Hid). cbn. rewrite <- Hperm. apply list_elem_of_fmap_2.
      apply (stored_all s i prio). exists l, (n :: c). split_and!; [done..|apply list_elem_of_here].
    - injection Eb as <- <-. split; [|done]. destruct (ETHER_ISMULTI da); [done|exact Hr]. }
  destruct (get_chain l hash Hlen Hh) as [c Hc]. rewrite Hc. cbn [mbind option_bind].
  set (n := {| fh_flowid := id; fh_tid := prio; fh_ifindex := i; fh_da := da |}).
  assert ((if rep then [n] else c ++ [n]) ≡ₚ n :: c) as Hy.
  { destruct rep; [|apply Permutation_app_comm]. rewrite Hrep in Hc by done. by injection Hc as <-. }
  set (y := if rep then [n] else c ++ [n]) in *.
  rewrite (aset_Some (fl_hash l)) by (rewrite Hlen; lia). cbn [mbind option_bind].
  rewrite (aset_Some (if_flow s)) by (rewrite (fw_ifs _ W); lia). cbn [mbind option_bind].
  set (h' := <[Z.to_nat hash := y]> (fl_hash l)).
  set (ifs' := <[Z.to_nat i := set_hash l h']> (if_flow s)).
  assert (aset (fl_hash l) hash y = Some h') as Eh by (apply aset_Some; rewrite Hlen; lia).
  assert (aset (if_flow s) i (set_hash l h') = Some ifs') as Ei by (apply aset_Some; rewrite (fw_ifs _ W); lia).
  pose proof (store_nodes s i l hash c y n Hl Hc Hy h' ifs' Eh Ei) as Hnodes.
  destruct (set_ifs_hash s i l h' ifs' W Hl (aset_length _ _ _ _ Eh) Ei) as [L1 L2].
  eexists _, _. split; [done|]. split; [constructor; cbn; try done; [|apply W]|split; [done|right]].
  - exists a1, (id :: out). split_and!; [done|done|].
    unfold flow_ids, all_nodes. cbn. rewrite Hnodes. cbn. by rewrite <- Hperm.
  - split_and!; [done|by rewrite Hperm|exact Hnodes|done|done|].
    exists (set_hash l h'), c, y. cbn [fst if_flow set_if fl_hash set_hash if_role]. split_and!; [|done|exact Hc| |exact Hy].
    + unfold ifs'. rewrite aget_insert by (rewrite (fw_ifs _ W); lia). by destruct (decide (i = i)).
    + unfold h'. rewrite aget_insert by (rewrite Hlen; lia). by destruct (decide (hash = hash)).
Qed.

Lemma chain_remove_spec id c :
  match chain_remove id c with
  | Some c' => exists n, n ∈ c /\ fh_flowid n = id /\ c ≡ₚ n :: c'
  | None => forall n, n ∈ c -> fh_flowid n <> id
  end.
Proof.
  induction c as [|n c IH]; cbn [chain_remove]; [by intros n Hn%elem_of_nil|].
  destruct (Z.eqb_spec (fh_flowid n) id) as [E|E].
  - exists n. split_and!; [apply list_elem_of_here|done|done].
  - destruct (chain_remove id c) as [c'|]; cbn.
    + destruct IH as (m & Hm & Hid & Hp). exists m. split_and!; [by apply list_elem_of_further|done|].
      rewrite Hp. apply Permutation_swap.
    + intros m [->|Hm]%elem_of_cons; auto.
Qed.

Lemma bucket_find_spec fuel h hashix id :
  0 <= hashix -> hashix + Z.of_nat fuel <= Z.of_nat (length h) ->
  exists r, bucket_find fuel h hashix id = Some r /\
    match r with
    | Some (k, c') => exists c n, aget h k = Some c /\ n ∈ c /\ fh_flowid n = id /\ c ≡ₚ n :: c'
    | None => forall k c n, hashix <= k < hashix + Z.of_nat fuel -> aget h k = Some c -> n ∈ c -> fh_flowid n <> id
    end.
Proof.
  revert hashix. induction fuel as [|fuel IH]; intros hashix Hh Hl; cbn [bucket_find].
  - exists None. split; [done|]. intros k c n Hk. lia.
  - destruct (aget_is_Some h hashix) as [c Hc]; [lia|]. rewrite Hc. cbn [mbind option_bind].
    pose proof (chain_remove_spec id c) as Hr. destruct (chain_remove id c) as [c'|].
    + eexists. split; [done|]. destruct Hr as (n & ? & ? & ?). by exists c, n.
    + destruct (IH (hashix + 1)) as (r & -> & Hres); [lia|lia|]. exists r. split; [done|].
      destruct r as [[k c']|]; [done|]. intros k c0 n Hk Hc0 Hn.
      destruct (decide (k = hashix)) as [->|].
      * rewrite Hc in Hc0. injection Hc0 as <-. by apply Hr.
      * apply (Hres k c0 n); [lia|done|done].
Qed.

Lemma filter_ne_cons (i : Z) (l : list Z) : i ∉ l -> filter (.≠ i) (i :: l) = l.
Proof.
  intros Hi. rewrite filter_cons_False by (intros H; by apply H).
  induction l as [|j l IH]; [done|]. apply not_elem_of_cons in Hi as [Hj Hi].
  rewrite filter_cons_True by auto. by rewrite IH.
Qed.

Lemma free_spec s i id :
  flow_wf s -> 0 <= i < DHD_MAX_IFS ->
  exists s', dhd_flowid_free s i id = Some s' /\ flow_wf s' /\
    ((exists h n, stored s i h n /\ fh_flowid n = id /\ all_nodes s ≡ₚ n :: all_nodes s' /\
        flow_ring_table s' = flow_ring_table s) \/
     ((forall h n, stored s i h n -> fh_flowid n <> id) /\ s' = s)).
Proof.
  intros W Hi. destruct (get_if s i W Hi) as (l & Hl & Hlen). unfold dhd_flowid_free.
  rewrite Hl. cbn [mbind option_bind].
  destruct (bucket_find_spec (Z.to_nat DHD_FLOWRING_HASH_SIZE) (fl_hash l) 0 id) as (r & -> & Hr);
    [lia|rewrite Hlen; done|]. cbn [mbind option_bind]. destruct r as [[k c']|].
  2:{ exists s. split_and!; [done|done|]. right. split; [|done].
      intros h n (l0 & c & Hl0 & Hc & Hn). rewrite Hl in Hl0. injection Hl0 as <-.
      apply (Hr h c n); [|done|done]. pose proof (aget_lt _ _ _ Hc). rewrite Hlen in *.
      unfold DHD_FLOWRING_HASH_SIZE in *. lia. }
  destruct Hr as (c & n & Hc & Hn & Hid & Hp). pose proof (aget_lt _ _ _ Hc) as Hk.
  rewrite (aset_Some (fl_hash l)) by lia. cbn [mbind option_bind].
  rewrite (aset_Some (if_flow s)) by (rewrite (fw_ifs _ W); lia). cbn [mbind option_bind].
  set (h' := <[Z.to_nat k := c']> (fl_hash l)). set (ifs' := <[Z.to_nat i := set_hash l h']> (if_flow s)).
  assert (length h' = length (fl_hash l)) as Hh' by apply length_insert.
  assert (aset (if_flow s) i (set_hash l h') = Some ifs') as Ei by (apply aset_Some; rewrite (fw_ifs _ W); lia).
  destruct (set_ifs_hash s i l h' ifs' W Hl Hh' Ei) as [L1 L2].
  assert (all_nodes s ≡ₚ n :: concat (if_nodes <$> ifs')) as Hnodes.
  { assert (if_flow s = <[Z.to_nat i := l]> ifs') as E.
    { unfold ifs'. rewrite list_insert_insert_eq. symmetry. apply list_insert_id. by apply aget_lookup. }
    unfold all_nodes. rewrite E, list_fmap_insert.
    apply (concat_insert _ _ (if_nodes (set_hash l h'))).
    - rewrite list_lookup_fmap. unfold ifs'. rewrite list_lookup_insert_eq; [done|].
      pose proof (aget_lt _ _ _ Hl). lia.
    - unfold if_nodes. cbn. assert (fl_hash l = <[Z.to_nat k := c]> h') as ->.
      { unfold h'. rewrite list_insert_insert_eq. symmetry. apply list_insert_id. by apply aget_lookup. }
      apply (concat_insert _ _ c'); [|done]. unfold h'. apply list_lookup_insert_eq. lia. }
  destruct (fw_alloc _ W) as (a & out & Ha & Hinvc & Hperm). rewrite Ha. cbn [mbind option_bind].
  assert (id ∈ out) as Hout.
  { rewrite <- Hperm, <- Hid. apply list_elem_of_fmap_2. rewrite Hnodes. apply list_elem_of_here. }
  destruct (id_step_inv (ReqFree id) (a, out) Hinvc) as (res & [a' out'] & Hstep & Hinv' & _).
  unfold id_step in Hstep. destruct (decide (id ∈ out)); [|done].
  destruct (ida_free a id) as [a1|]; [|done]. cbn [mbind option_bind] in *. injection Hstep as <- <- <-.
  eexists. split; [done|]. split.
  - constructor; cbn; try done; [|apply W]. exists a1, (filter (.≠ id) out). split_and!; [done|done|].
    unfold flow_ids, all_nodes. cbn. set (ns := concat (if_nodes <$> ifs')) in *.
    assert (flow_ids s ≡ₚ id :: (fh_flowid <$> ns)) as Hp2.
    { unfold flow_ids. rewrite Hnodes. cbn. by rewrite Hid. }
    assert (NoDup (id :: (fh_flowid <$> ns))) as Hnd.
    { rewrite <- Hp2, Hperm. apply Hinvc. }
    rewrite <- Hperm, Hp2, filter_ne_cons; [done|]. by apply list.NoDup_cons in Hnd as [? _].
  - left. exists k, n. split_and!; [by exists l, c|done|exact Hnodes|done].
Qed.

(** Changing the status or role of an interface keeps the nodes. *)
Lemma set_if_wf s i l l' :
  flow_wf s -> aget (if_flow s) i = Some l -> fl_hash l' = fl_hash l ->
  exists ifs', aset (if_flow s) i l' = Some ifs' /\ flow_wf (set_if s ifs') /\
    all_nodes (set_if s ifs') = all_nodes s.
Proof.
  intros W Hl Hh. pose proof (aget_lt _ _ _ Hl) as Hi.
  assert (l' = set_hash l' (fl_hash l)) as El by (rewrite <- Hh; by destruct l').
  eexists. split; [by apply aset_Some|].
  assert (all_nodes (set_if s (<[Z.to_nat i := l']> (if_flow s))) = all_nodes s) as En.
  { unfold all_nodes. cbn. rewrite list_fmap_insert. rewrite list_insert_id; [done|].
    rewrite list_lookup_fmap, (aget_lookup _ _ _ Hl). cbn. unfold if_nodes. by rewrite Hh. }
  split; [|done]. constructor; [cbn; rewrite length_insert; apply W|cbn| |apply W].
  - intros x Hx. apply list_elem_of_lookup in Hx as [k Hk].
    apply list_lookup_insert_Some in Hk as [(_ & <- & _)|[_ Hk]].
    + rewrite Hh. apply (fw_hash _ W). by eapply list_elem_of_lookup_2, aget_lookup.
    + apply (fw_hash _ W). by eapply list_elem_of_lookup_2.
  - destruct (fw_alloc _ W) as (a & out & ? & ? & Hp). exists a, out. split_and!; [done|done|].
    unfold flow_ids. by rewrite En.
Qed.

(** ** dhd_flowid_lookup *)
Lemma set_table_wf s t :
  flow_wf s -> (forall i, i ∈ managed -> 0 <= i < Z.of_nat (length t)) -> flow_wf (set_table s t).
Proof. intros [W1 W2 W3 W4] Ht. constructor; [done|done|done|by exists t]. Qed.

Lemma lookup_spec s create_ok i prio sa da :
  flow_wf s -> key_ok i prio ->
  exists rc fid s' asked, dhd_flowid_lookup s true create_ok i prio sa da = Some (rc, fid, s', asked) /\
    flow_wf s' /\
    (asked = false -> if_flow s' = if_flow s) /\
    (asked = true -> exists id, id ∈ managed /\ id ∉ flow_ids s /\
       all_nodes s' ≡ₚ {| fh_flowid := id; fh_tid := prio; fh_ifindex := i; fh_da := da |} :: all_nodes s /\
       rc = (if create_ok then BCME_OK else BCME_ERROR) /\ fid = (if create_ok then Some id else None)) /\
    (rc = BCME_OK -> exists id, fid = Some id /\ id ∈ managed /\ id ∈ flow_ids s').
Proof.
  intros W K. pose proof K as [Hi Hp]. destruct (fw_table _ W) as (t & Ht & Htab).
  unfold dhd_flowid_lookup. rewrite Ht.
  destruct (find_total s i prio da W K) as (id & Ef & Hid). rewrite Ef. cbn [mbind option_bind].
  destruct (Z.eqb_spec id FLOWID_INVALID) as [->|Hne].
  - destruct (get_if s i W Hi) as (l & Hl & Hlen). rewrite Hl. cbn [mbind option_bind].
    destruct (if_status l); cbn [negb]; [|by eexists _, _, _, _].
    destruct (flow_alloc_spec s i prio da l W K Hl Ef) as (id & s' & -> & W' & Et & Hpost). cbn [mbind option_bind].
    destruct Hpost as [(-> & Hif & _)|(Hm & Hfresh & Hnodes & _)].
    + rewrite Z.eqb_refl. by eexists _, _, _, _.
    + destruct (Z.eqb_spec id FLOWID_INVALID) as [->|_]; [done|].
      rewrite Et, Ht. cbn [mbind option_bind]. pose proof (Htab id Hm) as Hr.
      destruct (aget_is_Some t id Hr) as [node ->]. cbn [mbind option_bind].
      rewrite aset_Some by done. cbn [mbind option_bind].
      match goal with |- context [set_table s' ?t'] => assert (flow_wf (set_table s' t')) as W2
        by (apply set_table_wf; [done|by rewrite length_insert]) end.
      match goal with |- context [set_table s' ?t'] => set (s2 := set_table s' t') in * end.
      assert (all_nodes s2 = all_nodes s') as En by done.
      destruct create_ok; eexists _, _, _, _; (split; [done|]); (split; [exact W2|]);
        (split; [done|]); (split; [intros _; exists id; by rewrite En|]); [|done].
      intros _. exists id. split_and!; [done|done|]. unfold flow_ids. rewrite En, Hnodes.
      cbn. apply list_elem_of_here.
  - destruct Hid as [|(Hm & h & n & Hst & Hn)]; [done|]. cbn [mbind option_bind].
    destruct (aget_is_Some t id (Htab id Hm)) as [node ->]. cbn [mbind option_bind].
    assert (id ∈ flow_ids s) as Hin.
    { rewrite <- Hn. apply list_elem_of_fmap_2. by eapply stored_all. }
    destruct (_ || _); eexists _, _, _, _; (split; [done|]); (split; [done|]); (split; [done|]);
      (split; [done|]); [|done]. intros _. by exists id.
Qed.

(** ** Histories *)
Inductive flow_op :=
  | FoLookup (create_ok : bool) (ifindex prio : Z) (sa da : ether_addr)
  | FoFree (ifindex flowid : Z)
  | FoIf (ifindex op role : Z)
  | FoLink (ifindex status : Z).

Definition flow_op_ok (o : flow_op) : Prop :=
  match o with
  | FoLookup _ i p _ _ => key_ok i p
  | FoFree i _ => 0 <= i < DHD_MAX_IFS
  | FoIf i _ _ => 0 <= i
  | FoLink i _ => 0 <= i
  end.

Definition flow_step (o : flow_op) s : option (flow_pub A) :=
  match o with
  | FoLookup c i p sa da => '(_, _, s, _) ← dhd_flowid_lookup s true c i p sa da; Some s
  | FoFree i id => dhd_flowid_free s i id
  | FoIf i op role => dhd_update_interface_flow_info s i op role
  | FoLink i st => '(_, s) ← dhd_update_interface_link_status s i st; Some s
  end.

Fixpoint flow_run (os : list flow_op) s : option (flow_pub A) :=
  match os with [] => Some s | o :: os => s ← flow_step o s; flow_run os s end.

Lemma flow_step_wf o s : flow_wf s -> flow_op_ok o -> exists s', flow_step o s = Some s' /\ flow_wf s'.
Proof.
  intros W Ho. destruct o as [c i p sa da|i id|i op role|i st]; cbn [flow_step flow_op_ok] in *.
  - destruct (lookup_spec s c i p sa da W Ho) as (rc & fid & s' & asked & -> & W' & _). by exists s'.
  - destruct (free_spec s i id W Ho) as (s' & -> & W' & _). by exists s'.
  - unfold dhd_update_interface_flow_info. destruct (Z.leb_spec DHD_MAX_IFS i); [by exists s|].
    destruct (fw_alloc _ W) as (a & out & -> & _). destruct (get_if s i W) as (l & Hl & _); [lia|].
    rewrite Hl. cbn [mbind option_bind].
    match goal with |- context [aset _ _ ?l'] =>
      destruct (set_if_wf s i l l' W Hl) as (ifs' & -> & W' & _) end.
    { by destruct (_ || _), (op =? WLC_E_IF_DEL). }
    by eexists.
  - unfold dhd_update_interface_link_status. destruct (Z.leb_spec DHD_MAX_IFS i); [by exists s|].
    destruct (get_if s i W) as (l & Hl & _); [lia|]. rewrite Hl. cbn [mbind option_bind].
    match goal with |- context [aset _ _ ?l'] =>
      destruct (set_if_wf s i l l' W Hl) as (ifs' & -> & W' & _) end.
    { by destruct (_ =? _). }
    by eexists.
Qed.

Lemma flow_run_wf os s : flow_wf s -> Forall flow_op_ok os -> exists s', flow_run os s = Some s' /\ flow_wf s'.
Proof.
  intros W Ho. revert s W. induction Ho as [|o os Ho _ IH]; intros s W; cbn [flow_run]; [by exists s|].
  destruct (flow_step_wf o s W Ho) as (s' & -> & W'). cbn [mbind option_bind]. by apply IH.
Qed.

Lemma flow_wf_nodup s : flow_wf s -> NoDup (flow_ids s) /\ forall id, id ∈ flow_ids s -> id ∈ managed.
Proof.
  intros W. destruct (fw_alloc _ W) as (a & out & _ & Hid & Hp). split.
  - rewrite Hp. apply Hid.
  - intros id Hin. rewrite Hp in Hin. by apply (inv_sub _ Hid).
Qed.
End inv.

(** ** A flow keeps its id

    On an interface that is not a station, what a lookup found is found again
    until the id is freed or the interface changes role, and the id stands for
    one (address, priority) only, or for all multicast. *)
Definition key_match (prio : Z) (da : ether_addr) (n : flow_hash_info) : bool :=
  (ETHER_ISMULTI da && ETHER_ISMULTI (fh_da n)) || (bool_decide (fh_da n = da) && (fh_tid n =? prio)).
Definition key_bucket (prio : Z) (da : ether_addr) : Z :=
  if ETHER_ISMULTI da then 0 else DHD_FLOWRING_HASHINDEX da prio.

Definition hits {A} (s : flow_pub A) (i prio : Z) (da : ether_addr) (id : Z) : Prop :=
  exists l c, aget (if_flow s) i = Some l /\ if_role l <> WLC_E_IF_ROLE_STA /\
    aget (fl_hash l) (key_bucket prio da) = Some c /\ chain_find (key_match prio da) c = id.

Lemma hits_find {A} (s : flow_pub A) i prio da id :
  (exists l, aget (if_flow s) i = Some l /\ if_role l <> WLC_E_IF_ROLE_STA) ->
  hits s i prio da id <-> dhd_flowid_find s i prio da = Some id.
Proof.
  intros (l & Hl & Hr). unfold dhd_flowid_find, hits. rewrite Hl. cbn [mbind option_bind].
  rewrite (proj2 (Z.eqb_neq _ _) Hr). fold (key_bucket prio da).
  destruct (aget (fl_hash l) (key_bucket prio da)) as [c|] eqn:Hc; cbn [mbind option_bind].
  - split; [intros (l' & c' & [= <-] & _ & Hc' & <-); by simplify_eq|].
    intros [= <-]. by exists l, c.
  - split; [intros (l' & c' & [= <-] & _ & Hc' & _); by simplify_eq|done].
Qed.

Lemma chain_find_app P c c' :
  chain_find P c <> FLOWID_INVALID -> chain_find P (c ++ c') = chain_find P c.
Proof. unfold chain_find. rewrite filter_app. by destruct (filter _ c). Qed.

Lemma chain_find_cons P n c :
  chain_find P (n :: c) = if P n then fh_flowid n else chain_find P c.
Proof. unfold chain_find. rewrite filter_cons. by destruct (P n). Qed.

Lemma chain_find_remove P id c c' :
  chain_remove id c = Some c' -> chain_find P c <> id -> chain_find P c' = chain_find P c.
Proof.
  revert c'. induction c as [|n c IH]; intros c'; cbn [chain_remove]; [done|].
  destruct (Z.eqb_spec (fh_flowid n) id) as [E|E].
  - intros [= <-]. rewrite chain_find_cons. by destruct (P n).
  - destruct (chain_remove id c) as [c1|]; [|done]. cbn. intros [= <-].
    rewrite !chain_find_cons. destruct (P n); auto.
Qed.

Lemma nodup_inj {B} (f : B -> Z) (l : list B) x y :
  NoDup (f <$> l) -> x ∈ l -> y ∈ l -> f x = f y -> x = y.
Proof.
  induction l as [|z l IH]; [by intros _ ?%elem_of_nil|]. cbn.
  intros [Hz Hn]%list.NoDup_cons [->|Hx]%elem_of_cons [->|Hy]%elem_of_cons E; auto.
  - destruct Hz. rewrite E. by apply list_elem_of_fmap_2.
  - destruct Hz. rewrite <- E. by apply list_elem_of_fmap_2.
Qed.

(** One id, one key. *)
Lemma hits_inj {A} (s : flow_pub A) i id p1 d1 p2 d2 :
  NoDup (flow_ids s) -> id <> FLOWID_INVALID -> hits s i p1 d1 id -> hits s i p2 d2 id ->
  (ETHER_ISMULTI d1 = true /\ ETHER_ISMULTI d2 = true) \/ (p1 = p2 /\ d1 = d2).
Proof.
  intros Hnd Hid (l & c1 & Hl & _ & Hc1 & H1) (l' & c2 & Hl' & _ & Hc2 & H2). simplify_eq.
  destruct (chain_find_spec (key_match p1 d1) c1) as [(n1 & Hn1 & P1 & E1)|[_ E1]]; [|congruence].
  destruct (chain_find_spec (key_match p2 d2) c2) as [(n2 & Hn2 & P2 & E2)|[_ E2]]; [|congruence].
  assert (n1 = n2) as <-.
  { apply (nodup_inj fh_flowid (all_nodes s)); [done| | |congruence].
    - apply (stored_all s i (key_bucket p1 d1)). by exists l, c1.
    - apply (stored_all s i (key_bucket p2 d2)). by exists l, c2. }
  unfold key_match in P1, P2.
  apply orb_true_iff in P1 as [[M1 N1]%andb_true_iff|[D1%bool_decide_eq_true T1%Z.eqb_eq]%andb_true_iff];
  apply orb_true_iff in P2 as [[M2 N2]%andb_true_iff|[D2%bool_decide_eq_true T2%Z.eqb_eq]%andb_true_iff];
    subst; auto.
Qed.

(** What an operation may do to a hit. *)
Definition keeps (i id : Z) (o : flow_op) : Prop :=
  match o with FoFree _ id' => id' <> id | FoIf j _ _ => j <> i | _ => True end.

Section sticky.
Context {A : Type} {managed : list Z} `{!IdAllocator A managed}.
Implicit Types (s : flow_pub A).

Lemma hits_ext s s' i prio da id : if_flow s' = if_flow s -> hits s i prio da id -> hits s' i prio da id.
Proof. unfold hits. by intros ->. Qed.

(** Writing interface [j]: enough to look at [i] itself. *)
Lemma hits_set_if s s' i j l' ifs prio da id :
  aset (if_flow s) j l' = Some ifs -> if_flow s' = ifs ->
  (forall l c, aget (if_flow s) j = Some l -> j = i -> if_role l <> WLC_E_IF_ROLE_STA ->
     aget (fl_hash l) (key_bucket prio da) = Some c ->
     chain_find (key_match prio da) c = id ->
     if_role l' = if_role l /\
     exists c', aget (fl_hash l') (key_bucket prio da) = Some c' /\ chain_find (key_match prio da) c' = id) ->
  hits s i prio da id -> hits s' i prio da id.
Proof.
  intros [Hj ->]%aset_inv E Hk (l & c & Hl & Hr & Hc & Hf). unfold hits. rewrite E, aget_insert by done.
  case_decide as Hji; [|by exists l, c]. subst j.
  destruct (Hk l c Hl eq_refl Hr Hc Hf) as (Er & c' & Hc' & Hf'). exists l', c'. by rewrite Er.
Qed.

Lemma aget_aset {B} (l l' : list B) i x j :
  aset l i x = Some l' -> aget l' j = if decide (i = j) then Some x else aget l j.
Proof. intros [Hi ->]%aset_inv. by apply aget_insert. Qed.

Lemma alloc_keeps s ok j p d id' s' i prio da id :
  dhd_flowid_alloc s ok j p d = Some (id', s') -> id <> FLOWID_INVALID ->
  hits s i prio da id -> hits s' i prio da id.
Proof.
  unfold dhd_flowid_alloc. destruct ok; cbn [negb]; [|done].
  destruct (flowid_allocator s) as [a|]; [|done]. cbn [mbind option_bind].
  destruct (ida_alloc a) as [[[id0|] a']|]; cbn [mbind option_bind]; [|by intros [= _ <-] _; apply hits_ext|done].
  cbn [if_flow set_alloc]. destruct (aget (if_flow s) j) as [l|] eqn:Hl; [|done]. cbn [mbind option_bind].
  change (alloc_bucket (set_alloc s a') l p d) with (alloc_bucket s l p d).
  destruct (alloc_bucket s l p d) as [hash rep] eqn:Eb.
  destruct (aget (fl_hash l) hash) as [cur|] eqn:Hcur; [|done]. cbn [mbind option_bind].
  destruct (aset (fl_hash l) hash _) as [h|] eqn:Eh; [|done]. cbn [mbind option_bind].
  destruct (aset (if_flow s) j _) as [ifs|] eqn:Ei; [|done]. cbn [mbind option_bind].
  intros [= _ <-] Hid. refine (hits_set_if s _ i j _ ifs prio da id Ei _ _); [done|].
  intros l0 c [= <-]%(eq_trans (eq_sym Hl)) -> Hr Hc Hf. split; [done|]. cbn [fl_hash set_hash].
  rewrite (aget_aset _ _ _ _ _ Eh). case_decide as E; [|by eauto]. eexists. split; [done|].
  subst hash. rewrite Hc in Hcur. injection Hcur as <-.
  unfold alloc_bucket in Eb. rewrite (proj2 (Z.eqb_neq _ _) Hr) in Eb. injection Eb as _ <-.
  rewrite chain_find_app by congruence. done.
Qed.

Lemma step_keeps o s s' i prio da id :
  flow_step o s = Some s' -> keeps i id o -> id <> FLOWID_INVALID ->
  hits s i prio da id -> hits s' i prio da id.
Proof.
  destruct o as [c j p sa d|j id'|j op role|j st]; cbn [flow_step keeps]; intros Hs Hk Hid.
  - unfold dhd_flowid_lookup in Hs. destruct (flow_ring_table s) as [t|]; [|by injection Hs as <-].
    destruct (dhd_flowid_find s j p d) as [fid|]; [|done]. cbn [mbind option_bind] in Hs.
    destruct (fid =? FLOWID_INVALID); [|destruct (aget t fid); [|done]; cbn in Hs;
      destruct (_ || _); cbn in Hs; by injection Hs as <-].
    destruct (aget (if_flow s) j) as [l|]; [|done]. cbn [mbind option_bind] in Hs.
    destruct (if_status l); cbn [negb mbind option_bind] in Hs; [|by injection Hs as <-].
    destruct (dhd_flowid_alloc s true j p d) as [[id1 s1]|] eqn:Ea; [|done]. cbn [mbind option_bind] in Hs.
    intros H%(alloc_keeps _ _ _ _ _ _ _ i prio da id Ea Hid).
    destruct (id1 =? FLOWID_INVALID); cbn [mbind option_bind] in Hs; [by injection Hs as <-|].
    destruct (flow_ring_table s1) as [t1|]; [|done]. cbn [mbind option_bind] in Hs.
    destruct (aget t1 id1); [|done]. cbn [mbind option_bind] in Hs.
    destruct (aset t1 id1 _) as [t2|]; [|done]. cbn [mbind option_bind] in Hs.
    destruct c; injection Hs as <-; revert H; by apply hits_ext.
  - unfold dhd_flowid_free in Hs. destruct (aget (if_flow s) j) as [l|] eqn:Hl; [|done].
    cbn [mbind option_bind] in Hs.
    destruct (bucket_find _ _ _ _) as [[[k c']|]|] eqn:Eb; [|by injection Hs as <-|done]. cbn [mbind option_bind] in Hs.
    destruct (aset (fl_hash l) k c') as [h|] eqn:Eh; [|done]. cbn [mbind option_bind] in Hs.
    destruct (aset (if_flow s) j _) as [ifs|] eqn:Ei; [|done]. cbn [mbind option_bind] in Hs.
    destruct (flowid_allocator s) as [a|]; [|done]. cbn [mbind option_bind] in Hs.
    destruct (ida_free a id'); [|done]. injection Hs as <-.
    refine (hits_set_if s _ i j _ ifs prio da id Ei _ _); [done|].
    intros l0 c [= <-]%(eq_trans (eq_sym Hl)) -> Hr Hc Hf. split; [done|]. cbn [fl_hash set_hash].
    rewrite (aget_aset _ _ _ _ _ Eh). case_decide as E; [|by eauto]. eexists. split; [done|]. subst k.
    assert (chain_remove id' c = Some c') as Hrm.
    { revert Eb Hc. clear. generalize 0. induction (Z.to_nat DHD_FLOWRING_HASH_SIZE) as [|f IH]; intros x; cbn; [done|].
      destruct (aget (fl_hash l) x) as [cx|] eqn:Hx; [|done]. cbn. destruct (chain_remove id' cx) eqn:Er.
      - intros [= -> ->] Hc. congruence.
      - apply IH. }
    rewrite <- Hf. apply (chain_find_remove _ id'); [done|]. congruence.
  - unfold dhd_update_interface_flow_info in Hs. destruct (DHD_MAX_IFS <=? j); [by injection Hs as <-|].
    destruct (flowid_allocator s); [|by injection Hs as <-].
    destruct (aget (if_flow s) j) as [l|]; [|done]. cbn [mbind option_bind] in Hs.
    destruct (aset (if_flow s) j _) as [ifs|] eqn:Ei; [|done]. injection Hs as <-.
    refine (hits_set_if s _ i j _ ifs prio da id Ei _ _); [done|]. intros ? ? ? ->. done.
  - unfold dhd_update_interface_link_status in Hs. destruct (DHD_MAX_IFS <=? j); cbn in Hs; [by injection Hs as <-|].
    destruct (aget (if_flow s) j) as [l|] eqn:Hl; [|done]. cbn [mbind option_bind] in Hs.
    destruct (aset (if_flow s) j _) as [ifs|] eqn:Ei; [|done]. injection Hs as <-.
    refine (hits_set_if s _ i j _ ifs prio da id Ei _ _); [done|].
    intros l0 c [= <-]%(eq_trans (eq_sym Hl)) -> Hr Hc Hf. rewrite (proj2 (Z.eqb_neq _ _) Hr). by eauto.
Qed.

Lemma run_keeps os s s' i prio da id :
  flow_run os s = Some s' -> Forall (keeps i id) os -> id <> FLOWID_INVALID ->
  hits s i prio da id -> hits s' i prio da id.
Proof.
  intros Hs Hk Hid. revert s Hs. induction Hk as [|o os Ho _ IH]; intros s; cbn [flow_run]; [by intros [= <-]|].
  destruct (flow_step o s) as [s1|] eqn:E; [|done]. intros Hr Hh.
  apply (IH s1 Hr). by apply (step_keeps o s).
Qed.

(** A successful lookup is a hit afterwards. *)
Lemma lookup_wf_find (Hinv : FLOWID_INVALID ∉ managed) s c i prio sa da :
  flow_wf s -> key_ok i prio ->
  (exists l, aget (if_flow s) i = Some l /\ if_role l <> WLC_E_IF_ROLE_STA) ->
  forall id s' asked, dhd_flowid_lookup s true c i prio sa da = Some (BCME_OK, Some id, s', asked) ->
  flow_wf s' /\ id <> FLOWID_INVALID /\ hits s' i prio da id.
Proof.
  intros W K Hrole id s' asked E. pose proof Hrole as (l & Hl & Hr).
  destruct (lookup_spec Hinv s c i prio sa da W K) as (rc & fid & s1 & asked1 & E1 & W1 & _ & _ & Hok).
  rewrite E in E1. injection E1 as <- <- <- <-. destruct (Hok eq_refl) as (id' & [= <-] & Hm & _).
  assert (id <> FLOWID_INVALID) as Hid by congruence. split_and!; [done|done|].
  unfold dhd_flowid_lookup in E. destruct (flow_ring_table s) as [t|]; [|done].
  destruct (find_total s i prio da W K) as (f0 & Ef & _). rewrite Ef in E. cbn [mbind option_bind] in E.
  destruct (Z.eqb_spec f0 FLOWID_INVALID) as [Ei|Hne].
  - subst f0. rewrite Hl in E. cbn [mbind option_bind] in E. destruct (if_status l); cbn [negb] in E; [|done].
    destruct (flow_alloc_spec Hinv s i prio da l W K Hl Ef) as (id1 & s1 & Ea & _ & _ & Hp). rewrite Ea in E.
    cbn [mbind option_bind] in E. destruct (Z.eqb_spec id1 FLOWID_INVALID); [done|].
    destruct (flow_ring_table s1) as [t1|]; [|done]. cbn [mbind option_bind] in E.
    destruct (aget t1 id1); [|done]. cbn [mbind option_bind] in E.
    destruct (aset t1 id1 _); [|done]. cbn [mbind option_bind] in E.
    destruct c; [|done]. injection E as <- <- <-. destruct Hp as [[-> _]|(_ & Hfresh & _ & _ & _ & Hb)]; [done|].
    cbv zeta in Hb. unfold alloc_bucket in Hb. rewrite (proj2 (Z.eqb_neq _ _) Hr) in Hb.
    destruct Hb as (l' & ch & y & Hl' & Er & Hc & Hy & Hp). cbn [fst] in Hc, Hy. fold (key_bucket prio da) in Hc, Hy.
    exists l', y. split_and!; [done|congruence|done|].
    pose proof (proj2 (hits_find s i prio da FLOWID_INVALID Hrole) Ef) as (lx & c0 & Hl0 & _ & Hc0 & Hmiss).
    rewrite Hl in Hl0. injection Hl0 as <-. rewrite Hc in Hc0. injection Hc0 as <-. destruct (chain_find_spec (key_match prio da) ch) as [(nd & Hn & _ & En)|[Hno _]].
    { exfalso. destruct (fw_alloc _ W) as (a & out & _ & Hi & Hpm). apply Hinv. apply (inv_sub _ Hi). cbn.
      rewrite <- Hpm. rewrite <- Hmiss, En. apply list_elem_of_fmap_2, (stored_all s i (key_bucket prio da)).
      by eexists _, ch. }
    destruct (chain_find_spec (key_match prio da) y) as [(nd & Hn & Pn & ->)|[Hno' _]].
    + rewrite Hp in Hn. apply elem_of_cons in Hn as [->|Hn]; [done|]. rewrite (Hno nd Hn) in Pn. done.
    + exfalso. assert (key_match prio da {| fh_flowid := id1; fh_tid := prio; fh_ifindex := i; fh_da := da |} = true) as Hk.
      { unfold key_match. cbn. rewrite bool_decide_eq_true_2, Z.eqb_refl by done. by rewrite orb_true_r. }
      rewrite Hno' in Hk; [done|]. rewrite Hp. apply list_elem_of_here.
  - destruct (aget t f0); [|done]. cbn [mbind option_bind] in E.
    destruct (_ || _); [|done]. injection E as <- <- <-. by apply hits_find.
Qed.
End sticky.

(** ** dhd_flow_rings_init

    [id16_mem] is the block id16_map_init obtains, [ring_lock k] the result of
    the k-th ring's lock allocation; each other flag is the result of
    the allocation it names.  On failure everything is released again and the
    public state is as before. *)
Definition ea_zero : ether_addr := EA 0 0 0 0 0 0.
Definition queue_zero : flow_queue := mk_fq 0 0 0 0 0 0 0 (fun _ => 0) 0 0.
(** The addresses of the two counters of dhd_pub_t. *)
Definition cumm_ctr : Z := 8.
Definition l2cumm_ctr : Z := 16.
Definition ring_closed (idx : nat) : flow_ring_node :=
  {| fr_queue := dhd_flow_queue_init queue_zero FLOW_RING_QUEUE_THRESHOLD cumm_ctr l2cumm_ctr;
     fr_active := false; fr_status := FLOW_RING_STATUS_CLOSED; fr_flowid := u16 (Z.of_nat idx);
     fr_tid := 0; fr_ifindex := 0; fr_sa := ea_zero; fr_da := ea_zero |}.
Definition if_closed : if_flow_lkup :=
  {| if_status := false; if_role := 0; fl_hash := replicate (Z.to_nat DHD_FLOWRING_HASH_SIZE) [] |}.

Definition dhd_flow_rings_init (id16_mem : option (list Z)) (table_ok : bool) (ring_lock : nat -> bool)
    (lkup_ok lock_ok list_lock_ok : bool) (num_rings : Z) (s : flow_pub id16_map)
    : option (Z * flow_pub id16_map) :=
  a ← id16_map_init id16_mem (u16 (u32 (num_rings - FLOW_RING_COMMON))) FLOWID_RESERVED;
  match a with
  | None => Some (BCME_NOMEM, s)
  | Some a =>
      if negb table_ok then Some (BCME_NOMEM, s) else
      if negb (forallb ring_lock (seq 0 (Z.to_nat num_rings))) then Some (BCME_NOMEM, s) else
      if negb lkup_ok then Some (BCME_NOMEM, s) else
      if negb lock_ok then Some (BCME_NOMEM, s) else
      if negb list_lock_ok then Some (BCME_NOMEM, s) else
      Some (BCME_OK,
        {| flowid_allocator := Some a;
           flow_ring_table := Some (ring_closed <$> seq 0 (Z.to_nat num_rings));
           num_flow_rings := num_rings;
           if_flow := replicate (Z.to_nat DHD_MAX_IFS) if_closed;
           tdls_peer_count := tdls_peer_count s; tdls_peers := tdls_peers s |})
  end.

Abbreviation flow_managed num := (seqZ FLOWID_RESERVED (num - FLOW_RING_COMMON)).

Lemma concat_empty {B} n (x : list B) : x = [] -> concat (replicate n x) = [].
Proof. intros ->. by induction n. Qed.

Lemma flow_init_spec mem num s :
  FLOW_RING_COMMON < num < FLOWID_INVALID -> Z.of_nat (length mem) = num - FLOW_RING_COMMON ->
  exists s0, dhd_flow_rings_init (Some mem) true (fun _ => true) true true true num s = Some (BCME_OK, s0) /\
    flow_wf (managed := flow_managed num) s0.
Proof.
  assert (ID16_INVALID = 65535) as EI by reflexivity.
  unfold FLOWID_INVALID. rewrite EI.
  unfold dhd_flow_rings_init, FLOWID_RESERVED, FLOW_RING_COMMON. intros Hn Hl.
  rewrite (wrapu_small 32), (wrapu_small 16) by zlia.
  rewrite id16_init_spec by (rewrite ?EI; lia). cbn [mbind option_bind].
  assert (forall l : list nat, forallb (fun _ => true) l = true) as -> by (intros l; by induction l).
  cbn [negb].
  eexists. split; [done|].
  assert (length (fl_hash if_closed) = 256%nat) as Hh by reflexivity.
  constructor.
  - cbn [if_flow]. rewrite length_replicate. done.
  - intros l Hin. cbn [if_flow] in Hin. apply elem_of_replicate in Hin as [-> _]. by rewrite Hh.
  - eexists _, []. split; [done|]. split; [apply id16_full_inv; lia|].
    unfold flow_ids, all_nodes. cbn [if_flow]. rewrite fmap_replicate, concat_empty; [done|].
    unfold if_nodes, if_closed. cbn [fl_hash]. by apply concat_empty.
  - eexists. split; [done|]. intros i [Hi1 Hi2]%elem_of_seqZ. rewrite length_fmap, length_seq. lia.
Qed.

Lemma init_managed num :
  FLOW_RING_COMMON < num < FLOWID_INVALID ->
  FLOWID_INVALID ∉ flow_managed num /\ forall id, id ∈ flow_managed num -> 2 <= id < num.
Proof.
  unfold FLOW_RING_COMMON, FLOWID_INVALID, FLOWID_RESERVED. assert (ID16_INVALID = 65535) as -> by reflexivity.
  intros Hn. unfold FLOW_RING_COMMON. split; [rewrite elem_of_seqZ; lia|]. intros id Hid%elem_of_seqZ. lia.
Qed.

(** * Properties *)

(** C23: after dhd_flow_rings_init for [num] rings, whatever sequence of packet
    lookups, frees, role and link changes follows, with creation requests that
    succeed or fail: every operation is memory safe and returns; no two hash
    nodes, on any interface, carry the same flow id; every id is in
    [2, num) and so indexes the flow-ring table; and the next lookup either
    leaves the hash tables alone, or asks the dongle for exactly one ring with an
    id no node had, recorded with the packet's key. *)
Theorem flow_history (mem : list Z) (num : Z) (sp : flow_pub id16_map) (os : list flow_op) :
  FLOW_RING_COMMON < num < FLOWID_INVALID -> Z.of_nat (length mem) = num - FLOW_RING_COMMON ->
  Forall flow_op_ok os ->
  exists s0 s, dhd_flow_rings_init (Some mem) true (fun _ => true) true true true num sp = Some (BCME_OK, s0) /\
    flow_run (managed := flow_managed num) os s0 = Some s /\
    NoDup (flow_ids s) /\ (forall id, id ∈ flow_ids s -> 2 <= id < num) /\
    forall c i prio sa da, key_ok i prio ->
      exists rc fid s' asked,
        dhd_flowid_lookup (managed := flow_managed num) s true c i prio sa da = Some (rc, fid, s', asked) /\
        (asked = false -> if_flow s' = if_flow s) /\
        (asked = true -> exists id, 2 <= id < num /\ id ∉ flow_ids s /\
           all_nodes s' ≡ₚ {| fh_flowid := id; fh_tid := prio; fh_ifindex := i; fh_da := da |} :: all_nodes s) /\
        (rc = BCME_OK -> exists id, fid = Some id /\ id ∈ flow_ids s').
Proof.
  intros Hn Hl Hos. destruct (flow_init_spec mem num sp Hn Hl) as (s0 & E0 & W0).
  destruct (init_managed num Hn) as [Hinv Hr].
  destruct (flow_run_wf Hinv os s0 W0 Hos) as (s & Es & W). destruct (flow_wf_nodup s W) as [Hnd Hin].
  exists s0, s. split_and!; [done|done|done|auto|]. intros c i prio sa da K.
  destruct (lookup_spec Hinv s c i prio sa da W K) as (rc & fid & s' & asked & E & W' & H1 & H2 & H3).
  exists rc, fid, s', asked. split_and!; [done|done| |].
  - intros Ha. destruct (H2 Ha) as (id & ? & ? & ? & _). exists id. split_and!; [by apply Hr|by apply Hr|done|done].
  - intros Hrc. destruct (H3 Hrc) as (id & ? & _ & ?). by exists id.
Qed.

(** The witness: two stations on an access point, one of which leaves. *)
Definition sta1 : ether_addr := EA 0 16 24 1 2 3.
Definition sta2 : ether_addr := EA 0 16 24 1 2 4.
Definition ap_mac : ether_addr := EA 0 16 24 9 9 9.
Definition pub0 : flow_pub id16_map :=
  {| flowid_allocator := None; flow_ring_table := None; num_flow_rings := 0; if_flow := []; tdls_peer_count := 0; tdls_peers := [] |}.
Definition ap_ops : list flow_op :=
  [FoIf 0 WLC_E_IF_ADD 1; FoLookup true 0 1 ap_mac sta1; FoLookup true 0 1 ap_mac sta2; FoFree 0 9].

Lemma flow_history_witness :
  exists s0 s, dhd_flow_rings_init (Some (replicate 8 0)) true (fun _ => true) true true true 10 pub0 = Some (BCME_OK, s0) /\
    flow_run (managed := flow_managed 10) ap_ops s0 = Some s /\ flow_ids s = [8] /\ NoDup (flow_ids s).
Proof.
  destruct (flow_history (replicate 8 0) 10 pub0 ap_ops) as (s0 & s & E0 & Er & Hnd & _).
  - unfold FLOW_RING_COMMON. split; [lia|reflexivity].
  - reflexivity.
  - repeat constructor; cbn; unfold DHD_MAX_IFS; lia.
  - exists s0, s. split; [exact E0|]. split; [exact Er|]. split; [|exact Hnd].
    vm_compute in E0. injection E0 as <-. vm_compute in Er. injection Er as <-. reflexivity.
Defined.

(** C32: on an interface that is not a station (an access point, P2P group
    owner...), in any state a history reaches: the flow id a lookup returns for
    (priority, address) is the one every later lookup of that pair finds, until
    that id is freed or the interface changes role, whatever happens to other
    flows and interfaces; and no other pair ever finds it, except that all
    multicast addresses share one. *)
Theorem flow_affinity (mem : list Z) (num : Z) (sp : flow_pub id16_map) (os os' : list flow_op)
    (c : bool) (i prio : Z) (sa da : ether_addr) (id : Z) s0 s s1 asked :
  FLOW_RING_COMMON < num < FLOWID_INVALID -> Z.of_nat (length mem) = num - FLOW_RING_COMMON ->
  dhd_flow_rings_init (Some mem) true (fun _ => true) true true true num sp = Some (BCME_OK, s0) ->
  Forall flow_op_ok os -> flow_run (managed := flow_managed num) os s0 = Some s ->
  (exists l, aget (if_flow s) i = Some l /\ if_role l <> WLC_E_IF_ROLE_STA) -> key_ok i prio ->
  dhd_flowid_lookup (managed := flow_managed num) s true c i prio sa da = Some (BCME_OK, Some id, s1, asked) ->
  Forall flow_op_ok os' -> Forall (keeps i id) os' ->
  exists s2, flow_run (managed := flow_managed num) os' s1 = Some s2 /\
    dhd_flowid_find s2 i prio da = Some id /\
    forall prio' da', dhd_flowid_find s2 i prio' da' = Some id ->
      (ETHER_ISMULTI da = true /\ ETHER_ISMULTI da' = true) \/ (prio = prio' /\ da = da').
Proof.
  intros Hn Hl E0 Hos Es Hrole K Elk Hos' Hkeep.
  destruct (init_managed num Hn) as [Hinv Hr].
  destruct (flow_init_spec mem num sp Hn Hl) as (s0' & E0' & W0). rewrite E0 in E0'. injection E0' as <-.
  destruct (flow_run_wf Hinv os s0 W0 Hos) as (s' & Es' & W). rewrite Es in Es'. injection Es' as <-.
  destruct (lookup_wf_find Hinv s c i prio sa da W K Hrole id s1 asked Elk) as (W1 & Hid & Hh).
  destruct (flow_run_wf Hinv os' s1 W1 Hos') as (s2 & E2 & W2). exists s2. split; [done|].
  assert (hits s2 i prio da id) as Hh2 by (by eapply run_keeps).
  pose proof Hh2 as (l & ch & Hl2 & Hr2 & _).
  assert (exists l, aget (if_flow s2) i = Some l /\ if_role l <> WLC_E_IF_ROLE_STA) as Hrole2 by (by exists l).
  split; [by apply hits_find|]. intros prio' da' Hf%hits_find; [|done].
  apply (hits_inj s2 i id); [by eapply flow_wf_nodup|done..].
Qed.

(** The states of the example. *)
Definition ap_s0 : flow_pub id16_map :=
  default pub0 (snd <$> dhd_flow_rings_init (Some (replicate 8 0)) true (fun _ => true) true true true 10 pub0).
Definition ap_s : flow_pub id16_map :=
  default pub0 (flow_run (managed := flow_managed 10) [FoIf 0 WLC_E_IF_ADD 1] ap_s0).
Definition ap_s1 : flow_pub id16_map :=
  match dhd_flowid_lookup (managed := flow_managed 10) ap_s true true 0 1 ap_mac sta1 with
  | Some (_, _, s, _) => s | None => pub0 end.
Definition later_ops : list flow_op := [FoLookup true 0 1 ap_mac sta2; FoFree 0 8].

Lemma flow_affinity_witness :
  exists s2, flow_run (managed := flow_managed 10) later_ops ap_s1 = Some s2 /\
    dhd_flowid_find s2 0 1 sta1 = Some 9.
Proof.
  destruct (flow_affinity (replicate 8 0) 10 pub0 [FoIf 0 WLC_E_IF_ADD 1] later_ops
    true 0 1 ap_mac sta1 9 ap_s0 ap_s ap_s1 true) as (s2 & E2 & Ef & _).
  - split; [unfold FLOW_RING_COMMON; lia|reflexivity].
  - reflexivity.
  - vm_compute. reflexivity.
  - repeat constructor; cbn; unfold DHD_MAX_IFS; lia.
  - vm_compute. reflexivity.
  - eexists. split; [vm_compute; reflexivity|discriminate].
  - unfold key_ok, DHD_MAX_IFS. lia.
  - vm_compute. reflexivity.
  - repeat constructor; cbn; unfold DHD_MAX_IFS; lia.
  - repeat constructor; cbn; discriminate.
  - exists s2. split; [exact E2|exact Ef].
Defined.

(** ** What the operations do to the ring table *)
Section table.
Context {A : Type} {managed : list Z} `{!IdAllocator A managed}.
Implicit Types (s : flow_pub A).

Lemma free_table s i id s' :
  dhd_flowid_free s i id = Some s' ->
  flow_ring_table s' = flow_ring_table s /\ num_flow_rings s' = num_flow_rings s.
Proof.
  unfold dhd_flowid_free. destruct (aget (if_flow s) i) as [l|]; [|done]. cbn [mbind option_bind].
  destruct (bucket_find _ _ _ _) as [[[k c']|]|]; [|by intros [= <-]|done]. cbn [mbind option_bind].
  destruct (aset (fl_hash l) k c'); [|done]. cbn [mbind option_bind].
  destruct (aset (if_flow s) i _); [|done]. cbn [mbind option_bind].
  destruct (flowid_allocator s) as [a|]; [|done]. cbn [mbind option_bind].
  destruct (ida_free a id); [|done]. by intros [= <-].
Qed.

Lemma alloc_table s ok i prio da id s' :
  dhd_flowid_alloc s ok i prio da = Some (id, s') ->
  flow_ring_table s' = flow_ring_table s /\ num_flow_rings s' = num_flow_rings s.
Proof.
  unfold dhd_flowid_alloc. destruct ok; cbn [negb]; [|done].
  destruct (flowid_allocator s) as [a|]; [|done]. cbn [mbind option_bind].
  destruct (ida_alloc a) as [[[id0|] a']|]; cbn [mbind option_bind]; [|by intros [= _ <-]|done].
  destruct (aget _ i) as [l|]; [|done]. cbn [mbind option_bind]. destruct (alloc_bucket _ l prio da).
  destruct (aget (fl_hash l) _); [|done]. cbn [mbind option_bind].
  destruct (aset (fl_hash l) _ _); [|done]. cbn [mbind option_bind].
  destruct (aset _ i _); [|done]. by intros [= _ <-].
Qed.

(** A lookup leaves the table alone, or makes one node of it pending and asks
    for its ring. *)
Lemma lookup_table s i prio sa da rc fid s' asked :
  dhd_flowid_lookup s true true i prio sa da = Some (rc, fid, s', asked) ->
  num_flow_rings s' = num_flow_rings s /\
  ((asked = false /\ flow_ring_table s' = flow_ring_table s) \/
   (asked = true /\ exists id t node t', rc = BCME_OK /\ fid = Some id /\ flow_ring_table s = Some t /\
      aget t id = Some node /\ aset t id (node_pending node i prio sa da) = Some t' /\
      flow_ring_table s' = Some t')).
Proof.
  unfold dhd_flowid_lookup. destruct (flow_ring_table s) as [t|] eqn:Ht; [|intros [= _ _ <- <-]; rewrite Ht; by auto].
  destruct (dhd_flowid_find s i prio da) as [id|]; [|done]. cbn [mbind option_bind].
  destruct (id =? FLOWID_INVALID).
  - destruct (aget (if_flow s) i) as [l|]; [|done]. cbn [mbind option_bind].
    destruct (if_status l); cbn [negb]; [|intros [= _ _ <- <-]; rewrite Ht; by auto].
    destruct (dhd_flowid_alloc s true i prio da) as [[id1 s1]|] eqn:Ea; [|done]. cbn [mbind option_bind].
    apply alloc_table in Ea as [Et En]. rewrite Ht in Et. rewrite Et.
    destruct (id1 =? FLOWID_INVALID); [intros [= _ _ <- <-]; by auto|]. cbn [mbind option_bind].
    destruct (aget t id1) as [node|] eqn:Hn; [|done]. cbn [mbind option_bind].
    destruct (aset t id1 _) as [t'|] eqn:Hs; [|done]. cbn [mbind option_bind].
    intros [= <- <- <- <-]. split; [done|]. right. split; [done|]. by exists id1, t, node, t'.
  - cbn [mbind option_bind]. destruct (aget t id); [|done]. cbn [mbind option_bind].
    destruct (_ || _); intros [= _ _ <- <-]; rewrite Ht; by auto.
Qed.
End table.

(** ** Two behaviours of lookups that share state *)
Section shared.
Context {A : Type} {managed : list Z} `{!IdAllocator A managed}.
Implicit Types (s : flow_pub A).

(** What a lookup that misses and is answered BCME_OK has stored. *)
Lemma lookup_miss s c i prio sa da l rc fid s' asked :
  dhd_flowid_lookup s true c i prio sa da = Some (rc, fid, s', asked) -> asked = true ->
  dhd_flowid_find s i prio da = Some FLOWID_INVALID -> aget (if_flow s) i = Some l ->
  exists id cur h t t' node, fid = (if c then Some id else None) /\ rc = (if c then BCME_OK else BCME_ERROR) /\
    let '(hash, rep) := alloc_bucket s l prio da in
    aget (fl_hash l) hash = Some cur /\
    aset (fl_hash l) hash (let n := {| fh_flowid := id; fh_tid := prio; fh_ifindex := i; fh_da := da |} in
                           if rep then [n] else cur ++ [n]) = Some h /\
    aset (if_flow s) i (set_hash l h) = Some (if_flow s') /\
    tdls_peer_count s' = tdls_peer_count s /\ tdls_peers s' = tdls_peers s /\
    flow_ring_table s' = Some t' /\ id <> FLOWID_INVALID /\
    aget t id = Some node /\ aset t id (node_pending node i prio sa da) = Some t'.
Proof.
  intros E Ha Ef Hl. unfold dhd_flowid_lookup in E. destruct (flow_ring_table s) as [t0|]; [|congruence].
  rewrite Ef in E. cbn [mbind option_bind] in E. rewrite Z.eqb_refl, Hl in E. cbn [mbind option_bind] in E.
  destruct (if_status l); cbn [negb] in E; [|congruence].
  unfold dhd_flowid_alloc in E. cbn [negb] in E.
  destruct (flowid_allocator s) as [a|]; [|done]. cbn [mbind option_bind] in E.
  destruct (ida_alloc a) as [[[id|] a']|]; [|cbn [mbind option_bind] in E; rewrite Z.eqb_refl in E; congruence|done]. cbn [mbind option_bind] in E.
  cbn [if_flow set_alloc] in E. rewrite Hl in E. cbn [mbind option_bind] in E.
  change (alloc_bucket (set_alloc s a') l prio da) with (alloc_bucket s l prio da) in E.
  destruct (alloc_bucket s l prio da) as [hash rep].
  destruct (aget (fl_hash l) hash) as [cur|]; [|done]. cbn [mbind option_bind] in E.
  destruct (aset (fl_hash l) hash _) as [h|] eqn:Eh; [|done]. cbn [mbind option_bind] in E.
  destruct (aset (if_flow s) i _) as [ifs|] eqn:Ei; [|done]. cbn [mbind option_bind] in E.
  destruct (Z.eqb_spec id FLOWID_INVALID) as [|Hne]; [congruence|].
  cbn [flow_ring_table set_if set_alloc] in E. destruct (flow_ring_table s) as [t|]; [|done].
  cbn [mbind option_bind] in E. destruct (aget t id) as [node|] eqn:En; [|done]. cbn [mbind option_bind] in E.
  destruct (aset t id _) as [t'|] eqn:Et; [|done]. cbn [mbind option_bind] in E.
  exists id, cur, h, t, t', node. destruct c; injection E as <- <- <- _; split_and!; done.
Qed.
End shared.

(** On a station interface with TDLS peers, the flow of a peer whose hash
    bucket is the number of a priority takes that priority's slot: every
    packet of that priority to any other destination is then given the peer's
    flow ring. *)
Theorem tdls_takes_slot s c i prio sa da l id s' :
  aget (if_flow s) i = Some l -> if_role l = WLC_E_IF_ROLE_STA ->
  tdls_peer_count s <> 0 -> da ∈ tdls_peers s -> ETHER_ISMULTI da = false ->
  aget (fl_hash l) (DHD_FLOWRING_HASHINDEX da prio) = Some [] ->
  dhd_flowid_lookup (A := id16_map) (managed := flow_managed 10) s true c i prio sa da
    = Some (BCME_OK, Some id, s', true) ->
  forall da', da' ∉ tdls_peers s ->
    dhd_flowid_find s' i (DHD_FLOWRING_HASHINDEX da prio) da' = Some id.
Proof.
  intros Hl Hr Hc Hin Hm Hb E da' Hda'.
  assert (is_tdls_destination s da = true) as Ht by (by apply bool_decide_eq_true).
  assert (negb (tdls_peer_count s =? 0) = true) as Hc' by (by apply negb_true_iff, Z.eqb_neq).
  assert (dhd_flowid_find s i prio da = Some FLOWID_INVALID) as Ef.
  { unfold dhd_flowid_find. rewrite Hl. cbn [mbind option_bind]. rewrite Hr, Hm, Ht, Hc', Hb. done. }
  destruct (lookup_miss s c i prio sa da l _ _ s' _ E eq_refl Ef Hl) as (id' & cur & h & t & t' & node & Efid & _ & Hs).
  assert (alloc_bucket s l prio da = (DHD_FLOWRING_HASHINDEX da prio, false)) as Eb
    by (unfold alloc_bucket; by rewrite Hr, Hc', Ht).
  rewrite Eb in Hs. destruct Hs as (Hcur & Eh & Ei & E1 & E2 & _). simplify_eq. destruct c; [|done].
  injection Efid as <-. unfold dhd_flowid_find. rewrite (aget_aset _ _ _ _ i Ei). case_decide; [|done].
  cbn [mbind option_bind if_role set_hash fl_hash]. rewrite Hr, Z.eqb_refl.
  assert (is_tdls_destination s' da' = false) as -> by (unfold is_tdls_destination; rewrite E2; by apply bool_decide_eq_false).
  rewrite andb_false_r, (aget_aset _ _ _ _ _ Eh). by case_decide.
Qed.

(** The witness: a station, its access point and one TDLS peer. *)
Definition peer : ether_addr := EA 0 16 24 1 2 1.    (* 1 ^ 2 ^ 1 = 2, with priority 2 bucket 0 *)
Definition sta_pub : flow_pub id16_map :=
  {| flowid_allocator := flowid_allocator ap_s0; flow_ring_table := flow_ring_table ap_s0;
     num_flow_rings := 10;
     if_flow := <[0%nat := {| if_status := true; if_role := WLC_E_IF_ROLE_STA; fl_hash := fl_hash if_closed |}]> (if_flow ap_s0);
     tdls_peer_count := 1; tdls_peers := [peer] |}.
Definition sta_pub' : flow_pub id16_map :=
  match dhd_flowid_lookup (managed := flow_managed 10) sta_pub true true 0 2 ap_mac peer with
  | Some (_, _, s, _) => s | None => pub0 end.

Lemma tdls_takes_slot_witness : dhd_flowid_find sta_pub' 0 0 ap_mac = Some 9.
Proof.
  refine (tdls_takes_slot sta_pub true 0 2 ap_mac peer
    {| if_status := true; if_role := WLC_E_IF_ROLE_STA; fl_hash := fl_hash if_closed |} 9 sta_pub' _ _ _ _ _ _ _ ap_mac _).
  - vm_compute. reflexivity.
  - reflexivity.
  - discriminate.
  - vm_compute. apply list_elem_of_here.
  - reflexivity.
  - vm_compute. reflexivity.
  - vm_compute. reflexivity.
  - apply (bool_decide_unpack _). vm_compute. exact I.
Defined.

Lemma chain_find_miss P c n :
  (forall m, m ∈ c -> P m = false) -> P n = true -> chain_find P (c ++ [n]) = fh_flowid n.
Proof.
  intros Hno Hn. induction c as [|m c IH]; cbn [app]; rewrite chain_find_cons; [by rewrite Hn|].
  rewrite Hno by apply list_elem_of_here. apply IH. intros x Hx. apply Hno. by apply list_elem_of_further.
Qed.

(** When the request to create a ring cannot be sent, the lookup reports
    the error but leaves the flow id allocated, hashed and PENDING: the next
    lookup of the same key answers BCME_OK with the id of a ring the dongle
    was never asked for, and never asks again. *)
Theorem failed_create_sticks num (s : flow_pub id16_map) i prio sa da l s' :
  FLOW_RING_COMMON < num < FLOWID_INVALID -> flow_wf (managed := flow_managed num) s -> key_ok i prio ->
  aget (if_flow s) i = Some l -> if_role l <> WLC_E_IF_ROLE_STA ->
  dhd_flowid_lookup (managed := flow_managed num) s true false i prio sa da = Some (BCME_ERROR, None, s', true) ->
  exists id, forall c sa',
    dhd_flowid_lookup (managed := flow_managed num) s' true c i prio sa' da = Some (BCME_OK, Some id, s', false).
Proof.
  intros Hn W K Hl Hr E. destruct (init_managed num Hn) as [Hinv _].
  assert (exists l, aget (if_flow s) i = Some l /\ if_role l <> WLC_E_IF_ROLE_STA) as Hrole by (by exists l).
  destruct (find_total s i prio da W K) as (f0 & Ef & _).
  assert (f0 = FLOWID_INVALID) as ->.
  { unfold dhd_flowid_lookup in E. destruct (flow_ring_table s) as [t|]; [|done]. rewrite Ef in E.
    cbn [mbind option_bind] in E. destruct (Z.eqb_spec f0 FLOWID_INVALID); [done|].
    destruct (aget t f0); [|done]. cbn [mbind option_bind] in E. destruct (_ || _); discriminate E. }
  destruct (lookup_miss s false i prio sa da l _ _ s' _ E eq_refl Ef Hl) as (id & cur & h & t & t' & rnode & _ & _ & Hs).
  assert (alloc_bucket s l prio da = (key_bucket prio da, false)) as Eb.
  { unfold alloc_bucket, key_bucket. by rewrite (proj2 (Z.eqb_neq _ _) Hr). }
  rewrite Eb in Hs. cbv zeta in Hs. destruct Hs as (Hcur & Eh & Ei & _ & _ & Etab & Hid & _ & Et).
  pose proof (proj2 (hits_find s i prio da FLOWID_INVALID Hrole) Ef) as (l0 & c0 & Hl0 & _ & Hc0 & Hmiss).
  rewrite Hl in Hl0. injection Hl0 as <-. rewrite Hcur in Hc0. injection Hc0 as <-.
  assert (forall m, m ∈ cur -> key_match prio da m = false) as Hno.
  { destruct (chain_find_spec (key_match prio da) cur) as [(nd & Hnd & _ & En)|[Hno _]]; [|done].
    exfalso. destruct (fw_alloc _ W) as (a & out & _ & Hi & Hpm). apply Hinv. apply (inv_sub _ Hi). cbn.
    rewrite <- Hpm, <- Hmiss, En. apply list_elem_of_fmap_2, (stored_all s i (key_bucket prio da)).
    by exists l, cur. }
  set (node := {| fh_flowid := id; fh_tid := prio; fh_ifindex := i; fh_da := da |}) in *.
  assert (hits s' i prio da id) as Hh.
  { exists (set_hash l h), (cur ++ [node]). split_and!; [|done| |].
    - rewrite (aget_aset _ _ _ _ _ Ei). by case_decide.
    - cbn. rewrite (aget_aset _ _ _ _ _ Eh). by case_decide.
    - rewrite (chain_find_miss _ cur node Hno); [done|]. unfold key_match. cbn.
      rewrite bool_decide_eq_true_2, Z.eqb_refl by done. apply orb_true_r. }
  exists id. intros c sa'. unfold dhd_flowid_lookup. rewrite Etab.
  rewrite (proj1 (hits_find s' i prio da id ltac:(destruct Hh as (l' & ? & ? & ? & _); by exists l')) Hh).
  cbn [mbind option_bind]. rewrite (proj2 (Z.eqb_neq _ _) Hid).
  rewrite (aget_aset _ _ _ _ _ Et). case_decide; [|done]. done.
Qed.

Lemma failed_create_sticks_witness :
  exists s' id, dhd_flowid_lookup (managed := flow_managed 10) ap_s true false 0 1 ap_mac sta1
      = Some (BCME_ERROR, None, s', true) /\
    dhd_flowid_lookup (managed := flow_managed 10) s' true true 0 1 ap_mac sta1 = Some (BCME_OK, Some id, s', false).
Proof.
  assert (flow_wf (managed := flow_managed 10) ap_s) as W.
  { destruct (init_managed 10) as [Hinv _]; [split; [unfold FLOW_RING_COMMON; lia|reflexivity]|].
    destruct (flow_init_spec (replicate 8 0) 10 pub0) as (s0 & E0 & W0);
      [split; [unfold FLOW_RING_COMMON; lia|reflexivity]|reflexivity|].
    assert (s0 = ap_s0) as ->.
    { unfold ap_s0. rewrite E0. reflexivity. }
    destruct (flow_run_wf Hinv [FoIf 0 WLC_E_IF_ADD 1] ap_s0 W0) as (s & E & W);
      [repeat constructor; cbn; unfold DHD_MAX_IFS; lia|].
    unfold ap_s. rewrite E. exact W. }
  eexists. destruct (failed_create_sticks 10 ap_s 0 1 ap_mac sta1
    {| if_status := true; if_role := 1; fl_hash := fl_hash if_closed |}
    (match dhd_flowid_lookup (managed := flow_managed 10) ap_s true false 0 1 ap_mac sta1 with
     | Some (_, _, s, _) => s | None => pub0 end)) as [id Hid].
  - split; [unfold FLOW_RING_COMMON; lia|reflexivity].
  - exact W.
  - unfold key_ok, DHD_MAX_IFS. lia.
  - vm_compute. reflexivity.
  - discriminate.
  - vm_compute. reflexivity.
  - exists id. split; [|exact (Hid true ap_mac)]. vm_compute. reflexivity.
Defined.
