(* ===== verification/Dll.v ===== *)
(** * Doubly linked lists (include/bcmutils.h: dll_t) and the pool of
    elements built on them (shared/bcmutils.c: dll_pool)

    A dll_t is a pair of pointers embedded in an object; memory maps the
    address of every dll_t to its two fields, and touching an address that
    holds none is undefined behaviour ([None]).  A list is a circle through a
    sentinel, the dll_t of the list itself. *)
From Stdlib Require Import ZArith Lia.
From stdpp Require Import base option numbers gmap list.
From S2P Require Import Prelude.

(** ** Definitions *)
Record dll_t := mk_dll { next_p : Z; prev_p : Z }.
Abbreviation dmem := (gmap Z dll_t).

Definition set_next_p (m : dmem) (p v : Z) : option dmem :=
  n ← m !! p; Some (<[p := mk_dll v (prev_p n)]> m).
Definition set_prev_p (m : dmem) (p v : Z) : option dmem :=
  n ← m !! p; Some (<[p := mk_dll (next_p n) v]> m).

Definition dll_init (m : dmem) (node : Z) : option dmem :=
  m ← set_next_p m node node; set_prev_p m node node.
Definition dll_next_p (m : dmem) (node : Z) : option Z := next_p <$> m !! node.
Definition dll_prev_p (m : dmem) (node : Z) : option Z := prev_p <$> m !! node.
Definition dll_head_p (m : dmem) (l : Z) : option Z := dll_next_p m l.
Definition dll_tail_p (m : dmem) (l : Z) : option Z := dll_prev_p m l.
Definition dll_empty (m : dmem) (l : Z) : option bool := n ← dll_next_p m l; Some (n =? l).
Definition dll_end (l node : Z) : bool := l =? node.

Definition dll_insert (m : dmem) (new at_p : Z) : option dmem :=
  n ← dll_next_p m at_p;
  m ← set_next_p m new n;
  m ← set_prev_p m new at_p;
  m ← set_next_p m at_p new;
  n ← dll_next_p m new;
  set_prev_p m n new.
Definition dll_append (m : dmem) (l node : Z) : option dmem :=
  t ← dll_tail_p m l; dll_insert m node t.
Definition dll_prepend (m : dmem) (l node : Z) : option dmem := dll_insert m node l.

Definition dll_delete (m : dmem) (node : Z) : option dmem :=
  p ← dll_prev_p m node;
  n ← dll_next_p m node;
  m ← set_next_p m p n;
  n ← dll_next_p m node;
  p ← dll_prev_p m node;
  set_prev_p m n p.

(** The loop of the header comment: every item from the head on, at most
    [fuel] of them ([None] when the list is not walked to its end). *)
Fixpoint dll_walk (fuel : nat) (m : dmem) (l item : Z) : option (list Z) :=
  match fuel with
  | O => None
  | S fuel =>
      if dll_end l item then Some [] else
      n ← dll_next_p m item; (item ::.) <$> dll_walk fuel m l n
  end.
Definition dll_items (fuel : nat) (m : dmem) (l : Z) : option (list Z) :=
  h ← dll_head_p m l; dll_walk fuel m l h.

(** ** Pools: [elements] are elems_max nodes, elem_size bytes apart, from
    [base] on; the free list's sentinel is [free_list]. *)
Record dll_pool_t := mk_pool {
  dp_mem : dmem; free_list : Z;
  free_count : Z;    (* uint16 *)
  elems_max : Z; elem_size : Z
}.
Definition with_free (p : dll_pool_t) (m : dmem) (c : Z) : dll_pool_t :=
  mk_pool m (free_list p) (u16 c) (elems_max p) (elem_size p).

Fixpoint pool_fill (n : nat) (m : dmem) (l elem size : Z) : option dmem :=
  match n with
  | O => Some m
  | S n => m ← dll_append m l elem; pool_fill n m l (elem + size) size
  end.
(** [m] is the zeroed block MALLOCZ returned. *)
Definition dll_pool_init (m : option dmem) (l base elems_max elem_size : Z) : option (option dll_pool_t) :=
  match m with
  | None => Some None
  | Some m =>
      m ← dll_init m l;
      m ← pool_fill (Z.to_nat elems_max) m l base elem_size;
      Some (Some (mk_pool m l elems_max elems_max elem_size))
  end.
Definition dll_pool_alloc (p : dll_pool_t) : option (Z * dll_pool_t) :=
  if free_count p =? 0 then Some (0, p) else
  e ← dll_head_p (dp_mem p) (free_list p);
  m ← dll_delete (dp_mem p) e;
  Some (e, with_free p m (free_count p - 1)).
Definition dll_pool_free (p : dll_pool_t) (elem : Z) : option dll_pool_t :=
  m ← dll_prepend (dp_mem p) (free_list p) elem;
  Some (with_free p m (free_count p + 1)).
Definition dll_pool_free_tail (p : dll_pool_t) (elem : Z) : option dll_pool_t :=
  m ← dll_append (dp_mem p) (free_list p) elem;
  Some (with_free p m (free_count p + 1)).

(** ** The circle a list is *)

(** From [p] the next pointers lead through [ys], the previous ones back. *)
Fixpoint path (m : dmem) (p : Z) (ys : list Z) : Prop :=
  match ys with
  | [] => True
  | y :: ys => dll_next_p m p = Some y /\ dll_prev_p m y = Some p /\ path m y ys
  end.
Definition dring (m : dmem) (l : Z) (xs : list Z) : Prop := NoDup (l :: xs) /\ path m l (xs ++ [l]).

(** ** The fields after a write *)
Lemma next_set_next m p v m' q :
  set_next_p m p v = Some m' -> dll_next_p m' q = if decide (p = q) then Some v else dll_next_p m q.
Proof.
  unfold set_next_p, dll_next_p. destruct (m !! p) as [n|]; [|done]. cbn. intros [= <-].
  case_decide as E; [subst; by rewrite lookup_insert_eq|by rewrite lookup_insert_ne].
Qed.
Lemma prev_set_next m p v m' q : set_next_p m p v = Some m' -> dll_prev_p m' q = dll_prev_p m q.
Proof.
  unfold set_next_p, dll_prev_p. destruct (m !! p) as [n|] eqn:E; [|done]. cbn. intros [= <-].
  destruct (decide (p = q)) as [<-|]; [by rewrite lookup_insert_eq, E|by rewrite lookup_insert_ne].
Qed.
Lemma prev_set_prev m p v m' q :
  set_prev_p m p v = Some m' -> dll_prev_p m' q = if decide (p = q) then Some v else dll_prev_p m q.
Proof.
  unfold set_prev_p, dll_prev_p. destruct (m !! p) as [n|]; [|done]. cbn. intros [= <-].
  case_decide as E; [subst; by rewrite lookup_insert_eq|by rewrite lookup_insert_ne].
Qed.
Lemma next_set_prev m p v m' q : set_prev_p m p v = Some m' -> dll_next_p m' q = dll_next_p m q.
Proof.
  unfold set_prev_p, dll_next_p. destruct (m !! p) as [n|] eqn:E; [|done]. cbn. intros [= <-].
  destruct (decide (p = q)) as [<-|]; [by rewrite lookup_insert_eq, E|by rewrite lookup_insert_ne].
Qed.

(** A write succeeds on an allocated node, and keeps the allocated nodes. *)
Lemma set_next_dom m p v n : dll_next_p m p = Some n -> exists m', set_next_p m p v = Some m' /\ dom m' = dom m.
Proof.
  unfold set_next_p, dll_next_p. destruct (m !! p) as [x|] eqn:E; [|done]. intros _. eexists. split; [done|].
  rewrite dom_insert_L. apply elem_of_dom_2 in E. set_solver.
Qed.
Lemma set_prev_dom m p v n : dll_next_p m p = Some n -> exists m', set_prev_p m p v = Some m' /\ dom m' = dom m.
Proof.
  unfold set_prev_p, dll_next_p. destruct (m !! p) as [x|] eqn:E; [|done]. intros _. eexists. split; [done|].
  rewrite dom_insert_L. apply elem_of_dom_2 in E. set_solver.
Qed.
Lemma alloc_next m p : p ∈ dom m -> exists n, dll_next_p m p = Some n.
Proof. intros [n E]%elem_of_dom. exists (next_p n). unfold dll_next_p. by rewrite E. Qed.
Lemma next_dom m p n : dll_next_p m p = Some n -> p ∈ dom m.
Proof. unfold dll_next_p. destruct (m !! p) as [x|] eqn:E; [|done]. intros _. by apply elem_of_dom_2 in E. Qed.
Lemma prev_dom m p n : dll_prev_p m p = Some n -> p ∈ dom m.
Proof. unfold dll_prev_p. destruct (m !! p) as [x|] eqn:E; [|done]. intros _. by apply elem_of_dom_2 in E. Qed.

(** ** Paths *)
Lemma path_app m p l1 x l2 : path m p (l1 ++ x :: l2) <-> path m p (l1 ++ [x]) /\ path m x l2.
Proof.
  revert p. induction l1 as [|y l1 IH]; intros p; cbn [app path]; [naive_solver|].
  rewrite IH. tauto.
Qed.

(** A circle may be entered anywhere. *)
Lemma dring_rotate m l l1 a l2 : dring m l (l1 ++ a :: l2) <-> dring m a (l2 ++ l :: l1).
Proof.
  unfold dring. rewrite <- !app_assoc. cbn [app]. rewrite (path_app m l l1 a (l2 ++ [l])), (path_app m a l2 l (l1 ++ [a])).
  split; intros [Hnd [? ?]]; (split; [|done]); revert Hnd; apply NoDup_Permutation_proper; solve_Permutation.
Qed.

(** A path reads the next pointers of all but its last node, the previous
    pointers of all but its first. *)
Lemma path_frame m m' p ys :
  (forall q, q ∈ p :: removelast ys -> dll_next_p m' q = dll_next_p m q) ->
  (forall q, q ∈ ys -> dll_prev_p m' q = dll_prev_p m q) ->
  path m p ys -> path m' p ys.
Proof.
  revert p. induction ys as [|y ys IH]; intros p Hn Hp; [done|]. cbn [path]. intros (E1 & E2 & Hr).
  split_and!.
  - rewrite Hn; [done|apply list_elem_of_here].
  - rewrite Hp; [done|apply list_elem_of_here].
  - destruct ys as [|z ys]; [done|]. apply IH; [| |done]; intros q Hq; [apply Hn|apply Hp];
      by apply list_elem_of_further.
Qed.

Lemma same_fields m m' q :
  dll_next_p m' q = dll_next_p m q -> dll_prev_p m' q = dll_prev_p m q -> m' !! q = m !! q.
Proof.
  unfold dll_next_p, dll_prev_p. destruct (m !! q) as [[]|], (m' !! q) as [[]|]; cbn; congruence.
Qed.

(** ** Insertion and deletion in a circle *)
Lemma insert_head m a zs new :
  dring m a zs -> new ∈ dom m -> new ∉ a :: zs ->
  exists m', dll_insert m new a = Some m' /\ dom m' = dom m /\ dring m' a (new :: zs) /\
    forall q, q ∉ a :: new :: zs -> m' !! q = m !! q.
Proof.
  intros [Hnd Hp] Hnew Hni.
  assert (exists b rest, zs ++ [a] = b :: rest) as (b & rest & Eb) by (destruct zs; cbn; eauto).
  rewrite Eb in Hp. cbn [path] in Hp. destruct Hp as (Ea & Eb' & Hp).
  assert (b ∈ zs ++ [a]) as Hb by (rewrite Eb; apply list_elem_of_here).
  assert (new <> a) as Hna by set_solver. assert (new <> b) as Hnb by set_solver.
  unfold dll_insert. rewrite Ea. cbn [mbind option_bind].
  destruct (alloc_next _ _ Hnew) as [n0 Hn0].
  destruct (set_next_dom m new b n0 Hn0) as (m1 & E1 & D1). rewrite E1. cbn [mbind option_bind].
  destruct (alloc_next m1 new) as [n1 Hn1]; [by rewrite D1|].
  destruct (set_prev_dom m1 new a n1 Hn1) as (m2 & E2 & D2). rewrite E2. cbn [mbind option_bind].
  destruct (alloc_next m2 a) as [n2 Hn2]; [rewrite D2, D1; by eapply next_dom|].
  destruct (set_next_dom m2 a new n2 Hn2) as (m3 & E3 & D3). rewrite E3. cbn [mbind option_bind].
  assert (dll_next_p m3 new = Some b) as ->.
  { rewrite (next_set_next _ _ _ _ _ E3). case_decide; [congruence|].
    rewrite (next_set_prev _ _ _ _ _ E2), (next_set_next _ _ _ _ _ E1). by case_decide. }
  cbn [mbind option_bind].
  destruct (alloc_next m3 b) as [n3 Hn3]; [rewrite D3, D2, D1; by eapply prev_dom|].
  destruct (set_prev_dom m3 b new n3 Hn3) as (m4 & E4 & D4). rewrite E4.
  assert (forall q, dll_next_p m4 q = if decide (a = q) then Some new else if decide (new = q) then Some b else dll_next_p m q) as HN.
  { intros q. rewrite (next_set_prev _ _ _ _ _ E4), (next_set_next _ _ _ _ _ E3). case_decide; [done|].
    by rewrite (next_set_prev _ _ _ _ _ E2), (next_set_next _ _ _ _ _ E1). }
  assert (forall q, dll_prev_p m4 q = if decide (b = q) then Some new else if decide (new = q) then Some a else dll_prev_p m q) as HP.
  { intros q. rewrite (prev_set_prev _ _ _ _ _ E4). case_decide; [done|].
    rewrite (prev_set_next _ _ _ _ _ E3), (prev_set_prev _ _ _ _ _ E2). case_decide; [done|].
    by rewrite (prev_set_next _ _ _ _ _ E1). }
  exists m4. split_and!; [done|congruence| |].
  2:{ intros q Hq. apply same_fields; [rewrite HN|rewrite HP]; repeat case_decide; set_solver. }
  split.
  { rewrite !list.NoDup_cons in *. set_solver. }
  cbn [app path]. rewrite Eb. cbn [path]. rewrite !HN, !HP.
  split_and!; [by case_decide|by repeat case_decide|by repeat case_decide|by case_decide|].
  destruct zs as [|b' zs]; cbn in Eb; injection Eb as -> <-; [done|].
  apply (path_frame m); [| |done]; rewrite ?removelast_last; intros q Hq; [rewrite HN|rewrite HP];
    rewrite !list.NoDup_cons in Hnd; repeat case_decide; set_solver.
Qed.

(** dll_delete of a node whose pointers are those of the node between [a] and
    the rest of the circle, be it that node or another. *)
Lemma unlink_between m a y x zs :
  dring m a (y :: zs) -> dll_prev_p m x = Some a -> dll_next_p m x = Some (default a (head zs)) ->
  x ∉ a :: zs ->
  exists m', dll_delete m x = Some m' /\ dom m' = dom m /\ dring m' a zs /\ m' !! x = m !! x.
Proof.
  intros [Hnd Hp] Ex Exb Hx. cbn [app path] in Hp. destruct Hp as (Ea & _ & Hp).
  assert (exists b rest, zs ++ [a] = b :: rest /\ default a (head zs) = b) as (b & rest & Eb & Ebh)
    by (destruct zs; cbn; eauto).
  rewrite Ebh in Exb. rewrite Eb in Hp. cbn [path] in Hp. destruct Hp as (_ & Ebx & Hp).
  assert (b ∈ zs ++ [a]) as Hb by (rewrite Eb; apply list_elem_of_here).
  assert (x <> a) as Hxa by set_solver. assert (x <> b) as Hxb by set_solver.
  unfold dll_delete. rewrite Ex, Exb. cbn [mbind option_bind].
  destruct (set_next_dom m a b _ Ea) as (m1 & E1 & D1). rewrite E1. cbn [mbind option_bind].
  rewrite (next_set_next _ _ _ _ x E1), (prev_set_next _ _ _ _ x E1), Ex. case_decide; [congruence|].
  rewrite Exb. cbn [mbind option_bind].
  destruct (alloc_next m1 b) as [n1 Hn1]; [rewrite D1; by eapply prev_dom|].
  destruct (set_prev_dom m1 b a n1 Hn1) as (m2 & E2 & D2). rewrite E2.
  assert (forall q, dll_next_p m2 q = if decide (a = q) then Some b else dll_next_p m q) as HN.
  { intros q. by rewrite (next_set_prev _ _ _ _ _ E2), (next_set_next _ _ _ _ _ E1). }
  assert (forall q, dll_prev_p m2 q = if decide (b = q) then Some a else dll_prev_p m q) as HP.
  { intros q. rewrite (prev_set_prev _ _ _ _ _ E2). case_decide; [done|]. by rewrite (prev_set_next _ _ _ _ _ E1). }
  exists m2. split_and!; [done|congruence| |].
  - split; [by rewrite !list.NoDup_cons in *; set_solver|].
    rewrite Eb. cbn [path]. rewrite HN, HP. split_and!; [by case_decide|by case_decide|].
    destruct zs as [|b' zs]; cbn in Eb; injection Eb as -> <-; [done|].
    apply (path_frame m); [| |done]; rewrite ?removelast_last; intros q Hq; [rewrite HN|rewrite HP];
      rewrite !list.NoDup_cons in Hnd; repeat case_decide; set_solver.
  - apply same_fields; [rewrite HN|rewrite HP]; by case_decide.
Qed.

Lemma delete_second m a x zs :
  dring m a (x :: zs) ->
  exists m', dll_delete m x = Some m' /\ dom m' = dom m /\ dring m' a zs /\ m' !! x = m !! x.
Proof.
  intros R. pose proof R as [Hnd Hp]. cbn [app path] in Hp. destruct Hp as (_ & Ex & Hp).
  apply (unlink_between m a x); [done|done| |rewrite !list.NoDup_cons in Hnd; set_solver].
  destruct zs; apply Hp.
Qed.

(** The same, at any place of a list. *)
Lemma insert_after m l l1 a l2 new :
  dring m l (l1 ++ a :: l2) -> new ∈ dom m -> new ∉ l :: l1 ++ a :: l2 ->
  exists m', dll_insert m new a = Some m' /\ dom m' = dom m /\ dring m' l (l1 ++ a :: new :: l2).
Proof.
  intros Hr%dring_rotate Hd Hn.
  destruct (insert_head m a (l2 ++ l :: l1) new Hr Hd) as (m' & E & D & Hr' & _).
  { revert Hn. set_solver. }
  exists m'. split_and!; [done..|]. by apply (dring_rotate m' l l1 a (new :: l2)).
Qed.

Lemma delete_mid m l l1 x l2 :
  dring m l (l1 ++ x :: l2) ->
  exists m', dll_delete m x = Some m' /\ dom m' = dom m /\ dring m' l (l1 ++ l2) /\ m' !! x = m !! x.
Proof.
  intros Hr. destruct l1 as [|a l1 _] using rev_ind; cbn [app] in *; [by apply delete_second|].
  rewrite <- app_assoc in Hr |- *. cbn [app] in Hr |- *. apply dring_rotate in Hr. cbn [app] in Hr.
  destruct (delete_second m a x (l2 ++ l :: l1) Hr) as (m' & E & D & Hr' & Ex).
  exists m'. split_and!; [done..| |done]. by apply dring_rotate.
Qed.

Lemma dring_head m l xs : dring m l xs -> dll_head_p m l = Some (default l (head xs)).
Proof. intros [_ Hp]. destruct xs; apply Hp. Qed.

Lemma dring_tail m l xs : dring m l xs -> dll_tail_p m l = Some (default l (last xs)).
Proof.
  intros [_ Hp]. destruct xs as [|x xs _] using rev_ind; [apply Hp|].
  rewrite last_snoc. rewrite <- app_assoc in Hp. apply path_app in Hp as [_ Hp]. apply Hp.
Qed.

Lemma append_ring m l xs new :
  dring m l xs -> new ∈ dom m -> new ∉ l :: xs ->
  exists m', dll_append m l new = Some m' /\ dom m' = dom m /\ dring m' l (xs ++ [new]).
Proof.
  intros Hr Hd Hn. unfold dll_append. rewrite (dring_tail _ _ _ Hr). cbn [mbind option_bind].
  destruct xs as [|a xs _] using rev_ind.
  { destruct (insert_head m l [] new Hr Hd Hn) as (m' & ? & ? & ? & _). by exists m'. }
  rewrite last_snoc. cbn [default]. rewrite <- app_assoc in *. by apply insert_after.
Qed.

Lemma walk_path m l xs p fuel :
  path m p (xs ++ [l]) -> l ∉ xs -> (length xs < fuel)%nat ->
  (n ← dll_next_p m p; dll_walk fuel m l n) = Some xs.
Proof.
  revert p fuel. induction xs as [|x xs IH]; intros p fuel Hp Hl Hf;
    cbn [app path] in Hp; destruct Hp as (-> & _ & Hp); cbn [mbind option_bind];
    (destruct fuel as [|fuel]; [cbn in Hf; lia|]); cbn [dll_walk]; unfold dll_end.
  - by rewrite Z.eqb_refl.
  - apply not_elem_of_cons in Hl as [Hlx Hl]. rewrite (proj2 (Z.eqb_neq _ _) Hlx).
    specialize (IH x fuel Hp Hl ltac:(cbn in Hf; lia)).
    destruct (dll_next_p m x); [|done]. cbn [mbind option_bind] in *. by rewrite IH.
Qed.

Lemma walk_ring m l xs fuel :
  dring m l xs -> (length xs < fuel)%nat -> dll_items fuel m l = Some xs.
Proof.
  intros [Hnd Hp] Hf. apply list.NoDup_cons in Hnd as [Hl _]. by apply walk_path.
Qed.

(** ** Memory safety alone: as long as every pointer leads to a node, insertion
    and deletion of nodes are defined, whatever lists the nodes form *)
Definition all_valid (m : dmem) : Prop :=
  forall p n, m !! p = Some n -> next_p n ∈ dom m /\ prev_p n ∈ dom m.

Lemma valid_next m p : all_valid m -> p ∈ dom m -> exists n, dll_next_p m p = Some n /\ n ∈ dom m.
Proof. intros V [x E]%elem_of_dom. exists (next_p x). unfold dll_next_p. rewrite E. split; [done|]. by apply (V p). Qed.
Lemma valid_prev m p : all_valid m -> p ∈ dom m -> exists n, dll_prev_p m p = Some n /\ n ∈ dom m.
Proof. intros V [x E]%elem_of_dom. exists (prev_p x). unfold dll_prev_p. rewrite E. split; [done|]. by apply (V p). Qed.

Lemma valid_set_next m p v : all_valid m -> p ∈ dom m -> v ∈ dom m ->
  exists m', set_next_p m p v = Some m' /\ dom m' = dom m /\ all_valid m'.
Proof.
  intros V [x E]%elem_of_dom Hv. unfold set_next_p. rewrite E. cbn [mbind option_bind].
  assert (dom (<[p := mk_dll v (prev_p x)]> m) = dom m) as D
    by (rewrite dom_insert_L; apply elem_of_dom_2 in E; set_solver).
  eexists. split; [done|]. split; [done|]. intros q y Hq. rewrite D.
  apply lookup_insert_Some in Hq as [[<- <-]|[_ Hq]]; [|by apply (V q)]. split; [done|]. cbn. by apply (V p x).
Qed.
Lemma valid_set_prev m p v : all_valid m -> p ∈ dom m -> v ∈ dom m ->
  exists m', set_prev_p m p v = Some m' /\ dom m' = dom m /\ all_valid m'.
Proof.
  intros V [x E]%elem_of_dom Hv. unfold set_prev_p. rewrite E. cbn [mbind option_bind].
  assert (dom (<[p := mk_dll (next_p x) v]> m) = dom m) as D
    by (rewrite dom_insert_L; apply elem_of_dom_2 in E; set_solver).
  eexists. split; [done|]. split; [done|]. intros q y Hq. rewrite D.
  apply lookup_insert_Some in Hq as [[<- <-]|[_ Hq]]; [|by apply (V q)]. split; [|done]. cbn. by apply (V p x).
Qed.

Lemma insert_valid m new a : all_valid m -> new ∈ dom m -> a ∈ dom m ->
  exists m', dll_insert m new a = Some m' /\ dom m' = dom m /\ all_valid m'.
Proof.
  intros V Hn Ha. unfold dll_insert. destruct (valid_next m a V Ha) as (n & -> & Hn'). cbn [mbind option_bind].
  destruct (valid_set_next m new n V Hn Hn') as (m1 & -> & D1 & V1). cbn [mbind option_bind].
  destruct (valid_set_prev m1 new a V1) as (m2 & -> & D2 & V2); [by rewrite D1..|]. cbn [mbind option_bind].
  destruct (valid_set_next m2 a new V2) as (m3 & -> & D3 & V3); [by rewrite D2, D1..|]. cbn [mbind option_bind].
  assert (new ∈ dom m3) as Hn3 by (by rewrite D3, D2, D1).
  destruct (valid_next m3 new V3 Hn3) as (n3 & -> & Hn3'). cbn [mbind option_bind].
  destruct (valid_set_prev m3 n3 new V3 Hn3' Hn3) as (m4 & -> & D4 & V4). exists m4. split_and!; [done|congruence|done].
Qed.

Lemma delete_valid m x : all_valid m -> x ∈ dom m ->
  exists m', dll_delete m x = Some m' /\ dom m' = dom m /\ all_valid m'.
Proof.
  intros V Hx. unfold dll_delete. destruct (valid_prev m x V Hx) as (p & -> & Hp). cbn [mbind option_bind].
  destruct (valid_next m x V Hx) as (n & -> & Hn). cbn [mbind option_bind].
  destruct (valid_set_next m p n V Hp Hn) as (m1 & -> & D1 & V1). cbn [mbind option_bind].
  rewrite <- D1 in Hx. destruct (valid_next m1 x V1 Hx) as (n1 & -> & Hn1). cbn [mbind option_bind].
  destruct (valid_prev m1 x V1 Hx) as (p1 & -> & Hp1). cbn [mbind option_bind].
  destruct (valid_set_prev m1 n1 p1 V1 Hn1 Hp1) as (m2 & -> & D2 & V2). exists m2. split_and!; [done|congruence|done].
Qed.

(** ** The operations on one list, and what they do to the sequence *)
Inductive dll_op :=
  | DAppend (x : Z) | DPrepend (x : Z) | DInsert (x at_p : Z) | DDelete (x : Z).

Definition dll_step (l : Z) (op : dll_op) (m : dmem) : option dmem :=
  match op with
  | DAppend x => dll_append m l x
  | DPrepend x => dll_prepend m l x
  | DInsert x a => dll_insert m x a
  | DDelete x => dll_delete m x
  end.
Fixpoint dll_run (l : Z) (ops : list dll_op) (m : dmem) : option dmem :=
  match ops with [] => Some m | op :: ops => m ← dll_step l op m; dll_run l ops m end.

Fixpoint insert_at (x a : Z) (xs : list Z) : list Z :=
  match xs with
  | [] => []
  | y :: xs => if y =? a then y :: x :: xs else y :: insert_at x a xs
  end.

(** A step of the sequence, for nodes of [nodes]; refused ([None]) when a node
    is inserted twice, or one that is not on the list is used as a place or
    deleted. *)
Definition seq_step (l : Z) (nodes : gset Z) (op : dll_op) (xs : list Z) : option (list Z) :=
  let fresh x := bool_decide (x ∈ nodes) && bool_decide (x ∉ l :: xs) in
  match op with
  | DAppend x => if fresh x then Some (xs ++ [x]) else None
  | DPrepend x => if fresh x then Some (x :: xs) else None
  | DInsert x a => if fresh x && bool_decide (a ∈ xs) then Some (insert_at x a xs) else None
  | DDelete x => if bool_decide (x ∈ xs) then Some (filter (.≠ x) xs) else None
  end.
Fixpoint seq_run (l : Z) (nodes : gset Z) (ops : list dll_op) (xs : list Z) : option (list Z) :=
  match ops with [] => Some xs | op :: ops => xs ← seq_step l nodes op xs; seq_run l nodes ops xs end.

Lemma insert_at_split x a l1 l2 : a ∉ l1 -> insert_at x a (l1 ++ a :: l2) = l1 ++ a :: x :: l2.
Proof.
  induction l1 as [|y l1 IH]; cbn; [by rewrite Z.eqb_refl|]. intros [Hy Hl]%not_elem_of_cons.
  destruct (Z.eqb_spec y a); [congruence|]. by rewrite IH.
Qed.
Lemma filter_split x (l1 l2 : list Z) : x ∉ l1 -> x ∉ l2 -> filter (.≠ x) (l1 ++ x :: l2) = l1 ++ l2.
Proof.
  intros H1 H2. assert (forall l : list Z, x ∉ l -> filter (.≠ x) l = l) as Hf.
  { induction l as [|y l IH]; [done|]. intros [Hy Hl]%not_elem_of_cons.
    rewrite filter_cons_True by auto. by rewrite IH. }
  rewrite filter_app, filter_cons_False by (intros H; by apply H). by rewrite !Hf.
Qed.

Lemma dll_step_refines l nodes op m xs xs' :
  dring m l xs -> nodes ⊆ dom m -> seq_step l nodes op xs = Some xs' ->
  exists m', dll_step l op m = Some m' /\ dom m' = dom m /\ dring m' l xs'.
Proof.
  intros Hr Hn. destruct op as [x|x|x a|x]; cbn [seq_step dll_step].
  - destruct (_ && _) eqn:E; [|done]. apply andb_true_iff in E as [E1%bool_decide_eq_true E2%bool_decide_eq_true].
    intros [= <-]. apply append_ring; auto.
  - destruct (_ && _) eqn:E; [|done]. apply andb_true_iff in E as [E1%bool_decide_eq_true E2%bool_decide_eq_true].
    intros [= <-]. destruct (insert_head m l xs x Hr) as (m' & ? & ? & ? & _); [auto|done|]. by exists m'.
  - destruct (_ && _) eqn:E; [|done].
    apply andb_true_iff in E as [[E1%bool_decide_eq_true E2%bool_decide_eq_true]%andb_true_iff E3%bool_decide_eq_true].
    intros [= <-]. apply list_elem_of_split in E3 as (l1 & l2 & ->).
    assert (a ∉ l1) by (destruct Hr as [Hnd _]; rewrite list.NoDup_cons, NoDup_app in Hnd; set_solver).
    rewrite insert_at_split by done. apply insert_after; auto.
  - case_bool_decide as E; [|done]. intros [= <-]. apply list_elem_of_split in E as (l1 & l2 & ->).
    assert (x ∉ l1 /\ x ∉ l2) as [? ?].
    { destruct Hr as [Hnd _]. rewrite list.NoDup_cons, NoDup_app, list.NoDup_cons in Hnd. set_solver. }
    rewrite filter_split by done. destruct (delete_mid m l l1 x l2 Hr) as (m' & ? & ? & ? & _). by exists m'.
Qed.

Lemma dll_run_refines l nodes ops m xs xs' :
  dring m l xs -> nodes ⊆ dom m -> seq_run l nodes ops xs = Some xs' ->
  exists m', dll_run l ops m = Some m' /\ dring m' l xs'.
Proof.
  revert m xs. induction ops as [|op ops IH]; intros m xs Hr Hn; cbn [seq_run dll_run].
  - intros [= <-]. by exists m.
  - destruct (seq_step l nodes op xs) as [ys|] eqn:E; [|done]. cbn [mbind option_bind].
    destruct (dll_step_refines _ _ _ _ _ _ Hr Hn E) as (m1 & -> & D & Hr1). cbn [mbind option_bind].
    apply IH; [done|]. by rewrite D.
Qed.

Lemma init_ring m l : l ∈ dom m -> exists m0, dll_init m l = Some m0 /\ dom m0 = dom m /\ dring m0 l [].
Proof.
  intros Hl. destruct (alloc_next _ _ Hl) as [n Hn].
  destruct (set_next_dom m l l n Hn) as (m1 & E1 & D1).
  destruct (alloc_next m1 l) as [n1 Hn1]; [by rewrite D1|].
  destruct (set_prev_dom m1 l l n1 Hn1) as (m0 & E0 & D0).
  exists m0. split_and!; [unfold dll_init; by rewrite E1|congruence|].
  split; [apply NoDup_singleton|]. cbn. rewrite (next_set_prev _ _ _ _ _ E0), (next_set_next _ _ _ _ _ E1),
    (prev_set_prev _ _ _ _ _ E0). by repeat case_decide.
Qed.

(** C29: a list built by dll_init and any sequence of dll_append, dll_prepend,
    dll_insert and dll_delete that inserts allocated nodes not on the list and
    deletes nodes that are on it touches only allocated nodes, and walking it
    as the header prescribes visits exactly the nodes of the sequence the same
    steps build, in order, and stops. *)
Theorem dll_refines (m : dmem) (l : Z) (ops : list dll_op) (xs : list Z) :
  l ∈ dom m -> seq_run l (dom m) ops [] = Some xs ->
  exists m0 m', dll_init m l = Some m0 /\ dll_run l ops m0 = Some m' /\
    dll_items (S (length xs)) m' l = Some xs /\
    dll_empty m' l = Some (bool_decide (xs = [])).
Proof.
  intros Hl Hrun. destruct (init_ring m l Hl) as (m0 & E0 & D0 & R0).
  destruct (dll_run_refines l (dom m) ops m0 [] xs R0 ltac:(by rewrite D0) Hrun) as (m' & E' & R').
  exists m0, m'. split_and!; [done..|apply walk_ring; [done|lia]|].
  unfold dll_empty. pose proof (dring_head _ _ _ R') as Hh. unfold dll_head_p in Hh. rewrite Hh.
  cbn [mbind option_bind]. f_equal. destruct xs as [|x xs]; cbn; [by rewrite Z.eqb_refl|].
  apply Z.eqb_neq. intros ->. destruct R' as [Hnd _]. rewrite list.NoDup_cons in Hnd. set_solver.
Qed.

(** The witness: two appends, an insertion between them, a deletion. *)
Definition mem4 : dmem := list_to_map ((fun k => (k, mk_dll 0 0)) <$> [1; 2; 3; 4]).
Definition ops4 : list dll_op := [DAppend 2; DAppend 3; DInsert 4 2; DDelete 2].

Lemma dll_refines_witness :
  seq_run 1 (dom mem4) ops4 [] = Some [4; 3] /\
  exists m0 m', dll_init mem4 1 = Some m0 /\ dll_run 1 ops4 m0 = Some m' /\ dll_items 3 m' 1 = Some [4; 3].
Proof.
  assert (seq_run 1 (dom mem4) ops4 [] = Some [4; 3]) as E by (vm_compute; reflexivity).
  split; [exact E|].
  destruct (dll_refines mem4 1 ops4 [4; 3]) as (m0 & m' & E0 & E1 & E2 & _).
  - apply elem_of_dom. vm_compute. eexists. reflexivity.
  - exact E.
  - exists m0, m'. split; [exact E0|]. split; [exact E1|exact E2].
Defined.

(** ** Pools *)
Record pool_ok (p : dll_pool_t) (free : list Z) : Prop := {
  pl_ring : dring (dp_mem p) (free_list p) free;
  pl_count : free_count p = Z.of_nat (length free);
  pl_max : Z.of_nat (length free) <= elems_max p < 2 ^ 16
}.

Lemma pool_fill_spec n m l elem size xs :
  0 < size -> dring m l xs ->
  (forall k, 0 <= k < Z.of_nat n -> elem + k * size ∈ dom m /\ elem + k * size ∉ l :: xs) ->
  exists m', pool_fill n m l elem size = Some m' /\ dom m' = dom m /\
    dring m' l (xs ++ ((fun k => elem + k * size) <$> seqZ 0 (Z.of_nat n))).
Proof.
  intros Hs. revert m elem xs. induction n as [|n IH]; intros m elem xs Hr Hk; cbn [pool_fill].
  - exists m. cbn. by rewrite app_nil_r.
  - destruct (Hk 0) as [Hd Hni]; [lia|]. rewrite Z.mul_0_l, Z.add_0_r in Hd, Hni.
    destruct (append_ring m l xs elem Hr Hd Hni) as (m1 & -> & D1 & R1). cbn [mbind option_bind].
    destruct (IH m1 (elem + size) (xs ++ [elem]) R1) as (m2 & E2 & D2 & R2).
    { intros k Hk'. destruct (Hk (k + 1)) as [Hd' Hni']; [lia|].
      replace (elem + size + k * size) with (elem + (k + 1) * size) by lia. rewrite D1. split; [done|].
      assert (elem + (k + 1) * size <> elem) by nia. set_solver. }
    exists m2. split_and!; [done|congruence|]. revert R2. rewrite <- app_assoc. cbn [app].
    rewrite (seqZ_cons 0 (Z.of_nat (S n))) by lia. cbn [fmap list_fmap]. rewrite Z.mul_0_l, Z.add_0_r.
    replace (Z.pred (Z.of_nat (S n))) with (Z.of_nat n) by lia.
    replace ((λ k : Z, elem + size + k * size) <$> seqZ 0 (Z.of_nat n))
      with ((λ k : Z, elem + k * size) <$> seqZ (Z.succ 0) (Z.of_nat n)); [done|].
    rewrite <- (fmap_add_seqZ 1 0), <- list_fmap_compose. apply list_fmap_ext. intros ? k _. cbn. lia.
Qed.

Inductive pool_op := PoolAlloc | PoolFree (e : Z) | PoolFreeTail (e : Z).

(** A client's history: [out] are the elements it holds; it frees only those. *)
Definition pool_step (op : pool_op) (c : dll_pool_t * list Z) : option (dll_pool_t * list Z) :=
  let '(p, out) := c in
  match op with
  | PoolAlloc => '(e, p) ← dll_pool_alloc p; Some (p, if e =? 0 then out else e :: out)
  | PoolFree e => if decide (e ∈ out) then p ← dll_pool_free p e; Some (p, filter (.≠ e) out) else Some c
  | PoolFreeTail e => if decide (e ∈ out) then p ← dll_pool_free_tail p e; Some (p, filter (.≠ e) out) else Some c
  end.
Fixpoint pool_run (ops : list pool_op) (c : dll_pool_t * list Z) : option (dll_pool_t * list Z) :=
  match ops with [] => Some c | op :: ops => c ← pool_step op c; pool_run ops c end.

(** The free list and the held elements share out the elements. *)
Definition pool_inv (els : list Z) (c : dll_pool_t * list Z) : Prop :=
  exists free, pool_ok c.1 free /\ free ++ c.2 ≡ₚ els /\ NoDup els /\ 0 ∉ els /\
    free_list c.1 ∉ els /\ (forall e, e ∈ els -> e ∈ dom (dp_mem c.1)) /\
    Z.of_nat (length els) <= elems_max c.1.

Lemma filter_ne_perm (e : Z) (l : list Z) : NoDup l -> e ∈ l -> l ≡ₚ e :: filter (.≠ e) l.
Proof.
  intros Hnd (l1 & l2 & ->)%list_elem_of_split.
  assert (e ∉ l1 /\ e ∉ l2) as [? ?] by (rewrite NoDup_app, list.NoDup_cons in Hnd; set_solver).
  rewrite filter_split by done. symmetry. apply Permutation_middle.
Qed.

Lemma pool_give els p out e free m' free' :
  pool_ok p free -> free ++ out ≡ₚ els -> NoDup els -> 0 ∉ els -> free_list p ∉ els ->
  (forall x, x ∈ els -> x ∈ dom (dp_mem p)) -> Z.of_nat (length els) <= elems_max p ->
  e ∈ out -> free' ≡ₚ e :: free -> dom m' = dom (dp_mem p) -> dring m' (free_list p) free' ->
  pool_inv els (with_free p m' (free_count p + 1), filter (.≠ e) out).
Proof.
  intros [R C M] Hp Hnd H0 Hl Hd Hlen He Hf D R'. exists free'. cbn [fst snd].
  assert (NoDup out) as Hno by (rewrite <- Hp, NoDup_app in Hnd; tauto).
  assert (free' ++ filter (.≠ e) out ≡ₚ els) as Hp'.
  { rewrite Hf, <- Hp. rewrite (filter_ne_perm e out) at 2 by done. cbn. apply Permutation_middle. }
  assert (length free' <= length els)%nat as Hle by (rewrite <- Hp', length_app; lia).
  split_and!; try done; [|cbn; by rewrite D]. constructor; cbn; [done| |zlia].
  pose proof (Permutation_length Hf) as Hfl. cbn [length] in Hfl. rewrite C, wrapu_small by zlia. lia.
Qed.

Lemma pool_step_inv els op c : pool_inv els c -> exists c', pool_step op c = Some c' /\ pool_inv els c' /\
  match op with
  | PoolAlloc => (c'.2 = c.2 /\ c.2 ≡ₚ els) \/ (exists e, c'.2 = e :: c.2 /\ e ∈ els /\ e ∉ c.2)
  | _ => True
  end.
Proof.
  destruct c as [p out]. intros (free & Hok & Hp & Hnd & H0 & Hl & Hd & Hlen). cbn [fst snd] in *.
  pose proof Hok as [R C M]. destruct op as [|e|e]; cbn [pool_step].
  - unfold dll_pool_alloc. rewrite C. destruct free as [|e free].
    + cbn. eexists. split; [done|]. split; [|left; done]. exists []. done.
    + cbn [length]. destruct (Z.eqb_spec (Z.of_nat (S (length free))) 0); [lia|].
      rewrite (dring_head _ _ _ R). cbn [head from_option id mbind option_bind].
      destruct (delete_second _ _ _ _ R) as (m' & -> & D & R' & _). cbn [mbind option_bind].
      assert (e ∈ els) as He by (rewrite <- Hp; apply list_elem_of_here).
      destruct (Z.eqb_spec e 0) as [->|]; [done|]. eexists. split; [done|]. split.
      * exists free. cbn [fst snd]. split_and!; try done; [|by rewrite <- Permutation_middle|cbn; by rewrite D].
        constructor; cbn; [done| |cbn in M; lia]. cbn in M, C. rewrite wrapu_small by zlia. lia.
      * right. exists e. split_and!; [done..|]. rewrite <- Hp in Hnd. cbn in Hnd.
        rewrite list.NoDup_cons in Hnd. set_solver.
  - case_decide as He; [|eexists; split; [done|]; split; [by exists free|done]].
    unfold dll_pool_free, dll_prepend.
    assert (e ∈ els /\ e ∉ free) as [Hee Hef].
    { rewrite <- Hp in Hnd. rewrite <- Hp, elem_of_app. rewrite NoDup_app in Hnd. set_solver. }
    destruct (insert_head (dp_mem p) (free_list p) free e R (Hd e Hee)) as (m' & -> & D & R' & _); [set_solver|].
    eexists. split; [done|]. split; [|done]. by eapply pool_give.
  - case_decide as He; [|eexists; split; [done|]; split; [by exists free|done]].
    unfold dll_pool_free_tail.
    assert (e ∈ els /\ e ∉ free) as [Hee Hef].
    { rewrite <- Hp in Hnd. rewrite <- Hp, elem_of_app. rewrite NoDup_app in Hnd. set_solver. }
    destruct (append_ring (dp_mem p) (free_list p) free e R (Hd e Hee)) as (m' & -> & D & R'); [set_solver|].
    eexists. split; [done|]. split; [|done]. eapply pool_give; [done..| |done|exact R']. symmetry. apply Permutation_cons_append.
Qed.

(** A pool of [n] elements, at [base] and elem_size apart, hands out an
    element not in use as long as one is left and NULL exactly when all are in
    use, whatever sequence of dll_pool_alloc, dll_pool_free and
    dll_pool_free_tail of held elements came before. *)
Theorem dll_pool_history (m : dmem) (l base n size : Z) (ops : list pool_op)
    (els := (fun k => base + k * size) <$> seqZ 0 n) :
  0 <= n < 2 ^ 16 -> 0 < size -> l ∈ dom m -> l ∉ els -> 0 ∉ els ->
  (forall e, e ∈ els -> e ∈ dom m) ->
  exists p0 p out p' e, dll_pool_init (Some m) l base n size = Some (Some p0) /\
    pool_run ops (p0, []) = Some (p, out) /\ NoDup out /\ (forall x, x ∈ out -> x ∈ els) /\
    dll_pool_alloc p = Some (e, p') /\
    ((e = 0 /\ out ≡ₚ els) \/ (e ∈ els /\ e ∉ out)).
Proof.
  intros Hn Hs Hl Hle H0 Hd. destruct (init_ring m l Hl) as (m0 & E0 & D0 & R0).
  assert (NoDup els) as Hnd.
  { apply NoDup_fmap_2_strong; [|apply NoDup_seqZ]. intros x y _ _. nia. }
  assert (length els = Z.to_nat n) as Hlen by (unfold els; rewrite length_fmap, length_seqZ; done).
  destruct (pool_fill_spec (Z.to_nat n) m0 l base size [] Hs R0) as (m1 & E1 & D1 & R1).
  { intros k Hk. assert (base + k * size ∈ els) as Hk'.
    { unfold els. apply (list_elem_of_fmap_2 (fun k => base + k * size)). apply elem_of_seqZ. lia. }
    rewrite D0. split; [by apply Hd|]. set_solver. }
  rewrite Z2Nat.id in R1 by lia. cbn [app] in R1. fold els in R1.
  unfold dll_pool_init. rewrite E0. cbn [mbind option_bind]. rewrite E1. cbn [mbind option_bind].
  set (p0 := mk_pool m1 l n n size).
  assert (pool_inv els (p0, [])) as Hinv.
  { exists els. cbn [fst snd]. rewrite app_nil_r. split_and!; try done; [|cbn; rewrite D1, D0; done|cbn; lia].
    constructor; cbn; [done|lia|lia]. }
  assert (forall ops c, pool_inv els c -> exists c', pool_run ops c = Some c' /\ pool_inv els c') as Hrun.
  { clear. induction ops as [|op ops IH]; intros c Hc; cbn [pool_run]; [by exists c|].
    destruct (pool_step_inv els op c Hc) as (c' & -> & Hc' & _). cbn [mbind option_bind]. auto. }
  destruct (Hrun ops _ Hinv) as ([p out] & Er & Hp).
  destruct (pool_step_inv els PoolAlloc (p, out) Hp) as ([p2 out2] & Ea & _ & Hres).
  cbn [pool_step fst snd] in *. destruct (dll_pool_alloc p) as [[e p']|] eqn:Ep; [|done].
  cbn [mbind option_bind] in Ea. injection Ea as <- <-.
  exists p0, p, out, p', e. destruct Hp as (free & _ & Hsh & _ & _). cbn [fst snd] in Hsh.
  split_and!; [done|done| | |done|].
  - rewrite <- Hsh, NoDup_app in Hnd. tauto.
  - intros x Hx. rewrite <- Hsh. apply elem_of_app. by right.
  - destruct Hres as [[Ho Hall]|(e' & Ho & He & Hn')].
    + left. destruct (Z.eqb_spec e 0) as [->|]; [done|]. exfalso. apply (f_equal length) in Ho. cbn in Ho. lia.
    + right. destruct (Z.eqb_spec e 0) as [->|]; [|by injection Ho as <-].
      exfalso. apply (f_equal length) in Ho. cbn in Ho. lia.
Qed.

Definition pool_mem : dmem := list_to_map ((fun k => (k, mk_dll 0 0)) <$> [8; 16; 32; 48]).
Definition pool_ops : list pool_op := [PoolAlloc; PoolAlloc; PoolFreeTail 16; PoolAlloc].

Lemma dll_pool_history_witness :
  exists p0 p p', dll_pool_init (Some pool_mem) 8 16 3 16 = Some (Some p0) /\
    pool_run pool_ops (p0, []) = Some (p, [48; 32]) /\ dll_pool_alloc p = Some (16, p').
Proof.
  destruct (dll_pool_history pool_mem 8 16 3 16 pool_ops) as (p0 & p & out & p' & e & E0 & E1 & _ & _ & E2 & _).
  - lia.
  - lia.
  - apply elem_of_dom. vm_compute. eexists. reflexivity.
  - apply (bool_decide_unpack _). vm_compute. exact I.
  - apply (bool_decide_unpack _). vm_compute. exact I.
  - intros x Hx. change (x ∈ [16; 32; 48]) in Hx. apply elem_of_dom. revert Hx. rewrite !elem_of_cons, elem_of_nil.
    intros [->|[->|[->|[]]]]; vm_compute; eexists; reflexivity.
  - exists p0, p, p'. vm_compute in E0. injection E0 as <-. vm_compute in E1. injection E1 as <- <-.
    split; [vm_compute; reflexivity|]. split; [vm_compute; reflexivity|]. vm_compute in E2. injection E2 as <- <-.
    vm_compute. reflexivity.
Defined.

(** Dll_delete leaves the pointers of the node it removes.  Deleting that
    node again after another node was prepended to its old neighbour unlinks
    the new node: it is no longer reached from the head. *)
Theorem dll_delete_twice (m : dmem) (l x y : Z) (xs : list Z) :
  dring m l (x :: xs) -> y ∈ dom m -> y ∉ l :: x :: xs ->
  exists m1 m2 m3, dll_delete m x = Some m1 /\ dll_prepend m1 l y = Some m2 /\
    dll_items (S (S (length xs))) m2 l = Some (y :: xs) /\
    dll_delete m2 x = Some m3 /\ dll_items (S (length xs)) m3 l = Some xs.
Proof.
  intros R Hy Hn. destruct (delete_second m l x xs R) as (m1 & E1 & D1 & R1 & Ex).
  destruct (insert_head m1 l xs y R1) as (m2 & E2 & D2 & R2 & F); [by rewrite D1|set_solver|].
  pose proof R as [Hnd Hp]. cbn [app path] in Hp. destruct Hp as (_ & Exp & Hp).
  assert (dll_next_p m x = Some (default l (head xs))) as Exn by (destruct xs; apply Hp).
  rewrite !list.NoDup_cons in Hnd.
  assert (m2 !! x = m !! x) as Ex2 by (rewrite F; [done|set_solver]).
  destruct (unlink_between m2 l y x xs R2) as (m3 & E3 & _ & R3 & _).
  - unfold dll_prev_p in *. by rewrite Ex2.
  - unfold dll_next_p in *. by rewrite Ex2.
  - set_solver.
  - exists m1, m2, m3. split_and!; [done|done|apply walk_ring; [done|cbn; lia]|done|apply walk_ring; [done|lia]].
Qed.

Lemma dll_delete_twice_witness :
  exists m0 m m3, dll_init mem4 1 = Some m0 /\ dll_run 1 [DAppend 2; DAppend 3] m0 = Some m /\
    dll_run 1 [DDelete 2; DPrepend 4; DDelete 2] m = Some m3 /\ dll_items 2 m3 1 = Some [3].
Proof.
  destruct (init_ring mem4 1) as (m0 & E0 & D0 & R0).
  { apply elem_of_dom. vm_compute. eexists. reflexivity. }
  destruct (dll_run_refines 1 (dom mem4) [DAppend 2; DAppend 3] m0 [] [2; 3] R0) as (m & E & R).
  { by rewrite D0. }
  { vm_compute. reflexivity. }
  destruct (dll_delete_twice m 1 2 4 [3] R) as (m1 & m2 & m3 & E1 & E2 & _ & E3 & E4).
  { vm_compute in E0. injection E0 as <-. vm_compute in E. injection E as <-.
    apply elem_of_dom. vm_compute. eexists. reflexivity. }
  { apply (bool_decide_unpack _). vm_compute. exact I. }
  exists m0, m, m3. split; [exact E0|]. split; [exact E|]. split; [|exact E4].
  cbn [dll_run dll_step]. rewrite E1. cbn [mbind option_bind]. rewrite E2. cbn [mbind option_bind].
  rewrite E3. reflexivity.
Defined.
