(* ===== verification/FlowTx.v ===== *)
(** * The transmit path: from a tagged packet to its flow ring

    dhd/sys/dhd_pcie.c (dhd_bus_txdata, dhd_bus_schedule_queue, the flow-ring
    requests and responses), with the deletion loops of dhd_flowring.c and the
    flush of dhd_linux.c: a packet waits in its flow's backup queue
    ([FlowQueue]) and moves to the flow ring when the ring is open and has
    room.  The protocol layer below (dhd_prot_txdata, dhd_prot_flow_ring_create
    ...) is used through the class [TxProt].

    One entry of [flow_ring_table] (FlowTable.v) per ring; the list of open
    rings is the doubly linked list of [Dll], the node of ring k at address k
    and the sentinel const_flowring at -1.  Packets freed are also listed in
    [b_freed], in the order of the calls to PKTFREE.  DHDTCPACK_SUPPRESS and
    DHD_LOSSLESS_ROAMING are not defined. *)
From Stdlib Require Import ZArith Lia.
From stdpp Require Import base option numbers gmap list.
From S2P Require Import Prelude IdAllocator Id16Map PktQueue PktChain FlowQueue FlowTable Dll.

Definition BCME_NOTREADY : Z := -25.

(** ** What the transmit path needs from the protocol layer

    [tp_live r f] says that flow [f] has a ring of the pool (prot_info),
    [tp_posted r f] the packets posted on it so far, oldest first. *)
Class TxProt (R : Type) := {
  tp_ok : R -> Prop;
  tp_live : R -> Z -> bool;
  tp_posted : R -> Z -> list Z;
  dhd_prot_txdata : R -> Z -> Z -> Z -> option (Z * R);          (* flow id, packet, interface *)
  dhd_prot_txdata_write_flush : R -> Z -> option R;
  dhd_prot_flow_ring_create : R -> flow_ring_node -> option (Z * R);
  dhd_prot_flow_ring_delete : R -> flow_ring_node -> option (Z * R);
  flowrings_pool_release : R -> Z -> option R;
  tp_range : Z -> bool;                                          (* the flow ids that have a ring *)
  txdata_law : forall r f p i, tp_ok r -> tp_live r f = true -> p <> 0 ->
    exists rc r', dhd_prot_txdata r f p i = Some (rc, r') /\ tp_ok r' /\
      (forall g, tp_live r' g = tp_live r g) /\
      forall g, tp_posted r' g = (if decide (g = f /\ rc = BCME_OK) then tp_posted r g ++ [p] else tp_posted r g);
  write_flush_law : forall r f, tp_ok r -> tp_live r f = true ->
    exists r', dhd_prot_txdata_write_flush r f = Some r' /\ tp_ok r' /\
      (forall g, tp_live r' g = tp_live r g) /\ forall g, tp_posted r' g = tp_posted r g;
  create_law : forall r n, tp_ok r -> tp_range (fr_flowid n) = true ->
    exists rc r', dhd_prot_flow_ring_create r n = Some (rc, r') /\ tp_ok r' /\
      (forall g, tp_posted r' g = tp_posted r g) /\
      (forall g, g <> fr_flowid n -> tp_live r' g = tp_live r g) /\
      (rc = BCME_OK -> tp_live r' (fr_flowid n) = true);
  delete_law : forall r n, tp_ok r ->
    exists rc r', dhd_prot_flow_ring_delete r n = Some (rc, r') /\ tp_ok r' /\
      (forall g, tp_posted r' g = tp_posted r g) /\ (forall g, tp_live r' g = tp_live r g);
  release_law : forall r f, tp_ok r -> tp_range f = true ->
    exists r', flowrings_pool_release r f = Some r' /\ tp_ok r' /\
      (forall g, tp_posted r' g = tp_posted r g) /\ (forall g, g <> f -> tp_live r' g = tp_live r g)
}.

(** ** State *)
Record dhd_bus_tx (A R : Type) := mk_bus {
  b_pub : flow_pub A;
  b_heap : heap;
  b_list : dmem;              (* const_flowring *)
  b_prot : R;
  b_freed : list Z;
  max_sub_queues : Z
}.
Arguments mk_bus {_ _}. Arguments b_pub {_ _}. Arguments b_heap {_ _}. Arguments b_list {_ _}.
Arguments b_prot {_ _}. Arguments b_freed {_ _}. Arguments max_sub_queues {_ _}.

Section ops.
Context {A R : Type} {managed : list Z} `{!IdAllocator A managed} `{!TxProt R}.
Implicit Types (b : dhd_bus_tx A R).

Definition const_flowring : Z := -1.

Definition DHD_FLOW_RING b (flowid : Z) : option flow_ring_node :=
  t ← flow_ring_table (b_pub b); aget t flowid.
Definition put_node b (flowid : Z) (n : flow_ring_node) : option (dhd_bus_tx A R) :=
  t ← flow_ring_table (b_pub b); t ← aset t flowid n;
  Some (mk_bus (set_table (b_pub b) t) (b_heap b) (b_list b) (b_prot b) (b_freed b) (max_sub_queues b)).
Definition set_heap b (h : heap) (freed : list Z) : dhd_bus_tx A R :=
  mk_bus (b_pub b) h (b_list b) (b_prot b) (b_freed b ++ freed) (max_sub_queues b).
Definition set_prot b (r : R) : dhd_bus_tx A R :=
  mk_bus (b_pub b) (b_heap b) (b_list b) r (b_freed b) (max_sub_queues b).
Definition set_list b (m : dmem) : dhd_bus_tx A R :=
  mk_bus (b_pub b) (b_heap b) m (b_prot b) (b_freed b) (max_sub_queues b).
Definition set_pub b (p : flow_pub A) : dhd_bus_tx A R :=
  mk_bus p (b_heap b) (b_list b) (b_prot b) (b_freed b) (max_sub_queues b).
Definition with_queue (n : flow_ring_node) (q : flow_queue) : flow_ring_node :=
  {| fr_queue := q; fr_active := fr_active n; fr_status := fr_status n; fr_flowid := fr_flowid n;
     fr_tid := fr_tid n; fr_ifindex := fr_ifindex n; fr_sa := fr_sa n; fr_da := fr_da n |}.
Definition with_status (n : flow_ring_node) (st : Z) (active : bool) : flow_ring_node :=
  {| fr_queue := fr_queue n; fr_active := active; fr_status := st; fr_flowid := fr_flowid n;
     fr_tid := fr_tid n; fr_ifindex := fr_ifindex n; fr_sa := fr_sa n; fr_da := fr_da n |}.

(** One packet freed. *)
Definition pkt_free b (p : Z) : option (dhd_bus_tx A R) :=
  h ← PKTFREE (b_heap b) p; Some (set_heap b h [p]).

(** The loop runs once per waiting packet: one more than the queue holds is
    enough. *)
Fixpoint schedule_loop (fuel : nat) b (flow_id : Z) (ret : Z) : option (Z * dhd_bus_tx A R) :=
  match fuel with
  | O => None
  | S fuel =>
      n ← DHD_FLOW_RING b flow_id;
      '(txp, h, q) ← dhd_flow_queue_dequeue (b_heap b) (fr_queue n);
      b ← put_node (set_heap b h []) flow_id (with_queue n q);
      if txp =? 0 then
        r ← dhd_prot_txdata_write_flush (b_prot b) flow_id;
        Some (ret, set_prot b r)
      else
        '(ret, r) ← dhd_prot_txdata (b_prot b) flow_id txp (fr_ifindex n);
        let b := set_prot b r in
        if negb (ret =? BCME_OK) then
          r ← dhd_prot_txdata_write_flush (b_prot b) flow_id;
          let b := set_prot b r in
          n ← DHD_FLOW_RING b flow_id;
          '(h, q) ← dhd_flow_queue_reinsert (b_heap b) (fr_queue n) txp;
          b ← put_node (set_heap b h []) flow_id (with_queue n q);
          Some (BCME_OK, b)
        else schedule_loop fuel b flow_id ret
  end.

Definition dhd_bus_schedule_queue b (flow_id : Z) : option (Z * dhd_bus_tx A R) :=
  if max_sub_queues b <=? flow_id then Some (0, b) else
  n ← DHD_FLOW_RING b flow_id;
  if negb (fr_status n =? FLOW_RING_STATUS_OPEN) then Some (BCME_NOTREADY, b) else
  schedule_loop (S (Z.to_nat (q_len (fr_queue n)))) b flow_id BCME_OK.

(** [flowid] is the packet's tag; [txp] is not chained, so PKTCFREE frees it
    alone.  A packet the full queue refused is tried once more after the queue
    was scheduled. *)
Definition dhd_bus_txdata b (txp flowid ifidx : Z) : option (Z * dhd_bus_tx A R) :=
  match flowid_allocator (b_pub b) with
  | None => b ← pkt_free b txp; Some (BCME_OK, b)
  | Some _ =>
      n ← DHD_FLOW_RING b flowid;
      if (num_flow_rings (b_pub b) <=? flowid) || negb (fr_active n) ||
         (fr_status n =? FLOW_RING_STATUS_DELETE_PENDING) || (fr_status n =? FLOW_RING_STATUS_STA_FREEING)
      then b ← pkt_free b txp; Some (BCME_ERROR, b)
      else
        '(ret, h, q) ← dhd_flow_queue_enqueue (b_heap b) (fr_queue n) txp;
        b ← put_node (set_heap b h []) flowid (with_queue n q);
        let pend := negb (ret =? BCME_OK) in
        if negb (fr_status n =? 0) then
          if pend then b ← pkt_free b txp; Some (ret, b) else Some (BCME_OK, b)
        else
          '(ret, b) ← dhd_bus_schedule_queue b flowid;
          if pend then
            n ← DHD_FLOW_RING b flowid;
            '(ret, h, q) ← dhd_flow_queue_enqueue (b_heap b) (fr_queue n) txp;
            b ← put_node (set_heap b h []) flowid (with_queue n q);
            if negb (ret =? BCME_OK) then b ← pkt_free b txp; Some (ret, b) else Some (ret, b)
          else Some (ret, b)
  end.

(** Free everything the queue of a ring holds. *)
Definition flush_ring b (flowid : Z) : option (dhd_bus_tx A R) :=
  n ← DHD_FLOW_RING b flowid;
  '(ps, h, q) ← flow_queue_flush (S (Z.to_nat (q_len (fr_queue n)))) (b_heap b) (fr_queue n);
  put_node (set_heap b h ps) flowid (with_queue n q).
Definition set_status b (flowid st : Z) : option (dhd_bus_tx A R) :=
  n ← DHD_FLOW_RING b flowid; put_node b flowid (with_status n st (fr_active n)).

Definition dhd_bus_clean_flow_ring b (flowid : Z) : option (dhd_bus_tx A R) :=
  b ← flush_ring b flowid;
  n ← DHD_FLOW_RING b flowid;
  b ← put_node b flowid (with_status n FLOW_RING_STATUS_CLOSED false);
  m ← dll_delete (b_list b) flowid;
  let b := set_list b m in
  r ← flowrings_pool_release (b_prot b) (fr_flowid n);
  let b := set_prot b r in
  p ← dhd_flowid_free (b_pub b) (fr_ifindex n) (fr_flowid n);
  Some (set_pub b p).

Definition dhd_bus_flow_ring_create_request b (n : flow_ring_node) : option (Z * dhd_bus_tx A R) :=
  '(rc, r) ← dhd_prot_flow_ring_create (b_prot b) n;
  Some (if negb (rc =? BCME_OK) then BCME_NOMEM else BCME_OK, set_prot b r).

(** dhd_flowid_lookup with the request it makes when it has made a node. *)
Definition flowid_lookup b (malloc_ok : bool) (ifindex prio : Z) (sa da : ether_addr)
    : option (Z * option Z * dhd_bus_tx A R) :=
  '(rc, fid, p, asked) ← dhd_flowid_lookup (b_pub b) malloc_ok true ifindex prio sa da;
  let b := set_pub b p in
  match asked, fid with
  | true, Some id =>
      n ← DHD_FLOW_RING b id;
      '(rc, b) ← dhd_bus_flow_ring_create_request b n;
      if negb (rc =? BCME_OK) then Some (BCME_ERROR, None, b) else Some (BCME_OK, Some id, b)
  | _, _ => Some (rc, fid, b)
  end.

Definition dhd_bus_flow_ring_create_response b (flowid status : Z) : option (dhd_bus_tx A R) :=
  if negb (status =? BCME_OK) then dhd_bus_clean_flow_ring b flowid else
  b ← set_status b flowid FLOW_RING_STATUS_OPEN;
  m ← dll_prepend (b_list b) const_flowring flowid;
  '(_, b) ← dhd_bus_schedule_queue (set_list b m) flowid;
  Some b.

Definition dhd_bus_flow_ring_delete_request b (flowid : Z) : option (Z * dhd_bus_tx A R) :=
  n ← DHD_FLOW_RING b flowid;
  if fr_status n =? FLOW_RING_STATUS_DELETE_PENDING then Some (BCME_ERROR, b) else
  b ← set_status b flowid FLOW_RING_STATUS_DELETE_PENDING;
  b ← flush_ring b flowid;
  n ← DHD_FLOW_RING b flowid;
  '(_, r) ← dhd_prot_flow_ring_delete (b_prot b) n;
  Some (BCME_OK, set_prot b r).

Definition dhd_bus_flow_ring_delete_response b (flowid status : Z) : option (dhd_bus_tx A R) :=
  if negb (status =? BCME_OK) then Some b else dhd_bus_clean_flow_ring b flowid.

Definition dhd_bus_flow_ring_flush_response b (flowid status : Z) : option (dhd_bus_tx A R) :=
  if negb (status =? BCME_OK) then Some b else set_status b flowid FLOW_RING_STATUS_OPEN.

(** One flow of dhd_sta_free. *)
Definition sta_free_flow b (flowid : Z) : option (dhd_bus_tx A R) :=
  if flowid =? FLOWID_INVALID then Some b else
  b ← set_status b flowid FLOW_RING_STATUS_STA_FREEING;
  n ← DHD_FLOW_RING b flowid;
  if DHD_FLOW_QUEUE_EMPTY (fr_queue n) then Some b else flush_ring b flowid.

(** The loops over the ring table. *)
Fixpoint delete_loop (fuel : nat) b (id : Z) (sel : flow_ring_node -> bool) : option (dhd_bus_tx A R) :=
  match fuel with
  | O => Some b
  | S fuel =>
      n ← DHD_FLOW_RING b id;
      b ← (if sel n then '(_, b) ← dhd_bus_flow_ring_delete_request b id; Some b else Some b);
      delete_loop fuel b (id + 1) sel
  end.
Definition dhd_flow_rings_delete b (ifindex : Z) : option (dhd_bus_tx A R) :=
  if DHD_MAX_IFS <=? ifindex then Some b else
  match flow_ring_table (b_pub b) with
  | None => Some b
  | Some _ => delete_loop (Z.to_nat (num_flow_rings (b_pub b))) b 0
                (fun n => fr_active n && (fr_ifindex n =? ifindex))
  end.
Definition dhd_flow_rings_delete_for_peer b (ifindex : Z) (addr : ether_addr) : option (dhd_bus_tx A R) :=
  if DHD_MAX_IFS <=? ifindex then Some b else
  match flow_ring_table (b_pub b) with
  | None => Some b
  | Some _ => delete_loop (Z.to_nat (num_flow_rings (b_pub b))) b 0
                (fun n => fr_active n && (fr_ifindex n =? ifindex) && bool_decide (fr_da n = addr) &&
                          negb (fr_status n =? FLOW_RING_STATUS_DELETE_PENDING))
  end.
End ops.

(** * The invariant *)

(** The packets given to a flow, in order. *)
Definition of_flow (G : list (Z * Z)) (f : Z) : list Z := (filter (fun fp => fp.1 = f) G).*2.
(** Those still in the driver's or the ring's hands. *)
Definition kept_pkts (freed : list Z) (l : list Z) : list Z := filter (fun p => p ∉ freed) l.

Section inv.
Context {A R : Type} {managed : list Z} `{!IdAllocator A managed} `{!TxProt R}.
Context (Hinv : FLOWID_INVALID ∉ managed).
Implicit Types (b : dhd_bus_tx A R) (G : list (Z * Z)) (mid : Z -> list Z).

(** The pointers of every node of the ring list lead to nodes. *)
Definition dll_closed (m : dmem) (num : Z) : Prop :=
  all_valid m /\ const_flowring ∈ dom m /\ forall k, 0 <= k < num -> k ∈ dom m.

(** The queue of ring [f]; [mid f] are packets between queue and ring. *)
Record ring_view b G mid (f : Z) (n : flow_ring_node) (xs : list Z) : Prop := {
  rv_queue : fq_ok (b_heap b) (fr_queue n) xs;
  rv_max : q_len (fr_queue n) <= q_max (fr_queue n) < 2 ^ 16;
  rv_cb : q_cb (fr_queue n) = dhd_flow_queue_overflow;
  rv_id : fr_flowid n = f;
  rv_if : 0 <= fr_ifindex n < DHD_MAX_IFS;
  rv_live : fr_status n = FLOW_RING_STATUS_OPEN -> tp_live (b_prot b) f = true;
  rv_line : tp_posted (b_prot b) f ++ mid f ++ xs = kept_pkts (b_freed b) (of_flow G f)
}.

(** [H0] are all the packets there are, [num] the number of rings. *)
Record tx_inv (H0 : gset Z) (num : Z) b G mid : Prop := {
  ti_pub : flow_wf (managed := managed) (b_pub b);
  ti_num : num_flow_rings (b_pub b) = num;
  ti_rings : forall f, 0 <= f < num -> exists n xs, DHD_FLOW_RING b f = Some n /\ ring_view b G mid f n xs;
  ti_prot : tp_ok (b_prot b);
  ti_list : dll_closed (b_list b) num;
  ti_given : NoDup G.*2;
  ti_heap : dom (b_heap b) = H0 ∖ list_to_set (b_freed b);
  ti_from : forall p, p ∈ G.*2 -> p ∈ H0;
  ti_null : 0 ∉ H0;
  ti_freed : NoDup (b_freed b) /\ forall p, p ∈ b_freed b -> p ∈ G.*2;
  ti_mng : forall f, f ∈ managed -> 0 <= f < num;
  ti_range : forall f, tp_range f = true -> 0 <= f < num
}.

Definition none : Z -> list Z := fun _ => [].

Lemma of_flow_in G f p : p ∈ of_flow G f <-> (f, p) ∈ G.
Proof.
  unfold of_flow. rewrite list_elem_of_fmap. split.
  - intros ([g q] & -> & [E Hin]%list_elem_of_filter). cbn in *. by subst.
  - intros Hin. exists (f, p). split; [done|]. by apply list_elem_of_filter.
Qed.

Lemma of_flow_disj G f g p : NoDup G.*2 -> p ∈ of_flow G f -> p ∈ of_flow G g -> f = g.
Proof.
  intros Hnd Hf%of_flow_in Hg%of_flow_in.
  assert ((f, p) = (g, p)) as [= ->]; [|done]. by apply (nodup_inj snd G).
Qed.

Lemma of_flow_nodup G f : NoDup G.*2 -> NoDup (of_flow G f).
Proof.
  induction G as [|[g p] G IH]; [intros _; apply NoDup_nil_2|].
  rewrite fmap_cons. intros [Hp Hnd]%list.NoDup_cons. unfold of_flow.
  rewrite filter_cons. case_decide as E; [|by apply IH]. cbn [fst] in E. subst g.
  rewrite fmap_cons. apply list.NoDup_cons. split; [|by apply IH].
  intros Hin%of_flow_in. apply Hp. by apply (list_elem_of_fmap_2 snd G (f, p)).
Qed.

Lemma of_flow_snoc G f p g : of_flow (G ++ [(f, p)]) g = of_flow G g ++ (if decide (f = g) then [p] else []).
Proof. unfold of_flow. rewrite filter_app, fmap_app, filter_cons. cbn. by case_decide. Qed.

Lemma of_flow_sub G f p : p ∈ of_flow G f -> p ∈ G.*2.
Proof. intros Hin%of_flow_in. by apply (list_elem_of_fmap_2 snd G (f, p)). Qed.

(** The waiting packets of a ring are packets of its flow, allocated. *)
Lemma view_in b G mid f n xs p : ring_view b G mid f n xs -> p ∈ mid f ++ xs -> p ∈ of_flow G f /\ p ∉ b_freed b.
Proof.
  intros V Hp. assert (p ∈ kept_pkts (b_freed b) (of_flow G f)) as Hk.
  { rewrite <- (rv_line _ _ _ _ _ _ V), elem_of_app. by right. }
  apply list_elem_of_filter in Hk. tauto.
Qed.

Lemma inv_dom H0 num b G mid p :
  tx_inv H0 num b G mid -> p ∈ G.*2 -> p ∉ b_freed b -> p ∈ dom (b_heap b).
Proof.
  intros I Hp Hf. rewrite (ti_heap _ _ _ _ _ I). apply elem_of_difference. split; [by apply I|].
  by rewrite elem_of_list_to_set.
Qed.
Lemma inv_null H0 num b G mid : tx_inv H0 num b G mid -> b_heap b !! 0 = None.
Proof.
  intros I. apply not_elem_of_dom. rewrite (ti_heap _ _ _ _ _ I). intros [Hin _]%elem_of_difference.
  by apply (ti_null _ _ _ _ _ I).
Qed.

Lemma view_ext b b' G mid f n xs :
  b_heap b' = b_heap b -> b_prot b' = b_prot b -> b_freed b' = b_freed b ->
  ring_view b G mid f n xs -> ring_view b' G mid f n xs.
Proof. intros E1 E2 E3 [? ? ? ? ? ? ?]. constructor; by rewrite ?E1, ?E2, ?E3. Qed.

Lemma kept_more freed ps l : (forall p, p ∈ l -> p ∉ ps) -> kept_pkts (freed ++ ps) l = kept_pkts freed l.
Proof.
  intros Hd. unfold kept_pkts. induction l as [|x l IH]; [done|]. rewrite !filter_cons.
  assert (x ∉ ps) by (apply Hd, list_elem_of_here).
  rewrite IH by (intros; apply Hd; by apply list_elem_of_further).
  destruct (decide (x ∉ freed)); [rewrite !decide_True|rewrite !decide_False]; rewrite ?elem_of_app; tauto.
Qed.

(** What an update of one ring leaves alone. *)
Definition frame (b b' : dhd_bus_tx A R) : Prop :=
  b_prot b' = b_prot b /\ b_list b' = b_list b /\ max_sub_queues b' = max_sub_queues b /\
  exists t, b_pub b' = set_table (b_pub b) t.

(** [G'] is [G], or [G] with one more packet, given to [f]. *)
Definition grows (H0 : gset Z) (G G' : list (Z * Z)) (f : Z) : Prop :=
  G' = G \/ exists p, G' = G ++ [(f, p)] /\ p ∉ G.*2 /\ p ∈ H0.

Lemma grows_facts H0 G G' f : grows H0 G G' f -> NoDup G.*2 -> (forall p, p ∈ G.*2 -> p ∈ H0) ->
  NoDup G'.*2 /\ (forall p, p ∈ G'.*2 -> p ∈ H0) /\ (forall p, p ∈ G.*2 -> p ∈ G'.*2) /\
  (forall g, g <> f -> of_flow G' g = of_flow G g) /\ (forall p, p ∈ of_flow G f -> p ∈ of_flow G' f).
Proof.
  intros [->|(p & -> & Hp & Hp0)] Hnd Hin; [by split_and!|]. rewrite fmap_app. cbn.
  split_and!.
  - apply NoDup_app. split_and!; [done| |apply NoDup_singleton]. by intros x Hx ->%list_elem_of_singleton.
  - intros x [Hx| ->%list_elem_of_singleton]%elem_of_app; auto.
  - intros x Hx. apply elem_of_app. by left.
  - intros g Hg. rewrite of_flow_snoc, decide_False by done. apply app_nil_r.
  - intros x Hx. rewrite of_flow_snoc. apply elem_of_app. by left.
Qed.

Lemma put_ring H0 num b G G' mid f n xs n' h' ps xs' mid' :
  tx_inv H0 num b G mid -> 0 <= f < num -> DHD_FLOW_RING b f = Some n -> ring_view b G mid f n xs ->
  grows H0 G G' f ->
  dom h' = dom (b_heap b) ∖ list_to_set ps -> (forall x, x ∉ of_flow G' f -> h' !! x = b_heap b !! x) ->
  (forall g, g <> f -> mid' g = mid g) ->
  NoDup ps -> (forall p, p ∈ ps -> p ∈ of_flow G' f /\ p ∉ b_freed b) ->
  ring_view (set_heap b h' ps) G' mid' f n' xs' ->
  exists b', put_node (set_heap b h' ps) f n' = Some b' /\ tx_inv H0 num b' G' mid' /\
    DHD_FLOW_RING b' f = Some n' /\ ring_view b' G' mid' f n' xs' /\ frame b b' /\ b_freed b' = b_freed b ++ ps /\
    b_heap b' = h'.
Proof.
  intros I Hf Hn V HG Hdom Hfr Hmid Hps Hpin V'. pose proof I as [I1 I2 I3 I4 I5 I6 I7 I8 I9 I10 I11 I12].
  destruct (grows_facts _ _ _ _ HG I6 I8) as (G1 & G2 & G3 & G4 & G5).
  unfold DHD_FLOW_RING in Hn. destruct (fw_table _ I1) as (t & Ht & Htm). rewrite Ht in Hn. cbn [mbind option_bind] in Hn.
  pose proof (aget_lt _ _ _ Hn) as Hlt. unfold put_node. cbn [b_pub set_heap]. rewrite Ht. cbn [mbind option_bind].
  rewrite aset_Some by done. cbn [mbind option_bind]. set (t' := <[Z.to_nat f := n']> t).
  eexists. split; [done|].
  match goal with |- tx_inv _ _ ?x _ _ /\ _ => set (b' := x) end.
  assert (ring_view b' G' mid' f n' xs') as V2 by (revert V'; by apply view_ext).
  assert (DHD_FLOW_RING b' f = Some n') as Hn'.
  { unfold DHD_FLOW_RING. cbn. unfold t'. rewrite aget_insert by done. by case_decide. }
  split_and!; [|done|done|by split_and!; [..|eexists]|done|done].
  constructor; cbn; try done.
  - apply set_table_wf; [done|]. intros i Hi. unfold t'. rewrite length_insert. by apply Htm.
  - intros g Hg. destruct (decide (g = f)) as [->|Hgf]; [by exists n', xs'|].
    destruct (I3 g Hg) as (m & ys & Hm & W). exists m, ys. split.
    { unfold DHD_FLOW_RING in *. rewrite Ht in Hm. cbn. unfold t'. rewrite aget_insert by done. by case_decide. }
    pose proof W as [W1 W2 W3 W4 W4' W5 W6]. constructor; cbn; try done.
    + eapply fq_frame; [|exact W1]. intros x Hx. apply Hfr. intros Hxf.
      destruct (view_in _ _ _ _ _ _ x W) as [Hxg _]; [apply elem_of_app; by right|].
      rewrite <- G4 in Hxg by done. by pose proof (of_flow_disj G' f g x G1 Hxf Hxg).
    + rewrite Hmid, W6, G4 by done. symmetry. apply kept_more. intros p Hpg Hpp.
      apply Hpin in Hpp as [Hpf _]. rewrite <- G4 in Hpg by done. by pose proof (of_flow_disj G' f g p G1 Hpf Hpg).
  - rewrite Hdom, I7, list_to_set_app_L. set_solver.
  - split; [apply NoDup_app; split_and!; [apply I10| |done]|].
    + intros x Hx Hxp. by apply Hpin in Hxp as [_ ?].
    + intros p [Hp|Hp]%elem_of_app; [by apply G3, I10|]. apply Hpin in Hp as [Hp _]. by eapply of_flow_sub.
Qed.

(** Moving packets between the queue and [mid], at the head. *)
Lemma queue_step H0 num b G mid f n xs q' h' xs' mid' :
  tx_inv H0 num b G mid -> 0 <= f < num -> DHD_FLOW_RING b f = Some n -> ring_view b G mid f n xs ->
  fq_ok h' q' xs' -> q_len q' <= q_max q' < 2 ^ 16 -> q_cb q' = dhd_flow_queue_overflow ->
  only (b_heap b) h' (mid f ++ xs) ->
  mid' f ++ xs' = mid f ++ xs -> (forall g, g <> f -> mid' g = mid g) ->
  exists b', put_node (set_heap b h' []) f (with_queue n q') = Some b' /\ tx_inv H0 num b' G mid' /\
    DHD_FLOW_RING b' f = Some (with_queue n q') /\ ring_view b' G mid' f (with_queue n q') xs' /\ frame b b' /\
    b_freed b' = b_freed b.
Proof.
  intros I Hf Hn V Hq Hm Hcb [D F] Hl Hmid. pose proof V as [V1 V2 V3 V4 V4' V5 V6].
  destruct (put_ring H0 num b G G mid f n xs (with_queue n q') h' [] xs' mid' I Hf Hn V) as
    (b' & E & I' & Hn' & V' & Fr & Efr & _).
  - by left.
  - rewrite D. set_solver.
  - intros x Hx. apply F. intros Hx'. apply Hx. by apply (view_in _ _ _ _ _ _ _ V).
  - done.
  - apply NoDup_nil_2.
  - by intros p ?%elem_of_nil.
  - constructor; cbn; try done. rewrite app_nil_r, <- V6. by f_equal.
  - exists b'. split_and!; try done. by rewrite Efr, app_nil_r.
Qed.

Lemma view_prot b G mid mid' f n xs r' :
  ring_view b G mid f n xs -> tp_posted r' f ++ mid' f = tp_posted (b_prot b) f ++ mid f ->
  (tp_live (b_prot b) f = true -> tp_live r' f = true) ->
  ring_view (set_prot b r') G mid' f n xs.
Proof.
  intros [V1 V2 V3 V4 V4' V5 V6] Hp Hl. constructor; cbn; try done; [auto|].
  by rewrite app_assoc, Hp, <- app_assoc.
Qed.

(** A step of the protocol layer that posts at most what [mid] holds. *)
Lemma prot_step H0 num b G mid mid' r' :
  tx_inv H0 num b G mid -> tp_ok r' ->
  (forall f, 0 <= f < num -> tp_posted r' f ++ mid' f = tp_posted (b_prot b) f ++ mid f) ->
  (forall f, 0 <= f < num -> tp_live (b_prot b) f = true -> tp_live r' f = true) ->
  tx_inv H0 num (set_prot b r') G mid'.
Proof.
  intros [I1 I2 I3 I4 I5 I6 I7 I8 I9 I10 I11 I12] Hok Hp Hl. constructor; try done.
  intros f Hf. destruct (I3 f Hf) as (n & xs & Hn & V). exists n, xs. split; [done|].
  eapply view_prot; eauto.
Qed.

(** ** Scheduling a queue *)

(** The ring of [f] takes at least [k] more packets. *)
Fixpoint accepts (r : R) (f : Z) (k : nat) : Prop :=
  match k with
  | O => True
  | S k => forall p i, p <> 0 -> exists r', dhd_prot_txdata r f p i = Some (BCME_OK, r') /\ accepts r' f k
  end.

Lemma schedule_loop_inv H0 num f fuel : forall b G n xs ret,
  tx_inv H0 num b G none -> 0 <= f < num -> DHD_FLOW_RING b f = Some n -> ring_view b G none f n xs ->
  fr_status n = FLOW_RING_STATUS_OPEN -> (length xs < fuel)%nat ->
  exists ret' b', schedule_loop fuel b f ret = Some (ret', b') /\ tx_inv H0 num b' G none /\
    b_freed b' = b_freed b /\ b_list b' = b_list b /\ (ret = BCME_OK -> ret' = BCME_OK) /\
    (exists t, b_pub b' = set_table (b_pub b) t) /\
    (accepts (b_prot b) f (length xs) -> tp_posted (b_prot b') f = tp_posted (b_prot b) f ++ xs).
Proof.
  induction fuel as [|fuel IH]; intros b G n xs ret I Hf Hn V Hst Hfu; [lia|]. cbn [schedule_loop].
  rewrite Hn. cbn [mbind option_bind].
  pose proof (inv_null _ _ _ _ _ I) as Hz. pose proof V as [V1 V2 V3 V4 V4' V5 V6].
  assert (tp_live (b_prot b) f = true) as Hlive by auto.
  destruct xs as [|p xs].
  - rewrite (dequeue_nil _ _ V1). cbn [mbind option_bind].
    destruct (queue_step H0 num b G none f n [] (fr_queue n) (b_heap b) [] none I Hf Hn V V1 V2 V3) as
      (b1 & -> & I1 & _ & _ & [Ep [El [_ [t Et]]]] & Efr); [by split|done|done|]. cbn [mbind option_bind]. rewrite Z.eqb_refl.
    destruct (write_flush_law (b_prot b1) f (ti_prot _ _ _ _ _ I1)) as (r & -> & Hok & Hl & Hp); [by rewrite Ep|].
    cbn [mbind option_bind]. eexists _, _. split; [done|]. split_and!; [|done|done|done|by exists t|].
    + eapply prot_step; [exact I1|done|intros; by rewrite Hp|intros; by rewrite Hl].
    + intros _. cbn. by rewrite Hp, Ep, app_nil_r.
  - destruct (dequeue_ok _ _ p xs Hz V1) as (h1 & q1 & -> & Hpz & Q1 & O1 & M1 & C1 & L1); [lia|].
    cbn [mbind option_bind]. set (mid1 := fun g => if decide (g = f) then [p] else []).
    assert (mid1 f = [p]) as Em by (unfold mid1; by case_decide).
    destruct (queue_step H0 num b G none f n (p :: xs) q1 h1 xs mid1 I Hf Hn V Q1) as
      (b1 & -> & I1 & Hn1 & V1' & [Ep [El [_ [t Et]]]] & Efr).
    { rewrite M1, L1. lia. } { congruence. }
    { destruct O1 as [D F]. split; [done|]. intros x Hx. apply F. intros ->%list_elem_of_singleton.
      apply Hx, list_elem_of_here. }
    { by rewrite Em. } { intros g Hg. unfold mid1. by case_decide. }
    cbn [mbind option_bind]. rewrite (proj2 (Z.eqb_neq _ _) Hpz).
    assert (tp_live (b_prot b1) f = true) as Hlive1 by (by rewrite Ep).
    destruct (txdata_law (b_prot b1) f p (fr_ifindex n) (ti_prot _ _ _ _ _ I1) Hlive1 Hpz) as (rc & r1 & Etx & Hok1 & Hl1 & Hp1).
    rewrite Etx. cbn [mbind option_bind]. destruct (Z.eqb_spec rc BCME_OK) as [->|Hrc]; cbn [negb].
    + assert (tx_inv H0 num (set_prot b1 r1) G none) as I2.
      { eapply prot_step; [exact I1|done| |intros; by rewrite Hl1]. intros g Hg. rewrite Hp1, app_nil_r.
        unfold mid1. repeat case_decide; try tauto; by rewrite ?app_nil_r. }
      destruct (IH (set_prot b1 r1) G (with_queue n q1) xs BCME_OK I2 Hf) as (ret' & b' & E & I' & E1 & E2 & E3 & [t2 Et2] & E4).
      * exact Hn1.
      * eapply view_prot; [exact V1'| |by rewrite Hl1]. rewrite Hp1, Em. rewrite decide_True by done. apply app_nil_r.
      * done.
      * cbn in Hfu. lia.
      * exists ret', b'. split_and!; [done|done|rewrite E1; exact Efr|rewrite E2; exact El|auto|exists t2; rewrite Et2; cbn; by rewrite Et|].
        intros Hacc. rewrite E4; cbn [b_prot set_prot].
        -- rewrite Hp1, decide_True by done. rewrite Ep, <- app_assoc. done.
        -- rewrite Ep in Etx. destruct (Hacc p (fr_ifindex n) Hpz) as (r2 & Er2 & Hacc2).
           rewrite Etx in Er2. by injection Er2 as <-.
    + cbn [b_prot set_prot]. destruct (write_flush_law r1 f Hok1) as (r2 & -> & Hok2 & Hl2 & Hp2); [by rewrite Hl1|].
      cbn [mbind option_bind].
      assert (tx_inv H0 num (set_prot (set_prot b1 r1) r2) G mid1) as I2.
      { change (set_prot (set_prot b1 r1) r2) with (set_prot b1 r2).
        eapply prot_step; [exact I1|done| |intros; by rewrite Hl2, Hl1]. intros g Hg. rewrite Hp2, Hp1.
        rewrite decide_False by tauto. done. }
      change (DHD_FLOW_RING (set_prot (set_prot b1 r1) r2) f) with (DHD_FLOW_RING b1 f). rewrite Hn1. cbn [mbind option_bind].
      set (b2 := set_prot (set_prot b1 r1) r2) in *.
      assert (ring_view b2 G mid1 f (with_queue n q1) xs) as V2'.
      { unfold b2. change (set_prot (set_prot b1 r1) r2) with (set_prot b1 r2).
        eapply view_prot; [exact V1'| |by rewrite Hl2, Hl1]. rewrite Hp2, Hp1, decide_False by tauto. done. }
      assert (p ∈ of_flow G f /\ p ∉ b_freed b2) as [Hpin Hpf].
      { apply (view_in _ _ _ _ _ _ p V2'). rewrite Em. apply list_elem_of_here. }
      pose proof (fq_nodup _ _ _ V1) as Hnd. apply list.NoDup_cons in Hnd as [Hpx _].
      destruct (reinsert_ok (b_heap b2) q1 xs p) as (h3 & q3 & E3 & Q3 & O3 & M3 & C3).
      { by eapply inv_null. } { apply V2'. } { eapply inv_dom; [exact I2| |done]. by eapply of_flow_sub. }
      { done. } { lia. }
      change (fr_queue (with_queue n q1)) with q1. rewrite E3. cbn [mbind option_bind].
      destruct (queue_step H0 num b2 G mid1 f (with_queue n q1) xs q3 h3 (p :: xs) none I2 Hf Hn1 V2' Q3) as
        (b3 & E4 & I3 & _ & _ & [_ [El3 [_ [t3 Et3]]]] & Efr3).
      { rewrite M3, (fq_len _ _ _ Q3), M1. rewrite (fq_len _ _ _ V1) in V2. cbn [length] in *. lia. }
      { congruence. }
      { rewrite Em. destruct O3 as [D F]. split; [done|]. intros x Hx. apply F. intros ->%list_elem_of_singleton.
        apply Hx, list_elem_of_here. }
      { by rewrite Em. } { intros g Hg. unfold mid1. by rewrite decide_False by done. }
      rewrite E4. cbn [mbind option_bind].
      eexists _, _. split; [done|].
      split_and!; [done|rewrite Efr3; exact Efr|rewrite El3; exact El|done|exists t3; rewrite Et3; cbn; by rewrite Et|].
      intros Hacc. exfalso. destruct (Hacc p (fr_ifindex n) Hpz) as (r5 & Er5 & _).
      rewrite Ep, Er5 in Etx. by injection Etx as <-.
Qed.

Lemma kept_snoc freed l p : p ∉ freed -> kept_pkts freed (l ++ [p]) = kept_pkts freed l ++ [p].
Proof. intros Hp. unfold kept_pkts. by rewrite filter_app, (filter_cons_True _ p). Qed.
Lemma kept_snoc_freed freed l p : p ∈ freed -> kept_pkts freed (l ++ [p]) = kept_pkts freed l.
Proof. intros Hp. unfold kept_pkts. rewrite filter_app, filter_cons_False by tauto. apply app_nil_r. Qed.

Lemma schedule_inv H0 num b G f n xs :
  tx_inv H0 num b G none -> 0 <= f < num -> DHD_FLOW_RING b f = Some n -> ring_view b G none f n xs ->
  exists ret b', dhd_bus_schedule_queue b f = Some (ret, b') /\ tx_inv H0 num b' G none /\
    b_freed b' = b_freed b /\ (exists t, b_pub b' = set_table (b_pub b) t) /\
    (fr_status n = FLOW_RING_STATUS_OPEN -> f < max_sub_queues b -> accepts (b_prot b) f (length xs) ->
     ret = BCME_OK /\ tp_posted (b_prot b') f = tp_posted (b_prot b) f ++ xs).
Proof.
  intros I Hf Hn V. destruct (fw_table _ (ti_pub _ _ _ _ _ I)) as (t0 & Ht0 & _).
  assert (exists t, b_pub b = set_table (b_pub b) t) as Hself.
  { exists t0. destruct (b_pub b); cbn in *. by subst. }
  unfold dhd_bus_schedule_queue. destruct (Z.leb_spec (max_sub_queues b) f).
  { eexists _, _. split_and!; try done. lia. }
  rewrite Hn. cbn [mbind option_bind].
  destruct (Z.eqb_spec (fr_status n) FLOW_RING_STATUS_OPEN) as [E|]; cbn [negb]; [|by eexists _, _].
  destruct (schedule_loop_inv H0 num f (S (Z.to_nat (q_len (fr_queue n)))) b G n xs BCME_OK I Hf Hn V E) as
    (ret & b' & Es & I' & E1 & _ & E2 & Et & E3).
  - rewrite (fq_len _ _ _ (rv_queue _ _ _ _ _ _ V)). lia.
  - exists ret, b'. split_and!; try done. auto.
Qed.

(** A new packet joins the queue, or is freed. *)
Lemma enqueue_inv H0 num b G f n xs p :
  tx_inv H0 num b G none -> 0 <= f < num -> DHD_FLOW_RING b f = Some n -> ring_view b G none f n xs ->
  p ∉ G.*2 -> p ∈ H0 -> q_len (fr_queue n) < q_max (fr_queue n) ->
  exists h q b', dhd_flow_queue_enqueue (b_heap b) (fr_queue n) p = Some (BCME_OK, h, q) /\
    put_node (set_heap b h []) f (with_queue n q) = Some b' /\ tx_inv H0 num b' (G ++ [(f, p)]) none /\
    DHD_FLOW_RING b' f = Some (with_queue n q) /\ ring_view b' (G ++ [(f, p)]) none f (with_queue n q) (xs ++ [p]) /\
    b_freed b' = b_freed b /\ frame b b'.
Proof.
  intros I Hf Hn V Hp Hp0 Hlt. pose proof V as [V1 V2 V3 V4 V4' V5 V6].
  assert (p ∉ b_freed b) as Hpf by (intros Hx; by apply Hp, (ti_freed _ _ _ _ _ I)).
  assert (p ∈ dom (b_heap b)) as Hpd.
  { rewrite (ti_heap _ _ _ _ _ I). apply elem_of_difference. by rewrite elem_of_list_to_set. }
  assert (forall x, x ∈ xs -> x ∈ of_flow G f) as Hxs.
  { intros x Hx. by apply (view_in _ _ _ _ _ _ x V). }
  destruct (enqueue_ok (b_heap b) (fr_queue n) xs p) as (h & q & E & Q & [D F] & M & C); [by eapply inv_null|done|done| |lia|].
  { intros Hx. apply Hp. by eapply of_flow_sub, Hxs. }
  assert (grows H0 G (G ++ [(f, p)]) f) as HG by (right; by exists p).
  destruct (put_ring H0 num b G (G ++ [(f, p)]) none f n xs (with_queue n q) h [] (xs ++ [p]) none I Hf Hn V HG) as
    (b' & Eb & I' & Hn' & V' & Fr & Efr & _).
  - rewrite D. set_solver.
  - intros x Hx. apply F. rewrite of_flow_snoc, decide_True in Hx by done. set_solver.
  - done.
  - apply NoDup_nil_2.
  - by intros x ?%elem_of_nil.
  - constructor; cbn; try done; [|congruence|].
    + rewrite M, (fq_len _ _ _ Q), length_app. rewrite (fq_len _ _ _ V1) in Hlt. cbn. lia.
    + rewrite app_nil_r, of_flow_snoc, decide_True, kept_snoc, <- V6 by done. unfold none. cbn [app]. by rewrite !app_assoc.
  - exists h, q, b'. split_and!; try done. by rewrite Efr, app_nil_r.
Qed.

Lemma toss_inv H0 num b G f p :
  tx_inv H0 num b G none -> p ∉ G.*2 -> p ∈ H0 ->
  exists b', pkt_free b p = Some b' /\ tx_inv H0 num b' (G ++ [(f, p)]) none /\ b_freed b' = b_freed b ++ [p].
Proof.
  intros I Hp Hp0. pose proof I as [I1 I2 I3 I4 I5 I6 I7 I8 I9 I10 I11 I12].
  assert (p ∉ b_freed b) as Hpf by (intros Hx; by apply Hp, I10).
  assert (p ∈ dom (b_heap b)) as [v Hpd]%elem_of_dom.
  { rewrite I7. apply elem_of_difference. by rewrite elem_of_list_to_set. }
  unfold pkt_free, PKTFREE. rewrite Hpd. cbn [mbind option_bind]. eexists. split; [done|]. split; [|done].
  assert (grows H0 G (G ++ [(f, p)]) f) as HG by (right; by exists p).
  destruct (grows_facts _ _ _ _ HG I6 I8) as (G1 & G2 & G3 & G4 & G5).
  constructor; cbn; try done.
  - intros g Hg. destruct (I3 g Hg) as (n & xs & Hn & V). exists n, xs. split; [done|].
    assert (forall x, x ∈ of_flow G g -> x ∉ [p]) as Hne.
    { intros x Hx ->%list_elem_of_singleton. apply Hp. by eapply of_flow_sub. }
    pose proof V as [V1 V2 V3 V4 V4' V5 V6]. constructor; cbn; try done.
    + eapply fq_frame; [|exact V1]. intros x Hx. apply lookup_delete_ne. intros <-.
      apply (Hne p); [|by apply list_elem_of_singleton]. by apply (view_in _ _ _ _ _ _ p V).
    + etransitivity; [exact V6|]. rewrite of_flow_snoc. destruct (decide (f = g)) as [->|].
      * rewrite kept_snoc_freed, kept_more; [done|exact Hne|]. apply elem_of_app. right. by apply list_elem_of_singleton.
      * rewrite app_nil_r, kept_more; [done|exact Hne].
  - rewrite dom_delete_L, I7, list_to_set_app_L. set_solver.
  - destruct I10 as [N1 N2]. split.
    + apply NoDup_app. split_and!; [done| |apply NoDup_singleton]. by intros x Hx ->%list_elem_of_singleton.
    + intros x [Hx| ->%list_elem_of_singleton]%elem_of_app; [by apply G3, N2|].
      rewrite fmap_app. cbn. apply elem_of_app. right. by apply list_elem_of_singleton.
Qed.

(** The whole of dhd_bus_txdata. *)
Lemma txdata_inv H0 num b G f p i :
  tx_inv H0 num b G none -> 0 <= f < num -> p ∉ G.*2 -> p ∈ H0 ->
  exists rc b', dhd_bus_txdata b p f i = Some (rc, b') /\ tx_inv H0 num b' (G ++ [(f, p)]) none.
Proof.
  intros I Hf Hp Hp0. destruct (ti_rings _ _ _ _ _ I f Hf) as (n & xs & Hn & V).
  pose proof V as [V1 V2 V3 V4 V4' V5 V6]. unfold dhd_bus_txdata.
  destruct (fw_alloc _ (ti_pub _ _ _ _ _ I)) as (a & out & -> & _). rewrite Hn. cbn [mbind option_bind].
  destruct (_ || _).
  { destruct (toss_inv H0 num b G f p I Hp Hp0) as (b' & -> & I' & _). cbn [mbind option_bind]. by eexists _, _. }
  destruct (decide (q_max (fr_queue n) <= q_len (fr_queue n))) as [Hfull|Hroom].
  - rewrite enqueue_full by done. cbn [mbind option_bind]. rewrite V3. unfold dhd_flow_queue_overflow.
    set (q1 := with_failures (fr_queue n) _).
    destruct (queue_step H0 num b G none f n xs q1 (b_heap b) xs none I Hf Hn V) as
      (b1 & -> & I1 & Hn1 & V1' & _ & Efr1); [|done|done|by split|done|done|].
    { destruct V1. by constructor. }
    cbn [mbind option_bind]. change (BCME_NORESOURCE =? BCME_OK) with false. cbn [negb].
    destruct (fr_status n =? 0); cbn [negb].
    2:{ destruct (toss_inv H0 num b1 G f p I1 Hp Hp0) as (b' & -> & I' & _). cbn [mbind option_bind]. by eexists _, _. }
    destruct (schedule_inv H0 num b1 G f _ xs I1 Hf Hn1 V1') as (ret & b2 & -> & I2 & Efr2 & _). cbn [mbind option_bind].
    destruct (ti_rings _ _ _ _ _ I2 f Hf) as (n2 & ys & Hn2 & W). rewrite Hn2. cbn [mbind option_bind].
    destruct (decide (q_max (fr_queue n2) <= q_len (fr_queue n2))) as [Hfull2|Hroom2].
    + rewrite enqueue_full by done. cbn [mbind option_bind]. rewrite (rv_cb _ _ _ _ _ _ W). unfold dhd_flow_queue_overflow.
      destruct (queue_step H0 num b2 G none f n2 ys (with_failures (fr_queue n2) (u32 (q_failures (fr_queue n2) + 1))) (b_heap b2) ys none I2 Hf Hn2 W) as
        (b3 & -> & I3 & _); [|apply W|apply W|by split|done|done|].
      { destruct (rv_queue _ _ _ _ _ _ W). by constructor. }
      cbn [mbind option_bind]. change (BCME_NORESOURCE =? BCME_OK) with false. cbn [negb].
      destruct (toss_inv H0 num b3 G f p I3 Hp Hp0) as (b' & -> & I' & _). cbn [mbind option_bind]. by eexists _, _.
    + destruct (enqueue_inv H0 num b2 G f n2 ys p I2 Hf Hn2 W Hp Hp0) as (h & q & b3 & -> & E3 & I3 & _); [lia|].
      cbn [mbind option_bind]. rewrite E3. cbn [mbind option_bind]. by eexists _, _.
  - destruct (enqueue_inv H0 num b G f n xs p I Hf Hn V Hp Hp0) as (h & q & b1 & -> & E1 & I1 & Hn1 & V1' & _); [lia|].
    cbn [mbind option_bind]. rewrite E1. cbn [mbind option_bind]. change (BCME_OK =? BCME_OK) with true. cbn [negb].
    destruct (fr_status n =? 0); cbn [negb]; [|by eexists _, _].
    destruct (schedule_inv H0 num b1 _ f _ _ I1 Hf Hn1 V1') as (ret & b2 & -> & I2 & _). cbn [mbind option_bind]. by eexists _, _.
Qed.

(** ** The other operations *)
Lemma kept_flush freed xs l done_ :
  NoDup l -> done_ ++ xs = kept_pkts freed l -> kept_pkts (freed ++ xs) l = done_.
Proof.
  intros Hnd E. assert (kept_pkts (freed ++ xs) l = kept_pkts xs (kept_pkts freed l)) as ->.
  { unfold kept_pkts. rewrite list_filter_filter. apply list_filter_iff. intros p. rewrite elem_of_app. tauto. }
  assert (NoDup (done_ ++ xs)) as Hd by (rewrite E; by apply NoDup_filter).
  rewrite <- E. unfold kept_pkts. rewrite filter_app. apply NoDup_app in Hd as (_ & Hd & _).
  assert (forall ys : list Z, (forall x, x ∈ ys -> x ∉ xs) -> filter (fun p => p ∉ xs) ys = ys) as Hall.
  { induction ys as [|y ys IH]; intros Hy; [done|]. rewrite filter_cons_True by apply Hy, list_elem_of_here.
    rewrite IH; [done|]. intros x Hx. apply Hy. by apply list_elem_of_further. }
  assert (forall ys : list Z, (forall x, x ∈ ys -> x ∈ xs) -> filter (fun p => p ∉ xs) ys = []) as Hno.
  { induction ys as [|y ys IH]; intros Hy; [done|]. rewrite filter_cons_False.
    - apply IH. intros x Hx. apply Hy. by apply list_elem_of_further.
    - intros Hn. apply Hn, Hy, list_elem_of_here. }
  rewrite Hall, Hno, app_nil_r by (intros x Hx; auto). done.
Qed.

Lemma flush_inv H0 num b G f n xs :
  tx_inv H0 num b G none -> 0 <= f < num -> DHD_FLOW_RING b f = Some n -> ring_view b G none f n xs ->
  exists b' q', flush_ring b f = Some b' /\ tx_inv H0 num b' G none /\
    DHD_FLOW_RING b' f = Some (with_queue n q') /\ ring_view b' G none f (with_queue n q') [] /\ frame b b' /\
    b_freed b' = b_freed b ++ xs.
Proof.
  intros I Hf Hn V. pose proof V as [V1 V2 V3 V4 V4' V5 V6]. unfold flush_ring. rewrite Hn. cbn [mbind option_bind].
  destruct (flush_ok (b_heap b) (fr_queue n) xs (S (Z.to_nat (q_len (fr_queue n))))) as
    (h & q & -> & Q & D & F & M & C); [by eapply inv_null|done|lia| |].
  { rewrite (fq_len _ _ _ V1). lia. }
  cbn [mbind option_bind].
  assert (forall x, x ∈ xs -> x ∈ of_flow G f /\ x ∉ b_freed b) as Hxs by (intros x Hx; by apply (view_in _ _ _ _ _ _ x V)).
  destruct (put_ring H0 num b G G none f n xs (with_queue n q) h xs [] none I Hf Hn V) as
    (b' & -> & I' & Hn' & V' & Fr & Efr & _).
  - by left.
  - done.
  - intros x Hx. apply F. intros Hx'. apply Hx. by apply Hxs.
  - done.
  - apply V1.
  - exact Hxs.
  - constructor; cbn; try done; [|congruence|].
    + rewrite M, (fq_len _ _ _ Q). pose proof (fq_len _ _ _ V1). cbn. zlia.
    + rewrite app_nil_r. symmetry. apply kept_flush; [by apply of_flow_nodup, I|exact V6].
  - by exists b', q.
Qed.

(** Changing a node's status, activity or flow, not its queue. *)
Lemma node_inv H0 num b G f n n' xs :
  tx_inv H0 num b G none -> 0 <= f < num -> DHD_FLOW_RING b f = Some n -> ring_view b G none f n xs ->
  fr_queue n' = fr_queue n -> fr_flowid n' = f -> 0 <= fr_ifindex n' < DHD_MAX_IFS ->
  (fr_status n' = FLOW_RING_STATUS_OPEN -> tp_live (b_prot b) f = true) ->
  exists b', put_node b f n' = Some b' /\ tx_inv H0 num b' G none /\ DHD_FLOW_RING b' f = Some n' /\
    ring_view b' G none f n' xs /\ frame b b' /\ b_freed b' = b_freed b.
Proof.
  intros I Hf Hn V Eq Eid Eif Est. pose proof V as [V1 V2 V3 V4 V4' V5 V6].
  destruct (put_ring H0 num b G G none f n xs n' (b_heap b) [] xs none I Hf Hn V) as
    (b' & E & I' & Hn' & V' & Fr & Efr & _); [by left|set_solver|done|done|apply NoDup_nil_2|by intros p ?%elem_of_nil| |].
  - constructor; cbn; rewrite ?Eq, ?app_nil_r; done.
  - exists b'. rewrite app_nil_r in Efr. split_and!; try done.
    rewrite <- E. unfold set_heap. rewrite app_nil_r. by destruct b.
Qed.

Lemma set_status_inv H0 num b G f st :
  tx_inv H0 num b G none -> 0 <= f < num -> (st = FLOW_RING_STATUS_OPEN -> tp_live (b_prot b) f = true) ->
  exists b' n xs, set_status b f st = Some b' /\ tx_inv H0 num b' G none /\ DHD_FLOW_RING b' f = Some n /\
    ring_view b' G none f n xs /\ frame b b' /\ fr_status n = st.
Proof.
  intros I Hf Hst. destruct (ti_rings _ _ _ _ _ I f Hf) as (n & xs & Hn & V). unfold set_status. rewrite Hn.
  cbn [mbind option_bind].
  destruct (node_inv H0 num b G f n (with_status n st (fr_active n)) xs I Hf Hn V) as (b' & E & I' & Hn' & V' & Fr & _);
    [done|apply V|apply V|done|]. by exists b', (with_status n st (fr_active n)), xs.
Qed.

Lemma set_list_inv H0 num b G m : tx_inv H0 num b G none -> dll_closed m num -> tx_inv H0 num (set_list b m) G none.
Proof.
  intros [I1 I2 I3 I4 I5 I6 I7 I8 I9 I10 I11 I12] Hm. constructor; try done.
  intros f Hf. destruct (I3 f Hf) as (n & xs & Hn & V). exists n, xs. split; [done|by revert V; apply view_ext].
Qed.

(** A new public state with the same ring records. *)
Lemma set_pub_inv H0 num b G p :
  tx_inv H0 num b G none -> flow_wf (managed := managed) p ->
  flow_ring_table p = flow_ring_table (b_pub b) -> num_flow_rings p = num_flow_rings (b_pub b) ->
  tx_inv H0 num (set_pub b p) G none.
Proof.
  intros [I1 I2 I3 I4 I5 I6 I7 I8 I9 I10 I11 I12] Hp Ht En. constructor; try done.
  - cbn. by rewrite En.
  - intros f Hf. destruct (I3 f Hf) as (n & xs & Hn & V). exists n, xs. split; [|by revert V; apply view_ext].
    unfold DHD_FLOW_RING in *. cbn. by rewrite Ht.
Qed.

Lemma frame_list H0 num b b' G : tx_inv H0 num b G none -> frame b b' -> dll_closed (b_list b') num.
Proof. intros I (_ & -> & _). apply I. Qed.

Lemma clean_inv H0 num b G f :
  tx_inv H0 num b G none -> 0 <= f < num -> tp_range f = true ->
  exists b', dhd_bus_clean_flow_ring b f = Some b' /\ tx_inv H0 num b' G none.
Proof.
  intros I Hf Hr. destruct (ti_rings _ _ _ _ _ I f Hf) as (n & xs & Hn & V). unfold dhd_bus_clean_flow_ring.
  destruct (flush_inv H0 num b G f n xs I Hf Hn V) as (b1 & q1 & -> & I1 & Hn1 & V1 & F1 & _). cbn [mbind option_bind].
  rewrite Hn1. cbn [mbind option_bind].
  destruct (node_inv H0 num b1 G f _ (with_status (with_queue n q1) FLOW_RING_STATUS_CLOSED false) [] I1 Hf Hn1 V1) as
    (b2 & -> & I2 & Hn2 & V2 & F2 & _); [done|apply V1|apply V1|done|]. cbn [mbind option_bind].
  destruct (ti_list _ _ _ _ _ I2) as (Vm & Hs & Hk).
  destruct (delete_valid (b_list b2) f Vm (Hk f Hf)) as (m & -> & D & Vm'). cbn [mbind option_bind].
  assert (tx_inv H0 num (set_list b2 m) G none) as I3 by (apply set_list_inv; [done|]; split_and!; rewrite ?D; done).
  assert (fr_flowid (with_queue n q1) = f) as Eid by apply V1.
  change (fr_flowid n) with (fr_flowid (with_queue n q1)). rewrite Eid.
  destruct (release_law (b_prot (set_list b2 m)) f (ti_prot _ _ _ _ _ I3) Hr) as (r & -> & Hok & Hp & Hl). cbn [mbind option_bind].
  assert (tx_inv H0 num (set_prot (set_list b2 m) r) G none) as I4.
  { destruct I3 as [J1 J2 J3 J4 J5 J6 J7 J8 J9 J10 J11 J12]. constructor; try done.
    intros g Hg. destruct (decide (g = f)) as [->|Hne].
    - exists (with_status (with_queue n q1) FLOW_RING_STATUS_CLOSED false), []. split; [exact Hn2|].
      destruct V2 as [U1 U2 U3 U4 U4' U5 U6]. constructor; cbn; try done. rewrite Hp. exact U6.
    - destruct (J3 g Hg) as (m2 & ys & Hm2 & W). exists m2, ys. split; [done|].
      eapply view_prot; [exact W|by rewrite Hp|]. by rewrite Hl. }
  destruct (free_spec (b_pub (set_prot (set_list b2 m) r)) (fr_ifindex (with_queue n q1)) f) as (p & Ep & Wp & _);
    [apply I4|apply V1|].
  destruct (free_table _ _ _ _ Ep) as [Et En]. rewrite Ep. cbn [mbind option_bind].
  eexists. split; [done|]. by apply set_pub_inv.
Qed.

Lemma create_response_inv H0 num b G f st :
  tx_inv H0 num b G none -> 0 <= f < num -> tp_range f = true -> tp_live (b_prot b) f = true ->
  exists b', dhd_bus_flow_ring_create_response b f st = Some b' /\ tx_inv H0 num b' G none.
Proof.
  intros I Hf Hr Hl. unfold dhd_bus_flow_ring_create_response. destruct (st =? BCME_OK); cbn [negb]; [|by apply clean_inv].
  destruct (set_status_inv H0 num b G f FLOW_RING_STATUS_OPEN I Hf) as (b1 & n & xs & -> & I1 & Hn1 & V1 & _); [done|].
  cbn [mbind option_bind]. destruct (ti_list _ _ _ _ _ I1) as (Vm & Hs & Hk).
  unfold dll_prepend. destruct (insert_valid (b_list b1) f const_flowring Vm (Hk f Hf) Hs) as (m & -> & D & Vm').
  cbn [mbind option_bind].
  assert (tx_inv H0 num (set_list b1 m) G none) as I2 by (apply set_list_inv; [done|]; split_and!; rewrite ?D; done).
  destruct (schedule_inv H0 num (set_list b1 m) G f n xs I2 Hf Hn1) as (ret & b' & -> & I' & _);
    [by revert V1; apply view_ext|]. cbn [mbind option_bind]. by exists b'.
Qed.

Lemma delete_request_inv H0 num b G f :
  tx_inv H0 num b G none -> 0 <= f < num ->
  exists rc b', dhd_bus_flow_ring_delete_request b f = Some (rc, b') /\ tx_inv H0 num b' G none.
Proof.
  intros I Hf. destruct (ti_rings _ _ _ _ _ I f Hf) as (n & xs & Hn & V). unfold dhd_bus_flow_ring_delete_request.
  rewrite Hn. cbn [mbind option_bind]. destruct (_ =? _); [by eexists _, _|].
  destruct (set_status_inv H0 num b G f FLOW_RING_STATUS_DELETE_PENDING I Hf) as (b1 & n1 & ys & -> & I1 & Hn1 & V1 & _); [done|].
  cbn [mbind option_bind]. destruct (flush_inv H0 num b1 G f n1 ys I1 Hf Hn1 V1) as (b2 & q2 & -> & I2 & Hn2 & V2 & _).
  cbn [mbind option_bind]. rewrite Hn2. cbn [mbind option_bind].
  destruct (delete_law (b_prot b2) (with_queue n1 q2) (ti_prot _ _ _ _ _ I2)) as (rc & r & -> & Hok & Hp & Hl).
  cbn [mbind option_bind]. eexists _, _. split; [done|].
  eapply prot_step; [exact I2|done|intros; by rewrite Hp|intros; by rewrite Hl].
Qed.

Lemma sta_free_inv H0 num b G f :
  tx_inv H0 num b G none -> 0 <= f < num ->
  exists b', sta_free_flow b f = Some b' /\ tx_inv H0 num b' G none.
Proof.
  intros I Hf. unfold sta_free_flow. destruct (f =? FLOWID_INVALID); [by exists b|].
  destruct (set_status_inv H0 num b G f FLOW_RING_STATUS_STA_FREEING I Hf) as (b1 & n1 & ys & -> & I1 & Hn1 & V1 & _); [done|].
  cbn [mbind option_bind]. rewrite Hn1. cbn [mbind option_bind]. destruct (DHD_FLOW_QUEUE_EMPTY _); [by exists b1|].
  destruct (flush_inv H0 num b1 G f n1 ys I1 Hf Hn1 V1) as (b2 & q2 & -> & I2 & _). by exists b2.
Qed.

Lemma delete_loop_inv H0 num sel fuel : forall b G id,
  tx_inv H0 num b G none -> 0 <= id -> id + Z.of_nat fuel <= num ->
  exists b', delete_loop fuel b id sel = Some b' /\ tx_inv H0 num b' G none.
Proof.
  induction fuel as [|fuel IH]; intros b G id I H1 H2; cbn [delete_loop]; [by exists b|].
  destruct (ti_rings _ _ _ _ _ I id) as (n & xs & Hn & V); [lia|]. rewrite Hn. cbn [mbind option_bind].
  destruct (sel n); cbn [mbind option_bind]; [|apply IH; [done|lia|lia]].
  destruct (delete_request_inv H0 num b G id I) as (rc & b1 & -> & I1); [lia|]. cbn [mbind option_bind].
  apply IH; [done|lia|lia].
Qed.

Lemma lookup_inv H0 num b G i prio sa da :
  tx_inv H0 num b G none -> key_ok i prio -> (forall f, f ∈ managed -> tp_range f = true) ->
  exists rc fid b', flowid_lookup b true i prio sa da = Some (rc, fid, b') /\ tx_inv H0 num b' G none.
Proof.
  intros I K Hrange. unfold flowid_lookup.
  destruct (lookup_spec Hinv (b_pub b) true i prio sa da (ti_pub _ _ _ _ _ I) K) as (rc & fid & p & asked & E & Wp & _ & Ha & Hok).
  rewrite E. cbn [mbind option_bind]. destruct (lookup_table _ _ _ _ _ _ _ _ _ E) as [En [[-> Et]|(-> & id & t & node & t' & -> & -> & Ht & Hnode & Hset & Ht')]].
  - destruct fid; eexists _, _, _; (split; [done|]); by apply set_pub_inv.
  - destruct (Hok eq_refl) as (id' & [= <-] & Hm & _).
    assert (0 <= id < num) as Hid by (by apply (ti_mng _ _ _ _ _ I)).
    destruct (ti_rings _ _ _ _ _ I id Hid) as (n & xs & Hn & V).
    assert (n = node) as ->.
    { unfold DHD_FLOW_RING in Hn. rewrite Ht in Hn. cbn in Hn. congruence. }
    pose proof V as [V1 V2 V3 V4 V4' V5 V6]. destruct K as [Ki Kp].
    destruct (node_inv H0 num b G id node (node_pending node i prio sa da) xs I Hid Hn V) as
      (b1 & E1 & I1 & Hn1 & _ & F1 & _); [done|done|exact Ki|done|].
    unfold put_node in E1. rewrite Ht in E1. cbn [mbind option_bind] in E1. rewrite Hset in E1. cbn [mbind option_bind] in E1.
    injection E1 as E1.
    assert (tx_inv H0 num (set_pub b p) G none) as I2.
    { assert (set_pub b p = set_pub b1 p) as -> by (rewrite <- E1; done).
      apply set_pub_inv; [done|done| |]; rewrite <- E1; cbn; [by rewrite Ht'|done]. }
    assert (DHD_FLOW_RING (set_pub b p) id = Some (node_pending node i prio sa da)) as Hn2.
    { unfold DHD_FLOW_RING. cbn. rewrite Ht'. cbn. rewrite (aget_aset _ _ _ _ _ Hset). by case_decide. }
    rewrite Hn2. cbn [mbind option_bind]. unfold dhd_bus_flow_ring_create_request.
    destruct (create_law (b_prot (set_pub b p)) (node_pending node i prio sa da) (ti_prot _ _ _ _ _ I2)) as
      (rc & r & -> & Hrok & Hp & Hl & _); [cbn; rewrite V4; by apply Hrange|]. cbn [mbind option_bind].
    assert (tx_inv H0 num (set_prot (set_pub b p) r) G none) as I3.
    { destruct I2 as [J1 J2 J3 J4 J5 J6 J7 J8 J9 J10 J11 J12]. constructor; try done.
      intros g Hg. destruct (J3 g Hg) as (m2 & ys & Hm2 & W). exists m2, ys. split; [done|].
      destruct (decide (g = id)) as [->|Hne].
      - rewrite Hn2 in Hm2. injection Hm2 as <-. destruct W as [U1 U2 U3 U4 U4' U5 U6]. constructor; cbn; try done.
        rewrite Hp. exact U6.
      - eapply view_prot; [exact W|by rewrite Hp|]. rewrite Hl; [done|]. cbn. congruence. }
    destruct (rc =? BCME_OK); cbn [negb]; eexists _, _, _; (split; [done|]); exact I3.
Qed.

(** ** Histories

    The network stack looks flows up and hands in packets, interfaces and
    stations come and go, the dongle answers.  It answers only about rings it
    knows: those that have a ring of the pool. *)
Inductive tx_op :=
  | TxLookup (i prio : Z) (sa da : ether_addr)
  | TxData (p f i : Z)
  | TxSchedule (f : Z)
  | TxCreateResp (f st : Z) | TxDeleteResp (f st : Z) | TxFlushResp (f st : Z)
  | TxStaFree (f : Z) | TxDelete (i : Z) | TxDeletePeer (i : Z) (a : ether_addr)
  | TxIf (i op role : Z) | TxLink (i st : Z).

Definition on_live b (f : Z) (r : option (dhd_bus_tx A R)) : option (dhd_bus_tx A R) :=
  if tp_live (b_prot b) f then r else Some b.

Definition tx_step (op : tx_op) b : option (dhd_bus_tx A R) :=
  match op with
  | TxLookup i prio sa da => '(_, _, b) ← flowid_lookup b true i prio sa da; Some b
  | TxData p f i => '(_, b) ← dhd_bus_txdata b p f i; Some b
  | TxSchedule f => '(_, b) ← dhd_bus_schedule_queue b f; Some b
  | TxCreateResp f st => on_live b f (dhd_bus_flow_ring_create_response b f st)
  | TxDeleteResp f st => on_live b f (dhd_bus_flow_ring_delete_response b f st)
  | TxFlushResp f st => on_live b f (dhd_bus_flow_ring_flush_response b f st)
  | TxStaFree f => sta_free_flow b f
  | TxDelete i => dhd_flow_rings_delete b i
  | TxDeletePeer i a => dhd_flow_rings_delete_for_peer b i a
  | TxIf i op role => p ← dhd_update_interface_flow_info (b_pub b) i op role; Some (set_pub b p)
  | TxLink i st => '(_, p) ← dhd_update_interface_link_status (b_pub b) i st; Some (set_pub b p)
  end.
Fixpoint tx_run (ops : list tx_op) b : option (dhd_bus_tx A R) :=
  match ops with [] => Some b | op :: ops => b ← tx_step op b; tx_run ops b end.

(** The packets handed in, with their flow. *)
Definition given (ops : list tx_op) : list (Z * Z) :=
  omap (fun op => match op with TxData p f _ => Some (f, p) | _ => None end) ops.

Definition tx_op_ok (num : Z) (op : tx_op) : Prop :=
  match op with
  | TxLookup i prio _ _ => key_ok i prio
  | TxData _ f _ | TxSchedule f | TxStaFree f => 0 <= f < num
  | TxCreateResp f _ | TxDeleteResp f _ | TxFlushResp f _ => tp_range f = true
  | TxDelete i | TxDeletePeer i _ | TxIf i _ _ | TxLink i _ => 0 <= i
  end.

Lemma if_info_table (s : flow_pub A) i op role s' : dhd_update_interface_flow_info s i op role = Some s' ->
  flow_ring_table s' = flow_ring_table s /\ num_flow_rings s' = num_flow_rings s.
Proof.
  unfold dhd_update_interface_flow_info. destruct (DHD_MAX_IFS <=? i); [by intros [= <-]|].
  destruct (flowid_allocator s); [|by intros [= <-]]. destruct (aget (if_flow s) i); [|done]. cbn [mbind option_bind].
  destruct (aset (if_flow s) i _); [|done]. by intros [= <-].
Qed.
Lemma link_table (s : flow_pub A) i st rc s' : dhd_update_interface_link_status s i st = Some (rc, s') ->
  flow_ring_table s' = flow_ring_table s /\ num_flow_rings s' = num_flow_rings s.
Proof.
  unfold dhd_update_interface_link_status. destruct (DHD_MAX_IFS <=? i); [by intros [= _ <-]|].
  destruct (aget (if_flow s) i); [|done]. cbn [mbind option_bind].
  destruct (aset (if_flow s) i _); [|done]. by intros [= _ <-].
Qed.

Lemma tx_step_inv H0 num b G op :
  0 <= num ->
  (forall f, f ∈ managed -> tp_range f = true) ->
  tx_inv H0 num b G none -> tx_op_ok num op -> NoDup (G ++ given [op]).*2 ->
  (forall p, p ∈ (given [op]).*2 -> p ∈ H0) ->
  exists b', tx_step op b = Some b' /\ tx_inv H0 num b' (G ++ given [op]) none.
Proof.
  intros Hnum Hrange I Hop Hnd Hin. destruct op as [i prio sa da|p f i|f|f st|f st|f st|f|i|i a|i op role|i st];
    cbn [tx_step tx_op_ok given omap list_omap] in *; rewrite ?app_nil_r in *; unfold on_live.
  - destruct (lookup_inv H0 num b G i prio sa da I Hop Hrange) as (rc & fid & b' & -> & I'). by exists b'.
  - destruct (txdata_inv H0 num b G f p i I Hop) as (rc & b' & -> & I'); [| |by exists b'].
    + rewrite fmap_app, NoDup_app in Hnd. set_solver.
    + apply Hin. apply list_elem_of_here.
  - destruct (ti_rings _ _ _ _ _ I f Hop) as (n & xs & Hn & V).
    destruct (schedule_inv H0 num b G f n xs I Hop Hn V) as (ret & b' & -> & I' & _). by exists b'.
  - pose proof (ti_range _ _ _ _ _ I f Hop). destruct (tp_live (b_prot b) f) eqn:El; [|by exists b].
    by apply create_response_inv.
  - pose proof (ti_range _ _ _ _ _ I f Hop). destruct (tp_live (b_prot b) f) eqn:El; [|by exists b].
    unfold dhd_bus_flow_ring_delete_response. destruct (st =? BCME_OK); cbn [negb]; [by apply clean_inv|by exists b].
  - pose proof (ti_range _ _ _ _ _ I f Hop). destruct (tp_live (b_prot b) f) eqn:El; [|by exists b].
    unfold dhd_bus_flow_ring_flush_response. destruct (st =? BCME_OK); cbn [negb]; [|by exists b].
    destruct (set_status_inv H0 num b G f FLOW_RING_STATUS_OPEN I) as (b' & n & xs & -> & I' & _); [done|done|]. by exists b'.
  - by apply sta_free_inv.
  - unfold dhd_flow_rings_delete. destruct (DHD_MAX_IFS <=? i); [by exists b|].
    destruct (flow_ring_table (b_pub b)) as [t|]; [|by exists b]. rewrite (ti_num _ _ _ _ _ I).
    apply delete_loop_inv; [done|lia|lia].
  - unfold dhd_flow_rings_delete_for_peer. destruct (DHD_MAX_IFS <=? i); [by exists b|].
    destruct (flow_ring_table (b_pub b)) as [t|]; [|by exists b]. rewrite (ti_num _ _ _ _ _ I).
    apply delete_loop_inv; [done|lia|lia].
  - destruct (flow_step_wf Hinv (FoIf i op role) (b_pub b) (ti_pub _ _ _ _ _ I)) as (p & Ep & Wp); [done|].
    cbn [flow_step] in Ep. destruct (if_info_table _ _ _ _ _ Ep). rewrite Ep. eexists. split; [done|]. by apply set_pub_inv.
  - destruct (flow_step_wf Hinv (FoLink i st) (b_pub b) (ti_pub _ _ _ _ _ I)) as (p & Ep & Wp); [done|].
    cbn [flow_step] in Ep. destruct (dhd_update_interface_link_status (b_pub b) i st) as [[rc p']|] eqn:El; [|done].
    injection Ep as <-. destruct (link_table _ _ _ _ _ El). eexists. split; [done|]. by apply set_pub_inv.
Qed.

Lemma given_cons op ops : given (op :: ops) = given [op] ++ given ops.
Proof. unfold given. cbn. by destruct op. Qed.

Lemma tx_run_inv H0 num ops : forall b G,
  0 <= num -> (forall f, f ∈ managed -> tp_range f = true) ->
  tx_inv H0 num b G none -> Forall (tx_op_ok num) ops -> NoDup (G ++ given ops).*2 ->
  (forall p, p ∈ (given ops).*2 -> p ∈ H0) ->
  exists b', tx_run ops b = Some b' /\ tx_inv H0 num b' (G ++ given ops) none.
Proof.
  induction ops as [|op ops IH]; intros b G Hnum Hrange I Hok Hnd Hin; cbn [tx_run].
  - exists b. split; [done|]. by rewrite app_nil_r.
  - apply Forall_cons in Hok as [Hop Hok]. rewrite given_cons, app_assoc in *.
    destruct (tx_step_inv H0 num b G op Hnum Hrange I Hop) as (b1 & -> & I1).
    + rewrite fmap_app in Hnd. by apply NoDup_app in Hnd as (? & _ & _).
    + intros p Hp. apply Hin. rewrite fmap_app. apply elem_of_app. by left.
    + cbn [mbind option_bind]. apply IH; try done. intros p Hp. apply Hin. rewrite fmap_app. apply elem_of_app. by right.
Qed.
End inv.

(** The state after dhd_flow_rings_init: no packet anywhere. *)
Lemma tx_init_inv {R} `{!TxProt R} mem num sp h m (r : R) subq :
  FLOW_RING_COMMON < num < FLOWID_INVALID -> Z.of_nat (length mem) = num - FLOW_RING_COMMON ->
  0 ∉ dom h -> dll_closed m num -> tp_ok r -> (forall f, tp_posted r f = []) ->
  (forall f, tp_range f = true -> 0 <= f < num) ->
  exists s0, dhd_flow_rings_init (Some mem) true (fun _ => true) true true true num sp = Some (BCME_OK, s0) /\
    tx_inv (managed := flow_managed num) (dom h) num (mk_bus s0 h m r [] subq) [] none.
Proof.
  intros Hn Hl Hz Hm Hr Hp Hrg. destruct (flow_init_spec mem num sp Hn Hl) as (s0 & E0 & W0). exists s0. split; [done|].
  assert (num_flow_rings s0 = num /\ flow_ring_table s0 = Some (ring_closed <$> seq 0 (Z.to_nat num))) as [En Et].
  { unfold dhd_flow_rings_init in E0.
    destruct (id16_map_init _ _ _) as [[a|]|]; [|done|done]. cbn [mbind option_bind] in E0. cbn [negb] in E0.
    destruct (negb _); [done|]. by injection E0 as <-. }
  assert (2 < num < 65535) as Hn' by (revert Hn; unfold FLOW_RING_COMMON, FLOWID_INVALID; vm_compute Id16Map.ID16_INVALID; done).
  constructor; cbn; try done.
  - intros f Hf. exists (ring_closed (Z.to_nat f)), []. split.
    + unfold DHD_FLOW_RING. cbn. rewrite Et. cbn. unfold aget. destruct (Z.leb_spec 0 f); [|lia].
      rewrite list_lookup_fmap, lookup_seq_lt by lia. done.
    + constructor.
      * apply fq_init.
      * cbn. split; [by vm_compute|reflexivity].
      * done.
      * cbn. rewrite Z2Nat.id, wrapu_small by zlia. done.
      * done.
      * done.
      * cbn. by rewrite Hp.
  - apply NoDup_nil_2.
  - set_solver.
  - by intros p ?%elem_of_nil.
  - split; [apply NoDup_nil_2|by intros p ?%elem_of_nil].
  - intros f Hf. destruct (init_managed num Hn) as [_ Hr']. specialize (Hr' f Hf). lia.
Qed.

(** What the system starts from: dhd_flow_rings_init on memory of the right
    size, closed lists, an idle protocol layer; and a history of operations on
    rings of that many, where no packet is handed in twice. *)
Record tx_start {R} `{!TxProt R} (mem : list Z) (num : Z) (h : heap) (m : dmem) (r : R) : Prop := {
  ts_num : FLOW_RING_COMMON < num < FLOWID_INVALID;
  ts_mem : Z.of_nat (length mem) = num - FLOW_RING_COMMON;
  ts_null : 0 ∉ dom h;
  ts_lists : dll_closed m num;
  ts_prot : tp_ok r;
  ts_idle f : tp_posted r f = [];
  ts_range f : tp_range f = true <-> FLOWID_RESERVED <= f < num
}.
Record tx_history (R : Type) `{!TxProt R} (num : Z) (h : heap) (ops : list tx_op) : Prop := {
  th_ok : Forall (tx_op_ok num) ops;
  th_once : NoDup (given ops).*2;
  th_pkts p : p ∈ (given ops).*2 -> p ∈ dom h
}.
Arguments tx_history R {_} num h ops.

Lemma tx_reach_inv {R} `{!TxProt R} mem num sp h m (r : R) subq ops :
  tx_start mem num h m r -> tx_history R num h ops ->
  exists s0 b, dhd_flow_rings_init (Some mem) true (fun _ => true) true true true num sp = Some (BCME_OK, s0) /\
    tx_run (managed := flow_managed num) ops (mk_bus s0 h m r [] subq) = Some b /\
    tx_inv (managed := flow_managed num) (dom h) num b (given ops) none.
Proof.
  intros S [Hok Hnd Hin]. pose proof (ts_num _ _ _ _ _ S) as Hn. destruct (init_managed num Hn) as [Hinv Hmg].
  destruct (tx_init_inv mem num sp h m r subq Hn) as (s0 & E0 & I0); try apply S.
  { intros f Hf%(ts_range _ _ _ _ _ S). revert Hf. unfold FLOWID_RESERVED, FLOW_RING_COMMON. lia. }
  destruct (tx_run_inv (A := id16_map) Hinv (dom h) num ops _ [] ltac:(unfold FLOW_RING_COMMON in Hn; lia)
    ltac:(intros f Hf; apply (proj2 (ts_range _ _ _ _ _ S f)); unfold FLOWID_RESERVED, FLOW_RING_COMMON; auto) I0 Hok Hnd Hin)
    as (b & E & I).
  by exists s0, b.
Qed.

(** * Properties *)

(** C3: for any protocol layer that keeps its contract, any number of flow
    rings, and any history of flow lookups, packets handed to dhd_bus_txdata,
    queue scheduling, interface and station changes, deletions, and answers
    of the dongle about rings it knows: every operation is memory safe and
    returns; every packet is freed at most once; and on every flow, the
    packets posted on its ring followed by those waiting in its queue are
    exactly the packets handed in for that flow that were not freed, in the
    order they were handed in. *)
Theorem tx_fifo {R} `{!TxProt R} (mem : list Z) (num : Z) (sp : flow_pub id16_map) (h : heap) (m : dmem) (r : R)
    (subq : Z) (ops : list tx_op) :
  tx_start mem num h m r -> tx_history R num h ops ->
  exists s0 b, dhd_flow_rings_init (Some mem) true (fun _ => true) true true true num sp = Some (BCME_OK, s0) /\
    tx_run (managed := flow_managed num) ops (mk_bus s0 h m r [] subq) = Some b /\
    NoDup (b_freed b) /\
    forall f, 0 <= f < num -> exists n xs, DHD_FLOW_RING b f = Some n /\
      fq_ok (b_heap b) (fr_queue n) xs /\
      tp_posted (b_prot b) f ++ xs = kept_pkts (b_freed b) (of_flow (given ops) f).
Proof.
  intros S H. destruct (tx_reach_inv mem num sp h m r subq ops S H) as (s0 & b & E0 & E & I).
  exists s0, b. split_and!; [done|done|apply I|].
  intros f Hf. destruct (ti_rings _ _ _ _ _ I f Hf) as (n & xs & Hnn & V). exists n, xs.
  split_and!; [done|apply V|]. exact (rv_line _ _ _ _ _ _ V).
Qed.

(** C27: in every state such a history reaches, when the flow ring of an open
    flow has room for everything that waits in the flow's queue, one call of
    dhd_bus_schedule_queue posts all of it, in order, and leaves the queue
    empty. *)
Theorem tx_drains {R} `{!TxProt R} (mem : list Z) (num : Z) (sp s0 : flow_pub id16_map) (h : heap) (m : dmem) (r : R)
    (subq : Z) (ops : list tx_op) (b : dhd_bus_tx id16_map R) (f : Z) (n : flow_ring_node) (xs : list Z) :
  tx_start mem num h m r -> tx_history R num h ops ->
  dhd_flow_rings_init (Some mem) true (fun _ => true) true true true num sp = Some (BCME_OK, s0) ->
  tx_run (managed := flow_managed num) ops (mk_bus s0 h m r [] subq) = Some b ->
  0 <= f < num -> f < max_sub_queues b ->
  DHD_FLOW_RING b f = Some n -> fr_status n = FLOW_RING_STATUS_OPEN -> fq_ok (b_heap b) (fr_queue n) xs ->
  accepts (b_prot b) f (length xs) ->
  exists b' n', dhd_bus_schedule_queue b f = Some (BCME_OK, b') /\
    tp_posted (b_prot b') f = tp_posted (b_prot b) f ++ xs /\
    DHD_FLOW_RING b' f = Some n' /\ DHD_FLOW_QUEUE_EMPTY (fr_queue n') = true.
Proof.
  intros S H E0 E Hf Hs Hn Hst Hq Hacc. destruct (tx_reach_inv mem num sp h m r subq ops S H) as (s1 & b1 & E1 & E2 & I).
  rewrite E0 in E1. injection E1 as <-. rewrite E in E2. injection E2 as <-.
  destruct (init_managed num (ts_num _ _ _ _ _ S)) as [Hinv _].
  destruct (ti_rings _ _ _ _ _ I f Hf) as (n0 & ys & Hn0 & V).
  rewrite Hn in Hn0. injection Hn0 as <-.
  assert (ys = xs) as -> by (eapply fq_ok_inj; [by eapply inv_null|apply V|exact Hq]).
  destruct (schedule_inv Hinv (dom h) num b (given ops) f n xs I Hf Hn V) as (ret & b' & E' & I' & Efr & _ & Hd).
  destruct (Hd Hst Hs Hacc) as [-> Hp]. destruct (ti_rings _ _ _ _ _ I' f Hf) as (n' & zs & Hn' & V').
  exists b', n'. split_and!; try done.
  assert (zs = []) as ->.
  { pose proof (rv_line _ _ _ _ _ _ V') as L'. rewrite Hp, Efr, <- (rv_line _ _ _ _ _ _ V) in L'. unfold none in L'.
    cbn [app] in L'. apply (f_equal length) in L'. rewrite !length_app in L'. destruct zs; [done|]. cbn in L'. lia. }
  unfold DHD_FLOW_QUEUE_EMPTY. rewrite (fq_len _ _ _ (rv_queue _ _ _ _ _ _ V')). done.
Qed.

(** ** A protocol layer for the examples: every flow ring takes two packets *)
Record toy_prot := mk_toy { toy_live : gset Z; toy_posted : list (Z * Z) }.
Definition toy_room (r : toy_prot) (f : Z) : bool := (length (of_flow (toy_posted r) f) <? 2)%nat.

#[export] #[refine] Instance toy_tx : TxProt toy_prot := {
  tp_ok _ := True;
  tp_live r f := bool_decide (f ∈ toy_live r);
  tp_posted r f := of_flow (toy_posted r) f;
  dhd_prot_txdata r f p _ :=
    Some (if toy_room r f then (BCME_OK, mk_toy (toy_live r) (toy_posted r ++ [(f, p)])) else (BCME_NORESOURCE, r));
  dhd_prot_txdata_write_flush r _ := Some r;
  dhd_prot_flow_ring_create r n := Some (BCME_OK, mk_toy ({[fr_flowid n]} ∪ toy_live r) (toy_posted r));
  dhd_prot_flow_ring_delete r _ := Some (BCME_OK, r);
  flowrings_pool_release r f := Some (mk_toy (toy_live r ∖ {[f]}) (toy_posted r));
  tp_range f := (2 <=? f) && (f <? 10)
}.
Proof.
  - intros r f p i _ _ _. destruct (toy_room r f); do 2 eexists; (split; [done|]); (split; [done|]); (split; [done|]);
      intros g; cbn [toy_posted].
    + rewrite of_flow_snoc. destruct (decide (f = g)) as [->|]; [by rewrite decide_True|].
      rewrite decide_False by naive_solver. apply app_nil_r.
    + by rewrite decide_False by naive_solver.
  - intros r f _ _. by exists r.
  - intros r n _ _. do 2 eexists. split_and!; try done.
    + intros g Hg. cbn. apply bool_decide_ext. set_solver.
    + intros _. cbn. apply bool_decide_eq_true. set_solver.
  - intros r n _. by do 2 eexists.
  - intros r f _ _. eexists. split_and!; try done. intros g Hg. cbn. apply bool_decide_ext. set_solver.
Defined.

Definition pkts5 : heap := list_to_map ((fun p => (p, 0)) <$> [101; 102; 103; 104; 105]).
Definition list10 : dmem := list_to_map ((fun k => (k, mk_dll k k)) <$> (-1 :: seqZ 0 10)).
(** A station's flow gets id 9; three packets arrive before the ring is open
    (the ring takes two), a fourth waits; the link's flows are then deleted. *)
Definition tx_ops5 : list tx_op :=
  [TxIf 0 WLC_E_IF_ADD 1; TxLookup 0 1 ap_mac sta1; TxData 101 9 0; TxData 102 9 0; TxData 103 9 0;
   TxCreateResp 9 0; TxData 104 9 0; TxDelete 0; TxData 105 9 0].


Lemma tx_start5 : tx_start (replicate 8 0) 10 pkts5 list10 (mk_toy ∅ []).
Proof.
  constructor.
  - unfold FLOW_RING_COMMON. split; [lia|reflexivity].
  - reflexivity.
  - apply (bool_decide_unpack _). vm_compute. exact I.
  - split.
    + assert (map_Forall (fun _ n => next_p n ∈ dom list10 /\ prev_p n ∈ dom list10) list10) as H
        by (apply (bool_decide_unpack _); vm_compute; exact I). intros p n Hp. exact (H p n Hp).
    + split; [apply (bool_decide_unpack _); vm_compute; exact I|].
      intros k Hk. assert (Forall (fun k => k ∈ dom list10) (seqZ 0 10)) as H
        by (apply (bool_decide_unpack _); vm_compute; exact I).
      rewrite list.Forall_forall in H. apply H. apply elem_of_seqZ. lia.
  - exact I.
  - reflexivity.
  - intros f. cbn. rewrite andb_true_iff, Z.leb_le, Z.ltb_lt. reflexivity.
Qed.
Lemma tx_history5 : tx_history toy_prot 10 pkts5 tx_ops5.
Proof.
  constructor.
  - repeat constructor; cbn; unfold DHD_MAX_IFS; lia.
  - apply (bool_decide_unpack _). vm_compute. exact I.
  - assert (Forall (fun p => p ∈ dom pkts5) (given tx_ops5).*2) as H
      by (apply (bool_decide_unpack _); vm_compute; exact I).
    rewrite list.Forall_forall in H. exact H.
Qed.

Lemma tx_fifo_witness :
  exists s0 b, dhd_flow_rings_init (Some (replicate 8 0)) true (fun _ => true) true true true 10 pub0 = Some (BCME_OK, s0) /\
    tx_run (managed := flow_managed 10) tx_ops5 (mk_bus s0 pkts5 list10 (mk_toy ∅ []) [] 10) = Some b /\
    tp_posted (b_prot b) 9 = [101; 102] /\ b_freed b = [103; 104; 105] /\ NoDup (b_freed b).
Proof.
  destruct (tx_fifo (replicate 8 0) 10 pub0 pkts5 list10 (mk_toy ∅ []) 10 tx_ops5 tx_start5 tx_history5)
    as (s0 & b & E0 & E & Hnd & _).
  exists s0, b. split; [exact E0|]. split; [exact E|].
  vm_compute in E0. injection E0 as E0. subst s0. vm_compute in E. injection E as E. subst b.
  split; [reflexivity|]. split; [reflexivity|exact Hnd].
Defined.

(** Two packets wait while the ring is being created; the answer to a flush
    request opens it without scheduling, and the next call posts both. *)
Definition tx_ops2 : list tx_op :=
  [TxIf 0 WLC_E_IF_ADD 1; TxLookup 0 1 ap_mac sta1; TxData 101 9 0; TxData 102 9 0; TxFlushResp 9 0].
Lemma tx_history2 : tx_history toy_prot 10 pkts5 tx_ops2.
Proof.
  constructor.
  - repeat constructor; cbn; unfold DHD_MAX_IFS; lia.
  - apply (bool_decide_unpack _). vm_compute. exact I.
  - assert (Forall (fun p => p ∈ dom pkts5) (given tx_ops2).*2) as H
      by (apply (bool_decide_unpack _); vm_compute; exact I).
    rewrite list.Forall_forall in H. exact H.
Qed.

Lemma tx_drains_witness :
  exists s0 b n, dhd_flow_rings_init (Some (replicate 8 0)) true (fun _ => true) true true true 10 pub0 = Some (BCME_OK, s0) /\
    tx_run (managed := flow_managed 10) tx_ops2 (mk_bus s0 pkts5 list10 (mk_toy ∅ []) [] 10) = Some b /\
    DHD_FLOW_RING b 9 = Some n /\ q_len (fr_queue n) = 2 /\
    exists b' n', dhd_bus_schedule_queue b 9 = Some (BCME_OK, b') /\ tp_posted (b_prot b') 9 = [101; 102] /\
      DHD_FLOW_RING b' 9 = Some n' /\ DHD_FLOW_QUEUE_EMPTY (fr_queue n') = true.
Proof.
  assert (exists s0, dhd_flow_rings_init (Some (replicate 8 0)) true (fun _ => true) true true true 10 pub0 =
    Some (BCME_OK, s0)) as [s0 E0] by (eexists; vm_compute; reflexivity).
  assert (exists b, tx_run (managed := flow_managed 10) tx_ops2 (mk_bus s0 pkts5 list10 (mk_toy ∅ []) [] 10) = Some b)
    as [b E] by (vm_compute in E0; injection E0 as <-; eexists; vm_compute; reflexivity).
  pose proof E0 as E0'. vm_compute in E0'. injection E0' as E0'.
  pose proof E as E'. rewrite <- E0' in E'. vm_compute in E'. injection E' as E'.
  assert (exists n, DHD_FLOW_RING b 9 = Some n) as [n En] by (rewrite <- E'; eexists; vm_compute; reflexivity).
  pose proof En as En'. rewrite <- E' in En'. vm_compute in En'. injection En' as En'.
  exists s0, b, n. split; [exact E0|]. split; [exact E|]. split; [exact En|]. split; [by rewrite <- En'|].
  destruct (tx_drains (replicate 8 0) 10 pub0 s0 pkts5 list10 (mk_toy ∅ []) 10 tx_ops2 b 9 n [101; 102]
    tx_start5 tx_history2 E0 E) as (b' & n' & Es & Ep & En2 & Eq).
  - lia.
  - rewrite <- E'. reflexivity.
  - exact En.
  - rewrite <- En'. reflexivity.
  - rewrite <- En'. rewrite <- E'. constructor; vm_compute; try reflexivity; try (apply (bool_decide_unpack _); vm_compute; exact I).
  - rewrite <- E'. intros p1 i1 _. eexists. split; [reflexivity|]. intros p2 i2 _. eexists. split; [reflexivity|exact I].
  - exists b', n'. split; [exact Es|]. split; [|by split]. rewrite Ep. rewrite <- E'. reflexivity.
Defined.
