(* ===== verification/Crc.v ===== *)
(** * Cyclic redundancy checks

    shared/bcmutils.c: hndcrc8, hndcrc16 and hndcrc32, which take one table
    lookup per byte (hndcrc32 as compiled outside MIPS).  The reference is the
    shift register that takes one bit per step, least significant bit first,
    with the polynomial reflected: the coefficient of x^0 is the register's top
    bit. *)
From Stdlib Require Import ZArith Lia.
From stdpp Require Import base option numbers list.
From S2P Require Import Prelude Bytes.

(** ** The code *)
Definition crc8_table : list Z :=
  [0x00; 0xF7; 0xB9; 0x4E; 0x25; 0xD2; 0x9C; 0x6B; 0x4A; 0xBD; 0xF3; 0x04; 0x6F; 0x98; 0xD6; 0x21;
   0x94; 0x63; 0x2D; 0xDA; 0xB1; 0x46; 0x08; 0xFF; 0xDE; 0x29; 0x67; 0x90; 0xFB; 0x0C; 0x42; 0xB5;
   0x7F; 0x88; 0xC6; 0x31; 0x5A; 0xAD; 0xE3; 0x14; 0x35; 0xC2; 0x8C; 0x7B; 0x10; 0xE7; 0xA9; 0x5E;
   0xEB; 0x1C; 0x52; 0xA5; 0xCE; 0x39; 0x77; 0x80; 0xA1; 0x56; 0x18; 0xEF; 0x84; 0x73; 0x3D; 0xCA;
   0xFE; 0x09; 0x47; 0xB0; 0xDB; 0x2C; 0x62; 0x95; 0xB4; 0x43; 0x0D; 0xFA; 0x91; 0x66; 0x28; 0xDF;
   0x6A; 0x9D; 0xD3; 0x24; 0x4F; 0xB8; 0xF6; 0x01; 0x20; 0xD7; 0x99; 0x6E; 0x05; 0xF2; 0xBC; 0x4B;
   0x81; 0x76; 0x38; 0xCF; 0xA4; 0x53; 0x1D; 0xEA; 0xCB; 0x3C; 0x72; 0x85; 0xEE; 0x19; 0x57; 0xA0;
   0x15; 0xE2; 0xAC; 0x5B; 0x30; 0xC7; 0x89; 0x7E; 0x5F; 0xA8; 0xE6; 0x11; 0x7A; 0x8D; 0xC3; 0x34;
   0xAB; 0x5C; 0x12; 0xE5; 0x8E; 0x79; 0x37; 0xC0; 0xE1; 0x16; 0x58; 0xAF; 0xC4; 0x33; 0x7D; 0x8A;
   0x3F; 0xC8; 0x86; 0x71; 0x1A; 0xED; 0xA3; 0x54; 0x75; 0x82; 0xCC; 0x3B; 0x50; 0xA7; 0xE9; 0x1E;
   0xD4; 0x23; 0x6D; 0x9A; 0xF1; 0x06; 0x48; 0xBF; 0x9E; 0x69; 0x27; 0xD0; 0xBB; 0x4C; 0x02; 0xF5;
   0x40; 0xB7; 0xF9; 0x0E; 0x65; 0x92; 0xDC; 0x2B; 0x0A; 0xFD; 0xB3; 0x44; 0x2F; 0xD8; 0x96; 0x61;
   0x55; 0xA2; 0xEC; 0x1B; 0x70; 0x87; 0xC9; 0x3E; 0x1F; 0xE8; 0xA6; 0x51; 0x3A; 0xCD; 0x83; 0x74;
   0xC1; 0x36; 0x78; 0x8F; 0xE4; 0x13; 0x5D; 0xAA; 0x8B; 0x7C; 0x32; 0xC5; 0xAE; 0x59; 0x17; 0xE0;
   0x2A; 0xDD; 0x93; 0x64; 0x0F; 0xF8; 0xB6; 0x41; 0x60; 0x97; 0xD9; 0x2E; 0x45; 0xB2; 0xFC; 0x0B;
   0xBE; 0x49; 0x07; 0xF0; 0x9B; 0x6C; 0x22; 0xD5; 0xF4; 0x03; 0x4D; 0xBA; 0xD1; 0x26; 0x68; 0x9F].
Definition crc16_table : list Z :=
  [0x0000; 0x1189; 0x2312; 0x329B; 0x4624; 0x57AD; 0x6536; 0x74BF; 0x8C48; 0x9DC1; 0xAF5A; 0xBED3;
   0xCA6C; 0xDBE5; 0xE97E; 0xF8F7; 0x1081; 0x0108; 0x3393; 0x221A; 0x56A5; 0x472C; 0x75B7; 0x643E;
   0x9CC9; 0x8D40; 0xBFDB; 0xAE52; 0xDAED; 0xCB64; 0xF9FF; 0xE876; 0x2102; 0x308B; 0x0210; 0x1399;
   0x6726; 0x76AF; 0x4434; 0x55BD; 0xAD4A; 0xBCC3; 0x8E58; 0x9FD1; 0xEB6E; 0xFAE7; 0xC87C; 0xD9F5;
   0x3183; 0x200A; 0x1291; 0x0318; 0x77A7; 0x662E; 0x54B5; 0x453C; 0xBDCB; 0xAC42; 0x9ED9; 0x8F50;
   0xFBEF; 0xEA66; 0xD8FD; 0xC974; 0x4204; 0x538D; 0x6116; 0x709F; 0x0420; 0x15A9; 0x2732; 0x36BB;
   0xCE4C; 0xDFC5; 0xED5E; 0xFCD7; 0x8868; 0x99E1; 0xAB7A; 0xBAF3; 0x5285; 0x430C; 0x7197; 0x601E;
   0x14A1; 0x0528; 0x37B3; 0x263A; 0xDECD; 0xCF44; 0xFDDF; 0xEC56; 0x98E9; 0x8960; 0xBBFB; 0xAA72;
   0x6306; 0x728F; 0x4014; 0x519D; 0x2522; 0x34AB; 0x0630; 0x17B9; 0xEF4E; 0xFEC7; 0xCC5C; 0xDDD5;
   0xA96A; 0xB8E3; 0x8A78; 0x9BF1; 0x7387; 0x620E; 0x5095; 0x411C; 0x35A3; 0x242A; 0x16B1; 0x0738;
   0xFFCF; 0xEE46; 0xDCDD; 0xCD54; 0xB9EB; 0xA862; 0x9AF9; 0x8B70; 0x8408; 0x9581; 0xA71A; 0xB693;
   0xC22C; 0xD3A5; 0xE13E; 0xF0B7; 0x0840; 0x19C9; 0x2B52; 0x3ADB; 0x4E64; 0x5FED; 0x6D76; 0x7CFF;
   0x9489; 0x8500; 0xB79B; 0xA612; 0xD2AD; 0xC324; 0xF1BF; 0xE036; 0x18C1; 0x0948; 0x3BD3; 0x2A5A;
   0x5EE5; 0x4F6C; 0x7DF7; 0x6C7E; 0xA50A; 0xB483; 0x8618; 0x9791; 0xE32E; 0xF2A7; 0xC03C; 0xD1B5;
   0x2942; 0x38CB; 0x0A50; 0x1BD9; 0x6F66; 0x7EEF; 0x4C74; 0x5DFD; 0xB58B; 0xA402; 0x9699; 0x8710;
   0xF3AF; 0xE226; 0xD0BD; 0xC134; 0x39C3; 0x284A; 0x1AD1; 0x0B58; 0x7FE7; 0x6E6E; 0x5CF5; 0x4D7C;
   0xC60C; 0xD785; 0xE51E; 0xF497; 0x8028; 0x91A1; 0xA33A; 0xB2B3; 0x4A44; 0x5BCD; 0x6956; 0x78DF;
   0x0C60; 0x1DE9; 0x2F72; 0x3EFB; 0xD68D; 0xC704; 0xF59F; 0xE416; 0x90A9; 0x8120; 0xB3BB; 0xA232;
   0x5AC5; 0x4B4C; 0x79D7; 0x685E; 0x1CE1; 0x0D68; 0x3FF3; 0x2E7A; 0xE70E; 0xF687; 0xC41C; 0xD595;
   0xA12A; 0xB0A3; 0x8238; 0x93B1; 0x6B46; 0x7ACF; 0x4854; 0x59DD; 0x2D62; 0x3CEB; 0x0E70; 0x1FF9;
   0xF78F; 0xE606; 0xD49D; 0xC514; 0xB1AB; 0xA022; 0x92B9; 0x8330; 0x7BC7; 0x6A4E; 0x58D5; 0x495C;
   0x3DE3; 0x2C6A; 0x1EF1; 0x0F78].
Definition crc32_table : list Z :=
  [0x00000000; 0x77073096; 0xEE0E612C; 0x990951BA; 0x076DC419; 0x706AF48F; 0xE963A535; 0x9E6495A3;
   0x0EDB8832; 0x79DCB8A4; 0xE0D5E91E; 0x97D2D988; 0x09B64C2B; 0x7EB17CBD; 0xE7B82D07; 0x90BF1D91;
   0x1DB71064; 0x6AB020F2; 0xF3B97148; 0x84BE41DE; 0x1ADAD47D; 0x6DDDE4EB; 0xF4D4B551; 0x83D385C7;
   0x136C9856; 0x646BA8C0; 0xFD62F97A; 0x8A65C9EC; 0x14015C4F; 0x63066CD9; 0xFA0F3D63; 0x8D080DF5;
   0x3B6E20C8; 0x4C69105E; 0xD56041E4; 0xA2677172; 0x3C03E4D1; 0x4B04D447; 0xD20D85FD; 0xA50AB56B;
   0x35B5A8FA; 0x42B2986C; 0xDBBBC9D6; 0xACBCF940; 0x32D86CE3; 0x45DF5C75; 0xDCD60DCF; 0xABD13D59;
   0x26D930AC; 0x51DE003A; 0xC8D75180; 0xBFD06116; 0x21B4F4B5; 0x56B3C423; 0xCFBA9599; 0xB8BDA50F;
   0x2802B89E; 0x5F058808; 0xC60CD9B2; 0xB10BE924; 0x2F6F7C87; 0x58684C11; 0xC1611DAB; 0xB6662D3D;
   0x76DC4190; 0x01DB7106; 0x98D220BC; 0xEFD5102A; 0x71B18589; 0x06B6B51F; 0x9FBFE4A5; 0xE8B8D433;
   0x7807C9A2; 0x0F00F934; 0x9609A88E; 0xE10E9818; 0x7F6A0DBB; 0x086D3D2D; 0x91646C97; 0xE6635C01;
   0x6B6B51F4; 0x1C6C6162; 0x856530D8; 0xF262004E; 0x6C0695ED; 0x1B01A57B; 0x8208F4C1; 0xF50FC457;
   0x65B0D9C6; 0x12B7E950; 0x8BBEB8EA; 0xFCB9887C; 0x62DD1DDF; 0x15DA2D49; 0x8CD37CF3; 0xFBD44C65;
   0x4DB26158; 0x3AB551CE; 0xA3BC0074; 0xD4BB30E2; 0x4ADFA541; 0x3DD895D7; 0xA4D1C46D; 0xD3D6F4FB;
   0x4369E96A; 0x346ED9FC; 0xAD678846; 0xDA60B8D0; 0x44042D73; 0x33031DE5; 0xAA0A4C5F; 0xDD0D7CC9;
   0x5005713C; 0x270241AA; 0xBE0B1010; 0xC90C2086; 0x5768B525; 0x206F85B3; 0xB966D409; 0xCE61E49F;
   0x5EDEF90E; 0x29D9C998; 0xB0D09822; 0xC7D7A8B4; 0x59B33D17; 0x2EB40D81; 0xB7BD5C3B; 0xC0BA6CAD;
   0xEDB88320; 0x9ABFB3B6; 0x03B6E20C; 0x74B1D29A; 0xEAD54739; 0x9DD277AF; 0x04DB2615; 0x73DC1683;
   0xE3630B12; 0x94643B84; 0x0D6D6A3E; 0x7A6A5AA8; 0xE40ECF0B; 0x9309FF9D; 0x0A00AE27; 0x7D079EB1;
   0xF00F9344; 0x8708A3D2; 0x1E01F268; 0x6906C2FE; 0xF762575D; 0x806567CB; 0x196C3671; 0x6E6B06E7;
   0xFED41B76; 0x89D32BE0; 0x10DA7A5A; 0x67DD4ACC; 0xF9B9DF6F; 0x8EBEEFF9; 0x17B7BE43; 0x60B08ED5;
   0xD6D6A3E8; 0xA1D1937E; 0x38D8C2C4; 0x4FDFF252; 0xD1BB67F1; 0xA6BC5767; 0x3FB506DD; 0x48B2364B;
   0xD80D2BDA; 0xAF0A1B4C; 0x36034AF6; 0x41047A60; 0xDF60EFC3; 0xA867DF55; 0x316E8EEF; 0x4669BE79;
   0xCB61B38C; 0xBC66831A; 0x256FD2A0; 0x5268E236; 0xCC0C7795; 0xBB0B4703; 0x220216B9; 0x5505262F;
   0xC5BA3BBE; 0xB2BD0B28; 0x2BB45A92; 0x5CB36A04; 0xC2D7FFA7; 0xB5D0CF31; 0x2CD99E8B; 0x5BDEAE1D;
   0x9B64C2B0; 0xEC63F226; 0x756AA39C; 0x026D930A; 0x9C0906A9; 0xEB0E363F; 0x72076785; 0x05005713;
   0x95BF4A82; 0xE2B87A14; 0x7BB12BAE; 0x0CB61B38; 0x92D28E9B; 0xE5D5BE0D; 0x7CDCEFB7; 0x0BDBDF21;
   0x86D3D2D4; 0xF1D4E242; 0x68DDB3F8; 0x1FDA836E; 0x81BE16CD; 0xF6B9265B; 0x6FB077E1; 0x18B74777;
   0x88085AE6; 0xFF0F6A70; 0x66063BCA; 0x11010B5C; 0x8F659EFF; 0xF862AE69; 0x616BFFD3; 0x166CCF45;
   0xA00AE278; 0xD70DD2EE; 0x4E048354; 0x3903B3C2; 0xA7672661; 0xD06016F7; 0x4969474D; 0x3E6E77DB;
   0xAED16A4A; 0xD9D65ADC; 0x40DF0B66; 0x37D83BF0; 0xA9BCAE53; 0xDEBB9EC5; 0x47B2CF7F; 0x30B5FFE9;
   0xBDBDF21C; 0xCABAC28A; 0x53B39330; 0x24B4A3A6; 0xBAD03605; 0xCDD70693; 0x54DE5729; 0x23D967BF;
   0xB3667A2E; 0xC4614AB8; 0x5D681B02; 0x2A6F2B94; 0xB40BBE37; 0xC30C8EA1; 0x5A05DF1B; 0x2D02EF8D].

Definition CRC8_INIT_VALUE : Z := 0xff.
Definition CRC8_GOOD_VALUE : Z := 0x9f.
Definition CRC16_INIT_VALUE : Z := 0xffff.
Definition CRC16_GOOD_VALUE : Z := 0xf0b8.
Definition CRC32_INIT_VALUE : Z := 0xffffffff.
Definition CRC32_GOOD_VALUE : Z := 0xdebb20e3.

(** [crc##n##_table[i]]; reading past the table is an error. *)
Definition CRC_INNER_LOOP (table : list Z) (c x : Z) : option Z :=
  t ← aget table (Z.land (Z.lxor c x) 0xff); Some (Z.lxor (Z.shiftr c 8) t).

(** [pdata] is the memory from the pointer on. *)
Fixpoint hndcrc8 (pdata : list Z) (nbytes : nat) (crc : Z) : option Z :=
  match nbytes with
  | O => Some crc
  | S nbytes =>
      x ← head pdata; crc ← aget crc8_table (Z.land (Z.lxor crc x) 0xff);
      hndcrc8 (tail pdata) nbytes crc
  end.
Fixpoint hndcrc16 (pdata : list Z) (nbytes : nat) (crc : Z) : option Z :=
  match nbytes with
  | O => Some crc
  | S nbytes => x ← head pdata; crc ← CRC_INNER_LOOP crc16_table crc x; hndcrc16 (tail pdata) nbytes crc
  end.
Fixpoint hndcrc32 (pdata : list Z) (nbytes : nat) (crc : Z) : option Z :=
  match nbytes with
  | O => Some crc
  | S nbytes => x ← head pdata; crc ← CRC_INNER_LOOP crc32_table crc x; hndcrc32 (tail pdata) nbytes crc
  end.

(** ** The reference: one bit at a time *)
Definition crc_step (poly c : Z) : Z :=
  if Z.testbit c 0 then Z.lxor (Z.shiftr c 1) poly else Z.shiftr c 1.
Definition crc_bit (poly c : Z) (b : bool) : Z := crc_step poly (Z.lxor c (Z.b2z b)).
Definition bits_of_byte (x : Z) : list bool := Z.testbit x <$> [0; 1; 2; 3; 4; 5; 6; 7].
Definition bits_of (data : list Z) : list bool := data ≫= bits_of_byte.
Definition crc_bits (poly : Z) (bs : list bool) (c : Z) : Z := foldl (crc_bit poly) c bs.

Definition crc8_poly : Z := 0xAB.
Definition crc16_poly : Z := 0x8408.
Definition crc32_poly : Z := 0xEDB88320.

(** The value of a list of bits, the first one the lowest. *)
Fixpoint bits_val (bs : list bool) : Z :=
  match bs with [] => 0 | b :: bs => Z.b2z b + 2 * bits_val bs end.

(** ** The register *)
Section register.
Context (poly : Z).

Lemma step_shift y v : crc_step poly (Z.lxor y (2 * v)) = Z.lxor (crc_step poly y) v.
Proof.
  unfold crc_step. rewrite Z.lxor_spec, Z.testbit_even_0, xorb_false_r, Z.shiftr_lxor.
  replace (Z.shiftr (2 * v) 1) with v.
  2:{ rewrite Z.shiftr_div_pow2 by lia. change (2 ^ 1) with 2. symmetry. rewrite Z.mul_comm. by apply Z.div_mul. }
  destruct (Z.testbit y 0); [|done]. by rewrite !Z.lxor_assoc, (Z.lxor_comm v).
Qed.

Lemma steps_shift n : forall y v,
  Nat.iter n (crc_step poly) (Z.lxor y (v * 2 ^ Z.of_nat n)) = Z.lxor (Nat.iter n (crc_step poly) y) v.
Proof.
  induction n as [|n IH]; intros y v; [by rewrite Z.mul_1_r|].
  rewrite !Nat.iter_succ_r. rewrite Nat2Z.inj_succ, Z.pow_succ_r by lia.
  replace (v * (2 * 2 ^ Z.of_nat n)) with (2 * (v * 2 ^ Z.of_nat n)) by ring. by rewrite step_shift, IH.
Qed.

(** Feeding bits is adding them to the register at once, and as many steps. *)
Lemma crc_bits_iter bs : forall c,
  crc_bits poly bs c = Nat.iter (length bs) (crc_step poly) (Z.lxor c (bits_val bs)).
Proof.
  induction bs as [|b bs IH]; intros c; cbn [bits_val length]; [by rewrite Z.lxor_0_r|].
  unfold crc_bits. cbn [foldl]. fold (crc_bits poly bs (crc_bit poly c b)). rewrite IH, Nat.iter_succ_r.
  f_equal. unfold crc_bit. rewrite <- step_shift. f_equal.
  rewrite Z.lxor_assoc. f_equal. rewrite Z.add_nocarry_lxor; [done|].
  destruct b; [|by destruct (bits_val bs)]. apply Z.bits_inj'. intros i Hi. rewrite Z.land_spec, Z.bits_0.
  destruct (decide (i = 0)) as [->|]; [by rewrite Z.testbit_even_0, andb_false_r|].
  cbn [Z.b2z]. rewrite (Z.bits_above_log2 1 i) by (cbn; lia). done.
Qed.

Lemma crc_bits_app bs cs c : crc_bits poly (bs ++ cs) c = crc_bits poly cs (crc_bits poly bs c).
Proof. apply foldl_app. Qed.

(** ** Bounds and injectivity *)
Context (N : Z) (HN : 0 < N) (Hpoly : 0 <= poly < 2 ^ N) (Htop : Z.testbit poly (N - 1) = true).

Lemma bounded_bits c : (0 <= c < 2 ^ N) <-> 0 <= c /\ forall i, N <= i -> Z.testbit c i = false.
Proof.
  split.
  - intros Hc. split; [lia|]. intros i Hi. destruct (decide (c = 0)) as [->|]; [apply Z.bits_0|].
    apply Z.bits_above_log2; [lia|]. pose proof (proj1 (Z.log2_lt_pow2 c N ltac:(lia)) (proj2 Hc)). lia.
  - intros [H0 Hb]. split; [done|]. destruct (decide (c = 0)) as [->|]; [lia|].
    apply Z.log2_lt_pow2; [lia|]. destruct (Z.lt_ge_cases (Z.log2 c) N) as [|Hge]; [done|].
    apply Hb in Hge. by rewrite Z.bit_log2 in Hge by lia.
Qed.

Lemma lxor_bounded a b : 0 <= a < 2 ^ N -> 0 <= b < 2 ^ N -> 0 <= Z.lxor a b < 2 ^ N.
Proof.
  intros [A0 Ab]%bounded_bits [B0 Bb]%bounded_bits. apply bounded_bits.
  split; [by apply Z.lxor_nonneg|]. intros i Hi. by rewrite Z.lxor_spec, Ab, Bb.
Qed.

Lemma shiftr_bounded c : 0 <= c < 2 ^ N -> 0 <= Z.shiftr c 1 < 2 ^ N.
Proof.
  intros [C0 Cb]%bounded_bits. apply bounded_bits. split; [by apply Z.shiftr_nonneg|].
  intros i Hi. rewrite Z.shiftr_spec by lia. apply Cb. lia.
Qed.

Lemma step_bounded c : 0 <= c < 2 ^ N -> 0 <= crc_step poly c < 2 ^ N.
Proof.
  intros Hc. unfold crc_step. pose proof (shiftr_bounded c Hc). destruct (Z.testbit c 0); [|done].
  by apply lxor_bounded.
Qed.

(** The top bit of the result tells which bit was shifted out. *)
Lemma step_top c : 0 <= c < 2 ^ N -> Z.testbit (crc_step poly c) (N - 1) = Z.testbit c 0.
Proof.
  intros [C0 Cb]%bounded_bits. unfold crc_step.
  assert (Z.testbit (Z.shiftr c 1) (N - 1) = false) as Hs by (rewrite Z.shiftr_spec by lia; apply Cb; lia).
  destruct (Z.testbit c 0); [by rewrite Z.lxor_spec, Hs, Htop|done].
Qed.

Lemma step_inj a b : 0 <= a < 2 ^ N -> 0 <= b < 2 ^ N -> crc_step poly a = crc_step poly b -> a = b.
Proof.
  intros Ha Hb E. assert (Z.testbit a 0 = Z.testbit b 0) as E0 by (rewrite <- (step_top a), <- (step_top b), E; done).
  assert (Z.shiftr a 1 = Z.shiftr b 1) as E1.
  { unfold crc_step in E. rewrite <- E0 in E. destruct (Z.testbit a 0); [|done].
    apply (f_equal (Z.lxor poly)) in E. rewrite !(Z.lxor_comm _ poly), <- !Z.lxor_assoc, Z.lxor_nilpotent, !Z.lxor_0_l in E.
    done. }
  apply Z.bits_inj'. intros i Hi. destruct (decide (i = 0)) as [->|]; [done|].
  apply (f_equal (fun x => Z.testbit x (i - 1))) in E1. rewrite !Z.shiftr_spec in E1 by lia.
  by replace (i - 1 + 1) with i in E1 by lia.
Qed.

Lemma iter_bounded n : forall c, 0 <= c < 2 ^ N -> 0 <= Nat.iter n (crc_step poly) c < 2 ^ N.
Proof. induction n as [|n IH]; intros c Hc; [done|]. cbn. by apply step_bounded, IH. Qed.
Lemma iter_inj n : forall a b, 0 <= a < 2 ^ N -> 0 <= b < 2 ^ N ->
  Nat.iter n (crc_step poly) a = Nat.iter n (crc_step poly) b -> a = b.
Proof.
  induction n as [|n IH]; intros a b Ha Hb E; [done|]. cbn in E.
  apply step_inj in E; [by apply IH|by apply iter_bounded..].
Qed.

Lemma b2z_bounded b : 0 <= Z.b2z b < 2 ^ N.
Proof. pose proof (Z.pow_gt_1 2 N ltac:(lia)) as [H _]. specialize (H HN). destruct b; cbn; lia. Qed.
Lemma bits_bounded bs : forall c, 0 <= c < 2 ^ N -> 0 <= crc_bits poly bs c < 2 ^ N.
Proof.
  induction bs as [|b bs IH]; intros c Hc; [done|]. cbn. apply IH. unfold crc_bit.
  apply step_bounded, lxor_bounded; [done|apply b2z_bounded].
Qed.

Lemma lxor_inj_l x a b : Z.lxor x a = Z.lxor x b -> a = b.
Proof. intros E. apply (f_equal (Z.lxor x)) in E. by rewrite <- !Z.lxor_assoc, Z.lxor_nilpotent, !Z.lxor_0_l in E. Qed.

Lemma crc_bits_inj bs : forall a b, 0 <= a < 2 ^ N -> 0 <= b < 2 ^ N -> crc_bits poly bs a = crc_bits poly bs b -> a = b.
Proof.
  induction bs as [|x bs IH]; intros a b Ha Hb E; [done|]. cbn in E. pose proof (b2z_bounded x).
  apply IH in E; [|by apply step_bounded, lxor_bounded..]. unfold crc_bit in E.
  apply step_inj in E; [|by apply lxor_bounded..]. rewrite !(Z.lxor_comm _ (Z.b2z x)) in E. by apply lxor_inj_l in E.
Qed.

Lemma bits_val_bound bs : 0 <= bits_val bs < 2 ^ Z.of_nat (length bs).
Proof.
  induction bs as [|b bs IH]; cbn [bits_val length]; [lia|].
  rewrite Nat2Z.inj_succ, Z.pow_succ_r by lia. destruct b; cbn [Z.b2z]; lia.
Qed.
Lemma bits_val_inj bs : forall cs, length bs = length cs -> bits_val bs = bits_val cs -> bs = cs.
Proof.
  induction bs as [|b bs IH]; intros [|c cs] Hl E; try done. cbn [bits_val] in E.
  assert (b = c) as -> by (destruct b, c; cbn [Z.b2z] in E; (done || lia)). f_equal. apply IH; [by injection Hl|lia].
Qed.

(** Two messages that differ only inside a window of [N] bits have different
    checks. *)
Lemma burst (p u v s : list bool) c :
  0 <= c < 2 ^ N -> length u = length v -> Z.of_nat (length u) <= N -> u <> v ->
  crc_bits poly (p ++ u ++ s) c <> crc_bits poly (p ++ v ++ s) c.
Proof.
  intros Hc Hl HlN Huv E. rewrite !crc_bits_app in E.
  pose proof (bits_bounded p c Hc) as Hp. set (d := crc_bits poly p c) in *.
  apply crc_bits_inj in E; [|by apply bits_bounded..]. rewrite !crc_bits_iter, Hl in E.
  assert (forall bs, Z.of_nat (length bs) <= N -> 0 <= bits_val bs < 2 ^ N) as Hv.
  { intros bs Hbs. pose proof (bits_val_bound bs). pose proof (Z.pow_le_mono_r 2 _ _ ltac:(lia) Hbs). lia. }
  apply iter_inj in E; [|apply lxor_bounded; [done|apply Hv; lia]..].
  apply lxor_inj_l, bits_val_inj in E; done.
Qed.
End register.

(** ** Bytes *)
Lemma bits_of_byte_val x : is_byte x -> bits_val (bits_of_byte x) = x.
Proof.
  intros Hx. assert (Forall (fun k => bits_val (bits_of_byte k) = k) (seqZ 0 256)) as H.
  { apply (bool_decide_unpack _). vm_compute. exact I. }
  rewrite list.Forall_forall in H. apply H. unfold is_byte in Hx. apply elem_of_seqZ. lia.
Qed.

Lemma high_low y : 0 <= y -> y = Z.lxor (Z.land y 0xff) (Z.shiftr y 8 * 2 ^ 8).
Proof.
  intros Hy. change 0xff with (Z.ones 8). rewrite Z.land_ones by lia. rewrite Z.shiftr_div_pow2 by lia.
  rewrite <- Z.add_nocarry_lxor; [rewrite (Z.div_mod y (2 ^ 8)) at 1 by lia; lia|].
  apply Z.bits_inj'. intros i Hi. rewrite Z.land_spec, Z.bits_0.
  destruct (Z.lt_ge_cases i 8).
  - rewrite (Z.mul_pow2_bits_low _ 8) by lia. apply andb_false_r.
  - by rewrite Z.mod_pow2_bits_high by lia.
Qed.

Section bytes.
Context (poly : Z) (table : list Z).
(** Every entry of the table is eight steps of its index. *)
Context (Htab : table = Nat.iter 8 (crc_step poly) <$> seqZ 0 256).

Lemma table_get i : is_byte i -> aget table i = Some (Nat.iter 8 (crc_step poly) i).
Proof.
  intros [H0 H1]. unfold aget. destruct (Z.leb_spec 0 i); [|lia].
  rewrite Htab, list_lookup_fmap, lookup_seqZ_lt by lia.
  cbn [fmap option_fmap option_map]. by rewrite Z.add_0_l, Z2Nat.id.
Qed.
Lemma land_byte y : is_byte (Z.land y 0xff).
Proof. change 0xff with (Z.ones 8). rewrite Z.land_ones by lia. apply Z.mod_pos_bound. lia. Qed.

Lemma inner_bits c x : 0 <= c -> is_byte x -> CRC_INNER_LOOP table c x = Some (crc_bits poly (bits_of_byte x) c).
Proof.
  intros Hc Hx. unfold CRC_INNER_LOOP. rewrite table_get by apply land_byte. cbn [mbind option_bind].
  f_equal. rewrite crc_bits_iter, bits_of_byte_val by done. change (length (bits_of_byte x)) with 8%nat.
  rewrite (high_low (Z.lxor c x)) at 2 by (apply Z.lxor_nonneg; unfold is_byte in Hx; lia).
  change (2 ^ 8) with (2 ^ Z.of_nat 8). rewrite steps_shift, Z.lxor_comm. f_equal.
  rewrite Z.shiftr_lxor. replace (Z.shiftr x 8) with 0; [by rewrite Z.lxor_0_r|].
  symmetry. rewrite Z.shiftr_div_pow2 by lia. apply Z.div_small. exact Hx.
Qed.
End bytes.

Lemma step_nonneg poly c : 0 <= poly -> 0 <= c -> 0 <= crc_step poly c.
Proof.
  intros. unfold crc_step. pose proof (proj2 (Z.shiftr_nonneg c 1)). destruct (Z.testbit c 0); [apply Z.lxor_nonneg|]; lia.
Qed.
Lemma bits_nonneg poly bs : forall c, 0 <= poly -> 0 <= c -> 0 <= crc_bits poly bs c.
Proof.
  induction bs as [|b bs IH]; intros c Hp Hc; [done|]. cbn. apply IH; [done|]. unfold crc_bit.
  apply step_nonneg; [done|]. apply Z.lxor_nonneg. destruct b; cbn; lia.
Qed.

Lemma crc8_table_ok : crc8_table = Nat.iter 8 (crc_step crc8_poly) <$> seqZ 0 256.
Proof. vm_compute. reflexivity. Qed.
Lemma crc16_table_ok : crc16_table = Nat.iter 8 (crc_step crc16_poly) <$> seqZ 0 256.
Proof. vm_compute. reflexivity. Qed.
Lemma crc32_table_ok : crc32_table = Nat.iter 8 (crc_step crc32_poly) <$> seqZ 0 256.
Proof. vm_compute. reflexivity. Qed.

Lemma bits_of_cons x data : bits_of (x :: data) = bits_of_byte x ++ bits_of data.
Proof. done. Qed.

Lemma crc8_bits data : forall c, is_byte c -> Forall is_byte data ->
  hndcrc8 data (length data) c = Some (crc_bits crc8_poly (bits_of data) c).
Proof.
  induction data as [|x data IH]; intros c Hc Hd; [done|]. apply Forall_cons in Hd as [Hx Hd].
  cbn [hndcrc8 length head tail mbind option_bind].
  pose proof (inner_bits crc8_poly crc8_table crc8_table_ok c x ltac:(unfold is_byte in Hc; lia) Hx) as E.
  unfold CRC_INNER_LOOP in E. destruct (aget crc8_table _) as [t|]; [|done]. cbn [mbind option_bind] in *.
  apply (inj Some) in E. replace (Z.shiftr c 8) with 0 in E.
  2:{ symmetry. rewrite Z.shiftr_div_pow2 by lia. apply Z.div_small. exact Hc. }
  rewrite Z.lxor_0_l in E. subst t. rewrite bits_of_cons, crc_bits_app, <- IH; [done| |done].
  apply (bits_bounded crc8_poly 8); [lia|done|exact Hc].
Qed.
Lemma crc16_bits data : forall c, 0 <= c -> Forall is_byte data ->
  hndcrc16 data (length data) c = Some (crc_bits crc16_poly (bits_of data) c).
Proof.
  induction data as [|x data IH]; intros c Hc Hd; [done|]. apply Forall_cons in Hd as [Hx Hd].
  cbn [hndcrc16 length head tail mbind option_bind].
  rewrite (inner_bits crc16_poly _ crc16_table_ok) by done. cbn [mbind option_bind].
  by rewrite bits_of_cons, crc_bits_app, <- IH by (done || by apply bits_nonneg).
Qed.
Lemma crc32_bits data : forall c, 0 <= c -> Forall is_byte data ->
  hndcrc32 data (length data) c = Some (crc_bits crc32_poly (bits_of data) c).
Proof.
  induction data as [|x data IH]; intros c Hc Hd; [done|]. apply Forall_cons in Hd as [Hx Hd].
  cbn [hndcrc32 length head tail mbind option_bind].
  rewrite (inner_bits crc32_poly _ crc32_table_ok) by done. cbn [mbind option_bind].
  by rewrite bits_of_cons, crc_bits_app, <- IH by (done || by apply bits_nonneg).
Qed.

(** ** The residue *)
Lemma bits_val_app bs cs : bits_val (bs ++ cs) = bits_val bs + 2 ^ Z.of_nat (length bs) * bits_val cs.
Proof.
  induction bs as [|b bs IH]; cbn [bits_val length app]; [lia|].
  rewrite IH, Nat2Z.inj_succ, Z.pow_succ_r by lia. ring.
Qed.
Lemma le_bytes_len k : forall x, length (bits_of (le_bytes k x)) = (8 * k)%nat.
Proof.
  induction k as [|k IH]; intros x; [done|]. cbn [le_bytes]. rewrite bits_of_cons, length_app, IH. cbn. lia.
Qed.
Lemma le_bytes_bits_val k : forall x, 0 <= x < 2 ^ (8 * Z.of_nat k) -> bits_val (bits_of (le_bytes k x)) = x.
Proof.
  induction k as [|k IH]; intros x Hx; [cbn in *; lia|]. cbn [le_bytes].
  rewrite bits_of_cons, bits_val_app, bits_of_byte_val by (apply Z.mod_pos_bound; lia).
  change (2 ^ Z.of_nat (length (bits_of_byte (x mod 256)))) with 256.
  rewrite Nat2Z.inj_succ in Hx. replace (8 * Z.succ (Z.of_nat k)) with (8 + 8 * Z.of_nat k) in Hx by lia.
  rewrite Z.pow_add_r in Hx by lia. change (2 ^ 8) with 256 in *.
  rewrite IH.
  - rewrite (Z.div_mod x 256) at 3 by lia. lia.
  - split; [apply Z.div_pos; lia|]. apply Z.div_lt_upper_bound; lia.
Qed.

(** A message followed by the complement of its check. *)
Lemma residue poly k c (N := 8 * Z.of_nat k) :
  0 <= c < 2 ^ N ->
  crc_bits poly (bits_of (le_bytes k (Z.lxor c (Z.ones N)))) c = Nat.iter (8 * k) (crc_step poly) (Z.ones N).
Proof.
  intros Hc. rewrite crc_bits_iter, le_bytes_len, le_bytes_bits_val; fold N.
  - f_equal. by rewrite <- Z.lxor_assoc, Z.lxor_nilpotent, Z.lxor_0_l.
  - destruct k as [|k]; [change (2 ^ N) with 1 in Hc; assert (c = 0) as -> by lia; by vm_compute|].
    apply lxor_bounded; [lia|done|]. rewrite Z.ones_equiv. lia.
Qed.
Lemma bits_of_app d e : bits_of (d ++ e) = bits_of d ++ bits_of e.
Proof. apply bind_app. Qed.

(** The data differ only in a window of at most [N] bits. *)
Definition burst_error (N : nat) (d d' : list Z) : Prop :=
  exists p u v s, bits_of d = p ++ u ++ s /\ bits_of d' = p ++ v ++ s /\
    length u = length v /\ (length u <= N)%nat /\ u <> v.

(** What the two ends of a link see, over the register. *)
Lemma checks poly k init d d' (N := 8 * Z.of_nat k) :
  0 < N -> 0 <= poly < 2 ^ N -> Z.testbit poly (N - 1) = true -> 0 <= init < 2 ^ N ->
  crc_bits poly (bits_of (d ++ le_bytes k (Z.lxor (crc_bits poly (bits_of d) init) (Z.ones N)))) init =
    Nat.iter (8 * k) (crc_step poly) (Z.ones N) /\
  (burst_error (8 * k) d d' -> Some (crc_bits poly (bits_of d') init) <> Some (crc_bits poly (bits_of d) init)).
Proof.
  intros HN Hp Ht Hc. split.
  - rewrite bits_of_app, crc_bits_app. by apply residue, bits_bounded.
  - intros (p & u & v & s & -> & -> & Hlu & HlN & Hne) E%(inj Some). symmetry in E. revert E.
    apply (burst poly N HN Hp Ht); [done|done|lia|done].
Qed.
Lemma crc_pos8 : 0 < 8 * Z.of_nat 1. Proof. lia. Qed.
Lemma crc_poly8 : 0 <= crc8_poly < 2 ^ (8 * Z.of_nat 1). Proof. unfold crc8_poly; lia. Qed.
Lemma crc_top8 : Z.testbit crc8_poly (8 * Z.of_nat 1 - 1) = true. Proof. reflexivity. Qed.
Lemma crc_init8 : 0 <= CRC8_INIT_VALUE < 2 ^ (8 * Z.of_nat 1). Proof. unfold CRC8_INIT_VALUE; lia. Qed.
Lemma crc_pos16 : 0 < 8 * Z.of_nat 2. Proof. lia. Qed.
Lemma crc_poly16 : 0 <= crc16_poly < 2 ^ (8 * Z.of_nat 2). Proof. unfold crc16_poly; lia. Qed.
Lemma crc_top16 : Z.testbit crc16_poly (8 * Z.of_nat 2 - 1) = true. Proof. reflexivity. Qed.
Lemma crc_init16 : 0 <= CRC16_INIT_VALUE < 2 ^ (8 * Z.of_nat 2). Proof. unfold CRC16_INIT_VALUE; lia. Qed.
Lemma crc_pos32 : 0 < 8 * Z.of_nat 4. Proof. lia. Qed.
Lemma crc_poly32 : 0 <= crc32_poly < 2 ^ (8 * Z.of_nat 4). Proof. unfold crc32_poly; lia. Qed.
Lemma crc_top32 : Z.testbit crc32_poly (8 * Z.of_nat 4 - 1) = true. Proof. reflexivity. Qed.
Lemma crc_init32 : 0 <= CRC32_INIT_VALUE < 2 ^ (8 * Z.of_nat 4). Proof. unfold CRC32_INIT_VALUE; lia. Qed.

(** ** Properties *)

(** C31: on every byte string and every starting value, hndcrc8, hndcrc16 and
    hndcrc32 read inside the data and the table and compute the remainder that
    a one-bit-at-a-time shift register computes for the polynomials
    x^8+x^7+x^6+x^4+x^2+1, x^16+x^12+x^5+1 and the 32-bit Ethernet one. *)
Theorem crc_bitserial (data : list Z) (c8 c16 c32 : Z) :
  Forall is_byte data -> is_byte c8 -> 0 <= c16 < 2 ^ 16 -> 0 <= c32 < 2 ^ 32 ->
  hndcrc8 data (length data) c8 = Some (crc_bits crc8_poly (bits_of data) c8) /\
  hndcrc16 data (length data) c16 = Some (crc_bits crc16_poly (bits_of data) c16) /\
  hndcrc32 data (length data) c32 = Some (crc_bits crc32_poly (bits_of data) c32).
Proof.
  intros Hd H8 H16 H32. split; [by apply crc8_bits|]. split; [apply crc16_bits|apply crc32_bits]; (lia || done).
Qed.

(** C33: a message followed by the complement of its check, lowest byte first,
    checks to CRC8_GOOD_VALUE, CRC16_GOOD_VALUE, CRC32_GOOD_VALUE; and a
    message changed in a burst of at most 8, 16, 32 bits has another check, so
    that the change is seen. *)
Theorem crc_detects (d d' : list Z) :
  Forall is_byte d -> Forall is_byte d' -> length d = length d' ->
  exists c8 c16 c32,
    hndcrc8 d (length d) CRC8_INIT_VALUE = Some c8 /\
    hndcrc8 (d ++ le_bytes 1 (Z.lxor c8 0xff)) (length d + 1)%nat CRC8_INIT_VALUE = Some CRC8_GOOD_VALUE /\
    (burst_error 8 d d' -> hndcrc8 d' (length d') CRC8_INIT_VALUE <> Some c8) /\
    hndcrc16 d (length d) CRC16_INIT_VALUE = Some c16 /\
    hndcrc16 (d ++ le_bytes 2 (Z.lxor c16 0xffff)) (length d + 2)%nat CRC16_INIT_VALUE = Some CRC16_GOOD_VALUE /\
    (burst_error 16 d d' -> hndcrc16 d' (length d') CRC16_INIT_VALUE <> Some c16) /\
    hndcrc32 d (length d) CRC32_INIT_VALUE = Some c32 /\
    hndcrc32 (d ++ le_bytes 4 (Z.lxor c32 0xffffffff)) (length d + 4)%nat CRC32_INIT_VALUE = Some CRC32_GOOD_VALUE /\
    (burst_error 32 d d' -> hndcrc32 d' (length d') CRC32_INIT_VALUE <> Some c32).
Proof.
  intros Hd Hd' Hl.
  assert (forall k x, length (d ++ le_bytes k x) = (length d + k)%nat) as Hlen
    by (intros; by rewrite length_app, length_le_bytes).
  assert (forall k x, Forall is_byte (d ++ le_bytes k x)) as Hfa by (intros; apply Forall_app; auto using le_bytes_bytes).
  destruct (checks crc8_poly 1 CRC8_INIT_VALUE d d' crc_pos8 crc_poly8 crc_top8 crc_init8) as [G8 B8].
  destruct (checks crc16_poly 2 CRC16_INIT_VALUE d d' crc_pos16 crc_poly16 crc_top16 crc_init16) as [G16 B16].
  destruct (checks crc32_poly 4 CRC32_INIT_VALUE d d' crc_pos32 crc_poly32 crc_top32 crc_init32) as [G32 B32].
  pose proof crc_init8 as H8. pose proof crc_init16 as H16. pose proof crc_init32 as H32.
  do 3 eexists. split_and!.
  - apply crc8_bits; [exact H8|exact Hd].
  - rewrite <- (Hlen 1%nat (Z.lxor (crc_bits crc8_poly (bits_of d) CRC8_INIT_VALUE) (Z.ones 8))), crc8_bits; [|exact H8|apply Hfa].
    f_equal. etransitivity; [exact G8|vm_compute; reflexivity].
  - rewrite crc8_bits; [|exact H8|exact Hd']. exact B8.
  - apply crc16_bits; [apply H16|exact Hd].
  - rewrite <- (Hlen 2%nat (Z.lxor (crc_bits crc16_poly (bits_of d) CRC16_INIT_VALUE) (Z.ones 16))), crc16_bits; [|apply H16|apply Hfa].
    f_equal. etransitivity; [exact G16|vm_compute; reflexivity].
  - rewrite crc16_bits; [|apply H16|exact Hd']. exact B16.
  - apply crc32_bits; [apply H32|exact Hd].
  - rewrite <- (Hlen 4%nat (Z.lxor (crc_bits crc32_poly (bits_of d) CRC32_INIT_VALUE) (Z.ones 32))), crc32_bits; [|apply H32|apply Hfa].
    f_equal. etransitivity; [exact G32|vm_compute; reflexivity].
  - rewrite crc32_bits; [|apply H32|exact Hd']. exact B32.
Qed.

(** ** Examples *)
(** "123456789". *)
Definition crc_msg : list Z := [49; 50; 51; 52; 53; 54; 55; 56; 57].
Lemma crc_msg_bytes : Forall is_byte crc_msg.
Proof. repeat constructor; unfold is_byte; lia. Qed.

(** The published check values of CRC-16/X-25 and CRC-32, before the final
    complement. *)
Lemma crc_bitserial_witness :
  hndcrc16 crc_msg 9 CRC16_INIT_VALUE = Some (Z.lxor 0x906E 0xffff) /\
  hndcrc32 crc_msg 9 CRC32_INIT_VALUE = Some (Z.lxor 0xCBF43926 0xffffffff).
Proof.
  destruct (crc_bitserial crc_msg CRC8_INIT_VALUE CRC16_INIT_VALUE CRC32_INIT_VALUE) as (_ & E16 & E32).
  - exact crc_msg_bytes.
  - unfold is_byte, CRC8_INIT_VALUE; lia.
  - unfold CRC16_INIT_VALUE; lia.
  - unfold CRC32_INIT_VALUE; lia.
  - split; [etransitivity; [exact E16|]|etransitivity; [exact E32|]]; vm_compute; reflexivity.
Defined.

(** One flipped bit. *)
Lemma crc_detects_witness :
  exists c, hndcrc32 crc_msg 9 CRC32_INIT_VALUE = Some c /\
    hndcrc32 (<[3%nat := 54]> crc_msg) 9 CRC32_INIT_VALUE <> Some c.
Proof.
  destruct (crc_detects crc_msg (<[3%nat := 54]> crc_msg)) as (c8 & c16 & c32 & _ & _ & _ & _ & _ & _ & E & _ & B).
  - exact crc_msg_bytes.
  - repeat constructor; unfold is_byte; lia.
  - reflexivity.
  - exists c32. split; [exact E|]. apply B.
    exists (take 25 (bits_of crc_msg)), [false], [true], (drop 26 (bits_of crc_msg)).
    split; [vm_compute; reflexivity|]. split; [vm_compute; reflexivity|]. split; [reflexivity|].
    split; [cbn; lia|congruence].
Defined.
