(* ===== verification/Tlv.v ===== *)
(** * Information elements: one-byte type, one-byte length, value

    shared/bcmutils.c: bcm_write_tlv, bcm_copy_tlv and their bounded variants;
    bcm_next_tlv, bcm_parse_tlvs, bcm_parse_tlvs_min_bodylen,
    bcm_parse_ordered_tlvs and bcm_find_vendor_ie, which read elements that
    come from the air.

    Pointers into the memory [m] are offsets, one that may be NULL an
    [option]. *)
From Stdlib Require Import ZArith Lia Sorted.
From stdpp Require Import base option numbers list.
From S2P Require Import Prelude Bytes.

Definition TLV_HDR_LEN : Z := 2.
Definition BCM_TLV_HDR_SIZE : Z := 2.
Definition BCM_TLV_MAX_DATA_SIZE : Z := 255.
Definition DOT11_MNG_PROPR_ID : Z := 221.
Definition DOT11_OUI_LEN : Z := 3.

Definition tlv_id (m : list Z) (elt : Z) : option Z := aget m elt.
Definition tlv_len (m : list Z) (elt : Z) : option Z := aget m (elt + 1).

(** The element's length is read only when the header fits. *)
Definition bcm_valid_tlv (m : list Z) (elt buflen : Z) : option bool :=
  if negb (BCM_TLV_HDR_SIZE <=? buflen) then Some false
  else len ← tlv_len m elt; Some (BCM_TLV_HDR_SIZE + len <=? buflen).

(** ** Writing

    The memory and the new destination; [data] is the memory at the source. *)
Definition bcm_write_tlv (m : list Z) (type : Z) (data : option (list Z)) (datalen : Z) (dst : option Z)
    : option (list Z * option Z) :=
  match dst with
  | Some p =>
      if (0 <=? datalen) && (datalen <=? BCM_TLV_MAX_DATA_SIZE) && (bool_decide (data <> None) || (datalen =? 0)) then
        m ← aset m p (u8 type); m ← aset m (p + 1) (u8 datalen);
        m ← (if 0 <? datalen then src ← data; bs ← ld_bytes src 0 (Z.to_nat datalen); st_bytes m (p + 2) bs else Some m);
        Some (m, Some (p + BCM_TLV_HDR_SIZE + datalen))
      else Some (m, dst)
  | None => Some (m, dst)
  end.

Definition bcm_write_tlv_safe (m : list Z) (type : Z) (data : option (list Z)) (datalen : Z) (dst : option Z)
    (dst_maxlen : Z) : option (list Z * option Z) :=
  if (0 <=? datalen) && (datalen <=? BCM_TLV_MAX_DATA_SIZE) then
    if datalen + BCM_TLV_HDR_SIZE <=? dst_maxlen then bcm_write_tlv m type data datalen dst else Some (m, dst)
  else Some (m, dst).

(** [src] is another memory, read from its start. *)
Definition bcm_copy_tlv (m : list Z) (src : option (list Z)) (dst : option Z) : option (list Z * option Z) :=
  match src, dst with
  | Some s, Some p =>
      len ← tlv_len s 0;
      let totlen := BCM_TLV_HDR_SIZE + len in
      bs ← ld_bytes s 0 (Z.to_nat totlen); m ← st_bytes m p bs; Some (m, Some (p + totlen))
  | _, _ => Some (m, dst)
  end.
Definition bcm_copy_tlv_safe (m : list Z) (src : option (list Z)) (dst : option Z) (dst_maxlen : Z)
    : option (list Z * option Z) :=
  match src with
  | Some s => ok ← bcm_valid_tlv s 0 dst_maxlen; if (ok : bool) then bcm_copy_tlv m src dst else Some (m, dst)
  | None => Some (m, dst)
  end.

(** ** Reading *)

(** The next element, and the bytes left. *)
Definition bcm_next_tlv (m : list Z) (elt buflen : Z) : option (option Z * Z) :=
  ok ← bcm_valid_tlv m elt buflen;
  if negb ok then Some (None, buflen) else
  len ← tlv_len m elt;
  let elt := elt + 2 + len in
  let buflen := buflen - (TLV_HDR_LEN + len) in
  ok ← bcm_valid_tlv m elt buflen;
  Some (if negb ok then None else Some elt, buflen).

(** Each turn takes at least a header. *)
Fixpoint parse_loop (fuel : nat) (m : list Z) (elt totlen key : Z) : option (option Z) :=
  match fuel with
  | O => None
  | S fuel =>
      if negb (TLV_HDR_LEN <=? totlen) then Some None else
      len ← tlv_len m elt; id ← tlv_id m elt;
      if (id =? key) && (len + TLV_HDR_LEN <=? totlen) then Some (Some elt) else
      parse_loop fuel m (elt + (len + TLV_HDR_LEN)) (totlen - (len + TLV_HDR_LEN)) key
  end.
Definition bcm_parse_tlvs (m : list Z) (buf : option Z) (buflen key : Z) : option (option Z) :=
  match buf with
  | None => Some None
  | Some elt => parse_loop (S (Z.to_nat buflen)) m elt buflen key
  end.

Definition bcm_parse_tlvs_min_bodylen (m : list Z) (buf : option Z) (buflen key min_bodylen : Z) : option (option Z) :=
  ret ← bcm_parse_tlvs m buf buflen key;
  match ret with
  | None => Some None
  | Some elt => len ← tlv_len m elt; Some (if len <? min_bodylen then None else ret)
  end.

Fixpoint ordered_loop (fuel : nat) (m : list Z) (elt totlen key : Z) : option (option Z) :=
  match fuel with
  | O => None
  | S fuel =>
      if negb (TLV_HDR_LEN <=? totlen) then Some None else
      id ← tlv_id m elt; len ← tlv_len m elt;
      if key <? id then Some None else
      if (id =? key) && (len + TLV_HDR_LEN <=? totlen) then Some (Some elt) else
      ordered_loop fuel m (elt + (len + TLV_HDR_LEN)) (totlen - (len + TLV_HDR_LEN)) key
  end.
Definition bcm_parse_ordered_tlvs (m : list Z) (elt buflen key : Z) : option (option Z) :=
  ordered_loop (S (Z.to_nat buflen)) m elt buflen key.

(** [voui] and [type] are the memories compared with. *)
Definition bcmp (m : list Z) (p : Z) (s : list Z) (n : Z) : option bool :=
  a ← ld_bytes m p (Z.to_nat n); b ← ld_bytes s 0 (Z.to_nat n); Some (negb (bool_decide (a = b))).
Definition vendor_match (m : list Z) (ie : Z) (voui type : list Z) (type_len : Z) : option bool :=
  ie_len ← tlv_len m ie; id ← tlv_id m ie;
  if (id =? DOT11_MNG_PROPR_ID) && (DOT11_OUI_LEN + type_len <=? ie_len) then
    d ← bcmp m (ie + 2) voui DOT11_OUI_LEN;
    if (d : bool) then Some false else
    if type_len =? 0 then Some true else d ← bcmp m (ie + 2 + DOT11_OUI_LEN) type type_len; Some (negb d)
  else Some false.
Fixpoint vendor_loop (fuel : nat) (m : list Z) (ie tlvs_len : Z) (voui type : list Z) (type_len : Z)
    : option (option Z) :=
  match fuel with
  | O => None
  | S fuel =>
      found ← vendor_match m ie voui type type_len;
      if (found : bool) then Some (Some ie) else
      '(ie, tlvs_len) ← bcm_next_tlv m ie tlvs_len;
      match ie with None => Some None | Some ie => vendor_loop fuel m ie tlvs_len voui type type_len end
  end.
Definition bcm_find_vendor_ie (m : list Z) (tlvs : option Z) (tlvs_len : Z) (voui type : list Z) (type_len : Z)
    : option (option Z) :=
  match tlvs with
  | None => Some None
  | Some ie =>
      ok ← bcm_valid_tlv m ie tlvs_len;
      if negb ok then Some None else vendor_loop (S (Z.to_nat tlvs_len)) m ie tlvs_len voui type type_len
  end.

(** * Lemmas *)

(** ** What the bytes hold

    An element found: its address, its id and its value. *)
Record elem := mk_elem { e_ptr : Z; e_id : Z; e_val : list Z }.
Definition e_size (e : elem) : Z := 2 + Z.of_nat (length (e_val e)).

(** The elements that follow each other from [p] in [n] bytes; what is left
    is shorter than the element it starts. *)
Inductive tlvs (m : list Z) : Z -> Z -> list elem -> Prop :=
  | tlvs_short p n : n < 2 -> tlvs m p n []
  | tlvs_cut p n id len : 2 <= n -> tlv_id m p = Some id -> tlv_len m p = Some len -> n < 2 + len -> tlvs m p n []
  | tlvs_cons p n id v tr :
      tlv_id m p = Some id -> tlv_len m p = Some (Z.of_nat (length v)) -> ld_bytes m (p + 2) (length v) = Some v ->
      2 + Z.of_nat (length v) <= n ->
      tlvs m (p + (2 + Z.of_nat (length v))) (n - (2 + Z.of_nat (length v))) tr ->
      tlvs m p n (mk_elem p id v :: tr).

Lemma tlvs_any m k : forall p n,
  bytes m -> 0 <= p -> p + n <= Z.of_nat (length m) -> (Z.to_nat n <= k)%nat ->
  exists tr, tlvs m p n tr.
Proof.
  induction k as [|k IH]; intros p n Hm Hp Hn Hk; [exists []; constructor; lia|].
  destruct (Z.lt_ge_cases n 2); [by exists []; constructor|].
  destruct (aget_is_Some m p) as [id Eid]; [lia|]. destruct (aget_is_Some m (p + 1)) as [len El]; [lia|].
  pose proof (aget_byte _ _ _ Hm El) as Hb. unfold is_byte in Hb.
  destruct (Z.lt_ge_cases n (2 + len)); [exists []; by eapply tlvs_cut|].
  destruct (ld_bytes_Some m (p + 2) (Z.to_nat len)) as (v & Ev & Hv & _); [lia|lia|].
  assert (len = Z.of_nat (length v)) as -> by lia. rewrite Nat2Z.id in Ev.
  destruct (IH (p + (2 + Z.of_nat (length v))) (n - (2 + Z.of_nat (length v)))) as [tr Htr]; [done|lia..|].
  exists (mk_elem p id v :: tr). by constructor.
Qed.

Lemma tlvs_in m p n tr : tlvs m p n tr ->
  Forall (fun e => p <= e_ptr e /\ e_ptr e + e_size e <= p + n /\ tlv_id m (e_ptr e) = Some (e_id e) /\
            tlv_len m (e_ptr e) = Some (Z.of_nat (length (e_val e))) /\
            ld_bytes m (e_ptr e + 2) (length (e_val e)) = Some (e_val e)) tr.
Proof.
  induction 1 as [| |p n id v tr Eid El Ev Hn _ IH]; [constructor..|]. constructor.
  - unfold e_size. cbn. split_and!; done || lia.
  - eapply Forall_impl; [exact IH|]. intros e (? & ? & ?). split_and!; (tauto || lia).
Qed.

Lemma tlvs_valid m p n tr : tlvs m p n tr -> bcm_valid_tlv m p n = Some (bool_decide (tr <> [])).
Proof.
  unfold bcm_valid_tlv, BCM_TLV_HDR_SIZE. intros [?? H|????? _ El ?|????? _ El _ ? _].
  - by destruct (Z.leb_spec 2 n0); [lia|].
  - destruct (Z.leb_spec 2 n0); [|lia]. cbn [negb]. rewrite El. cbn. by destruct (Z.leb_spec (2 + len) n0); [lia|].
  - destruct (Z.leb_spec 2 n0); [|lia]. cbn [negb]. rewrite El. cbn.
    by destruct (Z.leb_spec (2 + Z.of_nat (length v)) n0); [|lia].
Qed.

(** ** What the loops find *)
Definition find_elem (key : Z) (tr : list elem) : option elem := snd <$> list_find (fun e => e_id e = key) tr.
Fixpoint find_ordered (key : Z) (tr : list elem) : option elem :=
  match tr with
  | [] => None
  | e :: tr => if key <? e_id e then None else if e_id e =? key then Some e else find_ordered key tr
  end.
(** An element of a vendor: the value starts with the OUI and the type. *)
Definition of_vendor (voui type : list Z) (e : elem) : Prop :=
  e_id e = DOT11_MNG_PROPR_ID /\ take (length voui + length type) (e_val e) = voui ++ type.
#[export] Instance of_vendor_dec voui type e : Decision (of_vendor voui type e).
Proof. unfold of_vendor. apply _. Defined.

Lemma find_elem_cons key e tr : find_elem key (e :: tr) = if e_id e =? key then Some e else find_elem key tr.
Proof.
  unfold find_elem. cbn [list_find]. destruct (Z.eqb_spec (e_id e) key); [by rewrite decide_True|].
  rewrite decide_False by done. by destruct (list_find _ tr) as [[i y]|].
Qed.

Lemma parse_loop_tlvs key fuel : forall m p n tr, tlvs m p n tr -> (Z.to_nat n < fuel)%nat ->
  parse_loop fuel m p n key = Some (e_ptr <$> find_elem key tr).
Proof.
  induction fuel as [|fuel IH]; intros m p n tr H Hf; [lia|]. cbn [parse_loop]. unfold TLV_HDR_LEN.
  destruct H as [p n Hn|p n id len Hn Eid El Hc|p n id v tr Eid El Ev Hn H].
  - by destruct (Z.leb_spec 2 n); [lia|].
  - destruct (Z.leb_spec 2 n); [|lia]. cbn [negb]. rewrite El, Eid. cbn [mbind option_bind].
    destruct (Z.leb_spec (len + 2) n); [lia|]. rewrite andb_false_r.
    rewrite (IH _ _ _ []); [done|constructor|]; lia.
  - destruct (Z.leb_spec 2 n); [|lia]. cbn [negb]. rewrite El, Eid. cbn [mbind option_bind].
    destruct (Z.leb_spec (Z.of_nat (length v) + 2) n); [|lia]. rewrite andb_true_r, find_elem_cons. cbn [e_id].
    destruct (id =? key); [done|]. rewrite (Z.add_comm (Z.of_nat (length v))). apply IH; [done|lia].
Qed.

Lemma ordered_loop_tlvs key fuel : forall m p n tr, tlvs m p n tr -> (Z.to_nat n < fuel)%nat ->
  ordered_loop fuel m p n key = Some (e_ptr <$> find_ordered key tr).
Proof.
  induction fuel as [|fuel IH]; intros m p n tr H Hf; [lia|]. cbn [ordered_loop]. unfold TLV_HDR_LEN.
  destruct H as [p n Hn|p n id len Hn Eid El Hc|p n id v tr Eid El Ev Hn H].
  - by destruct (Z.leb_spec 2 n); [lia|].
  - destruct (Z.leb_spec 2 n); [|lia]. cbn [negb]. rewrite El, Eid. cbn [mbind option_bind].
    destruct (key <? id); [done|]. destruct (Z.leb_spec (len + 2) n); [lia|]. rewrite andb_false_r.
    rewrite (IH _ _ _ []); [done|constructor|]; lia.
  - destruct (Z.leb_spec 2 n); [|lia]. cbn [negb]. rewrite El, Eid. cbn [mbind option_bind find_ordered e_id].
    destruct (key <? id); [done|].
    destruct (Z.leb_spec (Z.of_nat (length v) + 2) n); [|lia]. rewrite andb_true_r.
    destruct (id =? key); [done|]. rewrite (Z.add_comm (Z.of_nat (length v))). apply IH; [done|lia].
Qed.

Lemma next_tlvs m p n e tr : tlvs m p n (e :: tr) ->
  e_ptr e = p /\ bcm_next_tlv m p n = Some (e_ptr <$> head tr, n - e_size e) /\
  tlvs m (p + e_size e) (n - e_size e) tr.
Proof.
  intros H. pose proof (tlvs_valid _ _ _ _ H) as Hv.
  inversion H as [| |p' n' id v tr' Eid El Ev Hn Ht]; subst. cbn [e_ptr]. unfold e_size. cbn [e_val].
  split; [done|]. split; [|done]. unfold bcm_next_tlv. rewrite Hv. cbn [mbind option_bind negb]. rewrite El.
  cbn [mbind option_bind]. replace (p + 2 + Z.of_nat (length v)) with (p + (2 + Z.of_nat (length v))) by lia.
  unfold TLV_HDR_LEN. rewrite (tlvs_valid _ _ _ _ Ht). cbn [mbind option_bind].
  destruct tr as [|e' tr]; [done|]. inversion Ht; by subst.
Qed.

Lemma bcmp_spec m p v s n : ld_bytes m p n = Some v -> (n <= length s)%nat ->
  bcmp m p s (Z.of_nat n) = Some (negb (bool_decide (v = take n s))).
Proof.
  intros Ev Hs. unfold bcmp. rewrite Nat2Z.id, Ev. cbn [mbind option_bind].
  rewrite <- (take_drop n s) at 1. pose proof (ld_bytes_mid [] (take n s) (drop n s)) as E.
  rewrite length_take, Nat.min_l in E by done. cbn [app] in E. cbn [length] in E. change (Z.of_nat 0) with 0 in E. by rewrite E.
Qed.

(** A part of a value that was read. *)
Lemma ld_bytes_take m p v k n : ld_bytes m p (length v) = Some v -> (k + n <= length v)%nat ->
  ld_bytes m (p + Z.of_nat k) n = Some (take n (drop k v)).
Proof.
  intros Ev Hkn. destruct (ld_bytes_inv _ _ _ _ Ev) as [[Hz|[Hp Hl]] _].
  { replace n with 0%nat by lia. done. }
  destruct (ld_bytes_Some m (p + Z.of_nat k) n) as (bs & -> & Hb & Hg); [lia|lia|]. f_equal.
  destruct (ld_bytes_Some m p (length v)) as (v' & Ev' & _ & Hg'); [lia|lia|]. rewrite Ev in Ev'. injection Ev' as <-.
  apply aget_ext; [rewrite length_take, length_drop; lia|]. intros i Hi. rewrite Hg by lia.
  unfold aget at 2. destruct (Z.leb_spec 0 i); [|lia]. rewrite lookup_take_lt, lookup_drop by lia.
  specialize (Hg' (Z.of_nat k + i) ltac:(lia)). unfold aget at 1 in Hg'.
  destruct (Z.leb_spec 0 (Z.of_nat k + i)); [|lia]. rewrite Z2Nat.inj_add, Nat2Z.id in Hg' by lia.
  rewrite Hg'. f_equal. lia.
Qed.

Lemma vendor_match_spec m p n e tr voui type :
  tlvs m p n (e :: tr) -> length voui = 3%nat ->
  vendor_match m p voui type (Z.of_nat (length type)) = Some (bool_decide (of_vendor voui type e)).
Proof.
  intros H Ho. inversion H as [| |p' n' id v tr' Eid El Ev Hn Ht]; subst. unfold vendor_match.
  assert (of_vendor voui type (mk_elem p id v) <-> id = DOT11_MNG_PROPR_ID /\ take (3 + length type) v = voui ++ type) as HP
    by (unfold of_vendor; cbn [e_id e_val]; by rewrite Ho).
  rewrite El, Eid. cbn [mbind option_bind]. unfold DOT11_OUI_LEN.
  assert (forall b, (b = true <-> id = DOT11_MNG_PROPR_ID /\ take (3 + length type) v = voui ++ type) ->
    Some b = Some (bool_decide (of_vendor voui type (mk_elem p id v)))) as Hbd.
  { intros b Hb. f_equal. apply eq_true_iff_eq. by rewrite Hb, bool_decide_eq_true. }
  destruct (Z.eqb_spec id DOT11_MNG_PROPR_ID) as [->|Hid]; cbn [andb]; [|apply Hbd; naive_solver].
  destruct (Z.leb_spec (3 + Z.of_nat (length type)) (Z.of_nat (length v))).
  2:{ apply Hbd. split; [done|]. intros [_ E]. apply (f_equal length) in E. rewrite length_take, length_app, Ho in E. lia. }
  assert (take (3 + length type) v = take 3 v ++ take (length type) (drop 3 v)) as Et.
  { rewrite <- (take_drop 3 v) at 1. rewrite take_app_add'; [done|]. rewrite length_take. lia. }
  pose proof (ld_bytes_take m (p + 2) v 0 3 Ev ltac:(lia)) as E1. rewrite Z.add_0_r in E1. rewrite drop_0 in E1.
  change 3 with (Z.of_nat 3). rewrite (bcmp_spec _ _ _ _ _ E1) by lia. cbn [mbind option_bind].
  rewrite (take_ge voui) by lia. destruct (bool_decide_reflect (take 3 v = voui)) as [Ev1|Ev1]; cbn [negb].
  2:{ apply Hbd. split; [done|]. intros [_ E]. rewrite Et in E. apply app_inj_1 in E as [? _]; [done|].
      rewrite length_take. lia. }
  destruct (Z.eqb_spec (Z.of_nat (length type)) 0) as [Hz|Hz].
  { apply Hbd. split; [|done]. intros _. split; [done|]. rewrite Et, Ev1. f_equal. destruct type; [done|cbn in Hz; lia]. }
  pose proof (ld_bytes_take m (p + 2) v 3 (length type) Ev ltac:(lia)) as E2.
  rewrite (bcmp_spec _ _ _ _ _ E2) by lia. cbn [mbind option_bind]. rewrite negb_involutive, (take_ge type) by lia.
  apply Hbd. rewrite bool_decide_eq_true, Et, Ev1. split; [by intros ->|]. by intros [_ ?%(inj (app voui))].
Qed.

Lemma vendor_loop_tlvs voui type fuel : length voui = 3%nat -> forall m p n e tr, tlvs m p n (e :: tr) -> (Z.to_nat n < fuel)%nat ->
  vendor_loop fuel m p n voui type (Z.of_nat (length type)) =
    Some (e_ptr <$> (snd <$> list_find (of_vendor voui type) (e :: tr))).
Proof.
  intros Ho. induction fuel as [|fuel IH]; intros m p n e tr H Hf; [lia|]. cbn [vendor_loop].
  rewrite (vendor_match_spec m p n e tr voui type H Ho). cbn [mbind option_bind list_find].
  destruct (next_tlvs _ _ _ _ _ H) as (Ep & En & Ht). destruct (decide (of_vendor voui type e)) as [Hv|Hv].
  - rewrite bool_decide_eq_true_2 by done. cbn. by rewrite Ep.
  - rewrite bool_decide_eq_false_2 by done. rewrite En. cbn [mbind option_bind].
    destruct tr as [|e' tr]; [done|]. cbn [head fmap option_fmap option_map].
    destruct (next_tlvs _ _ _ _ _ Ht) as (Ep' & _ & _). rewrite Ep'.
    rewrite (IH _ _ _ _ _ Ht). 2:{ inversion H; subst. unfold e_size. cbn. lia. }
    by destruct (list_find _ (e' :: tr)) as [[i y]|].
Qed.

Lemma tlvs_next m p n tr : tlvs m p n tr -> forall i e, tr !! i = Some e ->
  bcm_next_tlv m (e_ptr e) (p + n - e_ptr e) = Some (e_ptr <$> tr !! S i, p + n - e_ptr e - e_size e).
Proof.
  induction 1 as [| |p n id v tr Eid El Ev Hn H IH]; intros i e Hi; [done..|].
  destruct i as [|i]; cbn [lookup list_lookup] in Hi.
  - injection Hi as <-. destruct (next_tlvs m p n (mk_elem p id v) tr) as (_ & En & _); [by constructor|].
    cbn [e_ptr]. replace (p + n - p) with n by lia. rewrite En. cbn [lookup list_lookup]. by destruct tr.
  - specialize (IH i e Hi). replace (p + (2 + Z.of_nat (length v)) + (n - (2 + Z.of_nat (length v)))) with (p + n) in IH by lia.
    exact IH.
Qed.

(** ** Encoded elements *)
Definition enc (x : Z * list Z) : list Z := x.1 :: Z.of_nat (length x.2) :: x.2.
Lemma length_enc x : length (enc x) = (2 + length x.2)%nat.
Proof. done. Qed.
Definition tlv_ok (x : Z * list Z) : Prop := is_byte x.1 /\ Z.of_nat (length x.2) <= BCM_TLV_MAX_DATA_SIZE /\ bytes x.2.
Definition elem_of_item (e : elem) : Z * list Z := (e_id e, e_val e).

Lemma aget_mid {A} (pre post : list A) x i : i = Z.of_nat (length pre) -> aget (pre ++ x :: post) i = Some x.
Proof.
  intros ->. unfold aget. destruct (Z.leb_spec 0 (Z.of_nat (length pre))); [|lia].
  rewrite Nat2Z.id, lookup_app_r, Nat.sub_diag by lia. done.
Qed.
Lemma aset_mid {A} (pre post : list A) x y i : i = Z.of_nat (length pre) -> aset (pre ++ x :: post) i y = Some (pre ++ y :: post).
Proof.
  intros ->. rewrite aset_Some by (rewrite length_app; cbn; lia). rewrite Nat2Z.id. f_equal.
  rewrite insert_app_r_alt, Nat.sub_diag by lia. done.
Qed.

(** Encoded elements are found, up to anything left in the buffer that starts
    no element. *)
Lemma tlvs_enc l : forall pre post (m := pre ++ mjoin (enc <$> l) ++ post) (p := Z.of_nat (length pre)),
  exists tr, tlvs m p (Z.of_nat (length (mjoin (enc <$> l)))) tr /\ elem_of_item <$> tr = l.
Proof.
  induction l as [|[t d] l IH]; intros pre post m p.
  - exists []. split; [constructor; cbn; lia|done].
  - change (mjoin (enc <$> (t, d) :: l)) with (enc (t, d) ++ mjoin (enc <$> l)) in *.
    destruct (IH (pre ++ enc (t, d)) post) as (tr & Htr & Hl). cbv zeta in Htr.
    exists (mk_elem p t d :: tr). split; [|by rewrite fmap_cons, Hl].
    assert (m = pre ++ t :: Z.of_nat (length d) :: d ++ mjoin (enc <$> l) ++ post) as Em.
    { unfold m. change (enc (t, d)) with (t :: Z.of_nat (length d) :: d). by rewrite <- app_assoc. }
    assert ((pre ++ enc (t, d)) ++ mjoin (enc <$> l) ++ post = m) as Em2.
    { rewrite Em. by rewrite <- app_assoc. }
    rewrite Em2 in Htr. constructor.
    + rewrite Em. by apply aget_mid.
    + rewrite Em. unfold tlv_len. change (pre ++ t :: ?x) with (pre ++ [t] ++ x).
      rewrite app_assoc. apply aget_mid. rewrite length_app. unfold p. cbn. lia.
    + rewrite Em. change (pre ++ t :: Z.of_nat (length d) :: ?x) with (pre ++ [t; Z.of_nat (length d)] ++ x).
      rewrite app_assoc. replace (p + 2) with (Z.of_nat (length (pre ++ [t; Z.of_nat (length d)])))
        by (rewrite length_app; unfold p; cbn; lia). apply ld_bytes_mid.
    + rewrite length_app, length_enc. cbn [snd]. lia.
    + replace (p + (2 + Z.of_nat (length d))) with (Z.of_nat (length (pre ++ enc (t, d))))
        by (rewrite length_app, length_enc; unfold p; cbn [snd]; lia).
      replace (Z.of_nat (length (enc (t, d) ++ mjoin (enc <$> l))) - (2 + Z.of_nat (length d)))
        with (Z.of_nat (length (mjoin (enc <$> l)))) by (rewrite length_app, length_enc; cbn [snd]; lia). exact Htr.
Qed.

Lemma write_mid pre old post t d : tlv_ok (t, d) -> length old = (2 + length d)%nat ->
  bcm_write_tlv (pre ++ old ++ post) t (Some d) (Z.of_nat (length d)) (Some (Z.of_nat (length pre))) =
    Some (pre ++ enc (t, d) ++ post, Some (Z.of_nat (length pre) + 2 + Z.of_nat (length d))).
Proof.
  intros (Ht & Hd & _) Hl. cbn [fst snd] in *. unfold is_byte in Ht. unfold BCM_TLV_MAX_DATA_SIZE in Hd.
  destruct old as [|a [|b old]]; cbn [length] in Hl; try lia. unfold bcm_write_tlv, BCM_TLV_MAX_DATA_SIZE, BCM_TLV_HDR_SIZE.
  destruct (Z.leb_spec 0 (Z.of_nat (length d))); [|lia]. destruct (Z.leb_spec (Z.of_nat (length d)) 255); [|lia].
  rewrite bool_decide_eq_true_2 by done. cbn [andb orb]. rewrite !wrapu_small by zlia.
  cbn [app]. rewrite aset_mid by done. cbn [mbind option_bind].
  change (pre ++ t :: ?x) with (pre ++ [t] ++ x). rewrite app_assoc, aset_mid by (rewrite length_app; cbn; lia).
  cbn [mbind option_bind]. destruct (Z.ltb_spec 0 (Z.of_nat (length d))).
  - rewrite Nat2Z.id, ld_bytes_self. cbn [mbind option_bind].
    match goal with |- context [st_bytes ?x _ _] =>
      replace x with (((pre ++ [t]) ++ [Z.of_nat (length d)]) ++ old ++ post) by (by rewrite <- !app_assoc) end.
    replace (Z.of_nat (length pre) + 2) with (Z.of_nat (length ((pre ++ [t]) ++ [Z.of_nat (length d)])))
      by (rewrite !length_app; cbn [length]; lia).
    rewrite st_bytes_mid by lia. cbn [mbind option_bind]. do 2 f_equal. by rewrite <- !app_assoc.
  - destruct d; [|cbn in *; lia]. destruct old; [|cbn in *; lia]. cbn [mbind option_bind]. by rewrite <- !app_assoc.
Qed.

(** Writing a list of elements one after the other, the way callers do: the
    destination and the room left follow the pointer returned. *)
Fixpoint write_all (m : list Z) (dst maxlen : Z) (ws : list (Z * list Z)) : option (list Z * Z) :=
  match ws with
  | [] => Some (m, dst)
  | (t, d) :: ws =>
      '(m, dst') ← bcm_write_tlv_safe m t (Some d) (Z.of_nat (length d)) (Some dst) maxlen;
      dst' ← dst'; write_all m dst' (maxlen - (dst' - dst)) ws
  end.
Fixpoint tlv_taken (room : Z) (ws : list (Z * list Z)) : list (Z * list Z) :=
  match ws with
  | [] => []
  | (t, d) :: ws => if Z.of_nat (length d) + 2 <=? room then (t, d) :: tlv_taken (room - (2 + Z.of_nat (length d))) ws
                    else tlv_taken room ws
  end.

Lemma write_all_spec ws : forall pre free post (m := pre ++ free ++ post),
  Forall tlv_ok ws ->
  exists free', write_all m (Z.of_nat (length pre)) (Z.of_nat (length free)) ws =
      Some (pre ++ (mjoin (enc <$> tlv_taken (Z.of_nat (length free)) ws) ++ free') ++ post,
            Z.of_nat (length pre) + Z.of_nat (length (mjoin (enc <$> tlv_taken (Z.of_nat (length free)) ws)))) /\
    (length (mjoin (enc <$> tlv_taken (Z.of_nat (length free)) ws) ++ free') = length free)%nat.
Proof.
  induction ws as [|[t d] ws IH]; intros pre free post m Hok; cbn [write_all tlv_taken].
  { exists free. cbn. rewrite Z.add_0_r. done. }
  apply Forall_cons in Hok as [Hx Hok]. unfold bcm_write_tlv_safe.
  destruct Hx as (Ht & Hd & Hb) eqn:Ex. clear Ex. cbn [snd fst] in Hd.
  destruct (Z.leb_spec 0 (Z.of_nat (length d))); [|lia]. destruct (Z.leb_spec (Z.of_nat (length d)) BCM_TLV_MAX_DATA_SIZE); [|lia].
  cbn [andb]. unfold BCM_TLV_HDR_SIZE. destruct (Z.leb_spec (Z.of_nat (length d) + 2) (Z.of_nat (length free))).
  - set (old := take (2 + length d) free). set (free1 := drop (2 + length d) free).
    assert (length old = (2 + length d)%nat) as Ho by (unfold old; rewrite length_take; lia).
    assert (length free1 = (length free - (2 + length d))%nat) as Hf1 by (unfold free1; by rewrite length_drop).
    assert (m = pre ++ old ++ (free1 ++ post)) as Em by (unfold m, old, free1; by rewrite (app_assoc (take _ _)), take_drop).
    rewrite Em, write_mid by done. cbn [mbind option_bind].
    destruct (IH (pre ++ enc (t, d)) free1 post Hok) as (free' & E & Hl). cbv zeta in E.
    assert (Z.of_nat (length (pre ++ enc (t, d))) = Z.of_nat (length pre) + 2 + Z.of_nat (length d)) as Ep
      by (rewrite length_app, length_enc; cbn [snd]; lia).
    rewrite Ep, <- app_assoc in E.
    assert (Z.of_nat (length free) - (Z.of_nat (length pre) + 2 + Z.of_nat (length d) - Z.of_nat (length pre)) =
            Z.of_nat (length free1)) as -> by lia.
    rewrite E. replace (Z.of_nat (length free) - (2 + Z.of_nat (length d))) with (Z.of_nat (length free1)) by lia.
    exists free'. match goal with |- context [mjoin (enc <$> (t, d) :: ?l)] =>
      change (mjoin (enc <$> (t, d) :: l)) with (enc (t, d) ++ mjoin (enc <$> l)) end. split.
    + f_equal. f_equal; [by rewrite <- !app_assoc|]. rewrite length_app, length_enc. cbn [snd]. lia.
    + rewrite <- app_assoc, length_app, Hl, length_enc. cbn [snd]. lia.
  - cbn [mbind option_bind]. rewrite Z.sub_diag, Z.sub_0_r. by apply IH.
Qed.

Lemma find_item key tr l : elem_of_item <$> tr = l ->
  e_val <$> find_elem key tr = snd <$> (snd <$> list_find (fun x => x.1 = key) l).
Proof.
  intros <-. induction tr as [|e tr IH]; [done|]. rewrite find_elem_cons, fmap_cons. cbn [list_find elem_of_item fst].
  destruct (Z.eqb_spec (e_id e) key); [by rewrite decide_True|]. rewrite decide_False by done.
  rewrite IH. by destruct (list_find _ (elem_of_item <$> tr)) as [[i y]|].
Qed.
Lemma find_elem_in key tr e : find_elem key tr = Some e -> e ∈ tr.
Proof.
  unfold find_elem. intros H. apply fmap_Some in H as ([i y] & [Hi _]%list_find_Some & ->). by eapply list_elem_of_lookup_2.
Qed.

(** * Properties *)

(** Elements written one after the other with bcm_write_tlv_safe stay
    inside their buffer, those that do not fit being left out; what is written
    is read back: the elements follow each other with their ids and values, and
    bcm_parse_tlvs returns the first of a key, or NULL when there is none. *)
Theorem tlv_roundtrip (m : list Z) (base len : Z) (ws : list (Z * list Z)) :
  0 <= base -> 0 <= len -> base + len <= Z.of_nat (length m) -> Forall tlv_ok ws ->
  exists m' p', write_all m base len ws = Some (m', p') /\ length m' = length m /\ base <= p' <= base + len /\
    (forall i, i < base \/ base + len <= i -> aget m' i = aget m i) /\
    (exists tr, tlvs m' base (p' - base) tr /\ elem_of_item <$> tr = tlv_taken len ws) /\
    forall key, match snd <$> (snd <$> list_find (fun x => x.1 = key) (tlv_taken len ws)) with
    | Some d => exists e, bcm_parse_tlvs m' (Some base) (p' - base) key = Some (Some e) /\
                  tlv_id m' e = Some key /\ tlv_len m' e = Some (Z.of_nat (length d)) /\ ld_bytes m' (e + 2) (length d) = Some d
    | None => bcm_parse_tlvs m' (Some base) (p' - base) key = Some None
    end.
Proof.
  intros Hb Hl Hm Hok. set (pre := take (Z.to_nat base) m). set (free := take (Z.to_nat len) (drop (Z.to_nat base) m)).
  set (post := drop (Z.to_nat (base + len)) m).
  assert (Z.of_nat (length pre) = base) as Hp by (unfold pre; rewrite length_take; lia).
  assert (Z.of_nat (length free) = len) as Hf by (unfold free; rewrite length_take, length_drop; lia).
  assert (m = pre ++ free ++ post) as Em.
  { unfold pre, free, post. rewrite Z2Nat.inj_add, <- drop_drop by lia. by rewrite !take_drop. }
  destruct (write_all_spec ws pre free post Hok) as (free' & E & Hl'). cbv zeta in E. rewrite <- Em, Hp, Hf in E. rewrite Hf in Hl'.
  set (out := mjoin (enc <$> tlv_taken len ws)) in *. set (m' := pre ++ (out ++ free') ++ post) in *.
  rewrite length_app in Hl'.
  exists m', (base + Z.of_nat (length out)). split; [exact E|]. replace (base + Z.of_nat (length out) - base) with
    (Z.of_nat (length out)) by lia.
  destruct (tlvs_enc (tlv_taken len ws) pre (free' ++ post)) as (tr & Htr & Hitems). cbv zeta in Htr. fold out in Htr.
  replace (pre ++ out ++ free' ++ post) with m' in Htr by (unfold m'; by rewrite <- app_assoc). rewrite Hp in Htr.
  split_and!.
  - unfold m'. rewrite Em, !length_app. lia.
  - lia.
  - lia.
  - intros i Hi. unfold m'. rewrite Em. unfold aget. destruct (Z.leb_spec 0 i); [|done].
    destruct Hi as [Hi|Hi]; [by rewrite (lookup_app_l pre), (lookup_app_l pre) by lia|].
    rewrite (lookup_app_r pre), (lookup_app_r pre), (lookup_app_r free), (lookup_app_r (out ++ free'))
      by (rewrite ?length_app; lia). f_equal. rewrite length_app. lia.
  - by exists tr.
  - intros key. unfold bcm_parse_tlvs. rewrite (parse_loop_tlvs key _ _ _ _ _ Htr) by lia.
    rewrite <- (find_item key tr _ Hitems). destruct (find_elem key tr) as [e|] eqn:Ef; [|done]. cbn [fmap option_fmap option_map].
    exists (e_ptr e). split; [done|]. pose proof (tlvs_in _ _ _ _ Htr) as HF. rewrite list.Forall_forall in HF.
    destruct (HF e (find_elem_in _ _ _ Ef)) as (_ & _ & Ei & El & Ev). rewrite El, Ev, Ei. split; [|done].
    unfold find_elem in Ef. apply fmap_Some in Ef as ([j y] & [_ [Hj _]]%list_find_Some & ->). cbn in Hj |- *. by rewrite Hj.
Qed.

(** C15: whatever bytes come from the air, a buffer of them is a sequence of
    elements that lie inside it, ended by less than an element: the parsers
    read nothing outside, end, and return the first element of the key (for
    bcm_parse_ordered_tlvs when no larger id comes before it, for
    bcm_parse_tlvs_min_bodylen when its value is long enough, for
    bcm_find_vendor_ie the first vendor element with the OUI and type), and
    bcm_next_tlv steps from each element to the following one. *)
Theorem tlv_parse_safe (m : list Z) (base buflen : Z) :
  bytes m -> 0 <= base -> 0 <= buflen -> base + buflen <= Z.of_nat (length m) ->
  exists tr, tlvs m base buflen tr /\
    Forall (fun e => base <= e_ptr e /\ e_ptr e + e_size e <= base + buflen) tr /\
    (forall key, bcm_parse_tlvs m (Some base) buflen key = Some (e_ptr <$> find_elem key tr)) /\
    (forall key, bcm_parse_ordered_tlvs m base buflen key = Some (e_ptr <$> find_ordered key tr)) /\
    (forall key k, bcm_parse_tlvs_min_bodylen m (Some base) buflen key k = Some
       (e ← find_elem key tr; if Z.of_nat (length (e_val e)) <? k then None else Some (e_ptr e))) /\
    (forall voui type, length voui = 3%nat ->
       bcm_find_vendor_ie m (Some base) buflen voui type (Z.of_nat (length type)) =
         Some (e_ptr <$> (snd <$> list_find (of_vendor voui type) tr))) /\
    (forall i e, tr !! i = Some e ->
       bcm_next_tlv m (e_ptr e) (base + buflen - e_ptr e) =
         Some (e_ptr <$> tr !! S i, base + buflen - e_ptr e - e_size e)).
Proof.
  intros Hm Hb Hn Hl. destruct (tlvs_any m (Z.to_nat buflen) base buflen) as [tr H]; [done|lia..|].
  pose proof (tlvs_in _ _ _ _ H) as HF. exists tr. split; [done|].
  assert (forall key, bcm_parse_tlvs m (Some base) buflen key = Some (e_ptr <$> find_elem key tr)) as Hp
    by (intros; apply parse_loop_tlvs; [done|lia]).
  split_and!.
  - eapply Forall_impl; [exact HF|]. cbn. tauto.
  - exact Hp.
  - intros. apply ordered_loop_tlvs; [done|lia].
  - intros key k. unfold bcm_parse_tlvs_min_bodylen. rewrite Hp. cbn [mbind option_bind].
    destruct (find_elem key tr) as [e|] eqn:Ef; [|done]. cbn [fmap option_fmap option_map mbind option_bind].
    rewrite list.Forall_forall in HF. destruct (HF e (find_elem_in _ _ _ Ef)) as (_ & _ & _ & -> & _). done.
  - intros voui type Ho. unfold bcm_find_vendor_ie. rewrite (tlvs_valid _ _ _ _ H). cbn [mbind option_bind].
    destruct tr as [|e tr]; [done|]. cbn [bool_decide]. rewrite bool_decide_eq_true_2 by done. cbn [negb].
    apply vendor_loop_tlvs; [done|done|lia].
  - intros i e Hi. by apply tlvs_next.
Qed.

(** On elements in order of their ids, bcm_parse_ordered_tlvs is
    bcm_parse_tlvs. *)
Theorem tlv_ordered_equiv (m : list Z) (base buflen key : Z) (tr : list elem) :
  tlvs m base buflen tr -> StronglySorted Z.le (e_id <$> tr) ->
  bcm_parse_ordered_tlvs m base buflen key = bcm_parse_tlvs m (Some base) buflen key.
Proof.
  intros H Hs. unfold bcm_parse_ordered_tlvs, bcm_parse_tlvs.
  rewrite (ordered_loop_tlvs key _ _ _ _ _ H), (parse_loop_tlvs key _ _ _ _ _ H) by lia. do 2 f_equal.
  clear H. induction tr as [|e tr IH]; [done|]. rewrite fmap_cons in Hs. apply StronglySorted_inv in Hs as [Hs Hall].
  rewrite find_elem_cons. cbn [find_ordered]. rewrite (IH Hs). destruct (Z.ltb_spec key (e_id e)) as [Hlt|]; [|done].
  destruct (Z.eqb_spec (e_id e) key); [lia|]. symmetry. unfold find_elem.
  destruct (list_find _ tr) as [[i y]|] eqn:Ef; [|done]. exfalso. apply list_find_Some in Ef as (Hy & Hk & _).
  rewrite list.Forall_forall in Hall. specialize (Hall (e_id y)). rewrite <- Hk in Hlt.
  assert (e_id y ∈ e_id <$> tr) as Hin by (apply list_elem_of_fmap_2; by eapply list_elem_of_lookup_2).
  specialize (Hall Hin). lia.
Qed.

(** ** Witnesses *)
(** Eight bytes of room: the second element does not fit, the third does. *)
Lemma tlv_roundtrip_witness :
  exists m' p', write_all (replicate 10 0) 1 8 [(5, [1; 2; 3]); (6, [9; 9]); (5, [4])] = Some (m', p') /\ p' = 9 /\
    bcm_parse_tlvs m' (Some 1) (p' - 1) 6 = Some None.
Proof.
  destruct (tlv_roundtrip (replicate 10 0) 1 8 [(5, [1; 2; 3]); (6, [9; 9]); (5, [4])]) as (m' & p' & E & _ & _ & _ & _ & Hk).
  - lia.
  - lia.
  - cbn. lia.
  - bytes_tac.
  - exists m', p'. split; [exact E|]. split; [vm_compute in E; injection E as _ <-; reflexivity|]. exact (Hk 6).
Defined.

(** A vendor element after one that says it is longer than what is left of
    the first buffer. *)
Definition air_bytes : list Z := [0; 2; 65; 66; 221; 4; 0; 80; 242; 1; 7; 9; 1].
Lemma tlv_parse_safe_witness :
  bcm_find_vendor_ie air_bytes (Some 0) 13 [0; 80; 242] [1] 1 = Some (Some 4) /\
  bcm_parse_tlvs air_bytes (Some 0) 13 7 = Some None.
Proof.
  destruct (tlv_parse_safe air_bytes 0 13) as (tr & H & _ & Hp & _ & _ & Hv & _).
  - unfold air_bytes. bytes_tac.
  - lia.
  - lia.
  - cbn. lia.
  - split.
    + change 1 with (Z.of_nat (length [1])). etransitivity; [apply Hv; reflexivity|].
      etransitivity; [symmetry; apply (Hv [0; 80; 242] [1] eq_refl)|]. vm_compute. reflexivity.
    + etransitivity; [apply Hp|]. etransitivity; [symmetry; apply Hp|]. vm_compute. reflexivity.
Defined.

Lemma tlv_ordered_equiv_witness :
  bcm_parse_ordered_tlvs air_bytes 0 10 221 = bcm_parse_tlvs air_bytes (Some 0) 10 221.
Proof.
  apply (tlv_ordered_equiv air_bytes 0 10 221 [mk_elem 0 0 [65; 66]; mk_elem 4 221 [0; 80; 242; 1]]).
  - constructor; [reflexivity|reflexivity|reflexivity|cbn; lia|].
    constructor; [reflexivity|reflexivity|reflexivity|cbn; lia|]. constructor. cbn. lia.
  - cbn. repeat constructor; lia.
Defined.
