(* ===== verification/Xtlv.v ===== *)
(** * Extended TLV buffers

    shared/bcmxtlv.c: records of a 16-bit type, a 16-bit length and a value,
    little-endian, each padded to four bytes when BCM_XTLV_OPTION_ALIGN32 is
    set; the length excludes the padding, which is not written.

    The memory holding the buffer is [m], pointers into it are offsets; source
    and destination memories of a copy are lists of their own.  A pointer that
    may be NULL is an [option].  Callbacks are parameters. *)
From Stdlib Require Import ZArith Lia.
From stdpp Require Import base option numbers list.
From S2P Require Import Prelude Bytes.

(** ** Sizes *)
Definition BCM_XTLV_OPTION_NONE : Z := 0.
Definition BCM_XTLV_OPTION_ALIGN32 : Z := 1.
Definition BCM_XTLV_HDR_SIZE : Z := 4.
Definition ALIGN_SIZE (size boundary : Z) : Z := Z.land (size + boundary - 1) (Z.lnot (boundary - 1)).

Definition bcm_xtlv_size_for_data (dlen opts : Z) : Z :=
  if negb (Z.land opts BCM_XTLV_OPTION_ALIGN32 =? 0) then ALIGN_SIZE (dlen + BCM_XTLV_HDR_SIZE) 4
  else dlen + BCM_XTLV_HDR_SIZE.

Definition BCM_XTLV_ID (m : list Z) (elt : Z) : option Z := ld 2 m elt.
Definition BCM_XTLV_LEN (m : list Z) (elt : Z) : option Z := ld 2 m (elt + 2).
Definition bcm_xtlv_size (m : list Z) (elt opts : Z) : option Z :=
  len ← BCM_XTLV_LEN m elt; Some (bcm_xtlv_size_for_data len opts).
Definition bcm_valid_xtlv (m : list Z) (elt : option Z) (buflen opts : Z) : option bool :=
  match elt with
  | None => Some false
  | Some elt => sz ← bcm_xtlv_size m elt opts; Some (sz <=? buflen)
  end.

(** The next element and the bytes left. *)
Definition bcm_next_xtlv (m : list Z) (elt buflen opts : Z) : option (option Z * Z) :=
  sz ← bcm_xtlv_size m elt opts;
  let elt := elt + sz in
  let buflen := buflen - sz in
  ok ← bcm_valid_xtlv m (Some elt) buflen opts;
  Some (if negb ok then None else Some elt, buflen).

(** ** The write buffer *)
Record bcm_xtlvbuf := mk_xtlvbuf {
  xb_opts : Z;     (* uint16 *)
  xb_size : Z;     (* uint16 *)
  xb_head : Z;
  xb_buf : Z
}.
Definition xb_advance (b : bcm_xtlvbuf) (size : Z) : bcm_xtlvbuf :=
  mk_xtlvbuf (xb_opts b) (xb_size b) (xb_head b) (xb_buf b + size).

Definition bcm_xtlv_buf_init (tlv_buf : option bcm_xtlvbuf) (buf : option Z) (len opts : Z)
    : Z * option bcm_xtlvbuf :=
  match tlv_buf, buf with
  | Some _, Some p => if len =? 0 then (BCME_BADARG, tlv_buf) else (BCME_OK, Some (mk_xtlvbuf opts len p p))
  | _, _ => (BCME_BADARG, tlv_buf)
  end.
Definition bcm_xtlv_buf_len (tbuf : option bcm_xtlvbuf) : Z :=
  match tbuf with None => 0 | Some b => u16 (xb_buf b - xb_head b) end.
Definition bcm_xtlv_buf_rlen (tbuf : option bcm_xtlvbuf) : Z :=
  match tbuf with None => 0 | Some b => u16 (xb_size b - bcm_xtlv_buf_len tbuf) end.
Definition bcm_xtlv_buf (tbuf : option bcm_xtlvbuf) : option Z := xb_buf <$> tbuf.
Definition bcm_xtlv_head (tbuf : option bcm_xtlvbuf) : option Z := xb_head <$> tbuf.

(** Id, length and value at [p]. *)
Definition store_xtlv (m : list Z) (p type dlen : Z) (bs : list Z) : option (list Z) :=
  m ← st 2 m p type; m ← st 2 m (p + 2) dlen; st_bytes m (p + BCM_XTLV_HDR_SIZE) bs.

(** What the four put functions share: [bs] are the bytes of the value, which
    [bcm_xtlv_put_data] reads from its source only when there is room. *)
Definition put_xtlv (tbuf : option bcm_xtlvbuf) (m : list Z) (type dlen : Z) (src : option (list Z))
    : option (Z * option bcm_xtlvbuf * list Z) :=
  match tbuf with
  | None => Some (BCME_BADARG, tbuf, m)
  | Some b =>
      let size := bcm_xtlv_size_for_data dlen (xb_opts b) in
      if bcm_xtlv_buf_rlen tbuf <? size then Some (BCME_NOMEM, tbuf, m) else
      xtlv ← bcm_xtlv_buf tbuf;
      bs ← src; m ← store_xtlv m xtlv type dlen bs;
      Some (BCME_OK, Some (xb_advance b size), m)
  end.
Definition bcm_xtlv_put_data tbuf m (type : Z) (data : list Z) (dlen : Z) :=
  put_xtlv tbuf m type dlen (ld_bytes data 0 (Z.to_nat dlen)).
Definition bcm_xtlv_put_8 tbuf m (type data : Z) := put_xtlv tbuf m type 1 (Some [u8 data]).
Definition bcm_xtlv_put_16 tbuf m (type data : Z) := put_xtlv tbuf m type 2 (Some (le_bytes 2 (u16 data))).
Definition bcm_xtlv_put_32 tbuf m (type data : Z) := put_xtlv tbuf m type 4 (Some (le_bytes 4 (u32 data))).

(** ** One record *)
(** The new pointer, and the destination. *)
Definition bcm_unpack_xtlv_entry (m : list Z) (tlv_buf xpct_type xpct_len : Z) (dst : list Z) (opts : Z)
    : option (Z * Z * list Z) :=
  len ← BCM_XTLV_LEN m tlv_buf; type ← BCM_XTLV_ID m tlv_buf;
  if negb (len =? 0) && (negb (type =? xpct_type) || (xpct_len <? len)) then Some (BCME_BADARG, tlv_buf, dst) else
  dst ← (if len =? 0 then Some dst
         else bs ← ld_bytes m (tlv_buf + BCM_XTLV_HDR_SIZE) (Z.to_nat len); st_bytes dst 0 bs);
  sz ← bcm_xtlv_size m tlv_buf opts;
  Some (BCME_OK, tlv_buf + sz, dst).

(** The new pointer and length, and the memory. *)
Definition bcm_pack_xtlv_entry (m : list Z) (tlv_buf buflen type len : Z) (src : list Z) (opts : Z)
    : option (Z * Z * Z * list Z) :=
  let size := bcm_xtlv_size_for_data len opts in
  if buflen <? size then Some (BCME_BADLEN, tlv_buf, buflen, m) else
  bs ← ld_bytes src 0 (Z.to_nat len);
  m ← store_xtlv m tlv_buf type len bs;
  Some (BCME_OK, tlv_buf + size, u16 (buflen - u16 size), m).

(** ** Loops over a buffer

    Each turn takes at least a header off [sbuflen]: one turn more than there
    are bytes is enough. *)
Section callbacks.
Context {C : Type}.

(** [cbfn ctx data type len]. *)
Fixpoint unpack_loop (fuel : nat) (ctx : C) (m : list Z) (tlv_buf sbuflen opts res : Z)
    (cbfn : C -> Z -> Z -> Z -> Z * C) : option (Z * C) :=
  match fuel with
  | O => None
  | S fuel =>
      if negb (BCM_XTLV_HDR_SIZE <=? sbuflen) then Some (res, ctx) else
      len ← BCM_XTLV_LEN m tlv_buf; type ← BCM_XTLV_ID m tlv_buf;
      let size := bcm_xtlv_size_for_data len opts in
      let sbuflen := sbuflen - size in
      if sbuflen <? 0 then Some (res, ctx) else
      let '(res, ctx) := cbfn ctx (tlv_buf + BCM_XTLV_HDR_SIZE) type len in
      if negb (res =? BCME_OK) then Some (res, ctx) else
      unpack_loop fuel ctx m (tlv_buf + size) sbuflen opts res cbfn
  end.
Definition bcm_unpack_xtlv_buf (ctx : C) (m : list Z) (tlv_buf buflen opts : Z)
    (cbfn : C -> Z -> Z -> Z -> Z * C) : option (Z * C) :=
  unpack_loop (S (Z.to_nat buflen)) ctx m tlv_buf buflen opts BCME_OK cbfn.

(** [get_next ctx] gives more, id and length; [pack_next ctx id len mem p]
    writes the value at [p].  The result, the end and the memory. *)
Fixpoint pack_loop (fuel : nat) (ctx : C) (m : list Z) (buf endp opts : Z)
    (get_next : C -> bool * Z * Z * C) (pack_next : C -> Z -> Z -> list Z -> Z -> option (list Z * C))
    : option (Z * Z * list Z * C) :=
  match fuel with
  | O => None
  | S fuel =>
      let '(more, tlv_id, tlv_len, ctx) := get_next ctx in
      let size := bcm_xtlv_size_for_data tlv_len opts in
      if endp <=? buf + size then Some (BCME_BUFTOOSHORT, buf, m, ctx) else
      m ← st 2 m buf tlv_id; m ← st 2 m (buf + 2) tlv_len;
      '(m, ctx) ← pack_next ctx tlv_id tlv_len m (buf + BCM_XTLV_HDR_SIZE);
      let buf := buf + size in
      if negb (more && (buf <? endp)) then Some (if more then BCME_BUFTOOSHORT else BCME_OK, buf, m, ctx)
      else pack_loop fuel ctx m buf endp opts get_next pack_next
  end.
(** The result, [*outlen], the memory and the context. *)
Definition bcm_pack_xtlv_buf (ctx : C) (m : list Z) (tlv_buf buflen opts : Z)
    (get_next : C -> bool * Z * Z * C) (pack_next : C -> Z -> Z -> list Z -> Z -> option (list Z * C))
    : option (Z * Z * list Z * C) :=
  let endp := tlv_buf + buflen in
  if negb (tlv_buf <? endp) then Some (BCME_BUFTOOSHORT, 0, m, ctx) else
  '(res, buf, m, ctx) ← pack_loop (S (Z.to_nat buflen)) ctx m tlv_buf endp opts get_next pack_next;
  Some (res, buf - tlv_buf, m, ctx).
End callbacks.

(** The pointer to the value, and its length. *)
Fixpoint get_data_loop (fuel : nat) (m : list Z) (tlv_buf sbuflen id opts : Z) : option (option (Z * Z)) :=
  match fuel with
  | O => None
  | S fuel =>
      if negb (BCM_XTLV_HDR_SIZE <=? sbuflen) then Some None else
      type ← BCM_XTLV_ID m tlv_buf; len ← BCM_XTLV_LEN m tlv_buf;
      let size := bcm_xtlv_size_for_data len opts in
      let sbuflen := sbuflen - size in
      if sbuflen <? 0 then Some None else
      if id =? type then Some (Some (tlv_buf + BCM_XTLV_HDR_SIZE, len)) else
      get_data_loop fuel m (tlv_buf + size) sbuflen id opts
  end.
Definition bcm_get_data_from_xtlv_buf (m : list Z) (tlv_buf buflen id opts : Z) : option (option (Z * Z)) :=
  get_data_loop (S (Z.to_nat buflen)) m tlv_buf buflen id opts.

(** ** Records described in memory *)
Record xtlv_desc := mk_desc {
  xd_type : Z;          (* uint16; 0 ends the array *)
  xd_len : Z;           (* uint16 *)
  xd_ptr : list Z       (* the memory at ptr *)
}.

(** [res = pack(...) != BCME_OK]: the result of the comparison. *)
Fixpoint bcm_pack_xtlv_buf_from_mem (m : list Z) (ptlv buflen : Z) (items : list xtlv_desc) (opts res : Z)
    : option (Z * Z * Z * list Z) :=
  match items with
  | [] => None
  | d :: items =>
      if xd_type d =? 0 then Some (res, ptlv, buflen, m) else
      '(rc, ptlv, buflen, m) ← bcm_pack_xtlv_entry m ptlv buflen (xd_type d) (xd_len d) (xd_ptr d) opts;
      let res := if negb (rc =? BCME_OK) then 1 else 0 in
      if negb (res =? 0) then Some (res, ptlv, buflen, m)
      else bcm_pack_xtlv_buf_from_mem m ptlv buflen items opts res
  end.

(** The inner loop: the first description of the type. *)
Fixpoint fill_desc (m : list Z) (data id len : Z) (items : list xtlv_desc) : option (Z * list xtlv_desc) :=
  match items with
  | [] => None
  | d :: items =>
      if xd_type d =? 0 then Some (BCME_OK, d :: items) else
      if id =? xd_type d then
        if negb (len =? xd_len d) then Some (BCME_BADLEN, d :: items)
        else bs ← ld_bytes m data (Z.to_nat len); p ← st_bytes (xd_ptr d) 0 bs;
             Some (BCME_OK, mk_desc (xd_type d) (xd_len d) p :: items)
      else '(res, items) ← fill_desc m data id len items; Some (res, d :: items)
  end.
Fixpoint to_mem_loop (fuel : nat) (m : list Z) (elt : option Z) (buflen res : Z) (items : list xtlv_desc) (opts : Z)
    : option (Z * Z * list xtlv_desc) :=
  match fuel with
  | O => None
  | S fuel =>
      match elt with
      | Some e =>
          if negb (res =? BCME_OK) then Some (res, buflen, items) else
          len ← BCM_XTLV_LEN m e; id ← BCM_XTLV_ID m e;
          '(res, items) ← fill_desc m (e + BCM_XTLV_HDR_SIZE) id len items;
          '(elt, buflen) ← bcm_next_xtlv m e buflen opts;
          to_mem_loop fuel m elt buflen res items opts
      | None => Some (res, buflen, items)
      end
  end.
Definition bcm_unpack_xtlv_buf_to_mem (m : list Z) (tlv_buf : option Z) (buflen : Z) (items : option (list xtlv_desc))
    (opts : Z) : option (Z * Z * option (list xtlv_desc)) :=
  ok ← bcm_valid_xtlv m tlv_buf buflen opts;
  let elt := if (ok : bool) then tlv_buf else None in
  match elt, items with
  | Some _, Some its =>
      '(res, buflen, its) ← to_mem_loop (S (S (Z.to_nat buflen))) m elt buflen BCME_OK its opts;
      Some (if (res =? BCME_OK) && negb (buflen =? 0) then BCME_BUFTOOSHORT else res, buflen, Some its)
  | _, _ => Some (BCME_BADARG, buflen, items)
  end.

(** * Lemmas *)

(** ** What a buffer encodes *)

(** [bs] holds exactly the records [l]; the padding may be anything. *)
Fixpoint is_xtlvs (opts : Z) (l : list (Z * list Z)) (bs : list Z) : Prop :=
  match l with
  | [] => bs = []
  | (t, d) :: l => exists pad rest,
      bs = le_bytes 2 t ++ le_bytes 2 (Z.of_nat (length d)) ++ d ++ pad ++ rest /\
      Z.of_nat (4 + length d + length pad) = bcm_xtlv_size_for_data (Z.of_nat (length d)) opts /\
      is_xtlvs opts l rest
  end.
Definition xtlv_ok (x : Z * list Z) : Prop :=
  0 <= x.1 < 2 ^ 16 /\ Z.of_nat (length x.2) < 2 ^ 16 /\ bytes x.2.

(** Calling the callback on records found at (pointer, type, length). *)
Fixpoint fold_cb {C} (cb : C -> Z -> Z -> Z -> Z * C) (ctx : C) (tr : list (Z * Z * Z)) : Z * C :=
  match tr with
  | [] => (BCME_OK, ctx)
  | (p, t, l) :: tr =>
      let '(res, ctx) := cb ctx p t l in if negb (res =? BCME_OK) then (res, ctx) else fold_cb cb ctx tr
  end.
Definition find_id (id : Z) (tr : list (Z * Z * Z)) : option (Z * Z) :=
  '(p, t, l) ← list_find (fun x => id = x.1.2) tr ≫= fun r => Some r.2; Some (p, l).

(** [tr] is where the loops find the records of [n] bytes at [p]. *)
Definition parses (m : list Z) (p n opts : Z) (tr : list (Z * Z * Z)) : Prop :=
  forall fuel, (Z.to_nat n < fuel)%nat ->
    (forall C (cb : C -> Z -> Z -> Z -> Z * C) ctx,
       unpack_loop fuel ctx m p n opts BCME_OK cb = Some (fold_cb cb ctx tr)) /\
    (forall id, get_data_loop fuel m p n id opts = Some (find_id id tr)).

Lemma size_bounds dlen opts : 0 <= dlen -> dlen + 4 <= bcm_xtlv_size_for_data dlen opts <= dlen + 7.
Proof.
  intros Hd. unfold bcm_xtlv_size_for_data, BCM_XTLV_HDR_SIZE. destruct (negb _); [|lia]. unfold ALIGN_SIZE.
  change (4 - 1) with (Z.ones 2). rewrite <- Z.ldiff_land, Z.ldiff_ones_r by lia.
  rewrite Z.shiftl_mul_pow2, Z.shiftr_div_pow2 by lia. change (2 ^ 2) with 4.
  pose proof (Z.div_mod (dlen + 4 + 4 - 1) 4). pose proof (Z.mod_pos_bound (dlen + 4 + 4 - 1) 4). lia.
Qed.

Lemma find_id_cons id p t l tr :
  find_id id ((p, t, l) :: tr) = if id =? t then Some (p, l) else find_id id tr.
Proof.
  unfold find_id. cbn [list_find fst snd]. destruct (Z.eqb_spec id t) as [->|Hne].
  - by rewrite decide_True.
  - rewrite decide_False by done. destruct (list_find _ tr) as [[i [[q u] k]]|]; done.
Qed.

Lemma parses_nil m p n opts : n < 4 -> parses m p n opts [].
Proof.
  intros Hn [|fuel] Hf; [lia|]. cbn [unpack_loop get_data_loop]. unfold BCM_XTLV_HDR_SIZE.
  destruct (Z.leb_spec 4 n); [lia|]. by split.
Qed.
Lemma parses_over m p n opts t l :
  4 <= n -> BCM_XTLV_ID m p = Some t -> BCM_XTLV_LEN m p = Some l -> n < bcm_xtlv_size_for_data l opts ->
  parses m p n opts [].
Proof.
  intros Hn Ht Hl Hs [|fuel] Hf; [lia|]. cbn [unpack_loop get_data_loop]. unfold BCM_XTLV_HDR_SIZE.
  destruct (Z.leb_spec 4 n); [|lia]. cbn [negb]. rewrite Ht, Hl. cbn [mbind option_bind].
  destruct (Z.ltb_spec (n - bcm_xtlv_size_for_data l opts) 0); [|lia]. by split.
Qed.
Lemma parses_cons m p n opts t l tr (size := bcm_xtlv_size_for_data l opts) :
  0 <= l -> size <= n -> BCM_XTLV_ID m p = Some t -> BCM_XTLV_LEN m p = Some l ->
  parses m (p + size) (n - size) opts tr -> parses m p n opts ((p + 4, t, l) :: tr).
Proof.
  intros Hl0 Hs Ht Hl H [|fuel] Hf; [lia|]. pose proof (size_bounds l opts Hl0). fold size in H0.
  destruct (H fuel ltac:(lia)) as [Hu Hg]. cbn [unpack_loop get_data_loop fold_cb]. unfold BCM_XTLV_HDR_SIZE.
  destruct (Z.leb_spec 4 n); [|lia]. cbn [negb]. rewrite Ht, Hl. cbn [mbind option_bind]. fold size.
  destruct (Z.ltb_spec (n - size) 0); [lia|]. split.
  - intros C cb ctx. destruct (cb ctx (p + 4) t l) as [res ctx']. destruct (Z.eqb_spec res BCME_OK) as [->|]; cbn [negb]; [|done].
    apply Hu.
  - intros id. rewrite find_id_cons. destruct (id =? t); [done|apply Hg].
Qed.

(** Whatever the bytes are, the loops find records inside the buffer. *)
Lemma parse_any m opts k : forall p n,
  bytes m -> 0 <= p -> p + n <= Z.of_nat (length m) -> (Z.to_nat n <= k)%nat ->
  exists tr, parses m p n opts tr /\
    Forall (fun x => p + 4 <= x.1.1 /\ 0 <= x.1.2 < 2 ^ 16 /\ 0 <= x.2 < 2 ^ 16 /\ x.1.1 + x.2 <= p + n) tr.
Proof.
  induction k as [|k IH]; intros p n Hm Hp Hn Hk.
  { exists []. split; [apply parses_nil; lia|constructor]. }
  destruct (Z.lt_ge_cases n 4); [exists []; split; [by apply parses_nil|constructor]|].
  destruct (ld_Some 2 m p) as (t & Et & Ht & _); [done|lia|lia|].
  destruct (ld_Some 2 m (p + 2)) as (l & El & Hl & _); [done|lia|lia|].
  pose proof (size_bounds l opts ltac:(lia)) as Hs.
  destruct (Z.lt_ge_cases n (bcm_xtlv_size_for_data l opts)).
  { exists []. split; [by eapply parses_over|constructor]. }
  destruct (IH (p + bcm_xtlv_size_for_data l opts) (n - bcm_xtlv_size_for_data l opts)) as (tr & Htr & HF); [done|lia..|].
  exists ((p + 4, t, l) :: tr). split; [apply parses_cons; (lia || done)|]. constructor.
  - cbn [fst snd]. change (256 ^ Z.of_nat 2) with (2 ^ 16) in *. lia.
  - eapply Forall_impl; [exact HF|]. intros [[q u] v]. cbn [fst snd]. lia.
Qed.

(** ** Encoded buffers *)
Lemma xtlvs_len opts l bs : is_xtlvs opts l bs -> (4 * length l <= length bs)%nat.
Proof.
  revert bs. induction l as [|[t d] l IH]; intros bs; cbn [is_xtlvs]; [intros ->; cbn; lia|].
  intros (pad & rest & -> & _ & H). apply IH in H. rewrite !length_app, !length_le_bytes. cbn [length]. lia.
Qed.

Lemma le_app_ld n pre v post off :
  0 <= v < 256 ^ Z.of_nat n -> off = Z.of_nat (length pre) -> ld n (pre ++ le_bytes n v ++ post) off = Some v.
Proof. intros Hv ->. by apply ld_mid. Qed.

(** Reading the fields of a record in place. *)
Lemma record_fields pre t d post (m := pre ++ le_bytes 2 t ++ le_bytes 2 (Z.of_nat (length d)) ++ d ++ post)
    (p := Z.of_nat (length pre)) :
  xtlv_ok (t, d) -> BCM_XTLV_ID m p = Some t /\ BCM_XTLV_LEN m p = Some (Z.of_nat (length d)) /\
    ld_bytes m (p + 4) (length d) = Some d.
Proof.
  intros (Ht & Hd & _). cbn [fst snd] in *. unfold BCM_XTLV_ID, BCM_XTLV_LEN, m, p. split_and!.
  - apply le_app_ld; [change (256 ^ Z.of_nat 2) with (2 ^ 16); lia|done].
  - rewrite (app_assoc pre). apply le_app_ld; [change (256 ^ Z.of_nat 2) with (2 ^ 16); lia|]. rewrite length_app, length_le_bytes. lia.
  - rewrite (app_assoc pre), (app_assoc (pre ++ _)).
    replace (Z.of_nat (length pre) + 4) with (Z.of_nat (length ((pre ++ le_bytes 2 t) ++ le_bytes 2 (Z.of_nat (length d)))))
      by (rewrite !length_app, !length_le_bytes; lia). apply ld_bytes_mid.
Qed.

(** What is found is what was encoded. *)
Lemma parse_encoded opts l : forall pre bs post (m := pre ++ bs ++ post),
  is_xtlvs opts l bs -> Forall xtlv_ok l ->
  exists tr, parses m (Z.of_nat (length pre)) (Z.of_nat (length bs)) opts tr /\
    Forall2 (fun x y => x.1.2 = y.1 /\ x.2 = Z.of_nat (length y.2) /\ ld_bytes m x.1.1 (length y.2) = Some y.2) tr l.
Proof.
  induction l as [|[t d] l IH]; intros pre bs post m H Hok; cbn [is_xtlvs] in H.
  - subst bs. exists []. split; [apply parses_nil; cbn; lia|constructor].
  - destruct H as (pad & rest & -> & Hs & H). apply Forall_cons in Hok as [Hx Hok].
    set (r := le_bytes 2 t ++ le_bytes 2 (Z.of_nat (length d)) ++ d ++ pad).
    assert (Z.of_nat (length r) = bcm_xtlv_size_for_data (Z.of_nat (length d)) opts) as Hr
      by (rewrite <- Hs; unfold r; rewrite !length_app, !length_le_bytes; lia).
    assert (m = (pre ++ r) ++ rest ++ post) as Em by (unfold m, r; by rewrite <- !app_assoc).
    destruct (IH (pre ++ r) rest post H Hok) as (tr & Htr & HF). cbv zeta in Htr, HF. rewrite <- Em in Htr, HF.
    destruct (record_fields pre t d (pad ++ rest ++ post) Hx) as (E1 & E2 & E3).
    assert (m = pre ++ le_bytes 2 t ++ le_bytes 2 (Z.of_nat (length d)) ++ d ++ pad ++ rest ++ post) as Em'
      by (unfold m; by rewrite <- !app_assoc).
    rewrite <- Em' in E1, E2, E3.
    eexists. split.
    + eapply (parses_cons _ _ _ _ t (Z.of_nat (length d))); [lia| |exact E1|exact E2|].
      * rewrite <- Hr. unfold r. rewrite !length_app. lia.
      * rewrite <- Hr. replace (Z.of_nat (length pre) + Z.of_nat (length r)) with (Z.of_nat (length (pre ++ r)))
          by (rewrite length_app; lia).
        replace (Z.of_nat (length _) - Z.of_nat (length r)) with (Z.of_nat (length rest)); [exact Htr|].
        unfold r. rewrite !length_app. lia.
    + constructor; [|exact HF]. by cbn [fst snd].
Qed.

Lemma xtlvs_snoc opts l bs t d pad :
  is_xtlvs opts l bs -> Z.of_nat (4 + length d + length pad) = bcm_xtlv_size_for_data (Z.of_nat (length d)) opts ->
  is_xtlvs opts (l ++ [(t, d)]) (bs ++ le_bytes 2 t ++ le_bytes 2 (Z.of_nat (length d)) ++ d ++ pad).
Proof.
  revert bs. induction l as [|[u e] l IH]; intros bs H Hs; cbn [is_xtlvs app] in *.
  - subst bs. exists pad, []. by rewrite app_nil_r.
  - destruct H as (q & rest & -> & Hq & H). eexists q, _. split; [by rewrite <- !app_assoc|]. split; [done|].
    by apply IH.
Qed.

(** Writing one. *)
Lemma store_xtlv_mid pre old post t d :
  length old = (4 + length d)%nat ->
  store_xtlv (pre ++ old ++ post) (Z.of_nat (length pre)) t (Z.of_nat (length d)) d =
    Some (pre ++ (le_bytes 2 t ++ le_bytes 2 (Z.of_nat (length d)) ++ d) ++ post).
Proof.
  intros Hl. destruct old as [|a [|b [|c [|e old]]]]; cbn [length] in Hl; try lia.
  unfold store_xtlv, st, BCM_XTLV_HDR_SIZE.
  change (pre ++ (a :: b :: c :: e :: old) ++ post) with (pre ++ [a; b] ++ (c :: e :: old ++ post)).
  rewrite st_bytes_mid by (by rewrite length_le_bytes). cbn [mbind option_bind].
  rewrite (app_assoc pre). change (c :: e :: old ++ post) with ([c; e] ++ (old ++ post)).
  replace (Z.of_nat (length pre) + 2) with (Z.of_nat (length (pre ++ le_bytes 2 t)))
    by (rewrite length_app, length_le_bytes; lia).
  rewrite st_bytes_mid by (by rewrite length_le_bytes). cbn [mbind option_bind].
  rewrite (app_assoc (pre ++ _)).
  replace (Z.of_nat (length pre) + 4) with
    (Z.of_nat (length ((pre ++ le_bytes 2 t) ++ le_bytes 2 (Z.of_nat (length d)))))
    by (rewrite !length_app, !length_le_bytes; lia).
  rewrite st_bytes_mid by lia. by rewrite <- !app_assoc.
Qed.

(** ** Histories of puts *)
Inductive put_op :=
  | PutData (type : Z) (data : list Z) | Put8 (type v : Z) | Put16 (type v : Z) | Put32 (type v : Z).
Definition put_step (op : put_op) tbuf m :=
  match op with
  | PutData t d => bcm_xtlv_put_data tbuf m t d (Z.of_nat (length d))
  | Put8 t v => bcm_xtlv_put_8 tbuf m t v
  | Put16 t v => bcm_xtlv_put_16 tbuf m t v
  | Put32 t v => bcm_xtlv_put_32 tbuf m t v
  end.
(** The codes returned, the buffer and the memory. *)
Fixpoint put_run (ops : list put_op) tbuf m : option (list Z * option bcm_xtlvbuf * list Z) :=
  match ops with
  | [] => Some ([], tbuf, m)
  | op :: ops =>
      '(rc, tbuf, m) ← put_step op tbuf m; '(rcs, tbuf, m) ← put_run ops tbuf m; Some (rc :: rcs, tbuf, m)
  end.

(** The record an operation writes. *)
Definition put_item (op : put_op) : Z * list Z :=
  match op with
  | PutData t d => (t, d)
  | Put8 t v => (t, [u8 v])
  | Put16 t v => (t, le_bytes 2 (u16 v))
  | Put32 t v => (t, le_bytes 4 (u32 v))
  end.
Definition put_size (opts : Z) (op : put_op) : Z :=
  bcm_xtlv_size_for_data (Z.of_nat (length (put_item op).2)) opts.
Definition put_ok (op : put_op) : Prop := xtlv_ok (put_item op).

(** With [room] bytes left, the codes, and the records taken. *)
Fixpoint put_codes (opts room : Z) (ops : list put_op) : list Z :=
  match ops with
  | [] => []
  | op :: ops => if room <? put_size opts op then BCME_NOMEM :: put_codes opts room ops
                 else BCME_OK :: put_codes opts (room - put_size opts op) ops
  end.
Fixpoint put_taken (opts room : Z) (ops : list put_op) : list (Z * list Z) :=
  match ops with
  | [] => []
  | op :: ops => if room <? put_size opts op then put_taken opts room ops
                 else put_item op :: put_taken opts (room - put_size opts op) ops
  end.

(** Buffer [b] at [pre] holds [l] in [bs], and [free] follows. *)
Record put_inv (opts len : Z) (pre bs free post : list Z) (l : list (Z * list Z)) (b : bcm_xtlvbuf) (m : list Z) : Prop := {
  pi_buf : b = mk_xtlvbuf opts len (Z.of_nat (length pre)) (Z.of_nat (length pre + length bs));
  pi_mem : m = pre ++ (bs ++ free) ++ post;
  pi_len : Z.of_nat (length bs + length free) = len;
  pi_xtlvs : is_xtlvs opts l bs;
  pi_ok : Forall xtlv_ok l
}.

Lemma put_step_xtlv op b m :
  put_step op (Some b) m = put_xtlv (Some b) m (put_item op).1 (Z.of_nat (length (put_item op).2)) (Some (put_item op).2).
Proof.
  destruct op as [t d|t v|t v|t v]; cbn [put_step put_item fst snd].
  - unfold bcm_xtlv_put_data. by rewrite Nat2Z.id, ld_bytes_self.
  - done.
  - unfold bcm_xtlv_put_16. by rewrite length_le_bytes.
  - unfold bcm_xtlv_put_32. by rewrite length_le_bytes.
Qed.

Lemma inv_rlen opts len pre bs free post l b m : 0 <= len < 2 ^ 16 -> put_inv opts len pre bs free post l b m ->
  bcm_xtlv_buf_len (Some b) = Z.of_nat (length bs) /\ bcm_xtlv_buf_rlen (Some b) = Z.of_nat (length free).
Proof.
  intros Hl [-> _ Hlen _ _]. assert (bcm_xtlv_buf_len (Some (mk_xtlvbuf opts len (Z.of_nat (length pre))
    (Z.of_nat (length pre + length bs)))) = Z.of_nat (length bs)) as E.
  { cbn [bcm_xtlv_buf_len xb_buf xb_head]. rewrite wrapu_small by lia. lia. }
  split; [done|]. unfold bcm_xtlv_buf_rlen. rewrite E. cbn [xb_size]. rewrite wrapu_small by lia. lia.
Qed.

Lemma put_step_inv opts len pre bs free post l b m op :
  0 <= len < 2 ^ 16 -> put_inv opts len pre bs free post l b m -> put_ok op ->
  if Z.of_nat (length free) <? put_size opts op then put_step op (Some b) m = Some (BCME_NOMEM, Some b, m)
  else exists bs' free' b' m', put_step op (Some b) m = Some (BCME_OK, Some b', m') /\
    Z.of_nat (length free') = Z.of_nat (length free) - put_size opts op /\
    put_inv opts len pre bs' free' post (l ++ [put_item op]) b' m'.
Proof.
  intros Hlen I Hop. destruct (inv_rlen _ _ _ _ _ _ _ _ _ Hlen I) as [_ Er]. pose proof I as [Hb Hm Hl Hx Hok].
  rewrite put_step_xtlv. unfold put_xtlv. rewrite Er. unfold put_size. unfold put_ok in Hop.
  destruct (put_item op) as [t d]. cbn [fst snd] in *. replace (xb_opts b) with opts by (by rewrite Hb).
  pose proof (size_bounds (Z.of_nat (length d)) opts ltac:(lia)) as Hs.
  destruct (Z.ltb_spec (Z.of_nat (length free)) (bcm_xtlv_size_for_data (Z.of_nat (length d)) opts)); [done|].
  set (old := take (4 + length d) free). set (sz := bcm_xtlv_size_for_data (Z.of_nat (length d)) opts) in *.
  set (pad := take (Z.to_nat sz - (4 + length d)) (drop (4 + length d) free)). set (free' := drop (Z.to_nat sz) free).
  assert (free = old ++ pad ++ free') as Hf.
  { unfold old, pad, free'. rewrite <- (take_drop (4 + length d) free) at 1. f_equal.
    rewrite <- (take_drop (Z.to_nat sz - (4 + length d)) (drop (4 + length d) free)) at 1. f_equal.
    rewrite drop_drop. f_equal. lia. }
  assert (length old = (4 + length d)%nat) as Ho by (unfold old; rewrite length_take; lia).
  assert (length free' = (length free - Z.to_nat sz)%nat) as Hf' by (unfold free'; by rewrite length_drop).
  assert (Z.of_nat (4 + length d + length pad) = sz) as Hp.
  { apply (f_equal length) in Hf. rewrite !length_app in Hf. lia. }
  set (r := le_bytes 2 t ++ le_bytes 2 (Z.of_nat (length d)) ++ d).
  assert (length r = (4 + length d)%nat) as Hr by (unfold r; rewrite !length_app, !length_le_bytes; lia).
  exists (bs ++ r ++ pad), free', (xb_advance b sz), (pre ++ ((bs ++ r ++ pad) ++ free') ++ post).
  split_and!.
  - cbn [bcm_xtlv_buf fmap option_fmap option_map mbind option_bind].
    assert (store_xtlv m (xb_buf b) t (Z.of_nat (length d)) d = Some (pre ++ ((bs ++ r ++ pad) ++ free') ++ post)) as ->; [|done].
    rewrite Hb, Hm, Hf. cbn [xb_buf].
    replace (pre ++ (bs ++ old ++ pad ++ free') ++ post) with ((pre ++ bs) ++ old ++ (pad ++ free' ++ post))
      by (by rewrite <- !app_assoc).
    rewrite <- length_app, store_xtlv_mid by done. f_equal. unfold r. by rewrite <- !app_assoc.
  - lia.
  - constructor.
    + rewrite Hb. unfold xb_advance. cbn [xb_opts xb_size xb_head xb_buf]. f_equal. rewrite !length_app. lia.
    + done.
    + rewrite !length_app. lia.
    + unfold r. rewrite <- !app_assoc. apply xtlvs_snoc; done.
    + apply Forall_app. split; [done|]. by constructor.
Qed.

Lemma put_run_inv opts len pre post ops : forall bs free l b m,
  0 <= len < 2 ^ 16 -> put_inv opts len pre bs free post l b m -> Forall put_ok ops ->
  exists bs' free' b' m', put_run ops (Some b) m = Some (put_codes opts (Z.of_nat (length free)) ops, Some b', m') /\
    put_inv opts len pre bs' free' post (l ++ put_taken opts (Z.of_nat (length free)) ops) b' m'.
Proof.
  induction ops as [|op ops IH]; intros bs free l b m Hlen I Hok; cbn [put_run put_codes put_taken].
  - exists bs, free, b, m. by rewrite app_nil_r.
  - apply Forall_cons in Hok as [Hop Hok]. pose proof (put_step_inv opts len pre bs free post l b m op Hlen I Hop) as H.
    destruct (_ <? _).
    + rewrite H. cbn [mbind option_bind]. destruct (IH bs free l b m Hlen I Hok) as (bs' & free' & b' & m' & -> & I').
      cbn [mbind option_bind]. by exists bs', free', b', m'.
    + destruct H as (bs1 & free1 & b1 & m1 & -> & Hf1 & I1). cbn [mbind option_bind].
      destruct (IH _ _ _ _ _ Hlen I1 Hok) as (bs' & free' & b' & m' & -> & I'). rewrite Hf1 in *.
      cbn [mbind option_bind]. exists bs', free', b', m'. split; [done|]. by rewrite <- app_assoc in I'.
Qed.

(** A callback that lists what it is given. *)
Definition log_cb (m : list Z) (ctx : list (Z * list Z)) (p t l : Z) : Z * list (Z * list Z) :=
  match ld_bytes m p (Z.to_nat l) with Some d => (BCME_OK, ctx ++ [(t, d)]) | None => (BCME_ERROR, ctx) end.
Definition rec_at (m : list Z) (x : Z * Z * Z) (y : Z * list Z) : Prop :=
  x.1.2 = y.1 /\ x.2 = Z.of_nat (length y.2) /\ ld_bytes m x.1.1 (length y.2) = Some y.2.
Lemma log_all m tr l : Forall2 (rec_at m) tr l -> forall ctx, fold_cb (log_cb m) ctx tr = (BCME_OK, ctx ++ l).
Proof.
  induction 1 as [|[[p t] n] [t' d] tr l (Et & En & Ed) _ IH]; intros ctx; cbn [fst snd] in *; [by rewrite app_nil_r|].
  cbn [fold_cb]. unfold log_cb at 1. rewrite En, Nat2Z.id, Ed. cbn [negb]. rewrite Z.eqb_refl. cbn [negb].
  subst t'. by rewrite IH, <- app_assoc.
Qed.
Definition lookup_id (id : Z) (l : list (Z * list Z)) : option (list Z) :=
  snd <$> (snd <$> list_find (fun y => id = y.1) l).
Lemma find_first m id tr l : Forall2 (rec_at m) tr l ->
  match lookup_id id l with
  | Some d => exists p, find_id id tr = Some (p, Z.of_nat (length d)) /\ ld_bytes m p (length d) = Some d
  | None => find_id id tr = None
  end.
Proof.
  induction 1 as [|[[p t] n] [t' d] tr l (Et & En & Ed) _ IH]; [done|]. cbn [fst snd] in *. subst t' n.
  rewrite find_id_cons. unfold lookup_id in *. cbn [list_find fst]. destruct (Z.eqb_spec id t) as [->|Hne].
  - rewrite decide_True by done. cbn. by exists p.
  - rewrite decide_False by done. destruct (list_find _ l) as [[i y]|]; exact IH.
Qed.

(** * Properties *)

(** C22: on an initialised buffer of [len] bytes inside [m], any history of
    puts writes only inside the buffer and takes exactly the records that fit
    (BCME_NOMEM for the others, which change nothing); bcm_unpack_xtlv_buf
    then gives the callback the records taken, in order, with their type,
    length and value, and bcm_get_data_from_xtlv_buf finds the first of an id,
    for every alignment option. *)
Theorem xtlv_roundtrip (m : list Z) (base len opts : Z) (b0 : bcm_xtlvbuf) (ops : list put_op) :
  0 <= base -> 0 < len < 2 ^ 16 -> base + len <= Z.of_nat (length m) -> Forall put_ok ops ->
  exists b b' m', bcm_xtlv_buf_init (Some b0) (Some base) len opts = (BCME_OK, Some b) /\
    put_run ops (Some b) m = Some (put_codes opts len ops, Some b', m') /\
    length m' = length m /\ (forall i, i < base \/ base + len <= i -> aget m' i = aget m i) /\
    bcm_unpack_xtlv_buf [] m' base (bcm_xtlv_buf_len (Some b')) opts (log_cb m') =
      Some (BCME_OK, put_taken opts len ops) /\
    forall id, match lookup_id id (put_taken opts len ops) with
    | Some d => exists p, bcm_get_data_from_xtlv_buf m' base (bcm_xtlv_buf_len (Some b')) id opts =
                            Some (Some (p, Z.of_nat (length d))) /\ ld_bytes m' p (length d) = Some d
    | None => bcm_get_data_from_xtlv_buf m' base (bcm_xtlv_buf_len (Some b')) id opts = Some None
    end.
Proof.
  intros Hb Hl Hm Hok. unfold bcm_xtlv_buf_init. destruct (Z.eqb_spec len 0); [lia|].
  set (pre := take (Z.to_nat base) m). set (free := take (Z.to_nat len) (drop (Z.to_nat base) m)).
  set (post := drop (Z.to_nat (base + len)) m).
  assert (Z.of_nat (length pre) = base) as Hp by (unfold pre; rewrite length_take; lia).
  assert (Z.of_nat (length free) = len) as Hf by (unfold free; rewrite length_take, length_drop; lia).
  assert (m = pre ++ free ++ post) as Em.
  { unfold pre, free, post. rewrite Z2Nat.inj_add, <- drop_drop by lia. by rewrite !take_drop. }
  destruct (put_run_inv opts len pre post ops [] free [] (mk_xtlvbuf opts len base base) m) as (bs & free' & b' & m' & E & I);
    [lia| |done|].
  { constructor; cbn [app length]; rewrite ?Nat.add_0_r, ?Hp; try done. }
  pose proof Hf as Hf0. rewrite Hf in E, I. cbn [app] in I. assert (0 <= len < 2 ^ 16) as Hl16 by lia. destruct (inv_rlen _ _ _ _ _ _ _ _ _ Hl16 I) as [El _].
  exists (mk_xtlvbuf opts len base base), b', m'. split; [done|]. split; [exact E|].
  destruct I as [_ Hm' Hl' Hx Hok']. split_and!.
  - rewrite Hm', Em, !length_app. lia.
  - intros i Hi. rewrite Hm', Em. unfold aget. destruct (Z.leb_spec 0 i); [|done].
    destruct Hi as [Hi|Hi]; [by rewrite (lookup_app_l pre), (lookup_app_l pre) by lia|].
    rewrite (lookup_app_r pre), (lookup_app_r pre), (lookup_app_r free), (lookup_app_r (bs ++ free')) by (rewrite ?length_app; lia).
    f_equal. rewrite length_app. lia.
  - destruct (parse_encoded opts _ pre bs (free' ++ post) Hx Hok') as (tr & Htr & HF). cbv zeta in Htr, HF.
    replace (pre ++ bs ++ free' ++ post) with m' in Htr, HF by (rewrite Hm'; by rewrite <- app_assoc).
    rewrite El. unfold bcm_unpack_xtlv_buf. destruct (Htr (S (Z.to_nat (Z.of_nat (length bs)))) ltac:(lia)) as [Hu _].
    rewrite <- Hp, Hu. f_equal. by apply (log_all m' tr _ HF []).
  - destruct (parse_encoded opts _ pre bs (free' ++ post) Hx Hok') as (tr & Htr & HF). cbv zeta in Htr, HF.
    replace (pre ++ bs ++ free' ++ post) with m' in Htr, HF by (rewrite Hm'; by rewrite <- app_assoc).
    intros id. rewrite El. unfold bcm_get_data_from_xtlv_buf.
    destruct (Htr (S (Z.to_nat (Z.of_nat (length bs)))) ltac:(lia)) as [_ Hg].
    rewrite <- Hp, Hg. pose proof (find_first m' id tr _ HF) as Hff.
    destruct (lookup_id id _) as [d|]; [destruct Hff as (p & -> & Hd); by exists p|by rewrite Hff].
Qed.

(** ** Witness: two aligned records in sixteen bytes; the third does not fit *)
Definition xtlv_ops3 : list put_op := [Put8 7 (-1); PutData 9 [1; 2; 3]; Put16 7 5].
Lemma xtlv_roundtrip_witness :
  put_codes BCM_XTLV_OPTION_ALIGN32 16 xtlv_ops3 = [BCME_OK; BCME_OK; BCME_NOMEM] /\
  exists b' m', put_run xtlv_ops3 (Some (mk_xtlvbuf 1 16 2 2)) (replicate 20 170) = Some ([0; 0; -27], Some b', m') /\
    bcm_unpack_xtlv_buf [] m' 2 (bcm_xtlv_buf_len (Some b')) 1 (log_cb m') = Some (0, [(7, [255]); (9, [1; 2; 3])]).
Proof.
  split; [reflexivity|].
  destruct (xtlv_roundtrip (replicate 20 170) 2 16 1 (mk_xtlvbuf 0 0 0 0) xtlv_ops3) as (b & b' & m' & E0 & E & _ & _ & Eu & _).
  - lia.
  - lia.
  - cbn. lia.
  - bytes_tac.
  - injection E0 as <-. exists b', m'. split; [exact E|exact Eu].
Defined.

(** Whatever bytes a buffer of [buflen] bytes holds, bcm_unpack_xtlv_buf
    and bcm_get_data_from_xtlv_buf return without reading outside it; every
    value they hand out, to any callback, lies inside it; both see the same
    records, the lookup giving the first of the id. *)
Theorem xtlv_parse_safe (m : list Z) (base buflen opts : Z) :
  bytes m -> 0 <= base -> 0 <= buflen < 2 ^ 16 -> base + buflen <= Z.of_nat (length m) ->
  exists tr, Forall (fun x => base + 4 <= x.1.1 /\ 0 <= x.1.2 < 2 ^ 16 /\ 0 <= x.2 < 2 ^ 16 /\ x.1.1 + x.2 <= base + buflen) tr /\
    (forall C (cb : C -> Z -> Z -> Z -> Z * C) ctx,
       bcm_unpack_xtlv_buf ctx m base buflen opts cb = Some (fold_cb cb ctx tr)) /\
    (forall id, bcm_get_data_from_xtlv_buf m base buflen id opts = Some (find_id id tr)).
Proof.
  intros Hm Hb Hn Hl. destruct (parse_any m opts (Z.to_nat buflen) base buflen) as (tr & Htr & HF); [done|lia..|].
  exists tr. split; [exact HF|]. by apply Htr; lia.
Qed.

(** A record whose length runs over the end. *)
Lemma xtlv_parse_safe_witness :
  exists tr, bcm_unpack_xtlv_buf [] [1; 0; 2; 0; 9; 9; 2; 0; 255; 255] 0 10 0
      (log_cb [1; 0; 2; 0; 9; 9; 2; 0; 255; 255]) = Some (fold_cb (log_cb [1; 0; 2; 0; 9; 9; 2; 0; 255; 255]) [] tr) /\
    bcm_get_data_from_xtlv_buf [1; 0; 2; 0; 9; 9; 2; 0; 255; 255] 0 10 2 0 = Some (find_id 2 tr) /\ find_id 2 tr = None.
Proof.
  destruct (xtlv_parse_safe [1; 0; 2; 0; 9; 9; 2; 0; 255; 255] 0 10 0) as (tr & _ & Hu & Hg).
  - bytes_tac.
  - lia.
  - lia.
  - cbn. lia.
  - exists tr. split; [apply Hu|]. split; [apply Hg|]. apply (inj Some). rewrite <- Hg. reflexivity.
Defined.

(** Stepping over the last record of a buffer with bcm_next_xtlv reads the
    length field of a record that is not there: when the buffer ends where its
    memory ends, the read is outside it. *)
Theorem xtlv_next_overrun (pre bs : list Z) (opts t : Z) (d : list Z) :
  is_xtlvs opts [(t, d)] bs -> xtlv_ok (t, d) ->
  bcm_next_xtlv (pre ++ bs) (Z.of_nat (length pre)) (Z.of_nat (length bs)) opts = None.
Proof.
  intros (pad & rest & -> & Hs & Hr) Hx. cbn [is_xtlvs] in Hr. subst rest. rewrite app_nil_r.
  destruct (record_fields pre t d pad Hx) as (_ & El & _). unfold bcm_next_xtlv, bcm_valid_xtlv, bcm_xtlv_size.
  rewrite El. cbn [mbind option_bind]. rewrite <- Hs.
  destruct (BCM_XTLV_LEN _ (_ + Z.of_nat (4 + length d + length pad))) as [v|] eqn:E; [|done].
  exfalso. unfold BCM_XTLV_LEN, ld in E. apply fmap_Some in E as (bs & E & _). apply ld_bytes_inv in E as [[|E] _]; [done|].
  rewrite !length_app, !length_le_bytes in E. lia.
Qed.

Lemma xtlv_next_overrun_witness : bcm_next_xtlv [5; 0; 1; 0; 77; 0; 0; 0] 0 8 1 = None.
Proof.
  apply (xtlv_next_overrun [] [5; 0; 1; 0; 77; 0; 0; 0] 1 5 [77]).
  - exists [0; 0; 0], []. repeat split.
  - bytes_tac.
Defined.
