(* ===== verification/Bloom.v ===== *)
(** * Bloom filters

    shared/bcmbloom.c: creation and destruction through the client's allocator,
    the table of hash functions, adding members and testing membership.

    A hash function is known by its address; [code] says what is at an address
    (calling anything else is undefined).  The memory the client's allocator
    returns has whatever contents it has.  [clen] is the filter in bytes. *)
From Stdlib Require Import ZArith Lia.
From stdpp Require Import base option numbers list.
From S2P Require Import Prelude Bytes.

Definition NBBY : Z := 8.
Definition BLOOM_BIT_LEN (x : Z) : Z := u32 (Z.shiftl x 3).
Definition setbit (a : list Z) (i : Z) : option (list Z) :=
  b ← aget a (i / NBBY); aset a (i / NBBY) (u8 (Z.lor b (Z.shiftl 1 (i mod NBBY)))).
Definition isclr (a : list Z) (i : Z) : option bool :=
  b ← aget a (i / NBBY); Some (Z.land b (Z.shiftl 1 (i mod NBBY)) =? 0).

(** [a % b] of unsigned ints. *)
Definition umod (a b : Z) : option Z := if b =? 0 then None else Some (a mod b).

(** ** The object *)
Record bcm_bloom_filter := mk_bloom {
  max_hash : Z;
  hash : list Z;                 (* addresses, 0 is NULL *)
  filter_size : Z;               (* in bytes *)
  filter : option (list Z)
}.
Definition with_hash (bp : bcm_bloom_filter) (h : list Z) : bcm_bloom_filter :=
  mk_bloom (max_hash bp) h (filter_size bp) (filter bp).
Definition with_filter (bp : bcm_bloom_filter) (f : list Z) : bcm_bloom_filter :=
  mk_bloom (max_hash bp) (hash bp) (filter_size bp) (Some f).

(** The three blocks of an object, with their sizes in bytes; pointers take
    [ptr] bytes and the object itself [obj]. *)
Inductive block := BlkObj (size : Z) | BlkHash (size : Z) | BlkFilter (size : Z).
Section alloc.
Context (ptr obj : Z).

(** The blocks given back to [free_cb]; what was allocated but is NULL in the
    object is not. *)
Definition destroy_frees (free_cb : bool) (max_hash : Z) (has_hash : bool) (filter_size : Z) (has_filter : bool)
    : list block :=
  if free_cb then
    (if has_filter then [BlkFilter filter_size] else []) ++
    (if has_hash then [BlkHash (u32 (ptr * max_hash))] else []) ++ [BlkObj obj]
  else [].

(** What [alloc_cb] returns for the object (success), for the table and for the
    filter; the result, the object, the blocks taken and given back. *)
Definition bcm_bloom_create (bloom alloc_cb free_cb : bool) (obj_ok : bool) (hash_mem filter_mem : option (list Z))
    (max_hash filter_size : Z) : Z * option bcm_bloom_filter * list block * list block :=
  if negb bloom || negb alloc_cb || (max_hash =? 0) then (BCME_BADARG, None, [], []) else
  if negb obj_ok then (BCME_NOMEM, None, [], []) else
  match hash_mem with
  | None => (BCME_NOMEM, None, [BlkObj obj], destroy_frees free_cb max_hash false 0 false)
  | Some h =>
      if 0 <? filter_size then
        match filter_mem with
        | None => (BCME_NOMEM, None, [BlkObj obj; BlkHash (u32 (ptr * max_hash))],
                   destroy_frees free_cb max_hash true 0 false)
        | Some f => (BCME_OK, Some (mk_bloom max_hash h filter_size (Some (replicate (Z.to_nat filter_size) 0))),
                     [BlkObj obj; BlkHash (u32 (ptr * max_hash)); BlkFilter filter_size], [])
        end
      else (BCME_OK, Some (mk_bloom max_hash h 0 None), [BlkObj obj; BlkHash (u32 (ptr * max_hash))], [])
  end.

Definition bcm_bloom_destroy (bloom : option (option bcm_bloom_filter)) (free_cb : bool)
    : Z * option (option bcm_bloom_filter) * list block :=
  match bloom with
  | Some (Some bp) =>
      if free_cb then
        (BCME_OK, Some None,
         destroy_frees true (max_hash bp) true (filter_size bp) (bool_decide (filter bp <> None)))
      else (BCME_OK, bloom, [])
  | _ => (BCME_OK, bloom, [])
  end.
End alloc.

(** ** The table of hash functions *)

(** The first NULL entry from [i]: [n] entries are left. *)
Fixpoint free_slot (n : nat) (h : list Z) (i : Z) : option Z :=
  match n with
  | O => Some i
  | S n => a ← aget h i; if a =? 0 then Some i else free_slot n h (i + 1)
  end.
(** The index given back. *)
Definition bcm_bloom_add_hash (bp : option bcm_bloom_filter) (hash_fn : Z) (idx : option Z)
    : option (Z * option bcm_bloom_filter * option Z) :=
  match bp, idx with
  | Some b, Some _ =>
      if hash_fn =? 0 then Some (BCME_BADARG, bp, idx) else
      i ← free_slot (Z.to_nat (max_hash b)) (hash b) 0;
      if max_hash b <=? i then Some (BCME_NORESOURCE, bp, idx) else
      h ← aset (hash b) i hash_fn; Some (BCME_OK, Some (with_hash b h), Some i)
  | _, _ => Some (BCME_BADARG, bp, idx)
  end.
Definition bcm_bloom_remove_hash (bp : option bcm_bloom_filter) (idx : Z) : option (Z * option bcm_bloom_filter) :=
  match bp with
  | None => Some (BCME_BADARG, bp)
  | Some b => if max_hash b <=? idx then Some (BCME_NOTFOUND, bp) else
              h ← aset (hash b) idx 0; Some (BCME_OK, Some (with_hash b h))
  end.

(** ** Members *)
Section members.
(** The code at an address: index, tag and its length to a uint. *)
Context (code : Z -> option (Z -> list Z -> Z -> Z)).

(** The loop over the table from entry [i]. *)
Fixpoint member_loop (n : nat) (bp : bcm_bloom_filter) (i : Z) (tag : list Z) (tag_len : Z) (buf : list Z) (buf_len : Z)
    : option Z :=
  match n with
  | O => Some BCME_OK
  | S n =>
      a ← aget (hash bp) i;
      if a =? 0 then member_loop n bp (i + 1) tag tag_len buf buf_len else
      f ← code a; bit ← umod (u32 (f i tag tag_len)) (BLOOM_BIT_LEN buf_len); c ← isclr buf bit;
      if (c : bool) then Some BCME_NOTFOUND else member_loop n bp (i + 1) tag tag_len buf buf_len
  end.
(** The error code, before it is returned as a bool. *)
Definition is_member_err (bp : bcm_bloom_filter) (tag : option (list Z)) (tag_len : Z) (buf : option (list Z)) (buf_len : Z)
    : option Z :=
  match tag with
  | None => Some BCME_OK
  | Some t =>
      if tag_len =? 0 then Some BCME_OK else
      let ext := match buf with Some b => if buf_len =? 0 then None else Some (b, buf_len) | None => None end in
      match ext with
      | Some (b, l) => member_loop (Z.to_nat (max_hash bp)) bp 0 t tag_len b l
      | None => match filter bp with
                | None => Some BCME_OK
                | Some f => member_loop (Z.to_nat (max_hash bp)) bp 0 t tag_len f (filter_size bp)
                end
      end
  end.
(** [return err] in a function whose result is a bool. *)
Definition bcm_bloom_is_member bp tag tag_len buf buf_len : option bool :=
  err ← is_member_err bp tag tag_len buf buf_len; Some (negb (err =? 0)).

Fixpoint add_loop (n : nat) (bp : bcm_bloom_filter) (i : Z) (tag : list Z) (tag_len : Z) (f : list Z) : option (list Z) :=
  match n with
  | O => Some f
  | S n =>
      a ← aget (hash bp) i;
      if a =? 0 then add_loop n bp (i + 1) tag tag_len f else
      h ← code a; bit ← umod (u32 (h i tag tag_len)) (BLOOM_BIT_LEN (filter_size bp)); f ← setbit f bit;
      add_loop n bp (i + 1) tag tag_len f
  end.
Definition bcm_bloom_add_member (bp : option bcm_bloom_filter) (tag : option (list Z)) (tag_len : Z)
    : option (Z * option bcm_bloom_filter) :=
  match bp, tag with
  | Some b, Some t =>
      if tag_len =? 0 then Some (BCME_BADARG, bp) else
      match filter b with
      | None => Some (BCME_UNSUPPORTED, bp)
      | Some f => f ← add_loop (Z.to_nat (max_hash b)) b 0 t tag_len f; Some (BCME_OK, Some (with_filter b f))
      end
  | _, _ => Some (BCME_BADARG, bp)
  end.
End members.

(** The result, [buf] and [*buf_len]. *)
Definition bcm_bloom_get_filter_data (bp : option bcm_bloom_filter) (buf_size : Z) (buf : list Z) (buf_len : option Z)
    : option (Z * list Z * option Z) :=
  match bp with
  | None => Some (BCME_BADARG, buf, buf_len)
  | Some b =>
      let buf_len := (fun _ => filter_size b) <$> buf_len in
      if buf_size <? filter_size b then Some (BCME_BUFTOOSHORT, buf, buf_len) else
      match filter b with
      | Some f => if filter_size b =? 0 then Some (BCME_OK, buf, buf_len) else
                  bs ← ld_bytes f 0 (Z.to_nat (filter_size b)); buf ← st_bytes buf 0 bs; Some (BCME_OK, buf, buf_len)
      | None => Some (BCME_OK, buf, buf_len)
      end
  end.

(** * Lemmas *)

(** ** Bits *)
Lemma byte_bits b k k' : is_byte b -> 0 <= k < 8 -> 0 <= k' < 8 -> let b' := u8 (Z.lor b (Z.shiftl 1 k)) in
  is_byte b' /\ Z.land b' (Z.shiftl 1 k) <> 0 /\ (Z.land b (Z.shiftl 1 k') <> 0 -> Z.land b' (Z.shiftl 1 k') <> 0).
Proof.
  intros Hb Hk Hk'.
  assert (Forall (fun b => Forall (fun k => Forall (fun k' =>
      (0 <= u8 (Z.lor b (Z.shiftl 1 k)) < 256) /\ Z.land (u8 (Z.lor b (Z.shiftl 1 k))) (Z.shiftl 1 k) <> 0 /\
      (Z.land b (Z.shiftl 1 k') <> 0 -> Z.land (u8 (Z.lor b (Z.shiftl 1 k))) (Z.shiftl 1 k') <> 0))
      (seqZ 0 8)) (seqZ 0 8)) (seqZ 0 256)) as H.
  { apply (bool_decide_unpack _). vm_compute. exact I. }
  unfold is_byte in Hb. rewrite list.Forall_forall in H. specialize (H b ltac:(apply elem_of_seqZ; lia)).
  rewrite list.Forall_forall in H. specialize (H k ltac:(apply elem_of_seqZ; lia)).
  rewrite list.Forall_forall in H. exact (H k' ltac:(apply elem_of_seqZ; lia)).
Qed.

Definition bit_set (f : list Z) (i : Z) : Prop := isclr f i = Some false.

Lemma setbit_spec f i : bytes f -> 0 <= i < 8 * Z.of_nat (length f) ->
  exists f', setbit f i = Some f' /\ length f' = length f /\ bytes f' /\ bit_set f' i /\
    forall j, 0 <= j -> bit_set f j -> bit_set f' j.
Proof.
  intros Hf Hi. unfold setbit, NBBY.
  assert (0 <= i / 8 < Z.of_nat (length f)) as Hd by (split; [apply Z.div_pos|apply Z.div_lt_upper_bound]; lia).
  destruct (aget_is_Some f (i / 8) Hd) as [b Eb]. rewrite Eb. cbn [mbind option_bind].
  pose proof (aget_byte _ _ _ Hf Eb) as Hb. pose proof (Z.mod_pos_bound i 8 ltac:(lia)) as Hk.
  destruct (byte_bits b (i mod 8) (i mod 8) Hb Hk Hk) as (Hb' & Hs & _).
  rewrite aset_Some by done. eexists. split; [done|]. split_and!.
  - apply length_insert.
  - by apply Forall_insert.
  - unfold bit_set, isclr, NBBY. rewrite aget_insert, decide_True by done. cbn [mbind option_bind]. f_equal.
    by apply Z.eqb_neq.
  - intros j Hj. unfold bit_set, isclr, NBBY. rewrite aget_insert by done. case_decide as E; [|done].
    rewrite <- E, Eb. cbn [mbind option_bind]. intros [= H%Z.eqb_neq]. f_equal. apply Z.eqb_neq.
    apply (byte_bits b (i mod 8) (j mod 8)); [done..|apply Z.mod_pos_bound; lia|done].
Qed.

(** ** Objects that are well formed *)
Section loops.
Context (code : Z -> option (Z -> list Z -> Z -> Z)).

Record bloom_ok (bp : bcm_bloom_filter) : Prop := {
  bo_max : Z.of_nat (length (hash bp)) = max_hash bp;
  bo_code : Forall (fun a => a <> 0 -> is_Some (code a)) (hash bp);
  bo_size : 0 < filter_size bp < 2 ^ 29;
  bo_filter : exists f, filter bp = Some f /\ bytes f /\ Z.of_nat (length f) = filter_size bp
}.

(** Every bit of [tag] is set, the hash functions numbered from [i] on. *)
Fixpoint all_set (h : list Z) (i : Z) (tag : list Z) (size : Z) (f : list Z) : Prop :=
  match h with
  | [] => True
  | a :: h => (a <> 0 -> exists g, code a = Some g /\
                 bit_set f (u32 (g i tag (Z.of_nat (length tag))) mod (8 * size))) /\ all_set h (i + 1) tag size f
  end.

Lemma bit_len size : 0 < size < 2 ^ 29 -> BLOOM_BIT_LEN size = 8 * size.
Proof.
  intros Hs. unfold BLOOM_BIT_LEN. rewrite Z.shiftl_mul_pow2 by lia. change (2 ^ 3) with 8.
  rewrite wrapu_small; [lia|]. change (2 ^ 32) with (2 ^ 29 * 8). lia.
Qed.

Lemma all_set_mono h : forall i tag size f f',
  0 < size -> (forall j, 0 <= j -> bit_set f j -> bit_set f' j) -> all_set h i tag size f -> all_set h i tag size f'.
Proof.
  induction h as [|a h IH]; intros i tag size f f' Hs Hm; cbn [all_set]; [done|]. intros [Ha Hh]. split; [|by eapply IH].
  intros Hne. destruct (Ha Hne) as (g & -> & Hb). exists g. split; [done|]. apply Hm; [apply Z.mod_pos_bound; lia|done].
Qed.

(** Reading the table entry by entry. *)
Lemma table_at (pre : list Z) a h : aget (pre ++ a :: h) (Z.of_nat (length pre)) = Some a.
Proof.
  unfold aget. destruct (Z.leb_spec 0 (Z.of_nat (length pre))); [|lia].
  rewrite Nat2Z.id, lookup_app_r, Nat.sub_diag by lia. done.
Qed.

Lemma member_loop_set bp tag buf size h : forall pre,
  hash bp = pre ++ h -> 0 < size < 2 ^ 29 -> all_set h (Z.of_nat (length pre)) tag size buf ->
  member_loop code (length h) bp (Z.of_nat (length pre)) tag (Z.of_nat (length tag)) buf size = Some BCME_OK.
Proof.
  induction h as [|a h IH]; intros pre Eh Hs Hset; cbn [length member_loop]; [done|].
  rewrite Eh, table_at. cbn [mbind option_bind]. destruct Hset as [Ha Hset].
  assert (hash bp = (pre ++ [a]) ++ h) as Eh' by (by rewrite <- app_assoc).
  assert (Z.of_nat (length pre) + 1 = Z.of_nat (length (pre ++ [a]))) as El by (rewrite length_app; cbn; lia).
  destruct (Z.eqb_spec a 0) as [_|Hne]; [rewrite El in *; by apply IH|].
  destruct (Ha Hne) as (g & -> & Hb). cbn [mbind option_bind]. rewrite bit_len by done. unfold umod.
  destruct (Z.eqb_spec (8 * size) 0); [lia|]. cbn [mbind option_bind]. rewrite Hb. cbn [mbind option_bind].
  rewrite El in *. by apply IH.
Qed.

Lemma add_loop_ok bp tag h : forall pre f,
  hash bp = pre ++ h -> bloom_ok bp -> bytes f -> Z.of_nat (length f) = filter_size bp ->
  exists f', add_loop code (length h) bp (Z.of_nat (length pre)) tag (Z.of_nat (length tag)) f = Some f' /\
    bytes f' /\ Z.of_nat (length f') = filter_size bp /\ (forall j, 0 <= j -> bit_set f j -> bit_set f' j) /\
    all_set h (Z.of_nat (length pre)) tag (filter_size bp) f'.
Proof.
  induction h as [|a h IH]; intros pre f Eh Hok Hf Hl; cbn [length add_loop]; [by exists f|].
  rewrite Eh, table_at. cbn [mbind option_bind all_set]. pose proof (bo_size _ Hok) as Hs.
  assert (hash bp = (pre ++ [a]) ++ h) as Eh' by (by rewrite <- app_assoc).
  assert (Z.of_nat (length pre) + 1 = Z.of_nat (length (pre ++ [a]))) as El by (rewrite length_app; cbn; lia).
  destruct (Z.eqb_spec a 0) as [->|Hne].
  { rewrite El. destruct (IH (pre ++ [0]) f Eh' Hok Hf Hl) as (f' & -> & ? & ? & ? & ?). by exists f'. }
  pose proof (bo_code _ Hok) as Hc. rewrite Eh in Hc. apply Forall_app in Hc as [_ [Ha _]%Forall_cons].
  destruct (Ha Hne) as [g Eg]. rewrite Eg. cbn [mbind option_bind]. rewrite bit_len by done. unfold umod.
  destruct (Z.eqb_spec (8 * filter_size bp) 0); [lia|]. cbn [mbind option_bind].
  set (bit := u32 (g (Z.of_nat (length pre)) tag (Z.of_nat (length tag))) mod (8 * filter_size bp)).
  destruct (setbit_spec f bit Hf) as (f1 & -> & L1 & B1 & S1 & M1).
  { rewrite Hl. apply Z.mod_pos_bound. lia. }
  cbn [mbind option_bind]. rewrite El.
  destruct (IH (pre ++ [a]) f1 Eh' Hok B1 ltac:(by rewrite L1)) as (f' & -> & B' & L' & M' & S').
  exists f'. split_and!; [done|done|done|auto| |done]. intros _. exists g. split; [done|].
  apply M'; [apply Z.mod_pos_bound; lia|exact S1].
Qed.

(** ** Histories: adding members, taking hash functions out *)
Inductive bloom_op := BAdd (tag : list Z) | BRemove (idx : Z).
Definition bloom_step (op : bloom_op) (bp : bcm_bloom_filter) : option bcm_bloom_filter :=
  match op with
  | BAdd tag => '(_, b) ← bcm_bloom_add_member code (Some bp) (Some tag) (Z.of_nat (length tag)); b
  | BRemove i => '(_, b) ← bcm_bloom_remove_hash (Some bp) i; b
  end.
Fixpoint bloom_run (ops : list bloom_op) (bp : bcm_bloom_filter) : option bcm_bloom_filter :=
  match ops with [] => Some bp | op :: ops => bp ← bloom_step op bp; bloom_run ops bp end.
Definition bloom_op_ok (op : bloom_op) : Prop := match op with BAdd _ => True | BRemove i => 0 <= i end.

(** [tag]'s bits are set in the filter of [bp]. *)
Definition holds (bp : bcm_bloom_filter) (tag : list Z) : Prop :=
  exists f, filter bp = Some f /\ all_set (hash bp) 0 tag (filter_size bp) f.

Lemma all_set_clear h : forall i k tag size f, all_set h i tag size f -> all_set (<[k := 0]> h) i tag size f.
Proof.
  induction h as [|a h IH]; intros i k tag size f; [by destruct k|]. intros [Ha Hh].
  destruct k as [|k]; cbn [insert list_insert all_set]; [by split|]. split; [done|]. by apply IH.
Qed.

Lemma bloom_step_ok op bp : bloom_ok bp -> bloom_op_ok op ->
  exists bp', bloom_step op bp = Some bp' /\ bloom_ok bp' /\ filter_size bp' = filter_size bp /\
    (forall tag, holds bp tag -> holds bp' tag) /\
    (forall tag, op = BAdd tag -> tag <> [] -> holds bp' tag).
Proof.
  intros Hok Hop. destruct (bo_filter _ Hok) as (f & Ef & Hf & Hl). destruct op as [tag|i]; cbn [bloom_step].
  - unfold bcm_bloom_add_member. rewrite Ef. destruct (Z.eqb_spec (Z.of_nat (length tag)) 0) as [Hz|Hz].
    { exists bp. split_and!; try done. intros t [= <-]. destruct tag; [done|cbn in Hz; lia]. }
    destruct (add_loop_ok bp tag (hash bp) [] f) as (f' & E & B' & L' & M' & S'); [done..|].
    rewrite <- (bo_max _ Hok), Nat2Z.id. cbn [length] in E. change (Z.of_nat 0) with 0 in E. rewrite E. cbn [mbind option_bind].
    exists (with_filter bp f'). split_and!; [done| |done| |].
    + destruct Hok as [H1 H2 H3 H4]. constructor; [done|done|done|]. exists f'. by split_and!.
    + intros t (f0 & Ef0 & Ht). rewrite Ef in Ef0. injection Ef0 as <-. exists f'. split; [done|].
      eapply all_set_mono; [apply Hok|exact M'|exact Ht].
    + intros t [= <-] _. exists f'. by split.
  - unfold bcm_bloom_remove_hash. destruct (Z.leb_spec (max_hash bp) i); [by exists bp; split_and!|].
    cbn in Hop. rewrite aset_Some by (rewrite (bo_max _ Hok); lia). cbn [mbind option_bind].
    exists (with_hash bp (<[Z.to_nat i := 0]> (hash bp))). split_and!; [done| |done| |done].
    + destruct Hok as [H1 H2 H3 H4]. constructor; cbn; [by rewrite length_insert|by apply Forall_insert|done|done].
    + intros t (f0 & Ef0 & Ht). exists f0. split; [done|]. by apply all_set_clear.
Qed.

Lemma bloom_run_ok ops : forall bp, bloom_ok bp -> Forall bloom_op_ok ops ->
  exists bp', bloom_run ops bp = Some bp' /\ bloom_ok bp' /\ filter_size bp' = filter_size bp /\
    (forall tag, holds bp tag -> holds bp' tag) /\
    (forall tag, BAdd tag ∈ ops -> tag <> [] -> holds bp' tag).
Proof.
  induction ops as [|op ops IH]; intros bp Hok Hops; cbn [bloom_run].
  { exists bp. split_and!; try done. by intros t ?%elem_of_nil. }
  apply Forall_cons in Hops as [Hop Hops].
  destruct (bloom_step_ok op bp Hok Hop) as (b1 & -> & Ok1 & S1 & K1 & A1). cbn [mbind option_bind].
  destruct (IH b1 Ok1 Hops) as (b2 & -> & Ok2 & S2 & K2 & A2). exists b2.
  split_and!; [done|done|congruence|auto|]. intros t [<-|Hin]%elem_of_cons Ht; [|auto]. apply K2. by eapply A1.
Qed.

Lemma holds_member bp tag : bloom_ok bp -> tag <> [] -> holds bp tag ->
  is_member_err code bp (Some tag) (Z.of_nat (length tag)) None 0 = Some BCME_OK /\
  exists f, filter bp = Some f /\
    is_member_err code bp (Some tag) (Z.of_nat (length tag)) (Some f) (filter_size bp) = Some BCME_OK.
Proof.
  intros Hok Ht (f & Ef & Hset). pose proof (bo_size _ Hok) as Hs. unfold is_member_err. rewrite Ef.
  destruct (Z.eqb_spec (Z.of_nat (length tag)) 0); [destruct tag; [done|cbn in *; lia]|].
  rewrite <- (bo_max _ Hok), Nat2Z.id.
  pose proof (member_loop_set bp tag f (filter_size bp) (hash bp) [] eq_refl Hs Hset) as E. cbn [length] in E. change (Z.of_nat 0) with 0 in E.
  split; [exact E|]. exists f. split; [done|]. destruct (Z.eqb_spec (filter_size bp) 0); [lia|]. exact E.
Qed.

(** Putting hash functions in an empty table. *)
Fixpoint add_all (bp : bcm_bloom_filter) (fns : list Z) : option bcm_bloom_filter :=
  match fns with
  | [] => Some bp
  | a :: fns => '(rc, b, _) ← bcm_bloom_add_hash (Some bp) a (Some 0);
                if rc =? BCME_OK then b ← b; add_all b fns else None
  end.

Lemma free_slot_app h k : forall pre n, Forall (fun a => a <> 0) h -> (length h + k = n)%nat -> (0 < k)%nat ->
  free_slot n (pre ++ h ++ replicate k 0) (Z.of_nat (length pre)) = Some (Z.of_nat (length pre + length h)).
Proof.
  induction h as [|a h IH]; intros pre n Hh Hn Hk; destruct n as [|n]; try (cbn in Hn; lia); cbn [free_slot].
  - destruct k as [|k]; [lia|]. cbn [app replicate]. rewrite table_at. cbn [mbind option_bind].
    rewrite Nat.add_0_r. done.
  - cbn [app]. rewrite table_at. cbn [mbind option_bind]. apply Forall_cons in Hh as [Ha Hh].
    rewrite (proj2 (Z.eqb_neq _ _) Ha). specialize (IH (pre ++ [a]) n Hh). rewrite <- app_assoc in IH. cbn [app] in IH.
    rewrite length_app in IH. cbn [length] in IH. replace (Z.of_nat (length pre) + 1) with (Z.of_nat (length pre + 1)) by lia.
    rewrite IH; [f_equal; cbn; lia|cbn in Hn; lia|done].
Qed.

Lemma add_all_ok fns : forall bp h k,
  hash bp = h ++ replicate k 0 -> Z.of_nat (length (hash bp)) = max_hash bp -> Forall (fun a => a <> 0) h ->
  Forall (fun a => a <> 0) fns -> (length fns <= k)%nat ->
  exists bp', add_all bp fns = Some bp' /\ bp' = with_hash bp ((h ++ fns) ++ replicate (k - length fns) 0).
Proof.
  induction fns as [|a fns IH]; intros bp h k Eh Hmax Hh Hf Hk; cbn [add_all length].
  - exists bp. split; [done|]. rewrite app_nil_r, Nat.sub_0_r, <- Eh. by destruct bp.
  - apply Forall_cons in Hf as [Ha Hf]. cbn [length] in Hk. unfold bcm_bloom_add_hash.
    rewrite (proj2 (Z.eqb_neq _ _) Ha), <- Hmax, Nat2Z.id, Eh.
    assert (length (h ++ replicate k 0) = (length h + k)%nat) as Hlen by (by rewrite length_app, length_replicate).
    pose proof (free_slot_app h k [] (length (h ++ replicate k 0)) Hh ltac:(lia) ltac:(lia)) as E. cbn [app length Nat.add] in E. change (Z.of_nat 0) with 0 in E.
    rewrite E. cbn [mbind option_bind]. rewrite Hlen. destruct (Z.leb_spec (Z.of_nat (length h + k)) (Z.of_nat (length h))); [lia|].
    rewrite aset_nat by lia. cbn [mbind option_bind]. rewrite Z.eqb_refl. cbn [mbind option_bind].
    destruct k as [|k]; [lia|]. rewrite insert_app_r_alt, Nat.sub_diag by lia. cbn [replicate insert list_insert].
    destruct (IH (with_hash bp (h ++ a :: replicate k 0)) (h ++ [a]) k) as (bp' & -> & ->).
    + cbn. by rewrite <- app_assoc.
    + cbn. rewrite <- Hmax, Eh, !length_app. cbn. by rewrite !length_replicate.
    + apply Forall_app. by repeat constructor.
    + done.
    + lia.
    + eexists. split; [done|]. unfold with_hash. cbn. by rewrite <- !app_assoc.
Qed.
End loops.

(** * Properties *)

(** A filter created over zeroed memory, given hash functions, and then
    used in any history of adding members and removing hash functions, never
    accesses memory outside the table and the filter; every tag that was added
    is a member afterwards, by the internal filter and by the exported data;
    the bool that bcm_bloom_is_member returns for it is FALSE (BCME_OK). *)
Theorem bloom_no_false_negative (ptr obj : Z) (code : Z -> option (Z -> list Z -> Z -> Z)) (free_cb : bool)
    (maxh fsize : Z) (fmem fns : list Z) (ops : list bloom_op) :
  0 < maxh -> 0 < fsize < 2 ^ 29 -> Z.of_nat (length fns) <= maxh ->
  Forall (fun a => a <> 0 /\ is_Some (code a)) fns -> Forall bloom_op_ok ops ->
  exists b0 b1 b2 taken,
    bcm_bloom_create ptr obj true true free_cb true (Some (replicate (Z.to_nat maxh) 0)) (Some fmem) maxh fsize =
      (BCME_OK, Some b0, taken, []) /\
    add_all b0 fns = Some b1 /\ bloom_run code ops b1 = Some b2 /\
    forall tag, BAdd tag ∈ ops -> tag <> [] ->
      bcm_bloom_is_member code b2 (Some tag) (Z.of_nat (length tag)) None 0 = Some false /\
      exists data len, bcm_bloom_get_filter_data (Some b2) fsize (replicate (Z.to_nat fsize) 0) (Some 0) =
          Some (BCME_OK, data, Some len) /\ len = fsize /\
        bcm_bloom_is_member code b2 (Some tag) (Z.of_nat (length tag)) (Some data) len = Some false.
Proof.
  intros Hm Hs Hl Hc Hops. unfold bcm_bloom_create. destruct (Z.eqb_spec maxh 0); [lia|]. cbn [negb orb].
  destruct (Z.ltb_spec 0 fsize); [|lia].
  set (b0 := mk_bloom maxh (replicate (Z.to_nat maxh) 0) fsize (Some (replicate (Z.to_nat fsize) 0))).
  destruct (add_all_ok fns b0 [] (Z.to_nat maxh)) as (b1 & E1 & Eb1); [done| |constructor| |lia|].
  { unfold b0. cbn [hash max_hash]. rewrite length_replicate. lia. }
  { eapply Forall_impl; [exact Hc|]. cbn. tauto. }
  cbn [app] in Eb1. assert (bloom_ok code b1) as Ok1.
  { rewrite Eb1. constructor; unfold with_hash, b0; cbn [hash max_hash filter_size filter].
    - rewrite length_app, length_replicate. lia.
    - apply Forall_app. split; [eapply Forall_impl; [exact Hc|]; cbn; tauto|]. by apply Forall_replicate.
    - done.
    - eexists. split; [done|]. split; [apply Forall_replicate; unfold is_byte; lia|]. rewrite length_replicate. lia. }
  destruct (bloom_run_ok code ops b1 Ok1 Hops) as (b2 & E2 & Ok2 & S2 & _ & A2).
  assert (filter_size b2 = fsize) as Sz by (rewrite S2, Eb1; done).
  eexists b0, b1, b2, _. split; [done|]. split; [exact E1|]. split; [exact E2|]. intros tag Hin Ht.
  destruct (holds_member code b2 tag Ok2 Ht (A2 tag Hin Ht)) as (M1 & f & Ef & M2). unfold bcm_bloom_is_member.
  rewrite M1. split; [done|]. destruct (bo_filter _ _ Ok2) as (f' & Ef' & Bf & Lf). rewrite Ef in Ef'. injection Ef' as <-.
  exists f, fsize. unfold bcm_bloom_get_filter_data. rewrite Sz, Ef in *. cbn [fmap option_fmap option_map].
  destruct (Z.ltb_spec fsize fsize); [lia|]. destruct (Z.eqb_spec fsize 0); [lia|]. rewrite M2. split; [|done].
  replace (Z.to_nat fsize) with (length f) by lia. rewrite ld_bytes_self. cbn [mbind option_bind].
  rewrite st_bytes_splice by (rewrite ?length_replicate; lia). unfold splice. cbn [mbind option_bind].
  rewrite drop_ge by (rewrite length_replicate; lia). by rewrite app_nil_r.
Qed.

(** When the allocator does not clear the memory of the table of hash
    functions, what it held stays there: with no zero word in it no hash
    function can be added, and a membership test calls the leftover. *)
Theorem bloom_stale_table (ptr obj : Z) (code : Z -> option (Z -> list Z -> Z -> Z)) (free_cb : bool)
    (maxh fsize hash_fn : Z) (fmem junk tag : list Z) :
  0 < maxh -> 0 < fsize -> Z.of_nat (length junk) = maxh -> Forall (fun a => a <> 0 /\ code a = None) junk ->
  hash_fn <> 0 -> tag <> [] ->
  exists b taken,
    bcm_bloom_create ptr obj true true free_cb true (Some junk) (Some fmem) maxh fsize = (BCME_OK, Some b, taken, []) /\
    bcm_bloom_add_hash (Some b) hash_fn (Some 0) = Some (BCME_NORESOURCE, Some b, Some 0) /\
    bcm_bloom_is_member code b (Some tag) (Z.of_nat (length tag)) None 0 = None.
Proof.
  intros Hm Hs Hl Hj Hf Ht. unfold bcm_bloom_create. destruct (Z.eqb_spec maxh 0); [lia|]. cbn [negb orb].
  destruct (Z.ltb_spec 0 fsize); [|lia]. eexists _, _. split; [done|]. split.
  - unfold bcm_bloom_add_hash. rewrite (proj2 (Z.eqb_neq _ _) Hf). cbn [max_hash hash].
    assert (forall pre h, Forall (fun a => a <> 0 /\ code a = None) h ->
      free_slot (length h) (pre ++ h) (Z.of_nat (length pre)) = Some (Z.of_nat (length pre + length h))) as Hfull.
    { intros pre h. revert pre. induction h as [|a h IH]; intros pre Hh; cbn [length free_slot]; [by rewrite Nat.add_0_r|].
      apply Forall_cons in Hh as [[Ha _] Hh]. rewrite table_at. cbn [mbind option_bind]. rewrite (proj2 (Z.eqb_neq _ _) Ha).
      specialize (IH (pre ++ [a]) Hh). rewrite <- app_assoc, length_app in IH. cbn [app length] in IH.
      replace (Z.of_nat (length pre) + 1) with (Z.of_nat (length pre + 1)) by lia. rewrite IH. f_equal. lia. }
    pose proof (Hfull [] junk Hj) as E. cbn [app length Nat.add] in E. change (Z.of_nat 0) with 0 in E.
    replace (Z.to_nat maxh) with (length junk) by lia. rewrite E. cbn [mbind option_bind].
    destruct (Z.leb_spec maxh (Z.of_nat (length junk))); [done|lia].
  - unfold bcm_bloom_is_member, is_member_err. destruct (Z.eqb_spec (Z.of_nat (length tag)) 0).
    { destruct tag; [done|cbn in *; lia]. }
    cbn [filter max_hash]. destruct junk as [|a junk]; [cbn in Hl; lia|].
    replace (Z.to_nat maxh) with (S (length junk)) by (cbn in Hl; lia). cbn [member_loop hash].
    apply Forall_cons in Hj as [[Ha Hc] _]. pose proof (table_at [] a junk) as Et.
    cbn [app length] in Et. change (Z.of_nat 0) with 0 in Et. rewrite Et. cbn [mbind option_bind].
    rewrite (proj2 (Z.eqb_neq _ _) Ha). by rewrite Hc.
Qed.

(** ** Examples *)
(** Two hash functions at addresses 1000 and 2000. *)
Definition toy_code (a : Z) : option (Z -> list Z -> Z -> Z) :=
  if a =? 1000 then Some (fun i t l => 7 * hd 0 t + l + i) else
  if a =? 2000 then Some (fun i t l => 31 * hd 0 t + 5 * i) else None.

Lemma bloom_no_false_negative_witness :
  exists b2, bloom_run toy_code [BAdd [1; 2]; BAdd [9]; BRemove 0]
      (mk_bloom 3 [1000; 2000; 0] 4 (Some [0; 0; 0; 0])) = Some b2 /\
    bcm_bloom_is_member toy_code b2 (Some [9]) 1 None 0 = Some false.
Proof.
  destruct (bloom_no_false_negative 8 40 toy_code true 3 4 [7; 7; 7; 7] [1000; 2000] [BAdd [1; 2]; BAdd [9]; BRemove 0])
    as (b0 & b1 & b2 & taken & E0 & E1 & E2 & H).
  - lia.
  - lia.
  - cbn. lia.
  - repeat constructor; try lia; vm_compute; eauto.
  - repeat constructor. cbn. lia.
  - vm_compute in E0. injection E0 as <- _. vm_compute in E1. injection E1 as <-. exists b2. split; [exact E2|].
    apply (H [9]); [|discriminate]. apply list_elem_of_further, list_elem_of_here.
Defined.

(** malloc returned a page that was used before. *)
Lemma bloom_stale_table_witness :
  exists b taken,
    bcm_bloom_create 8 40 true true true true (Some [77; 78]) (Some []) 2 16 = (BCME_OK, Some b, taken, []) /\
    bcm_bloom_add_hash (Some b) 1000 (Some 0) = Some (BCME_NORESOURCE, Some b, Some 0) /\
    bcm_bloom_is_member toy_code b (Some [5]) 1 None 0 = None.
Proof.
  apply (bloom_stale_table 8 40 toy_code true 2 16 1000 [] [77; 78] [5]).
  - lia.
  - lia.
  - reflexivity.
  - repeat constructor; lia.
  - lia.
  - discriminate.
Defined.
