(* ===== verification/CStr.v ===== *)
(** * Characters, numbers and addresses in strings

    shared/bcmutils.c: bcm_strtoul, bcm_atoi, the comparisons and the tokenizer,
    bcm_ether_atoe, bcm_atoipv4 and their printers; include/bcmutils.h: the
    character classes.  A pointer into a C string is the list of the characters
    from there up to the terminating NUL, which is not in the list: reading at
    the end gives 0, moving past it has no result. *)
From Stdlib Require Import ZArith Lia.
From stdpp Require Import base option numbers list.
From S2P Require Import Prelude Bytes.

(** ** Character classes *)
Definition bcm_ctype : list Z :=
  [8; 8; 8; 8; 8; 8; 8; 8; 8; 40; 40; 40; 40; 40; 8; 8;
   8; 8; 8; 8; 8; 8; 8; 8; 8; 8; 8; 8; 8; 8; 8; 8;
   160; 16; 16; 16; 16; 16; 16; 16; 16; 16; 16; 16; 16; 16; 16; 16;
   4; 4; 4; 4; 4; 4; 4; 4; 4; 4; 16; 16; 16; 16; 16; 16;
   16; 65; 65; 65; 65; 65; 65; 1; 1; 1; 1; 1; 1; 1; 1; 1;
   1; 1; 1; 1; 1; 1; 1; 1; 1; 1; 1; 16; 16; 16; 16; 16;
   16; 66; 66; 66; 66; 66; 66; 2; 2; 2; 2; 2; 2; 2; 2; 2;
   2; 2; 2; 2; 2; 2; 2; 2; 2; 2; 2; 16; 16; 16; 16; 8;
   0; 0; 0; 0; 0; 0; 0; 0; 0; 0; 0; 0; 0; 0; 0; 0;
   0; 0; 0; 0; 0; 0; 0; 0; 0; 0; 0; 0; 0; 0; 0; 0;
   160; 16; 16; 16; 16; 16; 16; 16; 16; 16; 16; 16; 16; 16; 16; 16;
   16; 16; 16; 16; 16; 16; 16; 16; 16; 16; 16; 16; 16; 16; 16; 16;
   1; 1; 1; 1; 1; 1; 1; 1; 1; 1; 1; 1; 1; 1; 1; 1;
   1; 1; 1; 1; 1; 1; 1; 16; 1; 1; 1; 1; 1; 1; 1; 2;
   2; 2; 2; 2; 2; 2; 2; 2; 2; 2; 2; 2; 2; 2; 2; 2;
   2; 2; 2; 2; 2; 2; 2; 16; 2; 2; 2; 2; 2; 2; 2; 2].
Definition _BCM_U : Z := 0x01.
Definition _BCM_L : Z := 0x02.
Definition _BCM_D : Z := 0x04.
Definition _BCM_S : Z := 0x20.
Definition _BCM_X : Z := 0x40.

Definition bcm_ismask (c : Z) : Z := default 0 (aget bcm_ctype (u8 c)).
Definition bcm_isdigit (c : Z) : bool := negb (Z.land (bcm_ismask c) _BCM_D =? 0).
Definition bcm_isxdigit (c : Z) : bool := negb (Z.land (bcm_ismask c) (Z.lor _BCM_D _BCM_X) =? 0).
Definition bcm_isspace (c : Z) : bool := negb (Z.land (bcm_ismask c) _BCM_S =? 0).
Definition bcm_isupper (c : Z) : bool := negb (Z.land (bcm_ismask c) _BCM_U =? 0).
Definition bcm_islower (c : Z) : bool := negb (Z.land (bcm_ismask c) _BCM_L =? 0).
Definition bcm_tolower (c : Z) : Z := if bcm_isupper c then c + 97 - 65 else c.
Definition bcm_toupper (c : Z) : Z := if bcm_islower c then c + 65 - 97 else c.

(** ** Reading through a pointer *)
Definition cstr : Type := list Z.
Definition at0 (s : cstr) : Z := default 0 (head s).
Definition at1 (s : cstr) : Z := default 0 (s !! 1%nat).
Definition next (s : cstr) : option cstr := match s with [] => None | _ :: s => Some s end.

(** ** bcm_strtoul

    The value and where the number ends; no end when the conversion gives up on
    an overflow, as [*endp] is then left alone.  [ulong] has 64 bits. *)
Definition ULONG_BITS : Z := 64.
Definition digit_value (c : Z) : Z := if bcm_isdigit c then c - 48 else bcm_toupper c - 65 + 10.

Fixpoint skip_space (s : cstr) : cstr :=
  match s with
  | c :: s' => if bcm_isspace c then skip_space s' else s
  | [] => s
  end.

Fixpoint strtoul_loop (cp : cstr) (base result last_result : Z) (minus : bool) : Z * option cstr :=
  match cp with
  | c :: cp' =>
      if bcm_isxdigit c && (digit_value c <? base) then
        let result := wrapu ULONG_BITS (result * base + digit_value c) in
        if (result <? last_result) && negb minus then (2 ^ ULONG_BITS - 1, None)
        else strtoul_loop cp' base result result minus
      else (if minus then wrapu ULONG_BITS (- result) else result, Some cp)
  | [] => (if minus then wrapu ULONG_BITS (- result) else result, Some cp)
  end.

Definition bcm_strtoul (cp : cstr) (base : Z) : Z * option cstr :=
  let cp := skip_space cp in
  let '(minus, cp) :=
    if at0 cp =? 43 then (false, drop 1 cp)
    else if at0 cp =? 45 then (true, drop 1 cp)
    else (false, cp) in
  let hex := (at0 cp =? 48) && ((at1 cp =? 120) || (at1 cp =? 88)) in
  let '(base, cp) :=
    if base =? 0 then
      if at0 cp =? 48 then if hex then (16, drop 2 cp) else (8, drop 1 cp) else (10, cp)
    else if (base =? 16) && hex then (base, drop 2 cp)
    else (base, cp) in
  strtoul_loop cp base 0 0 minus.

Definition bcm_atoi (s : cstr) : Z := s32 (bcm_strtoul s 10).1.

(** ** Addresses

    [bcm_ether_atoe] and [bcm_atoipv4] store one number per turn of the loop;
    without an end of the number the pointer they go on from is not set. *)
Fixpoint ether_loop (fuel : nat) (i : Z) (p : cstr) (octet : list Z) : option (bool * list Z) :=
  match fuel with
  | O => None
  | S fuel =>
      let '(v, ep) := bcm_strtoul p 16 in
      octet ← aset octet i (u8 v);
      let i := i + 1 in
      p ← ep;
      match p with
      | [] => Some (i =? 6, octet)
      | _ :: p => if i =? 6 then Some (i =? 6, octet) else ether_loop fuel i p octet
      end
  end.
Definition bcm_ether_atoe (p : cstr) (octet : list Z) : option (bool * list Z) := ether_loop 6 0 p octet.

Definition IPV4_ADDR_LEN : Z := 4.
Fixpoint ipv4_loop (fuel : nat) (i : Z) (p : cstr) (addr : list Z) : option (bool * list Z) :=
  match fuel with
  | O => None
  | S fuel =>
      let '(v, c) := bcm_strtoul p 0 in
      addr ← aset addr i (u8 v);
      let i := i + 1 in
      c ← c;
      if negb (at0 c =? 46) || (i =? IPV4_ADDR_LEN) then Some (i =? IPV4_ADDR_LEN, addr)
      else p ← next c; ipv4_loop fuel i p addr
  end.
Definition bcm_atoipv4 (p : cstr) (addr : list Z) : option (bool * list Z) := ipv4_loop 4 0 p addr.

Definition hex_chars : list Z := [48; 49; 50; 51; 52; 53; 54; 55; 56; 57; 97; 98; 99; 100; 101; 102].
Definition hex (k : Z) : Z := default 0 (aget hex_chars k).
(** The last ':' is overwritten by the NUL. *)
Definition bcm_ether_ntoa (octet : list Z) : cstr :=
  let buf := octet ≫= (fun o => [hex (Z.land (Z.shiftr o 4) 0xf); hex (Z.land o 0xf); 58]) in
  take (length buf - 1) buf.

(** The conversions of snprintf the driver uses, on a value that is not negative. *)
Fixpoint fmt_digits (fuel : nat) (b n : Z) (acc : cstr) : cstr :=
  match fuel with
  | O => acc
  | S fuel =>
      let acc := hex (n mod b) :: acc in
      if n <? b then acc else fmt_digits fuel b (n / b) acc
  end.
Definition fmt_d (n : Z) : cstr := fmt_digits 20 10 n [].
Definition snprintf_out (size : Z) (s : cstr) : cstr := take (Z.to_nat (size - 1)) s.

Definition bcm_ip_ntoa (addr : list Z) : option cstr :=
  a0 ← aget addr 0; a1 ← aget addr 1; a2 ← aget addr 2; a3 ← aget addr 3;
  Some (snprintf_out 16 (fmt_d a0 ++ [46] ++ fmt_d a1 ++ [46] ++ fmt_d a2 ++ [46] ++ fmt_d a3)).

Example ex_strtoul : bcm_strtoul [32; 45; 49; 50; 97] 10 = (2 ^ 64 - 12, Some [97]).
Proof. reflexivity. Qed.
Example ex_ether : bcm_ether_atoe (bcm_ether_ntoa [0; 16; 24; 255; 10; 7]) [0; 0; 0; 0; 0; 0]
                     = Some (true, [0; 16; 24; 255; 10; 7]).
Proof. reflexivity. Qed.
Example ex_ip : (s ← bcm_ip_ntoa [192; 168; 0; 10]; bcm_atoipv4 s [0; 0; 0; 0]) = Some (true, [192; 168; 0; 10]).
Proof. reflexivity. Qed.

(** ** bcmstrtok

    The delimiter table of the code, a bit per character ([char] is signed, so a
    delimiter from 128 on indexes outside the table), and one call: the
    token, the delimiter that ended it (0 for none) and the string after it.
    The NUL written over the delimiter is what ends the token. *)
Definition set_delim (map : list Z) (c : Z) : option (list Z) :=
  w ← aget map (Z.shiftr c 5);
  aset map (Z.shiftr c 5) (Z.lor w (Z.shiftl 1 (Z.land c 31))).
Fixpoint delim_map (map : list Z) (delimiters : cstr) : option (list Z) :=
  match delimiters with
  | [] => set_delim map 0
  | c :: delimiters => map ← set_delim map (s8 c); delim_map map delimiters
  end.
Definition in_map (map : list Z) (c : Z) : bool :=
  negb (Z.land (default 0 (aget map (Z.shiftr c 5))) (Z.shiftl 1 (Z.land c 31)) =? 0).

Fixpoint tok_skip (map : list Z) (str : cstr) : cstr :=
  match str with
  | c :: str' => if (in_map map c && negb (c =? 0)) || (c =? 32) then tok_skip map str' else str
  | [] => []
  end.
Fixpoint tok_end (map : list Z) (str : cstr) : cstr * Z * cstr :=
  match str with
  | c :: str' => if in_map map c then ([], c, str')
                 else let '(tok, d, rest) := tok_end map str' in (c :: tok, d, rest)
  | [] => ([], 0, [])
  end.
Definition bcmstrtok (string delimiters : cstr) : option (option cstr * Z * cstr) :=
  map ← delim_map (replicate 8 0) delimiters;
  let '(tok, d, rest) := tok_end map (tok_skip map string) in
  Some (match tok with [] => None | _ => Some tok end, d, rest).

(** The loop of the callers: tokens until there is none. *)
Fixpoint strtok_all (fuel : nat) (string delimiters : cstr) : option (list cstr) :=
  match fuel with
  | O => None
  | S fuel =>
      '(tok, _, rest) ← bcmstrtok string delimiters;
      match (tok : option cstr) with
      | None => Some []
      | Some tok => toks ← strtok_all fuel rest delimiters; Some (tok :: toks)
      end
  end.

Example ex_strtok : strtok_all 9 [97; 44; 44; 32; 98; 32; 99] [44] = Some [[97]; [98; 32; 99]].
Proof. reflexivity. Qed.

(** ** Numbers *)
Lemma forall_below (P : Z -> bool) n :
  forallb P (map Z.of_nat (seq 0 (Z.to_nat n))) = true -> forall k, 0 <= k < n -> P k = true.
Proof.
  intros H k Hk. rewrite forallb_forall in H. apply H, in_map_iff. exists (Z.to_nat k).
  split; [lia|]. apply in_seq. lia.
Qed.

Lemma hex_digit k : 0 <= k < 16 -> bcm_isxdigit (hex k) = true /\ digit_value (hex k) = k.
Proof.
  intros Hk.
  pose proof (forall_below (fun k => bcm_isxdigit (hex k) && (digit_value (hex k) =? k)) 16 eq_refl k Hk) as H.
  apply andb_true_iff in H as [? ?%Z.eqb_eq]. done.
Qed.
Lemma hex_plain k : 0 <= k < 16 ->
  bcm_isspace (hex k) = false /\ hex k <> 43 /\ hex k <> 45 /\ hex k <> 120 /\ hex k <> 88 /\ (hex k = 48 -> k = 0).
Proof.
  intros Hk.
  pose proof (forall_below (fun k => negb (bcm_isspace (hex k)) && negb (hex k =? 43) && negb (hex k =? 45) &&
    negb (hex k =? 120) && negb (hex k =? 88) && (negb (hex k =? 48) || (k =? 0))) 16 eq_refl k Hk) as H.
  cbn beta in H. rewrite !andb_true_iff, !negb_true_iff, orb_true_iff, negb_true_iff, !Z.eqb_neq, Z.eqb_eq in H. intuition.
Qed.

Lemma digit_value_nonneg c : bcm_isxdigit c = true -> 0 <= c < 256 -> 0 <= digit_value c.
Proof.
  intros Hx Hc.
  pose proof (forall_below (fun c => negb (bcm_isxdigit c) || (0 <=? digit_value c)) 256 eq_refl c Hc) as H.
  cbn beta in H. rewrite Hx in H. by apply Z.leb_le.
Qed.

Definition digits_val (b : Z) (ds : list Z) (acc : Z) : Z := foldl (fun v d => v * b + d) acc ds.

Lemma digits_val_le b ds acc : 1 <= b -> 0 <= acc -> Forall (fun d => 0 <= d) ds -> acc <= digits_val b ds acc.
Proof.
  intros Hb Ha H. revert acc Ha. induction H as [|d ds Hd _ IH]; intros acc Ha; cbn; [lia|].
  specialize (IH (acc * b + d)). unfold digits_val in IH. nia.
Qed.

Lemma strtoul_digits b ds rest r :
  2 <= b <= 16 -> Forall (fun d => 0 <= d < b) ds -> bcm_isxdigit (at0 rest) = false -> 0 <= r ->
  digits_val b ds r < 2 ^ ULONG_BITS -> strtoul_loop (map hex ds ++ rest) b r r false = (digits_val b ds r, Some rest).
Proof.
  intros Hb Hds Hr. revert r. induction Hds as [|d ds Hd Hds IH]; intros r Hr0 Hv; cbn [map app strtoul_loop].
  - destruct rest as [|c rest]; cbn [strtoul_loop]; [done|]. cbn in Hr. by rewrite Hr.
  - destruct (hex_digit d ltac:(lia)) as [-> ->]. rewrite (proj2 (Z.ltb_lt d b)) by lia. cbn [andb].
    cbn [digits_val foldl] in *.
    assert (r * b + d <= digits_val b ds (r * b + d)) as Hle.
    { apply digits_val_le; [lia|nia|]. eapply Forall_impl; [exact Hds|]. cbn. lia. }
    unfold digits_val in Hle at 1. rewrite (wrapu_small ULONG_BITS) by (unfold ULONG_BITS in *; nia).
    rewrite (proj2 (Z.ltb_ge _ _)) by nia. cbn [andb]. apply IH; [nia|done].
Qed.

Lemma fmt_digits_spec b fuel n acc :
  2 <= b <= 16 -> 0 <= n < b ^ Z.of_nat fuel -> (0 < fuel)%nat ->
  exists d ds, fmt_digits fuel b n acc = map hex (d :: ds) ++ acc /\ Forall (fun d => 0 <= d < b) (d :: ds) /\
    digits_val b (d :: ds) 0 = n /\ (d = 0 -> n = 0 /\ ds = []).
Proof.
  intros Hb. revert n acc. induction fuel as [|fuel IH]; intros n acc Hn Hf; [lia|]. cbn [fmt_digits].
  pose proof (Z.mod_pos_bound n b ltac:(lia)) as Hm. destruct (Z.ltb_spec n b) as [Hlt|Hge].
  - exists n, []. rewrite Z.mod_small by lia. cbn. split_and!; try done. repeat constructor; lia.
  - rewrite Nat2Z.inj_succ, Z.pow_succ_r in Hn by lia.
    assert (0 <= n / b < b ^ Z.of_nat fuel) as Hq.
    { split; [apply Z.div_pos; lia|]. apply Z.div_lt_upper_bound; lia. }
    assert (0 < n / b) by (apply Z.div_str_pos; lia).
    assert (0 < fuel)%nat as Hf'.
    { destruct fuel; [|lia]. cbn in Hq. lia. }
    destruct (IH (n / b) (hex (n mod b) :: acc) Hq Hf') as (d & ds & E & Hds & Hv & Hz).
    exists d, (ds ++ [n mod b]). rewrite E. split_and!.
    + cbn [map app]. by rewrite map_app, <- app_assoc.
    + change (d :: ds ++ [n mod b]) with ((d :: ds) ++ [n mod b]). apply Forall_app. split; [done|by apply Forall_singleton].
    + unfold digits_val in *. change (d :: ds ++ [n mod b]) with ((d :: ds) ++ [n mod b]). rewrite foldl_app, Hv. cbn.
      pose proof (Z.div_mod n b ltac:(lia)). lia.
    + lia.
Qed.

Lemma skip_plain c s : bcm_isspace c = false -> skip_space (c :: s) = c :: s.
Proof. intros H. cbn. by rewrite H. Qed.

Lemma length_fmt_octet n : 0 <= n < 256 -> (length (fmt_d n) <= 3)%nat.
Proof. intros Hn. apply Nat.leb_le. exact (forall_below (fun n => (length (fmt_d n) <=? 3)%nat) 256 eq_refl n Hn). Qed.

(** Reading back what snprintf wrote. *)
Lemma strtoul_fmt_d n rest base :
  base = 10 \/ base = 0 -> 0 <= n < 10 ^ 19 -> bcm_isxdigit (at0 rest) = false -> at0 rest <> 120 -> at0 rest <> 88 ->
  bcm_strtoul (fmt_d n ++ rest) base = (n, Some rest).
Proof.
  intros Hb Hn Hr Hx HX. unfold fmt_d.
  destruct (fmt_digits_spec 10 20 n [] ltac:(lia)) as (d & ds & -> & Hds & Hv & Hz); [|lia|].
  { split; [lia|]. change (Z.of_nat 20) with 20. lia. }
  rewrite app_nil_r. pose proof (Forall_inv Hds) as Hd. cbn beta in Hd.
  destruct (hex_plain d ltac:(lia)) as (H1 & H2 & H3 & _ & _ & H6).
  unfold bcm_strtoul. cbn [map app]. rewrite skip_plain by done. cbn [at0 head default].
  change (default 0 (Some (hex d))) with (hex d).
  rewrite (proj2 (Z.eqb_neq _ 43)), (proj2 (Z.eqb_neq _ 45)) by done.
  assert (digits_val 10 (d :: ds) 0 < 2 ^ ULONG_BITS) as Hlt by (rewrite Hv; unfold ULONG_BITS; lia).
  destruct Hb as [-> | ->].
  - cbn [Z.eqb Pos.eqb andb]. change (hex d :: map hex ds ++ rest) with (map hex (d :: ds) ++ rest).
    rewrite strtoul_digits by (done || lia). by rewrite Hv.
  - cbn [Z.eqb]. destruct (Z.eqb_spec (hex d) 48) as [E|E].
    + destruct (Hz (H6 E)) as [-> ->]. cbn [map app].
      assert (at1 (hex d :: rest) = at0 rest) as -> by (by destruct rest).
      rewrite !(proj2 (Z.eqb_neq (at0 rest) _)) by done. cbn [at0 head default orb]. rewrite andb_false_r.
      change (default 0 (Some (hex d))) with (hex d). rewrite E. cbn [id Z.eqb Pos.eqb drop]. rewrite ?drop_0.
      destruct rest as [|c rest]; cbn [strtoul_loop]; [done|]. cbn in Hr. by rewrite Hr.
    + change (at0 (hex d :: map hex ds ++ rest)) with (hex d). rewrite (proj2 (Z.eqb_neq _ 48)) by done.
      change (hex d :: map hex ds ++ rest) with (map hex (d :: ds) ++ rest).
      rewrite strtoul_digits by (done || lia). by rewrite Hv.
Qed.

Lemma strtoul_hex2 o rest :
  0 <= o < 256 -> bcm_isxdigit (at0 rest) = false ->
  bcm_strtoul (hex (Z.land (Z.shiftr o 4) 0xf) :: hex (Z.land o 0xf) :: rest) 16 = (o, Some rest).
Proof.
  intros Ho Hr. assert (0 <= Z.shiftr o 4 < 16 /\ 0 <= Z.land o 0xf < 16 /\ o = Z.shiftr o 4 * 16 + Z.land o 0xf) as (H1 & H2 & H3).
  { change 0xf with (Z.ones 4). rewrite Z.land_ones, Z.shiftr_div_pow2 by lia. change (2 ^ 4) with 16.
    pose proof (Z.div_mod o 16 ltac:(lia)). pose proof (Z.mod_pos_bound o 16 ltac:(lia)).
    split; [split; [apply Z.div_pos; lia|apply Z.div_lt_upper_bound; lia]|]. lia. }
  change 0xf with (Z.ones 4) at 1. rewrite Z.land_ones, (Z.mod_small (Z.shiftr o 4)) by lia.
  set (h := Z.shiftr o 4) in *. set (l := Z.land o 0xf) in *.
  destruct (hex_plain h H1) as (A1 & A2 & A3 & _). destruct (hex_plain l H2) as (_ & _ & _ & B4 & B5 & _).
  unfold bcm_strtoul. rewrite skip_plain by done. cbn [at0 at1 head lookup list_lookup default id].
  rewrite (proj2 (Z.eqb_neq (hex h) 43)), (proj2 (Z.eqb_neq (hex h) 45)) by done. cbn [Z.eqb].
  change (at1 (hex h :: hex l :: rest)) with (hex l).
  rewrite (proj2 (Z.eqb_neq (hex l) 120)), (proj2 (Z.eqb_neq (hex l) 88)) by done. cbn [orb]. rewrite !andb_false_r.
  change (hex h :: hex l :: rest) with (map hex [h; l] ++ rest). rewrite strtoul_digits.
  - unfold digits_val. cbn. f_equal. lia.
  - lia.
  - by repeat constructor; lia.
  - done.
  - lia.
  - unfold digits_val, ULONG_BITS. cbn. lia.
Qed.

(** ** Tokens *)
Lemma set_delim_spec map c :
  length map = 8%nat -> 0 <= c < 256 ->
  exists map', set_delim map c = Some map' /\ length map' = 8%nat /\
    forall d, 0 <= d < 256 -> in_map map' d = in_map map d || (d =? c).
Proof.
  intros Hl Hc. assert (forall d, 0 <= d < 256 -> 0 <= Z.shiftr d 5 < 8) as Hs.
  { intros d Hd. rewrite Z.shiftr_div_pow2 by lia. change (2 ^ 5) with 32.
    split; [apply Z.div_pos; lia|apply Z.div_lt_upper_bound; lia]. }
  unfold set_delim. destruct (aget_is_Some map (Z.shiftr c 5)) as [w Ew]; [specialize (Hs c Hc); lia|].
  rewrite Ew. cbn [mbind option_bind]. rewrite aset_Some by (specialize (Hs c Hc); lia).
  eexists. split; [done|]. split; [by rewrite length_insert|]. intros d Hd. unfold in_map.
  assert (forall x j, 0 <= j -> negb (Z.land x (Z.shiftl 1 j) =? 0) = Z.testbit x j) as Hbit.
  { intros x j Hj. rewrite Z.shiftl_1_l. destruct (Z.testbit x j) eqn:E.
    - apply negb_true_iff, Z.eqb_neq. intros H0. apply (f_equal (fun z => Z.testbit z j)) in H0.
      rewrite Z.land_spec, E, Z.pow2_bits_true, Z.bits_0 in H0 by lia. done.
    - apply negb_false_iff, Z.eqb_eq, Z.bits_inj'. intros i Hi. rewrite Z.land_spec, Z.bits_0.
      destruct (Z.eq_dec i j) as [->|]; [by rewrite E|]. rewrite Z.pow2_bits_false by lia. apply andb_false_r. }
  assert (forall d, 0 <= Z.land d 31) as Hland by (intros; apply Z.land_nonneg; lia).
  rewrite !Hbit by done. rewrite aget_insert by (specialize (Hs c Hc); lia).
  assert (forall d, 0 <= d < 256 -> d = Z.shiftr d 5 * 32 + Z.land d 31) as Hsplit.
  { intros x Hx. rewrite Z.shiftr_div_pow2 by lia. change 31 with (Z.ones 5). rewrite Z.land_ones by lia.
    change (2 ^ 5) with 32. pose proof (Z.div_mod x 32 ltac:(lia)). lia. }
  pose proof (Hsplit c Hc) as Ec. pose proof (Hsplit d Hd) as Ed.
  destruct (decide (Z.shiftr c 5 = Z.shiftr d 5)) as [E|E].
  - cbn [default id]. rewrite <- E, Ew. cbn [default id]. rewrite Z.shiftl_1_l, Z.lor_spec. f_equal.
    destruct (Z.eqb_spec d c) as [->|Hne]; [by rewrite Z.pow2_bits_true|].
    apply Z.pow2_bits_false. intros E2. apply Hne. lia.
  - rewrite (proj2 (Z.eqb_neq d c)) by (intros ->; done). by rewrite orb_false_r.
Qed.

Lemma in_map_bytes_zero d : in_map (replicate 8 0) d = false.
Proof.
  unfold in_map. assert (default 0 (aget (replicate 8 0) (Z.shiftr d 5)) = 0) as ->; [|done].
  destruct (aget (replicate 8 0) (Z.shiftr d 5)) as [x|] eqn:E; [|done]. cbn. unfold aget in E.
  destruct (0 <=? _); [|done]. by apply lookup_replicate in E as [-> _].
Qed.

Lemma delim_map_spec map ds :
  length map = 8%nat -> Forall (fun c => 0 <= c < 128) ds ->
  exists map', delim_map map ds = Some map' /\ length map' = 8%nat /\
    forall d, 0 <= d < 256 -> in_map map' d = in_map map d || existsb (Z.eqb d) ds || (d =? 0).
Proof.
  intros Hl Hds. revert map Hl. induction Hds as [|c ds Hc _ IH]; intros map Hl; cbn [delim_map existsb].
  - destruct (set_delim_spec map 0 Hl) as (map' & -> & Hl' & Hm); [lia|]. exists map'. split_and!; try done.
    intros d Hd. rewrite Hm, orb_false_r by done. done.
  - rewrite (wraps_small 8) by zlia. destruct (set_delim_spec map c Hl) as (m1 & -> & Hl1 & Hm1); [lia|]. cbn [mbind option_bind].
    destruct (IH m1 Hl1) as (m2 & -> & Hl2 & Hm2). exists m2. split_and!; try done.
    intros d Hd. rewrite Hm2, Hm1 by done. by rewrite <- !orb_assoc.
Qed.

(** The reference: split at every delimiter, drop the blanks in front of each
    field and the fields that are then empty. *)
Definition is_delim (ds : cstr) (c : Z) : bool := existsb (Z.eqb c) ds.
Fixpoint split_at (P : Z -> bool) (s : cstr) : list cstr :=
  match s with
  | [] => [[]]
  | c :: s => match split_at P s with
              | f :: fs => if P c then [] :: f :: fs else (c :: f) :: fs
              | [] => [[c]]
              end
  end.
Fixpoint ltrim (s : cstr) : cstr := match s with c :: s' => if c =? 32 then ltrim s' else s | [] => [] end.
Definition not_nil (s : cstr) : bool := match s with [] => false | _ => true end.
Definition tokens (ds s : cstr) : list cstr := List.filter not_nil (map ltrim (split_at (is_delim ds) s)).

Lemma split_at_cons P s : exists f fs, split_at P s = f :: fs.
Proof. induction s as [|c s (f & fs & E)]; cbn; [by eexists _, _|]. rewrite E. destruct (P c); by eexists _, _. Qed.

Section strtok.
Context (ds : cstr) (m : list Z).
Hypothesis Hm : forall c, 0 < c < 256 -> in_map m c = is_delim ds c.
Implicit Types (s : cstr).

Lemma tok_skip_tokens s :
  Forall (fun c => 0 < c < 256) s ->
  tokens ds (tok_skip m s) = tokens ds s /\ (length (tok_skip m s) <= length s)%nat /\
  Forall (fun c => 0 < c < 256) (tok_skip m s) /\
  match tok_skip m s with [] => True | c :: _ => is_delim ds c = false /\ c <> 32 end.
Proof.
  induction 1 as [|c s Hc Hs IH]; [done|]. cbn [tok_skip length]. rewrite Hm by done.
  rewrite (proj2 (Z.eqb_neq c 0)) by lia. rewrite andb_true_r.
  destruct IH as (IH1 & IH2 & IH3 & IH4). unfold tokens in *. cbn [split_at].
  destruct (split_at_cons (is_delim ds) s) as (f & fs & E).
  destruct (is_delim ds c) eqn:Ed; cbn [orb].
  - rewrite E in IH1 |- *. split_and!; try done. lia.
  - destruct (Z.eqb_spec c 32) as [->|Hne]; cbn [orb].
    + rewrite E in IH1 |- *. split_and!; try done. lia.
    + split_and!; [cbn [split_at]; by rewrite Ed|done|by constructor|done|done].
Qed.

Lemma tok_end_split s :
  Forall (fun c => 0 < c < 256) s ->
  let '(tok, d, rest) := tok_end m s in
  (length tok + length rest <= length s)%nat /\ Forall (fun c => 0 < c < 256) rest /\
  ((rest = [] /\ split_at (is_delim ds) s = [tok]) \/ split_at (is_delim ds) s = tok :: split_at (is_delim ds) rest).
Proof.
  induction 1 as [|c s Hc Hs IH]; cbn [tok_end]; [split_and!; [done|done|by left]|]. rewrite Hm by done. cbn [split_at].
  destruct (split_at_cons (is_delim ds) s) as (f & fs & E). destruct (is_delim ds c) eqn:Ed.
  - split_and!; [cbn; lia|done|right; by rewrite E].
  - destruct (tok_end m s) as [[tok d] rest]. destruct IH as (IH1 & IH2 & IH3). split_and!; [cbn; lia|done|].
    rewrite E in IH3 |- *. destruct IH3 as [[-> [= -> ->]]|[= -> ->]]; [by left|by right].
Qed.
End strtok.

Lemma strtok_all_tokens fuel s ds m :
  (forall c, 0 < c < 256 -> in_map m c = is_delim ds c) -> delim_map (replicate 8 0) ds = Some m ->
  Forall (fun c => 0 < c < 256) s -> (length s < fuel)%nat -> strtok_all fuel s ds = Some (tokens ds s).
Proof.
  intros Hm Ed. revert s. induction fuel as [|fuel IH]; intros s Hs Hf; [lia|]. cbn [strtok_all].
  unfold bcmstrtok. rewrite Ed. cbn [mbind option_bind].
  destruct (tok_skip_tokens ds m Hm s Hs) as (E1 & Hl1 & Hs1 & Hh). rewrite <- E1.
  pose proof (tok_end_split ds m Hm _ Hs1) as Hend.
  destruct (tok_skip m s) as [|c s1] eqn:Es.
  { cbn. done. }
  destruct Hh as [Hc1 Hc2]. cbn [tok_end] in Hend |- *. rewrite Hm, Hc1 in * by (by apply Forall_inv in Hs1).
  destruct (tok_end m s1) as [[tok d] rest]. cbn [mbind option_bind].
  destruct Hend as (Hl2 & Hs2 & Hcase). unfold tokens at 1.
  destruct Hcase as [[-> E2]|E2]; rewrite E2; cbn [map List.filter ltrim]; rewrite (proj2 (Z.eqb_neq c 32)) by done;
    cbn [List.filter not_nil].
  - rewrite IH by (done || (cbn in *; lia)). done.
  - rewrite IH by (done || (cbn [length] in *; lia)). done.
Qed.

(** ** Properties *)

(** C34: Addresses survive printing and parsing.  bcm_ether_atoe reads back the
    six octets bcm_ether_ntoa wrote and bcm_atoipv4 the four that bcm_ip_ntoa
    wrote, whatever the destination held before, and both report success. *)
Theorem addr_roundtrip o0 o1 o2 o3 o4 o5 a0 a1 a2 a3 octet addr :
  Forall (fun b => 0 <= b < 256) [o0; o1; o2; o3; o4; o5; a0; a1; a2; a3] ->
  length octet = 6%nat -> length addr = 4%nat ->
  bcm_ether_atoe (bcm_ether_ntoa [o0; o1; o2; o3; o4; o5]) octet = Some (true, [o0; o1; o2; o3; o4; o5]) /\
  (s ← bcm_ip_ntoa [a0; a1; a2; a3]; bcm_atoipv4 s addr) = Some (true, [a0; a1; a2; a3]).
Proof.
  intros Hb Ho Ha. rewrite !Forall_cons in Hb. destruct Hb as (?&?&?&?&?&?&?&?&?&?&_).
  do 6 (destruct octet as [|? octet]; [done|]). destruct octet; [|done].
  do 4 (destruct addr as [|? addr]; [done|]). destruct addr; [|done]. split.
  - unfold bcm_ether_atoe, bcm_ether_ntoa.
    cbn [mbind list_bind app length Nat.sub take ether_loop]. do 6 (rewrite strtoul_hex2 by (done || lia); rewrite wrapu_small by zlia;
      cbn [aset length Z.of_nat Z.leb Z.ltb andb Z.add Z.eqb mbind option_bind Z.compare Z.to_nat insert list_insert]).
    done.
  - change (bcm_ip_ntoa [a0; a1; a2; a3]) with
      (Some (snprintf_out 16 (fmt_d a0 ++ [46] ++ fmt_d a1 ++ [46] ++ fmt_d a2 ++ [46] ++ fmt_d a3))).
    cbn [mbind option_bind].
    unfold snprintf_out. rewrite take_ge.
    2: { rewrite !length_app. cbn [length]. pose proof (length_fmt_octet a0). pose proof (length_fmt_octet a1).
         pose proof (length_fmt_octet a2). pose proof (length_fmt_octet a3). change (Z.to_nat (16 - 1)) with 15%nat. lia. }
    unfold bcm_atoipv4. cbn [ipv4_loop]. rewrite <- (app_nil_r (fmt_d a3)).
    do 4 (rewrite strtoul_fmt_d by (done || lia || auto); rewrite wrapu_small by zlia;
      cbn [aset length Z.of_nat Z.leb Z.ltb andb Z.add Z.eqb mbind option_bind Z.compare Z.to_nat insert list_insert
           at0 head default id next app negb orb IPV4_ADDR_LEN ipv4_loop]).
    done.
Qed.

(** Bcmstrtok finds the fields.  Called until it returns NULL on a string
    of characters other than NUL, it returns exactly the fields between the
    delimiters, in order, without their leading blanks and without the empty
    ones; it needs at most one call more than the string has characters. *)
Theorem strtok_tokens s ds :
  Forall (fun c => 0 < c < 256) s -> Forall (fun c => 0 <= c < 128) ds ->
  strtok_all (S (length s)) s ds = Some (tokens ds s).
Proof.
  intros Hs Hds.
  destruct (delim_map_spec (replicate 8 0) ds eq_refl Hds) as (m & Em & _ & Hm).
  apply (strtok_all_tokens _ s ds m); [|done|done|lia].
  intros c Hc. rewrite Hm, in_map_bytes_zero, (proj2 (Z.eqb_neq c 0)) by lia. apply orb_false_r.
Qed.

(** An overflow leaves the end pointer unset.  bcm_strtoul reports an
    overflow of a number without a sign by returning ULONG_MAX and not writing
    [*endp], so bcm_ether_atoe and bcm_atoipv4 go on from a pointer that was
    never set. *)
Theorem strtoul_overflow_endp :
  let s := 49 :: repeat 48 20 in
  bcm_strtoul s 10 = (2 ^ ULONG_BITS - 1, None) /\ bcm_atoipv4 s [0; 0; 0; 0] = None /\
  bcm_ether_atoe s [0; 0; 0; 0; 0; 0] = None.
Proof. cbv zeta. split_and!; reflexivity. Qed.

Lemma addr_roundtrip_witness :
  bcm_ether_atoe (bcm_ether_ntoa [2; 0; 94; 16; 255; 7]) [0; 0; 0; 0; 0; 0] = Some (true, [2; 0; 94; 16; 255; 7]) /\
  (s ← bcm_ip_ntoa [10; 0; 200; 1]; bcm_atoipv4 s [9; 9; 9; 9]) = Some (true, [10; 0; 200; 1]).
Proof. apply addr_roundtrip; [|reflexivity|reflexivity]. repeat constructor; discriminate. Defined.

Lemma strtok_tokens_witness :
  strtok_all 8 [97; 44; 32; 98; 44; 44; 99] [44] = Some [[97]; [98]; [99]].
Proof. exact (strtok_tokens [97; 44; 32; 98; 44; 44; 99] [44] ltac:(repeat constructor) ltac:(repeat constructor; discriminate)). Defined.
