(* ===== verification/Chanspec.v ===== *)
(** * Channel specifications

    shared/bcmwifi: a chanspec_t packs channel, sideband, bandwidth and band in
    16 bits.  bcmwifi_channels.c prints and parses it, decides whether it is
    well formed and whether it is an 802.11 channel, derives the primary
    channels and converts channels to frequencies.  Built for the driver:
    BCMDRIVER, without WL11ULB, WL11AC_80P80, WL11N_20MHZONLY and
    CHANSPEC_NEW_40MHZ_FORMAT. *)
From Stdlib Require Import ZArith Lia.
From stdpp Require Import base option numbers list.
From S2P Require Import Prelude CStr.

(** ** The fields *)
Definition CH_80MHZ_APART : Z := 16.
Definition CH_40MHZ_APART : Z := 8.
Definition CH_20MHZ_APART : Z := 4.
Definition CH_10MHZ_APART : Z := 2.
Definition CH_MAX_2G_CHANNEL : Z := 14.
Definition MAXCHANNEL : Z := 224.
Definition WL_CHANSPEC_CHAN_MASK : Z := 0x00ff.
Definition WL_CHANSPEC_CHAN1_MASK : Z := 0x000f.
Definition WL_CHANSPEC_CHAN1_SHIFT : Z := 0.
Definition WL_CHANSPEC_CHAN2_MASK : Z := 0x00f0.
Definition WL_CHANSPEC_CHAN2_SHIFT : Z := 4.
Definition WL_CHANSPEC_CTL_SB_MASK : Z := 0x0700.
Definition WL_CHANSPEC_CTL_SB_SHIFT : Z := 8.
Definition WL_CHANSPEC_CTL_SB_LLL : Z := 0x0000.
Definition WL_CHANSPEC_CTL_SB_LLU : Z := 0x0100.
Definition WL_CHANSPEC_CTL_SB_UL : Z := 0x0200.
Definition WL_CHANSPEC_CTL_SB_LUU : Z := 0x0300.
Definition WL_CHANSPEC_CTL_SB_ULL : Z := 0x0400.
Definition WL_CHANSPEC_BW_MASK : Z := 0x3800.
Definition WL_CHANSPEC_BW_SHIFT : Z := 11.
Definition WL_CHANSPEC_BW_5 : Z := 0x0000.
Definition WL_CHANSPEC_BW_10 : Z := 0x0800.
Definition WL_CHANSPEC_BW_20 : Z := 0x1000.
Definition WL_CHANSPEC_BW_40 : Z := 0x1800.
Definition WL_CHANSPEC_BW_80 : Z := 0x2000.
Definition WL_CHANSPEC_BW_160 : Z := 0x2800.
Definition WL_CHANSPEC_BW_8080 : Z := 0x3000.
Definition WL_CHANSPEC_BW_2P5 : Z := 0x3800.
Definition WL_CHANSPEC_BAND_MASK : Z := 0xc000.
Definition WL_CHANSPEC_BAND_2G : Z := 0x0000.
Definition WL_CHANSPEC_BAND_5G : Z := 0xc000.
Definition INVCHANSPEC : Z := 255.
Definition CHANSPEC_STR_LEN : Z := 20.

Definition LOWER_20_SB (channel : Z) : Z := if CH_10MHZ_APART <? channel then channel - CH_10MHZ_APART else 0.
Definition UPPER_20_SB (channel : Z) : Z := if channel <? MAXCHANNEL - CH_10MHZ_APART then channel + CH_10MHZ_APART else 0.
Definition CHSPEC_CHANNEL (c : Z) : Z := u8 (Z.land c WL_CHANSPEC_CHAN_MASK).
Definition CHSPEC_CHAN1 (c : Z) : Z := Z.shiftr (Z.land c WL_CHANSPEC_CHAN1_MASK) WL_CHANSPEC_CHAN1_SHIFT.
Definition CHSPEC_CHAN2 (c : Z) : Z := Z.shiftr (Z.land c WL_CHANSPEC_CHAN2_MASK) WL_CHANSPEC_CHAN2_SHIFT.
Definition CHSPEC_BAND (c : Z) : Z := Z.land c WL_CHANSPEC_BAND_MASK.
Definition CHSPEC_CTL_SB (c : Z) : Z := Z.land c WL_CHANSPEC_CTL_SB_MASK.
Definition CHSPEC_BW (c : Z) : Z := Z.land c WL_CHANSPEC_BW_MASK.
Definition CHSPEC_IS20 (c : Z) : bool := CHSPEC_BW c =? WL_CHANSPEC_BW_20.
Definition CHSPEC_IS40 (c : Z) : bool := CHSPEC_BW c =? WL_CHANSPEC_BW_40.
Definition CHSPEC_IS80 (c : Z) : bool := CHSPEC_BW c =? WL_CHANSPEC_BW_80.
Definition CHSPEC_IS160 (c : Z) : bool := CHSPEC_BW c =? WL_CHANSPEC_BW_160.
Definition CHSPEC_IS8080 (c : Z) : bool := CHSPEC_BW c =? WL_CHANSPEC_BW_8080.
Definition BW_LE20 (bw : Z) : bool := bw =? WL_CHANSPEC_BW_20.
Definition BW_LE40 (bw : Z) : bool := BW_LE20 bw || (bw =? WL_CHANSPEC_BW_40).
Definition BW_LE80 (bw : Z) : bool := BW_LE40 bw || (bw =? WL_CHANSPEC_BW_80).
Definition BW_LE160 (bw : Z) : bool := BW_LE80 bw || (bw =? WL_CHANSPEC_BW_160).
Definition CHSPEC_IS5G (c : Z) : bool := CHSPEC_BAND c =? WL_CHANSPEC_BAND_5G.
Definition CHSPEC_IS2G (c : Z) : bool := CHSPEC_BAND c =? WL_CHANSPEC_BAND_2G.
Definition CHSPEC_SB_UPPER (c : Z) : bool := (CHSPEC_CTL_SB c =? WL_CHANSPEC_CTL_SB_LLU) && CHSPEC_IS40 c.
Definition CH80MHZ_CHSPEC (channel ctlsb : Z) : Z :=
  u16 (Z.lor (Z.lor channel ctlsb) (Z.lor WL_CHANSPEC_BW_80 WL_CHANSPEC_BAND_5G)).

(** ** Tables and helpers *)
Definition wf_chspec_bw_str : list cstr :=
  [[53]; [49; 48]; [50; 48]; [52; 48]; [56; 48]; [49; 54; 48]; [56; 48; 43; 56; 48]; [110; 97]].
Definition wf_chspec_bw_mhz : list Z := [5; 10; 20; 40; 80; 160; 160].
Definition WF_NUM_BW : Z := 7.
Definition wf_5g_40m_chans : list Z := [38; 46; 54; 62; 102; 110; 118; 126; 134; 142; 151; 159].
Definition wf_5g_80m_chans : list Z := [42; 58; 106; 122; 138; 155].
Definition WF_NUM_5G_80M_CHANS : Z := 6.
Definition wf_5g_160m_chans : list Z := [50; 114].

Definition bw_chspec_to_mhz (c : Z) : option Z :=
  let bw := Z.shiftr (Z.land c WL_CHANSPEC_BW_MASK) WL_CHANSPEC_BW_SHIFT in
  if WF_NUM_BW <=? bw then Some 0 else aget wf_chspec_bw_mhz bw.
Definition center_chan_to_edge (bw : Z) : Z := u8 (u32 (bw - 20) / 2 / 5).
Definition channel_low_edge (center_ch bw : Z) : Z := u8 (u32 (center_ch - center_chan_to_edge bw)).
Definition channel_to_sb (center_ch ctl_ch bw : Z) : Z :=
  let lowest := channel_low_edge center_ch bw in
  if negb (u32 (ctl_ch - lowest) mod 4 =? 0) then -1 else
  let sb := u32 (ctl_ch - lowest) / 4 in
  if bw / 20 <=? sb then -1 else sb.
Definition channel_to_ctl_chan (center_ch bw sb : Z) : Z := u8 (channel_low_edge center_ch bw + sb * 4).
Fixpoint index_of (ch i : Z) (l : list Z) : Z :=
  match l with [] => -1 | x :: l => if ch =? x then i else index_of ch (i + 1) l end.
Definition channel_80mhz_to_id (ch : Z) : Z := index_of ch 0 wf_5g_80m_chans.

Definition wf_chspec_malformed (chanspec : Z) : bool :=
  let chspec_bw := CHSPEC_BW chanspec in
  let chspec_ch := CHSPEC_CHANNEL chanspec in
  let bad :=
    if CHSPEC_IS2G chanspec then negb (BW_LE40 chspec_bw)
    else if CHSPEC_IS5G chanspec then
      if chspec_bw =? WL_CHANSPEC_BW_8080 then
        (WF_NUM_5G_80M_CHANS <=? CHSPEC_CHAN1 chanspec) || (WF_NUM_5G_80M_CHANS <=? CHSPEC_CHAN2 chanspec)
      else if BW_LE160 chspec_bw then MAXCHANNEL <? chspec_ch
      else true
    else true in
  if bad then true else
  if BW_LE20 chspec_bw then negb (CHSPEC_CTL_SB chanspec =? WL_CHANSPEC_CTL_SB_LLL)
  else if chspec_bw =? WL_CHANSPEC_BW_40 then WL_CHANSPEC_CTL_SB_LLU <? CHSPEC_CTL_SB chanspec
  else if (chspec_bw =? WL_CHANSPEC_BW_80) || (chspec_bw =? WL_CHANSPEC_BW_8080)
  then WL_CHANSPEC_CTL_SB_LUU <? CHSPEC_CTL_SB chanspec
  else false.

Definition wf_chspec_ctlchan (c : Z) : option Z :=
  if BW_LE20 (CHSPEC_BW c) then Some (CHSPEC_CHANNEL c) else
  let sb := Z.shiftr (CHSPEC_CTL_SB c) WL_CHANSPEC_CTL_SB_SHIFT in
  if CHSPEC_IS8080 c then
    center_chan ← aget wf_5g_80m_chans (CHSPEC_CHAN1 c);
    Some (channel_to_ctl_chan center_chan 80 sb)
  else
    bw_mhz ← bw_chspec_to_mhz c;
    Some (channel_to_ctl_chan (CHSPEC_CHANNEL c) bw_mhz sb).

(** ** Printing

    The outer [option] is an access outside a table, the inner one NULL. *)
Definition slash : cstr := [47].
Definition wf_chspec_ntoa (c : Z) : option (option cstr) :=
  if wf_chspec_malformed c then Some None else
  let band :=
    if (CHSPEC_IS2G c && (CH_MAX_2G_CHANNEL <? CHSPEC_CHANNEL c)) ||
       (CHSPEC_IS5G c && (CHSPEC_CHANNEL c <=? CH_MAX_2G_CHANNEL))
    then if CHSPEC_IS2G c then [50; 103] else [53; 103] else [] in
  ctl_chan ← wf_chspec_ctlchan c;
  if CHSPEC_IS20 c then Some (Some (snprintf_out CHANSPEC_STR_LEN (band ++ fmt_d ctl_chan)))
  else if negb (CHSPEC_IS8080 c) then
    bw ← wf_chspec_bw_str !! Z.to_nat (Z.shiftr (Z.land c WL_CHANSPEC_BW_MASK) WL_CHANSPEC_BW_SHIFT);
    if CHSPEC_IS40 c then
      Some (Some (snprintf_out CHANSPEC_STR_LEN (band ++ fmt_d ctl_chan ++ if CHSPEC_SB_UPPER c then [117] else [108])))
    else Some (Some (snprintf_out CHANSPEC_STR_LEN (band ++ fmt_d ctl_chan ++ slash ++ bw)))
  else
    chan1 ← (if CHSPEC_CHAN1 c <? WF_NUM_5G_80M_CHANS then aget wf_5g_80m_chans (CHSPEC_CHAN1 c) else Some 0);
    chan2 ← (if CHSPEC_CHAN2 c <? WF_NUM_5G_80M_CHANS then aget wf_5g_80m_chans (CHSPEC_CHAN2 c) else Some 0);
    Some (Some (snprintf_out CHANSPEC_STR_LEN
      (fmt_d ctl_chan ++ [47; 56; 48; 43; 56; 48; 47] ++ fmt_d chan1 ++ [45] ++ fmt_d chan2))).

(** ** Parsing *)

(** No number there, or the number and the pointer after it, which is NULL when
    bcm_strtoul left the [endp] of the code alone. *)
Definition read_uint (p : cstr) : option (Z * option cstr) :=
  let '(val, endp) := bcm_strtoul p 10 in
  match endp with
  | Some e => if Nat.eqb (length e) (length p) then None else Some (u32 val, Some e)
  | None => Some (u32 val, None)
  end.

(** What is known at the label done_read: band, control channel, bandwidth, the
    sideband letter or 0, the two 80MHz channels and the number [bw]. *)
Record parsed := {
  ps_band : Z; ps_ctl : Z; ps_bw : Z; ps_sb : Z; ps_ch1 : Z; ps_ch2 : Z; ps_mhz : Z; ps_rest : cstr
}.

Definition bw_value (bw : Z) : option Z :=
  if bw =? 2 then Some WL_CHANSPEC_BW_2P5 else if bw =? 5 then Some WL_CHANSPEC_BW_5
  else if bw =? 10 then Some WL_CHANSPEC_BW_10 else if bw =? 20 then Some WL_CHANSPEC_BW_20
  else if bw =? 40 then Some WL_CHANSPEC_BW_40 else if bw =? 80 then Some WL_CHANSPEC_BW_80
  else if bw =? 160 then Some WL_CHANSPEC_BW_160 else None.

(** Consumes [lit], a character at a time: [None] past the end, [Some None]
    where a character differs. *)
Fixpoint consume (lit a : cstr) : option (option cstr) :=
  match lit with
  | [] => Some (Some a)
  | l :: lit => if at0 a =? l then a ← next a; consume lit a else Some None
  end.

Definition aton_tail (band ctl bw chspec_bw : Z) (a : cstr) : option (option parsed) :=
  let c := bcm_tolower (at0 a) in
  let ret := fun chspec_bw sb ch1 ch2 a =>
    Some (Some {| ps_band := band; ps_ctl := ctl; ps_bw := chspec_bw; ps_sb := sb; ps_ch1 := ch1; ps_ch2 := ch2;
                  ps_mhz := bw; ps_rest := a |}) in
  if (band =? WL_CHANSPEC_BAND_2G) && (bw =? 40) && ((c =? 117) || (c =? 108)) then
    a ← next a; ret chspec_bw c 0 0 a
  else if c =? 43 then
    a ← next a;
    a ← consume [56; 48; 47] a;
    match (a : option cstr) with
    | None => Some None
    | Some a =>
        match read_uint a with
        | None => Some None
        | Some (ch1, a) =>
            a ← a;
            if negb (at0 a =? 45) then Some None else
            a ← next a;
            match read_uint a with
            | None => Some None
            | Some (ch2, a) => a ← a; ret WL_CHANSPEC_BW_8080 0 ch1 ch2 a
            end
        end
    end
  else if c =? 46 then
    a ← next a;
    a ← consume [53] a;
    match (a : option cstr) with None => Some None | Some a => ret WL_CHANSPEC_BW_2P5 0 0 0 a end
  else ret chspec_bw 0 0 0 a.

(** From the character after the channel on. *)
Definition aton_bw (band ctl : Z) (a : cstr) : option (option parsed) :=
  let c := bcm_tolower (at0 a) in
  let ret := fun chspec_bw sb a =>
    Some (Some {| ps_band := band; ps_ctl := ctl; ps_bw := chspec_bw; ps_sb := sb; ps_ch1 := 0; ps_ch2 := 0;
                  ps_mhz := 20; ps_rest := a |}) in
  if c =? 0 then ret WL_CHANSPEC_BW_20 0 a else
  a ← next a;
  if (c =? 117) || (c =? 108) then ret WL_CHANSPEC_BW_40 c a else
  if negb (c =? 47) then Some None else
  match read_uint a with
  | None => Some None
  | Some (bw, a) =>
      a ← a;
      match bw_value bw with
      | None => Some None
      | Some chspec_bw => aton_tail band ctl bw chspec_bw a
      end
  end.

Definition aton_parse (a : cstr) : option (option parsed) :=
  match read_uint a with
  | None => Some None
  | Some (num, a) =>
      a ← a;
      if bcm_tolower (at0 a) =? 103 then
        a ← next a;
        match (if num =? 2 then Some WL_CHANSPEC_BAND_2G else if num =? 5 then Some WL_CHANSPEC_BAND_5G else None) with
        | None => Some None
        | Some band =>
            match read_uint a with
            | None => Some None
            | Some (ctl_ch, a) => a ← a; aton_bw band ctl_ch a
            end
        end
      else
        aton_bw (if num <=? CH_MAX_2G_CHANNEL then WL_CHANSPEC_BAND_2G else WL_CHANSPEC_BAND_5G) num a
  end.

(** The first center channel that has [ctl_ch], with its sideband. *)
Fixpoint find_center (ctl_ch bw : Z) (l : list Z) : option (Z * Z) :=
  match l with
  | [] => None
  | ch :: l => let sb := channel_to_sb ch ctl_ch bw in if 0 <=? sb then Some (ch, sb) else find_center ctl_ch bw l
  end.
Fixpoint skip_blanks (a : cstr) : cstr :=
  match a with c :: a' => if c =? 32 then skip_blanks a' else a | [] => [] end.

(** From the label done_read on: center channel and sideband, 0 for an error. *)
Definition aton_center (p : parsed) : option (Z * Z) :=
  if negb (ps_sb p =? 0) then
    if ps_sb p =? 108 then Some (UPPER_20_SB (ps_ctl p), WL_CHANSPEC_CTL_SB_LLL)
    else Some (LOWER_20_SB (ps_ctl p), WL_CHANSPEC_CTL_SB_LLU)
  else if BW_LE20 (ps_bw p) then Some (ps_ctl p, 0)
  else if negb (ps_bw p =? WL_CHANSPEC_BW_8080) then
    l ← (if ps_bw p =? WL_CHANSPEC_BW_40 then Some wf_5g_40m_chans
         else if ps_bw p =? WL_CHANSPEC_BW_80 then Some wf_5g_80m_chans
         else if ps_bw p =? WL_CHANSPEC_BW_160 then Some wf_5g_160m_chans else None);
    '(ch, sb) ← find_center (ps_ctl p) (ps_mhz p) l;
    Some (ch, Z.shiftl sb WL_CHANSPEC_CTL_SB_SHIFT)
  else
    let ch1_id := channel_80mhz_to_id (ps_ch1 p) in
    let ch2_id := channel_80mhz_to_id (ps_ch2 p) in
    if (ch1_id <? 0) || (ch2_id <? 0) then None else
    let sb := channel_to_sb (ps_ch1 p) (ps_ctl p) (ps_mhz p) in
    if sb <? 0 then None else
    Some (Z.lor (Z.shiftl ch1_id WL_CHANSPEC_CHAN1_SHIFT) (Z.shiftl ch2_id WL_CHANSPEC_CHAN2_SHIFT),
          Z.shiftl sb WL_CHANSPEC_CTL_SB_SHIFT).

Definition wf_chspec_aton (a : cstr) : option Z :=
  p ← aton_parse a;
  match (p : option parsed) with
  | None => Some 0
  | Some p =>
      if negb (at0 (skip_blanks (ps_rest p)) =? 0) then Some 0 else
      match aton_center p with
      | None => Some 0
      | Some (chspec_ch, chspec_sb) =>
          let chspec := u16 (Z.lor (Z.lor chspec_ch (ps_band p)) (Z.lor (ps_bw p) chspec_sb)) in
          if wf_chspec_malformed chspec then Some 0 else Some chspec
      end
  end.

Example ex_aton : wf_chspec_aton [53; 50; 47; 56; 48] = Some 0xe03a /\ wf_chspec_ntoa 0xe03a = Some (Some [53; 50; 47; 56; 48]).
Proof. split; reflexivity. Qed.
Example ex_8080 : (s ← wf_chspec_ntoa 0xf020; s ← s; wf_chspec_aton s) = Some 0xf020.
Proof. reflexivity. Qed.

(** ** 802.11 channels *)
Definition wf_chspec_valid (chanspec : Z) : option bool :=
  let chspec_bw := CHSPEC_BW chanspec in
  let chspec_ch := CHSPEC_CHANNEL chanspec in
  if wf_chspec_malformed chanspec then Some false else
  if CHSPEC_IS2G chanspec then
    Some (if BW_LE20 chspec_bw then (1 <=? chspec_ch) && (chspec_ch <=? 14)
          else if chspec_bw =? WL_CHANSPEC_BW_40 then (3 <=? chspec_ch) && (chspec_ch <=? 11)
          else false)
  else if CHSPEC_IS5G chanspec then
    if chspec_bw =? WL_CHANSPEC_BW_8080 then
      ch1 ← aget wf_5g_80m_chans (CHSPEC_CHAN1 chanspec);
      ch2 ← aget wf_5g_80m_chans (CHSPEC_CHAN2 chanspec);
      Some ((ch1 + CH_80MHZ_APART <? ch2) || (ch2 + CH_80MHZ_APART <? ch1))
    else if BW_LE20 chspec_bw then
      Some (existsb (fun ch => (chspec_ch =? LOWER_20_SB ch) || (chspec_ch =? UPPER_20_SB ch)) wf_5g_40m_chans ||
            (chspec_ch =? 165) || (chspec_ch =? 34) || (chspec_ch =? 38) || (chspec_ch =? 42) || (chspec_ch =? 46))
    else if BW_LE40 chspec_bw then Some (existsb (Z.eqb chspec_ch) wf_5g_40m_chans)
    else if chspec_bw =? WL_CHANSPEC_BW_80 then Some (existsb (Z.eqb chspec_ch) wf_5g_80m_chans)
    else if chspec_bw =? WL_CHANSPEC_BW_160 then Some (existsb (Z.eqb chspec_ch) wf_5g_160m_chans)
    else Some false
  else Some false.

Definition wf_chspec_to_bw_str (c : Z) : option cstr :=
  wf_chspec_bw_str !! Z.to_nat (Z.shiftr (CHSPEC_BW c) WL_CHANSPEC_BW_SHIFT).

(** ** Derived channel specifications *)
Definition wf_chspec_ctlchspec (c : Z) : option Z :=
  if negb (BW_LE20 (CHSPEC_BW c)) then
    ctl_chan ← wf_chspec_ctlchan c;
    Some (Z.lor (Z.lor ctl_chan WL_CHANSPEC_BW_20) (CHSPEC_BAND c))
  else Some c.

(** [bw] is one of the WL_CHANSPEC_BW constants. *)
Definition wf_channel2chspec (ctl_ch bw : Z) : Z :=
  let chspec := u16 (Z.lor (if ctl_ch <=? CH_MAX_2G_CHANNEL then WL_CHANSPEC_BAND_2G else WL_CHANSPEC_BAND_5G) bw) in
  let centers :=
    if bw =? WL_CHANSPEC_BW_40 then Some (wf_5g_40m_chans, 40)
    else if bw =? WL_CHANSPEC_BW_80 then Some (wf_5g_80m_chans, 80)
    else if bw =? WL_CHANSPEC_BW_160 then Some (wf_5g_160m_chans, 160)
    else None in
  match centers with
  | Some (l, mhz) =>
      match find_center ctl_ch mhz l with
      | Some (ch, sb) => u16 (Z.lor (Z.lor chspec ch) (Z.shiftl sb WL_CHANSPEC_CTL_SB_SHIFT))
      | None => 0
      end
  | None => if BW_LE20 bw then u16 (Z.lor chspec ctl_ch) else 0
  end.

Definition wf_chspec_get80Mhz_ch (id : Z) : option Z :=
  if id <? WF_NUM_5G_80M_CHANS then aget wf_5g_80m_chans id else Some 0.

Definition wf_chspec_primary80_channel (c : Z) : option Z :=
  if CHSPEC_IS80 c then Some (CHSPEC_CHANNEL c)
  else if CHSPEC_IS8080 c then wf_chspec_get80Mhz_ch (CHSPEC_CHAN1 c)
  else if CHSPEC_IS160 c then
    let sb := Z.shiftr (CHSPEC_CTL_SB c) WL_CHANSPEC_CTL_SB_SHIFT in
    Some (u8 (if sb <? 4 then CHSPEC_CHANNEL c - CH_40MHZ_APART else CHSPEC_CHANNEL c + CH_40MHZ_APART))
  else Some (u8 (-1)).
Definition wf_chspec_secondary80_channel (c : Z) : option Z :=
  if CHSPEC_IS8080 c then wf_chspec_get80Mhz_ch (CHSPEC_CHAN2 c)
  else if CHSPEC_IS160 c then
    let sb := Z.shiftr (CHSPEC_CTL_SB c) WL_CHANSPEC_CTL_SB_SHIFT in
    Some (u8 (if sb <? 4 then CHSPEC_CHANNEL c + CH_40MHZ_APART else CHSPEC_CHANNEL c - CH_40MHZ_APART))
  else Some (u8 (-1)).

Definition wf_chspec_primary80_chspec (c : Z) : option Z :=
  if CHSPEC_IS80 c then Some c
  else if CHSPEC_IS8080 c then
    center_chan ← wf_chspec_get80Mhz_ch (CHSPEC_CHAN1 c);
    Some (u16 (Z.lor (Z.lor WL_CHANSPEC_BAND_5G WL_CHANSPEC_BW_80) (Z.lor (CHSPEC_CTL_SB c) center_chan)))
  else if CHSPEC_IS160 c then
    let '(center_chan, sb) :=
      if CHSPEC_CTL_SB c <? WL_CHANSPEC_CTL_SB_ULL then (u32 (CHSPEC_CHANNEL c - CH_40MHZ_APART), CHSPEC_CTL_SB c)
      else (u32 (CHSPEC_CHANNEL c + CH_40MHZ_APART), CHSPEC_CTL_SB c - WL_CHANSPEC_CTL_SB_ULL) in
    Some (u16 (Z.lor (Z.lor WL_CHANSPEC_BAND_5G WL_CHANSPEC_BW_80) (Z.lor sb center_chan)))
  else Some INVCHANSPEC.

Definition wf_chspec_primary40_chspec (c0 : Z) : option Z :=
  c ← (if CHSPEC_IS8080 c0 || CHSPEC_IS160 c0 then wf_chspec_primary80_chspec c0 else Some c0);
  if CHSPEC_IS80 c then
    let '(center_chan, sb) :=
      if CHSPEC_CTL_SB c <? WL_CHANSPEC_CTL_SB_UL then (u32 (CHSPEC_CHANNEL c - CH_20MHZ_APART), CHSPEC_CTL_SB c)
      else (u32 (CHSPEC_CHANNEL c + CH_20MHZ_APART), CHSPEC_CTL_SB c - WL_CHANSPEC_CTL_SB_UL) in
    Some (u16 (Z.lor (Z.lor WL_CHANSPEC_BAND_5G WL_CHANSPEC_BW_40) (Z.lor sb center_chan)))
  else Some c0.

Definition sidebands : list Z := [0x000; 0x100; 0x200; 0x300; 0x400; 0x500; 0x600; 0x700].
Definition WF_NUM_SIDEBANDS_80MHZ : Z := 4.
Fixpoint find_sideband (center primary : Z) (l : list Z) : option Z :=
  match l with
  | [] => Some INVCHANSPEC
  | sb :: l =>
      let cur := CH80MHZ_CHSPEC center sb in
      ctl ← wf_chspec_ctlchan cur;
      if primary =? ctl then Some cur else find_sideband center primary l
  end.
Definition wf_chspec_80 (center_channel primary_channel : Z) : option Z :=
  find_sideband center_channel primary_channel (take (Z.to_nat WF_NUM_SIDEBANDS_80MHZ) sidebands).

Definition wf_chspec_get8080_chspec (primary_20mhz chan0 chan1 : Z) : Z :=
  let chan0_id := channel_80mhz_to_id chan0 in
  let chan1_id := channel_80mhz_to_id chan1 in
  if (chan0_id =? -1) || (chan1_id =? -1) then INVCHANSPEC else
  let mk := fun seg0 seg1 sb =>
    u16 (Z.lor (Z.lor (Z.shiftl seg0 WL_CHANSPEC_CHAN1_SHIFT) (Z.shiftl seg1 WL_CHANSPEC_CHAN2_SHIFT))
               (Z.lor (Z.shiftl sb WL_CHANSPEC_CTL_SB_SHIFT) (Z.lor WL_CHANSPEC_BW_8080 WL_CHANSPEC_BAND_5G))) in
  let sb := channel_to_sb chan0 primary_20mhz 80 in
  if 0 <=? sb then mk chan0_id chan1_id sb
  else
    let sb := channel_to_sb chan1 primary_20mhz 80 in
    if sb <? 0 then INVCHANSPEC else mk chan1_id chan0_id sb.

(** ** Frequencies, in MHz; [start_factor] counts 500 kHz *)
Definition WF_CHAN_FACTOR_2_4_G : Z := 4814.
Definition WF_CHAN_FACTOR_5_G : Z := 10000.
Definition WF_CHAN_FACTOR_4_G : Z := 8000.

Definition wf_mhz2channel (freq start_factor : Z) : Z :=
  let start_factor :=
    if start_factor =? 0 then
      if (2400 <=? freq) && (freq <=? 2500) then WF_CHAN_FACTOR_2_4_G
      else if (5000 <=? freq) && (freq <=? 6000) then WF_CHAN_FACTOR_5_G else start_factor
    else start_factor in
  if (freq =? 2484) && (start_factor =? WF_CHAN_FACTOR_2_4_G) then 14 else
  let base := start_factor / 2 in
  if (freq <? base) || (u32 (base + 1000) <? freq) then -1 else
  let offset := s32 (freq - base) in
  let ch := offset / 5 in
  if negb (offset =? ch * 5) then -1 else
  if (start_factor =? WF_CHAN_FACTOR_2_4_G) && ((ch <? 1) || (13 <? ch)) then -1 else ch.

Definition wf_channel2mhz (ch start_factor : Z) : Z :=
  if ((start_factor =? WF_CHAN_FACTOR_2_4_G) && ((ch <? 1) || (14 <? ch))) || (200 <? ch) then -1
  else if (start_factor =? WF_CHAN_FACTOR_2_4_G) && (ch =? 14) then 2484
  else s32 (ch * 5 + start_factor / 2).

(** ** All channel specifications, checked one by one

    The high byte holds band, bandwidth and sideband: only the high bytes that
    can be well formed are tried with every channel. *)
Definition high_formed (hi : Z) : bool :=
  let c := hi * 256 in
  let bw := CHSPEC_BW c in
  ((CHSPEC_IS2G c && BW_LE40 bw) || (CHSPEC_IS5G c && ((bw =? WL_CHANSPEC_BW_8080) || BW_LE160 bw))) &&
  (if BW_LE20 bw then CHSPEC_CTL_SB c =? WL_CHANSPEC_CTL_SB_LLL
   else if bw =? WL_CHANSPEC_BW_40 then CHSPEC_CTL_SB c <=? WL_CHANSPEC_CTL_SB_LLU
   else if (bw =? WL_CHANSPEC_BW_80) || (bw =? WL_CHANSPEC_BW_8080) then CHSPEC_CTL_SB c <=? WL_CHANSPEC_CTL_SB_LUU
   else true).

Definition all_formed (P : Z -> bool) : bool :=
  forallb (fun hi => if high_formed (Z.of_nat hi)
                     then forallb (fun lo => P (Z.of_nat hi * 256 + Z.of_nat lo)) (seq 0 256) else true) (seq 0 256).

Lemma land_high hi lo m : 0 <= lo < 256 -> Z.land (hi * 256 + lo) (m * 256) = Z.land (hi * 256) (m * 256).
Proof.
  intros Hlo. apply Z.bits_inj'. intros i Hi. rewrite !Z.land_spec.
  destruct (Z.ltb_spec i 8) as [Hlt|Hge].
  - change 256 with (2 ^ 8). rewrite (Z.mul_pow2_bits_low m 8 i) by lia. by rewrite !andb_false_r.
  - f_equal. change 256 with (2 ^ 8). rewrite Z.mul_pow2_bits by lia.
    rewrite <- (Z.sub_add 8 i) at 1. rewrite <- Z.div_pow2_bits by lia. f_equal.
    rewrite Z.add_comm, Z.div_add by lia. rewrite Z.div_small by (change (2 ^ 8) with 256; lia). lia.
Qed.

Lemma fields_high hi lo :
  0 <= lo < 256 ->
  CHSPEC_BAND (hi * 256 + lo) = CHSPEC_BAND (hi * 256) /\ CHSPEC_BW (hi * 256 + lo) = CHSPEC_BW (hi * 256) /\
  CHSPEC_CTL_SB (hi * 256 + lo) = CHSPEC_CTL_SB (hi * 256).
Proof.
  intros Hlo. split_and!; [apply (land_high hi lo 0xc0)|apply (land_high hi lo 0x38)|apply (land_high hi lo 0x07)]; done.
Qed.

Lemma formed_high hi lo :
  0 <= lo < 256 -> wf_chspec_malformed (hi * 256 + lo) = false -> high_formed hi = true.
Proof.
  intros Hlo. destruct (fields_high hi lo Hlo) as (E1 & E2 & E3).
  unfold wf_chspec_malformed, high_formed, CHSPEC_IS2G, CHSPEC_IS5G. rewrite E1, E2, E3.
  rewrite !Z.ltb_antisym.
  destruct (CHSPEC_BAND (hi * 256) =? WL_CHANSPEC_BAND_2G), (CHSPEC_BAND (hi * 256) =? WL_CHANSPEC_BAND_5G),
    (BW_LE40 (CHSPEC_BW (hi * 256))) eqn:E40, (BW_LE20 (CHSPEC_BW (hi * 256))) eqn:E20; cbn [negb andb orb];
    try done; unfold BW_LE160, BW_LE80; rewrite ?E40; cbn [orb];
    destruct (CHSPEC_BW (hi * 256) =? WL_CHANSPEC_BW_40), (CHSPEC_BW (hi * 256) =? WL_CHANSPEC_BW_80),
      (CHSPEC_BW (hi * 256) =? WL_CHANSPEC_BW_160), (CHSPEC_BW (hi * 256) =? WL_CHANSPEC_BW_8080); cbn [negb andb orb];
    try done; repeat case_match; try done; by rewrite ?negb_false_iff.
Qed.

Lemma all_formed_spec P :
  all_formed P = true -> forall c, 0 <= c < 2 ^ 16 -> wf_chspec_malformed c = false -> P c = true.
Proof.
  unfold all_formed. rewrite forallb_forall. intros H c Hc Hf.
  pose proof (Z.div_mod c 256 ltac:(lia)). pose proof (Z.mod_pos_bound c 256 ltac:(lia)).
  assert (0 <= c / 256 < 256) by (split; [apply Z.div_pos; lia|apply Z.div_lt_upper_bound; lia]).
  assert (c = c / 256 * 256 + c mod 256) as Ec by lia. rewrite Ec in Hf |- *.
  specialize (H (Z.to_nat (c / 256)) ltac:(apply in_seq; lia)). cbn beta in H.
  rewrite Z2Nat.id in H by lia. rewrite (formed_high _ _ H1 Hf) in H. rewrite forallb_forall in H.
  specialize (H (Z.to_nat (c mod 256)) ltac:(apply in_seq; lia)). cbn beta in H. by rewrite Z2Nat.id in H by lia.
Qed.

Definition printed (c : Z) : Prop :=
  match wf_chspec_ntoa c with
  | Some (Some s) => Z.of_nat (length s) < CHANSPEC_STR_LEN - 1 /\ Forall (fun b => 0 < b) s /\ wf_chspec_aton s = Some c
  | _ => False
  end.
#[export] Instance printed_dec c : Decision (printed c).
Proof. unfold printed. repeat case_match; apply _. Defined.

(** What the derived specifications of [c] have in common with it. *)
Definition wide (c : Z) : bool := CHSPEC_IS80 c || CHSPEC_IS160 c || CHSPEC_IS8080 c.
Definition derived (c : Z) : Prop :=
  (wf_chspec_ctlchspec c ≫= wf_chspec_valid) = Some true /\
  (wf_chspec_ctlchspec c ≫= wf_chspec_ctlchan) = wf_chspec_ctlchan c /\
  (wide c = true ->
     (wf_chspec_primary80_chspec c ≫= wf_chspec_valid) = Some true /\
     CHSPEC_IS80 <$> wf_chspec_primary80_chspec c = Some true /\
     CHSPEC_CHANNEL <$> wf_chspec_primary80_chspec c = wf_chspec_primary80_channel c /\
     (wf_chspec_primary80_chspec c ≫= wf_chspec_ctlchan) = wf_chspec_ctlchan c /\
     (wf_chspec_primary40_chspec c ≫= wf_chspec_valid) = Some true /\
     CHSPEC_IS40 <$> wf_chspec_primary40_chspec c = Some true /\
     (wf_chspec_primary40_chspec c ≫= wf_chspec_ctlchan) = wf_chspec_ctlchan c) /\
  (CHSPEC_IS80 c = true -> (ctl ← wf_chspec_ctlchan c; wf_chspec_80 (CHSPEC_CHANNEL c) ctl) = Some c) /\
  (CHSPEC_IS8080 c = true ->
     (ctl ← wf_chspec_ctlchan c; p ← wf_chspec_primary80_channel c; q ← wf_chspec_secondary80_channel c;
      Some (wf_chspec_get8080_chspec ctl p q)) = Some c) /\
  (CHSPEC_IS8080 c = false -> CHSPEC_IS2G c && CHSPEC_IS40 c = false ->
     (ctl ← wf_chspec_ctlchan c; Some (wf_channel2chspec ctl (CHSPEC_BW c))) = Some c).
#[export] Instance derived_dec c : Decision (derived c).
Proof. unfold derived. apply _. Defined.

(** [Q] for every valid specification, by trying the well-formed ones. *)
Lemma valid_check (Q : Z -> Prop) `{HQ : forall c, Decision (Q c)} :
  all_formed (fun c => match wf_chspec_valid c with
                       | Some true => bool_decide (Q c) | Some false => true | None => false end) = true ->
  forall c, 0 <= c < 2 ^ 16 ->
    exists b, wf_chspec_valid c = Some b /\ (b = true -> Q c).
Proof.
  intros H c Hc. destruct (wf_chspec_malformed c) eqn:Hf.
  - exists false. split; [|done]. unfold wf_chspec_valid. by rewrite Hf.
  - pose proof (all_formed_spec _ H c Hc Hf) as Hq. cbn beta in Hq.
    destruct (wf_chspec_valid c) as [[]|]; [|by exists false|done].
    exists true. split; [done|]. intros _. by apply bool_decide_eq_true in Hq.
Qed.

(** ** Parsing any string *)
Definition byte (c : Z) : Prop := 0 <= c < 256.

(** What a reading function leaves of a string of at most 19 bytes. *)
Definition short (s : cstr) : Prop := (length s <= 19)%nat /\ Forall byte s.
#[export] Instance short_dec s : Decision (short s).
Proof. unfold short, byte. apply _. Defined.

Lemma short_suffix s t : short s -> suffix t s -> short t.
Proof. intros [Hl Hb] [u ->]. rewrite length_app in Hl. apply Forall_app in Hb as [_ Hb]. split; [lia|done]. Qed.
Lemma short_next a b : short a -> next a = Some b -> short b.
Proof. destruct a as [|c a]; [done|]. intros Ha [= <-]. apply (short_suffix _ _ Ha). by exists [c]. Qed.
Lemma next_some a c : at0 a = c -> c <> 0 -> exists b, next a = Some b.
Proof. destruct a; [by intros <-|by eexists]. Qed.

Lemma strtoul_loop_short cp r k minus :
  Forall byte cp -> 0 <= r < 10 ^ k -> 0 <= k -> k + Z.of_nat (length cp) <= 19 ->
  exists v e, strtoul_loop cp 10 r r minus = (v, Some e) /\ suffix e cp.
Proof.
  revert r k. induction cp as [|c cp IH]; intros r k Hb Hr Hk Hl; cbn [strtoul_loop]; [by do 2 eexists|].
  apply Forall_cons in Hb as [Hc Hb].
  destruct (bcm_isxdigit c && (digit_value c <? 10)) eqn:E; [|by do 2 eexists].
  apply andb_true_iff in E as [Hx Hd%Z.ltb_lt]. cbn [length] in Hl.
  pose proof (digit_value_nonneg c Hx Hc) as Hd0.
  assert (10 ^ (k + 1) = 10 * 10 ^ k) as Hp by (rewrite Z.pow_add_r by lia; lia).
  assert (10 ^ (k + 1) <= 10 ^ 19) by (apply Z.pow_le_mono_r; lia).
  rewrite (wrapu_small ULONG_BITS) by (unfold ULONG_BITS; lia).
  rewrite (proj2 (Z.ltb_ge _ _)) by lia. cbn [andb].
  destruct (IH (r * 10 + digit_value c) (k + 1)) as (v & e & -> & He); [done|lia|lia|lia|].
  do 2 eexists. split; [done|by apply suffix_cons_r].
Qed.

Lemma skip_space_suffix s : suffix (skip_space s) s.
Proof. induction s as [|c s IH]; cbn; [done|]. case_match; [by apply suffix_cons_r|done]. Qed.

Lemma read_uint_short p :
  short p -> read_uint p = None \/ exists n e, read_uint p = Some (n, Some e) /\ short e.
Proof.
  intros Hp. unfold read_uint, bcm_strtoul.
  pose proof (short_suffix _ _ Hp (skip_space_suffix p)) as Hs.
  assert (forall cp minus, suffix cp (skip_space p) -> exists v e, strtoul_loop cp 10 0 0 minus = (v, Some e) /\ short e) as Hloop.
  { intros cp minus Hc. pose proof (short_suffix _ _ Hs Hc) as Hcp. destruct Hcp as [Hl Hb].
    destruct (strtoul_loop_short cp 0 0 minus) as (v & e & -> & He); [done|lia|lia|lia|].
    do 2 eexists. split; [done|by apply (short_suffix cp)]. }
  pose proof (suffix_drop (skip_space p) 1) as Hd.
  destruct (at0 (skip_space p) =? 43); [|destruct (at0 (skip_space p) =? 45)];
    change (10 =? 0) with false; change (10 =? 16) with false; cbn [andb];
    match goal with |- context [strtoul_loop ?cp 10 0 0 ?mi] =>
      destruct (Hloop cp mi) as (v & e & -> & He); [done|] end;
    (case_match; [by left|right; by do 2 eexists]).
Qed.

(** A parser step that never reads past the end, and leaves a short rest. *)
Definition safe (r : option (option parsed)) : Prop :=
  exists x, r = Some x /\ forall p, x = Some p -> short (ps_rest p).

Lemma safe_none : safe (Some None).
Proof. by exists None. Qed.
Lemma safe_some p : short (ps_rest p) -> safe (Some (Some p)).
Proof. intros H. exists (Some p). split; [done|]. by intros ? [= <-]. Qed.
Lemma safe_next a f : short a -> at0 a <> 0 -> (forall b, short b -> safe (f b)) -> safe (b ← next a; f b).
Proof.
  intros Ha H0 Hf. destruct (next_some a _ eq_refl H0) as [b Hb]. rewrite Hb. cbn [mbind option_bind].
  apply Hf. by apply (short_next a).
Qed.
Lemma safe_read a f :
  short a -> (forall n b, short b -> safe (f n b)) ->
  safe (match read_uint a with None => Some None | Some (n, a) => a ← a; f n a end).
Proof.
  intros Ha Hf. destruct (read_uint_short a Ha) as [->|(n & e & -> & He)]; [apply safe_none|]. by apply Hf.
Qed.
Lemma safe_consume lit a f :
  short a -> Forall (fun l => l <> 0) lit -> (forall b, short b -> safe (f b)) ->
  safe (r ← consume lit a; match (r : option cstr) with None => Some None | Some b => f b end).
Proof.
  intros Ha Hl Hf. revert a Ha. induction Hl as [|l lit Hl0 _ IH]; intros a Ha; cbn [consume]; [by apply Hf|].
  destruct (Z.eqb_spec (at0 a) l) as [E|_]; [|apply safe_none].
  destruct (next_some a l E Hl0) as [b Hb]. rewrite Hb. cbn [mbind option_bind]. apply IH. by apply (short_next a).
Qed.
Lemma tolower_at0 a : bcm_tolower (at0 a) <> 0 -> at0 a <> 0.
Proof. intros H E. apply H. by rewrite E. Qed.
#[local] Hint Resolve safe_none safe_some : core.

Lemma aton_tail_safe band ctl bw cbw a : short a -> safe (aton_tail band ctl bw cbw a).
Proof.
  intros Ha. unfold aton_tail.
  assert (forall c, c <> 0 -> (bcm_tolower (at0 a) =? c) = true -> at0 a <> 0) as Hc.
  { intros c Hc0 E%Z.eqb_eq. apply tolower_at0. by rewrite E. }
  case_match eqn:E1.
  { apply safe_next; [done| |auto]. apply andb_true_iff in E1 as [_ [E1|E1]%orb_true_iff]; by (eapply Hc; [|exact E1]). }
  case_match eqn:E2.
  { apply safe_next; [done|by apply (Hc 43)|]. intros b Hb. apply safe_consume; [done|by repeat constructor|].
    intros d Hd. apply safe_read; [done|]. intros ch1 e He.
    destruct (Z.eqb_spec (at0 e) 45) as [E3|]; [|by apply safe_none].
    apply safe_next; [done|by rewrite E3|]. intros f Hf. apply safe_read; auto. }
  case_match eqn:E4; [|auto].
  apply safe_next; [done|by apply (Hc 46)|]. intros b Hb. apply safe_consume; [done|by repeat constructor|auto].
Qed.

Lemma aton_bw_safe band ctl a : short a -> safe (aton_bw band ctl a).
Proof.
  intros Ha. unfold aton_bw. destruct (Z.eqb_spec (bcm_tolower (at0 a)) 0) as [|E0]; [auto|].
  apply safe_next; [done|by apply tolower_at0|]. intros b Hb.
  case_match; [auto|]. case_match; [auto|].
  apply safe_read; [done|]. intros n e He. case_match; [|auto]. by apply aton_tail_safe.
Qed.

Lemma aton_parse_safe a : short a -> safe (aton_parse a).
Proof.
  intros Ha. unfold aton_parse. apply safe_read; [done|]. intros n b Hb.
  destruct (Z.eqb_spec (bcm_tolower (at0 b)) 103) as [E|]; [|by apply aton_bw_safe].
  apply safe_next; [done|apply tolower_at0; by rewrite E|]. intros d Hd.
  destruct (if n =? 2 then _ else _) as [band|]; [|auto].
  apply safe_read; [done|]. intros ctl e He. by apply aton_bw_safe.
Qed.

(** C30: type safety of the parser: whatever string of at most 19 bytes it is
    given (the longest a CHANSPEC_STR_LEN buffer holds), [wf_chspec_aton] reads
    no byte past the terminating NUL and follows no unset end pointer, and its
    16-bit result is 0, the error, or a well-formed channel specification. *)
Theorem aton_type s :
  Forall (fun c => 0 < c < 256) s -> Z.of_nat (length s) < CHANSPEC_STR_LEN ->
  exists c, wf_chspec_aton s = Some c /\ 0 <= c < 2 ^ 16 /\ (c = 0 \/ wf_chspec_malformed c = false).
Proof.
  intros Hs Hl. destruct (aton_parse_safe s) as (x & Hx & _).
  { split; [unfold CHANSPEC_STR_LEN in Hl; lia|]. eapply Forall_impl; [exact Hs|]. unfold byte. lia. }
  unfold wf_chspec_aton. rewrite Hx. cbn [mbind option_bind].
  assert (exists c, Some 0 = Some c /\ 0 <= c < 2 ^ 16 /\ (c = 0 \/ wf_chspec_malformed c = false)) as H0 by (exists 0; auto with lia).
  destruct x as [p|]; [|done]. case_match; [done|]. destruct (aton_center p) as [[ch sb]|]; [|done].
  destruct (wf_chspec_malformed (u16 _)) eqn:Em; [done|].
  eexists. split; [done|]. split; [|by right]. apply Z.mod_pos_bound. lia.
Qed.
Lemma aton_type_witness :
  exists c, wf_chspec_aton [53; 50; 47; 56; 48] = Some c /\ 0 <= c < 2 ^ 16 /\ (c = 0 \/ wf_chspec_malformed c = false).
Proof. apply (aton_type [53; 50; 47; 56; 48]); [repeat constructor; lia|reflexivity]. Defined.

(** ** What the exhaustive checks show *)

(** C19: round trip: each of the 2^16 values that [wf_chspec_valid] calls an
    802.11 channel is printed by [wf_chspec_ntoa] in full, within
    CHANSPEC_STR_LEN bytes, and [wf_chspec_aton] reads the very same value
    back.  No test goes outside a channel table. *)
Theorem chanspec_roundtrip c :
  0 <= c < 2 ^ 16 ->
  exists b, wf_chspec_valid c = Some b /\
    (b = true -> exists s, wf_chspec_ntoa c = Some (Some s) /\ Z.of_nat (length s) < CHANSPEC_STR_LEN - 1 /\
                           wf_chspec_aton s = Some c).
Proof.
  intros Hc. assert (exists b, wf_chspec_valid c = Some b /\ (b = true -> printed c)) as (b & Hb & Hp).
  { apply (valid_check printed); [vm_compute; reflexivity|done]. }
  exists b. split; [done|]. intros Htrue. specialize (Hp Htrue). unfold printed in Hp.
  destruct (wf_chspec_ntoa c) as [[s|]|]; [|done..]. exists s. naive_solver.
Qed.
Lemma chanspec_roundtrip_witness :
  exists b, wf_chspec_valid 0xe03a = Some b /\
    (b = true -> exists s, wf_chspec_ntoa 0xe03a = Some (Some s) /\ Z.of_nat (length s) < CHANSPEC_STR_LEN - 1 /\
                           wf_chspec_aton s = Some 0xe03a).
Proof. apply (chanspec_roundtrip 0xe03a). lia. Defined.

(** The derived specifications agree: for each valid channel of at least
    80 MHz (or less, where it applies) the 20, 40 and 80 MHz specifications
    derived from it are valid, have the asked width and keep the control
    channel; the primary 80 MHz channel is the one reported by
    [wf_chspec_primary80_channel]; and [wf_chspec_80], [wf_channel2chspec] and
    [wf_chspec_get8080_chspec] build the specification again from its control
    channel and its segments. *)
Theorem chanspec_derived c :
  0 <= c < 2 ^ 16 -> wf_chspec_valid c = Some true -> derived c.
Proof.
  intros Hc Hv. destruct (valid_check derived) with (c := c) as (b & Hb & Hd); [vm_compute; reflexivity|done|].
  apply Hd. congruence.
Qed.
Lemma chanspec_derived_witness : derived 0xe83a \/ derived 0xe832.
Proof. right. apply (chanspec_derived 0xe832); [lia|reflexivity]. Defined.

Lemma s32_small z : 0 <= z < 2 ^ 31 -> s32 z = z.
Proof. intros Hz. apply wraps_small; lia. Qed.

(** [wf_mhz2channel] once its base is known: 5 divides the offset. *)
Lemma mhz2channel_spec freq sf ch :
  0 <= freq < 2 ^ 32 -> 0 <= sf < 2 ^ 32 - 4000 -> sf <> 0 \/ freq <= 1000 -> sf <> WF_CHAN_FACTOR_2_4_G ->
  ch <> -1 -> (wf_mhz2channel freq sf = ch <-> freq = ch * 5 + sf / 2 /\ 0 <= ch <= 200).
Proof.
  intros Hf Hsf Hz Hne Hch. unfold wf_mhz2channel.
  pose proof (Z.div_mod sf 2 ltac:(lia)). pose proof (Z.mod_pos_bound sf 2 ltac:(lia)).
  assert ((if sf =? 0 then if (2400 <=? freq) && (freq <=? 2500) then WF_CHAN_FACTOR_2_4_G
           else if (5000 <=? freq) && (freq <=? 6000) then WF_CHAN_FACTOR_5_G else sf else sf) = sf) as E.
  { destruct (Z.eqb_spec sf 0); [|done]. by rewrite (proj2 (Z.leb_gt 2400 freq)), (proj2 (Z.leb_gt 5000 freq)) by lia. }
  cbv zeta. rewrite E, (proj2 (Z.eqb_neq _ _) Hne), andb_false_r. cbn [andb].
  rewrite (wrapu_small 32) by lia.
  destruct (Z.ltb_spec freq (sf / 2)), (Z.ltb_spec (sf / 2 + 1000) freq); cbn [orb]; try lia.
  rewrite s32_small by lia. pose proof (Z.div_mod (freq - sf / 2) 5 ltac:(lia)).
  pose proof (Z.mod_pos_bound (freq - sf / 2) 5 ltac:(lia)).
  destruct (Z.eqb_spec (freq - sf / 2) ((freq - sf / 2) / 5 * 5)); cbn [negb]; lia.
Qed.

(** In the 2.4 GHz band: channels 1 to 14, by trying them. *)
Lemma mhz2channel_2g ch : 1 <= ch <= 14 -> wf_mhz2channel (wf_channel2mhz ch WF_CHAN_FACTOR_2_4_G) WF_CHAN_FACTOR_2_4_G = ch.
Proof.
  intros Hch. assert (In ch (List.map Z.of_nat (seq 1 14))) as Hin.
  { apply in_map_iff. exists (Z.to_nat ch). split; [lia|]. apply in_seq. lia. }
  revert ch Hch Hin. assert (List.Forall (fun ch => wf_mhz2channel (wf_channel2mhz ch WF_CHAN_FACTOR_2_4_G) WF_CHAN_FACTOR_2_4_G = ch)
    (List.map Z.of_nat (seq 1 14))) as Hall by (by repeat constructor).
  rewrite List.Forall_forall in Hall. intros ch _. apply Hall.
Qed.
Lemma channel2mhz_2g freq :
  0 <= freq < 2 ^ 32 -> wf_mhz2channel freq WF_CHAN_FACTOR_2_4_G <> -1 ->
  wf_channel2mhz (wf_mhz2channel freq WF_CHAN_FACTOR_2_4_G) WF_CHAN_FACTOR_2_4_G = freq.
Proof.
  intros Hf. unfold wf_mhz2channel. cbv zeta. change (WF_CHAN_FACTOR_2_4_G =? 0) with false. cbv iota.
  change (WF_CHAN_FACTOR_2_4_G =? WF_CHAN_FACTOR_2_4_G) with true. change (WF_CHAN_FACTOR_2_4_G / 2) with 2407.
  change (u32 (2407 + 1000)) with 3407. rewrite andb_true_r. cbn [andb].
  destruct (Z.eqb_spec freq 2484) as [->|Hne]; [done|].
  destruct (Z.ltb_spec freq 2407), (Z.ltb_spec 3407 freq); cbn [orb]; try lia.
  rewrite !s32_small by lia. destruct (Z.eqb_spec (freq - 2407) ((freq - 2407) / 5 * 5)) as [E|]; cbn [negb]; [|lia].
  destruct (Z.ltb_spec ((freq - 2407) / 5) 1), (Z.ltb_spec 13 ((freq - 2407) / 5)); cbn [orb]; try lia. intros _.
  unfold wf_channel2mhz. change (WF_CHAN_FACTOR_2_4_G / 2) with 2407.
  rewrite (proj2 (Z.ltb_ge _ 1)), (proj2 (Z.ltb_ge 14 _)), (proj2 (Z.ltb_ge 200 _)), (proj2 (Z.eqb_neq _ 14)) by lia.
  rewrite !andb_false_r. cbn [orb]. rewrite s32_small; lia.
Qed.

(** Channels and frequencies are inverse to each other: for every base
    frequency, each channel that [wf_channel2mhz] gives a frequency is the one
    [wf_mhz2channel] finds there, and each frequency that is a channel is that
    channel's. *)
Theorem chan_freq sf :
  0 <= sf < 2 ^ 32 - 4000 ->
  (forall ch, 0 <= ch -> wf_channel2mhz ch sf <> -1 -> wf_mhz2channel (wf_channel2mhz ch sf) sf = ch) /\
  (forall freq, 0 <= freq < 2 ^ 32 -> sf <> 0 -> wf_mhz2channel freq sf <> -1 ->
     wf_channel2mhz (wf_mhz2channel freq sf) sf = freq).
Proof.
  intros Hsf. pose proof (Z.div_mod sf 2 ltac:(lia)). pose proof (Z.mod_pos_bound sf 2 ltac:(lia)).
  assert (forall ch, sf <> WF_CHAN_FACTOR_2_4_G -> 0 <= ch <= 200 -> wf_channel2mhz ch sf = ch * 5 + sf / 2) as Hc.
  { intros ch Hne Hch. unfold wf_channel2mhz.
    rewrite (proj2 (Z.eqb_neq _ _) Hne), (proj2 (Z.ltb_ge 200 _)) by lia. cbn [andb orb]. apply s32_small. lia. }
  destruct (Z.eq_dec sf WF_CHAN_FACTOR_2_4_G) as [->|Hne].
  - split; [|intros freq Hf _; by apply channel2mhz_2g].
    intros ch Hch Hv. apply mhz2channel_2g. unfold wf_channel2mhz in Hv. revert Hv. cbn [Z.eqb andb].
    destruct (Z.ltb_spec ch 1), (Z.ltb_spec 14 ch); cbn [orb]; try done; lia.
  - split.
    + intros ch Hch Hv. assert (ch <= 200).
      { destruct (Z.le_gt_cases ch 200); [done|]. unfold wf_channel2mhz in Hv.
        rewrite (proj2 (Z.ltb_lt 200 ch)), orb_true_r in Hv by lia. done. }
      rewrite Hc by lia. apply mhz2channel_spec; lia.
    + intros freq Hf Hz Hv. pose proof (proj1 (mhz2channel_spec freq sf _ Hf Hsf (or_introl Hz) Hne Hv) eq_refl) as [E Hr].
      rewrite Hc; lia.
Qed.
Lemma chan_freq_witness :
  (forall ch, 0 <= ch -> wf_channel2mhz ch 10000 <> -1 -> wf_mhz2channel (wf_channel2mhz ch 10000) 10000 = ch) /\
  (forall freq, 0 <= freq < 2 ^ 32 -> 10000 <> 0 -> wf_mhz2channel freq 10000 <> -1 ->
     wf_channel2mhz (wf_mhz2channel freq 10000) 10000 = freq).
Proof. apply (chan_freq 10000). lia. Defined.

(** What the parser accepts beyond its notation: channel 4132, whose bits
    run into the band and sideband fields, is parsed as 36; a segment pair may
    be announced by any width, so that 36/160+80/42-106 gets the wrong sideband;
    a blank string is channel 0; and a number too long for an unsigned long
    leaves no end pointer, which is then followed. *)
Theorem aton_aliases :
  wf_chspec_aton [52; 49; 51; 50] = wf_chspec_aton [51; 54] /\
  (c ← wf_chspec_aton [51; 54; 47; 49; 54; 48; 43; 56; 48; 47; 52; 50; 45; 49; 48; 54]; wf_chspec_ctlchan c) = Some 44 /\
  wf_chspec_aton [32] = Some 0x1000 /\
  wf_chspec_aton (repeat 57 20) = None.
Proof. split_and!; vm_compute; reflexivity. Qed.
