(* ===== verification/Workq.v ===== *)
(** * Work queues between two CPUs

    include/bcm_ring.h: a circular ring of two indices, and the work queue, a
    producer's and a consumer's ring over one buffer.  Each side works on its
    own indices and only now and then hands one over: the producer's WRITE, the
    consumer's READ.  The pair of queues and their buffer are one state; the
    two sides interleave at the granularity of an index update, an element
    access and a hand-over.  Built without BCM_RING_DEBUG and BCM_WORKQ_DEBUG. *)
From Stdlib Require Import ZArith Lia.
From stdpp Require Import base option numbers list.
From S2P Require Import Prelude.

(** ** The ring *)
Definition BCM_RING_EMPTY : Z := -1.
Definition BCM_RING_FULL : Z := -1.

Record bcm_ring := { ring_write : Z; ring_read : Z }.
Definition set_write (r : bcm_ring) (v : Z) : bcm_ring := {| ring_write := v; ring_read := ring_read r |}.
Definition set_read (r : bcm_ring) (v : Z) : bcm_ring := {| ring_write := ring_write r; ring_read := v |}.

Definition bcm_ring_init : bcm_ring := {| ring_write := 0; ring_read := 0 |}.
Definition bcm_ring_copy (from : bcm_ring) : bcm_ring :=
  let to := bcm_ring_init in set_read (set_write to (ring_write from)) (ring_read from).
Definition bcm_ring_is_empty (r : bcm_ring) : bool := ring_read r =? ring_write r.

(** [%] on int. *)
Definition bcm_ring_next_write (r : bcm_ring) (ring_size : Z) : Z := Z.rem (s32 (ring_write r + 1)) ring_size.
Definition bcm_ring_full (r : bcm_ring) (next_write : Z) : bool := next_write =? ring_read r.
Definition bcm_ring_is_full (r : bcm_ring) (ring_size : Z) : bool :=
  bcm_ring_full r (bcm_ring_next_write r ring_size).

Definition bcm_ring_prod_done (r : bcm_ring) (write : Z) : bcm_ring := set_write r write.
(** The index and [*pend_write]. *)
Definition bcm_ring_prod_pend (r : bcm_ring) (ring_size : Z) : Z * Z :=
  let pend_write := bcm_ring_next_write r ring_size in
  if bcm_ring_full r pend_write then (BCM_RING_FULL, BCM_RING_FULL) else (ring_write r, pend_write).
Definition bcm_ring_prod (r : bcm_ring) (ring_size : Z) : Z * bcm_ring :=
  let next_write := bcm_ring_next_write r ring_size in
  if bcm_ring_full r next_write then (BCM_RING_FULL, r)
  else (ring_write r, bcm_ring_prod_done r next_write).

Definition bcm_ring_cons_done (r : bcm_ring) (read : Z) : bcm_ring := set_read r read.
Definition bcm_ring_cons_pend (r : bcm_ring) (ring_size : Z) : Z * Z :=
  if bcm_ring_is_empty r then (BCM_RING_EMPTY, BCM_RING_EMPTY)
  else (ring_read r, Z.rem (s32 (ring_read r + 1)) ring_size).
Definition bcm_ring_cons (r : bcm_ring) (ring_size : Z) : Z * bcm_ring :=
  if bcm_ring_is_empty r then (BCM_RING_EMPTY, r)
  else (ring_read r, set_read r (Z.rem (s32 (ring_read r + 1)) ring_size)).

Definition bcm_ring_sync_read (peer self : bcm_ring) : bcm_ring := set_read peer (ring_read self).
Definition bcm_ring_sync_write (peer self : bcm_ring) : bcm_ring := set_write peer (ring_write self).

Definition bcm_ring_prod_avail (r : bcm_ring) (ring_size : Z) : Z :=
  if ring_read r <=? ring_write r then ring_size - (ring_write r - ring_read r) - 1
  else ring_read r - (ring_write r + 1).
Definition bcm_ring_cons_avail (r : bcm_ring) (ring_size : Z) : Z :=
  if ring_read r =? ring_write r then 0
  else if ring_write r <? ring_read r then ring_size - ring_read r + ring_write r
  else ring_write r - ring_read r.
Definition bcm_ring_cons_all (r : bcm_ring) : bcm_ring := set_read r (ring_write r).

(** ** The pair of queues

    [peer] of each is the other one, and both [buffer]s are one buffer. *)
Record bcm_workq (A : Type) := {
  prod_ring : bcm_ring;
  cons_ring : bcm_ring;
  wq_buffer : list A;
  wq_ring_size : Z
}.
Arguments prod_ring {A}.
Arguments cons_ring {A}.
Arguments wq_buffer {A}.
Arguments wq_ring_size {A}.

Section workq.
Context {A : Type}.
Implicit Types (q : bcm_workq A) (x : A).

Definition set_prod q (r : bcm_ring) : bcm_workq A :=
  {| prod_ring := r; cons_ring := cons_ring q; wq_buffer := wq_buffer q; wq_ring_size := wq_ring_size q |}.
Definition set_cons q (r : bcm_ring) : bcm_workq A :=
  {| prod_ring := prod_ring q; cons_ring := r; wq_buffer := wq_buffer q; wq_ring_size := wq_ring_size q |}.
Definition set_buffer q (b : list A) : bcm_workq A :=
  {| prod_ring := prod_ring q; cons_ring := cons_ring q; wq_buffer := b; wq_ring_size := wq_ring_size q |}.

Definition bcm_workq_init (buffer : list A) (ring_size : Z) : bcm_workq A :=
  {| prod_ring := bcm_ring_init; cons_ring := bcm_ring_init; wq_buffer := buffer; wq_ring_size := ring_size |}.
Definition bcm_workq_is_empty q : bool := bcm_ring_is_empty (prod_ring q).
Definition bcm_workq_prod_sync q : bcm_workq A := set_cons q (bcm_ring_sync_write (cons_ring q) (prod_ring q)).
Definition bcm_workq_cons_sync q : bcm_workq A := set_prod q (bcm_ring_sync_read (prod_ring q) (cons_ring q)).
Definition bcm_workq_prod_refresh q : bcm_workq A := set_prod q (bcm_ring_sync_read (prod_ring q) (cons_ring q)).
Definition bcm_workq_cons_refresh q : bcm_workq A := set_cons q (bcm_ring_sync_write (cons_ring q) (prod_ring q)).

(** WORKQ_ELEMENT, written and read through. *)
Definition workq_store q (ix : Z) x : option (bcm_workq A) := set_buffer q <$> aset (wq_buffer q) ix x.
Definition workq_load q (ix : Z) : option A := aget (wq_buffer q) ix.

(** ** Two CPUs

    The producer takes a slot, stores the element there and hands WRITE over;
    the consumer fetches a slot, loads its element and hands READ over; either
    may read the other's index.  [wq_resv] is the slot taken with the element
    still to be stored there, [wq_fetched] the slot fetched and still to be
    loaded; [wq_in] and [wq_out] list what was stored and loaded so far.  One
    CPU finishes an element before the next: a Take or Fetch before that, and a
    Store or Load without a slot, change nothing.  Everything else may happen at
    any time. *)
Record wq_sys := {
  wq : bcm_workq A;
  wq_resv : option (Z * A);
  wq_fetched : option Z;
  wq_in : list A;
  wq_out : list A
}.

Inductive wq_event :=
  | Take (x : A) | Store | ProdSync | ProdRefresh
  | Fetch | Load | ConsSync | ConsRefresh.

Definition with_wq (s : wq_sys) q : wq_sys :=
  {| wq := q; wq_resv := wq_resv s; wq_fetched := wq_fetched s; wq_in := wq_in s; wq_out := wq_out s |}.
Definition wq_start q : wq_sys :=
  {| wq := q; wq_resv := None; wq_fetched := None; wq_in := []; wq_out := [] |}.

Definition wq_take (s : wq_sys) x : wq_sys :=
  let '(ix, r) := bcm_ring_prod (prod_ring (wq s)) (wq_ring_size (wq s)) in
  if ix =? BCM_RING_FULL then s
  else {| wq := set_prod (wq s) r; wq_resv := Some (ix, x); wq_fetched := wq_fetched s;
          wq_in := wq_in s; wq_out := wq_out s |}.
Definition wq_store (s : wq_sys) (ix : Z) x : option wq_sys :=
  q ← workq_store (wq s) ix x;
  Some {| wq := q; wq_resv := None; wq_fetched := wq_fetched s; wq_in := wq_in s ++ [x]; wq_out := wq_out s |}.
Definition wq_fetch (s : wq_sys) : wq_sys :=
  let '(ix, r) := bcm_ring_cons (cons_ring (wq s)) (wq_ring_size (wq s)) in
  if ix =? BCM_RING_EMPTY then s
  else {| wq := set_cons (wq s) r; wq_resv := wq_resv s; wq_fetched := Some ix;
          wq_in := wq_in s; wq_out := wq_out s |}.
Definition wq_load (s : wq_sys) (ix : Z) : option wq_sys :=
  x ← workq_load (wq s) ix;
  Some {| wq := wq s; wq_resv := wq_resv s; wq_fetched := None; wq_in := wq_in s; wq_out := wq_out s ++ [x] |}.

Definition idle {B} (o : option B) : bool := match o with None => true | Some _ => false end.

Definition wq_exec (s : wq_sys) (e : wq_event) : option wq_sys :=
  match e with
  | Take x => Some (if idle (wq_resv s) then wq_take s x else s)
  | Store => match wq_resv s with Some (ix, x) => wq_store s ix x | None => Some s end
  | ProdSync => Some (with_wq s (bcm_workq_prod_sync (wq s)))
  | ProdRefresh => Some (with_wq s (bcm_workq_prod_refresh (wq s)))
  | Fetch => Some (if idle (wq_fetched s) then wq_fetch s else s)
  | Load => match wq_fetched s with Some ix => wq_load s ix | None => Some s end
  | ConsSync => Some (with_wq s (bcm_workq_cons_sync (wq s)))
  | ConsRefresh => Some (with_wq s (bcm_workq_cons_refresh (wq s)))
  end.
Fixpoint wq_run (s : wq_sys) (es : list wq_event) : option wq_sys :=
  match es with [] => Some s | e :: es => s ← wq_exec s e; wq_run s es end.

(** A history in which WRITE is never handed over, by either side, between a
    Take and its Store: bcm_ring_prod commits WRITE when the slot is taken. *)
Definition wq_calm (s : wq_sys) (e : wq_event) : bool :=
  match e with ProdSync | ConsRefresh => idle (wq_resv s) | _ => true end.
Fixpoint wq_calm_run (s : wq_sys) (es : list wq_event) : bool :=
  match es with
  | [] => true
  | e :: es => wq_calm s e && match wq_exec s e with Some s => wq_calm_run s es | None => true end
  end.
End workq.
Arguments wq_sys : clear implicits.
Arguments wq_event : clear implicits.

(** ** Indices modulo the ring size *)
Section indices.
Context (sz : Z) (Hsz : 0 < sz < 2 ^ 31).

Lemma ring_next a : 0 <= a -> Z.rem (s32 (a mod sz + 1)) sz = (a + 1) mod sz.
Proof.
  intros Ha. pose proof (Z.mod_pos_bound a sz ltac:(lia)).
  rewrite wraps_small by lia.
  rewrite Z.rem_mod_nonneg by lia. by rewrite Z.add_mod_idemp_l by lia.
Qed.

Lemma ring_diff a b :
  0 <= a - b < sz ->
  a mod sz - b mod sz = a - b \/ a mod sz - b mod sz = a - b - sz /\ a mod sz < b mod sz.
Proof.
  intros Hab. pose proof (Z.mod_pos_bound a sz ltac:(lia)). pose proof (Z.mod_pos_bound b sz ltac:(lia)).
  pose proof (Z.div_mod a sz ltac:(lia)). pose proof (Z.div_mod b sz ltac:(lia)).
  assert (a / sz - b / sz = 0 \/ a / sz - b / sz = 1) as [E|E] by nia; [left|right]; nia.
Qed.

Lemma ring_eq a b : 0 <= a - b < sz -> a mod sz = b mod sz <-> a = b.
Proof. intros Hab. split; [|by intros ->]. destruct (ring_diff a b Hab); lia. Qed.
End indices.

(** ** The invariant *)
Section invariant.
Context {A : Type} (sz : Z).
Implicit Types (s : wq_sys A) (q : bcm_workq A).

Definition taken {B} (o : option B) : Z := match o with None => 0 | Some _ => 1 end.
(** Slots taken and fetched since the start. *)
Definition n_prod s : Z := Z.of_nat (length (wq_in s)) + taken (wq_resv s).
Definition n_cons s : Z := Z.of_nat (length (wq_out s)) + taken (wq_fetched s).

(** [w] slots are known to the consumer, [r] known free to the producer;
    [calm]: WRITE was not handed over with an element still to be stored. *)
Record wq_inv (calm : bool) (s : wq_sys A) (w r : Z) : Prop := {
  i_size : 0 < sz < 2 ^ 31 /\ wq_ring_size (wq s) = sz /\ Z.of_nat (length (wq_buffer (wq s))) = sz;
  i_prod : prod_ring (wq s) = {| ring_write := n_prod s mod sz; ring_read := r mod sz |};
  i_cons : cons_ring (wq s) = {| ring_write := w mod sz; ring_read := n_cons s mod sz |};
  i_order : 0 <= r <= n_cons s /\ n_cons s <= w <= n_prod s /\
            n_prod s - r < sz;
  i_resv : forall ix x, wq_resv s = Some (ix, x) -> ix = Z.of_nat (length (wq_in s)) mod sz;
  i_fetched : forall ix, wq_fetched s = Some ix -> ix = Z.of_nat (length (wq_out s)) mod sz;
  i_buf : forall i, (length (wq_out s) <= i < length (wq_in s))%nat ->
          wq_buffer (wq s) !! Z.to_nat (Z.of_nat i mod sz) = wq_in s !! i;
  i_calm : calm = true -> w <= Z.of_nat (length (wq_in s)) /\ wq_out s = take (length (wq_out s)) (wq_in s)
}.

Lemma wq_inv_start buf :
  0 < sz < 2 ^ 31 -> Z.of_nat (length buf) = sz -> wq_inv true (wq_start (bcm_workq_init buf sz)) 0 0.
Proof. intros Hsz Hb. split; try done; unfold n_prod, n_cons; cbn; intros; try split_and!; done || lia. Qed.

Lemma taken_bound {B} (o : option B) : 0 <= taken o <= 1.
Proof. destruct o; cbn; lia. Qed.

Ltac inv_tac := split; cbn; try done; unfold n_prod, n_cons in *; cbn in *; try (split_and!; done || lia).

Context (calm : bool).
Implicit Types (w r : Z).

Lemma inv_take s w r x : wq_inv calm s w r -> wq_resv s = None -> wq_inv calm (wq_take s x) w r.
Proof.
  intros Hi Hr. pose proof Hi as [(Hsz & Es & El) Ep Ec Ho Hre Hfe Hbu Hca]. unfold wq_take, bcm_ring_prod, bcm_ring_next_write, bcm_ring_full.
  rewrite Ep, Es. unfold n_prod in *. rewrite Hr in *. cbn [ring_write ring_read taken] in *. rewrite Z.add_0_r in *.
  rewrite (ring_next sz Hsz) by lia.
  destruct (Z.eqb_spec ((Z.of_nat (length (wq_in s)) + 1) mod sz) (r mod sz)) as [E|Hne]; [by rewrite Z.eqb_refl|].
  pose proof (Z.mod_pos_bound (Z.of_nat (length (wq_in s))) sz ltac:(lia)).
  rewrite (proj2 (Z.eqb_neq _ _)) by (unfold BCM_RING_FULL; lia).
  pose proof (taken_bound (wq_fetched s)).
  assert (Z.of_nat (length (wq_in s)) + 1 - r <> sz) as Hfull.
  { intros E. apply Hne. replace (Z.of_nat (length (wq_in s)) + 1) with (r + 1 * sz) by lia. by rewrite Z.mod_add by lia. }
  inv_tac. unfold n_cons in *. by intros ? ? [= <- <-].
Qed.

Lemma inv_store s w r ix x :
  wq_inv calm s w r -> wq_resv s = Some (ix, x) -> exists s', wq_store s ix x = Some s' /\ wq_inv calm s' w r.
Proof.
  intros Hi Hr. pose proof Hi as [(Hsz & Es & El) Ep Ec Ho Hre Hfe Hbu Hca].
  pose proof (Hre _ _ Hr) as ->. set (n := Z.of_nat (length (wq_in s))) in *.
  pose proof (Z.mod_pos_bound n sz ltac:(lia)). pose proof (taken_bound (wq_fetched s)).
  unfold n_prod, n_cons in *. rewrite Hr in *. cbn [taken] in *.
  unfold wq_store, workq_store, aset. rewrite (proj2 (Z.leb_le _ _)), (proj2 (Z.ltb_lt _ _)) by lia.
  eexists. split; [reflexivity|]. split; unfold n_prod, n_cons; cbn [wq wq_resv wq_fetched wq_in wq_out taken set_buffer prod_ring cons_ring wq_buffer wq_ring_size];
    rewrite ?length_app, ?length_insert; cbn [length]; rewrite ?Nat2Z.inj_add; try done; fold n.
  - by rewrite Z.add_0_r.
  - split_and!; lia.
  - intros i Hin. destruct (decide (i = length (wq_in s))) as [->|Hne].
    + fold n. rewrite lookup_app_r, Nat.sub_diag by lia. apply list_lookup_insert_eq. lia.
    + rewrite lookup_app_l by lia. rewrite list_lookup_insert_ne; [apply Hbu; lia|].
      assert (n mod sz <> Z.of_nat i mod sz); [|pose proof (Z.mod_pos_bound (Z.of_nat i) sz ltac:(lia)); lia].
      rewrite (ring_eq sz Hsz) by lia. lia.
  - intros Hc. destruct (Hca Hc) as [Hw Hou]. split; [lia|]. by rewrite take_app_le by lia.
Qed.

(** Handing WRITE over, by either side. *)
Lemma inv_write s w r :
  wq_inv calm s w r -> (calm = true -> wq_resv s = None) -> wq_inv calm (with_wq s (bcm_workq_prod_sync (wq s))) (n_prod s) r.
Proof.
  intros [(Hsz & Es & El) Ep Ec Ho Hre Hfe Hbu Hca] Hr. inv_tac; rewrite ?Ep, ?Ec; cbn; split_and?; try (done || lia).
  intros Hc. destruct (Hca Hc) as [Hw Hou]. rewrite (Hr Hc). cbn [taken]. split; [lia|done].
Qed.
Lemma inv_read s w r : wq_inv calm s w r -> wq_inv calm (with_wq s (bcm_workq_cons_sync (wq s))) w (n_cons s).
Proof.
  intros [(Hsz & Es & El) Ep Ec Ho Hre Hfe Hbu Hca]. pose proof (taken_bound (wq_fetched s)).
  inv_tac; rewrite ?Ep, ?Ec; cbn; split_and?; done || lia.
Qed.

Lemma cons_empty_spec s w r : wq_inv calm s w r -> bcm_ring_is_empty (cons_ring (wq s)) = true <-> n_cons s = w.
Proof.
  intros [(Hsz & Es & El) Ep Ec Ho Hre Hfe Hbu Hca]. unfold bcm_ring_is_empty. rewrite Ec, Z.eqb_eq. cbn.
  split; [|by intros ->]. intros E. symmetry. apply (ring_eq sz Hsz); lia.
Qed.

Lemma inv_fetch s w r : wq_inv calm s w r -> wq_fetched s = None -> wq_inv calm (wq_fetch s) w r.
Proof.
  intros Hi Hr. pose proof (cons_empty_spec s w r Hi) as Hemp.
  pose proof Hi as [(Hsz & Es & El) Ep Ec Ho Hre Hfe Hbu Hca]. unfold wq_fetch, bcm_ring_cons.
  destruct (bcm_ring_is_empty _); [done|]. assert (n_cons s <> w) as Hne by (intros E; by apply Hemp in E).
  unfold n_cons in *. rewrite Hr in *. cbn [taken] in *. rewrite Z.add_0_r in *.
  rewrite Ec. cbn [ring_read set_read ring_write]. rewrite Es, (ring_next sz Hsz) by lia.
  pose proof (Z.mod_pos_bound (Z.of_nat (length (wq_out s))) sz ltac:(lia)).
  rewrite (proj2 (Z.eqb_neq _ _)) by (unfold BCM_RING_EMPTY; lia).
  inv_tac; rewrite ?Ec; by intros ? [= <-].
Qed.

Lemma inv_load s w r ix :
  wq_inv calm s w r -> wq_fetched s = Some ix -> exists s', wq_load s ix = Some s' /\ wq_inv calm s' w r.
Proof.
  intros Hi Hr. pose proof Hi as [(Hsz & Es & El) Ep Ec Ho Hre Hfe Hbu Hca]. pose proof (Hfe _ Hr) as ->.
  unfold n_cons in *. rewrite Hr in *. cbn [taken] in *.
  pose proof (Z.mod_pos_bound (Z.of_nat (length (wq_out s))) sz ltac:(lia)).
  destruct (lookup_lt_is_Some_2 (wq_buffer (wq s)) (Z.to_nat (Z.of_nat (length (wq_out s)) mod sz)) ltac:(lia)) as [x Hx].
  unfold wq_load, workq_load, aget. rewrite (proj2 (Z.leb_le _ _)), Hx by lia. cbn [mbind option_bind]. eexists. split; [done|].
  split; unfold n_prod, n_cons; cbn [wq wq_resv wq_fetched wq_in wq_out taken];
    rewrite ?length_app, ?Nat2Z.inj_add; cbn [length]; try done.
  - rewrite Ec. by rewrite Z.add_0_r.
  - unfold n_prod in *. split_and!; lia.
  - intros i Hin. apply Hbu. lia.
  - intros Hc. destruct (Hca Hc) as [Hw Hou]. split; [done|]. rewrite Hbu in Hx by lia. rewrite Nat.add_1_r, (take_S_r _ _ _ Hx). by rewrite <- Hou.
Qed.

Lemma inv_exec s w r e :
  wq_inv calm s w r -> (calm = true -> wq_calm s e = true) -> exists s' w' r', wq_exec s e = Some s' /\ wq_inv calm s' w' r'.
Proof.
  intros Hi Hc. destruct e as [x| | | | | | |]; cbn [wq_exec wq_calm] in *.
  - destruct (wq_resv s) as [[]|] eqn:E; cbn [idle]; eauto 6 using inv_take.
  - destruct (wq_resv s) as [[ix x]|] eqn:E; [|by eauto 6]. destruct (inv_store s w r ix x Hi E) as (s' & -> & H'). eauto.
  - eexists _, _, _. split; [done|]. apply (inv_write s w r Hi). intros E. specialize (Hc E). by destruct (wq_resv s).
  - eauto 6 using inv_read.
  - destruct (wq_fetched s) eqn:E; cbn [idle]; eauto 6 using inv_fetch.
  - destruct (wq_fetched s) as [ix|] eqn:E; [|by eauto 6]. destruct (inv_load s w r ix Hi E) as (s' & -> & H'). eauto.
  - eauto 6 using inv_read.
  - eexists _, _, _. split; [done|]. apply (inv_write s w r Hi). intros E. specialize (Hc E). by destruct (wq_resv s).
Qed.

Lemma inv_run s w r es :
  wq_inv calm s w r -> (calm = true -> wq_calm_run s es = true) -> exists s' w' r', wq_run s es = Some s' /\ wq_inv calm s' w' r'.
Proof.
  revert s w r. induction es as [|e es IH]; intros s w r Hi Hc; cbn [wq_run wq_calm_run] in *; [by eauto 6|].
  destruct (inv_exec s w r e Hi) as (s' & w' & r' & E & Hi'); [intros Ec; by destruct (proj1 (andb_true_iff _ _) (Hc Ec))|].
  rewrite E in Hc |- *. apply (IH s' w' r'); [done|]. intros Ec. by destruct (proj1 (andb_true_iff _ _) (Hc Ec)).
Qed.

Lemma inv_avail s w r :
  wq_inv calm s w r ->
  bcm_ring_prod_avail (prod_ring (wq s)) sz = sz - 1 - (n_prod s - r) /\
  bcm_ring_cons_avail (cons_ring (wq s)) sz = w - n_cons s /\
  (bcm_ring_is_full (prod_ring (wq s)) sz = true <-> n_prod s - r = sz - 1).
Proof.
  intros [(Hsz & Es & El) Ep Ec Ho Hre Hfe Hbu Hca]. rewrite Ep, Ec.
  pose proof (taken_bound (wq_resv s)). pose proof (taken_bound (wq_fetched s)). unfold n_prod, n_cons in *.
  set (P := Z.of_nat (length (wq_in s)) + _) in *.
  assert (Z.of_nat (length (wq_in s)) <= P) by (unfold P; lia). set (C := Z.of_nat (length (wq_out s)) + _) in *.
  unfold bcm_ring_prod_avail, bcm_ring_cons_avail, bcm_ring_is_full, bcm_ring_full, bcm_ring_next_write. cbn [ring_write ring_read].
  split_and!.
  - destruct (ring_diff sz Hsz P r) as [E|[E ?]]; [lia|..]; destruct (Z.leb_spec (r mod sz) (P mod sz)); try lia.
  - pose proof (ring_eq sz Hsz w C ltac:(lia)) as Heq.
    destruct (Z.eqb_spec (C mod sz) (w mod sz)) as [E|Hne]; [symmetry in E; apply Heq in E; lia|].
    assert (w <> C) by (intros ->; done).
    destruct (ring_diff sz Hsz w C) as [E|[E ?]]; [lia|..]; destruct (Z.ltb_spec (w mod sz) (C mod sz)); lia.
  - rewrite (ring_next sz Hsz), Z.eqb_eq by lia. split; intros E.
    + destruct (Z.eq_dec (P + 1 - r) sz); [lia|]. pose proof (proj1 (ring_eq sz Hsz (P + 1) r ltac:(lia)) E). lia.
    + replace (P + 1) with (r + 1 * sz) by lia. by rewrite Z.mod_add by lia.
Qed.
End invariant.

(** ** The contents of a queue

    Between elements on both sides, a queue holds a list [l] the consumer knows
    of and a list [u] still to be handed over: the interface of a client. *)
Section contents.
Context {A : Type} (n : Z).
Implicit Types (q : bcm_workq A) (l u : list A).

Definition queued q l u : Prop :=
  exists s w r, wq s = q /\ wq_inv n true s w r /\ wq_resv s = None /\ wq_fetched s = None /\
    drop (length (wq_out s)) (wq_in s) = l ++ u /\ Z.of_nat (length l) = w - Z.of_nat (length (wq_out s)).

Lemma queued_init buf : 0 < n < 2 ^ 31 -> Z.of_nat (length buf) = n -> queued (bcm_workq_init buf n) [] [].
Proof. intros Hn Hb. exists (wq_start (bcm_workq_init buf n)), 0, 0. split_and!; try done. by apply wq_inv_start. Qed.

Lemma queued_prod_sync q l u : queued q l u -> queued (bcm_workq_prod_sync q) (l ++ u) [].
Proof.
  intros (s & w & r & <- & Hi & Hr & Hf & Hd & Hl). eexists (with_wq s _), _, r.
  split; [done|]. split; [by apply (inv_write n true s w r)|]. cbn. rewrite app_nil_r. split_and!; try done.
  rewrite <- Hd, length_drop. pose proof (i_order _ _ _ _ _ Hi). unfold n_prod, n_cons in *. rewrite Hf, Hr in *. cbn in *. lia.
Qed.
Lemma queued_cons_sync q l u : queued q l u -> queued (bcm_workq_cons_sync q) l u.
Proof.
  intros (s & w & r & <- & Hi & Hr & Hf & Hd & Hl). eexists (with_wq s _), w, _.
  split; [done|]. split; [by apply (inv_read n true s w r)|]. done.
Qed.

Lemma queued_bound q l u : queued q l u -> Z.of_nat (length (l ++ u)) < n.
Proof.
  intros (s & w & r & <- & Hi & Hr & Hf & Hd & Hl). rewrite <- Hd, length_drop.
  pose proof (i_order _ _ _ _ _ Hi). unfold n_cons, n_prod in *. rewrite Hf, Hr in *. cbn in *. lia.
Qed.

Lemma queued_prod q l u e :
  queued q l u ->
  let '(ix, r) := bcm_ring_prod (prod_ring q) n in
  ix = BCM_RING_FULL \/
  ix <> BCM_RING_FULL /\ exists q', workq_store (set_prod q r) ix e = Some q' /\ queued q' l (u ++ [e]).
Proof.
  intros (s & w & r & <- & Hi & Hr & Hf & Hd & Hl). pose proof (i_size _ _ _ _ _ Hi) as (_ & Es & _).
  pose proof (inv_take n true s w r e Hi Hr) as Ht. unfold wq_take in Ht. rewrite Es in Ht.
  destruct (bcm_ring_prod (prod_ring (wq s)) n) as [ix rg]. destruct (Z.eqb_spec ix BCM_RING_FULL) as [|Hne]; [by left|].
  right. split; [done|].
  destruct (inv_store n true _ w r ix e Ht eq_refl) as (s' & Hs' & Hi'). unfold wq_store in Hs'. cbn [wq] in Hs'.
  destruct (workq_store (set_prod (wq s) rg) ix e) as [q'|]; [|done]. exists q'. split; [done|].
  exists s', w, r. injection Hs' as <-. cbn. split_and!; try done.
  rewrite drop_app_le, Hd; [by rewrite app_assoc|]. pose proof (i_order _ _ _ _ _ Hi). unfold n_prod, n_cons in *. rewrite Hf, Hr in *. cbn [taken] in *. lia.
Qed.

Lemma queued_cons q l u :
  queued q l u ->
  let '(ix, r) := bcm_ring_cons (cons_ring q) n in
  match l with
  | [] => ix = BCM_RING_EMPTY
  | e :: l => ix <> BCM_RING_EMPTY /\ workq_load (set_cons q r) ix = Some e /\ queued (set_cons q r) l u
  end.
Proof.
  intros (s & w & r & <- & Hi & Hr & Hf & Hd & Hl). pose proof (i_size _ _ _ _ _ Hi) as (Hn & Es & _).
  pose proof (cons_empty_spec n true s w r Hi) as Hemp. unfold n_cons in Hemp. rewrite Hf in Hemp. cbn [taken] in Hemp.
  pose proof (inv_fetch n true s w r Hi Hf) as Ht. unfold wq_fetch in Ht. rewrite Es in Ht. unfold bcm_ring_cons in *.
  destruct (bcm_ring_is_empty (cons_ring (wq s))).
  { destruct l; [done|]. pose proof (proj1 Hemp eq_refl). cbn [length] in Hl. lia. }
  destruct l as [|e l]; [assert (false = true) by (apply Hemp; cbn in Hl; lia); done|].
  assert (ring_read (cons_ring (wq s)) <> BCM_RING_EMPTY) as Hne.
  { rewrite (i_cons _ _ _ _ _ Hi). cbn [ring_read]. pose proof (Z.mod_pos_bound (n_cons s) n ltac:(lia)).
    unfold BCM_RING_EMPTY. lia. }
  rewrite (proj2 (Z.eqb_neq _ _) Hne) in Ht. split; [done|].
  destruct (inv_load n true _ w r _ Ht eq_refl) as (s' & Hs' & Hi'). unfold wq_load in Hs'. cbn [wq] in Hs'.
  destruct (workq_load _ _) as [x|]; [|done]. cbn [mbind option_bind] in Hs'. injection Hs' as <-.
  destruct (i_calm _ _ _ _ _ Hi' eq_refl) as [_ Ho]. pose proof (i_order _ _ _ _ _ Hi') as Hord. unfold n_cons in Hord.
  cbn [wq_out wq_in wq_fetched taken] in Ho, Hord. rewrite length_app in Ho, Hord. cbn [length] in Ho, Hord.
  assert (wq_in s !! length (wq_out s) = Some e) as He.
  { rewrite <- (Nat.add_0_r (length (wq_out s))), <- lookup_drop, Hd. done. }
  assert (x = e) as ->.
  { rewrite <- (lookup_take_lt (wq_in s) (length (wq_out s) + 1)) in He by lia. rewrite <- Ho in He.
    rewrite lookup_app_r, Nat.sub_diag in He by lia. by injection He. }
  split; [done|]. eexists _, w, r. split; [|split; [exact Hi'|]]; [done|]. cbn. split_and!; try done.
  - rewrite length_app. cbn [length]. rewrite <- drop_drop, Hd. done.
  - rewrite length_app. cbn [length] in *. lia.
Qed.
End contents.

(** ** Properties *)


(** The counts: in every state the two CPUs reach without handing WRITE over in
    the middle of an element, bcm_ring_prod_avail and bcm_ring_cons_avail are
    between 0 and the ring's size, never above the true number of free slots and
    of stored elements, and equal to it once the indices have been handed over;
    is_full and is_empty are their being 0. *)
Theorem workq_avail {A} (buf : list A) sz es s :
  0 < sz < 2 ^ 31 -> Z.of_nat (length buf) = sz -> wq_calm_run (wq_start (bcm_workq_init buf sz)) es = true ->
  wq_run (wq_start (bcm_workq_init buf sz)) es = Some s ->
  let free s := bcm_ring_prod_avail (prod_ring (wq s)) sz in
  let stored s := bcm_ring_cons_avail (cons_ring (wq s)) sz in
  0 <= free s <= sz - 1 - (n_prod s - n_cons s) /\ 0 <= stored s <= Z.of_nat (length (wq_in s)) - n_cons s /\
  (bcm_ring_is_full (prod_ring (wq s)) sz = true <-> free s = 0) /\
  (bcm_ring_is_empty (cons_ring (wq s)) = true <-> stored s = 0) /\
  (forall s', wq_exec s ConsSync = Some s' -> free s' = sz - 1 - (n_prod s' - n_cons s')) /\
  (forall s', wq_exec s ProdSync = Some s' -> wq_resv s = None -> stored s' = Z.of_nat (length (wq_in s')) - n_cons s').
Proof.
  intros Hsz Hb Hcalm Hs free stored.
  destruct (inv_run sz true _ _ _ es (wq_inv_start sz buf Hsz Hb)) as (s0 & w & r & Hs0 & Hi); [done|].
  rewrite Hs in Hs0. injection Hs0 as <-. destruct (inv_avail sz true s w r Hi) as (E1 & E2 & E3).
  pose proof (cons_empty_spec sz true s w r Hi) as E4. pose proof (i_order _ _ _ _ _ Hi) as Ho. destruct (i_calm _ _ _ _ _ Hi eq_refl) as [Hw _].
  unfold free, stored. rewrite E1, E2. split_and!; try lia.
  - rewrite E3. lia.
  - rewrite E4. lia.
  - intros s' Hs'. cbn [wq_exec] in Hs'. injection Hs' as <-.
    by destruct (inv_avail sz true _ _ _ (inv_read sz true s w r Hi)) as (-> & _).
  - intros s' Hs' Hf. cbn [wq_exec] in Hs'. injection Hs' as <-.
    destruct (inv_avail sz true _ _ _ (inv_write sz true s w r Hi (fun _ => Hf))) as (_ & -> & _). unfold n_prod. by rewrite Hf, Z.add_0_r.
Qed.
Lemma workq_avail_witness :
  exists s : wq_sys Z, wq_run (wq_start (bcm_workq_init [0; 0] 2)) [Take 7; Store; ProdSync] = Some s /\
    (bcm_ring_is_full (prod_ring (wq s)) 2 = true <-> bcm_ring_prod_avail (prod_ring (wq s)) 2 = 0).
Proof.
  eexists. split; [reflexivity|].
  apply (workq_avail [0; 0] 2 [Take 7; Store; ProdSync]); [lia|reflexivity|reflexivity|reflexivity].
Defined.

(** Bcm_workq_cons_refresh in the middle of a production: WRITE is committed
    by bcm_ring_prod before the element is stored, so a consumer that refreshes
    then loads what the slot held before. *)
Theorem cons_refresh_race :
  exists s, wq_run (wq_start (bcm_workq_init [0; 0] 2)) [Take 7; ConsRefresh; Fetch; Load; Store] = Some s /\
    wq_in s = [7] /\ wq_out s = [0].
Proof. eexists. split_and!; reflexivity. Qed.
