(* ===== verification/LbTxc.v ===== *)
(** * Load-balanced transmit completion

    dhd/sys/dhd_msgbuf.c with DHD_LB_TXC: dhd_prot_txstatus_process does not
    free a completed packet, it produces it into the tx_compl work queue, from
    which the tasklet dhd_lb_tx_compl_handler, on another CPU, frees it.  The
    component is the message-buffer state together with that queue; the
    theorem compares it with the build that frees in place (file ProtTx). *)
From Stdlib Require Import ZArith Lia.
From stdpp Require Import base option numbers gmap list.
From S2P Require Import Prelude Bytes PktidMap MsgFifo ProtState ProtTx Workq.

Definition DHD_LB_WORKQ_SZ : Z := 8192.
Definition DHD_LB_WORKQ_SYNC : Z := 16.

(** A work item: a packet with the address and length that
    DHD_PKTTAG_SET_PA and DHD_PKTTAG_SET_PA_LEN leave in its tag. *)
Record lb_pkt := { lb_ptr : Z; lb_pa : Z; lb_len : Z }.

Record lb_txc := {
  lb_prot : dhd_prot;
  tx_compl : bcm_workq lb_pkt;       (* tx_compl_prod, tx_compl_cons and their buffer *)
  tx_compl_prod_sync : Z             (* uint32 *)
}.

(** DMA_UNMAP, dhd_txcomplete, PKTFREE. *)
Definition release (e : lb_pkt) : list effect :=
  [DmaUnmap (lb_pa e) (lb_len e) DMA_RX (lb_ptr e); TxComplete (lb_ptr e) true; PktFree (lb_ptr e) true].

(** Both builds: from the start to DHD_PKTID_TO_NATIVE. *)
Definition txstatus_front (p : dhd_prot) (msg : list Z) : option (Z * option (Z * Z * Z * Z) * dhd_prot) :=
  pktid ← ld 4 msg 4;
  p ← prot_pktid_audit p pktid DHD_DUPLICATE_FREE;
  let p :=
    if negb (active_tx_count p =? 0) then
      let p := set_active p (active_tx_count p - 1) in
      if active_tx_count p =? 0 then emit p [WakeUnlock] else p
    else p in
  '(pkt, out, m) ← dhd_pktid_map_free (pktid_map_handle p) pktid PKTTYPE_DATA_TX DHD_PKTID_FREE_LOCKER;
  Some (pkt, out, set_map p m).

Section lb.
Context (n : Z).  (* DHD_LB_WORKQ_SZ *)

(** The production into the queue: false for BCM_RING_FULL. *)
Definition tx_compl_produce (q : bcm_workq lb_pkt) (sync : Z) (e : lb_pkt) : option (bool * bcm_workq lb_pkt * Z) :=
  let '(elem_ix, r) := bcm_ring_prod (prod_ring q) n in
  if elem_ix =? BCM_RING_FULL then Some (false, q, sync) else
  q ← workq_store (set_prod q r) elem_ix e;
  let sync := u32 (sync + 1) in
  Some (if DHD_LB_WORKQ_SYNC <=? sync then (true, bcm_workq_prod_sync q, 0) else (true, q, sync)).

(** dhd_prot_txstatus_process: the tag of a NULL packet is written as well,
    before any test of it. *)
Definition dhd_prot_txstatus_process_lb (s : lb_txc) (msg : list Z) : option lb_txc :=
  '(pkt, out, p) ← txstatus_front (lb_prot s) msg;
  if pkt =? 0 then None else
  '(pa, len, dmah, secdma) ← out;
  let e := {| lb_ptr := pkt; lb_pa := pa; lb_len := len |} in
  '(done, q, sync) ← tx_compl_produce (tx_compl s) (tx_compl_prod_sync s) e;
  Some {| lb_prot := if done : bool then p else emit p (release e); tx_compl := q; tx_compl_prod_sync := sync |}.

(** dhd_lb_dispatch, BCMPCIE_D2H_MSGRING_TX_COMPLETE; the tasklet it schedules
    is a step of its own. *)
Definition dhd_lb_dispatch_txc (s : lb_txc) : lb_txc :=
  {| lb_prot := lb_prot s; tx_compl := bcm_workq_prod_sync (tx_compl s); tx_compl_prod_sync := tx_compl_prod_sync s |}.

(** The [while (1)] of dhd_lb_tx_compl_handler. *)
Fixpoint tx_compl_loop (fuel : nat) (p : dhd_prot) (q : bcm_workq lb_pkt) : option (dhd_prot * bcm_workq lb_pkt) :=
  match fuel with
  | O => None
  | S fuel =>
      let '(elem_ix, r) := bcm_ring_cons (cons_ring q) n in
      if elem_ix =? BCM_RING_EMPTY then Some (p, q) else
      let q := set_cons q r in
      e ← workq_load q elem_ix;
      tx_compl_loop fuel (emit p (release e)) q
  end.
Definition dhd_lb_tx_compl_handler (s : lb_txc) : option lb_txc :=
  '(p, q) ← tx_compl_loop (Z.to_nat n) (lb_prot s) (tx_compl s);
  Some {| lb_prot := p; tx_compl := bcm_workq_cons_sync q; tx_compl_prod_sync := tx_compl_prod_sync s |}.

(** ** Runs: completions, dispatches and runs of the tasklet, in any order *)
Inductive lb_event := LbComplete (msg : list Z) | LbDispatch | LbTasklet.
Definition lb_exec (s : lb_txc) (e : lb_event) : option lb_txc :=
  match e with
  | LbComplete msg => dhd_prot_txstatus_process_lb s msg
  | LbDispatch => Some (dhd_lb_dispatch_txc s)
  | LbTasklet => dhd_lb_tx_compl_handler s
  end.
Fixpoint lb_run (s : lb_txc) (es : list lb_event) : option lb_txc :=
  match es with [] => Some s | e :: es => s ← lb_exec s e; lb_run s es end.

(** The build without DHD_LB_TXC on the same completions. *)
Fixpoint direct_run (p : dhd_prot) (es : list lb_event) : option dhd_prot :=
  match es with
  | [] => Some p
  | LbComplete msg :: es => p ← dhd_prot_txstatus_process p msg; direct_run p es
  | _ :: es => direct_run p es
  end.
(** Each completion names a packet the map still holds. *)
Fixpoint all_found (p : dhd_prot) (es : list lb_event) : Prop :=
  match es with
  | [] => True
  | LbComplete msg :: es =>
      (exists pkt out p', txstatus_front p msg = Some (pkt, out, p') /\ pkt <> 0) /\
      (exists p', dhd_prot_txstatus_process p msg = Some p' /\ all_found p' es)
  | _ :: es => all_found p es
  end.

Lemma produce_spec q l u sync e :
  queued n q l u ->
  tx_compl_produce q sync e = Some (false, q, sync) \/
  exists q' sync' l' u', tx_compl_produce q sync e = Some (true, q', sync') /\ queued n q' l' u' /\ l' ++ u' = (l ++ u) ++ [e].
Proof.
  intros Hq. pose proof (queued_prod n q l u e Hq) as Hp. unfold tx_compl_produce.
  destruct (bcm_ring_prod (prod_ring q) n) as [ix r]. destruct Hp as [->|(Hne & q' & -> & Hq')].
  { left. by rewrite Z.eqb_refl. }
  right. rewrite (proj2 (Z.eqb_neq _ _) Hne). cbn [mbind option_bind].
  assert (l ++ u ++ [e] = (l ++ u) ++ [e]) as Eapp by (by rewrite app_assoc).
  destruct (DHD_LB_WORKQ_SYNC <=? u32 (sync + 1)); do 4 eexists; (split; [reflexivity|]).
  - split; [by apply queued_prod_sync|]. by rewrite app_nil_r.
  - by split.
Qed.

Lemma loop_spec fuel q l u p :
  queued n q l u -> (length l < fuel)%nat ->
  exists q', tx_compl_loop fuel p q = Some (emit p (l ≫= release), q') /\ queued n q' [] u.
Proof.
  revert q l p. induction fuel as [|fuel IH]; intros q l p Hq Hfuel; [lia|].
  pose proof (queued_cons n q l u Hq) as Hc. cbn [tx_compl_loop].
  destruct (bcm_ring_cons (cons_ring q) n) as [ix r]. destruct l as [|e l].
  - subst ix. rewrite Z.eqb_refl. exists q. split; [|done]. cbn. unfold emit. rewrite app_nil_r. by destruct p.
  - destruct Hc as (Hne & Hload & Hq'). rewrite (proj2 (Z.eqb_neq _ _) Hne), Hload. cbn [mbind option_bind].
    destruct (IH _ l (emit p (release e)) Hq') as (q' & -> & Hq''); [cbn in Hfuel; lia|].
    exists q'. split; [|done]. unfold emit at 1 2. cbn [p_log]. by rewrite <- app_assoc.
Qed.

(** ** Both builds do the same, up to the order of the log *)
Definition set_log (p : dhd_prot) (v : list effect) : dhd_prot :=
  {| p_pub := p_pub p; p_flow_ring_table := p_flow_ring_table p; p_info := p_info p; h2d_rings := h2d_rings p;
     pktid_map_handle := pktid_map_handle p; active_tx_count := active_tx_count p;
     txp_threshold := txp_threshold p; tx_metadata_offset := tx_metadata_offset p;
     rx_metadata_offset := rx_metadata_offset p; rxbufpost := rxbufpost p; max_rxbufpost := max_rxbufpost p;
     rx_dataoffset := rx_dataoffset p; rx_pktgetfail := rx_pktgetfail p; p_log := v |}.

Lemma front_log p msg pkt out p1 :
  txstatus_front p msg = Some (pkt, out, p1) ->
  exists e, p_log p1 = p_log p ++ e /\
    forall l, txstatus_front (set_log p l) msg = Some (pkt, out, set_log p1 (l ++ e)).
Proof.
  unfold txstatus_front. destruct (ld 4 msg 4) as [id|]; [|done]. cbn [mbind option_bind].
  unfold prot_pktid_audit. cbn [pktid_map_handle set_log].
  destruct (dhd_pktid_audit _ id _) as [[rc [m|]]|]; [|done..]. cbn [mbind option_bind].
  set (e1 := if rc =? BCME_OK then _ else _).
  cbn [emit set_map set_active set_log active_tx_count pktid_map_handle].
  set (c := active_tx_count p). destruct (negb (c =? 0)); [destruct (c - 1 =? 0)|];
    cbn [emit set_map set_active set_log active_tx_count pktid_map_handle];
    (destruct (dhd_pktid_map_free m id _ _) as [[[pkt' out'] m']|]; [|done]); cbn [mbind option_bind];
    intros [= <- <- <-]; eexists; cbn [p_log emit set_map set_active]; (split; [rewrite <- ?app_assoc; reflexivity|]); intros l;
    rewrite ?app_assoc; reflexivity.
Qed.

Lemma direct_front p msg :
  dhd_prot_txstatus_process p msg =
  '(pkt, out, p) ← txstatus_front p msg;
  if negb (pkt =? 0) then
    '(pa, len, dmah, secdma) ← out;
    Some (emit p (release {| lb_ptr := pkt; lb_pa := pa; lb_len := len |}))
  else Some p.
Proof.
  unfold dhd_prot_txstatus_process, txstatus_front. destruct (ld 4 msg 4) as [id|]; [|done]. cbn [mbind option_bind].
  destruct (prot_pktid_audit p id _) as [p1|]; [|done]. cbn [mbind option_bind].
  by destruct (dhd_pktid_map_free _ id _ _) as [[[pkt out] m]|].
Qed.

(** [s] is [p] with the effects for the packets of the queue still owed. *)
Definition owes (s : lb_txc) (p : dhd_prot) (l u : list lb_pkt) : Prop :=
  queued n (tx_compl s) l u /\ lb_prot s = set_log p (p_log (lb_prot s)) /\
  p_log (lb_prot s) ++ ((l ++ u) ≫= release) ≡ₚ p_log p.

Lemma owes_complete s p l u msg p1 pkt out p' :
  owes s p l u -> dhd_prot_txstatus_process p msg = Some p1 -> txstatus_front p msg = Some (pkt, out, p') -> pkt <> 0 ->
  exists s' l' u', dhd_prot_txstatus_process_lb s msg = Some s' /\ owes s' p1 l' u'.
Proof.
  intros (Hq & Hp & Hperm) Hd Hf Hpkt. rewrite direct_front, Hf in Hd. cbn [mbind option_bind] in Hd.
  rewrite (proj2 (Z.eqb_neq _ _) Hpkt) in Hd. cbn [negb] in Hd.
  destruct out as [[[[pa len] dm] sd]|]; [|done]. cbn [mbind option_bind] in Hd. injection Hd as <-.
  destruct (front_log _ _ _ _ _ Hf) as (e & He & Hlog).
  unfold dhd_prot_txstatus_process_lb. rewrite Hp, Hlog. cbn [mbind option_bind].
  rewrite (proj2 (Z.eqb_neq _ _) Hpkt). cbn [p_log set_log].
  set (it := {| lb_ptr := pkt; lb_pa := pa; lb_len := len |}).
  destruct (produce_spec _ l u (tx_compl_prod_sync s) it Hq) as [->|(q' & sync' & l' & u' & -> & Hq' & Happ)];
    cbn [mbind option_bind].
  - eexists _, l, u. split; [done|]. split_and!; [done|done|]. cbn [lb_prot emit p_log set_log].
    rewrite He, <- Hperm. solve_Permutation.
  - eexists _, l', u'. split; [done|]. split_and!; [done|done|]. cbn [lb_prot emit p_log set_log].
    rewrite Happ, bind_app, He, <- Hperm. cbn [mbind list_bind app]. solve_Permutation.
Qed.

Lemma owes_dispatch s p l u : owes s p l u -> owes (dhd_lb_dispatch_txc s) p (l ++ u) [].
Proof. intros (Hq & Hp & Hperm). split; [by apply queued_prod_sync|]. by rewrite app_nil_r. Qed.

Lemma owes_tasklet s p l u :
  owes s p l u -> exists s', dhd_lb_tx_compl_handler s = Some s' /\ owes s' p [] u.
Proof.
  intros (Hq & Hp & Hperm). pose proof (queued_bound n _ _ _ Hq) as Hb. rewrite length_app in Hb.
  destruct (loop_spec (Z.to_nat n) _ l u (lb_prot s) Hq) as (q' & Hl & Hq'); [lia|].
  unfold dhd_lb_tx_compl_handler. rewrite Hl. cbn [mbind option_bind]. eexists. split; [done|].
  split; [by apply queued_cons_sync|]. cbn [lb_prot emit p_log]. split; [by rewrite Hp at 1|].
  cbn [app]. rewrite <- Hperm, bind_app. by rewrite app_assoc.
Qed.

Lemma owes_run es s p l u p1 :
  owes s p l u -> direct_run p es = Some p1 -> all_found p es ->
  exists s' l' u', lb_run s es = Some s' /\ owes s' p1 l' u'.
Proof.
  revert s p l u. induction es as [|[msg| |] es IH]; intros s p l u Ho Hd Ha; cbn [lb_run lb_exec direct_run all_found] in *.
  - injection Hd as <-. by eauto 6.
  - destruct Ha as [(pkt & out & p' & Hf & Hpkt) (p2 & Hp2 & Ha)]. rewrite Hp2 in Hd. cbn [mbind option_bind] in Hd.
    destruct (owes_complete _ _ _ _ _ _ _ _ _ Ho Hp2 Hf Hpkt) as (s' & l' & u' & -> & Ho'). by apply (IH s' p2 l' u').
  - apply (IH _ p _ _ (owes_dispatch _ _ _ _ Ho)); done.
  - destruct (owes_tasklet _ _ _ _ Ho) as (s' & -> & Ho'). by apply (IH s' p [] u).
Qed.

Lemma lb_run_app s es fs : lb_run s (es ++ fs) = s ← lb_run s es; lb_run s fs.
Proof. revert s. induction es as [|e es IH]; intros s; cbn [lb_run app]; [done|]. destruct (lb_exec s e); cbn; [apply IH|done]. Qed.
End lb.

(** C20: equivalence of the two builds: for any completions, each of a packet the
    map holds, however dispatches and runs of the tasklet come between them and
    whether the queue fills up or not, the load-balanced driver does not fail;
    and after one more dispatch and one run of the tasklet its queue is empty,
    its state is that of the driver that frees in place, and its effects, each
    unmap, completion and free, are the same up to their order. *)
Theorem lb_txc_equiv n buf sync p es p1 :
  0 < n < 2 ^ 31 -> Z.of_nat (length buf) = n ->
  direct_run p es = Some p1 -> all_found p es ->
  exists s, lb_run n {| lb_prot := p; tx_compl := bcm_workq_init buf n; tx_compl_prod_sync := sync |}
                   (es ++ [LbDispatch; LbTasklet]) = Some s /\
    queued n (tx_compl s) [] [] /\ lb_prot s = set_log p1 (p_log (lb_prot s)) /\ p_log (lb_prot s) ≡ₚ p_log p1.
Proof.
  intros Hn Hb Hd Ha.
  destruct (owes_run n es {| lb_prot := p; tx_compl := bcm_workq_init buf n; tx_compl_prod_sync := sync |} p [] [] p1)
    as (s & l & u & Hs & Ho); [|done..|].
  { split; [by apply queued_init|]. split; [by destruct p|]. cbn. by rewrite app_nil_r. }
  rewrite lb_run_app, Hs. cbn [mbind option_bind lb_run lb_exec].
  destruct (owes_tasklet n _ _ _ _ (owes_dispatch n _ _ _ _ Ho)) as (s' & -> & Hq & Hp & Hperm).
  exists s'. split_and!; try done. rewrite <- Hperm. cbn. by rewrite app_nil_r.
Qed.

(** A completion of a packet id the map does not hold: the driver that
    frees in place ignores it, the load-balanced one writes into the tag of the
    NULL packet. *)
Theorem lb_txc_null n s msg out p1 :
  txstatus_front (lb_prot s) msg = Some (0, out, p1) ->
  dhd_prot_txstatus_process (lb_prot s) msg = Some p1 /\ dhd_prot_txstatus_process_lb n s msg = None.
Proof.
  intros Hf. unfold dhd_prot_txstatus_process_lb. rewrite direct_front, Hf. by split.
Qed.

(** ** A sample: two packets, a queue of two slots *)
Definition lb_sample_map : dhd_pktid_map :=
  default (mk_pktid_map 0 0 0 None [] [])
    (m ← dhd_pktid_map_init true true 3; m ← m;
     '(a, m) ← dhd_pktid_map_alloc m 100 7 60 1 8 9 PKTTYPE_DATA_TX;
     '(b, m) ← dhd_pktid_map_alloc m 101 8 80 1 8 9 PKTTYPE_DATA_TX; Some m).
Definition lb_sample_prot : dhd_prot :=
  {| p_pub := filled_pub;
     p_flow_ring_table := true; p_info := ∅; h2d_rings := []; pktid_map_handle := lb_sample_map;
     active_tx_count := 2; txp_threshold := 2; tx_metadata_offset := 0; rx_metadata_offset := 0;
     rxbufpost := 0; max_rxbufpost := 33; rx_dataoffset := 0; rx_pktgetfail := 0; p_log := [] |}.
Definition lb_sample_msg (id : Z) : list Z := [16; 0; 0; 0] ++ le_bytes 4 id.
Definition lb_sample_run : list lb_event := [LbComplete (lb_sample_msg 3); LbComplete (lb_sample_msg 2)].

Lemma lb_txc_equiv_witness :
  exists p1 s, direct_run lb_sample_prot lb_sample_run = Some p1 /\
    lb_run 2 {| lb_prot := lb_sample_prot; tx_compl := bcm_workq_init (repeat {| lb_ptr := 0; lb_pa := 0; lb_len := 0 |} 2) 2;
                tx_compl_prod_sync := 0 |} (lb_sample_run ++ [LbDispatch; LbTasklet]) = Some s /\
    p_log (lb_prot s) ≡ₚ p_log p1.
Proof.
  destruct (direct_run lb_sample_prot lb_sample_run) as [p1|] eqn:E; [|vm_compute in E; discriminate].
  destruct (lb_txc_equiv 2 (repeat {| lb_ptr := 0; lb_pa := 0; lb_len := 0 |} 2) 0 lb_sample_prot lb_sample_run p1) as (s & Hs & _ & _ & Hp).
  - lia.
  - reflexivity.
  - exact E.
  - split; [eexists _, _, _; split; [vm_compute; reflexivity|discriminate]|].
    eexists. split; [vm_compute; reflexivity|].
    split; [eexists _, _, _; split; [vm_compute; reflexivity|discriminate]|].
    eexists. split; [vm_compute; reflexivity|exact I].
  - exists p1, s. split; [reflexivity|]. split; [exact Hs|exact Hp].
Defined.
Lemma lb_txc_null_witness :
  exists p1, dhd_prot_txstatus_process lb_sample_prot (lb_sample_msg 1) = Some p1 /\
    dhd_prot_txstatus_process_lb 2 {| lb_prot := lb_sample_prot; tx_compl := bcm_workq_init [] 2; tx_compl_prod_sync := 0 |}
      (lb_sample_msg 1) = None.
Proof.
  eexists.
  apply (lb_txc_null 2 {| lb_prot := lb_sample_prot; tx_compl := bcm_workq_init [] 2; tx_compl_prod_sync := 0 |} _ None).
  vm_compute. reflexivity.
Defined.
