(* ===== verification/CircBuf.v ===== *)
(** * The circular buffer (shared/circularbuf.c)

    A buffer of [depth] bytes in host memory.  The producer reserves regions,
    writes them in any order (DMA) and completes them in order; the consumer
    takes regions and completes them.  A region never wraps: [e_ptr] is where the
    data ends when the producer went back to the start.  Offsets into the buffer
    are what the code has as pointers ([CIRCULARBUF_START] is 0); built without
    CBUF_DEBUG. *)
From Stdlib Require Import ZArith Lia.
From stdpp Require Import base option numbers list.
From S2P Require Import Prelude Bytes.

Record circularbuf := {
  depth : Z; r_ptr : Z; w_ptr : Z; e_ptr : Z; wp_ptr : Z; rp_ptr : Z;     (* uint16 *)
  mb_ring_bell : bool      (* a callback is registered *)
}.
Inductive cbuf_effect :=
  | OSL_CACHE_FLUSH (off len : Z)
  | OSL_CACHE_INV (off len : Z)
  | RingBell.

Definition CIRCULARBUF_READ_SPACE_AT_END (h : circularbuf) : Z :=
  if rp_ptr h <=? w_ptr h then w_ptr h - rp_ptr h else e_ptr h - rp_ptr h.
Definition CIRCULARBUF_READ_SPACE_AVAIL (h : circularbuf) : Z :=
  if (CIRCULARBUF_READ_SPACE_AT_END h =? 0) && (w_ptr h <? rp_ptr h) then w_ptr h
  else CIRCULARBUF_READ_SPACE_AT_END h.

Definition set_write (h : circularbuf) (e wp : Z) : circularbuf :=
  {| depth := depth h; r_ptr := r_ptr h; w_ptr := w_ptr h; e_ptr := e; wp_ptr := wp; rp_ptr := rp_ptr h; mb_ring_bell := mb_ring_bell h |}.
Definition set_w (h : circularbuf) (w : Z) : circularbuf :=
  {| depth := depth h; r_ptr := r_ptr h; w_ptr := w; e_ptr := e_ptr h; wp_ptr := wp_ptr h; rp_ptr := rp_ptr h; mb_ring_bell := mb_ring_bell h |}.
Definition set_read (h : circularbuf) (r rp : Z) : circularbuf :=
  {| depth := depth h; r_ptr := r; w_ptr := w_ptr h; e_ptr := e_ptr h; wp_ptr := wp_ptr h; rp_ptr := rp; mb_ring_bell := mb_ring_bell h |}.

Definition circularbuf_init (total_buf_len : Z) : circularbuf :=
  {| depth := u16 total_buf_len; r_ptr := 0; w_ptr := 0; e_ptr := u16 total_buf_len; wp_ptr := 0; rp_ptr := 0; mb_ring_bell := false |}.
Definition circularbuf_register_cb (h : circularbuf) (mb_ring_func : bool) : circularbuf :=
  {| depth := depth h; r_ptr := r_ptr h; w_ptr := w_ptr h; e_ptr := e_ptr h; wp_ptr := wp_ptr h; rp_ptr := rp_ptr h; mb_ring_bell := mb_ring_func |}.

(** [None] is NULL.  avail_space is an int16. *)
Definition circularbuf_reserve_for_write (h : circularbuf) (size : Z) : option Z * circularbuf :=
  let avail_space := wraps 16 (if r_ptr h <=? wp_ptr h then depth h - wp_ptr h else r_ptr h - wp_ptr h) in
  if size <? avail_space then (Some (wp_ptr h), set_write h (e_ptr h) (u16 (wp_ptr h + size))) else
  if (r_ptr h <=? wp_ptr h) && (size <? wraps 16 (r_ptr h)) then (Some 0, set_write h (wp_ptr h) size)
  else (None, h).

Definition circularbuf_write_complete (h : circularbuf) (bytes_written : Z) : circularbuf * list cbuf_effect :=
  let bell := if mb_ring_bell h then [RingBell] else [] in
  if depth h <=? w_ptr h + bytes_written then (set_w h bytes_written, OSL_CACHE_FLUSH 0 bytes_written :: bell)
  else (set_w h (u16 (w_ptr h + bytes_written)), OSL_CACHE_FLUSH (w_ptr h) bytes_written :: bell).

(** The address and the available length. *)
Definition circularbuf_get_read_ptr (h : circularbuf) : option (Z * Z) * circularbuf * list cbuf_effect :=
  let available_len := u16 (CIRCULARBUF_READ_SPACE_AVAIL h) in
  if available_len =? 0 then (None, h, []) else
  let ret_addr := if CIRCULARBUF_READ_SPACE_AT_END h =? 0 then 0 else rp_ptr h in
  (Some (ret_addr, available_len), set_read h (r_ptr h) (u16 (ret_addr + available_len)), [OSL_CACHE_INV ret_addr available_len]).

Definition circularbuf_read_complete (h : circularbuf) (bytes_read : Z) : circularbuf :=
  set_read h (if (w_ptr h <? e_ptr h) && (e_ptr h <? r_ptr h + bytes_read) then bytes_read else u16 (r_ptr h + bytes_read)) (rp_ptr h).
Definition circularbuf_revert_rp_ptr (h : circularbuf) (bytes : Z) : circularbuf :=
  set_read h (r_ptr h) (u16 (rp_ptr h - bytes)).

(** ** Producer and consumer

    [cs_pm], [cs_cm]: the buffer as the producer and the consumer see it through
    their caches; [cs_mem]: the memory between them.  [cs_ps], [cs_rs]: regions
    reserved and not completed, taken and not consumed.  [cs_rev]: the last
    taken region was not reverted yet.  [cs_sent]: the bytes of the completed
    regions; [cs_recv]: the bytes consumed. *)
Record cbuf_sys := {
  cs_h : circularbuf;
  cs_pm : list Z; cs_mem : list Z; cs_cm : list Z;
  cs_ps : list (Z * Z); cs_rs : list (Z * Z); cs_rev : bool;
  cs_sent : list Z; cs_recv : list Z
}.
Inductive cbuf_op :=
  | Reserve (size : Z)
  | Store (k : nat) (data : list Z)      (* into the k-th reserved region *)
  | Complete                             (* the oldest one *)
  | Take
  | Untake (bytes : Z)                   (* the end of the region taken last *)
  | Consume.                             (* the oldest one *)

(** Copy a region of one memory to the other. *)
Definition copy_region (from to : list Z) (off len : Z) : option (list Z) :=
  bs ← ld_bytes from off (Z.to_nat len); st_bytes to off bs.
Fixpoint cache_effects (l : list cbuf_effect) (pm mem cm : list Z) : option (list Z * list Z) :=
  match l with
  | [] => Some (mem, cm)
  | OSL_CACHE_FLUSH o n :: l => mem ← copy_region pm mem o n; cache_effects l pm mem cm
  | OSL_CACHE_INV o n :: l => cm ← copy_region mem cm o n; cache_effects l pm mem cm
  | RingBell :: l => cache_effects l pm mem cm
  end.

(** A region without its last [bytes]. *)
Definition shorten (c : Z * Z) (bytes : Z) : list (Z * Z) :=
  if snd c - bytes =? 0 then [] else [(fst c, snd c - bytes)].

Definition cbuf_step (op : cbuf_op) (s : cbuf_sys) : option cbuf_sys :=
  let h := cs_h s in
  match op with
  | Reserve size =>
      let w := circularbuf_reserve_for_write h size in
      Some {| cs_h := snd w; cs_pm := cs_pm s; cs_mem := cs_mem s; cs_cm := cs_cm s;
              cs_ps := match fst w with Some o => cs_ps s ++ [(o, size)] | None => cs_ps s end;
              cs_rs := cs_rs s; cs_rev := cs_rev s; cs_sent := cs_sent s; cs_recv := cs_recv s |}
  | Store k data =>
      '(o, _) ← cs_ps s !! k;
      pm ← st_bytes (cs_pm s) o data;
      Some {| cs_h := h; cs_pm := pm; cs_mem := cs_mem s; cs_cm := cs_cm s; cs_ps := cs_ps s;
              cs_rs := cs_rs s; cs_rev := cs_rev s; cs_sent := cs_sent s; cs_recv := cs_recv s |}
  | Complete =>
      '(o, n) ← head (cs_ps s);
      data ← ld_bytes (cs_pm s) o (Z.to_nat n);
      let w := circularbuf_write_complete h n in
      '(mem, cm) ← cache_effects (snd w) (cs_pm s) (cs_mem s) (cs_cm s);
      Some {| cs_h := fst w; cs_pm := cs_pm s; cs_mem := mem; cs_cm := cm; cs_ps := tail (cs_ps s);
              cs_rs := cs_rs s; cs_rev := cs_rev s; cs_sent := cs_sent s ++ data; cs_recv := cs_recv s |}
  | Take =>
      let ret := fst (fst (circularbuf_get_read_ptr h)) in
      '(mem, cm) ← cache_effects (snd (circularbuf_get_read_ptr h)) (cs_pm s) (cs_mem s) (cs_cm s);
      Some {| cs_h := snd (fst (circularbuf_get_read_ptr h)); cs_pm := cs_pm s; cs_mem := mem; cs_cm := cm; cs_ps := cs_ps s;
              cs_rs := match ret with Some c => cs_rs s ++ [c] | None => cs_rs s end;
              cs_rev := match ret with Some _ => true | None => cs_rev s end; cs_sent := cs_sent s; cs_recv := cs_recv s |}
  | Untake bytes =>
      c ← last (cs_rs s);
      Some {| cs_h := circularbuf_revert_rp_ptr h bytes; cs_pm := cs_pm s; cs_mem := cs_mem s; cs_cm := cs_cm s; cs_ps := cs_ps s;
              cs_rs := take (length (cs_rs s) - 1) (cs_rs s) ++ shorten c bytes;
              cs_rev := false; cs_sent := cs_sent s; cs_recv := cs_recv s |}
  | Consume =>
      '(o, n) ← head (cs_rs s);
      data ← ld_bytes (cs_cm s) o (Z.to_nat n);
      Some {| cs_h := circularbuf_read_complete h n; cs_pm := cs_pm s; cs_mem := cs_mem s; cs_cm := cs_cm s; cs_ps := cs_ps s;
              cs_rs := tail (cs_rs s); cs_rev := cs_rev s; cs_sent := cs_sent s; cs_recv := cs_recv s ++ data |}
  end.

(** Sizes are uint16, a store stays in its region, only the end of the region
    taken last is given back, once. *)
Definition cbuf_legal (s : cbuf_sys) (op : cbuf_op) : bool :=
  match op with
  | Reserve size => (0 <=? size) && (size <? 65536)
  | Store k data => match cs_ps s !! k with Some (_, n) => Z.of_nat (length data) <=? n | None => false end
  | Complete => negb (bool_decide (cs_ps s = []))
  | Take => true
  | Untake bytes => cs_rev s && match last (cs_rs s) with Some (_, n) => (0 <=? bytes) && (bytes <=? n) | None => false end
  | Consume => negb (bool_decide (cs_rs s = []))
  end.
Fixpoint cbuf_run (ops : list cbuf_op) (s : cbuf_sys) : option cbuf_sys :=
  match ops with [] => Some s | op :: ops => s ← cbuf_step op s; cbuf_run ops s end.
Fixpoint cbuf_legal_run (ops : list cbuf_op) (s : cbuf_sys) : bool :=
  match ops with
  | [] => true
  | op :: ops => cbuf_legal s op && match cbuf_step op s with Some s => cbuf_legal_run ops s | None => true end
  end.
Definition cbuf_start (d : Z) (mem : list Z) : cbuf_sys :=
  {| cs_h := circularbuf_register_cb (circularbuf_init d) true; cs_pm := mem; cs_mem := mem; cs_cm := mem; cs_ps := []; cs_rs := [];
     cs_rev := false; cs_sent := []; cs_recv := [] |}.

(** ** Regions of a memory *)
Definition rd (m : list Z) (o n : Z) : list Z := take (Z.to_nat n) (drop (Z.to_nat o) m).

Lemma rd_length m o n : 0 <= o -> 0 <= n -> o + n <= Z.of_nat (length m) -> Z.of_nat (length (rd m o n)) = n.
Proof. intros. unfold rd. rewrite length_take, length_drop. lia. Qed.
Lemma rd_0 m o : rd m o 0 = [].
Proof. done. Qed.

Lemma aget_rd m o n j : 0 <= o -> 0 <= j < n -> o + n <= Z.of_nat (length m) -> aget (rd m o n) j = aget m (o + j).
Proof.
  intros Ho Hj Hl. unfold aget, rd. rewrite !(proj2 (Z.leb_le 0 _)) by lia.
  rewrite lookup_take_lt, lookup_drop by lia. f_equal. lia.
Qed.

Lemma ld_bytes_rd m o n : 0 <= o -> 0 <= n -> o + n <= Z.of_nat (length m) -> ld_bytes m o (Z.to_nat n) = Some (rd m o n).
Proof.
  intros Ho Hn Hl. destruct (ld_bytes_Some m o (Z.to_nat n)) as (bs & -> & Hb & Hg); [lia|lia|]. f_equal.
  pose proof (rd_length m o n Ho Hn Hl). apply aget_ext; [lia|]. intros j Hj. rewrite Hg, aget_rd by lia. done.
Qed.

Lemma rd_split m o a b : 0 <= o -> 0 <= a -> 0 <= b -> rd m o (a + b) = rd m o a ++ rd m (o + a) b.
Proof.
  intros Ho Ha Hb. unfold rd. rewrite !Z2Nat.inj_add by lia. rewrite <- drop_drop, <- take_take_drop. done.
Qed.

(** Regions are the same where the memories are. *)
Lemma rd_ext m m' o n :
  0 <= o -> 0 <= n -> o + n <= Z.of_nat (length m) -> length m' = length m ->
  (forall j, o <= j < o + n -> aget m' j = aget m j) -> rd m' o n = rd m o n.
Proof.
  intros Ho Hn Hl Hl' He. pose proof (rd_length m o n Ho Hn Hl). pose proof (rd_length m' o n Ho Hn ltac:(lia)).
  apply aget_ext; [lia|]. intros j Hj. rewrite !aget_rd by lia. apply He. lia.
Qed.

Lemma copy_region_Some from to o n :
  0 <= o -> 0 <= n -> o + n <= Z.of_nat (length from) -> length to = length from ->
  exists to', copy_region from to o n = Some to' /\ length to' = length to /\
    forall j, aget to' j = if decide (o <= j < o + n) then aget from j else aget to j.
Proof.
  intros Ho Hn Hl Hl'. unfold copy_region. rewrite ld_bytes_rd by done. cbn [mbind option_bind].
  pose proof (rd_length from o n Ho Hn Hl) as Hr. destruct (st_bytes_Some to o (rd from o n)) as (to' & E & Hl2 & Hg); [lia|lia|].
  exists to'. split; [done|]. split; [done|]. intros j. rewrite Hg, Hr. destruct (decide _); [|done]. rewrite aget_rd by lia. f_equal. lia.
Qed.

(** ** Chains of regions *)
Fixpoint chain (a : Z) (l : list (Z * Z)) (b : Z) : Prop :=
  match l with [] => a = b | (o, n) :: l => o = a /\ 0 <= n /\ chain (a + n) l b end.

Lemma chain_app a l1 l2 c : chain a (l1 ++ l2) c <-> exists b, chain a l1 b /\ chain b l2 c.
Proof.
  revert a. induction l1 as [|[o n] l1 IH]; intros a; cbn [chain app].
  - split; [by exists a|]. by intros (b & -> & ?).
  - rewrite IH. naive_solver.
Qed.
Lemma chain_le a l b : chain a l b -> a <= b.
Proof. revert a. induction l as [|[o n] l IH]; intros a; cbn [chain]; [lia|]. intros (-> & ? & H%IH). lia. Qed.
Lemma chain_in a l b o n : chain a l b -> (o, n) ∈ l -> a <= o /\ 0 <= n /\ o + n <= b.
Proof.
  revert a. induction l as [|[o' n'] l IH]; intros a; cbn [chain]; [by intros _ ?%not_elem_of_nil|].
  intros (-> & Hn & H) [[= -> ->]|Hin]%elem_of_cons; [apply chain_le in H; lia|]. destruct (IH _ H Hin). lia.
Qed.
(** Regions of a chain follow each other. *)
Lemma chain_sorted a l b i j o n o' n' :
  chain a l b -> l !! i = Some (o, n) -> l !! j = Some (o', n') -> (i < j)%nat -> o + n <= o'.
Proof.
  revert a i j. induction l as [|[x y] l IH]; intros a i j; cbn [chain]; [done|]. intros (-> & Hn & H).
  destruct i as [|i], j as [|j]; cbn [lookup list_lookup]; try lia.
  - intros [= -> ->] Hj _. apply list_elem_of_lookup_2 in Hj. by destruct (chain_in _ _ _ _ _ H Hj).
  - intros Hi Hj ?. apply (IH _ i j H Hi Hj). lia.
Qed.

(** ** The invariant

    Where the four arcs (taken, readable, reserved, free) lie.  [wrapped]: the
    unread data is [r_ptr..e_ptr) and [0..w_ptr), otherwise [r_ptr..w_ptr). *)
Inductive shape (h : circularbuf) (ps rs : list (Z * Z)) (rev : bool) : bool -> Prop :=
  | sh_flat : 0 <= r_ptr h -> chain (r_ptr h) rs (rp_ptr h) -> rp_ptr h <= w_ptr h -> chain (w_ptr h) ps (wp_ptr h) ->
      wp_ptr h < depth h -> shape h ps rs rev false
  | sh_reserved ps1 ps2 n : ps = ps1 ++ (0, n) :: ps2 -> 0 <= r_ptr h -> chain (r_ptr h) rs (rp_ptr h) -> rp_ptr h <= w_ptr h ->
      chain (w_ptr h) ps1 (e_ptr h) -> chain 0 ((0, n) :: ps2) (wp_ptr h) -> depth h <= e_ptr h + n -> e_ptr h < depth h ->
      wp_ptr h < r_ptr h -> shape h ps rs rev false
  | sh_written : chain (r_ptr h) rs (rp_ptr h) -> rp_ptr h <= e_ptr h -> e_ptr h < depth h -> 0 < w_ptr h ->
      chain (w_ptr h) ps (wp_ptr h) -> wp_ptr h < r_ptr h -> shape h ps rs rev true
  | sh_taken rs1 rs2 : rs = rs1 ++ rs2 -> chain (r_ptr h) rs1 (e_ptr h) -> chain 0 rs2 (rp_ptr h) -> (rev = true -> rs2 <> []) ->
      rp_ptr h <= w_ptr h -> 0 < w_ptr h -> e_ptr h < depth h -> chain (w_ptr h) ps (wp_ptr h) -> wp_ptr h < r_ptr h ->
      shape h ps rs rev true.

Definition owned (h : circularbuf) (wrapped : bool) (j : Z) : Prop :=
  if wrapped then r_ptr h <= j < e_ptr h \/ 0 <= j < w_ptr h else r_ptr h <= j < w_ptr h.
Definition content (m : list Z) (h : circularbuf) (wrapped : bool) : list Z :=
  if wrapped then rd m (r_ptr h) (e_ptr h - r_ptr h) ++ rd m 0 (w_ptr h) else rd m (r_ptr h) (w_ptr h - r_ptr h).

Record cbuf_ok (d : Z) (s : cbuf_sys) (wrapped : bool) : Prop := {
  co_depth : depth (cs_h s) = d /\ 0 < d < 32768;
  co_len : Z.of_nat (length (cs_mem s)) = d /\ length (cs_pm s) = length (cs_mem s) /\ length (cs_cm s) = length (cs_mem s);
  co_shape : shape (cs_h s) (cs_ps s) (cs_rs s) (cs_rev s) wrapped;
  co_pos : Forall (fun c => 0 < snd c) (cs_rs s);
  co_taken : forall o n j, (o, n) ∈ cs_rs s -> o <= j < o + n -> aget (cs_cm s) j = aget (cs_mem s) j;
  co_sent : cs_sent s = cs_recv s ++ content (cs_mem s) (cs_h s) wrapped
}.

(** Bounds that all four cases give. *)
Lemma shape_bounds h ps rs rev b :
  shape h ps rs rev b -> 0 <= r_ptr h /\ r_ptr h <= depth h /\ 0 <= w_ptr h < depth h /\ 0 <= wp_ptr h < depth h /\ 0 <= rp_ptr h <= depth h /\
    (b = true -> w_ptr h <= wp_ptr h < r_ptr h /\ r_ptr h <= e_ptr h < depth h) /\ (b = false -> r_ptr h <= w_ptr h).
Proof.
  intros [H1 H2%chain_le H3 H4%chain_le H5|ps1 ps2 n -> H1 H2%chain_le H3 H4%chain_le H5%chain_le H6 H7 H8|
    H1%chain_le H2 H3 H4 H5%chain_le H6|rs1 rs2 -> H1%chain_le H2%chain_le H3 H4 H5 H6 H7%chain_le H8]; split_and!; try done; try lia.
Qed.

Lemma shape_ps h ps rs rev b o n :
  shape h ps rs rev b -> (o, n) ∈ ps -> 0 <= o /\ 0 <= n /\ o + n <= depth h /\ forall j, o <= j < o + n -> ~ owned h b j.
Proof.
  intros Hs Hin. pose proof (shape_bounds _ _ _ _ _ Hs) as Hb.
  destruct Hs as [H1 H2 H3 H4 H5|ps1 ps2 k -> H1 H2 H3 H4 H5 H6 H7 H8|H1 H2 H3 H4 H5 H6|rs1 rs2 -> H1 H2 H3 H4 H5 H6 H7 H8].
  - destruct (chain_in _ _ _ _ _ H4 Hin) as (? & ? & ?). cbn [owned]. split_and!; try lia. 
  - apply elem_of_app in Hin as [Hin|Hin]; [destruct (chain_in _ _ _ _ _ H4 Hin) as (? & ? & ?)|destruct (chain_in _ _ _ _ _ H5 Hin) as (? & ? & ?)];
      cbn [owned]; split_and!; try lia.
  - destruct (chain_in _ _ _ _ _ H5 Hin) as (? & ? & ?). cbn [owned]. split_and!; try lia.
  - destruct (chain_in _ _ _ _ _ H7 Hin) as (? & ? & ?). cbn [owned]. split_and!; try lia.
Qed.

Lemma shape_rs h ps rs rev b o n :
  shape h ps rs rev b -> (o, n) ∈ rs -> 0 <= o /\ 0 <= n /\ o + n <= depth h /\ forall j, o <= j < o + n -> owned h b j.
Proof.
  intros Hs Hin. pose proof (shape_bounds _ _ _ _ _ Hs) as Hb.
  destruct Hs as [H1 H2 H3 H4 H5|ps1 ps2 k -> H1 H2 H3 H4 H5 H6 H7 H8|H1 H2 H3 H4 H5 H6|rs1 rs2 -> H1 H2 H3 H4 H5 H6 H7 H8].
  - destruct (chain_in _ _ _ _ _ H2 Hin) as (? & ? & ?). cbn [owned]. split_and!; try lia.
  - destruct (chain_in _ _ _ _ _ H2 Hin) as (? & ? & ?). cbn [owned]. split_and!; try lia.
  - destruct (chain_in _ _ _ _ _ H1 Hin) as (? & ? & ?). cbn [owned]. split_and!; try lia.
  - apply elem_of_app in Hin as [Hin|Hin]; [destruct (chain_in _ _ _ _ _ H1 Hin) as (? & ? & ?)|destruct (chain_in _ _ _ _ _ H2 Hin) as (? & ? & ?)];
      cbn [owned]; split_and!; try lia.
Qed.

Lemma content_ext m m' h b :
  0 <= r_ptr h -> 0 <= w_ptr h <= Z.of_nat (length m) -> (b = true -> r_ptr h <= e_ptr h <= Z.of_nat (length m)) ->
  (b = false -> r_ptr h <= w_ptr h) -> length m' = length m ->
  (forall j, owned h b j -> aget m' j = aget m j) -> content m' h b = content m h b.
Proof.
  intros Hr Hw He Hf Hl Ho. destruct b; cbn [content owned] in *.
  - specialize (He eq_refl). f_equal; (apply rd_ext; [lia|lia|lia|done|]; intros j Hj; apply Ho; lia).
  - specialize (Hf eq_refl). apply rd_ext; [lia|lia|lia|done|]. intros j Hj. apply Ho. lia.
Qed.

(** ** The functions on shapes *)
Lemma reserve_shape h ps rs rev b n :
  shape h ps rs rev b -> depth h < 32768 -> 0 <= n ->
  match circularbuf_reserve_for_write h n with
  | (None, h') => h' = h
  | (Some o, h') => depth h' = depth h /\ shape h' (ps ++ [(o, n)]) rs rev b /\ forall m, content m h' b = content m h b
  end.
Proof.
  intros Hs Hd Hn. pose proof (shape_bounds _ _ _ _ _ Hs) as Hb. unfold circularbuf_reserve_for_write.
  rewrite !(wraps_small 16) by (first [lia | destruct (_ <=? _); lia]).
  assert (forall a l c, chain a l c -> chain a (l ++ [(c, n)]) (c + n)) as Hc.
  { intros a l c H. apply chain_app. exists c. split; [done|]. by cbn [chain]. }
  destruct Hs as [H1 H2 H3 H4 H5|ps1 ps2 k -> H1 H2 H3 H4 H5 H6 H7 H8|H1 H2 H3 H4 H5 H6|rs1 rs2 -> H1 H2 Hv H3 H4 H5 H7 H8].
  - pose proof (chain_le _ _ _ H2). pose proof (chain_le _ _ _ H4). rewrite (proj2 (Z.leb_le (r_ptr h) (wp_ptr h))) by lia. cbn [andb].
    destruct (Z.ltb_spec n (depth h - wp_ptr h)).
    + rewrite (wrapu_small 16) by lia. split; [done|]. split; [|done]. apply sh_flat; cbn; try done; [by apply Hc|lia].
    + destruct (Z.ltb_spec n (r_ptr h)); [|done]. split; [done|]. split; [|done].
      apply (sh_reserved _ _ _ _ ps [] n); cbn; try done; lia.
  - rewrite (proj2 (Z.leb_gt (r_ptr h) (wp_ptr h))) by lia. cbn [andb]. destruct (Z.ltb_spec n (r_ptr h - wp_ptr h)); [|done].
    rewrite (wrapu_small 16) by lia. split; [done|]. split; [|done].
    apply (sh_reserved _ _ _ _ ps1 (ps2 ++ [(wp_ptr h, n)]) k); cbn; try done; [by rewrite <- app_assoc| |lia].
    apply (Hc _ ((0, k) :: ps2) _ H5).
  - rewrite (proj2 (Z.leb_gt (r_ptr h) (wp_ptr h))) by lia. cbn [andb]. destruct (Z.ltb_spec n (r_ptr h - wp_ptr h)); [|done].
    rewrite (wrapu_small 16) by lia. split; [done|]. split; [|done]. apply sh_written; cbn; try done; [by apply Hc|lia].
  - rewrite (proj2 (Z.leb_gt (r_ptr h) (wp_ptr h))) by lia. cbn [andb]. destruct (Z.ltb_spec n (r_ptr h - wp_ptr h)); [|done].
    rewrite (wrapu_small 16) by lia. split; [done|]. split; [|done]. apply (sh_taken _ _ _ _ rs1 rs2); cbn; try done; [by apply Hc|lia].
Qed.

Lemma complete_shape h ps rs rev b o n :
  shape h ((o, n) :: ps) rs rev b -> depth h < 32768 ->
  exists h' b', circularbuf_write_complete h n = (h', OSL_CACHE_FLUSH o n :: (if mb_ring_bell h then [RingBell] else [])) /\
    depth h' = depth h /\ shape h' ps rs rev b' /\ forall m, content m h' b' = content m h b ++ rd m o n.
Proof.
  intros Hs Hd. pose proof (shape_bounds _ _ _ _ _ Hs) as Hb. unfold circularbuf_write_complete.
  inversion Hs as [H1 H2 H3 H4 H5 E|ps1 ps2 k E H1 H2 H3 H4 H5 H6 H7 H8 E'|H1 H2 H3 H4 H5 H6 E|rs1 rs2 E H1 H2 Hv H3 H4 H5 H7 H8 E']; subst b.
  - destruct H4 as (-> & Hn & H4). pose proof (chain_le _ _ _ H4). pose proof (chain_le _ _ _ H2).
    rewrite (proj2 (Z.leb_gt (depth h) _)) by lia. rewrite (wrapu_small 16) by lia. eexists _, false. split; [done|]. split; [done|]. split.
    + apply sh_flat; cbn; try done; lia.
    + intros m. cbn. replace (w_ptr h + n - r_ptr h) with (w_ptr h - r_ptr h + n) by lia. rewrite rd_split by lia. do 2 f_equal; lia.
  - destruct ps1 as [|[o1 n1] ps1].
    + cbn in E. injection E as -> -> ->. cbn [chain] in H4. destruct H5 as (_ & Hn & H5). pose proof (chain_le _ _ _ H5).
      rewrite (proj2 (Z.leb_le (depth h) _)) by lia. eexists _, true. split; [done|]. split; [done|]. split.
      * apply sh_written; cbn; try done; lia.
      * intros m. cbn. by rewrite H4.
    + cbn in E. injection E as -> -> ->. destruct H4 as (-> & Hn & H4). pose proof (chain_le _ _ _ H4). pose proof (chain_le _ _ _ H2).
      rewrite (proj2 (Z.leb_gt (depth h) _)) by lia. rewrite (wrapu_small 16) by lia. eexists _, false. split; [done|]. split; [done|]. split.
      * apply (sh_reserved _ _ _ _ ps1 ps2 k); cbn; try done; lia.
      * intros m. cbn. replace (w_ptr h + n1 - r_ptr h) with (w_ptr h - r_ptr h + n1) by lia. rewrite rd_split by lia. do 2 f_equal; lia.
  - destruct H5 as (-> & Hn & H5). pose proof (chain_le _ _ _ H5).
    rewrite (proj2 (Z.leb_gt (depth h) _)) by lia. rewrite (wrapu_small 16) by lia. eexists _, true. split; [done|]. split; [done|]. split.
    + apply sh_written; cbn; try done; lia.
    + intros m. cbn. rewrite rd_split by lia. by rewrite app_assoc.
  - destruct H7 as (-> & Hn & H7). pose proof (chain_le _ _ _ H7).
    rewrite (proj2 (Z.leb_gt (depth h) _)) by lia. rewrite (wrapu_small 16) by lia. eexists _, true. split; [done|]. split; [done|]. split.
    + apply (sh_taken _ _ _ _ rs1 rs2); cbn; try done; lia.
    + intros m. cbn. rewrite rd_split by lia. by rewrite app_assoc.
Qed.

Lemma take_shape h ps rs rev b :
  shape h ps rs rev b -> depth h < 32768 ->
  match circularbuf_get_read_ptr h with
  | (None, h', l) => h' = h /\ l = [] /\ (rs = [] -> b = false /\ r_ptr h = w_ptr h)
  | (Some (o, n), h', l) => l = [OSL_CACHE_INV o n] /\ 0 < n /\ depth h' = depth h /\ shape h' ps (rs ++ [(o, n)]) true b /\
      forall m, content m h' b = content m h b
  end.
Proof.
  intros Hs Hd. pose proof (shape_bounds _ _ _ _ _ Hs) as Hb. unfold circularbuf_get_read_ptr.
  assert (forall a l c n, 0 <= n -> chain a l c -> chain a (l ++ [(c, n)]) (c + n)) as Hc.
  { intros a l c n Hn H. apply chain_app. exists c. split; [done|]. by cbn [chain]. }
  assert (rp_ptr h <= w_ptr h -> CIRCULARBUF_READ_SPACE_AT_END h = w_ptr h - rp_ptr h /\
    CIRCULARBUF_READ_SPACE_AVAIL h = w_ptr h - rp_ptr h) as Hup.
  { intros H. unfold CIRCULARBUF_READ_SPACE_AVAIL, CIRCULARBUF_READ_SPACE_AT_END. rewrite (proj2 (Z.leb_le _ _)) by lia.
    rewrite (proj2 (Z.ltb_ge _ _)) by lia. by rewrite andb_false_r. }
  destruct Hs as [H1 H2 H3 H4 H5|ps1 ps2 k -> H1 H2 H3 H4 H5 H6 H7 H8|H1 H2 H3 H4 H5 H6|rs1 rs2 -> H1 H2 Hv H3 H4 H5 H7 H8].
  - destruct (Hup H3) as [-> ->]. rewrite (wrapu_small 16) by lia. destruct (Z.eqb_spec (w_ptr h - rp_ptr h) 0).
    + split; [done|]. split; [done|]. intros ->. cbn in H2. split; [done|lia].
    + rewrite (wrapu_small 16) by lia. split; [done|]. split; [lia|]. split; [done|]. split; [|done].
      apply sh_flat; cbn; first [done|lia|apply Hc; [lia|done]].
  - destruct (Hup H3) as [-> ->]. rewrite (wrapu_small 16) by lia. destruct (Z.eqb_spec (w_ptr h - rp_ptr h) 0).
    + split; [done|]. split; [done|]. intros ->. cbn in H2. split; [done|lia].
    + rewrite (wrapu_small 16) by lia. split; [done|]. split; [lia|]. split; [done|]. split; [|done].
      apply (sh_reserved _ _ _ _ ps1 ps2 k); cbn; first [done|lia|apply Hc; [lia|done]].
  - pose proof (chain_le _ _ _ H1) as Hr. pose proof (chain_le _ _ _ H5).
    unfold CIRCULARBUF_READ_SPACE_AVAIL, CIRCULARBUF_READ_SPACE_AT_END. rewrite (proj2 (Z.leb_gt (rp_ptr h) _)) by lia.
    rewrite (proj2 (Z.ltb_lt (w_ptr h) _)) by lia. rewrite andb_true_r. destruct (Z.eqb_spec (e_ptr h - rp_ptr h) 0) as [E|E].
    + rewrite (wrapu_small 16) by lia. rewrite (proj2 (Z.eqb_neq (w_ptr h) 0)) by lia. rewrite (wrapu_small 16) by lia.
      split; [done|]. split; [lia|]. split; [done|]. split; [|done].
      apply (sh_taken _ _ _ _ rs [(0, w_ptr h)]); cbn; try done; [by replace (e_ptr h) with (rp_ptr h) by lia|lia].
    + rewrite (wrapu_small 16) by lia. rewrite (proj2 (Z.eqb_neq (e_ptr h - rp_ptr h) 0)) by lia. rewrite (wrapu_small 16) by lia.
      split; [done|]. split; [lia|]. split; [done|]. split; [|done].
      apply sh_written; cbn; first [done|lia|apply Hc; [lia|done]].
  - destruct (Hup H3) as [-> ->]. pose proof (chain_le _ _ _ H2). rewrite (wrapu_small 16) by lia. destruct (Z.eqb_spec (w_ptr h - rp_ptr h) 0).
    + split; [done|]. split; [done|]. intros [-> ->]%app_nil. cbn in H1, H2. lia.
    + rewrite (wrapu_small 16) by lia. split; [done|]. split; [lia|]. split; [done|]. split; [|done].
      apply (sh_taken _ _ _ _ rs1 (rs2 ++ [(rp_ptr h, w_ptr h - rp_ptr h)])); cbn; try done; [by rewrite app_assoc|apply Hc; [lia|done]| |lia].
      intros _ [_ ?]%app_nil. done.
Qed.

Lemma consume_shape h ps rs rev b o n :
  shape h ps ((o, n) :: rs) rev b -> depth h < 32768 -> 0 < n ->
  exists b', shape (circularbuf_read_complete h n) ps rs rev b' /\
    forall m, content m h b = rd m o n ++ content m (circularbuf_read_complete h n) b'.
Proof.
  intros Hs Hd Hn. pose proof (shape_bounds _ _ _ _ _ Hs) as Hb. unfold circularbuf_read_complete.
  assert ((e_ptr h < r_ptr h + n -> e_ptr h <= w_ptr h) -> r_ptr h + n < 65536 ->
    (if (w_ptr h <? e_ptr h) && (e_ptr h <? r_ptr h + n) then n else u16 (r_ptr h + n)) = r_ptr h + n) as Hin.
  { intros H H'. destruct (Z.ltb_spec (w_ptr h) (e_ptr h)), (Z.ltb_spec (e_ptr h) (r_ptr h + n)); cbn [andb]; try lia; apply (wrapu_small 16); lia. }
  inversion Hs as [H1 H2 H3 H4 H5 E|ps1 ps2 k E H1 H2 H3 H4 H5 H6 H7 H8 E'|H1 H2 H3 H4 H5 H6 E|rs1 rs2 E H1 H2 Hv H3 H4 H5 H7 H8 E']; subst b.
  - destruct H2 as (-> & _ & H2). pose proof (chain_le _ _ _ H2). pose proof (chain_le _ _ _ H4). rewrite Hin by lia.
    exists false. split; [apply sh_flat; cbn; try done; lia|]. intros m. cbn. rewrite <- rd_split by lia. f_equal. lia.
  - destruct H2 as (-> & _ & H2). pose proof (chain_le _ _ _ H2). pose proof (chain_le _ _ _ H4). rewrite Hin by lia.
    exists false. split; [apply (sh_reserved _ _ _ _ ps1 ps2 k); cbn; try done; lia|]. intros m. cbn. rewrite <- rd_split by lia. f_equal. lia.
  - destruct H1 as (-> & _ & H1). pose proof (chain_le _ _ _ H1). rewrite Hin by lia.
    exists true. split; [apply sh_written; cbn; try done; lia|]. intros m. cbn. rewrite app_assoc, <- rd_split by lia. do 2 f_equal. lia.
  - pose proof (chain_le _ _ _ H2). pose proof (chain_le _ _ _ H7). destruct rs1 as [|[o1 n1] rs1].
    + cbn in E. subst rs2. destruct H2 as (-> & _ & H2). pose proof (chain_le _ _ _ H2). cbn [chain] in H1.
      rewrite (proj2 (Z.ltb_lt (w_ptr h) _)), (proj2 (Z.ltb_lt (e_ptr h) _)) by lia. cbn [andb].
      exists false. split; [apply sh_flat; cbn; try done; lia|]. intros m. cbn. rewrite H1, Z.sub_diag, rd_0.
      cbn [app]. replace (w_ptr h) with (n + (w_ptr h - n)) at 1 by lia. by rewrite rd_split by lia.
    + cbn in E. injection E as <- <- ->. destruct H1 as (-> & _ & H1). pose proof (chain_le _ _ _ H1). rewrite Hin by lia.
      exists true. split; [apply (sh_taken _ _ _ _ rs1 rs2); cbn; try done; lia|].
      intros m. cbn. rewrite app_assoc, <- rd_split by lia. do 2 f_equal. lia.
Qed.

Lemma chain_shorten a l o n b k : chain a (l ++ [(o, n)]) b -> 0 <= k <= n -> chain a (l ++ shorten (o, n) k) (b - k) /\ b = o + n.
Proof.
  intros (c & H & -> & Hn & <-)%chain_app Hk. split; [|done]. apply chain_app. exists c. split; [done|]. unfold shorten. cbn [fst snd].
  destruct (Z.eqb_spec (n - k) 0); cbn [chain]; [lia|]. split; [done|]. lia.
Qed.

Lemma untake_shape h ps rs b o n k :
  shape h ps (rs ++ [(o, n)]) true b -> depth h < 32768 -> 0 <= k <= n -> shape (circularbuf_revert_rp_ptr h k) ps (rs ++ shorten (o, n) k) false b.
Proof.
  intros Hs Hd Hk. unfold circularbuf_revert_rp_ptr.
  assert (0 <= rp_ptr h - k <= depth h) as Hrp.
  { destruct (shape_rs _ _ _ _ _ o n Hs) as (Ho & Hn & _ & _); [apply elem_of_app; right; by left|]. pose proof (shape_bounds _ _ _ _ _ Hs) as Hb.
    inversion Hs as [H1 H2 H3 H4 H5 E|ps1 ps2 c E H1 H2 H3 H4 H5 H6 H7 H8 E'|H1 H2 H3 H4 H5 H6 E|rs1 rs2 E H1 H2 Hv H3 H4 H5 H7 H8 E']; subst b.
    1-3: match goal with Hc : chain _ (_ ++ [_]) _ |- _ => destruct (chain_shorten _ _ _ _ _ k Hc Hk) as [_ E1]; lia end.
    destruct rs2 as [|c rs2 _] using rev_ind; [by destruct Hv|]. rewrite app_assoc in E. apply app_inj_tail in E as [-> <-].
    destruct (chain_shorten _ _ _ _ _ k H2 Hk) as [_ E1]. lia. }
  rewrite (wrapu_small 16) by lia.
  inversion Hs as [H1 H2 H3 H4 H5 E|ps1 ps2 c E H1 H2 H3 H4 H5 H6 H7 H8 E'|H1 H2 H3 H4 H5 H6 E|rs1 rs2 E H1 H2 Hv H3 H4 H5 H7 H8 E']; subst b.
  - destruct (chain_shorten _ _ _ _ _ k H2 Hk) as [H2' _]. apply sh_flat; cbn; try done; lia.
  - destruct (chain_shorten _ _ _ _ _ k H2 Hk) as [H2' _]. apply (sh_reserved _ _ _ _ ps1 ps2 c); cbn; try done; lia.
  - destruct (chain_shorten _ _ _ _ _ k H1 Hk) as [H1' _]. apply sh_written; cbn; try done; lia.
  - destruct rs2 as [|c rs2 _] using rev_ind; [by destruct Hv|]. rewrite app_assoc in E. apply app_inj_tail in E as [-> <-].
    destruct (chain_shorten _ _ _ _ _ k H2 Hk) as [H2' _]. apply (sh_taken _ _ _ _ rs1 (rs2 ++ shorten (o, n) k)); cbn; try done; [by rewrite app_assoc|lia].
Qed.

(** ** Every step keeps the invariant *)
Lemma effects_flush pm mem cm o n bell :
  0 <= o -> 0 <= n -> o + n <= Z.of_nat (length pm) -> length mem = length pm -> (bell = [] \/ bell = [RingBell]) ->
  exists mem', cache_effects (OSL_CACHE_FLUSH o n :: bell) pm mem cm = Some (mem', cm) /\ length mem' = length mem /\
    forall j, aget mem' j = if decide (o <= j < o + n) then aget pm j else aget mem j.
Proof.
  intros Ho Hn Hl Hl' Hbell. cbn [cache_effects]. destruct (copy_region_Some pm mem o n) as (mem' & -> & Hl2 & Hg); [done..|].
  cbn [mbind option_bind]. exists mem'. split; [by destruct Hbell as [-> | ->]|done].
Qed.

Lemma complete_ok d s b : cbuf_ok d s b -> cbuf_legal s Complete = true -> exists s' b', cbuf_step Complete s = Some s' /\ cbuf_ok d s' b'.
Proof.
  intros [[H1 H2] (H3 & H4 & H5) H6 H7 H8 H9] Hl. cbn [cbuf_legal] in Hl. apply negb_true_iff, bool_decide_eq_false in Hl.
  destruct s as [h pm mem cm ps rs rev sent recv]; cbn [cs_h cs_pm cs_mem cs_cm cs_ps cs_rs cs_rev cs_sent cs_recv] in *.
  destruct ps as [|[o n] ps]; [done|]. pose proof (shape_bounds _ _ _ _ _ H6) as Hb.
  destruct (shape_ps _ _ _ _ _ o n H6) as (Ho & Hn & Hon & Hown); [by left|].
  destruct (complete_shape _ _ _ _ _ _ _ H6) as (h' & b' & E & Hd' & Hs' & Hc); [lia|].
  destruct (effects_flush pm mem cm o n (if mb_ring_bell h then [RingBell] else [])) as (mem' & Ee & Hl' & Hg);
    [done|done|lia|lia|by destruct (mb_ring_bell h); [right|left]|].
  cbn [cbuf_step head cs_ps cs_pm cs_h cs_mem cs_cm]. cbn [mbind option_bind]. rewrite ld_bytes_rd by lia. cbn [mbind option_bind].
  rewrite E. cbn [snd fst]. rewrite Ee. cbn [mbind option_bind]. eexists _, b'. split; [done|].
  assert (content mem' h b = content mem h b) as Hce.
  { apply content_ext; [lia|lia|intros ->; lia|intros ->; lia|done|]. intros j Hj. rewrite Hg, decide_False; [done|].
    intros Hj'. by apply (Hown j). }
  assert (rd mem' o n = rd pm o n) as Hrd.
  { rewrite (rd_ext pm mem' o n); [done|lia..|]. intros j Hj. by rewrite Hg, decide_True. }
  constructor; cbn [cs_h cs_pm cs_mem cs_cm cs_ps cs_rs cs_rev cs_sent cs_recv tail]; try done.
  - by rewrite Hd'.
  - split_and!; lia.
  - intros o' n' j Hin Hj. rewrite (H8 o' n' j Hin Hj), Hg, decide_False; [done|]. intros Hj'. apply (Hown j Hj').
    by apply (shape_rs _ _ _ _ _ o' n' H6 Hin).
  - by rewrite Hc, Hce, Hrd, H9, app_assoc.
Qed.

Lemma take_ok d s b : cbuf_ok d s b -> exists s' b', cbuf_step Take s = Some s' /\ cbuf_ok d s' b'.
Proof.
  intros [[H1 H2] (H3 & H4 & H5) H6 H7 H8 H9].
  destruct s as [h pm mem cm ps rs rev sent recv]; cbn [cs_h cs_pm cs_mem cs_cm cs_ps cs_rs cs_rev cs_sent cs_recv] in *.
  pose proof (take_shape _ _ _ _ _ H6 ltac:(lia)) as Ht. cbn [cbuf_step cs_h cs_pm cs_mem cs_cm cs_ps cs_rs cs_rev cs_sent cs_recv].
  destruct (circularbuf_get_read_ptr h) as [[[[o n]|] h'] l]; cbn [fst snd].
  - destruct Ht as (-> & Hn & Hd' & Hs' & Hc). destruct (shape_rs _ _ _ _ _ o n Hs') as (Ho & _ & Hon & _); [apply elem_of_app; right; by left|].
    cbn [cache_effects]. destruct (copy_region_Some mem cm o n) as (cm' & -> & Hl' & Hg); [lia..|]. cbn [mbind option_bind].
    eexists _, b. split; [done|]. constructor; cbn [cs_h cs_pm cs_mem cs_cm cs_ps cs_rs cs_rev cs_sent cs_recv]; try done.
    + by rewrite Hd'.
    + split_and!; lia.
    + apply Forall_app. split; [done|]. by constructor.
    + intros o' n' j Hin Hj. rewrite Hg. destruct (decide _) as [|Hne]; [done|]. apply elem_of_app in Hin as [Hin|Hin]; [by apply (H8 o' n')|].
      apply list_elem_of_singleton in Hin. by injection Hin as -> ->.
    + by rewrite Hc.
  - destruct Ht as (-> & -> & _). cbn [cache_effects mbind option_bind]. eexists _, b. split; [done|]. by constructor.
Qed.

Lemma cbuf_step_ok d op s b : cbuf_ok d s b -> cbuf_legal s op = true -> exists s' b', cbuf_step op s = Some s' /\ cbuf_ok d s' b'.
Proof.
  intros Hs Hl. destruct op as [n|k data| | |k|]; [| |by apply (complete_ok d s b)|by apply (take_ok d s b)|..];
    destruct Hs as [[H1 H2] (H3 & H4 & H5) H6 H7 H8 H9];
    destruct s as [h pm mem cm ps rs rev sent recv]; cbn [cs_h cs_pm cs_mem cs_cm cs_ps cs_rs cs_rev cs_sent cs_recv] in *;
    cbn [cbuf_step cbuf_legal cs_h cs_pm cs_mem cs_cm cs_ps cs_rs cs_rev cs_sent cs_recv] in *.
  - apply andb_true_iff in Hl as [Hn%Z.leb_le _]. eexists _, b. split; [done|].
    pose proof (reserve_shape _ _ _ _ _ n H6 ltac:(lia) Hn) as Hr.
    destruct (circularbuf_reserve_for_write h n) as [[o|] h']; cbn [fst snd]; [destruct Hr as (Hd' & Hs' & Hc)|subst h'];
      (constructor; cbn [cs_h cs_pm cs_mem cs_cm cs_ps cs_rs cs_rev cs_sent cs_recv]; try done); [by rewrite Hd'|by rewrite Hc].
  - destruct (ps !! k) as [[o n]|] eqn:E; [|done]. apply Z.leb_le in Hl. cbn [mbind option_bind].
    destruct (shape_ps _ _ _ _ _ o n H6) as (Ho & Hn & Hon & _); [by apply list_elem_of_lookup_2 in E|].
    destruct (st_bytes_Some pm o data) as (pm' & -> & Hl' & _); [lia|lia|]. cbn [mbind option_bind]. eexists _, b. split; [done|].
    constructor; cbn [cs_h cs_pm cs_mem cs_cm cs_ps cs_rs cs_rev cs_sent cs_recv]; try done. split_and!; lia.
  - destruct rev; [|done]. destruct rs as [|[o n] rs _] using rev_ind; [done|]. rewrite last_snoc in *. cbn [andb] in Hl.
    apply andb_true_iff in Hl as [Hk1%Z.leb_le Hk2%Z.leb_le]. cbn [mbind option_bind]. eexists _, b. split; [done|].
    rewrite length_app, Nat.add_sub, take_app_length. apply Forall_app in H7 as [H7 H7']. apply Forall_cons in H7' as [H7' _]. cbn [snd] in H7'.
    constructor; cbn [cs_h cs_pm cs_mem cs_cm cs_ps cs_rs cs_rev cs_sent cs_recv]; try done.
    + apply untake_shape; [done|lia|done].
    + apply Forall_app. split; [done|]. unfold shorten. cbn [fst snd]. destruct (Z.eqb_spec (n - k) 0); [done|]. constructor; [cbn; lia|done].
    + intros o' n' j [Hin|Hin]%elem_of_app Hj; [apply (H8 o' n'); [apply elem_of_app; by left|done]|].
      unfold shorten in Hin. cbn [fst snd] in Hin. destruct (Z.eqb_spec (n - k) 0); [by apply not_elem_of_nil in Hin|].
      apply list_elem_of_singleton in Hin. injection Hin as -> ->. apply (H8 o n); [apply elem_of_app; right; by left|lia].
  - apply negb_true_iff, bool_decide_eq_false in Hl. destruct rs as [|[o n] rs]; [done|]. cbn [head tail mbind option_bind].
    apply Forall_cons in H7 as [Hn H7]. cbn [snd] in Hn. destruct (shape_rs _ _ _ _ _ o n H6) as (Ho & _ & Hon & _); [by left|].
    rewrite ld_bytes_rd by lia. cbn [mbind option_bind]. destruct (consume_shape _ _ _ _ _ _ _ H6) as (b' & Hs' & Hc); [lia|done|].
    eexists _, b'. split; [done|]. constructor; cbn [cs_h cs_pm cs_mem cs_cm cs_ps cs_rs cs_rev cs_sent cs_recv]; try done.
    + intros o' n' j Hin. apply H8. by right.
    + rewrite H9, Hc, (rd_ext mem cm o n), app_assoc; [done|lia..|]. intros j Hj. apply (H8 o n); [by left|done].
Qed.

Lemma cbuf_run_ok d ops s b : cbuf_ok d s b -> cbuf_legal_run ops s = true -> exists s' b', cbuf_run ops s = Some s' /\ cbuf_ok d s' b'.
Proof.
  revert s b. induction ops as [|op ops IH]; intros s b Hs; cbn [cbuf_legal_run cbuf_run]; [intros _; by exists s, b|].
  intros [Hl Hl2]%andb_true_iff. destruct (cbuf_step_ok d op s b Hs Hl) as (s1 & b1 & E & Hs1).
  rewrite E in Hl2 |- *. cbn [mbind option_bind]. by apply (IH s1 b1).
Qed.

Lemma cbuf_start_ok d mem : 0 < d < 32768 -> Z.of_nat (length mem) = d -> cbuf_ok d (cbuf_start d mem) false.
Proof.
  intros Hd Hl. assert (u16 d = d) as Hu by (apply wrapu_small; lia).
  constructor; cbn [cbuf_start cs_h cs_pm cs_mem cs_cm cs_ps cs_rs cs_rev cs_sent cs_recv circularbuf_register_cb circularbuf_init depth]; try done.
  - apply sh_flat; cbn [circularbuf_register_cb circularbuf_init r_ptr w_ptr wp_ptr rp_ptr chain depth]; try done. rewrite Hu. lia.
Qed.

(** ** Properties *)
Definition drained (s : cbuf_sys) : Prop := cs_rs s = [] /\ fst (fst (circularbuf_get_read_ptr (cs_h s))) = None.
Definition apart (c c' : Z * Z) : Prop := fst c + snd c <= fst c' \/ fst c' + snd c' <= fst c.

(** Two reserved regions. *)
Lemma shape_apart h ps rs rev b i j p q :
  shape h ps rs rev b -> ps !! i = Some p -> ps !! j = Some q -> i <> j -> apart p q.
Proof.
  destruct p as [o n], q as [o' n']. intros Hs Hi Hj Hij. unfold apart; cbn [fst snd].
  assert (forall a c, chain a ps c -> o + n <= o' \/ o' + n' <= o) as Hc.
  { intros a c H. destruct (decide (i < j)%nat); [left; by apply (chain_sorted a ps c i j o n o' n')|].
    right. apply (chain_sorted a ps c j i o' n' o n); [done..|lia]. }
  pose proof (shape_bounds _ _ _ _ _ Hs) as Hb.
  destruct Hs as [H1 H2 H3 H4 H5|ps1 ps2 k -> H1 H2 H3 H4 H5 H6 H7 H8|H1 H2 H3 H4 H5 H6|rs1 rs2 -> H1 H2 Hv H3 H4 H5 H7 H8]; [by apply (Hc _ _ H4)| |by apply (Hc _ _ H5)|by apply (Hc _ _ H7)].
  apply lookup_app_Some in Hi as [Hi|[Hil Hi]]; apply lookup_app_Some in Hj as [Hj|[Hjl Hj]].
  - destruct (decide (i < j)%nat); [left; by apply (chain_sorted _ _ _ i j o n o' n' H4)|].
    right. apply (chain_sorted _ _ _ j i o' n' o n H4); [done..|lia].
  - apply list_elem_of_lookup_2 in Hi, Hj. destruct (chain_in _ _ _ _ _ H4 Hi), (chain_in _ _ _ _ _ H5 Hj). lia.
  - apply list_elem_of_lookup_2 in Hi, Hj. destruct (chain_in _ _ _ _ _ H5 Hi), (chain_in _ _ _ _ _ H4 Hj). lia.
  - destruct (decide (i < j)%nat); [left; apply (chain_sorted _ _ _ _ _ o n o' n' H5 Hi Hj); lia|].
    right. apply (chain_sorted _ _ _ _ _ o' n' o n H5 Hj Hi). lia.
Qed.

(** C18: The circular buffer is a FIFO of bytes.  For a depth below 2^15, after
    any interleaving of reservations, stores into reserved regions in any order,
    completions, takes, give-backs and consumptions, no access was outside the
    buffer, the bytes consumed are a prefix of the bytes completed - all of them
    once the consumer holds nothing and finds nothing to take -, the regions that
    producer and consumer hold lie in the buffer, and no region of the producer
    overlaps another one of his or one of the consumer.  The consumer reads
    through a cache of his own: what is flushed and invalidated is enough. *)
Theorem cbuf_fifo d mem ops :
  0 < d < 32768 -> Z.of_nat (length mem) = d -> cbuf_legal_run ops (cbuf_start d mem) = true ->
  exists s, cbuf_run ops (cbuf_start d mem) = Some s /\
    cs_recv s `prefix_of` cs_sent s /\ (drained s -> cs_recv s = cs_sent s) /\
    (forall c, c ∈ cs_ps s ++ cs_rs s -> 0 <= fst c /\ 0 <= snd c /\ fst c + snd c <= d) /\
    (forall p c, p ∈ cs_ps s -> c ∈ cs_rs s -> 0 < snd p -> apart p c) /\
    (forall i j p q, cs_ps s !! i = Some p -> cs_ps s !! j = Some q -> i <> j -> apart p q).
Proof.
  intros Hd Hm Hl. destruct (cbuf_run_ok d ops _ false (cbuf_start_ok d mem Hd Hm) Hl) as (s & b & E & [[H1 H2] H3 H4 H5 H6 H7]).
  exists s. split; [done|]. split; [rewrite H7; by eexists|]. split; [|split; [|split]].
  - intros [Hrs Hn]. pose proof (take_shape _ _ _ _ _ H4 ltac:(lia)) as Ht. destruct (circularbuf_get_read_ptr _) as [[[[o n]|] h'] l]; [done|].
    destruct Ht as (_ & _ & Ht). destruct (Ht Hrs) as [-> Hrw]. rewrite H7. cbn. by rewrite Hrw, Z.sub_diag, rd_0, app_nil_r.
  - intros [o n] [Hin|Hin]%elem_of_app; rewrite <- H1; [apply (shape_ps _ _ _ _ _ o n) in H4 as (? & ? & ? & _)|
      apply (shape_rs _ _ _ _ _ o n) in H4 as (? & ? & ? & _)]; done.
  - intros [o n] [o' n'] Hp Hc Hn. pose proof (shape_ps _ _ _ _ _ o n H4 Hp) as (Ho & _ & _ & Hp').
    pose proof (shape_rs _ _ _ _ _ o' n' H4 Hc) as (Ho' & _ & _ & Hc'). rewrite Forall_forall in H5. pose proof (H5 _ Hc) as Hn'. unfold apart; cbn [fst snd] in *.
    destruct (decide (o + n <= o')); [by left|]. right. destruct (decide (o' + n' <= o)); [done|]. exfalso.
    apply (Hp' (Z.max o o')); [lia|]. apply Hc'. lia.
  - intros i j [o n] [o' n'] Hi Hj Hij. by apply (shape_apart _ _ _ _ _ i j _ _ H4).
Qed.

(** When everything written was consumed, a reservation succeeds exactly if
    it is smaller than the part of the buffer before the read pointer or the one
    behind it.  So every size below half of the depth gets in; a larger one may
    be refused by an empty buffer, and then it is refused until something smaller
    was written. *)
Theorem cbuf_room d mem ops s n :
  0 < d < 32768 -> Z.of_nat (length mem) = d -> cbuf_legal_run ops (cbuf_start d mem) = true ->
  cbuf_run ops (cbuf_start d mem) = Some s -> drained s -> cs_ps s = [] -> 0 <= n ->
  (is_Some (fst (circularbuf_reserve_for_write (cs_h s) n)) <-> n < Z.max (r_ptr (cs_h s)) (d - r_ptr (cs_h s))) /\
  (2 * n < d -> is_Some (fst (circularbuf_reserve_for_write (cs_h s) n))).
Proof.
  intros Hd Hm Hl E [Hrs Hn] Hps Hn0. destruct (cbuf_run_ok d ops _ false (cbuf_start_ok d mem Hd Hm) Hl) as (s1 & b & E1 & [[H1 H2] H3 H4 H5 H6 H7]).
  rewrite E in E1. injection E1 as <-. pose proof (take_shape _ _ _ _ _ H4 ltac:(lia)) as Ht.
  destruct (circularbuf_get_read_ptr _) as [[[[o n']|] h'] l]; [done|]. destruct Ht as (_ & _ & Ht). destruct (Ht Hrs) as [-> Hrw].
  rewrite Hps, Hrs in H4. inversion H4 as [G1 G2 G3 G4 G5|ps1 ps2 k G| |]; [|by destruct ps1]. cbn [chain] in G2, G4.
  assert (is_Some (fst (circularbuf_reserve_for_write (cs_h s) n)) <-> n < Z.max (r_ptr (cs_h s)) (d - r_ptr (cs_h s))) as Hiff.
  { unfold circularbuf_reserve_for_write. rewrite (proj2 (Z.leb_le (r_ptr (cs_h s)) _)) by lia. rewrite !(wraps_small 16) by lia. cbn [andb].
    destruct (Z.ltb_spec n (depth (cs_h s) - wp_ptr (cs_h s))); cbn [fst]; [split; [lia|by eexists]|].
    destruct (Z.ltb_spec n (r_ptr (cs_h s))); cbn [fst]; [split; [lia|by eexists]|]. split; [by intros [? ?]|lia]. }
  split; [done|]. intros. apply Hiff. lia.
Qed.

(** A buffer of 2^15 bytes or more never accepts anything: the free space is
    computed in an int16 and is negative. *)
Theorem cbuf_deep d n : 32768 <= d < 65536 -> 0 <= n -> circularbuf_reserve_for_write (circularbuf_init d) n = (None, circularbuf_init d).
Proof.
  intros Hd Hn. unfold circularbuf_reserve_for_write. cbn [circularbuf_init r_ptr wp_ptr depth Z.leb Z.compare andb].
  rewrite (wrapu_small 16), Z.sub_0_r by lia. assert (wraps 16 d = d - 65536) as ->.
  { unfold wraps. change (2 ^ (16 - 1)) with 32768. change (2 ^ 16) with 65536.
    rewrite (Z.mod_eq _ 65536), <- (Z.div_unique (d + 32768) 65536 1 (d + 32768 - 65536)) by lia. lia. }
  change (wraps 16 0) with 0. by rewrite !(proj2 (Z.ltb_ge n _)) by lia.
Qed.

(** ** A run: a region left unfinished at the end of the buffer, two
    reservations at once stored in the other order, a take given back in part *)
Definition cbuf_sample : list cbuf_op :=
  [Reserve 6; Store 0 [1; 2; 3; 4; 5; 6]; Complete; Take; Reserve 3; Untake 2; Store 0 [7; 8; 9]; Consume; Complete; Take; Consume;
   Reserve 4; Reserve 2; Store 1 [14; 15]; Store 0 [10; 11; 12; 13]; Complete; Complete; Take; Consume].
Definition cbuf_sample_mem : list Z := replicate 10 0.

Lemma cbuf_fifo_witness :
  exists s, cbuf_run cbuf_sample (cbuf_start 10 cbuf_sample_mem) = Some s /\ cs_recv s = cs_sent s /\
    cs_recv s = [1; 2; 3; 4; 5; 6; 7; 8; 9; 10; 11; 12; 13; 14; 15].
Proof.
  destruct (cbuf_fifo 10 cbuf_sample_mem cbuf_sample) as (s & E & _ & Hd & _); [lia|reflexivity|vm_compute; reflexivity|].
  assert ((fun s => (cs_recv s, cs_rs s, fst (fst (circularbuf_get_read_ptr (cs_h s))))) <$> cbuf_run cbuf_sample (cbuf_start 10 cbuf_sample_mem) =
    Some ([1; 2; 3; 4; 5; 6; 7; 8; 9; 10; 11; 12; 13; 14; 15], [], None)) as Ef by (vm_compute; reflexivity).
  rewrite E in Ef. cbn in Ef. injection Ef as Er Ers En. exists s. split; [exact E|]. split; [|exact Er]. apply Hd. split; [exact Ers|exact En].
Defined.

(** After six of ten bytes went through, six more do not fit, four do. *)
Definition cbuf_half : list cbuf_op := [Reserve 6; Complete; Take; Consume].
Lemma cbuf_room_witness :
  exists s, cbuf_run cbuf_half (cbuf_start 10 cbuf_sample_mem) = Some s /\
    ~ is_Some (fst (circularbuf_reserve_for_write (cs_h s) 6)) /\ is_Some (fst (circularbuf_reserve_for_write (cs_h s) 4)).
Proof.
  destruct (cbuf_run cbuf_half (cbuf_start 10 cbuf_sample_mem)) as [s|] eqn:E; [|vm_compute in E; discriminate E].
  assert ((fun s => (cs_ps s, cs_rs s, fst (fst (circularbuf_get_read_ptr (cs_h s))), r_ptr (cs_h s))) <$>
    cbuf_run cbuf_half (cbuf_start 10 cbuf_sample_mem) = Some ([], [], None, 6)) as Ef by (vm_compute; reflexivity).
  rewrite E in Ef. cbn in Ef. injection Ef as Eps Ers En Er.
  destruct (cbuf_room 10 cbuf_sample_mem cbuf_half s 6) as [H6 _]; [lia|reflexivity|vm_compute; reflexivity|exact E|split; [exact Ers|exact En]|exact Eps|lia|].
  destruct (cbuf_room 10 cbuf_sample_mem cbuf_half s 4) as [_ H4]; [lia|reflexivity|vm_compute; reflexivity|exact E|split; [exact Ers|exact En]|exact Eps|lia|].
  exists s. split; [reflexivity|]. split; [rewrite H6, Er; lia|apply H4; lia].
Defined.

Lemma cbuf_deep_witness : circularbuf_reserve_for_write (circularbuf_init 40000) 8 = (None, circularbuf_init 40000).
Proof. apply (cbuf_deep 40000 8); lia. Defined.
