(* ===== verification/PktPool.v ===== *)
(** * Pools of packets (shared/hnd_pktpool.c)

    A pool owns a number of packets of one size; the free ones are a list
    through their links.  Users are told by callbacks when packets become
    available (avail) or run out (empty); a callback may use the pool itself.
    Built without HND_PKTPOOL_THREAD_SAFE (the mutex macros succeed) and
    BCMDBG_POOL; PKTSETPOOL is a no-op (include/linux_osl.h), PKTFREELIST is
    PKTLINK.  ASSERT is a no-op.  Callbacks do not register callbacks: the loops
    over them read their number once. *)
From Stdlib Require Import ZArith Lia.
From stdpp Require Import base gmap option numbers list.
From S2P Require Import Prelude PktQueue PktChain.

Definition PKTPOOL_LEN_MAX : Z := 40.
Definition PKTPOOL_CB_MAX : Z := 3.
Definition PKTPOOL_CB_MAX_AVL : Z := 4.
Definition PKTPOOL_INVALID_ID : Z := 0.
Definition PKTPOOL_MAXIMUM_ID : Z := 15.
Definition BCME_RANGE : Z := -29.
Definition EMPTYCB_ENABLED : Z := 0.
Definition EMPTYCB_DISABLED : Z := 1.
Definition EMPTYCB_SKIPPED : Z := 2.

(** ** The registry: slot 0 is reserved, 0 in another one is free *)
Definition PKTPOOLREG_RSVD_PTR : Z := 0xdeaddead.
Definition PKTPOOLREG_FREE_PTR : Z := 0.
Record registry := { pktpools_max : Z; pktpools_registry : list Z }.
Definition reg0 : registry := {| pktpools_max := 0; pktpools_registry := replicate 16 0 |}.

Definition get_pktpools_registry (r : registry) (id : Z) : option Z := aget (pktpools_registry r) id.
Definition pktpool_registry_set (r : registry) (id pp : Z) : option registry :=
  t ← aset (pktpools_registry r) id pp; Some {| pktpools_max := pktpools_max r; pktpools_registry := t |}.
Definition pktpool_registry_cmp (r : registry) (id pp : Z) : option bool :=
  x ← aget (pktpools_registry r) id; Some (x =? pp).

(** The loop over the slots runs up to pktpools_max, which is 0 here. *)
Fixpoint registry_clr_loop (n : nat) (r : registry) (poolid : Z) : option registry :=
  match n with
  | O => Some r
  | S n => r ← pktpool_registry_set r poolid PKTPOOLREG_FREE_PTR; registry_clr_loop n r (poolid + 1)
  end.
Definition pktpool_attach (r : registry) (total_pools : Z) : option (Z * registry) :=
  if negb (pktpools_max r =? 0) then Some (BCME_ERROR, r) else
  r ← pktpool_registry_set r 0 PKTPOOLREG_RSVD_PTR;
  r ← registry_clr_loop (Z.to_nat (pktpools_max r)) r 1;
  Some (total_pools, {| pktpools_max := total_pools; pktpools_registry := pktpools_registry r |}).
Definition pktpool_dettach (r : registry) : Z * registry :=
  (BCME_OK, {| pktpools_max := 0; pktpools_registry := pktpools_registry r |}).

Fixpoint register_loop (n : nat) (r : registry) (poolid poolptr : Z) : option (Z * registry) :=
  match n with
  | O => Some (PKTPOOL_INVALID_ID, r)
  | S n =>
      clr ← pktpool_registry_cmp r poolid PKTPOOLREG_FREE_PTR;
      if clr : bool then r ← pktpool_registry_set r poolid poolptr; Some (poolid, r)
      else register_loop n r (poolid + 1) poolptr
  end.
Definition pktpool_register (r : registry) (poolptr : Z) : option (Z * registry) :=
  if pktpools_max r =? 0 then Some (PKTPOOL_INVALID_ID, r) else register_loop (Z.to_nat (pktpools_max r)) r 1 poolptr.
Definition pktpool_deregister (r : registry) (poolptr id : Z) : option (Z * registry) :=
  same ← pktpool_registry_cmp r id poolptr;
  if same : bool then r ← pktpool_registry_set r id PKTPOOLREG_FREE_PTR; Some (BCME_OK, r) else Some (BCME_ERROR, r).

(** ** Pools

    A callback is a pair of function and argument, 0 is NULL; [availcb_excl]
    is an index into [cbs]. *)
Record pktpool := {
  inited : bool; pp_id : Z; pp_type : Z; istx : bool;
  freelist : Z; avail : Z; pool_len : Z; maxlen : Z; plen : Z;       (* uint16 but the list *)
  pool_empty : bool; cbtoggle : Z; cbcnt : Z; ecbcnt : Z; emptycb_disable : Z;      (* uint8 *)
  availcb_excl : option Z;
  cbs : list (Z * Z); ecbs : list (Z * Z);
  cbext : Z * Z; rxcplidfn : Z * Z; dmarxfill : Z * Z
}.
Definition pool0 : pktpool :=
  {| inited := false; pp_id := 0; pp_type := 0; istx := false; freelist := 0; avail := 0; pool_len := 0; maxlen := 0; plen := 0;
     pool_empty := false; cbtoggle := 0; cbcnt := 0; ecbcnt := 0; emptycb_disable := 0; availcb_excl := None;
     cbs := replicate 4 (0, 0); ecbs := replicate 3 (0, 0); cbext := (0, 0); rxcplidfn := (0, 0); dmarxfill := (0, 0) |}.
Definition pool_new (id ty : Z) (tx : bool) (pl : Z) : pktpool :=
  {| inited := true; pp_id := id; pp_type := ty; istx := tx; freelist := 0; avail := 0; pool_len := 0; maxlen := PKTPOOL_LEN_MAX; plen := pl;
     pool_empty := false; cbtoggle := 0; cbcnt := 0; ecbcnt := 0; emptycb_disable := 0; availcb_excl := None;
     cbs := replicate 4 (0, 0); ecbs := replicate 3 (0, 0); cbext := (0, 0); rxcplidfn := (0, 0); dmarxfill := (0, 0) |}.
Definition set_free (p : pktpool) (fl av : Z) : pktpool :=
  {| inited := inited p; pp_id := pp_id p; pp_type := pp_type p; istx := istx p; freelist := fl; avail := av; pool_len := pool_len p;
     maxlen := maxlen p; plen := plen p; pool_empty := pool_empty p; cbtoggle := cbtoggle p; cbcnt := cbcnt p; ecbcnt := ecbcnt p;
     emptycb_disable := emptycb_disable p; availcb_excl := availcb_excl p; cbs := cbs p; ecbs := ecbs p;
     cbext := cbext p; rxcplidfn := rxcplidfn p; dmarxfill := dmarxfill p |}.
Definition set_lens (p : pktpool) (len mx : Z) : pktpool :=
  {| inited := inited p; pp_id := pp_id p; pp_type := pp_type p; istx := istx p; freelist := freelist p; avail := avail p; pool_len := len;
     maxlen := mx; plen := plen p; pool_empty := pool_empty p; cbtoggle := cbtoggle p; cbcnt := cbcnt p; ecbcnt := ecbcnt p;
     emptycb_disable := emptycb_disable p; availcb_excl := availcb_excl p; cbs := cbs p; ecbs := ecbs p;
     cbext := cbext p; rxcplidfn := rxcplidfn p; dmarxfill := dmarxfill p |}.
Definition set_flags (p : pktpool) (em : bool) (toggle dis : Z) : pktpool :=
  {| inited := inited p; pp_id := pp_id p; pp_type := pp_type p; istx := istx p; freelist := freelist p; avail := avail p; pool_len := pool_len p;
     maxlen := maxlen p; plen := plen p; pool_empty := em; cbtoggle := toggle; cbcnt := cbcnt p; ecbcnt := ecbcnt p;
     emptycb_disable := dis; availcb_excl := availcb_excl p; cbs := cbs p; ecbs := ecbs p;
     cbext := cbext p; rxcplidfn := rxcplidfn p; dmarxfill := dmarxfill p |}.
Definition set_cbs (p : pktpool) (n en : Z) (excl : option Z) (t et : list (Z * Z)) : pktpool :=
  {| inited := inited p; pp_id := pp_id p; pp_type := pp_type p; istx := istx p; freelist := freelist p; avail := avail p; pool_len := pool_len p;
     maxlen := maxlen p; plen := plen p; pool_empty := pool_empty p; cbtoggle := cbtoggle p; cbcnt := n; ecbcnt := en;
     emptycb_disable := emptycb_disable p; availcb_excl := excl; cbs := t; ecbs := et;
     cbext := cbext p; rxcplidfn := rxcplidfn p; dmarxfill := dmarxfill p |}.
Definition set_ids (p : pktpool) (ini : bool) (id : Z) : pktpool :=
  {| inited := ini; pp_id := id; pp_type := pp_type p; istx := istx p; freelist := freelist p; avail := avail p; pool_len := pool_len p;
     maxlen := maxlen p; plen := plen p; pool_empty := pool_empty p; cbtoggle := cbtoggle p; cbcnt := cbcnt p; ecbcnt := ecbcnt p;
     emptycb_disable := emptycb_disable p; availcb_excl := availcb_excl p; cbs := cbs p; ecbs := ecbs p;
     cbext := cbext p; rxcplidfn := rxcplidfn p; dmarxfill := dmarxfill p |}.
Definition set_extn (p : pktpool) (ext rx dma : Z * Z) : pktpool :=
  {| inited := inited p; pp_id := pp_id p; pp_type := pp_type p; istx := istx p; freelist := freelist p; avail := avail p; pool_len := pool_len p;
     maxlen := maxlen p; plen := plen p; pool_empty := pool_empty p; cbtoggle := cbtoggle p; cbcnt := cbcnt p; ecbcnt := ecbcnt p;
     emptycb_disable := emptycb_disable p; availcb_excl := availcb_excl p; cbs := cbs p; ecbs := ecbs p;
     cbext := ext; rxcplidfn := rx; dmarxfill := dma |}.

(** ** The pool and its surroundings

    [s_heap]: the allocated packets and their links.  [s_gets]: what the next
    calls of PKTGET return, 0 when the heap is exhausted; [s_asked]: the sizes it
    was asked for.  [s_out]: the packets in use.  [s_scripts]: what the next
    calls of callbacks do; [s_called]: the callbacks called. *)
Inductive pool_act := AGet | AFree (p : Z) | ADisable (disable : bool).
Record psys := {
  s_pool : pktpool; s_heap : heap; s_gets : list Z; s_asked : list Z;
  s_out : list Z; s_scripts : list (list pool_act); s_called : list (Z * Z)
}.
Definition set_pool (s : psys) (p : pktpool) (h : heap) : psys :=
  {| s_pool := p; s_heap := h; s_gets := s_gets s; s_asked := s_asked s; s_out := s_out s; s_scripts := s_scripts s; s_called := s_called s |}.
Definition set_out (s : psys) (out : list Z) : psys :=
  {| s_pool := s_pool s; s_heap := s_heap s; s_gets := s_gets s; s_asked := s_asked s; s_out := out; s_scripts := s_scripts s; s_called := s_called s |}.
Definition set_scripts (s : psys) (sc : list (list pool_act)) (called : list (Z * Z)) : psys :=
  {| s_pool := s_pool s; s_heap := s_heap s; s_gets := s_gets s; s_asked := s_asked s; s_out := s_out s; s_scripts := sc; s_called := called |}.

(** A new packet, its link NULL. *)
Definition PKTGET (s : psys) (len : Z) : Z * psys :=
  let p := hd0 (s_gets s) in
  (p, {| s_pool := s_pool s; s_heap := if p =? 0 then s_heap s else <[p := 0]> (s_heap s); s_gets := tail (s_gets s);
         s_asked := s_asked s ++ [len]; s_out := s_out s; s_scripts := s_scripts s; s_called := s_called s |}).

Definition pktpool_deq (s : psys) : option (Z * psys) :=
  let p := s_pool s in
  if avail p =? 0 then Some (0, s) else
  link ← PKTLINK (s_heap s) (freelist p);
  h ← PKTSETLINK (s_heap s) (freelist p) 0;
  Some (freelist p, set_pool s (set_free p link (u16 (avail p - 1))) h).
Definition pktpool_enq (s : psys) (pkt : Z) : option psys :=
  let p := s_pool s in
  h ← PKTSETLINK (s_heap s) pkt (freelist p);
  Some (set_pool s (set_free p pkt (u16 (avail p + 1))) h).

(** ** Registering callbacks *)
Definition pktpool_hostaddr_fill_register (p : pktpool) (cb : Z * Z) : Z * pktpool := (0, set_extn p cb (rxcplidfn p) (dmarxfill p)).
Definition pktpool_rxcplid_fill_register (p : pktpool) (cb : Z * Z) : Z * pktpool := (0, set_extn p (cbext p) cb (dmarxfill p)).
Definition pkpool_haddr_avail_register_cb (p : pktpool) (cb : Z * Z) : Z * pktpool := (0, set_extn p (cbext p) (rxcplidfn p) cb).
Definition pktpool_avail_register (p : pktpool) (cb : Z * Z) : option (Z * pktpool) :=
  if cbcnt p =? PKTPOOL_CB_MAX_AVL then Some (BCME_ERROR, p) else
  t ← aset (cbs p) (cbcnt p) cb; Some (0, set_cbs p (u8 (cbcnt p + 1)) (ecbcnt p) (availcb_excl p) t (ecbs p)).
Definition pktpool_empty_register (p : pktpool) (cb : Z * Z) : option (Z * pktpool) :=
  if ecbcnt p =? PKTPOOL_CB_MAX then Some (BCME_ERROR, p) else
  t ← aset (ecbs p) (ecbcnt p) cb; Some (0, set_cbs p (cbcnt p) (u8 (ecbcnt p + 1)) (availcb_excl p) (cbs p) t).
Definition pktpool_avail_notify_normal (p : pktpool) : Z * pktpool := (0, set_cbs p (cbcnt p) (ecbcnt p) None (cbs p) (ecbs p)).
Fixpoint excl_loop (n : nat) (p : pktpool) (cb i : Z) : option (option Z) :=
  match n with
  | O => Some (availcb_excl p)
  | S n => c ← aget (cbs p) i; if cb =? fst c then Some (Some i) else excl_loop n p cb (i + 1)
  end.
Definition pktpool_avail_notify_exclusive (p : pktpool) (cb : Z) : option (Z * pktpool) :=
  e ← excl_loop (Z.to_nat (cbcnt p)) p cb 0;
  Some (match e with None => BCME_ERROR | Some _ => 0 end, set_cbs p (cbcnt p) (ecbcnt p) e (cbs p) (ecbs p)).

(** The pool's capacity is not lowered below its length. *)
Definition pktpool_setmaxlen (p : pktpool) (mx : Z) : Z * pktpool :=
  let mx := if PKTPOOL_LEN_MAX <? mx then PKTPOOL_LEN_MAX else mx in
  let mx := if mx <? pool_len p then pool_len p else mx in
  (mx, set_lens p (pool_len p) mx).
Definition pktpool_emptycb_disabled (p : pktpool) : bool := negb (emptycb_disable p =? EMPTYCB_ENABLED).

Definition pktpool_add (s : psys) (pkt : Z) : option (Z * psys) :=
  let p := s_pool s in
  if pool_len p =? maxlen p then Some (BCME_RANGE, s) else
  s ← pktpool_enq (set_pool s (set_lens p (u16 (pool_len p + 1)) (maxlen p)) (s_heap s)) pkt;
  Some (0, s).

Section callbacks.
(** A callback, given its function and argument. *)
Variable call : Z -> Z -> psys -> option psys.

Definition pktpool_invoke_dmarxfill (s : psys) : option psys :=
  let '(cb, arg) := dmarxfill (s_pool s) in if cb =? 0 then Some s else call cb arg s.

Fixpoint empty_loop (n : nat) (s : psys) (i : Z) : option psys :=
  match n with
  | O => Some s
  | S n => c ← aget (ecbs (s_pool s)) i; s ← call (fst c) (snd c) s; empty_loop n s (i + 1)
  end.
Definition flag_empty (s : psys) (em : bool) : psys :=
  set_pool s (set_flags (s_pool s) em (cbtoggle (s_pool s)) (emptycb_disable (s_pool s))) (s_heap s).
Definition pktpool_empty_notify (s : psys) : option psys :=
  s ← empty_loop (Z.to_nat (ecbcnt (s_pool s))) (flag_empty s true) 0; Some (flag_empty s false).

(** [k] walks down while cbtoggle is clear. *)
Fixpoint avail_loop (n : nat) (s : psys) (i k : Z) : option psys :=
  match n with
  | O => Some s
  | S n =>
      if avail (s_pool s) =? 0 then avail_loop n s (i + 1) k else
      let up := negb (cbtoggle (s_pool s) =? 0) in
      c ← aget (cbs (s_pool s)) (if up then i else k);
      s ← call (fst c) (snd c) s;
      avail_loop n s (i + 1) (if up then k else k - 1)
  end.
Definition pktpool_avail_notify (s : psys) : option psys :=
  match availcb_excl (s_pool s) with
  | Some x => c ← aget (cbs (s_pool s)) x; call (fst c) (snd c) s
  | None =>
      s ← avail_loop (Z.to_nat (cbcnt (s_pool s))) s 0 (cbcnt (s_pool s) - 1);
      let p := s_pool s in
      Some (set_pool s (set_flags p (pool_empty p) (Z.lxor (cbtoggle p) 1) (emptycb_disable p)) (s_heap s))
  end.

Definition pktpool_get (s : psys) : option (Z * psys) :=
  '(p, s) ← pktpool_deq s;
  if negb (p =? 0) then Some (p, s) else
  s ← (if ecbcnt (s_pool s) =? 0 then Some s else pktpool_empty_notify s);
  pktpool_deq s.

Definition pktpool_free (s : psys) (pkt : Z) : option psys :=
  s ← pktpool_enq s pkt;
  let p := s_pool s in
  if cbcnt p =? 0 then Some s else
  if emptycb_disable p =? EMPTYCB_ENABLED then
    if pool_empty p then Some s else pktpool_avail_notify s
  else Some (set_pool s (set_flags p (pool_empty p) (cbtoggle p) EMPTYCB_SKIPPED) (s_heap s)).

Definition pktpool_emptycb_disable (s : psys) (disable : bool) : option psys :=
  let p := s_pool s in
  s ← (if negb disable && negb (cbcnt p =? 0) && negb (pool_empty p) && (emptycb_disable p =? EMPTYCB_SKIPPED)
       then pktpool_avail_notify s else Some s);
  let p := s_pool s in
  Some (set_pool s (set_flags p (pool_empty p) (cbtoggle p) (if disable then EMPTYCB_DISABLED else EMPTYCB_ENABLED)) (s_heap s)).

(** The size asked of PKTGET is the pool's length. *)
Fixpoint fill_loop (n : nat) (s : psys) : option (Z * psys) :=
  match n with
  | O => Some (0, s)
  | S n =>
      let '(p, s) := PKTGET s (pool_len (s_pool s)) in
      if p =? 0 then Some (BCME_NOMEM, s) else
      '(err, s) ← pktpool_add s p;
      if negb (err =? BCME_OK) then h ← PKTFREE (s_heap s) p; Some (BCME_ERROR, set_pool s (s_pool s) h)
      else fill_loop n s
  end.
Definition pktpool_fill (s : psys) (minimal : bool) : option (Z * psys) :=
  let p := s_pool s in
  let psize := if minimal then Z.shiftr (maxlen p) 2 else maxlen p in
  '(err, s) ← fill_loop (Z.to_nat (psize - pool_len p)) s;
  let p := s_pool s in
  s ← (if negb (cbcnt p =? 0) && negb (pool_empty p) then pktpool_avail_notify s else Some s);
  Some (err, s).
End callbacks.

(** ** Setting up and taking down

    [pktp] is the address of the pool; the results are the error, the number of
    packets and the state. *)
Fixpoint init_loop (n : nat) (s : psys) (pl : Z) : option (Z * psys) :=
  match n with
  | O => Some (BCME_OK, s)
  | S n =>
      let '(p, s) := PKTGET s pl in
      if p =? 0 then Some (if freelist (s_pool s) =? 0 then BCME_NOMEM else BCME_OK, s) else
      s ← pktpool_enq s p; init_loop n s pl
  end.
Definition pktpool_init (r : registry) (s : psys) (pktp pplen pl : Z) (tx : bool) (ty : Z) : option (Z * Z * registry * psys) :=
  '(id, r) ← pktpool_register r pktp;
  if u8 id =? PKTPOOL_INVALID_ID then Some (BCME_ERROR, pplen, r, set_pool s pool0 (s_heap s)) else
  let s := set_pool s (pool_new (u8 id) ty tx (u16 pl)) (s_heap s) in
  '(err, s) ← init_loop (Z.to_nat (Z.min pplen PKTPOOL_LEN_MAX)) s pl;
  let p := s_pool s in
  Some (err, avail p, r, set_pool s (set_lens p (avail p) (maxlen p)) (s_heap s)).

Fixpoint deinit_loop (fuel : nat) (s : psys) (freed : Z) : option (Z * psys) :=
  match fuel with
  | O => None
  | S fuel =>
      let p := s_pool s in
      if freelist p =? 0 then Some (freed, s) else
      link ← PKTLINK (s_heap s) (freelist p);
      h ← PKTSETLINK (s_heap s) (freelist p) 0;
      h ← PKTFREE h (freelist p);
      deinit_loop fuel (set_pool s (set_free p link (avail p)) h) (u16 (freed + 1))
  end.
Definition pktpool_deinit (r : registry) (s : psys) (pktp : Z) : option (Z * registry * psys) :=
  '(freed, s) ← deinit_loop (S (size (s_heap s))) s 0;
  let p := set_lens (set_free (s_pool s) (freelist (s_pool s)) (u16 (avail (s_pool s) - freed)))
                    (u16 (pool_len (s_pool s) - freed)) (maxlen (s_pool s)) in
  '(_, r) ← pktpool_deregister r pktp (pp_id p);
  Some (0, r, set_pool s (set_ids p false PKTPOOL_INVALID_ID) (s_heap s)).
