(* ===== verification/PktPoolInv.v ===== *)
(** * Every use of a packet pool keeps its books

    Users and callbacks as scripts of pool calls, the invariant of a pool, and
    why every function of [PktPool] keeps it, however callbacks nest. *)
From Stdlib Require Import ZArith Lia.
From stdpp Require Import base gmap option numbers list.
From S2P Require Import Prelude PktQueue PktChain PktPool.

(** ** Users

    A packet can only be freed by who has it. *)
Definition do_act (call : Z -> Z -> psys -> option psys) (a : pool_act) (s : psys) : option psys :=
  match a with
  | AGet => '(p, s) ← pktpool_get call s; Some (if p =? 0 then s else set_out s (p :: s_out s))
  | AFree p => if bool_decide (p ∈ s_out s) then pktpool_free call (set_out s (filter (fun x => x <> p) (s_out s))) p else Some s
  | ADisable b => pktpool_emptycb_disable call s b
  end.
Fixpoint run_acts (call : Z -> Z -> psys -> option psys) (acts : list pool_act) (s : psys) : option psys :=
  match acts with [] => Some s | a :: acts => s ← do_act call a s; run_acts call acts s end.
(** A call of a callback uses up a script; the callbacks called from it go one
    level deeper. *)
Fixpoint run_cb (fuel : nat) (cb arg : Z) (s : psys) : option psys :=
  match fuel with
  | O => None
  | S fuel =>
      if cb =? 0 then None else
      run_acts (run_cb fuel) (hd [] (s_scripts s)) (set_scripts s (tail (s_scripts s)) (s_called s ++ [(cb, arg)]))
  end.

(** ** The invariant *)
Record free_ok (s : psys) (fl : list Z) : Prop := {
  fo_nodup : NoDup (fl ++ s_out s);
  fo_linked : linked (s_heap s) fl;
  fo_head : freelist (s_pool s) = hd0 fl;
  fo_avail : avail (s_pool s) = Z.of_nat (length fl);
  fo_null : s_heap s !! 0 = None;
  fo_dom : forall p, is_Some (s_heap s !! p) <-> p ∈ fl ++ s_out s;
  fo_len : pool_len (s_pool s) = Z.of_nat (length fl + length (s_out s)) /\ pool_len (s_pool s) <= maxlen (s_pool s) <= PKTPOOL_LEN_MAX
}.
Record cbs_ok (p : pktpool) : Prop := {
  cb_len : length (cbs p) = 4%nat /\ length (ecbs p) = 3%nat;
  cb_cnt : 0 <= cbcnt p <= 4 /\ 0 <= ecbcnt p <= 3;
  cb_avail : forall i, 0 <= i < cbcnt p -> exists c, aget (cbs p) i = Some c /\ fst c <> 0;
  cb_empty : forall i, 0 <= i < ecbcnt p -> exists c, aget (ecbs p) i = Some c /\ fst c <> 0;
  cb_excl : forall x, availcb_excl p = Some x -> 0 <= x < cbcnt p;
  cb_toggle : cbtoggle p = 0 \/ cbtoggle p = 1
}.
Definition pool_ok (s : psys) : Prop := (exists fl, free_ok s fl) /\ cbs_ok (s_pool s).

(** What a use of the pool leaves alone; scripts are only used up. *)
Definition same_cbs (p p' : pktpool) : Prop :=
  cbcnt p' = cbcnt p /\ ecbcnt p' = ecbcnt p /\ cbs p' = cbs p /\ ecbs p' = ecbs p /\ availcb_excl p' = availcb_excl p /\
  maxlen p' = maxlen p /\ pool_len p' = pool_len p /\ pp_id p' = pp_id p.
Definition used (s s' : psys) : Prop :=
  same_cbs (s_pool s) (s_pool s') /\ s_gets s' = s_gets s /\ s_asked s' = s_asked s /\ (length (s_scripts s') <= length (s_scripts s))%nat.

#[export] Instance used_preorder : PreOrder used.
Proof.
  split; [by intros s; repeat split|]. intros s1 s2 s3 [(?&?&?&?&?&?&?&?) (?&?&?)] [(?&?&?&?&?&?&?&?) (?&?&?)].
  repeat split; try congruence; lia.
Qed.

(** Results of calls: defined, and the books are kept. *)
Definition kept (s : psys) (o : option psys) : Prop := exists s', o = Some s' /\ pool_ok s' /\ used s s'.
Lemma kept_bind s o f : kept s o -> (forall s', pool_ok s' -> used s s' -> kept s (f s')) -> kept s (o ≫= f).
Proof. intros (s' & -> & H1 & H2) Hf. cbn [mbind option_bind]. by apply Hf. Qed.
Lemma kept_trans s s1 o : used s s1 -> kept s1 o -> kept s o.
Proof. intros U (s' & -> & H1 & H2). exists s'. split; [done|]. split; [done|]. by transitivity s1. Qed.
Lemma kept_ret s s' : pool_ok s' -> used s s' -> kept s (Some s').
Proof. intros. by exists s'. Qed.

(** A pool that differs in its flags. *)
Lemma flags_ok s em t dis : pool_ok s -> t = 0 \/ t = 1 -> pool_ok (set_pool s (set_flags (s_pool s) em t dis) (s_heap s)).
Proof. intros [[fl [H1 H2 H3 H4 H5 H6 H7]] [G1 G2 G3 G4 G5 G6]] Ht. split; [exists fl; by constructor|by constructor]. Qed.
Lemma flags_used s em t dis : used s (set_pool s (set_flags (s_pool s) em t dis) (s_heap s)).
Proof. by repeat split. Qed.

(** ** The free list *)
Lemma deq_ok s fl :
  free_ok s fl -> cbs_ok (s_pool s) ->
  match fl with
  | [] => pktpool_deq s = Some (0, s)
  | p :: fl' => p <> 0 /\ exists s', pktpool_deq s = Some (p, s') /\ free_ok (set_out s' (p :: s_out s')) fl' /\ cbs_ok (s_pool s') /\ used s s'
  end.
Proof.
  intros [H1 H2 H3 H4 H5 H6 [H7 H8]] [G1 G2 G3 G4 G5 G6]. unfold PKTPOOL_LEN_MAX in *. unfold pktpool_deq. rewrite H4. destruct fl as [|p fl]; [done|].
  cbn [length] in *. rewrite (proj2 (Z.eqb_neq _ _)) by lia. destruct H2 as [Hp H2]. change (freelist (s_pool s) = p) in H3.
  rewrite H3. unfold PKTLINK, PKTSETLINK. rewrite Hp. cbn [mbind option_bind].
  apply NoDup_app in H1 as (Hn1 & Hd & Hn2). apply NoDup_cons in Hn1 as [Hnp Hn1].
  assert (p <> 0) as Hp0 by (intros ->; congruence). split; [done|].
  eexists. split; [done|]. split; [|split; [by constructor|by repeat split]].
  constructor; cbn [set_out set_pool set_free s_pool s_heap s_out freelist avail pool_len maxlen]; try done.
  - apply NoDup_app. split; [done|]. split.
    + intros x Hx [->|Hx']%elem_of_cons; [done|]. apply (Hd x); [by right|done].
    + apply NoDup_cons. split; [|done]. apply Hd. by left.
  - by apply linked_insert.
  - rewrite (wrapu_small 16) by lia. lia.
  - by rewrite lookup_insert_ne.
  - intros q. rewrite elem_of_app, elem_of_cons. destruct (decide (q = p)) as [->|Hq].
    + rewrite lookup_insert_eq. split; [by right; left|by eexists].
    + rewrite lookup_insert_ne, H6, elem_of_app, elem_of_cons by done. naive_solver.
  - unfold PKTPOOL_LEN_MAX. cbn [length]. lia.
Qed.

Lemma enq_ok s fl p :
  free_ok (set_out s (p :: s_out s)) fl -> cbs_ok (s_pool s) ->
  exists s', pktpool_enq s p = Some s' /\ free_ok s' (p :: fl) /\ cbs_ok (s_pool s') /\ used s s' /\ s_out s' = s_out s.
Proof.
  intros [H1 H2 H3 H4 H5 H6 [H7 H8]] [G1 G2 G3 G4 G5 G6]. cbn [set_out s_pool s_heap s_out] in *. unfold PKTPOOL_LEN_MAX in *. unfold pktpool_enq, PKTSETLINK.
  destruct (proj2 (H6 p)) as [l Hl]; [apply elem_of_app; right; by left|]. rewrite Hl. cbn [mbind option_bind].
  assert (p <> 0) as Hp0 by (intros ->; congruence). cbn [length] in *.
  apply NoDup_app in H1 as (Hn1 & Hd & Hn2). apply NoDup_cons in Hn2 as [Hnp Hn2].
  assert (p ∉ fl) as Hpf by (intros Hx; apply (Hd p Hx); by left).
  eexists. split; [done|]. split; [|split; [by constructor|split; [by repeat split|done]]].
  constructor; cbn [set_pool set_free s_pool s_heap s_out freelist avail pool_len maxlen]; try done.
  - cbn [app]. apply NoDup_cons. split; [rewrite elem_of_app; by intros [?|?]|]. apply NoDup_app. split; [done|]. split; [|done].
    intros x Hx Hx'. apply (Hd x Hx). by right.
  - split; [rewrite H3; apply lookup_insert_eq|by apply linked_insert].
  - rewrite H4. cbn [length]. rewrite (wrapu_small 16) by lia. lia.
  - by rewrite lookup_insert_ne.
  - intros q. cbn [app]. rewrite elem_of_cons, elem_of_app. destruct (decide (q = p)) as [->|Hq].
    + rewrite lookup_insert_eq. split; [by left|by eexists].
    + rewrite lookup_insert_ne, H6, elem_of_app, elem_of_cons by done. naive_solver.
  - unfold PKTPOOL_LEN_MAX. cbn [length]. lia.
Qed.

(** ** The functions that call back

    [good call n]: callbacks keep the books while fewer than [n] scripts are
    left. *)
Definition good (call : Z -> Z -> psys -> option psys) (n : nat) : Prop :=
  forall cb arg s, cb <> 0 -> pool_ok s -> (length (s_scripts s) < n)%nat -> kept s (call cb arg s).

Section callbacks.
Context (call : Z -> Z -> psys -> option psys) (n : nat).
Hypothesis Hcall : good call n.

Lemma used_cnt s s' : used s s' -> cbcnt (s_pool s') = cbcnt (s_pool s) /\ ecbcnt (s_pool s') = ecbcnt (s_pool s) /\
  ((length (s_scripts s) < n)%nat -> (length (s_scripts s') < n)%nat).
Proof. intros [(? & ? & _) (_ & _ & ?)]. split_and!; try done. lia. Qed.

Lemma avail_loop_kept m s i k :
  pool_ok s -> (length (s_scripts s) < n)%nat -> 0 <= i -> i + Z.of_nat m <= cbcnt (s_pool s) ->
  cbcnt (s_pool s) - 1 - i <= k < cbcnt (s_pool s) -> kept s (avail_loop call m s i k).
Proof.
  revert s i k. induction m as [|m IH]; intros s i k Hs Hn Hi Hm Hk; cbn [avail_loop]; [by apply kept_ret|].
  destruct (avail (s_pool s) =? 0); [apply IH; try done; lia|].
  destruct (cb_avail _ (proj2 Hs) (if negb (cbtoggle (s_pool s) =? 0) then i else k)) as (c & -> & Hc); [destruct (negb _); lia|].
  cbn [mbind option_bind]. apply kept_bind; [by apply Hcall|]. intros s' Hs' U. destruct (used_cnt s s' U) as (E1 & _ & En).
  apply (kept_trans s s' _ U), IH; [done|by apply En|lia|lia|]. rewrite E1. destruct (negb _); lia.
Qed.

Lemma avail_notify_kept s : pool_ok s -> (length (s_scripts s) < n)%nat -> kept s (pktpool_avail_notify call s).
Proof.
  intros Hs Hn. unfold pktpool_avail_notify. destruct (availcb_excl (s_pool s)) as [x|] eqn:Ex.
  - destruct (cb_avail _ (proj2 Hs) x) as (c & -> & Hc); [by apply (cb_excl _ (proj2 Hs))|]. cbn [mbind option_bind]. by apply Hcall.
  - pose proof (cb_cnt _ (proj2 Hs)) as [? _]. apply kept_bind; [apply avail_loop_kept; try done; lia|]. intros s' Hs' U.
    apply (kept_trans s s' _ U), kept_ret; [apply flags_ok; [done|]|apply flags_used].
    destruct (cb_toggle _ (proj2 Hs')) as [-> | ->]; [by right|by left].
Qed.

Lemma empty_loop_kept m s i :
  pool_ok s -> (length (s_scripts s) < n)%nat -> 0 <= i -> i + Z.of_nat m <= ecbcnt (s_pool s) -> kept s (empty_loop call m s i).
Proof.
  revert s i. induction m as [|m IH]; intros s i Hs Hn Hi Hm; cbn [empty_loop]; [by apply kept_ret|].
  destruct (cb_empty _ (proj2 Hs) i) as (c & -> & Hc); [lia|]. cbn [mbind option_bind].
  apply kept_bind; [by apply Hcall|]. intros s' Hs' U. destruct (used_cnt s s' U) as (_ & E2 & En).
  apply (kept_trans s s' _ U), IH; [done|by apply En|lia|lia].
Qed.

Lemma empty_notify_kept s : pool_ok s -> (length (s_scripts s) < n)%nat -> kept s (pktpool_empty_notify call s).
Proof.
  intros Hs Hn. unfold pktpool_empty_notify, flag_empty. pose proof (cb_cnt _ (proj2 Hs)) as [_ ?]. pose proof (cb_toggle _ (proj2 Hs)) as Ht.
  apply (kept_trans s _ _ (flags_used s true (cbtoggle (s_pool s)) (emptycb_disable (s_pool s)))).
  apply kept_bind; [apply empty_loop_kept; [by apply flags_ok|done|lia|cbn; lia]|]. intros s' Hs' U.
  apply (kept_trans _ _ _ U), kept_ret; [apply flags_ok; [done|apply Hs']|apply flags_used].
Qed.

Lemma get_kept s :
  pool_ok s -> (length (s_scripts s) < n)%nat -> exists p s', pktpool_get call s = Some (p, s') /\ used s s' /\
    (p = 0 /\ pool_ok s' /\ avail (s_pool s') = 0 \/ p <> 0 /\ p ∉ s_out s' /\ pool_ok (set_out s' (p :: s_out s'))).
Proof.
  intros Hs Hn. unfold pktpool_get. destruct Hs as [[fl Hf] Hc].
  assert (forall s fl, free_ok s fl -> cbs_ok (s_pool s) -> exists p s', pktpool_deq s = Some (p, s') /\ used s s' /\
    (p = 0 /\ s' = s /\ avail (s_pool s') = 0 \/ p <> 0 /\ p ∉ s_out s' /\ pool_ok (set_out s' (p :: s_out s')))) as Hdeq.
  { clear. intros s fl Hf Hc. pose proof (deq_ok s fl Hf Hc) as H. destruct fl as [|p fl].
    - rewrite H. exists 0, s. split; [done|]. split; [done|]. left. split; [done|]. split; [done|]. by rewrite (fo_avail _ _ Hf).
    - destruct H as (Hp & s' & -> & Hf' & Hc' & U). exists p, s'. split; [done|]. split; [done|]. right. split; [done|]. split.
      + pose proof (fo_nodup _ _ Hf') as Hnd. cbn in Hnd. apply NoDup_app in Hnd as (_ & _ & Hnd). by apply NoDup_cons in Hnd as [? _].
      + split; [by exists fl|done]. }
  destruct (Hdeq s fl Hf Hc) as (p & s1 & -> & U & Hp). cbn [mbind option_bind].
  destruct Hp as [(-> & -> & Ha)|(Hp & Hr)]; [|rewrite (proj2 (Z.eqb_neq _ _)) by done; cbn [negb]; exists p, s1; split; [done|]; split; [done|by right]].
  cbn [Z.eqb negb]. destruct (ecbcnt (s_pool s) =? 0).
  - cbn [mbind option_bind]. destruct (Hdeq s fl Hf Hc) as (p & s2 & -> & U2 & Hp). exists p, s2. split; [done|]. split; [done|].
    destruct Hp as [(-> & -> & Ha2)|?]; [left|by right]. split; [done|]. split; [split; [by exists fl|done]|done].
  - destruct (empty_notify_kept s) as (s2 & -> & [[fl2 Hf2] Hc2] & U2); [split; [by exists fl|done]|done|]. cbn [mbind option_bind].
    destruct (Hdeq s2 fl2 Hf2 Hc2) as (p & s3 & -> & U3 & Hp). exists p, s3. split; [done|]. split; [by transitivity s2|].
    destruct Hp as [(-> & -> & Ha2)|?]; [left|by right]. split; [done|]. split; [split; [by exists fl2|done]|done].
Qed.

(** Giving a packet back: it is not in use any more when callbacks run. *)
Lemma free_kept s p :
  pool_ok (set_out s (p :: s_out s)) -> (length (s_scripts s) < n)%nat -> kept s (pktpool_free call s p).
Proof.
  intros [[fl Hf] Hc] Hn. unfold pktpool_free. destruct (enq_ok s fl p Hf Hc) as (s1 & -> & Hf1 & Hc1 & U & _). cbn [mbind option_bind].
  apply (kept_trans s s1 _ U). assert (pool_ok s1) as Hs1 by (split; [by exists (p :: fl)|done]).
  destruct (used_cnt _ _ U) as (_ & _ & En). destruct (cbcnt _ =? 0); [by apply kept_ret|].
  destruct (_ =? EMPTYCB_ENABLED); [destruct (pool_empty _); [by apply kept_ret|apply avail_notify_kept; [done|by apply En]]|].
  apply kept_ret; [apply flags_ok; [done|apply Hc1]|apply flags_used].
Qed.

Lemma disable_kept s b : pool_ok s -> (length (s_scripts s) < n)%nat -> kept s (pktpool_emptycb_disable call s b).
Proof.
  intros Hs Hn. unfold pktpool_emptycb_disable. apply kept_bind.
  - destruct (_ && _); [by apply avail_notify_kept|by apply kept_ret].
  - intros s' Hs' U. apply (kept_trans s s' _ U), kept_ret; [apply flags_ok; [done|apply Hs']|apply flags_used].
Qed.

(** A packet leaves the list of those in use. *)
Lemma out_remove s fl p :
  free_ok s fl -> p ∈ s_out s -> free_ok (set_out s (p :: filter (fun x => x <> p) (s_out s))) fl.
Proof.
  intros [H1 H2 H3 H4 H5 H6 H7] Hp. apply NoDup_app in H1 as (Hn1 & Hd & Hn2).
  assert (p :: filter (fun x => x <> p) (s_out s) ≡ₚ s_out s) as Hperm.
  { apply NoDup_Permutation; [apply NoDup_cons; split; [rewrite list_elem_of_filter; by intros [? _]|by apply NoDup_filter]|done|].
    intros x. rewrite elem_of_cons, list_elem_of_filter. destruct (decide (x = p)) as [->|]; naive_solver. }
  constructor; cbn [set_out s_pool s_heap s_out]; try done.
  - by rewrite Hperm, NoDup_app.
  - intros q. rewrite H6. by rewrite Hperm.
  - by rewrite Hperm.
Qed.

Lemma act_kept s a : pool_ok s -> (length (s_scripts s) < n)%nat -> kept s (do_act call a s).
Proof.
  intros Hs Hn. destruct a as [|p|b]; cbn [do_act]; [| |by apply disable_kept].
  - destruct (get_kept s Hs Hn) as (p & s' & -> & U & Hp). cbn [mbind option_bind].
    destruct Hp as [(-> & Hs' & _)|(Hp & _ & Hs')]; [by apply kept_ret|]. rewrite (proj2 (Z.eqb_neq _ _)) by done.
    by apply kept_ret.
  - case_bool_decide as Hp; [|by apply kept_ret]. destruct Hs as [[fl Hf] Hc].
    apply (kept_trans s (set_out s (filter (fun x => x <> p) (s_out s)))); [by repeat split|].
    apply free_kept; [|done]. split; [exists fl; by apply (out_remove s)|done].
Qed.

Lemma acts_kept s acts : pool_ok s -> (length (s_scripts s) < n)%nat -> kept s (run_acts call acts s).
Proof.
  revert s. induction acts as [|a acts IH]; intros s Hs Hn; cbn [run_acts]; [by apply kept_ret|].
  apply kept_bind; [by apply act_kept|]. intros s' Hs' U. apply (kept_trans s s' _ U), IH; [done|].
  by apply (used_cnt s s').
Qed.
End callbacks.

(** However callbacks nest, they come to an end. *)
Lemma run_cb_good fuel : good (run_cb fuel) fuel.
Proof.
  induction fuel as [|fuel IH]; intros cb arg s Hcb Hs Hn; [lia|]. cbn [run_cb]. rewrite (proj2 (Z.eqb_neq _ _)) by done.
  set (s1 := set_scripts s (tail (s_scripts s)) (s_called s ++ [(cb, arg)])).
  assert (used s s1) as U by (split; [by repeat split|split; [done|split; [done|]]]; cbn; rewrite length_tl; lia).
  apply (kept_trans s s1 _ U). destruct (s_scripts s) as [|acts rest] eqn:E; cbn [hd run_acts].
  - apply kept_ret; [|done]. destruct Hs as [[fl [H1 H2 H3 H4 H5 H6 H7]] Hc]. split; [exists fl; by constructor|done].
  - apply (acts_kept _ fuel IH).
    + destruct Hs as [[fl [H1 H2 H3 H4 H5 H6 H7]] Hc]. split; [exists fl; by constructor|done].
    + cbn [s1 set_scripts s_scripts tl length] in *. lia.
Qed.
