(* ===== verification/PktPoolProps.v ===== *)
(** * Packet pools: histories and properties *)
From Stdlib Require Import ZArith Lia.
From stdpp Require Import base gmap option numbers list.
From S2P Require Import Prelude PktQueue PktChain PktPool PktPoolInv.

(** ** Histories

    With a call that can call back come the scripts of the callbacks; with
    pktpool_fill the packets that PKTGET returns. *)
Inductive pool_op :=
  | PAct (a : pool_act) (scripts : list (list pool_act))
  | PFill (minimal : bool) (gets : list Z) (scripts : list (list pool_act))
  | PAdd (p : Z)                     (* a new packet *)
  | PMax (n : Z)
  | PAvailReg (cb : Z * Z) | PEmptyReg (cb : Z * Z)
  | PExcl (cb : Z) | PNormal.

Definition set_gets (s : psys) (g : list Z) : psys :=
  {| s_pool := s_pool s; s_heap := s_heap s; s_gets := g; s_asked := s_asked s; s_out := s_out s; s_scripts := s_scripts s; s_called := s_called s |}.
Definition pool_start (gets : list Z) : psys :=
  {| s_pool := pool0; s_heap := ∅; s_gets := gets; s_asked := []; s_out := []; s_scripts := []; s_called := [] |}.

Definition fresh (s : psys) (gets : list Z) : bool :=
  bool_decide (NoDup (filter (fun p => p <> 0) gets)) && forallb (fun p => (p =? 0) || bool_decide (s_heap s !! p = None)) gets.

(** Deep enough for every script. *)
Definition run_all (scripts : list (list pool_act)) : Z -> Z -> psys -> option psys := run_cb (S (length scripts)).
Definition pool_step (op : pool_op) (s : psys) : option psys :=
  match op with
  | PAct a sc => do_act (run_all sc) a (set_scripts s sc (s_called s))
  | PFill b gets sc => '(_, s) ← pktpool_fill (run_all sc) (set_scripts (set_gets s gets) sc (s_called s)) b; Some s
  | PAdd p =>
      let '(p, s) := PKTGET (set_gets s [p]) (plen (s_pool s)) in
      '(err, s) ← pktpool_add s p;
      if err =? 0 then Some s else h ← PKTFREE (s_heap s) p; Some (set_pool s (s_pool s) h)
  | PMax n => Some (set_pool s (snd (pktpool_setmaxlen (s_pool s) n)) (s_heap s))
  | PAvailReg cb => '(_, p) ← pktpool_avail_register (s_pool s) cb; Some (set_pool s p (s_heap s))
  | PEmptyReg cb => '(_, p) ← pktpool_empty_register (s_pool s) cb; Some (set_pool s p (s_heap s))
  | PExcl cb => '(_, p) ← pktpool_avail_notify_exclusive (s_pool s) cb; Some (set_pool s p (s_heap s))
  | PNormal => Some (set_pool s (snd (pktpool_avail_notify_normal (s_pool s))) (s_heap s))
  end.
Definition pool_legal (s : psys) (op : pool_op) : bool :=
  match op with
  | PFill _ gets _ => fresh s gets
  | PAdd p => negb (p =? 0) && fresh s [p]
  | PMax n => (0 <=? n) && (n <? 65536)
  | PAvailReg cb | PEmptyReg cb => negb (fst cb =? 0)
  | _ => true
  end.
Fixpoint pool_run (ops : list pool_op) (s : psys) : option psys :=
  match ops with [] => Some s | op :: ops => s ← pool_step op s; pool_run ops s end.
Fixpoint pool_legal_run (ops : list pool_op) (s : psys) : bool :=
  match ops with
  | [] => true
  | op :: ops => pool_legal s op && match pool_step op s with Some s => pool_legal_run ops s | None => true end
  end.

(** ** New packets *)
Lemma pktget_add s fl p gets k :
  free_ok s fl -> cbs_ok (s_pool s) -> s_gets s = p :: gets -> p <> 0 -> s_heap s !! p = None -> pool_len (s_pool s) < maxlen (s_pool s) ->
  exists s', pktpool_add (snd (PKTGET s k)) p = Some (0, s') /\ free_ok s' (p :: fl) /\ cbs_ok (s_pool s') /\
    pool_len (s_pool s') = pool_len (s_pool s) + 1 /\ maxlen (s_pool s') = maxlen (s_pool s) /\ s_gets s' = gets /\
    s_asked s' = s_asked s ++ [k] /\ s_scripts s' = s_scripts s /\ pp_id (s_pool s') = pp_id (s_pool s) /\ s_out s' = s_out s /\ forall q, q <> p -> s_heap s' !! q = None <-> s_heap s !! q = None.
Proof.
  intros [H1 H2 H3 H4 H5 H6 [H7 H8]] Hc Eg Hp Hnew Hlt. unfold PKTPOOL_LEN_MAX in *. unfold pktpool_add, PKTGET. rewrite Eg.
  change (hd0 (p :: gets)) with p. rewrite (proj2 (Z.eqb_neq p 0)) by done.
  cbn [snd set_pool s_pool s_heap s_gets s_asked s_out s_scripts s_called tail]. rewrite (proj2 (Z.eqb_neq _ (maxlen _))) by lia.
  rewrite (wrapu_small 16) by lia. set (s1 := set_pool _ _ _).
  assert (p ∉ fl ++ s_out s) as Hpf by (rewrite <- H6, Hnew; by intros [? ?]).
  destruct (enq_ok s1 fl p) as (s2 & E2 & Hf2 & Hc2 & (Hcb & G1 & G2 & G3) & Eo).
  - constructor; cbn [s1 set_out set_pool set_lens s_pool s_heap s_out freelist avail pool_len maxlen]; try done.
    + rewrite not_elem_of_app in Hpf. apply NoDup_app in H1 as (Hn1 & Hd & Hn2). apply NoDup_app. split; [done|]. split.
      * intros x Hx [->|Hx']%elem_of_cons; [naive_solver|]. by apply (Hd x).
      * apply NoDup_cons. split; [naive_solver|done].
    + apply linked_insert; [|done]. rewrite elem_of_app in Hpf. naive_solver.
    + by rewrite lookup_insert_ne.
    + intros q. rewrite elem_of_app, elem_of_cons. destruct (decide (q = p)) as [->|Hq].
      * rewrite lookup_insert_eq. split; [by right; left|by eexists].
      * rewrite lookup_insert_ne, H6, elem_of_app by done. naive_solver.
    + unfold PKTPOOL_LEN_MAX. cbn [length]. lia.
  - by destruct Hc; constructor.
  - pose proof E2 as E2'. rewrite E2. cbn [mbind option_bind]. exists s2. destruct Hcb as (_ & _ & _ & _ & _ & Hmx & Hln & Hid).
    unfold pktpool_enq, PKTSETLINK in E2'. apply bind_Some in E2' as (h & Eh & [= <-]).
    apply bind_Some in Eh as (l & El & [= <-]).
    split_and!; try done. intros q Hq. cbn [s1 set_pool s_heap]. by rewrite !lookup_insert_ne by done.
Qed.

Lemma fresh_cons s p gets :
  fresh s (p :: gets) = true -> p <> 0 -> s_heap s !! p = None /\ p ∉ gets /\ fresh s gets = true.
Proof.
  unfold fresh. cbn [forallb]. rewrite !andb_true_iff, orb_true_iff, !bool_decide_eq_true. intros (Hnd & [E%Z.eqb_eq|Hp] & Hf) Hp0; [done|].
  rewrite filter_cons_True in Hnd by done. apply NoDup_cons in Hnd as [Hn Hnd]. split; [done|]. split; [|done].
  intros Hin. apply Hn. by apply list_elem_of_filter.
Qed.
Lemma fresh_move s s' gets p :
  (forall q, q <> p -> s_heap s' !! q = None <-> s_heap s !! q = None) -> p ∉ gets -> fresh s gets = true -> fresh s' gets = true.
Proof.
  unfold fresh. intros Hh Hp. rewrite !andb_true_iff. intros [Hn Hf]. split; [done|]. rewrite forallb_forall in Hf |- *. intros q Hq.
  specialize (Hf q Hq). rewrite orb_true_iff, bool_decide_eq_true in Hf |- *. destruct Hf as [?|?]; [by left|right].
  apply Hh; [|done]. intros ->. by apply Hp, list_elem_of_In.
Qed.

(** Filling asks for packets of as many bytes as the pool has packets. *)
Lemma fill_loop_ok m s fl :
  free_ok s fl -> cbs_ok (s_pool s) -> fresh s (s_gets s) = true -> pool_len (s_pool s) + Z.of_nat m <= maxlen (s_pool s) ->
  exists err s' k, fill_loop m s = Some (err, s') /\ (exists fl', free_ok s' fl') /\ cbs_ok (s_pool s') /\ s_scripts s' = s_scripts s /\
    pp_id (s_pool s') = pp_id (s_pool s) /\ (k <= m)%nat /\ s_asked s' = s_asked s ++ map (fun i => pool_len (s_pool s) + Z.of_nat i) (seq 0 k) /\
    (err = 0 -> pool_len (s_pool s') = pool_len (s_pool s) + Z.of_nat m /\ k = m).
Proof.
  revert s fl. induction m as [|m IH]; intros s fl Hf Hc Hfr Hm; cbn [fill_loop].
  - exists 0, s, 0%nat. split; [done|]. split; [by exists fl|]. split_and!; try done. { by rewrite app_nil_r. } intros _. lia.
  - destruct (PKTGET s (pool_len (s_pool s))) as [p s1] eqn:Eg. unfold PKTGET in Eg. injection Eg as <- <-.
    destruct (s_gets s) as [|p gets] eqn:Egets; [|change (hd0 (p :: gets)) with p; destruct (Z.eqb_spec p 0) as [->|Hp]].
    1-2: cbn [hd0 head default Z.eqb]; eexists _, _, 1%nat; split; [done|]; split;
      [exists fl; by destruct Hf; constructor|]; split; [done|]; split; [done|]; split; [done|]; split; [lia|]; split; [cbn; by rewrite Z.add_0_r|done].
    destruct (fresh_cons _ _ _ Hfr Hp) as (Hnew & Hpg & Hfr').
    destruct (pktget_add s fl p gets (pool_len (s_pool s)) Hf Hc Egets Hp Hnew) as (s' & E & Hf' & Hc' & El & Em & Egs & Ea & Es & Eid & Eo & Hh); [lia|].
    unfold PKTGET in E. rewrite Egets in E. change (hd0 (p :: gets)) with p in E. rewrite (proj2 (Z.eqb_neq p 0)) in E by done.
    cbn [snd tail] in E |- *. rewrite E. cbn [mbind option_bind]. change (negb (0 =? BCME_OK)) with false. cbn match.
    destruct (IH s' (p :: fl) Hf' Hc') as (err & s2 & k & E2 & Hf2 & Hc2 & Es2 & Eid2 & Hk & Ea2 & He); [|lia|].
    { rewrite Egs. by apply (fresh_move s s' gets p). }
    exists err, s2, (S k). split; [done|]. split; [done|]. split; [done|]. split; [congruence|]. split; [congruence|]. split; [lia|]. split.
    + rewrite Ea2, Ea, El, <- app_assoc. f_equal. cbn [seq map app]. f_equal; [lia|]. rewrite <- seq_shift, map_map. apply map_ext. intros i. lia.
    + intros E0. destruct (He E0) as [H1 H2]. split; [lia|by f_equal].
Qed.

(** ** Every operation keeps the books *)
Lemma scripts_ok s sc called : pool_ok s -> pool_ok (set_scripts s sc called).
Proof. intros [[fl [H1 H2 H3 H4 H5 H6 H7]] Hc]. split; [exists fl; by constructor|done]. Qed.

Lemma excl_loop_ok m p cb i r :
  excl_loop m p cb i = Some r -> 0 <= i -> i + Z.of_nat m <= cbcnt p -> (forall x, availcb_excl p = Some x -> 0 <= x < cbcnt p) ->
  forall x, r = Some x -> 0 <= x < cbcnt p.
Proof.
  revert i. induction m as [|m IH]; intros i; cbn [excl_loop]; [intros [= <-]; naive_solver|]. intros E Hi Hm Hx.
  destruct (aget (cbs p) i) as [c|]; [|done]. cbn [mbind option_bind] in E. destruct (cb =? fst c).
  - injection E as <-. intros x [= <-]. lia.
  - apply (IH (i + 1)); [done|lia|lia|done].
Qed.
Lemma excl_loop_Some m p cb i : cbs_ok p -> 0 <= i -> i + Z.of_nat m <= cbcnt p -> exists r, excl_loop m p cb i = Some r.
Proof.
  intros Hc. revert i. induction m as [|m IH]; intros i Hi Hm; cbn [excl_loop]; [by eexists|].
  destruct (cb_avail _ Hc i) as (c & -> & _); [lia|]. cbn [mbind option_bind]. destruct (_ =? _); [by eexists|]. apply IH; lia.
Qed.

(** A callback table with one more entry. *)
Lemma table_snoc (t : list (Z * Z)) k c :
  0 <= k < Z.of_nat (length t) -> fst c <> 0 -> (forall i, 0 <= i < k -> exists c, aget t i = Some c /\ fst c <> 0) ->
  exists t', aset t k c = Some t' /\ length t' = length t /\ forall i, 0 <= i < k + 1 -> exists c, aget t' i = Some c /\ fst c <> 0.
Proof.
  intros Hk Hc Ht. rewrite aset_Some by lia. eexists. split; [done|]. split; [by rewrite length_insert|]. intros i Hi.
  rewrite aget_insert by lia. destruct (decide (k = i)); [by exists c|]. apply Ht. lia.
Qed.

Lemma pool_step_ok op s :
  pool_ok s -> pool_legal s op = true -> exists s', pool_step op s = Some s' /\ pool_ok s' /\ pp_id (s_pool s') = pp_id (s_pool s).
Proof.
  intros Hs Hl. destruct op as [a sc|b gets sc|p|m|cb|cb|cb|]; cbn [pool_step pool_legal] in *.
  - destruct (act_kept _ _ (run_cb_good (S (length sc))) (set_scripts s sc (s_called s)) a) as (s' & E & Hs' & (U & _)); [by apply scripts_ok|cbn; lia|].
    exists s'. split; [done|]. split; [done|]. by destruct U as (_ & _ & _ & _ & _ & _ & _ & U).
  - unfold pktpool_fill. set (s0 := set_scripts (set_gets s gets) sc (s_called s)). destruct Hs as [[fl Hf] Hc].
    assert (free_ok s0 fl) as Hf0 by (by destruct Hf; constructor).
    destruct (fo_len _ _ Hf) as [Hlen Hmax]. unfold PKTPOOL_LEN_MAX in Hmax.
    set (psize := if b then Z.shiftr (maxlen (s_pool s0)) 2 else maxlen (s_pool s0)).
    assert (psize <= maxlen (s_pool s)) as Hps.
    { unfold psize. destruct b; [|done]. rewrite Z.shiftr_div_pow2 by done. cbn [s0 set_scripts set_gets s_pool]. apply Z.div_le_upper_bound; cbn; lia. }
    destruct (fill_loop_ok (Z.to_nat (psize - pool_len (s_pool s0))) s0 fl Hf0 Hc Hl) as (err & s1 & k & -> & Hf1 & Hc1 & Es & Eid & _);
      [cbn [s0 set_scripts set_gets s_pool]; lia|]. cbn [mbind option_bind].
    assert (kept s1 (if negb (cbcnt (s_pool s1) =? 0) && negb (pool_empty (s_pool s1)) then pktpool_avail_notify (run_all sc) s1 else Some s1)) as (s2 & -> & Hs2 & (U & _)).
    { destruct (_ && _); [apply (avail_notify_kept _ _ (run_cb_good (S (length sc)))); [done|rewrite Es; cbn; lia]|by apply kept_ret]. }
    cbn [mbind option_bind]. exists s2. split; [done|]. split; [done|]. destruct U as (_ & _ & _ & _ & _ & _ & _ & ->). done.
  - apply andb_true_iff in Hl as [Hp%negb_true_iff%Z.eqb_neq Hfr]. destruct (fresh_cons _ _ _ Hfr Hp) as (Hnew & _ & _).
    destruct Hs as [[fl Hf] Hc]. destruct (fo_len _ _ Hf) as [Hlen Hmax].
    assert (free_ok (set_gets s [p]) fl) as Hf0 by (by destruct Hf; constructor).
    destruct (PKTGET (set_gets s [p]) (plen (s_pool s))) as [p' s1] eqn:Eg.
    assert (p' = p) as -> by (unfold PKTGET in Eg; injection Eg as <- _; done).
    destruct (decide (pool_len (s_pool s) = maxlen (s_pool s))) as [Efull|].
    + unfold PKTGET in Eg. cbn [set_gets s_gets] in Eg. change (hd0 [p]) with p in Eg. rewrite (proj2 (Z.eqb_neq p 0)) in Eg by done. injection Eg as <-.
      unfold pktpool_add. cbn [s_pool]. rewrite (proj2 (Z.eqb_eq _ _)) by done. cbn [mbind option_bind BCME_RANGE Z.eqb s_heap].
      unfold PKTFREE. rewrite lookup_insert_eq. cbn [mbind option_bind]. eexists. split; [done|]. split; [|done]. split; [|done]. exists fl.
      destruct Hf; constructor; cbn [set_pool s_pool s_heap s_out]; try done; by rewrite delete_insert_id.
    + destruct (pktget_add (set_gets s [p]) fl p [] (plen (s_pool s)) Hf0 Hc eq_refl Hp Hnew) as (s2 & E & Hf2 & Hc2 & _ & _ & _ & _ & _ & Eid & _);
        [cbn [set_gets s_pool]; lia|]. rewrite Eg in E. cbn [snd] in E. rewrite E. cbn [mbind option_bind Z.eqb].
      exists s2. split; [done|]. split; [|done]. split; [by exists (p :: fl)|done].
  - apply andb_true_iff in Hl as [_ _]. eexists. split; [done|]. split; [|done]. destruct Hs as [[fl Hf] Hc]. split; [|by destruct Hc; constructor]. exists fl.
    destruct Hf as [H1 H2 H3 H4 H5 H6 [H7 H8]]. unfold PKTPOOL_LEN_MAX in *. unfold pktpool_setmaxlen, PKTPOOL_LEN_MAX.
    constructor; cbn [set_pool set_lens snd s_pool s_heap s_out freelist avail pool_len maxlen]; try done. split; [done|]. unfold PKTPOOL_LEN_MAX.
    destruct (Z.ltb_spec 40 m);
      [destruct (Z.ltb_spec 40 (pool_len (s_pool s)))|destruct (Z.ltb_spec m (pool_len (s_pool s)))]; lia.
  - apply negb_true_iff, Z.eqb_neq in Hl. destruct Hs as [[fl Hf] [[G1 G1'] [G2 G2'] G3 G4 G5 G6]]. unfold pktpool_avail_register, PKTPOOL_CB_MAX_AVL.
    destruct (Z.eqb_spec (cbcnt (s_pool s)) 4); cbn [mbind option_bind].
    + exists (set_pool s (s_pool s) (s_heap s)). split; [done|]. split; [|done]. split; [exists fl; by destruct Hf; constructor|by constructor].
    + destruct (table_snoc (cbs (s_pool s)) (cbcnt (s_pool s)) cb) as (t & -> & Hl' & Ht); [lia|done|done|]. cbn [mbind option_bind].
      eexists. split; [done|]. split; [|done]. split; [exists fl; by destruct Hf; constructor|].
      constructor; cbn [set_pool set_cbs s_pool cbcnt ecbcnt cbs ecbs availcb_excl cbtoggle]; rewrite ?(wrapu_small 8) by lia; try done; [by rewrite Hl'|lia|].
      intros x Hx. specialize (G5 x Hx). lia.
  - apply negb_true_iff, Z.eqb_neq in Hl. destruct Hs as [[fl Hf] [[G1 G1'] [G2 G2'] G3 G4 G5 G6]]. unfold pktpool_empty_register, PKTPOOL_CB_MAX.
    destruct (Z.eqb_spec (ecbcnt (s_pool s)) 3); cbn [mbind option_bind].
    + exists (set_pool s (s_pool s) (s_heap s)). split; [done|]. split; [|done]. split; [exists fl; by destruct Hf; constructor|by constructor].
    + destruct (table_snoc (ecbs (s_pool s)) (ecbcnt (s_pool s)) cb) as (t & -> & Hl' & Ht); [lia|done|done|]. cbn [mbind option_bind].
      eexists. split; [done|]. split; [|done]. split; [exists fl; by destruct Hf; constructor|].
      constructor; cbn [set_pool set_cbs s_pool cbcnt ecbcnt cbs ecbs availcb_excl cbtoggle]; rewrite ?(wrapu_small 8) by lia; try done; [by rewrite Hl'|lia].
  - destruct Hs as [[fl Hf] Hc]. unfold pktpool_avail_notify_exclusive. pose proof (cb_cnt _ Hc) as [? _].
    destruct (excl_loop_Some (Z.to_nat (cbcnt (s_pool s))) (s_pool s) cb 0 Hc) as (r & E); [lia|lia|]. rewrite E. cbn [mbind option_bind].
    eexists. split; [done|]. split; [|done]. split; [exists fl; by destruct Hf; constructor|].
    pose proof (excl_loop_ok _ _ _ _ _ E ltac:(lia) ltac:(lia) (cb_excl _ Hc)). by destruct Hc; constructor.
  - eexists. split; [done|]. split; [|done]. destruct Hs as [[fl Hf] Hc]. split; [exists fl; by destruct Hf; constructor|].
    by destruct Hc; constructor.
Qed.

Lemma pool_run_ok ops s :
  pool_ok s -> pool_legal_run ops s = true -> exists s', pool_run ops s = Some s' /\ pool_ok s' /\ pp_id (s_pool s') = pp_id (s_pool s).
Proof.
  revert s. induction ops as [|op ops IH]; intros s Hs; cbn [pool_legal_run pool_run]; [intros _; by exists s|].
  intros [Hl Hl2]%andb_true_iff. destruct (pool_step_ok op s Hs Hl) as (s1 & E & Hs1 & Eid).
  rewrite E in Hl2 |- *. cbn [mbind option_bind]. rewrite <- Eid. by apply IH.
Qed.

(** ** Setting up *)
Definition booked (s : psys) : psys := set_pool s (set_lens (s_pool s) (avail (s_pool s)) (maxlen (s_pool s))) (s_heap s).

Lemma init_loop_ok m s fl pl :
  free_ok (booked s) fl -> cbs_ok (s_pool s) -> fresh s (s_gets s) = true -> avail (s_pool s) + Z.of_nat m <= maxlen (s_pool s) ->
  exists err s' fl', init_loop m s pl = Some (err, s') /\ free_ok (booked s') fl' /\ cbs_ok (s_pool s') /\ pp_id (s_pool s') = pp_id (s_pool s) /\
    (err = BCME_OK \/ err = BCME_NOMEM).
Proof.
  revert s fl. induction m as [|m IH]; intros s fl Hf Hc Hfr Hm; cbn [init_loop].
  - exists BCME_OK, s, fl. split_and!; try done. by left.
  - destruct (PKTGET s pl) as [p s1] eqn:Eg. unfold PKTGET in Eg. injection Eg as <- <-.
    destruct (s_gets s) as [|p gets] eqn:Egets; [|change (hd0 (p :: gets)) with p; destruct (Z.eqb_spec p 0) as [->|Hp]].
    1-2: cbn [hd0 head default Z.eqb]; eexists _, _, fl; split; [done|]; split; [by destruct Hf; constructor|]; split; [done|]; split; [done|];
      destruct (_ =? 0); [by right|by left].
    destruct (fresh_cons _ _ _ Hfr Hp) as (Hnew & Hpg & Hfr').
    destruct (pktget_add (booked s) fl p gets pl Hf) as (s' & E & Hf' & Hc' & El & Em & Egs & Ea & Es & Eid & Eo & Hh); try done.
    { by destruct Hc; constructor. } { cbn [booked set_pool set_lens s_pool pool_len maxlen]. lia. }
    unfold PKTGET, pktpool_add in E. cbn [booked set_pool s_gets] in E. rewrite Egets in E. change (hd0 (p :: gets)) with p in E.
    rewrite (proj2 (Z.eqb_neq p 0)) in E by done. cbn [snd s_pool s_heap set_lens pool_len maxlen tail set_pool] in E.
    change (pool_len (s_pool (booked s))) with (avail (s_pool s)) in E. change (maxlen (s_pool (booked s))) with (maxlen (s_pool s)) in E.
    rewrite (proj2 (Z.eqb_neq (avail (s_pool s)) _)) in E by lia. apply bind_Some in E as (s2 & E & E'). injection E' as ->.
    unfold pktpool_enq in E. cbn [booked s_pool s_heap set_pool set_lens freelist avail] in E. apply bind_Some in E as (h & Eh & E'). injection E' as <-.
    unfold pktpool_enq. cbn [s_pool s_heap tail]. rewrite Eh. cbn [mbind option_bind].
    edestruct (IH (set_pool {| s_pool := s_pool s; s_heap := <[p:=0]> (s_heap s); s_gets := gets; s_asked := s_asked s ++ [pl]; s_out := s_out s;
        s_scripts := s_scripts s; s_called := s_called s |} (set_free (s_pool s) p (u16 (avail (s_pool s) + 1))) h) (p :: fl))
      as (err & s2 & fl2 & E2 & Hf2 & Hc2 & Eid2 & He).
    + exact Hf'.
    + by destruct Hc; constructor.
    + apply (fresh_move s _ gets p); [|done|done]. intros q Hq. cbn [set_pool s_heap]. apply (Hh q Hq).
    + cbn [set_pool s_pool set_free avail maxlen]. rewrite (wrapu_small 16); [lia|].
      destruct (fo_len _ _ Hf) as [H1 H2]. unfold PKTPOOL_LEN_MAX in H2. cbn [booked set_pool set_lens s_pool pool_len maxlen] in H1, H2. lia.
    + exists err, s2, fl2. split; [exact E2|]. done.
Qed.

(** ** The registry *)
Lemma register_loop_ok m r i pktp id r' :
  register_loop m r i pktp = Some (id, r') -> 1 <= i ->
  id = 0 \/ 1 <= id /\ aget (pktpools_registry r) id = Some 0 /\ pktpool_registry_set r id pktp = Some r'.
Proof.
  revert i. induction m as [|m IH]; intros i; cbn [register_loop]; [intros [= <- _]; by left|]. intros E Hi.
  unfold pktpool_registry_cmp in E. destruct (aget (pktpools_registry r) i) as [x|] eqn:Ex; [|done]. cbn [mbind option_bind] in E.
  destruct (Z.eqb_spec x PKTPOOLREG_FREE_PTR) as [->|]; [|apply (IH (i + 1)); [done|lia]].
  apply bind_Some in E as (r2 & E & [= <- <-]). by right.
Qed.

Lemma deregister_back r id pktp r' :
  aget (pktpools_registry r) id = Some 0 -> pktpool_registry_set r id pktp = Some r' -> pktpool_deregister r' pktp id = Some (BCME_OK, r).
Proof.
  intros E0 E. pose proof (aget_lt _ _ _ E0) as Hi. unfold pktpool_registry_set in E. rewrite aset_Some in E by lia. injection E as <-.
  unfold pktpool_deregister, pktpool_registry_cmp, pktpool_registry_set. cbn [pktpools_registry pktpools_max].
  rewrite aget_insert, decide_True by lia. cbn [mbind option_bind]. rewrite Z.eqb_refl, aset_Some by (rewrite length_insert; lia). cbn [mbind option_bind].
  do 2 f_equal. destruct r as [mx t]; cbn [pktpools_registry pktpools_max] in *. f_equal. rewrite list_insert_insert_eq.
  apply list_insert_id. unfold aget in E0. by rewrite (proj2 (Z.leb_le 0 id)) in E0 by lia.
Qed.

(** ** Taking down *)
Lemma deinit_loop_ok fl s freed fuel :
  linked (s_heap s) fl -> NoDup fl -> s_heap s !! 0 = None -> freelist (s_pool s) = hd0 fl -> (length fl < fuel)%nat ->
  0 <= freed -> freed + Z.of_nat (length fl) < 65536 ->
  exists s', deinit_loop fuel s freed = Some (freed + Z.of_nat (length fl), s') /\ avail (s_pool s') = avail (s_pool s) /\
    pool_len (s_pool s') = pool_len (s_pool s) /\ pp_id (s_pool s') = pp_id (s_pool s) /\
    forall q, s_heap s' !! q = if decide (q ∈ fl) then None else s_heap s !! q.
Proof.
  revert s freed fuel. induction fl as [|p fl IH]; intros s freed fuel Hl Hnd H0 Hh Hfu Hfr Hb; (destruct fuel as [|fuel]; [cbn in Hfu; lia|]); cbn [deinit_loop].
  - rewrite Hh. cbn [Z.eqb hd0 head default length Z.of_nat]. exists s. rewrite Z.add_0_r. split_and!; try done. 
  - change (freelist (s_pool s) = p) in Hh. destruct Hl as [Hp Hl]. apply NoDup_cons in Hnd as [Hpf Hnd].
    assert (p <> 0) as Hp0 by (intros ->; congruence). rewrite Hh, (proj2 (Z.eqb_neq p 0)) by done.
    unfold PKTLINK, PKTSETLINK, PKTFREE. rewrite Hp. cbn [mbind option_bind]. rewrite lookup_insert_eq. cbn [mbind option_bind].
    rewrite delete_insert_eq. cbn [length] in *. rewrite (wrapu_small 16) by lia.
    destruct (IH (set_pool s (set_free (s_pool s) (hd0 fl) (avail (s_pool s))) (delete p (s_heap s))) (freed + 1) fuel) as (s' & E & E1 & E2 & E3 & Hq);
      [|done| |done|lia|lia|lia|].
    + apply (linked_frame (s_heap s)); [|done]. intros x Hx. cbn [set_pool s_heap]. rewrite lookup_delete_ne; [done|]. by intros ->.
    + cbn [set_pool s_heap]. by rewrite lookup_delete_ne.
    + exists s'. rewrite E. split; [do 2 f_equal; lia|]. split; [done|]. split; [done|]. split; [done|]. intros q. rewrite Hq. cbn [set_pool s_heap].
      destruct (decide (q ∈ fl)), (decide (q ∈ p :: fl)) as [Hin|Hin]; rewrite ?elem_of_cons in Hin; [done|naive_solver| |].
      * destruct Hin as [->|?]; [by rewrite lookup_delete_eq|done].
      * rewrite lookup_delete_ne by naive_solver. done.
Qed.

(** ** Properties *)
Lemma pool_init_ok r gets pktp pplen pl tx ty err num r' s0 :
  length (pktpools_registry r) = 16%nat -> fresh (pool_start gets) gets = true ->
  pktpool_init r (pool_start gets) pktp pplen pl tx ty = Some (err, num, r', s0) -> err <> BCME_ERROR ->
  pool_ok s0 /\ aget (pktpools_registry r) (pp_id (s_pool s0)) = Some 0 /\ pktpool_registry_set r (pp_id (s_pool s0)) pktp = Some r'.
Proof.
  intros Hr Hfr E Herr. unfold pktpool_init in E. apply bind_Some in E as ([id r2] & Ereg & E).
  assert (id = 0 \/ 1 <= id /\ aget (pktpools_registry r) id = Some 0 /\ pktpool_registry_set r id pktp = Some r2) as Hid.
  { unfold pktpool_register in Ereg. destruct (_ =? 0); [injection Ereg as <- _; by left|]. by apply (register_loop_ok _ _ _ _ _ _ Ereg). }
  destruct Hid as [->|(Hid & E0 & Eset)]; [cbn in E; by injection E as <- _ _ _|].
  pose proof (aget_lt _ _ _ E0) as Hlt. rewrite Hr in Hlt. rewrite (wrapu_small 8) in E by lia.
  rewrite (proj2 (Z.eqb_neq id PKTPOOL_INVALID_ID)) in E by (unfold PKTPOOL_INVALID_ID; lia).
  set (s := set_pool (pool_start gets) (pool_new id ty tx (u16 pl)) (s_heap (pool_start gets))) in E.
  destruct (init_loop_ok (Z.to_nat (Z.min pplen PKTPOOL_LEN_MAX)) s [] pl) as (err2 & s2 & fl & E2 & Hf2 & Hc2 & Eid & _).
  - constructor; cbn; try done; [apply NoDup_nil_2|]. intros p. rewrite lookup_empty. split; [by intros [? ?]|by intros ?%not_elem_of_nil].
  - constructor; cbn; try done; lia.
  - done.
  - unfold s, PKTPOOL_LEN_MAX. cbn [set_pool s_pool pool_new avail maxlen]. unfold PKTPOOL_LEN_MAX. lia.
  - rewrite E2 in E. cbn [mbind option_bind] in E. injection E as <- <- <- <-. split; [split; [by exists fl|by destruct Hc2; constructor]|].
    cbn [set_pool set_lens s_pool pp_id]. rewrite Eid. done.
Qed.

(** C21: A packet pool never loses a packet or hands one out twice.  After its
    initialisation and any history of gets, frees, fills, additions, changes of
    the maximum, and registrations, in which callbacks get and free packets of
    the pool themselves, nested in any way: every call returns, the free list
    is a chain of exactly [avail] packets, these and the packets in use are
    distinct, are all the packets there are, and are [len] many, at most
    [maxlen] and PKTPOOL_LEN_MAX.  A get fails only if the pool is empty even
    after its users were asked, and else returns a packet that is not in use.
    When nothing is in use, pktpool_deinit frees everything and gives the slot
    of the registry back. *)
Theorem pool_conserves r gets pktp pplen pl tx ty err num r' s0 ops :
  length (pktpools_registry r) = 16%nat -> fresh (pool_start gets) gets = true ->
  pktpool_init r (pool_start gets) pktp pplen pl tx ty = Some (err, num, r', s0) -> err <> BCME_ERROR ->
  pool_legal_run ops s0 = true ->
  exists s fl, pool_run ops s0 = Some s /\ linked (s_heap s) fl /\ freelist (s_pool s) = hd0 fl /\
    avail (s_pool s) = Z.of_nat (length fl) /\ NoDup (fl ++ s_out s) /\ (forall p, is_Some (s_heap s !! p) <-> p ∈ fl ++ s_out s) /\
    pool_len (s_pool s) = Z.of_nat (length (fl ++ s_out s)) /\ pool_len (s_pool s) <= maxlen (s_pool s) <= PKTPOOL_LEN_MAX /\
    (forall sc, exists p s', pktpool_get (run_all sc) (set_scripts s sc (s_called s)) = Some (p, s') /\
       (p = 0 -> avail (s_pool s') = 0) /\ (p <> 0 -> p ∉ s_out s')) /\
    (s_out s = [] -> exists s', pktpool_deinit r' s pktp = Some (0, r, s') /\ s_heap s' = ∅ /\ avail (s_pool s') = 0 /\ pool_len (s_pool s') = 0).
Proof.
  intros Hr Hfr Ei Herr Hl. destruct (pool_init_ok _ _ _ _ _ _ _ _ _ _ _ Hr Hfr Ei Herr) as (H0 & Hslot & Hset).
  destruct (pool_run_ok ops s0 H0 Hl) as (s & E & Hs & Eid). pose proof Hs as [[fl Hf] Hc]. exists s, fl. split; [done|].
  pose proof Hf as [H1 H2 H3 H4 H5 H6 [H7 H8]]. rewrite length_app. do 7 (split; [done|]). split.
  - intros sc. destruct (get_kept _ _ (run_cb_good (S (length sc))) (set_scripts s sc (s_called s))) as (p & s' & Eg & _ & Hp);
      [by apply scripts_ok|cbn; lia|]. exists p, s'. split; [done|]. destruct Hp as [(-> & _ & ?)|(? & ? & _)]; done.
  - intros Hout. unfold PKTPOOL_LEN_MAX in H8. rewrite Hout, app_nil_r in *. cbn [length] in *. unfold pktpool_deinit.
    destruct (deinit_loop_ok fl s 0 (S (size (s_heap s)))) as (s' & -> & E1 & E2 & E3 & Hq); try done; [|lia|].
    { pose proof (linked_length _ _ H1 H2). lia. }
    cbn [mbind option_bind set_lens set_free pp_id]. rewrite E3, Eid, (deregister_back r _ pktp r' Hslot Hset). cbn [mbind option_bind].
    eexists. split; [done|]. cbn [set_pool set_ids s_heap s_pool avail pool_len set_lens set_free]. rewrite E1, E2, H4, H7. split.
    + apply map_eq. intros q. rewrite Hq, lookup_empty. destruct (decide (q ∈ fl)) as [|Hn]; [done|]. apply eq_None_not_Some. by rewrite H6.
    + split; apply (wrapu_small 16 0) || rewrite (wrapu_small 16) by lia; lia.
Qed.

(** A pool of three packets with a listener on each side: a get from the empty
    pool, in whose callback a user gives one back, whose callback in turn takes
    it and gives it back. *)
Definition demo_reg : registry := match pktpool_attach reg0 15 with Some (_, r) => r | None => reg0 end.
Definition demo_ops : list pool_op :=
  [PAvailReg (7, 1); PEmptyReg (8, 2); PAct AGet []; PAct AGet []; PAct AGet []; PAct AGet [[AFree 200]; [AGet; AFree 200]];
   PAct (ADisable true) []; PAct (AFree 100) []; PAct (ADisable false) [[AGet]]; PFill true [400; 500; 0] []; PAdd 600; PMax 5].
Definition demo_init : option (Z * Z * registry * psys) := pktpool_init demo_reg (pool_start [100; 200; 300]) 4096 3 1800 false 1.
Lemma pool_conserves_witness :
  match demo_init with
  | Some (err, num, r', s0) => err = 0 /\ num = 3 /\
      exists s fl, pool_run demo_ops s0 = Some s /\ linked (s_heap s) fl /\ avail (s_pool s) = Z.of_nat (length fl)
  | None => False
  end.
Proof.
  destruct demo_init as [[[[err num] r'] s0]|] eqn:E; [|vm_compute in E; discriminate].
  assert (err = 0 /\ num = 3 /\ pool_legal_run demo_ops s0 = true) as (-> & -> & Hl).
  { vm_compute in E. injection E as <- <- _ <-. split; [done|]. split; [done|]. vm_compute. done. }
  split; [done|]. split; [done|].
  destruct (pool_conserves demo_reg [100; 200; 300] 4096 3 1800 false 1 0 3 r' s0 demo_ops) as (s & fl & Er & Hlk & _ & Ha & _);
    [vm_compute; reflexivity|vm_compute; reflexivity|exact E|discriminate|exact Hl|]. by exists s, fl.
Defined.
