(* ===== verification/HndDma.v ===== *)
(** * DMA descriptor rings (shared/hnddma.c, 64-bit engine)

    A ring of descriptors in memory that the engine walks: the host writes
    descriptors and moves the register [ptr], the engine moves its current
    descriptor, which the host reads from a status register.  Modelled as built
    for a Linux host: DMASGLIST_ENAB, BCMLFRAG_ENAB and POOL_ENAB are 0, one
    DMA_MAP per buffer, DMA_UNMAP when a descriptor is taken back, dmaaddr_t one
    word; neither mips nor CA9.  [dma_tx] is the transmit half of dma_info_t;
    the registers a function reads are arguments.  ASSERT is a no-op. *)
From Stdlib Require Import ZArith Lia.
From stdpp Require Import base gmap option numbers list.
From S2P Require Import Prelude.

(** ** The bus

    [bus_addr]: the address DMA_MAP gives a buffer, below 4G.  [maps]: what is
    mapped, with the size; unmapping something else is undefined. *)
Class DmaBus := { bus_addr : Z -> Z; bus_addr_lt : forall va, 0 <= bus_addr va < 2 ^ 32 }.
Fixpoint dma_unmap (maps : list (Z * Z)) (pa size : Z) : option (list (Z * Z)) :=
  match maps with
  | [] => None
  | m :: maps => if decide (m = (pa, size)) then Some maps else maps ← dma_unmap maps pa size; Some (m :: maps)
  end.

(** ** Descriptors *)
Definition D64_CTRL1_NOTPCIE : Z := 2 ^ 18.
Definition D64_CTRL1_EOT : Z := 2 ^ 28.
Definition D64_CTRL1_IOC : Z := 2 ^ 29.
Definition D64_CTRL1_EOF : Z := 2 ^ 30.
Definition D64_CTRL1_SOF : Z := 2 ^ 31.
Definition D64_CTRL2_BC_MASK : Z := 0x7fff.
Definition D64_CTRL2_AE : Z := 0x30000.
Definition D64_CTRL2_PARITY : Z := 0x40000.
Definition PCI32ADDR_HIGH : Z := 0xc0000000.
Definition DMA_CTRL_PEN : Z := 1.
Definition DMA_CTRL_UNFRAMED : Z := 8.

Record dma64dd := { ctrl1 : Z; ctrl2 : Z; addrlow : Z; addrhigh : Z }.
Definition dd0 : dma64dd := {| ctrl1 := 0; ctrl2 := 0; addrlow := 0; addrhigh := 0 |}.

(** Settings. *)
Record dma_cfg := { dmactrlflags : Z; dataoffsetlow : Z; dataoffsethigh : Z; burstsize_ctrl : bool }.
Definition ctrl_flag (c : dma_cfg) (f : Z) : bool := negb (Z.land (dmactrlflags c) f =? 0).

Definition parity32 (data : Z) : Z :=
  let data := Z.lxor data (Z.shiftr data 16) in
  let data := Z.lxor data (Z.shiftr data 8) in
  let data := Z.lxor data (Z.shiftr data 4) in
  let data := Z.lxor data (Z.shiftr data 2) in
  let data := Z.lxor data (Z.shiftr data 1) in
  Z.land data 1.
Definition DMA64_DD_PARITY (d : dma64dd) : Z := parity32 (Z.lxor (Z.lxor (Z.lxor (addrlow d) (addrhigh d)) (ctrl1 d)) (ctrl2 d)).

Definition dd_of (c : dma_cfg) (pa flags bufcount : Z) : dma64dd :=
  let bc := Z.land bufcount D64_CTRL2_BC_MASK in
  let d :=
    if (dataoffsetlow c =? 0) || (Z.land pa PCI32ADDR_HIGH =? 0) then
      {| ctrl1 := flags; ctrl2 := bc; addrlow := u32 (pa + dataoffsetlow c); addrhigh := u32 (dataoffsethigh c) |}
    else
      let ae := Z.shiftr (Z.land pa PCI32ADDR_HIGH) 30 in
      {| ctrl1 := flags; ctrl2 := Z.lor bc (Z.land (Z.shiftl ae 16) D64_CTRL2_AE);
         addrlow := u32 (Z.land pa 0x3fffffff + dataoffsetlow c); addrhigh := u32 (dataoffsethigh c) |} in
  if ctrl_flag c DMA_CTRL_PEN && negb (DMA64_DD_PARITY d =? 0) then
    {| ctrl1 := ctrl1 d; ctrl2 := Z.lor (ctrl2 d) D64_CTRL2_PARITY; addrlow := addrlow d; addrhigh := addrhigh d |}
  else d.
Definition dma64_dd_upd (c : dma_cfg) (ddring : list dma64dd) (pa outidx flags bufcount : Z) : option (list dma64dd) :=
  aset ddring outidx (dd_of c pa flags bufcount).
(** The addresses of a descriptor taken back. *)
Definition dd_dead (d : dma64dd) : dma64dd := {| ctrl1 := ctrl1 d; ctrl2 := ctrl2 d; addrlow := 0xdeadbeef; addrhigh := 0xdeadbeef |}.

(** ** Indices *)
Definition XXD (x n : Z) : Z := Z.land x (n - 1).
Definition B2I (bytes : Z) : Z := u16 (bytes / 16).
Definition I2B (index : Z) : Z := index * 16.
(** The index of a descriptor pointer of the engine. *)
Definition curr_ix (status mask base : Z) : Z := B2I (Z.land (u32 (Z.land status mask - base)) mask).

(** ** Packets *)
Record pktbuf := { pk_data : Z; pk_len : Z; pk_next : Z }.
Definition pkts := gmap Z pktbuf.

(** ** Transmission *)
Record dma_tx := {
  ntxd : Z; txin : Z; txout : Z; txp : list Z; txd64 : list dma64dd; txavail : Z; txnobuf : Z;
  xs0cd : Z; xs0cd_snapshot : Z; tx_ptr : Z;
  xmtptrbase : Z; d64_xs0_cd_mask : Z; d64_xs1_ad_mask : Z;
  tx_maps : list (Z * Z)
}.
Definition TXD (t : dma_tx) (x : Z) : Z := XXD x (ntxd t).
Definition NEXTTXD (t : dma_tx) (i : Z) : Z := TXD t (i + 1).
Definition PREVTXD (t : dma_tx) (i : Z) : Z := TXD t (i - 1).
Definition NTXDACTIVE (t : dma_tx) (h tl : Z) : Z := TXD t (tl - h).
Definition tx_upd (t : dma_tx) (inx out : Z) (ps : list Z) (ring : list dma64dd) (avail : Z) (xs ptr : Z) (maps : list (Z * Z)) : dma_tx :=
  {| ntxd := ntxd t; txin := inx; txout := out; txp := ps; txd64 := ring; txavail := avail; txnobuf := txnobuf t;
     xs0cd := xs; xs0cd_snapshot := xs0cd_snapshot t; tx_ptr := ptr; xmtptrbase := xmtptrbase t;
     d64_xs0_cd_mask := d64_xs0_cd_mask t; d64_xs1_ad_mask := d64_xs1_ad_mask t; tx_maps := maps |}.
Definition tx_avail (t : dma_tx) (inx out : Z) : Z := u32 (ntxd t - NTXDACTIVE t inx out - 1).
Definition with_xs0cd (t : dma_tx) (xs : Z) : dma_tx := tx_upd t (txin t) (txout t) (txp t) (txd64 t) (txavail t) xs (tx_ptr t) (tx_maps t).
Definition with_txavail (t : dma_tx) (avail : Z) : dma_tx :=
  tx_upd t (txin t) (txout t) (txp t) (txd64 t) avail (xs0cd t) (tx_ptr t) (tx_maps t).

Definition dma64_txinit (t : dma_tx) : dma_tx :=
  if ntxd t =? 0 then t else
  {| ntxd := ntxd t; txin := 0; txout := 0; txp := txp t; txd64 := replicate (Z.to_nat (ntxd t)) dd0; txavail := ntxd t - 1; txnobuf := txnobuf t;
     xs0cd := 0; xs0cd_snapshot := 0; tx_ptr := tx_ptr t; xmtptrbase := xmtptrbase t;
     d64_xs0_cd_mask := d64_xs0_cd_mask t; d64_xs1_ad_mask := d64_xs1_ad_mask t; tx_maps := tx_maps t |}.

Definition _dma_txblock (t : dma_tx) : dma_tx := with_txavail t 0.
Definition _dma_txunblock (t : dma_tx) : dma_tx := with_txavail t (tx_avail t (txin t) (txout t)).
Definition _dma_txactive (t : dma_tx) : Z := NTXDACTIVE t (txin t) (txout t).
Definition _dma_txpending (t : dma_tx) (status0 : Z) : Z * dma_tx :=
  let curr := curr_ix status0 (d64_xs0_cd_mask t) (xmtptrbase t) in (NTXDACTIVE t curr (txout t), with_xs0cd t curr).
Definition _dma_txcommitted (t : dma_tx) : Z :=
  if txin t =? txout t then 0 else NTXDACTIVE t (txin t) (B2I (tx_ptr t)).
Definition dma_txp (t : dma_tx) : Z := Z.of_nat (length (filter (fun p => p <> 0) (txp t))).

(** Out of descriptors: what was written stays, but is not announced. *)
Definition outoftxd (t : dma_tx) (ring : list dma64dd) (maps : list (Z * Z)) : Z * dma_tx :=
  (-1, {| ntxd := ntxd t; txin := txin t; txout := txout t; txp := txp t; txd64 := ring; txavail := 0; txnobuf := u32 (txnobuf t + 1);
          xs0cd := xs0cd t; xs0cd_snapshot := xs0cd_snapshot t; tx_ptr := tx_ptr t; xmtptrbase := xmtptrbase t;
          d64_xs0_cd_mask := d64_xs0_cd_mask t; d64_xs1_ad_mask := d64_xs1_ad_mask t; tx_maps := maps |}).

Section bus.
Context `{DmaBus}.
Variable c : dma_cfg.

Definition eot_flag (i n : Z) : Z := if i =? n - 1 then D64_CTRL1_EOT else 0.

(** One buffer after the other; the first result tells that the ring is full. *)
Fixpoint txfast_loop (fuel : nat) (pk : pkts) (t : dma_tx) (p0 : Z) (commit : bool)
    (p : Z) (ring : list dma64dd) (maps : list (Z * Z)) (out flags : Z) : option (bool * list dma64dd * list (Z * Z) * Z * Z) :=
  match fuel with
  | O => None
  | S fuel =>
      if p =? 0 then Some (false, ring, maps, out, flags) else
      b ← pk !! p;
      if NEXTTXD t out =? txin t then Some (true, ring, maps, out, flags) else
      if pk_len b =? 0 then txfast_loop fuel pk t p0 commit (pk_next b) ring maps out flags else
      let pa := bus_addr (pk_data b) in
      let maps := maps ++ [(pa, pk_len b)] in
      let flags := if p =? p0 then D64_CTRL1_SOF else 0 in
      let flags := if pk_next b =? 0 then Z.lor flags (Z.lor D64_CTRL1_EOF (if commit then D64_CTRL1_IOC else 0)) else flags in
      let flags := Z.lor flags (eot_flag out (ntxd t)) in
      let flags := if burstsize_ctrl c then Z.lor flags D64_CTRL1_NOTPCIE else flags in
      ring ← dma64_dd_upd c ring pa out flags (pk_len b);
      let out := NEXTTXD t out in
      if out =? txin t then Some (true, ring, maps, out, flags)
      else txfast_loop fuel pk t p0 commit (pk_next b) ring maps out flags
  end.

Definition dma64_txfast (pk : pkts) (t : dma_tx) (p0 : Z) (commit : bool) : option (Z * dma_tx) :=
  '(full, ring, maps, out, flags) ← txfast_loop (S (size pk)) pk t p0 commit p0 (txd64 t) (tx_maps t) (txout t) 0;
  if full : bool then Some (outoftxd t ring maps) else
  ring ← (if Z.land flags D64_CTRL1_EOF =? 0 then
            d ← aget ring (PREVTXD t out);
            aset ring (PREVTXD t out) {| ctrl1 := Z.lor flags (Z.lor D64_CTRL1_IOC D64_CTRL1_EOF); ctrl2 := ctrl2 d; addrlow := addrlow d; addrhigh := addrhigh d |}
          else Some ring);
  ps ← aset (txp t) (PREVTXD t out) p0;
  Some (0, tx_upd t (txin t) out ps ring (tx_avail t (txin t) out) (xs0cd t)
             (if commit then u32 (xmtptrbase t + I2B out) else tx_ptr t) maps).

Definition dma64_txunframed (t : dma_tx) (buf len : Z) (commit : bool) : option (Z * dma_tx) :=
  let out := txout t in
  if NEXTTXD t out =? txin t then Some (outoftxd t (txd64 t) (tx_maps t)) else
  if len =? 0 then Some (0, t) else
  let pa := bus_addr buf in
  let flags := Z.lor D64_CTRL1_SOF (Z.lor D64_CTRL1_IOC D64_CTRL1_EOF) in
  ring ← dma64_dd_upd c (txd64 t) pa out (Z.lor flags (eot_flag out (ntxd t))) len;
  ps ← aset (txp t) out buf;
  let out := NEXTTXD t out in
  Some (0, tx_upd t (txin t) out ps ring (tx_avail t (txin t) out) (xs0cd t)
             (if commit then u32 (xmtptrbase t + I2B out) else tx_ptr t) (tx_maps t ++ [(pa, len)])).
End bus.

Inductive txd_range_t := HNDDMA_RANGE_ALL | HNDDMA_RANGE_TRANSMITTED | HNDDMA_RANGE_TRANSFERED.

(** From [i] to [stop] until a packet is found. *)
Fixpoint getnext_loop (fuel : nat) (c : dma_cfg) (t : dma_tx) (i stop : Z) (ring : list dma64dd) (ps : list Z) (maps : list (Z * Z)) (txp : Z)
    : option (Z * Z * list dma64dd * list Z * list (Z * Z)) :=
  match fuel with
  | O => None
  | S fuel =>
      if (i =? stop) || negb (txp =? 0) then Some (txp, i, ring, ps, maps) else
      d ← aget ring i;
      let pa := u32 (addrlow d - dataoffsetlow c) in
      let size := Z.land (ctrl2 d) D64_CTRL2_BC_MASK in
      ring ← aset ring i (dd_dead d);
      txp ← aget ps i;
      ps ← aset ps i 0;
      maps ← dma_unmap maps pa size;
      getnext_loop fuel c t (NEXTTXD t i) stop ring ps maps txp
  end.

Definition dma64_getnexttxp (c : dma_cfg) (t : dma_tx) (range : txd_range_t) (status0 status1 : Z) : option (Z * dma_tx) :=
  if ntxd t =? 0 then Some (0, t) else
  let '(stop, xs) :=
    match range with
    | HNDDMA_RANGE_ALL => (txout t, xs0cd t)
    | _ =>
        let stop := if txin t =? xs0cd t then curr_ix status0 (d64_xs0_cd_mask t) (xmtptrbase t) else xs0cd t in
        let active := B2I (u16 (Z.land (u16 (Z.land status1 (d64_xs1_ad_mask t)) - xmtptrbase t) (d64_xs0_cd_mask t))) in
        (match range with
         | HNDDMA_RANGE_TRANSFERED => if stop =? active then stop else PREVTXD t active
         | _ => stop
         end, stop)
    end in
  if (txin t =? 0) && (txout t <? stop) then Some (0, with_xs0cd t xs) else
  '(p, i, ring, ps, maps) ← getnext_loop (S (Z.to_nat (ntxd t))) c t (txin t) stop (txd64 t) (txp t) (tx_maps t) 0;
  Some (p, tx_upd t i (txout t) ps ring (tx_avail t i (txout t)) xs (tx_ptr t) maps).

Fixpoint peek_loop (fuel : nat) (n : Z) (ps : list Z) (i stop : Z) : option Z :=
  match fuel with
  | O => None
  | S fuel =>
      if i =? stop then Some 0 else
      p ← aget ps i; if p =? 0 then peek_loop fuel n ps (XXD (i + 1) n) stop else Some p
  end.
Definition _dma_peeknexttxp (t : dma_tx) (status0 : Z) : option (Z * dma_tx) :=
  if ntxd t =? 0 then Some (0, t) else
  let stop := curr_ix status0 (d64_xs0_cd_mask t) (xmtptrbase t) in
  p ← peek_loop (S (Z.to_nat (ntxd t))) (ntxd t) (txp t) (txin t) stop;
  Some (p, with_xs0cd t stop).

(** The packets freed, in order. *)
Fixpoint txreclaim_loop (fuel : nat) (c : dma_cfg) (t : dma_tx) (range : txd_range_t) (status0 status1 : Z) (freed : list Z) : option (list Z * dma_tx) :=
  match fuel with
  | O => None
  | S fuel =>
      '(p, t) ← dma64_getnexttxp c t range status0 status1;
      if p =? 0 then Some (freed, t)
      else txreclaim_loop fuel c t range status0 status1 (if ctrl_flag c DMA_CTRL_UNFRAMED then freed else freed ++ [p])
  end.
Definition dma64_txreclaim (c : dma_cfg) (t : dma_tx) (range : txd_range_t) (status0 status1 : Z) : option (list Z * dma_tx) :=
  if txin t =? txout t then Some ([], t) else txreclaim_loop (S (S (Z.to_nat (ntxd t)))) c t range status0 status1 [].
