(* ===== verification/HndDmaRing.v ===== *)
(** * DMA rings: descriptors, indices and slots

    What the engine reads in a descriptor the host wrote, the arithmetic of ring
    indices, and a ring as a window of an unbounded sequence of descriptors. *)
From Stdlib Require Import ZArith Lia.
From stdpp Require Import base gmap option numbers list.
From S2P Require Import Prelude HndDma.

(** ** The engine's view of a descriptor

    Where and how long the buffer is, the frame's bounds, and whether the parity
    is right if it checks it. *)
Record hwdesc := { h_pa : Z; h_len : Z; h_sof : bool; h_eof : bool; h_parity : bool }.
Definition dd_ae (d : dma64dd) : Z := Z.shiftr (Z.land (ctrl2 d) D64_CTRL2_AE) 16.
Definition dd_decode (c : dma_cfg) (d : dma64dd) : hwdesc :=
  {| h_pa := u32 (addrlow d - dataoffsetlow c) + 2 ^ 30 * dd_ae d; h_len := Z.land (ctrl2 d) D64_CTRL2_BC_MASK;
     h_sof := Z.testbit (ctrl1 d) 31; h_eof := Z.testbit (ctrl1 d) 30;
     h_parity := negb (ctrl_flag c DMA_CTRL_PEN) || (DMA64_DD_PARITY d =? 0) |}.
Definition dd_eot (d : dma64dd) : bool := Z.testbit (ctrl1 d) 28.
(** What the host unmaps. *)
Definition dd_map (c : dma_cfg) (d : dma64dd) : Z * Z := (u32 (addrlow d - dataoffsetlow c), Z.land (ctrl2 d) D64_CTRL2_BC_MASK).

Lemma bc_lor len x : 0 <= len < 2 ^ 15 -> Z.land x D64_CTRL2_BC_MASK = 0 -> Z.land (Z.lor len x) D64_CTRL2_BC_MASK = len.
Proof.
  intros Hl Hx. rewrite Z.land_lor_distr_l, Hx, Z.lor_0_r. change D64_CTRL2_BC_MASK with (Z.ones 15).
  rewrite Z.land_ones, Z.mod_small by lia. done.
Qed.
Lemma ae_lor len x : 0 <= len < 2 ^ 15 -> Z.land (Z.lor len x) D64_CTRL2_AE = Z.land x D64_CTRL2_AE.
Proof.
  intros Hl. rewrite Z.land_lor_distr_l. replace (Z.land len D64_CTRL2_AE) with 0; [done|]. symmetry. apply Z.bits_inj'. intros j Hj.
  rewrite Z.land_spec, Z.bits_0. destruct (Z.ltb_spec j 15) as [|]; [|by rewrite (testbit_high 15) by lia].
  replace (Z.testbit D64_CTRL2_AE j) with false; [by rewrite andb_false_r|]. symmetry. change D64_CTRL2_AE with (Z.shiftl 3 16).
  by rewrite Z.shiftl_spec, Z.testbit_neg_r by lia.
Qed.

Lemma high_bits pa : 0 <= pa < 2 ^ 32 ->
  pa = Z.land pa 0x3fffffff + 2 ^ 30 * Z.shiftr (Z.land pa PCI32ADDR_HIGH) 30 /\
  0 <= Z.land pa 0x3fffffff < 2 ^ 30 /\ 0 <= Z.shiftr (Z.land pa PCI32ADDR_HIGH) 30 < 4 /\ (Z.land pa PCI32ADDR_HIGH = 0 <-> pa < 2 ^ 30).
Proof.
  intros Hp. change 0x3fffffff with (Z.ones 30). rewrite Z.land_ones by lia.
  assert (Z.shiftr (Z.land pa PCI32ADDR_HIGH) 30 = pa / 2 ^ 30) as E.
  { rewrite Z.shiftr_land. change (Z.shiftr PCI32ADDR_HIGH 30) with (Z.ones 2). rewrite Z.land_ones, Z.shiftr_div_pow2 by lia.
    apply Z.mod_small. split; [apply Z.div_pos; lia|apply Z.div_lt_upper_bound; lia]. }
  rewrite E. pose proof (Z.div_mod pa (2 ^ 30) ltac:(lia)). pose proof (Z.mod_pos_bound pa (2 ^ 30) ltac:(lia)).
  split; [lia|]. split; [lia|].
  split; [split; [apply Z.div_pos; lia|apply Z.div_lt_upper_bound; lia]|]. split.
  - intros E0. rewrite E0 in E. change (Z.shiftr 0 30) with 0 in E. lia.
  - intros Hlt. apply Z.bits_inj'. intros j Hj. rewrite Z.land_spec, Z.bits_0.
    destruct (Z.ltb_spec j 30); [|by rewrite (testbit_high 30) by lia].
    replace (Z.testbit PCI32ADDR_HIGH j) with false; [by rewrite andb_false_r|]. symmetry.
    change PCI32ADDR_HIGH with (Z.shiftl 3 30). by rewrite Z.shiftl_spec, Z.testbit_neg_r by lia.
Qed.

(** A descriptor says where and how long the buffer is; the address unmapped is
    right unless the address extension is used. *)
Lemma dd_of_ok c pa flags len :
  0 <= pa < 2 ^ 32 -> 0 <= len < 2 ^ 15 -> 0 <= dataoffsetlow c < 2 ^ 32 ->
  ctrl1 (dd_of c pa flags len) = flags /\ h_pa (dd_decode c (dd_of c pa flags len)) = pa /\ h_len (dd_decode c (dd_of c pa flags len)) = len /\
  (dataoffsetlow c = 0 \/ pa < 2 ^ 30 -> dd_map c (dd_of c pa flags len) = (pa, len)).
Proof.
  intros Hp Hl Ho. destruct (high_bits pa Hp) as (Epa & Hlo & Hae & Hhi). unfold dd_of.
  assert (Z.land len D64_CTRL2_BC_MASK = len) as Elen.
  { change D64_CTRL2_BC_MASK with (Z.ones 15). rewrite Z.land_ones by lia. apply Z.mod_small. lia. }
  rewrite Elen. set (ae := Z.shiftr (Z.land pa PCI32ADDR_HIGH) 30) in *. set (lo := Z.land pa 0x3fffffff) in *.
  assert (forall x, 0 <= x < 2 ^ 32 -> u32 (u32 (x + dataoffsetlow c) - dataoffsetlow c) = x) as Eoff.
  { intros x Hx. unfold wrapu. rewrite Zminus_mod_idemp_l. replace (x + dataoffsetlow c - dataoffsetlow c) with x by lia. by apply Z.mod_small. }
  destruct ((dataoffsetlow c =? 0) || (Z.land pa PCI32ADDR_HIGH =? 0)) eqn:Eae.
  - assert (forall b : bool, dd_ae {| ctrl1 := flags; ctrl2 := if b then Z.lor len D64_CTRL2_PARITY else len; addrlow := 0; addrhigh := 0 |} = 0) as Ez.
    { intros b. unfold dd_ae; cbn [ctrl2]. destruct b; [rewrite ae_lor by done; done|]. by rewrite <- (Z.lor_0_r len), ae_lor by done. }
    destruct (ctrl_flag c DMA_CTRL_PEN && _); unfold dd_decode, dd_map, dd_ae in *; cbn [ctrl1 ctrl2 addrlow addrhigh h_pa h_len] in *.
    + specialize (Ez true). cbn in Ez. rewrite Eoff, bc_lor by done. unfold D64_CTRL2_AE, D64_CTRL2_PARITY in *. rewrite Ez.
      split_and!; try done; lia.
    + specialize (Ez false). cbn in Ez. rewrite Eoff, Elen by done. unfold D64_CTRL2_AE in *. rewrite Ez. split_and!; try done; lia.
  - apply orb_false_iff in Eae as [Eo%Z.eqb_neq Eh%Z.eqb_neq].
    assert (Z.land (Z.land (Z.shiftl ae 16) D64_CTRL2_AE) D64_CTRL2_BC_MASK = 0) as Ebc by (rewrite <- Z.land_assoc; apply Z.land_0_r).
    assert (forall b : bool, let x := Z.land (Z.shiftl ae 16) D64_CTRL2_AE in
      Z.land (if b then Z.lor (Z.lor len x) D64_CTRL2_PARITY else Z.lor len x) D64_CTRL2_BC_MASK = len /\
      Z.shiftr (Z.land (if b then Z.lor (Z.lor len x) D64_CTRL2_PARITY else Z.lor len x) D64_CTRL2_AE) 16 = ae) as Hb.
    { intros b x. assert (Z.shiftr (Z.land x D64_CTRL2_AE) 16 = ae /\ Z.shiftr (Z.land (Z.lor x D64_CTRL2_PARITY) D64_CTRL2_AE) 16 = ae) as [? ?].
      { unfold x. clear -Hae. clearbody ae. assert (ae = 0 \/ ae = 1 \/ ae = 2 \/ ae = 3) as [->|[->|[-> | ->]]] by lia; done. }
      destruct b.
      - rewrite <- Z.lor_assoc, bc_lor, ae_lor; [done|done|done|]. rewrite Z.land_lor_distr_l. unfold x. by rewrite Ebc.
      - rewrite bc_lor, ae_lor; done. }
    destruct (ctrl_flag c DMA_CTRL_PEN && _); unfold dd_decode, dd_map, dd_ae; cbn [ctrl1 ctrl2 addrlow addrhigh h_pa h_len].
    + destruct (Hb true) as [Hb1 Hb2]. rewrite Hb1, Hb2, Eoff by lia. split_and!; [done|lia|done|]. intros [?|Hlt]; [done|].
      by apply Hhi in Hlt.
    + destruct (Hb false) as [Hb1 Hb2]. rewrite Hb1, Hb2, Eoff by lia. split_and!; [done|lia|done|]. intros [?|Hlt]; [done|].
      by apply Hhi in Hlt.
Qed.

(** The parity bit makes the number of ones of a descriptor even. *)
Lemma parity32_lxor x y : parity32 (Z.lxor x y) = Z.lxor (parity32 x) (parity32 y).
Proof.
  set (fold k x := Z.lxor x (Z.shiftr x k)).
  assert (forall k x y, fold k (Z.lxor x y) = Z.lxor (fold k x) (fold k y)) as E.
  { clear. intros k x y. unfold fold. rewrite Z.shiftr_lxor, !Z.lxor_assoc. f_equal. rewrite <- !Z.lxor_assoc. f_equal. apply Z.lxor_comm. }
  assert (forall x, parity32 x = Z.land (fold 1 (fold 2 (fold 4 (fold 8 (fold 16 x))))) 1) as Ep by done.
  rewrite !Ep, !E. clearbody fold. apply Z.bits_inj'. intros j _. rewrite Z.lxor_spec, !Z.land_spec, Z.lxor_spec.
  destruct (Z.testbit 1 j); by rewrite ?andb_true_r, ?andb_false_r.
Qed.
Lemma parity32_01 x : parity32 x = 0 \/ parity32 x = 1.
Proof.
  unfold parity32. rewrite (Z.land_ones _ 1) by lia. match goal with |- ?a mod _ = _ \/ _ => pose proof (Z.mod_pos_bound a (2 ^ 1) ltac:(lia)) end. lia.
Qed.
Lemma dd_of_parity c pa flags len : 0 <= pa < 2 ^ 32 -> 0 <= len < 2 ^ 15 -> h_parity (dd_decode c (dd_of c pa flags len)) = true.
Proof.
  intros Hp Hl. unfold dd_decode; cbn [h_parity]. destruct (ctrl_flag c DMA_CTRL_PEN) eqn:Epen; [|done]. cbn [negb orb]. unfold dd_of. rewrite Epen.
  cbn [andb]. set (d := if _ || _ then _ else _). assert (Z.land (ctrl2 d) D64_CTRL2_PARITY = 0) as Ec.
  { destruct (high_bits pa Hp) as (_ & _ & Hae & _). set (ae := Z.shiftr _ 30) in *. unfold d. change D64_CTRL2_BC_MASK with (Z.ones 15).
    rewrite Z.land_ones, Z.mod_small by lia. assert (Z.land len D64_CTRL2_PARITY = 0) as E0.
    { apply Z.bits_inj'. intros j Hj. rewrite Z.land_spec, Z.bits_0. destruct (Z.ltb_spec j 15) as [|]; [|by rewrite (testbit_high 15) by lia].
      replace (Z.testbit D64_CTRL2_PARITY j) with false; [by rewrite andb_false_r|]. symmetry. change D64_CTRL2_PARITY with (2 ^ 18).
      apply Z.pow2_bits_false. lia. }
    destruct (_ || _); cbn [ctrl2]; [done|]. rewrite Z.land_lor_distr_l, E0, <- Z.land_assoc. apply Z.land_0_r. }
  clearbody d. destruct (Z.eqb_spec (DMA64_DD_PARITY d) 0) as [E|E]; cbn [negb]; [by apply Z.eqb_eq|].
  unfold DMA64_DD_PARITY in *. cbn [addrlow addrhigh ctrl1 ctrl2]. rewrite <- Z.lxor_lor by done. rewrite <- Z.lxor_assoc, parity32_lxor.
  destruct (parity32_01 (Z.lxor (Z.lxor (Z.lxor (addrlow d) (addrhigh d)) (ctrl1 d)) (ctrl2 d))) as [|E1]; [done|]. by rewrite E1.
Qed.

(** ** Indices

    [ix n k]: where the [k]-th descriptor ever written is. *)
Definition ix (n : Z) (k : nat) : Z := Z.of_nat k mod n.
Lemma XXD_mod n x : (exists b, 0 <= b /\ n = 2 ^ b) -> XXD x n = x mod n.
Proof. intros (b & Hb & ->). unfold XXD. rewrite <- (Z.land_ones x b) by done. f_equal. by rewrite Z.ones_equiv. Qed.

Section ring.
Context (n m : Z).
Hypothesis Hn : exists b, 0 < b /\ n = 2 ^ b.
Hypothesis Hm : 4 <= m <= 16 /\ 16 * n <= 2 ^ m.

Lemma n_pos : 2 <= n <= 4096.
Proof.
  destruct Hn as (b & Hb & E). destruct Hm as [H1 H2]. pose proof (Z.pow_le_mono_r 2 m 16 ltac:(lia) ltac:(lia)).
  pose proof (Z.pow_le_mono_r 2 1 b ltac:(lia) ltac:(lia)). change (2 ^ 16) with 65536 in *. lia.
Qed.
Lemma XXD_n x : XXD x n = x mod n.
Proof. apply XXD_mod. destruct Hn as (b & Hb & E). exists b. split; [lia|done]. Qed.
Lemma ix_lt k : 0 <= ix n k < n.
Proof. apply Z.mod_pos_bound. pose proof n_pos. lia. Qed.
Lemma ix_next k : XXD (ix n k + 1) n = ix n (S k).
Proof. rewrite XXD_n. unfold ix. rewrite Zplus_mod_idemp_l. f_equal. lia. Qed.
Lemma ix_prev k : XXD (ix n (S k) - 1) n = ix n k.
Proof. rewrite XXD_n. unfold ix. rewrite Zminus_mod_idemp_l. f_equal. lia. Qed.
Lemma ix_sub a b : (a <= b)%nat -> (b < a + Z.to_nat n)%nat -> XXD (ix n b - ix n a) n = Z.of_nat (b - a).
Proof.
  intros H1 H2. rewrite XXD_n. unfold ix. rewrite Zminus_mod_idemp_l, Zminus_mod_idemp_r. rewrite Z.mod_small; lia.
Qed.
Lemma ix_eq a b : (a <= b)%nat -> (b < a + Z.to_nat n)%nat -> ix n a = ix n b <-> a = b.
Proof. intros H1 H2. split; [|by intros ->]. intros E. pose proof (ix_sub a b H1 H2) as E2. rewrite E, Z.sub_diag in E2. change (XXD 0 n) with 0 in E2. lia. Qed.
Lemma ix_zero a b : (a <= b)%nat -> (b < a + Z.to_nat n)%nat -> ix n a = 0 -> ix n b = Z.of_nat (b - a).
Proof. intros H1 H2 E. rewrite <- (ix_sub a b H1 H2), E, Z.sub_0_r, XXD_n. symmetry. apply Z.mod_small, ix_lt. Qed.
Lemma ix_S k : ix n (S k) = if ix n k =? n - 1 then 0 else ix n k + 1.
Proof.
  rewrite <- ix_next, XXD_n. pose proof (ix_lt k). destruct (Z.eqb_spec (ix n k) (n - 1)) as [->|].
  - replace (n - 1 + 1) with n by lia. apply Z.mod_same. lia.
  - apply Z.mod_small. lia.
Qed.
(** What a status register says about position [i], wherever the ring is. *)
Lemma curr_ix_ok s base i : 0 <= i < n -> Z.land s (2 ^ m - 1) = (base + I2B i) mod 2 ^ m -> curr_ix s (2 ^ m - 1) base = i.
Proof.
  intros Hi E. destruct Hm as [H1 H2]. pose proof n_pos. unfold curr_ix, B2I, I2B, wrapu in *. rewrite E.
  replace (2 ^ m - 1) with (Z.ones m) by (rewrite Z.ones_equiv; lia). rewrite Z.land_ones by lia.
  rewrite <- Znumtheory.Zmod_div_mod; [|lia|lia|].
  - rewrite Zminus_mod_idemp_l. replace (base + i * 16 - base) with (i * 16) by lia. rewrite (Z.mod_small (i * 16)), Z.div_mul by lia.
    apply Z.mod_small. change (2 ^ 16) with 65536. lia.
  - exists (2 ^ (32 - m)). rewrite <- Z.pow_add_r by lia. f_equal. lia.
Qed.
Lemma ptr_ix base i : 0 <= i < n -> curr_ix (u32 (base + I2B i)) (2 ^ m - 1) base = i.
Proof.
  intros Hi. apply curr_ix_ok; [done|]. destruct Hm as [H1 H2]. replace (2 ^ m - 1) with (Z.ones m) by (rewrite Z.ones_equiv; lia).
  rewrite Z.land_ones by lia. unfold wrapu. rewrite <- Znumtheory.Zmod_div_mod; [done|lia|lia|].
  exists (2 ^ (32 - m)). rewrite <- Z.pow_add_r by lia. f_equal. lia.
Qed.
End ring.

(** ** Slots

    [all]: every descriptor written, with its entry of the packet table;
    [a] of them were taken back.  The window of the others fits the ring. *)
Record slots (n : Z) (ring : list dma64dd) (ps : list Z) (all : list (dma64dd * Z)) (a : nat) : Prop := {
  sl_len : Z.of_nat (length ring) = n /\ Z.of_nat (length ps) = n;
  sl_room : (a <= length all)%nat /\ Z.of_nat (length all) - Z.of_nat a <= n - 1;
  sl_in : forall k d o, (a <= k)%nat -> all !! k = Some (d, o) -> aget ring (ix n k) = Some d /\ aget ps (ix n k) = Some o;
  sl_out : forall k, (length all <= k)%nat -> (k < a + Z.to_nat n)%nat -> aget ps (ix n k) = Some 0
}.

Section slots.
Context (n m : Z).
Hypothesis Hn : exists b, 0 < b /\ n = 2 ^ b.
Hypothesis Hm : 4 <= m <= 16 /\ 16 * n <= 2 ^ m.

Lemma slots_pop ring ps all a d o :
  slots n ring ps all a -> all !! a = Some (d, o) ->
  aget ring (ix n a) = Some d /\ aget ps (ix n a) = Some o /\
  aset ring (ix n a) (dd_dead d) = Some (<[Z.to_nat (ix n a) := dd_dead d]> ring) /\ aset ps (ix n a) 0 = Some (<[Z.to_nat (ix n a) := 0]> ps) /\
  slots n (<[Z.to_nat (ix n a) := dd_dead d]> ring) (<[Z.to_nat (ix n a) := 0]> ps) all (S a).
Proof.
  intros [[Hr Hp] [Ha Hroom] Hin Hout] E. destruct (Hin a d o ltac:(lia) E) as [E1 E2]. pose proof (ix_lt n m Hn Hm a). pose proof (n_pos n m Hn Hm).
  pose proof (lookup_lt_Some _ _ _ E). split; [done|]. split; [done|]. rewrite !aset_Some by lia. split; [done|]. split; [done|]. constructor.
  - by rewrite !length_insert.
  - lia.
  - intros k d' o' Hk Ek. pose proof (lookup_lt_Some _ _ _ Ek). rewrite (aget_insert ring), (aget_insert ps) by lia.
    rewrite !decide_False by (rewrite (ix_eq n m Hn Hm); lia). apply Hin; [lia|done].
  - intros k Hk1 Hk2. rewrite aget_insert by lia. destruct (decide (ix n a = ix n k)) as [|Hne]; [done|]. apply Hout; [done|].
    destruct (decide (k = (a + Z.to_nat n)%nat)) as [->|]; [|lia]. exfalso. apply Hne. unfold ix.
    rewrite Nat2Z.inj_add, Z2Nat.id by lia. rewrite <- (Z.mod_add (Z.of_nat a) 1 n) by lia. f_equal. lia.
Qed.

Lemma slots_push ring ps all a d :
  slots n ring ps all a -> Z.of_nat (length all) + 1 - Z.of_nat a <= n - 1 ->
  aset ring (ix n (length all)) d = Some (<[Z.to_nat (ix n (length all)) := d]> ring) /\
  slots n (<[Z.to_nat (ix n (length all)) := d]> ring) ps (all ++ [(d, 0)]) a.
Proof.
  intros [[Hr Hp] [Ha Hroom] Hin Hout] Hlt. pose proof (ix_lt n m Hn Hm (length all)). pose proof (n_pos n m Hn Hm).
  rewrite aset_Some by lia. split; [done|]. constructor.
  - by rewrite length_insert.
  - rewrite length_app. cbn [length]. lia.
  - intros k d' o' Hk [Ek|[Hge Ek]]%lookup_app_Some.
    + pose proof (lookup_lt_Some _ _ _ Ek). rewrite aget_insert by lia. rewrite decide_False by (intros Heq; symmetry in Heq; revert Heq; rewrite (ix_eq n m Hn Hm); lia).
      by apply Hin.
    + apply list_lookup_singleton_Some in Ek as [E0 [= <- <-]]. replace k with (length all) by lia. rewrite aget_insert, decide_True by (done || lia).
      split; [done|]. apply Hout; lia.
  - intros k H1 H2. rewrite length_app in H1. cbn [length] in H1. apply Hout; lia.
Qed.

(** The last descriptor gets its packet. *)
Lemma slots_own ring ps all a d p :
  slots n ring ps (all ++ [(d, 0)]) a -> (a <= length all)%nat ->
  aset ps (ix n (length all)) p = Some (<[Z.to_nat (ix n (length all)) := p]> ps) /\
  slots n ring (<[Z.to_nat (ix n (length all)) := p]> ps) (all ++ [(d, p)]) a.
Proof.
  intros [[Hr Hp] [Ha Hroom] Hin Hout] Hlt. pose proof (ix_lt n m Hn Hm (length all)). pose proof (n_pos n m Hn Hm).
  rewrite length_app in *. cbn [length] in *. rewrite aset_Some by lia. split; [done|]. constructor.
  - by rewrite length_insert.
  - rewrite length_app. cbn [length]. lia.
  - intros k d' o' Hk [Ek|[Hge Ek]]%lookup_app_Some.
    + pose proof (lookup_lt_Some _ _ _ Ek). rewrite aget_insert by lia. rewrite decide_False by (intros Heq; symmetry in Heq; revert Heq; rewrite (ix_eq n m Hn Hm); lia).
      apply Hin; [done|]. by rewrite lookup_app_l.
    + apply list_lookup_singleton_Some in Ek as [E0 [= <- <-]]. replace k with (length all) by lia. rewrite aget_insert, decide_True by (done || lia).
      split; [|done]. apply (Hin (length all) d 0 Hlt). by rewrite lookup_app_r, Nat.sub_diag by lia.
  - intros k H1 H2. rewrite length_app in H1. cbn [length] in H1. rewrite aget_insert by lia.
    rewrite decide_False by (rewrite (ix_eq n m Hn Hm); lia). apply Hout; lia.
Qed.

(** Descriptors that were written but not announced do not count. *)
Lemma slots_drop ring ps all extra a :
  slots n ring ps (all ++ extra) a -> (a <= length all)%nat -> (forall k d o, extra !! k = Some (d, o) -> o = 0) -> slots n ring ps all a.
Proof.
  intros [Hl [Ha Hroom] Hin Hout] Hlt Hex. rewrite length_app in *. constructor; [done|lia| |].
  - intros k d o Hk E. apply Hin; [done|]. by apply lookup_app_l_Some.
  - intros k H1 H2. destruct (decide (k < length all + length extra)%nat) as [Hk|]; [|apply Hout; lia].
    destruct (extra !! (k - length all)%nat) as [[d o]|] eqn:E; [|apply lookup_ge_None in E; lia].
    rewrite (Hex _ _ _ E) in E. apply (Hin k d 0); [lia|]. by rewrite lookup_app_r by lia.
Qed.
Lemma slots_in ring ps all a k d o : slots n ring ps all a -> (a <= k)%nat -> all !! k = Some (d, o) -> aget ring (ix n k) = Some d /\ aget ps (ix n k) = Some o.
Proof. intros Hs. by apply (sl_in _ _ _ _ _ Hs). Qed.
Lemma slots_start ring ps : Z.of_nat (length ring) = n -> ps = replicate (Z.to_nat n) 0 -> slots n ring ps [] 0.
Proof.
  intros Hr ->. pose proof (n_pos n m Hn Hm). constructor; rewrite ?length_replicate; [lia|cbn; lia|done|].
  intros k _ Hk. apply aget_replicate. pose proof (ix_lt n m Hn Hm k). lia.
Qed.
End slots.
