(* ===== verification/HndDmaTx.v ===== *)
(** * DMA transmission: every operation on the ring *)
From Stdlib Require Import ZArith Lia.
From stdpp Require Import base gmap option numbers list.
From S2P Require Import Prelude HndDma HndDmaRing.

(** ** Frames *)
Fixpoint tx_chain (fuel : nat) (pk : pkts) (p : Z) : option (list (Z * pktbuf)) :=
  match fuel with
  | O => None
  | S fuel => if p =? 0 then Some [] else b ← pk !! p; l ← tx_chain fuel pk (pk_next b); Some ((p, b) :: l)
  end.
Fixpoint frame_from (first : bool) (bl : list (Z * Z)) : list hwdesc :=
  match bl with
  | [] => []
  | b :: bl => {| h_pa := fst b; h_len := snd b; h_sof := first; h_eof := bool_decide (bl = []); h_parity := true |} :: frame_from false bl
  end.
(** What the engine should read for a packet of the buffers [bl]. *)
Definition frame : list (Z * Z) -> list hwdesc := frame_from true.
Definition owners (l : list (dma64dd * Z)) : list Z := filter (fun p => p <> 0) (map snd l).

Lemma owners_app l1 l2 : owners (l1 ++ l2) = owners l1 ++ owners l2.
Proof. unfold owners. by rewrite map_app, filter_app. Qed.
Lemma owners_one d o : owners [(d, o)] = if o =? 0 then [] else [o].
Proof. unfold owners. cbn [map snd]. destruct (Z.eqb_spec o 0) as [->|]; [done|]. by rewrite filter_cons_True. Qed.
Lemma owners_zero l : Forall (fun e => snd e = 0) l -> owners l = [].
Proof. induction 1 as [|[d o] l Ho Hl IH]; [done|]. cbn in Ho. change ((d, o) :: l) with ([(d, o)] ++ l). by rewrite owners_app, IH, owners_one, Ho. Qed.
Lemma frame_length b bl : length (frame_from b bl) = length bl.
Proof. revert b. induction bl as [|x bl IH]; intros b; cbn [frame_from length]; [done|]. by rewrite IH. Qed.

Lemma unmap_ok maps pa size rest :
  maps ≡ₚ (pa, size) :: rest -> exists maps', dma_unmap maps pa size = Some maps' /\ maps' ≡ₚ rest.
Proof.
  revert rest. induction maps as [|x maps IH]; intros rest Hp; [by apply Permutation_nil_cons in Hp|]. cbn [dma_unmap].
  destruct (decide (x = (pa, size))) as [->|Hx]; [eexists; split; [done|]; by apply Permutation_cons_inv in Hp|].
  assert (x ∈ rest) as Hin.
  { assert (x ∈ (pa, size) :: rest) as H by (rewrite <- Hp; by left). by apply elem_of_cons in H as [|]. }
  apply elem_of_Permutation in Hin as (rest' & Hr).
  destruct (IH rest') as (maps' & -> & Hm').
  { apply (Permutation_cons_inv (a := x)). rewrite Hp, Hr. apply Permutation_swap. }
  cbn [mbind option_bind]. eexists. split; [done|]. by rewrite Hr, Hm'.
Qed.

(** ** The invariant *)
Definition tx_static (m : Z) (t : dma_tx) : Prop :=
  (exists b, 0 < b /\ ntxd t = 2 ^ b) /\ (4 <= m <= 16 /\ 16 * ntxd t <= 2 ^ m) /\ d64_xs0_cd_mask t = 2 ^ m - 1.
(** [a] taken back, [x] seen by the host, [h] read by the engine, [cc] announced
    to it. *)
Record tx_inv (c : dma_cfg) (m : Z) (t : dma_tx) (all : list (dma64dd * Z)) (a x h cc : nat) (leaked : list (Z * Z)) : Prop := {
  ti_static : tx_static m t;
  ti_slots : slots (ntxd t) (txd64 t) (txp t) all a;
  ti_in : txin t = ix (ntxd t) a;
  ti_out : txout t = ix (ntxd t) (length all);
  ti_xs : xs0cd t = ix (ntxd t) x;
  ti_ptr : curr_ix (tx_ptr t) (d64_xs0_cd_mask t) (xmtptrbase t) = ix (ntxd t) cc;
  ti_ord : (a <= x <= h)%nat /\ (h <= cc <= length all)%nat;
  ti_maps : tx_maps t ≡ₚ map (fun e => dd_map c (fst e)) (drop a all) ++ leaked;
  ti_eot : forall k d o, all !! k = Some (d, o) -> dd_eot d = (ix (ntxd t) k =? ntxd t - 1);
  ti_avail : 0 <= txavail t <= ntxd t - 1 - Z.of_nat (length all - a)
}.

(** ** Taking packets back *)
Lemma getnext_loop_ok c t fuel ring ps maps all a s leaked (n := ntxd t) m :
  (exists b, 0 < b /\ n = 2 ^ b) -> 4 <= m <= 16 /\ 16 * n <= 2 ^ m ->
  slots n ring ps all a -> (a <= s <= length all)%nat -> (s - a < fuel)%nat ->
  maps ≡ₚ map (fun e => dd_map c (fst e)) (drop a all) ++ leaked ->
  exists p a' ring' ps' maps', getnext_loop fuel c t (ix n a) (ix n s) ring ps maps 0 = Some (p, ix n a', ring', ps', maps') /\
    slots n ring' ps' all a' /\ (a <= a' <= s)%nat /\ (p = 0 -> a' = s) /\ (p <> 0 -> (a < a')%nat) /\
    owners (take a' all) = owners (take a all) ++ (if p =? 0 then [] else [p]) /\
    maps' ≡ₚ map (fun e => dd_map c (fst e)) (drop a' all) ++ leaked.
Proof.
  intros Hn Hm. revert ring ps maps a. induction fuel as [|fuel IH]; intros ring ps maps a Hs Has Hf Hmaps; [lia|].
  pose proof (n_pos n m Hn Hm). pose proof (sl_room _ _ _ _ _ Hs) as [Hr1 Hr2].
  cbn [getnext_loop Z.eqb negb]. rewrite orb_false_r. destruct (decide (a = s)) as [->|Hne].
  - rewrite Z.eqb_refl. eexists 0, s, _, _, _. split; [done|]. split; [done|]. cbn [Z.eqb]. rewrite app_nil_r. split_and!; try done; lia.
  - destruct (Z.eqb_spec (ix n a) (ix n s)) as [E|_]; [exfalso; revert E; rewrite (ix_eq n m Hn Hm); lia|].
    destruct (all !! a) as [[d o]|] eqn:E; [|apply lookup_ge_None in E; lia].
    destruct (slots_pop n m Hn Hm _ _ _ _ _ _ Hs E) as (Ed & Eo & Er & Eps & Hs').
    rewrite Ed. cbn [mbind option_bind]. rewrite Er. cbn [mbind option_bind]. rewrite Eo. cbn [mbind option_bind]. rewrite Eps. cbn [mbind option_bind].
    rewrite (drop_S _ _ _ E) in Hmaps. cbn [map fst app] in Hmaps.
    destruct (unmap_ok maps _ _ _ Hmaps) as (maps' & Eu & Hmaps'). unfold dd_map in Eu. rewrite Eu. cbn [mbind option_bind].
    assert (NEXTTXD t (ix n a) = ix n (S a)) as -> by apply (ix_next n m Hn).
    assert (owners (take (S a) all) = owners (take a all) ++ (if o =? 0 then [] else [o])) as Eow
      by (by rewrite (take_S_r _ _ _ E), owners_app, owners_one).
    destruct (Z.eqb_spec o 0) as [->|Ho].
    + destruct (IH _ _ _ _ Hs' ltac:(lia) ltac:(lia) Hmaps') as (p & a' & r' & p' & m' & E' & Hs2 & Ha' & Hp0 & Hp1 & Eow' & Hm').
      exists p, a', r', p', m'. split; [done|]. split; [done|]. split; [lia|]. split; [done|]. split; [intros Hp; specialize (Hp1 Hp); lia|].
      split; [by rewrite Eow', Eow, app_nil_r|done].
    + destruct fuel as [|fuel]; [lia|]. cbn [getnext_loop]. rewrite (proj2 (Z.eqb_neq o 0)) by done. cbn [negb]. rewrite orb_true_r.
      eexists o, (S a), _, _, _. split; [done|]. split; [done|]. rewrite (proj2 (Z.eqb_neq o 0)) by done. split_and!; try done; lia.
Qed.

Lemma tx_avail_ok m t a b : tx_static m t -> (a <= b)%nat -> Z.of_nat b - Z.of_nat a <= ntxd t - 1 ->
  tx_avail t (ix (ntxd t) a) (ix (ntxd t) b) = ntxd t - 1 - Z.of_nat (b - a).
Proof.
  intros (Hn & Hm & _) Hab Hlt. pose proof (n_pos _ m Hn Hm). unfold tx_avail, NTXDACTIVE, TXD. rewrite (ix_sub _ m Hn Hm) by lia.
  rewrite (wrapu_small 32); lia.
Qed.

(** The engine's status register when it is at descriptor [h]. *)
Definition status_at (m base : Z) (i s : Z) : Prop := Z.land s (2 ^ m - 1) = (base + I2B i) mod 2 ^ m.

Lemma getnexttxp_ok c m t all a x h cc leaked s0 s1 :
  tx_inv c m t all a x h cc leaked -> status_at m (xmtptrbase t) (ix (ntxd t) h) s0 ->
  exists p t' a' x', dma64_getnexttxp c t HNDDMA_RANGE_TRANSMITTED s0 s1 = Some (p, t') /\ tx_inv c m t' all a' x' h cc leaked /\
    (a <= a')%nat /\ x' = (if decide (a = x) then h else x) /\ (p = 0 -> a' = x') /\ (p <> 0 -> (a < a')%nat) /\
    owners (take a' all) = owners (take a all) ++ (if p =? 0 then [] else [p]) /\ ntxd t' = ntxd t /\ xmtptrbase t' = xmtptrbase t /\
    txout t' = txout t.
Proof.
  intros [Hst Hsl Hin Hout Hxs Hptr [Ho1 Ho2] Hmaps Heot Hav] Hs0. pose proof Hst as (Hn & Hm & Hmask). pose proof (n_pos _ m Hn Hm).
  pose proof (sl_room _ _ _ _ _ Hsl) as [Hr1 Hr2]. unfold dma64_getnexttxp. rewrite (proj2 (Z.eqb_neq (ntxd t) 0)) by lia.
  rewrite Hmask, (curr_ix_ok _ m Hn Hm _ _ (ix (ntxd t) h)) by (done || apply (ix_lt _ m Hn Hm)).
  set (s := if decide (a = x) then h else x).
  assert ((if txin t =? xs0cd t then ix (ntxd t) h else xs0cd t) = ix (ntxd t) s) as ->.
  { rewrite Hin, Hxs. unfold s. destruct (decide (a = x)) as [->|]; [by rewrite Z.eqb_refl|].
    destruct (Z.eqb_spec (ix (ntxd t) a) (ix (ntxd t) x)) as [E|]; [|done]. exfalso; revert E; rewrite (ix_eq _ m Hn Hm); lia. }
  assert (a <= s <= length all)%nat as Has by (unfold s; destruct (decide (a = x)); lia).
  assert ((txin t =? 0) && (txout t <? ix (ntxd t) s) = false) as ->.
  { rewrite Hin, Hout. destruct (Z.eqb_spec (ix (ntxd t) a) 0) as [E|]; [|done]. apply Z.ltb_ge.
    rewrite !(ix_zero _ m Hn Hm a) by (done || lia). lia. }
  rewrite Hin. destruct (getnext_loop_ok c t (S (Z.to_nat (ntxd t))) _ _ _ _ _ s _ m Hn Hm Hsl Has ltac:(lia) Hmaps)
    as (p & a' & ring' & ps' & maps' & -> & Hs' & Ha' & Hp0 & Hp1 & Eow & Hm'). cbn [mbind option_bind].
  exists p. eexists. exists a', s. split; [done|]. split.
  - pose proof (sl_room _ _ _ _ _ Hs') as [Hr3 Hr4]. rewrite Hout.
    constructor; cbn [tx_upd ntxd txin txout txp txd64 txavail xs0cd tx_ptr xmtptrbase d64_xs0_cd_mask tx_maps]; try done.
    + unfold s in *. destruct (decide (a = x)); lia.
    + rewrite (tx_avail_ok m) by (done || lia). lia.
  - split; [lia|]. split; [done|]. by split.
Qed.

(** ** Posting packets *)
Definition buf_ok `{DmaBus} (c : dma_cfg) (va len : Z) : bool :=
  (0 <? len) && (len <? 2 ^ 15) && ((dataoffsetlow c =? 0) || (bus_addr va <? 2 ^ 30)).
Definition cfg_ok (c : dma_cfg) : Prop := 0 <= dataoffsetlow c < 2 ^ 32.

Section post.
Context `{DmaBus} (c : dma_cfg) (m : Z).
Hypothesis Hcfg : cfg_ok c.

Definition chain_maps (l : list (Z * pktbuf)) : list (Z * Z) := map (fun e => (bus_addr (pk_data (snd e)), pk_len (snd e))) l.
Definition chain_ok (l : list (Z * pktbuf)) : bool :=
  negb (bool_decide (l = [])) && bool_decide (NoDup (map fst l)) && forallb (fun e => buf_ok c (pk_data (snd e)) (pk_len (snd e))) l.

Lemma tx_flags (sof eof commit eot burst : bool) :
  let flags := if sof then D64_CTRL1_SOF else 0 in
  let flags := if eof then Z.lor flags (Z.lor D64_CTRL1_EOF (if commit then D64_CTRL1_IOC else 0)) else flags in
  let flags := Z.lor flags (if eot then D64_CTRL1_EOT else 0) in
  let flags := if burst then Z.lor flags D64_CTRL1_NOTPCIE else flags in
  Z.testbit flags 31 = sof /\ Z.testbit flags 30 = eof /\ Z.testbit flags 28 = eot /\ (Z.land flags D64_CTRL1_EOF =? 0) = negb eof.
Proof. by destruct sof, eof, commit, eot, burst. Qed.

(** One descriptor. *)
Lemma dd_new pa flags len sof eof eot :
  0 <= pa < 2 ^ 32 -> 0 < len < 2 ^ 15 -> dataoffsetlow c = 0 \/ pa < 2 ^ 30 ->
  Z.testbit flags 31 = sof -> Z.testbit flags 30 = eof -> Z.testbit flags 28 = eot ->
  dd_decode c (dd_of c pa flags len) = {| h_pa := pa; h_len := len; h_sof := sof; h_eof := eof; h_parity := true |} /\
  dd_map c (dd_of c pa flags len) = (pa, len) /\ dd_eot (dd_of c pa flags len) = eot.
Proof.
  intros Hp Hl Hoff <- <- <-. destruct (dd_of_ok c pa flags len Hp ltac:(lia) Hcfg) as (E1 & E2 & E3 & E4).
  pose proof (dd_of_parity c pa flags len Hp ltac:(lia)) as E5. split; [|split; [by apply E4|unfold dd_eot; by rewrite E1]].
  destruct (dd_decode c (dd_of c pa flags len)) as [p l s e q] eqn:E. cbn in *. assert (s = Z.testbit (ctrl1 (dd_of c pa flags len)) 31) as -> by (by injection E).
  assert (e = Z.testbit (ctrl1 (dd_of c pa flags len)) 30) as -> by (by injection E). by rewrite E1, E2, E3, E5.
Qed.

Lemma ring_full_ok t a b : tx_static m t -> (a <= b)%nat -> Z.of_nat b - Z.of_nat a <= ntxd t - 1 ->
  (NEXTTXD t (ix (ntxd t) b) =? ix (ntxd t) a) = (Z.of_nat b - Z.of_nat a =? ntxd t - 1).
Proof.
  intros (Hn & Hm & _) Hab Hlt. pose proof (n_pos _ m Hn Hm). unfold NEXTTXD, TXD. rewrite (ix_next _ m Hn).
  destruct (Z.eqb_spec (Z.of_nat b - Z.of_nat a) (ntxd t - 1)) as [E|E].
  - apply Z.eqb_eq. unfold ix. replace (Z.of_nat (S b)) with (Z.of_nat a + 1 * ntxd t) by lia. apply Z.mod_add. lia.
  - apply Z.eqb_neq. intros Heq. symmetry in Heq. revert Heq. rewrite (ix_eq _ m Hn Hm); lia.
Qed.

(** What the descriptors of a packet are like. *)
Record posted (t : dma_tx) (all new : list (dma64dd * Z)) (first : bool) (bl : list (Z * Z)) : Prop := {
  po_owner : Forall (fun e => snd e = 0) new;
  po_frame : map (fun e => dd_decode c (fst e)) new = frame_from first bl;
  po_maps : map (fun e => dd_map c (fst e)) new = bl;
  po_eot : forall k d o, new !! k = Some (d, o) -> dd_eot d = (ix (ntxd t) (length all + k) =? ntxd t - 1)
}.

Lemma txfast_loop_ok fuel pk t p0 commit p chain ring ps maps all a flags (first : bool) :
  tx_static m t -> txin t = ix (ntxd t) a -> tx_chain fuel pk p = Some chain ->
  forallb (fun e => buf_ok c (pk_data (snd e)) (pk_len (snd e))) chain = true ->
  (forall q b l, chain = (q, b) :: l -> (q =? p0) = first /\ p0 ∉ map fst l) ->
  slots (ntxd t) ring ps all a ->
  exists ring', if Z.of_nat (length all - a) + Z.of_nat (length chain) <=? ntxd t - 1 then
    exists new flags', txfast_loop c fuel pk t p0 commit p ring maps (ix (ntxd t) (length all)) flags =
        Some (false, ring', maps ++ chain_maps chain, ix (ntxd t) (length all + length chain), flags') /\
      slots (ntxd t) ring' ps (all ++ new) a /\ posted t all new first (chain_maps chain) /\
      (chain <> [] -> (Z.land flags' D64_CTRL1_EOF =? 0) = false)
  else exists more out' flags', txfast_loop c fuel pk t p0 commit p ring maps (ix (ntxd t) (length all)) flags =
        Some (true, ring', maps ++ more, out', flags') /\ slots (ntxd t) ring' ps all a.
Proof.
  intros Hst Hin. pose proof Hst as (Hn & Hm & _). pose proof (n_pos _ m Hn Hm).
  revert p chain ring maps all flags first. induction fuel as [|fuel IH]; intros p chain ring maps all flags first Hch Hok Hfst Hs; [done|].
  pose proof (sl_room _ _ _ _ _ Hs) as [Hr1 Hr2]. cbn [tx_chain txfast_loop] in *. destruct (Z.eqb_spec p 0) as [->|Hp].
  { injection Hch as <-. exists ring. rewrite (proj2 (Z.leb_le _ _)) by (cbn; lia). exists [], flags. cbn [chain_maps map length].
    rewrite !app_nil_r, Nat.add_0_r. split; [done|]. split; [done|]. split; [by constructor|done]. }
  apply bind_Some in Hch as (b & Eb & Hch). apply bind_Some in Hch as (l & El & [= <-]). rewrite Eb. cbn [mbind option_bind].
  rewrite Hin, (ring_full_ok t a (length all)) by (done || lia). cbn [forallb fst snd] in Hok. apply andb_true_iff in Hok as [Hb Hok].
  destruct (Hfst _ _ _ eq_refl) as [Ef Hl0]. cbn [length].
  destruct (Z.eqb_spec (Z.of_nat (length all) - Z.of_nat a) (ntxd t - 1)) as [E|E].
  { exists ring. rewrite (proj2 (Z.leb_gt _ _)) by lia. exists [], (ix (ntxd t) (length all)), flags. by rewrite app_nil_r. }
  unfold buf_ok in Hb. rewrite !andb_true_iff, orb_true_iff in Hb. destruct Hb as [[Hl1%Z.ltb_lt Hl2%Z.ltb_lt] Hoff].
  rewrite (proj2 (Z.eqb_neq (pk_len b) 0)) by lia. rewrite Ef. unfold eot_flag.
  set (fl := if burstsize_ctrl c then _ else _).
  destruct (tx_flags first (pk_next b =? 0) commit (ix (ntxd t) (length all) =? ntxd t - 1) (burstsize_ctrl c)) as (F1 & F2 & F3 & F4).
  fold fl in F1, F2, F3, F4. cbv zeta in F1, F2, F3, F4. fold fl in F1, F2, F3, F4.
  destruct (dd_new (bus_addr (pk_data b)) fl (pk_len b) _ _ _ (bus_addr_lt _) ltac:(lia)
    ltac:(destruct Hoff as [?%Z.eqb_eq|?%Z.ltb_lt]; auto) F1 F2 F3) as (D1 & D2 & D3).
  destruct (slots_push _ m Hn Hm ring ps all a (dd_of c (bus_addr (pk_data b)) fl (pk_len b)) Hs) as [Es Hs']; [lia|].
  unfold dma64_dd_upd. rewrite Es. cbn [mbind option_bind].
  set (all' := all ++ [(dd_of c (bus_addr (pk_data b)) fl (pk_len b), 0)]) in *. set (ring1 := <[_ := _]> ring) in *.
  assert (length all' = S (length all)) as Elen by (unfold all'; rewrite length_app; cbn; lia).
  assert (NEXTTXD t (ix (ntxd t) (length all)) = ix (ntxd t) (length all')) as -> by (rewrite Elen; apply (ix_next _ m Hn)).
  destruct (Z.eqb_spec (ix (ntxd t) (length all')) (ix (ntxd t) a)) as [E2|_].
  { exfalso. symmetry in E2. revert E2. rewrite (ix_eq _ m Hn Hm); lia. }
  destruct (IH (pk_next b) l ring1 (maps ++ [(bus_addr (pk_data b), pk_len b)]) all' fl false El Hok) as (ring' & IH'); [|done|].
  { intros q b2 l2 ->. cbn [map fst] in Hl0. apply not_elem_of_cons in Hl0 as [? ?]. split; [apply Z.eqb_neq; congruence|done]. }
  exists ring'. replace (Z.of_nat (length all' - a) + Z.of_nat (length l)) with (Z.of_nat (length all - a) + Z.of_nat (S (length l))) in IH' by lia.
  destruct (_ <=? _).
  - destruct IH' as (new & fl' & E2 & Hs2 & Hpo & Hfl). exists ((dd_of c (bus_addr (pk_data b)) fl (pk_len b), 0) :: new), fl'.
    rewrite E2. cbn [chain_maps map snd]. rewrite <- app_assoc. cbn [app]. replace (length all' + length l)%nat with (length all + S (length l))%nat by lia.
    split; [done|]. split; [unfold all' in Hs2; by rewrite <- app_assoc in Hs2|]. destruct Hpo as [P1 P2 P3 P4].
    assert ((pk_next b =? 0) = bool_decide (l = [])) as Enx.
    { destruct fuel as [|fuel2]; [done|]. cbn [tx_chain] in El. destruct (pk_next b =? 0); [by injection El as <-|].
      apply bind_Some in El as (b2 & _ & El). apply bind_Some in El as (l2 & _ & [= <-]). done. }
    split.
    + constructor; [by constructor| | |].
      * cbn [map fst]. rewrite P2, D1, Enx. cbn [frame_from fst snd]. do 2 f_equal. unfold chain_maps. by destruct l.
      * cbn [map fst]. by rewrite D2, P3.
      * intros [|k] d o Ek; cbn [lookup] in Ek.
        -- injection Ek as <- <-. by rewrite Nat.add_0_r, D3.
        -- rewrite (P4 k d o Ek), Elen. do 2 f_equal. lia.
    + intros _. destruct l as [|e l]; [|by apply Hfl]. destruct fuel as [|fuel2]; [done|]. rewrite bool_decide_eq_true_2 in Enx by done.
      cbn [txfast_loop] in E2. rewrite Enx in E2. injection E2 as <- _ _ <-. rewrite F4, Enx. done.
  - destruct IH' as (more & out' & fl' & E2 & Hs2). rewrite E2, <- app_assoc. eexists _, out', fl'. split; [done|].
    apply (slots_drop (ntxd t) m Hm ring' ps all [(dd_of c (bus_addr (pk_data b)) fl (pk_len b), 0)] a); [done|lia|].
    intros k d o Ek. by apply list_lookup_singleton_Some in Ek as [_ [= _ <-]].
Qed.

(** The settings of a ring. *)
Definition same_ring (t t' : dma_tx) : Prop := ntxd t' = ntxd t /\ xmtptrbase t' = xmtptrbase t.

(** A packet's descriptors, the last one with the packet. *)
Record packet (t : dma_tx) (all new : list (dma64dd * Z)) (p : Z) (bl : list (Z * Z)) : Prop := {
  pa_owner : map snd new = replicate (length bl - 1) 0 ++ [p];
  pa_frame : map (fun e => dd_decode c (fst e)) new = frame bl;
  pa_maps : map (fun e => dd_map c (fst e)) new = bl;
  pa_eot : forall k d o, new !! k = Some (d, o) -> dd_eot d = (ix (ntxd t) (length all + k) =? ntxd t - 1)
}.

Lemma tx_push t all a x h cc leaked new p bl ring ps commit :
  tx_inv c m t all a x h cc leaked -> packet t all new p bl -> slots (ntxd t) ring ps (all ++ new) a ->
  tx_inv c m (tx_upd t (txin t) (ix (ntxd t) (length (all ++ new))) ps ring (tx_avail t (txin t) (ix (ntxd t) (length (all ++ new)))) (xs0cd t)
     (if commit : bool then u32 (xmtptrbase t + I2B (ix (ntxd t) (length (all ++ new)))) else tx_ptr t) (tx_maps t ++ bl))
    (all ++ new) a x h (if commit then length (all ++ new) else cc) leaked.
Proof.
  intros [Hst Hsl Hin Hout Hxs Hptr [Ho1 Ho2] Hmaps Heot Hav] [P1 P2 P3 P4] Hs. pose proof Hst as (Hn & Hm & Hmask). pose proof (n_pos _ m Hn Hm).
  pose proof (sl_room _ _ _ _ _ Hs) as [Hr1 Hr2]. pose proof (sl_room _ _ _ _ _ Hsl) as [Hr3 _].
  constructor; cbn [tx_upd ntxd txin txout txp txd64 txavail xs0cd tx_ptr xmtptrbase d64_xs0_cd_mask tx_maps]; try done.
  - destruct commit; [|done]. rewrite Hmask. by apply (ptr_ix _ m Hn Hm), (ix_lt _ m Hn Hm).
  - rewrite length_app in *. destruct commit; lia.
  - rewrite drop_app_le by lia. rewrite map_app, P3, Hmaps, <- !app_assoc. apply Permutation_app_head, Permutation_app_comm.
  - intros k d o [Ek|[Hge Ek]]%lookup_app_Some; [by apply (Heot k d o)|]. rewrite (P4 _ d o Ek). do 2 f_equal. lia.
  - rewrite Hin, (tx_avail_ok m) by (done || lia). lia.
Qed.

Lemma outof_inv t all a x h cc leaked ring more :
  tx_inv c m t all a x h cc leaked -> slots (ntxd t) ring (txp t) all a -> exists t', outoftxd t ring (tx_maps t ++ more) = (-1, t') /\
    tx_inv c m t' all a x h cc (leaked ++ more) /\ same_ring t t'.
Proof.
  intros [Hst Hsl Hin Hout Hxs Hptr Hord Hmaps Heot Hav] Hs. eexists. split; [done|]. split; [|done].
  constructor; cbn [ntxd txin txout txp txd64 txavail xs0cd tx_ptr xmtptrbase d64_xs0_cd_mask tx_maps]; try done; [by rewrite Hmaps, app_assoc|lia].
Qed.

Lemma txfast_ok t all a x h cc leaked pk p0 chain commit :
  tx_inv c m t all a x h cc leaked -> tx_chain (S (size pk)) pk p0 = Some chain -> chain_ok chain = true -> p0 <> 0 ->
  exists r t', dma64_txfast c pk t p0 commit = Some (r, t') /\ same_ring t t' /\
    if Z.of_nat (length all - a) + Z.of_nat (length chain) <=? ntxd t - 1 then
      r = 0 /\ exists new, packet t all new p0 (chain_maps chain) /\
        tx_inv c m t' (all ++ new) a x h (if commit then length (all ++ new) else cc) leaked
    else r = -1 /\ exists more, tx_inv c m t' all a x h cc (leaked ++ more).
Proof.
  intros Hi Hch Hok Hp0. pose proof Hi as [Hst Hsl Hin Hout _ _ _ _ _ _]. pose proof Hst as (Hn & Hm & Hmask).
  unfold chain_ok in Hok. rewrite !andb_true_iff, negb_true_iff, bool_decide_eq_false, bool_decide_eq_true in Hok. destruct Hok as [[Hne Hnd] Hok].
  destruct (txfast_loop_ok (S (size pk)) pk t p0 commit p0 chain (txd64 t) (txp t) (tx_maps t) all a 0 true Hst Hin Hch Hok) as (ring' & Hloop).
  { intros q b l ->. cbn [map fst] in Hnd. apply NoDup_cons in Hnd as [Hn0 _]. cbn [tx_chain] in Hch. rewrite (proj2 (Z.eqb_neq p0 0)) in Hch by done.
    apply bind_Some in Hch as (b2 & _ & Hch). apply bind_Some in Hch as (l2 & _ & [= <- <- <-]). split; [by apply Z.eqb_eq|done]. }
  { done. }
  unfold dma64_txfast. rewrite Hout. destruct (_ <=? _).
  - destruct Hloop as (new & fl & -> & Hs & Hpo & Hfl). cbn [mbind option_bind]. rewrite (Hfl Hne). cbn [mbind option_bind].
    destruct Hpo as [P1 P2 P3 P4]. assert (length new = length chain) as Elen.
    { rewrite <- (length_map (fun e => dd_map c (fst e)) new), P3. apply length_map. }
    destruct new as [|[d o] new0 _] using rev_ind; [by destruct chain|].
    apply Forall_app in P1 as [P0 P1]. apply Forall_cons in P1 as [P1 _]. cbn [snd] in P1. subst o. rewrite length_app in Elen. cbn [length] in Elen.
    rewrite app_assoc in Hs. destruct (slots_own _ m Hn Hm _ _ _ _ d p0 Hs) as [Eps Hs'].
    { pose proof (sl_room _ _ _ _ _ Hsl). rewrite length_app. lia. }
    replace (length all + length chain)%nat with (S (length (all ++ new0))) by (rewrite length_app; lia).
    unfold PREVTXD, TXD. rewrite (ix_prev _ m Hn), Eps. cbn [mbind option_bind]. rewrite <- app_assoc in Hs'.
    replace (S (length (all ++ new0))) with (length (all ++ new0 ++ [(d, p0)])) by (rewrite !length_app; cbn; lia).
    eexists 0, _. split; [done|]. split; [done|]. split; [done|]. exists (new0 ++ [(d, p0)]).
    assert (packet t all (new0 ++ [(d, p0)]) p0 (chain_maps chain)) as Hpk.
    { rewrite map_app in P2, P3. constructor; [|by rewrite map_app|by rewrite map_app|].
      - rewrite map_app. unfold chain_maps. rewrite length_map. replace (length chain - 1)%nat with (length new0) by lia. f_equal.
        clear -P0. induction P0 as [|e l He Hl IH]; [done|]. cbn. by rewrite He, IH.
      - intros k d' o' [Ek|[Hge Ek]]%lookup_app_Some; [apply (P4 k d' o'); by apply lookup_app_l_Some|].
        apply list_lookup_singleton_Some in Ek as [E0 [= <- <-]]. apply (P4 k d 0). rewrite lookup_app_r by lia. by rewrite E0. }
    split; [done|]. apply (tx_push t all a x h cc leaked _ p0 _ _ _ commit Hi Hpk Hs').
  - destruct Hloop as (more & out' & fl & -> & Hs). cbn [mbind option_bind].
    destruct (outof_inv t all a x h cc leaked ring' more Hi Hs) as (t' & -> & Ht & Hsame). eexists (-1), t'. split; [done|]. split; [done|].
    split; [done|]. by exists more.
Qed.

Lemma txunframed_ok t all a x h cc leaked buf len commit :
  tx_inv c m t all a x h cc leaked -> buf_ok c buf len = true -> buf <> 0 ->
  exists r t', dma64_txunframed c t buf len commit = Some (r, t') /\ same_ring t t' /\
    if Z.of_nat (length all - a) + 1 <=? ntxd t - 1 then
      r = 0 /\ exists new, packet t all new buf [(bus_addr buf, len)] /\
        tx_inv c m t' (all ++ new) a x h (if commit then length (all ++ new) else cc) leaked
    else r = -1 /\ exists more, tx_inv c m t' all a x h cc (leaked ++ more).
Proof.
  intros Hi Hb Hbuf. pose proof Hi as [Hst Hsl Hin Hout _ _ _ _ _ _]. pose proof Hst as (Hn & Hm & Hmask).
  pose proof (sl_room _ _ _ _ _ Hsl) as [Hr1 Hr2]. unfold dma64_txunframed. rewrite Hout, Hin, (ring_full_ok t a (length all)) by (done || lia).
  destruct (Z.eqb_spec (Z.of_nat (length all) - Z.of_nat a) (ntxd t - 1)) as [E|E].
  { rewrite (proj2 (Z.leb_gt _ _)) by lia. destruct (outof_inv t all a x h cc leaked (txd64 t) [] Hi Hsl) as (t' & Eo & Ht & Hsame).
    rewrite app_nil_r in Eo. rewrite Eo. eexists (-1), t'. split; [done|]. split; [done|]. split; [done|]. by exists []. }
  rewrite (proj2 (Z.leb_le _ _)) by lia. unfold buf_ok in Hb. rewrite !andb_true_iff, orb_true_iff in Hb.
  destruct Hb as [[Hl1%Z.ltb_lt Hl2%Z.ltb_lt] Hoff]. rewrite (proj2 (Z.eqb_neq len 0)) by lia.
  set (fl := Z.lor _ (eot_flag _ _)).
  assert (Z.testbit fl 31 = true /\ Z.testbit fl 30 = true /\ Z.testbit fl 28 = (ix (ntxd t) (length all) =? ntxd t - 1)) as (F1 & F2 & F3)
    by (unfold fl, eot_flag; by destruct (_ =? ntxd t - 1)).
  destruct (dd_new (bus_addr buf) fl len _ _ _ (bus_addr_lt _) ltac:(lia) ltac:(destruct Hoff as [?%Z.eqb_eq|?%Z.ltb_lt]; auto) F1 F2 F3) as (D1 & D2 & D3).
  destruct (slots_push _ m Hn Hm _ _ all a (dd_of c (bus_addr buf) fl len) Hsl) as [Es Hs']; [lia|].
  destruct (slots_own _ m Hn Hm _ _ _ _ _ buf Hs' Hr1) as [Eps Hs2]. unfold dma64_dd_upd. rewrite Es. cbn [mbind option_bind]. rewrite Eps. cbn [mbind option_bind].
  unfold NEXTTXD, TXD. rewrite (ix_next _ m Hn). assert (S (length all) = length (all ++ [(dd_of c (bus_addr buf) fl len, buf)])) as -> by (rewrite length_app; cbn; lia).
  eexists 0, _. split; [done|]. split; [done|]. split; [done|]. eexists.
  assert (packet t all [(dd_of c (bus_addr buf) fl len, buf)] buf [(bus_addr buf, len)]) as Hpk.
  { constructor; [done| | |].
    - cbn [map fst]. by rewrite D1.
    - cbn [map fst]. by rewrite D2.
    - intros k d o Ek. apply list_lookup_singleton_Some in Ek as [-> [= <- <-]]. by rewrite Nat.add_0_r, D3. }
  split; [done|]. rewrite <- Hin. apply (tx_push t all a x h cc leaked _ buf _ _ _ commit Hi Hpk Hs2).
Qed.
End post.
