(* ===== verification/HndDmaTxProps.v ===== *)
(** * DMA transmission: histories with the engine *)
From Stdlib Require Import ZArith Lia.
From stdpp Require Import base gmap option numbers list.
From S2P Require Import Prelude HndDma HndDmaRing HndDmaTx.

(** ** The ring and the engine

    The engine reads the descriptor it is at, unless the host's pointer is
    there, and goes on behind it or, after the one marked EOT, at the start. *)
Record txs := { x_t : dma_tx; x_hw : Z; x_log : list hwdesc; x_acc : list (Z * list (Z * Z)); x_ret : list Z }.
Inductive tx_op :=
  | XFast (pk : pkts) (p : Z) (commit : bool) | XUnframed (buf len : Z) (commit : bool) | XEngine
  | XGet | XReclaim | XPeek | XPending | XBlock | XUnblock.

Definition hw_status (t : dma_tx) (i : Z) : Z := Z.land (xmtptrbase t + I2B i) (d64_xs0_cd_mask t).
Definition set_tx (s : txs) (t : dma_tx) (ret : list Z) : txs :=
  {| x_t := t; x_hw := x_hw s; x_log := x_log s; x_acc := x_acc s; x_ret := x_ret s ++ ret |}.
Definition accept (s : txs) (r : Z) (t : dma_tx) (p : Z) (bl : list (Z * Z)) : txs :=
  {| x_t := t; x_hw := x_hw s; x_log := x_log s; x_acc := if r =? 0 then x_acc s ++ [(p, bl)] else x_acc s; x_ret := x_ret s |}.
Definition one (p : Z) : list Z := if p =? 0 then [] else [p].

Section tx.
Context `{DmaBus} (c : dma_cfg).

Definition tx_step (op : tx_op) (s : txs) : option txs :=
  let t := x_t s in
  match op with
  | XFast pk p commit => '(r, t) ← dma64_txfast c pk t p commit; Some (accept s r t p (chain_maps (default [] (tx_chain (S (size pk)) pk p))))
  | XUnframed buf len commit => '(r, t) ← dma64_txunframed c t buf len commit; Some (accept s r t buf [(bus_addr buf, len)])
  | XEngine =>
      if x_hw s =? curr_ix (tx_ptr t) (d64_xs0_cd_mask t) (xmtptrbase t) then Some s else
      d ← aget (txd64 t) (x_hw s);
      Some {| x_t := t; x_hw := if dd_eot d then 0 else x_hw s + 1; x_log := x_log s ++ [dd_decode c d]; x_acc := x_acc s; x_ret := x_ret s |}
  | XGet => '(p, t) ← dma64_getnexttxp c t HNDDMA_RANGE_TRANSMITTED (hw_status t (x_hw s)) 0; Some (set_tx s t (one p))
  | XReclaim => '(freed, t) ← dma64_txreclaim c t HNDDMA_RANGE_TRANSMITTED (hw_status t (x_hw s)) 0; Some (set_tx s t freed)
  | XPeek => '(_, t) ← _dma_peeknexttxp t (hw_status t (x_hw s)); Some (set_tx s t [])
  | XPending => Some (set_tx s (snd (_dma_txpending t (hw_status t (x_hw s)))) [])
  | XBlock => Some (set_tx s (_dma_txblock t) [])
  | XUnblock => Some (set_tx s (_dma_txunblock t) [])
  end.
Definition tx_legal (op : tx_op) : bool :=
  match op with
  | XFast pk p _ => negb (p =? 0) && match tx_chain (S (size pk)) pk p with Some l => chain_ok c l | None => false end
  | XUnframed buf len _ => negb (buf =? 0) && buf_ok c buf len
  | XReclaim => negb (ctrl_flag c DMA_CTRL_UNFRAMED)
  | _ => true
  end.
Fixpoint tx_run (ops : list tx_op) (s : txs) : option txs :=
  match ops with [] => Some s | op :: ops => s ← tx_step op s; tx_run ops s end.
End tx.

(** A ring of [n] descriptors after dma_attach and dma64_txinit. *)
Definition tx_attach (n mask base : Z) : dma_tx :=
  dma64_txinit {| ntxd := n; txin := 0; txout := 0; txp := replicate (Z.to_nat n) 0; txd64 := []; txavail := 0; txnobuf := 0;
    xs0cd := 0; xs0cd_snapshot := 0; tx_ptr := base; xmtptrbase := base; d64_xs0_cd_mask := mask; d64_xs1_ad_mask := mask; tx_maps := [] |}.
Definition tx_start (n mask base : Z) : txs := {| x_t := tx_attach n mask base; x_hw := 0; x_log := []; x_acc := []; x_ret := [] |}.

(** The packets in the ring, and what the engine reads for packets. *)
Fixpoint queued_from (fuel : nat) (n : Z) (ps : list Z) (i stop : Z) : list Z :=
  match fuel with
  | O => []
  | S fuel => if i =? stop then [] else one (default 0 (aget ps i)) ++ queued_from fuel n ps (XXD (i + 1) n) stop
  end.
Definition tx_queued (t : dma_tx) : list Z := queued_from (Z.to_nat (ntxd t)) (ntxd t) (txp t) (txin t) (txout t).
Definition wire (acc : list (Z * list (Z * Z))) : list hwdesc := concat (map (fun e => frame (snd e)) acc).

(** ** Packets of the sequence of descriptors *)
Definition packet_seg (c : dma_cfg) (e : Z * list (Z * Z)) (sg : list (dma64dd * Z)) : Prop :=
  fst e <> 0 /\ map snd sg = replicate (length (snd e) - 1) 0 ++ [fst e] /\ map (fun x => dd_decode c (fst x)) sg = frame (snd e).
Definition packets_of (c : dma_cfg) (acc : list (Z * list (Z * Z))) (all : list (dma64dd * Z)) : Prop :=
  exists segs, all = concat segs /\ Forall2 (packet_seg c) acc segs.

Lemma owners_seg c e sg : packet_seg c e sg -> owners sg = [fst e].
Proof.
  intros (He & Ho & _). unfold owners. rewrite Ho, filter_app, filter_cons_True by done. cbn.
  replace (filter _ (replicate _ _)) with (@nil Z); [done|]. generalize (length (snd e) - 1)%nat. intros k. by induction k.
Qed.
Lemma owners_packets c acc all : packets_of c acc all -> owners all = map fst acc.
Proof.
  intros (segs & -> & Hs). induction Hs as [|e sg acc segs He Hs IH]; [done|]. cbn [concat map]. by rewrite owners_app, (owners_seg c e sg He), IH.
Qed.
Lemma wire_packets c acc all : packets_of c acc all -> map (fun x => dd_decode c (fst x)) all = wire acc.
Proof.
  intros (segs & -> & Hs). induction Hs as [|e sg acc segs He Hs IH]; [done|]. unfold wire in *. cbn [concat map]. rewrite map_app, IH. f_equal. apply He.
Qed.
Lemma packets_snoc c t acc all new p bl :
  packets_of c acc all -> packet c t all new p bl -> p <> 0 -> packets_of c (acc ++ [(p, bl)]) (all ++ new).
Proof.
  intros (segs & -> & Hs) [P1 P2 P3 P4] Hp. exists (segs ++ [new]). rewrite concat_app. cbn [concat]. rewrite app_nil_r. split; [done|].
  apply Forall2_app; [done|]. by constructor.
Qed.
(** A packet taken back was read to its end. *)
Lemma returned_read c acc all a :
  packets_of c acc all -> (length (wire (take (length (owners (take a all))) acc)) <= a)%nat.
Proof.
  intros (segs & -> & Hs). revert a. induction Hs as [|e sg acc segs He Hs IH]; intros a; [rewrite (take_nil (length _)); cbn; lia|].
  pose proof He as (Hp & Ho & Hf). assert (length sg = length (frame (snd e))) as Elen by (by rewrite <- Hf, length_map).
  assert (length sg = S (length (snd e) - 1)) as Elen2.
  { rewrite <- (length_map snd sg), Ho, length_app, length_replicate. cbn. lia. }
  cbn [concat]. destruct (decide (length sg <= a)%nat) as [Hle|Hgt].
  - rewrite take_app_ge by done. rewrite owners_app, (owners_seg c e sg He). cbn [length app take]. unfold wire in *. cbn [map concat].
    rewrite length_app, <- Elen. specialize (IH (a - length sg)%nat). lia.
  - rewrite take_app_le by lia. replace (owners (take a sg)) with (@nil Z); [cbn; lia|]. symmetry. apply owners_zero, Forall_forall.
    intros x Hx. apply list_elem_of_lookup in Hx as (k & Hk). apply lookup_take_Some in Hk as [Hk Hka].
    assert (map snd sg !! k = Some (snd x)) as Hk2 by (by rewrite list_lookup_fmap, Hk). rewrite Ho in Hk2. apply lookup_app_Some in Hk2 as [Hk2|[Hge _]].
    + by apply lookup_replicate in Hk2 as [? _].
    + rewrite length_replicate in Hge. lia.
Qed.

(** ** Every step *)
Section steps.
Context `{DmaBus} (c : dma_cfg) (m n base : Z).
Hypothesis Hcfg : cfg_ok c.

Definition txs_inv (s : txs) (all : list (dma64dd * Z)) (a x h : nat) : Prop :=
  exists cc leaked, tx_inv c m (x_t s) all a x h cc leaked /\ ntxd (x_t s) = n /\ xmtptrbase (x_t s) = base /\ x_hw s = ix n h /\
    x_log s = map (fun e => dd_decode c (fst e)) (take h all) /\ packets_of c (x_acc s) all /\ x_ret s = owners (take a all).

Lemma status_ok t all a x h cc leaked : tx_inv c m t all a x h cc leaked -> status_at m (xmtptrbase t) (ix (ntxd t) h) (hw_status t (ix (ntxd t) h)).
Proof.
  intros [(Hn & Hm & Hmask) _ _ _ _ _ _ _ _ _]. unfold status_at, hw_status. rewrite Hmask.
  replace (2 ^ m - 1) with (Z.ones m) by (rewrite Z.ones_equiv; lia). rewrite !Z.land_ones by lia. by rewrite Z.mod_mod by lia.
Qed.

Lemma reclaim_loop_ok fuel t all a x h cc leaked s0 s1 freed :
  tx_inv c m t all a x h cc leaked -> status_at m (xmtptrbase t) (ix (ntxd t) h) s0 -> ctrl_flag c DMA_CTRL_UNFRAMED = false ->
  (length all - a < fuel)%nat ->
  exists fr t' a', txreclaim_loop fuel c t HNDDMA_RANGE_TRANSMITTED s0 s1 freed = Some (freed ++ fr, t') /\ tx_inv c m t' all a' a' h cc leaked /\
    owners (take a' all) = owners (take a all) ++ fr /\ ntxd t' = ntxd t /\ xmtptrbase t' = xmtptrbase t /\ txout t' = txout t /\
    (a = x \/ x = h -> a' = h).
Proof.
  revert t a x freed. induction fuel as [|fuel IH]; intros t a x freed Hi Hst Hu Hf; [lia|]. cbn [txreclaim_loop].
  destruct (getnexttxp_ok c m t all a x h cc leaked s0 s1 Hi Hst) as (p & t1 & a1 & x1 & -> & Hi1 & Ha & Hx & Hp0 & Hp1 & Eow & En & Eb & Eout).
  cbn [mbind option_bind]. destruct (Z.eqb_spec p 0) as [->|Hp].
  - specialize (Hp0 eq_refl). subst a1. rewrite !app_nil_r in Eow. exists [], t1, x1. rewrite !app_nil_r. split; [done|]. split; [done|]. split; [done|].
    split; [done|]. split; [done|]. split; [done|]. rewrite Hx. destruct (decide (a = x)); naive_solver.
  - rewrite Hu. specialize (Hp1 Hp). pose proof (ti_ord _ _ _ _ _ _ _ _ _ Hi1) as [? ?].
    destruct (IH t1 a1 x1 (freed ++ [p]) Hi1) as (fr & t2 & a2 & E2 & Hi2 & Eow2 & En2 & Eb2 & Eout2 & Hh); [by rewrite En, Eb|done|lia|].
    exists (p :: fr), t2, a2. rewrite E2, <- app_assoc. split; [done|]. split; [done|]. split; [by rewrite Eow2, Eow, <- app_assoc|].
    split; [congruence|]. split; [congruence|]. split; [congruence|]. intros Hax. apply Hh. right. rewrite Hx.
    destruct (decide (a = x)); naive_solver.
Qed.

Lemma reclaim_ok t all a x h cc leaked s0 s1 :
  tx_inv c m t all a x h cc leaked -> status_at m (xmtptrbase t) (ix (ntxd t) h) s0 -> ctrl_flag c DMA_CTRL_UNFRAMED = false ->
  exists fr t' a', dma64_txreclaim c t HNDDMA_RANGE_TRANSMITTED s0 s1 = Some (fr, t') /\ tx_inv c m t' all a' a' h cc leaked /\
    owners (take a' all) = owners (take a all) ++ fr /\ ntxd t' = ntxd t /\ xmtptrbase t' = xmtptrbase t /\ txout t' = txout t /\
    (a = x \/ x = h -> a' = h).
Proof.
  intros Hi Hst Hu. unfold dma64_txreclaim. pose proof Hi as [Hs Hsl Hin Hout _ _ [? ?] _ _ _]. pose proof Hs as (Hn & Hm & _).
  pose proof (n_pos _ m Hn Hm). pose proof (sl_room _ _ _ _ _ Hsl) as [Hr1 Hr2].
  destruct (Z.eqb_spec (txin t) (txout t)) as [E|E].
  - rewrite Hin, Hout in E. apply (ix_eq _ m Hn Hm) in E; [|lia|lia]. exists [], t, a. rewrite app_nil_r. split; [done|].
    assert (x = a) as -> by lia. split; [done|]. split_and!; try done. lia.
  - apply (reclaim_loop_ok _ t all a x h cc leaked s0 s1 []); try done. lia.
Qed.

Lemma peek_loop_Some t all a k h fuel ring :
  tx_static m t -> slots (ntxd t) ring (txp t) all a -> (a <= k <= h)%nat -> (h <= length all)%nat -> (h - k < fuel)%nat ->
  exists p, peek_loop fuel (ntxd t) (txp t) (ix (ntxd t) k) (ix (ntxd t) h) = Some p.
Proof.
  intros (Hn & Hm & _) Hs. pose proof (n_pos _ m Hn Hm). revert k. induction fuel as [|fuel IH]; intros k Hk Hh Hf; [lia|]. cbn [peek_loop].
  destruct (_ =? _) eqn:E; [by eexists|]. apply Z.eqb_neq in E. assert (k <> h) by congruence.
  destruct (all !! k) as [[d o]|] eqn:Ek; [|apply lookup_ge_None in Ek; lia].
  destruct (slots_in (ntxd t) _ _ _ _ k d o Hs) as [_ ->]; [lia|done|]. cbn [mbind option_bind]. destruct (o =? 0); [|by eexists].
  rewrite (ix_next _ m Hn). apply IH; lia.
Qed.

Lemma with_xs0cd_ok t all a x h cc leaked : tx_inv c m t all a x h cc leaked -> tx_inv c m (with_xs0cd t (ix (ntxd t) h)) all a h h cc leaked.
Proof. intros [H1 H2 H3 H4 H5 H6 [? ?] H8 H9 H10]. constructor; try done. lia. Qed.
Lemma with_txavail_ok t all a x h cc leaked v :
  tx_inv c m t all a x h cc leaked -> 0 <= v <= ntxd t - 1 - Z.of_nat (length all - a) -> tx_inv c m (with_txavail t v) all a x h cc leaked.
Proof. intros [H1 H2 H3 H4 H5 H6 H7 H8 H9 H10] Hv. by constructor. Qed.

Lemma status_curr t all a x h cc leaked :
  tx_inv c m t all a x h cc leaked -> curr_ix (hw_status t (ix (ntxd t) h)) (d64_xs0_cd_mask t) (xmtptrbase t) = ix (ntxd t) h.
Proof.
  intros Hi. pose proof (status_ok _ _ _ _ _ _ _ Hi) as Hst. destruct Hi as [(Hn & Hm & Hmask) _ _ _ _ _ _ _ _ _]. rewrite Hmask.
  apply (curr_ix_ok _ m Hn Hm); [apply (ix_lt _ m Hn Hm)|done].
Qed.

Lemma tx_step_ok op s all a x h : txs_inv s all a x h -> tx_legal c op = true ->
  exists s' all' a' x' h', tx_step c op s = Some s' /\ txs_inv s' all' a' x' h'.
Proof.
  intros (cc & leaked & Hi & En & Eb & Ehw & Elog & Hpk & Eret) Hl.
  assert (forall v, 0 <= v <= ntxd (x_t s) - 1 - Z.of_nat (length all - a) -> txs_inv (set_tx s (with_txavail (x_t s) v) []) all a x h) as Hav.
  { intros v Hv. exists cc, leaked. split; [by apply with_txavail_ok|]. cbn [set_tx x_t x_hw x_log x_acc x_ret]. by rewrite app_nil_r. }
  assert (txs_inv (set_tx s (with_xs0cd (x_t s) (ix n h)) []) all a h h) as Hxs.
  { exists cc, leaked. split; [rewrite <- En; by apply (with_xs0cd_ok (x_t s) all a x)|]. cbn [set_tx x_t x_hw x_log x_acc x_ret]. by rewrite app_nil_r. }
  pose proof Hi as [Hst Hsl Hin Hout Hx Hptr [? ?] Hmaps Heot Havl]. pose proof Hst as (Hn & Hm & Hmask). pose proof (n_pos _ m Hn Hm).
  destruct op as [pk p commit|buf len commit| | | | | | |]; cbn [tx_step tx_legal] in *.
  - apply andb_true_iff in Hl as [Hp%negb_true_iff%Z.eqb_neq Hl]. destruct (tx_chain _ pk p) as [ch|] eqn:Ech; [|done].
    destruct (txfast_ok c m Hcfg (x_t s) all a x h cc leaked pk p ch commit Hi Ech Hl Hp) as (r & t' & -> & [Es1 Es2] & Hr). cbn [mbind option_bind default].
    destruct (_ <=? _).
    + destruct Hr as (-> & new & Hnew & Hi'). eexists _, (all ++ new), a, x, h. split; [done|]. eexists _, leaked. split; [exact Hi'|].
      cbn [accept x_t x_hw x_log x_acc x_ret Z.eqb]. rewrite !take_app_le by lia. split_and!; try done; [by rewrite Es1|by rewrite Es2|].
      by apply (packets_snoc c (x_t s) _ _ _ p).
    + destruct Hr as (-> & more & Hi'). eexists _, all, a, x, h. split; [done|]. eexists cc, _. split; [exact Hi'|].
      cbn [accept x_t x_hw x_log x_acc x_ret Z.eqb]. split_and!; try done; [by rewrite Es1|by rewrite Es2].
  - apply andb_true_iff in Hl as [Hp%negb_true_iff%Z.eqb_neq Hl].
    destruct (txunframed_ok c m Hcfg (x_t s) all a x h cc leaked buf len commit Hi Hl Hp) as (r & t' & -> & [Es1 Es2] & Hr). cbn [mbind option_bind].
    destruct (_ <=? _).
    + destruct Hr as (-> & new & Hnew & Hi'). eexists _, (all ++ new), a, x, h. split; [done|]. eexists _, leaked. split; [exact Hi'|].
      cbn [accept x_t x_hw x_log x_acc x_ret Z.eqb]. rewrite !take_app_le by lia. split_and!; try done; [by rewrite Es1|by rewrite Es2|].
      by apply (packets_snoc c (x_t s) _ _ _ buf).
    + destruct Hr as (-> & more & Hi'). eexists _, all, a, x, h. split; [done|]. eexists cc, _. split; [exact Hi'|].
      cbn [accept x_t x_hw x_log x_acc x_ret Z.eqb]. split_and!; try done; [by rewrite Es1|by rewrite Es2].
  - rewrite Hptr, Ehw, En. destruct (Z.eqb_spec (ix n h) (ix n cc)) as [E|E].
    { eexists _, all, a, x, h. split; [done|]. exists cc, leaked. by split. }
    assert (h <> cc) by congruence. destruct (all !! h) as [[d o]|] eqn:Eh; [|apply lookup_ge_None in Eh; lia].
    destruct (slots_in _ _ _ _ _ h d o Hsl ltac:(lia) Eh) as [Ed _]. rewrite En in Ed. rewrite Ed. cbn [mbind option_bind].
    eexists _, all, a, x, (S h). split; [done|]. exists cc, leaked. cbn [x_t x_hw x_log x_acc x_ret].
    split; [constructor; try done; lia|]. split; [done|]. split; [done|]. split.
    + rewrite (Heot _ _ _ Eh), En. symmetry. rewrite En in Hn, Hm. apply (ix_S n m Hn Hm).
    + split; [|done]. rewrite Elog, (take_S_r _ _ _ Eh). by rewrite map_app.
  - rewrite Ehw, <- En. destruct (getnexttxp_ok c m (x_t s) all a x h cc leaked _ 0 Hi (status_ok _ _ _ _ _ _ _ Hi))
      as (p & t1 & a1 & x1 & -> & Hi1 & Ha & _ & _ & _ & Eow & En1 & Eb1 & _). cbn [mbind option_bind].
    eexists _, all, a1, x1, h. split; [done|]. exists cc, leaked. split; [exact Hi1|]. cbn [set_tx x_t x_hw x_log x_acc x_ret].
    split_and!; try done; [by rewrite En1|by rewrite Eb1|]. by rewrite Eret, Eow.
  - apply negb_true_iff in Hl. rewrite Ehw, <- En. destruct (reclaim_ok (x_t s) all a x h cc leaked _ 0 Hi (status_ok _ _ _ _ _ _ _ Hi) Hl)
      as (fr & t1 & a1 & -> & Hi1 & Eow & En1 & Eb1 & _ & _). cbn [mbind option_bind].
    eexists _, all, a1, a1, h. split; [done|]. exists cc, leaked. split; [exact Hi1|]. cbn [set_tx x_t x_hw x_log x_acc x_ret].
    split_and!; try done; [by rewrite En1|by rewrite Eb1|]. by rewrite Eret, Eow.
  - unfold _dma_peeknexttxp. rewrite (proj2 (Z.eqb_neq _ 0)) by lia. rewrite Ehw, <- En, (status_curr _ _ _ _ _ _ _ Hi), Hin.
    destruct (peek_loop_Some (x_t s) all a a h (S (Z.to_nat (ntxd (x_t s)))) _ Hst Hsl) as (p & ->); [lia|lia| |].
    { pose proof (sl_room _ _ _ _ _ Hsl). lia. }
    cbn [mbind option_bind]. rewrite En. by eexists _, all, a, h, h.
  - unfold _dma_txpending. cbn [snd]. rewrite Ehw, <- En, (status_curr _ _ _ _ _ _ _ Hi), En. by eexists _, all, a, h, h.
  - eexists _, all, a, x, h. split; [done|]. apply Hav. lia.
  - eexists _, all, a, x, h. split; [done|]. apply Hav. pose proof (sl_room _ _ _ _ _ Hsl). rewrite Hin, Hout, (tx_avail_ok m) by (done || lia). lia.
Qed.

Lemma tx_run_ok ops s all a x h : txs_inv s all a x h -> forallb (tx_legal c) ops = true ->
  exists s' all' a' x' h', tx_run c ops s = Some s' /\ txs_inv s' all' a' x' h'.
Proof.
  revert s all a x h. induction ops as [|op ops IH]; intros s all a x h Hi; cbn [forallb tx_run]; [by eexists _, all, a, x, h|].
  intros [Hl Hls]%andb_true_iff. destruct (tx_step_ok op s all a x h Hi Hl) as (s1 & all1 & a1 & x1 & h1 & -> & Hi1). cbn [mbind option_bind].
  by apply (IH _ _ _ _ _ Hi1).
Qed.

Lemma queued_ok t all a cc x h leaked fuel k :
  tx_inv c m t all a x h cc leaked -> (a <= k <= length all)%nat -> (length all - k <= fuel)%nat ->
  queued_from fuel (ntxd t) (txp t) (ix (ntxd t) k) (ix (ntxd t) (length all)) = owners (drop k all).
Proof.
  intros [(Hn & Hm & _) Hsl _ _ _ _ _ _ _ _]. pose proof (n_pos _ m Hn Hm). pose proof (sl_room _ _ _ _ _ Hsl) as [Hr1 Hr2]. revert k.
  induction fuel as [|fuel IH]; intros k Hk Hf; [by rewrite drop_ge by lia|]. cbn [queued_from].
  destruct (Z.eqb_spec (ix (ntxd t) k) (ix (ntxd t) (length all))) as [E|E].
  - apply (ix_eq _ m Hn Hm) in E; [|lia|lia]. by rewrite drop_ge by lia.
  - assert (k <> length all) by congruence. destruct (all !! k) as [[d o]|] eqn:Ek; [|apply lookup_ge_None in Ek; lia].
    destruct (slots_in _ _ _ _ _ k d o Hsl ltac:(lia) Ek) as [_ ->]. cbn [default]. rewrite (ix_next _ m Hn), IH by lia.
    rewrite (drop_S _ _ _ Ek). change ((d, o) :: drop (S k) all) with ([(d, o)] ++ drop (S k) all). by rewrite owners_app, owners_one.
Qed.
End steps.

Lemma tx_start_ok c m n base : (exists b, 0 < b /\ n = 2 ^ b) -> 4 <= m <= 16 /\ 16 * n <= 2 ^ m -> 0 <= base < 2 ^ 32 ->
  txs_inv c m n base (tx_start n (2 ^ m - 1) base) [] 0 0 0.
Proof.
  intros Hn Hm Hb. pose proof (n_pos n m Hn Hm). exists 0%nat, []. unfold tx_start, tx_attach, dma64_txinit. cbn [ntxd x_t]. rewrite (proj2 (Z.eqb_neq n 0)) by lia.
  split; [|split_and!; try done; by exists []].
  constructor; cbn [ntxd txin txout txp txd64 txavail xs0cd tx_ptr xmtptrbase d64_xs0_cd_mask tx_maps x_t]; try done.
  - apply (slots_start n m Hn Hm); [rewrite length_replicate; lia|done].
  - rewrite (curr_ix_ok n m Hn Hm base base 0); [by unfold ix|lia|]. unfold I2B. rewrite Z.add_0_r.
    replace (2 ^ m - 1) with (Z.ones m) by (rewrite Z.ones_equiv; lia). by rewrite Z.land_ones by lia.
  - cbn [length]. lia.
Qed.

(** C7: The transmit ring of the DMA engine is a queue of packets, for every
    history of posting (chains of buffers and unframed data, announced at once
    or later), taking back, reclaiming and peeking, in which the engine reads
    the descriptors on its own, under these conditions: every buffer posted has
    between 1 and 2^15 - 1 bytes (dma64_txfast skips an empty one: see
    tx_empty_packet, tx_empty_head) and, if the bus has an offset, is below 1G; a
    chain visits a packet once; packets are taken back and reclaimed with
    HNDDMA_RANGE_TRANSMITTED alone (tx_stale_range mixes it with another range);
    reclaiming is for a ring without DMA_CTRL_UNFRAMED.  Then what the engine
    reads is, in order, the buffers of the packets accepted, each with its
    address, length, frame bounds and parity; the packets accepted are those
    given back, in order, and then those in the ring; a packet given back was
    read to its end, and only what is mapped is unmapped.  A packet is accepted
    exactly if its buffers fit the free descriptors.  When everything was read,
    reclaiming twice empties the ring; once may not do, as the position cached
    before may be inside a packet. *)
Theorem tx_dma_ring `{DmaBus} c m n base ops :
  cfg_ok c -> (exists b, 0 < b /\ n = 2 ^ b) -> 4 <= m <= 16 /\ 16 * n <= 2 ^ m -> 0 <= base < 2 ^ 32 ->
  forallb (tx_legal c) ops = true ->
  exists s, tx_run c ops (tx_start n (2 ^ m - 1) base) = Some s /\
    x_log s `prefix_of` wire (x_acc s) /\
    map fst (x_acc s) = x_ret s ++ tx_queued (x_t s) /\
    (length (wire (take (length (x_ret s)) (x_acc s))) <= length (x_log s))%nat /\
    0 <= txavail (x_t s) <= n - 1 - _dma_txactive (x_t s) /\
    (forall pk p commit chain, tx_chain (S (size pk)) pk p = Some chain -> chain_ok c chain = true -> p <> 0 ->
       exists r t, dma64_txfast c pk (x_t s) p commit = Some (r, t) /\ (r = 0 <-> Z.of_nat (length chain) <= n - 1 - _dma_txactive (x_t s))) /\
    (x_log s = wire (x_acc s) -> ctrl_flag c DMA_CTRL_UNFRAMED = false ->
       exists f1 f2 t1 t2, dma64_txreclaim c (x_t s) HNDDMA_RANGE_TRANSMITTED (hw_status (x_t s) (x_hw s)) 0 = Some (f1, t1) /\
         dma64_txreclaim c t1 HNDDMA_RANGE_TRANSMITTED (hw_status (x_t s) (x_hw s)) 0 = Some (f2, t2) /\
         f1 ++ f2 = tx_queued (x_t s) /\ txin t2 = txout t2).
Proof.
  intros Hcfg Hn Hm Hb Hl.
  destruct (tx_run_ok c m n base Hcfg ops _ [] 0 0 0 (tx_start_ok c m n base Hn Hm Hb) Hl) as (s & all & a & x & h & E & Hi).
  exists s. split; [done|]. destruct Hi as (cc & leaked & Hi & En & Eb & Ehw & Elog & Hpk & Eret).
  pose proof Hi as [Hst Hsl Hin Hout Hx Hptr [? ?] Hmaps Heot Havl]. pose proof (sl_room _ _ _ _ _ Hsl) as [Hr1 Hr2]. pose proof (n_pos n m Hn Hm).
  assert (tx_queued (x_t s) = owners (drop a all)) as Eq.
  { unfold tx_queued. rewrite Hin, Hout. apply (queued_ok c m (x_t s) all a cc x h leaked); [done|lia|lia]. }
  assert (_dma_txactive (x_t s) = Z.of_nat (length all - a)) as Eact.
  { unfold _dma_txactive, NTXDACTIVE, TXD. rewrite Hin, Hout, En. rewrite En in Hr2. apply (ix_sub n m Hn Hm); lia. }
  assert (owners all = owners (take a all) ++ owners (drop a all)) as Eow by (by rewrite <- owners_app, take_drop).
  rewrite Eq, Eact. split; [|split; [|split; [|split; [by rewrite <- En|split]]]].
  - rewrite Elog, <- (wire_packets c _ _ Hpk). exists (map (fun e => dd_decode c (fst e)) (drop h all)). by rewrite <- map_app, take_drop.
  - by rewrite <- (owners_packets c _ _ Hpk), Eret, Eow.
  - rewrite Elog, length_map, length_take. pose proof (returned_read c _ _ a Hpk) as Hw. rewrite <- Eret in Hw. lia.
  - intros pk p commit chain Hch Hok Hp.
    destruct (txfast_ok c m Hcfg (x_t s) all a x h cc leaked pk p chain commit Hi Hch Hok Hp) as (r & t' & Er & _ & Hr). exists r, t'. split; [done|].
    rewrite En in Hr. destruct (Z.leb_spec (Z.of_nat (length all - a) + Z.of_nat (length chain)) (n - 1)); destruct Hr as [-> _]; split; intros; lia.
  - intros Elw Hu. assert (h = length all) as ->.
    { rewrite <- (wire_packets c _ _ Hpk), Elog in Elw. apply (f_equal length) in Elw. rewrite !length_map, length_take in Elw. lia. }
    pose proof (status_ok c m _ _ _ _ _ _ _ Hi) as Hs0. rewrite Ehw, <- En.
    destruct (reclaim_ok c m (x_t s) all a x (length all) cc leaked _ 0 Hi Hs0 Hu) as (f1 & t1 & a1 & E1 & Hi1 & Eow1 & En1 & Eb1 & Eo1 & _).
    destruct (reclaim_ok c m t1 all a1 a1 (length all) cc leaked (hw_status (x_t s) (ix (ntxd (x_t s)) (length all))) 0 Hi1)
      as (f2 & t2 & a2 & E2 & Hi2 & Eow2 & En2 & Eb2 & Eo2 & Ha2); [by rewrite En1, Eb1|done|].
    rewrite (Ha2 (or_introl eq_refl)) in Eow2, Hi2. exists f1, f2, t1, t2. split; [done|]. split; [done|]. split.
    + rewrite firstn_all, Eow, Eow1, <- app_assoc in Eow2. by apply app_inv_head in Eow2.
    + by rewrite (ti_in _ _ _ _ _ _ _ _ _ Hi2), (ti_out _ _ _ _ _ _ _ _ _ Hi2).
Qed.

(** A ring of four descriptors on a PCIe bus with parity: a chain of two
    buffers, unframed data, a packet that does not fit, and the engine inside
    the first packet when the host looks. *)
#[export] Instance demo_bus : DmaBus.
Proof. refine {| bus_addr := fun va => va mod 2 ^ 32 |}. intros va. apply Z.mod_pos_bound. lia. Defined.
Definition demo_cfg : dma_cfg := {| dmactrlflags := DMA_CTRL_PEN; dataoffsetlow := 0; dataoffsethigh := 0x80000000; burstsize_ctrl := true |}.
Definition demo_pkts : pkts :=
  <[1 := {| pk_data := 0xc0001000; pk_len := 64; pk_next := 2 |}]> (<[2 := {| pk_data := 0x2000; pk_len := 1500; pk_next := 0 |}]> ∅).
Definition demo_tx : list tx_op :=
  [XFast demo_pkts 1 true; XUnframed 0x3000 32 false; XFast demo_pkts 1 true; XEngine; XPending; XEngine; XGet; XEngine; XReclaim; XPeek;
   XFast demo_pkts 2 true; XEngine; XEngine; XEngine; XUnblock].
Lemma tx_dma_ring_witness :
  forallb (tx_legal demo_cfg) demo_tx = true /\
  exists s, tx_run demo_cfg demo_tx (tx_start 4 (2 ^ 13 - 1) 0x12340) = Some s /\ x_log s `prefix_of` wire (x_acc s) /\
    map fst (x_acc s) = x_ret s ++ tx_queued (x_t s) /\ map fst (x_acc s) = [1; 0x3000; 2] /\ x_ret s = [1].
Proof.
  assert (forallb (tx_legal demo_cfg) demo_tx = true) as Hl by (vm_compute; reflexivity). split; [exact Hl|].
  destruct (tx_dma_ring demo_cfg 13 4 0x12340 demo_tx) as (s & E & Hp & Hq & _);
    [unfold cfg_ok; cbn; lia|exists 2; split; [lia|reflexivity]|lia|lia|exact Hl|].
  exists s. split; [exact E|]. split; [exact Hp|]. split; [exact Hq|].
  assert (option_map (fun s => (map fst (x_acc s), x_ret s)) (tx_run demo_cfg demo_tx (tx_start 4 (2 ^ 13 - 1) 0x12340)) = Some ([1; 0x3000; 2], [1])) as Er
    by (vm_compute; reflexivity).
  rewrite E in Er. cbn [option_map] in Er. injection Er as -> ->. split; reflexivity.
Defined.

(** ** Outside of these histories *)
Definition demo_t : option dma_tx :=
  option_map (fun r => snd r) (dma64_txfast demo_cfg demo_pkts (tx_attach 8 (2 ^ 13 - 1) 0) 1 true).

(** A packet without data is accepted, but has no descriptor: it takes the place
    of the last packet in the ring, whose descriptor loses its flags. *)
Lemma tx_empty_packet :
  let pk := <[5 := {| pk_data := 0x5000; pk_len := 0; pk_next := 0 |}]> demo_pkts in
  match demo_t with
  | Some t =>
      match dma64_txfast demo_cfg pk t 5 true with
      | Some (r, t') => r = 0 /\ tx_queued t = [1] /\ tx_queued t' = [5] /\ map ctrl1 (take 2 (txd64 t')) = [D64_CTRL1_SOF + D64_CTRL1_NOTPCIE; D64_CTRL1_IOC + D64_CTRL1_EOF]
      | None => False
      end
  | None => False
  end.
Proof. vm_compute. by repeat split. Qed.

(** Without data in its first buffer a frame has no start. *)
Lemma tx_empty_head :
  let pk := <[5 := {| pk_data := 0x5000; pk_len := 0; pk_next := 2 |}]> demo_pkts in
  match dma64_txfast demo_cfg pk (tx_attach 8 (2 ^ 13 - 1) 0) 5 true with
  | Some (r, t) => r = 0 /\ txout t = 1 /\ map (fun d => (h_sof (dd_decode demo_cfg d), h_eof (dd_decode demo_cfg d))) (take 1 (txd64 t)) = [(false, true)]
  | None => False
  end.
Proof. vm_compute. by repeat split. Qed.

(** A packet that does not fit: its first buffer stays mapped. *)
Lemma tx_full_leaks :
  match dma64_txfast demo_cfg demo_pkts (tx_attach 2 (2 ^ 13 - 1) 0) 1 true with
  | Some (r, t) => r = -1 /\ tx_queued t = [] /\ tx_maps t = [(0xc0001000, 64)]
  | None => False
  end.
Proof. vm_compute. by repeat split. Qed.

(** After HNDDMA_RANGE_TRANSFERED the position cached is behind txin, and
    HNDDMA_RANGE_TRANSMITTED gives back a packet the engine has not read: the
    engine is at 0 (its active descriptor is 3) and then at 2.  Reclaiming goes
    on through the whole ring and unmaps what is not mapped. *)
Lemma tx_stale_range :
  let t0 := tx_attach 8 (2 ^ 13 - 1) 0 in
  let post t p := match t with Some t => option_map (fun r => snd r) (dma64_txfast demo_cfg demo_pkts t p true) | None => None end in
  match post (post (post (post (Some t0) 2) 2) 2) 2 with
  | Some t =>
      match dma64_getnexttxp demo_cfg t HNDDMA_RANGE_TRANSFERED (hw_status t 0) (hw_status t 3) with
      | Some (p1, t1) =>
          match dma64_getnexttxp demo_cfg t1 HNDDMA_RANGE_TRANSFERED (hw_status t 0) (hw_status t 3) with
          | Some (p2, t2) =>
              p1 = 2 /\ p2 = 2 /\ txin t2 = 2 /\ xs0cd t2 = 0 /\
              dma64_txreclaim demo_cfg t2 HNDDMA_RANGE_TRANSMITTED (hw_status t 2) 0 = None /\
              option_map (fun r => (fst r, txin (snd r))) (dma64_getnexttxp demo_cfg t2 HNDDMA_RANGE_TRANSMITTED (hw_status t 2) 0) = Some (2, 3)
          | None => False
          end
      | None => False
      end
  | None => False
  end.
Proof. vm_compute. by repeat split. Qed.

(** _dma_txcommitted forgets where the ring is. *)
Lemma tx_committed_base :
  match dma64_txfast demo_cfg demo_pkts (tx_attach 8 (2 ^ 13 - 1) 0x12340) 1 true with
  | Some (_, t) => _dma_txactive t = 2 /\ _dma_txcommitted t = 6
  | None => False
  end.
Proof. vm_compute. by repeat split. Qed.
