(* ===== verification/HndDmaRx.v ===== *)
(** * DMA reception (shared/hnddma.c, 64-bit engine)

    The receive half of dma_info_t, as [HndDma] has the transmit half:
    sep_rxhdr and split_fifo are 0 (no split reception). *)
From Stdlib Require Import ZArith Lia.
From stdpp Require Import base gmap option numbers list.
From S2P Require Import Prelude HndDma HndDmaRing.

(** As built for STB. *)
Definition BCMEXTRAHDROOM : Z := 224.
Definition DMA_CTRL_RXMULTI : Z := 4.
Definition DMA_CTRL_USB_BOUNDRY4KB_WAR : Z := 16.
Definition DMA_CTRL_RXSINGLE : Z := 64.
Definition DMA_CTRL_SDIO_RXGLOM : Z := 128.

(** ** State

    [r_pk]: the packets; [r_mem]: the 16-bit words the engine writes, by bus
    address; [r_gets]: what PKTGET returns next, a packet and its data, 0 when
    there is none; [r_freed]: the packets freed. *)
Record dma_rx := {
  nrxd : Z; rxin : Z; rxout : Z; rxp : list Z; rxd64 : list dma64dd; rxavail : Z; rs0cd : Z;
  nrxpost : Z; rxbufsize : Z; rxextrahdrroom : Z; rxoffset : Z; rxnobuf : Z; rxgiants : Z;
  rx_ptr : Z; rcvptrbase : Z; d64_rs0_cd_mask : Z; rx_maps : list (Z * Z);
  r_pk : gmap Z pktbuf; r_mem : gmap Z Z; r_gets : list (Z * Z); r_freed : list Z
}.
Definition RXD (r : dma_rx) (x : Z) : Z := XXD x (nrxd r).
Definition NEXTRXD (r : dma_rx) (i : Z) : Z := RXD r (i + 1).
Definition NRXDACTIVE (r : dma_rx) (h t : Z) : Z := RXD r (t - h).
Definition rx_ring (r : dma_rx) (inx out : Z) (ps : list Z) (ring : list dma64dd) (av cd ptr : Z) (maps : list (Z * Z)) : dma_rx :=
  {| nrxd := nrxd r; rxin := inx; rxout := out; rxp := ps; rxd64 := ring; rxavail := av; rs0cd := cd; nrxpost := nrxpost r;
     rxbufsize := rxbufsize r; rxextrahdrroom := rxextrahdrroom r; rxoffset := rxoffset r; rxnobuf := rxnobuf r; rxgiants := rxgiants r;
     rx_ptr := ptr; rcvptrbase := rcvptrbase r; d64_rs0_cd_mask := d64_rs0_cd_mask r; rx_maps := maps;
     r_pk := r_pk r; r_mem := r_mem r; r_gets := r_gets r; r_freed := r_freed r |}.
Definition rx_env (r : dma_rx) (nobuf giants : Z) (pk : gmap Z pktbuf) (mem : gmap Z Z) (gets : list (Z * Z)) (freed : list Z) : dma_rx :=
  {| nrxd := nrxd r; rxin := rxin r; rxout := rxout r; rxp := rxp r; rxd64 := rxd64 r; rxavail := rxavail r; rs0cd := rs0cd r;
     nrxpost := nrxpost r; rxbufsize := rxbufsize r; rxextrahdrroom := rxextrahdrroom r; rxoffset := rxoffset r; rxnobuf := nobuf;
     rxgiants := giants; rx_ptr := rx_ptr r; rcvptrbase := rcvptrbase r; d64_rs0_cd_mask := d64_rs0_cd_mask r; rx_maps := rx_maps r;
     r_pk := pk; r_mem := mem; r_gets := gets; r_freed := freed |}.

Definition set_pkt (r : dma_rx) (p : Z) (b : pktbuf) : dma_rx :=
  rx_env r (rxnobuf r) (rxgiants r) (<[p := b]> (r_pk r)) (r_mem r) (r_gets r) (r_freed r).
Definition PKTSETLEN (r : dma_rx) (p len : Z) : option dma_rx :=
  b ← r_pk r !! p; Some (set_pkt r p {| pk_data := pk_data b; pk_len := len; pk_next := pk_next b |}).
Definition PKTSETNEXT (r : dma_rx) (p nxt : Z) : option dma_rx :=
  b ← r_pk r !! p; Some (set_pkt r p {| pk_data := pk_data b; pk_len := pk_len b; pk_next := nxt |}).
(** PKTFREE frees what is linked to the packet as well. *)
Fixpoint pktfree_loop (fuel : nat) (r : dma_rx) (p : Z) : option dma_rx :=
  match fuel with
  | O => None
  | S fuel =>
      if p =? 0 then Some r else
      b ← r_pk r !! p;
      pktfree_loop fuel (rx_env r (rxnobuf r) (rxgiants r) (delete p (r_pk r)) (r_mem r) (r_gets r) (r_freed r ++ [p])) (pk_next b)
  end.
Definition PKTFREE_chain (r : dma_rx) (p : Z) : option dma_rx := pktfree_loop (S (S (size (r_pk r)))) r p.

Definition _dma_rxinit (r : dma_rx) : dma_rx :=
  if nrxd r =? 0 then r else
  rx_ring r 0 0 (rxp r) (replicate (Z.to_nat (nrxd r)) dd0) (u32 (nrxd r - 1)) 0 (rx_ptr r) (rx_maps r).
Definition _dma_rxactive (r : dma_rx) : Z := NRXDACTIVE r (rxin r) (rxout r).
Definition _dma_activerxbuf (r : dma_rx) (status0 : Z) : Z :=
  NRXDACTIVE r (curr_ix status0 (d64_rs0_cd_mask r) (rcvptrbase r)) (curr_ix (rx_ptr r) (d64_rs0_cd_mask r) (rcvptrbase r)).
Definition dma64_rxidle (r : dma_rx) (status0 : Z) : bool :=
  (nrxd r =? 0) || (Z.land status0 (d64_rs0_cd_mask r) =? Z.land (rx_ptr r) (d64_rs0_cd_mask r)).
Definition _dma_rx_param_get (r : dma_rx) : Z * Z := (u16 (rxoffset r), u16 (rxbufsize r)).
Definition _dma_counterreset (t : dma_tx) (r : dma_rx) : dma_tx * dma_rx :=
  ({| ntxd := ntxd t; txin := txin t; txout := txout t; txp := txp t; txd64 := txd64 t; txavail := txavail t; txnobuf := 0; xs0cd := xs0cd t;
      xs0cd_snapshot := xs0cd_snapshot t; tx_ptr := tx_ptr t; xmtptrbase := xmtptrbase t; d64_xs0_cd_mask := d64_xs0_cd_mask t;
      d64_xs1_ad_mask := d64_xs1_ad_mask t; tx_maps := tx_maps t |},
   rx_env r 0 0 (r_pk r) (r_mem r) (r_gets r) (r_freed r)).

(** ** Taking buffers back *)
Definition dma64_getnextrxp (c : dma_cfg) (r : dma_rx) (forceall : bool) (status0 : Z) : option (Z * dma_rx) :=
  let i := rxin r in
  if i =? rxout r then Some (0, r) else
  let curr := if rxin r =? rs0cd r then curr_ix status0 (d64_rs0_cd_mask r) (rcvptrbase r) else rs0cd r in
  let r := rx_ring r (rxin r) (rxout r) (rxp r) (rxd64 r) (rxavail r) curr (rx_ptr r) (rx_maps r) in
  if negb forceall && (i =? curr) then Some (0, r) else
  p ← aget (rxp r) i;
  ps ← aset (rxp r) i 0;
  d ← aget (rxd64 r) i;
  maps ← dma_unmap (rx_maps r) (u32 (addrlow d - dataoffsetlow c)) (rxbufsize r);
  ring ← aset (rxd64 r) i (dd_dead d);
  let i := NEXTRXD r i in
  Some (p, rx_ring r i (rxout r) ps ring (u32 (nrxd r - NRXDACTIVE r i (rxout r) - 1)) (rs0cd r) (rx_ptr r) maps).
Definition _dma_getnextrxp (c : dma_cfg) (r : dma_rx) (forceall : bool) (status0 : Z) : option (Z * dma_rx) :=
  if nrxd r =? 0 then Some (0, r) else dma64_getnextrxp c r forceall status0.

Fixpoint peekrx_loop (fuel : nat) (n : Z) (ps : list Z) (i stop : Z) : option Z :=
  match fuel with
  | O => None
  | S fuel => if i =? stop then Some 0 else p ← aget ps i; if p =? 0 then peekrx_loop fuel n ps (XXD (i + 1) n) stop else Some p
  end.
Definition _dma_peeknextrxp (r : dma_rx) (status0 : Z) : option (Z * dma_rx) :=
  if nrxd r =? 0 then Some (0, r) else
  let stop := curr_ix status0 (d64_rs0_cd_mask r) (rcvptrbase r) in
  p ← peekrx_loop (S (Z.to_nat (nrxd r))) (nrxd r) (rxp r) (rxin r) stop;
  Some (p, rx_ring r (rxin r) (rxout r) (rxp r) (rxd64 r) (rxavail r) stop (rx_ptr r) (rx_maps r)).

Fixpoint rxreclaim_loop (fuel : nat) (c : dma_cfg) (r : dma_rx) (status0 : Z) : option dma_rx :=
  match fuel with
  | O => None
  | S fuel => '(p, r) ← _dma_getnextrxp c r true status0; if p =? 0 then Some r else r ← PKTFREE_chain r p; rxreclaim_loop fuel c r status0
  end.
Definition _dma_rxreclaim (c : dma_cfg) (r : dma_rx) (status0 : Z) : option dma_rx := rxreclaim_loop (S (Z.to_nat (nrxd r))) c r status0.

Section bus.
Context `{DmaBus}.
Variable c : dma_cfg.

(** ** Posting buffers *)
Definition extra_offset (r : dma_rx) : Z := if BCMEXTRAHDROOM <? rxbufsize r then rxextrahdrroom r else 0.
Definition alignment_req : Z := if ctrl_flag c DMA_CTRL_USB_BOUNDRY4KB_WAR then 16 else 1.
Definition extra_pad (data : Z) : Z :=
  if ctrl_flag c DMA_CTRL_USB_BOUNDRY4KB_WAR then Z.land (u32 (alignment_req - u32 data)) (alignment_req - 1) else 0.
(** Where the engine writes in a packet whose data are at [data]. *)
Definition rx_data (r : dma_rx) (data : Z) : Z := data + extra_offset r + extra_pad data.

Fixpoint rxfill_loop (n : nat) (first : bool) (r : dma_rx) (status0 out : Z) : option (bool * dma_rx * Z) :=
  match n with
  | O => Some (false, r, out)
  | S n =>
      let '(p, data) := hd (0, 0) (r_gets r) in
      let gets := tail (r_gets r) in
      if p =? 0 then
        Some (first && dma64_rxidle r status0, rx_env r (u32 (rxnobuf r + 1)) (rxgiants r) (r_pk r) (r_mem r) gets (r_freed r), out) else
      let len := rxbufsize r + extra_offset r + alignment_req - 1 in
      let b := {| pk_data := rx_data r data; pk_len := len - extra_offset r - extra_pad data; pk_next := 0 |} in
      let pa := bus_addr (rx_data r data) in
      ps ← aset (rxp r) out p;
      ring ← dma64_dd_upd c (rxd64 r) pa out (eot_flag out (nrxd r)) (rxbufsize r);
      let r := rx_env r (rxnobuf r) (rxgiants r) (<[p := b]> (r_pk r)) (<[pa := 0]> (r_mem r)) gets (r_freed r) in
      rxfill_loop n false (rx_ring r (rxin r) (rxout r) ps ring (rxavail r) (rs0cd r) (rx_ptr r) (rx_maps r ++ [(pa, rxbufsize r)])) status0 (NEXTRXD r out)
  end.
Definition _dma_rxfill (r : dma_rx) (status0 : Z) : option (bool * dma_rx) :=
  let n := u32 (nrxpost r - NRXDACTIVE r (rxin r) (rxout r)) in
  '(ring_empty, r, out) ← rxfill_loop (Z.to_nat n) true r status0 (rxout r);
  Some (ring_empty, rx_ring r (rxin r) out (rxp r) (rxd64 r) (rxavail r) (rs0cd r) (u32 (rcvptrbase r + I2B out)) (rx_maps r)).

Definition dma_rxfill_unframed (r : dma_rx) (buf len : Z) (commit : bool) : option (Z * dma_rx) :=
  let out := rxout r in
  if NEXTRXD r out =? rxin r then
    Some (-1, rx_env (rx_ring r (rxin r) (rxout r) (rxp r) (rxd64 r) 0 (rs0cd r) (rx_ptr r) (rx_maps r))
                (u32 (rxnobuf r + 1)) (rxgiants r) (r_pk r) (r_mem r) (r_gets r) (r_freed r)) else
  let pa := bus_addr buf in
  ring ← dma64_dd_upd c (rxd64 r) pa out (eot_flag out (nrxd r)) len;
  ps ← aset (rxp r) out buf;
  let out := NEXTRXD r out in
  Some (0, rx_ring r (rxin r) out ps ring (u32 (nrxd r - NRXDACTIVE r (rxin r) out - 1)) (rs0cd r)
             (if commit then u32 (rcvptrbase r + I2B out) else rx_ptr r) (rx_maps r ++ [(pa, rxbufsize r)])).

(** ** Receiving *)
Definition rd16 (r : dma_rx) (pa : Z) : option Z := r_mem r !! pa.

(** The buffers of a frame behind its first one. *)
Fixpoint rx_rest (fuel : nat) (r : dma_rx) (status0 tl resid : Z) : option dma_rx :=
  match fuel with
  | O => None
  | S fuel =>
      if resid <=? 0 then Some r else
      '(p, r) ← _dma_getnextrxp c r false status0;
      if p =? 0 then Some r else
      r ← PKTSETNEXT r tl p;
      r ← PKTSETLEN r p (Z.min resid (rxbufsize r));
      rx_rest fuel r status0 p (s32 (resid - rxbufsize r))
  end.
Definition giant (r : dma_rx) (head : Z) : option dma_rx :=
  r ← PKTFREE_chain r head; Some (rx_env r (rxnobuf r) (u32 (rxgiants r + 1)) (r_pk r) (r_mem r) (r_gets r) (r_freed r)).
Fixpoint rx_loop (fuel : nat) (r : dma_rx) (status0 : Z) : option (Z * dma_rx) :=
  match fuel with
  | O => None
  | S fuel =>
      '(head, r) ← _dma_getnextrxp c r false status0;
      if head =? 0 then Some (0, r) else
      b ← r_pk r !! head;
      '(len, r) ←
        (if ctrl_flag c DMA_CTRL_SDIO_RXGLOM then
           w ← rd16 r (bus_addr (pk_data b) + 2 * (rxoffset r / 2 + 2));
           Some (w + 4, rx_env r (rxnobuf r) (rxgiants r) (r_pk r) (<[bus_addr (pk_data b) := u16 (w + 4)]> (r_mem r)) (r_gets r) (r_freed r))
         else w ← rd16 r (bus_addr (pk_data b)); Some (w, r));
      r ← PKTSETLEN r head (Z.min (u32 (rxoffset r + len)) (rxbufsize r));
      let resid := s32 (u32 (len - u32 (rxbufsize r - rxoffset r))) in
      if resid <=? 0 then Some (head, r) else
      if ctrl_flag c DMA_CTRL_RXSINGLE then r ← giant r head; rx_loop fuel r status0 else
      r ← rx_rest (S (Z.to_nat (nrxd r))) r status0 head resid;
      if negb (ctrl_flag c DMA_CTRL_RXMULTI) then r ← giant r head; rx_loop fuel r status0 else Some (head, r)
  end.
Definition _dma_rx (r : dma_rx) (status0 : Z) : option (Z * dma_rx) := rx_loop (S (S (Z.to_nat (nrxd r)))) r status0.
End bus.
