(* ===== verification/HndDmaRxInv.v ===== *)
(** * DMA reception: every operation on the ring *)
From Stdlib Require Import ZArith Lia.
From stdpp Require Import base gmap option numbers list.
From S2P Require Import Prelude HndDma HndDmaRing HndDmaTx HndDmaRx.

(** ** The invariant

    [a] buffers taken back, [x] seen filled by the host, [h] filled. *)
Section rx.
Context `{DmaBus} (c : dma_cfg) (m : Z).

Definition rx_static (r : dma_rx) : Prop :=
  (exists b, 0 < b /\ nrxd r = 2 ^ b) /\ (4 <= m <= 16 /\ 16 * nrxd r <= 2 ^ m) /\ d64_rs0_cd_mask r = 2 ^ m - 1 /\
  0 < rxbufsize r < 2 ^ 15 /\ 0 <= rxoffset r < 256 /\ 0 <= nrxpost r <= nrxd r - 1.
Definition slot_pa (e : dma64dd * Z) : Z := h_pa (dd_decode c (fst e)).
Definition buf_at (r : dma_rx) (e : dma64dd * Z) : Prop :=
  snd e <> 0 /\ h_len (dd_decode c (fst e)) = rxbufsize r /\ dd_map c (fst e) = (slot_pa e, rxbufsize r) /\
  exists b, r_pk r !! snd e = Some b /\ pk_next b = 0 /\ bus_addr (pk_data b) = slot_pa e.
Record rx_inv (r : dma_rx) (all : list (dma64dd * Z)) (a x h : nat) : Prop := {
  ri_static : rx_static r;
  ri_slots : slots (nrxd r) (rxd64 r) (rxp r) all a;
  ri_in : rxin r = ix (nrxd r) a;
  ri_out : rxout r = ix (nrxd r) (length all);
  ri_cd : rs0cd r = ix (nrxd r) x;
  ri_ptr : curr_ix (rx_ptr r) (d64_rs0_cd_mask r) (rcvptrbase r) = ix (nrxd r) (length all);
  ri_ord : (a <= x <= h)%nat /\ (h <= length all)%nat;
  ri_maps : rx_maps r ≡ₚ map (fun e => (slot_pa e, rxbufsize r)) (drop a all);
  ri_eot : forall k d o, all !! k = Some (d, o) -> dd_eot d = (ix (nrxd r) k =? nrxd r - 1);
  ri_bufs : Forall (buf_at r) (drop a all);
  ri_nodup : NoDup (map snd (drop a all)) /\ NoDup (map slot_pa (drop a all))
}.

(** What taking buffers back leaves alone. *)
Definition same_env (r r' : dma_rx) : Prop :=
  nrxd r' = nrxd r /\ rcvptrbase r' = rcvptrbase r /\ rxbufsize r' = rxbufsize r /\ rxoffset r' = rxoffset r /\ nrxpost r' = nrxpost r /\
  rxextrahdrroom r' = rxextrahdrroom r /\ rx_ptr r' = rx_ptr r /\ d64_rs0_cd_mask r' = d64_rs0_cd_mask r /\ r_mem r' = r_mem r.
#[export] Instance same_env_preorder : PreOrder same_env.
Proof. split; [by intros r|]. intros r1 r2 r3 (?&?&?&?&?&?&?&?&?) (?&?&?&?&?&?&?&?&?). unfold same_env. split_and!; congruence. Qed.

(** ** Taking one back *)
Lemma pop_slots r all a d p :
  slots (nrxd r) (rxd64 r) (rxp r) all a -> rx_static r -> all !! a = Some (d, p) -> dd_map c d = (slot_pa (d, p), rxbufsize r) ->
  rx_maps r ≡ₚ map (fun e => (slot_pa e, rxbufsize r)) (drop a all) -> NEXTRXD r (ix (nrxd r) a) = ix (nrxd r) (S a) /\
  aget (rxp r) (ix (nrxd r) a) = Some p /\ aget (rxd64 r) (ix (nrxd r) a) = Some d /\
  aset (rxp r) (ix (nrxd r) a) 0 = Some (<[Z.to_nat (ix (nrxd r) a) := 0]> (rxp r)) /\
  aset (rxd64 r) (ix (nrxd r) a) (dd_dead d) = Some (<[Z.to_nat (ix (nrxd r) a) := dd_dead d]> (rxd64 r)) /\
  slots (nrxd r) (<[Z.to_nat (ix (nrxd r) a) := dd_dead d]> (rxd64 r)) (<[Z.to_nat (ix (nrxd r) a) := 0]> (rxp r)) all (S a) /\
  exists maps, dma_unmap (rx_maps r) (u32 (addrlow d - dataoffsetlow c)) (rxbufsize r) = Some maps /\
    maps ≡ₚ map (fun e => (slot_pa e, rxbufsize r)) (drop (S a) all).
Proof.
  intros Hs (Hn & Hm & _) E Hmap Hmaps. destruct (slots_pop _ m Hn Hm _ _ _ _ _ _ Hs E) as (E1 & E2 & E3 & E4 & Hs').
  split; [apply (ix_next _ m Hn)|]. split; [done|]. split; [done|]. split; [done|]. split; [done|]. split; [done|].
  rewrite (drop_S _ _ _ E) in Hmaps. cbn [map] in Hmaps. unfold dd_map in Hmap. injection Hmap as -> _. by apply unmap_ok.
Qed.

Lemma getnextrxp_ok r all a x h s0 : rx_inv r all a x h -> status_at m (rcvptrbase r) (ix (nrxd r) h) s0 ->
  let x' := if decide (a = x) then h else x in
  exists p r', _dma_getnextrxp c r false s0 = Some (p, r') /\ same_env r r' /\ r_pk r' = r_pk r /\ r_freed r' = r_freed r /\ r_gets r' = r_gets r /\
    rxgiants r' = rxgiants r /\
    if decide (a = x') then p = 0 /\ rx_inv r' all a x' h
    else exists d, all !! a = Some (d, p) /\ p <> 0 /\ rx_inv r' all (S a) x' h.
Proof.
  intros [Hst Hsl Hin Hout Hcd Hptr [Ho1 Ho2] Hmaps Heot Hbufs Hnd] Hs0 x'. pose proof Hst as (Hn & Hm & Hmask & _). pose proof (n_pos _ m Hn Hm).
  pose proof (sl_room _ _ _ _ _ Hsl) as [Hr1 Hr2]. unfold _dma_getnextrxp, dma64_getnextrxp. rewrite (proj2 (Z.eqb_neq (nrxd r) 0)) by lia.
  rewrite Hin, Hout. destruct (Z.eqb_spec (ix (nrxd r) a) (ix (nrxd r) (length all))) as [E|E].
  { apply (ix_eq _ m Hn Hm) in E; [|lia|lia]. assert (x' = a) as -> by (unfold x'; destruct (decide (a = x)); lia).
    eexists 0, r. split; [done|]. split; [done|]. split; [done|]. split; [done|]. split; [done|]. split; [done|].
    rewrite decide_True by done. split; [done|]. assert (h = a) as -> by lia. assert (x = a) as -> by lia. by constructor. }
  rewrite Hcd, Hmask, (curr_ix_ok _ m Hn Hm _ _ (ix (nrxd r) h)) by (done || apply (ix_lt _ m Hn Hm)).
  assert ((if ix (nrxd r) a =? ix (nrxd r) x then ix (nrxd r) h else ix (nrxd r) x) = ix (nrxd r) x') as ->.
  { unfold x'. destruct (decide (a = x)) as [->|]; [by rewrite Z.eqb_refl|].
    destruct (Z.eqb_spec (ix (nrxd r) a) (ix (nrxd r) x)) as [E2|]; [|done]. apply (ix_eq _ m Hn Hm) in E2; lia. }
  assert (a <= x' <= h)%nat as Hx' by (unfold x'; destruct (decide (a = x)); lia). cbn [negb andb].
  destruct (Z.eqb_spec (ix (nrxd r) a) (ix (nrxd r) x')) as [E2|E2].
  { apply (ix_eq _ m Hn Hm) in E2; [|lia|lia]. eexists 0, _. split; [done|]. split; [done|]. split; [done|]. split; [done|]. split; [done|]. split; [done|].
    rewrite decide_True by done. split; [done|]. by constructor. }
  assert (a <> x') by congruence. destruct (all !! a) as [[d p]|] eqn:Ea; [|apply lookup_ge_None in Ea; lia].
  rewrite (drop_S _ _ _ Ea) in Hbufs, Hnd. apply Forall_cons in Hbufs as [Hb Hbufs]. pose proof Hb as (Hp & _ & Hmp & _).
  destruct (pop_slots r all a d p Hsl Hst Ea Hmp Hmaps) as (En & E3 & E4 & E5 & E6 & Hs' & maps & Eu & Hmaps').
  cbn [rx_ring rxp rxd64 rx_maps rxbufsize]. rewrite E3. cbn [mbind option_bind]. rewrite E5. cbn [mbind option_bind]. rewrite E4. cbn [mbind option_bind].
  rewrite Eu. cbn [mbind option_bind]. rewrite E6. cbn [mbind option_bind]. unfold NEXTRXD in *. unfold RXD in *. cbn [rx_ring nrxd] in *. rewrite En.
  eexists p, _. split; [done|]. split; [done|]. split; [done|]. split; [done|]. split; [done|]. split; [done|].
  rewrite decide_False by done. exists d. split; [done|]. split; [done|]. cbn [map] in Hnd. destruct Hnd as [Hn1%NoDup_cons Hn2%NoDup_cons].
  constructor; cbn; try done; [lia|by destruct Hn1, Hn2].
Qed.

(** ** Changing packets that are not in the ring *)
Lemma rx_inv_env r all a x h nobuf giants pk mem gets freed :
  rx_inv r all a x h -> Forall (fun e => pk !! snd e = r_pk r !! snd e) (drop a all) -> rx_inv (rx_env r nobuf giants pk mem gets freed) all a x h.
Proof.
  intros [Hst Hsl Hin Hout Hcd Hptr [Ho1 Ho2] Hmaps Heot Hbufs Hnd] Hpk. constructor; cbn; try done.
  apply Forall_forall. intros e He. rewrite Forall_forall in Hbufs, Hpk. destruct (Hbufs e He) as (H1 & H2 & H3 & b & H4 & H5).
  split; [done|]. split; [done|]. split; [done|]. exists b. cbn. rewrite (Hpk e He). done.
Qed.
Lemma rx_inv_pkt r all a x h p b : rx_inv r all a x h -> p ∉ map snd (drop a all) -> rx_inv (set_pkt r p b) all a x h.
Proof.
  intros Hi Hp. apply rx_inv_env; [done|]. apply Forall_forall. intros e He. rewrite lookup_insert_ne; [done|]. intros ->. apply Hp.
  apply list_elem_of_In, in_map, list_elem_of_In, He.
Qed.

(** ** Chains of buffers *)
Fixpoint chain_is (pk : gmap Z pktbuf) (l : list (Z * (Z * Z))) : Prop :=
  match l with
  | [] => True
  | (p, (pa, len)) :: l => (exists b, pk !! p = Some b /\ bus_addr (pk_data b) = pa /\ pk_len b = len /\ pk_next b = hd 0 (map fst l)) /\ chain_is pk l
  end.
Lemma chain_is_ext pk pk' l : (forall p, p ∈ map fst l -> pk' !! p = pk !! p) -> chain_is pk l -> chain_is pk' l.
Proof.
  induction l as [|[p [pa len]] l IH]; intros Hx; [done|]. intros [(b & Hb) Hl]. split.
  - exists b. rewrite Hx; [done|by left].
  - apply IH; [|done]. intros q Hq. apply Hx. by right.
Qed.
(** How a frame of [rem] bytes is cut. *)
Fixpoint chunks (fuel : nat) (size rem : Z) : list Z :=
  match fuel with O => [] | S fuel => if rem <=? size then [rem] else size :: chunks fuel size (rem - size) end.
(** The packets of the next buffers of the ring, filled with [sizes]. *)
Fixpoint rx_chain (seg : list (dma64dd * Z)) (sizes : list Z) : list (Z * (Z * Z)) :=
  match seg, sizes with
  | e :: seg, s :: sizes => (snd e, (slot_pa e, s)) :: rx_chain seg sizes
  | _, _ => []
  end.
Lemma rx_chain_in seg sizes q : q ∈ map fst (rx_chain seg sizes) -> q ∈ map snd seg.
Proof.
  revert sizes. induction seg as [|e seg IH]; intros [|s sizes]; cbn; try (by intros ?%not_elem_of_nil).
  intros [->|Hq]%elem_of_cons; [by left|right; by apply (IH sizes)].
Qed.

Lemma rx_rest_ok f2 : forall sizes r all a x h s0 tl bt resid fuel (L := rx_chain (drop a all) sizes),
  rx_inv r all a x h -> status_at m (rcvptrbase r) (ix (nrxd r) h) s0 -> sizes = chunks f2 (rxbufsize r) resid ->
  0 < resid < 2 ^ 20 -> resid <= Z.of_nat f2 * rxbufsize r -> (a + length sizes <= x)%nat -> (length sizes < fuel)%nat ->
  r_pk r !! tl = Some bt -> tl ∉ map snd (drop a all) ->
  exists r', rx_rest c fuel r s0 tl resid = Some r' /\ rx_inv r' all (a + length sizes) x h /\ same_env r r' /\
    r_freed r' = r_freed r /\ r_gets r' = r_gets r /\ rxgiants r' = rxgiants r /\
    r_pk r' !! tl = Some {| pk_data := pk_data bt; pk_len := pk_len bt; pk_next := hd 0 (map fst L) |} /\
    chain_is (r_pk r') L /\ (forall q, q <> tl -> q ∉ map fst L -> r_pk r' !! q = r_pk r !! q).
Proof.
  induction f2 as [|f2 IH]; intros sizes r all a x h s0 tl bt resid fuel L Hi Hs0 Esz Hres Hf2 Hax Hfu Htl Hntl; [lia|].
  pose proof (ri_static _ _ _ _ _ Hi) as (Hn & Hm & _ & HS & _). destruct fuel as [|fuel]; [lia|]. cbn [rx_rest].
  rewrite (proj2 (Z.leb_gt resid 0)) by lia. assert (0 < length sizes)%nat as Hl1 by (rewrite Esz; cbn [chunks]; destruct (_ <=? _); cbn; lia).
  destruct (getnextrxp_ok r all a x h s0 Hi Hs0) as (p & r1 & -> & He1 & Epk1 & Efr1 & Eg1 & Egi1 & Hp). rewrite (decide_False (P := a = x)) in Hp by lia.
  rewrite decide_False in Hp by lia. destruct Hp as (d & Ea & Hp0 & Hi1). cbn [mbind option_bind]. rewrite (proj2 (Z.eqb_neq p 0)) by done.
  pose proof Hi as [_ _ _ _ _ _ _ _ _ Hbufs [Hnd _]]. rewrite (drop_S _ _ _ Ea) in Hbufs, Hnd, Hntl. cbn [map snd] in Hnd, Hntl.
  apply Forall_cons in Hbufs as [(_ & _ & _ & b & Eb & Ebn & Ebd) _]. cbn [snd] in Eb. apply NoDup_cons in Hnd as [Hpn _]. apply not_elem_of_cons in Hntl as [Htp Htl'].
  unfold PKTSETNEXT at 1. rewrite Epk1, Htl. cbn [mbind option_bind]. unfold PKTSETLEN at 1. cbn [set_pkt rx_env r_pk].
  rewrite Epk1, lookup_insert_ne, Eb by done. cbn [mbind option_bind]. pose proof He1 as (N1 & N2 & N3 & _). cbn [set_pkt rx_env rxbufsize].
  rewrite N3, Ebn. set (r3 := set_pkt _ p _). rewrite (wraps_small 32) by (change (2 ^ (32 - 1)) with 2147483648; lia).
  assert (rx_inv r3 all (S a) x h) as Hi3 by (apply rx_inv_pkt; [by apply rx_inv_pkt|done]).
  assert (r_pk r3 = <[p := {| pk_data := pk_data b; pk_len := Z.min resid (rxbufsize r); pk_next := 0 |}]>
    (<[tl := {| pk_data := pk_data bt; pk_len := pk_len bt; pk_next := p |}]> (r_pk r))) as Epk3 by (unfold r3; cbn; by rewrite Epk1).
  assert (same_env r r3) as He3 by exact He1. pose proof He3 as (M1 & M2 & M3 & _).
  unfold L. rewrite (drop_S _ _ _ Ea). rewrite Esz in *. cbn [chunks] in *. destruct (Z.leb_spec resid (rxbufsize r)) as [Hle|Hgt].
  - destruct fuel as [|fuel]; [cbn in Hfu; lia|]. cbn [rx_rest]. rewrite (proj2 (Z.leb_le (resid - rxbufsize r) 0)) by lia. exists r3. split; [done|].
    cbn [length]. rewrite Nat.add_1_r. split; [done|]. split; [done|]. split; [done|]. split; [done|]. split; [done|]. cbn [rx_chain map fst hd snd].
    assert (rx_chain (drop (S a) all) [] = []) as -> by (by destruct (drop (S a) all)). cbn [map chain_is hd]. rewrite Epk3.
    split; [by rewrite lookup_insert_ne, lookup_insert_eq|]. split.
    + split; [|done]. eexists. rewrite lookup_insert_eq. split; [done|]. cbn. rewrite Z.min_l by lia. done.
    + intros q Hq1 Hq2. apply not_elem_of_cons in Hq2 as [Hq2 _]. by rewrite !lookup_insert_ne.
  - cbn [length] in *. destruct (IH (chunks f2 (rxbufsize r) (resid - rxbufsize r)) r3 all (S a) x h s0 p
        {| pk_data := pk_data b; pk_len := Z.min resid (rxbufsize r); pk_next := 0 |} (resid - rxbufsize r) fuel Hi3)
      as (r' & E & Hi' & He' & F1 & F2 & F3 & Hpp & Hch & Hoth); first [by rewrite M1, M2|by rewrite M3|lia|rewrite M3; lia|by rewrite Epk3, lookup_insert_eq|done|idtac].
    exists r'. split; [done|]. split; [by replace (a + S (length (chunks f2 (rxbufsize r) (resid - rxbufsize r))))%nat
      with (S a + length (chunks f2 (rxbufsize r) (resid - rxbufsize r)))%nat by lia|].
    split; [by transitivity r3|]. split; [by rewrite F1|]. split; [by rewrite F2|]. split; [by rewrite F3|]. cbn [rx_chain map fst hd snd].
    assert (tl ∉ map fst (rx_chain (drop (S a) all) (chunks f2 (rxbufsize r) (resid - rxbufsize r)))) as Htl2 by (intros Hx; by apply Htl', (rx_chain_in _ _ _ Hx)).
    split; [rewrite Hoth, Epk3 by done; by rewrite lookup_insert_ne, lookup_insert_eq|]. split.
    + cbn [chain_is]. split; [|done]. eexists. split; [exact Hpp|]. cbn. rewrite Z.min_r by lia. done.
    + intros q Hq1 [Hq2 Hq3]%not_elem_of_cons. rewrite Hoth, Epk3 by done. by rewrite !lookup_insert_ne.
Qed.

(** ** Freeing a chain *)
Lemma pktfree_ok l r fuel : chain_is (r_pk r) l -> NoDup (map fst l) -> 0 ∉ map fst l -> (length l < fuel)%nat ->
  exists pk', pktfree_loop fuel r (hd 0 (map fst l)) = Some (rx_env r (rxnobuf r) (rxgiants r) pk' (r_mem r) (r_gets r) (r_freed r ++ map fst l)) /\
    (forall q, pk' !! q = if decide (q ∈ map fst l) then None else r_pk r !! q).
Proof.
  revert r fuel. induction l as [|[p [pa len]] l IH]; intros r fuel Hc Hnd H0 Hf; (destruct fuel as [|fuel]; [cbn in Hf; lia|]); cbn [pktfree_loop map fst hd].
  - exists (r_pk r). cbn [Z.eqb]. rewrite app_nil_r. split; [by destruct r|]. intros q. by rewrite decide_False by apply not_elem_of_nil.
  - cbn [map fst length chain_is] in *. destruct Hc as [(b & Eb & _ & _ & Enx) Hc]. apply NoDup_cons in Hnd as [Hp Hnd]. apply not_elem_of_cons in H0 as [Hp0 H0].
    rewrite (proj2 (Z.eqb_neq p 0)), Eb by done. cbn [mbind option_bind]. rewrite Enx.
    edestruct (IH (rx_env r (rxnobuf r) (rxgiants r) (delete p (r_pk r)) (r_mem r) (r_gets r) (r_freed r ++ [p])) fuel) as (pk' & -> & Hpk); [|done|done|lia|].
    + cbn [rx_env r_pk]. apply (chain_is_ext (r_pk r)); [|done]. intros q Hq. rewrite lookup_delete_ne; [done|]. by intros ->.
    + exists pk'. cbn [rx_env rxnobuf rxgiants r_mem r_gets r_freed]. rewrite <- app_assoc. split; [done|]. intros q. rewrite Hpk. cbn [rx_env r_pk].
      destruct (decide (q = p)) as [->|Hq].
      * rewrite (decide_False (P := p ∈ _)), (decide_True (P := p ∈ _)) by (done || by left). apply lookup_delete_eq.
      * rewrite lookup_delete_ne by done. destruct (decide (q ∈ map fst l)), (decide (q ∈ p :: map fst l)) as [Hin|Hin]; rewrite ?elem_of_cons in Hin; naive_solver.
Qed.
Lemma chain_length pk l : chain_is pk l -> NoDup (map fst l) -> (length l <= size pk)%nat.
Proof.
  intros Hc Hnd. rewrite <- (length_map fst l), <- (size_list_to_set (C := gset Z) (map fst l)) by done. rewrite <- size_dom. apply subseteq_size.
  intros q Hq. rewrite elem_of_list_to_set in Hq. apply elem_of_dom. clear Hnd. induction l as [|[p [pa len]] l IH]; [by apply not_elem_of_nil in Hq|].
  destruct Hc as [(b & Eb & _) Hc]. apply elem_of_cons in Hq as [->|Hq]; [by exists b|by apply IH].
Qed.
Lemma giant_ok l r head : chain_is (r_pk r) l -> NoDup (map fst l) -> 0 ∉ map fst l -> head = hd 0 (map fst l) ->
  exists pk', giant r head = Some (rx_env r (rxnobuf r) (u32 (rxgiants r + 1)) pk' (r_mem r) (r_gets r) (r_freed r ++ map fst l)) /\
    (forall q, q ∉ map fst l -> pk' !! q = r_pk r !! q).
Proof.
  intros Hc Hnd H0 ->. destruct (pktfree_ok l r (S (S (size (r_pk r)))) Hc Hnd H0) as (pk' & E & Hpk); [pose proof (chain_length _ _ Hc Hnd); lia|].
  exists pk'. unfold giant, PKTFREE_chain. rewrite E. split; [done|]. intros q Hq. by rewrite Hpk, decide_False.
Qed.

Lemma rx_chain_ids seg sizes : (length sizes <= length seg)%nat -> map fst (rx_chain seg sizes) = map snd (take (length sizes) seg).
Proof. revert sizes. induction seg as [|e seg IH]; intros [|s sizes] Hl; cbn in *; try done; try lia. by rewrite IH by lia. Qed.
Lemma chunks_app fuel size rem : chunks (S fuel) size rem = if rem <=? size then [rem] else size :: chunks fuel size (rem - size).
Proof. done. Qed.

(** ** One frame *)
Definition single : bool := ctrl_flag c DMA_CTRL_RXSINGLE.
Definition frame_sizes (size total : Z) : list Z := if single then [Z.min total size] else chunks (S (Z.to_nat total)) size total.
Definition deliverable (size total : Z) : bool := (total <=? size) || (negb single && ctrl_flag c DMA_CTRL_RXMULTI).

Lemma resid_ok len size off : 0 <= len < 2 ^ 16 -> 0 < size < 2 ^ 15 -> 0 <= off < 256 -> s32 (u32 (len - u32 (size - off))) = off + len - size.
Proof.
  intros Hl Hs Ho. unfold wraps, wrapu. rewrite Zplus_mod_idemp_l, <- Z.add_sub_swap, Zminus_mod_idemp_r. rewrite Z.mod_small; [lia|].
  change (2 ^ (32 - 1)) with 2147483648. change (2 ^ 32) with 4294967296. change (2 ^ 16) with 65536 in *. change (2 ^ 15) with 32768 in *. lia.
Qed.

Lemma rx_frame_ok fuel r all a x h s0 len e0 (x' := if decide (a = x) then h else x) (total := rxoffset r + len)
    (sizes := frame_sizes (rxbufsize r) total) (l := rx_chain (drop a all) sizes) :
  rx_inv r all a x h -> status_at m (rcvptrbase r) (ix (nrxd r) h) s0 -> ctrl_flag c DMA_CTRL_SDIO_RXGLOM = false ->
  0 <= len < 2 ^ 16 -> (a + length sizes <= x')%nat -> all !! a = Some e0 -> r_mem r !! slot_pa e0 = Some len ->
  exists r1, rx_loop c (S fuel) r s0 = (if deliverable (rxbufsize r) total then Some (hd 0 (map fst l), r1) else rx_loop c fuel r1 s0) /\
    rx_inv r1 all (a + length sizes) x' h /\ same_env r r1 /\ r_gets r1 = r_gets r /\
    (forall q, q ∉ map fst l -> r_pk r1 !! q = r_pk r !! q) /\ hd 0 (map fst l) <> 0 /\
    if deliverable (rxbufsize r) total then r_freed r1 = r_freed r /\ rxgiants r1 = rxgiants r /\ chain_is (r_pk r1) l
    else r_freed r1 = r_freed r ++ map fst l /\ rxgiants r1 = u32 (rxgiants r + 1).
Proof.
  intros Hi Hs0 Hg Hlen Hax Ee Hmem. pose proof (ri_static _ _ _ _ _ Hi) as (Hn & Hm & _ & HS & Hoff & _). pose proof (n_pos _ m Hn Hm).
  pose proof (sl_room _ _ _ _ _ (ri_slots _ _ _ _ _ Hi)) as [Hr1 Hr2]. pose proof (ri_ord _ _ _ _ _ Hi) as [Ho1 Ho2].
  assert (sizes = Z.min total (rxbufsize r) :: if single || (total <=? rxbufsize r) then [] else chunks (Z.to_nat total) (rxbufsize r) (total - rxbufsize r)) as Esz.
  { unfold sizes, frame_sizes. destruct single; [done|]. cbn [orb chunks]. destruct (Z.leb_spec total (rxbufsize r)); [by rewrite Z.min_l|by rewrite Z.min_r by lia]. }
  set (more := if single || (total <=? rxbufsize r) then [] else chunks (Z.to_nat total) (rxbufsize r) (total - rxbufsize r)) in *.
  assert (x' <= h)%nat as Hx'h by (unfold x'; destruct (decide (a = x)); lia).
  cbn [rx_loop]. destruct (getnextrxp_ok r all a x h s0 Hi Hs0) as (p & r1 & -> & He1 & Epk1 & Efr1 & Eg1 & Egi1 & Hp). fold x' in Hp.
  rewrite Esz in Hax. cbn [length] in Hax. rewrite decide_False in Hp by lia. destruct Hp as (d & Ea & Hp0 & Hi1). cbn [mbind option_bind].
  rewrite (proj2 (Z.eqb_neq p 0)) by done. rewrite Ea in Ee. injection Ee as <-.
  pose proof Hi as [_ _ _ _ _ _ _ _ _ Hbufs [Hnd _]]. rewrite (drop_S _ _ _ Ea) in Hbufs, Hnd. cbn [map snd] in Hnd.
  apply Forall_cons in Hbufs as [(_ & _ & _ & b & Eb & Ebn & Ebd) Hbufs]. cbn [snd] in Eb. apply NoDup_cons in Hnd as [Hpn Hnd].
  rewrite Epk1, Eb. cbn [mbind option_bind]. rewrite Hg. unfold rd16. pose proof He1 as (N1 & N2 & N3 & N4 & _ & _ & _ & _ & N5). rewrite N5, Ebd, Hmem. cbn [mbind option_bind].
  unfold PKTSETLEN at 1. rewrite Epk1, Eb. cbn [mbind option_bind]. cbn [set_pkt rx_env rxbufsize rxoffset nrxd]. rewrite N1, N3, N4, Ebn.
  rewrite (wrapu_small 32 (rxoffset r + len)) by (change (2 ^ 32) with 4294967296; change (2 ^ 16) with 65536 in *; lia). fold total. rewrite resid_ok by done. fold total.
  set (r2 := set_pkt r1 p _). assert (rx_inv r2 all (S a) x' h) as Hi2 by (by apply rx_inv_pkt).
  assert (same_env r r2) as He2 by exact He1.
  assert (r_pk r2 = <[p := {| pk_data := pk_data b; pk_len := Z.min total (rxbufsize r); pk_next := 0 |}]> (r_pk r)) as Epk2 by (unfold r2; cbn; by rewrite Epk1).
  assert (r_freed r2 = r_freed r /\ r_gets r2 = r_gets r /\ rxgiants r2 = rxgiants r) as (F1 & F2 & F3) by (by rewrite <- Efr1, <- Eg1, <- Egi1).
  assert (l = (p, (slot_pa (d, p), Z.min total (rxbufsize r))) :: rx_chain (drop (S a) all) more) as El by (unfold l; by rewrite (drop_S _ _ _ Ea), Esz).
  assert (map fst (rx_chain (drop (S a) all) more) = map snd (take (length more) (drop (S a) all))) as Eids by (apply rx_chain_ids; rewrite length_drop; lia).
  assert (NoDup (map fst l)) as Hndl.
  { rewrite El. cbn [map fst]. apply NoDup_cons. split; [intros Hx; by apply Hpn, (rx_chain_in _ _ _ Hx)|].
    rewrite Eids, <- firstn_map. pose proof Hnd as Hnd2. rewrite <- (take_drop (length more) (map snd (drop (S a) all))) in Hnd2. by apply NoDup_app in Hnd2 as [? _]. }
  assert (0 ∉ map fst l) as H0l.
  { rewrite El. cbn [map fst]. intros [|Hx]%elem_of_cons; [congruence|]. apply rx_chain_in in Hx. rewrite Forall_forall in Hbufs.
    apply list_elem_of_In, in_map_iff in Hx as (e & E0 & He%list_elem_of_In). by destruct (Hbufs e He) as (? & _). }
  assert (hd 0 (map fst l) = p) as Ehd by (by rewrite El). rewrite Ehd.
  assert (forall r3 k, rx_inv r3 all k x' h -> (a + length sizes = k)%nat -> same_env r r3 -> r_gets r3 = r_gets r -> r_freed r3 = r_freed r -> rxgiants r3 = rxgiants r ->
    chain_is (r_pk r3) l -> (forall q, q ∉ map fst l -> r_pk r3 !! q = r_pk r !! q) ->
    exists r4, giant r3 p = Some r4 /\ rx_inv r4 all (a + length sizes) x' h /\ same_env r r4 /\ r_gets r4 = r_gets r /\
      (forall q, q ∉ map fst l -> r_pk r4 !! q = r_pk r !! q) /\ r_freed r4 = r_freed r ++ map fst l /\ rxgiants r4 = u32 (rxgiants r + 1)) as Hgiant.
  { intros r3 k Hi3 <- He3 Eg3 Ef3 Egi3 Hc3 Ho3. destruct (giant_ok l r3 p Hc3 Hndl H0l (eq_sym Ehd)) as (pk' & -> & Hpk). eexists. split; [done|]. split.
    - apply rx_inv_env; [done|]. apply Forall_forall. intros e He. apply Hpk. rewrite El. cbn [map fst]. rewrite Eids.
      pose proof Hnd as Hnd2. rewrite <- (take_drop (length more) (drop (S a) all)), map_app in Hnd2. apply NoDup_app in Hnd2 as (_ & Hd & _).
      rewrite drop_drop in Hd. replace (a + length sizes)%nat with (S a + length more)%nat in He by (rewrite Esz; cbn; lia).
      assert (snd e ∈ map snd (drop (S a + length more) all)) as Hin by (apply list_elem_of_In, in_map, list_elem_of_In, He).
      intros [E0|Hx]%elem_of_cons; [|by apply (Hd _ Hx)]. apply Hpn. rewrite <- E0. rewrite <- (take_drop (length more) (drop (S a) all)), map_app, drop_drop.
      apply elem_of_app. by right.
    - cbn [rx_env r_gets r_pk r_freed rxgiants]. split; [exact He3|]. split; [done|]. split; [intros q Hq; by rewrite Hpk, Ho3|]. by rewrite Ef3, Egi3. }
  unfold deliverable. destruct (Z.leb_spec total (rxbufsize r)) as [Hle|Hgt].
  - rewrite (proj2 (Z.leb_le (total - rxbufsize r) 0)) by lia. cbn [orb]. assert (more = []) as -> by (unfold more; by rewrite orb_true_r).
    exists r2. split; [done|]. assert (length sizes = 1%nat) as -> by (by rewrite Esz). rewrite Nat.add_1_r. split; [done|]. split; [done|]. split; [done|].
    assert (rx_chain (drop (S a) all) [] = []) as E1 by (by destruct (drop (S a) all)). rewrite E1 in El. rewrite El. split.
    + intros q Hq. apply not_elem_of_cons in Hq as [Hq _]. cbn [fst] in Hq. by rewrite Epk2, lookup_insert_ne.
    + split; [done|]. split; [done|]. split; [done|]. split; [|done]. eexists. rewrite Epk2, lookup_insert_eq. by split.
  - rewrite (proj2 (Z.leb_gt (total - rxbufsize r) 0)) by lia. cbn [orb]. fold single. destruct single eqn:Esi.
    + assert (more = []) as Emore by done. rewrite Emore in *. cbn [negb andb].
      assert (rx_chain (drop (S a) all) [] = []) as E1 by (by destruct (drop (S a) all)). rewrite E1 in El.
      destruct (Hgiant r2 (S a)) as (r4 & -> & Hi4 & He4 & Eg4 & Ho4 & Ef4 & Egi4); [done|rewrite Esz; cbn; lia|done|done|done|done| | |].
      * rewrite El. split; [|done]. eexists. rewrite Epk2, lookup_insert_eq. by split.
      * intros q Hq. rewrite El in Hq. apply not_elem_of_cons in Hq as [Hq _]. cbn [fst] in Hq. by rewrite Epk2, lookup_insert_ne.
      * cbn [mbind option_bind]. exists r4. done.
    + cbn [negb andb]. assert (more = chunks (Z.to_nat total) (rxbufsize r) (total - rxbufsize r)) as Emore
        by done.
      assert (status_at m (rcvptrbase r2) (ix (nrxd r2) h) s0) as Hs2 by (destruct He2 as (-> & -> & _); done).
      destruct (rx_rest_ok (Z.to_nat total) more r2 all (S a) x' h s0 p {| pk_data := pk_data b; pk_len := Z.min total (rxbufsize r); pk_next := 0 |}
        (total - rxbufsize r) (S (Z.to_nat (nrxd r))) Hi2 Hs2) as (r3 & -> & Hi3 & He3 & Ff & Fg & Fgi & Hpp & Hch & Hoth).
      { destruct He2 as (_ & _ & -> & _). done. }
      { change (2 ^ 16) with 65536 in *. change (2 ^ 20) with 1048576. lia. }
      { destruct He2 as (_ & _ & -> & _). nia. }
      { lia. } { lia. } { by rewrite Epk2, lookup_insert_eq. } { done. }
      cbn [mbind option_bind pk_data pk_len] in *. assert (same_env r r3) as He03 by (by transitivity r2).
      assert (S a + length more = a + length sizes)%nat as Elen by (rewrite Esz; cbn; lia). rewrite Elen in Hi3.
      assert (chain_is (r_pk r3) l) as Hchl by (rewrite El; split; [eexists; by split|done]).
      assert (forall q, q ∉ map fst l -> r_pk r3 !! q = r_pk r !! q) as Hothl.
      { intros q Hq. rewrite El in Hq. apply not_elem_of_cons in Hq as [Hq1 Hq2]. cbn [fst] in Hq1. rewrite Hoth by done. by rewrite Epk2, lookup_insert_ne. }
      destruct (ctrl_flag c DMA_CTRL_RXMULTI); cbn [negb].
      * exists r3. split; [done|]. split; [done|]. split; [done|]. split; [congruence|]. split; [done|]. split; [done|]. split; [congruence|]. split; [congruence|done].
      * destruct (Hgiant r3 (a + length sizes)%nat Hi3 eq_refl He03) as (r4 & -> & Hi4 & He4 & Eg4 & Ho4 & Ef4 & Egi4); [congruence|congruence|congruence|done|done|].
        cbn [mbind option_bind]. by exists r4.
Qed.
End rx.
