(* ===== verification/HndDmaRxProps.v ===== *)
(** * DMA reception: histories with the engine *)
From Stdlib Require Import ZArith Lia.
From stdpp Require Import base gmap option numbers list.
From S2P Require Import Prelude HndDma HndDmaRing HndDmaTx HndDmaRx HndDmaRxInv.

(** ** The ring and the engine

    A frame of [len] bytes behind rxoffset bytes of header is written to as many
    buffers as it needs, one with RXSINGLE, the length first; it is lost if
    there are too few.  [y_log]: the frames, each with its pieces; [y_del]: the
    pieces of the packets _dma_rx returned, [y_out]: these packets; [y_got]: the
    packets PKTGET returned. *)
Record rxs := { y_r : dma_rx; y_hw : Z; y_log : list (Z * list (Z * Z)); y_del : list (list (Z * Z)); y_out : list Z; y_got : list Z }.
Inductive rx_op := YFill (gets : list (Z * Z)) | YRecv (len : Z) | YRx | YPeek | YUse (p : Z).

Definition rx_status (r : dma_rx) (i : Z) : Z := Z.land (rcvptrbase r + I2B i) (d64_rs0_cd_mask r).
Definition with_gets (r : dma_rx) (gets : list (Z * Z)) : dma_rx := rx_env r (rxnobuf r) (rxgiants r) (r_pk r) (r_mem r) gets (r_freed r).
Definition with_r (s : rxs) (r : dma_rx) : rxs :=
  {| y_r := r; y_hw := y_hw s; y_log := y_log s; y_del := y_del s; y_out := y_out s; y_got := y_got s |}.
Definition some_pkt (g : Z * Z) : bool := negb (fst g =? 0).

Section rx.
Context `{DmaBus} (c : dma_cfg).

Fixpoint hw_rx (fuel : nat) (r : dma_rx) (i rem : Z) : option (option (list (Z * Z) * Z)) :=
  match fuel with
  | O => Some None
  | S fuel =>
      if i =? curr_ix (rx_ptr r) (d64_rs0_cd_mask r) (rcvptrbase r) then Some None else
      d ← aget (rxd64 r) i;
      let pa := h_pa (dd_decode c d) in
      let size := h_len (dd_decode c d) in
      let nxt := if dd_eot d then 0 else i + 1 in
      if single c || (rem <=? size) then Some (Some ([(pa, Z.min rem size)], nxt)) else
      rest ← hw_rx fuel r nxt (rem - size);
      Some (match rest with None => None | Some (l, i) => Some ((pa, size) :: l, i) end)
  end.
(** The packets linked to [p], their buffers and lengths. *)
Fixpoint read_chain (fuel : nat) (pk : gmap Z pktbuf) (p : Z) : option (list (Z * (Z * Z))) :=
  match fuel with
  | O => None
  | S fuel => if p =? 0 then Some [] else b ← pk !! p; l ← read_chain fuel pk (pk_next b); Some ((p, (bus_addr (pk_data b), pk_len b)) :: l)
  end.

Definition rx_step (op : rx_op) (s : rxs) : option rxs :=
  let r := y_r s in
  match op with
  | YFill gets =>
      '(_, r) ← _dma_rxfill c (with_gets r gets) (rx_status r (y_hw s));
      let used := take (length gets - length (r_gets r)) gets in
      Some {| y_r := r; y_hw := y_hw s; y_log := y_log s; y_del := y_del s; y_out := y_out s; y_got := y_got s ++ filter (fun p => p <> 0) (map fst used) |}
  | YRecv len =>
      got ← hw_rx (Z.to_nat (nrxd r)) r (y_hw s) (rxoffset r + len);
      match got with
      | None => Some s
      | Some (bl, i) =>
          Some {| y_r := rx_env r (rxnobuf r) (rxgiants r) (r_pk r) (<[fst (hd (0, 0) bl) := len]> (r_mem r)) (r_gets r) (r_freed r);
                  y_hw := i; y_log := y_log s ++ [(len, bl)]; y_del := y_del s; y_out := y_out s; y_got := y_got s |}
      end
  | YRx =>
      '(p, r) ← _dma_rx c r (rx_status r (y_hw s));
      l ← read_chain (S (S (size (r_pk r)))) (r_pk r) p;
      Some {| y_r := r; y_hw := y_hw s; y_log := y_log s; y_del := if p =? 0 then y_del s else y_del s ++ [map snd l];
              y_out := y_out s ++ map fst l; y_got := y_got s |}
  | YPeek => '(_, r) ← _dma_peeknextrxp r (rx_status r (y_hw s)); Some (with_r s r)
  | YUse p => Some (with_r s (rx_env r (rxnobuf r) (rxgiants r) (delete p (r_pk r)) (r_mem r) (r_gets r) (r_freed r)))
  end.

(** New packets are not in use, and their buffers not in the ring. *)
Definition ring_pas (r : dma_rx) : list Z := omap (fun p => b ← r_pk r !! p; Some (bus_addr (pk_data b))) (rxp r).
Definition new_pas (r : dma_rx) (gets : list (Z * Z)) : list Z := map (fun g => bus_addr (rx_data c r (snd g))) (filter (fun g => fst g <> 0) gets).
Definition rx_fresh (r : dma_rx) (gets : list (Z * Z)) : bool :=
  bool_decide (NoDup (filter (fun p => p <> 0) (map fst gets))) && bool_decide (NoDup (new_pas r gets)) &&
  forallb (fun g => (fst g =? 0) || bool_decide (r_pk r !! fst g = None)) gets &&
  forallb (fun pa => bool_decide (pa ∉ ring_pas r) && ((dataoffsetlow c =? 0) || (pa <? 2 ^ 30))) (new_pas r gets).
Definition rx_legal (s : rxs) (op : rx_op) : bool :=
  match op with
  | YFill gets => rx_fresh (y_r s) gets
  | YRecv len => (0 <=? len) && (len <? 2 ^ 16)
  | YUse p => negb (p =? 0) && bool_decide (p ∉ rxp (y_r s))
  | _ => true
  end.
Fixpoint rx_run (ops : list rx_op) (s : rxs) : option rxs :=
  match ops with [] => Some s | op :: ops => s ← rx_step op s; rx_run ops s end.
Fixpoint rx_legal_run (ops : list rx_op) (s : rxs) : bool :=
  match ops with
  | [] => true
  | op :: ops => rx_legal s op && match rx_step op s with Some s => rx_legal_run ops s | None => true end
  end.
End rx.

(** ** Frames in the ring *)
Section frames.
Context `{DmaBus} (c : dma_cfg) (m : Z).
Hypothesis Hcfg : cfg_ok c.
Hypothesis Hglom : ctrl_flag c DMA_CTRL_SDIO_RXGLOM = false.

Fixpoint pend_ok (r : dma_rx) (all : list (dma64dd * Z)) (a : nat) (pend : list (Z * list (Z * Z))) : Prop :=
  match pend with
  | [] => True
  | (len, bl) :: pend =>
      0 <= len < 2 ^ 16 /\ map snd bl = frame_sizes c (rxbufsize r) (rxoffset r + len) /\
      map fst bl = map (slot_pa c) (take (length bl) (drop a all)) /\
      (exists e, all !! a = Some e /\ r_mem r !! slot_pa c e = Some len) /\ pend_ok r all (a + length bl) pend
  end.
Definition nbufs (pend : list (Z * list (Z * Z))) : nat := length (concat (map snd pend)).
Definition good_frame (r : dma_rx) (f : Z * list (Z * Z)) : bool := deliverable c (rxbufsize r) (rxoffset r + fst f).

Lemma nbufs_cons f pend : nbufs (f :: pend) = (length (snd f) + nbufs pend)%nat.
Proof. unfold nbufs. cbn [map concat]. by rewrite length_app. Qed.
Lemma nbufs_app p1 p2 : nbufs (p1 ++ p2) = (nbufs p1 + nbufs p2)%nat.
Proof. unfold nbufs. by rewrite map_app, concat_app, length_app. Qed.
Lemma frame_sizes_pos size total : frame_sizes c size total <> [].
Proof. unfold frame_sizes. destruct (single c); [done|]. cbn [chunks]. by destruct (_ <=? _). Qed.

Lemma pend_env r r' all all2 a pend :
  rxbufsize r' = rxbufsize r -> rxoffset r' = rxoffset r -> (a + nbufs pend <= length all)%nat ->
  (forall k e, (a <= k < a + nbufs pend)%nat -> all !! k = Some e -> r_mem r' !! slot_pa c e = r_mem r !! slot_pa c e) ->
  pend_ok r all a pend -> pend_ok r' (all ++ all2) a pend.
Proof.
  intros Es Eo. revert a. induction pend as [|[len bl] pend IH]; intros a Hl Hm; [done|]. cbn [pend_ok]. rewrite nbufs_cons in *. cbn [snd] in *.
  intros (H1 & H2 & H3 & (e & H4 & H5) & H6). rewrite Es, Eo. split; [done|]. split; [done|]. split.
  - rewrite drop_app_le, take_app_le by (rewrite ?length_drop; lia). done.
  - split; [|apply IH; [lia| |done]].
    + exists e. split; [by apply lookup_app_l_Some|]. rewrite (Hm a e); [done| |done]. assert (length bl <> 0)%nat; [|lia].
      rewrite <- (length_map snd bl), H2. intros E0%length_zero_iff_nil. by apply frame_sizes_pos in E0.
    + intros k e' Hk. apply Hm. lia.
Qed.

Lemma read_chain_ok pk l fuel : chain_is pk l -> 0 ∉ map fst l -> (length l < fuel)%nat -> read_chain fuel pk (hd 0 (map fst l)) = Some l.
Proof.
  revert fuel. induction l as [|[p [pa len]] l IH]; intros fuel Hc H0 Hf; (destruct fuel as [|fuel]; [cbn in Hf; lia|]); [done|].
  cbn [read_chain map fst hd] in *. destruct Hc as [(b & Eb & Ed & El & Enx) Hc]. apply not_elem_of_cons in H0 as [Hp H0].
  rewrite (proj2 (Z.eqb_neq p 0)), Eb by done. cbn [mbind option_bind]. cbn [length] in Hf. rewrite Enx, IH by (done || lia). cbn [mbind option_bind].
  by rewrite Ed, El.
Qed.

(** The packets of [n] buffers from [a]. *)
Definition ids (all : list (dma64dd * Z)) (a n : nat) : list Z := map snd (take n (drop a all)).
Lemma ids_split all a k n : (k <= n)%nat -> ids all a n = ids all a k ++ ids all (a + k) (n - k).
Proof.
  intros Hk. unfold ids. rewrite <- map_app. f_equal. replace n with (k + (n - k))%nat at 1 by lia. by rewrite <- take_take_drop, drop_drop.
Qed.
Lemma ids_ok r all a x h n : rx_inv c m r all a x h -> NoDup (ids all a n) /\ 0 ∉ ids all a n.
Proof.
  intros Hi. pose proof Hi as [_ _ _ _ _ _ _ _ _ Hb [Hnd _]]. unfold ids. split.
  - rewrite <- firstn_map. rewrite <- (take_drop n (map snd (drop a all))) in Hnd. by apply NoDup_app in Hnd as [? _].
  - intros Hx. apply list_elem_of_In, in_map_iff in Hx as (e & E0 & He%list_elem_of_In). rewrite Forall_forall in Hb.
    destruct (Hb e) as (? & _); [|done]. rewrite <- (take_drop n (drop a all)). apply elem_of_app. by left.
Qed.
Lemma rx_chain_snd seg sizes : (length sizes <= length seg)%nat -> map snd (rx_chain c seg sizes) = zip (map (slot_pa c) (take (length sizes) seg)) sizes.
Proof. revert sizes. induction seg as [|e seg IH]; intros [|s sizes] Hl; cbn in *; try done; try lia. by rewrite IH by lia. Qed.
Lemma zip_parts (bl : list (Z * Z)) : zip (map fst bl) (map snd bl) = bl.
Proof. induction bl as [|[u v] bl IH]; [done|]. cbn. by rewrite IH. Qed.
Lemma status_env r r' i : same_env r r' -> rx_status r' i = rx_status r i.
Proof. intros (_ & E1 & _ & _ & _ & _ & _ & E2 & _). unfold rx_status. by rewrite E1, E2. Qed.
Lemma rx_status_ok r all a x h : rx_inv c m r all a x h -> status_at m (rcvptrbase r) (ix (nrxd r) h) (rx_status r (ix (nrxd r) h)).
Proof.
  intros [(Hn & Hm & Hmask & _) _ _ _ _ _ _ _ _ _ _]. unfold status_at, rx_status. rewrite Hmask.
  replace (2 ^ m - 1) with (Z.ones m) by (rewrite Z.ones_equiv; lia). rewrite !Z.land_ones by lia. by rewrite Z.mod_mod by lia.
Qed.

(** ** Receiving: the next frame that is not too long *)
Lemma rx_loop_ok pend : forall fuel r all a x h j,
  rx_inv c m r all a x h -> pend_ok r all a pend -> h = (a + nbufs pend)%nat -> x = (a + nbufs (take j pend))%nat -> (length pend < fuel)%nat ->
  exists p r' gs a' x', rx_loop c fuel r (rx_status r (ix (nrxd r) h)) = Some (p, r') /\ rx_inv c m r' all a' x' h /\ same_env r r' /\ r_gets r' = r_gets r /\
    Forall (fun f => good_frame r f = false) gs /\ (forall q, q ∉ ids all a (a' - a) -> r_pk r' !! q = r_pk r !! q) /\ (a <= a')%nat /\
    ((p = 0 /\ pend = gs /\ a' = h /\ x' = h /\ r_freed r' = r_freed r ++ ids all a (a' - a)) \/
     (p <> 0 /\ exists f rest l j' fr, pend = gs ++ f :: rest /\ good_frame r f = true /\ p = hd 0 (map fst l) /\ 0 ∉ map fst l /\ NoDup (map fst l) /\
        chain_is (r_pk r') l /\ map snd l = snd f /\ pend_ok r' all a' rest /\ h = (a' + nbufs rest)%nat /\ x' = (a' + nbufs (take j' rest))%nat /\
        r_freed r' = r_freed r ++ fr /\ ids all a (a' - a) = fr ++ map fst l)).
Proof.
  induction pend as [|[len bl] pend IH]; intros fuel r all a x h j Hi Hp Hh Hx Hf; (destruct fuel as [|fuel]; [lia|]); pose proof (rx_status_ok _ _ _ _ _ Hi) as Hs0.
  - rewrite take_nil in Hx. cbn in Hh, Hx. rewrite Nat.add_0_r in Hh, Hx. subst h x. cbn [rx_loop].
    destruct (getnextrxp_ok c m r all a a a _ Hi Hs0) as (p & r1 & -> & He1 & Epk1 & Efr1 & Eg1 & Egi1 & Hpp).
    rewrite (decide_True (P := a = a)) in Hpp by done. rewrite decide_True in Hpp by done. destruct Hpp as [-> Hi1]. cbn [mbind option_bind Z.eqb].
    exists 0, r1, [], a, a. rewrite Nat.sub_diag. unfold ids. rewrite take_0. cbn [map]. rewrite app_nil_r, Epk1. split; [done|]. split; [done|].
    split; [done|]. split; [done|]. split; [by constructor|]. split; [done|]. split; [lia|]. by left.
  - cbn [pend_ok] in Hp. destruct Hp as (Hlen & Esz & Epa & (e & Ee & Emem) & Hp). rewrite nbufs_cons in Hh. cbn [snd] in Hh.
    set (x' := if decide (a = x) then h else x).
    assert (length (frame_sizes c (rxbufsize r) (rxoffset r + len)) = length bl) as Elen by (by rewrite <- Esz, length_map).
    assert (length bl <> 0)%nat as Hbl by (rewrite <- Elen; intros E0%length_zero_iff_nil; by apply frame_sizes_pos in E0).
    assert (exists j', x' = (a + length bl + nbufs (take j' pend))%nat) as (j' & Hx').
    { unfold x'. destruct (decide (a = x)); [exists (length pend); rewrite firstn_all; lia|]. destruct j as [|j]; [cbn in Hx; lia|].
      cbn [take] in Hx. rewrite nbufs_cons in Hx. exists j. cbn [snd] in Hx. lia. }
    assert (x' <= h)%nat as Hx'h by (pose proof (ri_ord _ _ _ _ _ _ _ Hi); unfold x'; destruct (decide (a = x)); lia).
    pose proof (ri_ord _ _ _ _ _ _ _ Hi) as [_ Hhl].
    destruct (rx_frame_ok c m fuel r all a x h _ len e Hi Hs0 Hglom Hlen) as (r1 & E & Hi1 & He1 & Eg1 & Hoth & Hhd & Hres); [fold x'; lia|done|done|].
    fold x' in Hi1. rewrite Elen in Hi1. rewrite E. set (l := rx_chain c (drop a all) _) in *.
    assert (map fst l = ids all a (length bl)) as Eids by (unfold l, ids; rewrite rx_chain_ids by (rewrite length_drop; lia); by rewrite Elen).
    assert (map snd l = bl) as Esnd.
    { unfold l. rewrite rx_chain_snd by (rewrite length_drop; lia). by rewrite Elen, <- Epa, <- Esz, zip_parts. }
    assert (pend_ok r1 all (a + length bl) pend) as Hp1.
    { rewrite <- (app_nil_r all). pose proof He1 as (_ & _ & E3 & E4 & _ & _ & _ & _ & E5). apply (pend_env r); try done; [lia|]. intros. by rewrite E5. }
    unfold good_frame. cbn [fst]. destruct (deliverable c (rxbufsize r) (rxoffset r + len)) eqn:Ed.
    + destruct Hres as (Ef1 & _ & Hch). destruct (ids_ok r all a x h (length bl) Hi) as [Hnd H0].
      exists (hd 0 (map fst l)), r1, [], (a + length bl)%nat, x'. replace (a + length bl - a)%nat with (length bl) by lia. rewrite <- Eids in *.
      split; [done|]. split; [done|]. split; [done|]. split; [done|]. split; [by constructor|]. split; [done|]. split; [lia|]. right.
      split; [done|]. exists (len, bl), pend, l, j', []. rewrite app_nil_r. cbn [fst snd app]. split_and!; try done. lia.
    + destruct Hres as (Ef1 & _). pose proof (status_env r r1 (ix (nrxd r) h) He1) as Est.
      assert (nrxd r1 = nrxd r) as En by (by destruct He1).
      destruct (IH fuel r1 all (a + length bl)%nat x' h j' Hi1 Hp1) as (p & r' & gs & a' & x2 & E2 & Hi2 & He2 & Eg2 & Hgs & Hoth2 & Ha & Hcase);
        [lia|done|cbn [length] in Hf; lia|]. rewrite En, Est in E2.
      assert (ids all a (a' - a) = ids all a (length bl) ++ ids all (a + length bl) (a' - (a + length bl))) as Esp
        by (rewrite (ids_split all a (length bl)) by lia; do 2 f_equal; lia).
      assert (forall f, good_frame r1 f = good_frame r f) as Egf by (intros f; unfold good_frame; destruct He1 as (_ & _ & -> & -> & _); done).
      exists p, r', ((len, bl) :: gs), a', x2. split; [done|]. split; [done|]. split; [by transitivity r1|]. split; [congruence|].
      split; [constructor; [done|]; apply (Forall_impl _ _ _ Hgs); intros f; by rewrite Egf|].
      split; [intros q Hq; rewrite Esp in Hq; apply not_elem_of_app in Hq as [Hq1 Hq2]; rewrite <- Eids in Hq1; by rewrite Hoth2, Hoth|].
      split; [lia|]. destruct Hcase as [(-> & -> & -> & -> & Ef2)|(Hp0 & f & rest & l2 & j2 & fr & -> & Hgf & C1 & C2 & C3 & C4 & C5 & C6 & C7 & C8 & C9 & C10)].
      * left. split_and!; try done. by rewrite Ef2, Ef1, Eids, Esp, <- app_assoc.
      * right. split; [done|]. exists f, rest, l2, j2, (map fst l ++ fr). rewrite Egf in Hgf. split_and!; try done.
        -- by rewrite C9, Ef1, <- app_assoc.
        -- by rewrite Esp, C10, Eids, <- app_assoc.
Qed.
End frames.
