(* ===== verification/HndDmaRxFill.v ===== *)
(** * DMA reception: posting buffers *)
From Stdlib Require Import ZArith Lia.
From stdpp Require Import base gmap option numbers list.
From S2P Require Import Prelude HndDma HndDmaRing HndDmaTx HndDmaRx HndDmaRxInv HndDmaRxProps.

Lemma elem_of_map {A B} (f : A -> B) (l : list A) (y : B) : y ∈ map f l <-> exists x, y = f x /\ x ∈ l.
Proof. exact (list_elem_of_fmap f l y). Qed.

(** The ring when [out] is made known to the engine. *)
Definition fin (r : dma_rx) (out : Z) : dma_rx :=
  rx_ring r (rxin r) out (rxp r) (rxd64 r) (rxavail r) (rs0cd r) (u32 (rcvptrbase r + I2B out)) (rx_maps r).
Ltac rx_cbn := cbn [fin rx_ring rx_env set_pkt nrxd rxin rxout rxp rxd64 rxavail rs0cd rx_ptr rcvptrbase d64_rs0_cd_mask rx_maps
  rxbufsize rxoffset rxextrahdrroom nrxpost r_pk r_mem r_gets r_freed rxnobuf rxgiants] in *.

Section fill.
Context `{DmaBus} (c : dma_cfg) (m : Z).
Hypothesis Hcfg : cfg_ok c.

(** What posting leaves alone. *)
Definition same_conf (r r' : dma_rx) : Prop :=
  nrxd r' = nrxd r /\ rcvptrbase r' = rcvptrbase r /\ rxbufsize r' = rxbufsize r /\ rxoffset r' = rxoffset r /\ nrxpost r' = nrxpost r /\
  rxextrahdrroom r' = rxextrahdrroom r /\ d64_rs0_cd_mask r' = d64_rs0_cd_mask r.
#[export] Instance same_conf_preorder : PreOrder same_conf.
Proof. split; [by intros r|]. intros r1 r2 r3 (?&?&?&?&?&?&?) (?&?&?&?&?&?&?). unfold same_conf. split_and!; congruence. Qed.

Definition gets_ok (r : dma_rx) (all : list (dma64dd * Z)) (a : nat) (gets : list (Z * Z)) : Prop :=
  NoDup (filter (fun p => p <> 0) (map fst gets)) /\ NoDup (new_pas c r gets) /\
  (forall g, g ∈ gets -> fst g <> 0 -> r_pk r !! fst g = None) /\
  (forall pa, pa ∈ new_pas c r gets -> pa ∉ map (slot_pa c) (drop a all) /\ (dataoffsetlow c = 0 \/ pa < 2 ^ 30)).

Lemma fill_push r out all a x h p data gets b (pa := bus_addr (rx_data c r data)) :
  rx_inv c m (fin r out) all a x h -> Z.of_nat (length all - a) + 1 <= nrxd r - 1 -> p <> 0 -> r_pk r !! p = None ->
  pa ∉ map (slot_pa c) (drop a all) -> dataoffsetlow c = 0 \/ pa < 2 ^ 30 -> bus_addr (pk_data b) = pa -> pk_next b = 0 ->
  exists ps ring d, aset (rxp r) out p = Some ps /\
    dma64_dd_upd c (rxd64 r) pa out (eot_flag out (nrxd r)) (rxbufsize r) = Some ring /\ slot_pa c (d, p) = pa /\
    rx_inv c m (fin (rx_ring (rx_env r (rxnobuf r) (rxgiants r) (<[p := b]> (r_pk r)) (<[pa := 0]> (r_mem r)) gets (r_freed r))
      (rxin r) (rxout r) ps ring (rxavail r) (rs0cd r) (rx_ptr r) (rx_maps r ++ [(pa, rxbufsize r)])) (NEXTRXD r out)) (all ++ [(d, p)]) a x h.
Proof.
  intros [Hst Hsl Hin Hout Hcd Hptr [Ho1 Ho2] Hmaps Heot Hbufs [Hnd1 Hnd2]] Hroom Hp Hpk Hpa Hoff Hb Hbn.
  rx_cbn. pose proof Hst as (Hn & Hm & Hmask & HS & _). rx_cbn. pose proof (n_pos _ m Hn Hm).
  pose proof (sl_room _ _ _ _ _ Hsl) as [Hr1 Hr2]. unfold dma64_dd_upd. set (d := dd_of c pa (eot_flag out (nrxd r)) (rxbufsize r)).
  destruct (dd_of_ok c pa (eot_flag out (nrxd r)) (rxbufsize r)) as (Ec & Epa & El & Emap); [apply bus_addr_lt|lia|done|]. fold d in Ec, Epa, El, Emap.
  specialize (Emap Hoff). destruct (slots_push _ m Hn Hm _ _ _ _ d Hsl ltac:(lia)) as [E1 Hsl1].
  destruct (slots_own _ m Hn Hm _ _ _ _ d p Hsl1 ltac:(lia)) as [E2 Hsl2]. rewrite <- Hout in E1, E2. rewrite E1, E2. eexists _, _, d. split; [done|]. split; [done|].
  assert (slot_pa c (d, p) = pa) as Esp by done. split; [done|]. assert (NEXTRXD r out = ix (nrxd r) (S (length all))) as En by (rewrite Hout; apply (ix_next _ m Hn)).
  assert (drop a (all ++ [(d, p)]) = drop a all ++ [(d, p)]) as Edrop by (by apply drop_app_le).
  assert (p ∉ map snd (drop a all)) as Hpn.
  { intros (e & -> & He)%elem_of_map. rewrite Forall_forall in Hbufs. destruct (Hbufs e He) as (_ & _ & _ & b' & Hb' & _). cbn in Hb'. congruence. }
  rewrite <- Hout in Hsl2. constructor; rx_cbn; rewrite ?length_app, ?Edrop, ?map_app; cbn [length map]; rewrite ?Nat.add_1_r; try done.
  - rewrite En, Hmask. apply (ptr_ix _ m Hn Hm). apply (ix_lt _ m Hn Hm).
  - lia.
  - by rewrite Hmaps, Esp.
  - intros k d' o' [Ek|[Hge Ek]]%lookup_app_Some; [by apply (Heot k d' o')|]. apply list_lookup_singleton_Some in Ek as [E0 [= <- <-]].
    replace k with (length all) by lia. unfold dd_eot. rewrite Ec, <- Hout. unfold eot_flag. by destruct (_ =? _).
  - apply Forall_app. split.
    + apply Forall_forall. intros e He. rewrite Forall_forall in Hbufs. destruct (Hbufs e He) as (H1 & H2 & H3 & b' & H4 & H5).
      split; [done|]. split; [done|]. split; [done|]. exists b'. cbn. rewrite lookup_insert_ne; [done|]. intros ->. apply Hpn, elem_of_map. by exists e.
    + constructor; [|constructor]. split; [done|]. split; [done|]. split; [by rewrite Esp|]. exists b. rx_cbn. cbn [snd]. rewrite lookup_insert_eq. by rewrite Esp.
  - split; apply NoDup_app; (split; [done|]); (split; [|by apply NoDup_singleton]); intros y Hy ->%list_elem_of_singleton; [done|]. by rewrite Esp in Hy.
Qed.

(** The packets of [gets] that are some, and that none is [p]. *)
Lemma filter_head p (l : list Z) : p <> 0 -> filter (fun q => q <> 0) (p :: l) = p :: filter (fun q => q <> 0) l.
Proof. intros Hp. by rewrite filter_cons_True. Qed.
Lemma gets_ok_tail r all a g gets : fst g <> 0 -> gets_ok r all a (g :: gets) ->
  r_pk r !! fst g = None /\ bus_addr (rx_data c r (snd g)) ∉ map (slot_pa c) (drop a all) /\
  (dataoffsetlow c = 0 \/ bus_addr (rx_data c r (snd g)) < 2 ^ 30) /\
  bus_addr (rx_data c r (snd g)) ∉ new_pas c r gets /\ fst g ∉ filter (fun q => q <> 0) (map fst gets) /\ gets_ok r all a gets.
Proof.
  intros Hg (Hn1 & Hn2 & Hp & Hpa). cbn [map] in Hn1. rewrite filter_head in Hn1 by done. unfold new_pas in *. rewrite filter_cons_True in Hn2, Hpa by done.
  cbn [map] in Hn2, Hpa. apply NoDup_cons in Hn1 as [Hn1 Hn1']. apply NoDup_cons in Hn2 as [Hn2 Hn2'].
  destruct (Hpa (bus_addr (rx_data c r (snd g)))) as [H1 H2]; [by left|]. split; [apply Hp; [by left|done]|]. split; [done|]. split; [done|]. split; [done|].
  split; [done|]. split; [done|]. split; [done|]. split; [intros g' Hg'; apply Hp; by right|intros pa' Hpa'; apply Hpa; by right].
Qed.

Lemma rxfill_gets s0 n first r out b r' out' :
  rxfill_loop c n first r s0 out = Some (b, r', out') -> (length (r_gets r') <= length (r_gets r))%nat.
Proof.
  revert out first r. induction n as [|n IH]; intros o f r0; cbn [rxfill_loop]; [by intros [= _ <- _]|].
  destruct (r_gets r0) as [|[p data] gets0] eqn:Eg; cbn [hd tail]; [intros [= _ <- _]; cbn; lia|]. destruct (p =? 0); [intros [= _ <- _]; cbn; lia|].
  destruct (aset _ _ _); [|done]. cbn [mbind option_bind]. destruct (dma64_dd_upd _ _ _ _ _ _); [|done]. cbn [mbind option_bind]. intros E%IH. rx_cbn. cbn [length]. lia.
Qed.
Lemma rxfill_loop_ok s0 n : forall first r out all a x h,
  rx_inv c m (fin r out) all a x h -> Z.of_nat (length all - a + n) <= nrxd r - 1 -> gets_ok r all a (r_gets r) ->
  exists b r' out' new, rxfill_loop c n first r s0 out = Some (b, r', out') /\ rx_inv c m (fin r' out') (all ++ new) a x h /\
    same_conf r r' /\ rxin r' = rxin r /\ rxout r' = rxout r /\ r_freed r' = r_freed r /\ (length new <= n)%nat /\
    map snd new = filter (fun q => q <> 0) (map fst (take (length (r_gets r) - length (r_gets r')) (r_gets r))) /\
    (forall q, q ∉ map snd new -> r_pk r' !! q = r_pk r !! q) /\ (forall pa, pa ∉ map (slot_pa c) new -> r_mem r' !! pa = r_mem r !! pa) /\
    (Forall (fun g => fst g <> 0) (take n (r_gets r)) -> (n <= length (r_gets r))%nat -> length new = n /\ b = false).
Proof.
  induction n as [|n IH]; intros first r out all a x h Hi Hroom Hg; cbn [rxfill_loop].
  { exists false, r, out, []. rewrite app_nil_r, Nat.sub_diag. by split_and!. }
  assert (hd (0, 0) (r_gets r) = (0, 0) /\ r_gets r = [] \/ exists p data gets, r_gets r = (p, data) :: gets) as [[-> Eg]|(p & data & gets & Eg)]
    by (destruct (r_gets r) as [|[p data] gets]; [by left|right; by eexists _, _, _]); rewrite Eg in *; cbn [hd tail].
  { eexists _, _, out, []. split; [done|]. rewrite app_nil_r. split; [|split_and!; try done; cbn; lia].
    apply rx_inv_env with (r := fin r out); [done|]. by apply Forall_forall. }
  destruct (Z.eqb_spec p 0) as [->|Hp].
  { eexists _, _, out, []. split; [done|]. rewrite app_nil_r. split; [apply rx_inv_env with (r := fin r out); [done|]; by apply Forall_forall|].
    split_and!; try done; [cbn; lia| |]; rx_cbn.
    - cbn [length]. replace (S (length gets) - length gets)%nat with 1%nat by lia. cbn [take map fst]. by rewrite filter_cons_False by naive_solver.
    - cbn [take]. by intros [? _]%Forall_cons. }
  pose proof Hg as Hg0. apply gets_ok_tail in Hg as (Hpk & Hpa & Hoff & Hnew & Hpn & Hg); [|done]. cbn [fst snd] in *.
  destruct (fill_push r out all a x h p data gets {| pk_data := rx_data c r data; pk_len := rxbufsize r + extra_offset r + alignment_req c - 1 - extra_offset r - extra_pad c data; pk_next := 0 |} Hi)
    as (ps & ring & d & -> & -> & Esp & Hi1); try done; [lia|]. cbn [mbind option_bind]. set (r1 := rx_ring _ _ _ ps _ _ _ _ _) in *.
  assert (gets_ok r1 (all ++ [(d, p)]) a (r_gets r1)) as Hg1.
  { destruct Hg as (G1 & G2 & G3 & G4). pose proof (sl_room _ _ _ _ _ (ri_slots _ _ _ _ _ _ _ Hi)) as [Hr1 _]. split; [done|]. split; [done|]. split.
    - intros g Hg Hg2. unfold r1. rx_cbn. rewrite lookup_insert_ne; [by apply G3|]. intros ->. apply Hpn, list_elem_of_filter. split; [done|].
      apply elem_of_map. by exists g.
    - intros pa' Hpa'. specialize (G4 pa' Hpa') as [G4 G5]. split; [|done]. rewrite drop_app_le by done. rewrite map_app. cbn [map]. rewrite Esp.
      intros [?| ->%list_elem_of_singleton]%elem_of_app; [done|]. by apply Hnew. }
  destruct (IH false r1 (NEXTRXD r out) (all ++ [(d, p)]) a x h Hi1) as (b' & r' & out' & new & E & Hi' & Hsc & E1 & E2 & E3 & El & Em & Epk & Emem & Efull); [|done|].
  { rewrite length_app. cbn [length]. unfold r1. rx_cbn. lia. }
  change (NEXTRXD _ out) with (NEXTRXD r out). rewrite E. exists b', r', out', ((d, p) :: new). rewrite <- app_assoc in Hi'.
  split; [done|]. split; [done|]. split; [by transitivity r1|]. split; [done|]. split; [done|]. split; [done|]. cbn [length map]. split; [lia|].
  pose proof (rxfill_gets _ _ _ _ _ _ _ _ E) as Hle. change (r_gets r1) with gets in Hle.
  split.
  { replace (S (length gets) - length (r_gets r'))%nat with (S (length gets - length (r_gets r'))) by lia. cbn [take map]. rewrite filter_head by done. by rewrite Em. }
  split; [intros q [Hq1 Hq2]%not_elem_of_cons; rewrite Epk by done; unfold r1; rx_cbn; by rewrite lookup_insert_ne|].
  split; [intros pa' [Hq1 Hq2]%not_elem_of_cons; rewrite Emem by done; unfold r1; rx_cbn; rewrite Esp in Hq1; by rewrite lookup_insert_ne|].
  cbn [take length]. intros [_ Hall]%Forall_cons Hlen. destruct (Efull Hall ltac:(change (r_gets r1) with gets; lia)) as [-> ->]. done.
Qed.

Lemma active_ok r all a x h : rx_inv c m r all a x h -> _dma_rxactive r = Z.of_nat (length all - a).
Proof.
  intros [(Hn & Hm & _) Hsl Hin Hout _ _ _ _ _ _ _]. pose proof (sl_room _ _ _ _ _ Hsl) as [Hr1 Hr2]. pose proof (n_pos _ m Hn Hm).
  unfold _dma_rxactive, NRXDACTIVE, RXD. rewrite Hin, Hout. apply (ix_sub _ m Hn Hm); lia.
Qed.
Lemma fin_ok r all a x h : rx_inv c m r all a x h -> rx_inv c m (fin r (rxout r)) all a x h.
Proof.
  intros [Hst Hsl Hin Hout Hcd Hptr Ho Hmaps Heot Hbufs Hnd]. pose proof Hst as (Hn & Hm & Hmask & _). constructor; try done.
  rx_cbn. rewrite Hout, Hmask. apply (ptr_ix _ m Hn Hm), (ix_lt _ m Hn Hm).
Qed.

(** Posting: the packets PKTGET gives, up to nrxpost buffers in the ring. *)
Lemma rxfill_ok r all a x h s0 :
  rx_inv c m r all a x h -> Z.of_nat (length all - a) <= nrxpost r -> gets_ok r all a (r_gets r) ->
  exists b r' new, _dma_rxfill c r s0 = Some (b, r') /\ rx_inv c m r' (all ++ new) a x h /\ same_conf r r' /\ r_freed r' = r_freed r /\
    Z.of_nat (length (all ++ new) - a) <= nrxpost r /\
    map snd new = filter (fun q => q <> 0) (map fst (take (length (r_gets r) - length (r_gets r')) (r_gets r))) /\
    (forall q, q ∉ map snd new -> r_pk r' !! q = r_pk r !! q) /\ (forall pa, pa ∉ map (slot_pa c) new -> r_mem r' !! pa = r_mem r !! pa) /\
    (Forall (fun g => fst g <> 0) (r_gets r) -> nrxpost r - _dma_rxactive r <= Z.of_nat (length (r_gets r)) -> b = false /\ _dma_rxactive r' = nrxpost r).
Proof.
  intros Hi Hroom Hg. pose proof (ri_static _ _ _ _ _ _ _ Hi) as (Hn & Hm & _ & _ & _ & Hpost). pose proof (n_pos _ m Hn Hm).
  pose proof (active_ok _ _ _ _ _ Hi) as Eact. pose proof (sl_room _ _ _ _ _ (ri_slots _ _ _ _ _ _ _ Hi)) as [Hr1 _].
  unfold _dma_rxfill. fold (_dma_rxactive r). rewrite Eact, (wrapu_small 32) by (change (2 ^ 32) with 4294967296; lia).
  set (n := Z.to_nat _). assert (Z.of_nat n = nrxpost r - Z.of_nat (length all - a)) as En by lia.
  destruct (rxfill_loop_ok s0 n true r (rxout r) all a x h) as (b & r' & out' & new & -> & Hi' & Hsc & E1 & E2 & E3 & El & Em & Epk & Emem & Efull);
    [by apply fin_ok|lia|done|]. cbn [mbind option_bind]. fold (fin r' out'). exists b, (fin r' out'), new. split; [done|]. split; [done|]. split; [done|].
  split; [done|]. rewrite length_app. split; [lia|]. split; [done|]. split; [done|]. split; [done|]. intros Hall Hlen.
  rewrite (active_ok _ _ _ _ _ Hi'), length_app. destruct Efull as [El2 ->]; [by apply Forall_take|lia|]. split; [done|]. lia.
Qed.

(** The value returned: TRUE when the first PKTGET fails on an idle ring. *)
Lemma rxfill_loop_returns s0 n : forall first r out b r' out', rxfill_loop c n first r s0 out = Some (b, r', out') ->
  b = negb (n =? 0)%nat && first && (fst (hd (0, 0) (r_gets r)) =? 0) && dma64_rxidle r s0.
Proof.
  induction n as [|n IH]; intros first r out b r' out'; cbn [rxfill_loop]; [by intros [= <- _ _]|].
  destruct (hd (0, 0) (r_gets r)) as [p data]. cbn [fst Nat.eqb negb andb]. destruct (p =? 0) eqn:Ep.
  - intros [= <- _ _]. by rewrite andb_true_r.
  - destruct (aset _ _ _); [|done]. cbn [mbind option_bind]. destruct (dma64_dd_upd _ _ _ _ _ _); [|done]. cbn [mbind option_bind].
    intros E%IH. rewrite E. by destruct (n =? 0)%nat, first.
Qed.
Lemma rxfill_returns r all a x h s0 b r' : rx_inv c m r all a x h -> Z.of_nat (length all - a) <= nrxpost r -> _dma_rxfill c r s0 = Some (b, r') ->
  b = (_dma_rxactive r <? nrxpost r) && (fst (hd (0, 0) (r_gets r)) =? 0) && dma64_rxidle r s0.
Proof.
  intros Hi Hroom. pose proof (ri_static _ _ _ _ _ _ _ Hi) as (Hn & Hm & _ & _ & _ & Hpost). pose proof (n_pos _ m Hn Hm).
  pose proof (active_ok _ _ _ _ _ Hi) as Eact. unfold _dma_rxfill. fold (_dma_rxactive r). rewrite Eact, (wrapu_small 32) by (change (2 ^ 32) with 4294967296; lia).
  destruct (rxfill_loop _ _ _ _ _ _) as [[[b' r1] out]|] eqn:E; [|done]. cbn [mbind option_bind]. intros [= <- _]. apply rxfill_loop_returns in E. rewrite E, andb_true_r.
  f_equal. f_equal. destruct (Z.ltb_spec (Z.of_nat (length all - a)) (nrxpost r)), (Nat.eqb_spec (Z.to_nat (nrxpost r - Z.of_nat (length all - a))) 0); cbn; done || lia.
Qed.
Lemma rxidle_ok r all a x h s0 : rx_inv c m r all a x h -> status_at m (rcvptrbase r) (ix (nrxd r) h) s0 -> dma64_rxidle r s0 = true ->
  ix (nrxd r) h = rxout r.
Proof.
  intros [(Hn & Hm & Hmask & _) _ _ Hout _ Hptr _ _ _ _ _] Hs0. pose proof (n_pos _ m Hn Hm). unfold dma64_rxidle. rewrite (proj2 (Z.eqb_neq _ 0)) by lia.
  intros E%Z.eqb_eq. rewrite Hout, <- Hptr. rewrite <- (curr_ix_ok _ m Hn Hm s0 (rcvptrbase r) (ix (nrxd r) h)) by (done || apply (ix_lt _ m Hn Hm)).
  rewrite <- Hmask. unfold curr_ix. by rewrite E.
Qed.
End fill.
