(* ===== verification/HndDmaRxSys.v ===== *)
(** * DMA reception: every step of a history *)
From Stdlib Require Import ZArith Lia.
From stdpp Require Import base gmap option numbers list.
From S2P Require Import Prelude HndDma HndDmaRing HndDmaTx HndDmaRx HndDmaRxInv HndDmaRxProps HndDmaRxFill.

Ltac perm_count := apply (Permutation_count_occ Z.eq_dec); intros ?; rewrite !count_occ_app; lia.

Section sys.
Context `{DmaBus} (c : dma_cfg) (m : Z).
Hypothesis Hcfg : cfg_ok c.
Hypothesis Hglom : ctrl_flag c DMA_CTRL_SDIO_RXGLOM = false.

(** ** The engine *)
Definition sizes_of (f : nat) (size rem : Z) : list Z := if single c then [Z.min rem size] else chunks f size rem.

Lemma hw_rx_ok fuel : forall r all a x h k rem f (sizes := sizes_of f (rxbufsize r) rem),
  rx_inv c m r all a x h -> (h <= k <= length all)%nat -> (length all - k < fuel)%nat -> 0 <= rem <= Z.of_nat f * rxbufsize r -> (0 < f)%nat ->
  hw_rx c fuel r (ix (nrxd r) k) rem =
    Some (if (length sizes <=? length all - k)%nat
          then Some (zip (map (slot_pa c) (take (length sizes) (drop k all))) sizes, ix (nrxd r) (k + length sizes)) else None).
Proof.
  induction fuel as [|fuel IH]; intros r all a x h k rem f sizes Hi Hk Hf Hrem Hf0; [lia|]. cbn [hw_rx].
  pose proof Hi as [(Hn & Hm & Hmask & HS & _) Hsl _ _ _ Hptr [Ho1 Ho2] _ Heot Hbufs _]. pose proof (n_pos _ m Hn Hm).
  pose proof (sl_room _ _ _ _ _ Hsl) as [Hr1 Hr2]. rewrite Hptr. destruct f as [|f]; [lia|].
  assert (length sizes <> 0)%nat as Hs0 by (unfold sizes, sizes_of; destruct (single c); [done|]; cbn [chunks]; by destruct (_ <=? _)).
  destruct (Z.eqb_spec (ix (nrxd r) k) (ix (nrxd r) (length all))) as [E|E].
  { apply (ix_eq _ m Hn Hm) in E; [|lia|lia]. destruct (Nat.leb_spec (length sizes) (length all - k)); [lia|done]. }
  assert (k <> length all) by congruence. destruct (all !! k) as [[d o]|] eqn:Ek; [|apply lookup_ge_None in Ek; lia].
  destruct (slots_in _ _ _ _ _ k d o Hsl ltac:(lia) Ek) as [-> _]. cbn [mbind option_bind].
  rewrite Forall_forall in Hbufs. destruct (Hbufs (d, o)) as (_ & Elen & _).
  { apply list_elem_of_lookup. exists (k - a)%nat. rewrite lookup_drop. by replace (a + (k - a))%nat with k by lia. }
  cbn [fst] in Elen. rewrite Elen, (Heot _ _ _ Ek), <- (ix_S _ m Hn Hm), (drop_S _ _ _ Ek). change (h_pa (dd_decode c d)) with (slot_pa c (d, o)).
  destruct (single c || (rem <=? rxbufsize r)) eqn:Elast.
  - assert (sizes = [Z.min rem (rxbufsize r)]) as ->.
    { unfold sizes, sizes_of. destruct (single c); [done|]. cbn [orb] in Elast. cbn [chunks]. rewrite Elast. by rewrite Z.min_l by lia. }
    cbn [length]. rewrite (proj2 (Nat.leb_le 1 _)) by lia. by rewrite Nat.add_1_r.
  - apply orb_false_iff in Elast as [Es El%Z.leb_gt].
    assert (sizes = rxbufsize r :: sizes_of f (rxbufsize r) (rem - rxbufsize r)) as ->.
    { unfold sizes, sizes_of. rewrite Es. cbn [chunks]. by rewrite (proj2 (Z.leb_gt _ _)). }
    rewrite (IH r all a x h (S k) (rem - rxbufsize r) f Hi) by nia. cbn [mbind option_bind length].
    destruct (Nat.leb_spec (length (sizes_of f (rxbufsize r) (rem - rxbufsize r))) (length all - S k)).
    + rewrite (proj2 (Nat.leb_le (S _) _)) by lia. by rewrite Nat.add_succ_r.
    + by rewrite (proj2 (Nat.leb_gt (S _) _)) by lia.
Qed.

(** ** Legal posting *)
Lemma slot_entry r all a x h e : rx_inv c m r all a x h -> e ∈ drop a all -> snd e ∈ rxp r /\ slot_pa c e ∈ ring_pas r.
Proof.
  intros [_ Hsl _ _ _ _ _ _ _ Hbufs _] He. rewrite Forall_forall in Hbufs. destruct (Hbufs e He) as (_ & _ & _ & b & Eb & _ & Ea).
  apply list_elem_of_lookup in He as (k & Ek). rewrite lookup_drop in Ek. destruct e as [d p]. cbn [snd] in *.
  destruct (slots_in _ _ _ _ _ (a + k) d p Hsl ltac:(lia) Ek) as [_ Ep]. unfold aget in Ep. destruct (0 <=? _); [|done].
  assert (p ∈ rxp r) as Hp by (by apply list_elem_of_lookup; eexists). split; [done|]. unfold ring_pas. apply list_elem_of_omap.
  exists p. split; [done|]. rewrite Eb. cbn. by rewrite Ea.
Qed.
Lemma fresh_ok r all a x h gets : rx_inv c m r all a x h -> rx_fresh c r gets = true -> gets_ok c r all a gets.
Proof.
  intros Hi. unfold rx_fresh. rewrite !andb_true_iff. intros [[[H1%bool_decide_eq_true H2%bool_decide_eq_true] H3] H4].
  split; [done|]. split; [done|]. split.
  - intros g Hg Hg0. rewrite forallb_forall in H3. apply list_elem_of_In in Hg. specialize (H3 g Hg). apply orb_true_iff in H3 as [H3%Z.eqb_eq|H3]; [done|].
    by apply bool_decide_eq_true in H3.
  - intros pa Hpa. rewrite forallb_forall in H4. apply list_elem_of_In in Hpa. specialize (H4 pa Hpa). apply andb_true_iff in H4 as [H4%bool_decide_eq_true H5].
    split; [intros (e & -> & He)%elem_of_map; by apply H4, (slot_entry r all a x h e)|]. apply orb_true_iff in H5 as [?%Z.eqb_eq|?%Z.ltb_lt]; [by left|by right].
Qed.

(** ** The invariant of histories

    [fin]: the frames _dma_rx has gone past, [pend]: the others in the ring;
    [r0]: a ring with the settings. *)
Definition acct (s : rxs) (all : list (dma64dd * Z)) (a : nat) : Prop := y_got s ≡ₚ map snd (drop a all) ++ y_out s ++ r_freed (y_r s).
Record rxs_inv (r0 : dma_rx) (s : rxs) (all : list (dma64dd * Z)) (a x h : nat) (past pend : list (Z * list (Z * Z))) : Prop := {
  rs_ring : rx_inv c m (y_r s) all a x h;
  rs_conf : same_conf r0 (y_r s);
  rs_room : Z.of_nat (length all - a) <= nrxpost r0;
  rs_hw : y_hw s = ix (nrxd r0) h;
  rs_log : y_log s = past ++ pend;
  rs_pend : pend_ok c (y_r s) all a pend;
  rs_h : h = (a + nbufs pend)%nat;
  rs_x : exists j, (j <= length pend)%nat /\ x = (a + nbufs (take j pend))%nat;
  rs_del : y_del s = map snd (filter (fun f => good_frame c r0 f = true) past);
  rs_acct : acct s all a
}.

Lemma pend_len r all a pend : pend_ok c r all a pend -> (length pend <= nbufs pend)%nat.
Proof.
  revert a. induction pend as [|[len bl] pend IH]; intros a; [done|]. cbn [pend_ok]. intros (_ & Es & _ & _ & Hp%IH). rewrite nbufs_cons. cbn [snd length].
  destruct bl; [by pose proof (frame_sizes_pos c (rxbufsize r) (rxoffset r + len))|cbn; lia].
Qed.
Lemma pend_app r all a p1 p2 : pend_ok c r all a p1 -> pend_ok c r all (a + nbufs p1) p2 -> pend_ok c r all a (p1 ++ p2).
Proof.
  revert a. induction p1 as [|[len bl] p1 IH]; intros a; [cbn [nbufs map concat length]; by rewrite Nat.add_0_r|]. cbn [pend_ok app]. rewrite nbufs_cons.
  intros (H1 & H2 & H3 & H4 & H5) Hp. do 4 (split; [done|]). apply IH; [done|]. by rewrite <- Nat.add_assoc.
Qed.
(** The next frames are at the same place when nothing but the packets changes. *)
Lemma pend_same r r' all a pend :
  rxbufsize r' = rxbufsize r -> rxoffset r' = rxoffset r -> r_mem r' = r_mem r -> pend_ok c r all a pend -> pend_ok c r' all a pend.
Proof.
  intros E1 E2 E3. revert a. induction pend as [|[len bl] pend IH]; intros a; [done|]. cbn [pend_ok]. rewrite E1, E2, E3. intros (H1 & H2 & H3 & H4 & H5).
  do 4 (split; [done|]). by apply IH.
Qed.
Lemma same_env_conf r r' : same_env r r' -> same_conf r r'.
Proof. intros (?&?&?&?&?&?&?&?&?). by split_and!. Qed.
Lemma good_conf r0 r f : same_conf r0 r -> good_frame c r f = good_frame c r0 f.
Proof. intros (_ & _ & E1 & E2 & _). unfold good_frame. by rewrite E1, E2. Qed.

(** The addresses of different entries of the ring differ. *)
Lemma slot_ne r all a x h k l e e' : rx_inv c m r all a x h -> (a <= k)%nat -> (a <= l)%nat -> all !! k = Some e -> all !! l = Some e' -> k <> l -> slot_pa c e <> slot_pa c e'.
Proof.
  intros [_ _ _ _ _ _ _ _ _ _ [_ Hnd]] Hk Hl Ek El Hkl E. apply Hkl. assert (k - a = l - a)%nat; [|lia].
  apply (NoDup_lookup _ _ _ (slot_pa c e) Hnd); rewrite list_lookup_fmap, lookup_drop.
  - replace (a + (k - a))%nat with k by lia. by rewrite Ek.
  - replace (a + (l - a))%nat with l by lia. by rewrite El, E.
Qed.

Lemma with_gets_inv r all a x h gets : rx_inv c m r all a x h -> rx_inv c m (with_gets r gets) all a x h.
Proof. intros Hi. apply rx_inv_env; [done|]. by apply Forall_forall. Qed.

(** ** Steps *)
Lemma fill_step r0 s all a x h past pend gets : rxs_inv r0 s all a x h past pend -> rx_fresh c (y_r s) gets = true ->
  exists s' new, rx_step c (YFill gets) s = Some s' /\ rxs_inv r0 s' (all ++ new) a x h past pend.
Proof.
  intros [Hi Hsc Hroom Hhw Hlog Hp Hh Hx Hdel Hac] Hfr. pose proof (fresh_ok _ _ _ _ _ _ Hi Hfr) as Hg. cbn [rx_step].
  pose proof (ri_ord _ _ _ _ _ _ _ Hi) as [Ho1 Ho2]. pose proof Hsc as (_ & _ & _ & _ & Epost & _).
  pose proof (with_gets_inv _ _ _ _ _ gets Hi) as Hi0.
  destruct (rxfill_ok c m Hcfg (with_gets (y_r s) gets) all a x h (rx_status (y_r s) (y_hw s)) Hi0)
    as (b & r' & new & -> & Hi' & Hsc' & Ef & Hroom' & Em & Epk & Emem & _); [cbn; by rewrite Epost|done|]. cbn [mbind option_bind].
  eexists _, new. split; [done|]. assert (same_conf r0 r') as Hsc2 by (by transitivity (with_gets (y_r s) gets)).
  constructor; cbn [y_r y_hw y_log y_del y_out y_got]; try done.
  - cbn in Hroom'. by rewrite Epost in Hroom'.
  - pose proof Hsc' as (_ & _ & E1 & E2 & _). apply (pend_env c (y_r s)); try done; [lia|]. intros k e Hk Ek. apply Emem. intros (e' & E & He')%elem_of_map.
    apply list_elem_of_lookup in He' as (l & El). apply (slot_ne _ _ _ _ _ k (length all + l) e e' Hi'); try done; try lia; [by apply lookup_app_l_Some|].
    rewrite lookup_app_r by lia. by replace (length all + l - length all)%nat with l by lia.
  - unfold acct in *. cbn [y_r y_out y_got]. rewrite Ef. cbn [with_gets rx_env r_freed r_gets] in *. rewrite <- Em, drop_app_le, map_app by lia.
    rewrite Hac. perm_count.
Qed.

Lemma recv_step r0 s all a x h past pend len : rxs_inv r0 s all a x h past pend -> 0 <= len < 2 ^ 16 ->
  exists s' h' pend', rx_step c (YRecv len) s = Some s' /\ rxs_inv r0 s' all a x h' past pend'.
Proof.
  intros [Hi Hsc Hroom Hhw Hlog Hp Hh (j & Hj & Hx) Hdel Hac] Hlen. cbn [rx_step]. pose proof Hsc as (En & _ & Es & Eo & _).
  pose proof (ri_static _ _ _ _ _ _ _ Hi) as (Hn & Hm & _ & HS & Hoff & _). pose proof (ri_ord _ _ _ _ _ _ _ Hi) as [Ho1 Ho2].
  pose proof (sl_room _ _ _ _ _ (ri_slots _ _ _ _ _ _ _ Hi)) as [Hr1 Hr2]. pose proof (n_pos _ m Hn Hm).
  set (total := rxoffset (y_r s) + len). set (sizes := frame_sizes c (rxbufsize (y_r s)) total).
  assert (0 <= total <= Z.of_nat (S (Z.to_nat total)) * rxbufsize (y_r s)) as Htot by (assert (0 <= total) by lia; nia).
  rewrite Hhw, <- En, (hw_rx_ok _ _ _ _ _ _ h total (S (Z.to_nat total)) Hi); [|lia|lia|done|lia]. cbn [mbind option_bind]. change (sizes_of _ _ _) with sizes.
  destruct (Nat.leb_spec (length sizes) (length all - h)) as [Hfit|]; [|eexists _, h, pend; split; [done|]; constructor; try done; by exists j].
  set (bl := zip _ sizes). eexists _, (h + length sizes)%nat, (pend ++ [(len, bl)]). split; [done|].
  assert (length (map (slot_pa c) (take (length sizes) (drop h all))) = length sizes) as El by (rewrite length_map, length_take, length_drop; lia).
  assert (map fst bl = map (slot_pa c) (take (length sizes) (drop h all)) /\ map snd bl = sizes) as [Ef1 Ef2].
  { unfold bl. split; [apply fst_zip|apply snd_zip]; by rewrite El. }
  assert (length bl = length sizes) as Elb by (by rewrite <- Ef2, length_map).
  assert (length sizes <> 0)%nat as Hs0 by (intros E0%length_zero_iff_nil; by apply frame_sizes_pos in E0).
  destruct (all !! h) as [e|] eqn:Eh; [|apply lookup_ge_None in Eh; lia].
  assert (fst (hd (0, 0) bl) = slot_pa c e) as Ehd.
  { rewrite (drop_S _ _ _ Eh) in Ef1. destruct sizes as [|s0 sizes']; [done|]. cbn [length take map] in Ef1. destruct bl; [done|]. by injection Ef1. }
  rewrite Ehd. set (r' := rx_env _ _ _ _ _ _ _).
  assert (rx_inv c m r' all a x h) as Hi' by (apply rx_inv_env; [done|by apply Forall_forall]).
  constructor; cbn [y_r y_hw y_log y_del y_out y_got]; try done.
  - destruct Hi'. constructor; try done. lia.
  - by rewrite En.
  - by rewrite Hlog, <- app_assoc.
  - apply pend_app.
    + rewrite <- (app_nil_r all). apply (pend_env c (y_r s)); try done; [lia|]. intros k e' Hk Ek. unfold r'; cbn [rx_env r_mem]. rewrite lookup_insert_ne; [done|].
      apply (slot_ne _ _ _ _ _ h k e e' Hi); try done; lia.
    + rewrite <- Hh. cbn [pend_ok]. rewrite Elb. split; [done|]. split; [done|]. split; [done|]. split; [|done]. exists e. split; [done|].
      unfold r'; cbn [rx_env r_mem]. apply lookup_insert_eq.
  - rewrite nbufs_app, nbufs_cons. cbn [snd]. rewrite Elb. change (nbufs []) with 0%nat. lia.
  - exists j. rewrite length_app, take_app_le by done. split; [lia|done].
Qed.

(** The packets of the ring before and behind a position. *)
Lemma ids_drop all a a' : (a <= a')%nat -> map snd (drop a all) = ids all a (a' - a) ++ map snd (drop a' all).
Proof.
  intros Ha. unfold ids. rewrite <- map_app. f_equal. replace (drop a' all) with (drop (a' - a) (drop a all)) by (rewrite drop_drop; f_equal; lia).
  by rewrite take_drop.
Qed.
Lemma filter_bad r0 gs : Forall (fun f => good_frame c r0 f = false) gs -> filter (fun f => good_frame c r0 f = true) gs = [].
Proof. induction 1 as [|f gs Hf _ IH]; [done|]. rewrite filter_cons_False; [done|]. by rewrite Hf. Qed.

Lemma status_conf r0 s r h : same_conf r0 r -> y_hw s = ix (nrxd r0) h -> y_hw s = ix (nrxd r) h.
Proof. intros (-> & _). done. Qed.

(** What _dma_rx returns in a history. *)
Lemma rx_ok r0 s all a x h past pend : rxs_inv r0 s all a x h past pend ->
  exists p r' l a' x' gs rest, _dma_rx c (y_r s) (rx_status (y_r s) (y_hw s)) = Some (p, r') /\
    read_chain (S (S (size (r_pk r')))) (r_pk r') p = Some l /\
    rxs_inv r0 {| y_r := r'; y_hw := y_hw s; y_log := y_log s; y_del := if p =? 0 then y_del s else y_del s ++ [map snd l];
                  y_out := y_out s ++ map fst l; y_got := y_got s |} all a' x' h (past ++ gs) rest /\
    (p = 0 <-> filter (fun f => good_frame c r0 f = true) pend = []).
Proof.
  intros [Hi Hsc Hroom Hhw Hlog Hp Hh (j & Hj & Hx) Hdel Hac]. pose proof (status_conf _ _ _ _ Hsc Hhw) as Ehw.
  pose proof (ri_static _ _ _ _ _ _ _ Hi) as (Hn & Hm & _). pose proof (n_pos _ m Hn Hm). pose proof (pend_len _ _ _ _ Hp) as Hpl.
  pose proof (sl_room _ _ _ _ _ (ri_slots _ _ _ _ _ _ _ Hi)) as [Hr1 Hr2]. pose proof (ri_ord _ _ _ _ _ _ _ Hi) as [Ho1 Ho2].
  destruct (rx_loop_ok c m Hglom pend (S (S (Z.to_nat (nrxd (y_r s))))) (y_r s) all a x h j Hi Hp Hh Hx ltac:(lia))
    as (p & r' & gs & a' & x' & E & Hi' & He & Eg & Hbad & Hoth & Ha & Hcase).
  rewrite <- Ehw in E. assert (same_conf r0 r') as Hsc' by (transitivity (y_r s); [done|by apply same_env_conf]).
  assert (Forall (fun f => good_frame c r0 f = false) gs) as Hbad' by (apply (Forall_impl _ _ _ Hbad); intros f; by rewrite (good_conf r0)).
  pose proof (ids_drop all a a' Ha) as Eids. exists p, r'.
  destruct Hcase as [(-> & -> & -> & -> & Ef)|(Hp0 & f & rest & l & j' & fr & Ep & Hgf & Ehd & Hl0 & Hnd & Hch & Els & Hp' & Hh' & Hx' & Ef & Eid)].
  - exists [], h, h, gs, []. split; [done|]. split; [done|]. cbn [Z.eqb map]. rewrite app_nil_r. split; [|by rewrite (filter_bad r0)].
    constructor; cbn [y_r y_hw y_log y_del y_out y_got]; try done; [lia|by rewrite app_nil_r|exists 0%nat; change (nbufs (take 0 [])) with 0%nat; cbn; lia| |].
    + by rewrite Hdel, filter_app, (filter_bad r0 gs), app_nil_r.
    + unfold acct in *. cbn [y_r y_out y_got]. rewrite Hac, Eids, Ef. perm_count.
  - rewrite (good_conf r0) in Hgf by done. exists l, a', x', (gs ++ [f]), rest. split; [done|]. split.
    { rewrite Ehd. apply read_chain_ok; [done|done|]. pose proof (chain_length _ _ Hch Hnd). lia. }
    rewrite (proj2 (Z.eqb_neq p 0)) by done. split.
    + constructor; cbn [y_r y_hw y_log y_del y_out y_got]; try done.
      * lia.
      * by rewrite Hlog, Ep, <- !app_assoc.
      * exists (min j' (length rest)). split; [lia|]. rewrite Hx'. destruct (decide (j' <= length rest)%nat); [by rewrite Nat.min_l|].
        rewrite Nat.min_r, !take_ge by lia. done.
      * rewrite Hdel, !filter_app, (filter_bad r0 gs), filter_cons_True, map_app by done. cbn [app filter list_filter map]. by rewrite Els.
      * unfold acct in *. cbn [y_r y_out y_got]. rewrite Hac, Eids, Eid, Ef. perm_count.
    + split; [done|]. rewrite Ep, filter_app, filter_cons_True by done. intros [_ ?]%app_eq_nil. done.
Qed.

Lemma peekrx_ok r all a x h fuel : rx_inv c m r all a x h -> (0 < fuel)%nat -> exists p, peekrx_loop fuel (nrxd r) (rxp r) (rxin r) (ix (nrxd r) h) = Some p.
Proof.
  intros [(Hn & Hm & _) Hsl Hin _ _ _ [Ho1 Ho2] _ _ Hbufs _] Hf. pose proof (n_pos _ m Hn Hm). destruct fuel as [|fuel]; [lia|]. cbn [peekrx_loop].
  rewrite Hin. destruct (Z.eqb_spec (ix (nrxd r) a) (ix (nrxd r) h)) as [|E]; [by eexists|]. assert (a <> h) by congruence.
  destruct (all !! a) as [[d o]|] eqn:Ek; [|apply lookup_ge_None in Ek; lia]. destruct (slots_in _ _ _ _ _ a d o Hsl ltac:(lia) Ek) as [_ ->].
  cbn [mbind option_bind]. rewrite (drop_S _ _ _ Ek) in Hbufs. apply Forall_cons in Hbufs as [(Ho & _) _]. cbn [snd] in Ho.
  rewrite (proj2 (Z.eqb_neq o 0)) by done. by eexists.
Qed.
Lemma peek_step r0 s all a x h past pend : rxs_inv r0 s all a x h past pend ->
  exists s', rx_step c YPeek s = Some s' /\ rxs_inv r0 s' all a h h past pend.
Proof.
  intros [Hi Hsc Hroom Hhw Hlog Hp Hh Hx Hdel Hac]. cbn [rx_step]. unfold _dma_peeknextrxp. pose proof (status_conf _ _ _ _ Hsc Hhw) as Ehw. rewrite Ehw.
  pose proof (ri_static _ _ _ _ _ _ _ Hi) as (Hn & Hm & Hmask & _). pose proof (n_pos _ m Hn Hm). rewrite (proj2 (Z.eqb_neq _ 0)) by lia.
  pose proof (rx_status_ok c m _ _ _ _ _ Hi) as Hs0. rewrite Hmask, (curr_ix_ok _ m Hn Hm _ _ (ix (nrxd (y_r s)) h)) by (done || apply (ix_lt _ m Hn Hm)).
  destruct (peekrx_ok _ _ _ _ _ (S (Z.to_nat (nrxd (y_r s)))) Hi ltac:(lia)) as (p & ->). cbn [mbind option_bind]. eexists. split; [done|].
  constructor; cbn [with_r y_r y_hw y_log y_del y_out y_got]; try done.
  - destruct Hi as [H1 H2 H3 H4 H5 H6 [H7 H7'] H8 H9 H10 H11]. constructor; try done. lia.
  - by apply (pend_same (y_r s)).
  - exists (length pend). by rewrite firstn_all.
Qed.
Lemma use_step r0 s all a x h past pend p : rxs_inv r0 s all a x h past pend -> rx_legal c s (YUse p) = true ->
  exists s', rx_step c (YUse p) s = Some s' /\ rxs_inv r0 s' all a x h past pend.
Proof.
  intros [Hi Hsc Hroom Hhw Hlog Hp Hh Hx Hdel Hac]. cbn [rx_legal rx_step]. intros [_ Hu%bool_decide_eq_true]%andb_true_iff. eexists. split; [done|].
  constructor; cbn [with_r y_r y_hw y_log y_del y_out y_got]; try done.
  - apply rx_inv_env; [done|]. apply Forall_forall. intros e He. rewrite lookup_delete_ne; [done|]. intros ->. by apply Hu, (slot_entry _ _ _ _ _ _ Hi He).
  - by apply (pend_same (y_r s)).
Qed.

Lemma rx_step_ok r0 op s all a x h past pend : rxs_inv r0 s all a x h past pend -> rx_legal c s op = true ->
  exists s' all' a' x' h' past' pend', rx_step c op s = Some s' /\ rxs_inv r0 s' all' a' x' h' past' pend'.
Proof.
  intros Hi Hl. destruct op as [gets|len| | |p].
  - destruct (fill_step r0 s all a x h past pend gets Hi Hl) as (s' & new & E & Hi'). by eexists _, _, _, _, _, _, _.
  - cbn [rx_legal] in Hl. apply andb_true_iff in Hl as [?%Z.leb_le ?%Z.ltb_lt].
    destruct (recv_step r0 s all a x h past pend len Hi) as (s' & h' & pend' & E & Hi'); [lia|]. by eexists _, _, _, _, _, _, _.
  - destruct (rx_ok r0 s all a x h past pend Hi) as (p & r' & l & a' & x' & gs & rest & E & El & Hi' & _). cbn [rx_step]. rewrite E. cbn [mbind option_bind].
    rewrite El. cbn [mbind option_bind]. by eexists _, _, _, _, _, _, _.
  - destruct (peek_step r0 s all a x h past pend Hi) as (s' & E & Hi'). by eexists _, _, _, _, _, _, _.
  - destruct (use_step r0 s all a x h past pend p Hi Hl) as (s' & E & Hi'). by eexists _, _, _, _, _, _, _.
Qed.
Lemma rx_run_ok r0 ops s all a x h past pend : rxs_inv r0 s all a x h past pend -> rx_legal_run c ops s = true ->
  exists s' all' a' x' h' past' pend', rx_run c ops s = Some s' /\ rxs_inv r0 s' all' a' x' h' past' pend'.
Proof.
  revert s all a x h past pend. induction ops as [|op ops IH]; intros s all a x h past pend Hi; cbn [rx_legal_run rx_run]; [by eexists _, _, _, _, _, _, _|].
  intros [Hl Hls]%andb_true_iff. destruct (rx_step_ok r0 op s all a x h past pend Hi Hl) as (s1 & all1 & a1 & x1 & h1 & past1 & pend1 & E & Hi1).
  rewrite E in Hls |- *. cbn [mbind option_bind]. by apply (IH _ _ _ _ _ _ _ Hi1).
Qed.
End sys.
