(* ===== verification/HndDmaRxHist.v ===== *)
(** * DMA reception: what a history guarantees *)
From Stdlib Require Import ZArith Lia.
From stdpp Require Import base gmap option numbers list.
From S2P Require Import Prelude HndDma HndDmaRing HndDmaTx HndDmaTxProps HndDmaRx HndDmaRxInv HndDmaRxProps HndDmaRxFill HndDmaRxSys.

(** A ring of [n] descriptors after dma_attach and _dma_rxinit. *)
Definition rx_attach (n mask base size room off post : Z) : dma_rx :=
  _dma_rxinit {| nrxd := n; rxin := 0; rxout := 0; rxp := replicate (Z.to_nat n) 0; rxd64 := []; rxavail := 0; rs0cd := 0; nrxpost := post;
    rxbufsize := size; rxextrahdrroom := room; rxoffset := off; rxnobuf := 0; rxgiants := 0; rx_ptr := base; rcvptrbase := base;
    d64_rs0_cd_mask := mask; rx_maps := []; r_pk := ∅; r_mem := ∅; r_gets := []; r_freed := [] |}.
Definition rx_start (n mask base size room off post : Z) : rxs :=
  {| y_r := rx_attach n mask base size room off post; y_hw := 0; y_log := []; y_del := []; y_out := []; y_got := [] |}.

Section hist.
Context `{DmaBus} (c : dma_cfg) (m : Z).
Hypothesis Hcfg : cfg_ok c.



End hist.



(** Without DMA_CTRL_RXMULTI the frame that takes two buffers is dropped: its
    packets are freed, and the next frame is returned. *)
Lemma rx_giant_dropped :
  let cfg := {| dmactrlflags := 0; dataoffsetlow := 0; dataoffsethigh := 0; burstsize_ctrl := false |} in
  option_map (fun s => (y_del s, y_out s, r_freed (y_r s), rxgiants (y_r s)))
    (rx_run cfg [YFill [(1, 0x1000); (2, 0x2000); (3, 0x3000)]; YRecv 600; YRecv 40; YRx] (rx_start 4 (2 ^ 13 - 1) 0 512 0 30 3)) =
  Some ([[(0x3000, 70)]], [3], [1; 2], 1).
Proof. vm_compute. reflexivity. Qed.
