(* ===== verification/ProtCtrl.v ===== *)
(** * The control path of the message-buffer protocol

    dhd/sys/dhd_msgbuf.c: buffers for events and ioctl responses, the ioctl
    request with its acknowledgement and completion, events, and the flow-ring
    requests, all on the control submission ring.  The protocol state is the
    one of [ProtState]; [dhd_ctl] adds the fields only the control path uses.
    Built with DHD_FW_COREDUMP and OEM_ANDROID, without IOCTLRESP_USE_CONSTMEM
    and SUPPORT_LINKDOWN_RECOVERY; prints are left out.

    A caller's buffer is the memory from its address on, [None] for NULL.  An
    ioctl sleeps in dhd_os_ioctl_resp_wait while messages are processed: the
    functions that sleep take what happens then as a parameter. *)
From Stdlib Require Import ZArith Lia String Ascii.
From stdpp Require Import base option numbers gmap list.
From S2P Require Import Prelude Bytes PktidMap Tcm RingIndex MsgRing MsgFifo ProtState ProtRx FlowQueue FlowTable CStr.

(** ** Constants *)
Definition MSG_TYPE_FLOW_RING_CREATE : Z := 3.
Definition MSG_TYPE_FLOW_RING_CREATE_CMPLT : Z := 4.
Definition MSG_TYPE_FLOW_RING_DELETE : Z := 5.
Definition MSG_TYPE_FLOW_RING_DELETE_CMPLT : Z := 6.
Definition MSG_TYPE_FLOW_RING_FLUSH : Z := 7.
Definition MSG_TYPE_FLOW_RING_FLUSH_CMPLT : Z := 8.
Definition MSG_TYPE_IOCTLPTR_REQ : Z := 9.
Definition MSG_TYPE_IOCTLRESP_BUF_POST : Z := 11.
Definition MSG_TYPE_EVENT_BUF_POST : Z := 13.

Definition DHD_BUS_DOWN : Z := 0.
Definition DHD_BUS_SUSPEND : Z := 3.
Definition DHD_FLOWRING_IOCTL_BUFPOST_PKTSZ : Z := 8192.
Definition DHD_FLOWRING_MAX_EVENTBUF_POST : Z := 8.
Definition DHD_FLOWRING_MAX_IOCTLRESPBUF_POST : Z := 8.
Definition WLC_IOCTL_MAXLEN : Z := 8192.
Definition IOCT_RETBUF_SIZE : Z := 8 + WLC_IOCTL_MAXLEN.
Definition MSGBUF_IOCTL_MAX_RQSTLEN : Z := 2048 - 40.
Definition MSGBUF_IOCTL_ACK_PENDING : Z := 1.
Definition MSGBUF_IOCTL_RESP_PENDING : Z := 2.
Definition H2DRING_TXPOST_MAX_ITEM : Z := 512.
Definition H2DRING_TXPOST_ITEMSIZE : Z := 48.
Definition DHD_BUS_TPUT_BUF_LEN : Z := 2048.
Definition WLC_GET_VAR : Z := 262.
Definition WLC_SET_VAR : Z := 263.
Definition WL_IOCTL_ACTION_SET : Z := 1.
Definition BCME_STRLEN : Z := 64.
Definition BCME_BUSY : Z := -16.
Definition BCME_LAST : Z := -53.
Definition EIO : Z := 5.
Definition ETIMEDOUT : Z := 110.
Definition EREMOTEIO : Z := 121.
Definition CTRL : Z := 0.  (* h2dring_ctrl_subn *)

(** ** State *)

(** Of dhd_pub_t. *)
Record dhd_flags := {
  busstate : Z;
  hang_was_sent : bool;
  dongle_reset : bool;
  dongle_trap_occured : bool;
  memdump_enabled : bool;
  rxcnt_timeout : Z;      (* int *)
  rx_ctlpkts : Z;         (* ulong *)
  rx_ctlerrs : Z;         (* ulong *)
  dongle_error : Z;       (* int *)
  wme_dp : Z              (* uint8 *)
}.

(** Of struct dhd_prot. *)
Record ioctl_regs := {
  ioctl_state : Z;        (* uint8 *)
  ioctl_status : Z;       (* int16 *)
  ioctl_resplen : Z;      (* uint16 *)
  ioctl_received : Z;     (* uint *)
  curr_ioctl_cmd : Z;     (* uint *)
  ioctl_trans_id : Z;     (* uint16 *)
  retbuf : list Z;
  ioctbuf : list Z;
  ioctbuf_pa : Z;
  host_bus_throughput_buf_pa : Z
}.
Record ctl_bufs := {
  max_eventbufpost : Z;           (* uint16, like the fields below *)
  max_ioctlrespbufpost : Z;
  cur_event_bufs_posted : Z;
  cur_ioctlresp_bufs_posted : Z
}.

Record dhd_ctl := { c_p : dhd_prot; c_f : dhd_flags; c_i : ioctl_regs; c_b : ctl_bufs }.

Definition with_p (s : dhd_ctl) (p : dhd_prot) : dhd_ctl := {| c_p := p; c_f := c_f s; c_i := c_i s; c_b := c_b s |}.
Definition with_f (s : dhd_ctl) (f : dhd_flags) : dhd_ctl := {| c_p := c_p s; c_f := f; c_i := c_i s; c_b := c_b s |}.
Definition with_i (s : dhd_ctl) (i : ioctl_regs) : dhd_ctl := {| c_p := c_p s; c_f := c_f s; c_i := i; c_b := c_b s |}.
Definition with_b (s : dhd_ctl) (b : ctl_bufs) : dhd_ctl := {| c_p := c_p s; c_f := c_f s; c_i := c_i s; c_b := b |}.

Definition set_ioctl_state (i : ioctl_regs) (v : Z) : ioctl_regs :=
  {| ioctl_state := v; ioctl_status := ioctl_status i; ioctl_resplen := ioctl_resplen i;
     ioctl_received := ioctl_received i; curr_ioctl_cmd := curr_ioctl_cmd i; ioctl_trans_id := ioctl_trans_id i;
     retbuf := retbuf i; ioctbuf := ioctbuf i; ioctbuf_pa := ioctbuf_pa i;
     host_bus_throughput_buf_pa := host_bus_throughput_buf_pa i |}.
Definition set_response (i : ioctl_regs) (resplen status : Z) : ioctl_regs :=
  {| ioctl_state := ioctl_state i; ioctl_status := status; ioctl_resplen := resplen;
     ioctl_received := ioctl_received i; curr_ioctl_cmd := curr_ioctl_cmd i; ioctl_trans_id := ioctl_trans_id i;
     retbuf := retbuf i; ioctbuf := ioctbuf i; ioctbuf_pa := ioctbuf_pa i;
     host_bus_throughput_buf_pa := host_bus_throughput_buf_pa i |}.
Definition set_received (i : ioctl_regs) (mem : list Z) (v : Z) : ioctl_regs :=
  {| ioctl_state := ioctl_state i; ioctl_status := ioctl_status i; ioctl_resplen := ioctl_resplen i;
     ioctl_received := v; curr_ioctl_cmd := curr_ioctl_cmd i; ioctl_trans_id := ioctl_trans_id i;
     retbuf := mem; ioctbuf := ioctbuf i; ioctbuf_pa := ioctbuf_pa i;
     host_bus_throughput_buf_pa := host_bus_throughput_buf_pa i |}.
Definition set_request (i : ioctl_regs) (cmd trans_id : Z) (mem : list Z) : ioctl_regs :=
  {| ioctl_state := ioctl_state i; ioctl_status := ioctl_status i; ioctl_resplen := ioctl_resplen i;
     ioctl_received := ioctl_received i; curr_ioctl_cmd := cmd; ioctl_trans_id := trans_id;
     retbuf := retbuf i; ioctbuf := mem; ioctbuf_pa := ioctbuf_pa i;
     host_bus_throughput_buf_pa := host_bus_throughput_buf_pa i |}.

Definition set_cur_event (b : ctl_bufs) (v : Z) : ctl_bufs :=
  {| max_eventbufpost := max_eventbufpost b; max_ioctlrespbufpost := max_ioctlrespbufpost b;
     cur_event_bufs_posted := v; cur_ioctlresp_bufs_posted := cur_ioctlresp_bufs_posted b |}.
Definition set_cur_ioctlresp (b : ctl_bufs) (v : Z) : ctl_bufs :=
  {| max_eventbufpost := max_eventbufpost b; max_ioctlrespbufpost := max_ioctlrespbufpost b;
     cur_event_bufs_posted := cur_event_bufs_posted b; cur_ioctlresp_bufs_posted := v |}.

Definition set_rx_counts (f : dhd_flags) (tmo pkts errs : Z) : dhd_flags :=
  {| busstate := busstate f; hang_was_sent := hang_was_sent f; dongle_reset := dongle_reset f;
     dongle_trap_occured := dongle_trap_occured f; memdump_enabled := memdump_enabled f; rxcnt_timeout := tmo;
     rx_ctlpkts := pkts; rx_ctlerrs := errs; dongle_error := dongle_error f; wme_dp := wme_dp f |}.
Definition set_dongle_error (f : dhd_flags) (v : Z) : dhd_flags :=
  {| busstate := busstate f; hang_was_sent := hang_was_sent f; dongle_reset := dongle_reset f;
     dongle_trap_occured := dongle_trap_occured f; memdump_enabled := memdump_enabled f;
     rxcnt_timeout := rxcnt_timeout f; rx_ctlpkts := rx_ctlpkts f; rx_ctlerrs := rx_ctlerrs f;
     dongle_error := v; wme_dp := wme_dp f |}.
Definition set_wme_dp (f : dhd_flags) (v : Z) : dhd_flags :=
  {| busstate := busstate f; hang_was_sent := hang_was_sent f; dongle_reset := dongle_reset f;
     dongle_trap_occured := dongle_trap_occured f; memdump_enabled := memdump_enabled f;
     rxcnt_timeout := rxcnt_timeout f; rx_ctlpkts := rx_ctlpkts f; rx_ctlerrs := rx_ctlerrs f;
     dongle_error := dongle_error f; wme_dp := v |}.

(** ** Messages

    cmn_msg_hdr_t: msg_type 0, if_id 1, flags 2, epoch 3, request_id 4.  A
    message is what is written into its slot; [epoch] is the ring's sequence
    number modulo H2D_EPOCH_MODULO. *)

(** ioctl_resp_evt_buf_post_msg_t: host_buf_len 8, host_buf_addr 16 (low, high);
    msg_type is written before the packet id is allocated. *)
Definition evt_buf_post_type (event_buf : bool) : list (Z * list Z) :=
  [(0, le_bytes 1 (if event_buf then MSG_TYPE_EVENT_BUF_POST else MSG_TYPE_IOCTLRESP_BUF_POST))].
Definition evt_buf_post_msg (pktid pktlen pa : Z) (epoch : Z) : list (Z * list Z) :=
  [(4, le_bytes 4 pktid); (1, le_bytes 1 0); (3, le_bytes 1 epoch); (2, le_bytes 1 0);
   (8, le_bytes 2 (u16 pktlen)); (20, le_bytes 4 (PHYSADDRHI pa)); (16, le_bytes 4 (PHYSADDRLO pa))].

(** ioctl_req_msg_t: cmd 8, trans_id 12, input_buf_len 14, output_buf_len 16,
    host_input_buf_addr 24. *)
Definition ioctl_req_msg (ifidx cmd trans_id rqstlen resplen pa : Z) (epoch : Z) : list (Z * list Z) :=
  [(0, le_bytes 1 MSG_TYPE_IOCTLPTR_REQ); (1, le_bytes 1 (u8 ifidx)); (2, le_bytes 1 0);
   (4, le_bytes 4 DHD_IOCTL_REQ_PKTID); (3, le_bytes 1 epoch); (8, le_bytes 4 (u32 cmd));
   (16, le_bytes 2 resplen); (12, le_bytes 2 trans_id); (14, le_bytes 2 rqstlen);
   (28, le_bytes 4 (PHYSADDRHI pa)); (24, le_bytes 4 (PHYSADDRLO pa))].

Definition ea_bytes (a : ether_addr) : list Z := [u8 (ea0 a); u8 (ea1 a); u8 (ea2 a); u8 (ea3 a); u8 (ea4 a); u8 (ea5 a)].

(** tx_flowring_create_request_t: da 8, sa 14, tid 20, flow_ring_id 22,
    max_items 28, len_item 30, flow_ring_ptr 32. *)
Definition flow_create_msg (n : flow_ring_node) (base : list Z) (epoch : Z) : list (Z * list Z) :=
  [(0, le_bytes 1 MSG_TYPE_FLOW_RING_CREATE); (1, le_bytes 1 (u8 (fr_ifindex n))); (4, le_bytes 4 0);
   (3, le_bytes 1 epoch); (20, le_bytes 1 (u8 (fr_tid n))); (22, le_bytes 2 (u16 (fr_flowid n)));
   (14, ea_bytes (fr_sa n)); (8, ea_bytes (fr_da n)); (32, base);
   (28, le_bytes 2 H2DRING_TXPOST_MAX_ITEM); (30, le_bytes 2 H2DRING_TXPOST_ITEMSIZE)].

(** tx_flowring_delete_request_t and tx_flowring_flush_request_t: flow_ring_id
    8, reason 10. *)
Definition flow_request_msg (msg_type : Z) (n : flow_ring_node) (epoch : Z) : list (Z * list Z) :=
  [(0, le_bytes 1 msg_type); (1, le_bytes 1 (u8 (fr_ifindex n))); (4, le_bytes 4 0); (3, le_bytes 1 epoch);
   (8, le_bytes 2 (u16 (fr_flowid n))); (10, le_bytes 2 (u16 BCME_OK))].

(** The message is written at [off] of the control ring, and seqnum moves on. *)
Definition ctrl_msg (p : dhd_prot) (off : Z) (msg : Z -> list (Z * list Z)) : option dhd_prot :=
  r ← aget (h2d_rings p) CTRL;
  p ← ring_fill p CTRL off (msg (seqnum r mod H2D_EPOCH_MODULO));
  r ← aget (h2d_rings p) CTRL;
  ring_upd p CTRL (set_seqnum r (u32 (seqnum r + 1))).

(** ** Strings in a caller's buffer *)
Definition chars (s : string) : list Z := map (fun c => Z.of_nat (nat_of_ascii c)) (list_ascii_of_string s).

(** !strcmp(buf, s): the bytes are compared up to the first difference. *)
Fixpoint mem_eq (m : list Z) (off : Z) (cs : list Z) : option bool :=
  match cs with
  | [] => Some true
  | c :: cs => b ← aget m off; if b =? c then mem_eq m (off + 1) cs else Some false
  end.
Definition streq (m : list Z) (s : string) : option bool := mem_eq m 0 (chars s ++ [0]).

(** bcmutils.h: BCMERRSTRINGTABLE; bcmutils.c: bcmerrorstr. *)
Definition bcmerrorstrtable : list string :=
  ["OK"; "Undefined error"; "Bad Argument"; "Bad Option"; "Not up"; "Not down"; "Not AP"; "Not STA";
   "Bad Key Index"; "Radio Off"; "Not band locked"; "No clock"; "Bad Rate valueset"; "Bad Band";
   "Buffer too short"; "Buffer too long"; "Busy"; "Not Associated"; "Bad SSID len"; "Out of Range Channel";
   "Bad Channel"; "Bad Address"; "Not Enough Resources"; "Unsupported"; "Bad length"; "Not Ready";
   "Not Permitted"; "No Memory"; "Associated"; "Not In Range"; "Not Found"; "WME Not Enabled";
   "TSPEC Not Found"; "ACM Not Supported"; "Not WME Association"; "SDIO Bus Error"; "Dongle Not Accessible";
   "Incorrect version"; "TX Failure"; "RX Failure"; "Device Not Present"; "NMODE Disabled";
   "Nonresident overlay access"; "Scan Rejected"; "WLCMD usage error"; "WLCMD ioctl error";
   "RWL serial port error"; "Disabled"; "Decrypt error"; "Encrypt error"; "MIC error"; "Replay";
   "IE not found"; "Data not found"]%string.
Definition bcmerrorstr (bcmerror : Z) : option (list Z) :=
  if (0 <? bcmerror) || (bcmerror <? BCME_LAST) then
    Some (snprintf_out 32 (chars "Undefined error " ++
      (if bcmerror <? 0 then 45 :: fmt_d (- bcmerror) else fmt_d bcmerror)))
  else chars <$> aget bcmerrorstrtable (- bcmerror).
(** strncpy: the rest of the [n] bytes is filled with NUL. *)
Definition strncpy (m : list Z) (s : list Z) (n : Z) : option (list Z) :=
  let s := take (Z.to_nat n) s in
  st_bytes m 0 (s ++ replicate (Z.to_nat n - length s) 0).

(** ** Buffers for events and ioctl responses *)
Section ctrl.
(** DMA_MAP as in [ProtTx].  PKTGET: what the [n]-th call of it returns, a packet
    of the length asked for and the address of its data, or nothing; the count
    of calls is threaded. *)
Variable DMA_MAP : Z -> Z -> Z -> Z.
Variable PKTGET : Z -> option (Z * Z).

(** The result, the number of calls of PKTGET so far and the state.  The second
    test of the packet id, under DHD_PCIE_PKTID, repeats the first. *)
Definition dhd_prot_rxbufpost_ctrl (bus_state n : Z) (p : dhd_prot) (event_buf : bool) : option (Z * Z * dhd_prot) :=
  if bus_state =? DHD_BUS_DOWN then Some (-1, n, p) else
  let pktsz := if event_buf then DHD_FLOWRING_RX_BUFPOST_PKTSZ else DHD_FLOWRING_IOCTL_BUFPOST_PKTSZ in
  let ty := if event_buf then PKTTYPE_EVENT_RX else PKTTYPE_IOCTL_RX in
  match PKTGET n with
  | None => Some (-1, n + 1, set_pktgetfail p (wrapu 64 (rx_pktgetfail p + 1)))
  | Some (pkt, va) =>
      let n := n + 1 in
      let pktlen := pktsz in
      let pa := DMA_MAP va pktlen DMA_RX in
      let p := emit p [DmaMap va pktlen DMA_RX pa] in
      if PHYSADDRISZERO pa then Some (-1, n, emit p [PktFree pkt false]) else
      '(rxbuf_post, _, p) ← prot_alloc_ring_space p CTRL 1 0 false;
      match (rxbuf_post : option Z) with
      | None => Some (-1, n, emit p [DmaUnmap pa pktlen DMA_RX pkt; PktFree pkt false])
      | Some off =>
          p ← ring_fill p CTRL off (evt_buf_post_type event_buf);
          '(pktid, m) ← dhd_pktid_map_alloc (pktid_map_handle p) pkt pa pktlen DMA_RX 0 0 ty;
          let p := set_map p m in
          if pktid =? DHD_PKTID_INVALID then
            r ← aget (h2d_rings p) CTRL;
            p ← ring_upd p CTRL (set_wr r (if wr r =? 0 then u16 (max_items r - 1) else u16 (wr r - 1)));
            Some (-1, n, emit p [DmaUnmap pa pktlen DMA_RX pkt; PktFree pkt false])
          else
            p ← prot_pktid_audit p pktid DHD_DUPLICATE_ALLOC;
            p ← ctrl_msg p off (evt_buf_post_msg pktid pktlen pa);
            p ← prot_ring_write_complete p CTRL (Some off) 1;
            Some (1, n, p)
      end
  end.

(** The loop; [i] buffers were posted. *)
Fixpoint rxbuf_post_ctrl_loop (fuel : nat) (bus_state n : Z) (p : dhd_prot) (event_buf : bool) (i : Z)
    : option (Z * Z * dhd_prot) :=
  match fuel with
  | O => Some (i, n, p)
  | S fuel =>
      '(ret_val, n, p) ← dhd_prot_rxbufpost_ctrl bus_state n p event_buf;
      if ret_val <? 0 then Some (i, n, p) else rxbuf_post_ctrl_loop fuel bus_state n p event_buf (i + 1)
  end.
Definition dhd_msgbuf_rxbuf_post_ctrlpath (bus_state n : Z) (p : dhd_prot) (event_buf : bool) (max_to_post : Z)
    : option (Z * Z * dhd_prot) :=
  if bus_state =? DHD_BUS_DOWN then Some (0, n, p) else
  '(i, n, p) ← rxbuf_post_ctrl_loop (Z.to_nat max_to_post) bus_state n p event_buf 0;
  Some (u16 i, n, p).

Definition dhd_msgbuf_rxbuf_post_ioctlresp_bufs (n : Z) (s : dhd_ctl) : option (Z * dhd_ctl) :=
  let b := c_b s in
  let max_to_post := max_ioctlrespbufpost b - cur_ioctlresp_bufs_posted b in
  if max_to_post <=? 0 then Some (n, s) else
  '(k, n, p) ← dhd_msgbuf_rxbuf_post_ctrlpath (busstate (c_f s)) n (c_p s) false max_to_post;
  Some (n, with_b (with_p s p) (set_cur_ioctlresp b (u16 (cur_ioctlresp_bufs_posted b + k)))).
Definition dhd_msgbuf_rxbuf_post_event_bufs (n : Z) (s : dhd_ctl) : option (Z * dhd_ctl) :=
  let b := c_b s in
  let max_to_post := max_eventbufpost b - cur_event_bufs_posted b in
  if max_to_post <=? 0 then Some (n, s) else
  '(k, n, p) ← dhd_msgbuf_rxbuf_post_ctrlpath (busstate (c_f s)) n (c_p s) true max_to_post;
  Some (n, with_b (with_p s p) (set_cur_event b (u16 (cur_event_bufs_posted b + k)))).

(** ** The dongle's control messages *)

(** ioctl_req_ack_msg_t. *)
Definition dhd_prot_ioctack_process (s : dhd_ctl) (msg : list Z) : option dhd_ctl :=
  pktid ← ld 4 msg 4;
  p ← (if negb (pktid =? DHD_IOCTL_REQ_PKTID) then prot_pktid_audit (c_p s) pktid DHD_TEST_IS_ALLOC else Some (c_p s));
  let s := with_p s p in
  let st := ioctl_state (c_i s) in
  if negb (Z.land st MSGBUF_IOCTL_ACK_PENDING =? 0) && negb (Z.land st MSGBUF_IOCTL_RESP_PENDING =? 0)
  then Some (with_i s (set_ioctl_state (c_i s) (Z.land st (255 - MSGBUF_IOCTL_ACK_PENDING))))
  else Some s.

(** ioctl_comp_resp_msg_t: status 8, resp_len 12, trans_id 14.  [data] are the
    bytes of the completed packet's buffer. *)
Definition dhd_prot_ioctcmplt_process (s : dhd_ctl) (msg data : list Z) : option dhd_ctl :=
  pkt_id ← ld 4 msg 4;
  p ← prot_pktid_audit (c_p s) pkt_id DHD_DUPLICATE_FREE;
  let s := with_p s p in
  let i := c_i s in
  if negb (Z.land (ioctl_state i) MSGBUF_IOCTL_ACK_PENDING =? 0) ||
     (Z.land (ioctl_state i) MSGBUF_IOCTL_RESP_PENDING =? 0)
  then Some (with_i s (set_ioctl_state i 0))
  else
    '(pkt, p) ← dhd_prot_packet_get p pkt_id PKTTYPE_IOCTL_RX true;
    let s := with_p s p in
    if pkt =? 0 then Some (with_i s (set_ioctl_state i 0))
    else
      resp_len ← ld 2 msg 12;
      status ← ld 2 msg 8;
      xt_id ← ld 2 msg 14;
      let i := set_response i resp_len (wraps 16 status) in
      if negb (xt_id =? ioctl_trans_id i) then Some (with_i (with_p s (emit p [PktFree pkt false])) i)
      else
        mem ← (if 0 <? ioctl_resplen i
               then bs ← ld_bytes data 0 (Z.to_nat (ioctl_resplen i)); st_bytes (retbuf i) 0 bs
               else Some (retbuf i));
        Some (with_i (with_p s (emit p [IoctlWake; PktFree pkt false])) (set_received i mem 1)).

(** wlevent_req_msg_t: event_data_len 12. *)
Definition dhd_prot_event_process (n : Z) (s : dhd_ctl) (msg : list Z) : option (Z * dhd_ctl) :=
  bufid ← ld 4 msg 4;
  p ← prot_pktid_audit (c_p s) bufid DHD_DUPLICATE_FREE;
  let s := with_p s p in
  buflen ← ld 2 msg 12;
  ifidx ← ld 1 msg 1;
  let b := c_b s in
  let s := if negb (cur_event_bufs_posted b =? 0) then with_b s (set_cur_event b (u16 (cur_event_bufs_posted b - 1)))
           else s in
  '(n, s) ← dhd_msgbuf_rxbuf_post_event_bufs n s;
  '(pkt, p) ← dhd_prot_packet_get (c_p s) bufid PKTTYPE_EVENT_RX true;
  if pkt =? 0 then Some (n, with_p s p)
  else Some (n, with_p s (emit p [RxFrame pkt (rx_dataoffset p) buflen ifidx])).

(** ** Ioctls *)
Definition dhd_fillup_ioct_reqst (s : dhd_ctl) (len cmd : Z) (buf : option (list Z)) (ifidx : Z)
    : option (Z * dhd_ctl) :=
  let rqstlen := Z.min len MSGBUF_IOCTL_MAX_RQSTLEN in
  let resplen := len in
  let i := c_i s in
  if negb (ioctl_state i =? 0) then Some (BCME_BUSY, s)
  else
    let i := set_ioctl_state i (Z.lor MSGBUF_IOCTL_ACK_PENDING MSGBUF_IOCTL_RESP_PENDING) in
    '(ioct_rqst, _, p) ← prot_alloc_ring_space (c_p s) CTRL 1 0 false;
    match (ioct_rqst : option Z) with
    | None => Some (-1, with_i (with_p s p) (set_request (set_ioctl_state i 0) 0 (ioctl_trans_id i) (ioctbuf i)))
    | Some off =>
        let trans_id := u16 (ioctl_trans_id i + 1) in
        p ← ctrl_msg p off (ioctl_req_msg ifidx cmd trans_id rqstlen resplen (ioctbuf_pa i));
        mem ← (match buf with
               | Some b => bs ← ld_bytes b 0 (Z.to_nat len); st_bytes (ioctbuf i) 0 bs
               | None => Some (ioctbuf i)
               end);
        p ← prot_ring_write_complete (emit p [BufFlush len]) CTRL (Some off) 1;
        Some (0, with_i (with_p s p) (set_request i cmd trans_id mem))
    end.

(** The exit of dhd_msgbuf_wait_ioctl_cmplt. *)
Definition ioctl_out (s : dhd_ctl) : dhd_ctl :=
  let i := set_ioctl_state (c_i s) (Z.land (ioctl_state (c_i s)) (255 - MSGBUF_IOCTL_RESP_PENDING)) in
  let i := set_received (set_response i 0 (ioctl_status i)) (retbuf i) 0 in
  with_i s (set_request i 0 (ioctl_trans_id i) (ioctbuf i)).

(** Its part before the sender sleeps and the part after; the caller's buffer
    is returned. *)
Definition wait_begin (n : Z) (s : dhd_ctl) : option (Z * dhd_ctl) :=
  let b := c_b s in
  let s := if negb (cur_ioctlresp_bufs_posted b =? 0)
           then with_b s (set_cur_ioctlresp b (u16 (cur_ioctlresp_bufs_posted b - 1))) else s in
  dhd_msgbuf_rxbuf_post_ioctlresp_bufs n s.
Definition wait_end (timeleft : Z) (s : dhd_ctl) (len : Z) (buf : option (list Z))
    : option (Z * option (list Z) * dhd_ctl) :=
  let f := c_f s in
  if timeleft =? 0 then
    let f := set_rx_counts f (s32 (rxcnt_timeout f + 1)) (rx_ctlpkts f) (wrapu 64 (rx_ctlerrs f + 1)) in
    let p := emit (c_p s) (if memdump_enabled f && negb (dongle_trap_occured f) then [MemDump] else []) in
    Some (- ETIMEDOUT, buf, ioctl_out (with_f (with_p s p) f))
  else
    let s := with_f s (set_rx_counts f 0 (wrapu 64 (rx_ctlpkts f + 1)) (rx_ctlerrs f)) in
    if dongle_trap_occured f then Some (- EREMOTEIO, buf, ioctl_out s)
    else
      let i := c_i s in
      let i := if len <? ioctl_resplen i then set_response i (u16 len) (ioctl_status i) else i in
      buf ← (match buf with
             | Some b => bs ← ld_bytes (retbuf i) 0 (Z.to_nat (ioctl_resplen i)); Some <$> st_bytes b 0 bs
             | None => Some None
             end);
      Some (ioctl_status i, buf, ioctl_out (with_i s i)).

(** [dhd_os_ioctl_resp_wait] (dhd/sys/dhd_linux.c) lets the sender sleep: the
    time left, 0 for a timeout, and what became of the state. *)
Variable dhd_os_ioctl_resp_wait : Z -> dhd_ctl -> option (Z * Z * dhd_ctl).

Definition dhd_msgbuf_wait_ioctl_cmplt (n : Z) (s : dhd_ctl) (len : Z) (buf : option (list Z))
    : option (Z * option (list Z) * Z * dhd_ctl) :=
  if dongle_reset (c_f s) then Some (- EIO, buf, n, ioctl_out s)
  else
    '(n, s) ← wait_begin n s;
    '(timeleft, n, s) ← dhd_os_ioctl_resp_wait n s;
    '(ret, buf, s) ← wait_end timeleft s len buf;
    Some (ret, buf, n, s).

(** The answer from the local cache, if there is one. *)
Definition local_answer (s : dhd_ctl) (cmd : Z) (buf : option (list Z)) : option (option (list Z)) :=
  match buf with
  | Some b =>
      if cmd =? WLC_GET_VAR then
        is_str ← streq b "bcmerrorstr";
        if is_str : bool then e ← bcmerrorstr (dongle_error (c_f s)); Some <$> strncpy b e BCME_STRLEN
        else
          is_err ← streq b "bcmerror";
          if is_err : bool then Some <$> st 4 b 0 (u32 (dongle_error (c_f s))) else Some None
      else Some None
  | None => Some None
  end.
Definition dhd_msgbuf_query_ioctl (n : Z) (s : dhd_ctl) (ifidx cmd : Z) (buf : option (list Z)) (len : Z)
    : option (Z * option (list Z) * Z * dhd_ctl) :=
  local ← local_answer s cmd buf;
  match local with
  | Some b => Some (0, Some b, n, s)
  | None =>
      '(_, s) ← dhd_fillup_ioct_reqst s (u16 len) cmd buf ifidx;
      dhd_msgbuf_wait_ioctl_cmplt n s len buf
  end.
Definition dhd_msgbuf_set_ioctl (n : Z) (s : dhd_ctl) (ifidx cmd : Z) (buf : option (list Z)) (len : Z)
    : option (Z * option (list Z) * Z * dhd_ctl) :=
  if busstate (c_f s) =? DHD_BUS_DOWN then Some (- EIO, buf, n, s) else
  if hang_was_sent (c_f s) then Some (- EIO, buf, n, s) else
  '(_, s) ← dhd_fillup_ioct_reqst s (u16 len) cmd buf ifidx;
  dhd_msgbuf_wait_ioctl_cmplt n s len buf.

(** pcie_bus_tput_params_t after the name: host_buf_len 2, host_buf_addr 4. *)
Definition dhd_prot_wlioctl_intercept (s : dhd_ctl) (cmd : Z) (buf : option (list Z)) : option (option (list Z)) :=
  match buf with
  | Some b =>
      if cmd =? WLC_SET_VAR then
        eq ← streq b "pcie_bus_tput";
        if eq : bool then
          b ← st 8 b (14 + 4) (host_bus_throughput_buf_pa (c_i s));
          Some <$> st 2 b (14 + 2) DHD_BUS_TPUT_BUF_LEN
        else Some buf
      else Some buf
  | None => Some buf
  end.

(** What is done with the result: it is 0 on success, and an error is kept. *)
Definition ioctl_result (s : dhd_ctl) (ret cmd : Z) (buf : option (list Z)) (len : Z) : option (Z * dhd_ctl) :=
  let '(ret, s) := if 0 <=? ret then (0, s) else (ret, with_f s (set_dongle_error (c_f s) ret)) in
  match buf with
  | Some b =>
      if (ret =? 0) && (cmd =? WLC_SET_VAR) then
        eq ← streq b "wme_dp";
        if eq : bool then
          val ← (if 7 + 4 <=? len then ld 4 b 7 else Some 0);
          Some (ret, with_f s (set_wme_dp (c_f s) (u8 val)))
        else Some (ret, s)
      else Some (ret, s)
  | None => Some (ret, s)
  end.

(** [action] is ioc->set.  The result, the buffer, ioc->used if it is set, and
    the state. *)
Definition dhd_prot_ioctl (n : Z) (s : dhd_ctl) (ifidx cmd action : Z) (buf : option (list Z)) (len : Z)
    : option (Z * option (list Z) * option Z * Z * dhd_ctl) :=
  let f := c_f s in
  if (busstate f =? DHD_BUS_DOWN) || hang_was_sent f then Some (-1, buf, None, n, s) else
  if busstate f =? DHD_BUS_SUSPEND then Some (-1, buf, None, n, s) else
  if WLC_IOCTL_MAXLEN <? len then Some (-1, buf, None, n, s) else
  buf ← dhd_prot_wlioctl_intercept s cmd buf;
  if negb (Z.land action WL_IOCTL_ACTION_SET =? 0) then
    '(ret, buf, n, s) ← dhd_msgbuf_set_ioctl n s ifidx cmd buf (u32 len);
    '(ret, s) ← ioctl_result s ret cmd buf len;
    Some (ret, buf, None, n, s)
  else
    '(ret, buf, n, s) ← dhd_msgbuf_query_ioctl n s ifidx cmd buf (u32 len);
    let used := if 0 <? ret then Some ret else None in
    '(ret, s) ← ioctl_result s ret cmd buf len;
    Some (ret, buf, used, n, s).

(** [dhd_prot_ioctl] in two: up to the wait, where it returns already or goes to
    sleep with the caller's buffer, and from the wait on. *)
Definition ioctl_begin (n : Z) (s : dhd_ctl) (ifidx cmd action : Z) (buf : option (list Z)) (len : Z)
    : option (((Z * option (list Z) * option Z) + option (list Z)) * Z * dhd_ctl) :=
  let f := c_f s in
  if (busstate f =? DHD_BUS_DOWN) || hang_was_sent f then Some (inl (-1, buf, None), n, s) else
  if busstate f =? DHD_BUS_SUSPEND then Some (inl (-1, buf, None), n, s) else
  if WLC_IOCTL_MAXLEN <? len then Some (inl (-1, buf, None), n, s) else
  buf ← dhd_prot_wlioctl_intercept s cmd buf;
  local ← (if negb (Z.land action WL_IOCTL_ACTION_SET =? 0) then Some None else local_answer s cmd buf);
  match local with
  | Some b => '(ret, s) ← ioctl_result s 0 cmd (Some b) len; Some (inl (ret, Some b, None), n, s)
  | None =>
      '(_, s) ← dhd_fillup_ioct_reqst s (u16 (u32 len)) cmd buf ifidx;
      if dongle_reset (c_f s) then
        '(ret, s) ← ioctl_result (ioctl_out s) (- EIO) cmd buf len; Some (inl (ret, buf, None), n, s)
      else '(n, s) ← wait_begin n s; Some (inr buf, n, s)
  end.
Definition ioctl_end (timeleft : Z) (s : dhd_ctl) (cmd action : Z) (buf : option (list Z)) (len : Z)
    : option (Z * option (list Z) * option Z * dhd_ctl) :=
  '(ret, buf, s) ← wait_end timeleft s (u32 len) buf;
  let used := if (Z.land action WL_IOCTL_ACTION_SET =? 0) && (0 <? ret) then Some ret else None in
  '(ret, s) ← ioctl_result s ret cmd buf len;
  Some (ret, buf, used, s).

(** ** Flow-ring requests and responses *)

(** dhd_prot_flowrings_pool_fetch and _release on the state: the pool starts
    after the common rings. *)
Definition prot_pool (p : dhd_prot) : list msgbuf_ring := drop 2 (h2d_rings p).
Definition set_pool (p : dhd_prot) (pool : list msgbuf_ring) : dhd_prot := set_rings p (take 2 (h2d_rings p) ++ pool).

Definition dhd_prot_flow_ring_create (p : dhd_prot) (n : flow_ring_node) : option (Z * dhd_prot) :=
  let f := fr_flowid n in
  '(r, pool) ← dhd_prot_flowrings_pool_fetch (prot_pool p) f;
  '(rqst, _, p) ← prot_alloc_ring_space (set_pool p pool) CTRL 1 0 false;
  match (rqst : option Z) with
  | None => pool ← dhd_prot_flowrings_pool_release (prot_pool p) f; Some (BCME_NOMEM, set_pool p pool)
  | Some off =>
      let p := set_info p (<[f := f]> (p_info p)) in
      p ← ctrl_msg p off (flow_create_msg n (base_addr r));
      d ← put_own (RingIdxOps := h2d_ops) (p_pub p) (idx r) (wr r);
      p ← prot_ring_write_complete (set_pub p d) CTRL (Some off) 1;
      Some (BCME_OK, p)
  end.

Definition flow_request (p : dhd_prot) (msg_type : Z) (n : flow_ring_node) : option (Z * dhd_prot) :=
  '(rqst, _, p) ← prot_alloc_ring_space p CTRL 1 0 false;
  match (rqst : option Z) with
  | None => Some (BCME_NOMEM, p)
  | Some off =>
      p ← ctrl_msg p off (flow_request_msg msg_type n);
      p ← prot_ring_write_complete p CTRL (Some off) 1;
      Some (BCME_OK, p)
  end.
Definition dhd_prot_flow_ring_delete (p : dhd_prot) (n : flow_ring_node) : option (Z * dhd_prot) :=
  flow_request p MSG_TYPE_FLOW_RING_DELETE n.
Definition dhd_prot_flow_ring_flush (p : dhd_prot) (n : flow_ring_node) : option (Z * dhd_prot) :=
  flow_request p MSG_TYPE_FLOW_RING_FLUSH n.

(** The responses go to the bus layer: compl_hdr status 8 (int16), flow_ring_id
    10.  dhd_bus_flow_ring_create_response takes the status as an int32, the
    other two as a uint32. *)
Definition flow_response (p : dhd_prot) (msg_type : Z) (msg : list Z) : option dhd_prot :=
  flowid ← ld 2 msg 10;
  status ← ld 2 msg 8;
  let status := wraps 16 status in
  Some (emit p [FlowRingResponse msg_type flowid (if msg_type =? MSG_TYPE_FLOW_RING_CREATE_CMPLT then status else u32 status)]).
Definition dhd_prot_flow_ring_create_response_process (p : dhd_prot) (msg : list Z) : option dhd_prot :=
  flow_response p MSG_TYPE_FLOW_RING_CREATE_CMPLT msg.
Definition dhd_prot_flow_ring_delete_response_process (p : dhd_prot) (msg : list Z) : option dhd_prot :=
  flow_response p MSG_TYPE_FLOW_RING_DELETE_CMPLT msg.
Definition dhd_prot_flow_ring_flush_response_process (p : dhd_prot) (msg : list Z) : option dhd_prot :=
  flow_response p MSG_TYPE_FLOW_RING_FLUSH_CMPLT msg.
End ctrl.

(** The two halves, with the wait between them, are the whole. *)
Lemma dhd_prot_ioctl_split DMA_MAP PKTGET wait n s ifidx cmd action buf len :
  dhd_prot_ioctl DMA_MAP PKTGET wait n s ifidx cmd action buf len =
    ('(r, n, s) ← ioctl_begin DMA_MAP PKTGET n s ifidx cmd action buf len;
     match r with
     | inl (ret, buf, used) => Some (ret, buf, used, n, s)
     | inr buf =>
         '(timeleft, n, s) ← wait n s;
         '(ret, buf, used, s) ← ioctl_end timeleft s cmd action buf len;
         Some (ret, buf, used, n, s)
     end).
Proof.
  unfold dhd_prot_ioctl, ioctl_begin. cbv zeta.
  destruct ((busstate (c_f s) =? DHD_BUS_DOWN) || hang_was_sent (c_f s)) eqn:Eh; [done|].
  apply orb_false_iff in Eh as [Eb Eh].
  destruct (busstate (c_f s) =? DHD_BUS_SUSPEND); [done|]. destruct (WLC_IOCTL_MAXLEN <? len); [done|].
  destruct (dhd_prot_wlioctl_intercept s cmd buf) as [buf1|]; [|done]. cbn [mbind option_bind].
  unfold dhd_msgbuf_set_ioctl, dhd_msgbuf_query_ioctl, dhd_msgbuf_wait_ioctl_cmplt, ioctl_end. rewrite Eb, Eh.
  destruct (Z.land action WL_IOCTL_ACTION_SET =? 0); cbn [negb mbind option_bind andb].
  - destruct (local_answer s cmd buf1) as [[b|]|]; [|..|done]; cbn [mbind option_bind].
    + cbn [Z.ltb Z.compare]. by destruct (ioctl_result s 0 cmd (Some b) len) as [[? ?]|].
    + destruct (dhd_fillup_ioct_reqst s (u16 (u32 len)) cmd buf1 ifidx) as [[rc s1]|]; [|done]. cbn [mbind option_bind].
      destruct (dongle_reset (c_f s1)); cbn [mbind option_bind].
      * cbn [EIO Z.opp Z.ltb Z.compare]. by destruct (ioctl_result _ _ _ _ _) as [[? ?]|].
      * destruct (wait_begin DMA_MAP PKTGET n s1) as [[n1 s2]|]; [|done]. cbn [mbind option_bind].
        destruct (wait n1 s2) as [[[tl n2] s3]|]; [|done]. cbn [mbind option_bind].
        destruct (wait_end tl s3 (u32 len) buf1) as [[[ret b3] s4]|]; [|done]. cbn [mbind option_bind].
        by destruct (ioctl_result s4 ret cmd b3 len) as [[? ?]|].
  - destruct (dhd_fillup_ioct_reqst s (u16 (u32 len)) cmd buf1 ifidx) as [[rc s1]|]; [|done]. cbn [mbind option_bind].
    destruct (dongle_reset (c_f s1)); cbn [mbind option_bind].
    + by destruct (ioctl_result _ _ _ _ _) as [[? ?]|].
    + destruct (wait_begin DMA_MAP PKTGET n s1) as [[n1 s2]|]; [|done]. cbn [mbind option_bind].
      destruct (wait n1 s2) as [[[tl n2] s3]|]; [|done]. cbn [mbind option_bind].
      destruct (wait_end tl s3 (u32 len) buf1) as [[[ret b3] s4]|]; [|done]. cbn [mbind option_bind].
      by destruct (ioctl_result s4 ret cmd b3 len) as [[? ?]|].
Qed.
