(* ===== verification/ProtCtrlInv.v ===== *)
(** * The control operations keep the invariant

    Messages on the control submission ring, buffers posted on it and control
    messages processed, on the system of [ProtSys]. *)
From Stdlib Require Import ZArith Lia.
From stdpp Require Import base option numbers gmap list.
From S2P Require Import Prelude Bytes MwBitmap PktidMap PktOut Tcm RingIndex MsgRing MsgFifo.
From S2P Require Import ProtState ProtInv ProtSys ProtRx ProtRxInv FlowTable ProtCtrl.

(** Effects that flush nothing of a ring, complete no packet, report no audit
    error and leave the wake lock alone. *)
Definition silent (e : list effect) : Prop := quiet CTRL e /\ forall id il, flushed id il e = [].
Lemma silent_app e1 e2 : silent e1 -> silent e2 -> silent (e1 ++ e2).
Proof. intros [? H1] [? H2]. split; [by apply quiet_app|]. intros. by rewrite flushed_app, H1, H2. Qed.

(** ** The messages *)
Definition buf_type (event_buf : bool) : dhd_pkttype := if event_buf then PKTTYPE_EVENT_RX else PKTTYPE_IOCTL_RX.

Lemma evt_buf_fields_ok ev id pktlen pa epoch :
  forallb (fld_in 40) (evt_buf_post_type ev ++ evt_buf_post_msg id pktlen pa epoch) = true /\
  flds_disj (evt_buf_post_type ev ++ evt_buf_post_msg id pktlen pa epoch) = true.
Proof. done. Qed.

(** A field of the message, read back. *)
Lemma fields_ld (fs : list (Z * list Z)) d o k v :
  (forall o bs, (o, bs) ∈ fs -> ld_bytes d o (length bs) = Some bs) ->
  (o, le_bytes k v) ∈ fs -> 0 <= v < 256 ^ Z.of_nat k -> ld k d o = Some v.
Proof.
  intros Hd Hin Hv. apply Hd in Hin. rewrite length_le_bytes in Hin. unfold ld. rewrite Hin. cbn. by rewrite le_val_bytes.
Qed.

Lemma evt_buf_desc rmo ev id pktlen pa epoch d dir pk :
  0 <= id < 2 ^ 32 ->
  (forall o bs, (o, bs) ∈ evt_buf_post_type ev ++ evt_buf_post_msg id pktlen pa epoch ->
     ld_bytes d o (length bs) = Some bs) ->
  carries CTRL d = Some (buf_type ev) /\
  desc_ok rmo CTRL d id (mk_item LOCKER_IS_BUSY dir (buf_type ev) (u16 pktlen) pk pa 0 0).
Proof.
  intros Hid Hd. pose proof (fun o k v => fields_ld _ d o k v Hd) as Hld.
  pose proof (wrapu_range 16 pktlen ltac:(lia)). pose proof (wrapu_range 32 (Z.shiftr pa 32) ltac:(lia)).
  pose proof (wrapu_range 32 pa ltac:(lia)).
  assert (ld 1 d 0 = Some (if ev then 13 else 11)) as Ety by (apply Hld; [destruct ev; left|destruct ev; done]).
  split; [unfold carries; rewrite Ety; by destruct ev|].
  unfold desc_ok. cbn [CTRL Z.eqb len PktidMap.pa].
  split_and!; apply Hld; try (unfold PHYSADDRHI, PHYSADDRLO; change (Z.of_nat 4) with 4; change (Z.of_nat 2) with 2; zlia);
    unfold evt_buf_post_type, evt_buf_post_msg; set_solver.
Qed.

(** The bytes of a message, written in two parts. *)
Definition only_slot (q : Z) (mem mem2 : list Z) : Prop :=
  length mem2 = length mem /\ forall j, j < q * 40 \/ (q + 1) * 40 <= j -> aget mem2 j = aget mem j.

Lemma ctrl_fields q mem fs1 fs2 :
  0 <= q -> (q + 1) * 40 <= Z.of_nat (length mem) ->
  forallb (fld_in 40) (fs1 ++ fs2) = true -> flds_disj (fs1 ++ fs2) = true ->
  exists mem2 mem3, st_fields mem (q * 40) fs1 = Some mem2 /\ only_slot q mem mem2 /\
    st_fields mem2 (q * 40) fs2 = Some mem3 /\ only_slot q mem mem3 /\
    forall o bs, (o, bs) ∈ fs1 ++ fs2 -> ld_bytes (slot 40 mem3 q) o (length bs) = Some bs.
Proof.
  intros Hq Hl Hin Hdj.
  assert (forallb (fld_in 40) fs1 = true) as Hin1 by (rewrite forallb_app in Hin; by apply andb_true_iff in Hin as [? _]).
  destruct (st_fields_Some 40 mem (q * 40) fs1 ltac:(lia) ltac:(lia) Hin1) as (mem2 & E2 & Hl2 & Hu2 & _).
  destruct (st_fields_Some 40 mem (q * 40) (fs1 ++ fs2) ltac:(lia) ltac:(lia) Hin) as (mem3 & E3 & Hl3 & Hu3 & _).
  exists mem2, mem3. split_and!; try done.
  - split; [done|]. intros j Hj. apply Hu2. lia.
  - rewrite st_fields_app, E2 in E3. exact E3.
  - split; [done|]. intros j Hj. apply Hu3. lia.
  - intros o bs Hob. pose proof Hin as Hin'. rewrite forallb_forall in Hin'.
    specialize (Hin' (o, bs) ltac:(by apply list_elem_of_In)). unfold fld_in in Hin'. cbn [fst snd] in Hin'.
    apply andb_true_iff in Hin' as [H1%Z.leb_le H2%Z.leb_le].
    rewrite ld_bytes_slot by lia. apply (st_fields_ld 40 mem (q * 40) (fs1 ++ fs2) mem3 o bs); (done || lia).
Qed.

Section inv.
Context (ri : ring_info).

(** ** The control ring of a system *)
Record ctrl_view (y : prot_sys) (r : msgbuf_ring) (g : ring_ghost) (mem : list Z) : Prop := {
  cv_r : aget (h2d_rings (y_p y)) CTRL = Some r;
  cv_g : aget (y_g y) CTRL = Some g;
  cv_ok : ring_ok ri (p_pub (y_p y)) (p_log (y_p y)) CTRL r g 0;
  cv_po : pend_ok CTRL r g;
  cv_pend : pend_items_count r = 0;
  cv_il : item_len r = 40;
  cv_mem : va (dma_buf r) = Some mem;
  cv_len : Z.of_nat (length mem) = max_items r * 40;
  cv_max : 2 <= max_items r < 2 ^ 16;
  cv_got : (length (g_got g) <= length (g_sent g))%nat;
  cv_rings : CTRL < Z.of_nat (length (h2d_rings (y_p y)))
}.

Lemma ctrl_view_ok y : sys_ok ri y -> exists r g mem, ctrl_view y r g mem.
Proof.
  intros Hy. pose proof (so_rings _ _ Hy) as Hr. pose proof (so_rx _ _ Hy) as [Hl _].
  destruct (aget_is_Some (h2d_rings (y_p y)) CTRL) as [r Er]; [unfold CTRL; lia|].
  destruct (rings_ok_ghost ri _ _ _ _ _ _ Hr Er) as [g Eg].
  destruct (rk_ring _ _ _ _ _ Hr CTRL r g Er Eg) as [Hok Hpo].
  pose proof (po_common _ _ _ Hpo ltac:(done)) as Hp0. rewrite Hp0 in Hok.
  destruct (ro_mem _ _ _ _ _ _ _ Hok) as (mem & Em & Hlm). pose proof (po_len _ _ _ Hpo) as Hil.
  change (ring_item_len CTRL) with 40 in Hil. rewrite Hil in Hlm.
  exists r, g, mem. constructor; try done; [apply (ro_wf _ _ _ _ _ _ _ Hok)|by eapply ring_ok_got|unfold CTRL; lia].
Qed.

(** The state with the control ring, the map and the log replaced. *)
Definition cw (p : dhd_prot) (d : dhd_pub) (rr : msgbuf_ring) (m : dhd_pktid_map) (log : list effect) : dhd_prot :=
  rx_upd p d (<[Z.to_nat CTRL := rr]> (h2d_rings p)) m log (rxbufpost p) (rx_pktgetfail p).

Section cw.
Context (p : dhd_prot) (Hlen : CTRL < Z.of_nat (length (h2d_rings p))).

Lemma cw_get d rr m log : aget (h2d_rings (cw p d rr m log)) CTRL = Some rr.
Proof. cbn [cw rx_upd h2d_rings]. rewrite aget_insert by (unfold CTRL in *; lia). by rewrite decide_True. Qed.
Lemma cw_upd d rr m log rr' : ring_upd (cw p d rr m log) CTRL rr' = Some (cw p d rr' m log).
Proof.
  rewrite ring_upd_eq by (cbn [cw rx_upd h2d_rings]; rewrite length_insert; unfold CTRL in *; lia).
  unfold cw, rx_upd, set_rings. cbn [h2d_rings]. by rewrite list_insert_insert_eq.
Qed.
Lemma cw_fill d rr m log off fs mem mem' :
  va (dma_buf rr) = Some mem -> st_fields mem off fs = Some mem' ->
  ring_fill (cw p d rr m log) CTRL off fs = Some (cw p d (set_mem rr mem') m log).
Proof.
  intros Em E. rewrite (ring_fill_eq _ CTRL rr off fs mem mem') by (done || apply cw_get).
  unfold cw, rx_upd, set_rings. cbn [h2d_rings]. by rewrite list_insert_insert_eq.
Qed.
Lemma cw_msg d rr m log off msg mem mem' :
  va (dma_buf rr) = Some mem -> st_fields mem off (msg (seqnum rr mod H2D_EPOCH_MODULO)) = Some mem' ->
  ctrl_msg (cw p d rr m log) off msg = Some (cw p d (set_seqnum (set_mem rr mem') (u32 (seqnum rr + 1))) m log).
Proof.
  intros Em E. unfold ctrl_msg. rewrite cw_get. cbn [mbind option_bind]. rewrite (cw_fill _ _ _ _ _ _ _ _ Em E).
  cbn [mbind option_bind]. rewrite cw_get. cbn [mbind option_bind]. by rewrite cw_upd.
Qed.
End cw.

(** ** Steps that leave the ring alone *)
Lemma sys_ok_emit y e : sys_ok ri y -> silent e -> sys_ok ri (with_prot y (emit (y_p y) e)).
Proof.
  intros [Hr Htb Hinf Hm Hfl [Ha Hwk Hcl Hacc] Htmo Hrx] [Hq Hf].
  constructor; cbn [with_prot y_p y_g y_out y_acc] in *; try done.
  - by apply rings_ok_log.
  - constructor; cbn [emit active_tx_count p_log]; try done.
    + by rewrite wake_depth_app, Hwk, (quiet_wake CTRL e Hq), Z.add_0_r.
    + apply Forall_app. split; [done|by eapply quiet_clean].
    + by rewrite completed_app, (quiet_completed CTRL e Hq), app_nil_r.
Qed.

Lemma sys_ok_emits p gs out acc e :
  sys_ok ri {| y_p := p; y_g := gs; y_out := out; y_acc := acc |} -> silent e ->
  sys_ok ri {| y_p := emit p e; y_g := gs; y_out := out; y_acc := acc |}.
Proof. apply sys_ok_emit. Qed.

Lemma sys_ok_gf y v : sys_ok ri y -> sys_ok ri (with_prot y (set_pktgetfail (y_p y) v)).
Proof. intros [Hr Htb Hinf Hm Hfl [Ha Hwk Hcl Hacc] Htmo Hrx]. by constructor. Qed.

(** The outstanding packets changed, none of them for transmission. *)
Lemma sys_ok_out y m out' :
  sys_ok ri y -> map_ok MAX_PKTID_ITEMS m out' -> in_flight (rx_metadata_offset (y_p y)) (y_g y) out' ->
  tx_out out' = tx_out (y_out y) ->
  sys_ok ri {| y_p := set_map (y_p y) m; y_g := y_g y; y_out := out'; y_acc := y_acc y |}.
Proof.
  intros [Hr Htb Hinf Hm Hfl [Ha Hwk Hcl Hacc] Htmo Hrx] Hm' Hfl' Etx.
  constructor; cbn [y_p y_g y_out y_acc]; try done. constructor; cbn [set_map active_tx_count p_log]; by rewrite ?Etx.
Qed.

(** ** Space on the control ring *)
Lemma ctrl_alloc_ok y r g mem (p := y_p y) (P := Z.of_nat (length (g_sent g))) :
  sys_ok ri y -> ctrl_view y r g mem ->
  exists ptr a r1, prot_alloc_ring_space p CTRL 1 0 false =
      Some (ptr, a, cw p (p_pub p) r1 (pktid_map_handle p) (p_log p)) /\
    r1 = set_wr (set_rd r (rd r1)) (wr r1) /\
    match ptr with
    | None => sys_ok ri (with_prot y (cw p (p_pub p) r1 (pktid_map_handle p) (p_log p))) /\
        cell_val (p_pub p) (Cell H2D false (ring_id CTRL)) <> wr r
    | Some off => a = 1 /\ off = P mod max_items r * 40 /\ granted ri (p_pub p) CTRL r g 0 r1 1
    end.
Proof.
  intros Hy [Er Eg Hok Hpo Hp0 Hil Em Hlm Hmax Hgot Hlen].
  destruct (ring_alloc ri (p_pub p) (p_log p) CTRL r g 0 1 false (rk_idx _ _ _ _ _ (so_rings _ _ Hy)) Hok ltac:(lia))
    as (ptr & a & r1 & Ea & Es & Hpost).
  exists ptr, a, r1. rewrite (prot_alloc_eq p CTRL r 1 0 false ptr a r1 Er Ea). split; [by destruct p|]. split; [done|].
  destruct ptr as [off|].
  - destruct Hpost as (Hoff & Ha1 & Ha2 & Hgr). assert (a = 1) as -> by lia. rewrite Hil in Hoff. by split_and!.
  - destruct Hpost as [Hok1 Hnf]. assert (pend_items_count r1 = 0) as Hp1 by (by rewrite Es). split.
    + apply (sys_ok_idle ri y CTRL r g r1 (pktid_map_handle p)); try done; [by rewrite Hp1| |apply Hy].
      destruct Hpo. rewrite Es. constructor; try done; intros Hz; cbn in Hz; congruence.
    + intros Ew. apply Hnf in Ew. lia.
Qed.

(** ** One message on the control ring

    Slot [q] was granted; the memory is [mem2] now, and [s'] the sequence number. *)
Lemma ctrl_ring_ok y r g mem r1 mem2 s' xs e (p := y_p y) (P := Z.of_nat (length (g_sent g))) (q := P mod max_items r)
    (rr := set_wr (set_seqnum (set_mem r1 mem2) s') ((P + Z.of_nat (length xs)) mod max_items r)) :
  ctrl_view y r g mem -> granted ri (p_pub p) CTRL r g 0 r1 1 -> r1 = set_wr (set_rd r (rd r1)) (wr r1) ->
  only_slot q mem mem2 -> xs = [] \/ xs = [slot 40 mem2 q] -> (forall id il, flushed id il e = []) ->
  ring_ok ri (p_pub p) (p_log p ++ e) CTRL rr (pushes g xs) (Z.of_nat (length xs)) /\
  pend_ok CTRL rr (pushes g xs) /\ pend_items_count rr = 0 /\ item_len rr = 40 /\ max_items rr = max_items r.
Proof.
  intros [Er Eg Hok Hpo Hp0 Hil Em Hlm Hmax Hgot Hlen] Hgr Es [Hl Hu] Hxs He.
  assert (pend_items_count rr = 0 /\ item_len rr = 40 /\ max_items rr = max_items r) as (Ep & Ei & Ex)
    by (cbn; by rewrite Es).
  split_and!; try done.
  - apply ring_ok_log; [|done]. rewrite <- (Z.add_0_l (Z.of_nat (length xs))).
    apply (ring_post ri (p_pub p) (p_log p) CTRL r g 0 r1 1 rr mem mem2 xs); try done; try (cbn; by rewrite Es); try lia.
    + destruct Hxs as [-> | ->]; cbn; lia.
    + fold P. fold q. rewrite Hil. exact Hu.
    + fold P. fold q. rewrite Hil. destruct Hxs as [-> | ->]; intros k Hk; cbn [length] in Hk; [lia|].
      assert (k = 0) as -> by lia. by rewrite Z.add_0_r.
  - constructor; [done|done| |]; intros Hz; congruence.
Qed.

Lemma ctrl_post_ok y r g mem r1 mem2 s' m' e out' (p := y_p y) (P := Z.of_nat (length (g_sent g)))
    (q := P mod max_items r) (d := slot 40 mem2 q) (rr := set_seqnum (set_mem r1 mem2) s') :
  sys_ok ri y -> ctrl_view y r g mem -> granted ri (p_pub p) CTRL r g 0 r1 1 ->
  r1 = set_wr (set_rd r (rd r1)) (wr r1) -> only_slot q mem mem2 -> silent e ->
  map_ok MAX_PKTID_ITEMS m' out' -> in_flight (rx_metadata_offset p) (<[Z.to_nat CTRL := push g d]> (y_g y)) out' ->
  tx_out out' = tx_out (y_out y) ->
  exists d' e', prot_ring_write_complete (cw p (p_pub p) rr m' (p_log p ++ e)) CTRL (Some (q * 40)) 1 =
      Some (cw p d' rr m' (p_log p ++ e')) /\ quiet CTRL e' /\
    sys_ok ri {| y_p := cw p d' rr m' (p_log p ++ e'); y_g := <[Z.to_nat CTRL := push g d]> (y_g y);
                 y_out := out'; y_acc := y_acc y |}.
Proof.
  intros Hy Hv Hgr Es Hone [Hq Hf] Hm' Hfl' Etx. pose proof Hv as [Er Eg Hok Hpo Hp0 Hil Em Hlm Hmax Hgot Hlen].
  pose proof Hy as [Hr Htb Hinf _ _ [Ha Hwk Hcl Hacc] Htmo Hrx]. fold p in Hr, Htb, Hinf, Ha, Hwk, Hcl, Hacc, Htmo, Hrx, Hlen.
  destruct (ctrl_ring_ok y r g mem r1 mem2 s' [d] e Hv Hgr Es Hone ltac:(by right) Hf) as (Hokf & Hpof & Ep & Ei & Ex).
  pose proof Hgr as (C & R & C' & _ & _ & _ & _ & _ & Hw1). fold P in Hw1.
  fold p P in Hokf, Hpof, Ep, Ei, Ex. cbn [length] in Hokf, Hpof, Ep, Ei, Ex. change (Z.of_nat 1) with 1 in *.
  assert (set_wr (set_seqnum (set_mem r1 mem2) s') ((P + 1) mod max_items r) = rr) as Err
    by (rewrite <- Hw1; unfold rr; by destruct r1).
  rewrite Err in Hokf, Hpof, Ep, Ei, Ex.
  destruct (announce_ok ri (cw p (p_pub p) rr m' (p_log p ++ e)) CTRL rr (pushes g [d]) 1 (q * 40))
    as (d' & e2 & E & Hq2 & W' & Har & Hok2 & Hcells); [apply Hr|by apply cw_get|exact Hokf|done| |].
  { cbn [pushes g_sent]. rewrite length_app, Ex, Ei, Nat2Z.inj_add. fold P. cbn [length].
    unfold q. do 2 f_equal. lia. }
  exists d', (e ++ e2). rewrite E, app_assoc. split; [done|]. split; [by apply quiet_app|].
  assert (quiet CTRL (e ++ e2)) as Hqe by (by apply quiet_app).
  constructor; cbn [y_p y_g y_out y_acc cw rx_upd p_pub p_log h2d_rings p_info pktid_map_handle p_flow_ring_table
      tx_metadata_offset rx_metadata_offset]; try done.
  - rewrite <- app_assoc. apply rings_ok_upd with (d := p_pub p); try done.
    + intros j il Hj Hne. apply (quiet_other CTRL j il (e ++ e2)); (done || lia).
    + rewrite Ep, app_assoc. exact Hok2.
  - rewrite length_insert. exact Hinf.
  - constructor; cbn [active_tx_count p_log cw rx_upd].
    + by rewrite Etx.
    + by rewrite <- app_assoc, wake_depth_app, (quiet_wake CTRL _ Hqe), Z.add_0_r.
    + rewrite <- app_assoc. apply Forall_app. split; [done|by eapply quiet_clean].
    + by rewrite <- app_assoc, completed_app, (quiet_completed CTRL _ Hqe), app_nil_r, Etx.
  - by rewrite length_insert.
Qed.

(** The slot is given back. *)
Lemma ctrl_rollback_ok y r g mem r1 mem2 s' m' (p := y_p y) (P := Z.of_nat (length (g_sent g)))
    (q := P mod max_items r) (rr := set_seqnum (set_mem r1 mem2) s') :
  sys_ok ri y -> ctrl_view y r g mem -> granted ri (p_pub p) CTRL r g 0 r1 1 ->
  r1 = set_wr (set_rd r (rd r1)) (wr r1) -> only_slot q mem mem2 -> map_ok MAX_PKTID_ITEMS m' (y_out y) ->
  let wr' := if wr rr =? 0 then u16 (max_items rr - 1) else u16 (wr rr - 1) in
  sys_ok ri (with_prot y (cw p (p_pub p) (set_wr rr wr') m' (p_log p))).
Proof.
  intros Hy Hv Hgr Es Hone Hm' wr'. pose proof Hv as [Er Eg Hok Hpo Hp0 Hil Em Hlm Hmax Hgot Hlen].
  destruct (ctrl_ring_ok y r g mem r1 mem2 s' [] [] Hv Hgr Es Hone ltac:(by left) ltac:(done)) as (Hokf & Hpof & Ep & Ei & Ex).
  pose proof Hgr as (C & R & C' & _ & _ & _ & _ & Hfit & Hw1). fold P in Hw1, Hfit. fold q in Hfit.
  cbn [length] in *. change (Z.of_nat 0) with 0 in *. fold p P in Hokf, Hpof, Ep, Ei, Ex. rewrite Z.add_0_r, app_nil_r in *.
  pose proof (Z.mod_pos_bound P (max_items r) ltac:(lia)) as Hqb. fold q in Hqb.
  assert (wr' = P mod max_items r) as Ewr.
  { unfold wr'. change (wr rr) with (wr r1). replace (max_items rr) with (max_items r) by (symmetry; exact Ex).
    rewrite Hw1, mod_step by (fold q; lia). fold q. destruct (Z.eqb_spec (q + 1) (max_items r)); cbn [Z.eqb].
    - rewrite wrapu_small by zlia. lia.
    - rewrite (proj2 (Z.eqb_neq (q + 1) 0)), wrapu_small by zlia. lia. }
  rewrite Ewr. assert (pushes g [] = g) as Eg0 by (unfold pushes; rewrite app_nil_r; by destruct g).
  rewrite Eg0 in *. fold rr in Hokf, Hpof, Ep, Ei, Ex.
  replace (cw p (p_pub p) (set_wr rr (P mod max_items r)) m' (p_log p)) with
    (set_map (set_rings p (<[Z.to_nat CTRL := set_wr rr (P mod max_items r)]> (h2d_rings p))) m') by (by destruct p).
  apply (sys_ok_idle ri y CTRL r g); try done. by rewrite Ep.
Qed.

(** ** Buffers posted on the control ring *)
Definition ctl_same (p p' : dhd_prot) : Prop :=
  p' = rx_upd p (p_pub p') (h2d_rings p') (pktid_map_handle p') (p_log p') (rxbufpost p) (rx_pktgetfail p').

(** [k] buffers of type [ty] were posted. *)
Record ctl_grown (ty : dhd_pkttype) (y : prot_sys) (p' : dhd_prot) (gs' : list ring_ghost)
    (out' : gmap Z out_entry) (k : Z) : Prop := {
  cg_sys : sys_ok ri {| y_p := p'; y_g := gs'; y_out := out'; y_acc := y_acc y |};
  cg_gs : exists g xs, aget (y_g y) CTRL = Some g /\ gs' = <[Z.to_nat CTRL := pushes g xs]> (y_g y) /\
            Z.of_nat (length xs) = k /\ Forall (fun d => carries CTRL d = Some ty) xs;
  cg_sub : grown_by ty (y_out y) out';
  cg_size : Z.of_nat (size out') = Z.of_nat (size (y_out y)) + k;
  cg_same : ctl_same (y_p y) p';
  cg_log : exists e, p_log p' = p_log (y_p y) ++ e /\ quiet CTRL e
}.

Lemma ctl_grown_stop ty y p' :
  sys_ok ri (with_prot y p') -> (exists g, aget (y_g y) CTRL = Some g) -> ctl_same (y_p y) p' ->
  (exists e, p_log p' = p_log (y_p y) ++ e /\ quiet CTRL e) -> ctl_grown ty y p' (y_g y) (y_out y) 0.
Proof.
  intros Hs [g Eg] ? ?. constructor; try done; [|lia]. exists g, []. split_and!; [done| |done|constructor].
  symmetry. by apply pushes_nil.
Qed.

Lemma ctl_grown_refl ty y : sys_ok ri y -> ctl_grown ty y (y_p y) (y_g y) (y_out y) 0.
Proof.
  intros Hy. destruct (ctrl_view_ok y Hy) as (r & g & mem & Hv).
  apply ctl_grown_stop; [by destruct y|exists g; apply Hv|by destruct (y_p y)|].
  exists []. rewrite app_nil_r. split; [done|constructor].
Qed.

Lemma ctl_same_trans p1 p2 p3 : ctl_same p1 p2 -> ctl_same p2 p3 -> ctl_same p1 p3.
Proof. unfold ctl_same. intros -> ->. done. Qed.

Lemma ctl_grown_trans ty y p1 gs1 out1 k1 p2 gs2 out2 k2 :
  ctl_grown ty y p1 gs1 out1 k1 ->
  ctl_grown ty {| y_p := p1; y_g := gs1; y_out := out1; y_acc := y_acc y |} p2 gs2 out2 k2 ->
  ctl_grown ty y p2 gs2 out2 (k1 + k2).
Proof.
  intros [H1 (g & xs & Eg & -> & Hk1 & Hf1) Hs1 Hz1 Hm1 (e1 & E1 & Q1)]
    [H2 (g' & xs' & Eg' & -> & Hk2 & Hf2) Hs2 Hz2 Hm2 (e2 & E2 & Q2)].
  cbn [y_p y_g y_out y_acc] in *. pose proof (aget_lt _ _ _ Eg).
  rewrite aget_insert, decide_True in Eg' by (done || lia). injection Eg' as <-.
  constructor; try done.
  - exists g, (xs ++ xs'). split_and!; [done| |rewrite length_app; lia|by apply Forall_app].
    rewrite list_insert_insert_eq. unfold pushes. cbn [g_sent g_got g_drd]. by rewrite app_assoc.
  - by apply (grown_by_trans _ _ out1).
  - lia.
  - by apply (ctl_same_trans _ p1).
  - exists (e1 ++ e2). rewrite E2, E1, app_assoc. split; [done|by apply quiet_app].
Qed.

Variable DMA_MAP : Z -> Z -> Z -> Z.
Variable PKTGET : Z -> option (Z * Z).
Hypothesis PKTGET_nonnull : forall n pkt va, PKTGET n = Some (pkt, va) -> pkt <> 0.

Lemma cw_eq p : forall r, aget (h2d_rings p) CTRL = Some r -> cw p (p_pub p) r (pktid_map_handle p) (p_log p) = p.
Proof.
  intros r Hr. pose proof (set_rings_same p CTRL r Hr) as E. destruct p. unfold cw, rx_upd, set_rings in *. cbn in *.
  by injection E as ->.
Qed.
Lemma silent_dma l : Forall (fun e => match e with DmaMap _ _ _ _ | DmaUnmap _ _ _ _ | PktFree _ _ | BufFlush _ | IoctlWake
    | RxFrame _ _ _ _ | MemDump | FlowRingResponse _ _ _ => True | _ => False end) l ->
  silent l.
Proof.
  induction 1 as [|e l He _ [IH1 IH2]]; [split; [constructor|done]|].
  split; [constructor; [by destruct e|done]|]. intros id il. unfold flushed in *. cbn [mbind list_bind]. rewrite IH2.
  by destruct e.
Qed.

(** The part of dhd_prot_rxbufpost_ctrl after the buffer was mapped. *)
Definition post_mapped (p : dhd_prot) (n : Z) (ev : bool) (pkt pktlen pa : Z) : option (Z * Z * dhd_prot) :=
  '(rxbuf_post, _, p) ← prot_alloc_ring_space p CTRL 1 0 false;
  match (rxbuf_post : option Z) with
  | None => Some (-1, n, emit p [DmaUnmap pa pktlen DMA_RX pkt; PktFree pkt false])
  | Some off =>
      p ← ring_fill p CTRL off (evt_buf_post_type ev);
      '(pktid, m) ← dhd_pktid_map_alloc (pktid_map_handle p) pkt pa pktlen DMA_RX 0 0 (buf_type ev);
      let p := set_map p m in
      if pktid =? DHD_PKTID_INVALID then
        r ← aget (h2d_rings p) CTRL;
        p ← ring_upd p CTRL (set_wr r (if wr r =? 0 then u16 (max_items r - 1) else u16 (wr r - 1)));
        Some (-1, n, emit p [DmaUnmap pa pktlen DMA_RX pkt; PktFree pkt false])
      else
        p ← prot_pktid_audit p pktid DHD_DUPLICATE_ALLOC;
        p ← ctrl_msg p off (evt_buf_post_msg pktid pktlen pa);
        p ← prot_ring_write_complete p CTRL (Some off) 1;
        Some (1, n, p)
  end.

Lemma post_mapped_ok y n ev pkt pktlen pa :
  sys_ok ri y -> pkt <> 0 ->
  exists rc p', post_mapped (y_p y) n ev pkt pktlen pa = Some (rc, n, p') /\
    ((rc = -1 /\ ctl_grown (buf_type ev) y p' (y_g y) (y_out y) 0) \/
     (rc = 1 /\ exists gs' out', ctl_grown (buf_type ev) y p' gs' out' 1)).
Proof.
  intros Hy Hpk. set (p := y_p y). destruct (ctrl_view_ok y Hy) as (r & g & mem & Hv).
  pose proof Hv as [Er Eg _ _ _ _ Em Hlm Hmax Hgot Hlen]. fold p in Er, Hlen.
  destruct (ctrl_alloc_ok y r g mem Hy Hv) as (ptr & a & r1 & Ea & Es & Hpost). fold p in Ea, Hpost.
  unfold post_mapped. rewrite Ea. cbn [mbind option_bind].
  assert (silent [DmaUnmap pa pktlen DMA_RX pkt; PktFree pkt false]) as Hsil
    by (apply silent_dma; by repeat (apply Forall_cons; split)).
  assert (exists g, aget (y_g y) CTRL = Some g) as Hg by (by exists g).
  destruct ptr as [off|].
  2: { destruct Hpost as [Hy1 _]. do 2 eexists. split; [done|]. left. split; [done|].
    apply ctl_grown_stop; [by apply (sys_ok_emit (with_prot y _))|done|reflexivity|]. eexists. by split; [|apply Hsil]. }
  destruct Hpost as (-> & -> & Hgr). set (P := Z.of_nat (length (g_sent g))) in *. set (q := P mod max_items r) in *.
  pose proof (Z.mod_pos_bound P (max_items r) ltac:(lia)) as Hq. fold q in Hq.
  assert (va (dma_buf r1) = Some mem) as Em1 by (by rewrite Es).
  pose proof (so_map _ _ Hy) as Hm. fold p in Hm. unfold dhd_pktid_map_alloc.
  assert (forall id : Z, exists mem2 mem3,
    st_fields mem (q * 40) (evt_buf_post_type ev) = Some mem2 /\ only_slot q mem mem2 /\
    st_fields mem2 (q * 40) (evt_buf_post_msg id pktlen pa (seqnum r1 mod H2D_EPOCH_MODULO)) = Some mem3 /\
    only_slot q mem mem3 /\ forall o bs, (o, bs) ∈ evt_buf_post_type ev ++ evt_buf_post_msg id pktlen pa (seqnum r1 mod H2D_EPOCH_MODULO) ->
      ld_bytes (slot 40 mem3 q) o (length bs) = Some bs) as Hfld.
  { intros id. apply ctrl_fields; [lia|nia|apply evt_buf_fields_ok..]. }
  destruct (reserve_out _ _ _ pkt Hm) as [(m1 & Eres & Hm1 & _)|(id & l & m1 & Eres & Hres & Hid0)].
  - destruct (Hfld 0) as (mem2 & _ & E2 & Ho2 & _). rewrite (cw_fill p Hlen _ _ _ _ _ _ _ _ Em1 E2). cbn [mbind option_bind].
    change (pktid_map_handle (cw p _ _ _ _)) with (pktid_map_handle p). rewrite Eres. cbn [mbind option_bind].
    rewrite Z.eqb_refl. cbn [negb mbind option_bind]. rewrite ?Z.eqb_refl.
    change (set_map (cw p (p_pub p) (set_mem r1 mem2) (pktid_map_handle p) (p_log p)) m1) with
      (cw p (p_pub p) (set_mem r1 mem2) m1 (p_log p)).
    rewrite cw_get by done. cbn [mbind option_bind]. rewrite cw_upd by done. cbn [mbind option_bind].
    do 2 eexists. split; [done|]. left. split; [done|].
    pose proof (ctrl_rollback_ok y r g mem r1 mem2 (seqnum r1) m1 Hy Hv Hgr Es Ho2 Hm1) as Hy1.
    replace (set_seqnum (set_mem r1 mem2) (seqnum r1)) with (set_mem r1 mem2) in Hy1 by (by destruct r1).
    apply ctl_grown_stop; [by apply (sys_ok_emit (with_prot y _))|done|reflexivity|]. eexists. by split; [|apply Hsil].
  - destruct (Hfld id) as (mem2 & mem3 & E2 & Ho2 & E3 & Ho3 & Hds). rewrite (cw_fill p Hlen _ _ _ _ _ _ _ _ Em1 E2).
    cbn [mbind option_bind]. change (pktid_map_handle (cw p _ _ _ _)) with (pktid_map_handle p). rewrite Eres.
    cbn [mbind option_bind]. rewrite (proj2 (Z.eqb_neq id _)) by done. cbn [negb].
    destruct (reserved_save _ _ _ _ _ pkt pa pktlen DMA_RX 0 0 (buf_type ev) Hres) as (m2 & -> & Hres2).
    cbn [mbind option_bind]. rewrite (proj2 (Z.eqb_neq id _)) by done.
    destruct (reserved_audit _ _ _ _ _ (OnRing CTRL P) Hres2) as (m3 & Eau & Hm3 & _); [done|done|].
    erewrite prot_audit_eq by exact Eau. cbn [mbind option_bind]. rewrite emit_nil.
    change (set_map (set_map (cw p (p_pub p) (set_mem r1 mem2) _ (p_log p)) m2) m3) with
      (cw p (p_pub p) (set_mem r1 mem2) m3 (p_log p)).
    rewrite (cw_msg p Hlen _ _ _ _ _ _ mem2 mem3) by done. cbn [mbind option_bind].
    pose proof (mr_k _ _ _ _ _ Hres) as Hk. unfold MAX_PKTID_ITEMS in Hk.
    destruct (evt_buf_desc (rx_metadata_offset p) ev id pktlen pa _ _ DMA_RX pkt ltac:(lia) Hds) as [Hc Hd].
    set (it := mk_item _ _ _ _ _ _ _ _) in *. set (d := slot 40 mem3 q) in *.
    set (out' := <[id := {| e_item := it; e_where := OnRing CTRL P |}]> (y_out y)) in *.
    pose proof (mr_new _ _ _ _ _ Hres) as Hnew.
    destruct (ctrl_post_ok y r g mem r1 mem3 (u32 (seqnum r1 + 1)) m3 [] out' Hy Hv Hgr Es Ho3) as (d' & e' & Ew & Hq' & Hy');
      [by apply silent_dma|done| | |].
    { apply in_flight_post; try done. apply Hy. }
    { unfold out'. rewrite tx_out_insert by done. rewrite decide_False; [done|]. unfold is_tx. cbn. by destruct ev. }
    fold p P q d in Ew, Hy'. rewrite app_nil_r in Ew.
    change (set_mem (set_mem r1 mem2) mem3) with (set_mem r1 mem3).
    change (seqnum (set_mem r1 mem2)) with (seqnum r1). rewrite Ew. cbn [mbind option_bind].
    do 2 eexists. split; [done|]. right. split; [done|]. exists (<[Z.to_nat CTRL := push g d]> (y_g y)), out'.
    constructor; try done.
    + exists g, [d]. split_and!; [done|done|done|by repeat constructor].
    + by apply grown_by_insert.
    + unfold out'. rewrite map_size_insert_None by done. lia.
    + by exists e'.
Qed.

Lemma rxbufpost_ctrl_ok y bs n ev :
  sys_ok ri y ->
  exists rc n' p', dhd_prot_rxbufpost_ctrl DMA_MAP PKTGET bs n (y_p y) ev = Some (rc, n', p') /\
    ((rc = -1 /\ ctl_grown (buf_type ev) y p' (y_g y) (y_out y) 0) \/
     (rc = 1 /\ exists gs' out', ctl_grown (buf_type ev) y p' gs' out' 1)).
Proof.
  intros Hy. destruct (ctrl_view_ok y Hy) as (r & g & mem & Hv). pose proof (cv_g _ _ _ _ Hv) as Eg.
  assert (forall p', sys_ok ri (with_prot y p') -> ctl_same (y_p y) p' ->
    (exists e, p_log p' = p_log (y_p y) ++ e /\ quiet CTRL e) -> ctl_grown (buf_type ev) y p' (y_g y) (y_out y) 0) as Hstop.
  { intros p' ? ? ?. apply ctl_grown_stop; try done. by exists g. }
  assert (quiet CTRL []) as Hq0 by constructor.
  unfold dhd_prot_rxbufpost_ctrl. destruct (bs =? DHD_BUS_DOWN).
  { do 3 eexists. split; [done|]. left. split; [done|]. apply Hstop; [by destruct y|by destruct (y_p y)|].
    exists []. by rewrite app_nil_r. }
  destruct (PKTGET n) as [[pkt va0]|] eqn:Eget.
  2: { do 3 eexists. split; [done|]. left. split; [done|]. apply Hstop; [by apply sys_ok_gf|done|]. exists [].
    by rewrite app_nil_r. }
  pose proof (PKTGET_nonnull _ _ _ Eget) as Hpk. cbv zeta.
  set (pktsz := if ev then DHD_FLOWRING_RX_BUFPOST_PKTSZ else DHD_FLOWRING_IOCTL_BUFPOST_PKTSZ).
  set (pa0 := DMA_MAP va0 pktsz DMA_RX). set (e0 := [DmaMap va0 pktsz DMA_RX pa0]).
  assert (silent e0) as Hs0 by (apply silent_dma; by repeat (apply Forall_cons; split)).
  pose proof (sys_ok_emit y e0 Hy Hs0) as Hy1. set (y1 := with_prot y (emit (y_p y) e0)) in *.
  destruct (PHYSADDRISZERO pa0).
  { do 3 eexists. split; [done|]. left. split; [done|].
    assert (silent [PktFree pkt false]) as Hs1 by (apply silent_dma; by repeat (apply Forall_cons; split)).
    apply Hstop; [by apply (sys_ok_emit y1)|done|]. exists (e0 ++ [PktFree pkt false]). cbn [emit p_log].
    rewrite app_assoc. split; [done|]. apply quiet_app; [apply Hs0|apply Hs1]. }
  destruct (post_mapped_ok y1 (n + 1) ev pkt pktsz pa0 Hy1 Hpk) as (rc & p' & E & Hcase).
  exists rc, (n + 1), p'. split; [exact E|].
  assert (ctl_grown (buf_type ev) y (y_p y1) (y_g y) (y_out y) 0) as Hg1.
  { apply Hstop; [done|done|]. exists e0. by split; [|apply Hs0]. }
  destruct Hcase as [[-> Hgr]|[-> (gs' & out' & Hgr)]]; [left|right]; (split; [done|]); [|exists gs', out'];
    by apply (ctl_grown_trans _ y (y_p y1) (y_g y) (y_out y) 0).
Qed.

Lemma post_ctrl_loop_ok ev bs fuel y n i :
  sys_ok ri y ->
  exists n' p' gs' out' k, rxbuf_post_ctrl_loop DMA_MAP PKTGET fuel bs n (y_p y) ev i = Some (i + k, n', p') /\
    0 <= k <= Z.of_nat fuel /\ ctl_grown (buf_type ev) y p' gs' out' k.
Proof.
  revert y n i. induction fuel as [|fuel IH]; intros y n i Hy; cbn [rxbuf_post_ctrl_loop].
  { exists n, (y_p y), (y_g y), (y_out y), 0. rewrite Z.add_0_r. split_and!; try (done || lia).
    by apply ctl_grown_refl. }
  destruct (rxbufpost_ctrl_ok y bs n ev Hy) as (rc & n1 & p1 & -> & Hcase). cbn [mbind option_bind].
  destruct Hcase as [[-> Hgr]|[-> (gs1 & out1 & Hgr)]]; cbn [Z.ltb Z.compare].
  - exists n1, p1, (y_g y), (y_out y), 0. rewrite Z.add_0_r. split_and!; (done || lia).
  - destruct (IH _ n1 (i + 1) (cg_sys _ _ _ _ _ _ Hgr)) as (n' & p' & gs' & out' & k & E & Hk & Hgr2). cbn [y_p] in E.
    exists n', p', gs', out', (1 + k). rewrite E. split_and!; [do 3 f_equal; lia|lia|lia|].
    by apply (ctl_grown_trans _ y p1 gs1 out1 1).
Qed.

(** dhd_msgbuf_rxbuf_post_ctrlpath posts at most what it is asked for. *)
Lemma post_ctrlpath_ok ev bs y n max :
  sys_ok ri y -> 0 <= max < 2 ^ 16 ->
  exists n' p' gs' out' k, dhd_msgbuf_rxbuf_post_ctrlpath DMA_MAP PKTGET bs n (y_p y) ev max = Some (k, n', p') /\
    0 <= k <= max /\ ctl_grown (buf_type ev) y p' gs' out' k.
Proof.
  intros Hy Hmax. unfold dhd_msgbuf_rxbuf_post_ctrlpath. destruct (bs =? DHD_BUS_DOWN).
  - exists n, (y_p y), (y_g y), (y_out y), 0. split_and!; try (done || lia).
    by apply ctl_grown_refl.
  - destruct (post_ctrl_loop_ok ev bs (Z.to_nat max) y n 0 Hy) as (n' & p' & gs' & out' & k & -> & Hk & Hgr).
    cbn [mbind option_bind]. exists n', p', gs', out', k. rewrite wrapu_small by zlia. split_and!; (done || lia).
Qed.
End inv.
