(* ===== verification/ProtCtrlReq.v ===== *)
(** * Requests on the control submission ring

    What one or more messages on the control ring make of the system, and the
    requests that carry no packet: ioctl requests and flow-ring requests. *)
From Stdlib Require Import ZArith Lia.
From stdpp Require Import base option numbers gmap list.
From S2P Require Import Prelude Bytes MwBitmap PktidMap PktOut Tcm RingIndex MsgRing MsgFifo.
From S2P Require Import ProtState ProtInv ProtSys ProtRx ProtRxInv ProtHistory FlowQueue FlowTable ProtCtrl ProtCtrlInv.

(** The transaction ids of the ioctl requests among messages. *)
Definition req_trans (d : list Z) : option Z :=
  match ld 1 d 0 with Some ty => if ty =? MSG_TYPE_IOCTLPTR_REQ then ld 2 d 12 else None | None => None end.
Definition sent_reqs (y : prot_sys) : list Z :=
  match aget (y_g y) CTRL with Some g => omap req_trans (g_sent g) | None => [] end.
Definition taken_reqs (y : prot_sys) : list Z :=
  match aget (y_g y) CTRL with Some g => omap req_trans (g_got g) | None => [] end.

(** The fields of message [msg] are in [d]. *)
Definition msg_in (msg : list (Z * list Z)) (d : list Z) : Prop :=
  forall o bs, (o, bs) ∈ msg -> ld_bytes d o (length bs) = Some bs.

(** A message without a packet that fits its slot. *)
Record request (ty : Z) (msg : Z -> list (Z * list Z)) : Prop := {
  rq_in : forall ep, forallb (fld_in 40) (msg ep) = true;
  rq_disj : forall ep, flds_disj (msg ep) = true;
  rq_ty : forall ep, (0, le_bytes 1 ty) ∈ msg ep;
  rq_none : 0 <= ty < 256 /\ ty <> MSG_TYPE_IOCTLRESP_BUF_POST /\ ty <> MSG_TYPE_EVENT_BUF_POST
}.

Lemma request_type ty msg ep d : request ty msg -> msg_in (msg ep) d -> ld 1 d 0 = Some ty.
Proof. intros [_ _ Ht [Hr _]] Hd. by apply (fields_ld (msg ep)); [|apply Ht|]. Qed.
Lemma request_carries ty msg ep d : request ty msg -> msg_in (msg ep) d -> carries CTRL d = None.
Proof.
  intros H Hd. unfold carries, CTRL. cbn [Z.eqb]. rewrite (request_type _ _ _ _ H Hd).
  destruct (rq_none _ _ H) as (_ & H1 & H2). by rewrite (proj2 (Z.eqb_neq ty 11)), (proj2 (Z.eqb_neq ty 13)).
Qed.

Lemma ioctl_req_request ifidx cmd tr rq rs pa : request MSG_TYPE_IOCTLPTR_REQ (ioctl_req_msg ifidx cmd tr rq rs pa).
Proof. constructor; [done|done|intros; left|done]. Qed.
Lemma flow_req_request ty n : ty = MSG_TYPE_FLOW_RING_DELETE \/ ty = MSG_TYPE_FLOW_RING_FLUSH -> request ty (flow_request_msg ty n).
Proof. intros [-> | ->]; constructor; [done|done|intros; left|done|done|done|intros; left|done]. Qed.
Lemma flow_create_request n base : length base = 8%nat -> request MSG_TYPE_FLOW_RING_CREATE (flow_create_msg n base).
Proof.
  intros Hl. do 8 (destruct base as [|? base]; [done|]). destruct base; [|done].
  constructor; [done|done|intros; left|done].
Qed.

Section req.
Context (ri : ring_info).

(** ** Messages put on the control ring *)
Record ctl_sent (y : prot_sys) (p' : dhd_prot) (gs' : list ring_ghost) (out' : gmap Z out_entry)
    (xs : list (list Z)) : Prop := {
  cs_sys : sys_ok ri {| y_p := p'; y_g := gs'; y_out := out'; y_acc := y_acc y |};
  cs_gs : exists g, aget (y_g y) CTRL = Some g /\ gs' = <[Z.to_nat CTRL := pushes g xs]> (y_g y);
  cs_sub : y_out y ⊆ out';
  cs_size : size out' = (size (y_out y) + carrying CTRL xs)%nat;
  cs_rx : rxbufpost p' = rxbufpost (y_p y) /\ max_rxbufpost p' = max_rxbufpost (y_p y)
}.

Lemma ctl_sent_none y p' :
  sys_ok ri (with_prot y p') -> (exists g, aget (y_g y) CTRL = Some g) -> rxbufpost p' = rxbufpost (y_p y) ->
  max_rxbufpost p' = max_rxbufpost (y_p y) -> ctl_sent y p' (y_g y) (y_out y) [].
Proof.
  intros Hs [g Hg] E1 E2. constructor; try done. exists g. split; [done|]. symmetry. by apply pushes_nil.
Qed.

Lemma ctl_sent_trans y p1 gs1 out1 xs1 p2 gs2 out2 xs2 :
  ctl_sent y p1 gs1 out1 xs1 ->
  ctl_sent {| y_p := p1; y_g := gs1; y_out := out1; y_acc := y_acc y |} p2 gs2 out2 xs2 ->
  ctl_sent y p2 gs2 out2 (xs1 ++ xs2).
Proof.
  intros [H1 (g & Eg & ->) Hs1 Hz1 [Hm1 Hn1]] [H2 (g' & Eg' & ->) Hs2 Hz2 [Hm2 Hn2]].
  cbn [y_p y_g y_out y_acc] in *. pose proof (aget_lt _ _ _ Eg).
  rewrite aget_insert, decide_True in Eg' by (done || lia). injection Eg' as <-. constructor.
  - done.
  - exists g. split; [done|]. rewrite list_insert_insert_eq. unfold pushes. cbn [g_sent g_got g_drd]. by rewrite app_assoc.
  - by etrans.
  - rewrite carrying_app. lia.
  - split; congruence.
Qed.

(** The observation of them, and what follows for the request numbers. *)
Lemma ctl_sent_observe y p' gs' out' xs :
  sys_ok ri y -> ctl_sent y p' gs' out' xs ->
  observe y p' CTRL (y_out y) (y_acc y) = {| y_p := p'; y_g := gs'; y_out := out'; y_acc := y_acc y |}.
Proof.
  intros Hy [Hs (g & Hg & ->) Hsub Hsz _].
  apply (observe_gen ri (rx_metadata_offset (y_p y)) y p' CTRL g xs (y_out y) out' (y_acc y) Hs); try done.
  - apply Hy.
  - exact (ghost_le ri _ _ _ Hy Hg).
Qed.

Lemma ctl_sent_reqs y p' gs' out' xs acc :
  ctl_sent y p' gs' out' xs ->
  sent_reqs {| y_p := p'; y_g := gs'; y_out := out'; y_acc := acc |} = sent_reqs y ++ omap req_trans xs.
Proof.
  intros [_ (g & Hg & ->) _ _ _]. unfold sent_reqs. cbn [y_g].
  rewrite aget_insert by (by eapply aget_lt). rewrite decide_True, Hg by done.
  cbn [pushes g_sent]. by rewrite omap_app.
Qed.

Lemma omap_none_reqs ty xs :
  Forall (fun d => carries CTRL d = Some ty) xs -> omap req_trans xs = [].
Proof.
  induction 1 as [|d xs Hd _ IH]; [done|].
  change (match req_trans d with Some v => v :: omap req_trans xs | None => omap req_trans xs end = []).
  rewrite IH. unfold carries, CTRL in Hd. cbn [Z.eqb] in Hd. unfold req_trans.
  destruct (ld 1 d 0) as [t|]; [|done]. destruct (Z.eqb_spec t 11) as [E|]; [by rewrite E|].
  destruct (Z.eqb_spec t 13) as [E|]; [by rewrite E|done].
Qed.

Lemma ctl_grown_sent ty y p' gs' out' k :
  ctl_grown ri ty y p' gs' out' k -> exists xs, ctl_sent y p' gs' out' xs /\ omap req_trans xs = [].
Proof.
  intros [Hs (g & xs & Hg & -> & Hk & Hxs) [Hsub _] Hsz Hsame _]. exists xs. split; [|by eapply omap_none_reqs].
  constructor; [done|by exists g|done| |].
  - rewrite carrying_all; [lia|]. eapply Forall_impl; [exact Hxs|]. intros d ->. by eexists.
  - unfold ctl_same in Hsame. by rewrite Hsame.
Qed.

(** ** One request *)
Lemma request_fill y r g mem r1 p d m log ty msg (q := Z.of_nat (length (g_sent g)) mod max_items r) :
  ctrl_view ri y r g mem -> r1 = set_wr (set_rd r (rd r1)) (wr r1) -> request ty msg ->
  CTRL < Z.of_nat (length (h2d_rings p)) ->
  exists mem2 s' ep, ctrl_msg (cw p d r1 m log) (q * 40) msg = Some (cw p d (set_seqnum (set_mem r1 mem2) s') m log) /\
    only_slot q mem mem2 /\ msg_in (msg ep) (slot 40 mem2 q).
Proof.
  intros [Er Eg Hok Hpo Hp0 Hil Em Hlm Hmax Hgot Hlen] Es Hrq Hlp.
  pose proof (Z.mod_pos_bound (Z.of_nat (length (g_sent g))) (max_items r) ltac:(lia)) as Hq. fold q in Hq.
  set (ep := seqnum r1 mod H2D_EPOCH_MODULO).
  destruct (ctrl_fields q mem [] (msg ep)) as (mem1 & mem2 & E1 & _ & E2 & Ho & Hd); [lia|nia|apply Hrq|apply Hrq|].
  cbn [st_fields] in E1. injection E1 as <-. exists mem2, (u32 (seqnum r1 + 1)), ep. split; [|done].
  rewrite (cw_msg p Hlp d r1 m log (q * 40) msg mem mem2); [done|by rewrite Es|exact E2].
Qed.

Lemma request_done y r g mem r1 mem2 s' e ep ty msg (p := y_p y) (q := Z.of_nat (length (g_sent g)) mod max_items r)
    (d := slot 40 mem2 q) :
  sys_ok ri y -> ctrl_view ri y r g mem -> granted ri (p_pub p) CTRL r g 0 r1 1 ->
  r1 = set_wr (set_rd r (rd r1)) (wr r1) -> only_slot q mem mem2 -> silent e -> request ty msg -> msg_in (msg ep) d ->
  exists p3, prot_ring_write_complete
      (emit (cw p (p_pub p) (set_seqnum (set_mem r1 mem2) s') (pktid_map_handle p) (p_log p)) e) CTRL (Some (q * 40)) 1 =
      Some p3 /\ ctl_sent y p3 (<[Z.to_nat CTRL := push g d]> (y_g y)) (y_out y) [d].
Proof.
  intros Hy Hv Hgr Es Ho He Hrq Hd. pose proof (cv_g _ _ _ _ _ Hv) as Eg. pose proof (cv_got _ _ _ _ _ Hv) as Hgot.
  pose proof (request_carries ty msg ep d Hrq Hd) as Hc.
  destruct (ctrl_post_ok ri y r g mem r1 mem2 s' (pktid_map_handle p) e (y_out y) Hy Hv Hgr Es Ho He) as (d' & e' & E & _ & Hy');
    [apply Hy| |done|].
  { apply in_flight_post_none; [apply Hy|done|done|exact Hc]. }
  eexists. split; [exact E|]. constructor; try done.
  - by exists g.
  - unfold carrying. cbn [omap list_omap]. rewrite Hc. cbn. lia.
Qed.

(** ** Ids that come back

    The audit of an id the dongle returned, and the release of its packet. *)
Lemma tx_out_returned out id e : out !! id = Some e -> ~ is_tx e -> tx_out (<[id := returned e]> out) = tx_out out.
Proof. intros He Ht. unfold returned. rewrite (tx_out_where out id e Returned He). by rewrite decide_False. Qed.

Lemma audit_back_ok y id e :
  sys_ok ri y -> y_out y !! id = Some e -> e_where e = Taken -> ~ is_tx e ->
  exists m, prot_pktid_audit (y_p y) id DHD_DUPLICATE_FREE = Some (set_map (y_p y) m) /\
    sys_ok ri {| y_p := set_map (y_p y) m; y_g := y_g y; y_out := <[id := returned e]> (y_out y); y_acc := y_acc y |}.
Proof.
  intros Hy He Hw Ht. destruct (audit_returned _ _ _ _ _ (so_map _ _ Hy) He) as (m & E & Hm & _); [by rewrite Hw|].
  exists m. rewrite (prot_audit_eq (y_p y) id _ m E), emit_nil. split; [done|].
  apply sys_ok_out; [done|done| |by apply tx_out_returned]. apply in_flight_returned; [apply Hy|done|by rewrite Hw].
Qed.

Lemma packet_get_ok y id e (it := e_item e) :
  sys_ok ri y -> y_out y !! id = Some e -> e_where e = Returned -> ~ is_tx e ->
  exists m, let p' := emit (set_map (y_p y) m) [DmaUnmap (pa it) (len it) DMA_RX (pkt it)] in
    dhd_prot_packet_get (y_p y) id (pkttype it) true = Some (pkt it, p') /\ pkt it <> 0 /\
    sys_ok ri {| y_p := p'; y_g := y_g y; y_out := delete id (y_out y); y_acc := y_acc y |}.
Proof.
  intros Hy He Hw Ht. destruct (returned_release _ _ _ _ _ (so_map _ _ Hy) He Hw) as (m & E & Hm). fold it in E.
  pose proof (mo_out _ _ _ (so_map _ _ Hy) id e He) as (_ & _ & _ & Hz). fold it in Hz. exists m. cbv zeta. split_and!.
  - unfold dhd_prot_packet_get. rewrite E. cbn [mbind option_bind]. by rewrite (proj2 (Z.eqb_neq (pkt it) 0)).
  - done.
  - apply sys_ok_emits.
    + apply sys_ok_out; [done|done| |by apply (tx_out_delete_other _ _ e)].
      apply in_flight_done with e; [apply Hy|done|by rewrite Hw].
    + apply silent_dma. by repeat (apply Forall_cons; split).
Qed.

(** What becomes of an id the dongle returned, by the state of its locker. *)
Definition given_back (p : dhd_prot) (id : Z) (out : gmap Z out_entry) : gmap Z out_entry :=
  match aget (lockers (pktid_map_handle p)) id, out !! id with
  | Some it, Some e => if bool_decide (state it = LOCKER_IS_BUSY) then <[id := returned e]> out else delete id out
  | _, _ => out
  end.

Lemma given_back_busy n p id out out' e e' :
  map_ok n (pktid_map_handle p) out' -> out' !! id = Some e' -> out !! id = Some e ->
  given_back p id out = <[id := returned e]> out.
Proof.
  intros Hm He' He. destruct (mo_out _ _ _ Hm id e' He') as (_ & Hl & Hs & _). unfold given_back. rewrite Hl, He.
  by rewrite bool_decide_eq_true_2.
Qed.
Lemma given_back_gone n p id out out' e :
  map_ok n (pktid_map_handle p) out' -> out' !! id = None -> 1 <= id <= n -> out !! id = Some e ->
  given_back p id out = delete id out.
Proof.
  intros Hm Hn Hid He. pose proof (mo_free _ _ _ Hm id Hid Hn) as Hf.
  apply (pm_free _ _ (mo_wf _ _ _ Hm)) in Hf as [_ Hf]. unfold given_back, lstate in *.
  destruct (aget (lockers (pktid_map_handle p)) id) as [it|]; [|done]. cbn in Hf. injection Hf as Hf. rewrite He.
  rewrite bool_decide_eq_false_2; [done|]. rewrite Hf. done.
Qed.
End req.
