(* ===== verification/ProtCtrlSys.v ===== *)
(** * Histories of the whole message-buffer protocol

    The data path of [ProtHistory] and the control path of [ProtCtrl] as one
    system with the dongle: operations of both in any order, an ioctl's sender
    asleep between its request and its wake-up. *)
From Stdlib Require Import ZArith Lia.
From stdpp Require Import base option numbers gmap list.
From S2P Require Import Prelude Bytes MwBitmap PktidMap PktOut Tcm RingIndex MsgRing MsgFifo.
From S2P Require Import ProtState ProtInv ProtSys ProtRx ProtRxInv ProtHistory FlowTable ProtCtrl ProtCtrlInv ProtCtrlReq.

(** ** The system *)

(** The sleeping sender: its arguments, and the number of its request, if one
    was sent. *)
Record ioctl_call := {
  ic_cmd : Z;
  ic_action : Z;
  ic_buf : option (list Z);
  ic_len : Z;
  ic_req : option Z
}.

(** [k_done]: requests below it have been completed.  [k_resp]: the completion
    accepted for the sleeping sender, with the response buffer.  [k_begun] and
    [k_acc] count the response buffers given up by wait_begin and released by
    dhd_prot_ioctcmplt_process. *)
Record ctl_sys := {
  k_n : Z;
  k_y : prot_sys;
  k_f : dhd_flags;
  k_i : ioctl_regs;
  k_b : ctl_bufs;
  k_call : option ioctl_call;
  k_done : Z;
  k_resp : option (Z * list Z * list Z);
  k_begun : Z;
  k_acc : Z
}.

Definition k_s (k : ctl_sys) : dhd_ctl := {| c_p := y_p (k_y k); c_f := k_f k; c_i := k_i k; c_b := k_b k |}.
Definition k_put (k : ctl_sys) (n : Z) (y : prot_sys) (s : dhd_ctl) : ctl_sys :=
  {| k_n := n; k_y := y; k_f := c_f s; k_i := c_i s; k_b := c_b s; k_call := k_call k; k_done := k_done k;
     k_resp := k_resp k; k_begun := k_begun k; k_acc := k_acc k |}.
Definition k_ghost (k : ctl_sys) (call : option ioctl_call) (dn : Z) (resp : option (Z * list Z * list Z))
    (begun acc : Z) : ctl_sys :=
  {| k_n := k_n k; k_y := k_y k; k_f := k_f k; k_i := k_i k; k_b := k_b k; k_call := call; k_done := dn;
     k_resp := resp; k_begun := begun; k_acc := acc |}.

Section history.
Variable DMA_MAP : Z -> Z -> Z -> Z.
Variable PKTGET : Z -> option (Z * Z).

Inductive ctl_op :=
  | Data (op : prot_op)
  | Env (f : dhd_flags)
  | PostIoctl | PostEvent
  | Event (msg : list Z)
  | Ack (msg : list Z)
  | Cmplt (j : Z) (msg data : list Z)
  | FlowCreate (nd : flow_ring_node) | FlowDelete (nd : flow_ring_node) | FlowFlush (nd : flow_ring_node)
  | FlowResp (ty : Z) (msg : list Z)
  | IoctlSend (ifidx cmd action : Z) (buf : option (list Z)) (len : Z)
  | IoctlWoken (timeleft : Z).

(** A step on the control ring that ended in state [s]; [out] are the packets
    outstanding before the new messages. *)
Definition seen (k : ctl_sys) (n : Z) (s : dhd_ctl) (out : gmap Z out_entry) : ctl_sys :=
  k_put k n (observe (k_y k) (c_p s) CTRL out (y_acc (k_y k))) s.

Definition ctl_step (op : ctl_op) (k : ctl_sys) : option ctl_sys :=
  let s := k_s k in
  let y := k_y k in
  let n := k_n k in
  match op with
  | Data op => '(n, y') ← prot_step DMA_MAP PKTGET op (n, y); Some (k_put k n y' s)
  | Env f => Some (k_put k n y (with_f s f))
  | PostIoctl => '(n, s) ← dhd_msgbuf_rxbuf_post_ioctlresp_bufs DMA_MAP PKTGET n s; Some (seen k n s (y_out y))
  | PostEvent => '(n, s) ← dhd_msgbuf_rxbuf_post_event_bufs DMA_MAP PKTGET n s; Some (seen k n s (y_out y))
  | Event msg =>
      id ← ld 4 msg 4;
      '(n, s) ← dhd_prot_event_process DMA_MAP PKTGET n s msg;
      Some (seen k n s (given_back (c_p s) id (y_out y)))
  | Ack msg => s ← dhd_prot_ioctack_process s msg; Some (k_put k n (with_prot y (c_p s)) s)
  | Cmplt j msg data =>
      id ← ld 4 msg 4;
      s' ← dhd_prot_ioctcmplt_process s msg data;
      let out' := given_back (c_p s') id (y_out y) in
      let k' := k_put k n {| y_p := c_p s'; y_g := y_g y; y_out := out'; y_acc := y_acc y |} s' in
      Some (k_ghost k' (k_call k) (j + 1)
              (if (ioctl_received (k_i k) =? 0) && negb (ioctl_received (c_i s') =? 0)
               then Some (j, msg, data) else k_resp k)
              (k_begun k) (if bool_decide (out' !! id = None) then k_acc k + 1 else k_acc k))
  | FlowCreate nd => '(_, p) ← dhd_prot_flow_ring_create (y_p y) nd; Some (seen k n (with_p s p) (y_out y))
  | FlowDelete nd => '(_, p) ← dhd_prot_flow_ring_delete (y_p y) nd; Some (seen k n (with_p s p) (y_out y))
  | FlowFlush nd => '(_, p) ← dhd_prot_flow_ring_flush (y_p y) nd; Some (seen k n (with_p s p) (y_out y))
  | FlowResp ty msg => p ← flow_response (y_p y) ty msg; Some (k_put k n (with_prot y p) (with_p s p))
  | IoctlSend ifidx cmd action buf len =>
      '(r, n, s) ← ioctl_begin DMA_MAP PKTGET n s ifidx cmd action buf len;
      let k' := seen k n s (y_out y) in
      let N := Z.of_nat (length (sent_reqs y)) in
      match r with
      | inl _ => Some (k_ghost k' None (k_done k) None (k_begun k) (k_acc k))
      | inr buf =>
          let call := {| ic_cmd := cmd; ic_action := action; ic_buf := buf; ic_len := len;
                         ic_req := if N <? Z.of_nat (length (sent_reqs (k_y k'))) then Some N else None |} in
          Some (k_ghost k' (Some call) (k_done k) None
                  (k_begun k + (if cur_ioctlresp_bufs_posted (k_b k) =? 0 then 0 else 1)) (k_acc k))
      end
  | IoctlWoken timeleft =>
      c ← k_call k;
      '(_, _, _, s) ← ioctl_end timeleft s (ic_cmd c) (ic_action c) (ic_buf c) (ic_len c);
      Some (k_ghost (k_put k n (with_prot y (c_p s)) s) None (k_done k) (k_resp k) (k_begun k) (k_acc k))
  end.

(** What is asked of an operation.  One ioctl is under way at a time; buffers
    are as long as they are said to be; flow rings are created once, in a ring
    nothing was put on.  The dongle completes a request it took, after all the
    earlier ones it answers and with the request's transaction id, in a response
    buffer it took; it acknowledges with the id of ioctl requests. *)
Definition buf_ok (cmd : Z) (buf : option (list Z)) (len : Z) : bool :=
  match buf with
  | Some b => (len <=? Z.of_nat (length b)) &&
              (negb ((cmd =? WLC_GET_VAR) || (cmd =? WLC_SET_VAR)) || (BCME_STRLEN <=? Z.of_nat (length b)))
  | None => true
  end.
Definition fresh_flow (y : prot_sys) (f : Z) : bool :=
  (2 <=? f) &&
  match aget (h2d_rings (y_p y)) f, aget (y_g y) f with
  | Some r, Some g => bool_decide (g_sent g = []) && bool_decide (g_got g = []) &&
                      (Z.of_nat (length (base_addr r)) =? 8) && (pend_items_count r =? 0)
  | _, _ => false
  end.
Definition ctl_legal (k : ctl_sys) (op : ctl_op) : bool :=
  let y := k_y k in
  match op with
  | Data op => legal y op
  | Env _ | PostIoctl | PostEvent | FlowDelete _ | FlowFlush _ => true
  | Event msg => held y msg PKTTYPE_EVENT_RX && (14 <=? Z.of_nat (length msg))
  | Ack msg => bool_decide (ld 4 msg 4 = Some DHD_IOCTL_REQ_PKTID)
  | Cmplt j msg data =>
      held y msg PKTTYPE_IOCTL_RX && (k_done k <=? j) &&
      bool_decide (aget (taken_reqs y) j = ld 2 msg 14) && (16 <=? Z.of_nat (length msg)) &&
      (Z.of_nat (length (sent_reqs y)) - j <? 2 ^ 16) &&
      (Z.of_nat (length data) =? DHD_FLOWRING_IOCTL_BUFPOST_PKTSZ) &&
      match ld 2 msg 12 with Some l => (0 <=? l) && (l <=? DHD_FLOWRING_IOCTL_BUFPOST_PKTSZ) | None => false end
  | FlowCreate nd => fresh_flow y (fr_flowid nd)
  | FlowResp _ msg => 12 <=? Z.of_nat (length msg)
  | IoctlSend _ cmd _ buf len => bool_decide (k_call k = None) && (0 <=? len) && buf_ok cmd buf len
  | IoctlWoken timeleft => bool_decide (is_Some (k_call k)) &&
                           Bool.eqb (timeleft =? 0) (ioctl_received (k_i k) =? 0)
  end.

Fixpoint ctl_run (ops : list ctl_op) (k : ctl_sys) : option ctl_sys :=
  match ops with
  | [] => Some k
  | op :: ops => k ← ctl_step op k; ctl_run ops k
  end.
Fixpoint ctl_legal_run (ops : list ctl_op) (k : ctl_sys) : bool :=
  match ops with
  | [] => true
  | op :: ops => ctl_legal k op && match ctl_step op k with Some k => ctl_legal_run ops k | None => true end
  end.
End history.

(** ** The invariant *)
Definition call_ok (k : ctl_sys) : Prop :=
  let i := k_i k in
  let N := Z.of_nat (length (sent_reqs (k_y k))) in
  match k_call k with
  | None => (ioctl_state i = 0 \/ ioctl_state i = 1) /\ ioctl_received i = 0
  | Some c =>
      0 <= ic_len c <= WLC_IOCTL_MAXLEN /\ buf_ok (ic_cmd c) (ic_buf c) (ic_len c) = true /\
      match ic_req c with
      | None => (ioctl_state i = 0 \/ ioctl_state i = 1) /\ ioctl_received i = 0
      | Some j => j = N - 1 /\ (ioctl_state i = 0 \/ ioctl_state i = 2 \/ ioctl_state i = 3) /\
          (ioctl_received i = 0 \/
           ioctl_received i = 1 /\ k_done k = N /\
           exists msg data st, k_resp k = Some (j, msg, data) /\ ld 2 msg 14 = Some (ioctl_trans_id i) /\
             ld 2 msg 12 = Some (ioctl_resplen i) /\
             ld 2 msg 8 = Some st /\ ioctl_status i = wraps 16 st /\
             0 <= ioctl_resplen i <= DHD_FLOWRING_IOCTL_BUFPOST_PKTSZ /\
             ld_bytes (retbuf i) 0 (Z.to_nat (ioctl_resplen i)) = ld_bytes data 0 (Z.to_nat (ioctl_resplen i)))
      end
  end.

(** The counts of posted buffers. *)
Definition event_count (k : ctl_sys) : Prop :=
  cur_event_bufs_posted (k_b k) = Z.of_nat (size (ty_out PKTTYPE_EVENT_RX (y_out (k_y k)))) /\
  cur_event_bufs_posted (k_b k) <= max_eventbufpost (k_b k) < 2 ^ 16.
Definition ioctl_count (k : ctl_sys) : Prop :=
  Z.of_nat (size (ty_out PKTTYPE_IOCTL_RX (y_out (k_y k)))) + k_acc k = cur_ioctlresp_bufs_posted (k_b k) + k_begun k /\
  0 <= cur_ioctlresp_bufs_posted (k_b k) <= max_ioctlrespbufpost (k_b k) /\ max_ioctlrespbufpost (k_b k) < 2 ^ 16.

Record ctl_inv (ri : ring_info) (k : ctl_sys) : Prop := {
  ci_hist : hist_ok ri (k_y k);
  ci_ret : forall id e, y_out (k_y k) !! id = Some e -> e_where e = Returned -> pkttype (e_item e) = PKTTYPE_IOCTL_RX;
  ci_event : event_count k;
  ci_ioctl : ioctl_count k;
  ci_reqs : sent_reqs (k_y k) = map (fun j => u16 (j + 1)) (seqZ 0 (Z.of_nat (length (sent_reqs (k_y k))))) /\
    ioctl_trans_id (k_i k) = u16 (Z.of_nat (length (sent_reqs (k_y k)))) /\
    0 <= k_done k <= Z.of_nat (length (sent_reqs (k_y k)));
  ci_mem : Z.of_nat (length (retbuf (k_i k))) = IOCT_RETBUF_SIZE /\ Z.of_nat (length (ioctbuf (k_i k))) = IOCT_RETBUF_SIZE;
  ci_call : call_ok k
}.

(** Nothing returned is forgotten. *)
Definition ret_kept (k k' : ctl_sys) : Prop :=
  forall id e, y_out (k_y k) !! id = Some e -> e_where e = Returned -> y_out (k_y k') !! id = Some e.

Section step.
Context (ri : ring_info).
Variable DMA_MAP : Z -> Z -> Z -> Z.
Variable PKTGET : Z -> option (Z * Z).
Hypothesis PKTGET_nonnull : forall n pkt va, PKTGET n = Some (pkt, va) -> pkt <> 0.

Definition step_good (k : ctl_sys) (op : ctl_op) : Prop :=
  exists k', ctl_step DMA_MAP PKTGET op k = Some k' /\ ctl_inv ri k' /\ ret_kept k k'.

(** ** The control ring after buffers were posted *)
Lemma ctl_grown_hist ty y p' gs' out' k :
  ty <> PKTTYPE_DATA_RX -> hist_ok ri y -> ctl_grown ri ty y p' gs' out' k ->
  hist_ok ri {| y_p := p'; y_g := gs'; y_out := out'; y_acc := y_acc y |}.
Proof.
  intros Hne (Hy & Hp & Hmax) [Hs _ Hsub _ Hsame _]. split; [done|]. unfold rx_posted in *. cbn [y_p y_out].
  unfold ctl_same in Hsame. rewrite Hsame. cbn [rx_upd rxbufpost max_rxbufpost]. split; [|done].
  rewrite Hp. destruct (grown_by_size _ _ _ Hsub) as [_ ->]; [done|congruence].
Qed.

Lemma ctl_grown_reqs ty y p' gs' out' k acc :
  ctl_grown ri ty y p' gs' out' k ->
  sent_reqs {| y_p := p'; y_g := gs'; y_out := out'; y_acc := acc |} = sent_reqs y.
Proof.
  intros Hgr. destruct (ctl_grown_sent ri _ _ _ _ _ _ Hgr) as (xs & Hs & Ex).
  by rewrite (ctl_sent_reqs ri _ _ _ _ _ acc Hs), Ex, app_nil_r.
Qed.

Lemma ctl_grown_observe ty y p' gs' out' k :
  hist_ok ri y -> ctl_grown ri ty y p' gs' out' k ->
  observe y p' CTRL (y_out y) (y_acc y) = {| y_p := p'; y_g := gs'; y_out := out'; y_acc := y_acc y |}.
Proof.
  intros (Hy & _ & _) Hgr. destruct (ctl_grown_sent ri _ _ _ _ _ _ Hgr) as (xs & Hs & _).
  by apply (ctl_sent_observe ri _ _ _ _ xs).
Qed.

(** dhd_msgbuf_rxbuf_post_event_bufs and _ioctlresp_bufs bring the count up to
    at most its bound. *)
Lemma post_event_bufs_ok y n s :
  sys_ok ri y -> c_p s = y_p y -> 0 <= cur_event_bufs_posted (c_b s) <= max_eventbufpost (c_b s) -> max_eventbufpost (c_b s) < 2 ^ 16 ->
  exists n' p' gs' out' m,
    dhd_msgbuf_rxbuf_post_event_bufs DMA_MAP PKTGET n s =
      Some (n', with_b (with_p s p') (set_cur_event (c_b s) (cur_event_bufs_posted (c_b s) + m))) /\
    0 <= m /\ cur_event_bufs_posted (c_b s) + m <= max_eventbufpost (c_b s) /\
    ctl_grown ri PKTTYPE_EVENT_RX y p' gs' out' m.
Proof.
  intros Hy Ep Hb Hb2. unfold dhd_msgbuf_rxbuf_post_event_bufs.
  destruct (Z.leb_spec (max_eventbufpost (c_b s) - cur_event_bufs_posted (c_b s)) 0) as [|Hlt].
  - exists n, (y_p y), (y_g y), (y_out y), 0. split_and!; try lia; [|by apply ctl_grown_refl].
    rewrite Z.add_0_r, <- Ep. by destruct s as [? ? ? []].
  - destruct (post_ctrlpath_ok ri DMA_MAP PKTGET PKTGET_nonnull true (busstate (c_f s)) y n
      (max_eventbufpost (c_b s) - cur_event_bufs_posted (c_b s)) Hy ltac:(lia)) as (n' & p' & gs' & out' & m & E & Hm & Hgr).
    rewrite Ep, E. cbn [mbind option_bind]. exists n', p', gs', out', m. rewrite wrapu_small by zlia. split_and!; (done || lia).
Qed.

Lemma post_ioctlresp_bufs_ok y n s :
  sys_ok ri y -> c_p s = y_p y -> 0 <= cur_ioctlresp_bufs_posted (c_b s) <= max_ioctlrespbufpost (c_b s) ->
  max_ioctlrespbufpost (c_b s) < 2 ^ 16 ->
  exists n' p' gs' out' m,
    dhd_msgbuf_rxbuf_post_ioctlresp_bufs DMA_MAP PKTGET n s =
      Some (n', with_b (with_p s p') (set_cur_ioctlresp (c_b s) (cur_ioctlresp_bufs_posted (c_b s) + m))) /\
    0 <= m /\ cur_ioctlresp_bufs_posted (c_b s) + m <= max_ioctlrespbufpost (c_b s) /\
    ctl_grown ri PKTTYPE_IOCTL_RX y p' gs' out' m.
Proof.
  intros Hy Ep Hb Hb2. unfold dhd_msgbuf_rxbuf_post_ioctlresp_bufs.
  destruct (Z.leb_spec (max_ioctlrespbufpost (c_b s) - cur_ioctlresp_bufs_posted (c_b s)) 0) as [|Hlt].
  - exists n, (y_p y), (y_g y), (y_out y), 0. split_and!; try lia; [|by apply ctl_grown_refl].
    rewrite Z.add_0_r, <- Ep. by destruct s as [? ? ? []].
  - destruct (post_ctrlpath_ok ri DMA_MAP PKTGET PKTGET_nonnull false (busstate (c_f s)) y n
      (max_ioctlrespbufpost (c_b s) - cur_ioctlresp_bufs_posted (c_b s)) Hy ltac:(lia))
      as (n' & p' & gs' & out' & m & E & Hm & Hgr).
    rewrite Ep, E. cbn [mbind option_bind]. exists n', p', gs', out', m. rewrite wrapu_small by zlia. split_and!; (done || lia).
Qed.

Lemma ctl_grown_sizes ty y p' gs' out' m :
  ctl_grown ri ty y p' gs' out' m ->
  Z.of_nat (size (ty_out ty out')) = Z.of_nat (size (ty_out ty (y_out y))) + m /\
  forall t, t <> ty -> ty_out t out' = ty_out t (y_out y).
Proof.
  intros [_ _ Hsub Hsz _ _]. destruct (grown_by_size _ _ _ Hsub) as [H1 H2]. split; [lia|done].
Qed.

(** call_ok looks at the registers, the requests sent and the ghosts only. *)
Lemma call_ok_same k k' :
  call_ok k -> k_i k' = k_i k -> sent_reqs (k_y k') = sent_reqs (k_y k) -> k_call k' = k_call k -> k_done k' = k_done k ->
  k_resp k' = k_resp k -> call_ok k'.
Proof. unfold call_ok. intros H -> -> -> -> ->. exact H. Qed.

(** A step that leaves the ioctl alone. *)
Lemma inv_calm k k' :
  ctl_inv ri k -> hist_ok ri (k_y k') -> k_i k' = k_i k -> k_call k' = k_call k -> k_done k' = k_done k ->
  k_resp k' = k_resp k -> sent_reqs (k_y k') = sent_reqs (k_y k) ->
  (forall id e, e_where e = Returned -> y_out (k_y k') !! id = Some e <-> y_out (k_y k) !! id = Some e) ->
  event_count k' -> ioctl_count k' -> ctl_inv ri k' /\ ret_kept k k'.
Proof.
  intros [_ Hret _ _ Hr Hm Hc] Hh Ei Ec Ed Es Er Hw He Hio. split; [|by intros id e Hid Hw'; apply Hw].
  constructor; try done.
  - intros id e Hid Hw'. apply (Hret id e); [|done]. by apply Hw.
  - by rewrite Er, Ei, Ed.
  - by rewrite Ei.
  - by apply (call_ok_same k).
Qed.

(** One that only posted buffers. *)
Lemma inv_grown k ty p' gs' out' m n s :
  ctl_inv ri k -> ctl_grown ri ty (k_y k) p' gs' out' m -> ty <> PKTTYPE_DATA_RX ->
  c_p s = p' -> c_i s = k_i k ->
  let k' := k_put k n {| y_p := p'; y_g := gs'; y_out := out'; y_acc := y_acc (k_y k) |} s in
  event_count k' -> ioctl_count k' -> seen k n s (y_out (k_y k)) = k' /\ ctl_inv ri k' /\ ret_kept k k'.
Proof.
  intros Hk Hgr Ht <- Ei k' He Hio. pose proof (ci_hist _ _ Hk) as Hh. split.
  - unfold seen. by rewrite (ctl_grown_observe ty _ _ _ _ _ Hh Hgr).
  - apply inv_calm; try done.
    + by apply (ctl_grown_hist ty _ _ _ _ m).
    + by apply (ctl_grown_reqs ty _ _ _ _ m).
    + intros id e Hw. by apply (grown_by_ret ty _ _ _ _ (cg_sub _ _ _ _ _ _ _ Hgr)).
Qed.

Lemma step_post_event k : ctl_inv ri k -> step_good k PostEvent.
Proof.
  intros Hk. pose proof Hk as [[Hy _] _ [He1 He2] [Hi1 Hi2] _ _ _].
  destruct (post_event_bufs_ok (k_y k) (k_n k) (k_s k) Hy eq_refl) as (n' & p' & gs' & out' & m & E & Hm & Hle & Hgr);
    [cbn; lia|cbn; lia|].
  destruct (ctl_grown_sizes _ _ _ _ _ _ Hgr) as [Ez1 Ez2]. unfold step_good. cbn [ctl_step]. rewrite E. cbn [mbind option_bind].
  edestruct inv_grown as (-> & ? & ?); [exact Hk|exact Hgr|done|done|done| | |by eexists].
  - unfold event_count. cbn in *. rewrite Ez1. lia.
  - unfold ioctl_count. cbn [k_put k_y y_out]. by rewrite Ez2.
Qed.

Lemma step_post_ioctl k : ctl_inv ri k -> step_good k PostIoctl.
Proof.
  intros Hk. pose proof Hk as [[Hy _] _ [He1 He2] [Hi1 Hi2] _ _ _].
  destruct (post_ioctlresp_bufs_ok (k_y k) (k_n k) (k_s k) Hy eq_refl) as (n' & p' & gs' & out' & m & E & Hm & Hle & Hgr);
    [cbn; lia|cbn; lia|].
  destruct (ctl_grown_sizes _ _ _ _ _ _ Hgr) as [Ez1 Ez2]. unfold step_good. cbn [ctl_step]. rewrite E. cbn [mbind option_bind].
  edestruct inv_grown as (-> & ? & ?); [exact Hk|exact Hgr|done|done|done| | |by eexists].
  - unfold event_count. cbn [k_put k_y y_out]. by rewrite Ez2.
  - unfold ioctl_count. cbn in *. rewrite Ez1. lia.
Qed.

Lemma sent_reqs_frame y y' : sys_ok ri y -> prot_frame y y' -> sent_reqs y' = sent_reqs y.
Proof.
  intros Hy [_ _ Hs]. destruct (ctrl_view_ok ri y Hy) as (r & g & mem & Hv). pose proof (cv_g _ _ _ _ _ Hv) as Hg.
  destruct (Hs g Hg) as (g' & Hg' & Es). unfold sent_reqs. rewrite Hg. unfold CTRL. by rewrite Hg', Es.
Qed.

Lemma step_data k op : ctl_inv ri k -> legal (k_y k) op = true -> step_good k (Data op).
Proof.
  intros Hk Hl. pose proof (ci_hist _ _ Hk) as Hh.
  destruct (prot_step_ok ri DMA_MAP PKTGET PKTGET_nonnull (k_y k) (k_n k) op Hh Hl) as ([n' y'] & E & Hh' & Hf).
  unfold step_good. cbn [ctl_step]. rewrite E. cbn [mbind option_bind snd] in *. eexists. split; [done|].
  apply inv_calm; try done.
  - exact (sent_reqs_frame _ _ (proj1 Hh) Hf).
  - apply (pf_ret _ _ Hf).
  - unfold event_count. cbn [k_put k_y]. rewrite (pf_size _ _ Hf) by done. apply Hk.
  - unfold ioctl_count. cbn [k_put k_y]. rewrite (pf_size _ _ Hf) by done. apply Hk.
Qed.

Lemma step_env k f : ctl_inv ri k -> step_good k (Env f).
Proof. intros [? ? ? ? ? ? ?]. eexists. split; [done|]. split; [by constructor|by intros ? ?]. Qed.
End step.
