(* ===== verification/ProtCtrlStep.v ===== *)
(** * Control messages of the dongle as steps

    Events, acknowledgements and ioctl completions keep the invariant of
    [ProtCtrlSys]. *)
From Stdlib Require Import ZArith Lia.
From stdpp Require Import base option numbers gmap list.
From S2P Require Import Prelude Bytes MwBitmap PktidMap PktOut Tcm RingIndex MsgRing MsgFifo.
From S2P Require Import ProtState ProtInv ProtSys ProtRx ProtRxInv ProtHistory FlowTable ProtCtrl ProtCtrlInv ProtCtrlReq ProtCtrlSys.

Lemma ld_any m o k : 0 <= o -> o + Z.of_nat k <= Z.of_nat (length m) -> exists v, ld k m o = Some v.
Proof. intros ? ?. destruct (ld_bytes_Some m o k) as (bs & E & _); [done|done|]. unfold ld. rewrite E. by eexists. Qed.

Lemma size_ty_pos ty out id e : out !! id = Some e -> pkttype (e_item e) = ty -> 0 < Z.of_nat (size (ty_out ty out)).
Proof. intros He Ht. rewrite (size_ty_delete ty out id e He). unfold of_ty. rewrite decide_True by done. lia. Qed.

Section step.
Context (ri : ring_info).
Variable DMA_MAP : Z -> Z -> Z -> Z.
Variable PKTGET : Z -> option (Z * Z).
Hypothesis PKTGET_nonnull : forall n pkt va, PKTGET n = Some (pkt, va) -> pkt <> 0.

(** An id the dongle returned, with its entry marked. *)
Definition back (y : prot_sys) (m : dhd_pktid_map) (id : Z) (e : out_entry) : prot_sys :=
  {| y_p := set_map (y_p y) m; y_g := y_g y; y_out := <[id := returned e]> (y_out y); y_acc := y_acc y |}.

(** ** Events *)
Definition event_done (p2 : dhd_prot) (m : dhd_pktid_map) (it : dhd_pktid_item) (pull buflen ifidx : Z) : dhd_prot :=
  emit (emit (set_map p2 m) [DmaUnmap (pa it) (len it) DMA_RX (pkt it)]) [RxFrame (pkt it) pull buflen ifidx].

Lemma event_ok y n s msg id e buflen ifidx (it := e_item e) :
  sys_ok ri y -> c_p s = y_p y -> ld 4 msg 4 = Some id -> y_out y !! id = Some e -> e_where e = Taken ->
  pkttype it = PKTTYPE_EVENT_RX -> ld 2 msg 12 = Some buflen -> ld 1 msg 1 = Some ifidx ->
  0 < cur_event_bufs_posted (c_b s) <= max_eventbufpost (c_b s) -> max_eventbufpost (c_b s) < 2 ^ 16 ->
  exists n' m1 p2 gs2 out2 k m3,
    let final := event_done p2 m3 it (rx_dataoffset (y_p y)) buflen ifidx in
    dhd_prot_event_process DMA_MAP PKTGET n s msg =
      Some (n', with_b (with_p s final) (set_cur_event (c_b s) (cur_event_bufs_posted (c_b s) - 1 + k))) /\
    0 <= k /\ cur_event_bufs_posted (c_b s) - 1 + k <= max_eventbufpost (c_b s) /\
    ctl_grown ri PKTTYPE_EVENT_RX (back y m1 id e) p2 gs2 out2 k /\
    sys_ok ri {| y_p := final; y_g := gs2; y_out := delete id out2; y_acc := y_acc y |}.
Proof.
  intros Hy Ep Eid He Hw Ht Eb Ei Hc Hmx.
  assert (~ is_tx e) as Hnt by (unfold is_tx; fold it; rewrite Ht; done).
  destruct (audit_back_ok ri y id e Hy He Hw Hnt) as (m1 & Eau & Hy1). fold (back y m1 id e) in Hy1.
  unfold dhd_prot_event_process. rewrite Eid. cbn [mbind option_bind]. rewrite Ep, Eau. cbn [mbind option_bind].
  rewrite Eb, Ei. cbn [mbind option_bind c_b with_p]. rewrite (proj2 (Z.eqb_neq _ 0)) by lia. cbn [negb].
  set (s1 := with_b (with_p s (set_map (y_p y) m1)) (set_cur_event (c_b s) (u16 (cur_event_bufs_posted (c_b s) - 1)))).
  assert (u16 (cur_event_bufs_posted (c_b s) - 1) = cur_event_bufs_posted (c_b s) - 1) as Eu by (rewrite wrapu_small; zlia).
  destruct (post_event_bufs_ok ri DMA_MAP PKTGET PKTGET_nonnull (back y m1 id e) n s1 Hy1 eq_refl)
    as (n' & p2 & gs2 & out2 & k & E & Hk & Hle & Hgr); [cbn; rewrite Eu; lia|done|].
  rewrite E. cbn [mbind option_bind c_p with_b with_p].
  cbn [s1 c_b with_b set_cur_event cur_event_bufs_posted max_eventbufpost] in Hle. rewrite Eu in Hle.
  pose proof (cg_sys _ _ _ _ _ _ _ Hgr) as Hy2.
  assert (out2 !! id = Some (returned e)) as He2.
  { apply (grown_by_ret _ _ _ _ _ (cg_sub _ _ _ _ _ _ _ Hgr)); [done|apply lookup_insert_eq]. }
  destruct (packet_get_ok ri _ id (returned e) Hy2 He2 eq_refl Hnt) as (m3 & Eg & Hz & Hy3).
  cbn [y_p y_g y_out y_acc returned e_item back] in *. fold it in Eg, Hz, Hy3. rewrite Ht in Eg.
  exists n', m1, p2, gs2, out2, k, m3. rewrite Eg. cbn [mbind option_bind]. rewrite (proj2 (Z.eqb_neq (pkt it) 0)) by done.
  cbv zeta. split; [|split; [done|split; [done|split; [done|]]]].
  - assert (cur_event_bufs_posted (c_b s1) = cur_event_bufs_posted (c_b s) - 1) as -> by exact Eu.
    assert (rx_dataoffset p2 = rx_dataoffset (y_p y)) as Ed.
    { pose proof (cg_same _ _ _ _ _ _ _ Hgr) as Hs. unfold ctl_same in Hs. by rewrite Hs. }
    change (rx_dataoffset (emit _ _)) with (rx_dataoffset p2). rewrite Ed. reflexivity.
  - apply sys_ok_emits; [exact Hy3|]. apply silent_dma. by repeat (apply Forall_cons; split).
Qed.

(** The counts after it: one event buffer less, and those posted. *)
Lemma event_counts y m1 id e p2 gs2 out2 j :
  ctl_grown ri PKTTYPE_EVENT_RX (back y m1 id e) p2 gs2 out2 j -> y_out y !! id = Some e ->
  pkttype (e_item e) = PKTTYPE_EVENT_RX ->
  Z.of_nat (size (ty_out PKTTYPE_EVENT_RX (delete id out2))) = Z.of_nat (size (ty_out PKTTYPE_EVENT_RX (y_out y))) - 1 + j /\
  forall t, t <> PKTTYPE_EVENT_RX -> size (ty_out t (delete id out2)) = size (ty_out t (y_out y)).
Proof.
  intros Hgr He Ht. destruct (cg_sub _ _ _ _ _ _ _ Hgr) as [Hsub _]. cbn [back y_out] in Hsub.
  assert (out2 !! id = Some (returned e)) as Hei
    by (apply (lookup_weaken (<[id := returned e]> (y_out y))); [apply lookup_insert_eq|done]).
  assert (forall t, size (ty_out t out2) = (size (ty_out t (delete id out2)) + of_ty t e)%nat) as Hdel.
  { intros t. rewrite (size_ty_delete t out2 id _ Hei). unfold of_ty. cbn [returned e_item]. lia. }
  destruct (ctl_grown_sizes _ _ _ _ _ _ _ Hgr) as [Ez1 Ez2]. cbn [back y_out] in Ez1, Ez2.
  assert (forall t, size (ty_out t (<[id:=returned e]> (y_out y))) = size (ty_out t (y_out y))) as Ez3
    by (intros t; by apply size_ty_where).
  rewrite Ez3 in Ez1. rewrite Hdel in Ez1. unfold of_ty in Ez1 at 1. rewrite decide_True in Ez1 by done. split; [lia|].
  intros t Hne. rewrite <- Ez3, <- (Ez2 t Hne), (Hdel t). unfold of_ty. rewrite decide_False by congruence. lia.
Qed.

(** Its observation. *)
Lemma event_observe y m1 id e p2 gs2 out2 j final :
  sys_ok ri y -> ctl_grown ri PKTTYPE_EVENT_RX (back y m1 id e) p2 gs2 out2 j -> y_out y !! id = Some e -> e_where e = Taken ->
  sys_ok ri {| y_p := final; y_g := gs2; y_out := delete id out2; y_acc := y_acc y |} ->
  let y' := {| y_p := final; y_g := gs2; y_out := delete id out2; y_acc := y_acc y |} in
  observe y final CTRL (given_back final id (y_out y)) (y_acc y) = y' /\ sent_reqs y' = sent_reqs y.
Proof.
  intros Hy Hgr He Hw Hyf. pose proof (mo_out _ _ _ (so_map _ _ Hy) id e He) as (Hid & _).
  rewrite (given_back_gone MAX_PKTID_ITEMS final id (y_out y) (delete id out2) e (so_map _ _ Hyf)
    (lookup_delete_eq _ _) Hid He).
  destruct (ctl_grown_sent _ _ _ _ _ _ _ Hgr) as (xs & [_ (g & Hg & ->) Hsub Hsz _] & Exs).
  cbn [back y_g y_out] in *.
  assert (out2 !! id = Some (returned e)) as Hei
    by (apply (lookup_weaken (<[id := returned e]> (y_out y))); [apply lookup_insert_eq|done]).
  assert (size (<[id:=returned e]> (y_out y)) = size (y_out y)) as Es1 by (apply map_size_insert_Some; by eexists).
  pose proof (map_size_delete_Some id out2 (mk_is_Some _ _ Hei)) as Es2.
  pose proof (map_size_delete_Some id (y_out y) (mk_is_Some _ _ He)) as Es3.
  assert (size (y_out y) <> 0%nat) as Hnz by (intros E0%map_size_empty_inv; by rewrite E0, lookup_empty in He).
  cbv zeta. split.
  - apply (observe_gen ri (rx_metadata_offset (y_p y)) y final CTRL g xs _ _ _ Hyf Hg).
    + apply in_flight_done with e; [apply Hy|done|by rewrite Hw].
    + exact (ghost_le ri _ _ _ Hy Hg).
    + rewrite <- (delete_insert_eq (y_out y) id (returned e)). by apply delete_mono.
    + lia.
  - unfold sent_reqs. cbn [y_g]. rewrite aget_insert by (by eapply aget_lt). rewrite decide_True, Hg by done.
    cbn [pushes g_sent]. by rewrite omap_app, Exs, app_nil_r.
Qed.

Lemma step_event_cases k msg :
  ctl_inv ri k -> ctl_legal k (Event msg) = true ->
  exists id e buflen ifidx j k' p2 m1 m3 gs2 out2 n',
    let final := event_done p2 m3 (e_item e) (rx_dataoffset (y_p (k_y k))) buflen ifidx in
    let y' := {| y_p := final; y_g := gs2; y_out := delete id out2; y_acc := y_acc (k_y k) |} in
    ld 4 msg 4 = Some id /\ y_out (k_y k) !! id = Some e /\ ld 2 msg 12 = Some buflen /\ ld 1 msg 1 = Some ifidx /\
    ctl_step DMA_MAP PKTGET (Event msg) k = Some k' /\ 0 <= j /\
    cur_event_bufs_posted (k_b k) - 1 + j <= max_eventbufpost (k_b k) /\
    ctl_grown ri PKTTYPE_EVENT_RX (back (k_y k) m1 id e) p2 gs2 out2 j /\ sys_ok ri y' /\
    k' = k_put k n' y' (with_b (with_p (k_s k) final) (set_cur_event (k_b k) (cur_event_bufs_posted (k_b k) - 1 + j))) /\
    ctl_inv ri k' /\ ret_kept k k'.
Proof.
  intros Hk Hl. pose proof Hk as [Hh _ [He1 He2] [Hi1 Hi2] _ _ _]. pose proof Hh as (Hy & Hp & Hmx).
  cbn [ctl_legal] in Hl. apply andb_true_iff in Hl as [Hl Hlen%Z.leb_le].
  destruct (held_spec _ _ _ Hl) as (id & e & Eid & He & Hw & Ht).
  destruct (ld_any msg 12 2) as [buflen Eb]; [lia|lia|]. destruct (ld_any msg 1 1) as [ifidx Ei]; [lia|lia|].
  pose proof (size_ty_pos _ _ _ _ He Ht) as Hpos.
  destruct (event_ok (k_y k) (k_n k) (k_s k) msg id e buflen ifidx Hy eq_refl Eid He Hw Ht Eb Ei)
    as (n' & m1 & p2 & gs2 & out2 & j & m3 & E & Hj & Hle & Hgr & Hyf); [cbn; lia|cbn; lia|].
  cbn [c_b k_s] in *. set (final := event_done _ _ _ _ _ _) in *.
  destruct (event_observe (k_y k) m1 id e p2 gs2 out2 j final Hy Hgr He Hw Hyf) as [Eobs Ereq].
  destruct (event_counts (k_y k) m1 id e p2 gs2 out2 j Hgr He Ht) as [Ez1 Ez2].
  exists id, e, buflen, ifidx, j. eexists. exists p2, m1, m3, gs2, out2, n'. cbv zeta. fold final.
  do 4 (split; [done|]). split.
  { cbn [ctl_step]. rewrite Eid. cbn [mbind option_bind]. rewrite E. cbn [mbind option_bind]. unfold seen.
    cbn [c_p with_b with_p]. rewrite Eobs. done. }
  do 5 (split; [done|]). pose proof (cg_same _ _ _ _ _ _ _ Hgr) as Hsm. unfold ctl_same in Hsm. cbn [back y_p] in Hsm.
  apply (inv_calm ri k); try done; cbn [k_put k_y].
  - split; [exact Hyf|]. unfold rx_posted in *. cbn [y_p y_out].
    assert (rxbufpost final = rxbufpost (y_p (k_y k)) /\ max_rxbufpost final = max_rxbufpost (y_p (k_y k))) as [-> ->]
      by (unfold final, event_done; rewrite Hsm; done). by rewrite Ez2.
  - intros i e' Hw'. cbn [y_out]. destruct (decide (id = i)) as [<-|Hne].
    + rewrite lookup_delete_eq, He. split; [done|]. congruence.
    + rewrite lookup_delete_ne by done. rewrite (grown_by_ret _ _ _ _ _ (cg_sub _ _ _ _ _ _ _ Hgr)) by done.
      cbn [back y_out]. by rewrite lookup_insert_ne.
  - unfold event_count. cbn in *. lia.
  - unfold ioctl_count. cbn [k_put k_y y_out]. by rewrite Ez2.
Qed.

Lemma step_event k msg :
  ctl_inv ri k -> ctl_legal k (Event msg) = true -> step_good ri DMA_MAP PKTGET k (Event msg).
Proof.
  intros Hk Hl. destruct (step_event_cases k msg Hk Hl) as (? & ? & ? & ? & ? & k' & ? & ? & ? & ? & ? & ? & _ & _ & _ & _ & E & _ & _ & _ & _ & _ & Hi).
  by exists k'.
Qed.

(** ** Acknowledgements *)
Lemma with_prot_same y : with_prot y (y_p y) = y.
Proof. by destruct y. Qed.

(** A step that changes registers only. *)
Lemma inv_regs k k' :
  ctl_inv ri k -> k_y k' = k_y k -> k_b k' = k_b k -> k_done k' = k_done k -> k_begun k' = k_begun k ->
  k_acc k' = k_acc k -> ioctl_trans_id (k_i k') = ioctl_trans_id (k_i k) ->
  length (retbuf (k_i k')) = length (retbuf (k_i k)) -> length (ioctbuf (k_i k')) = length (ioctbuf (k_i k)) ->
  call_ok k' -> ctl_inv ri k' /\ ret_kept k k'.
Proof.
  intros [Hh Hret He Hio Hr Hm _] Ey Eb Ed Ebg Eac Et El1 El2 Hc. split; [|intros id e; by rewrite Ey].
  constructor; unfold event_count, ioctl_count in *; rewrite ?Ey, ?Eb, ?Ed, ?Ebg, ?Eac, ?Et, ?El1, ?El2; done.
Qed.

Lemma step_ack k msg : ctl_inv ri k -> ctl_legal k (Ack msg) = true -> step_good ri DMA_MAP PKTGET k (Ack msg).
Proof.
  intros Hk Hl. cbn [ctl_legal] in Hl. apply bool_decide_eq_true in Hl. pose proof (ci_call _ _ Hk) as Hc.
  unfold step_good. cbn [ctl_step]. unfold dhd_prot_ioctack_process. rewrite Hl. cbn [mbind option_bind].
  rewrite Z.eqb_refl. cbn [negb mbind option_bind c_i with_p k_s].
  destruct (negb _ && negb _) eqn:Eb; (eexists; split; [done|]);
    (apply inv_regs; [exact Hk|apply with_prot_same|done..|]); unfold call_ok in *;
    cbn [k_put k_i k_call k_done k_resp k_y c_i c_p with_i with_p k_s];
    change (sent_reqs (with_prot _ _)) with (sent_reqs (k_y k)); [|done].
  cbn [set_ioctl_state ioctl_received ioctl_resplen ioctl_status retbuf ioctl_state].
  destruct (k_call k) as [c|].
  - destruct Hc as (H1 & H2 & Hc). split; [done|]. split; [done|]. destruct (ic_req c) as [j|].
    + destruct Hc as (? & [E|[E|E]] & ?); rewrite E in Eb |- *; [done| |].
      * done.
      * split; [done|]. split; [right; by left|done].
    + by destruct Hc as [[E|E] ?]; rewrite E in Eb.
  - by destruct Hc as [[E|E] ?]; rewrite E in Eb.
Qed.

(** ** Completions *)
Lemma taken_prefix y : sys_ok ri y -> exists t, sent_reqs y = taken_reqs y ++ t.
Proof.
  intros Hy. destruct (ctrl_view_ok ri y Hy) as (r & g & mem & [_ Hg Hok _ _ _ _ _ _ _ _]).
  destruct (ro_cnt _ _ _ _ _ _ _ Hok) as (C & R & H). destruct H as (_ & _ & _ & _ & _ & _ & _ & _ & Ht & _).
  cbn [h_got h_sent ring_view] in Ht. unfold sent_reqs, taken_reqs. rewrite Hg.
  exists (omap req_trans (drop (length (g_got g)) (g_sent g))). rewrite Ht at 1. rewrite <- omap_app. by rewrite take_drop.
Qed.

Lemma taken_number k j xt :
  ctl_inv ri k -> aget (taken_reqs (k_y k)) j = Some xt ->
  xt = u16 (j + 1) /\ 0 <= j < Z.of_nat (length (sent_reqs (k_y k))).
Proof.
  intros Hk Hj. destruct (taken_prefix (k_y k) (proj1 (ci_hist _ _ Hk))) as [t Et].
  assert (aget (sent_reqs (k_y k)) j = Some xt) as Hs.
  { rewrite Et. pose proof (aget_lt _ _ _ Hj). unfold aget in *. destruct (0 <=? j); [|done]. by apply lookup_app_l_Some. }
  pose proof (aget_lt _ _ _ Hs) as Hlt. destruct (ci_reqs _ _ Hk) as [Er _]. rewrite Er in Hs.
  rewrite aget_map, aget_seqZ in Hs by lia. cbn in Hs. injection Hs as <-. split; [f_equal; lia|lia].
Qed.

Lemma back_ret y m id e : y_out y !! id = Some e -> e_where e = Taken -> pkttype (e_item e) = PKTTYPE_IOCTL_RX ->
  (forall i x, y_out y !! i = Some x -> e_where x = Returned -> pkttype (e_item x) = PKTTYPE_IOCTL_RX) ->
  (forall i x, y_out (back y m id e) !! i = Some x -> e_where x = Returned -> pkttype (e_item x) = PKTTYPE_IOCTL_RX) /\
  (forall i x, y_out y !! i = Some x -> e_where x = Returned -> y_out (back y m id e) !! i = Some x).
Proof.
  intros He Hw Ht Hret. cbn [back y_out]. split; intros i x; destruct (decide (id = i)) as [<-|Hne].
  - rewrite lookup_insert_eq. intros [= <-] _. done.
  - rewrite lookup_insert_ne by done. apply Hret.
  - rewrite He. intros [= <-]. congruence.
  - by rewrite lookup_insert_ne.
Qed.

Lemma hist_back y m id e : hist_ok ri y -> y_out y !! id = Some e -> sys_ok ri (back y m id e) -> hist_ok ri (back y m id e).
Proof.
  intros (_ & Hp & Hmx) He Hs. split; [done|]. split; [|done]. unfold rx_posted in *. cbn [back y_p y_out set_map rxbufpost].
  unfold returned. by rewrite size_ty_where.
Qed.

(** The completion is not accepted in this state. *)
Definition late (i : ioctl_regs) : bool :=
  negb (Z.land (ioctl_state i) MSGBUF_IOCTL_ACK_PENDING =? 0) || (Z.land (ioctl_state i) MSGBUF_IOCTL_RESP_PENDING =? 0).

Lemma cmplt_late y s msg data id e :
  sys_ok ri y -> c_p s = y_p y -> ld 4 msg 4 = Some id -> y_out y !! id = Some e -> e_where e = Taken ->
  pkttype (e_item e) = PKTTYPE_IOCTL_RX -> late (c_i s) = true ->
  exists m, dhd_prot_ioctcmplt_process s msg data =
      Some (with_i (with_p s (set_map (y_p y) m)) (set_ioctl_state (c_i s) 0)) /\ sys_ok ri (back y m id e).
Proof.
  intros Hy Ep Eid He Hw Ht Hl. assert (~ is_tx e) as Hnt by (unfold is_tx; rewrite Ht; done).
  destruct (audit_back_ok ri y id e Hy He Hw Hnt) as (m & Eau & Hy1). exists m. split; [|done].
  unfold dhd_prot_ioctcmplt_process. rewrite Eid. cbn [mbind option_bind]. rewrite Ep, Eau. cbn [mbind option_bind c_i with_p].
  unfold late in Hl. by rewrite Hl.
Qed.

(** The state after an accepted completion's buffer was released, with [e] emitted. *)
Definition released (y : prot_sys) (m1 m3 : dhd_pktid_map) (id : Z) (it : dhd_pktid_item) (e : list effect) : prot_sys :=
  {| y_p := emit (emit (set_map (set_map (y_p y) m1) m3) [DmaUnmap (pa it) (len it) DMA_RX (pkt it)]) e;
     y_g := y_g y; y_out := delete id (y_out y); y_acc := y_acc y |}.

Lemma cmplt_accepted y s msg data id e resplen status xt (it := e_item e) (i := c_i s) :
  sys_ok ri y -> c_p s = y_p y -> ld 4 msg 4 = Some id -> y_out y !! id = Some e -> e_where e = Taken ->
  pkttype it = PKTTYPE_IOCTL_RX -> late i = false ->
  ld 2 msg 12 = Some resplen -> ld 2 msg 8 = Some status -> ld 2 msg 14 = Some xt ->
  0 <= resplen -> resplen <= Z.of_nat (length data) -> resplen <= Z.of_nat (length (retbuf i)) ->
  exists m1 m3 bs mem, ld_bytes data 0 (Z.to_nat resplen) = Some bs /\ st_bytes (retbuf i) 0 bs = Some mem /\
    let ours := xt =? ioctl_trans_id i in
    let y' := released y m1 m3 id it (if ours then [IoctlWake; PktFree (pkt it) false] else [PktFree (pkt it) false]) in
    let i1 := set_response i resplen (wraps 16 status) in
    dhd_prot_ioctcmplt_process s msg data =
      Some (with_i (with_p s (y_p y')) (if ours then set_received i1 mem 1 else i1)) /\
    sys_ok ri y'.
Proof.
  intros Hy Ep Eid He Hw Ht Hl Er Est Ex Hr0 Hr1 Hr2. assert (~ is_tx e) as Hnt by (unfold is_tx; fold it; rewrite Ht; done).
  destruct (audit_back_ok ri y id e Hy He Hw Hnt) as (m1 & Eau & Hy1).
  destruct (packet_get_ok ri _ id (returned e) Hy1 (lookup_insert_eq _ _ _) eq_refl Hnt) as (m3 & Eg & Hz & Hy3).
  cbn [y_p y_g y_out y_acc returned e_item] in *. fold it in Eg, Hz, Hy3. rewrite Ht in Eg.
  destruct (ld_bytes_Some data 0 (Z.to_nat resplen)) as (bs & Ebs & Hlbs & _); [lia|lia|].
  destruct (st_bytes_Some (retbuf i) 0 bs) as (mem & Emem & _); [lia|lia|].
  exists m1, m3, bs, mem. split; [done|]. split; [done|]. cbv zeta. split.
  - unfold dhd_prot_ioctcmplt_process. rewrite Eid. cbn [mbind option_bind]. rewrite Ep, Eau. cbn [mbind option_bind c_i with_p].
    fold i. unfold late in Hl. rewrite Hl, Eg. cbn [mbind option_bind]. rewrite (proj2 (Z.eqb_neq (pkt it) 0)) by done.
    rewrite Er, Est, Ex. cbn [mbind option_bind]. cbn [set_response ioctl_trans_id ioctl_resplen retbuf].
    destruct (xt =? ioctl_trans_id i); cbn [negb]; [|done].
    assert ((if 0 <? resplen then bs ← ld_bytes data 0 (Z.to_nat resplen); st_bytes (retbuf i) 0 bs else Some (retbuf i)) = Some mem) as ->.
    { destruct (Z.ltb_spec 0 resplen); [by rewrite Ebs|]. replace resplen with 0 in Ebs by lia. cbn in Ebs.
      injection Ebs as <-. exact Emem. }
    done.
  - unfold released. rewrite delete_insert_eq in Hy3.
    apply sys_ok_emits; [exact Hy3|]. apply silent_dma. destruct (xt =? _); by repeat (apply Forall_cons; split).
Qed.

(** No completion is awaited once the request has been completed. *)
Lemma not_received k j xt :
  ctl_inv ri k -> aget (taken_reqs (k_y k)) j = Some xt -> k_done k <= j -> ioctl_received (k_i k) = 0.
Proof.
  intros Hk Hj Hd. destruct (taken_number _ _ _ Hk Hj) as [_ Hlt]. pose proof (ci_call _ _ Hk) as Hc. unfold call_ok in Hc.
  destruct (k_call k) as [c|]; [|by destruct Hc]. destruct Hc as (_ & _ & Hc). destruct (ic_req c); [|by destruct Hc].
  destruct Hc as (_ & _ & [H|(_ & H & _)]); [done|lia].
Qed.

Lemma cmplt_legal k j msg data :
  ctl_inv ri k -> ctl_legal k (Cmplt j msg data) = true ->
  exists id e resplen status, ld 4 msg 4 = Some id /\ y_out (k_y k) !! id = Some e /\ e_where e = Taken /\
    pkttype (e_item e) = PKTTYPE_IOCTL_RX /\ ld 2 msg 12 = Some resplen /\ ld 2 msg 8 = Some status /\
    aget (taken_reqs (k_y k)) j = Some (u16 (j + 1)) /\ ld 2 msg 14 = Some (u16 (j + 1)) /\
    0 <= resplen <= DHD_FLOWRING_IOCTL_BUFPOST_PKTSZ /\ Z.of_nat (length data) = DHD_FLOWRING_IOCTL_BUFPOST_PKTSZ /\
    k_done k <= j < Z.of_nat (length (sent_reqs (k_y k))) /\ Z.of_nat (length (sent_reqs (k_y k))) - j < 2 ^ 16 /\
    ioctl_received (k_i k) = 0.
Proof.
  intros Hk Hl. cbn [ctl_legal] in Hl.
  repeat match type of Hl with (_ && _) = true => let H := fresh "H" in apply andb_true_iff in Hl as [Hl H] end.
  apply Z.leb_le in H4, H2. apply Z.eqb_eq in H0. apply Z.ltb_lt in H1. apply bool_decide_eq_true in H3.
  destruct (held_spec _ _ _ Hl) as (id & e & Eid & He & Hw & Ht).
  destruct (ld_any msg 8 2) as [status Est]; [lia|lia|]. destruct (ld_any msg 14 2) as [xt Ex]; [lia|lia|].
  rewrite Ex in H3. destruct (taken_number _ _ _ Hk H3) as [-> Hlt].
  destruct (ld 2 msg 12) as [resplen|]; [|done]. apply andb_true_iff in H as [Hr0%Z.leb_le Hr1%Z.leb_le].
  exists id, e, resplen, status. pose proof (not_received _ _ _ Hk H3 H4).
  do 6 (split; [done|]). split; [done|]. split; [done|]. split; [lia|]. split; [done|]. split; [lia|]. split; [done|done].
Qed.

(** The counts when a response buffer was released. *)
Lemma released_hist y m1 m3 id e l :
  hist_ok ri y -> y_out y !! id = Some e -> pkttype (e_item e) = PKTTYPE_IOCTL_RX ->
  sys_ok ri (released y m1 m3 id (e_item e) l) -> hist_ok ri (released y m1 m3 id (e_item e) l).
Proof.
  intros (_ & Hp & Hmx) He Ht Hs. split; [done|]. split; [|done]. unfold rx_posted in *.
  cbn [released y_p y_out emit set_map rxbufpost]. rewrite Hp, (size_ty_delete _ _ _ _ He). unfold of_ty.
  by rewrite decide_False by (by rewrite Ht).
Qed.

(** What the ioctl knows after an accepted completion. *)
Lemma accepted_call k j msg data resplen status bs mem y' s' k' (ours := u16 (j + 1) =? ioctl_trans_id (k_i k))
    (i1 := set_response (k_i k) resplen (wraps 16 status)) (i' := if ours then set_received i1 mem 1 else i1) :
  ctl_inv ri k -> ioctl_received (k_i k) = 0 -> late (k_i k) = false ->
  k_done k <= j < Z.of_nat (length (sent_reqs (k_y k))) -> Z.of_nat (length (sent_reqs (k_y k))) - j < 2 ^ 16 ->
  ld 2 msg 14 = Some (u16 (j + 1)) -> ld 2 msg 12 = Some resplen -> ld 2 msg 8 = Some status ->
  0 <= resplen <= DHD_FLOWRING_IOCTL_BUFPOST_PKTSZ -> ld_bytes data 0 (Z.to_nat resplen) = Some bs -> st_bytes (retbuf (k_i k)) 0 bs = Some mem ->
  sent_reqs y' = sent_reqs (k_y k) -> c_i s' = i' ->
  k' = k_ghost (k_put k (k_n k) y' s') (k_call k) (j + 1)
         (if negb (ioctl_received i' =? 0) then Some (j, msg, data) else k_resp k) (k_begun k) (k_acc k + 1) ->
  call_ok k'.
Proof.
  intros Hk Hrcv Hl Hj HN Exl Erl Est Hrl Ebs Emem Er Ei ->. destruct (ci_reqs _ _ Hk) as (_ & Et & _).
  pose proof (ci_call _ _ Hk) as Hc. unfold call_ok in *. cbn [k_ghost k_put k_call k_i k_y k_done k_resp]. rewrite Er, Ei.
  unfold late in Hl. destruct (k_call k) as [c|].
  2: { by destruct Hc as [[E|E] _]; rewrite E in Hl. }
  destruct Hc as (H1 & H2 & Hc). split; [done|]. split; [done|].
  destruct (ic_req c) as [j'|]; [|by destruct Hc as [[E|E] _]; rewrite E in Hl].
  destruct Hc as (-> & Hst & _). split; [done|].
  unfold i', ours. destruct (Z.eqb_spec (u16 (j + 1)) (ioctl_trans_id (k_i k))) as [Eq|]; cbn [i1 set_received set_response ioctl_state
    ioctl_received ioctl_resplen ioctl_status retbuf].
  - split; [done|]. right. rewrite Eq in Exl. rewrite Et in Eq. unfold wrapu in Eq. apply mod_eq_near in Eq; [|lia|lia].
    split; [done|]. split; [lia|]. cbn [Z.eqb negb]. exists msg, data, status.
    replace (Z.of_nat (length (sent_reqs (k_y k))) - 1) with j by lia. do 5 (split; [done|]). split; [done|].
    rewrite Ebs. pose proof (ld_bytes_inv _ _ _ _ Ebs) as [_ <-]. destruct (ci_mem _ _ Hk) as [Hm _].
    apply (st_bytes_ld _ _ _ Emem). unfold IOCT_RETBUF_SIZE, WLC_IOCTL_MAXLEN, DHD_FLOWRING_IOCTL_BUFPOST_PKTSZ in *.
    pose proof (ld_bytes_inv _ _ _ _ Ebs) as [_ Hlb]. lia.
  - split; [done|]. by left.
Qed.

Lemma step_late k j msg data :
  ctl_inv ri k -> ctl_legal k (Cmplt j msg data) = true -> late (k_i k) = true ->
  exists id e m k', ld 4 msg 4 = Some id /\ y_out (k_y k) !! id = Some e /\
    ctl_step DMA_MAP PKTGET (Cmplt j msg data) k = Some k' /\
    k' = k_ghost (k_put k (k_n k) (back (k_y k) m id e)
           (with_i (with_p (k_s k) (set_map (y_p (k_y k)) m)) (set_ioctl_state (k_i k) 0)))
           (k_call k) (j + 1) (k_resp k) (k_begun k) (k_acc k) /\
    ctl_inv ri k' /\ ret_kept k k'.
Proof.
  intros Hk Hl Elate. pose proof Hk as [Hh Hret [He1 He2] [Hi1 Hi2] (Hr1 & Hr2 & Hr3) [Hm1 Hm2] Hcall].
  destruct (cmplt_legal _ _ _ _ Hk Hl) as (id & e & _ & _ & Eid & He & Hw & Ht & _ & _ & _ & _ & _ & _ & Hj & _ & Hrcv).
  pose proof Hh as (Hy & Hp & Hmx).
  destruct (cmplt_late (k_y k) (k_s k) msg data id e Hy eq_refl Eid He Hw Ht Elate) as (m & E & Hy1).
  exists id, e, m. eexists. split; [done|]. split; [done|]. split.
  { cbn [ctl_step]. rewrite Eid. cbn [mbind option_bind]. rewrite E. cbn [mbind option_bind c_p with_i with_p c_i k_s].
    rewrite (given_back_busy MAX_PKTID_ITEMS (set_map (y_p (k_y k)) m) id (y_out (k_y k)) _ e (returned e) (so_map _ _ Hy1) (lookup_insert_eq _ _ _) He).
    cbn [set_ioctl_state ioctl_received]. rewrite Hrcv. cbn [Z.eqb negb andb].
    by rewrite bool_decide_eq_false_2 by (by rewrite lookup_insert_eq). }
  split; [done|]. fold (back (k_y k) m id e). destruct (back_ret _ m _ _ He Hw Ht Hret) as [Hb1 Hb2]. split; [|exact Hb2].
  constructor; cbn [k_ghost k_put k_y k_i k_b k_done]; try done.
  - by apply hist_back.
  - unfold event_count. cbn [k_ghost k_put k_y k_b back y_out]. unfold returned. by rewrite size_ty_where.
  - unfold ioctl_count. cbn [k_ghost k_put k_y k_b k_acc k_begun back y_out]. unfold returned. by rewrite size_ty_where.
  - change (sent_reqs (back _ _ _ _)) with (sent_reqs (k_y k)). split; [done|]. split; [done|]. lia.
  - unfold call_ok in *. cbn [k_ghost k_put k_call k_i k_y c_i with_i with_p set_ioctl_state ioctl_state ioctl_received].
    change (sent_reqs (back _ _ _ _)) with (sent_reqs (k_y k)). rewrite Hrcv.
    destruct (k_call k) as [c|]; [|by auto]. destruct Hcall as (? & ? & Hc). split; [done|]. split; [done|].
    destruct (ic_req c); [|by auto]. destruct Hc as (? & _ & _). by auto.
Qed.

Lemma step_cmplt k j msg data :
  ctl_inv ri k -> ctl_legal k (Cmplt j msg data) = true -> step_good ri DMA_MAP PKTGET k (Cmplt j msg data).
Proof.
  intros Hk Hl. destruct (late (k_i k)) eqn:Elate.
  - destruct (step_late k j msg data Hk Hl Elate) as (_ & _ & _ & k' & _ & _ & E & _ & Hi). by exists k'.
  - pose proof Hk as [Hh Hret [He1 He2] [Hi1 Hi2] (Hr1 & Hr2 & Hr3) [Hm1 Hm2] Hcall].
    destruct (cmplt_legal _ _ _ _ Hk Hl) as (id & e & resplen & status & Eid & He & Hw & Ht & Erl & Est & Htk & Exl & Hrl & Hdl & Hj & HN & Hrcv).
    pose proof Hh as (Hy & Hp & Hmx). unfold step_good. cbn [ctl_step]. rewrite Eid. cbn [mbind option_bind].
    pose proof (mo_out _ _ _ (so_map _ _ Hy) id e He) as (Hid & _). rewrite Hrcv. cbn [Z.eqb andb].
    destruct (cmplt_accepted (k_y k) (k_s k) msg data id e resplen status (u16 (j + 1)) Hy eq_refl Eid He Hw Ht Elate Erl Est Exl)
      as (m1 & m3 & bs & mem & Ebs & Emem & E & Hy1); [lia|lia|cbn; unfold IOCT_RETBUF_SIZE, DHD_FLOWRING_IOCTL_BUFPOST_PKTSZ, WLC_IOCTL_MAXLEN in *; lia|].
    cbv zeta in E, Hy1. set (ours := u16 (j + 1) =? ioctl_trans_id (c_i (k_s k))) in *.
    rewrite E. cbn [mbind option_bind]. eexists. split; [done|]. cbn [c_p with_i with_p c_i k_s] in *.
    set (y1 := released _ _ _ _ _ _) in *.
    rewrite (given_back_gone MAX_PKTID_ITEMS (y_p y1) id (y_out (k_y k)) (y_out y1) e (so_map _ _ Hy1)
      (lookup_delete_eq _ _) Hid He).
    rewrite bool_decide_eq_true_2 by apply lookup_delete_eq.
    change {| y_p := y_p y1; y_g := y_g (k_y k); y_out := delete id (y_out (k_y k)); y_acc := y_acc (k_y k) |} with y1.

    pose proof (size_ty_delete PKTTYPE_EVENT_RX _ _ _ He) as Ez1. pose proof (size_ty_delete PKTTYPE_IOCTL_RX _ _ _ He) as Ez2.
    unfold of_ty in Ez1, Ez2. rewrite decide_False in Ez1 by (by rewrite Ht). rewrite decide_True in Ez2 by done.
    split.
    + constructor; cbn [k_ghost k_put k_y k_i k_b k_done].
      * by apply (released_hist (k_y k)).
      * intros i x Hx. cbn [y1 released y_out] in Hx. apply lookup_delete_Some in Hx as [_ Hx]. by apply (Hret i).
      * unfold event_count. cbn [k_ghost k_put k_y k_b y1 released y_out]. cbn [k_b c_b with_i with_p k_s]. lia.
      * unfold ioctl_count. cbn [k_ghost k_put k_y k_b k_acc k_begun y1 released y_out c_b with_i with_p k_s]. lia.
      * change (sent_reqs y1) with (sent_reqs (k_y k)). split; [done|].
        split; [by destruct ours|lia].
      * pose proof (ld_bytes_inv _ _ _ _ Ebs) as [_ Hlb].
        destruct (st_bytes_ld _ _ _ Emem) as [_ El]; [cbn [k_s c_i];
          unfold IOCT_RETBUF_SIZE, WLC_IOCTL_MAXLEN, DHD_FLOWRING_IOCTL_BUFPOST_PKTSZ in *; lia|].
        cbn [k_s c_i] in El. destruct ours; cbn [set_received set_response retbuf ioctbuf c_i with_i k_s]; by rewrite ?El.
      * eapply (accepted_call k j msg data resplen status bs mem y1); try done. reflexivity.
    + intros i x Hx Hwx. cbn [k_ghost k_put k_y y1 released y_out]. rewrite lookup_delete_ne; [done|].
      intros <-. rewrite He in Hx. injection Hx as <-. congruence.
Qed.

End step.
