(* ===== verification/ProtCtrlOps.v ===== *)
(** * Flow-ring requests and ioctls as steps

    The host's requests on the control ring and the wake-up of an ioctl's
    sender keep the invariant of [ProtCtrlSys]; with [ProtCtrlStep], every step
    does. *)
From Stdlib Require Import ZArith Lia.
From stdpp Require Import base option numbers gmap list.
From S2P Require Import Prelude Bytes MwBitmap PktidMap PktOut Tcm RingIndex MsgRing MsgFifo.
From S2P Require Import ProtState ProtInv ProtSys ProtRx ProtRxInv ProtHistory FlowQueue FlowTable CStr.
From S2P Require Import ProtCtrl ProtCtrlInv ProtCtrlReq ProtCtrlSys ProtCtrlStep.

Section step.
Context (ri : ring_info).
Variable DMA_MAP : Z -> Z -> Z -> Z.
Variable PKTGET : Z -> option (Z * Z).
Hypothesis PKTGET_nonnull : forall n pkt va, PKTGET n = Some (pkt, va) -> pkt <> 0.

(** A request without a packet and without a number. *)
Lemma hist_sent y p' gs' xs : hist_ok ri y -> ctl_sent ri y p' gs' (y_out y) xs ->
  hist_ok ri {| y_p := p'; y_g := gs'; y_out := y_out y; y_acc := y_acc y |}.
Proof.
  intros (_ & Hp & Hmx) [Hs _ _ _ [E1 E2]]. split; [done|]. unfold rx_posted in *. cbn [y_p y_out]. by rewrite E1, E2.
Qed.

Lemma inv_sent k p' gs' xs n s :
  ctl_inv ri k -> ctl_sent ri (k_y k) p' gs' (y_out (k_y k)) xs -> omap req_trans xs = [] ->
  c_p s = p' -> c_i s = k_i k -> c_b s = k_b k ->
  let k' := k_put k n {| y_p := p'; y_g := gs'; y_out := y_out (k_y k); y_acc := y_acc (k_y k) |} s in
  seen k n s (y_out (k_y k)) = k' /\ ctl_inv ri k' /\ ret_kept k k'.
Proof.
  intros Hk Hs Hx <- Ei Eb k'. pose proof (ci_hist _ _ Hk) as Hh. split.
  - unfold seen. by rewrite (ctl_sent_observe ri _ _ _ _ xs (proj1 Hh) Hs).
  - apply inv_calm; try done.
    + by apply (hist_sent _ _ _ xs).
    + cbn [k' k_put k_y]. by rewrite (ctl_sent_reqs ri _ _ _ _ xs _ Hs), Hx, app_nil_r.
    + unfold event_count. cbn [k' k_put k_b]. rewrite Eb. apply Hk.
    + unfold ioctl_count. cbn [k' k_put k_b]. rewrite Eb. apply Hk.
Qed.

(** ** Deletion, flush and the responses *)
Lemma flow_request_ok y ty nd :
  hist_ok ri y -> ty = MSG_TYPE_FLOW_RING_DELETE \/ ty = MSG_TYPE_FLOW_RING_FLUSH ->
  exists rc p' gs' xs, flow_request (y_p y) ty nd = Some (rc, p') /\ ctl_sent ri y p' gs' (y_out y) xs /\
    omap req_trans xs = [] /\
    ((rc = BCME_NOMEM /\ xs = []) \/
     (rc = BCME_OK /\ exists ep d, xs = [d] /\ msg_in (flow_request_msg ty nd ep) d)).
Proof.
  intros (Hy & _) Ht. destruct (ctrl_view_ok ri y Hy) as (r & g & mem & Hv).
  pose proof Hv as [Er Eg _ _ _ _ _ _ _ _ Hlen]. pose proof (flow_req_request ty nd Ht) as Hrq.
  destruct (ctrl_alloc_ok ri y r g mem Hy Hv) as (ptr & a & r1 & Ea & Es & Hpost).
  unfold flow_request. rewrite Ea. cbn [mbind option_bind]. destruct ptr as [off|].
  - destruct Hpost as (-> & -> & Hgr).
    destruct (request_fill ri y r g mem r1 (y_p y) (p_pub (y_p y)) (pktid_map_handle (y_p y)) (p_log (y_p y)) ty _ Hv Es Hrq Hlen)
      as (mem2 & s' & ep & E1 & Ho & Hd).
    rewrite E1. cbn [mbind option_bind].
    destruct (request_done ri y r g mem r1 mem2 s' [] ep ty (flow_request_msg ty nd) Hy Hv Hgr Es Ho) as (p3 & E3 & Hs); [by apply silent_dma|exact Hrq|exact Hd|].
    rewrite emit_nil in E3. rewrite E3. cbn [mbind option_bind]. do 3 eexists. exists [slot 40 mem2 (Z.of_nat (length (g_sent g)) mod max_items r)].
    split; [done|]. split; [exact Hs|]. split; [|right; split; [done|]; by exists ep, (slot 40 mem2 (Z.of_nat (length (g_sent g)) mod max_items r))].
    cbn [omap list_omap]. unfold req_trans. rewrite (request_type _ _ _ _ Hrq Hd). by destruct Ht as [-> | ->].
  - do 3 eexists. exists []. split; [done|]. split; [|split; [done|by left]].
    apply ctl_sent_none; [apply Hpost|by exists g|done|done].
Qed.

Lemma step_flow_request k ty nd p' rc :
  ctl_inv ri k -> ty = MSG_TYPE_FLOW_RING_DELETE \/ ty = MSG_TYPE_FLOW_RING_FLUSH ->
  flow_request (y_p (k_y k)) ty nd = Some (rc, p') ->
  let k' := seen k (k_n k) (with_p (k_s k) p') (y_out (k_y k)) in ctl_inv ri k' /\ ret_kept k k'.
Proof.
  intros Hk Ht E. destruct (flow_request_ok (k_y k) ty nd (ci_hist _ _ Hk) Ht) as (rc' & p2 & gs' & xs & E' & Hs & Hx & _).
  rewrite E in E'. injection E' as <- <-.
  by destruct (inv_sent k p' gs' xs (k_n k) (with_p (k_s k) p') Hk Hs Hx) as (-> & ? & ?).
Qed.

Lemma step_flow_delete k nd : ctl_inv ri k -> step_good ri DMA_MAP PKTGET k (FlowDelete nd).
Proof.
  intros Hk. unfold step_good. cbn [ctl_step]. unfold dhd_prot_flow_ring_delete.
  destruct (flow_request_ok (k_y k) MSG_TYPE_FLOW_RING_DELETE nd (ci_hist _ _ Hk)) as (rc & p' & _ & _ & E & _); [by left|].
  rewrite E. eexists. split; [done|]. eapply step_flow_request; [done| |exact E]. by left.
Qed.
Lemma step_flow_flush k nd : ctl_inv ri k -> step_good ri DMA_MAP PKTGET k (FlowFlush nd).
Proof.
  intros Hk. unfold step_good. cbn [ctl_step]. unfold dhd_prot_flow_ring_flush.
  destruct (flow_request_ok (k_y k) MSG_TYPE_FLOW_RING_FLUSH nd (ci_hist _ _ Hk)) as (rc & p' & _ & _ & E & _); [by right|].
  rewrite E. eexists. split; [done|]. eapply step_flow_request; [done| |exact E]. by right.
Qed.

Lemma hist_emit y e : hist_ok ri y -> silent e -> hist_ok ri (with_prot y (emit (y_p y) e)).
Proof. intros (Hy & Hp & Hmx) He. split; [by apply sys_ok_emit|done]. Qed.

Lemma step_flow_resp k ty msg :
  ctl_inv ri k -> ctl_legal k (FlowResp ty msg) = true -> step_good ri DMA_MAP PKTGET k (FlowResp ty msg).
Proof.
  intros Hk Hl. cbn [ctl_legal] in Hl. apply Z.leb_le in Hl. unfold step_good. cbn [ctl_step]. unfold flow_response.
  destruct (ld_any msg 10 2) as [f Ef]; [lia|lia|]. destruct (ld_any msg 8 2) as [st Est]; [lia|lia|].
  rewrite Ef, Est. cbn [mbind option_bind]. eexists. split; [done|].
  apply (inv_calm ri k); try done; [|apply Hk..]. apply hist_emit; [apply Hk|].
  apply silent_dma. by repeat (apply Forall_cons; split).
Qed.

(** ** Creation *)
Lemma ring_ok_inited d log i r g u b : ring_ok ri d log i r g u -> ring_ok ri d log i (set_inited r b) g u.
Proof. intros [[] ? ? ? ? ? ?]. by constructor. Qed.

Lemma ring_ok_unused d log i r g u : ring_ok ri d log i r g u -> g_sent g = [] -> rd r = 0 /\ wr r = 0.
Proof.
  intros [_ _ _ _ [Hu _] (C & R & H) _] E. destruct H as (HC & HR & HV & Hrd & _ & _ & _ & Hwr & _ & _).
  cbn [h_ring h_sent h_got ring_view] in *. rewrite E in *. cbn [length] in *. change (Z.of_nat 0) with 0 in *.
  assert (C = 0) as -> by lia. rewrite Zmod_0_l in *. done.
Qed.

Lemma set_pool_eq p j r :
  0 <= j -> j + 2 < Z.of_nat (length (h2d_rings p)) ->
  aset (prot_pool p) j r = Some (<[Z.to_nat j := r]> (prot_pool p)) /\
  set_pool p (<[Z.to_nat j := r]> (prot_pool p)) = set_rings p (<[Z.to_nat (j + 2) := r]> (h2d_rings p)).
Proof.
  intros H0 Hl. unfold prot_pool, set_pool. split.
  - apply aset_Some. rewrite length_drop. lia.
  - f_equal. rewrite <- (take_drop 2 (h2d_rings p)) at 3. rewrite insert_app_r_alt by (rewrite length_take; lia).
    do 2 f_equal. rewrite length_take. lia.
Qed.
Lemma pool_aget p j : 0 <= j -> aget (prot_pool p) j = aget (h2d_rings p) (j + 2).
Proof.
  intros H0. unfold prot_pool, aget. destruct (Z.leb_spec 0 j), (Z.leb_spec 0 (j + 2)); try lia. rewrite lookup_drop.
  f_equal. lia.
Qed.

Lemma reset_unused r : rd r = 0 -> wr r = 0 -> set_rd (set_wr r 0) 0 = r.
Proof. destruct r. cbn. by intros -> ->. Qed.

(** A fetch of the unused ring of flow [f], and its release. *)
Lemma sys_inited y f r g b :
  sys_ok ri y -> aget (h2d_rings (y_p y)) f = Some r -> aget (y_g y) f = Some g -> g_sent g = [] ->
  sys_ok ri (with_prot y (set_rings (y_p y) (<[Z.to_nat f := set_inited (set_rd (set_wr r 0) 0) b]> (h2d_rings (y_p y))))).
Proof.
  intros Hy Er Eg Es. destruct (rk_ring _ _ _ _ _ (so_rings _ _ Hy) f r g Er Eg) as [Hok Hpo].
  destruct (ring_ok_unused _ _ _ _ _ _ Hok Es) as [Hrd Hwr]. rewrite reset_unused by done.
  replace (set_rings (y_p y) _) with (set_map (set_rings (y_p y) (<[Z.to_nat f := set_inited r b]> (h2d_rings (y_p y))))
    (pktid_map_handle (y_p y))) by (by destruct (y_p y)).
  apply (sys_ok_idle ri y f r g); try done; [by apply ring_ok_inited| |apply Hy]. destruct Hpo. by constructor.
Qed.

Lemma fetch_ok y f r :
  2 <= f -> aget (h2d_rings (y_p y)) f = Some r ->
  dhd_prot_flowrings_pool_fetch (prot_pool (y_p y)) f =
    Some (set_inited (set_rd (set_wr r 0) 0) true,
          <[Z.to_nat (f - 2) := set_inited (set_rd (set_wr r 0) 0) true]> (prot_pool (y_p y))).
Proof.
  intros Hf Hr. unfold dhd_prot_flowrings_pool_fetch, DHD_FLOWRINGS_POOL_OFFSET. change BCMPCIE_H2D_COMMON_MSGRINGS with 2.
  pose proof (aget_lt _ _ _ Hr) as Hl.
  rewrite pool_aget by lia. replace (f - 2 + 2) with f by lia. rewrite Hr. cbn [mbind option_bind].
  destruct (set_pool_eq (y_p y) (f - 2) (set_inited (set_rd (set_wr r 0) 0) true)) as [-> _]; [lia|lia|done].
Qed.

(** The index store of an unused ring, and the ring's record in the table. *)
Lemma sys_create y f r g :
  sys_ok ri y -> 2 <= f -> aget (h2d_rings (y_p y)) f = Some r -> aget (y_g y) f = Some g -> g_sent g = [] ->
  exists d', put_own (RingIdxOps := h2d_ops) (p_pub (y_p y)) (idx r) 0 = Some d' /\
    (forall w j, 0 <= j -> valid_ring (p_pub (y_p y)) H2D (ring_id j) ->
       cell_val d' (Cell H2D w (ring_id j)) = cell_val (p_pub (y_p y)) (Cell H2D w (ring_id j))) /\
    sys_ok ri (with_prot y (set_pub (set_info (y_p y) (<[f := f]> (p_info (y_p y)))) d')).
Proof.
  intros Hy Hf Er Eg Es. pose proof Hy as [Hr Htb Hinf Hm Hfl [Ha Hwk Hcl Hacc] Htmo Hrx].
  pose proof (aget_lt _ _ _ Er) as Hlt. destruct (rk_ring _ _ _ _ _ Hr f r g Er Eg) as [Hok Hpo].
  pose proof Hok as [_ Hi Hv _ [Hu _] (C & R & H) _]. destruct H as (_ & HR & HV & _ & _ & _ & Ho & _).
  cbn [h_ring h_st h_sent h_got ring_view ri_own h2d_ring_idx] in *. rewrite Es in HR, HV, Ho. cbn [length] in HR, HV, Ho.
  change (Z.of_nat 0) with 0 in *. assert (pend_items_count r = 0) as Ep by lia.
  rewrite Ep in Ho. change (0 - 0) with 0 in Ho. rewrite Zmod_0_l in Ho.
  pose proof (rk_idx _ _ _ _ _ Hr) as W.
  destruct (cell_put_Some ri (p_pub (y_p y)) (Cell H2D true (ring_id f)) 0 W Hv ltac:(lia)) as (d' & E & W' & _ & Harr & Hg).
  assert (forall w j, 0 <= j -> valid_ring (p_pub (y_p y)) H2D (ring_id j) ->
       cell_val d' (Cell H2D w (ring_id j)) = cell_val (p_pub (y_p y)) (Cell H2D w (ring_id j))) as Hsame.
  { intros w j Hj Hvj. unfold cell_val. rewrite Hg by done. destruct (decide _) as [[= <- Ej]|]; [|done].
    apply ring_id_inj in Ej; [|lia|done]. subst j. unfold cell_val in Ho. cbn. by rewrite Ho. }
  exists d'. split; [|split; [done|]].
  - cbn [put_own h2d_ops]. rewrite Hi, (h2d_put_wr_cell ri _ W) by (done || lia). exact E.
  - constructor; cbn [with_prot set_pub set_info y_p y_g y_out y_acc p_pub p_log h2d_rings p_info pktid_map_handle
      p_flow_ring_table tx_metadata_offset rx_metadata_offset]; try done.
    + destruct Hr as [_ Hl2 Hr]. constructor; [done|done|]. intros i r' g' E1 E2. destruct (Hr i r' g' E1 E2) as [H1 H2].
      split; [|done]. pose proof (aget_lt _ _ _ E1). pose proof (ro_valid _ _ _ _ _ _ _ H1) as Hv1.
      apply (ring_ok_frame ri (p_pub (y_p y)) d' (p_log (y_p y))); [done|intros w; apply Hsame; (done || lia)| |done].
      by eapply valid_ring_arr.
    + intros f' i. destruct (decide (f = f')) as [<-|].
      * rewrite lookup_insert_eq. intros [= <-]. split; [done|lia].
      * rewrite lookup_insert_ne by done. apply Hinf.
Qed.

Lemma fresh_flow_spec y f :
  fresh_flow y f = true ->
  2 <= f /\ exists r g, aget (h2d_rings (y_p y)) f = Some r /\ aget (y_g y) f = Some g /\ g_sent g = [] /\
    length (base_addr r) = 8%nat.
Proof.
  unfold fresh_flow. intros [Hf%Z.leb_le H]%andb_true_iff. split; [done|].
  destruct (aget (h2d_rings (y_p y)) f) as [r|]; [|done]. destruct (aget (y_g y) f) as [g|]; [|done].
  rewrite !andb_true_iff in H. destruct H as [[[H1%bool_decide_eq_true H2] H3%Z.eqb_eq] H4]. exists r, g. split_and!; try done. lia.
Qed.

Lemma ctl_sent_base y y2 p' gs' out' xs :
  ctl_sent ri y2 p' gs' out' xs -> y_g y2 = y_g y -> y_out y2 = y_out y -> y_acc y2 = y_acc y ->
  rxbufpost (y_p y2) = rxbufpost (y_p y) -> max_rxbufpost (y_p y2) = max_rxbufpost (y_p y) ->
  ctl_sent ri y p' gs' out' xs.
Proof. intros [H1 H2 H3 H4 [H5 H6]] E1 E2 E3 E4 E5. rewrite E1, E2, E3 in *. constructor; try done. split; congruence. Qed.

Lemma granted_frame d d' i r g u r' a :
  granted ri d i r g u r' a -> (forall w, cell_val d' (Cell H2D w (ring_id i)) = cell_val d (Cell H2D w (ring_id i))) ->
  granted ri d' i r g u r' a.
Proof.
  intros (C & R & C' & Hc & Hrest) Hcell. exists C, R, C'. split; [|done].
  apply (counters_frame _ _ _ _ C R _ d') in Hc; [exact Hc|apply Hcell..].
Qed.

(** dhd_prot_flow_ring_create from the allocation on; [y1] is the state after
    the ring was fetched. *)
Lemma create_tail_ok y1 f r g nd base :
  sys_ok ri y1 -> f = fr_flowid nd -> 2 <= f -> aget (h2d_rings (y_p y1)) f = Some r -> aget (y_g y1) f = Some g ->
  g_sent g = [] -> length base = 8%nat ->
  exists rc p' gs' xs,
    ('(rqst, _, p) ← prot_alloc_ring_space (y_p y1) CTRL 1 0 false;
     match (rqst : option Z) with
     | None => pool ← dhd_prot_flowrings_pool_release (prot_pool p) f; Some (BCME_NOMEM, set_pool p pool)
     | Some off =>
         p ← ctrl_msg (set_info p (<[f := f]> (p_info p))) off (flow_create_msg nd base);
         d ← put_own (RingIdxOps := h2d_ops) (p_pub p) (idx r) 0;
         p ← prot_ring_write_complete (set_pub p d) CTRL (Some off) 1;
         Some (BCME_OK, p)
     end) = Some (rc, p') /\ ctl_sent ri y1 p' gs' (y_out y1) xs /\ omap req_trans xs = [] /\
    ((rc = BCME_NOMEM /\ xs = [] /\ p_info p' = p_info (y_p y1)) \/
     (rc = BCME_OK /\ p_info p' = <[f := f]> (p_info (y_p y1)) /\
      exists ep d, xs = [d] /\ msg_in (flow_create_msg nd base ep) d)).
Proof.
  intros Hy Ef Hf Er Eg Es Hb. destruct (ctrl_view_ok ri y1 Hy) as (rc0 & gc & mem & Hv).
  pose proof Hv as [Erc Egc Hokc Hpoc _ Hilc Hmemc _ _ _ Hlen]. pose proof (flow_create_request nd base Hb) as Hrq.
  destruct (ctrl_alloc_ok ri y1 rc0 gc mem Hy Hv) as (ptr & a & r1 & Ea & Es1 & Hpost). rewrite Ea. cbn [mbind option_bind].
  destruct ptr as [off|].
  - destruct Hpost as (-> & -> & Hgr). destruct (sys_create y1 f r g Hy Hf Er Eg Es) as (d' & Ed & Hsame & Hy2).
    set (y2 := with_prot y1 _) in Hy2.
    change (set_info (cw (y_p y1) (p_pub (y_p y1)) r1 (pktid_map_handle (y_p y1)) (p_log (y_p y1))) (<[f:=f]> _)) with
      (cw (y_p y2) (p_pub (y_p y1)) r1 (pktid_map_handle (y_p y1)) (p_log (y_p y1))).
    destruct (request_fill ri y1 rc0 gc mem r1 (y_p y2) (p_pub (y_p y1)) (pktid_map_handle (y_p y1)) (p_log (y_p y1))
      _ _ Hv Es1 Hrq Hlen) as (mem2 & s' & ep & E1 & Ho & Hd).
    rewrite E1. cbn [mbind option_bind]. change (p_pub (cw _ (p_pub (y_p y1)) _ _ _)) with (p_pub (y_p y1)). rewrite Ed.
    cbn [mbind option_bind].
    pose proof (ro_valid _ _ _ _ _ _ _ Hokc) as Hvc.
    assert (ctrl_view ri y2 rc0 gc mem) as Hv2.
    { destruct Hv as [? ? ? ? ? ? ? ? ? ? ?]. constructor; try done.
      apply (ring_ok_frame ri (p_pub (y_p y1)) d' (p_log (y_p y1))); [done|intros w; by apply Hsame| |done].
      destruct (rings_ok_ghost ri _ _ _ _ CTRL rc0 (so_rings _ _ Hy2) Erc) as [g2 Eg2].
      destruct (rk_ring _ _ _ _ _ (so_rings _ _ Hy2) CTRL rc0 g2 Erc Eg2) as [Hok2 _]. apply (ro_valid _ _ _ _ _ _ _ Hok2). }
    pose proof (granted_frame _ d' _ _ _ _ _ _ Hgr (fun w => Hsame w CTRL ltac:(done) Hvc)) as Hgr2.
    destruct (request_done ri y2 rc0 gc mem r1 mem2 s' [] ep MSG_TYPE_FLOW_RING_CREATE (flow_create_msg nd base) Hy2 Hv2 Hgr2 Es1 Ho) as (p3 & E3 & Hs);
      [by apply silent_dma|exact Hrq|exact Hd|]. rewrite emit_nil in E3.
    change (set_pub (cw (y_p y2) (p_pub (y_p y1)) (set_seqnum (set_mem r1 mem2) s') (pktid_map_handle (y_p y1)) (p_log (y_p y1))) d')
      with (cw (y_p y2) (p_pub (y_p y2)) (set_seqnum (set_mem r1 mem2) s') (pktid_map_handle (y_p y2)) (p_log (y_p y2))).
    rewrite E3.
    cbn [mbind option_bind]. eexists BCME_OK, p3, _, _. split; [done|]. split; [by apply (ctl_sent_base y1 y2)|].
    cbn [omap list_omap]. unfold req_trans. rewrite (request_type _ _ _ _ Hrq Hd). split; [done|]. right. split; [done|].
    split; [|by exists ep; eexists].
    clear -E3. unfold prot_ring_write_complete in E3. destruct (aget _ CTRL); [|done]. cbn [mbind option_bind] in E3.
    destruct (dhd_prot_ring_write_complete _ _) as [[? ?]|]; [|done]. cbn [mbind option_bind] in E3. by injection E3 as <-.
  - destruct Hpost as [Hyf _]. set (p2 := cw _ _ r1 _ _) in *.
    assert (aget (h2d_rings p2) f = Some r) as Er2.
    { unfold p2. cbn [cw rx_upd h2d_rings]. rewrite aget_insert by (unfold CTRL in *; lia). rewrite decide_False by (unfold CTRL; lia). done. }
    pose proof (aget_lt _ _ _ Er2) as Hlf.
    unfold dhd_prot_flowrings_pool_release, DHD_FLOWRINGS_POOL_OFFSET. change BCMPCIE_H2D_COMMON_MSGRINGS with 2.
    rewrite pool_aget by lia. replace (f - 2 + 2) with f by lia. rewrite Er2. cbn [mbind option_bind].
    destruct (set_pool_eq p2 (f - 2) (set_inited (set_rd (set_wr r 0) 0) false)) as [-> Ep]; [lia|lia|].
    cbn [mbind option_bind]. rewrite Ep. replace (f - 2 + 2) with f by lia.
    eexists BCME_NOMEM, _, _, []. split; [done|]. split; [|by split; [|left]].
    apply ctl_sent_none; [|by exists gc|done|done].
    apply (sys_inited (with_prot y1 p2) f r g false); done.
Qed.

Lemma flow_create_ok y nd (f := fr_flowid nd) :
  hist_ok ri y -> fresh_flow y f = true ->
  exists rc p' gs' xs, dhd_prot_flow_ring_create (y_p y) nd = Some (rc, p') /\ ctl_sent ri y p' gs' (y_out y) xs /\
    omap req_trans xs = [] /\
    ((rc = BCME_NOMEM /\ xs = [] /\ p_info p' = p_info (y_p y)) \/
     (rc = BCME_OK /\ p_info p' = <[f := f]> (p_info (y_p y)) /\
      exists r ep d, aget (h2d_rings (y_p y)) f = Some r /\ xs = [d] /\ msg_in (flow_create_msg nd (base_addr r) ep) d)).
Proof.
  intros (Hy & _) Hfr. destruct (fresh_flow_spec _ _ Hfr) as (Hf & r & g & Er & Eg & Es & Hb).
  pose proof (aget_lt _ _ _ Er) as Hlt. set (r' := set_inited (set_rd (set_wr r 0) 0) true).
  pose proof (sys_inited y f r g true Hy Er Eg Es) as Hy1. fold r' in Hy1. set (y1 := with_prot y _) in Hy1.
  assert (aget (h2d_rings (y_p y1)) f = Some r') as Er1.
  { unfold y1. cbn [with_prot y_p set_rings h2d_rings]. rewrite aget_insert by lia. by rewrite decide_True. }
  destruct (create_tail_ok y1 f r' g nd (base_addr r) Hy1 eq_refl Hf Er1 Eg Es Hb) as (rc & p' & gs' & xs & E & Hs & Hx & Hcase).
  exists rc, p', gs', xs. split; [|split; [by apply (ctl_sent_base y y1)|split; [done|]]].
  - unfold dhd_prot_flow_ring_create. cbv zeta. fold f. rewrite (fetch_ok y f r Hf Er). fold r'. cbn [mbind option_bind].
    destruct (set_pool_eq (y_p y) (f - 2) r') as [_ ->]; [lia|lia|]. replace (f - 2 + 2) with f by lia. exact E.
  - destruct Hcase as [?|(? & ? & ep & d & ? & ?)]; [by left|right]. split; [done|]. split; [done|]. by exists r, ep, d.
Qed.

Lemma step_flow_create k nd :
  ctl_inv ri k -> ctl_legal k (FlowCreate nd) = true -> step_good ri DMA_MAP PKTGET k (FlowCreate nd).
Proof.
  intros Hk Hl. cbn [ctl_legal] in Hl.
  destruct (flow_create_ok (k_y k) nd (ci_hist _ _ Hk) Hl) as (rc & p' & gs' & xs & E & Hs & Hx & _).
  unfold step_good. cbn [ctl_step]. rewrite E. cbn [mbind option_bind]. eexists. split; [done|].
  by destruct (inv_sent k p' gs' xs (k_n k) (with_p (k_s k) p') Hk Hs Hx) as (-> & ? & ?).
Qed.
End step.
