(* ===== verification/ProtCtrlIoctl.v ===== *)
(** * Ioctls as steps

    dhd_prot_ioctl up to its wait and from its wake-up on keep the invariant of
    [ProtCtrlSys]; with [ProtCtrlStep] and [ProtCtrlOps], every step does. *)
From Stdlib Require Import ZArith Lia String.
From stdpp Require Import base option numbers gmap list.
From S2P Require Import Prelude Bytes MwBitmap PktidMap PktOut Tcm RingIndex MsgRing MsgFifo.
From S2P Require Import ProtState ProtInv ProtSys ProtRx ProtRxInv ProtHistory FlowQueue FlowTable CStr.
From S2P Require Import ProtCtrl ProtCtrlInv ProtCtrlReq ProtCtrlSys ProtCtrlStep ProtCtrlOps.

(** ** Strings in the caller's buffer *)
Lemma mem_eq_Some m cs off :
  0 <= off -> off + Z.of_nat (length cs) <= Z.of_nat (length m) -> exists v, mem_eq m off cs = Some v.
Proof.
  revert off. induction cs as [|c cs IH]; intros off Ho Hl; cbn [mem_eq length] in *; [by exists true|].
  destruct (aget_is_Some m off) as [b ->]; [lia|]. cbn [mbind option_bind]. destruct (b =? c); [|by exists false].
  apply IH; lia.
Qed.

Lemma streq_Some m s : (length (chars s) < 64)%nat -> BCME_STRLEN <= Z.of_nat (length m) -> exists v, streq m s = Some v.
Proof.
  intros Hs Hm. apply mem_eq_Some; [done|]. rewrite length_app. cbn [length]. unfold BCME_STRLEN in Hm. lia.
Qed.

Lemma bcmerrorstr_Some e : exists s, bcmerrorstr e = Some s.
Proof.
  unfold bcmerrorstr. destruct (Z.ltb_spec 0 e), (Z.ltb_spec e BCME_LAST); cbn [orb]; try by eexists.
  unfold BCME_LAST in *. destruct (aget_is_Some bcmerrorstrtable (- e)) as [s ->]; [|by eexists].
  change (Z.of_nat (length bcmerrorstrtable)) with 54. lia.
Qed.

Lemma strncpy_Some m s n : 0 <= n <= Z.of_nat (length m) -> exists m', strncpy m s n = Some m' /\ length m' = length m.
Proof.
  intros Hn. unfold strncpy. destruct (st_bytes_Some m 0 (take (Z.to_nat n) s ++ replicate (Z.to_nat n - length (take (Z.to_nat n) s)) 0))
    as (m' & -> & Hl & _); [done| |by exists m'].
  rewrite length_app, length_replicate, length_take. lia.
Qed.

(** A caller's buffer as long as it is said to be, with room for the names it
    is compared with and for the strings written to it. *)
Definition buf_fits (cmd : Z) (buf : option (list Z)) (len : Z) : Prop :=
  match buf with
  | Some b => len <= Z.of_nat (length b) /\ (cmd = WLC_GET_VAR \/ cmd = WLC_SET_VAR -> BCME_STRLEN <= Z.of_nat (length b))
  | None => True
  end.
Lemma buf_ok_fits cmd buf len : buf_ok cmd buf len = true <-> buf_fits cmd buf len.
Proof.
  destruct buf as [b|]; [|done]. cbn [buf_ok buf_fits]. rewrite andb_true_iff, Z.leb_le.
  rewrite orb_true_iff, negb_true_iff, orb_false_iff, !Z.eqb_neq, Z.leb_le. split; intros [? ?]; (split; [done|]); [intuition congruence|].
  destruct (Z.eq_dec cmd WLC_GET_VAR), (Z.eq_dec cmd WLC_SET_VAR); auto.
Qed.
Lemma buf_fits_same cmd b b' len : length b' = length b -> buf_fits cmd (Some b) len -> buf_fits cmd (Some b') len.
Proof. cbn. by intros ->. Qed.

Lemma local_answer_ok s cmd buf len :
  buf_fits cmd buf len ->
  exists r, local_answer s cmd buf = Some r /\ (r = None \/ cmd = WLC_GET_VAR).
Proof.
  intros Hb. destruct buf as [b|]; cbn [local_answer]; [|exists None; auto].
  destruct (Z.eqb_spec cmd WLC_GET_VAR) as [Ec|]; [|exists None; auto]. destruct Hb as [_ Hb]. specialize (Hb (or_introl Ec)).
  destruct (streq_Some b "bcmerrorstr") as [[] ->]; [cbn; lia|done|..]; cbn [mbind option_bind].
  - destruct (bcmerrorstr_Some (dongle_error (c_f s))) as [e ->]. cbn [mbind option_bind].
    destruct (strncpy_Some b e BCME_STRLEN) as (b' & -> & _); [unfold BCME_STRLEN in *; lia|]. eexists. split; [done|by right].
  - destruct (streq_Some b "bcmerror") as [[] ->]; [cbn; lia|done|..]; cbn [mbind option_bind]; [|exists None; auto].
    destruct (st_Some 4 b 0 (u32 (dongle_error (c_f s)))) as (b' & -> & _); [done|unfold BCME_STRLEN in *; lia|].
    eexists. split; [done|by right].
Qed.

Lemma intercept_ok s cmd buf len :
  buf_fits cmd buf len -> exists buf', dhd_prot_wlioctl_intercept s cmd buf = Some buf' /\ buf_fits cmd buf' len /\
    (cmd <> WLC_SET_VAR -> buf' = buf).
Proof.
  intros Hb. destruct buf as [b|]; cbn [dhd_prot_wlioctl_intercept]; [|by exists None].
  destruct (Z.eqb_spec cmd WLC_SET_VAR) as [Ec|]; [|by exists (Some b)]. pose proof (proj2 Hb (or_intror Ec)) as Hl.
  unfold BCME_STRLEN in Hl.
  destruct (streq_Some b "pcie_bus_tput") as [[] ->]; [cbn; lia|done|..]; cbn [mbind option_bind]; [|by exists (Some b)].
  destruct (st_Some 8 b (14 + 4) (host_bus_throughput_buf_pa (c_i s))) as (b1 & -> & El1 & _); [done|lia|]. cbn [mbind option_bind].
  destruct (st_Some 2 b1 (14 + 2) DHD_BUS_TPUT_BUF_LEN) as (b2 & -> & El2 & _); [done|lia|]. eexists. split; [done|].
  split; [|done]. apply (buf_fits_same cmd b); [congruence|done].
Qed.

Lemma ioctl_result_ok s ret cmd buf len :
  (cmd = WLC_SET_VAR -> buf_fits cmd buf len) ->
  exists f, ioctl_result s ret cmd buf len = Some (if 0 <=? ret then 0 else ret, with_f s f).
Proof.
  intros Hb. unfold ioctl_result.
  assert (forall ret' s', (exists f, s' = with_f s f) -> ret' = (if 0 <=? ret then 0 else ret) ->
    exists f, match buf with
      | Some b => if (ret' =? 0) && (cmd =? WLC_SET_VAR)
                  then eq ← streq b "wme_dp"; if eq : bool then val ← (if 7 + 4 <=? len then ld 4 b 7 else Some 0);
                         Some (ret', with_f s' (set_wme_dp (c_f s') (u8 val))) else Some (ret', s')
                  else Some (ret', s')
      | None => Some (ret', s') end = Some (if 0 <=? ret then 0 else ret, with_f s f)) as H.
  { intros ret' s' [f ->] ->. destruct buf as [b|]; [|by exists f].
    destruct (_ && (cmd =? WLC_SET_VAR)) eqn:Ec; [|by exists f]. apply andb_true_iff in Ec as [_ Ec%Z.eqb_eq].
    destruct (Hb Ec) as [Hl1 Hl2]. specialize (Hl2 (or_intror Ec)).
    destruct (streq_Some b "wme_dp") as [[] ->]; [cbn; lia|done|..]; cbn [mbind option_bind]; [|by exists f].
    destruct (Z.leb_spec (7 + 4) len).
    - destruct (ld_any b 7 4) as [v ->]; [lia|lia|]. cbn [mbind option_bind]. by eexists.
    - cbn [mbind option_bind]. by eexists. }
  destruct (0 <=? ret); apply H; try done; [exists (c_f s); by destruct s|by eexists].
Qed.

Section step.
Context (ri : ring_info).
Variable DMA_MAP : Z -> Z -> Z -> Z.
Variable PKTGET : Z -> option (Z * Z).
Hypothesis PKTGET_nonnull : forall n pkt va, PKTGET n = Some (pkt, va) -> pkt <> 0.

(** ** The request *)

(** What dhd_fillup_ioct_reqst makes of the registers. *)
Definition filled (i i' : ioctl_regs) : Prop :=
  retbuf i' = retbuf i /\ length (ioctbuf i') = length (ioctbuf i) /\ ioctl_received i' = ioctl_received i.

Lemma fillup_ok y s len cmd buf ifidx (i := c_i s) :
  sys_ok ri y -> c_p s = y_p y -> 0 <= len <= WLC_IOCTL_MAXLEN -> Z.of_nat (length (ioctbuf i)) = IOCT_RETBUF_SIZE ->
  (match buf with Some b => len <= Z.of_nat (length b) | None => True end) ->
  exists rc p' gs' xs i', dhd_fillup_ioct_reqst s len cmd buf ifidx = Some (rc, with_i (with_p s p') i') /\
    ctl_sent ri y p' gs' (y_out y) xs /\ filled i i' /\
    ((rc <> 0 /\ xs = [] /\ ioctl_trans_id i' = ioctl_trans_id i /\
      (ioctl_state i <> 0 -> ioctl_state i' = ioctl_state i) /\ (ioctl_state i = 0 -> ioctl_state i' = 0)) \/
     (rc = 0 /\ ioctl_state i = 0 /\ ioctl_state i' = 3 /\ ioctl_trans_id i' = u16 (ioctl_trans_id i + 1) /\
      exists ep d, xs = [d] /\
        msg_in (ioctl_req_msg ifidx cmd (u16 (ioctl_trans_id i + 1)) (Z.min len MSGBUF_IOCTL_MAX_RQSTLEN) len (ioctbuf_pa i) ep) d)).
Proof.
  intros Hy Ep Hlen Him Hb. destruct (ctrl_view_ok ri y Hy) as (r & g & mem & Hv).
  pose proof Hv as [Er Eg _ _ _ _ _ _ _ _ Hlr].
  unfold dhd_fillup_ioct_reqst. fold i. destruct (Z.eqb_spec (ioctl_state i) 0) as [Est|Est]; cbn [negb].
  2: { exists BCME_BUSY, (y_p y), (y_g y), [], i. split; [rewrite <- Ep; by destruct s|]. split; [|split; [done|]].
    - apply ctl_sent_none; [by rewrite with_prot_same|by exists g|done|done].
    - left. by split_and!. }
  destruct (ctrl_alloc_ok ri y r g mem Hy Hv) as (ptr & a & r1 & Ea & Es & Hpost). rewrite Ep, Ea. cbn [mbind option_bind].
  destruct ptr as [off|].
  2: { eexists (-1), _, (y_g y), [], _. split; [done|]. split; [|split; [done|]].
    - apply ctl_sent_none; [apply Hpost|by exists g|done|done].
    - left. by split_and!. }
  destruct Hpost as (-> & -> & Hgr). cbn [set_ioctl_state ioctl_trans_id ioctbuf_pa ioctbuf].
  set (tr := u16 (ioctl_trans_id i + 1)).
  set (msg := ioctl_req_msg ifidx cmd tr (Z.min len MSGBUF_IOCTL_MAX_RQSTLEN) len (ioctbuf_pa i)).
  pose proof (ioctl_req_request ifidx cmd tr (Z.min len MSGBUF_IOCTL_MAX_RQSTLEN) len (ioctbuf_pa i)) as Hrq. fold msg in Hrq.
  destruct (request_fill ri y r g mem r1 (y_p y) (p_pub (y_p y)) (pktid_map_handle (y_p y)) (p_log (y_p y)) _ _ Hv Es Hrq Hlr)
    as (mem2 & s' & ep & E1 & Ho & Hd).
  rewrite E1. cbn [mbind option_bind].
  assert (exists ib, (match buf with Some b => bs ← ld_bytes b 0 (Z.to_nat len); st_bytes (ioctbuf i) 0 bs | None => Some (ioctbuf i) end)
    = Some ib /\ length ib = length (ioctbuf i)) as (ib & Eib & Hib).
  { destruct buf as [b|]; [|by eexists]. destruct (ld_bytes_Some b 0 (Z.to_nat len)) as (bs & -> & Hbs & _); [done|lia|].
    cbn [mbind option_bind]. destruct (st_bytes_Some (ioctbuf i) 0 bs) as (ib & -> & Hl & _); [done| |by eexists].
    unfold IOCT_RETBUF_SIZE, WLC_IOCTL_MAXLEN in *. lia. }
  cbn [mbind option_bind] in Eib. rewrite Eib. cbn [mbind option_bind].
  destruct (request_done ri y r g mem r1 mem2 s' [BufFlush len] ep MSG_TYPE_IOCTLPTR_REQ msg Hy Hv Hgr Es Ho) as (p3 & E3 & Hs);
    [apply silent_dma; by repeat (apply Forall_cons; split)|exact Hrq|exact Hd|].
  rewrite E3. cbn [mbind option_bind]. eexists 0, p3, _, _, _. split; [done|]. split; [exact Hs|]. split; [done|].
  right. split; [done|]. split; [done|]. split; [done|]. split; [done|]. by exists ep; eexists.
Qed.

Lemma req_in_trans ifidx cmd tr rq rs pa ep d :
  0 <= tr < 2 ^ 16 -> msg_in (ioctl_req_msg ifidx cmd tr rq rs pa ep) d -> req_trans d = Some tr.
Proof.
  intros Ht Hd. unfold req_trans. rewrite (request_type _ _ _ _ (ioctl_req_request ifidx cmd tr rq rs pa) Hd).
  rewrite Z.eqb_refl. apply (fields_ld _ d 12 2 tr Hd); [|exact Ht]. unfold ioctl_req_msg. set_solver.
Qed.

(** ** Up to the wait *)
Definition begun (b : ctl_bufs) : Z :=
  if cur_ioctlresp_bufs_posted b =? 0 then 0 else cur_ioctlresp_bufs_posted b - 1.

Lemma wait_begin_ok y n s :
  sys_ok ri y -> c_p s = y_p y -> 0 <= cur_ioctlresp_bufs_posted (c_b s) <= max_ioctlrespbufpost (c_b s) ->
  max_ioctlrespbufpost (c_b s) < 2 ^ 16 ->
  exists n' p' gs' out' m,
    wait_begin DMA_MAP PKTGET n s = Some (n', with_b (with_p s p') (set_cur_ioctlresp (c_b s) (begun (c_b s) + m))) /\
    0 <= m /\ begun (c_b s) + m <= max_ioctlrespbufpost (c_b s) /\ ctl_grown ri PKTTYPE_IOCTL_RX y p' gs' out' m.
Proof.
  intros Hy Ep Hb Hmx. unfold wait_begin. set (s1 := if negb _ then _ else _).
  assert (s1 = with_b s (set_cur_ioctlresp (c_b s) (begun (c_b s)))) as ->.
  { unfold s1, begun. destruct (Z.eqb_spec (cur_ioctlresp_bufs_posted (c_b s)) 0) as [E|]; cbn [negb].
    - destruct s as [? ? ? []]. cbn in *. by rewrite E.
    - by rewrite wrapu_small by zlia. }
  assert (0 <= begun (c_b s) <= max_ioctlrespbufpost (c_b s)) as Hbg.
  { unfold begun. destruct (Z.eqb_spec (cur_ioctlresp_bufs_posted (c_b s)) 0); lia. }
  destruct (post_ioctlresp_bufs_ok ri DMA_MAP PKTGET PKTGET_nonnull y n (with_b s (set_cur_ioctlresp (c_b s) (begun (c_b s)))) Hy Ep)
    as (n' & p' & gs' & out' & m & E & Hm & Hle & Hgr); [exact Hbg|done|].
  exists n', p', gs', out', m. rewrite E. by split_and!.
Qed.

(** The requests after another one, or none. *)
Definition numbered (l : list Z) : Prop := l = map (fun j => u16 (j + 1)) (seqZ 0 (Z.of_nat (length l))).
Lemma numbered_snoc l : numbered l -> numbered (l ++ [u16 (Z.of_nat (length l) + 1)]).
Proof.
  unfold numbered. intros H. rewrite length_app, Nat2Z.inj_add. cbn [length]. rewrite seqZ_app by lia.
  rewrite map_app, <- H. cbn. done.
Qed.

Lemma fill_numbers k s p' gs' xs i' acc :
  ctl_inv ri k -> c_i s = k_i k -> ctl_sent ri (k_y k) p' gs' (y_out (k_y k)) xs ->
  (ioctl_state (c_i s) = 0 \/ ioctl_state (c_i s) = 1) ->
  forall rc ifidx cmd rq rs pa,
  ((rc <> 0 /\ xs = [] /\ ioctl_trans_id i' = ioctl_trans_id (c_i s) /\
      (ioctl_state (c_i s) <> 0 -> ioctl_state i' = ioctl_state (c_i s)) /\ (ioctl_state (c_i s) = 0 -> ioctl_state i' = 0)) \/
     (rc = 0 /\ ioctl_state (c_i s) = 0 /\ ioctl_state i' = 3 /\ ioctl_trans_id i' = u16 (ioctl_trans_id (c_i s) + 1) /\
      exists ep d, xs = [d] /\ msg_in (ioctl_req_msg ifidx cmd (u16 (ioctl_trans_id (c_i s) + 1)) rq rs pa ep) d)) ->
  let N := Z.of_nat (length (sent_reqs (k_y k))) in
  let sent' := sent_reqs {| y_p := p'; y_g := gs'; y_out := y_out (k_y k); y_acc := acc |} in
  numbered sent' /\ ioctl_trans_id i' = u16 (Z.of_nat (length sent')) /\
  ((Z.of_nat (length sent') = N /\ (ioctl_state i' = 0 \/ ioctl_state i' = 1)) \/
   (Z.of_nat (length sent') = N + 1 /\ ioctl_state i' = 3)).
Proof.
  intros Hk Ei Hs Hst rc ifidx cmd rq rs pa Hcase N sent'. destruct (ci_reqs _ _ Hk) as (Hr1 & Hr2 & _).
  pose proof (ctl_sent_reqs ri _ _ _ _ _ acc Hs) as Es. fold sent' in Es. rewrite Ei in *.
  destruct Hcase as [(_ & -> & Et & H1 & H2)|(_ & E0 & E3 & Et & ep & d & -> & Hd)].
  - cbn in Es. rewrite app_nil_r in Es. rewrite Es, Et. split; [done|]. split; [done|]. left. split; [done|].
    destruct Hst as [E|E]; [left; auto|right]. rewrite <- E. apply H1. by rewrite E.
  - pose proof (wrapu_range 16 (ioctl_trans_id (k_i k) + 1) ltac:(lia)) as Hrng.
    cbn [omap list_omap] in Es. rewrite (req_in_trans _ _ _ _ _ _ _ _ Hrng Hd) in Es.
    assert (u16 (ioctl_trans_id (k_i k) + 1) = u16 (N + 1)) as Eu.
    { rewrite Hr2. fold N. unfold wrapu. by rewrite Zplus_mod_idemp_l. }
    rewrite Eu in Es, Et. rewrite Es, length_app, Nat2Z.inj_add. cbn [length]. change (Z.of_nat 1) with 1. fold N.
    split; [by apply numbered_snoc|]. split; [done|]. by right.
Qed.

Lemma inv_asked k k' :
  ctl_inv ri k -> hist_ok ri (k_y k') ->
  (forall id e, e_where e = Returned -> y_out (k_y k') !! id = Some e <-> y_out (k_y k) !! id = Some e) ->
  k_done k' = k_done k -> numbered (sent_reqs (k_y k')) ->
  ioctl_trans_id (k_i k') = u16 (Z.of_nat (length (sent_reqs (k_y k')))) ->
  Z.of_nat (length (sent_reqs (k_y k))) <= Z.of_nat (length (sent_reqs (k_y k'))) ->
  length (retbuf (k_i k')) = length (retbuf (k_i k)) -> length (ioctbuf (k_i k')) = length (ioctbuf (k_i k)) ->
  event_count k' -> ioctl_count k' -> call_ok k' -> ctl_inv ri k' /\ ret_kept k k'.
Proof.
  intros [_ Hret _ _ (_ & _ & Hd) [Hm1 Hm2] _] Hh Hw Ed Hn Et Hle El1 El2 He Hio Hc. split; [|by intros id e Hid Hw'; apply Hw].
  constructor; try done.
  - intros id e Hid Hw'. apply (Hret id e); [|done]. by apply Hw.
  - rewrite Ed. split; [exact Hn|]. split; [done|]. lia.
  - by rewrite El1, El2.
Qed.

(** Nothing but flags changed, and no sender sleeps. *)
Lemma inv_quiet k f resp :
  ctl_inv ri k -> k_call k = None ->
  let k' := k_ghost (seen k (k_n k) (with_f (k_s k) f) (y_out (k_y k))) None (k_done k) resp (k_begun k) (k_acc k) in
  ctl_inv ri k' /\ ret_kept k k'.
Proof.
  intros Hk Hc. pose proof Hk as [(Hy & _) _ _ _ _ _ Hcall].
  destruct (ctrl_view_ok ri _ Hy) as (r & g & mem & Hv). pose proof (cv_g _ _ _ _ _ Hv) as Eg.
  assert (ctl_sent ri (k_y k) (y_p (k_y k)) (y_g (k_y k)) (y_out (k_y k)) []) as Hs.
  { apply ctl_sent_none; [by rewrite with_prot_same|by exists g|done|done]. }
  destruct (inv_sent ri k _ _ [] (k_n k) (with_f (k_s k) f) Hk Hs eq_refl eq_refl eq_refl eq_refl) as (-> & Hi & Hr).
  cbv zeta. split; [|exact Hr]. destruct Hi as [H1 H2 H3 H4 H5 H6 H7]. constructor; try done.
  unfold call_ok in *. rewrite Hc in Hcall. exact Hcall.
Qed.

(** The registers when the sender leaves. *)
Lemma ioctl_out_regs s (i' := c_i (ioctl_out s)) :
  (ioctl_state (c_i s) = 0 \/ ioctl_state (c_i s) = 1 \/ ioctl_state (c_i s) = 2 \/ ioctl_state (c_i s) = 3) ->
  (ioctl_state i' = 0 \/ ioctl_state i' = 1) /\ ioctl_received i' = 0 /\ ioctl_trans_id i' = ioctl_trans_id (c_i s) /\
  retbuf i' = retbuf (c_i s) /\ ioctbuf i' = ioctbuf (c_i s).
Proof. unfold i'. cbn. intros [-> |[-> |[-> | ->]]]; cbn; auto. Qed.

Lemma seen_sent k n s p' gs' out' xs :
  sys_ok ri (k_y k) -> ctl_sent ri (k_y k) p' gs' out' xs -> c_p s = p' ->
  seen k n s (y_out (k_y k)) = k_put k n {| y_p := p'; y_g := gs'; y_out := out'; y_acc := y_acc (k_y k) |} s.
Proof. intros Hy Hs <-. unfold seen. by rewrite (ctl_sent_observe ri _ _ _ _ xs Hy Hs). Qed.

(** The request was not waited for. *)
Lemma send_reset k p' gs' xs i' f N' :
  ctl_inv ri k -> ctl_sent ri (k_y k) p' gs' (y_out (k_y k)) xs -> filled (k_i k) i' ->
  let y' := {| y_p := p'; y_g := gs'; y_out := y_out (k_y k); y_acc := y_acc (k_y k) |} in
  N' = Z.of_nat (length (sent_reqs y')) ->
  numbered (sent_reqs y') -> ioctl_trans_id i' = u16 N' -> Z.of_nat (length (sent_reqs (k_y k))) <= N' ->
  ioctl_state i' = 0 \/ ioctl_state i' = 1 \/ ioctl_state i' = 2 \/ ioctl_state i' = 3 ->
  let s' := with_f (ioctl_out (with_i (with_p (k_s k) p') i')) f in
  let k' := k_ghost (seen k (k_n k) s' (y_out (k_y k))) None (k_done k) None (k_begun k) (k_acc k) in
  ctl_inv ri k' /\ ret_kept k k'.
Proof.
  intros Hk Hs (Hf1 & Hf2 & Hf3) y' HN Hn Ht Hle Hst s' k'. pose proof (ci_hist _ _ Hk) as Hh.
  unfold k'. rewrite (seen_sent k (k_n k) s' p' gs' (y_out (k_y k)) xs (proj1 Hh) Hs eq_refl). fold y'.
  destruct (ioctl_out_regs (with_i (with_p (k_s k) p') i') Hst) as (Ho1 & Ho2 & Ho3 & Ho4 & Ho5).
  apply (inv_asked k); cbn [k_ghost k_put k_y k_i k_done s' c_i with_f]; try done.
  - by apply (hist_sent ri _ _ _ xs).
  - rewrite Ho3, <- HN. exact Ht.
  - rewrite <- HN. exact Hle.
  - rewrite Ho4. cbn [c_i with_i]. by rewrite Hf1.
  - apply Hk.
  - apply Hk.
Qed.

(** The sender goes to sleep, after more buffers were posted. *)
Lemma send_wait k p' gs' xs i' n c :
  ctl_inv ri k -> ctl_sent ri (k_y k) p' gs' (y_out (k_y k)) xs -> filled (k_i k) i' ->
  let y' := {| y_p := p'; y_g := gs'; y_out := y_out (k_y k); y_acc := y_acc (k_y k) |} in
  let N := Z.of_nat (length (sent_reqs (k_y k))) in
  let N' := Z.of_nat (length (sent_reqs y')) in
  numbered (sent_reqs y') -> ioctl_trans_id i' = u16 N' -> N <= N' ->
  ioctl_received (k_i k) = 0 -> 0 <= ic_len c <= WLC_IOCTL_MAXLEN ->
  buf_ok (ic_cmd c) (ic_buf c) (ic_len c) = true -> ic_req c = (if N <? N' then Some N else None) ->
  N' = N /\ (ioctl_state i' = 0 \/ ioctl_state i' = 1) \/ N' = N + 1 /\ ioctl_state i' = 3 ->
  exists n' s', wait_begin DMA_MAP PKTGET n (with_i (with_p (k_s k) p') i') = Some (n', s') /\ c_i s' = i' /\
    let sk := seen k n' s' (y_out (k_y k)) in
    sent_reqs (k_y sk) = sent_reqs y' /\
    let k' := k_ghost sk (Some c) (k_done k) None
                (k_begun k + (if cur_ioctlresp_bufs_posted (k_b k) =? 0 then 0 else 1)) (k_acc k) in
    ctl_inv ri k' /\ ret_kept k k'.
Proof.
  intros Hk Hs (Hf1 & Hf2 & Hf3) y' N N' Hn Ht Hle Hrcv Hlen Hbuf Hreq Hst.
  pose proof Hk as [Hh _ [He1 He2] [Hi1 Hi2] _ _ _].
  destruct (wait_begin_ok y' n (with_i (with_p (k_s k) p') i') (cs_sys ri _ _ _ _ _ Hs) eq_refl)
    as (n' & p2 & gs2 & out2 & m & E & Hm & Hlm & Hgr); [cbn; lia|cbn; lia|].
  cbn [c_b with_i with_p k_s] in *. rewrite E. do 2 eexists. split; [done|]. split; [done|].
  destruct (ctl_grown_sent ri _ _ _ _ _ _ Hgr) as (xs2 & Hs2 & Ex2).
  pose proof (ctl_sent_trans ri _ _ _ _ _ _ _ _ _ Hs Hs2) as Hs3.
  rewrite (seen_sent k n' _ p2 gs2 out2 (xs ++ xs2) (proj1 Hh) Hs3) by done. cbn [k_put k_y].
  pose proof (ctl_sent_reqs ri _ _ _ _ _ (y_acc (k_y k)) Hs2) as Er. rewrite Ex2, app_nil_r in Er.
  split; [exact Er|]. cbv zeta. set (y2 := {| y_p := p2; y_g := gs2; y_out := out2; y_acc := y_acc (k_y k) |}) in *.
  destruct (ctl_grown_sizes ri _ _ _ _ _ _ Hgr) as [Ez1 Ez2]. cbn [y' y_out] in Ez1, Ez2.
  apply (inv_asked k); cbn [k_ghost k_put k_y k_i k_done c_i with_b with_p with_i]; rewrite ?Er; try done.
  - apply (ctl_grown_hist ri PKTTYPE_IOCTL_RX y' _ _ _ m); [done|by apply (hist_sent ri _ _ _ xs)|done].
  - intros id e Hw. cbn [y2 y_out]. by apply (grown_by_ret PKTTYPE_IOCTL_RX _ _ _ _ (cg_sub _ _ _ _ _ _ _ Hgr)).
  - by rewrite Hf1.
  - unfold event_count. cbn [k_ghost k_put k_y k_b y2 y_out]. rewrite Ez2 by done. done.
  - unfold ioctl_count. cbn [k_ghost k_put k_y k_b y2 y_out k_acc k_begun]. rewrite Ez1.
    cbn [c_b with_b set_cur_ioctlresp cur_ioctlresp_bufs_posted max_ioctlrespbufpost]. unfold begun in *.
    destruct (cur_ioctlresp_bufs_posted (k_b k) =? 0) eqn:Ec; [apply Z.eqb_eq in Ec|apply Z.eqb_neq in Ec]; lia.
  - unfold call_ok. cbn [k_ghost k_put k_call k_i k_y c_i with_b with_p with_i]. rewrite Er, Hreq, Hf3, Hrcv.
    split; [done|]. split; [done|]. fold N'. destruct Hst as [[-> Hst]|[-> Hst]].
    + rewrite Z.ltb_irrefl. split; [done|done].
    + rewrite (proj2 (Z.ltb_lt N (N + 1))) by lia. rewrite Hst. split; [lia|]. split; [auto|by left].
Qed.

Lemma with_f_same s : with_f s (c_f s) = s.
Proof. by destruct s. Qed.

Lemma u16_u32_small l : 0 <= l <= WLC_IOCTL_MAXLEN -> u16 (u32 l) = l /\ u32 l = l.
Proof. unfold WLC_IOCTL_MAXLEN. intros H. rewrite (wrapu_small 32) by zlia. split; [|done]. by rewrite wrapu_small by zlia. Qed.

Lemma no_sender k : ctl_inv ri k -> k_call k = None ->
  (ioctl_state (k_i k) = 0 \/ ioctl_state (k_i k) = 1) /\ ioctl_received (k_i k) = 0.
Proof. intros Hk Hc. pose proof (ci_call _ _ Hk) as H. unfold call_ok in H. by rewrite Hc in H. Qed.

(** dhd_prot_ioctl from the request on. *)
Lemma send_request k ifidx cmd action buf len :
  ctl_inv ri k -> k_call k = None -> 0 <= len <= WLC_IOCTL_MAXLEN -> buf_fits cmd buf len ->
  exists r n' s',
    ('(_, s) ← dhd_fillup_ioct_reqst (k_s k) (u16 (u32 len)) cmd buf ifidx;
     if dongle_reset (c_f s) then
       '(ret, s) ← ioctl_result (ioctl_out s) (- EIO) cmd buf len; Some (inl (ret, buf, None), k_n k, s)
     else '(n, s) ← wait_begin DMA_MAP PKTGET (k_n k) s; Some (inr buf, n, s)) = Some (r, n', s') /\
    let sk := seen k n' s' (y_out (k_y k)) in
    let N := Z.of_nat (length (sent_reqs (k_y k))) in
    match (r : (Z * option (list Z) * option Z) + option (list Z)) with
    | inl _ => let k' := k_ghost sk None (k_done k) None (k_begun k) (k_acc k) in ctl_inv ri k' /\ ret_kept k k'
    | inr b => b = buf /\
        let c := {| ic_cmd := cmd; ic_action := action; ic_buf := buf; ic_len := len;
                    ic_req := if N <? Z.of_nat (length (sent_reqs (k_y sk))) then Some N else None |} in
        let k' := k_ghost sk (Some c) (k_done k) None
                    (k_begun k + (if cur_ioctlresp_bufs_posted (k_b k) =? 0 then 0 else 1)) (k_acc k) in
        ctl_inv ri k' /\ ret_kept k k'
    end.
Proof.
  intros Hk Hcall Hlen Hb. pose proof (ci_hist _ _ Hk) as [Hy _]. destruct (no_sender k Hk Hcall) as [Hst Hrcv].
  destruct (u16_u32_small len Hlen) as [-> _]. pose proof (ci_mem _ _ Hk) as [_ Him].
  destruct (fillup_ok (k_y k) (k_s k) len cmd buf ifidx Hy eq_refl Hlen Him) as (rc & p' & gs' & xs & i' & E & Hs & Hf & Hcase).
  { destruct buf as [b|]; [apply Hb|done]. }
  rewrite E. cbn [mbind option_bind]. cbn [k_s c_i] in Hf, Hcase.
  destruct (fill_numbers k (k_s k) p' gs' xs i' (y_acc (k_y k)) Hk eq_refl Hs Hst rc ifidx cmd _ len (ioctbuf_pa (k_i k)) Hcase)
    as (Hn & Ht & Hst').
  assert (Z.of_nat (length (sent_reqs (k_y k))) <= Z.of_nat (length (sent_reqs {| y_p := p'; y_g := gs'; y_out := y_out (k_y k); y_acc := y_acc (k_y k) |}))) as Hle
    by (destruct Hst' as [[-> _]|[-> _]]; lia).
  destruct (dongle_reset _).
  - destruct (ioctl_result_ok (ioctl_out (with_i (with_p (k_s k) p') i')) (- EIO) cmd buf len) as [f Ef]; [done|].
    rewrite Ef. cbn [mbind option_bind]. do 3 eexists. split; [done|].
    eapply (send_reset k p' gs' xs i' f); try done. destruct Hst' as [[_ [?|?]]|[_ ?]]; auto.
  - destruct (send_wait k p' gs' xs i' (k_n k)
      {| ic_cmd := cmd; ic_action := action; ic_buf := buf; ic_len := len;
         ic_req := if Z.of_nat (length (sent_reqs (k_y k))) <? Z.of_nat (length (sent_reqs {| y_p := p'; y_g := gs'; y_out := y_out (k_y k); y_acc := y_acc (k_y k) |}))
                   then Some (Z.of_nat (length (sent_reqs (k_y k)))) else None |} Hk Hs Hf Hn Ht Hle Hrcv)
      as (n' & s' & Ew & _ & Er & Hi); [done|by apply buf_ok_fits|done|done|].
    rewrite Ew. cbn [mbind option_bind]. do 3 eexists. split; [done|]. cbv zeta. split; [done|]. rewrite Er. exact Hi.
Qed.

Lemma step_send k ifidx cmd action buf len :
  ctl_inv ri k -> ctl_legal k (IoctlSend ifidx cmd action buf len) = true ->
  step_good ri DMA_MAP PKTGET k (IoctlSend ifidx cmd action buf len).
Proof.
  intros Hk Hl. cbn [ctl_legal] in Hl. apply andb_true_iff in Hl as [Hl Hb%buf_ok_fits].
  apply andb_true_iff in Hl as [Hcall%bool_decide_eq_true Hlen0%Z.leb_le].
  assert (forall ans f, exists k', (let k'' := seen k (k_n k) (with_f (k_s k) f) (y_out (k_y k)) in
    match (inl ans : (Z * option (list Z) * option Z) + option (list Z)) with
    | inl _ => Some (k_ghost k'' None (k_done k) None (k_begun k) (k_acc k))
    | inr _ => None end) = Some k' /\ ctl_inv ri k' /\ ret_kept k k') as Hquiet.
  { intros ans f. eexists. split; [done|]. by apply inv_quiet. }
  unfold step_good. cbn [ctl_step]. unfold ioctl_begin. cbv zeta.
  pose proof (Hquiet (-1, buf, None) (c_f (k_s k))) as Hsame. rewrite with_f_same in Hsame.
  destruct (_ || _); [exact Hsame|].
  destruct (_ =? DHD_BUS_SUSPEND); [exact Hsame|].
  destruct (Z.ltb_spec WLC_IOCTL_MAXLEN len); [exact Hsame|].
  destruct (intercept_ok (k_s k) cmd buf len Hb) as (buf' & -> & Hb' & _). cbn [mbind option_bind].
  assert (exists local, (if negb (Z.land action WL_IOCTL_ACTION_SET =? 0) then Some None else local_answer (k_s k) cmd buf') = Some local /\
    (local = None \/ cmd = WLC_GET_VAR)) as (local & -> & Hlocal).
  { destruct (negb _); [by exists None; auto|by apply (local_answer_ok _ _ _ len)]. }
  cbn [mbind option_bind]. destruct local as [b|].
  - destruct (ioctl_result_ok (k_s k) 0 cmd (Some b) len) as [f ->]; [by destruct Hlocal as [?| ->]|].
    cbn [mbind option_bind]. apply (Hquiet (0, Some b, None)).
  - destruct (send_request k ifidx cmd action buf' len Hk Hcall ltac:(lia) Hb') as (r & n' & s' & E & Hr).
    cbn [mbind option_bind] in E. rewrite E. cbn [mbind option_bind]. destruct r as [ans|b].
    + eexists. split; [done|]. exact Hr.
    + destruct Hr as [-> Hr]. eexists. split; [done|]. exact Hr.
Qed.

(** ** After the wait *)

(** The accepted completion, read back from the registers. *)
Lemma received_spec k c :
  ctl_inv ri k -> k_call k = Some c -> ioctl_received (k_i k) <> 0 ->
  exists j msg data st rl, ic_req c = Some j /\ j = Z.of_nat (length (sent_reqs (k_y k))) - 1 /\
    k_resp k = Some (j, msg, data) /\ ld 2 msg 14 = Some (ioctl_trans_id (k_i k)) /\ ld 2 msg 12 = Some rl /\
    ld 2 msg 8 = Some st /\ ioctl_resplen (k_i k) = rl /\ ioctl_status (k_i k) = wraps 16 st /\ 0 <= rl <= DHD_FLOWRING_IOCTL_BUFPOST_PKTSZ /\
    ld_bytes (retbuf (k_i k)) 0 (Z.to_nat rl) = ld_bytes data 0 (Z.to_nat rl).
Proof.
  intros Hk Hc Hr. pose proof (ci_call _ _ Hk) as H. unfold call_ok in H. rewrite Hc in H. destruct H as (_ & _ & H).
  destruct (ic_req c) as [j|]; [|by destruct H]. destruct H as (Hj & _ & [H|(_ & _ & msg & data & st & H1 & H2 & H3 & H4 & H5 & H6 & H7)]); [done|].
  exists j, msg, data, st, (ioctl_resplen (k_i k)). split_and!; try done; apply H6.
Qed.

(** What the sender returns, with what is copied into its buffer. *)
Definition answer (k : ctl_sys) (c : ioctl_call) (timeleft ret : Z) (buf : option (list Z)) : Prop :=
  (timeleft = 0 /\ ret = - ETIMEDOUT /\ buf = ic_buf c) \/
  (timeleft <> 0 /\ dongle_trap_occured (k_f k) = true /\ ret = - EREMOTEIO /\ buf = ic_buf c) \/
  (timeleft <> 0 /\ dongle_trap_occured (k_f k) = false /\ ret = ioctl_status (k_i k) /\
   match ic_buf c with
   | Some b => exists bs b', ld_bytes (retbuf (k_i k)) 0 (Z.to_nat (Z.min (ic_len c) (ioctl_resplen (k_i k)))) = Some bs /\
                 st_bytes b 0 bs = Some b' /\ buf = Some b'
   | None => buf = None
   end).

Lemma wait_end_ok k c timeleft :
  ctl_inv ri k -> k_call k = Some c -> Bool.eqb (timeleft =? 0) (ioctl_received (k_i k) =? 0) = true ->
  exists ret buf' e f, silent e /\
    wait_end timeleft (k_s k) (u32 (ic_len c)) (ic_buf c) =
      Some (ret, buf', ioctl_out (with_f (with_p (k_s k) (emit (y_p (k_y k)) e)) f)) /\
    answer k c timeleft ret buf' /\ buf_fits (ic_cmd c) buf' (ic_len c).
Proof.
  intros Hk Hc Htl%eqb_prop. pose proof (ci_call _ _ Hk) as Hcall. unfold call_ok in Hcall. rewrite Hc in Hcall.
  destruct Hcall as (Hlen & Hb%buf_ok_fits & _). destruct (u16_u32_small _ Hlen) as [Eu16 Eu32].
  unfold wait_end. cbn [k_s c_f c_p c_i]. destruct (Z.eqb_spec timeleft 0) as [Et|Et].
  - eexists _, _, _, _. split; [|split; [done|split; [left; done|done]]].
    apply silent_dma. destruct (_ && _); by repeat (apply Forall_cons; split).
  - assert (silent []) as Hnil by (by apply silent_dma).
    destruct (dongle_trap_occured (k_f k)) eqn:Etrap.
    { eexists _, _, [], _. split; [done|]. rewrite emit_nil. split; [done|]. split; [right; left; by rewrite Etrap|done]. }
    assert (ioctl_received (k_i k) <> 0) as Hrcv by (intros E; rewrite E in Htl; done).
    destruct (received_spec k c Hk Hc Hrcv) as (j & msg & data & st & rl & _ & _ & _ & _ & _ & _ & Erl & _ & Hrl & _).
    destruct (ci_mem _ _ Hk) as [Hm _]. rewrite Eu32. cbn [c_i with_f]. cbv zeta. change (c_i (k_s k)) with (k_i k).
    set (i := if ic_len c <? ioctl_resplen (k_i k) then set_response (k_i k) (u16 (ic_len c)) (ioctl_status (k_i k)) else k_i k).
    assert (ioctl_resplen i = Z.min (ic_len c) (ioctl_resplen (k_i k)) /\ retbuf i = retbuf (k_i k) /\ ioctl_status i = ioctl_status (k_i k))
      as (E1 & E2 & E3).
    { unfold i. destruct (Z.ltb_spec (ic_len c) (ioctl_resplen (k_i k))); cbn [set_response ioctl_resplen retbuf ioctl_status].
      - split; [|done]. rewrite <- Eu32 at 1. rewrite Eu16. lia.
      - split; [lia|done]. }
    rewrite E1, E2, E3. rewrite Erl. set (n := Z.min (ic_len c) rl).
    unfold IOCT_RETBUF_SIZE, WLC_IOCTL_MAXLEN, DHD_FLOWRING_IOCTL_BUFPOST_PKTSZ in *.
    destruct (ld_bytes_Some (retbuf (k_i k)) 0 (Z.to_nat n)) as (bs & Ebs & Hlb & _); [lia|lia|].
    assert (forall b, answer k c timeleft (ioctl_status (k_i k)) b -> buf_fits (ic_cmd c) b (ic_len c) ->
      exists e f, silent e /\ ioctl_out (with_i (with_f (k_s k) (set_rx_counts (k_f k) 0 (wrapu 64 (rx_ctlpkts (k_f k) + 1)) (rx_ctlerrs (k_f k)))) i) =
        ioctl_out (with_f (with_p (k_s k) (emit (y_p (k_y k)) e)) f)) as Hout.
    { intros b _ _. exists [], (set_rx_counts (k_f k) 0 (wrapu 64 (rx_ctlpkts (k_f k) + 1)) (rx_ctlerrs (k_f k))). rewrite emit_nil.
      split; [done|]. unfold i. by destruct (ic_len c <? ioctl_resplen (k_i k)). }
    unfold answer in *. rewrite Etrap, Erl in *. fold n in Hout |- *. destruct (ic_buf c) as [b|].
    + rewrite Ebs. cbn [mbind option_bind]. destruct (st_bytes_Some b 0 bs) as (b' & Eb & Hl' & _); [done|destruct Hb; lia|].
      rewrite Eb. cbn [mbind option_bind fmap option_fmap option_map].
      assert (buf_fits (ic_cmd c) (Some b') (ic_len c)) as Hb' by (by apply (buf_fits_same _ b)).
      destruct (Hout (Some b')) as (e & f & He & ->); [|done|].
      { right. right. do 3 (split; [done|]). by exists bs, b'. }
      do 4 eexists. split; [exact He|]. split; [done|]. split; [|done]. right. right. do 3 (split; [done|]). by exists bs, b'.
    + cbn [mbind option_bind]. destruct (Hout None) as (e & f & He & ->); [right; right; by split_and!|done|].
      do 4 eexists. split; [exact He|]. split; [done|]. split; [right; right; by split_and!|done].
Qed.

Definition ret_of (ret : Z) : Z := if 0 <=? ret then 0 else ret.

Lemma woken_ok k c timeleft :
  ctl_inv ri k -> k_call k = Some c -> Bool.eqb (timeleft =? 0) (ioctl_received (k_i k) =? 0) = true ->
  exists ret buf' used e f, silent e /\
    ioctl_end timeleft (k_s k) (ic_cmd c) (ic_action c) (ic_buf c) (ic_len c) =
      Some (ret_of ret, buf', used, with_f (ioctl_out (with_p (k_s k) (emit (y_p (k_y k)) e))) f) /\
    answer k c timeleft ret buf'.
Proof.
  intros Hk Hc Htl. destruct (wait_end_ok k c timeleft Hk Hc Htl) as (ret & buf' & e & f & He & E & Hans & Hfit).
  unfold ioctl_end. rewrite E. cbn [mbind option_bind].
  destruct (ioctl_result_ok (ioctl_out (with_f (with_p (k_s k) (emit (y_p (k_y k)) e)) f)) ret (ic_cmd c) buf' (ic_len c))
    as [f' Ef]; [done|]. rewrite Ef. cbn [mbind option_bind].
  do 3 eexists. exists e, f'. split; [exact He|]. split; [done|exact Hans].
Qed.

Lemma call_states k c :
  call_ok k -> k_call k = Some c ->
  ioctl_state (k_i k) = 0 \/ ioctl_state (k_i k) = 1 \/ ioctl_state (k_i k) = 2 \/ ioctl_state (k_i k) = 3.
Proof.
  unfold call_ok. intros H Hc. rewrite Hc in H. destruct H as (_ & _ & H). destruct (ic_req c).
  - destruct H as (_ & [?|[?|?]] & _); auto.
  - destruct H as [[?|?] _]; auto.
Qed.

Lemma step_woken k timeleft :
  ctl_inv ri k -> ctl_legal k (IoctlWoken timeleft) = true -> step_good ri DMA_MAP PKTGET k (IoctlWoken timeleft).
Proof.
  intros Hk Hl. cbn [ctl_legal] in Hl. apply andb_true_iff in Hl as [Hc%bool_decide_eq_true Htl]. destruct Hc as [c Hc].
  destruct (woken_ok k c timeleft Hk Hc Htl) as (ret & buf' & used & e & f & He & E & _).
  unfold step_good. cbn [ctl_step]. rewrite Hc. cbn [mbind option_bind]. rewrite E. cbn [mbind option_bind].
  eexists. split; [done|]. pose proof (ci_call _ _ Hk) as Hcall.
  destruct (ioctl_out_regs (with_p (k_s k) (emit (y_p (k_y k)) e)) (call_states k c Hcall Hc)) as (Ho1 & Ho2 & Ho3 & Ho4 & Ho5).
  cbn [c_i with_p k_s] in *. destruct (ci_reqs _ _ Hk) as (Hr1 & Hr2 & Hr3).
  change (c_p (with_f (ioctl_out (with_p (k_s k) (emit (y_p (k_y k)) e))) f)) with (emit (y_p (k_y k)) e).
  apply (inv_asked k); cbn [k_ghost k_put k_y k_i k_done c_i with_f];
    change (sent_reqs (with_prot (k_y k) _)) with (sent_reqs (k_y k)); try done.
  - apply hist_emit; [apply Hk|done].
  - apply Hk.
  - apply Hk.
Qed.

(** ** Every step *)
Lemma ctl_step_ok k op : ctl_inv ri k -> ctl_legal k op = true -> step_good ri DMA_MAP PKTGET k op.
Proof.
  intros Hk Hl. destruct op.
  - by apply step_data.
  - by apply step_env.
  - by apply step_post_ioctl.
  - by apply step_post_event.
  - by apply step_event.
  - by apply step_ack.
  - by apply step_cmplt.
  - by apply step_flow_create.
  - by apply step_flow_delete.
  - by apply step_flow_flush.
  - by apply step_flow_resp.
  - by apply step_send.
  - by apply step_woken.
Qed.

Lemma ctl_run_ok ops k :
  ctl_inv ri k -> ctl_legal_run DMA_MAP PKTGET ops k = true ->
  exists k', ctl_run DMA_MAP PKTGET ops k = Some k' /\ ctl_inv ri k' /\ ret_kept k k'.
Proof.
  revert k. induction ops as [|op ops IH]; intros k Hk Hl; cbn [ctl_run ctl_legal_run] in *.
  { exists k. split; [done|]. split; [done|]. by intros ? ? ? ?. }
  apply andb_true_iff in Hl as [Hl1 Hl2]. destruct (ctl_step_ok k op Hk Hl1) as (k1 & E & Hk1 & Hr1).
  rewrite E in Hl2 |- *. destruct (IH k1 Hk1 Hl2) as (k' & E' & Hk' & Hr'). exists k'. split; [done|]. split; [done|].
  intros id e He Hw. apply Hr'; [|done]. by apply Hr1.
Qed.
End step.
