(* ===== verification/ProtCtrlProps.v ===== *)
(** * What holds after every history of the message-buffer protocol

    From the state that dhd_prot_init leaves, the properties of the control
    path and of the whole protocol after any legal history of data and control
    operations. *)
From Stdlib Require Import ZArith Lia.
From stdpp Require Import base option numbers gmap list.
From S2P Require Import Prelude Bytes MwBitmap PktidMap PktOut Tcm RingIndex MsgRing MsgFifo.
From S2P Require Import ProtState ProtInv ProtSys ProtRx ProtRxInv ProtHistory ProtProps FlowQueue FlowTable.
From S2P Require Import ProtCtrl ProtCtrlInv ProtCtrlReq ProtCtrlSys ProtCtrlStep ProtCtrlOps ProtCtrlIoctl.

(** ** The initial state *)
Record ctl_init (ri : ring_info) (s : dhd_ctl) : Prop := {
  ct_prot : prot_init ri (c_p s);
  ct_regs : ioctl_state (c_i s) = 0 /\ ioctl_received (c_i s) = 0 /\ ioctl_trans_id (c_i s) = 0;
  ct_bufs : c_b s = {| max_eventbufpost := DHD_FLOWRING_MAX_EVENTBUF_POST;
                       max_ioctlrespbufpost := DHD_FLOWRING_MAX_IOCTLRESPBUF_POST;
                       cur_event_bufs_posted := 0; cur_ioctlresp_bufs_posted := 0 |};
  ct_mem : Z.of_nat (length (retbuf (c_i s))) = IOCT_RETBUF_SIZE /\ Z.of_nat (length (ioctbuf (c_i s))) = IOCT_RETBUF_SIZE
}.
Definition ctl_start (s : dhd_ctl) : ctl_sys :=
  {| k_n := 0; k_y := start (c_p s); k_f := c_f s; k_i := c_i s; k_b := c_b s; k_call := None; k_done := 0;
     k_resp := None; k_begun := 0; k_acc := 0 |}.

Lemma start_reqs p : sent_reqs (start p) = [].
Proof.
  unfold sent_reqs. destruct (aget (y_g (start p)) CTRL) as [g|] eqn:E; [|done]. cbn [start y_g] in E.
  by apply aget_replicate_inv in E as ->.
Qed.

Lemma ctl_init_ok ri s : ctl_init ri s -> ctl_inv ri (ctl_start s).
Proof.
  intros [Hp (H1 & H2 & H3) Hb Hm].
  assert (forall ty, size (ty_out ty ∅) = 0%nat) as Hz by (intros ty; unfold ty_out; by rewrite map_filter_empty).
  constructor; cbn [ctl_start k_y k_i k_b k_done].
  - by apply prot_init_ok.
  - intros id e. cbn [start y_out]. by rewrite lookup_empty.
  - unfold event_count. cbn [ctl_start k_y k_b start y_out]. by rewrite Hb, Hz.
  - unfold ioctl_count. cbn [ctl_start k_y k_b k_acc k_begun start y_out]. by rewrite Hb, Hz.
  - rewrite start_reqs, H3. done.
  - exact Hm.
  - unfold call_ok. cbn [ctl_start k_call k_i]. rewrite H1, H2. auto.
Qed.

(** ** Runs *)
Section runs.
Variable DMA_MAP : Z -> Z -> Z -> Z.
Variable PKTGET : Z -> option (Z * Z).
Notation step := (ctl_step DMA_MAP PKTGET).
Notation run := (ctl_run DMA_MAP PKTGET).
Notation legal_all := (ctl_legal_run DMA_MAP PKTGET).

Lemma ctl_run_app ops1 ops2 k : run (ops1 ++ ops2) k = k' ← run ops1 k; run ops2 k'.
Proof.
  revert k. induction ops1 as [|op ops1 IH]; intros k; cbn [app ctl_run]; [done|].
  destruct (step op k) as [k1|]; [|done]. apply IH.
Qed.
Lemma ctl_legal_app ops1 ops2 k k' :
  run ops1 k = Some k' -> legal_all (ops1 ++ ops2) k = true ->
  legal_all ops1 k = true /\ legal_all ops2 k' = true.
Proof.
  revert k. induction ops1 as [|op ops1 IH]; intros k; cbn [ctl_run ctl_legal_run app]; [by intros [= <-]|].
  destruct (step op k) as [k1|]; [|done]. cbn [mbind option_bind].
  intros E [H1 H2]%andb_true_iff. destruct (IH k1 E H2) as [H3 H4]. by rewrite H1, H3.
Qed.
Lemma ctl_legal_prefix ops1 ops2 k : legal_all (ops1 ++ ops2) k = true -> legal_all ops1 k = true.
Proof.
  revert k. induction ops1 as [|op ops1 IH]; intros k; cbn [app ctl_legal_run]; [done|].
  rewrite !andb_true_iff. intros [H1 H2]. split; [done|]. destruct (step op k); [by apply IH|done].
Qed.

(** Taking a computation that succeeded apart. *)
Ltac unbind :=
  repeat match goal with
  | H : _ ≫= _ = Some _ |- _ => let x := fresh "x" in apply bind_Some in H as (x & ? & H); cbv beta in H
  | H : (let '(_, _) := ?x in _) = Some _ |- _ => destruct x
  | H : (if ?b then _ else _) = Some _ |- _ => destruct b eqn:?
  | H : match ?x with inl _ => _ | inr _ => _ end = Some _ |- _ => destruct x
  | H : match ?x with Some _ => _ | None => _ end = Some _ |- _ => destruct x
  | H : Some _ = Some _ |- _ => injection H as H
  | H : (_, _) = (_, _) |- _ => injection H as H
  | H : ?x = _ |- _ => is_var x; subst x
  | H : _ = ?x |- _ => is_var x; subst x
  end.

(** The completion a sender was given is one of the history. *)
Lemma step_resp op k k' :
  step op k = Some k' -> k_resp k' = k_resp k \/ k_resp k' = None \/
  exists j msg data, op = Cmplt j msg data /\ k_resp k' = Some (j, msg, data).
Proof.
  intros E. destruct op; cbn [ctl_step] in E; unbind; cbn [k_ghost k_put seen k_resp]; auto.
  destruct (_ && _); [|by left]. right. right. by eexists _, _, _.
Qed.
Lemma run_resp ops k k' j msg data :
  run ops k = Some k' -> k_resp k' = Some (j, msg, data) -> k_resp k = Some (j, msg, data) \/ Cmplt j msg data ∈ ops.
Proof.
  revert k. induction ops as [|op ops IH]; intros k; cbn [ctl_run]; [intros [= ->]; by left|].
  intros (k1 & E1 & E)%bind_Some Hr. destruct (IH k1 E Hr) as [H|H]; [|right; by right].
  destruct (step_resp op k k1 E1) as [E2|[E2|(j' & msg' & data' & -> & E2)]].
  - left. congruence.
  - congruence.
  - right. rewrite E2 in H. injection H as -> -> ->. by left.
Qed.

(** ** The registers of an unacknowledged request *)
Lemma post_ioctl_regs n s n' s' : dhd_msgbuf_rxbuf_post_ioctlresp_bufs DMA_MAP PKTGET n s = Some (n', s') -> c_i s' = c_i s.
Proof. intros E. unfold dhd_msgbuf_rxbuf_post_ioctlresp_bufs in E. by unbind. Qed.
Lemma post_event_regs n s n' s' : dhd_msgbuf_rxbuf_post_event_bufs DMA_MAP PKTGET n s = Some (n', s') -> c_i s' = c_i s.
Proof. intros E. unfold dhd_msgbuf_rxbuf_post_event_bufs in E. by unbind. Qed.

Lemma event_regs n s msg n' s' : dhd_prot_event_process DMA_MAP PKTGET n s msg = Some (n', s') -> c_i s' = c_i s.
Proof.
  intros E. unfold dhd_prot_event_process in E. unbind;
    match goal with H : dhd_msgbuf_rxbuf_post_event_bufs _ _ _ _ = _ |- _ => apply post_event_regs in H; cbn [c_i with_p]; rewrite H end;
    by destruct (negb _).
Qed.

Lemma fillup_busy s len cmd buf ifidx :
  ioctl_state (c_i s) <> 0 -> dhd_fillup_ioct_reqst s len cmd buf ifidx = Some (BCME_BUSY, s).
Proof. intros H. unfold dhd_fillup_ioct_reqst. by rewrite (proj2 (Z.eqb_neq _ 0)). Qed.

Lemma result_regs s ret cmd buf len r s' : ioctl_result s ret cmd buf len = Some (r, s') -> c_i s' = c_i s.
Proof. intros E. unfold ioctl_result in E. destruct (0 <=? ret); unbind; done. Qed.

Lemma wait_begin_regs n s n' s' : wait_begin DMA_MAP PKTGET n s = Some (n', s') -> c_i s' = c_i s.
Proof. unfold wait_begin. intros E%post_ioctl_regs. rewrite E. by destruct (negb _). Qed.

Lemma begin_unacked n s ifidx cmd action buf len r n' s' :
  ioctl_begin DMA_MAP PKTGET n s ifidx cmd action buf len = Some (r, n', s') -> ioctl_state (c_i s) = 1 ->
  ioctl_state (c_i s') = 1.
Proof.
  intros E Hs. unfold ioctl_begin in E. cbv zeta in E. unbind; try done;
    repeat match goal with H : dhd_fillup_ioct_reqst _ _ _ _ _ = _ |- _ =>
      rewrite fillup_busy in H by (by rewrite Hs); injection H as <- <- end;
    repeat match goal with H : ioctl_result _ _ _ _ _ = _ |- _ => apply result_regs in H; rewrite H; clear H end;
    repeat match goal with H : wait_begin _ _ _ _ = _ |- _ => apply wait_begin_regs in H; rewrite H; clear H end;
    try done; cbn; by rewrite Hs.
Qed.

Lemma end_unacked tl s cmd action buf len r s' :
  ioctl_end tl s cmd action buf len = Some (r, s') -> ioctl_state (c_i s) = 1 \/ ioctl_state (c_i s) = 3 ->
  ioctl_state (c_i s') = 1.
Proof.
  intros E Hs. unfold ioctl_end, wait_end in E. cbv zeta in E.
  assert (forall i, ioctl_state i = 1 \/ ioctl_state i = 3 -> Z.land (ioctl_state i) (255 - MSGBUF_IOCTL_RESP_PENDING) = 1) as H
    by (intros i [-> | ->]; done).
  unbind; match goal with H : ioctl_result _ _ _ _ _ = _ |- _ => apply result_regs in H; rewrite H end;
    cbn [ioctl_out c_i with_i with_f with_p set_request set_received set_response set_ioctl_state ioctl_state]; apply H;
    repeat case_match; done.
Qed.

Definition completes (op : ctl_op) : bool := match op with Cmplt _ _ _ => true | _ => false end.

Lemma step_unacked op k k' :
  step op k = Some k' -> completes op = false -> ioctl_state (k_i k) = 1 -> ioctl_state (k_i k') = 1.
Proof.
  intros E Hn Hs. destruct op; try done; cbn [ctl_step] in E; unbind; cbn [k_ghost k_put seen k_i c_i with_p k_s with_f]; try done;
    repeat match goal with
    | H : dhd_msgbuf_rxbuf_post_ioctlresp_bufs _ _ _ _ = _ |- _ => apply post_ioctl_regs in H; rewrite H
    | H : dhd_msgbuf_rxbuf_post_event_bufs _ _ _ _ = _ |- _ => apply post_event_regs in H; rewrite H
    | H : dhd_prot_event_process _ _ _ _ _ = _ |- _ => apply event_regs in H; rewrite H
    | H : ioctl_begin _ _ _ _ _ _ _ _ _ = _ |- _ => by apply (begin_unacked _ _ _ _ _ _ _ _ _ _ H)
    | H : ioctl_end _ _ _ _ _ _ = _ |- _ => apply (end_unacked _ _ _ _ _ _ _ _ H); by left
    | H : dhd_prot_ioctack_process _ _ = _ |- _ => unfold dhd_prot_ioctack_process in H; cbn [c_i with_p k_s] in H;
        rewrite Hs in H; cbn [Z.land MSGBUF_IOCTL_ACK_PENDING] in H; unbind
    end; try done.
Qed.

Lemma run_unacked ops k k' :
  run ops k = Some k' -> forallb (fun op => negb (completes op)) ops = true -> ioctl_state (k_i k) = 1 ->
  ioctl_state (k_i k') = 1.
Proof.
  revert k. induction ops as [|op ops IH]; intros k; cbn [ctl_run forallb]; [by intros [= ->]|].
  intros (k1 & E1 & E)%bind_Some [H1%negb_true_iff H2]%andb_true_iff Hs. by apply (IH k1); [..|apply (step_unacked op k)].
Qed.
End runs.

(** ** Auxiliary facts *)
Lemma ld_bytes_take0 m n bs : ld_bytes m 0 n = Some bs -> bs = take n m.
Proof.
  intros E. destruct (ld_bytes_inv _ _ _ _ E) as [Hb Hl].
  destruct (ld_bytes_Some m 0 n) as (bs' & E' & _ & Hg); [lia|lia|]. rewrite E in E'. injection E' as <-.
  apply aget_ext; [rewrite length_take; lia|]. intros j Hj. rewrite Hg by lia.
  unfold aget. destruct (0 <=? j) eqn:E0; [|lia]. rewrite Z.add_0_l, E0. rewrite lookup_take by lia. rewrite decide_True by lia. done.
Qed.

(** A prefix of [data] copied through [ret] to the start of [b]. *)
Lemma copied_prefix ret data b bs b' rl n :
  ld_bytes ret 0 rl = ld_bytes data 0 rl -> (rl <= length ret)%nat -> (n <= rl)%nat -> (n <= length b)%nat ->
  ld_bytes ret 0 n = Some bs -> st_bytes b 0 bs = Some b' -> b' = take n data ++ drop n b.
Proof.
  intros Er Hl Hn Hb E1 E2. apply ld_bytes_take0 in E1 as ->.
  destruct (ld_bytes_Some ret 0 rl) as (x & Ex & _); [lia|lia|]. rewrite Ex in Er. symmetry in Er.
  apply ld_bytes_take0 in Ex as ->. apply ld_bytes_take0 in Er.
  assert (take n ret = take n data) as Et.
  { apply (f_equal (take n)) in Er. rewrite !take_take, Nat.min_l in Er by lia. by rewrite Er. }
  assert (length (take n data) = n) as Hld.
  { apply (f_equal (length (A:=Z))) in Er. rewrite !length_take in *. lia. }
  rewrite Et, st_bytes_splice in E2 by lia. injection E2 as <-. unfold splice. cbn [Z.to_nat take app]. by rewrite Hld.
Qed.

(** ** Properties *)
Section props.
Context (ri : ring_info).
Variable DMA_MAP : Z -> Z -> Z -> Z.
Variable PKTGET : Z -> option (Z * Z).
Notation step := (ctl_step DMA_MAP PKTGET).
Notation run := (ctl_run DMA_MAP PKTGET).
Notation legal_all := (ctl_legal_run DMA_MAP PKTGET).

Lemma ctl_history_ok s ops :
  (forall n pkt va, PKTGET n = Some (pkt, va) -> pkt <> 0) -> ctl_init ri s ->
  legal_all ops (ctl_start s) = true -> exists k, run ops (ctl_start s) = Some k /\ ctl_inv ri k.
Proof.
  intros Hnn Hi Hl. destruct (ctl_run_ok ri DMA_MAP PKTGET Hnn ops (ctl_start s)) as (k & E & Hk & _);
    [by apply ctl_init_ok|done|by exists k].
Qed.

Lemma ctl_history_last s ops op k :
  (forall n pkt va, PKTGET n = Some (pkt, va) -> pkt <> 0) -> ctl_init ri s ->
  legal_all (ops ++ [op]) (ctl_start s) = true -> run ops (ctl_start s) = Some k ->
  ctl_inv ri k /\ ctl_legal k op = true.
Proof.
  intros Hnn Hi Hl Er. destruct (ctl_legal_app DMA_MAP PKTGET ops [op] _ k Er Hl) as [Hl1 H].
  cbn [ctl_legal_run] in H. apply andb_true_iff in H as [? _].
  destruct (ctl_history_ok s ops Hnn Hi Hl1) as (k' & E & Hk). rewrite Er in E. by injection E as <-.
Qed.

(** C1: Packets and their ids.  From the state dhd_prot_init leaves, any
    sequence of the transmit and receive operations, the posting of event and
    ioctl-response buffers, ioctls and their wake-ups, flow-ring requests and
    the dongle's events, acknowledgements, completions and responses, with a
    dongle that takes announced messages and completes each id it took once,
    runs without an error.  The pktid audit never reports; every message the
    dongle has not taken and that carries a packet carries the id of an
    outstanding packet, whose locker holds the address and length written in
    the message; active_tx_count, rxbufpost and cur_event_bufs_posted are the
    numbers of outstanding packets of their types, the last at most
    DHD_FLOWRING_MAX_EVENTBUF_POST; outstanding ioctl-response buffers and those
    given back are as many as cur_ioctlresp_bufs_posted and the sleeps begun
    account for; the wake lock is held exactly while active_tx_count is not 0;
    and the packets accepted for transmission are, as a multiset, the ones
    completed so far and the outstanding ones. *)
Theorem ctl_packets s ops :
  (forall n pkt va, PKTGET n = Some (pkt, va) -> pkt <> 0) -> ctl_init ri s ->
  legal_all ops (ctl_start s) = true ->
  exists k, run ops (ctl_start s) = Some k /\ let y := k_y k in
    (forall i g j d ty, aget (y_g y) i = Some g -> Z.of_nat (length (g_got g)) <= j ->
       aget (g_sent g) j = Some d -> carries i d = Some ty ->
       exists id e, y_out y !! id = Some e /\ e_where e = OnRing i j /\
         aget (lockers (pktid_map_handle (y_p y))) id = Some (e_item e) /\ pkt (e_item e) <> 0 /\
         pkttype (e_item e) = ty /\ desc_ok (rx_metadata_offset (y_p y)) i d id (e_item e)) /\
    active_tx_count (y_p y) = Z.of_nat (size (tx_out (y_out y))) /\
    rxbufpost (y_p y) = Z.of_nat (size (ty_out PKTTYPE_DATA_RX (y_out y))) /\
    cur_event_bufs_posted (k_b k) = Z.of_nat (size (ty_out PKTTYPE_EVENT_RX (y_out y))) /\
    cur_event_bufs_posted (k_b k) <= max_eventbufpost (k_b k) /\
    Z.of_nat (size (ty_out PKTTYPE_IOCTL_RX (y_out y))) + k_acc k = cur_ioctlresp_bufs_posted (k_b k) + k_begun k /\
    cur_ioctlresp_bufs_posted (k_b k) <= max_ioctlrespbufpost (k_b k) /\
    wake_depth (p_log (y_p y)) = (if active_tx_count (y_p y) =? 0 then 0 else 1) /\
    clean (p_log (y_p y)) /\
    y_acc y ≡ₚ completed (p_log (y_p y)) ++ out_pkts (tx_out (y_out y)).
Proof.
  intros Hnn Hi Hl. destruct (ctl_history_ok s ops Hnn Hi Hl) as (k & E & [(Hy & Hp & _) _ [He1 He2] [Hi1 Hi2] _ _ _]).
  exists k. split; [done|]. cbv zeta. destruct (so_count _ _ Hy) as [Ha Hw Hc Hacc].
  split; [|split_and!; try done; lia].
  intros i g j d ty H1 H2 H3 H4. destruct (if_desc _ _ _ (so_flight _ _ Hy) i g j d ty H1 H2 H3 H4)
    as (id & e & Hid & Hwh & Ht & Hd). exists id, e.
  destruct (mo_out _ _ _ (so_map _ _ Hy) id e Hid) as (_ & ? & _ & ?). by split_and!.
Qed.

(** C2: The submission rings.  After any such history and for every ring, the
    control ring included, what the dongle took is a prefix of what the host
    put on the ring, bytes included; at most max_items - 1 messages are on the
    ring and not taken; the write index the dongle sees covers exactly the
    messages that are not pending; the cache flushes written out so far are of
    exactly those messages' slots, each once and in order; and the ioctl
    requests on the control ring carry the transaction ids 1, 2, ... modulo
    2^16, the last of which is ioctl_trans_id. *)
Theorem ctl_rings s ops :
  (forall n pkt va, PKTGET n = Some (pkt, va) -> pkt <> 0) -> ctl_init ri s ->
  legal_all ops (ctl_start s) = true ->
  exists k, run ops (ctl_start s) = Some k /\ let y := k_y k in
    (forall i r g, aget (h2d_rings (y_p y)) i = Some r -> aget (y_g y) i = Some g ->
      let P := Z.of_nat (length (g_sent g)) in
      let G := Z.of_nat (length (g_got g)) in
      let u := pend_items_count r in
      g_got g = take (length (g_got g)) (g_sent g) /\ 0 <= u /\ G <= P - u /\ P <= G + max_items r - 1 /\
      cell_val (p_pub (y_p y)) (Cell H2D true (ring_id i)) = (P - u) mod max_items r /\
      flushed (ring_id i) (item_len r) (p_log (y_p y)) = map (fun j => j mod max_items r) (seqZ 0 (P - u)) /\
      forall j, G <= j < P -> aget (g_sent g) j = Some (slot (item_len r) (ring_mem r) (j mod max_items r))) /\
    sent_reqs y = map (fun j => u16 (j + 1)) (seqZ 0 (Z.of_nat (length (sent_reqs y)))) /\
    ioctl_trans_id (k_i k) = u16 (Z.of_nat (length (sent_reqs y))).
Proof.
  intros Hnn Hi Hl. destruct (ctl_history_ok s ops Hnn Hi Hl) as (k & E & Hk).
  exists k. split; [done|]. destruct (ci_reqs _ _ Hk) as (Hr1 & Hr2 & _). split; [|by split].
  destruct (ci_hist _ _ Hk) as (Hy & _). intros i r g Er Eg P G u.
  destruct (rk_ring _ _ _ _ _ (so_rings _ _ Hy) i r g Er Eg) as [Hok _]. apply (ring_ok_fifo ri _ _ _ _ _ _ Hok).
Qed.

(** C5: The answer of an ioctl.  After any such history, a sender that is woken
    before its timeout, with no trap reported, had its request sent, and the
    dongle completed that very request: a completion with the request's
    transaction id is in the history.  dhd_prot_ioctl returns 0 if the status
    of that completion (as a signed 16-bit number) is not negative and the
    status otherwise, and the caller's buffer holds the first
    min(len, resp_len) bytes of that completion's data, followed by what it
    held before. *)
Theorem ioctl_answer s ops k timeleft :
  (forall n pkt va, PKTGET n = Some (pkt, va) -> pkt <> 0) -> ctl_init ri s ->
  legal_all (ops ++ [IoctlWoken timeleft]) (ctl_start s) = true -> run ops (ctl_start s) = Some k ->
  timeleft <> 0 -> dongle_trap_occured (k_f k) = false ->
  exists c j msg data st rl buf used s', k_call k = Some c /\
    ic_req c = Some j /\ Z.of_nat (length (sent_reqs (k_y k))) = j + 1 /\ Cmplt j msg data ∈ ops /\
    ld 2 msg 14 = Some (u16 (j + 1)) /\ ld 2 msg 8 = Some st /\ ld 2 msg 12 = Some rl /\
    ioctl_end timeleft (k_s k) (ic_cmd c) (ic_action c) (ic_buf c) (ic_len c) =
      Some (if 0 <=? wraps 16 st then 0 else wraps 16 st, buf, used, s') /\
    match ic_buf c with
    | Some b => let n := Z.to_nat (Z.min (ic_len c) rl) in buf = Some (take n data ++ drop n b)
    | None => buf = None
    end.
Proof.
  intros Hnn Hi Hl Er Htl Htrap. destruct (ctl_history_last s ops _ k Hnn Hi Hl Er) as [Hk Hlg].
  cbn [ctl_legal] in Hlg. apply andb_true_iff in Hlg as [Hc%bool_decide_eq_true Heq]. destruct Hc as [c Hc].
  assert (ioctl_received (k_i k) <> 0) as Hrcv.
  { intros E. rewrite E in Heq. apply eqb_prop in Heq. by apply Z.eqb_eq in Heq. }
  destruct (received_spec ri k c Hk Hc Hrcv) as (j & msg & data & st & rl & Hreq & Hj & Hresp & Hx & Hrl & Hst & Erl & Est & Hb & Hdata).
  destruct (woken_ok ri k c timeleft Hk Hc Heq) as (ret & buf & used & e & f & _ & E & Hans).
  destruct Hans as [(? & _)|[(_ & Ht & _)|(_ & _ & -> & Hbuf)]]; [done|congruence|].
  exists c, j, msg, data, st, rl, buf, used. eexists. split; [done|]. split; [done|]. split; [lia|].
  destruct (run_resp DMA_MAP PKTGET ops _ k j msg data Er Hresp) as [?|Hin]; [done|].
  destruct (ci_reqs _ _ Hk) as (_ & Etr & _).
  split; [done|]. split; [rewrite Hx, Etr; do 2 f_equal; lia|]. split; [done|]. split; [done|].
  split; [rewrite E, Est; done|]. pose proof (ci_call _ _ Hk) as Hcall. unfold call_ok in Hcall. rewrite Hc in Hcall.
  destruct Hcall as (_ & Hfit%buf_ok_fits & _). destruct (ic_buf c) as [b|]; [destruct Hfit as [Hfit _]|done].
  destruct Hbuf as (bs & b' & E1 & E2 & ->). cbv zeta. f_equal. rewrite Erl in E1.
  destruct (ci_mem _ _ Hk) as [Hm _]. unfold IOCT_RETBUF_SIZE, WLC_IOCTL_MAXLEN, DHD_FLOWRING_IOCTL_BUFPOST_PKTSZ in *.
  apply (copied_prefix (retbuf (k_i k)) data b bs b' (Z.to_nat rl)); try done; lia.
Qed.

(** C14: Events.  After any such history, when the dongle hands over an event in
    a buffer it took, dhd_prot_event_process reposts event buffers, [j] of them,
    on the control ring, unmaps the event's buffer with the address and length
    it was posted with and hands exactly that packet to the bus layer with the
    event's length and interface, and does nothing else; the buffer's id is
    free again, no other outstanding packet is lost, and the count of posted
    event buffers goes down by one and up by [j]. *)
Theorem event_delivers s ops k msg :
  (forall n pkt va, PKTGET n = Some (pkt, va) -> pkt <> 0) -> ctl_init ri s ->
  legal_all (ops ++ [Event msg]) (ctl_start s) = true -> run ops (ctl_start s) = Some k ->
  exists id e buflen ifidx mid j k', let it := e_item e in
    ld 4 msg 4 = Some id /\ y_out (k_y k) !! id = Some e /\ ld 2 msg 12 = Some buflen /\ ld 1 msg 1 = Some ifidx /\
    step (Event msg) k = Some k' /\
    p_log (y_p (k_y k')) = p_log (y_p (k_y k)) ++ mid ++
      [DmaUnmap (pa it) (len it) DMA_RX (pkt it); RxFrame (pkt it) (rx_dataoffset (y_p (k_y k))) buflen ifidx] /\
    quiet CTRL mid /\ delete id (y_out (k_y k)) ⊆ y_out (k_y k') /\ id ∈ free_keys (pktid_map_handle (y_p (k_y k'))) /\
    0 <= j /\ cur_event_bufs_posted (k_b k') = cur_event_bufs_posted (k_b k) - 1 + j /\
    cur_event_bufs_posted (k_b k') <= max_eventbufpost (k_b k) /\ k_i k' = k_i k.
Proof.
  intros Hnn Hi Hl Er. destruct (ctl_history_last s ops _ k Hnn Hi Hl Er) as [Hk Hlg].
  destruct (step_event_cases ri DMA_MAP PKTGET Hnn k msg Hk Hlg)
    as (id & e & buflen & ifidx & j & k' & p2 & m1 & m3 & gs2 & out2 & n' & Eid & He & Eb & Ei & Es & Hj & Hle & Hgr & Hyf & Ek & _).
  destruct (cg_log _ _ _ _ _ _ _ Hgr) as (mid & El & Hq). cbn [back y_p set_map p_log] in El.
  exists id, e, buflen, ifidx, mid, j, k'. cbv zeta. subst k'. split; [done|]. split; [done|]. split; [done|]. split; [done|].
  split; [exact Es|]. cbn [k_put k_y k_b k_i c_b c_i with_b with_p k_s y_p y_out].
  split.
  { cbn [event_done emit set_map p_log]. by rewrite El, <- !app_assoc. }
  split; [done|]. split.
  { destruct (cg_sub _ _ _ _ _ _ _ Hgr) as [Hsub _]. cbn [back y_out] in Hsub.
    rewrite <- (delete_insert_eq (y_out (k_y k)) id (returned e)). by apply delete_mono. }
  split; [|by split_and!].
  apply (mo_free _ _ _ (so_map _ _ Hyf)); [|apply lookup_delete_eq].
  by apply (mo_out _ _ _ (so_map _ _ (proj1 (ci_hist _ _ Hk)))) in He as [? _].
Qed.

(** C36: Late completions.  After any such history, a completion that arrives
    while none is awaited (the request was not acknowledged yet, or its sender
    has left after a timeout) is rejected: the ioctl state is reset and the
    response buffer is neither unmapped nor freed.  Its packet id never becomes
    free again, whatever legal operations follow: the locker stays busy with the
    buffer while the audit considers the id free. *)
Theorem late_completion_leaks s ops k j msg data ops2 k2 :
  (forall n pkt va, PKTGET n = Some (pkt, va) -> pkt <> 0) -> ctl_init ri s ->
  legal_all (ops ++ Cmplt j msg data :: ops2) (ctl_start s) = true -> run ops (ctl_start s) = Some k ->
  run (Cmplt j msg data :: ops2) k = Some k2 -> late (k_i k) = true ->
  exists id e k1, ld 4 msg 4 = Some id /\ y_out (k_y k) !! id = Some e /\ step (Cmplt j msg data) k = Some k1 /\
    ioctl_state (k_i k1) = 0 /\ p_log (y_p (k_y k1)) = p_log (y_p (k_y k)) /\ k_b k1 = k_b k /\
    aget (lockers (pktid_map_handle (y_p (k_y k2)))) id = Some (e_item e) /\ state (e_item e) = LOCKER_IS_BUSY /\
    id ∉ free_keys (pktid_map_handle (y_p (k_y k2))) /\
    exists a, pktid_audit (pktid_map_handle (y_p (k_y k2))) = Some a /\ isfree_bit a id = true.
Proof.
  intros Hnn Hi Hl Er E2 Hlate.
  destruct (ctl_legal_app DMA_MAP PKTGET ops _ _ k Er Hl) as [Hl1 Hl2].
  destruct (ctl_history_ok s ops Hnn Hi Hl1) as (k0 & E0 & Hk). rewrite Er in E0. injection E0 as <-.
  cbn [ctl_legal_run ctl_run] in Hl2, E2. apply andb_true_iff in Hl2 as [Hlg Hl2].
  destruct (step_late ri DMA_MAP PKTGET k j msg data Hk Hlg Hlate) as (id & e & m & k1 & Eid & He & Es & Ek & Hk1 & _).
  rewrite Es in Hl2, E2. cbn [mbind option_bind] in E2.
  destruct (ctl_run_ok ri DMA_MAP PKTGET Hnn ops2 k1 Hk1 Hl2) as (k3 & E3 & Hk3 & Hkept). rewrite E2 in E3. injection E3 as <-.
  assert (y_out (k_y k2) !! id = Some (returned e)) as Hfin.
  { apply Hkept; [|done]. rewrite Ek. cbn [k_ghost k_put k_y back y_out]. apply lookup_insert_eq. }
  destruct (ci_hist _ _ Hk3) as (Hy & _). pose proof (so_map _ _ Hy) as Hm.
  destruct (mo_out _ _ _ Hm id _ Hfin) as (Hr & Hlk & Hb & _). exists id, e, k1.
  split; [done|]. split; [done|]. split; [done|]. rewrite Ek. split; [done|]. split; [done|]. split; [done|].
  split; [done|]. split; [done|]. split; [by apply (out_not_free _ _ _ _ _ Hm Hfin)|].
  destruct (mo_audit _ _ _ Hm) as (a & Ea & Hbit). exists a. split; [done|]. rewrite Hbit by done. by rewrite Hfin.
Qed.

(** C37: A request that is never acknowledged.  When the sender of such a request
    times out, the state keeps ACK_PENDING; from then on, for as long as no
    completion arrives and whatever else happens, every ioctl request is refused
    with BCME_BUSY before anything is sent, and dhd_prot_ioctl waits all the same
    for an answer that was not asked for. *)
Theorem unacked_blocks k k1 ops k2 len cmd buf ifidx :
  ioctl_state (k_i k) = Z.lor MSGBUF_IOCTL_ACK_PENDING MSGBUF_IOCTL_RESP_PENDING ->
  step (IoctlWoken 0) k = Some k1 -> run ops k1 = Some k2 -> forallb (fun op => negb (completes op)) ops = true ->
  ioctl_state (k_i k2) = MSGBUF_IOCTL_ACK_PENDING /\
  dhd_fillup_ioct_reqst (k_s k2) len cmd buf ifidx = Some (BCME_BUSY, k_s k2).
Proof.
  intros Hs E1 E2 Hn. assert (ioctl_state (k_i k1) = 1) as H1.
  { cbn [ctl_step] in E1. apply bind_Some in E1 as (c & _ & E1). apply bind_Some in E1 as ([[[? ?] ?] s'] & E & [= <-]).
    cbn [k_ghost k_put k_i]. apply (end_unacked _ _ _ _ _ _ _ _ E). by right. }
  pose proof (run_unacked DMA_MAP PKTGET ops k1 k2 E2 Hn H1) as H2. split; [done|]. apply fillup_busy. cbn. by rewrite H2.
Qed.
End props.
