(* ===== verification/ProtCtrlSample.v ===== *)
(** * A sample history of the whole protocol

    A control ring, a receive ring and two flow rings, one of them created on
    the way; buffers posted, an event, and an ioctl that is answered, answered
    too early or not answered: the properties of [ProtCtrlProps] on it. *)
From Stdlib Require Import ZArith Lia String.
From stdpp Require Import base option numbers gmap list.
From S2P Require Import Prelude Bytes MwBitmap PktidMap PktOut Tcm RingIndex MsgRing MsgFifo.
From S2P Require Import ProtState ProtInv ProtSys ProtRx ProtRxInv ProtHistory ProtProps ProtSample FlowQueue FlowTable.
From S2P Require Import ProtCtrl ProtCtrlInv ProtCtrlReq ProtCtrlSys ProtCtrlStep ProtCtrlOps ProtCtrlIoctl ProtCtrlProps.

Definition csample_flow_ring : msgbuf_ring :=
  {| inited := false; idx := 6; rd := 0; wr := 0; max_items := 4; item_len := 48; base_addr := [0; 0; 1; 0; 0; 0; 0; 0];
     dma_buf := {| va := Some (replicate 192 0); blen := 192; pa_lo := 0 |}; seqnum := 0;
     start_addr := None; pend_items_count := 0 |}.
Definition csample_prot : dhd_prot :=
  set_rings sample_prot [sample_ring 0 24 40; sample_ring 1 4 32; sample_ring 5 4 48; csample_flow_ring].
Definition csample : dhd_ctl :=
  {| c_p := csample_prot;
     c_f := {| busstate := 2; hang_was_sent := false; dongle_reset := false; dongle_trap_occured := false;
               memdump_enabled := true; rxcnt_timeout := 0; rx_ctlpkts := 0; rx_ctlerrs := 0; dongle_error := 0; wme_dp := 0 |};
     c_i := {| ioctl_state := 0; ioctl_status := 0; ioctl_resplen := 0; ioctl_received := 0; curr_ioctl_cmd := 0;
               ioctl_trans_id := 0; retbuf := replicate (Z.to_nat IOCT_RETBUF_SIZE) 0;
               ioctbuf := replicate (Z.to_nat IOCT_RETBUF_SIZE) 0; ioctbuf_pa := 77 * 4096; host_bus_throughput_buf_pa := 99 * 4096 |};
     c_b := {| max_eventbufpost := 8; max_ioctlrespbufpost := 8; cur_event_bufs_posted := 0; cur_ioctlresp_bufs_posted := 0 |} |}.
Definition csample_node : flow_ring_node :=
  {| fr_queue := mk_fq 0 0 0 0 0 0 0 (fun _ => 0) 0 0; fr_active := true; fr_status := 1; fr_flowid := 3; fr_tid := 5; fr_ifindex := 0;
     fr_sa := {| ea0 := 2; ea1 := 0; ea2 := 0; ea3 := 0; ea4 := 0; ea5 := 1 |};
     fr_da := {| ea0 := 2; ea1 := 0; ea2 := 0; ea3 := 0; ea4 := 0; ea5 := 2 |} |}.
Definition csample_boot : list ctl_op :=
  [PostEvent; PostIoctl; FlowCreate csample_node] ++ replicate 4 (Data (DevTake 0)) ++ [Data (DevPublish 0)].
Definition csample_event : list Z := [25; 3; 0; 0] ++ le_bytes 4 3072 ++ [0; 0; 0; 0] ++ le_bytes 2 60.
Definition csample_name : list Z := chars "wme_counters" ++ replicate 88 0.
Definition csample_send : list ctl_op :=
  [Event csample_event; IoctlSend 0 WLC_GET_VAR 0 (Some csample_name) 100; Data (DevTake 0); Data (DevTake 0)].
Definition csample_ack : list Z := [10; 0; 0; 0] ++ le_bytes 4 DHD_IOCTL_REQ_PKTID.
Definition csample_cmplt : list Z :=
  [12; 0; 0; 0] ++ le_bytes 4 3071 ++ le_bytes 2 0 ++ [0; 0] ++ le_bytes 2 5 ++ le_bytes 2 1.
Definition csample_data : list Z := [1; 2; 3; 4; 5] ++ replicate 8187 0.
Definition csample_answer : list ctl_op := [Ack csample_ack; Cmplt 0 csample_cmplt csample_data].

(** PKTGET finds a few packets only: one event buffer and two response buffers
    are posted at first. *)
Definition csample_get (n : Z) : option (Z * Z) :=
  if (n =? 0) || (n =? 2) || (n =? 3) || (n =? 6) then Some (2000 + n, 9000 + 10 * n) else None.
Lemma csample_nonnull n pkt va : csample_get n = Some (pkt, va) -> pkt <> 0.
Proof.
  unfold csample_get. destruct (Z.eqb_spec n 0), (Z.eqb_spec n 2), (Z.eqb_spec n 3), (Z.eqb_spec n 6); cbn [orb]; intros [= <- _]; lia.
Qed.

Lemma csample_init : ctl_init sample_ri csample.
Proof.
  constructor; [|done|done|by vm_compute]. constructor; try apply sample_init; try done.
  - intros i r Hr. change (p_pub (c_p csample)) with filled_pub. pose proof (aget_lt _ _ _ Hr) as Hi.
    cbn [csample c_p csample_prot set_rings h2d_rings length] in Hi.
    assert (i = 0 \/ i = 1 \/ i = 2 \/ i = 3) as [->|[->|[->| ->]]] by lia; injection Hr as <-.
    1-3: apply sample_fresh;
      [done|first [left; by vm_compute | right; split; vm_compute; congruence]|done|done|done|intros []; by vm_compute].
    constructor; try done; [right; split; vm_compute; congruence|intros []; by vm_compute|by eexists].
  - intros f i. cbn [csample c_p csample_prot set_rings sample_prot p_info h2d_rings length]. rewrite lookup_singleton_Some. lia.
Qed.

(** ** The properties on the sample *)
Notation crun := (ctl_run sample_map csample_get).
Notation clegal := (ctl_legal_run sample_map csample_get).

Lemma csample_runs ops1 ops2 :
  clegal (ops1 ++ ops2) (ctl_start csample) = true -> exists k, crun ops1 (ctl_start csample) = Some k.
Proof.
  intros Hl. destruct (ctl_history_ok sample_ri sample_map csample_get csample ops1 csample_nonnull csample_init)
    as (k & E & _); [by apply ctl_legal_prefix in Hl|by exists k].
Qed.

Lemma ctl_packets_witness :
  let ops := csample_boot ++ csample_send ++ csample_answer ++ [IoctlWoken 100; Data (OpTx (sample_pkt 1000) 3)] in
  clegal ops (ctl_start csample) = true /\
  exists k, crun ops (ctl_start csample) = Some k /\
    active_tx_count (y_p (k_y k)) = Z.of_nat (size (tx_out (y_out (k_y k)))) /\ clean (p_log (y_p (k_y k))).
Proof.
  intros ops. assert (clegal ops (ctl_start csample) = true) as Hl by (vm_compute; reflexivity).
  split; [exact Hl|].
  destruct (ctl_packets sample_ri sample_map csample_get csample ops csample_nonnull csample_init Hl)
    as (k & E & _ & Ha & _ & _ & _ & _ & _ & _ & Hc & _).
  exists k. split; [exact E|]. split; [exact Ha|exact Hc].
Defined.

Lemma ctl_rings_witness :
  clegal (csample_boot ++ csample_send) (ctl_start csample) = true /\
  exists k, crun (csample_boot ++ csample_send) (ctl_start csample) = Some k /\
    ioctl_trans_id (k_i k) = u16 (Z.of_nat (length (sent_reqs (k_y k)))).
Proof.
  assert (clegal (csample_boot ++ csample_send) (ctl_start csample) = true) as Hl by (vm_compute; reflexivity).
  split; [exact Hl|].
  destruct (ctl_rings sample_ri sample_map csample_get csample _ csample_nonnull csample_init Hl) as (k & E & _ & _ & Ht).
  exists k. split; [exact E|exact Ht].
Defined.

Lemma ioctl_answer_witness :
  exists k c j msg data st rl buf used s', crun (csample_boot ++ csample_send ++ csample_answer) (ctl_start csample) = Some k /\
    k_call k = Some c /\ Cmplt j msg data ∈ csample_boot ++ csample_send ++ csample_answer /\
    ld 2 msg 8 = Some st /\ ld 2 msg 12 = Some rl /\
    ioctl_end 100 (k_s k) (ic_cmd c) (ic_action c) (ic_buf c) (ic_len c) =
      Some (if 0 <=? wraps 16 st then 0 else wraps 16 st, buf, used, s').
Proof.
  assert (clegal ((csample_boot ++ csample_send ++ csample_answer) ++ [IoctlWoken 100]) (ctl_start csample) = true) as Hl
    by (vm_compute; reflexivity).
  destruct (csample_runs _ _ Hl) as (k & E).
  assert (dongle_trap_occured (k_f k) = false) as Hf'.
  { assert ((fun k => dongle_trap_occured (k_f k)) <$> crun (csample_boot ++ csample_send ++ csample_answer) (ctl_start csample) = Some false)
      as Ef by (vm_compute; reflexivity). rewrite E in Ef. cbn in Ef. by injection Ef. }
  assert (100 <> 0) as H100 by lia.
  destruct (ioctl_answer sample_ri sample_map csample_get csample _ k 100 csample_nonnull csample_init Hl E H100 Hf')
    as (c & j & msg & data & st & rl & buf & used & s' & Hc & _ & _ & Hin & _ & Hst & Hrl & He & _).
  exists k, c, j, msg, data, st, rl, buf, used, s'.
  split; [exact E|]. split; [exact Hc|]. split; [exact Hin|]. split; [exact Hst|]. split; [exact Hrl|exact He].
Defined.

Lemma event_delivers_witness :
  exists k k', crun csample_boot (ctl_start csample) = Some k /\
    ctl_step sample_map csample_get (Event csample_event) k = Some k' /\
    cur_event_bufs_posted (k_b k') <= max_eventbufpost (k_b k).
Proof.
  assert (clegal (csample_boot ++ [Event csample_event]) (ctl_start csample) = true) as Hl by (vm_compute; reflexivity).
  destruct (csample_runs _ _ Hl) as (k & E).
  destruct (event_delivers sample_ri sample_map csample_get csample _ k csample_event csample_nonnull csample_init Hl E)
    as (id & e & buflen & ifidx & mid & j & k' & _ & _ & _ & _ & Es & _ & _ & _ & _ & _ & _ & Hle & _).
  exists k, k'. split; [exact E|]. split; [exact Es|exact Hle].
Defined.

(** The completion comes before the acknowledgement, and the sender times out. *)
Lemma late_completion_leaks_witness :
  exists k k2, crun (csample_boot ++ csample_send) (ctl_start csample) = Some k /\
    crun [Cmplt 0 csample_cmplt csample_data; IoctlWoken 0] k = Some k2 /\
    exists id, id ∉ free_keys (pktid_map_handle (y_p (k_y k2))).
Proof.
  assert (clegal ((csample_boot ++ csample_send) ++ [Cmplt 0 csample_cmplt csample_data; IoctlWoken 0]) (ctl_start csample) = true)
    as Hl by (vm_compute; reflexivity).
  destruct (csample_runs _ _ Hl) as (k & E).
  destruct (csample_runs ((csample_boot ++ csample_send) ++ [Cmplt 0 csample_cmplt csample_data; IoctlWoken 0]) []) as (k2 & E2);
    [by rewrite app_nil_r|].
  rewrite ctl_run_app, E in E2. cbn [mbind option_bind] in E2.
  assert (late (k_i k) = true) as Hlate.
  { assert ((fun k => late (k_i k)) <$> crun (csample_boot ++ csample_send) (ctl_start csample) = Some true)
      as Ef by (vm_compute; reflexivity). rewrite E in Ef. cbn in Ef. by injection Ef. }
  destruct (late_completion_leaks sample_ri sample_map csample_get csample _ k 0 csample_cmplt csample_data [IoctlWoken 0] k2
    csample_nonnull csample_init Hl E E2 Hlate) as (id & e & k1 & _ & _ & _ & _ & _ & _ & _ & _ & Hn & _).
  exists k, k2. split; [exact E|]. split; [exact E2|]. exists id. exact Hn.
Defined.

(** The sender of the request times out, and buffers are posted later. *)
Lemma unacked_blocks_witness :
  exists k k1 k2, crun (csample_boot ++ csample_send) (ctl_start csample) = Some k /\
    ctl_step sample_map csample_get (IoctlWoken 0) k = Some k1 /\ crun [PostIoctl] k1 = Some k2 /\
    dhd_fillup_ioct_reqst (k_s k2) 100 WLC_GET_VAR (Some csample_name) 0 = Some (BCME_BUSY, k_s k2).
Proof.
  assert (clegal ((csample_boot ++ csample_send) ++ [IoctlWoken 0; PostIoctl]) (ctl_start csample) = true) as Hl
    by (vm_compute; reflexivity).
  destruct (csample_runs _ _ Hl) as (k & E).
  destruct (csample_runs ((csample_boot ++ csample_send) ++ [IoctlWoken 0; PostIoctl]) []) as (k2 & E2); [by rewrite app_nil_r|].
  rewrite ctl_run_app, E in E2. cbn [mbind option_bind] in E2.
  change (crun [IoctlWoken 0; PostIoctl] k) with (k1 ← ctl_step sample_map csample_get (IoctlWoken 0) k; crun [PostIoctl] k1) in E2.
  apply bind_Some in E2 as (k1 & E1 & E2).
  assert (ioctl_state (k_i k) = Z.lor MSGBUF_IOCTL_ACK_PENDING MSGBUF_IOCTL_RESP_PENDING) as Hs.
  { assert ((fun k => ioctl_state (k_i k)) <$> crun (csample_boot ++ csample_send) (ctl_start csample) = Some 3)
      as Ef by (vm_compute; reflexivity). rewrite E in Ef. cbn in Ef. by injection Ef. }
  destruct (unacked_blocks sample_map csample_get k k1 [PostIoctl] k2 100 WLC_GET_VAR (Some csample_name) 0 Hs E1 E2)
    as [_ H]; [done|]. exists k, k1, k2. split; [exact E|]. split; [exact E1|]. split; [exact E2|exact H].
Defined.
