(* ===== verification/TcpAck.v ===== *)
(** * Suppression of TCP acknowledgements

    dhd/sys/dhd_ip.c: pure TCP ACKs on their way to the dongle are replaced by
    newer ones of the same stream that wait in the transmit queue
    (dhd_tcpack_suppress), or are held back for a while (dhd_tcpack_hold);
    pkt_frag_info classifies fragments.  Built with DHDTCPACK_SUPPRESS, without
    DHDTCPACK_SUP_DBG; the ACK functions in the Linux variant.

    A packet is its memory from PKTDATA on and its length (PKTLEN); [pkts] are
    the packets the driver may touch, by address, and an access to another one
    or outside a packet's memory is undefined ([None]).  Packets have data
    (PKTDATA is not NULL).  Locks are no-ops here. *)
From Stdlib Require Import ZArith Lia.
From stdpp Require Import base option numbers gmap list.
From S2P Require Import Prelude Bytes ProtState.

(** ** proto/bcmtcp.h

    The header is not part of the repository: its macros are parameters, of
    which the laws say what RFC 793 fixes, that the fields lie in the fixed part
    of a TCP header. *)
Class TcpHdr := {
  TCP_SRC_PORT_OFFSET : Z;
  TCP_DEST_PORT_OFFSET : Z;
  TCP_SEQ_NUM_OFFSET : Z;
  TCP_ACK_NUM_OFFSET : Z;
  TCP_HLEN_OFFSET : Z;
  TCP_FLAGS_OFFSET : Z;
  TCP_MIN_HEADER_LEN : Z;
  TCP_PORT_LEN : Z;
  TCP_FLAG_PSH : Z;
  TCP_FLAG_ACK : Z;
  TCP_HDRLEN : Z -> Z;
  IS_TCPSEQ_GE : Z -> Z -> bool;
  IS_TCPSEQ_GT : Z -> Z -> bool;
  tcp_fields : 0 <= TCP_SRC_PORT_OFFSET /\ TCP_SRC_PORT_OFFSET + TCP_PORT_LEN * 2 <= TCP_MIN_HEADER_LEN /\
    0 <= TCP_ACK_NUM_OFFSET /\ TCP_ACK_NUM_OFFSET + 4 <= TCP_MIN_HEADER_LEN /\
    0 <= TCP_HLEN_OFFSET < TCP_MIN_HEADER_LEN /\ 0 <= TCP_FLAGS_OFFSET < TCP_MIN_HEADER_LEN /\ 0 <= TCP_PORT_LEN
}.

(** ** Constants *)
Definition ETHER_TYPE_OFFSET : Z := 12.
Definition ETHER_TYPE_LEN : Z := 2.
Definition ETHER_TYPE_MIN : Z := 0x0600.
Definition ETHER_TYPE_IP : Z := 0x0800.
Definition ETHER_TYPE_8021Q : Z := 0x8100.
Definition VLAN_TAG_LEN : Z := 4.
Definition SNAP_HDR_LEN : Z := 6.
Definition IP_VER_4 : Z := 4.
Definition IP_PROT_TCP : Z := 6.
Definition IPV4_PKTLEN_OFFSET : Z := 2.
Definition IPV4_PROT_OFFSET : Z := 9.
Definition IPV4_SRC_IP_OFFSET : Z := 12.
Definition IPV4_OPTIONS_OFFSET : Z := 20.
Definition IPV4_MIN_HEADER_LEN : Z := 20.
Definition IPV4_ADDR_LEN : Z := 4.
Definition IPV4_FRAG_DONT : Z := 0x4000.
Definition IPV4_FRAG_MORE : Z := 0x2000.
Definition IPV4_FRAG_OFFSET_MASK : Z := 0x1fff.

Definition TCPACK_INFO_MAXNUM : Z := 4.
Definition TCPDATA_INFO_MAXNUM : Z := 4.
Definition TCPDATA_INFO_TIMEOUT : Z := 5000.
Definition CUSTOM_TCPACK_SUPP_RATIO : Z := 3.
Definition CUSTOM_TCPACK_DELAY_TIME : Z := 10.

Definition TCPACK_SUP_OFF : Z := 0.
Definition TCPACK_SUP_REPLACE : Z := 1.
Definition TCPACK_SUP_DELAYTX : Z := 2.
Definition TCPACK_SUP_HOLD : Z := 3.
Definition TCPACK_SUP_LAST_MODE : Z := 4.

(** ** Reading headers *)
Definition ntoh16_ua (m : list Z) (off : Z) : option Z :=
  b0 ← aget m off; b1 ← aget m (off + 1); Some (Z.lor (Z.shiftl b0 8) b1).
Definition ntoh32_ua (m : list Z) (off : Z) : option Z :=
  b0 ← aget m off; b1 ← aget m (off + 1); b2 ← aget m (off + 2); b3 ← aget m (off + 3);
  Some (Z.lor (Z.lor (Z.lor (Z.shiftl b0 24) (Z.shiftl b1 16)) (Z.shiftl b2 8)) b3).
Definition IP_VER (m : list Z) (ip : Z) : option Z := b ← aget m ip; Some (Z.shiftr (Z.land b 0xf0) 4).
Definition IPV4_HLEN (m : list Z) (ip : Z) : option Z := b ← aget m ip; Some (4 * Z.land b 0x0f).
Definition IPV4_PROT (m : list Z) (ip : Z) : option Z := aget m (ip + IPV4_PROT_OFFSET).

(** memcmp(a, b, n) == 0. *)
Definition memeq (a : list Z) (aoff : Z) (b : list Z) (boff n : Z) : option bool :=
  x ← ld_bytes a aoff (Z.to_nat n); y ← ld_bytes b boff (Z.to_nat n); Some (bool_decide (x = y)).

(** x && y: [y] is not evaluated when [x] is false. *)
Definition and_then (x y : option bool) : option bool := a ← x; if a : bool then y else Some false.

(** ** Fragments *)
Inductive pkt_frag := DHD_PKT_FRAG_NONE | DHD_PKT_FRAG_FIRST | DHD_PKT_FRAG_CONT | DHD_PKT_FRAG_LAST.
Definition llc_snap_hdr : list Z := [0xaa; 0xaa; 0x03; 0; 0; 0].

(** [pt] is the offset of the type field. *)
Definition frag_of (frame : list Z) (pt : Z) : option pkt_frag :=
  let length := Z.of_nat (length frame) in
  let iph := pt + ETHER_TYPE_LEN in
  let ipl := s32 (u32 (length - (pt + ETHER_TYPE_LEN))) in
  if ipl <? IPV4_OPTIONS_OFFSET then Some DHD_PKT_FRAG_NONE else
  ver ← IP_VER frame iph;
  if negb (ver =? IP_VER_4) then Some DHD_PKT_FRAG_NONE else
  iph_frag ← ntoh16_ua frame (iph + 6);
  if negb (Z.land iph_frag IPV4_FRAG_DONT =? 0) then Some DHD_PKT_FRAG_NONE else
  if Z.land iph_frag IPV4_FRAG_MORE =? 0 then Some DHD_PKT_FRAG_LAST else
  Some (if negb (Z.land iph_frag IPV4_FRAG_OFFSET_MASK =? 0) then DHD_PKT_FRAG_CONT else DHD_PKT_FRAG_FIRST).

(** The offset of the type field, if the frame has one. *)
Definition frag_type (frame : list Z) : option (option Z) :=
  let length := Z.of_nat (length frame) in
  if length <? ETHER_HDR_LEN then Some None else
  t ← ntoh16_ua frame ETHER_TYPE_OFFSET;
  if ETHER_TYPE_MIN <=? t then Some (Some ETHER_TYPE_OFFSET) else
  if ETHER_HDR_LEN + SNAP_HDR_LEN + ETHER_TYPE_LEN <=? length then
    snap ← memeq llc_snap_hdr 0 frame ETHER_HDR_LEN SNAP_HDR_LEN;
    Some (if snap : bool then Some (ETHER_HDR_LEN + SNAP_HDR_LEN) else None)
  else Some None.

Definition pkt_frag_info (frame : list Z) : option pkt_frag :=
  let length := Z.of_nat (length frame) in
  ty ← frag_type frame;
  match ty with
  | None => Some DHD_PKT_FRAG_NONE
  | Some pt =>
      ethertype ← ntoh16_ua frame pt;
      if ethertype =? ETHER_TYPE_8021Q then
        let pt := pt + VLAN_TAG_LEN in
        if length <? pt + ETHER_TYPE_LEN then Some DHD_PKT_FRAG_NONE else
        ethertype ← ntoh16_ua frame pt;
        if negb (ethertype =? ETHER_TYPE_IP) then Some DHD_PKT_FRAG_NONE else frag_of frame pt
      else if negb (ethertype =? ETHER_TYPE_IP) then Some DHD_PKT_FRAG_NONE
      else frag_of frame pt
  end.

(** ** State *)
Record spkt := { sk_mem : list Z; sk_len : Z }.

(** tcpack_info_t; 0 is NULL.  [pkt_ether_hdr] points to the data of the packet
    of that address.  [ti_dhdp]: dhdp is set.  [timer_on]: the timer is armed. *)
Record tcpack_info := {
  pkt_in_q : Z;
  pkt_ether_hdr : Z;
  ti_ifidx : Z;
  supp_cnt : Z;     (* uint8 *)
  ti_dhdp : bool;
  timer_on : bool
}.
Definition info0 : tcpack_info :=
  {| pkt_in_q := 0; pkt_ether_hdr := 0; ti_ifidx := 0; supp_cnt := 0; ti_dhdp := false; timer_on := false |}.
Definition set_held (e : tcpack_info) (p ether ifidx cnt : Z) : tcpack_info :=
  {| pkt_in_q := p; pkt_ether_hdr := ether; ti_ifidx := ifidx; supp_cnt := cnt; ti_dhdp := ti_dhdp e; timer_on := timer_on e |}.
Definition set_timer (e : tcpack_info) (b : bool) : tcpack_info :=
  {| pkt_in_q := pkt_in_q e; pkt_ether_hdr := pkt_ether_hdr e; ti_ifidx := ti_ifidx e; supp_cnt := supp_cnt e;
     ti_dhdp := ti_dhdp e; timer_on := b |}.
Definition init_info_timer (e : tcpack_info) : tcpack_info :=
  {| pkt_in_q := pkt_in_q e; pkt_ether_hdr := pkt_ether_hdr e; ti_ifidx := ti_ifidx e; supp_cnt := supp_cnt e;
     ti_dhdp := true; timer_on := false |}.

(** tcpdata_info_t: the chain of PSH segments is a list of node addresses. *)
Record tcpdata_info := {
  di_ip_addr : list Z;     (* src, dst *)
  di_tcp_port : list Z;    (* src, dst *)
  psh_head : Z;
  psh_tail : Z;
  last_used_time : Z       (* uint32 *)
}.
Definition data0 `{TcpHdr} : tcpdata_info :=
  {| di_ip_addr := replicate 8 0; di_tcp_port := replicate (Z.to_nat (TCP_PORT_LEN * 2)) 0; psh_head := 0; psh_tail := 0; last_used_time := 0 |}.
Definition set_psh (d : tcpdata_info) (h t : Z) : tcpdata_info :=
  {| di_ip_addr := di_ip_addr d; di_tcp_port := di_tcp_port d; psh_head := h; psh_tail := t; last_used_time := last_used_time d |}.
Definition set_used (d : tcpdata_info) (now : Z) : tcpdata_info :=
  {| di_ip_addr := di_ip_addr d; di_tcp_port := di_tcp_port d; psh_head := psh_head d; psh_tail := psh_tail d; last_used_time := now |}.

(** tdata_psh_info_t. *)
Record psh_info := { end_seq : Z; psh_next : Z }.

(** tcpack_sup_module_t. *)
Record tcpack_mod := {
  tcpack_info_cnt : Z;
  tcpack_info_tbl : list tcpack_info;
  tcpdata_info_cnt : Z;
  tcpdata_info_tbl : list tcpdata_info;
  psh_nodes : gmap Z psh_info;
  psh_free : Z             (* tdata_psh_info_free *)
}.
Definition mod0 `{TcpHdr} : tcpack_mod :=
  {| tcpack_info_cnt := 0; tcpack_info_tbl := replicate 4 info0; tcpdata_info_cnt := 0;
     tcpdata_info_tbl := replicate 4 data0; psh_nodes := ∅; psh_free := 0 |}.
Definition set_acks (m : tcpack_mod) (cnt : Z) (tbl : list tcpack_info) : tcpack_mod :=
  {| tcpack_info_cnt := cnt; tcpack_info_tbl := tbl; tcpdata_info_cnt := tcpdata_info_cnt m;
     tcpdata_info_tbl := tcpdata_info_tbl m; psh_nodes := psh_nodes m; psh_free := psh_free m |}.
Definition set_datas (m : tcpack_mod) (cnt : Z) (tbl : list tcpdata_info) : tcpack_mod :=
  {| tcpack_info_cnt := tcpack_info_cnt m; tcpack_info_tbl := tcpack_info_tbl m; tcpdata_info_cnt := cnt;
     tcpdata_info_tbl := tbl; psh_nodes := psh_nodes m; psh_free := psh_free m |}.
Definition set_pool (m : tcpack_mod) (nodes : gmap Z psh_info) (free : Z) : tcpack_mod :=
  {| tcpack_info_cnt := tcpack_info_cnt m; tcpack_info_tbl := tcpack_info_tbl m; tcpdata_info_cnt := tcpdata_info_cnt m;
     tcpdata_info_tbl := tcpdata_info_tbl m; psh_nodes := nodes; psh_free := free |}.

Inductive ip_effect :=
  | AckFree (pkt : Z) (send : bool)       (* PKTFREE *)
  | AckSend (ifidx pkt : Z)               (* dhd_sendpkt *)
  | ModFree                               (* MFREE of the module *)
  | DotxInRx.                             (* dhd_bus_set_dotxinrx(TRUE) *)

(** Of dhd_pub_t, and the packets. *)
Record tcpack_pub := {
  tcpack_sup_mode : Z;
  tcpack_sup_module : option tcpack_mod;
  tcpack_sup_ratio : Z;
  tcpack_sup_delay : Z;
  pkts : gmap Z spkt;
  ip_log : list ip_effect
}.
Definition set_mode (d : tcpack_pub) (mode : Z) : tcpack_pub :=
  {| tcpack_sup_mode := mode; tcpack_sup_module := tcpack_sup_module d; tcpack_sup_ratio := tcpack_sup_ratio d;
     tcpack_sup_delay := tcpack_sup_delay d; pkts := pkts d; ip_log := ip_log d |}.
Definition set_mod (d : tcpack_pub) (m : option tcpack_mod) : tcpack_pub :=
  {| tcpack_sup_mode := tcpack_sup_mode d; tcpack_sup_module := m; tcpack_sup_ratio := tcpack_sup_ratio d;
     tcpack_sup_delay := tcpack_sup_delay d; pkts := pkts d; ip_log := ip_log d |}.
Definition set_ratio (d : tcpack_pub) (ratio delay : Z) : tcpack_pub :=
  {| tcpack_sup_mode := tcpack_sup_mode d; tcpack_sup_module := tcpack_sup_module d; tcpack_sup_ratio := ratio;
     tcpack_sup_delay := delay; pkts := pkts d; ip_log := ip_log d |}.
Definition set_pkts (d : tcpack_pub) (pk : gmap Z spkt) (l : list ip_effect) : tcpack_pub :=
  {| tcpack_sup_mode := tcpack_sup_mode d; tcpack_sup_module := tcpack_sup_module d; tcpack_sup_ratio := tcpack_sup_ratio d;
     tcpack_sup_delay := tcpack_sup_delay d; pkts := pk; ip_log := ip_log d ++ l |}.

Definition PKTFREE (d : tcpack_pub) (pkt : Z) (send : bool) : option tcpack_pub :=
  _ ← pkts d !! pkt; Some (set_pkts d (delete pkt (pkts d)) [AckFree pkt send]).

Section ops.
Context `{TcpHdr}.

Definition TCPACKSZMIN : Z := ETHER_HDR_LEN + IPV4_MIN_HEADER_LEN + TCP_MIN_HEADER_LEN.
Definition TCPACKSZMAX : Z := TCPACKSZMIN + 100.

(** ** The pool of PSH segments *)
Definition _tdata_psh_info_pool_enq (m : tcpack_mod) (n : Z) : option tcpack_mod :=
  if n =? 0 then Some m else
  i ← psh_nodes m !! n;
  Some (set_pool m (<[n := {| end_seq := end_seq i; psh_next := psh_free m |}]> (psh_nodes m)) n).
Definition _tdata_psh_info_pool_deq (m : tcpack_mod) : option (Z * tcpack_mod) :=
  let n := psh_free m in
  if n =? 0 then Some (0, m) else
  i ← psh_nodes m !! n;
  Some (n, set_pool m (<[n := {| end_seq := end_seq i; psh_next := 0 |}]> (psh_nodes m)) (psh_next i)).

(** The head of chain [i] goes back to the pool. *)
Definition psh_pop (m : tcpack_mod) (i : Z) (d : tcpdata_info) : option (tcpdata_info * tcpack_mod) :=
  let n := psh_head d in
  x ← psh_nodes m !! n;
  let d := set_psh d (psh_next x) (psh_tail d) in
  tbl ← aset (tcpdata_info_tbl m) i d;
  let m := set_datas m (tcpdata_info_cnt m) tbl in
  let m := set_pool m (<[n := {| end_seq := end_seq x; psh_next := 0 |}]> (psh_nodes m)) (psh_free m) in
  m ← _tdata_psh_info_pool_enq m n;
  Some (d, m).

(** A loop over a chain visits a node once: as many steps as there are nodes. *)
Fixpoint psh_ack_loop (fuel : nat) (m : tcpack_mod) (i : Z) (d : tcpdata_info) (ack : Z) (ret : bool)
    : option (tcpdata_info * tcpack_mod * bool) :=
  match fuel with
  | O => None
  | S fuel =>
      if psh_head d =? 0 then Some (d, m, ret) else
      x ← psh_nodes m !! psh_head d;
      if IS_TCPSEQ_GE ack (end_seq x) then
        '(d, m) ← psh_pop m i d; psh_ack_loop fuel m i d ack true
      else Some (d, m, ret)
  end.
Fixpoint psh_clean_loop (fuel : nat) (m : tcpack_mod) (i : Z) (d : tcpdata_info) : option (tcpdata_info * tcpack_mod) :=
  match fuel with
  | O => None
  | S fuel => if psh_head d =? 0 then Some (d, m) else '(d, m) ← psh_pop m i d; psh_clean_loop fuel m i d
  end.

(** The entry of the stream that the ACK at [ip], [tcp] answers. *)
Fixpoint psh_find (n : nat) (m : tcpack_mod) (mem : list Z) (ip tcp i : Z) : option (option (Z * tcpdata_info)) :=
  match n with
  | O => Some None
  | S n =>
      d ← aget (tcpdata_info_tbl m) i;
      let pl := Z.to_nat TCP_PORT_LEN in
      same ← and_then (memeq mem (ip + IPV4_SRC_IP_OFFSET) (di_ip_addr d) IPV4_ADDR_LEN IPV4_ADDR_LEN)
        (and_then (memeq mem (ip + IPV4_SRC_IP_OFFSET + IPV4_ADDR_LEN) (di_ip_addr d) 0 IPV4_ADDR_LEN)
        (and_then (memeq mem (tcp + TCP_SRC_PORT_OFFSET) (di_tcp_port d) TCP_PORT_LEN TCP_PORT_LEN)
          (memeq mem (tcp + TCP_DEST_PORT_OFFSET) (di_tcp_port d) 0 TCP_PORT_LEN)));
      if same : bool then Some (Some (i, d)) else psh_find n m mem ip tcp (i + 1)
  end.

Definition dhd_tcpdata_psh_acked (d : tcpack_pub) (mem : list Z) (ip tcp ack : Z) : option (bool * tcpack_pub) :=
  if negb (tcpack_sup_mode d =? TCPACK_SUP_DELAYTX) then Some (false, d) else
  match tcpack_sup_module d with
  | None => Some (false, d)
  | Some m =>
      found ← psh_find (Z.to_nat (tcpdata_info_cnt m)) m mem ip tcp 0;
      match found with
      | None => Some (false, d)
      | Some (i, di) =>
          '(di, m, ret) ← psh_ack_loop (S (size (psh_nodes m))) m i di ack false;
          tbl ← aset (tcpdata_info_tbl m) i (if psh_head di =? 0 then set_psh di 0 0 else di);
          Some (ret, set_mod d (Some (set_datas m (tcpdata_info_cnt m) tbl)))
      end
  end.

(** ** Table of waiting ACKs *)

(** The timer of entry [i] fires; it runs in the memory of the module. *)
Definition dhd_tcpack_send (d : tcpack_pub) (i : Z) : option tcpack_pub :=
  m ← tcpack_sup_module d;
  e ← aget (tcpack_info_tbl m) i;
  let e := set_timer e false in
  if negb (ti_dhdp e) || (pkt_in_q e =? 0) then
    tbl ← aset (tcpack_info_tbl m) i e; Some (set_mod d (Some (set_acks m (tcpack_info_cnt m) tbl)))
  else
    tbl ← aset (tcpack_info_tbl m) i (set_held e 0 0 0 0);
    let d := set_mod d (Some (set_acks m (tcpack_info_cnt m - 1) tbl)) in
    Some (set_pkts d (pkts d) [AckSend (ti_ifidx e) (pkt_in_q e)]).

(** Free what is held. *)
Fixpoint clean_loop (n : nat) (d : tcpack_pub) (tbl : list tcpack_info) (i : Z) : option (tcpack_pub * list tcpack_info) :=
  match n with
  | O => Some (d, tbl)
  | S n =>
      e ← aget tbl i;
      if pkt_in_q e =? 0 then clean_loop n d tbl (i + 1) else
      d ← PKTFREE d (pkt_in_q e) true;
      tbl ← aset tbl i (set_held e 0 0 0 0);
      clean_loop n d tbl (i + 1)
  end.
Definition dhd_tcpack_info_tbl_clean (d : tcpack_pub) : option tcpack_pub :=
  if tcpack_sup_mode d =? TCPACK_SUP_OFF then Some d else
  match tcpack_sup_module d with
  | None => Some d
  | Some m =>
      if tcpack_sup_mode d =? TCPACK_SUP_HOLD then
        '(d, tbl) ← clean_loop (Z.to_nat TCPACK_INFO_MAXNUM) d (tcpack_info_tbl m) 0;
        Some (set_mod d (Some (set_acks m (tcpack_info_cnt m) (map (fun e => set_timer e false) tbl))))
      else Some (set_mod d (Some (set_acks m 0 (replicate (Z.to_nat TCPACK_INFO_MAXNUM) info0))))
  end.

(** [mem]: MALLOC succeeds. *)
Definition dhd_tcpack_suppress_set (d : tcpack_pub) (mode : Z) (mem : bool) : option (Z * tcpack_pub) :=
  if tcpack_sup_mode d =? mode then Some (BCME_OK, d) else
  if (TCPACK_SUP_LAST_MODE <=? mode) || (mode =? TCPACK_SUP_DELAYTX) then Some (BCME_BADARG, d) else
  let d := set_mode d mode in
  if mode =? TCPACK_SUP_OFF then
    d ← dhd_tcpack_info_tbl_clean d;
    Some (BCME_OK, set_pkts (set_mod d None) (pkts d) [ModFree])
  else
    match tcpack_sup_module d, mem with
    | None, false => Some (BCME_NOMEM, set_mode d TCPACK_SUP_OFF)
    | o, _ =>
        let m := match o with Some m => m | None => mod0 end in
        if mode =? TCPACK_SUP_HOLD then
          let m := set_acks m (tcpack_info_cnt m) (map init_info_timer (tcpack_info_tbl m)) in
          Some (BCME_OK, set_mod (set_ratio d CUSTOM_TCPACK_SUPP_RATIO CUSTOM_TCPACK_DELAY_TIME) (Some m))
        else Some (BCME_OK, set_mod d (Some m))
    end.

(** [pkt] is sent out: its entry is removed.  dhd_prot_hdrlen is 0. *)
Fixpoint xmit_loop (n : nat) (m : tcpack_mod) (pkt i : Z) : option (Z * tcpack_mod) :=
  match n with
  | O => Some (BCME_OK, m)
  | S n =>
      let tbl_cnt := tcpack_info_cnt m in
      e ← aget (tcpack_info_tbl m) i;
      if pkt_in_q e =? pkt then
        tbl ← (if i <? tbl_cnt - 1 then last ← aget (tcpack_info_tbl m) (tbl_cnt - 1); aset (tcpack_info_tbl m) i last
               else Some (tcpack_info_tbl m));
        tbl ← aset tbl (tbl_cnt - 1) info0;
        Some (if tbl_cnt - 1 <? 0 then BCME_ERROR else BCME_OK, set_acks m (tbl_cnt - 1) tbl)
      else xmit_loop n m pkt (u8 (i + 1))
  end.
Definition dhd_tcpack_check_xmit (d : tcpack_pub) (pkt : Z) : option (Z * tcpack_pub) :=
  if tcpack_sup_mode d =? TCPACK_SUP_OFF then Some (BCME_OK, d) else
  p ← pkts d !! pkt;
  if (sk_len p <? TCPACKSZMIN) || (TCPACKSZMAX <? sk_len p) then Some (BCME_OK, d) else
  match tcpack_sup_module d with
  | None => Some (BCME_ERROR, d)
  | Some m =>
      '(ret, m) ← xmit_loop (Z.to_nat (tcpack_info_cnt m)) m pkt 0;
      Some (ret, set_mod d (Some m))
  end.

(** ** New ACKs

    What dhd_tcpack_suppress and dhd_tcpack_hold read of a packet before they
    look into the table, [None] if they leave it alone: the header lengths, the
    total length and the acknowledgement number.  The ASSERTs on the lengths are
    no-ops. *)
Record ack_hdrs := { a_ip_hdr_len : Z; a_tcp_hdr_len : Z; a_total_len : Z; a_num : Z }.
Definition ack_tcp (a : ack_hdrs) : Z := ETHER_HDR_LEN + a_ip_hdr_len a.

Definition ack_parse (p : spkt) : option (option ack_hdrs) :=
  let m := sk_mem p in
  if (sk_len p <? TCPACKSZMIN) || (TCPACKSZMAX <? sk_len p) then Some None else
  new_ether_type ← ntoh16_ua m 12;
  if negb (new_ether_type =? ETHER_TYPE_IP) then Some None else
  let new_ip_hdr := ETHER_HDR_LEN in
  new_ip_hdr_len ← IPV4_HLEN m new_ip_hdr;
  ver ← IP_VER m new_ip_hdr;
  prot ← IPV4_PROT m new_ip_hdr;
  if negb (ver =? IP_VER_4) || negb (prot =? IP_PROT_TCP) then Some None else
  let new_tcp_hdr := new_ip_hdr + new_ip_hdr_len in
  fl ← aget m (new_tcp_hdr + TCP_FLAGS_OFFSET);
  if negb (fl =? TCP_FLAG_ACK) then Some None else
  new_ip_total_len ← ntoh16_ua m (new_ip_hdr + IPV4_PKTLEN_OFFSET);
  hl ← aget m (new_tcp_hdr + TCP_HLEN_OFFSET);
  let new_tcp_hdr_len := 4 * TCP_HDRLEN hl in
  if new_ip_hdr_len + new_tcp_hdr_len <? new_ip_total_len then Some None else
  num ← ntoh32_ua m (new_tcp_hdr + TCP_ACK_NUM_OFFSET);
  Some (Some {| a_ip_hdr_len := new_ip_hdr_len; a_tcp_hdr_len := new_tcp_hdr_len; a_total_len := new_ip_total_len; a_num := num |}).

(** The waiting packet of an entry: its memory, IP and TCP header lengths. *)
Definition old_hdrs (d : tcpack_pub) (e : tcpack_info) : option (list Z * Z * Z) :=
  old ← pkts d !! pkt_ether_hdr e;
  old_ip_hdr_len ← IPV4_HLEN (sk_mem old) ETHER_HDR_LEN;
  hl ← aget (sk_mem old) (ETHER_HDR_LEN + old_ip_hdr_len + TCP_HLEN_OFFSET);
  Some (sk_mem old, old_ip_hdr_len, 4 * TCP_HDRLEN hl).
(** Addresses and ports of two packets, whose TCP headers start at [atcp] and
    [btcp], are the same. *)
Definition same_stream (a : list Z) (atcp : Z) (b : list Z) (btcp : Z) : option bool :=
  and_then (memeq a (ETHER_HDR_LEN + IPV4_SRC_IP_OFFSET) b (ETHER_HDR_LEN + IPV4_SRC_IP_OFFSET) (IPV4_ADDR_LEN * 2))
    (memeq a (atcp + TCP_SRC_PORT_OFFSET) b (btcp + TCP_SRC_PORT_OFFSET) (TCP_PORT_LEN * 2)).

(** Where the loop over the table stops and whether an entry of the stream was
    found there; an empty entry ends it. *)
Fixpoint suppress_find (n : nat) (d : tcpack_pub) (m : tcpack_mod) (new : list Z) (a : ack_hdrs) (i : Z) : option (Z * bool) :=
  match n with
  | O => Some (i, false)
  | S n =>
      e ← aget (tcpack_info_tbl m) i;
      if pkt_in_q e =? 0 then Some (i, false) else
      _ ← pkts d !! pkt_in_q e;
      '(old, old_ip_hdr_len, _) ← old_hdrs d e;
      same ← same_stream new (ack_tcp a) old (ETHER_HDR_LEN + old_ip_hdr_len);
      if same : bool then Some (i, true) else suppress_find n d m new a (i + 1)
  end.

(** The exit: the bus is told in mode DELAYTX only. *)
Definition suppress_exit (d : tcpack_pub) (ret set_dotxinrx : bool) : bool * tcpack_pub :=
  (ret, if (tcpack_sup_mode d =? TCPACK_SUP_DELAYTX) && set_dotxinrx then set_pkts d (pkts d) [DotxInRx] else d).

(** An entry of the stream waits at [i]. *)
Definition suppress_replace (d : tcpack_pub) (m : tcpack_mod) (pkt : Z) (new : list Z) (a : ack_hdrs) (i : Z) (dotx : bool)
    : option (bool * tcpack_pub) :=
  e ← aget (tcpack_info_tbl m) i;
  '(old, old_ip_hdr_len, old_tcp_hdr_len) ← old_hdrs d e;
  old_tcpack_num ← ntoh32_ua old (ETHER_HDR_LEN + old_ip_hdr_len + TCP_ACK_NUM_OFFSET);
  if IS_TCPSEQ_GT (a_num a) old_tcpack_num then
    if (a_ip_hdr_len a =? old_ip_hdr_len) && (a_tcp_hdr_len a =? old_tcp_hdr_len) then
      bs ← ld_bytes new ETHER_HDR_LEN (Z.to_nat (a_total_len a));
      old' ← st_bytes old ETHER_HDR_LEN bs;
      o ← pkts d !! pkt_ether_hdr e;
      let d := set_pkts d (<[pkt_ether_hdr e := {| sk_mem := old'; sk_len := sk_len o |}]> (pkts d)) [] in
      d ← PKTFREE d pkt false;
      Some (suppress_exit d true dotx)
    else Some (suppress_exit d false dotx)
  else Some (suppress_exit d false (dotx || (a_num a =? old_tcpack_num))).

Definition dhd_tcpack_suppress (d : tcpack_pub) (pkt : Z) : option (bool * tcpack_pub) :=
  if tcpack_sup_mode d =? TCPACK_SUP_OFF then Some (suppress_exit d false true) else
  p ← pkts d !! pkt;
  parsed ← ack_parse p;
  match parsed with
  | None => Some (suppress_exit d false true)
  | Some a =>
      match tcpack_sup_module d with
      | None => Some (suppress_exit d true true)
      | Some _ =>
          '(set_dotxinrx, d) ← dhd_tcpdata_psh_acked d (sk_mem p) ETHER_HDR_LEN (ack_tcp a) (a_num a);
          m ← tcpack_sup_module d;
          '(i, found) ← suppress_find (Z.to_nat (tcpack_info_cnt m)) d m (sk_mem p) a 0;
          if found : bool then suppress_replace d m pkt (sk_mem p) a i set_dotxinrx else
          if (i =? tcpack_info_cnt m) && (i <? TCPACK_INFO_MAXNUM) then
            e ← aget (tcpack_info_tbl m) (tcpack_info_cnt m);
            tbl ← aset (tcpack_info_tbl m) (tcpack_info_cnt m) (set_held e pkt pkt (ti_ifidx e) (supp_cnt e));
            Some (suppress_exit (set_mod d (Some (set_acks m (tcpack_info_cnt m + 1) tbl))) false set_dotxinrx)
          else Some (suppress_exit d false set_dotxinrx)
      end
  end.

(** The first entry of the stream, and the first free one before it. *)
Fixpoint hold_find (n : nat) (d : tcpack_pub) (m : tcpack_mod) (new : list Z) (a : ack_hdrs) (i free_slot : Z)
    : option (option Z * Z) :=
  match n with
  | O => Some (None, free_slot)
  | S n =>
      e ← aget (tcpack_info_tbl m) i;
      if pkt_in_q e =? 0 then
        hold_find n d m new a (i + 1) (if free_slot =? TCPACK_INFO_MAXNUM then i else free_slot)
      else
        _ ← pkts d !! pkt_in_q e;
        '(old, old_ip_hdr_len, _) ← old_hdrs d e;
        same ← same_stream new (ack_tcp a) old (ETHER_HDR_LEN + old_ip_hdr_len);
        if same : bool then Some (Some i, free_slot) else hold_find n d m new a (i + 1) free_slot
  end.

(** An ACK of the stream is held at [i]; the result is [hold]. *)
Definition hold_update (d : tcpack_pub) (m : tcpack_mod) (pkt ifidx : Z) (a : ack_hdrs) (i : Z) : option (bool * tcpack_pub) :=
  e ← aget (tcpack_info_tbl m) i;
  '(old, old_ip_hdr_len, _) ← old_hdrs d e;
  old_tcpack_num ← ntoh32_ua old (ETHER_HDR_LEN + old_ip_hdr_len + TCP_ACK_NUM_OFFSET);
  if IS_TCPSEQ_GE (a_num a) old_tcpack_num then
    let supp := u8 (supp_cnt e + 1) in
    let hold := supp <? tcpack_sup_ratio d in
    let e' := if hold then set_held e pkt pkt ifidx supp else set_timer (set_held e 0 0 0 0) false in
    tbl ← aset (tcpack_info_tbl m) i e';
    d ← PKTFREE (set_mod d (Some (set_acks m (tcpack_info_cnt m) tbl))) (pkt_in_q e) true;
    Some (hold, d)
  else d ← PKTFREE d pkt true; Some (true, d).

Definition dhd_tcpack_hold (d : tcpack_pub) (pkt ifidx : Z) : option (bool * tcpack_pub) :=
  if negb (tcpack_sup_mode d =? TCPACK_SUP_HOLD) then Some (false, d) else
  if tcpack_sup_ratio d =? 1 then Some (false, d) else
  p ← pkts d !! pkt;
  parsed ← ack_parse p;
  match parsed with
  | None => Some (false, d)
  | Some a =>
      match tcpack_sup_module d with
      | None => Some (false, d)
      | Some m =>
          '(found, free_slot) ← hold_find (Z.to_nat TCPACK_INFO_MAXNUM) d m (sk_mem p) a 0 TCPACK_INFO_MAXNUM;
          match found with
          | Some i => hold_update d m pkt ifidx a i
          | None =>
              if free_slot <? TCPACK_INFO_MAXNUM then
                e ← aget (tcpack_info_tbl m) free_slot;
                tbl ← aset (tcpack_info_tbl m) free_slot (set_timer (set_held e pkt pkt ifidx 1) true);
                Some (true, set_mod d (Some (set_acks m (tcpack_info_cnt m + 1) tbl)))
              else Some (true, d)
          end
      end
  end.

(** ** Received PSH segments *)

(** The search of dhd_tcpdata_info_get: entries not used for
    TCPDATA_INFO_TIMEOUT are dropped on the way, the last one taking their
    place.  [now]: what the [t]-th call of OSL_SYSUPTIME returns. *)
Variable OSL_SYSUPTIME : Z -> Z.
Fixpoint data_find (fuel : nat) (m : tcpack_mod) (mem : list Z) (tcp i t : Z) : option (tcpack_mod * Z * bool * Z) :=
  match fuel with
  | O => None
  | S fuel =>
      if tcpdata_info_cnt m <=? i then Some (m, i, false, t) else
      d ← aget (tcpdata_info_tbl m) i;
      let now_in_ms := OSL_SYSUPTIME t in
      same ← and_then (memeq mem (ETHER_HDR_LEN + IPV4_SRC_IP_OFFSET) (di_ip_addr d) 0 (IPV4_ADDR_LEN * 2))
        (memeq mem (tcp + TCP_SRC_PORT_OFFSET) (di_tcp_port d) 0 (TCP_PORT_LEN * 2));
      if same : bool then
        tbl ← aset (tcpdata_info_tbl m) i (set_used d now_in_ms);
        Some (set_datas m (tcpdata_info_cnt m) tbl, i, true, t + 1)
      else if TCPDATA_INFO_TIMEOUT <? u32 (now_in_ms - last_used_time d) then
        '(_, m) ← psh_clean_loop (S (size (psh_nodes m))) m i d;
        let cnt := tcpdata_info_cnt m - 1 in
        last ← aget (tcpdata_info_tbl m) cnt;
        tbl ← (if i <? cnt then aset (tcpdata_info_tbl m) i last else Some (tcpdata_info_tbl m));
        tbl ← aset tbl cnt data0;
        data_find fuel (set_datas m cnt tbl) mem tcp i (t + 1)
      else data_find fuel m mem tcp (i + 1) (t + 1)
  end.

(** A node is taken from the pool and put at the end of chain [i]. *)
Definition psh_append (m : tcpack_mod) (i : Z) (end_tcp_seq_num : Z) : option (bool * tcpack_mod) :=
  '(n, m) ← _tdata_psh_info_pool_deq m;
  if n =? 0 then Some (true, m) else
  d ← aget (tcpdata_info_tbl m) i;
  x ← psh_nodes m !! n;
  let m := set_pool m (<[n := {| end_seq := end_tcp_seq_num; psh_next := psh_next x |}]> (psh_nodes m)) (psh_free m) in
  if psh_head d =? 0 then
    tbl ← aset (tcpdata_info_tbl m) i (set_psh d n n); Some (false, set_datas m (tcpdata_info_cnt m) tbl)
  else
    t ← psh_nodes m !! psh_tail d;
    let m := set_pool m (<[psh_tail d := {| end_seq := end_seq t; psh_next := n |}]> (psh_nodes m)) (psh_free m) in
    tbl ← aset (tcpdata_info_tbl m) i (set_psh d (psh_head d) n); Some (false, set_datas m (tcpdata_info_cnt m) tbl).

Definition dhd_tcpdata_info_get (d : tcpack_pub) (pkt t : Z) : option (bool * tcpack_pub) :=
  if negb (tcpack_sup_mode d =? TCPACK_SUP_DELAYTX) then Some (false, d) else
  p ← pkts d !! pkt;
  let mem := sk_mem p in
  ether_type ← ntoh16_ua mem 12;
  if negb (ether_type =? ETHER_TYPE_IP) then Some (false, d) else
  ip_hdr_len ← IPV4_HLEN mem ETHER_HDR_LEN;
  ver ← IP_VER mem ETHER_HDR_LEN;
  prot ← IPV4_PROT mem ETHER_HDR_LEN;
  if negb (ver =? IP_VER_4) || negb (prot =? IP_PROT_TCP) then Some (false, d) else
  let tcp := ETHER_HDR_LEN + ip_hdr_len in
  ip_total_len ← ntoh16_ua mem (ETHER_HDR_LEN + IPV4_PKTLEN_OFFSET);
  hl ← aget mem (tcp + TCP_HLEN_OFFSET);
  let tcp_hdr_len := 4 * TCP_HDRLEN hl in
  if ip_total_len =? ip_hdr_len + tcp_hdr_len then Some (false, d) else
  fl ← aget mem (tcp + TCP_FLAGS_OFFSET);
  if Z.land fl TCP_FLAG_PSH =? 0 then Some (false, d) else
  match tcpack_sup_module d with
  | None => Some (true, d)
  | Some m =>
      '(m, i, found, t) ← data_find (S (Z.to_nat (tcpdata_info_cnt m))) m mem tcp 0 t;
      tcp_seq_num ← ntoh32_ua mem (tcp + TCP_SEQ_NUM_OFFSET);
      let tcp_data_len := u16 (ip_total_len - ip_hdr_len - tcp_hdr_len) in
      let end_tcp_seq_num := u32 (tcp_seq_num + tcp_data_len) in
      if negb found && (TCPDATA_INFO_MAXNUM <=? i) then Some (false, set_mod d (Some m)) else
      m ← (if found : bool then Some m else
             d ← aget (tcpdata_info_tbl m) i;
             ips ← ld_bytes mem (ETHER_HDR_LEN + IPV4_SRC_IP_OFFSET) (Z.to_nat (IPV4_ADDR_LEN * 2));
             ports ← ld_bytes mem (tcp + TCP_SRC_PORT_OFFSET) (Z.to_nat (TCP_PORT_LEN * 2));
             tbl ← aset (tcpdata_info_tbl m) i {| di_ip_addr := ips; di_tcp_port := ports; psh_head := psh_head d;
                                                 psh_tail := psh_tail d; last_used_time := OSL_SYSUPTIME t |};
             Some (set_datas m (tcpdata_info_cnt m + 1) tbl));
      '(ret, m) ← psh_append m i end_tcp_seq_num;
      Some (ret, set_mod d (Some m))
  end.
End ops.
