(* ===== verification/TcpAckInv.v ===== *)
(** * The acknowledgements that wait

    What the code of [TcpAck] reads of an ACK, that it survives the copy of a
    newer ACK over an older one, and what the searches of the table find. *)
From Stdlib Require Import ZArith Lia.
From stdpp Require Import base option numbers gmap list relations.
From S2P Require Import Prelude Bytes ProtState TcpAck.

Section view.
Context `{TcpHdr}.

(** ** What is read of an ACK

    Its header lengths and number [a], and its stream: addresses and ports. *)
Record ack_view (m : list Z) (a : ack_hdrs) (key : list Z * list Z) : Prop := {
  av_iphl : IPV4_HLEN m ETHER_HDR_LEN = Some (a_ip_hdr_len a);
  av_tcphl : exists hl, aget m (ack_tcp a + TCP_HLEN_OFFSET) = Some hl /\ 4 * TCP_HDRLEN hl = a_tcp_hdr_len a;
  av_num : ntoh32_ua m (ack_tcp a + TCP_ACK_NUM_OFFSET) = Some (a_num a);
  av_ips : ld_bytes m (ETHER_HDR_LEN + IPV4_SRC_IP_OFFSET) (Z.to_nat (IPV4_ADDR_LEN * 2)) = Some (fst key);
  av_ports : ld_bytes m (ack_tcp a + TCP_SRC_PORT_OFFSET) (Z.to_nat (TCP_PORT_LEN * 2)) = Some (snd key);
  av_fit : IPV4_MIN_HEADER_LEN <= a_ip_hdr_len a /\ TCP_MIN_HEADER_LEN <= a_tcp_hdr_len a /\
    a_total_len a = a_ip_hdr_len a + a_tcp_hdr_len a /\ ETHER_HDR_LEN + a_total_len a <= Z.of_nat (length m)
}.

(** The ASSERTs of the code and of a well-formed header. *)
Definition sane_ack (p : spkt) : bool :=
  (sk_len p <=? Z.of_nat (length (sk_mem p))) &&
  match ack_parse p with
  | None => false
  | Some None => true
  | Some (Some a) => (IPV4_MIN_HEADER_LEN <=? a_ip_hdr_len a) && (TCP_MIN_HEADER_LEN <=? a_tcp_hdr_len a) &&
      (a_total_len a =? a_ip_hdr_len a + a_tcp_hdr_len a) && (ETHER_HDR_LEN + a_total_len a <=? sk_len p)
  end.

Lemma fields : 0 <= TCP_SRC_PORT_OFFSET /\ TCP_SRC_PORT_OFFSET + TCP_PORT_LEN * 2 <= TCP_MIN_HEADER_LEN /\
  0 <= TCP_ACK_NUM_OFFSET /\ TCP_ACK_NUM_OFFSET + 4 <= TCP_MIN_HEADER_LEN /\
  0 <= TCP_HLEN_OFFSET < TCP_MIN_HEADER_LEN /\ 0 <= TCP_FLAGS_OFFSET < TCP_MIN_HEADER_LEN /\ 0 <= TCP_PORT_LEN.
Proof. apply tcp_fields. Qed.

Lemma ack_parse_size p a : ack_parse p = Some (Some a) -> TCPACKSZMIN <= sk_len p <= TCPACKSZMAX.
Proof. unfold ack_parse. destruct (_ || _) eqn:E; [done|]. apply orb_false_iff in E as [? ?]. lia. Qed.

Lemma sane_view p a :
  sane_ack p = true -> ack_parse p = Some (Some a) -> exists key, ack_view (sk_mem p) a key.
Proof.
  unfold sane_ack. intros Hs E. rewrite E in Hs. rewrite !andb_true_iff in Hs.
  destruct Hs as (Hlen%Z.leb_le & ((H1%Z.leb_le & H2%Z.leb_le) & H3%Z.eqb_eq) & H4%Z.leb_le).
  pose proof fields as Hf. unfold IPV4_MIN_HEADER_LEN, ETHER_HDR_LEN in *.
  destruct (ld_bytes_Some (sk_mem p) (ETHER_HDR_LEN + IPV4_SRC_IP_OFFSET) (Z.to_nat (IPV4_ADDR_LEN * 2))) as (ips & Eips & _);
    [done|unfold ETHER_HDR_LEN, IPV4_SRC_IP_OFFSET, IPV4_ADDR_LEN; lia|].
  destruct (ld_bytes_Some (sk_mem p) (ack_tcp a + TCP_SRC_PORT_OFFSET) (Z.to_nat (TCP_PORT_LEN * 2))) as (ports & Eports & _);
    [unfold ack_tcp, ETHER_HDR_LEN; lia|unfold ack_tcp, ETHER_HDR_LEN; lia|].
  exists (ips, ports). unfold ack_parse in E. destruct (_ || _); [done|].
  destruct (ntoh16_ua _ 12) as [ty|]; [|done]. cbn [mbind option_bind] in E. destruct (negb _); [done|].
  destruct (IPV4_HLEN _ _) as [h|] eqn:Eh; [|done]. cbn [mbind option_bind] in E.
  destruct (IP_VER _ _); [|done]. destruct (IPV4_PROT _ _); [|done]. cbn [mbind option_bind] in E. destruct (_ || _); [done|].
  destruct (aget _ (_ + TCP_FLAGS_OFFSET)); [|done]. cbn [mbind option_bind] in E. destruct (negb _); [done|].
  destruct (ntoh16_ua _ _) as [tot|]; [|done]. cbn [mbind option_bind] in E.
  destruct (aget _ (_ + TCP_HLEN_OFFSET)) as [hl|] eqn:Ehl; [|done]. cbn [mbind option_bind] in E. destruct (_ <? _); [done|].
  destruct (ntoh32_ua _ _) as [num|] eqn:En; [|done]. cbn [mbind option_bind] in E. injection E as <-.
  constructor; cbn in *; try done; [by exists hl|unfold ETHER_HDR_LEN, IPV4_MIN_HEADER_LEN; lia].
Qed.

(** ** Two memories that agree on the IP packet *)
Lemma ntoh32_ext m m' o : (forall j, o <= j < o + 4 -> aget m' j = aget m j) -> ntoh32_ua m' o = ntoh32_ua m o.
Proof. intros E. unfold ntoh32_ua. by rewrite !E by lia. Qed.

Lemma ack_view_ext m m' a key :
  ack_view m a key -> ETHER_HDR_LEN + a_total_len a <= Z.of_nat (length m') ->
  (forall j, ETHER_HDR_LEN <= j < ETHER_HDR_LEN + a_total_len a -> aget m' j = aget m j) -> ack_view m' a key.
Proof.
  intros [H1 H2 H3 H4 H5 H6] Hl E. pose proof fields as Hf.
  unfold ack_tcp, IPV4_MIN_HEADER_LEN, ETHER_HDR_LEN, IPV4_SRC_IP_OFFSET, IPV4_ADDR_LEN in *.
  constructor; unfold ack_tcp, ETHER_HDR_LEN, IPV4_SRC_IP_OFFSET, IPV4_ADDR_LEN in *; try done.
  - unfold IPV4_HLEN in *. by rewrite E by lia.
  - destruct H2 as (hl & Ehl & ?). exists hl. by rewrite E by lia.
  - by rewrite (ntoh32_ext m) by (intros; apply E; lia).
  - rewrite <- H4. apply ld_bytes_ext. intros j Hj. apply E. lia.
  - rewrite <- H5. apply ld_bytes_ext. intros j Hj. apply E. lia.
  - unfold IPV4_MIN_HEADER_LEN. lia.
Qed.

(** The copy of a newer ACK over an older one of the same size. *)
Lemma view_copy new old a b ka kb :
  ack_view new a ka -> ack_view old b kb -> a_ip_hdr_len a = a_ip_hdr_len b -> a_tcp_hdr_len a = a_tcp_hdr_len b ->
  exists bs, ld_bytes new ETHER_HDR_LEN (Z.to_nat (a_total_len a)) = Some bs /\
    Z.of_nat (length bs) = a_total_len a /\
    st_bytes old ETHER_HDR_LEN bs = Some (splice old ETHER_HDR_LEN bs) /\ length (splice old ETHER_HDR_LEN bs) = length old /\
    ack_view (splice old ETHER_HDR_LEN bs) a ka.
Proof.
  intros Ha Hb E1 E2. pose proof (av_fit _ _ _ Ha) as Fa. pose proof (av_fit _ _ _ Hb) as Fb. pose proof fields as Hf.
  unfold IPV4_MIN_HEADER_LEN, ETHER_HDR_LEN in *.
  destruct (ld_bytes_Some new 14 (Z.to_nat (a_total_len a))) as (bs & Ebs & Hl & Hg); [lia|lia|].
  assert (length (splice old 14 bs) = length old) as Hsl by (apply length_splice; lia).
  exists bs. split; [done|]. split; [lia|]. split; [apply st_bytes_splice; lia|]. split; [done|].
  apply (ack_view_ext new); [done|unfold ETHER_HDR_LEN; lia|]. intros j Hj. unfold ETHER_HDR_LEN in Hj.
  rewrite aget_splice, decide_True, Hg by lia. f_equal. lia.
Qed.

Lemma view_fun m a a' key key' : ack_view m a key -> ack_view m a' key' -> a = a' /\ key = key'.
Proof.
  intros [H1 (h & H2 & H2') H3 H4 H5 H6] [G1 (h' & G2 & G2') G3 G4 G5 G6].
  assert (a_ip_hdr_len a = a_ip_hdr_len a') as Ei by congruence. unfold ack_tcp in *. rewrite Ei in *.
  assert (h = h') as <- by congruence. destruct a, a', key, key'; cbn in *. split; f_equal; try congruence; lia.
Qed.

Lemma view_old d e p b kb :
  pkts d !! pkt_ether_hdr e = Some p -> ack_view (sk_mem p) b kb ->
  old_hdrs d e = Some (sk_mem p, a_ip_hdr_len b, a_tcp_hdr_len b).
Proof.
  intros E [H1 (h & H2 & H2') _ _ _ _]. unfold old_hdrs. rewrite E. cbn [mbind option_bind]. rewrite H1.
  cbn [mbind option_bind]. unfold ack_tcp in H2. rewrite H2. cbn [mbind option_bind]. by rewrite H2'.
Qed.

Lemma view_stream x y a b ka kb :
  ack_view x a ka -> ack_view y b kb ->
  same_stream x (ack_tcp a) y (ETHER_HDR_LEN + a_ip_hdr_len b) = Some (bool_decide (ka = kb)).
Proof.
  intros [_ _ _ H4 H5 _] [_ _ _ G4 G5 _]. unfold same_stream, and_then, memeq. unfold ack_tcp in G5.
  rewrite H4, G4, H5, G5. cbn [mbind option_bind]. destruct ka as [k1 k2], kb as [g1 g2]; cbn [fst snd].
  destruct (bool_decide_reflect (k1 = g1)) as [->|].
  - f_equal. apply bool_decide_ext. split; congruence.
  - f_equal. symmetry. apply bool_decide_eq_false. congruence.
Qed.

(** ** Waiting packets *)
Record waits (d : tcpack_pub) (e : tcpack_info) (p : spkt) (a : ack_hdrs) (key : list Z * list Z) : Prop := {
  wa_pkt : pkt_in_q e <> 0;
  wa_ether : pkt_ether_hdr e = pkt_in_q e;
  wa_live : pkts d !! pkt_in_q e = Some p;
  wa_view : ack_view (sk_mem p) a key
}.

Lemma waits_fun d e p p' a a' key key' : waits d e p a key -> waits d e p' a' key' -> p = p' /\ a = a' /\ key = key'.
Proof.
  intros [_ _ H1 H2] [_ _ G1 G2]. assert (p = p') as <- by congruence. split; [done|]. by apply (view_fun (sk_mem p)).
Qed.

Lemma waits_old d e p b kb : waits d e p b kb -> old_hdrs d e = Some (sk_mem p, a_ip_hdr_len b, a_tcp_hdr_len b).
Proof. intros [_ E Hl Hv]. apply (view_old _ _ _ _ kb); [by rewrite E|done]. Qed.

Lemma suppress_find_ok d m new a ka n i :
  ack_view new a ka ->
  (forall j, i <= j < i + Z.of_nat n -> exists e p b kb, aget (tcpack_info_tbl m) j = Some e /\ waits d e p b kb) ->
  exists j found, suppress_find n d m new a i = Some (j, found) /\
    (if found : bool then i <= j < i + Z.of_nat n /\ exists e p b, aget (tcpack_info_tbl m) j = Some e /\ waits d e p b ka
     else j = i + Z.of_nat n /\ forall j' e p b kb, i <= j' < i + Z.of_nat n ->
            aget (tcpack_info_tbl m) j' = Some e -> waits d e p b kb -> kb <> ka).
Proof.
  intros Ha. revert i. induction n as [|n IH]; intros i Hw; cbn [suppress_find].
  - exists i, false. split_and!; [done|lia|]. intros; lia.
  - destruct (Hw i) as (e & p & b & kb & Ee & Hwe); [lia|]. rewrite Ee. cbn [mbind option_bind].
    rewrite (proj2 (Z.eqb_neq _ _)) by (apply Hwe). rewrite (wa_live _ _ _ _ _ Hwe). cbn [mbind option_bind].
    rewrite (waits_old _ _ _ _ _ Hwe). cbn [mbind option_bind]. rewrite (view_stream _ _ _ _ ka kb Ha (wa_view _ _ _ _ _ Hwe)).
    cbn [mbind option_bind]. case_bool_decide as Hk.
    + exists i, true. split; [done|]. split; [lia|]. exists e, p, b. by subst kb.
    + destruct (IH (i + 1)) as (j & found & Er & Hr); [intros j Hj; apply Hw; lia|]. exists j, found. split; [done|].
      destruct found; [destruct Hr as [? ?]; split; [lia|done]|]. destruct Hr as [Hj Hr]. split; [lia|].
      intros j' e' p' b' kb' Hj' Ee' Hwe'. destruct (decide (j' = i)) as [->|].
      * rewrite Ee in Ee'. injection Ee' as <-. destruct (waits_fun _ _ _ _ _ _ _ _ Hwe Hwe') as (_ & _ & <-). congruence.
      * apply (Hr j' e' p' b'); [lia|done..].
Qed.

Lemma hold_find_ok d m new a ka n i fs :
  ack_view new a ka -> i + Z.of_nat n <= TCPACK_INFO_MAXNUM ->
  (forall j, i <= j < i + Z.of_nat n -> exists e, aget (tcpack_info_tbl m) j = Some e /\
     (pkt_in_q e = 0 \/ exists p b kb, waits d e p b kb)) ->
  exists r fs', hold_find n d m new a i fs = Some (r, fs') /\
    match r with
    | Some j => i <= j < i + Z.of_nat n /\ exists e p b, aget (tcpack_info_tbl m) j = Some e /\ waits d e p b ka
    | None => (forall j e p b kb, i <= j < i + Z.of_nat n -> aget (tcpack_info_tbl m) j = Some e -> waits d e p b kb -> kb <> ka) /\
        (fs' = fs \/ i <= fs' < i + Z.of_nat n /\ exists e, aget (tcpack_info_tbl m) fs' = Some e /\ pkt_in_q e = 0) /\
        (fs' = TCPACK_INFO_MAXNUM -> fs = TCPACK_INFO_MAXNUM /\
           forall j e, i <= j < i + Z.of_nat n -> aget (tcpack_info_tbl m) j = Some e -> pkt_in_q e <> 0)
    end.
Proof.
  intros Ha. revert i fs. induction n as [|n IH]; intros i fs Hn Hw; cbn [hold_find].
  - exists None, fs. split; [done|]. split_and!; [intros; lia|by left|intros ->; split; [done|intros; lia]].
  - destruct (Hw i) as (e & Ee & He); [lia|]. rewrite Ee. cbn [mbind option_bind].
    assert (forall j, i + 1 <= j < i + 1 + Z.of_nat n -> exists e, aget (tcpack_info_tbl m) j = Some e /\
      (pkt_in_q e = 0 \/ exists p b kb, waits d e p b kb)) as Hw' by (intros j Hj; apply Hw; lia).
    unfold TCPACK_INFO_MAXNUM in *.
    destruct (Z.eqb_spec (pkt_in_q e) 0) as [E0|E0].
    + destruct (IH (i + 1) (if fs =? 4 then i else fs)) as (r & fs' & Er & Hr); [lia|done|]. exists r, fs'. split; [done|].
      destruct r as [j|]; [destruct Hr as [? ?]; split; [lia|done]|]. destruct Hr as (H1 & H2 & H3). split; [|split].
      * intros j e' p b kb Hj Ee' Hwe. destruct (decide (j = i)) as [->|]; [|apply (H1 j e' p b); [lia|done..]].
        rewrite Ee in Ee'. injection Ee' as <-. destruct (wa_pkt _ _ _ _ _ Hwe E0).
      * destruct H2 as [->|[? ?]]; [|right; split; [lia|done]]. destruct (fs =? 4) eqn:Ef; [|by left].
        right. split; [lia|by exists e].
      * intros Hf. destruct (H3 Hf) as [Hf' _]. destruct (fs =? 4) eqn:Ef; lia.
    + destruct He as [?|(p & b & kb & Hwe)]; [done|]. rewrite (wa_live _ _ _ _ _ Hwe). cbn [mbind option_bind].
      rewrite (waits_old _ _ _ _ _ Hwe). cbn [mbind option_bind].
      rewrite (view_stream _ _ _ _ ka kb Ha (wa_view _ _ _ _ _ Hwe)). cbn [mbind option_bind]. case_bool_decide as Hk.
      * exists (Some i), fs. split; [done|]. split; [lia|]. exists e, p, b. by subst kb.
      * destruct (IH (i + 1) fs) as (r & fs' & Er & Hr); [lia|done|]. exists r, fs'. split; [done|].
        destruct r as [j|]; [destruct Hr as [? ?]; split; [lia|done]|]. destruct Hr as (H1 & H2 & H3). split; [|split].
        -- intros j e' p' b' kb' Hj Ee' Hwe'. destruct (decide (j = i)) as [->|]; [|apply (H1 j e' p' b'); [lia|done..]].
           rewrite Ee in Ee'. injection Ee' as <-. destruct (waits_fun _ _ _ _ _ _ _ _ Hwe Hwe') as (_ & _ & <-). congruence.
        -- destruct H2 as [->|[? ?]]; [by left|right; split; [lia|done]].
        -- intros Hf. destruct (H3 Hf) as [Hf' Hall]. split; [done|]. intros j e' Hj Ee'.
           destruct (decide (j = i)) as [->|]; [congruence|apply (Hall j e'); [lia|done]].
Qed.
End view.

(** ** Fragments *)
Lemma ntoh16_Some m o : 0 <= o -> o + 2 <= Z.of_nat (length m) -> exists v, ntoh16_ua m o = Some v.
Proof.
  intros H1 H2. unfold ntoh16_ua. destruct (aget_is_Some m o) as [x ->]; [lia|]. cbn [mbind option_bind].
  destruct (aget_is_Some m (o + 1)) as [y ->]; [lia|]. cbn [mbind option_bind]. by eexists.
Qed.

(** The fragment an IPv4 header with flag and offset word [fr] is. *)
Definition frag_spec (fr : Z) (r : pkt_frag) : Prop :=
  Z.land fr IPV4_FRAG_DONT = 0 /\
  match r with
  | DHD_PKT_FRAG_NONE => False
  | DHD_PKT_FRAG_FIRST => Z.land fr IPV4_FRAG_MORE <> 0 /\ Z.land fr IPV4_FRAG_OFFSET_MASK = 0
  | DHD_PKT_FRAG_CONT => Z.land fr IPV4_FRAG_MORE <> 0 /\ Z.land fr IPV4_FRAG_OFFSET_MASK <> 0
  | DHD_PKT_FRAG_LAST => Z.land fr IPV4_FRAG_MORE = 0
  end.

Lemma frag_of_ok frame pt :
  0 <= pt -> pt + ETHER_TYPE_LEN <= Z.of_nat (length frame) < 2 ^ 31 ->
  exists r, frag_of frame pt = Some r /\
    (r = DHD_PKT_FRAG_NONE \/ pt + ETHER_TYPE_LEN + IPV4_MIN_HEADER_LEN <= Z.of_nat (length frame) /\
       IP_VER frame (pt + ETHER_TYPE_LEN) = Some IP_VER_4 /\
       exists fr, ntoh16_ua frame (pt + ETHER_TYPE_LEN + 6) = Some fr /\ frag_spec fr r).
Proof.
  intros Hpt Hl. unfold frag_of, frag_spec, ETHER_TYPE_LEN, IPV4_OPTIONS_OFFSET, IPV4_MIN_HEADER_LEN in *.
  rewrite (wrapu_small 32), (wraps_small 32) by lia.
  destruct (Z.ltb_spec (Z.of_nat (length frame) - (pt + 2)) 20); [eexists; split; [done|by left]|].
  unfold IP_VER. destruct (aget_is_Some frame (pt + 2)) as [b Eb]; [lia|]. rewrite Eb. cbn [mbind option_bind].
  destruct (Z.eqb_spec (Z.shiftr (Z.land b 240) 4) IP_VER_4) as [Ev|]; cbn [negb]; [|eexists; split; [done|by left]].
  destruct (ntoh16_Some frame (pt + 2 + 6)) as [fr Ef]; [lia|lia|]. rewrite Ef. cbn [mbind option_bind].
  destruct (Z.eqb_spec (Z.land fr IPV4_FRAG_DONT) 0) as [E1|]; cbn [negb]; [|eexists; split; [done|by left]].
  destruct (Z.eqb_spec (Z.land fr IPV4_FRAG_MORE) 0) as [E2|E2].
  { eexists. split; [done|]. right. split; [lia|]. split; [by rewrite Ev|]. by exists fr. }
  destruct (Z.eqb_spec (Z.land fr IPV4_FRAG_OFFSET_MASK) 0) as [E3|E3]; cbn [negb];
    (eexists; split; [done|]; right; split; [lia|]; split; [by rewrite Ev|]; by exists fr).
Qed.

Lemma frag_type_ok frame :
  exists o, frag_type frame = Some o /\
    forall pt, o = Some pt -> (pt = 12 \/ pt = 20) /\ pt + ETHER_TYPE_LEN <= Z.of_nat (length frame).
Proof.
  unfold frag_type, ETHER_HDR_LEN, ETHER_TYPE_OFFSET, SNAP_HDR_LEN, ETHER_TYPE_LEN.
  destruct (Z.ltb_spec (Z.of_nat (length frame)) 14); [by exists None|].
  destruct (ntoh16_Some frame 12) as [t Et]; [lia|lia|]. rewrite Et. cbn [mbind option_bind].
  destruct (_ <=? t); [exists (Some 12); split; [done|]; intros pt [= <-]; split; [by left|lia]|].
  destruct (Z.leb_spec (14 + 6 + 2) (Z.of_nat (length frame))); [|by exists None].
  unfold memeq. change (ld_bytes llc_snap_hdr 0 (Z.to_nat 6)) with (Some llc_snap_hdr). cbn [mbind option_bind].
  destruct (ld_bytes_Some frame 14 (Z.to_nat 6)) as (bs & Ebs & _); [lia|lia|]. rewrite Ebs. cbn [mbind option_bind].
  case_bool_decide; [|by exists None]. exists (Some (14 + 6)). split; [done|]. intros pt [= <-]. split; [by right|lia].
Qed.

(** Classifying a frame reads nothing behind its end.  Frames of every
    length and content get an answer; any but DHD_PKT_FRAG_NONE is given for an
    IPv4 packet with room for its header behind an Ethernet II or SNAP header
    (a VLAN tag or none) only, whose DF flag is clear, and it is the one that the
    MF flag and the offset say, with an unfragmented packet counted as the last
    fragment. *)
Theorem pkt_frag_safe frame :
  Z.of_nat (length frame) < 2 ^ 31 ->
  exists r, pkt_frag_info frame = Some r /\
    (r = DHD_PKT_FRAG_NONE \/ exists pt fr, pt ∈ [12; 16; 20; 24] /\
       pt + ETHER_TYPE_LEN + IPV4_MIN_HEADER_LEN <= Z.of_nat (length frame) /\ ntoh16_ua frame pt = Some ETHER_TYPE_IP /\
       IP_VER frame (pt + ETHER_TYPE_LEN) = Some IP_VER_4 /\ ntoh16_ua frame (pt + ETHER_TYPE_LEN + 6) = Some fr /\ frag_spec fr r).
Proof.
  intros Hl. destruct (frag_type_ok frame) as (o & Eo & Ho). unfold pkt_frag_info. rewrite Eo. cbn [mbind option_bind].
  destruct o as [pt|]; [|eexists; split; [done|by left]]. destruct (Ho pt eq_refl) as [Hpt Hr].
  unfold ETHER_TYPE_LEN, VLAN_TAG_LEN in *.
  assert (forall q, 0 <= q -> q ∈ [12; 16; 20; 24] -> ntoh16_ua frame q = Some ETHER_TYPE_IP -> q + 2 <= Z.of_nat (length frame) -> exists r, frag_of frame q = Some r /\
    (r = DHD_PKT_FRAG_NONE \/ exists pt fr, pt ∈ [12; 16; 20; 24] /\ pt + 2 + IPV4_MIN_HEADER_LEN <= Z.of_nat (length frame) /\
       ntoh16_ua frame pt = Some ETHER_TYPE_IP /\ IP_VER frame (pt + 2) = Some IP_VER_4 /\
       ntoh16_ua frame (pt + 2 + 6) = Some fr /\ frag_spec fr r)) as Hf.
  { intros q Hq Hin Et Hlq. destruct (frag_of_ok frame q) as (r & Er & H); [done|unfold ETHER_TYPE_LEN; lia|]. exists r. split; [done|].
    destruct H as [?|(? & ? & fr & ? & ?)]; [by left|right]. by exists q, fr. }
  destruct (ntoh16_Some frame pt) as [t Et]; [lia|lia|]. rewrite Et. cbn [mbind option_bind].
  destruct (t =? ETHER_TYPE_8021Q).
  - destruct (Z.ltb_spec (Z.of_nat (length frame)) (pt + 4 + 2)); [eexists; split; [done|by left]|].
    destruct (ntoh16_Some frame (pt + 4)) as [t' Et']; [lia|lia|]. rewrite Et'. cbn [mbind option_bind].
    destruct (Z.eqb_spec t' ETHER_TYPE_IP) as [->|]; cbn [negb]; [|eexists; split; [done|by left]].
    apply Hf; [lia|destruct Hpt as [-> | ->]; set_solver|done|lia].
  - destruct (Z.eqb_spec t ETHER_TYPE_IP) as [->|]; cbn [negb]; [|eexists; split; [done|by left]].
    apply Hf; [lia|destruct Hpt as [-> | ->]; set_solver|done|lia].
Qed.
