(* ===== verification/TcpAckReplace.v ===== *)
(** * Replacing waiting acknowledgements (TCPACK_SUP_REPLACE)

    The transmit queue as the environment of [TcpAck]: packets are submitted
    through dhd_tcpack_suppress, queued unless they were freed there, and leave
    the queue through dhd_tcpack_check_xmit. *)
From Stdlib Require Import ZArith Lia.
From stdpp Require Import base option numbers gmap list relations.
From S2P Require Import Prelude Bytes ProtState TcpAck TcpAckInv.

(** ** The system

    [rs_q]: the queued packets as they were submitted; their present contents
    are in [pkts].  [rs_out]: packets sent, as submitted and as sent.
    [rs_freed]: packets freed by dhd_tcpack_suppress. *)
Record rep_sys := {
  rs_d : tcpack_pub;
  rs_q : gmap Z spkt;
  rs_out : list (spkt * spkt);
  rs_freed : list (Z * spkt)
}.
Inductive rep_op := Submit (pkt : Z) (p : spkt) | Xmit (pkt : Z).

Section replace.
Context `{TcpHdr}.

Definition rep_step (op : rep_op) (s : rep_sys) : option rep_sys :=
  let d := rs_d s in
  match op with
  | Submit pkt p =>
      '(ret, d) ← dhd_tcpack_suppress (set_pkts d (<[pkt := p]> (pkts d)) []) pkt;
      Some (if ret : bool then {| rs_d := d; rs_q := rs_q s; rs_out := rs_out s; rs_freed := rs_freed s ++ [(pkt, p)] |}
            else {| rs_d := d; rs_q := <[pkt := p]> (rs_q s); rs_out := rs_out s; rs_freed := rs_freed s |})
  | Xmit pkt =>
      '(_, d) ← dhd_tcpack_check_xmit d pkt;
      p ← pkts d !! pkt;
      o ← rs_q s !! pkt;
      Some {| rs_d := set_pkts d (delete pkt (pkts d)) []; rs_q := delete pkt (rs_q s);
              rs_out := rs_out s ++ [(o, p)]; rs_freed := rs_freed s |}
  end.

(** A new packet is not queued and its headers are sane; a queued one is sent. *)
Definition rep_legal (s : rep_sys) (op : rep_op) : bool :=
  match op with
  | Submit pkt p => negb (pkt =? 0) && bool_decide (pkts (rs_d s) !! pkt = None) && sane_ack p
  | Xmit pkt => bool_decide (is_Some (rs_q s !! pkt))
  end.
Fixpoint rep_run (ops : list rep_op) (s : rep_sys) : option rep_sys :=
  match ops with [] => Some s | op :: ops => s ← rep_step op s; rep_run ops s end.
Fixpoint rep_legal_run (ops : list rep_op) (s : rep_sys) : bool :=
  match ops with
  | [] => true
  | op :: ops => rep_legal s op && match rep_step op s with Some s => rep_legal_run ops s | None => true end
  end.

(** Switched on from off, with no packet around. *)
Definition rep_start (d : tcpack_pub) : rep_sys := {| rs_d := d; rs_q := ∅; rs_out := []; rs_freed := [] |}.
Definition rep_init (d : tcpack_pub) : Prop :=
  exists d0, tcpack_sup_mode d0 = TCPACK_SUP_OFF /\ tcpack_sup_module d0 = None /\ pkts d0 = ∅ /\ ip_log d0 = [] /\
    dhd_tcpack_suppress_set d0 TCPACK_SUP_REPLACE true = Some (BCME_OK, d).

(** ** The invariant *)
Definition newer : relation Z := fun x y => IS_TCPSEQ_GT y x = true.
Definition ack_size (p : spkt) : Prop := TCPACKSZMIN <= sk_len p <= TCPACKSZMAX.

(** The table: its first entries wait, for different streams. *)
Record tbl_ok (d : tcpack_pub) (m : tcpack_mod) : Prop := {
  tb_len : length (tcpack_info_tbl m) = 4%nat /\ 0 <= tcpack_info_cnt m <= 4;
  tb_wait : forall i, 0 <= i < tcpack_info_cnt m ->
    exists e p a key, aget (tcpack_info_tbl m) i = Some e /\ waits d e p a key /\ ack_size p;
  tb_rest : forall i e, tcpack_info_cnt m <= i -> aget (tcpack_info_tbl m) i = Some e -> pkt_in_q e = 0;
  tb_keys : forall i j e e' p p' a a' key, 0 <= i < tcpack_info_cnt m -> 0 <= j < tcpack_info_cnt m ->
    aget (tcpack_info_tbl m) i = Some e -> aget (tcpack_info_tbl m) j = Some e' ->
    waits d e p a key -> waits d e' p' a' key -> i = j
}.

(** A packet as it was queued, or with the IP packet of a freed ACK of its
    stream in place of its own. *)
Definition stands (freed : list (Z * spkt)) (o p : spkt) : Prop :=
  p = o \/ exists k f bs a b key kb, (k, f) ∈ freed /\ ack_view (sk_mem f) a key /\
    ld_bytes (sk_mem f) ETHER_HDR_LEN (Z.to_nat (a_total_len a)) = Some bs /\
    ack_view (sk_mem o) b kb /\ a_ip_hdr_len a = a_ip_hdr_len b /\ a_tcp_hdr_len a = a_tcp_hdr_len b /\ kb = key /\
    p = {| sk_mem := splice (sk_mem o) ETHER_HDR_LEN bs; sk_len := sk_len o |}.

Record rep_ok (s : rep_sys) : Prop := {
  ro_mod : tcpack_sup_mode (rs_d s) = TCPACK_SUP_REPLACE /\
    exists m, tcpack_sup_module (rs_d s) = Some m /\ tbl_ok (rs_d s) m;
  ro_dom : forall k, is_Some (pkts (rs_d s) !! k) <-> is_Some (rs_q s !! k);
  ro_stand : forall k o p, rs_q s !! k = Some o -> pkts (rs_d s) !! k = Some p -> stands (rs_freed s) o p;
  ro_out : forall o p, (o, p) ∈ rs_out s -> stands (rs_freed s) o p;
  ro_freed : forall k f, (k, f) ∈ rs_freed s -> exists p a a' key,
    ((exists k', pkts (rs_d s) !! k' = Some p) \/ exists o, (o, p) ∈ rs_out s) /\
    ack_view (sk_mem f) a key /\ ack_view (sk_mem p) a' key /\ rtc newer (a_num a) (a_num a');
  ro_log : ip_log (rs_d s) = map (fun kf => AckFree (fst kf) false) (rs_freed s)
}.

Lemma waits_pkts d d' e p a key :
  pkts d' !! pkt_in_q e = pkts d !! pkt_in_q e -> waits d e p a key -> waits d' e p a key.
Proof. intros E [H1 H2 H3 H4]. constructor; try done. by rewrite E. Qed.

Lemma splice_splice (l x y : list Z) q :
  0 <= q -> q + Z.of_nat (length x) <= Z.of_nat (length l) -> length x = length y ->
  splice (splice l q x) q y = splice l q y.
Proof.
  intros Hq Hx Hl. apply aget_ext.
  - rewrite !length_splice; try lia. rewrite length_splice; lia.
  - intros i _. rewrite !aget_splice; try (rewrite ?length_splice; lia). rewrite Hl. by destruct (decide _).
Qed.

(** A change of the packets that keeps what waits, up to newer contents. *)
Lemma tbl_ok_move d d' m :
  tbl_ok d m ->
  (forall i e q c k, 0 <= i < tcpack_info_cnt m -> aget (tcpack_info_tbl m) i = Some e -> waits d e q c k -> ack_size q ->
     exists q' c', waits d' e q' c' k /\ ack_size q') -> tbl_ok d' m.
Proof.
  intros [H1 H2 H3 H4] Hf. constructor; try done.
  - intros i Hi. destruct (H2 i Hi) as (e & q & c & k & Ee & Hw & Hs). destruct (Hf i e q c k Hi Ee Hw Hs) as (q' & c' & ? & ?).
    by exists e, q', c', k.
  - intros i j e e' p p' a a' key Hi Hj Ee Ee' W W'.
    destruct (H2 i Hi) as (x & q & c & k & Ex & Hw & Hs). rewrite Ee in Ex. injection Ex as <-.
    destruct (H2 j Hj) as (x & q' & c' & k' & Ex & Hw' & Hs'). rewrite Ee' in Ex. injection Ex as <-.
    destruct (Hf i e q c k Hi Ee Hw Hs) as (r & b & V & _). destruct (waits_fun _ _ _ _ _ _ _ _ W V) as (_ & _ & <-).
    destruct (Hf j e' q' c' k' Hj Ee' Hw' Hs') as (r' & b' & V' & _). destruct (waits_fun _ _ _ _ _ _ _ _ W' V') as (_ & _ & <-).
    by apply (H4 i j e e' q q' c c' key).
Qed.

(** Waiting packets of the table with the same address are in the same entry. *)
Lemma tbl_ok_same d m i j e e' p p' a a' k k' :
  tbl_ok d m -> 0 <= i < tcpack_info_cnt m -> 0 <= j < tcpack_info_cnt m ->
  aget (tcpack_info_tbl m) i = Some e -> aget (tcpack_info_tbl m) j = Some e' ->
  waits d e p a k -> waits d e' p' a' k' -> pkt_in_q e = pkt_in_q e' -> i = j.
Proof.
  intros Ht Hi Hj Ee Ee' W W' E. pose proof (wa_live _ _ _ _ _ W') as L. rewrite <- E, (wa_live _ _ _ _ _ W) in L. injection L as <-.
  destruct (view_fun _ _ _ _ _ (wa_view _ _ _ _ _ W) (wa_view _ _ _ _ _ W')) as [_ <-].
  by apply (tb_keys _ _ Ht i j e e' p p a a' k).
Qed.

(** A packet of a new stream is entered. *)
Lemma tbl_ok_add d m e p a key :
  tbl_ok d m -> tcpack_info_cnt m < 4 -> waits d e p a key -> ack_size p ->
  (forall j e' q c k, 0 <= j < tcpack_info_cnt m -> aget (tcpack_info_tbl m) j = Some e' -> waits d e' q c k -> k <> key) ->
  tbl_ok d (set_acks m (tcpack_info_cnt m + 1) (<[Z.to_nat (tcpack_info_cnt m) := e]> (tcpack_info_tbl m))).
Proof.
  intros Ht Hc Hw Hs Hno. destruct (tb_len _ _ Ht) as [Hlen Hcnt]. constructor; cbn [set_acks tcpack_info_tbl tcpack_info_cnt].
  - rewrite length_insert. lia.
  - intros j Hj. rewrite aget_insert by lia. destruct (decide (_ = j)); [by exists e, p, a, key|apply Ht; lia].
  - intros j e' Hj. rewrite aget_insert, decide_False by lia. apply (tb_rest _ _ Ht). lia.
  - intros j1 j2 e1 e2 q1 q2 c1 c2 k Hj1 Hj2. rewrite !aget_insert by lia.
    destruct (decide (_ = j1)) as [<-|]; destruct (decide (_ = j2)) as [<-|]; [done|..].
    + intros [= <-] Ee2 W1 W2. destruct (waits_fun _ _ _ _ _ _ _ _ Hw W1) as (_ & _ & <-). destruct (Hno j2 e2 q2 c2 key); [lia|done..].
    + intros Ee1 [= <-] W1 W2. destruct (waits_fun _ _ _ _ _ _ _ _ Hw W2) as (_ & _ & <-). destruct (Hno j1 e1 q1 c1 key); [lia|done..].
    + intros Ee1 Ee2 W1 W2. apply (tb_keys _ _ Ht j1 j2 e1 e2 q1 q2 c1 c2 k); try done; lia.
Qed.

(** ** Submitting *)
Definition copied (po : spkt) (bs : list Z) : spkt := {| sk_mem := splice (sk_mem po) ETHER_HDR_LEN bs; sk_len := sk_len po |}.

(** What a newer ACK [p] of the stream of entry [e] does. *)
Definition replaced (d d' : tcpack_pub) (pkt : Z) (p : spkt) : Prop :=
  exists a key e po b bs, ack_view (sk_mem p) a key /\ waits d e po b key /\ pkt_in_q e <> pkt /\ newer (a_num b) (a_num a) /\
    a_ip_hdr_len a = a_ip_hdr_len b /\ a_tcp_hdr_len a = a_tcp_hdr_len b /\
    ld_bytes (sk_mem p) ETHER_HDR_LEN (Z.to_nat (a_total_len a)) = Some bs /\ Z.of_nat (length bs) = a_total_len a /\
    ack_view (sk_mem (copied po bs)) a key /\
    pkts d' = delete pkt (<[pkt_in_q e := copied po bs]> (pkts d)) /\ ip_log d' = ip_log d ++ [AckFree pkt false].

Lemma exit_ok d x y : tcpack_sup_mode d = TCPACK_SUP_REPLACE -> suppress_exit d x y = (x, d).
Proof. intros E. unfold suppress_exit. by rewrite E. Qed.

Lemma replace_ok d m pkt p a key i e po b dotx :
  tcpack_sup_mode d = TCPACK_SUP_REPLACE -> tcpack_sup_module d = Some m -> tbl_ok d m -> pkts d !! pkt = Some p ->
  ack_view (sk_mem p) a key -> 0 <= i < tcpack_info_cnt m -> aget (tcpack_info_tbl m) i = Some e -> waits d e po b key ->
  (forall i e, 0 <= i < tcpack_info_cnt m -> aget (tcpack_info_tbl m) i = Some e -> pkt_in_q e <> pkt) ->
  exists ret d', suppress_replace d m pkt (sk_mem p) a i dotx = Some (ret, d') /\ tcpack_sup_mode d' = TCPACK_SUP_REPLACE /\
    tcpack_sup_module d' = Some m /\ tbl_ok d' m /\ if ret : bool then replaced d d' pkt p else d' = d.
Proof.
  intros Hmode Hm Ht Hp Hv Hi Ee Hw Hfresh. unfold suppress_replace. rewrite Ee. cbn [mbind option_bind].
  rewrite (waits_old _ _ _ _ _ Hw). cbn [mbind option_bind].
  rewrite (av_num _ _ _ (wa_view _ _ _ _ _ Hw) : ntoh32_ua _ (_ + _ + _) = _). cbn [mbind option_bind].
  destruct (IS_TCPSEQ_GT (a_num a) (a_num b)) eqn:Eg; [|rewrite exit_ok by done; exists false, d; by split_and!].
  destruct ((a_ip_hdr_len a =? a_ip_hdr_len b) && _) eqn:El; [|rewrite exit_ok by done; exists false, d; by split_and!].
  apply andb_true_iff in El as [E1%Z.eqb_eq E2%Z.eqb_eq].
  destruct (view_copy _ _ a b key key Hv (wa_view _ _ _ _ _ Hw) E1 E2) as (bs & Ebs & Hbl & Est & Hsl & Hva).
  assert (pkt_in_q e <> pkt) as Hne by (by apply (Hfresh i)).
  rewrite Ebs. cbn [mbind option_bind]. rewrite Est. cbn [mbind option_bind].
  rewrite (wa_ether _ _ _ _ _ Hw), (wa_live _ _ _ _ _ Hw). cbn [mbind option_bind].
  unfold PKTFREE. cbn [set_pkts pkts]. rewrite lookup_insert_ne by done. rewrite Hp. cbn [mbind option_bind].
  rewrite exit_ok by done. eexists true, _. split; [done|]. split; [done|]. split; [done|]. split.
  - apply (tbl_ok_move d); [done|]. intros j e' q c k Hj Ee' Hw' Hsz.
    destruct (decide (pkt_in_q e' = pkt_in_q e)) as [E|E].
    + assert (j = i) as -> by (by apply (tbl_ok_same d m j i e' e q po c b k key)). rewrite Ee in Ee'. injection Ee' as <-.
      destruct (waits_fun _ _ _ _ _ _ _ _ Hw Hw') as (<- & _ & <-). exists (copied po bs), a. split; [|done].
      constructor; [apply Hw|apply Hw| |done]. cbn [set_pkts pkts]. by rewrite lookup_delete_ne, lookup_insert_eq by done.
    + exists q, c. split; [|done]. apply (waits_pkts d); [|done]. cbn [set_pkts pkts].
      by rewrite lookup_delete_ne, lookup_insert_ne by (done || apply not_eq_sym, (Hfresh j e' Hj Ee')).
  - exists a, key, e, po, b, bs. split_and!; try done. cbn [set_pkts ip_log]. by rewrite app_nil_r.
Qed.

Lemma suppress_ok d m pkt p :
  tcpack_sup_mode d = TCPACK_SUP_REPLACE -> tcpack_sup_module d = Some m -> tbl_ok d m ->
  pkts d !! pkt = Some p -> pkt <> 0 -> sane_ack p = true ->
  (forall i e, 0 <= i < tcpack_info_cnt m -> aget (tcpack_info_tbl m) i = Some e -> pkt_in_q e <> pkt) ->
  exists ret d' m', dhd_tcpack_suppress d pkt = Some (ret, d') /\ tcpack_sup_mode d' = TCPACK_SUP_REPLACE /\
    tcpack_sup_module d' = Some m' /\ tbl_ok d' m' /\
    if ret : bool then replaced d d' pkt p else pkts d' = pkts d /\ ip_log d' = ip_log d.
Proof.
  intros Hmode Hm Ht Hp Hnz Hs Hfresh.
  unfold dhd_tcpack_suppress. rewrite Hmode. cbn [Z.eqb TCPACK_SUP_REPLACE TCPACK_SUP_OFF]. rewrite Hp. cbn [mbind option_bind].
  destruct (ack_parse p) as [[a|]|] eqn:Ea; cbn [mbind option_bind].
  2: { rewrite exit_ok by done. exists false, d, m. by split_and!. }
  2: { unfold sane_ack in Hs. rewrite Ea in Hs. by rewrite andb_false_r in Hs. }
  rewrite Hm. unfold dhd_tcpdata_psh_acked. rewrite Hmode. cbn [negb Z.eqb TCPACK_SUP_REPLACE TCPACK_SUP_DELAYTX Pos.eqb mbind option_bind].
  rewrite Hm. cbn [mbind option_bind]. destruct (sane_view p a Hs Ea) as [key Hv]. destruct (tb_len _ _ Ht) as [Hlen Hcnt].
  destruct (suppress_find_ok d m (sk_mem p) a key (Z.to_nat (tcpack_info_cnt m)) 0 Hv) as (i & found & Ef & Hf).
  { intros j Hj. destruct (tb_wait _ _ Ht j) as (e & q & b & kb & ? & ? & _); [lia|]. by exists e, q, b, kb. }
  rewrite Ef. cbn [mbind option_bind]. destruct found.
  - destruct Hf as (Hi & e & po & b & Ee & Hw).
    destruct (replace_ok d m pkt p a key i e po b false) as (ret & d' & E & ? & ? & ? & Hr); try done; [lia|].
    exists ret, d', m. split_and!; try done. destruct ret; [done|by subst].
  - destruct Hf as [-> Hk]. rewrite Z.add_0_l, Z2Nat.id, Z.eqb_refl by lia. cbn [andb].
    destruct (tcpack_info_cnt m <? TCPACK_INFO_MAXNUM) eqn:Ec; [|rewrite exit_ok by done; exists false, d, m; by split_and!].
    apply Z.ltb_lt in Ec. unfold TCPACK_INFO_MAXNUM in Ec.
    destruct (aget_is_Some (tcpack_info_tbl m) (tcpack_info_cnt m)) as [e Ee]; [lia|]. rewrite Ee. cbn [mbind option_bind].
    rewrite aset_Some by lia. cbn [mbind option_bind]. rewrite exit_ok by done. eexists false, _, _.
    split; [done|]. split; [done|]. split; [done|]. split; [|by split].
    eapply (tbl_ok_move d); [apply (tbl_ok_add d m _ p a key); try done|].
    + by apply (ack_parse_size p a).
    + intros j e' q c k Hj. apply Hk. lia.
    + intros j e' q c k _ _ Hw Hsz. exists q, c. split; [|done]. by apply (waits_pkts d).
Qed.

(** ** Sending *)

(** The last entry takes the place of entry [i]. *)
Definition moved (m : tcpack_mod) (i : Z) (l : list tcpack_info) : Prop :=
  length l = 4%nat /\ forall j, aget l j =
    if decide (j = tcpack_info_cnt m - 1) then Some info0
    else if decide (j = i) then aget (tcpack_info_tbl m) (tcpack_info_cnt m - 1) else aget (tcpack_info_tbl m) j.

Lemma tbl_ok_remove d m i l :
  tbl_ok d m -> 0 <= i < tcpack_info_cnt m -> moved m i l -> tbl_ok d (set_acks m (tcpack_info_cnt m - 1) l).
Proof.
  intros Ht Hi [Hl Hg]. destruct (tb_len _ _ Ht) as [Hlen Hcnt].
  constructor; cbn [set_acks tcpack_info_tbl tcpack_info_cnt].
  - split; [done|lia].
  - intros j Hj. rewrite Hg, decide_False by lia. destruct (decide _); apply Ht; lia.
  - intros j e Hj. rewrite Hg. destruct (decide _); [by intros [= <-]|]. rewrite decide_False by lia. apply (tb_rest _ _ Ht). lia.
  - intros j1 j2 e1 e2 q1 q2 c1 c2 k Hj1 Hj2. rewrite !Hg, !(decide_False (P := _ = tcpack_info_cnt m - 1)) by lia.
    destruct (decide (j1 = i)) as [->|], (decide (j2 = i)) as [->|]; try done; intros E1 E2 W1 W2.
    + assert (tcpack_info_cnt m - 1 = j2) by (apply (tb_keys _ _ Ht _ j2 e1 e2 q1 q2 c1 c2 k); try done; lia). lia.
    + assert (j1 = tcpack_info_cnt m - 1) by (apply (tb_keys _ _ Ht j1 _ e1 e2 q1 q2 c1 c2 k); try done; lia). lia.
    + apply (tb_keys _ _ Ht j1 j2 e1 e2 q1 q2 c1 c2 k); try done; lia.
Qed.

Lemma xmit_loop_ok d m pkt n i :
  tbl_ok d m -> 0 <= i -> i + Z.of_nat n = tcpack_info_cnt m ->
  (forall j e, 0 <= j < i -> aget (tcpack_info_tbl m) j = Some e -> pkt_in_q e <> pkt) ->
  exists m', xmit_loop n m pkt i = Some (BCME_OK, m') /\ tbl_ok d m' /\
    forall j e, 0 <= j < tcpack_info_cnt m' -> aget (tcpack_info_tbl m') j = Some e -> pkt_in_q e <> pkt.
Proof.
  intros Ht. destruct (tb_len _ _ Ht) as [Hlen Hcnt]. revert i. induction n as [|n IH]; intros i Hi Hn Hno; cbn [xmit_loop].
  - exists m. split_and!; [done..|]. intros j e Hj. apply Hno. lia.
  - destruct (tb_wait _ _ Ht i) as (e & p & a & key & Ee & Hw & Hs); [lia|]. rewrite Ee. cbn [mbind option_bind].
    destruct (Z.eqb_spec (pkt_in_q e) pkt) as [<-|Hne].
    + assert (exists l, (tbl ← (if i <? tcpack_info_cnt m - 1 then last ← aget (tcpack_info_tbl m) (tcpack_info_cnt m - 1);
          aset (tcpack_info_tbl m) i last else Some (tcpack_info_tbl m)); aset tbl (tcpack_info_cnt m - 1) info0) = Some l /\ moved m i l)
        as (l & El & Hmv).
      { destruct (aget_is_Some (tcpack_info_tbl m) (tcpack_info_cnt m - 1)) as [la Ela]; [lia|].
        destruct (Z.ltb_spec i (tcpack_info_cnt m - 1)) as [Hlt|Hge].
        - rewrite Ela. cbn [mbind option_bind]. rewrite aset_Some by lia. cbn [mbind option_bind].
          rewrite aset_Some by (rewrite length_insert; lia). eexists. split; [done|]. split; [by rewrite !length_insert|].
          intros j. rewrite !aget_insert by (rewrite ?length_insert; lia).
          destruct (decide (_ = j)), (decide (j = _)), (decide (i = j)), (decide (j = i)); try lia; done.
        - cbn [mbind option_bind]. rewrite aset_Some by lia. eexists. split; [done|]. split; [by rewrite length_insert|].
          intros j. rewrite aget_insert by lia. destruct (decide (_ = j)), (decide (j = _)), (decide (j = i)); try lia; done. }
      destruct (if i <? tcpack_info_cnt m - 1 then _ else _) as [t|]; [|done]. cbn [mbind option_bind] in El |- *. rewrite El.
      cbn [mbind option_bind]. rewrite (proj2 (Z.ltb_ge _ _)) by lia. eexists. split; [done|]. split; [apply (tbl_ok_remove d m i); [done|lia|done]|].
      destruct Hmv as [_ Hg]. intros j e' Hj. cbn [set_acks tcpack_info_tbl tcpack_info_cnt] in *. rewrite Hg, decide_False by lia.
      intros Ee' E. destruct (decide (j = i)) as [->|Hji].
      * destruct (tb_wait _ _ Ht (tcpack_info_cnt m - 1)) as (x & q & c & k & Ex & Hwx & _); [lia|]. rewrite Ee' in Ex. injection Ex as <-.
        assert (i = tcpack_info_cnt m - 1) by (apply (tbl_ok_same d m _ _ e e' p q a c key k); try done; lia). lia.
      * destruct (tb_wait _ _ Ht j) as (x & q & c & k & Ex & Hwx & _); [lia|]. rewrite Ee' in Ex. injection Ex as <-.
        assert (i = j) by (apply (tbl_ok_same d m _ _ e e' p q a c key k); try done; lia). lia.
    + rewrite (wrapu_small 8) by lia. apply IH; [lia|lia|]. intros j e' Hj Ee'. destruct (decide (j = i)) as [->|]; [|apply (Hno j); [lia|done]].
      congruence.
Qed.

Lemma xmit_ok d m pkt p :
  tcpack_sup_mode d = TCPACK_SUP_REPLACE -> tcpack_sup_module d = Some m -> tbl_ok d m -> pkts d !! pkt = Some p ->
  exists d' m', dhd_tcpack_check_xmit d pkt = Some (BCME_OK, d') /\ tcpack_sup_mode d' = TCPACK_SUP_REPLACE /\
    tcpack_sup_module d' = Some m' /\ tbl_ok d m' /\ pkts d' = pkts d /\ ip_log d' = ip_log d /\
    forall j e, 0 <= j < tcpack_info_cnt m' -> aget (tcpack_info_tbl m') j = Some e -> pkt_in_q e <> pkt.
Proof.
  intros Hmode Hm Ht Hp. unfold dhd_tcpack_check_xmit. rewrite Hmode. cbn [Z.eqb TCPACK_SUP_REPLACE TCPACK_SUP_OFF].
  rewrite Hp. cbn [mbind option_bind]. destruct (_ || _) eqn:Es.
  - exists d, m. split_and!; try done. intros j e Hj Ee E.
    destruct (tb_wait _ _ Ht j Hj) as (x & q & a & k & Ex & Hw & Hs). rewrite Ee in Ex. injection Ex as <-.
    pose proof (wa_live _ _ _ _ _ Hw) as L. rewrite E, Hp in L. injection L as <-. unfold ack_size in Hs.
    apply orb_true_iff in Es as [Es|Es]; lia.
  - rewrite Hm. destruct (tb_len _ _ Ht) as [_ Hc].
    destruct (xmit_loop_ok d m pkt (Z.to_nat (tcpack_info_cnt m)) 0 Ht) as (m' & E & Ht' & Hno); [lia|lia|intros; lia|].
    rewrite E. cbn [mbind option_bind]. by exists (set_mod d (Some m')), m'.
Qed.

(** ** Every step keeps the invariant *)
Lemma stands_mono l l' o p : stands l o p -> stands (l ++ l') o p.
Proof.
  intros [->|(k & f & bs & a & b & key & kb & Hin & Hr)]; [by left|]. right. exists k, f, bs, a, b, key, kb.
  split; [apply elem_of_app; by left|done].
Qed.

(** A newer ACK over a packet that stands for [o] stands for [o]. *)
Lemma stands_copied l o po k p a b key bs :
  stands l o po -> ack_view (sk_mem p) a key -> ack_view (sk_mem po) b key ->
  a_ip_hdr_len a = a_ip_hdr_len b -> a_tcp_hdr_len a = a_tcp_hdr_len b ->
  ld_bytes (sk_mem p) ETHER_HDR_LEN (Z.to_nat (a_total_len a)) = Some bs -> Z.of_nat (length bs) = a_total_len a ->
  stands (l ++ [(k, p)]) o (copied po bs).
Proof.
  intros Hst Hv Hw E1 E2 Ebs Hbl. right. assert ((k, p) ∈ l ++ [(k, p)]) as Hin by (apply elem_of_app; right; by left).
  destruct Hst as [->|(k0 & f0 & bs0 & a0 & b0 & key0 & kb0 & _ & Hv0 & Ebs0 & Ho & E3 & E4 & -> & ->)].
  - exists k, p, bs, a, b, key, key. by split_and!.
  - destruct (view_copy _ _ a0 b0 key0 key0 Hv0 Ho E3 E4) as (bs1 & Ebs1 & Hl1 & _ & _ & Hv1).
    rewrite Ebs0 in Ebs1. injection Ebs1 as <-. destruct (view_fun _ _ _ _ _ Hv1 Hw) as [<- <-].
    exists k, p, bs, a, b0, key0, key0. split_and!; try done; [congruence..|].
    pose proof (av_fit _ _ _ Hv) as F. pose proof (av_fit _ _ _ Hv0) as F0. pose proof (av_fit _ _ _ Ho) as Fo.
    unfold copied, ETHER_HDR_LEN in *. cbn [sk_mem sk_len]. f_equal. apply splice_splice; lia.
Qed.

(** A change of the packets under which every ACK finds its successor. *)
Lemma freed_move (P P' : gmap Z spkt) (out out' : list (spkt * spkt)) (f : spkt) :
  (forall k p a key, P !! k = Some p -> ack_view (sk_mem p) a key -> exists p' a',
     ((exists k', P' !! k' = Some p') \/ exists o, (o, p') ∈ out') /\ ack_view (sk_mem p') a' key /\ rtc newer (a_num a) (a_num a')) ->
  (forall x, x ∈ out -> x ∈ out') ->
  (exists p a a' key, ((exists k', P !! k' = Some p) \/ exists o, (o, p) ∈ out) /\ ack_view (sk_mem f) a key /\
     ack_view (sk_mem p) a' key /\ rtc newer (a_num a) (a_num a')) ->
  exists p a a' key, ((exists k', P' !! k' = Some p) \/ exists o, (o, p) ∈ out') /\ ack_view (sk_mem f) a key /\
     ack_view (sk_mem p) a' key /\ rtc newer (a_num a) (a_num a').
Proof.
  intros HP Hout (p & a & a' & key & [[k Hk]|[o Ho]] & Hf & Hp & Hr).
  - destruct (HP k p a' key Hk Hp) as (p' & a2 & Hin & Hv & Hr2). exists p', a, a2, key. split; [done|]. split; [done|].
    split; [done|]. by transitivity (a_num a').
  - exists p, a, a', key. split; [right; exists o; by apply Hout|done].
Qed.

Lemma submit_ok s pkt p : rep_ok s -> rep_legal s (Submit pkt p) = true -> exists s', rep_step (Submit pkt p) s = Some s' /\ rep_ok s'.
Proof.
  intros [(Hmode & m & Hm & Ht) Hdom Hst Hout Hfr Hlog] Hl. cbn [rep_legal] in Hl.
  rewrite !andb_true_iff in Hl. destruct Hl as [[Hnz%negb_true_iff%Z.eqb_neq Hnew%bool_decide_eq_true] Hs].
  set (d1 := set_pkts (rs_d s) (<[pkt := p]> (pkts (rs_d s))) []).
  assert (forall e q a k, waits (rs_d s) e q a k -> pkt_in_q e <> pkt) as Hne.
  { intros e q a k Hw E. pose proof (wa_live _ _ _ _ _ Hw) as L. rewrite E, Hnew in L. done. }
  assert (tbl_ok d1 m) as Ht1.
  { apply (tbl_ok_move (rs_d s)); [done|]. intros i e q c k _ _ Hw Hsz. exists q, c. split; [|done].
    apply (waits_pkts (rs_d s)); [|done]. cbn [d1 set_pkts pkts]. by rewrite lookup_insert_ne by (apply not_eq_sym, (Hne _ _ _ _ Hw)). }
  destruct (suppress_ok d1 m pkt p) as (ret & d2 & m2 & Es & Hmode2 & Hm2 & Ht2 & Hr); try done.
  { cbn [d1 set_pkts pkts]. apply lookup_insert_eq. }
  { intros i e Hi Ee. destruct (tb_wait _ _ Ht i Hi) as (x & q & c & k & Ex & Hw & _). rewrite Ee in Ex. injection Ex as <-. by apply (Hne _ q c k). }
  cbn [rep_step]. fold d1. rewrite Es. cbn [mbind option_bind]. eexists. split; [done|].
  assert (rs_q s !! pkt = None) as Hq.
  { apply eq_None_not_Some. intros Hq. apply Hdom in Hq as [? Hq]. congruence. }
  destruct ret.
  - destruct Hr as (a & key & e & po & b & bs & Hv & Hw & Hek & Hnewer & E1 & E2 & Ebs & Hbl & Hvc & Hpk & Hlg).
    cbn [d1 set_pkts pkts ip_log] in Hpk, Hlg. pose proof (wa_live _ _ _ _ _ Hw) as Hpo. cbn [d1 set_pkts pkts] in Hpo.
    rewrite lookup_insert_ne in Hpo by done.
    assert (forall k', pkts d2 !! k' = if decide (k' = pkt_in_q e) then Some (copied po bs) else pkts (rs_d s) !! k') as Hlk.
    { intros k'. rewrite Hpk. destruct (decide (k' = pkt_in_q e)) as [->|Hk']; [by rewrite lookup_delete_ne, lookup_insert_eq by done|].
      destruct (decide (k' = pkt)) as [->|]; [by rewrite lookup_delete_eq|by rewrite lookup_delete_ne, !lookup_insert_ne by done]. }
    constructor; cbn [rs_d rs_q rs_out rs_freed].
    + split; [done|]. by exists m2.
    + intros k'. rewrite Hlk. destruct (decide _) as [->|]; [|apply Hdom]. rewrite <- Hdom, Hpo. by split.
    + intros k' o p' Hqo. rewrite Hlk. destruct (decide _) as [->|].
      * intros [= <-]. by apply (stands_copied _ _ _ _ _ a b key bs (Hst _ _ _ Hqo Hpo)); try done; apply Hw.
      * intros Hp'. by apply stands_mono, (Hst k').
    + intros o p' Ho. by apply stands_mono, Hout.
    + intros k' f [Hin|Hin]%elem_of_app.
      * apply (freed_move (pkts (rs_d s)) _ (rs_out s)); [|done|by apply (Hfr k')]. intros k0 p0 a0 key0 Hk0 Hv0.
        destruct (decide (k0 = pkt_in_q e)) as [->|].
        -- assert (p0 = po) as -> by congruence. destruct (view_fun _ _ _ _ _ Hv0 (wa_view _ _ _ _ _ Hw)) as [-> ->].
           exists (copied po bs), a. split; [left; exists (pkt_in_q e); rewrite Hlk; by rewrite decide_True|].
           split; [done|by apply rtc_once].
        -- exists p0, a0. split; [left; exists k0; by rewrite Hlk, decide_False|]. by split.
      * apply list_elem_of_singleton in Hin. injection Hin as -> ->. exists (copied po bs), a, a, key.
        split; [left; exists (pkt_in_q e); by rewrite Hlk, decide_True|]. by split_and!.
    + rewrite Hlg, Hlog, app_nil_r, map_app. done.
  - destruct Hr as [Hpk Hlg]. cbn [d1 set_pkts pkts ip_log] in Hpk, Hlg. constructor; cbn [rs_d rs_q rs_out rs_freed].
    + split; [done|]. by exists m2.
    + intros k'. rewrite Hpk. destruct (decide (k' = pkt)) as [->|]; [by rewrite !lookup_insert_eq|].
      rewrite !lookup_insert_ne by done. apply Hdom.
    + intros k' o p'. rewrite Hpk. destruct (decide (k' = pkt)) as [->|]; [rewrite !lookup_insert_eq; intros [= <-] [= <-]; by left|].
      rewrite !lookup_insert_ne by done. apply Hst.
    + done.
    + intros k' f Hin. apply (freed_move (pkts (rs_d s)) _ (rs_out s)); [|done|by apply (Hfr k')]. intros k0 p0 a0 key0 Hk0 Hv0.
      exists p0, a0. split; [left; exists k0; rewrite Hpk; by rewrite lookup_insert_ne by congruence|]. by split.
    + by rewrite Hlg, Hlog, app_nil_r.
Qed.

Lemma send_ok s pkt : rep_ok s -> rep_legal s (Xmit pkt) = true -> exists s', rep_step (Xmit pkt) s = Some s' /\ rep_ok s'.
Proof.
  intros [(Hmode & m & Hm & Ht) Hdom Hst Hout Hfr Hlog] [o Ho]%bool_decide_eq_true.
  assert (is_Some (pkts (rs_d s) !! pkt)) as [p Hp] by (apply Hdom; by exists o).
  destruct (xmit_ok (rs_d s) m pkt p) as (d2 & m2 & E & Hmode2 & Hm2 & Ht2 & Hpk & Hlg & Hno); try done.
  cbn [rep_step]. rewrite E. cbn [mbind option_bind]. rewrite Hpk, Hp, Ho. cbn [mbind option_bind]. eexists. split; [done|].
  constructor; cbn [rs_d rs_q rs_out rs_freed set_pkts tcpack_sup_mode tcpack_sup_module pkts ip_log].
  - split; [done|]. exists m2. split; [done|]. apply (tbl_ok_move (rs_d s)); [done|].
    intros i e q c k Hi Ee Hw Hsz. exists q, c. split; [|done]. apply (waits_pkts (rs_d s)); [|done]. cbn [set_pkts pkts].
    by rewrite lookup_delete_ne by (apply not_eq_sym, (Hno i e Hi Ee)).
  - intros k. destruct (decide (k = pkt)) as [->|]; [by rewrite !lookup_delete_eq|]. rewrite !lookup_delete_ne by done. apply Hdom.
  - intros k o' p'. destruct (decide (k = pkt)) as [->|]; [by rewrite !lookup_delete_eq|]. rewrite !lookup_delete_ne by done. apply Hst.
  - intros o' p' [Hin|Hin]%elem_of_app; [by apply Hout|]. apply list_elem_of_singleton in Hin. injection Hin as -> ->. by apply (Hst pkt).
  - intros k f Hin. apply (freed_move (pkts (rs_d s)) _ (rs_out s)); [|intros x Hx; apply elem_of_app; by left|by apply (Hfr k)].
    intros k0 p0 a0 key0 Hk0 Hv0. exists p0, a0. split; [|by split]. destruct (decide (k0 = pkt)) as [->|].
    + right. exists o. apply elem_of_app. right. assert (p0 = p) as -> by congruence. by left.
    + left. exists k0. by rewrite lookup_delete_ne.
  - by rewrite app_nil_r, Hlg.
Qed.

Lemma rep_init_ok d : rep_init d -> rep_ok (rep_start d).
Proof.
  intros (d0 & Hmode & Hmod & Hpk & Hlog & E). unfold dhd_tcpack_suppress_set in E. rewrite Hmode in E.
  cbn [Z.eqb TCPACK_SUP_OFF TCPACK_SUP_REPLACE TCPACK_SUP_LAST_MODE TCPACK_SUP_DELAYTX TCPACK_SUP_HOLD Z.leb Z.compare Pos.compare
    Pos.compare_cont Pos.eqb orb set_mode tcpack_sup_module] in E. rewrite Hmod in E. injection E as <-. constructor; cbn [rep_start rs_d rs_q rs_out rs_freed set_mode set_mod tcpack_sup_mode tcpack_sup_module pkts ip_log].
  - split; [done|]. exists mod0. split; [done|]. constructor; cbn [mod0 tcpack_info_tbl tcpack_info_cnt].
    + split; [done|lia].
    + intros; lia.
    + intros i e Hi Ee. pose proof (aget_lt _ _ _ Ee) as Hlt. rewrite length_replicate in Hlt.
      rewrite aget_replicate in Ee by lia. injection Ee as <-. done.
    + intros; lia.
  - intros k. rewrite Hpk. by rewrite !lookup_empty.
  - intros k o p. by rewrite lookup_empty.
  - intros o p ?%not_elem_of_nil. done.
  - intros k f ?%not_elem_of_nil. done.
  - done.
Qed.

Lemma rep_run_ok ops s : rep_ok s -> rep_legal_run ops s = true -> exists s', rep_run ops s = Some s' /\ rep_ok s'.
Proof.
  revert s. induction ops as [|op ops IH]; intros s Hs; cbn [rep_legal_run rep_run]; [intros _; by exists s|].
  intros [Hl Hl2]%andb_true_iff.
  assert (exists s', rep_step op s = Some s' /\ rep_ok s') as (s1 & E & Hs1) by (destruct op; [by apply submit_ok|by apply send_ok]).
  rewrite E in Hl2 |- *. cbn [mbind option_bind]. by apply IH.
Qed.

(** ** Properties *)

(** C24: Replacing ACKs loses none.  From the switch to TCPACK_SUP_REPLACE, any
    sequence of submitted packets (with sane headers) and of queued packets sent
    runs without touching memory out of bounds or a packet that is gone.  The
    table holds at most TCPACK_INFO_MAXNUM packets, all of them queued, and at
    most one per stream.  A packet is sent as it was queued or with the IP
    packet of a freed ACK of its own stream in place of its own; and for every
    packet that was freed, a packet of its stream is queued or was sent whose
    acknowledgement number is reached from that of the freed one in steps each
    newer by IS_TCPSEQ_GT.  Only submitted packets are freed, each once. *)
Theorem tcpack_replace d ops :
  rep_init d -> rep_legal_run ops (rep_start d) = true ->
  exists s m, rep_run ops (rep_start d) = Some s /\ tcpack_sup_module (rs_d s) = Some m /\
    0 <= tcpack_info_cnt m <= TCPACK_INFO_MAXNUM /\
    (forall i, 0 <= i < tcpack_info_cnt m -> exists e p a key, aget (tcpack_info_tbl m) i = Some e /\
       pkt_ether_hdr e = pkt_in_q e /\ is_Some (rs_q s !! pkt_in_q e) /\ pkts (rs_d s) !! pkt_in_q e = Some p /\ ack_view (sk_mem p) a key /\
       forall j e' p' a', 0 <= j < tcpack_info_cnt m -> aget (tcpack_info_tbl m) j = Some e' -> waits (rs_d s) e' p' a' key -> j = i) /\
    (forall k o p, rs_q s !! k = Some o -> pkts (rs_d s) !! k = Some p -> stands (rs_freed s) o p) /\
    (forall o p, (o, p) ∈ rs_out s -> stands (rs_freed s) o p) /\
    (forall k f, (k, f) ∈ rs_freed s -> exists p a a' key,
       ((exists k', is_Some (rs_q s !! k') /\ pkts (rs_d s) !! k' = Some p) \/ exists o, (o, p) ∈ rs_out s) /\
       ack_view (sk_mem f) a key /\ ack_view (sk_mem p) a' key /\ rtc newer (a_num a) (a_num a')) /\
    ip_log (rs_d s) = map (fun kf => AckFree (fst kf) false) (rs_freed s).
Proof.
  intros Hi Hl. destruct (rep_run_ok ops _ (rep_init_ok d Hi) Hl) as (s & E & [(_ & m & Hm & Ht) Hdom Hst Hout Hfr Hlog]).
  exists s, m. split; [done|]. split; [done|]. split; [apply Ht|]. split; [|split; [done|]; split; [done|]; split; [|done]].
  - intros i Hi'. destruct (tb_wait _ _ Ht i Hi') as (e & p & a & key & Ee & Hw & _). exists e, p, a, key. split; [done|].
    split; [apply Hw|]. split; [apply Hdom; exists p; apply Hw|]. split; [apply Hw|]. split; [apply Hw|].
    intros j e' p' a' Hj Ee' Hw'. by apply (tb_keys _ _ Ht j i e' e p' p a' a key).
  - intros k f Hin. destruct (Hfr k f Hin) as (p & a & a' & key & Hp & Hr). exists p, a, a', key. split; [|done].
    destruct Hp as [[k' Hk']|?]; [left; exists k'|by right]. split; [apply Hdom; by exists p|done].
Qed.
End replace.
