(* ===== verification/TcpAckHold.v ===== *)
(** * Holding acknowledgements back (TCPACK_SUP_HOLD)

    Packets go through dhd_tcpack_hold, which keeps the newest ACK of a stream
    until enough of them came or a timer fires. *)
From Stdlib Require Import ZArith Lia.
From stdpp Require Import base option numbers gmap list relations fin_maps.
From S2P Require Import Prelude Bytes ProtState TcpAck TcpAckInv.

(** ** The system

    [hs_out]: packets passed on, by the caller or by the timer.  [hs_freed]:
    packets freed.  [hs_lost]: packets reported as held that are not in the
    table.  [hs_flush]: how often the ratio was reached. *)
Record hold_sys := {
  hs_d : tcpack_pub;
  hs_out : list spkt;
  hs_freed : list spkt;
  hs_lost : list Z;
  hs_flush : Z
}.
Inductive hold_op := Hold (pkt ifidx : Z) (p : spkt) | Fire (i : Z).

(** Packets of [P] that are not in [P'] any more. *)
Definition gone (P P' : gmap Z spkt) : list spkt := map snd (map_to_list (P ∖ P')).
Definition in_table (m : option tcpack_mod) (pkt : Z) : bool :=
  match m with Some m => existsb (fun e => pkt_in_q e =? pkt) (tcpack_info_tbl m) | None => false end.

Section hold.
Context `{TcpHdr}.

Definition hold_step (op : hold_op) (s : hold_sys) : option hold_sys :=
  let d := hs_d s in
  match op with
  | Hold pkt ifidx p =>
      let d := set_pkts d (<[pkt := p]> (pkts d)) [] in
      '(hold, d') ← dhd_tcpack_hold d pkt ifidx;
      let freed := gone (pkts d) (pkts d') in
      Some (if hold : bool then
              {| hs_d := d'; hs_out := hs_out s; hs_freed := hs_freed s ++ freed;
                 hs_lost := if bool_decide (is_Some (pkts d' !! pkt)) && negb (in_table (tcpack_sup_module d') pkt)
                            then hs_lost s ++ [pkt] else hs_lost s;
                 hs_flush := hs_flush s |}
            else
              {| hs_d := set_pkts d' (delete pkt (pkts d')) []; hs_out := hs_out s ++ [p]; hs_freed := hs_freed s ++ freed;
                 hs_lost := hs_lost s; hs_flush := hs_flush s + Z.of_nat (length freed) |})
  | Fire i =>
      m ← tcpack_sup_module d;
      e ← aget (tcpack_info_tbl m) i;
      p ← pkts d !! pkt_in_q e;
      d' ← dhd_tcpack_send d i;
      Some {| hs_d := set_pkts d' (delete (pkt_in_q e) (pkts d')) []; hs_out := hs_out s ++ [p]; hs_freed := hs_freed s;
              hs_lost := hs_lost s; hs_flush := hs_flush s |}
  end.
Definition hold_legal (s : hold_sys) (op : hold_op) : bool :=
  match op with
  | Hold pkt _ p => negb (pkt =? 0) && bool_decide (pkts (hs_d s) !! pkt = None) && sane_ack p
  | Fire i => match tcpack_sup_module (hs_d s) with
              | Some m => match aget (tcpack_info_tbl m) i with Some e => timer_on e | None => false end
              | None => false
              end
  end.
Fixpoint hold_run (ops : list hold_op) (s : hold_sys) : option hold_sys :=
  match ops with [] => Some s | op :: ops => s ← hold_step op s; hold_run ops s end.
Fixpoint hold_legal_run (ops : list hold_op) (s : hold_sys) : bool :=
  match ops with
  | [] => true
  | op :: ops => hold_legal s op && match hold_step op s with Some s => hold_legal_run ops s | None => true end
  end.

(** Switched on from off, with no packet around. *)
Definition hold_start (d : tcpack_pub) : hold_sys := {| hs_d := d; hs_out := []; hs_freed := []; hs_lost := []; hs_flush := 0 |}.
Definition hold_init (d : tcpack_pub) : Prop :=
  exists d0, tcpack_sup_mode d0 = TCPACK_SUP_OFF /\ tcpack_sup_module d0 = None /\ pkts d0 = ∅ /\ ip_log d0 = [] /\
    dhd_tcpack_suppress_set d0 TCPACK_SUP_HOLD true = Some (BCME_OK, d).

(** ** The invariant *)
Definition not_older : relation Z := fun x y => IS_TCPSEQ_GE y x = true \/ IS_TCPSEQ_GE x y = false.
Definition held_at (tbl : list tcpack_info) (i : Z) : bool :=
  match aget tbl i with Some e => negb (pkt_in_q e =? 0) | None => false end.

Record held_ok (d : tcpack_pub) (m : tcpack_mod) : Prop := {
  hd_len : length (tcpack_info_tbl m) = 4%nat;
  hd_entry : forall i e, aget (tcpack_info_tbl m) i = Some e -> ti_dhdp e = true /\
    (pkt_in_q e = 0 /\ timer_on e = false \/
     timer_on e = true /\ 1 <= supp_cnt e < tcpack_sup_ratio d /\ exists p a key, waits d e p a key);
  hd_keys : forall i j e e' p p' a a' key, aget (tcpack_info_tbl m) i = Some e -> aget (tcpack_info_tbl m) j = Some e' ->
    waits d e p a key -> waits d e' p' a' key -> i = j
}.
Definition is_held (m : tcpack_mod) (k : Z) : Prop :=
  k <> 0 /\ exists i e, aget (tcpack_info_tbl m) i = Some e /\ pkt_in_q e = k.

(** A packet of the stream of [f], at least as new, is held or was passed on. *)
Definition kept_ack (m : tcpack_mod) (P : gmap Z spkt) (out : list spkt) (p : spkt) : Prop :=
  (exists k, is_held m k /\ P !! k = Some p) \/ p ∈ out.
Definition survived (m : tcpack_mod) (P : gmap Z spkt) (out : list spkt) (f : spkt) : Prop :=
  exists p a a' key, kept_ack m P out p /\ ack_view (sk_mem f) a key /\ ack_view (sk_mem p) a' key /\
    rtc not_older (a_num a) (a_num a').

Record hold_ok (s : hold_sys) (m : tcpack_mod) : Prop := {
  ho_mode : tcpack_sup_mode (hs_d s) = TCPACK_SUP_HOLD /\ 2 <= tcpack_sup_ratio (hs_d s) < 256 /\
    tcpack_sup_module (hs_d s) = Some m;
  ho_held : held_ok (hs_d s) m;
  ho_cnt : tcpack_info_cnt m = cnt (held_at (tcpack_info_tbl m)) 4 + hs_flush s;
  ho_dom : forall k, is_Some (pkts (hs_d s) !! k) <-> is_held m k \/ k ∈ hs_lost s;
  ho_lost : forall k, k ∈ hs_lost s -> ~ is_held m k;
  ho_freed : forall f, f ∈ hs_freed s -> survived m (pkts (hs_d s)) (hs_out s) f
}.

Lemma waits_live d d' e p a key :
  pkts d' !! pkt_in_q e = pkts d !! pkt_in_q e -> waits d e p a key -> waits d' e p a key.
Proof. intros E [H1 H2 H3 H4]. constructor; try done. by rewrite E. Qed.

(** Entry [i] becomes [e']. *)
Lemma held_ok_set d d' m i e' c :
  held_ok d m -> 0 <= i < 4 -> tcpack_sup_ratio d' = tcpack_sup_ratio d -> ti_dhdp e' = true ->
  (forall j e q b k, j <> i -> aget (tcpack_info_tbl m) j = Some e -> waits d e q b k -> waits d' e q b k) ->
  (pkt_in_q e' = 0 /\ timer_on e' = false \/
   timer_on e' = true /\ 1 <= supp_cnt e' < tcpack_sup_ratio d /\ exists p a key, waits d' e' p a key /\
     forall j e q b, j <> i -> aget (tcpack_info_tbl m) j = Some e -> ~ waits d e q b key) ->
  held_ok d' (set_acks m c (<[Z.to_nat i := e']> (tcpack_info_tbl m))).
Proof.
  intros [H1 H2 H3] Hi Hr Hd Hmove He. 
  assert (forall j e q b k, j <> i -> aget (tcpack_info_tbl m) j = Some e -> waits d' e q b k -> waits d e q b k) as Hback.
  { intros j e q b k Hj Ee W. destruct (H2 j e Ee) as (_ & [[? _]|(_ & _ & q0 & b0 & k0 & W0)]); [by destruct (wa_pkt _ _ _ _ _ W)|].
    by destruct (waits_fun _ _ _ _ _ _ _ _ W (Hmove j e q0 b0 k0 Hj Ee W0)) as (-> & -> & ->). }
  constructor; cbn [set_acks tcpack_info_tbl].
  - by rewrite length_insert.
  - intros j e. rewrite aget_insert by lia. destruct (decide (i = j)) as [->|].
    + intros [= <-]. split; [done|]. rewrite Hr. destruct He as [?|(? & ? & p & a & key & ? & _)]; [by left|right].
      split; [done|]. split; [done|]. by exists p, a, key.
    + intros Ee. destruct (H2 j e Ee) as (? & [?|(? & ? & p & a & key & W)]); split; [done|by left|done|right].
      rewrite Hr. split; [done|]. split; [done|]. exists p, a, key. by apply (Hmove j).
  - intros j1 j2 e1 e2 p p' a a' key. rewrite !aget_insert by lia.
    destruct (decide (i = j1)) as [<-|]; destruct (decide (i = j2)) as [<-|]; [done|..].
    + intros [= <-] Ee2 W1 W2. destruct He as [[? _]|(_ & _ & q & b & k & W & Hno)]; [by destruct (wa_pkt _ _ _ _ _ W1)|].
      destruct (waits_fun _ _ _ _ _ _ _ _ W W1) as (_ & _ & <-). apply (Hback j2) in W2; [|done..].
      by destruct (Hno j2 e2 p' a').
    + intros Ee1 [= <-] W1 W2. destruct He as [[? _]|(_ & _ & q & b & k & W & Hno)]; [by destruct (wa_pkt _ _ _ _ _ W2)|].
      destruct (waits_fun _ _ _ _ _ _ _ _ W W2) as (_ & _ & <-). apply (Hback j1) in W1; [|done..].
      by destruct (Hno j1 e1 p a).
    + intros Ee1 Ee2 W1 W2. apply (Hback j1) in W1; [|done..]. apply (Hback j2) in W2; [|done..].
      by apply (H3 j1 j2 e1 e2 p p' a a' key).
Qed.

Lemma held_same d m i j e e' p p' a a' k k' :
  held_ok d m -> aget (tcpack_info_tbl m) i = Some e -> aget (tcpack_info_tbl m) j = Some e' ->
  waits d e p a k -> waits d e' p' a' k' -> pkt_in_q e = pkt_in_q e' -> i = j.
Proof.
  intros Ht Ee Ee' W W' E. pose proof (wa_live _ _ _ _ _ W') as L. rewrite <- E, (wa_live _ _ _ _ _ W) in L. injection L as <-.
  destruct (view_fun _ _ _ _ _ (wa_view _ _ _ _ _ W) (wa_view _ _ _ _ _ W')) as [_ <-].
  by apply (hd_keys _ _ Ht i j e e' p p a a' k).
Qed.

Lemma is_held_set d m i e e' c k :
  held_ok d m -> aget (tcpack_info_tbl m) i = Some e ->
  is_held (set_acks m c (<[Z.to_nat i := e']> (tcpack_info_tbl m))) k <->
  k <> 0 /\ pkt_in_q e' = k \/ is_held m k /\ k <> pkt_in_q e.
Proof.
  intros Ht Ee. pose proof (aget_lt _ _ _ Ee) as Hi. unfold is_held. cbn [set_acks tcpack_info_tbl]. split.
  - intros (Hk & j & x & Ex & E). rewrite aget_insert in Ex by lia. destruct (decide (i = j)) as [->|Hij]; [left; naive_solver|].
    right. split; [split; [done|by exists j, x]|]. intros ->. apply Hij.
    destruct (hd_entry _ _ Ht i e Ee) as (_ & [[? _]|(_ & _ & p & a & key & W)]); [done|].
    destruct (hd_entry _ _ Ht j x Ex) as (_ & [[? _]|(_ & _ & q & b & key' & W')]); [congruence|].
    by apply (held_same d m i j e x p q a b key key').
  - intros [[Hk E]|[(Hk & j & x & Ex & E) Hne]].
    + split; [done|]. exists i, e'. rewrite aget_insert by lia. by rewrite decide_True.
    + split; [done|]. exists j, x. rewrite aget_insert by lia. rewrite decide_False by congruence. done.
Qed.

Lemma held_cnt_set (tbl : list tcpack_info) i e e' :
  length tbl = 4%nat -> aget tbl i = Some e ->
  cnt (held_at (<[Z.to_nat i := e']> tbl)) 4 =
  cnt (held_at tbl) 4 - (if pkt_in_q e =? 0 then 0 else 1) + (if pkt_in_q e' =? 0 then 0 else 1).
Proof.
  intros Hl Ee. pose proof (aget_lt _ _ _ Ee) as Hi.
  assert (forall j, held_at (<[Z.to_nat i := e']> tbl) j = if decide (i = j) then negb (pkt_in_q e' =? 0) else held_at tbl j) as Hh.
  { intros j. unfold held_at. rewrite aget_insert by lia. by destruct (decide _). }
  assert (held_at tbl i = negb (pkt_in_q e =? 0)) as Hi0 by (unfold held_at; by rewrite Ee).
  destruct (pkt_in_q e =? 0), (pkt_in_q e' =? 0); cbn [negb] in *.
  - rewrite (cnt_ext (held_at (<[_ := e']> tbl)) (held_at tbl)); [lia|]. intros j _. rewrite Hh. destruct (decide _) as [<-|]; [|done]. by rewrite Hi0.
  - rewrite (cnt_flip _ (held_at tbl) 4 i); [lia|lia|by rewrite Hh, decide_True|done|].
    intros j _ Hj. by rewrite Hh, decide_False.
  - rewrite (cnt_flip (held_at tbl) (held_at (<[Z.to_nat i := e']> tbl)) 4 i); [lia|lia|done|by rewrite Hh, decide_True|].
    intros j _ Hj. by rewrite Hh, decide_False.
  - rewrite (cnt_ext (held_at (<[_ := e']> tbl)) (held_at tbl)); [lia|]. intros j _. rewrite Hh. destruct (decide _) as [<-|]; [|done]. by rewrite Hi0.
Qed.

(** ** The call *)
Definition emptied (e : tcpack_info) : tcpack_info := set_timer (set_held e 0 0 0 0) false.

(** What dhd_tcpack_hold does with a packet [p]: pass it on; hold it instead of
    an older one, or pass it on and forget that one; drop it for a newer one;
    hold it in a free entry; claim to hold it. *)
Inductive hold_case (d : tcpack_pub) (m : tcpack_mod) (pkt ifidx : Z) (p : spkt) : bool -> tcpack_pub -> tcpack_mod -> Prop :=
  | hc_pass : hold_case d m pkt ifidx p false d m
  | hc_newer i e po a b key d' (hold : bool) :
      aget (tcpack_info_tbl m) i = Some e -> waits d e po b key -> ack_view (sk_mem p) a key ->
      IS_TCPSEQ_GE (a_num a) (a_num b) = true -> hold = (supp_cnt e + 1 <? tcpack_sup_ratio d) ->
      pkts d' = delete (pkt_in_q e) (pkts d) ->
      hold_case d m pkt ifidx p hold d' (set_acks m (tcpack_info_cnt m) (<[Z.to_nat i :=
        if hold then set_held e pkt pkt ifidx (supp_cnt e + 1) else emptied e]> (tcpack_info_tbl m)))
  | hc_older i e po a b key d' :
      aget (tcpack_info_tbl m) i = Some e -> waits d e po b key -> ack_view (sk_mem p) a key ->
      IS_TCPSEQ_GE (a_num a) (a_num b) = false -> pkts d' = delete pkt (pkts d) ->
      hold_case d m pkt ifidx p true d' m
  | hc_new i e a key d' :
      aget (tcpack_info_tbl m) i = Some e -> pkt_in_q e = 0 -> ack_view (sk_mem p) a key ->
      (forall j e q b, aget (tcpack_info_tbl m) j = Some e -> ~ waits d e q b key) -> pkts d' = pkts d ->
      hold_case d m pkt ifidx p true d' (set_acks m (tcpack_info_cnt m + 1) (<[Z.to_nat i :=
        set_timer (set_held e pkt pkt ifidx 1) true]> (tcpack_info_tbl m)))
  | hc_full a key :
      ack_view (sk_mem p) a key -> (forall j e, aget (tcpack_info_tbl m) j = Some e -> pkt_in_q e <> 0) ->
      (forall j e q b, aget (tcpack_info_tbl m) j = Some e -> ~ waits d e q b key) ->
      hold_case d m pkt ifidx p true d m.

Lemma hold_call d m pkt ifidx p :
  tcpack_sup_mode d = TCPACK_SUP_HOLD -> 2 <= tcpack_sup_ratio d < 256 -> tcpack_sup_module d = Some m -> held_ok d m ->
  pkts d !! pkt = Some p -> sane_ack p = true ->
  exists hold d' m', dhd_tcpack_hold d pkt ifidx = Some (hold, d') /\ tcpack_sup_mode d' = TCPACK_SUP_HOLD /\
    tcpack_sup_ratio d' = tcpack_sup_ratio d /\ tcpack_sup_module d' = Some m' /\ hold_case d m pkt ifidx p hold d' m'.
Proof.
  intros Hmode Hratio Hm Ht Hp Hs. unfold dhd_tcpack_hold. rewrite Hmode. cbn [Z.eqb TCPACK_SUP_HOLD Pos.eqb negb].
  rewrite (proj2 (Z.eqb_neq _ _)) by lia. rewrite Hp. cbn [mbind option_bind].
  destruct (ack_parse p) as [[a|]|] eqn:Ea; cbn [mbind option_bind].
  2: { exists false, d, m. split_and!; try done. constructor. }
  2: { unfold sane_ack in Hs. rewrite Ea in Hs. by rewrite andb_false_r in Hs. }
  destruct (sane_view p a Hs Ea) as [key Hv]. rewrite Hm. pose proof (hd_len _ _ Ht) as Hlen.
  assert (forall j, 0 <= j < 4 -> exists e, aget (tcpack_info_tbl m) j = Some e /\
    (pkt_in_q e = 0 \/ exists p b kb, waits d e p b kb)) as Hall.
  { intros j Hj. destruct (aget_is_Some (tcpack_info_tbl m) j) as [e Ee]; [lia|]. exists e. split; [done|].
    destruct (hd_entry _ _ Ht j e Ee) as (_ & [[? _]|(_ & _ & ?)]); [by left|by right]. }
  destruct (hold_find_ok d m (sk_mem p) a key (Z.to_nat TCPACK_INFO_MAXNUM) 0 TCPACK_INFO_MAXNUM Hv) as (r & fs & Ef & Hr);
    [done|intros j Hj; apply Hall; unfold TCPACK_INFO_MAXNUM in Hj; lia|].
  rewrite Ef. cbn [mbind option_bind]. destruct r as [i|].
  - destruct Hr as (Hi & e & po & b & Ee & Hw). unfold hold_update. rewrite Ee. cbn [mbind option_bind].
    rewrite (waits_old _ _ _ _ _ Hw). cbn [mbind option_bind].
    rewrite (av_num _ _ _ (wa_view _ _ _ _ _ Hw) : ntoh32_ua _ (_ + _ + _) = _). cbn [mbind option_bind].
    destruct (IS_TCPSEQ_GE (a_num a) (a_num b)) eqn:Eg.
    + destruct (hd_entry _ _ Ht i e Ee) as (_ & [[? _]|(_ & Hsc & _)]); [by destruct (wa_pkt _ _ _ _ _ Hw)|].
      rewrite (wrapu_small 8) by lia. rewrite aset_Some by (rewrite Hlen; unfold TCPACK_INFO_MAXNUM in Hi; lia).
      cbn [mbind option_bind]. unfold PKTFREE. cbn [set_mod pkts]. rewrite (wa_live _ _ _ _ _ Hw). cbn [mbind option_bind].
      eexists _, _, _. split; [done|]. split; [done|]. split; [done|]. split; [done|].
      by apply (hc_newer d m pkt ifidx p i e po a b key).
    + unfold PKTFREE. rewrite Hp. cbn [mbind option_bind]. eexists _, _, m. split; [done|]. split; [done|]. split; [done|]. split; [done|].
      by apply (hc_older d m pkt ifidx p i e po a b key).
  - destruct Hr as (Hno & Hfs & Hfull).
    assert (forall j e q b, aget (tcpack_info_tbl m) j = Some e -> ~ waits d e q b key) as Hno'.
    { intros j e q b Ee Hw. pose proof (aget_lt _ _ _ Ee). apply (Hno j e q b key); [unfold TCPACK_INFO_MAXNUM; lia|done..]. }
    unfold TCPACK_INFO_MAXNUM in *. destruct (Z.ltb_spec fs 4) as [Hlt|Hge].
    + destruct Hfs as [->|(Hi & e & Ee & E0)]; [lia|]. rewrite Ee. cbn [mbind option_bind]. rewrite aset_Some by lia.
      cbn [mbind option_bind]. eexists _, _, _. split; [done|]. split; [done|]. split; [done|]. split; [done|].
      by apply (hc_new d m pkt ifidx p fs e a key).
    + assert (fs = 4) as -> by lia. destruct (Hfull eq_refl) as [_ Hocc]. exists true, d, m. split_and!; try done.
      apply (hc_full d m pkt ifidx p a key); [done| |done]. intros j e Ee. pose proof (aget_lt _ _ _ Ee). apply (Hocc j); [lia|done].
Qed.

(** ** Every step keeps the invariant *)
Lemma gone_same P : gone P P = [].
Proof. unfold gone. by rewrite map_difference_diag, map_to_list_empty. Qed.
Lemma gone_delete P k q : P !! k = Some q -> gone P (delete k P) = [q].
Proof.
  intros E. unfold gone. assert (P ∖ delete k P = {[k := q]}) as ->; [|by rewrite map_to_list_singleton].
  apply map_eq. intros j. destruct (decide (j = k)) as [->|Hj].
  - rewrite lookup_singleton_eq. apply lookup_difference_Some. by rewrite lookup_delete_eq.
  - rewrite lookup_singleton_ne by done. apply lookup_difference_None. rewrite lookup_delete_ne by done.
    destruct (P !! j); [right; by eexists|by left].
Qed.

Lemma held_ok_move d d' m :
  held_ok d m -> tcpack_sup_ratio d' = tcpack_sup_ratio d ->
  (forall i e q b k, aget (tcpack_info_tbl m) i = Some e -> waits d e q b k -> waits d' e q b k) -> held_ok d' m.
Proof.
  intros [H1 H2 H3] Hr Hmove. constructor; [done|..].
  - intros i e Ee. destruct (H2 i e Ee) as (? & [?|(? & ? & p & a & key & W)]); split; [done|by left|done|right].
    rewrite Hr. split; [done|]. split; [done|]. exists p, a, key. by apply (Hmove i).
  - assert (forall i e q b k, aget (tcpack_info_tbl m) i = Some e -> waits d' e q b k -> waits d e q b k) as Hback.
    { intros i e q b k Ee W. destruct (H2 i e Ee) as (_ & [[? _]|(_ & _ & q0 & b0 & k0 & W0)]); [by destruct (wa_pkt _ _ _ _ _ W)|].
      by destruct (waits_fun _ _ _ _ _ _ _ _ W (Hmove i e q0 b0 k0 Ee W0)) as (-> & -> & ->). }
    intros i j e e' p p' a a' key Ee Ee' W W'. apply (H3 i j e e' p p' a a' key); try done; by eapply Hback.
Qed.

Lemma survived_move m m' P P' out out' f :
  (forall k p a key, is_held m k -> P !! k = Some p -> ack_view (sk_mem p) a key -> exists p' a',
     kept_ack m' P' out' p' /\ ack_view (sk_mem p') a' key /\ rtc not_older (a_num a) (a_num a')) ->
  (forall x, x ∈ out -> x ∈ out') -> survived m P out f -> survived m' P' out' f.
Proof.
  intros HP Hout (p & a & a' & key & [(k & Hh & Hk)|Ho] & Hf & Hp & Hr).
  - destruct (HP k p a' key Hh Hk Hp) as (p' & a2 & Hin & Hv & Hr2). exists p', a, a2, key. split_and!; try done. by transitivity (a_num a').
  - exists p, a, a', key. split; [right; by apply Hout|done].
Qed.
(** The same when what was held is still there. *)
Lemma survived_mono m m' P P' out out' f :
  (forall k p, is_held m k -> P !! k = Some p -> is_held m' k /\ P' !! k = Some p) ->
  (forall x, x ∈ out -> x ∈ out') -> survived m P out f -> survived m' P' out' f.
Proof.
  intros HP Hout. apply survived_move; [|done]. intros k p a key Hh Hk Hv. destruct (HP k p Hh Hk) as [? ?].
  exists p, a. split; [left; by exists k|]. by split.
Qed.

Lemma held_live d m k : held_ok d m -> is_held m k -> exists i e p a key, aget (tcpack_info_tbl m) i = Some e /\ pkt_in_q e = k /\ waits d e p a key.
Proof.
  intros Ht (Hk & i & e & Ee & E). destruct (hd_entry _ _ Ht i e Ee) as (_ & [[? _]|(_ & _ & p & a & key & W)]); [congruence|].
  by exists i, e, p, a, key.
Qed.
Lemma in_table_held m k : k <> 0 -> in_table (Some m) k = true <-> is_held m k.
Proof.
  intros Hk. unfold in_table, is_held. rewrite existsb_exists. split.
  - intros (e & Hin%list_elem_of_In%list_elem_of_lookup & E%Z.eqb_eq). destruct Hin as [i Hi]. split; [done|]. exists (Z.of_nat i), e.
    unfold aget. rewrite (proj2 (Z.leb_le 0 _)) by lia. by rewrite Nat2Z.id.
  - intros (_ & i & e & Ee & E). exists e. split; [|by apply Z.eqb_eq]. apply list_elem_of_In, list_elem_of_lookup.
    exists (Z.to_nat i). pose proof (aget_lt _ _ _ Ee). unfold aget in Ee. by rewrite (proj2 (Z.leb_le 0 i)) in Ee by lia.
Qed.

(** The state after a call, and its bookkeeping: [d'] with [dl] packets deleted. *)
Section cases.
Context (s : hold_sys) (m : tcpack_mod) (pkt ifidx : Z) (p : spkt).
Notation P := (pkts (hs_d s)).
Notation d1 := (set_pkts (hs_d s) (<[pkt := p]> (pkts (hs_d s))) []).
Hypothesis Hs : hold_ok s m.
Hypothesis Hnz : pkt <> 0.
Hypothesis Hnew : P !! pkt = None.

Lemma fresh_held : ~ is_held m pkt.
Proof.
  intros Hh. destruct (held_live _ _ _ (ho_held _ _ Hs) Hh) as (i & e & q & a & k & _ & E & W).
  pose proof (wa_live _ _ _ _ _ W) as L. rewrite E, Hnew in L. done.
Qed.
Lemma fresh_lost : pkt ∉ hs_lost s.
Proof. intros Hl. destruct (proj2 (ho_dom _ _ Hs pkt) (or_intror Hl)) as [? E]. by rewrite Hnew in E. Qed.
Lemma fresh_waits e q a k : waits (hs_d s) e q a k -> pkt_in_q e <> pkt.
Proof. intros W E. pose proof (wa_live _ _ _ _ _ W) as L. by rewrite E, Hnew in L. Qed.
Lemma waits_in e q a k : waits (hs_d s) e q a k -> waits d1 e q a k.
Proof.
  intros W. apply (waits_live (hs_d s)); [|done]. cbn [set_pkts pkts]. rewrite lookup_insert_ne; [done|].
  by apply not_eq_sym, (fresh_waits e q a k).
Qed.
Lemma waits_out i e q a k : aget (tcpack_info_tbl m) i = Some e -> waits d1 e q a k -> waits (hs_d s) e q a k.
Proof.
  intros Ee W. destruct (hd_entry _ _ (ho_held _ _ Hs) i e Ee) as (_ & [[? _]|(_ & _ & q0 & b0 & k0 & W0)]);
    [by destruct (wa_pkt _ _ _ _ _ W)|]. by destruct (waits_fun _ _ _ _ _ _ _ _ W (waits_in _ _ _ _ W0)) as (-> & -> & ->).
Qed.

(** A packet that is not an ACK, or one that nothing is done with. *)
Lemma case_pass d' :
  pkts d' = P -> tcpack_sup_mode d' = TCPACK_SUP_HOLD -> tcpack_sup_ratio d' = tcpack_sup_ratio (hs_d s) -> tcpack_sup_module d' = Some m ->
  hold_ok {| hs_d := d'; hs_out := hs_out s ++ [p]; hs_freed := hs_freed s; hs_lost := hs_lost s; hs_flush := hs_flush s + 0 |} m.
Proof.
  intros Hp Hmode Hratio Hm. destruct Hs as [(H1 & H2 & H3) H4 H5 H6 H7 H8]. constructor; cbn [hs_d hs_out hs_freed hs_lost hs_flush].
  - split; [done|]. by rewrite Hratio.
  - apply (held_ok_move (hs_d s)); [done..|]. intros i e q b k _. apply waits_live. by rewrite Hp.
  - lia.
  - by rewrite Hp.
  - done.
  - intros f Hf. rewrite Hp. apply (survived_mono m m P P (hs_out s)); [done| |by apply H8]. intros x Hx. apply elem_of_app. by left.
Qed.

Lemma case_older i e po a b key d' :
  aget (tcpack_info_tbl m) i = Some e -> waits (hs_d s) e po b key -> ack_view (sk_mem p) a key ->
  IS_TCPSEQ_GE (a_num a) (a_num b) = false ->
  pkts d' = P -> tcpack_sup_mode d' = TCPACK_SUP_HOLD -> tcpack_sup_ratio d' = tcpack_sup_ratio (hs_d s) -> tcpack_sup_module d' = Some m ->
  hold_ok {| hs_d := d'; hs_out := hs_out s; hs_freed := hs_freed s ++ [p]; hs_lost := hs_lost s; hs_flush := hs_flush s |} m.
Proof.
  intros Ee W Hv Hge Hp Hmode Hratio Hm. destruct Hs as [(H1 & H2 & H3) H4 H5 H6 H7 H8].
  constructor; cbn [hs_d hs_out hs_freed hs_lost hs_flush].
  - split; [done|]. by rewrite Hratio.
  - apply (held_ok_move (hs_d s)); [done..|]. intros j e' q c k _. apply waits_live. by rewrite Hp.
  - done.
  - by rewrite Hp.
  - done.
  - rewrite Hp. intros f [Hf| ->%list_elem_of_singleton]%elem_of_app; [by apply H8|]. exists po, a, b, key.
    split; [left; exists (pkt_in_q e); split; [split; [apply W|by exists i, e]|apply W]|]. split; [done|]. split; [apply W|].
    apply rtc_once. by right.
Qed.

Lemma case_full d' :
  pkts d' = <[pkt := p]> P -> tcpack_sup_mode d' = TCPACK_SUP_HOLD -> tcpack_sup_ratio d' = tcpack_sup_ratio (hs_d s) ->
  tcpack_sup_module d' = Some m ->
  hold_ok {| hs_d := d'; hs_out := hs_out s; hs_freed := hs_freed s; hs_lost := hs_lost s ++ [pkt]; hs_flush := hs_flush s |} m.
Proof.
  intros Hp Hmode Hratio Hm. pose proof fresh_held as Hnh. destruct Hs as [(H1 & H2 & H3) H4 H5 H6 H7 H8].
  constructor; cbn [hs_d hs_out hs_freed hs_lost hs_flush].
  - split; [done|]. by rewrite Hratio.
  - apply (held_ok_move (hs_d s)); [done..|]. intros i e q b k _ W. apply (waits_live (hs_d s)); [|done]. rewrite Hp, lookup_insert_ne; [done|].
    by apply not_eq_sym, (fresh_waits e q b k).
  - done.
  - intros k. rewrite Hp, elem_of_app, list_elem_of_singleton. destruct (decide (k = pkt)) as [->|].
    + rewrite lookup_insert_eq. split; [by right; right|done].
    + rewrite lookup_insert_ne, H6 by done. naive_solver.
  - intros k [Hk| ->%list_elem_of_singleton]%elem_of_app; [by apply H7|done].
  - intros f Hf. apply (survived_mono m m P _ (hs_out s) (hs_out s)); [|done|by apply H8]. intros k q Hh Hk. split; [done|].
    rewrite Hp, lookup_insert_ne; [done|]. by intros ->.
Qed.

Lemma case_new i e a key d' :
  aget (tcpack_info_tbl m) i = Some e -> pkt_in_q e = 0 -> ack_view (sk_mem p) a key ->
  (forall j e q b, aget (tcpack_info_tbl m) j = Some e -> ~ waits d1 e q b key) ->
  let m' := set_acks m (tcpack_info_cnt m + 1) (<[Z.to_nat i := set_timer (set_held e pkt pkt ifidx 1) true]> (tcpack_info_tbl m)) in
  pkts d' = <[pkt := p]> P -> tcpack_sup_mode d' = TCPACK_SUP_HOLD -> tcpack_sup_ratio d' = tcpack_sup_ratio (hs_d s) ->
  tcpack_sup_module d' = Some m' ->
  hold_ok {| hs_d := d'; hs_out := hs_out s; hs_freed := hs_freed s; hs_lost := hs_lost s; hs_flush := hs_flush s |} m'.
Proof.
  intros Ee E0 Hv Hno m' Hp Hmode Hratio Hm. pose proof fresh_held as Hnh. pose proof fresh_lost as Hnl. pose proof waits_out as Hwo. 
  destruct Hs as [(H1 & H2 & H3) H4 H5 H6 H7 H8]. pose proof (aget_lt _ _ _ Ee) as Hi. pose proof (hd_len _ _ H4) as Hlen.
  assert (forall k, is_held m' k <-> k = pkt \/ is_held m k) as Hh.
  { intros k. unfold m'. rewrite (is_held_set _ _ _ _ _ _ _ H4 Ee), E0. cbn [set_timer set_held pkt_in_q]. unfold is_held. naive_solver. }
  assert (forall j x q b k, aget (tcpack_info_tbl m) j = Some x -> waits (hs_d s) x q b k -> waits d' x q b k) as Hmove.
  { intros j x q b k Ex W. apply (waits_live (hs_d s)); [|done]. rewrite Hp, lookup_insert_ne; [done|].
    by apply not_eq_sym, (fresh_waits x q b k). }
  constructor; cbn [hs_d hs_out hs_freed hs_lost hs_flush].
  - split; [done|]. by rewrite Hratio.
  - apply (held_ok_set (hs_d s)); [done|lia|done|by apply (hd_entry _ _ H4 i e Ee)|by intros j x q b k _; apply Hmove|].
    right. split; [done|]. split; [cbn; lia|]. exists p, a, key. split.
    + constructor; cbn [set_timer set_held pkt_in_q pkt_ether_hdr]; [done|done|rewrite Hp; apply lookup_insert_eq|done].
    + intros j x q b _ Ex W. by apply (Hno j x q b Ex), waits_in.
  - unfold m'. cbn [set_acks tcpack_info_cnt tcpack_info_tbl]. rewrite (held_cnt_set _ i e) by done. rewrite E0, H5.
    cbn [set_timer set_held pkt_in_q Z.eqb]. rewrite (proj2 (Z.eqb_neq pkt 0)) by done. lia.
  - intros k. rewrite Hp, Hh. destruct (decide (k = pkt)) as [->|]; [rewrite lookup_insert_eq; split; [by left; left|done]|].
    rewrite lookup_insert_ne, H6 by done. naive_solver.
  - intros k Hk. rewrite Hh. intros [->|?]; [done|by apply (H7 k)].
  - intros f Hf. apply (survived_mono m _ P _ (hs_out s) (hs_out s)); [|done|by apply H8]. intros k q Hhk Hk. split; [apply Hh; by right|].
    rewrite Hp, lookup_insert_ne; [done|]. by intros ->.
Qed.

(** A newer ACK takes the place of [po]: it is held ([hold]) or passed on. *)
Lemma case_newer i e po a b key d' (hold : bool) :
  aget (tcpack_info_tbl m) i = Some e -> waits (hs_d s) e po b key -> ack_view (sk_mem p) a key ->
  IS_TCPSEQ_GE (a_num a) (a_num b) = true -> (hold = true -> supp_cnt e + 1 < tcpack_sup_ratio (hs_d s)) ->
  let m' := set_acks m (tcpack_info_cnt m) (<[Z.to_nat i := if hold then set_held e pkt pkt ifidx (supp_cnt e + 1) else emptied e]> (tcpack_info_tbl m)) in
  pkts d' = delete (pkt_in_q e) (if hold then <[pkt := p]> P else P) -> tcpack_sup_mode d' = TCPACK_SUP_HOLD ->
  tcpack_sup_ratio d' = tcpack_sup_ratio (hs_d s) -> tcpack_sup_module d' = Some m' ->
  hold_ok {| hs_d := d'; hs_out := if hold then hs_out s else hs_out s ++ [p]; hs_freed := hs_freed s ++ [po];
             hs_lost := hs_lost s; hs_flush := if hold then hs_flush s else hs_flush s + 1 |} m'.
Proof.
  intros Ee W Hv Hge Hhold m' Hp Hmode Hratio Hm. pose proof fresh_held as Hnh. pose proof fresh_lost as Hnl.
  pose proof (fresh_waits _ _ _ _ W) as Hne. destruct Hs as [(H1 & H2 & H3) H4 H5 H6 H7 H8].
  pose proof (aget_lt _ _ _ Ee) as Hi. pose proof (hd_len _ _ H4) as Hlen. pose proof (wa_pkt _ _ _ _ _ W) as Hn0.
  assert (forall k, is_held m' k <-> (hold = true /\ k = pkt) \/ is_held m k /\ k <> pkt_in_q e) as Hh.
  { intros k. unfold m'. rewrite (is_held_set _ _ _ _ _ _ _ H4 Ee). destruct hold; cbn [emptied set_timer set_held pkt_in_q]; unfold is_held; naive_solver. }
  assert (forall k, k <> pkt_in_q e -> k <> pkt -> pkts d' !! k = P !! k) as Hlk.
  { intros k Hk1 Hk2. rewrite Hp, lookup_delete_ne by done. destruct hold; [by rewrite lookup_insert_ne by done|done]. }
  assert (is_held m (pkt_in_q e)) as Hhe by (split; [done|by exists i, e]).
  constructor; cbn [hs_d hs_out hs_freed hs_lost hs_flush].
  - split; [done|]. by rewrite Hratio.
  - destruct (hd_entry _ _ H4 i e Ee) as (Hd & [[? _]|(Htm & Hsc & _)]); [done|].
    apply (held_ok_set (hs_d s)); [done|lia|done|by destruct hold| |].
    + intros j x q c k Hj Ex W'. apply (waits_live (hs_d s)); [|done]. apply Hlk; [|by apply (fresh_waits x q c k)].
      intros E. apply Hj. by apply (held_same (hs_d s) m j i x e q po c b k key).
    + destruct hold; [right|by left]. split; [done|]. split; [cbn; pose proof (Hhold eq_refl); lia|]. exists p, a, key. split.
      * constructor; cbn [set_held pkt_in_q pkt_ether_hdr]; [done|done|by rewrite Hp, lookup_delete_ne, lookup_insert_eq by done|done].
      * intros j x q c Hj Ex W'. apply Hj. by apply (hd_keys _ _ H4 j i x e q po c b key).
  - unfold m'. cbn [set_acks tcpack_info_cnt tcpack_info_tbl]. rewrite (held_cnt_set _ i e), H5 by done.
    rewrite (proj2 (Z.eqb_neq (pkt_in_q e) 0)) by done. destruct hold; cbn [emptied set_timer set_held pkt_in_q Z.eqb]; [|lia].
    rewrite (proj2 (Z.eqb_neq pkt 0)) by done. lia.
  - intros k. rewrite Hh. destruct (decide (k = pkt_in_q e)) as [->|Hk1].
    + rewrite Hp, lookup_delete_eq. split; [by intros [? ?]|]. intros [[[_ ?]|[_ ?]]|Hl]; [done|done|by destruct (H7 _ Hl)].
    + destruct (decide (k = pkt)) as [->|Hk2]; [|rewrite Hlk, H6 by done; naive_solver].
      rewrite Hp, lookup_delete_ne by done. destruct hold; [rewrite lookup_insert_eq; split; [by left; left|done]|].
      rewrite Hnew. split; [by intros [? ?]|]. intros [[[? _]|[? _]]|?]; done.
  - intros k Hk. rewrite Hh. intros [[_ ->]|[? _]]; [done|by apply (H7 k)].
  - assert (kept_ack m' (pkts d') (if hold then hs_out s else hs_out s ++ [p]) p) as Hkp.
    { destruct hold; [left; exists pkt; split; [apply Hh; by left|by rewrite Hp, lookup_delete_ne, lookup_insert_eq by done]|].
      right. apply elem_of_app. right. by left. }
    assert (rtc not_older (a_num b) (a_num a)) as Hnb by (apply rtc_once; by left).
    intros f [Hf| ->%list_elem_of_singleton]%elem_of_app.
    + apply (survived_move m _ P _ (hs_out s)); [| |by apply H8].
      * intros k q c key' Hhk Hk Hvk. destruct (decide (k = pkt_in_q e)) as [->|Hk1].
        -- rewrite (wa_live _ _ _ _ _ W) in Hk. injection Hk as <-.
           destruct (view_fun _ _ _ _ _ Hvk (wa_view _ _ _ _ _ W)) as [-> ->]. by exists p, a.
        -- exists q, c. split; [|by split]. left. exists k. split; [apply Hh; by right|]. rewrite Hlk; [done..|]. by intros ->.
      * intros x Hx. destruct hold; [done|apply elem_of_app; by left].
    + exists p, b, a, key. split; [done|]. split; [apply W|]. by split.
Qed.
End cases.

Lemma hold_op_ok s m pkt ifidx p :
  hold_ok s m -> hold_legal s (Hold pkt ifidx p) = true -> exists s' m', hold_step (Hold pkt ifidx p) s = Some s' /\ hold_ok s' m'.
Proof.
  intros Hs Hl. cbn [hold_legal] in Hl. rewrite !andb_true_iff in Hl.
  destruct Hl as [[Hnz%negb_true_iff%Z.eqb_neq Hnew%bool_decide_eq_true] Hsane].
  destruct (ho_mode _ _ Hs) as (Hmode & Hratio & Hm).
  set (d1 := set_pkts (hs_d s) (<[pkt := p]> (pkts (hs_d s))) []).
  assert (pkts d1 !! pkt = Some p) as Hp by apply lookup_insert_eq.
  assert (delete pkt (pkts d1) = pkts (hs_d s)) as Hdel by (by apply delete_insert_id).
  destruct (hold_call d1 m pkt ifidx p) as (hold & d2 & m2 & E & Hmode2 & Hratio2 & Hm2 & Hcase); try done.
  { apply (held_ok_move (hs_d s)); [apply Hs|done|]. intros i e q b k _. by apply waits_in. }
  cbn [hold_step]. fold d1. rewrite E. cbn [mbind option_bind]. eexists _, m2. split; [done|].
  destruct Hcase as [|i e po a b key d' hold Ee W Hv Hge -> Hpk|i e po a b key d' Ee W Hv Hge Hpk|i e a key d' Ee E0 Hv Hno Hpk|a key Hv Hocc Hno].
  - rewrite gone_same, app_nil_r. cbn [length Z.of_nat]. by apply (case_pass s m p Hs).
  - rewrite Hpk, (gone_delete _ _ po) by apply W. pose proof (waits_out s m pkt p Hs Hnew i e po b key Ee W) as W'.
    pose proof (fresh_waits s pkt Hnew _ _ _ _ W') as Hne.
    destruct (supp_cnt e + 1 <? tcpack_sup_ratio d1) eqn:Eh.
    + rewrite Hm2. rewrite (proj2 (in_table_held _ pkt Hnz)).
      2: { apply (is_held_set (hs_d s) m i e); [apply Hs|done|]. by left. }
      rewrite andb_false_r. by apply (case_newer s m pkt ifidx p Hs Hnz Hnew i e po a b key d' true); try done; intros _; apply Z.ltb_lt.
    + apply (case_newer s m pkt ifidx p Hs Hnz Hnew i e po a b key _ false); try done.
      cbn [set_pkts pkts]. by rewrite delete_delete, Hdel.
  - rewrite Hpk, (gone_delete _ _ p), Hdel by done. pose proof (waits_out s m pkt p Hs Hnew i e po b key Ee W) as W'.
    rewrite Hnew. cbn [andb]. rewrite bool_decide_false by (by intros [? ?]). cbn [andb].
    apply (case_older s m p Hs i e po a b key); try done. by rewrite Hpk.
  - rewrite Hpk, gone_same, app_nil_r, Hm2. rewrite (proj2 (in_table_held _ pkt Hnz)).
    2: { apply (is_held_set (hs_d s) m i e); [apply Hs|done|]. by left. }
    rewrite andb_false_r. by apply (case_new s m pkt ifidx p Hs Hnz Hnew i e a key).
  - rewrite gone_same, app_nil_r, Hm2, Hp, bool_decide_true by done. cbn [andb].
    destruct (in_table (Some m) pkt) eqn:Et; [by apply (in_table_held m pkt Hnz), (fresh_held s m pkt Hs Hnew) in Et|].
    by apply (case_full s m pkt p Hs Hnz Hnew).
Qed.

Lemma fire_ok s m i : hold_ok s m -> hold_legal s (Fire i) = true -> exists s' m', hold_step (Fire i) s = Some s' /\ hold_ok s' m'.
Proof.
  intros Hs Hl. destruct Hs as [(H1 & H2 & H3) H4 H5 H6 H7 H8]. cbn [hold_legal] in Hl. rewrite H3 in Hl.
  destruct (aget (tcpack_info_tbl m) i) as [e|] eqn:Ee; [|done]. pose proof (aget_lt _ _ _ Ee) as Hi.
  destruct (hd_entry _ _ H4 i e Ee) as (Hd & [[_ ?]|(_ & Hsc & p & a & key & W)]); [congruence|].
  pose proof (wa_pkt _ _ _ _ _ W) as Hn0. cbn [hold_step]. rewrite H3. cbn [mbind option_bind]. rewrite Ee. cbn [mbind option_bind].
  rewrite (wa_live _ _ _ _ _ W). cbn [mbind option_bind]. unfold dhd_tcpack_send. rewrite H3. cbn [mbind option_bind]. rewrite Ee.
  cbn [mbind option_bind set_timer ti_dhdp pkt_in_q]. rewrite Hd, (proj2 (Z.eqb_neq (pkt_in_q e) 0)) by done. cbn [negb orb].
  rewrite aset_Some by lia. cbn [mbind option_bind]. eexists _, _. split; [done|].
  assert (forall k, is_held (set_acks m (tcpack_info_cnt m - 1) (<[Z.to_nat i := set_held (set_timer e false) 0 0 0 0]> (tcpack_info_tbl m))) k
    <-> is_held m k /\ k <> pkt_in_q e) as Hh.
  { intros k. rewrite (is_held_set _ _ _ _ _ _ _ H4 Ee). cbn [set_held pkt_in_q]. unfold is_held. naive_solver. }
  assert (is_held m (pkt_in_q e)) as Hhe by (split; [done|by exists i, e]).
  constructor; cbn [hs_d hs_out hs_freed hs_lost hs_flush set_pkts set_mod tcpack_sup_mode tcpack_sup_ratio tcpack_sup_module pkts]; [done|..].
  - apply (held_ok_set (hs_d s)); [done|rewrite (hd_len _ _ H4) in Hi; lia|done|done| |by left].
    intros j x q b k Hj Ex W'. apply (waits_live (hs_d s)); [|done]. cbn [set_pkts set_mod pkts]. rewrite lookup_delete_ne; [done|].
    intros E. apply Hj. by apply (held_same (hs_d s) m j i x e q p b a k key).
  - cbn [set_acks tcpack_info_cnt tcpack_info_tbl]. rewrite (held_cnt_set _ i e), H5 by (done || apply H4).
    rewrite (proj2 (Z.eqb_neq (pkt_in_q e) 0)) by done. cbn [set_held pkt_in_q Z.eqb]. lia.
  - intros k. rewrite Hh. destruct (decide (k = pkt_in_q e)) as [->|]; [|rewrite lookup_delete_ne, H6 by done; naive_solver].
    rewrite lookup_delete_eq. split; [by intros [? ?]|]. intros [[_ ?]|Hl']; [done|by destruct (H7 _ Hl')].
  - intros k Hk. rewrite Hh. intros [? _]. by apply (H7 k).
  - intros f Hf. apply (survived_move m _ (pkts (hs_d s)) _ (hs_out s)); [| |by apply H8].
    + intros k q c key' Hhk Hk Hvk. exists q, c. split; [|by split]. destruct (decide (k = pkt_in_q e)) as [->|].
      * right. rewrite (wa_live _ _ _ _ _ W) in Hk. injection Hk as <-. apply elem_of_app. right. by left.
      * left. exists k. split; [by apply Hh|by rewrite lookup_delete_ne].
    + intros x Hx. apply elem_of_app. by left.
Qed.

Lemma hold_init_ok d : hold_init d -> exists m, hold_ok (hold_start d) m.
Proof.
  intros (d0 & Hmode & Hmod & Hpk & Hlog & E). unfold dhd_tcpack_suppress_set in E. rewrite Hmode in E.
  cbn [Z.eqb TCPACK_SUP_OFF TCPACK_SUP_HOLD TCPACK_SUP_LAST_MODE TCPACK_SUP_DELAYTX Z.leb Z.compare Pos.compare
    Pos.compare_cont Pos.eqb orb set_mode tcpack_sup_module] in E. rewrite Hmod in E. injection E as <-.
  set (m := set_acks mod0 (tcpack_info_cnt mod0) (map init_info_timer (tcpack_info_tbl mod0))). exists m.
  assert (forall i e, aget (tcpack_info_tbl m) i = Some e -> e = init_info_timer info0) as He.
  { intros i e Ee. pose proof (aget_lt _ _ _ Ee) as Hi. unfold aget in Ee. rewrite (proj2 (Z.leb_le 0 i)) in Ee by lia.
    by apply (lookup_replicate_1 4 (init_info_timer info0)) in Ee as [-> _]. }
  constructor; cbn [hold_start hs_d hs_out hs_freed hs_lost hs_flush set_mod set_ratio set_mode tcpack_sup_mode tcpack_sup_ratio tcpack_sup_module pkts].
  - done.
  - constructor; [done|..].
    + intros i e ->%He. split; [done|]. by left.
    + intros i j e e' p p' a a' key ->%He _ W. by destruct (wa_pkt _ _ _ _ _ W).
  - done.
  - intros k. rewrite Hpk, lookup_empty. split; [by intros [? ?]|]. intros [(Hk & i & e & ->%He & E)|?%not_elem_of_nil]; done.
  - intros k ?%not_elem_of_nil. done.
  - intros f ?%not_elem_of_nil. done.
Qed.

Lemma hold_step_ok op s m : hold_ok s m -> hold_legal s op = true -> exists s' m', hold_step op s = Some s' /\ hold_ok s' m'.
Proof. intros. destruct op; [by apply (hold_op_ok s m)|by apply (fire_ok s m)]. Qed.

Lemma hold_run_ok ops s m : hold_ok s m -> hold_legal_run ops s = true -> exists s' m', hold_run ops s = Some s' /\ hold_ok s' m'.
Proof.
  revert s m. induction ops as [|op ops IH]; intros s m Hs; cbn [hold_legal_run hold_run]; [intros _; by exists s, m|].
  intros [Hl Hl2]%andb_true_iff. destruct (hold_step_ok op s m Hs Hl) as (s1 & m1 & E & Hs1).
  rewrite E in Hl2 |- *. cbn [mbind option_bind]. by apply (IH s1 m1).
Qed.

(** What is lost stays lost. *)
Lemma step_lost op s s' k : hold_step op s = Some s' -> k ∈ hs_lost s -> k ∈ hs_lost s'.
Proof.
  intros E Hk. destruct op as [pkt ifidx p|i]; cbn [hold_step] in E.
  - apply bind_Some in E as ([hold d'] & _ & [= <-]). destruct hold; cbn [hs_lost]; [|done].
    destruct (_ && _); [apply elem_of_app; by left|done].
  - do 4 (apply bind_Some in E as (? & _ & E)). by injection E as <-.
Qed.
Lemma run_lost ops s s' k : hold_run ops s = Some s' -> k ∈ hs_lost s -> k ∈ hs_lost s'.
Proof.
  revert s. induction ops as [|op ops IH]; intros s; cbn [hold_run]; [by intros [= ->]|].
  intros (s1 & E1 & E)%bind_Some Hk. apply (IH s1 E). by apply (step_lost op s).
Qed.
Lemma hold_legal_app ops1 ops2 s s' :
  hold_run ops1 s = Some s' -> hold_legal_run (ops1 ++ ops2) s = true -> hold_legal_run ops1 s = true /\ hold_legal_run ops2 s' = true.
Proof.
  revert s. induction ops1 as [|op ops1 IH]; intros s; cbn [hold_run hold_legal_run app]; [by intros [= <-]|].
  destruct (hold_step op s) as [s1|]; [|done]. cbn [mbind option_bind].
  intros E [H1 H2]%andb_true_iff. destruct (IH s1 E H2) as [H3 H4]. by rewrite H1, H3.
Qed.

Lemma hold_run_app ops1 ops2 s s' : hold_run ops1 s = Some s' -> hold_run (ops1 ++ ops2) s = hold_run ops2 s'.
Proof.
  revert s. induction ops1 as [|op ops1 IH]; intros s; cbn [hold_run app]; [by intros [= <-]|].
  intros (s1 & E1 & E)%bind_Some. rewrite E1. cbn [mbind option_bind]. by apply IH.
Qed.

(** A call that finds the table full of other streams. *)
Lemma hold_full_call s m pkt ifidx p a key :
  hold_ok s m -> hold_legal s (Hold pkt ifidx p) = true -> ack_parse p = Some (Some a) -> ack_view (sk_mem p) a key ->
  (forall j e, aget (tcpack_info_tbl m) j = Some e -> pkt_in_q e <> 0) ->
  (forall j e q b, aget (tcpack_info_tbl m) j = Some e -> ~ waits (hs_d s) e q b key) ->
  let d1 := set_pkts (hs_d s) (<[pkt := p]> (pkts (hs_d s))) [] in
  dhd_tcpack_hold d1 pkt ifidx = Some (true, d1) /\ forall s', hold_step (Hold pkt ifidx p) s = Some s' -> pkt ∈ hs_lost s'.
Proof.
  intros Hs Hl Hpa Hv Hocc Hno d1. cbn [hold_legal] in Hl. rewrite !andb_true_iff in Hl.
  destruct Hl as [[Hnz%negb_true_iff%Z.eqb_neq Hnew%bool_decide_eq_true] _].
  destruct (ho_mode _ _ Hs) as (Hmode & Hratio & Hm). assert (pkts d1 !! pkt = Some p) as Hp by apply lookup_insert_eq.
  assert (dhd_tcpack_hold d1 pkt ifidx = Some (true, d1)) as Ec.
  { change (tcpack_sup_mode d1 = TCPACK_SUP_HOLD) in Hmode. change (2 <= tcpack_sup_ratio d1 < 256) in Hratio.
    change (tcpack_sup_module d1 = Some m) in Hm. unfold dhd_tcpack_hold. rewrite Hmode, Hm.
    cbn [Z.eqb TCPACK_SUP_HOLD Pos.eqb negb]. rewrite (proj2 (Z.eqb_neq _ _)) by lia. rewrite Hp. cbn [mbind option_bind]. rewrite Hpa. cbn [mbind option_bind].
    destruct (hold_find_ok d1 m (sk_mem p) a key (Z.to_nat TCPACK_INFO_MAXNUM) 0 TCPACK_INFO_MAXNUM Hv) as (r & fs & Ef & Hr); [done| |].
    { intros j Hj. destruct (aget_is_Some (tcpack_info_tbl m) j) as [e Ee];
        [rewrite (hd_len _ _ (ho_held _ _ Hs)); unfold TCPACK_INFO_MAXNUM in Hj; lia|]. exists e. split; [done|].
      destruct (hd_entry _ _ (ho_held _ _ Hs) j e Ee) as (_ & [[? _]|(_ & _ & q & b & k & W)]); [by left|right].
      exists q, b, k. by apply waits_in. }
    rewrite Ef. cbn [mbind option_bind]. destruct r as [i|].
    - destruct Hr as (_ & e & q & b & Ee & W). destruct (Hno i e q b Ee). by apply (waits_out s m pkt p Hs Hnew i).
    - destruct Hr as (_ & [->|(_ & e & Ee & E0)] & _); [done|]. by destruct (Hocc fs e Ee). }
  split; [done|]. intros s' E. cbn [hold_step] in E. fold d1 in E. rewrite Ec in E. cbn [mbind option_bind] in E. injection E as <-.
  cbn [hs_lost d1 set_pkts pkts tcpack_sup_module]. rewrite lookup_insert_eq, Hm, bool_decide_true by done.
  destruct (in_table (Some m) pkt) eqn:Et; [by apply (in_table_held m pkt Hnz), (fresh_held s m pkt Hs Hnew) in Et|].
  cbn [andb negb]. apply elem_of_app. right. by left.
Qed.

Lemma hold_off_call d mem :
  tcpack_sup_mode d = TCPACK_SUP_HOLD -> exists d', dhd_tcpack_suppress_set d TCPACK_SUP_OFF mem = Some (BCME_OK, d') /\
    tcpack_sup_module d' = None /\ ip_log d' = ip_log d ++ [ModFree] /\ pkts d' = pkts d.
Proof. intros Hmode. unfold dhd_tcpack_suppress_set. rewrite Hmode. eexists. by split_and!. Qed.

(** ** Properties *)

(** C25: Holding ACKs loses none, while the table has room.  From the switch to
    TCPACK_SUP_HOLD, any sequence of packets (with sane headers) offered to
    dhd_tcpack_hold and of armed timers that fire runs without touching memory
    out of bounds or a packet that is gone.  An entry of the table is free with
    its timer off, or holds the only ACK of its stream with its timer armed and
    fewer ACKs counted than the ratio.  The packets the driver still owns are
    those of the table and the ones lost to a full table; for each freed packet
    a packet of its stream is held or was passed on, reached from it in steps
    that are not older.  tcpack_info_cnt is the number of held packets plus the
    number of streams flushed since. *)
Theorem tcpack_hold d ops :
  hold_init d -> hold_legal_run ops (hold_start d) = true ->
  exists s m, hold_run ops (hold_start d) = Some s /\ tcpack_sup_module (hs_d s) = Some m /\
    length (tcpack_info_tbl m) = Z.to_nat TCPACK_INFO_MAXNUM /\
    (forall i e, aget (tcpack_info_tbl m) i = Some e ->
       pkt_in_q e = 0 /\ timer_on e = false \/
       timer_on e = true /\ 1 <= supp_cnt e < tcpack_sup_ratio (hs_d s) /\ exists p a key, waits (hs_d s) e p a key /\
         forall j e' p' a', aget (tcpack_info_tbl m) j = Some e' -> waits (hs_d s) e' p' a' key -> j = i) /\
    (forall k, is_Some (pkts (hs_d s) !! k) <-> is_held m k \/ k ∈ hs_lost s) /\
    (forall k, k ∈ hs_lost s -> ~ is_held m k) /\
    (forall f, f ∈ hs_freed s -> survived m (pkts (hs_d s)) (hs_out s) f) /\
    tcpack_info_cnt m = cnt (held_at (tcpack_info_tbl m)) 4 + hs_flush s.
Proof.
  intros Hi Hl. destruct (hold_init_ok d Hi) as (m0 & H0). destruct (hold_run_ok ops _ m0 H0 Hl) as (s & m & E & Hs).
  exists s, m. split; [done|]. split; [apply Hs|]. split; [apply Hs|]. split; [|by destruct Hs].
  intros i e Ee. destruct (hd_entry _ _ (ho_held _ _ Hs) i e Ee) as (_ & [?|(? & ? & p & a & key & W)]); [by left|right].
  split; [done|]. split; [done|]. exists p, a, key. split; [done|]. intros j e' p' a' Ee' W'.
  by apply (hd_keys _ _ (ho_held _ _ Hs) j i e' e p' p a' a key).
Qed.

(** C39: With four streams held, dhd_tcpack_hold drops the ACK of a fifth on the
    floor.  It answers that it holds the packet and changes nothing: the packet
    is not in the table, and no later packet or timer frees it or passes it on. *)
Theorem tcpack_hold_full d ops pkt ifidx p a key later s m :
  hold_init d -> hold_run ops (hold_start d) = Some s -> tcpack_sup_module (hs_d s) = Some m ->
  hold_legal_run (ops ++ Hold pkt ifidx p :: later) (hold_start d) = true ->
  ack_parse p = Some (Some a) -> ack_view (sk_mem p) a key ->
  (forall j e, aget (tcpack_info_tbl m) j = Some e -> pkt_in_q e <> 0) ->
  (forall j e q b, aget (tcpack_info_tbl m) j = Some e -> ~ waits (hs_d s) e q b key) ->
  let d1 := set_pkts (hs_d s) (<[pkt := p]> (pkts (hs_d s))) [] in
  dhd_tcpack_hold d1 pkt ifidx = Some (true, d1) /\
  exists s' m', hold_run (ops ++ Hold pkt ifidx p :: later) (hold_start d) = Some s' /\
    tcpack_sup_module (hs_d s') = Some m' /\ is_Some (pkts (hs_d s') !! pkt) /\ ~ is_held m' pkt.
Proof.
  intros Hi E Hm Hl Hpa Hv Hocc Hno d1. destruct (hold_init_ok d Hi) as (m0 & H0).
  destruct (hold_legal_app _ _ _ _ E Hl) as [Hl1 Hl2]. destruct (hold_run_ok ops _ m0 H0 Hl1) as (s1 & m1 & E1 & Hs).
  rewrite E in E1. injection E1 as <-. assert (m1 = m) as -> by (pose proof (ho_mode _ _ Hs) as (_ & _ & ?); congruence).
  cbn [hold_legal_run] in Hl2. apply andb_true_iff in Hl2 as [Hlg Hl2].
  destruct (hold_full_call s m pkt ifidx p a key Hs Hlg Hpa Hv Hocc Hno) as [Hc Hlost]. split; [done|].
  destruct (hold_step_ok _ s m Hs Hlg) as (s2 & m2 & E2 & Hs2). rewrite E2 in Hl2.
  destruct (hold_run_ok later s2 m2 Hs2 Hl2) as (s3 & m3 & E3 & Hs3). exists s3, m3.
  split; [rewrite (hold_run_app _ _ _ _ E); cbn [hold_run]; by rewrite E2|]. split; [apply Hs3|].
  pose proof (run_lost _ _ _ pkt E3 (Hlost s2 E2)) as Hk. split; [apply (ho_dom _ _ Hs3); by right|by apply (ho_lost _ _ Hs3)].
Qed.

(** Switching ACK suppression off while ACKs are held leaks them: the mode
    is set before dhd_tcpack_info_tbl_clean looks at it, so nothing is cleaned.
    The module is freed, the held packet is still allocated with no entry to
    reach it, and its timer is armed: when it fires, dhd_tcpack_send reads the
    freed module (no defined result). *)
Theorem tcpack_off_leaks d ops s m k mem :
  hold_init d -> hold_legal_run ops (hold_start d) = true -> hold_run ops (hold_start d) = Some s ->
  tcpack_sup_module (hs_d s) = Some m -> is_held m k ->
  exists d' i e, dhd_tcpack_suppress_set (hs_d s) TCPACK_SUP_OFF mem = Some (BCME_OK, d') /\
    tcpack_sup_module d' = None /\ ip_log d' = ip_log (hs_d s) ++ [ModFree] /\ is_Some (pkts d' !! k) /\
    aget (tcpack_info_tbl m) i = Some e /\ pkt_in_q e = k /\ timer_on e = true /\ dhd_tcpack_send d' i = None.
Proof.
  intros Hi Hl E Hm Hk. destruct (hold_init_ok d Hi) as (m0 & H0). destruct (hold_run_ok ops _ m0 H0 Hl) as (s1 & m1 & E1 & Hs).
  rewrite E in E1. injection E1 as <-. pose proof (ho_mode _ _ Hs) as (Hmode & _ & Hm1). assert (m1 = m) as -> by congruence.
  destruct (hold_off_call (hs_d s) mem Hmode) as (d' & Ed & Hd1 & Hd2 & Hd3).
  destruct Hk as (Hk0 & i & e & Ee & Eq). exists d', i, e. split; [done|]. split; [done|]. split; [done|].
  split; [rewrite Hd3; apply (ho_dom _ _ Hs); left; split; [done|by exists i, e]|]. split; [done|]. split; [done|].
  split; [|unfold dhd_tcpack_send; by rewrite Hd1].
  destruct (hd_entry _ _ (ho_held _ _ Hs) i e Ee) as (_ & [[? _]|[? _]]); [congruence|done].
Qed.
End hold.
