(* ===== verification/TcpAckSample.v ===== *)
(** * TCP acknowledgements on concrete packets

    The parameters of [TcpAck] as RFC 793 has them, and a run for each property
    of [TcpAckReplace], [TcpAckHold] and of the fragments. *)
From Stdlib Require Import ZArith Lia.
From stdpp Require Import base option numbers gmap list relations.
From S2P Require Import Prelude Bytes ProtState TcpAck TcpAckInv TcpAckReplace TcpAckHold.

(** Sequence numbers are compared by the sign of their 32-bit difference. *)
#[local] Program Instance rfc793 : TcpHdr := {|
  TCP_SRC_PORT_OFFSET := 0; TCP_DEST_PORT_OFFSET := 2; TCP_SEQ_NUM_OFFSET := 4; TCP_ACK_NUM_OFFSET := 8;
  TCP_HLEN_OFFSET := 12; TCP_FLAGS_OFFSET := 13; TCP_MIN_HEADER_LEN := 20; TCP_PORT_LEN := 2;
  TCP_FLAG_PSH := 8; TCP_FLAG_ACK := 0x10; TCP_HDRLEN b := Z.shiftr b 4;
  IS_TCPSEQ_GE a b := 0 <=? wraps 32 (a - b); IS_TCPSEQ_GT a b := 0 <? wraps 32 (a - b)
|}.
Next Obligation. lia. Qed.

(** An ACK of number [n] from port [port], with nothing behind its TCP header. *)
Definition ack_frame (port n : Z) : spkt :=
  {| sk_mem := replicate 12 1 ++ [0x08; 0] ++
       [0x45; 0; 0; 40; 0; 0; 0x40; 0; 64; 6; 0; 0; 10; 0; 0; 1; 10; 0; 0; 2] ++
       [0; port; 0; 80; 0; 0; 0; 0; 0; 0; Z.shiftr n 8; Z.land n 255; 0x50; 0x10; 1; 0; 0; 0; 0; 0];
     sk_len := 54 |}.

Definition pub_off : tcpack_pub :=
  {| tcpack_sup_mode := TCPACK_SUP_OFF; tcpack_sup_module := None; tcpack_sup_ratio := 0; tcpack_sup_delay := 0; pkts := ∅; ip_log := [] |}.
Definition switched (mode : Z) : tcpack_pub :=
  match dhd_tcpack_suppress_set pub_off mode true with Some (_, d) => d | None => pub_off end.

Lemma rep_sample_init : rep_init (switched TCPACK_SUP_REPLACE).
Proof. by exists pub_off. Qed.
Lemma hold_sample_init : hold_init (switched TCPACK_SUP_HOLD).
Proof. by exists pub_off. Qed.

(** The second ACK of port 1 replaces the first one, which is sent. *)
Definition rep_sample : list rep_op :=
  [Submit 1 (ack_frame 1 1000); Submit 2 (ack_frame 2 700); Submit 3 (ack_frame 1 2000); Xmit 1].
Lemma tcpack_replace_witness :
  exists s m, rep_run rep_sample (rep_start (switched TCPACK_SUP_REPLACE)) = Some s /\ tcpack_sup_module (rs_d s) = Some m /\
    0 <= tcpack_info_cnt m <= 4 /\ ip_log (rs_d s) = [AckFree 3 false] /\
    rs_out s = [(ack_frame 1 1000, ack_frame 1 2000)] /\ stands (rs_freed s) (ack_frame 1 1000) (ack_frame 1 2000).
Proof.
  destruct (tcpack_replace (switched TCPACK_SUP_REPLACE) rep_sample) as (s & m & E & Hm & Hc & _ & _ & Hout & _ & Hlog);
    [apply rep_sample_init|vm_compute; reflexivity|].
  assert ((fun s => (rs_freed s, rs_out s)) <$> rep_run rep_sample (rep_start (switched TCPACK_SUP_REPLACE)) =
    Some ([(3, ack_frame 1 2000)], [(ack_frame 1 1000, ack_frame 1 2000)])) as Ef by (vm_compute; reflexivity).
  rewrite E in Ef. cbn in Ef. injection Ef as Ef Eo. exists s, m. split; [exact E|]. split; [exact Hm|]. split; [exact Hc|].
  split; [rewrite Hlog, Ef; reflexivity|]. split; [exact Eo|]. apply Hout. rewrite Eo. by left.
Defined.

(** Port 1 reaches the ratio, port 2 is sent by its timer. *)
Definition hold_sample : list hold_op :=
  [Hold 1 0 (ack_frame 1 1000); Hold 2 0 (ack_frame 2 700); Hold 3 0 (ack_frame 1 2000); Hold 4 0 (ack_frame 1 3000); Fire 1].
Lemma tcpack_hold_witness :
  exists s m, hold_run hold_sample (hold_start (switched TCPACK_SUP_HOLD)) = Some s /\
    hs_out s = [ack_frame 1 3000; ack_frame 2 700] /\ survived m (pkts (hs_d s)) (hs_out s) (ack_frame 1 1000) /\
    tcpack_info_cnt m = cnt (held_at (tcpack_info_tbl m)) 4 + 1.
Proof.
  destruct (tcpack_hold (switched TCPACK_SUP_HOLD) hold_sample) as (s & m & E & Hm & _ & _ & _ & _ & Hfreed & Hc);
    [apply hold_sample_init|vm_compute; reflexivity|].
  assert ((fun s => (hs_freed s, hs_out s, hs_flush s)) <$> hold_run hold_sample (hold_start (switched TCPACK_SUP_HOLD)) =
    Some ([ack_frame 1 1000; ack_frame 1 2000], [ack_frame 1 3000; ack_frame 2 700], 1)) as Ef by (vm_compute; reflexivity).
  rewrite E in Ef. cbn in Ef. injection Ef as Ef Eo Efl. exists s, m. split; [exact E|]. split; [exact Eo|].
  split; [apply Hfreed; rewrite Ef; by left|rewrite Hc, Efl; reflexivity].
Defined.

(** Ports 1 to 4 fill the table. *)
Definition full_sample : list hold_op := map (fun i => Hold i 0 (ack_frame i 1000)) [1; 2; 3; 4].
Definition full_state : option hold_sys := hold_run full_sample (hold_start (switched TCPACK_SUP_HOLD)).

(** A run and its table, with what is checked of it. *)
Lemma full_runs : exists s m, full_state = Some s /\ tcpack_sup_module (hs_d s) = Some m /\
  (forall j e, aget (tcpack_info_tbl m) j = Some e -> pkt_in_q e <> 0 /\ exists p, pkts (hs_d s) !! pkt_in_q e = Some p /\
     ld_bytes (sk_mem p) 34 4 <> ld_bytes (sk_mem (ack_frame 5 1000)) 34 4 /\ IPV4_HLEN (sk_mem p) ETHER_HDR_LEN = Some 20).
Proof.
  assert (forallb (fun k => match full_state with
    | Some s => match tcpack_sup_module (hs_d s) with
        | Some m => match aget (tcpack_info_tbl m) k with
            | Some e => negb (pkt_in_q e =? 0) && match pkts (hs_d s) !! pkt_in_q e with
                | Some p => negb (bool_decide (ld_bytes (sk_mem p) 34 4 = ld_bytes (sk_mem (ack_frame 5 1000)) 34 4)) &&
                    bool_decide (IPV4_HLEN (sk_mem p) ETHER_HDR_LEN = Some 20)
                | None => false end
            | None => false end && (length (tcpack_info_tbl m) =? 4)%nat
        | None => false end
    | None => false end) [0; 1; 2; 3] = true) as Hb by (vm_compute; reflexivity).
  destruct full_state as [s|]; [|done]. destruct (tcpack_sup_module (hs_d s)) as [m|] eqn:Em; [|done]. exists s, m. split; [done|].
  split; [done|]. intros j e Ee. rewrite forallb_forall in Hb.
  assert (0 <= j < Z.of_nat (length (tcpack_info_tbl m))) as Hj by (by apply (aget_lt _ _ e)).
  assert (length (tcpack_info_tbl m) = 4%nat) as Hlen.
  { specialize (Hb 0 ltac:(by left)). apply andb_true_iff in Hb as [_ Hb]. by apply Nat.eqb_eq. }
  assert (In j [0; 1; 2; 3]) as Hin by (cbn; lia). specialize (Hb j Hin). rewrite Ee, !andb_true_iff in Hb.
  destruct Hb as [[H1%negb_true_iff%Z.eqb_neq H2] _]. split; [done|]. destruct (pkts (hs_d s) !! pkt_in_q e) as [p|]; [|done].
  exists p. split; [done|]. rewrite !andb_true_iff in H2. destruct H2 as [H2%negb_true_iff%bool_decide_eq_false H3%bool_decide_eq_true]. done.
Qed.

(** The ACK of port 5 is lost, though a timer fires and another ACK comes. *)
Lemma tcpack_hold_full_witness :
  exists s s' m', full_state = Some s /\
    hold_run (full_sample ++ [Hold 5 0 (ack_frame 5 1000); Fire 0; Hold 6 0 (ack_frame 5 1001)])
      (hold_start (switched TCPACK_SUP_HOLD)) = Some s' /\
    tcpack_sup_module (hs_d s') = Some m' /\ is_Some (pkts (hs_d s') !! 5) /\ ~ is_held m' 5.
Proof.
  destruct full_runs as (s & m & E & Hm & Hall).
  destruct (ack_parse (ack_frame 5 1000)) as [[a|]|] eqn:Ea; [|vm_compute in Ea; discriminate Ea..].
  destruct (sane_view (ack_frame 5 1000) a) as [key Hv]; [vm_compute; reflexivity|exact Ea|].
  destruct (tcpack_hold_full (switched TCPACK_SUP_HOLD) full_sample 5 0 (ack_frame 5 1000) a key
    [Fire 0; Hold 6 0 (ack_frame 5 1001)] s m) as (_ & s' & m' & E' & Hm' & Hk & Hn).
  - apply hold_sample_init.
  - exact E.
  - exact Hm.
  - vm_compute; reflexivity.
  - exact Ea.
  - exact Hv.
  - intros j e Ee. apply (Hall j e Ee).
  - intros j e q b Ee W. destruct (Hall j e Ee) as (_ & p & Hp & Hne & Hh). pose proof (wa_live _ _ _ _ _ W) as L.
    rewrite Hp in L. injection L as <-. apply Hne. pose proof (av_ports _ _ _ (wa_view _ _ _ _ _ W)) as Hp1.
    pose proof (av_iphl _ _ _ (wa_view _ _ _ _ _ W)) as Hi. rewrite Hh in Hi. injection Hi as Hi.
    pose proof (av_ports _ _ _ Hv) as Hp2. pose proof (av_iphl _ _ _ Hv) as Hi2. change (Some 20 = Some (a_ip_hdr_len a)) in Hi2. injection Hi2 as Hi2.
    unfold ack_tcp in Hp1, Hp2. rewrite <- Hi in Hp1. rewrite <- Hi2 in Hp2.
    exact (eq_trans Hp1 (eq_sym Hp2)).
  - exists s, s', m'. split; [exact E|]. split; [exact E'|]. split; [exact Hm'|]. split; [exact Hk|exact Hn].
Defined.

(** The ACK of port 1 is held when suppression is switched off. *)
Lemma tcpack_off_leaks_witness :
  exists s d' i, hold_run [Hold 1 0 (ack_frame 1 1000)] (hold_start (switched TCPACK_SUP_HOLD)) = Some s /\
    dhd_tcpack_suppress_set (hs_d s) TCPACK_SUP_OFF true = Some (BCME_OK, d') /\ is_Some (pkts d' !! 1) /\ dhd_tcpack_send d' i = None.
Proof.
  destruct (hold_run [Hold 1 0 (ack_frame 1 1000)] (hold_start (switched TCPACK_SUP_HOLD))) as [s|] eqn:E;
    [|vm_compute in E; discriminate E].
  assert (match hold_run [Hold 1 0 (ack_frame 1 1000)] (hold_start (switched TCPACK_SUP_HOLD)) with
    | Some s => match tcpack_sup_module (hs_d s) with
        | Some m => match aget (tcpack_info_tbl m) 0 with Some e => pkt_in_q e =? 1 | None => false end
        | None => false end
    | None => false end = true) as Hb by (vm_compute; reflexivity).
  rewrite E in Hb. destruct (tcpack_sup_module (hs_d s)) as [m|] eqn:Em; [|discriminate Hb].
  destruct (aget (tcpack_info_tbl m) 0) as [e|] eqn:Ee; [|discriminate Hb]. apply Z.eqb_eq in Hb.
  destruct (tcpack_off_leaks (switched TCPACK_SUP_HOLD) [Hold 1 0 (ack_frame 1 1000)] s m 1 true) as (d' & i & _ & Hd & _ & _ & Hk & _ & _ & _ & Hs).
  - apply hold_sample_init.
  - vm_compute; reflexivity.
  - exact E.
  - exact Em.
  - split; [lia|]. exists 0, e. split; [exact Ee|exact Hb].
  - exists s, d', i. split; [reflexivity|]. split; [exact Hd|]. split; [exact Hk|exact Hs].
Defined.

(** The first fragment of a packet of 20 bytes of data, behind a VLAN tag. *)
Definition frag_frame : list Z :=
  replicate 12 1 ++ [0x81; 0; 0; 7] ++ [0x08; 0] ++ [0x45; 0; 0; 40; 0; 0; 0x20; 0; 64; 17; 0; 0; 10; 0; 0; 1; 10; 0; 0; 2] ++ replicate 20 0.
Lemma pkt_frag_safe_witness : pkt_frag_info frag_frame = Some DHD_PKT_FRAG_FIRST /\ exists fr, frag_spec fr DHD_PKT_FRAG_FIRST.
Proof.
  destruct (pkt_frag_safe frag_frame) as (r & E & Hr); [vm_compute; reflexivity|].
  assert (pkt_frag_info frag_frame = Some DHD_PKT_FRAG_FIRST) as E1 by (vm_compute; reflexivity).
  split; [exact E1|]. rewrite E1 in E. injection E as <-. destruct Hr as [Hr|(pt & fr & _ & _ & _ & _ & _ & Hs)]; [discriminate Hr|].
  exists fr. exact Hs.
Defined.
